(* ===== verification/_CoqProject ===== *)
-Q . S2P
Prelude.v
Base64.v
Prefix.v
Bitmap.v
PortMap.v
Ip4Rules.v
Ip6Rules.v
BitmapManager.v
Conntrack.v
FirewallMatch.v
Firewall.v
NetCaps.v
NetData.v
NetSupplier.v
Network.v
NetActivate.v
NetConn.v
ClatUtils.v
Clat.v
Iptables.v
BandwidthManager.v
FirewallManager.v
PolicyNetsys.v
NativeNetsys.v
PolicyFile.v
Parcel.v
ConnParcel.v
HttpProxyText.v
Ipc.v
PolicyParcel.v
CTime.v
NumText.v
PolicyRule.v
PolicyTraffic.v
PolicyFirewall.v
PolicySystem.v
BpfMap.v
NetsysBpf.v
BpfStats.v
AccessMaps.v
NetsysRun.v
AccessStore.v
AccessConfig.v
AccessService.v
AccessClone.v
AccessRun.v
PolicyStub.v
PolicyProxy.v
PolicyService.v
LruCache.v
DelayedQueue.v
DnsResolvConfig.v
StdAlgo.v
DnsParamCache.v
DnsResolvListen.v
Netlink.v
RouteManager.v
ConnManager.v
NetRules.v
