(* ===== verification/Prelude.v ===== *)
(** * Verification of the network manager (communication_netmanager_base)

    The program is the network manager of the system: a user-space service that
    decides which network serves which client, a native service that configures
    the kernel, and BPF programs that filter packets.  This library models the
    parts of it that decide and compute, from the C++ and BPF sources under
    src/, and proves the properties that make them correct.

    ** The parts and how they interact

    _The firewall_ (services/netmanagernative/bpf).  Rules with addresses, ports,
    protocols and uids arrive in user space ([NetsysBpfNetFirewall]); the rule
    compiler ([BitmapManager]) turns the list into one lookup table per packet
    field, in which each key has the bitmap of the rules it satisfies; the BPF
    program looks the fields of a packet up, intersects the bitmaps and decides,
    and a connection table lets packets of known connections pass.
    - [Bitmap] (bitmap_manager.h, class Bitmap): the fixed array of words.
    - [PortMap] (SegmentBitmapMap, GetPortRangeAndMask, the port maps): port
      ranges cut into disjoint segments, then into trie prefixes.
    - [Ip4Rules], [Ip6Rules] (ip_param_parser.h, Ip4RuleMap, Ip6RuleMap): address
      ranges cut into CIDR blocks and merged into a longest-prefix-match table;
      [Prefix] holds the theory of prefixes they share.
    - [BitmapManager] (bitmap_manager.cpp): the compiler.
    - [Conntrack] (netfirewall_ct.h): the connection table as a step relation, in
      which the kernel may drop any entry (the table is an LRU hash of 5000 entries,
      whose order of eviction is not modelled).
    - [FirewallMatch] (netfirewall_utils.h, netfirewall_bitmap.h,
      netfirewall_match.h, netfirewall.h): the packet filter on packet bytes.
    - [Firewall] (bpf_netfirewall.cpp): paging, installation in the kernel, domain
      names.

    _The connection manager_ (services/netconnmanager).  Bearers register as
    suppliers, clients register requests; the service keeps for each request the
    best supplier, and one default network.  A supplier drives its [Network],
    which keeps interface, addresses, routes and resolver in step with the link
    information by calls to the native service.
    - [NetCaps] (net_caps.cpp): capability sets as bit sets.
    - [NetData]: records and result codes of interfaces/innerkits, and the
      interfaces [Outside], [INetwork] and [NetworkLaws] between the components.
    - [NetSupplier] (net_supplier.cpp): the whole supplier.
    - [Network] (network.cpp): the network object, the instance of [INetwork] that
      discharges [NetworkLaws].
    - [NetActivate] (net_activate.cpp): requests and their matching.
    - [NetConn] (net_conn_service.cpp): registration, the search for the best
      network, the default network, notifications and client bookkeeping.

    _464XLAT_ (services/netmanagernative/src/netsys).  On an IPv6-only network a
    daemon translates the packets of a tunnel to IPv6 and back.
    - [ClatUtils] (clat_utils.cpp): checksum arithmetic, the addresses of the tunnel.
    - [Clat] (clatd_packet_converter.cpp, clatd.cpp): the packet converter.

    _The network policies_ (services/netpolicymanager and the managers of
    services/netmanagernative it reaches through the native service).  Users set
    policies per application; with the modes of the device they give a rule per
    application, which the policy service stores, and enforces through lists and
    chains of the native service, which are rules of the packet filter.
    - [Iptables] (iptables_wrapper.cpp, iptables_type.h): the commands, the tables
      as a class with the documented behaviour of iptables as laws, packets and
      their walk through the chains.
    - [BandwidthManager] (bandwidth_manager.cpp): metered interfaces, denied and
      allowed users, the data saver.
    - [FirewallManager] (firewall_manager.cpp): the idle and power save chains.
    - [PolicyNetsys] (netsys_policy_wrapper.cpp): the interface of the policy service
      to the native service, with its laws in terms of an abstract state.
    - [NativeNetsys] (net_manager_native.cpp): the instance that discharges them.
    - [PolicyFile] (net_policy_file.cpp): the stored object.
    - [PolicyRule] (net_policy_rule.cpp): the rules of the applications.
    - [PolicyFirewall] (net_policy_firewall.cpp, firewall_rule.cpp): the trust lists
      and the firewalls of the modes of the device.
    - [PolicySystem] (net_policy_core.cpp): rules and firewalls together, with the
      queue of the events they send each other.
    - [PolicyTraffic] (net_policy_traffic.cpp, net_quota_policy.cpp): the quotas of the
      networks, with [CTime] (the calendar of the C library) and [NumText] (numbers as
      text) for their periods and their storage.
    - [PolicyService] (net_policy_service.cpp, net_policy_callback.cpp): the service
      that passes the calls on to its parts, an instance of the interface its stub
      serves.

    _The access policies_ (services/netpolicymanager, and the programs of
    services/netmanagernative/bpf).  Users deny applications Wi-Fi or the cellular
    network.  The policy service keeps that in two databases and, through the native
    service, in a map of the kernel that programs look up for every packet and
    socket call; the same programs count the traffic and watch its limits.
    - [BpfMap] (bpf_mapper.h): bounded hash maps of the kernel.
    - [NetsysBpf] (netsys.c, bpf_def.h): the programs.
    - [BpfStats] (bpf_stats.cpp): what the native service reads from the counters.
    - [AccessMaps] (conn_manager.cpp, netsys_native_service.cpp): what it writes.
    - [NetsysRun]: any interleaving of programs and services.
    - [AccessStore] (net_access_policy_database.cpp): the databases; the database
      library is the class [Rdb] with its laws [RdbLaws].
    - [AccessConfig] (net_access_policy_config.cpp): applications whose switches are
      fixed.
    - [AccessService] (net_policy_service.cpp, net_policy_listener.cpp): the operations
      on databases and map.
    - [AccessClone] (net_policy_db_clone.cpp): backup and restore as text.
    - [AccessRun]: everything that changes the access policies in one sequence of
      events, and the table that specifies it.

    _Calls between processes_ (frameworks/native/netpolicyclient, and the parcels of
    interfaces/innerkits).  A proxy writes the arguments into a parcel, a stub checks
    the caller, reads them and calls the service.
    - [Parcel], [Ipc]: parcels as a class with laws, writers and readers, handlers
      that read, call and answer, and the rules to reason about them.
    - [ConnParcel], [PolicyParcel] (net_link_info.cpp, inet_addr.cpp, route.cpp,
      net_quota_policy.cpp, net_access_policy.cpp, ...): the records on the wire;
      [HttpProxyText] (http_proxy.cpp): a proxy as text.
    - [PolicyStub], [PolicyProxy] (net_policy_service_stub.cpp,
      net_policy_service_proxy.cpp): the two sides, with the class
      [INetPolicyService] between stub and service.

    _The resolver_ (services/netmanagernative/src/netsys/dnsresolv).  The native
    service keeps per network the DNS servers and the answers its clients found;
    threads drop the answers when their time is over; an application on a VPN uses
    the servers of the VPN.
    - [LruCache], [DelayedQueue] (utils/common_utils/include): the cache of recently
      used keys and the timer wheel.
    - [DnsResolvConfig] (dns_resolv_config.cpp): the configuration of one network, its
      answers with their expiry tasks, the hosts and users without IPv6.
    - [StdAlgo]: sorting, merging and set difference of the C++ library.
    - [DnsParamCache] (dns_param_cache.cpp, uid_range.h): all networks, the ranges of
      the VPNs, the DNS rules of the firewall.
    - [DnsResolvListen] (dns_resolv_listen.cpp): the commands of the clients, and the
      executions of the resolver as a whole.

    _The networks of the kernel_ (services/netmanagernative).  The native service
    keeps the networks that the connection manager creates, with their interfaces,
    and turns them into policy rules and routes, which it sends as netlink messages.
    - [Netlink] (netlink_msg.cpp, netlink_socket.cpp): the messages as bytes, sending,
      dumps; the kernel is the class [Kernel].
    - [RouteManager] (route_manager.cpp, fwmark.h): the rules and the routes, and the
      class [FibLaws] of what the kernel does with the messages of rules.
    - [ConnManager] (conn_manager.cpp, physical_network.cpp, virtual_network.cpp,
      local_network.cpp): networks, interfaces, the default network.
    - [NetRules]: which rules the networks call for, and the executions.

    _Utilities_: [Base64] (base64_utils.cpp).

    ** How the sources are translated

    A [w]-bit integer is a [Z] with the wrap-around of the source written out
    ([wrap], [swrap]); bytes are integers below 256; maps with unique keys are
    [gmap]s, or association lists where the order is used.  State is passed
    explicitly; calls that leave the modelled code are operations of a class over
    an abstract world [W] that they may change, so that theorems hold whatever
    happens there.  Null dereferences and reads outside a buffer are [None].
    Objects shared by pointers ([NetConn]) live in stores indexed by identifiers.
    The targets are little-endian, which [htonl] and [htons] reflect.  A time zone
    is a fixed offset.  Libraries that are not part of the repository are classes
    with their documented behaviour as laws (iptables, parcels, the database, policy rules), each with an
    instance that shows the laws can hold, or arguments (clock, bundle manager, transport).

    Loops over counters use [run], whose bound is a binary number and whose result
    carries whether the loop ended; [run_total] shows that a bound above a
    decreasing measure is never reached.  The bounds are: [2^32 + 1] for a walk
    over IPv4 blocks (one block per iteration at most), [129] for the bits of an
    IPv6 address, [2^32] for the search of a tunnel address (one pass over the
    subnet), three for the folding of a 32-bit checksum, two for the nesting of
    packets in ICMP errors, the number of identifiers for [GenerateNetId], and the
    length of the request list for [DecreaseNetActivates], where the theorem is
    that no bound is enough; the nesting of chains in a filter is the [d] of [walk],
    and the theorems hold for every [d] above the depth of the chains.  Where a
    loop ends, that is part of the theorem.

    ** What the theorems show

    - Firewall, from the rules to the verdict: the bitmap found for a packet has
      exactly the bits of the rules that match it ([firewall_classifies]), because
      the tables compiled for IPv4 addresses, ports, protocols, users and applications
      are exact ([BuildBitmapMap_correct]; those of IPv6 addresses are not, see the
      defects), which rests on the
      port segments ([AddMap_correct], [OrInsertPortBitmap_correct]), the CIDR cuts
      ([GetIp4AndMask_correct], [GetIp6AndMask_correct], [GetPortRangeAndMask_correct])
      and the prefix tables ([ip4_OrInsert_correct]).  The verdicts of the hooks on IPv4
      packets that start a connection follow ([ingress_verdict], [egress_verdict]); the tables installed in the kernel are
      those of the rule list ([SetFirewallIpRules_installs], [SetFirewallRules_pages]);
      the connection table only lets live connections pass ([ct_reachable_alive]).
    - Connection manager: a round over the requests leaves each with the best
      eligible supplier and the default network with the best default supplier
      ([FindBestNetworkForRequest_optimal], [FindBestNetworkForAllRequest_settles]), and
      suppliers list exactly the requests they serve ([..._agrees]); the two copies
      of a supplier's capabilities agree ([supplier_capabilities_mirrored]); requests
      and releases reach the bearer in alternation ([supplier_callback_protocol]);
      matching decides the specified relation ([MatchRequestAndNetwork_correct]);
      after a link update the routes asked of the native service are those of the
      new information, but for the IPv6 routes that a restart of IPv6 drops
      ([UpdateNetLinkInfo_routes]).
    - 464XLAT: translating any IPv4 packet is memory-safe ([v4_translation_safe]) and
      preserves the validity of checksums ([v4_to_v6_checksum]); there and back a packet
      keeps its segment byte for byte ([translation_roundtrip]); the generated address
      makes the translation checksum-neutral ([MakeChecksumNeutral_neutral]).
    - Network policies: what the managers were told is what the packet filter does
      ([metered_verdict], [firewall_verdict]); the table of the rules is a decision
      procedure ([trans_decision]); the lists of the native service follow the rules,
      and its data saver every change of the background policy, though not a start
      with a stored "reject" ([policy_agrees]); the rules follow the modes
      ([mode_event_recomputes]) and the policies survive a restart, those of users
      above 2 ([policies_survive_restart]); the trust lists are the stored ones
      ([trust_lists_agree]).  Put together, until power save mode is left, the packets
      of an application are dropped by the firewalls of the modes and the chain of
      denied applications as it was last told, and rejected on metered interfaces as
      the service says, while the data saver is in step with the background policy
      ([system_enforced]); the queue of events always drains ([events_drain]).  The quotas of the networks are
      those of the native service and hold for the packets ([quotas_enforced]), survive
      a restart ([quotas_survive_restart]) and count the month they are meant to
      ([month_quota_period]).
    - Access policies: once set, a policy decides about every packet and call
      of its application, whatever else happens in the kernel
      ([access_policy_enforced]); the two databases are one table that damage to the
      main one cannot harm ([database_refines]), and fail openly without it
      ([database_errors]).  Over any sequence of calls, packages, configuration, resets,
      restores, starts and damage the databases, the map of the kernel, the packets and the
      answers follow one table ([access_policies_durable]), and what clients ask for
      through their proxies, changes of the configuration included, is what happens to
      the packets ([client_policy_enforced]); a backup read by another device gives
      every application the policy of its last line ([clone_roundtrip]).  The counters are the
      sums over the packets that passed ([traffic_counted]), and the passing of a limit
      is put at most once into the ring buffer, and is put there if it has room
      ([limit_reported_once]).
    - Calls between processes: calling through proxy, parcels and stub is calling the
      service ([policy_ipc_transparent]), and a process without the right changes
      nothing ([only_allowed_callers]); the records of the wire are read as they were
      written ([NetLinkInfo_roundtrip], [FromString_ToString]).
    - Resolver: the cache is an association list ordered by use ([LRUCache_refines])
      that forgets what was used longest ago ([recently_used_kept]); a delayed
      task runs exactly when its delay has passed ([delay_exact]); hence no answer that
      a client stored is served after its time to live (of ten minutes at least), in
      any interleaving of clients, managers and expiry threads ([no_stale_answer];
      those that the manager stores get no expiry task, [set_dns_cache_stays]), and what is kept is bounded
      ([resolver_bounded]).  A change of servers drops what was learnt from the old
      ones ([SetResolverConfig_correct]); applications on VPNs get the configuration of
      the highest priority ([vpn_highest_priority]), and the ranges of a VPN can be
      added and removed ([uid_range_roundtrip]).
    - Networks of the kernel: an interface is in one network ([interface_unique]); the
      kernel reads from a message the rule that was meant ([SendRuleToKernel_spec]),
      and over any sequence of the calls that [NetRules.allowed] lists (physical
      networks under unused numbers, default networks that exist, no VPN networks, no
      reinitialization) its rules are those that the networks call for and those
      that networks destroyed with their interfaces left ([rules_track_networks]), so
      that but for the latter packets are led only to the network their socket chose,
      or to the default one ([packets_stay_in_network]).
    - Defects: theorems that exhibit a wrong result on a concrete input or state
      ([GetIp6AndMask_loses_end], [dual_stack_addresses_lost], [first_fragment_corrupted],
      [local_route_leaks], [DecreaseNetActivates_diverges], [request_count_leaks],
      [ClearAllRules_disables], [deny_again_allows], [DelUidRange_takes_other],
      [other_user_loses_dns], [answers_expire_early], [set_dns_cache_stays],
      [quotas_written_in_part], [warning_time_lost], [wifi_quotas_collide],
      [year_period_is_today], [corrupt_backup_loses_rows], [stale_backup_row],
      [late_file_hides_additions], [restore_without_bundles_succeeds],
      [restored_two_is_denied], [restored_core_undoes_policy], [same_name_last_wins],
      [full_ring_loses_report],
      [ClearRouteInfo_clears_none], [AddRoute_never_repeats], [destroy_leaves_rules],
      [default_before_create], [permission_unchanged], [bad_address_accepted],
      [enterprise_rule_garbage]).

    ** Not modelled

    The kernel behind iptables, ioctls and BPF maps; the HTTP, DNS and
    ICMP probes, the PAC engine and the proxies; the framing of the messages of the
    resolver clients and its diagnosis; the storage and the queries of the
    statistics; the proxies and stubs of the other services, which copy arguments to
    and from parcels like those of the policy service; the controller that forwards
    calls to the native service; the language bindings; the managers of the native service
    that turn a call into an ioctl or a command (interfaces, tunnels, sharing, the client
    side of distributed networks), and the parts built only with [SUPPORT_SYSVPN].  Locks are not modelled: each
    operation runs as a whole, as it does under the mutex or on the event handler
    that serialises it.  Logs and telemetry have no effect on the state and are left
    out.

    ** This file

    Shared vocabulary: machine integers, byte order, the automation and notation
    for them, exhaustive checks, sorting and bounded loops. *)

From stdpp Require Export base numbers list option gmap sets strings.
From Stdlib Require Export ZArith Lia.

#[global] Open Scope Z_scope.

(** ** Machine integers

    A [w]-bit unsigned integer of the source is a [Z] in [[0, 2^w)]; every
    operation of the source that can leave that range is followed by the
    wrap-around written out here. *)

Definition wrap (w z : Z) : Z := z mod 2 ^ w.

Abbreviation u8 := (wrap 8).
Abbreviation u16 := (wrap 16).
Abbreviation u32 := (wrap 32).
Abbreviation u64 := (wrap 64).

Definition in_width (w z : Z) : Prop := 0 <= z < 2 ^ w.

(** Two's complement reading of a [w]-bit pattern. *)
Definition swrap (w z : Z) : Z :=
  let r := z mod 2 ^ w in if r <? 2 ^ (w - 1) then r else r - 2 ^ w.

Abbreviation s32 := (swrap 32).
Abbreviation s64 := (swrap 64).

Lemma wrap_small w z : in_width w z -> wrap w z = z.
Proof. intros H. apply Z.mod_small, H. Qed.

Lemma wrap_range w z : 0 <= w -> in_width w (wrap w z).
Proof. intros H. apply Z.mod_pos_bound, Z.pow_pos_nonneg; lia. Qed.

Lemma wrap_idemp w z : 0 <= w -> wrap w (wrap w z) = wrap w z.
Proof. intros H. by apply wrap_small, wrap_range. Qed.

Lemma swrap_small w z : 0 < w -> - 2 ^ (w - 1) <= z < 2 ^ (w - 1) -> swrap w z = z.
Proof.
  intros Hw Hz. unfold swrap.
  assert (Hp : 2 ^ w = 2 * 2 ^ (w - 1)).
  { replace w with (Z.succ (w - 1)) at 1 by lia. by rewrite Z.pow_succ_r by lia. }
  destruct (Z_lt_le_dec z 0) as [Hneg|Hpos].
  - assert (Hm : z mod 2 ^ w = z + 2 ^ w).
    { symmetry. apply (Z.mod_unique _ _ (-1)); lia. }
    rewrite Hm. destruct (Z.ltb_spec (z + 2 ^ w) (2 ^ (w - 1))); lia.
  - rewrite Z.mod_small by lia. destruct (Z.ltb_spec z (2 ^ (w - 1))); lia.
Qed.

(** A number that was read as a signed one comes back. *)
Lemma u32_s32 z : in_width 32 z -> u32 (s32 z) = z.
Proof.
  unfold in_width, wrap, swrap. intros Hz. rewrite (Z.mod_small z) by done. change (2 ^ (32 - 1)) with (2 ^ 31).
  destruct (Z.ltb_spec z (2 ^ 31)); [by apply Z.mod_small|]. symmetry. apply (Z.mod_unique _ _ (-1)); lia.
Qed.

Lemma testbit_high w z i : in_width w z -> 0 <= w <= i -> Z.testbit z i = false.
Proof.
  intros [H0 H1] Hi. rewrite <- (Z.mod_small z (2 ^ w)) by lia.
  by apply Z.mod_pow2_bits_high.
Qed.

Lemma testbit_wrap w z i : 0 <= w -> Z.testbit (wrap w z) i = bool_decide (i < w) && Z.testbit z i.
Proof.
  intros Hw. unfold wrap. destruct (Z_lt_le_dec i w) as [H|H].
  - rewrite bool_decide_eq_true_2 by done. destruct (Z_lt_le_dec i 0).
    + by rewrite !Z.testbit_neg_r.
    + by rewrite Z.mod_pow2_bits_low.
  - rewrite bool_decide_eq_false_2 by lia. by rewrite Z.mod_pow2_bits_high by lia.
Qed.

Lemma in_width_bits w z : 0 <= w -> 0 <= z -> (forall i, w <= i -> Z.testbit z i = false) -> in_width w z.
Proof.
  intros Hw Hz H. split; [done|].
  destruct (Z_lt_le_dec z (2 ^ w)) as [|Hge]; [done|exfalso].
  assert (0 < z) by (pose proof (Z.pow_pos_nonneg 2 w); lia).
  assert (Hl : w <= Z.log2 z) by (by apply Z.log2_le_pow2).
  specialize (H _ Hl). by rewrite Z.bit_log2 in H.
Qed.

Lemma lor_width w a b : 0 <= w -> in_width w a -> in_width w b -> in_width w (Z.lor a b).
Proof.
  intros Hw Ha Hb. apply in_width_bits; [done| |].
  - apply Z.lor_nonneg. split; [apply Ha|apply Hb].
  - intros i Hi. by rewrite Z.lor_spec, (testbit_high w a), (testbit_high w b) by lia || done.
Qed.

Lemma land_width w a b : 0 <= w -> in_width w a -> 0 <= b -> in_width w (Z.land a b).
Proof.
  intros Hw Ha Hb. apply in_width_bits; [done| |].
  - apply Z.land_nonneg. left; apply Ha.
  - intros i Hi. by rewrite Z.land_spec, (testbit_high w a) by lia || done.
Qed.

(** ** Byte order

    The targets are little-endian, so [htonl]/[htons] and their inverses
    reverse the bytes of a 32-bit or 16-bit word. *)

Definition htonl (x : Z) : Z :=
  (x mod 256) * 2 ^ 24 + (x / 2 ^ 8 mod 256) * 2 ^ 16
    + (x / 2 ^ 16 mod 256) * 2 ^ 8 + x / 2 ^ 24 mod 256.
Definition ntohl (x : Z) : Z := htonl x.

Definition htons (x : Z) : Z := (x mod 256) * 2 ^ 8 + x / 2 ^ 8 mod 256.
Definition ntohs (x : Z) : Z := htons x.

Ltac div_mod_lia := Z.div_mod_to_equations; lia.

Lemma htonl_width x : in_width 32 (htonl x).
Proof.
  unfold htonl, in_width.
  pose proof (Z.mod_pos_bound x 256). pose proof (Z.mod_pos_bound (x / 2 ^ 8) 256).
  pose proof (Z.mod_pos_bound (x / 2 ^ 16) 256). pose proof (Z.mod_pos_bound (x / 2 ^ 24) 256). lia.
Qed.

Lemma htons_width x : in_width 16 (htons x).
Proof.
  unfold htons, in_width.
  pose proof (Z.mod_pos_bound x 256). pose proof (Z.mod_pos_bound (x / 2 ^ 8) 256). lia.
Qed.

(** The base-256 digits of a 32-bit word. *)
Lemma bytes4 x : in_width 32 x -> exists a b c d,
  in_width 8 a /\ in_width 8 b /\ in_width 8 c /\ in_width 8 d /\
  x = a * 2 ^ 24 + b * 2 ^ 16 + c * 2 ^ 8 + d.
Proof.
  intros Hx.
  exists (x / 2 ^ 24), (x / 2 ^ 16 mod 256), (x / 2 ^ 8 mod 256), (x mod 256).
  unfold in_width in *. Z.div_mod_to_equations. repeat split; lia.
Qed.

Lemma htonl_bytes a b c d : in_width 8 a -> in_width 8 b -> in_width 8 c -> in_width 8 d ->
  htonl (a * 2 ^ 24 + b * 2 ^ 16 + c * 2 ^ 8 + d) = d * 2 ^ 24 + c * 2 ^ 16 + b * 2 ^ 8 + a.
Proof.
  unfold in_width. intros Ha Hb Hc Hd. unfold htonl.
  set (x := a * 2 ^ 24 + b * 2 ^ 16 + c * 2 ^ 8 + d).
  assert (E0 : x mod 256 = d).
  { symmetry. apply (Z.mod_unique _ _ (a * 2 ^ 16 + b * 2 ^ 8 + c)); unfold x; lia. }
  assert (E1 : x / 2 ^ 8 = a * 2 ^ 16 + b * 2 ^ 8 + c).
  { symmetry. apply (Z.div_unique _ _ _ d); unfold x; lia. }
  assert (E2 : x / 2 ^ 16 = a * 2 ^ 8 + b).
  { symmetry. apply (Z.div_unique _ _ _ (c * 2 ^ 8 + d)); unfold x; lia. }
  assert (E3 : x / 2 ^ 24 = a).
  { symmetry. apply (Z.div_unique _ _ _ (b * 2 ^ 16 + c * 2 ^ 8 + d)); unfold x; lia. }
  rewrite E0, E1, E2, E3.
  assert (E4 : (a * 2 ^ 16 + b * 2 ^ 8 + c) mod 256 = c).
  { symmetry. apply (Z.mod_unique _ _ (a * 2 ^ 8 + b)); lia. }
  assert (E5 : (a * 2 ^ 8 + b) mod 256 = b).
  { symmetry. apply (Z.mod_unique _ _ a); lia. }
  rewrite E4, E5, (Z.mod_small a) by lia. lia.
Qed.

Lemma ntohl_htonl x : in_width 32 x -> ntohl (htonl x) = x.
Proof.
  intros Hx. destruct (bytes4 x Hx) as (a & b & c & d & Ha & Hb & Hc & Hd & ->).
  unfold ntohl. rewrite htonl_bytes by done. rewrite htonl_bytes by done. lia.
Qed.

Lemma htonl_inj x y : in_width 32 x -> in_width 32 y -> htonl x = htonl y -> x = y.
Proof. intros Hx Hy E. by rewrite <- (ntohl_htonl x Hx), E, ntohl_htonl. Qed.

Lemma ntohs_htons x : in_width 16 x -> ntohs (htons x) = x.
Proof.
  unfold ntohs, htons, in_width. intros Hx.
  pose proof (Z.mod_pos_bound x 256). pose proof (Z.mod_pos_bound (x / 2 ^ 8) 256).
  assert (x / 2 ^ 8 < 2 ^ 8) by (apply Z.div_lt_upper_bound; lia).
  assert (0 <= x / 2 ^ 8) by (apply Z.div_pos; lia).
  rewrite (Z.mod_small (x / 2 ^ 8)) by lia.
  assert (E : (x mod 256 * 2 ^ 8 + x / 2 ^ 8) / 2 ^ 8 = x mod 256).
  { symmetry. apply (Z.div_unique _ _ _ (x / 2 ^ 8)); lia. }
  assert (F : (x mod 256 * 2 ^ 8 + x / 2 ^ 8) mod 256 = x / 2 ^ 8).
  { symmetry. apply (Z.mod_unique _ _ (x mod 256)); lia. }
  rewrite E, F, (Z.mod_small (x mod 256)) by lia.
  change 256 with (2 ^ 8). pose proof (Z.div_mod x (2 ^ 8)). lia.
Qed.

Lemma htons_inj x y : in_width 16 x -> in_width 16 y -> htons x = htons y -> x = y.
Proof. intros Hx Hy E. by rewrite <- (ntohs_htons x Hx), E, ntohs_htons. Qed.

(** ** Automation and notation

    [width] proves that a number fits its width: by the lemmas of the operation
    that produced it (the hint database of the same name) or by arithmetic. *)

Create HintDb width discriminated.
#[export] Hint Resolve htonl_width htons_width : width.
#[export] Hint Extern 1 (in_width _ (wrap _ _)) => apply wrap_range; lia : width.
#[export] Hint Extern 4 (in_width _ _) => unfold in_width in *; lia : width.

Ltac width := solve [ eauto 3 with width | unfold in_width in *; lia ].

(** The operators of the sources on machine words. *)
Declare Scope word_scope.
Delimit Scope word_scope with word.
Infix ".&" := Z.land (at level 40, left associativity) : word_scope.
Infix ".|" := Z.lor (at level 40, left associativity) : word_scope.
Infix ".<<" := Z.shiftl (at level 40, left associativity) : word_scope.
Infix ".>>" := Z.shiftr (at level 40, left associativity) : word_scope.

(** ** Exhaustive checks over bytes

    A boolean property of one byte is decided by running it on all 256. *)

Definition all_below (n : nat) (P : Z -> bool) : bool :=
  forallb (fun k => P (Z.of_nat k)) (seq 0 n).

Lemma all_below_spec n P : all_below n P = true -> forall z, 0 <= z < Z.of_nat n -> P z = true.
Proof.
  unfold all_below. rewrite forallb_forall. intros H z Hz.
  rewrite <- (Z2Nat.id z) by lia. apply H, in_seq. lia.
Qed.

Lemma byte_check (P : Z -> bool) : all_below 256 P = true -> forall b, in_width 8 b -> P b = true.
Proof. intros H b Hb. apply (all_below_spec 256 P H). unfold in_width in Hb. lia. Qed.

(** The same over the [2^k] numbers from [lo] on, by halving. *)
Fixpoint all_bits (k : nat) (lo : Z) (P : Z -> bool) : bool :=
  match k with
  | O => P lo
  | S k => all_bits k lo P && all_bits k (lo + 2 ^ Z.of_nat k) P
  end.

Lemma all_bits_spec k : forall lo P, all_bits k lo P = true -> forall z, lo <= z < lo + 2 ^ Z.of_nat k -> P z = true.
Proof.
  induction k as [|k IH]; intros lo P; cbn [all_bits]; intros H z Hz.
  - replace z with lo by (simpl in Hz; lia). done.
  - apply andb_prop in H as [H1 H2]. rewrite Nat2Z.inj_succ, Z.pow_succ_r in Hz by lia.
    destruct (Z_lt_le_dec z (lo + 2 ^ Z.of_nat k)); [apply (IH lo)|apply (IH (lo + 2 ^ Z.of_nat k))]; (done || lia).
Qed.

(** ** Finding a position in a sequence: [std::string::find] on one element *)

Fixpoint find_index (P : Z -> bool) (l : list Z) : option nat :=
  match l with
  | [] => None
  | x :: r => if P x then Some O else S <$> find_index P r
  end.

(** ** [std::sort] by an integer key

    Insertion sort; the sources only sort sequences whose keys are distinct,
    for which every sorting algorithm gives the same sequence. *)

Section SortBy.
Context {A : Type} (key : A -> Z).

Fixpoint insert_by (x : A) (l : list A) : list A :=
  match l with
  | [] => [x]
  | y :: r => if key x <=? key y then x :: y :: r else y :: insert_by x r
  end.

Definition sort_by (l : list A) : list A := foldr insert_by [] l.

(** Strictly increasing keys, the shape all sorted sequences here have. *)
Fixpoint increasing (l : list A) : Prop :=
  match l with
  | [] => True
  | x :: r => Forall (fun y => key x < key y) r /\ increasing r
  end.

Lemma sort_by_increasing l : increasing l -> sort_by l = l.
Proof.
  induction l as [|x r IH]; simpl; [done|]. intros [Hx Hr]. rewrite (IH Hr).
  destruct r as [|y r]; [done|]. simpl. apply Forall_cons in Hx as [Hlt _].
  by rewrite (proj2 (Z.leb_le _ _)) by lia.
Qed.

Lemma insert_by_last x l : Forall (fun y => key y < key x) l -> insert_by x l = l ++ [x].
Proof.
  induction 1 as [|y r Hy _ IH]; simpl; [done|].
  by rewrite (proj2 (Z.leb_gt _ _)), IH by lia.
Qed.

Lemma increasing_app l1 l2 :
  increasing (l1 ++ l2) <->
  increasing l1 /\ increasing l2 /\ Forall (fun x => Forall (fun y => key x < key y) l2) l1.
Proof.
  induction l1 as [|x l1 IH]; simpl; [split; [auto|tauto]|].
  rewrite IH, Forall_app, Forall_cons. tauto.
Qed.

Lemma insert_by_Permutation x l : insert_by x l ≡ₚ x :: l.
Proof. induction l as [|y r IH]; simpl; [done|]. case_match; [done|]. rewrite IH. apply Permutation_swap. Qed.

Lemma sort_by_Permutation l : sort_by l ≡ₚ l.
Proof. induction l as [|x r IH]; simpl; [done|]. by rewrite insert_by_Permutation, IH. Qed.

End SortBy.

(** Sorting an ascending run of indices in descending order reverses it. *)
Lemma sort_by_desc_seq k n :
  sort_by (fun i : nat => - Z.of_nat i) (seq k n) = reverse (seq k n).
Proof.
  revert k. induction n as [|n IH]; intros k; [done|].
  cbn [seq]. rewrite reverse_cons, <- IH.
  change (sort_by ?f (k :: ?l)) with (insert_by f k (sort_by f l)).
  apply insert_by_last. rewrite IH. apply Forall_reverse, Forall_seq. lia.
Qed.

(** ** Loops

    A loop body returns the next state ([inl]) or the result ([inr]). The
    bound on the number of iterations is a binary number, so that a loop over
    a 32-bit counter is still executable; [run_total] shows that a bound
    larger than the measure is never reached. *)

Section Run.
Context {S R : Type} (body : S -> S + R).

Fixpoint run (bound : positive) (s : S) : S + R :=
  match bound with
  | xH => body s
  | xO q => match run q s with inl s' => run q s' | inr r => inr r end
  | xI q =>
      match body s with
      | inl s' => match run q s' with inl s'' => run q s'' | inr r => inr r end
      | inr r => inr r
      end
  end.

Context (I : S -> Prop) (Q : R -> Prop) (m : S -> Z).
Hypothesis body_ok : forall s, I s ->
  match body s with inl s' => I s' /\ 0 <= m s' < m s | inr r => Q r end.

Lemma run_inv p : forall s, I s ->
  match run p s with inl s' => I s' /\ 0 <= m s' <= m s - Z.pos p | inr r => Q r end.
Proof.
  induction p as [q IH|q IH|]; intros s Hs; cbn [run].
  - pose proof (body_ok s Hs) as H0. destruct (body s) as [s1|r]; [|done]. destruct H0 as [H1 M1].
    pose proof (IH s1 H1) as H2. destruct (run q s1) as [s2|r]; [|done]. destruct H2 as [H2 M2].
    pose proof (IH s2 H2) as H3. destruct (run q s2) as [s3|r]; [|done].
    destruct H3 as [H3 M3]. split; [done|lia].
  - pose proof (IH s Hs) as H2. destruct (run q s) as [s2|r]; [|done]. destruct H2 as [H2 M2].
    pose proof (IH s2 H2) as H3. destruct (run q s2) as [s3|r]; [|done].
    destruct H3 as [H3 M3]. split; [done|lia].
  - pose proof (body_ok s Hs) as H0. destruct (body s) as [s1|r]; [|done].
    destruct H0 as [? ?]. split; [done|lia].
Qed.

Lemma run_total p s : I s -> m s < Z.pos p -> exists r, run p s = inr r /\ Q r.
Proof.
  intros Hs Hm. pose proof (run_inv p s Hs) as H. destruct (run p s) as [s'|r].
  - destruct H as [_ H]. lia.
  - by exists r.
Qed.

End Run.
