(* ===== verification/Base64.v ===== *)
(** * Base64 (utils/common_utils/src/base64_utils.cpp)

    [Encode] and [Decode] with the fixed arrays they fill, one byte of the
    input per loop iteration, and the proof that decoding an encoding gives
    the input back. A [std::string] is the list of its bytes. *)

From S2P Require Import Prelude.

Module Base64.

(** ** Data *)

Definition bytes_of_string (s : string) : list Z :=
  (fun a => Z.of_N (Ascii.N_of_ascii a)) <$> String.list_ascii_of_string s.

Definition BASE64_CHARS : list Z :=
  bytes_of_string "ABCDEFGHIJKLMNOPQRSTUVWXYZabcdefghijklmnopqrstuvwxyz0123456789+/".

Definition CHAR_ARRAY_LENGTH_THREE : nat := 3.
Definition CHAR_ARRAY_LENGTH_FOUR : nat := 4.

(** [isalnum] of the C locale. *)
Definition isalnum (c : Z) : bool :=
  ((48 <=? c) && (c <=? 57)) || ((65 <=? c) && (c <=? 90)) || ((97 <=? c) && (c <=? 122)).

Definition IsBase64Char (c : Z) : bool := isalnum c || (c =? 43) || (c =? 47).

(** ** Regrouping bits: three bytes to four 6-bit values and back *)

Definition MakeCharFour (a : list Z) : list Z :=
  let c0 := nth 0 a 0 in
  let c1 := nth 1 a 0 in
  let c2 := nth 2 a 0 in
  [ u8 (Z.shiftr (Z.land c0 0xfc) 2);
    u8 (Z.shiftl (Z.land c0 0x03) 4 + Z.shiftr (Z.land c1 0xf0) 4);
    u8 (Z.shiftl (Z.land c1 0x0f) 2 + Z.shiftr (Z.land c2 0xc0) 6);
    u8 (Z.land c2 0x3f) ].

Definition MakeCharTree (a : list Z) : list Z :=
  let c0 := nth 0 a 0 in
  let c1 := nth 1 a 0 in
  let c2 := nth 2 a 0 in
  let c3 := nth 3 a 0 in
  [ u8 (Z.shiftl c0 2 + Z.shiftr (Z.land c1 0x30) 4);
    u8 (Z.shiftl (Z.land c1 0xf) 4 + Z.shiftr (Z.land c2 0x3c) 2);
    u8 (Z.shiftl (Z.land c2 0x3) 6 + c3) ].

Definition base64_char (idx : Z) : Z := nth (Z.to_nat idx) BASE64_CHARS 0.

(** ** Encode *)

(** The while loop: one input byte per iteration, [index] bytes of
    [charArrayThree] filled, a group flushed to [ret] when the third arrives. *)
Fixpoint encode_loop (source : list Z) (index : nat) (charArrayThree ret : list Z)
    : nat * list Z * list Z :=
  match source with
  | [] => (index, charArrayThree, ret)
  | c :: it =>
      let charArrayThree := <[index:=c]> charArrayThree in
      let index := S index in
      if negb (index =? CHAR_ARRAY_LENGTH_THREE)%nat
      then encode_loop it index charArrayThree ret
      else encode_loop it O charArrayThree
             (ret ++ (base64_char <$> MakeCharFour charArrayThree))
  end.

Definition zero_from (index : nat) (a : list Z) : list Z :=
  take index a ++ replicate (length a - index) 0.

(** What follows the loop: the last, incomplete group and its padding. *)
Definition encode_tail (st : nat * list Z * list Z) : list Z :=
  let '(index, charArrayThree, ret) := st in
  if (index =? 0)%nat then ret
  else
    let charArrayFour := MakeCharFour (zero_from index charArrayThree) in
    ret ++ (base64_char <$> take (index + 1) charArrayFour)
        ++ replicate (CHAR_ARRAY_LENGTH_THREE - index) 61.

Definition Encode (source : list Z) : list Z :=
  encode_tail (encode_loop source O [0; 0; 0] []).

(** ** Decode *)

(** [BASE64_CHARS.find(c)] stored in a byte: [npos] becomes 255. *)
Definition char_find (c : Z) : Z :=
  match find_index (Z.eqb c) BASE64_CHARS with
  | Some k => Z.of_nat k
  | None => 255
  end.

Fixpoint decode_loop (encoded : list Z) (index : nat) (charArrayFour ret : list Z)
    : nat * list Z * list Z :=
  match encoded with
  | [] => (index, charArrayFour, ret)
  | c :: it =>
      if negb (IsBase64Char c) then (index, charArrayFour, ret)
      else
        let charArrayFour := <[index:=c]> charArrayFour in
        let index := S index in
        if negb (index =? CHAR_ARRAY_LENGTH_FOUR)%nat
        then decode_loop it index charArrayFour ret
        else
          let charArrayFour := char_find <$> charArrayFour in
          decode_loop it O charArrayFour (ret ++ MakeCharTree charArrayFour)
  end.

(** The tail keeps a byte that is not in the alphabet (the padding zeros). *)
Definition char_find_tail (c : Z) : Z :=
  match find_index (Z.eqb c) BASE64_CHARS with
  | Some k => Z.of_nat k
  | None => c
  end.

Definition decode_tail (st : nat * list Z * list Z) : list Z :=
  let '(index, charArrayFour, ret) := st in
  if (index =? 0)%nat then ret
  else
    let charArrayFour := char_find_tail <$> zero_from index charArrayFour in
    ret ++ take (index - 1) (MakeCharTree charArrayFour).

Definition Decode (encoded : list Z) : list Z :=
  decode_tail (decode_loop encoded O [0; 0; 0; 0] []).

Example encode_hello : Encode (bytes_of_string "hello") = bytes_of_string "aGVsbG8=".
Proof. vm_compute. reflexivity. Qed.
Example decode_hello : Decode (bytes_of_string "aGVsbG8=") = bytes_of_string "hello".
Proof. vm_compute. reflexivity. Qed.

(** ** Correctness *)

Lemma land_low_byte b m : in_width 8 b -> 0 <= m -> in_width 8 (Z.land b m).
Proof. intros. by apply land_width. Qed.

(** The masks and shifts of the two tables, as quotients and remainders. *)
Lemma byte_masks b : in_width 8 b ->
  Z.shiftr (Z.land b 0xfc) 2 = b / 4 /\ Z.land b 0x03 = b mod 4 /\
  Z.shiftr (Z.land b 0xf0) 4 = b / 16 /\ Z.land b 0x0f = b mod 16 /\
  Z.shiftr (Z.land b 0xc0) 6 = b / 64 /\ Z.land b 0x3f = b mod 64 /\
  Z.shiftr (Z.land b 0x30) 4 = b / 16 mod 4 /\ Z.shiftr (Z.land b 0x3c) 2 = b / 4 mod 16 .
Proof.
  intros Hb.
  pose (P := fun b =>
    (Z.shiftr (Z.land b 0xfc) 2 =? b / 4) && (Z.land b 0x03 =? b mod 4) &&
    (Z.shiftr (Z.land b 0xf0) 4 =? b / 16) && (Z.land b 0x0f =? b mod 16) &&
    (Z.shiftr (Z.land b 0xc0) 6 =? b / 64) && (Z.land b 0x3f =? b mod 64) &&
    (Z.shiftr (Z.land b 0x30) 4 =? b / 16 mod 4) && (Z.shiftr (Z.land b 0x3c) 2 =? b / 4 mod 16)).
  assert (H : P b = true) by (apply byte_check; [vm_compute; reflexivity|done]).
  unfold P in H. rewrite !andb_true_iff, !Z.eqb_eq in H. tauto.
Qed.

Lemma MakeCharFour_digits a b c : in_width 8 a -> in_width 8 b -> in_width 8 c ->
  MakeCharFour [a; b; c] = [a / 4; a mod 4 * 16 + b / 16; b mod 16 * 4 + c / 64; c mod 64].
Proof.
  intros Ha Hb Hc. unfold MakeCharFour; cbn [nth].
  destruct (byte_masks a Ha) as (A1 & A2 & _).
  destruct (byte_masks b Hb) as (_ & _ & B1 & B2 & _).
  destruct (byte_masks c Hc) as (_ & _ & _ & _ & C1 & C2 & _).
  rewrite A1, A2, B1, B2, C1, C2, !Z.shiftl_mul_pow2 by lia.
  unfold in_width in *.
  rewrite !wrap_small; [done|..]; unfold in_width; Z.div_mod_to_equations; lia.
Qed.

(** Every 6-bit value survives the trip through the alphabet. *)
Lemma alphabet_roundtrip v : 0 <= v < 64 ->
  IsBase64Char (base64_char v) = true /\ char_find (base64_char v) = v /\
  char_find_tail (base64_char v) = v.
Proof.
  intros Hv.
  pose (P := fun v => IsBase64Char (base64_char v) && (char_find (base64_char v) =? v)
                      && (char_find_tail (base64_char v) =? v)).
  assert (H : P v = true) by (apply (all_below_spec 64); [vm_compute; reflexivity|lia]).
  unfold P in H. rewrite !andb_true_iff, !Z.eqb_eq in H. tauto.
Qed.

Lemma MakeCharTree_digits p q r s : 0 <= p < 64 -> 0 <= q < 64 -> 0 <= r < 64 -> 0 <= s < 64 ->
  MakeCharTree [p; q; r; s] = [p * 4 + q / 16; q mod 16 * 16 + r / 4; r mod 4 * 64 + s].
Proof.
  intros Hp Hq Hr Hs. unfold MakeCharTree; cbn [nth].
  destruct (byte_masks q) as (_ & _ & _ & Q1 & _ & _ & Q2 & _); [unfold in_width; lia|].
  destruct (byte_masks r) as (_ & R1 & _ & _ & _ & _ & _ & R2); [unfold in_width; lia|].
  rewrite Q1, Q2, R1, R2, !Z.shiftl_mul_pow2 by lia.
  rewrite (Z.mod_small (q / 16)), (Z.mod_small (r / 4)) by (Z.div_mod_to_equations; lia).
  rewrite !wrap_small; [done|..]; unfold in_width; Z.div_mod_to_equations; lia.
Qed.

Lemma regroup a b c : in_width 8 a -> in_width 8 b -> in_width 8 c ->
  exists p q r s, MakeCharFour [a; b; c] = [p; q; r; s] /\
    0 <= p < 64 /\ 0 <= q < 64 /\ 0 <= r < 64 /\ 0 <= s < 64 /\
    MakeCharTree [p; q; r; s] = [a; b; c].
Proof.
  intros Ha Hb Hc.
  assert (B : 0 <= a / 4 < 64 /\ 0 <= a mod 4 * 16 + b / 16 < 64 /\
              0 <= b mod 16 * 4 + c / 64 < 64 /\ 0 <= c mod 64 < 64).
  { unfold in_width in *. Z.div_mod_to_equations; lia. }
  destruct B as (B0 & B1 & B2 & B3).
  eexists _, _, _, _. split; [by apply MakeCharFour_digits|]. split_and!; try done || lia.
  rewrite MakeCharTree_digits by lia. unfold in_width in *.
  f_equal; [|f_equal; [|f_equal]]; Z.div_mod_to_equations; lia.
Qed.

(** The loops only ever append to [ret], and a full group leaves no trace in
    the arrays that later iterations read. *)
Lemma encode_loop_ret src i a ret : 
  encode_loop src i a ret =
  (let '(i', a', r') := encode_loop src i a [] in (i', a', ret ++ r')).
Proof.
  revert i a ret. induction src as [|c it IH]; intros i a ret; cbn [encode_loop].
  - by rewrite app_nil_r.
  - destruct (negb _); [apply IH|]. rewrite app_nil_l.
    rewrite (IH _ _ (ret ++ _)), (IH _ _ (base64_char <$> _)).
    destruct (encode_loop it 0 _ []) as [[i' a'] r']. by rewrite app_assoc.
Qed.

Lemma decode_loop_ret src i a ret :
  decode_loop src i a ret =
  (let '(i', a', r') := decode_loop src i a [] in (i', a', ret ++ r')).
Proof.
  revert i a ret. induction src as [|c it IH]; intros i a ret; cbn [decode_loop].
  - by rewrite app_nil_r.
  - destruct (negb (IsBase64Char c)); [by rewrite app_nil_r|].
    destruct (negb _); [apply IH|]. rewrite app_nil_l.
    rewrite (IH _ _ (ret ++ _)), (IH _ _ (MakeCharTree _)).
    destruct (decode_loop it 0 _ []) as [[i' a'] r']. by rewrite app_assoc.
Qed.

Lemma encode_group a b c src a3 : length a3 = 3%nat ->
  encode_tail (encode_loop (a :: b :: c :: src) 0 a3 []) =
  (base64_char <$> MakeCharFour [a; b; c]) ++ encode_tail (encode_loop src 0 [a; b; c] []).
Proof.
  intros Hl. destruct a3 as [|x [|y [|z [|]]]]; try done.
  cbn [encode_loop CHAR_ARRAY_LENGTH_THREE Nat.eqb negb insert list_insert app].
  rewrite encode_loop_ret. destruct (encode_loop src 0 [a; b; c] []) as [[i' a'] r'].
  unfold encode_tail. destruct (i' =? 0)%nat; [done|]. by rewrite <- !app_assoc.
Qed.

Lemma decode_group p q r s src a4 : length a4 = 4%nat ->
  0 <= p < 64 -> 0 <= q < 64 -> 0 <= r < 64 -> 0 <= s < 64 ->
  decode_tail (decode_loop ((base64_char <$> [p; q; r; s]) ++ src) 0 a4 []) =
  MakeCharTree [p; q; r; s] ++ decode_tail (decode_loop src 0 [p; q; r; s] []).
Proof.
  intros Hl Hp Hq Hr Hs. destruct a4 as [|w [|x [|y [|z [|]]]]]; try done.
  destruct (alphabet_roundtrip p Hp) as (P1 & P2 & _), (alphabet_roundtrip q Hq) as (Q1 & Q2 & _).
  destruct (alphabet_roundtrip r Hr) as (R1 & R2 & _), (alphabet_roundtrip s Hs) as (S1 & S2 & _).
  change ((base64_char <$> [p; q; r; s]) ++ src)
    with (base64_char p :: base64_char q :: base64_char r :: base64_char s :: src).
  cbn [decode_loop]. rewrite P1, Q1, R1, S1.
  cbn [CHAR_ARRAY_LENGTH_FOUR Nat.eqb negb insert list_insert app].
  change (char_find <$> [base64_char p; base64_char q; base64_char r; base64_char s])
    with [char_find (base64_char p); char_find (base64_char q);
          char_find (base64_char r); char_find (base64_char s)].
  rewrite P2, Q2, R2, S2, decode_loop_ret.
  destruct (decode_loop src 0 [p; q; r; s] []) as [[i' a'] r'].
  unfold decode_tail. destruct (i' =? 0)%nat; [done|]. by rewrite <- !app_assoc.
Qed.

(** The three ways an input can end. *)
Lemma three_ind (P : list Z -> Prop) :
  P [] -> (forall a, P [a]) -> (forall a b, P [a; b]) ->
  (forall a b c l, P l -> P (a :: b :: c :: l)) -> forall l, P l.
Proof.
  intros H0 H1 H2 H3 l. remember (length l) as n eqn:En. revert l En.
  induction n as [n IH] using (well_founded_induction lt_wf). intros l ->.
  destruct l as [|a [|b [|c l]]]; auto. apply H3, (IH (length l)); simpl; lia.
Qed.

Lemma char_find_tail_0 : char_find_tail 0 = 0.
Proof. reflexivity. Qed.

(** A last group of two or three characters, followed by padding. *)
Lemma decode_last_two p q src a4 : length a4 = 4%nat -> 0 <= p < 64 -> 0 <= q < 64 ->
  decode_tail (decode_loop (base64_char p :: base64_char q :: 61 :: src) 0 a4 []) =
  take 1 (MakeCharTree [p; q; 0; 0]).
Proof.
  intros H4 Hp Hq. destruct a4 as [|w [|x [|y [|z [|]]]]]; try done.
  destruct (alphabet_roundtrip p Hp) as (P1 & _ & P2), (alphabet_roundtrip q Hq) as (Q1 & _ & Q2).
  cbn -[base64_char IsBase64Char decode_tail]. rewrite P1, Q1.
  change (IsBase64Char 61) with false. cbn -[base64_char MakeCharTree char_find_tail].
  by rewrite P2, Q2, char_find_tail_0.
Qed.

Lemma decode_last_three p q r src a4 : length a4 = 4%nat ->
  0 <= p < 64 -> 0 <= q < 64 -> 0 <= r < 64 ->
  decode_tail (decode_loop (base64_char p :: base64_char q :: base64_char r :: 61 :: src) 0 a4 []) =
  take 2 (MakeCharTree [p; q; r; 0]).
Proof.
  intros H4 Hp Hq Hr. destruct a4 as [|w [|x [|y [|z [|]]]]]; try done.
  destruct (alphabet_roundtrip p Hp) as (P1 & _ & P2), (alphabet_roundtrip q Hq) as (Q1 & _ & Q2).
  destruct (alphabet_roundtrip r Hr) as (R1 & _ & R2).
  cbn -[base64_char IsBase64Char decode_tail]. rewrite P1, Q1, R1.
  change (IsBase64Char 61) with false. cbn -[base64_char MakeCharTree char_find_tail].
  by rewrite P2, Q2, R2, char_find_tail_0.
Qed.

Lemma decode_encode_from src : Forall (in_width 8) src -> forall a3 a4,
  length a3 = 3%nat -> length a4 = 4%nat ->
  decode_tail (decode_loop (encode_tail (encode_loop src 0 a3 [])) 0 a4 []) = src.
Proof.
  induction src as [|a|a b|a b c l IH] using three_ind; intros Hw a3 a4 H3 H4.
  - done.
  - destruct a3 as [|x [|y [|z [|]]]]; try done.
    apply Forall_cons in Hw as [Ha _].
    destruct (regroup a 0 0) as (p & q & r & s & E & Hp & Hq & Hr & Hs & F); try done.
    assert (Hz : r = 0 /\ s = 0) by (rewrite MakeCharFour_digits in E by done; by simplify_eq).
    destruct Hz as [-> ->].
    cbn -[base64_char MakeCharFour decode_tail decode_loop]. rewrite E.
    cbn -[base64_char decode_tail decode_loop]. by rewrite decode_last_two, F.
  - destruct a3 as [|x [|y [|z [|]]]]; try done.
    apply Forall_cons in Hw as [Ha Hw]. apply Forall_cons in Hw as [Hb _].
    destruct (regroup a b 0) as (p & q & r & s & E & Hp & Hq & Hr & Hs & F); try done.
    assert (Hz : s = 0) by (rewrite MakeCharFour_digits in E by done; by simplify_eq).
    subst s. cbn -[base64_char MakeCharFour decode_tail decode_loop]. rewrite E.
    cbn -[base64_char decode_tail decode_loop]. by rewrite decode_last_three, F.
  - apply Forall_cons in Hw as [Ha Hw]. apply Forall_cons in Hw as [Hb Hw].
    apply Forall_cons in Hw as [Hc Hw].
    destruct (regroup a b c) as (p & q & r & s & E & Hp & Hq & Hr & Hs & F); try done.
    rewrite encode_group by done. rewrite E, decode_group, F by done.
    by rewrite (IH Hw).
Qed.

(** [Decode] inverts [Encode] on every sequence of bytes. *)
Theorem Decode_Encode src : Forall (in_width 8) src -> Decode (Encode src) = src.
Proof. intros Hw. by apply decode_encode_from. Qed.

Lemma Decode_Encode_witness : Decode (Encode (bytes_of_string "user:p4ss")) = bytes_of_string "user:p4ss".
Proof. apply Decode_Encode. repeat constructor; vm_compute; congruence. Defined.

(** The output of [Encode] is made of whole groups of four characters,
    one per started group of three bytes. *)
Theorem Encode_length src :
  length (Encode src) = (4 * ((length src + 2) / 3))%nat.
Proof.
  unfold Encode. generalize (eq_refl : length [0; 0; 0] = 3%nat). generalize [0; 0; 0] as a3.
  induction src as [|a|a b|a b c l IH] using three_ind; intros a3 H3.
  1-3: by destruct a3 as [|x [|y [|z [|]]]].
  rewrite encode_group by done. rewrite length_app, IH by done.
  cbn [length]. replace (S (S (S (length l))) + 2)%nat with (length l + 2 + 1 * 3)%nat by lia.
  rewrite Nat.div_add by lia. simpl. lia.
Qed.

End Base64.
