(* ===== verification/Prefix.v ===== *)
(** * Address prefixes

    Prefixes of [W]-bit addresses: membership, alignment, lists of aligned
    blocks that tile an interval, and the longest-prefix-match rule the
    kernel's LPM tries apply. The firewall uses it at widths 16 (ports), 32
    and 128 (addresses). *)

From S2P Require Import Prelude.

Module Prefix.

(** [p] belongs to the prefix of length [len] of [data]. *)
Definition in_prefix (W data len p : Z) : bool :=
  p / 2 ^ (W - len) =? data / 2 ^ (W - len).

Definition aligned (W data len : Z) : Prop := data mod 2 ^ (W - len) = 0.

Lemma pow2_pos k : 0 <= k -> 0 < 2 ^ k.
Proof. intros. by apply Z.pow_pos_nonneg. Qed.

Lemma in_prefix_aligned W data len p : 0 <= len <= W -> aligned W data len ->
  in_prefix W data len p = (data <=? p) && (p <? data + 2 ^ (W - len)).
Proof.
  intros Hl Ha. unfold in_prefix, aligned in *.
  pose proof (pow2_pos (W - len) ltac:(lia)) as Hp. set (k := 2 ^ (W - len)) in *.
  pose proof (Z.div_mod data k). pose proof (Z.div_mod p k). pose proof (Z.mod_pos_bound p k Hp).
  destruct (Z.eqb_spec (p / k) (data / k)), (Z.leb_spec data p), (Z.ltb_spec p (data + k));
    simpl; try done; nia.
Qed.

Lemma in_prefix_refl W data len : in_prefix W data len data = true.
Proof. apply Z.eqb_refl. Qed.

Lemma in_prefix_sym W a b len : in_prefix W a len b = in_prefix W b len a.
Proof. apply Z.eqb_sym. Qed.

Lemma in_prefix_trans W a b c len :
  in_prefix W a len b = true -> in_prefix W b len c = in_prefix W a len c.
Proof. unfold in_prefix. rewrite Z.eqb_eq. by intros ->. Qed.

(** A longer prefix refines a shorter one. *)
Lemma in_prefix_shorter W a b len len' : 0 <= len' <= len -> len <= W ->
  in_prefix W a len b = true -> in_prefix W a len' b = true.
Proof.
  unfold in_prefix. rewrite !Z.eqb_eq. intros H1 H2 E.
  replace (W - len') with ((W - len) + (len - len')) by lia.
  rewrite Z.pow_add_r, <- !Z.div_div by (try apply pow2_pos; try apply Z.pow_nonzero; lia).
  by rewrite E.
Qed.

(** ** Tilings: consecutive aligned blocks from [s] to [e] *)

Fixpoint tiles (W s : Z) (bl : list (Z * Z)) (e : Z) : Prop :=
  match bl with
  | [] => s = e + 1
  | (data, len) :: r =>
      data = s /\ 0 <= len <= W /\ aligned W data len /\ tiles W (data + 2 ^ (W - len)) r e
  end.

Lemma tiles_bound W s bl e : tiles W s bl e -> s <= e + 1.
Proof.
  revert s. induction bl as [|[d l] r IH]; intros s; simpl; [lia|].
  intros (-> & Hl & _ & Ht). apply IH in Ht. pose proof (pow2_pos (W - l)). lia.
Qed.

(** The blocks cover the interval and nothing else. *)
Lemma tiles_cover W s bl e p : tiles W s bl e ->
  existsb (fun b => in_prefix W (fst b) (snd b) p) bl = (s <=? p) && (p <=? e).
Proof.
  revert s. induction bl as [|[d l] r IH]; intros s; simpl.
  - intros ->. destruct (Z.leb_spec (e + 1) p), (Z.leb_spec p e); simpl; done || lia.
  - intros (-> & Hl & Ha & Ht). rewrite (IH _ Ht), in_prefix_aligned by done.
    apply tiles_bound in Ht. pose proof (pow2_pos (W - l)).
    destruct (Z.leb_spec s p), (Z.ltb_spec p (s + 2 ^ (W - l))),
      (Z.leb_spec (s + 2 ^ (W - l)) p), (Z.leb_spec p e); simpl; done || lia.
Qed.

Lemma tiles_aligned W s bl e : tiles W s bl e ->
  Forall (fun b => 0 <= snd b <= W /\ aligned W (fst b) (snd b) /\ s <= fst b <= e) bl.
Proof.
  revert s. induction bl as [|[d l] r IH]; intros s; simpl; [by constructor|].
  intros (-> & Hl & Ha & Ht). pose proof (pow2_pos (W - l)).
  pose proof (tiles_bound _ _ _ _ Ht). constructor; [simpl; split_and!; done || lia|].
  eapply Forall_impl; [apply (IH _ Ht)|]. simpl. intros b (? & ? & ?). split_and!; done || lia.
Qed.

Lemma tiles_app W s bl1 m bl2 e : tiles W s bl1 m -> tiles W (m + 1) bl2 e -> tiles W s (bl1 ++ bl2) e.
Proof.
  revert s. induction bl1 as [|[d l] r IH]; intros s; simpl; [by intros ->|].
  intros (? & ? & ? & ?) ?. split_and!; try done; [lia..|]. by apply IH.
Qed.

(** ** Longest prefix match

    The lookup rule of a BPF LPM trie filled by successive updates: among the
    entries that contain [p] the longest prefix wins, and of two updates of
    the same prefix the later one. *)

Section Lpm.
Context {V : Type} (W : Z).

Fixpoint lpm_best (es : list (Z * Z * V)) (p : Z) : option (Z * V) :=
  match es with
  | [] => None
  | (d, l, v) :: r =>
      match lpm_best r p with
      | Some (l', v') => if in_prefix W d l p && (l' <? l) then Some (l, v) else Some (l', v')
      | None => if in_prefix W d l p then Some (l, v) else None
      end
  end.

Definition lpm (es : list (Z * Z * V)) (p : Z) : option V := snd <$> lpm_best es p.

(** What the lookup returns: an entry that contains [p], none longer. *)
Lemma lpm_best_spec es p :
  match lpm_best es p with
  | Some (l, v) => exists d, (d, l, v) ∈ es /\ in_prefix W d l p = true /\
      (forall d' l' v', (d', l', v') ∈ es -> in_prefix W d' l' p = true -> l' <= l)
  | None => forall d' l' v', (d', l', v') ∈ es -> in_prefix W d' l' p = false
  end.
Proof.
  induction es as [|[[d l] v] r IH]; simpl; [intros d' l' v' H; by apply elem_of_nil in H|].
  destruct (lpm_best r p) as [[l' v']|].
  - destruct IH as (d' & Hi & Hp & Hmax). destruct (in_prefix W d l p) eqn:E, (Z.ltb_spec l' l); simpl.
    1: exists d. 2-4: exists d'.
    all: setoid_rewrite elem_of_cons; split_and!; auto; intros d1 l1 v1 [?|H1] H2; simplify_eq; try lia; try congruence.
    all: specialize (Hmax _ _ _ H1 H2); lia.
  - destruct (in_prefix W d l p) eqn:E.
    + exists d. setoid_rewrite elem_of_cons. split_and!; auto. intros d1 l1 v1 [?|H1] H2; simplify_eq; [lia|].
      by rewrite (IH _ _ _ H1) in H2.
    + intros d1 l1 v1 [?|H1]%elem_of_cons; simplify_eq; [done|by eapply IH].
Qed.

(** The lookup only depends on the keys. *)
Lemma lpm_fmap (f : V -> V) es p :
  lpm ((fun '(d, l, v) => (d, l, f v)) <$> es) p = f <$> lpm es p.
Proof.
  unfold lpm. induction es as [|[[d l] v] r IH]; [done|]. cbn [fmap list_fmap lpm_best].
  change (list_fmap _ _ _ r) with ((fun '(d, l, v) => (d, l, f v)) <$> r) in *.
  assert (L : lpm_best ((fun '(d, l, v) => (d, l, f v)) <$> r) p = (fun '(l, v) => (l, f v)) <$> lpm_best r p).
  { clear. induction r as [|[[d l] v] r IH]; [done|]. cbn [fmap list_fmap lpm_best].
    change (list_fmap _ _ _ r) with ((fun '(d, l, v) => (d, l, f v)) <$> r). rewrite IH.
    destruct (lpm_best r p) as [[l' v']|]; simpl; by destruct (in_prefix W d l p); simpl; try destruct (l' <? l). }
  rewrite L. destruct (lpm_best r p) as [[l' v']|]; simpl; by destruct (in_prefix W d l p); simpl; try destruct (l' <? l).
Qed.

(** Disjoint blocks in increasing order. *)
Fixpoint bchain (lo : Z) (es : list (Z * Z * V)) : Prop :=
  match es with
  | [] => True
  | (d, l, v) :: r => lo <= d /\ 0 <= l <= W /\ aligned W d l /\ bchain (d + 2 ^ (W - l)) r
  end.

Fixpoint block_at (es : list (Z * Z * V)) (p : Z) : option V :=
  match es with
  | [] => None
  | (d, l, v) :: r => if in_prefix W d l p then Some v else block_at r p
  end.

Lemma bchain_weaken lo lo' es : lo' <= lo -> bchain lo es -> bchain lo' es.
Proof. destruct es as [|[[d l] v] r]; simpl; [done|]. intros ? (? & ? & ? & ?). split_and!; done || lia. Qed.

Lemma bchain_app lo mid es1 es2 : bchain lo es1 -> lo <= mid ->
  Forall (fun '(d, l, _) => d + 2 ^ (W - l) <= mid) es1 -> bchain mid es2 -> bchain lo (es1 ++ es2).
Proof.
  revert lo. induction es1 as [|[[d l] v] r IH]; intros lo; simpl.
  - intros _ Hlo _ ?. by eapply bchain_weaken.
  - intros (? & ? & ? & ?) Hlo F Hes2. apply Forall_cons in F as [? F]. split_and!; try done; [lia..|].
    apply IH; done.
Qed.

Lemma lpm_below lo es p : bchain lo es -> p < lo -> lpm_best es p = None /\ block_at es p = None.
Proof.
  revert lo. induction es as [|[[d l] v] r IH]; intros lo; simpl; [done|].
  intros (H1 & H2 & H3 & H4) Hp. pose proof (pow2_pos (W - l) ltac:(lia)).
  destruct (IH _ H4) as [E1 E2]; [lia|]. rewrite E1, E2, in_prefix_aligned by done.
  by rewrite (proj2 (Z.leb_gt d p)) by lia.
Qed.

Lemma lpm_bchain lo es p : bchain lo es -> lpm es p = block_at es p.
Proof.
  unfold lpm. revert lo. induction es as [|[[d l] v] r IH]; intros lo; simpl; [done|].
  intros (H1 & H2 & H3 & H4). specialize (IH _ H4). pose proof (pow2_pos (W - l) ltac:(lia)).
  rewrite in_prefix_aligned by done.
  destruct (Z.leb_spec d p), (Z.ltb_spec p (d + 2 ^ (W - l))); simpl.
  - destruct (lpm_below _ _ p H4) as [E1 E2]; [lia|]. by rewrite E1.
  - destruct (lpm_best r p) as [[l' v']|]; by rewrite <- IH.
  - destruct (lpm_best r p) as [[l' v']|]; by rewrite <- IH.
  - lia.
Qed.

Lemma block_at_app es1 es2 p :
  block_at (es1 ++ es2) p = match block_at es1 p with Some v => Some v | None => block_at es2 p end.
Proof. induction es1 as [|[[d l] v] r IH]; simpl; [done|]. by destruct (in_prefix W d l p). Qed.

(** Blocks that tile an interval and all carry [v]. *)
Lemma tiles_block_at s bl e v p : tiles W s bl e ->
  block_at ((fun b => (fst b, snd b, v)) <$> bl) p = if (s <=? p) && (p <=? e) then Some v else None.
Proof.
  intros Ht. rewrite <- (tiles_cover W s bl e p Ht).
  clear Ht. induction bl as [|[d l] r IH]; simpl; [done|]. by destruct (in_prefix W d l p).
Qed.

Lemma tiles_bchain s bl e v : tiles W s bl e -> bchain s ((fun b => (fst b, snd b, v)) <$> bl) /\
  Forall (fun '(d, l, _) => d + 2 ^ (W - l) <= e + 1) ((fun b => (fst b, snd b, v)) <$> bl).
Proof.
  revert s. induction bl as [|[d l] r IH]; intros s; simpl; [by split; [|constructor]|].
  intros (-> & ? & ? & Ht). destruct (IH _ Ht) as [I1 I2]. pose proof (tiles_bound _ _ _ _ Ht).
  split; [split_and!; done || lia|]. constructor; [lia|done].
Qed.

End Lpm.

End Prefix.
