(* ===== verification/Bitmap.v ===== *)
(** * Rule bitmaps (services/netmanagernative/bpf, class [Bitmap] and
    template [BpfUnorderedMap])

    A bitmap is the array of [BITMAP_LEN] 32-bit words the firewall hands to
    the kernel: bit [n] stands for the [n]-th rule of the rule list. *)

From S2P Require Import Prelude.

Module Bitmap.

Definition BITMAP_LEN : nat := 63.
Definition BIT_PER_BYTE : Z := 8.
Definition BITMAP_BIT_COUNT : Z := Z.of_nat BITMAP_LEN * 4 * BIT_PER_BYTE.

(** ** State and operations of class [Bitmap] *)

(** [bitmap_t bitmap_]: the words, lowest rule numbers first. *)
Abbreviation t := (list Z).

Definition Clear : t := replicate BITMAP_LEN 0.

Definition BIT_OFFSET : Z := 5.
Definition BIT_REMAINDER : Z := 0x1f.

Definition Set_ (n : Z) (b : t) : t :=
  if n <? BITMAP_BIT_COUNT then
    let i := Z.shiftr n BIT_OFFSET in
    let j := Z.land n BIT_REMAINDER in
    alter (fun w => Z.lor w (u32 (Z.shiftl 1 j))) (Z.to_nat i) b
  else b.

(** [Bitmap()] and [Bitmap(uint32_t n)]. *)
Definition make : t := Clear.
Definition make_n (n : Z) : t := Set_ n Clear.

Definition And (b other : t) : t := zip_with Z.land b other.
Definition Or (b other : t) : t := zip_with Z.lor b other.

Definition eqb (b other : t) : bool := bool_decide (b = other).

Definition GetHash (key : Z) : Z :=
  let key := u32 (key + u32 (Z.lnot (u32 (Z.shiftl key 15)))) in
  let key := Z.lxor key (Z.shiftr key 10) in
  let key := u32 (key + u32 (Z.shiftl key 3)) in
  let key := Z.lxor key (Z.shiftr key 6) in
  let key := u32 (key + u32 (Z.lnot (u32 (Z.shiftl key 11)))) in
  Z.lxor key (Z.shiftr key 16).

Fixpoint special_hash_from (i : Z) (b : t) : Z :=
  match b with
  | [] => 0
  | w :: r => if w =? 0 then special_hash_from (i + 1) r else u64 (Z.shiftl (GetHash w) i)
  end.
Definition SpecialHash (b : t) : Z := special_hash_from 0 b.

(** ** What a bitmap means: the set of rule numbers it holds *)

Definition test (b : t) (n : Z) : bool :=
  Z.testbit (nth (Z.to_nat (n / 32)) b 0) (n mod 32).

Definition ok (b : t) : Prop := length b = BITMAP_LEN /\ Forall (in_width 32) b.

Lemma Clear_ok : ok Clear.
Proof. split; [done|]. by apply Forall_replicate. Qed.

Lemma Forall_zip_width (f : Z -> Z -> Z) a b :
  (forall x y, in_width 32 x -> in_width 32 y -> in_width 32 (f x y)) ->
  Forall (in_width 32) a -> Forall (in_width 32) b -> Forall (in_width 32) (zip_with f a b).
Proof.
  intros F Ha. revert b. induction Ha as [|x a Hx Ha IH]; intros b Hb; [done|].
  destruct Hb as [|y b Hy Hb]; simpl; constructor; auto.
Qed.

Lemma Or_ok a b : ok a -> ok b -> ok (Or a b).
Proof.
  intros [La Wa] [Lb Wb]. split.
  - unfold Or. rewrite length_zip_with. lia.
  - apply Forall_zip_width; [|done..]. intros. by apply lor_width.
Qed.

Lemma And_ok a b : ok a -> ok b -> ok (And a b).
Proof.
  intros [La Wa] [Lb Wb]. split.
  - unfold And. rewrite length_zip_with. lia.
  - apply Forall_zip_width; [|done..]. intros x y Hx [Hy _]. by apply land_width.
Qed.

Lemma nth_zip_with (f : Z -> Z -> Z) a b i : f 0 0 = 0 -> length a = length b ->
  nth i (zip_with f a b) 0 = f (nth i a 0) (nth i b 0).
Proof.
  intros F. revert b i. induction a as [|x a IH]; intros [|y b] [|i] E; simpl in *; try done.
  apply IH. lia.
Qed.

Lemma nth_replicate_zero k m : nth k (replicate m 0) 0 = 0.
Proof. revert k. induction m as [|m IH]; intros [|k]; simpl; auto. Qed.

Lemma test_Clear n : test Clear n = false.
Proof. unfold test, Clear. by rewrite nth_replicate_zero, Z.testbit_0_l. Qed.

Lemma test_Or a b n : ok a -> ok b -> test (Or a b) n = test a n || test b n.
Proof.
  intros [La _] [Lb _]. unfold test, Or.
  rewrite nth_zip_with by (done || lia). apply Z.lor_spec.
Qed.

Lemma test_And a b n : ok a -> ok b -> test (And a b) n = test a n && test b n.
Proof.
  intros [La _] [Lb _]. unfold test, And.
  rewrite nth_zip_with by (done || lia). apply Z.land_spec.
Qed.

Lemma nth_alter (f : Z -> Z) i j (l : t) : (i < length l)%nat ->
  nth j (alter f i l) 0 = if decide (i = j) then f (nth j l 0) else nth j l 0.
Proof.
  revert i j. induction l as [|x l IH]; intros i j Hi; simpl in *; [lia|].
  destruct i as [|i], j as [|j]; simpl; try done.
  change (list_alter f i l) with (alter f i l). rewrite IH by lia.
  destruct (decide (i = j)), (decide (S i = S j)); done || congruence.
Qed.

Lemma Set_ok n b : 0 <= n -> ok b -> ok (Set_ n b).
Proof.
  intros Hn [L W]. unfold Set_. case_match; [|done]. split.
  - by rewrite length_alter.
  - apply Forall_alter; [done|]. intros w _ Hw. apply lor_width; [lia|done|].
    apply wrap_range; lia.
Qed.

Lemma make_n_ok n : 0 <= n -> ok (make_n n).
Proof. intros Hn. apply Set_ok; [done|apply Clear_ok]. Qed.

(** [Set] adds exactly one rule number, and only a representable one. *)
Lemma test_Set n m b : 0 <= n -> 0 <= m -> ok b ->
  test (Set_ n b) m = test b m || ((n =? m) && (n <? BITMAP_BIT_COUNT)).
Proof.
  intros Hn Hm [L W]. unfold Set_. destruct (Z.ltb_spec n BITMAP_BIT_COUNT) as [Hlt|];
    [|by rewrite andb_false_r, orb_false_r].
  rewrite andb_true_r. unfold test, BIT_OFFSET, BIT_REMAINDER.
  rewrite Z.shiftr_div_pow2 by lia. change (2 ^ 5) with 32.
  change 0x1f with (Z.ones 5). rewrite Z.land_ones by lia. change (2 ^ 5) with 32.
  assert (Hr : 0 <= n mod 32 < 32) by (apply Z.mod_pos_bound; lia).
  assert (Hr' : 0 <= m mod 32 < 32) by (apply Z.mod_pos_bound; lia).
  assert (Hq : n / 32 < 63)
    by (apply Z.div_lt_upper_bound; unfold BITMAP_BIT_COUNT, BITMAP_LEN, BIT_PER_BYTE in *; lia).
  assert (0 <= n / 32) by (apply Z.div_pos; lia). assert (0 <= m / 32) by (apply Z.div_pos; lia).
  pose proof (Z.div_mod n 32). pose proof (Z.div_mod m 32).
  rewrite nth_alter by (rewrite L; unfold BITMAP_LEN; lia).
  destruct (decide (Z.to_nat (n / 32) = Z.to_nat (m / 32))) as [E|E].
  - rewrite Z.lor_spec, testbit_wrap, bool_decide_eq_true_2 by lia. f_equal; simpl.
    rewrite Z.shiftl_1_l, Z.pow2_bits_eqb by lia.
    apply Z2Nat.inj in E; [|lia..].
    destruct (Z.eqb_spec (n mod 32) (m mod 32)), (Z.eqb_spec n m); try done; exfalso; subst; lia.
  - destruct (Z.eqb_spec n m); [by subst|by rewrite orb_false_r].
Qed.

Lemma test_make_n n m : 0 <= n -> 0 <= m ->
  test (make_n n) m = (n =? m) && (n <? BITMAP_BIT_COUNT).
Proof. intros. unfold make_n. by rewrite test_Set, test_Clear by (done || apply Clear_ok). Qed.

(** A well-formed bitmap is determined by the rule numbers it holds. *)
Lemma ext a b : ok a -> ok b -> (forall n, 0 <= n -> test a n = test b n) -> a = b.
Proof.
  intros [La Wa] [Lb Wb] H. apply list_eq_same_length with BITMAP_LEN; [done..|].
  intros i x y Hi Hx Hy.
  apply Z.bits_inj'. intros k Hk. destruct (Z_lt_le_dec k 32) as [Hk'|Hk'].
  - specialize (H (32 * Z.of_nat i + k) ltac:(lia)). unfold test in H.
    replace ((32 * Z.of_nat i + k) / 32) with (Z.of_nat i) in H
      by (apply (Z.div_unique _ _ _ k); lia).
    replace ((32 * Z.of_nat i + k) mod 32) with k in H
      by (apply (Z.mod_unique _ _ (Z.of_nat i)); lia).
    rewrite Nat2Z.id in H.
    by rewrite (nth_lookup_Some _ _ _ _ Hx), (nth_lookup_Some _ _ _ _ Hy) in H.
  - rewrite (testbit_high 32 x), (testbit_high 32 y);
      [done|by apply (Forall_lookup_1 _ _ _ _ Wb Hy)|lia|by apply (Forall_lookup_1 _ _ _ _ Wa Hx)|lia].
Qed.

End Bitmap.
