(* ===== verification/PortMap.v ===== *)
(** * Port ranges (services/netmanagernative/bpf: [SegmentBitmapMap],
    [BitmapManager::GetPortRangeAndMask], [BpfPortMap])

    The port ranges of all rules are first merged into disjoint segments,
    each with the bitmap of the rules that cover it; every segment is then cut
    into aligned power-of-two blocks, the keys of the kernel's prefix trie. *)

From S2P Require Import Prelude Prefix Bitmap.

Module PortMap.

Definition UINT16_MAX : Z := 65535.

(** ** [SegmentBitmapMap] *)

Record SegmentBitmap := mkSeg { seg_start : Z; seg_end : Z; seg_bitmap : Bitmap.t }.

Definition isValid (seg : SegmentBitmap) : bool := seg_start seg <=? seg_end seg.

Fixpoint collect_from (i : nat) (start end_ : Z) (segments : list SegmentBitmap) : list nat :=
  match segments with
  | [] => []
  | seg :: r =>
      if negb ((end_ <? seg_start seg) || (seg_end seg <? start))
      then i :: collect_from (S i) start end_ r
      else collect_from (S i) start end_ r
  end.
Definition CollectIntersectIndices (start end_ : Z) (segments : list SegmentBitmap) : list nat :=
  collect_from 0 start end_ segments.

Definition RemoveSegments (indices : list nat) (segments : list SegmentBitmap) : list SegmentBitmap :=
  foldl (fun segs idx => if (idx <? length segs)%nat then delete idx segs else segs)
    segments (sort_by (fun i : nat => - Z.of_nat i) indices).

Definition addSegment (start end_ : Z) (bitmap : Bitmap.t) (segments : list SegmentBitmap)
    : list SegmentBitmap :=
  if end_ <? start then segments else segments ++ [mkSeg start end_ bitmap].

(** The statement after the loop of [ProcessIntersections]. *)
Definition process_rest (targetEnd : Z) (targetBitmap : Bitmap.t) (currentPos : Z)
    (newSegments : list SegmentBitmap) : list SegmentBitmap :=
  if currentPos <=? targetEnd
  then addSegment currentPos targetEnd targetBitmap newSegments else newSegments.

Fixpoint process_loop (targetEnd : Z) (targetBitmap : Bitmap.t) (intersectSegs : list SegmentBitmap)
    (currentPos : Z) (newSegments : list SegmentBitmap) : list SegmentBitmap :=
  match intersectSegs with
  | [] => process_rest targetEnd targetBitmap currentPos newSegments
  | seg :: r =>
      let '(newSegments, currentPos) :=
        if currentPos <? seg_start seg
        then (addSegment currentPos (u16 (seg_start seg - 1)) targetBitmap newSegments, seg_start seg)
        else (newSegments, currentPos) in
      let newSegments :=
        if seg_start seg <? currentPos
        then addSegment (seg_start seg) (u16 (currentPos - 1)) (seg_bitmap seg) newSegments
        else newSegments in
      let overlapEnd := Z.min targetEnd (seg_end seg) in
      let mergedBitmap := Bitmap.Or (seg_bitmap seg) targetBitmap in
      let newSegments := addSegment currentPos overlapEnd mergedBitmap newSegments in
      if overlapEnd =? UINT16_MAX then newSegments
      else
        let currentPos := u16 (overlapEnd + 1) in
        let newSegments :=
          if currentPos <=? seg_end seg
          then addSegment currentPos (seg_end seg) (seg_bitmap seg) newSegments
          else newSegments in
        if targetEnd <? currentPos
        then process_rest targetEnd targetBitmap currentPos newSegments
        else process_loop targetEnd targetBitmap r currentPos newSegments
  end.

Definition ProcessIntersections (targetStart targetEnd : Z) (targetBitmap : Bitmap.t)
    (intersectIndices : list nat) (segments : list SegmentBitmap) : list SegmentBitmap :=
  let intersectSegs := omap (fun idx => segments !! idx) intersectIndices in
  process_loop targetEnd targetBitmap (sort_by seg_start intersectSegs) targetStart [].

(** [std::lower_bound] on [start] followed by [vector::insert]. *)
Fixpoint insert_lower_bound (seg : SegmentBitmap) (segments : list SegmentBitmap)
    : list SegmentBitmap :=
  match segments with
  | [] => [seg]
  | a :: r => if seg_start a <? seg_start seg then a :: insert_lower_bound seg r
              else seg :: a :: r
  end.

Definition InsertNewSegments (newSegments segments : list SegmentBitmap) : list SegmentBitmap :=
  foldl (fun segs seg => if negb (isValid seg) then segs else insert_lower_bound seg segs)
    segments newSegments.

Definition AddMap (start end_ : Z) (bitmap : Bitmap.t) (segments : list SegmentBitmap)
    : list SegmentBitmap :=
  if end_ <? start then segments
  else
    let intersectIndices := CollectIntersectIndices start end_ segments in
    let newSegments := ProcessIntersections start end_ bitmap intersectIndices segments in
    InsertNewSegments newSegments (RemoveSegments intersectIndices segments).

(** ** [BitmapManager::GetPortRangeAndMask] *)

Record portRule := mkPortRule { pr_prefixlen : Z; pr_data : Z }.

Definition PORT_MAX_MASK : Z := 16.

(** [while (temp > 0 && (temp & 1) == 0)]: the inner loops run at most once
    per bit of a 32-bit word, the fuel given to each of them. *)
Fixpoint suffix_zeros (fuel : nat) (temp suffixZeros : Z) : Z :=
  match fuel with
  | O => suffixZeros
  | S fuel => if (0 <? temp) && (Z.land temp 1 =? 0)
              then suffix_zeros fuel (Z.shiftr temp 1) (suffixZeros + 1) else suffixZeros
  end.

Fixpoint shrink_block (fuel : nat) (blockSize remaining : Z) : Z :=
  match fuel with
  | O => blockSize
  | S fuel => if remaining <? blockSize
              then shrink_block fuel (Z.shiftr blockSize 1) remaining else blockSize
  end.

Fixpoint block_mask (fuel : nat) (tempSize mask : Z) : Z :=
  match fuel with
  | O => mask
  | S fuel => if 1 <? tempSize then block_mask fuel (Z.shiftr tempSize 1) (mask - 1) else mask
  end.

Fixpoint port_range_loop (fuel : nat) (start end_ : Z) (list_ : list portRule) : list portRule :=
  match fuel with
  | O => list_
  | S fuel =>
      if start <=? end_ then
        let suffixZeros := suffix_zeros 32 start 0 in
        let maxBlock := u32 (Z.shiftl 1 suffixZeros) in
        let remaining := u32 (end_ - start + 1) in
        let blockSize := shrink_block 32 maxBlock remaining in
        let mask := block_mask 32 blockSize PORT_MAX_MASK in
        port_range_loop fuel (u32 (start + blockSize)) end_
          (list_ ++ [mkPortRule (u16 mask) (u16 start)])
      else list_
  end.

(** [-1] for an inverted range, otherwise the blocks. *)
Definition GetPortRangeAndMask (startPort endPort : Z) : Z * list portRule :=
  if endPort <? startPort then (-1, [])
  else (0, port_range_loop (Z.to_nat (endPort - startPort + 1)) startPort endPort []).

(** ** [BpfPortMap] *)

Record portRuleBitmap := mkPortBitmap { pb_prefixlen : Z; pb_data : Z; pb_bitmap : Bitmap.t }.

Definition port_OrForEach (bitmap : Bitmap.t) (v : list portRuleBitmap) : list portRuleBitmap :=
  (fun it => mkPortBitmap (pb_prefixlen it) (pb_data it) (Bitmap.Or (pb_bitmap it) bitmap)) <$> v.

Fixpoint port_OrInsert (start mask : Z) (bitmap : Bitmap.t) (v : list portRuleBitmap)
    : list portRuleBitmap :=
  match v with
  | [] => [mkPortBitmap mask start bitmap]
  | it :: r =>
      if (pb_data it =? start) && (pb_prefixlen it =? mask)
      then mkPortBitmap (pb_prefixlen it) (pb_data it) (Bitmap.Or (pb_bitmap it) bitmap) :: r
      else it :: port_OrInsert start mask bitmap r
  end.

(** [BitmapManager::OrInsertPortBitmap]. *)
Definition insert_port_rule (bitmap : Bitmap.t) (portMap : list portRuleBitmap) (rule : portRule)
    : list portRuleBitmap :=
  if PORT_MAX_MASK <? pr_prefixlen rule then portMap
  else port_OrInsert (htons (pr_data rule)) (pr_prefixlen rule) bitmap portMap.

Definition OrInsertPortBitmap (portSegMap : list SegmentBitmap) (portMap : list portRuleBitmap)
    : list portRuleBitmap :=
  foldl (fun portMap item =>
    let '(ret, portRules) := GetPortRangeAndMask (seg_start item) (seg_end item) in
    if negb (ret =? 0) then portMap
    else foldl (insert_port_rule (seg_bitmap item)) portMap portRules)
  portMap portSegMap.

(** [BitmapManager::AddPortBitmap]; a range is a pair (startPort, endPort). *)
Definition AddPortBitmap (port : list (Z * Z)) (bitmap : Bitmap.t) (portMap : list SegmentBitmap)
    : list SegmentBitmap :=
  foldl (fun portMap item =>
    if fst item =? 0 then portMap
    else if fst item <=? snd item then AddMap (fst item) (snd item) bitmap portMap
    else portMap)
  portMap port.

Example port_blocks : GetPortRangeAndMask 1 6 =
  (0, [mkPortRule 16 1; mkPortRule 15 2; mkPortRule 15 4; mkPortRule 16 6]).
Proof. vm_compute. reflexivity. Qed.

(** ** Segments: the invariant and the meaning *)

(** Non-empty segments of 16-bit ports, in order, without overlap. *)
Fixpoint chain (lo : Z) (segs : list SegmentBitmap) : Prop :=
  match segs with
  | [] => True
  | s :: r => lo <= seg_start s <= seg_end s /\ seg_end s <= UINT16_MAX /\
              Bitmap.ok (seg_bitmap s) /\ chain (seg_end s + 1) r
  end.

Definition covers (s : SegmentBitmap) (p : Z) : bool := (seg_start s <=? p) && (p <=? seg_end s).

(** The bitmap a segment list gives to a port. *)
Fixpoint seg_at (segs : list SegmentBitmap) (p : Z) : option Bitmap.t :=
  match segs with
  | [] => None
  | s :: r => if covers s p then Some (seg_bitmap s) else seg_at r p
  end.

Lemma seg_at_app l1 l2 p :
  seg_at (l1 ++ l2) p = match seg_at l1 p with Some b => Some b | None => seg_at l2 p end.
Proof. induction l1 as [|s r IH]; simpl; [done|]. by destruct (covers s p). Qed.

Lemma chain_weaken lo lo' segs : lo' <= lo -> chain lo segs -> chain lo' segs.
Proof. destruct segs; simpl; [done|]. intros ? (? & ? & ? & ?). split_and!; try done; lia. Qed.

Lemma chain_app lo l1 l2 : chain lo (l1 ++ l2) <->
  chain lo l1 /\ chain (foldl (fun _ s => seg_end s + 1) lo l1) l2.
Proof. revert lo. induction l1 as [|s r IH]; intros lo; simpl; [tauto|]. rewrite IH. tauto. Qed.

Lemma chain_starts lo segs : chain lo segs ->
  Forall (fun s => lo <= seg_start s /\ seg_start s <= seg_end s <= UINT16_MAX /\
                   Bitmap.ok (seg_bitmap s)) segs.
Proof.
  revert lo. induction segs as [|s r IH]; intros lo; simpl; [by constructor|].
  intros (H1 & H2 & H3 & H4). constructor; [split_and!; lia || done|].
  eapply Forall_impl; [apply (IH _ H4)|]. intros x (? & ? & ?). split_and!; lia || done.
Qed.

Lemma chain_increasing lo segs : chain lo segs -> increasing seg_start segs.
Proof.
  revert lo. induction segs as [|s r IH]; intros lo; simpl; [done|].
  intros (H1 & H2 & H3 & H4). split; [|by eapply IH].
  eapply Forall_impl; [apply (chain_starts _ _ H4)|]. intros x (? & ? & ?). lia.
Qed.

Lemma seg_at_below lo segs p : chain lo segs -> p < lo -> seg_at segs p = None.
Proof.
  revert lo. induction segs as [|s r IH]; intros lo; simpl; [done|].
  intros (H1 & H2 & H3 & H4) Hp. unfold covers.
  rewrite (proj2 (Z.leb_gt (seg_start s) p)) by lia. apply (IH _ H4). lia.
Qed.

Lemma seg_at_ok lo segs p b : chain lo segs -> seg_at segs p = Some b ->
  Bitmap.ok b /\ lo <= p <= UINT16_MAX.
Proof.
  revert lo. induction segs as [|s r IH]; intros lo; simpl; [done|].
  intros (H1 & H2 & H3 & H4). unfold covers.
  destruct (Z.leb_spec (seg_start s) p); simpl; [|by intros H'; apply (IH _ H4) in H' as [??]; split; [done|lia]].
  destruct (Z.leb_spec p (seg_end s)); intros H'; [simplify_eq; split; [done|lia]|].
  apply (IH _ H4) in H' as [??]. split; [done|lia].
Qed.

(** Cutting a list at a target range: before, intersecting, after. *)
Definition meets (s e : Z) (seg : SegmentBitmap) : Prop := seg_start seg <= e /\ s <= seg_end seg.

Lemma chain_split lo segs s e : s <= e -> chain lo segs -> exists A I B,
  segs = A ++ I ++ B /\ Forall (fun x => seg_end x < s) A /\ Forall (meets s e) I /\
  Forall (fun x => e < seg_start x) B.
Proof.
  intros Hse. revert lo. induction segs as [|x r IH]; intros lo Hc; [by exists [], [], []|].
  simpl in Hc. destruct Hc as (H1 & H2 & H3 & H4).
  destruct (IH _ H4) as (A & I & B & -> & HA & HI & HB).
  destruct (Z_lt_le_dec (seg_end x) s) as [Hlt|Hge].
  { exists (x :: A), I, B. split_and!; try done. by constructor. }
  assert (A = []) as ->.
  { destruct A as [|y A]; [done|]. apply Forall_cons in HA as [Hy _].
    simpl in H4. destruct H4 as (? & _). exfalso; lia. }
  destruct (Z_lt_le_dec e (seg_start x)) as [Hgt|Hle].
  - exists [], [], (x :: I ++ B). split_and!; try done. constructor; [done|].
    eapply Forall_impl; [apply (chain_starts _ _ H4)|]. intros y (? & _). lia.
  - exists [], (x :: I), B. split_and!; try done. by constructor.
Qed.

(** The indices collected are those of the middle part. *)
Lemma collect_split s e A I B : s <= e ->
  Forall (fun x => seg_end x < s) A -> Forall (meets s e) I -> Forall (fun x => e < seg_start x) B ->
  forall i, collect_from i s e (A ++ I ++ B) = seq (i + length A) (length I).
Proof.
  intros Hse HA HI HB. induction HA as [|x A Hx HA IH]; intros i; simpl.
  - rewrite Nat.add_0_r. revert i. induction HI as [|x I [Hx1 Hx2] HI IH]; intros i; simpl.
    + revert i. induction HB as [|x B Hx HB IH]; intros i; simpl; [done|].
      rewrite (proj2 (Z.ltb_lt e (seg_start x))) by lia. apply IH.
    + rewrite (proj2 (Z.ltb_ge e _)), (proj2 (Z.ltb_ge _ s)) by lia. simpl. by rewrite IH.
  - rewrite (proj2 (Z.ltb_lt (seg_end x) s)), orb_true_r by lia. simpl. rewrite IH. f_equal. lia.
Qed.

Lemma lookup_middle_run (A I B : list SegmentBitmap) :
  omap (fun idx => (A ++ I ++ B) !! idx) (seq (length A) (length I)) = I.
Proof.
  revert A. induction I as [|x I IH]; intros A; [done|]. cbn [length seq].
  assert (E : (A ++ (x :: I) ++ B) !! length A = Some x) by (by apply list_lookup_middle).
  cbn [omap list_omap]. rewrite E. f_equal.
  specialize (IH (A ++ [x])). rewrite length_app in IH. simpl in IH.
  rewrite <- app_assoc in IH. simpl in IH. by rewrite Nat.add_1_r in IH.
Qed.

Lemma remove_middle A I B :
  RemoveSegments (seq (length A) (length I)) (A ++ I ++ B) = A ++ B.
Proof.
  unfold RemoveSegments. rewrite sort_by_desc_seq.
  induction I as [|x I IH] using rev_ind; [done|].
  rewrite length_app, Nat.add_1_r, seq_S, reverse_snoc. cbn [foldl].
  rewrite <- app_assoc, !length_app. cbn [length app].
  rewrite (proj2 (Nat.ltb_lt _ _)) by lia.
  replace (delete (length A + length I)%nat (A ++ I ++ x :: B)) with (A ++ I ++ B); [done|].
  rewrite (app_assoc A), (app_assoc A I). rewrite <- length_app. symmetry. apply delete_middle.
Qed.

(** Inserting an increasing run between two parts of a list. *)
Lemma insert_lower_bound_mid A x B :
  Forall (fun a => seg_start a < seg_start x) A -> Forall (fun b => seg_start x < seg_start b) B ->
  insert_lower_bound x (A ++ B) = A ++ x :: B.
Proof.
  intros HA HB. induction HA as [|a A Ha HA IH]; simpl.
  - destruct HB as [|b B Hb HB]; simpl; [done|]. by rewrite (proj2 (Z.ltb_ge _ _)) by lia.
  - by rewrite (proj2 (Z.ltb_lt _ _)), IH by lia.
Qed.

Lemma insert_run N A B :
  Forall (fun n => isValid n = true) N -> increasing seg_start (A ++ N ++ B) ->
  InsertNewSegments N (A ++ B) = A ++ N ++ B.
Proof.
  unfold InsertNewSegments. revert A. induction N as [|n N IH]; intros A HN Hinc; [done|].
  apply Forall_cons in HN as [Hn HN]. cbn [foldl]. rewrite Hn. cbn [negb].
  apply increasing_app in Hinc as (HA & HnB & Hcross). simpl in HnB. destruct HnB as [Hnlt HNB].
  rewrite insert_lower_bound_mid.
  - specialize (IH (A ++ [n]) HN). rewrite <- !app_assoc in IH. simpl in IH. apply IH.
    apply increasing_app. split_and!; [done|by split|done].
  - eapply Forall_impl; [apply Hcross|]. simpl. intros y Hy. by apply Forall_cons in Hy as [? _].
  - by apply Forall_app in Hnlt as [_ ?].
Qed.

Lemma addSegment_valid s e b acc : s <= e -> addSegment s e b acc = acc ++ [mkSeg s e b].
Proof. intros H. unfold addSegment. by rewrite (proj2 (Z.ltb_ge _ _)) by lia. Qed.

Lemma addSegment_app s e b acc : addSegment s e b acc = acc ++ addSegment s e b [].
Proof. unfold addSegment. case_match; [by rewrite app_nil_r|done]. Qed.

Lemma process_loop_acc e tb I cur acc :
  process_loop e tb I cur acc = acc ++ process_loop e tb I cur [].
Proof.
  assert (R : forall c a, process_rest e tb c a = a ++ process_rest e tb c []).
  { intros c a. unfold process_rest. case_match; [apply addSegment_app|by rewrite app_nil_r]. }
  revert cur acc. induction I as [|seg r IH]; intros cur acc; [apply R|]. cbn [process_loop].
  set (P := if cur <? seg_start seg then _ else (acc, cur)).
  set (Q := if cur <? seg_start seg then _ else ([], cur)).
  assert (HPQ : P = (acc ++ fst Q, snd Q)).
  { unfold P, Q. destruct (cur <? seg_start seg); simpl; [by rewrite addSegment_app|by rewrite app_nil_r]. }
  rewrite HPQ. destruct Q as [a c]; simpl.
  assert (S1 : forall (t : bool) x y b k, (if t then addSegment x y b (acc ++ k) else acc ++ k)
      = acc ++ (if t then addSegment x y b k else k)).
  { intros [] x y b k; [|done]. by rewrite addSegment_app, (addSegment_app _ _ _ k), app_assoc. }
  assert (S2 : forall x y b k, addSegment x y b (acc ++ k) = acc ++ addSegment x y b k)
    by (intros; apply (S1 true)).
  rewrite S1, S2. destruct (_ =? UINT16_MAX); [done|]. rewrite S1.
  destruct (e <? _).
  - match goal with |- process_rest _ _ ?c (acc ++ ?k) = _ => rewrite (R c (acc ++ k)), (R c k) end.
    by rewrite app_assoc.
  - match goal with |- process_loop _ _ _ ?c (acc ++ ?k) = _ => rewrite (IH c (acc ++ k)), (IH c k) end.
    by rewrite app_assoc.
Qed.

(** The target's bitmap added where the target lies. *)
Definition merged (lo hi : Z) (tb : Bitmap.t) (old : option Bitmap.t) (p : Z) : option Bitmap.t :=
  if (lo <=? p) && (p <=? hi)
  then Some (match old with Some b => Bitmap.Or b tb | None => tb end) else old.

Definition head_start (cur : Z) (I : list SegmentBitmap) : Z :=
  match I with [] => cur | x :: _ => Z.min cur (seg_start x) end.

Ltac zcase :=
  repeat match goal with
  | |- context [?a <=? ?b] => destruct (Z.leb_spec a b); simpl
  | |- context [?a <? ?b] => destruct (Z.ltb_spec a b); simpl
  | |- context [?a =? ?b] => destruct (Z.eqb_spec a b); simpl
  end.

(** One iteration: the part before the overlap, the overlap, what is left. *)
Definition step_before (tb : Bitmap.t) (cur : Z) (x : SegmentBitmap) : list SegmentBitmap :=
  if cur <? seg_start x then [mkSeg cur (seg_start x - 1) tb]
  else if seg_start x <? cur then [mkSeg (seg_start x) (cur - 1) (seg_bitmap x)] else [].

Lemma process_step_tail e tb x r acc :
  0 <= e <= 65535 -> 0 <= seg_end x <= 65535 ->
  (let overlapEnd := Z.min e (seg_end x) in
   if overlapEnd =? 65535 then acc
   else
     let currentPos := u16 (overlapEnd + 1) in
     let newSegments :=
       if currentPos <=? seg_end x then addSegment currentPos (seg_end x) (seg_bitmap x) acc else acc in
     if e <? currentPos then process_rest e tb currentPos newSegments
     else process_loop e tb r currentPos newSegments) =
  acc ++ (if seg_end x <? e then process_loop e tb r (seg_end x + 1) []
          else if e <? seg_end x then [mkSeg (e + 1) (seg_end x) (seg_bitmap x)] else []).
Proof.
  intros He Hx. cbn zeta. destruct (Z.ltb_spec (seg_end x) e).
  - rewrite Z.min_r by lia. rewrite (proj2 (Z.eqb_neq _ _)) by lia.
    rewrite wrap_small by (unfold in_width; lia).
    rewrite (proj2 (Z.leb_gt _ _)), (proj2 (Z.ltb_ge _ _)) by lia. apply process_loop_acc.
  - rewrite Z.min_l by lia. destruct (Z.eqb_spec e 65535).
    + rewrite (proj2 (Z.ltb_ge _ _)) by lia. by rewrite app_nil_r.
    + rewrite wrap_small by (unfold in_width; lia).
      rewrite (proj2 (Z.ltb_lt e (e + 1))) by lia. unfold process_rest.
      rewrite (proj2 (Z.leb_gt (e + 1) e)) by lia.
      destruct (Z.ltb_spec e (seg_end x)).
      * by rewrite (proj2 (Z.leb_le _ _)), addSegment_valid by lia.
      * by rewrite (proj2 (Z.leb_gt _ _)), app_nil_r by lia.
Qed.

Lemma process_step e tb x r cur :
  0 <= cur <= e -> e <= UINT16_MAX -> 0 <= seg_start x <= seg_end x -> seg_end x <= UINT16_MAX ->
  meets cur e x ->
  process_loop e tb (x :: r) cur [] =
  step_before tb cur x ++
  mkSeg (Z.max cur (seg_start x)) (Z.min e (seg_end x)) (Bitmap.Or (seg_bitmap x) tb) ::
  (if seg_end x <? e then process_loop e tb r (seg_end x + 1) []
   else if e <? seg_end x then [mkSeg (e + 1) (seg_end x) (seg_bitmap x)] else []).
Proof.
  unfold UINT16_MAX. intros Hcur He Hx Hx' [M1 M2]. cbn [process_loop]. unfold step_before.
  assert (T : forall acc m, m <= Z.min e (seg_end x) -> forall l,
    l = acc ++ [mkSeg m (Z.min e (seg_end x)) (Bitmap.Or (seg_bitmap x) tb)] -> _)
    by (intros acc m _ l _; exact (process_step_tail e tb x r l ltac:(lia) ltac:(lia))).
  change UINT16_MAX with 65535. cbn zeta in T.
  destruct (Z.ltb_spec cur (seg_start x)) as [L|L].
  - rewrite (Z.ltb_irrefl (seg_start x)), (Z.max_r cur) by lia.
    rewrite (wrap_small 16 (seg_start x - 1)) by (unfold in_width; lia).
    rewrite (addSegment_valid cur) by lia. rewrite (addSegment_valid (seg_start x)) by lia.
    by rewrite (T [mkSeg cur (seg_start x - 1) tb] (seg_start x)) by (done || lia).
  - rewrite (Z.max_l cur) by lia.
    assert (B : (if seg_start x <? cur then addSegment (seg_start x) (u16 (cur - 1)) (seg_bitmap x) []
                 else []) = (if seg_start x <? cur then [mkSeg (seg_start x) (cur - 1) (seg_bitmap x)]
                 else [])).
    { destruct (Z.ltb_spec (seg_start x) cur); [|done].
      rewrite wrap_small by (unfold in_width; lia). by rewrite addSegment_valid by lia. }
    rewrite B, (addSegment_valid cur) by lia. rewrite (T _ cur) by (done || lia).
    by rewrite <- app_assoc.
Qed.

Lemma step_before_chain tb cur x hi N : Bitmap.ok tb -> Bitmap.ok (seg_bitmap x) ->
  0 <= cur -> 0 <= seg_start x -> cur <= UINT16_MAX -> seg_start x <= UINT16_MAX ->
  Z.max cur (seg_start x) <= hi <= UINT16_MAX ->
  chain (hi + 1) N ->
  chain (Z.min cur (seg_start x))
    (step_before tb cur x ++ mkSeg (Z.max cur (seg_start x)) hi (Bitmap.Or (seg_bitmap x) tb) :: N).
Proof.
  intros Hb Hx H1 H2 H3 H4 H5 HN. pose proof (Bitmap.Or_ok _ _ Hx Hb). unfold step_before.
  destruct (Z.ltb_spec cur (seg_start x)), (Z.ltb_spec (seg_start x) cur); simpl;
    split_and!; try done; lia.
Qed.

Lemma step_before_at tb cur x hi N p :
  Z.max cur (seg_start x) <= hi ->
  seg_at (step_before tb cur x ++ mkSeg (Z.max cur (seg_start x)) hi (Bitmap.Or (seg_bitmap x) tb) :: N) p =
  if (Z.min cur (seg_start x) <=? p) && (p <=? hi)
  then merged cur hi tb (if seg_start x <=? p then Some (seg_bitmap x) else None) p
  else seg_at N p.
Proof.
  intros H. rewrite seg_at_app. unfold step_before, merged.
  destruct (Z.ltb_spec cur (seg_start x)), (Z.ltb_spec (seg_start x) cur);
    simpl; unfold covers; simpl; zcase; try done; lia.
Qed.

Lemma process_ok e tb (Hb : Bitmap.ok tb) (He : e <= UINT16_MAX) : forall I cur lo,
  0 <= cur <= e -> 0 <= lo -> chain lo I -> Forall (meets cur e) I ->
  let N := process_loop e tb I cur [] in
  chain (head_start cur I) N /\
  (forall hi, e <= hi -> Forall (fun x => seg_end x <= hi) I -> Forall (fun x => seg_end x <= hi) N) /\
  (forall p, seg_at N p = merged cur e tb (seg_at I p) p).
Proof.
  induction I as [|x r IH]; intros cur lo Hcur Hlo Hc HI; cbn zeta.
  { cbn [process_loop]. unfold process_rest. rewrite (proj2 (Z.leb_le _ _)) by lia.
    rewrite addSegment_valid by lia. simpl. split_and!; try done; try lia. intros. by constructor. }
  apply Forall_cons in HI as [Hx HI]. simpl in Hc. destruct Hc as (C1 & C2 & C3 & C4).
  rewrite process_step by (done || lia). destruct Hx as [Hx1 Hx2].
  pose proof (chain_starts _ _ C4) as St. rewrite Forall_forall in St.
  assert (Hb' : forall hi, e <= hi -> seg_end x <= hi -> Forall (fun y => seg_end y <= hi) (step_before tb cur x)).
  { intros hi ? ?. unfold step_before. zcase; repeat constructor; simpl; lia. }
  destruct (Z.ltb_spec (seg_end x) e) as [L|L].
  - assert (HI' : Forall (meets (seg_end x + 1) e) r).
    { rewrite Forall_forall in HI |- *. intros y Hy. destruct (HI y Hy) as [? ?].
      destruct (St y Hy) as (? & ? & _). split; lia. }
    destruct (IH (seg_end x + 1) (seg_end x + 1)) as (I1 & I2 & I3); try done; [lia..|].
    assert (I1' : chain (seg_end x + 1) (process_loop e tb r (seg_end x + 1) [])).
    { eapply chain_weaken; [|apply I1]. destruct r as [|y r]; simpl; [lia|]. simpl in C4. lia. }
    rewrite Z.min_r by lia. split_and!.
    + apply step_before_chain; done || lia.
    + intros hi Hhi Hends. apply Forall_cons in Hends as [Hex Hends].
      apply Forall_app; split; [by apply Hb'|]. constructor; [done|by apply I2].
    + intros p. rewrite step_before_at, I3 by lia. unfold merged, covers. simpl. unfold covers.
      destruct (Z_lt_le_dec (seg_end x) p); [zcase; try done; lia|].
      rewrite (seg_at_below _ _ p C4) by lia. zcase; try done; lia.
  - assert (r = []) as ->.
    { destruct r as [|y r]; [done|exfalso]. apply Forall_cons in HI as [[? ?] _].
      destruct (St y) as (? & _); [by left|]. lia. }
    rewrite Z.min_l by lia. split_and!.
    + apply step_before_chain; try done; try lia.
      destruct (Z.ltb_spec e (seg_end x)); simpl; [split_and!; done || lia|done].
    + intros hi Hhi Hends. apply Forall_cons in Hends as [Hex Hends].
      apply Forall_app; split; [by apply Hb'|]. constructor; [done|]. zcase; by repeat constructor.
    + intros p. rewrite step_before_at by lia. unfold merged. simpl. unfold covers.
      zcase; unfold covers; simpl; zcase; try done; lia.
Qed.

Lemma chain_app_lt lo l1 l2 : chain lo (l1 ++ l2) ->
  Forall (fun x => Forall (fun y => seg_end x < seg_start y) l2) l1.
Proof.
  revert lo. induction l1 as [|x r IH]; intros lo; simpl; [done|].
  intros (? & ? & ? & C). constructor; [|by eapply IH].
  pose proof (chain_starts _ _ C) as F. apply Forall_app in F as [_ F].
  eapply Forall_impl; [exact F|]. simpl. lia.
Qed.

Lemma chain_join lo k l1 l2 : lo <= k -> chain lo l1 -> Forall (fun x => seg_end x < k) l1 ->
  chain k l2 -> chain lo (l1 ++ l2).
Proof.
  revert lo. induction l1 as [|x r IH]; intros lo Hk C1 F C2; [by eapply chain_weaken|].
  simpl in *. destruct C1 as (? & ? & ? & C1). apply Forall_cons in F as [? F].
  split_and!; try done; try lia. apply IH; done || lia.
Qed.

Lemma chain_raise lo k l : chain lo l -> Forall (fun x => k <= seg_start x) l -> chain k l.
Proof.
  destruct l as [|x r]; [done|]. simpl. intros (? & ? & ? & C) F. apply Forall_cons in F as [? _].
  split_and!; done || lia.
Qed.

Lemma chain_app_inv lo l1 l2 : chain lo (l1 ++ l2) -> chain lo l1 /\ exists lo', lo <= lo' /\ chain lo' l2.
Proof.
  revert lo. induction l1 as [|x r IH]; intros lo; simpl.
  - intros C. split; [done|]. exists lo. split; [lia|done].
  - intros (? & ? & ? & C). destruct (IH _ C) as (C' & lo' & ? & ?).
    split; [done|]. exists lo'. split; [lia|done].
Qed.

Lemma seg_at_None segs p : Forall (fun x => p < seg_start x \/ seg_end x < p) segs -> seg_at segs p = None.
Proof.
  induction 1 as [|x r Hx _ IH]; simpl; [done|]. unfold covers. zcase; done || lia.
Qed.

(** The middle part of [AddMap] on a list cut at the target. *)
Lemma AddMap_split s e b A I B : 0 <= s <= e -> e <= UINT16_MAX -> Bitmap.ok b ->
  chain 0 (A ++ I ++ B) -> Forall (fun x => seg_end x < s) A -> Forall (meets s e) I ->
  Forall (fun x => e < seg_start x) B ->
  AddMap s e b (A ++ I ++ B) = A ++ process_loop e b I s [] ++ B /\
  chain 0 (A ++ process_loop e b I s [] ++ B).
Proof.
  intros Hs He Hb C HA HI HB.
  destruct (chain_app_inv _ _ _ C) as (CA & k & Hk & CIB).
  destruct (chain_app_inv _ _ _ CIB) as (CI & k' & Hk' & CB).
  pose proof (chain_app_lt _ _ _ C) as LA. pose proof (chain_app_lt _ _ _ CIB) as LI.
  set (N := process_loop e b I s []).
  destruct (process_ok e b Hb He I s k) as (N1 & N2 & _); try done. fold N in N1, N2.
  assert (CN : chain 0 (A ++ N ++ B)).
  { apply (chain_join _ (head_start s I)); try done.
    - destruct I as [|x I]; simpl; [lia|]. simpl in CI. lia.
    - rewrite Forall_forall in HA, LA |- *. intros x Hx. specialize (HA x Hx). specialize (LA x Hx).
      destruct I as [|y I]; simpl; [done|]. apply Forall_cons in LA as [? _]. lia.
    - pose (hi := match B with [] => UINT16_MAX | y :: _ => seg_start y - 1 end).
      assert (Hhi : e <= hi /\ Forall (fun x => seg_end x <= hi) I /\ chain (hi + 1) B).
      { unfold hi. destruct B as [|y B].
        - split_and!; try done. eapply Forall_impl; [apply (chain_starts _ _ CI)|]. simpl. lia.
        - apply Forall_cons in HB as [? HB]. split_and!; [lia| |].
          + eapply Forall_impl; [apply LI|]. simpl. intros x Hx. apply Forall_cons in Hx as [? _]. lia.
          + eapply chain_raise; [exact CB|]. constructor; [lia|]. simpl in CB. destruct CB as (? & ? & ? & CB).
            eapply Forall_impl; [apply (chain_starts _ _ CB)|]. simpl. lia. }
      destruct Hhi as (H1 & H2 & H3). apply (chain_join _ (hi + 1)); try done.
      + destruct I as [|x I]; simpl; lia.
      + eapply Forall_impl; [apply (N2 hi H1 H2)|]. simpl. lia. }
  split; [|done]. unfold AddMap. rewrite (proj2 (Z.ltb_ge _ _)) by lia.
  unfold CollectIntersectIndices, ProcessIntersections.
  rewrite (collect_split s e A I B) by (done || lia). rewrite Nat.add_0_l.
  rewrite lookup_middle_run, remove_middle, (sort_by_increasing seg_start I) by (by eapply chain_increasing).
  fold N. apply insert_run; [|by eapply chain_increasing].
  destruct (chain_app_inv _ _ _ CN) as (_ & k2 & _ & CNB).
  destruct (chain_app_inv _ _ _ CNB) as (CN' & _).
  eapply Forall_impl; [apply (chain_starts _ _ CN')|]. simpl. intros x (? & ? & _). apply Z.leb_le. lia.
Qed.

Lemma AddMap_spec s e b segs : 0 <= s -> e <= UINT16_MAX -> Bitmap.ok b -> chain 0 segs ->
  chain 0 (AddMap s e b segs) /\
  forall p, seg_at (AddMap s e b segs) p = merged s e b (seg_at segs p) p.
Proof.
  intros Hs He Hb C. destruct (Z_lt_le_dec e s) as [Hlt|Hle].
  { unfold AddMap. rewrite (proj2 (Z.ltb_lt _ _)) by lia. split; [done|].
    intros p. unfold merged. zcase; done || lia. }
  destruct (chain_split _ _ s e Hle C) as (A & I & B & -> & HA & HI & HB).
  destruct (AddMap_split s e b A I B) as [E CN]; try done.
  rewrite E. split; [done|]. intros p.
  destruct (chain_app_inv _ _ _ C) as (_ & k & Hk & CIB).
  destruct (chain_app_inv _ _ _ CIB) as (CI & _).
  destruct (process_ok e b Hb He I s k) as (_ & _ & N3); try done.
  rewrite !seg_at_app, N3. unfold merged.
  destruct (Z.leb_spec s p), (Z.leb_spec p e); simpl; try done.
  rewrite (seg_at_None A p), (seg_at_None B p); [by destruct (seg_at I p)|..].
  - eapply Forall_impl; [exact HB|]. simpl. lia.
  - eapply Forall_impl; [exact HA|]. simpl. lia.
Qed.

(** [SegmentBitmapMap::AddMap] keeps the segments ordered and disjoint,
    and changes the bitmap of a port exactly when the port lies in the added
    range, where the new rule is or-ed onto the rules already there. *)
Theorem AddMap_correct s e b segs : 0 <= s -> e <= UINT16_MAX -> Bitmap.ok b -> chain 0 segs ->
  chain 0 (AddMap s e b segs) /\
  forall p, seg_at (AddMap s e b segs) p = merged s e b (seg_at segs p) p.
Proof. apply AddMap_spec. Qed.

Lemma AddMap_correct_witness :
  let segs := [mkSeg 80 90 (Bitmap.make_n 0); mkSeg 100 200 (Bitmap.make_n 1)] in
  chain 0 (AddMap 85 120 (Bitmap.make_n 2) segs) /\
  seg_at (AddMap 85 120 (Bitmap.make_n 2) segs) 110 =
    Some (Bitmap.Or (Bitmap.make_n 1) (Bitmap.make_n 2)).
Proof.
  intros segs.
  destruct (AddMap_correct 85 120 (Bitmap.make_n 2) segs) as [C P]; try (unfold UINT16_MAX; lia).
  - by apply Bitmap.make_n_ok.
  - simpl. unfold UINT16_MAX. split_and!; lia || done || by apply Bitmap.make_n_ok.
  - split; [exact C|]. rewrite (P 110). reflexivity.
Defined.

(** ** Cutting a segment into aligned blocks *)

Lemma land_1 x : Z.land x 1 = x mod 2.
Proof. change 1 with (Z.ones 1). by rewrite Z.land_ones by lia. Qed.

Lemma suffix_zeros_spec fuel : forall temp acc, 0 <= temp < 2 ^ Z.of_nat fuel ->
  exists k, suffix_zeros fuel temp acc = acc + k /\ 0 <= k <= Z.of_nat fuel /\
    temp mod 2 ^ k = 0 /\ (0 < temp -> 2 ^ k <= temp).
Proof.
  induction fuel as [|fuel IH]; intros temp acc Ht.
  - exists 0. simpl in *. replace temp with 0 by lia. split_and!; try done; lia.
  - rewrite Nat2Z.inj_succ, Z.pow_succ_r in Ht by lia. cbn [suffix_zeros].
    destruct (Z.ltb_spec 0 temp); simpl.
    2: { exists 0. replace temp with 0 by lia. split_and!; try done; lia. }
    rewrite land_1. destruct (Z.eqb_spec (temp mod 2) 0) as [E|E].
    + rewrite Z.shiftr_div_pow2 by lia. change (2 ^ 1) with 2.
      pose proof (Z.div_mod temp 2). assert (0 < temp / 2) by lia.
      destruct (IH (temp / 2) (acc + 1)) as (k & Ek & Hk & Hm & Hp); [lia|].
      exists (k + 1). split; [lia|]. split; [lia|].
      rewrite Z.pow_add_r, Z.mul_comm by lia. change (2 ^ 1) with 2.
      specialize (Hp ltac:(lia)). split; [|lia].
      replace temp with (2 * (temp / 2)) at 1 by lia.
      rewrite Z.mul_mod_distr_l by (pose proof (Prefix.pow2_pos k); lia). lia.
    + exists 0. split_and!; try lia. apply Z.mod_1_r.
Qed.

Lemma shrink_block_spec fuel : forall j remaining, 0 <= j <= Z.of_nat fuel -> 1 <= remaining ->
  exists i, shrink_block fuel (2 ^ j) remaining = 2 ^ i /\ 0 <= i <= j /\ 2 ^ i <= remaining.
Proof.
  induction fuel as [|fuel IH]; intros j remaining Hj Hr; cbn [shrink_block].
  - exists 0. replace j with 0 by lia. split_and!; done || lia.
  - destruct (Z.ltb_spec remaining (2 ^ j)) as [L|L]; [|exists j; split_and!; done || lia].
    assert (Hj1 : 1 <= j).
    { destruct (Z.eq_dec j 0) as [->|]; [simpl in L; lia|lia]. }
    destruct (IH (j - 1) remaining) as (i & E & Hi & Hle); [lia..|].
    exists i. split_and!; try lia. rewrite Z.shiftr_div_pow2 by lia.
    rewrite <- E. f_equal. rewrite Z.pow_sub_r by lia. done.
Qed.

Lemma block_mask_spec fuel : forall i mask, 0 <= i <= Z.of_nat fuel ->
  block_mask fuel (2 ^ i) mask = mask - i.
Proof.
  induction fuel as [|fuel IH]; intros i mask Hi; cbn [block_mask].
  - lia.
  - destruct (Z.ltb_spec 1 (2 ^ i)) as [L|L].
    + assert (1 <= i) by (destruct (Z.eq_dec i 0) as [->|]; [simpl in L; lia|lia]).
      rewrite Z.shiftr_div_pow2, <- Z.pow_sub_r, IH by lia. lia.
    + destruct (Z.eq_dec i 0) as [->|]; [lia|].
      pose proof (Z.pow_gt_1 2 i). lia.
Qed.

Lemma mod_pow2_le a i k : 0 <= i <= k -> a mod 2 ^ k = 0 -> a mod 2 ^ i = 0.
Proof.
  intros Hi E. apply Z.mod_divide in E; [|apply Z.pow_nonzero; lia].
  apply Z.mod_divide; [apply Z.pow_nonzero; lia|].
  etransitivity; [|exact E]. exists (2 ^ (k - i)). rewrite <- Z.pow_add_r by lia. f_equal. lia.
Qed.

Definition block_of (r : portRule) : Z * Z := (pr_data r, pr_prefixlen r).

(** Enough fuel: one unit per remaining port. *)
Lemma port_range_tiles fuel : forall start end_ acc,
  0 <= start -> end_ <= UINT16_MAX -> start <= end_ + 1 -> end_ - start + 1 <= Z.of_nat fuel ->
  exists rules, port_range_loop fuel start end_ acc = acc ++ rules /\
    Prefix.tiles 16 start (block_of <$> rules) end_.
Proof.
  unfold UINT16_MAX. induction fuel as [|fuel IH]; intros start end_ acc Hs He Hse Hf; cbn [port_range_loop].
  - exists []. rewrite app_nil_r. simpl. split; [done|lia].
  - destruct (Z.leb_spec start end_) as [L|L]; [|exists []; rewrite app_nil_r; simpl; split; [done|lia]].
    destruct (suffix_zeros_spec 32 start 0) as (k & Ek & Hk & Hm & Hp); [lia|].
    rewrite Ek, Z.add_0_l, Z.shiftl_1_l.
    assert (Hk16 : k < 32).
    { destruct (Z.eq_dec start 0) as [E0|]; [|]. 
      - subst start. vm_compute in Ek. lia.
      - specialize (Hp ltac:(lia)). apply (Z.pow_lt_mono_r_iff 2); lia. }
    rewrite (wrap_small 32 (2 ^ k)) by
      (split; [apply Z.pow_nonneg; lia|apply Z.pow_lt_mono_r; lia]).
    rewrite (wrap_small 32 (end_ - start + 1)) by (unfold in_width; lia).
    destruct (shrink_block_spec 32 k (end_ - start + 1)) as (i & Ei & Hi & Hle); [lia..|].
    rewrite Ei, block_mask_spec by lia.
    pose proof (Prefix.pow2_pos i ltac:(lia)).
    assert (i <= 16).
    { destruct (Z_lt_le_dec 16 i) as [Hgt|]; [|done].
      assert (2 ^ 17 <= 2 ^ i) by (apply Z.pow_le_mono_r; lia). lia. }
    rewrite (wrap_small 16 (PORT_MAX_MASK - i)) by (unfold in_width, PORT_MAX_MASK; lia).
    rewrite (wrap_small 16 start), (wrap_small 32 (start + 2 ^ i)) by (unfold in_width; lia).
    destruct (IH (start + 2 ^ i) end_ (acc ++ [mkPortRule (PORT_MAX_MASK - i) start]))
      as (rules & E & T); [lia..|].
    exists (mkPortRule (PORT_MAX_MASK - i) start :: rules). split; [by rewrite E, <- app_assoc|].
    unfold PORT_MAX_MASK in *. simpl. replace (16 - (16 - i)) with i in * by lia.
    split_and!; try done; [lia..|]. unfold Prefix.aligned. replace (16 - (16 - i)) with i by lia.
    by apply (mod_pow2_le _ _ k).
Qed.

Lemma GetPortRangeAndMask_spec s e : in_width 16 s -> in_width 16 e ->
  if e <? s then GetPortRangeAndMask s e = (-1, [])
  else exists rules, GetPortRangeAndMask s e = (0, rules) /\
         Prefix.tiles 16 s (block_of <$> rules) e.
Proof.
  unfold in_width, GetPortRangeAndMask. intros Hs He. destruct (Z.ltb_spec e s); [done|].
  destruct (port_range_tiles (Z.to_nat (e - s + 1)) s e []) as (rules & E & T);
    unfold UINT16_MAX; try lia.
  exists rules. by rewrite E.
Qed.

(** [GetPortRangeAndMask] terminates and returns aligned prefix blocks
    that tile the range exactly; an inverted range is an error. *)
Theorem GetPortRangeAndMask_correct s e : in_width 16 s -> in_width 16 e ->
  if e <? s then GetPortRangeAndMask s e = (-1, [])
  else exists rules, GetPortRangeAndMask s e = (0, rules) /\
         Prefix.tiles 16 s (block_of <$> rules) e.
Proof. apply GetPortRangeAndMask_spec. Qed.

Lemma GetPortRangeAndMask_correct_witness :
  exists rules, GetPortRangeAndMask 1000 2000 = (0, rules) /\
    Prefix.tiles 16 1000 (block_of <$> rules) 2000.
Proof. apply (GetPortRangeAndMask_correct 1000 2000); unfold in_width; lia. Defined.

(** ** The trie entries of all segments *)

Definition port_conv (x : Z * Z * Bitmap.t) : portRuleBitmap :=
  mkPortBitmap (snd (fst x)) (htons (fst (fst x))) (snd x).

Definition port_entry (it : portRuleBitmap) : Z * Z * Bitmap.t :=
  (ntohs (pb_data it), pb_prefixlen it, pb_bitmap it).

(** The bitmap the kernel finds for port [p] (host order) in the trie. *)
Definition port_lpm (v : list portRuleBitmap) (p : Z) : option Bitmap.t :=
  Prefix.lpm 16 (port_entry <$> v) p.

Lemma port_OrInsert_new s l b es : in_width 16 s ->
  Forall (fun x => 0 <= fst (fst x) < s) es ->
  port_OrInsert (htons s) l b (port_conv <$> es) = port_conv <$> (es ++ [(s, l, b)]).
Proof.
  intros Hs F. induction F as [|[[d l'] b'] es Hd F IH]; [done|]. cbn in *.
  destruct (Z.eqb_spec (htons d) (htons s)) as [E|E]; simpl; [|by rewrite IH].
  apply htons_inj in E; unfold in_width in *; lia.
Qed.

Lemma insert_rules b rules : forall s e es, 0 <= s -> e <= UINT16_MAX ->
  Prefix.tiles 16 s (block_of <$> rules) e -> Forall (fun x => 0 <= fst (fst x) < s) es ->
  foldl (insert_port_rule b) (port_conv <$> es) rules =
  port_conv <$> (es ++ ((fun x => (fst x, snd x, b)) <$> (block_of <$> rules))).
Proof.
  unfold UINT16_MAX. induction rules as [|[l d] r IH]; intros s e es Hs He T F; cbn [fmap list_fmap foldl].
  - by rewrite app_nil_r.
  - cbn in T. destruct T as (-> & Hl & Ha & T). pose proof (Prefix.tiles_bound _ _ _ _ T).
    pose proof (Prefix.pow2_pos (16 - l) ltac:(lia)).
    unfold insert_port_rule at 2. cbn [pr_prefixlen pr_data]. unfold PORT_MAX_MASK.
    rewrite (proj2 (Z.ltb_ge _ _)) by lia.
    rewrite port_OrInsert_new; [|unfold in_width; lia|done].
    rewrite (IH (s + 2 ^ (16 - l)) e); [by rewrite <- app_assoc|lia..|done|].
    apply Forall_app; split; [|repeat constructor; simpl; lia].
    eapply Forall_impl; [exact F|]. simpl. lia.
Qed.

(** The block of [x] lies below [hi]. *)
Definition ends_by (hi : Z) (x : Z * Z * Bitmap.t) : Prop :=
  let '(d, l, _) := x in 0 <= d /\ 0 <= l <= 16 /\ d + 2 ^ (16 - l) <= hi.

Lemma ends_by_start hi x : ends_by hi x -> 0 <= fst (fst x) < hi.
Proof. destruct x as [[d l] b]. simpl. intros (? & ? & ?). pose proof (Prefix.pow2_pos (16 - l)). lia. Qed.

Lemma tiles_ends_by s e b bl : 0 <= s -> Prefix.tiles 16 s bl e ->
  Forall (ends_by (e + 1)) ((fun x => (fst x, snd x, b)) <$> bl).
Proof.
  revert s. induction bl as [|[d l] r IH]; intros s Hs; simpl; [by constructor|].
  intros (-> & ? & ? & T). pose proof (Prefix.tiles_bound _ _ _ _ T).
  pose proof (Prefix.pow2_pos (16 - l)). constructor; [simpl; lia|]. eapply IH; [|done]. lia.
Qed.

Lemma OrInsertPortBitmap_entries segs : forall lo es,
  0 <= lo <= UINT16_MAX + 1 -> chain lo segs -> Prefix.bchain 16 0 es -> Forall (ends_by lo) es ->
  exists es', OrInsertPortBitmap segs (port_conv <$> es) = port_conv <$> es' /\
    Prefix.bchain 16 0 es' /\ Forall (ends_by (UINT16_MAX + 1)) es' /\
    forall p, Prefix.block_at 16 es' p =
              match Prefix.block_at 16 es p with Some b => Some b | None => seg_at segs p end.
Proof.
  unfold UINT16_MAX. induction segs as [|x r IH]; intros lo es Hlo C B F; simpl.
  { exists es. split_and!; try done.
    - eapply Forall_impl; [exact F|]. intros [[d l] b]. simpl. lia.
    - intros p. by destruct (Prefix.block_at 16 es p). }
  simpl in C. destruct C as (C1 & C2 & C3 & C4).
  pose proof (GetPortRangeAndMask_spec (seg_start x) (seg_end x)) as G.
  unfold in_width, UINT16_MAX in *. specialize (G ltac:(lia) ltac:(lia)).
  rewrite (proj2 (Z.ltb_ge _ _)) in G by lia. destruct G as (rules & Eg & T).
  rewrite Eg. cbn [negb Z.eqb].
  rewrite (insert_rules _ rules (seg_start x) (seg_end x)); [|lia|unfold UINT16_MAX; lia|done|].
  2: { eapply Forall_impl; [exact F|]. intros y Hy. apply ends_by_start in Hy. lia. }
  destruct (Prefix.tiles_bchain 16 _ _ _ (seg_bitmap x) T) as [B1 B2].
  destruct (IH (seg_end x + 1) (es ++ ((fun y => (fst y, snd y, seg_bitmap x)) <$> (block_of <$> rules))))
    as (es' & E & BC & FE & At); [lia|done| | |].
  - apply (Prefix.bchain_app _ _ (seg_start x)); try done; [lia|].
    eapply Forall_impl; [exact F|]. intros [[d l] b]. simpl. lia.
  - apply Forall_app; split; [|by eapply tiles_ends_by; [|exact T]; lia].
    eapply Forall_impl; [exact F|]. intros [[d l] b]. simpl. lia.
  - exists es'. split_and!; try done. intros p. rewrite At, Prefix.block_at_app.
    rewrite (Prefix.tiles_block_at 16 _ _ _ (seg_bitmap x) p T).
    destruct (Prefix.block_at 16 es p); [done|]. unfold covers. by destruct (_ && _).
Qed.

Lemma OrInsertPortBitmap_spec segs p : chain 0 segs ->
  port_lpm (OrInsertPortBitmap segs []) p = seg_at segs p.
Proof.
  intros C. destruct (OrInsertPortBitmap_entries segs 0 []) as (es & E & B & F & At);
    [unfold UINT16_MAX; lia|done|done|constructor|].
  change (port_conv <$> []) with (@nil portRuleBitmap) in E. rewrite E. unfold port_lpm.
  assert (Eid : port_entry <$> (port_conv <$> es) = es).
  { rewrite <- list_fmap_compose. clear -F. induction F as [|[[d l] b] es Hx F IH]; [done|].
    cbn. unfold port_entry at 1. cbn.
    apply ends_by_start in Hx. cbn in Hx. rewrite ntohs_htons by (unfold in_width, UINT16_MAX in *; lia).
    f_equal. exact IH. }
  rewrite Eid, (Prefix.lpm_bchain 16 0 es p B), At. done.
Qed.

(** The port trie built from disjoint segments classifies every port the
    way the segments do: the longest-prefix lookup of a port returns the
    bitmap of the segment that contains it, and nothing when none does. *)
Theorem OrInsertPortBitmap_correct segs p : chain 0 segs ->
  port_lpm (OrInsertPortBitmap segs []) p = seg_at segs p.
Proof. apply OrInsertPortBitmap_spec. Qed.

Lemma OrInsertPortBitmap_correct_witness :
  port_lpm (OrInsertPortBitmap [mkSeg 80 443 (Bitmap.make_n 3)] []) 443 = Some (Bitmap.make_n 3).
Proof.
  rewrite (OrInsertPortBitmap_correct [mkSeg 80 443 (Bitmap.make_n 3)] 443); [reflexivity|].
  simpl. unfold UINT16_MAX. split_and!; lia || done || by apply Bitmap.make_n_ok.
Defined.

(** ** All rules' port ranges together *)

Definition range_ok (r : Z * Z) : Prop := in_width 16 (fst r) /\ in_width 16 (snd r).

(** A range counts when it does not start at port 0. *)
Definition range_has (r : Z * Z) (p : Z) : bool :=
  negb (fst r =? 0) && (fst r <=? p) && (p <=? snd r).

Lemma AddPortBitmap_at ports b : Bitmap.ok b -> forall segs, Forall range_ok ports -> chain 0 segs ->
  chain 0 (AddPortBitmap ports b segs) /\
  forall p n, 0 <= n ->
    from_option (fun bm => Bitmap.test bm n) false (seg_at (AddPortBitmap ports b segs) p) =
    from_option (fun bm => Bitmap.test bm n) false (seg_at segs p) ||
    (existsb (fun r => range_has r p) ports && Bitmap.test b n).
Proof.
  intros Hb. induction ports as [|[s e] r IH]; intros segs F C; simpl.
  { split; [done|]. intros p n _. by rewrite orb_false_r. }
  apply Forall_cons in F as [[Hs He] F]. unfold in_width in *; simpl in *.
  destruct (Z.eqb_spec s 0) as [->|Hs0].
  { destruct (IH segs F C) as [IC IP]. by split. }
  destruct (Z.leb_spec s e) as [L|L].
  2: { destruct (IH segs F C) as [IC IP]. split; [done|]. intros p n Hn. rewrite (IP p n Hn).
       f_equal. unfold range_has at 2; simpl. destruct (Z.eqb_spec s 0); [lia|].
       destruct (Z.leb_spec s p), (Z.leb_spec p e); simpl; done || lia. }
  destruct (AddMap_spec s e b segs) as [AC AP]; try done; unfold UINT16_MAX; try lia.
  destruct (IH (AddMap s e b segs) F AC) as [IC IP]. split; [done|].
  intros p n Hn. rewrite (IP p n Hn), AP. unfold merged, range_has at 2; simpl.
  rewrite (proj2 (Z.eqb_neq s 0) Hs0). simpl.
  destruct ((s <=? p) && (p <=? e)); simpl; [|done].
  destruct (seg_at segs p) as [bm|] eqn:Eb; simpl.
  - apply (seg_at_ok _ _ _ _ C) in Eb as [Hok _]. rewrite Bitmap.test_Or by done.
    destruct (Bitmap.test bm n), (Bitmap.test b n); simpl; rewrite ?andb_true_r, ?andb_false_r; try done.
    all: by destruct (existsb _ _).
  - destruct (Bitmap.test b n); simpl; [done|]. by rewrite andb_false_r.
Qed.

End PortMap.
