(* ===== verification/Ip4Rules.v ===== *)
(** * IPv4 rules (services/netmanagernative/bpf: [IpParamParser] for IPv4 and
    class [Ip4RuleMap])

    An address range is cut into CIDR blocks; the rule map keeps one bitmap
    per (address, mask) and propagates bits between nested prefixes, so that
    the longest-prefix lookup of the kernel finds every rule that covers an
    address. *)

From S2P Require Import Prelude Prefix Bitmap.

Module Ip4Rules.

Definition NETFIREWALL_SUCCESS : Z := 0.
Definition NETFIREWALL_ERR : Z := 1.
Definition IPV4_BIT_COUNT : Z := 32.
Definition IPV4_MAX_PREFIXLEN : Z := 32.

(** ** Cutting a range into CIDR blocks *)

Record Ip4Data := mkIp4 { ip4_mask : Z; ip4_data : Z }.

Definition AddIp (ip mask : Z) (ip4Vec : list Ip4Data) : list Ip4Data := ip4Vec ++ [mkIp4 mask ip].

(** [while (cidrSize >>= 1) ++count], one iteration per bit of a [uint64_t]. *)
Fixpoint cidr_block_bits (fuel : nat) (cidrSize count : Z) : Z :=
  match fuel with
  | O => count
  | S fuel => let cidrSize := Z.shiftr cidrSize 1 in
              if negb (cidrSize =? 0) then cidr_block_bits fuel cidrSize (count + 1) else count
  end.
Definition GetCidrBlockBits (cidrSize : Z) : Z := cidr_block_bits 64 cidrSize 0.

Fixpoint suffix_zero_length (fuel : nat) (ip count : Z) : Z :=
  match fuel with
  | O => count
  | S fuel => if Z.land ip 1 =? 0 then suffix_zero_length fuel (Z.shiftr ip 1) (count + 1) else count
  end.
Definition GetSuffixZeroLength (ip : Z) : Z :=
  if ip =? 0 then IPV4_BIT_COUNT else suffix_zero_length 32 ip 0.

(** One iteration of the loop of [GetIp4AndMask]; [inr] leaves the loop. *)
Definition ip4_step (endIpInt : Z) (st : Z * list Ip4Data) : (Z * list Ip4Data) + list Ip4Data :=
  let '(startIpInt, list_) := st in
  if startIpInt <=? endIpInt then
    let suffixZeros := GetSuffixZeroLength startIpInt in
    let maxCidrSize := u64 (Z.shiftl 1 suffixZeros) in
    let remainingCidrSize := u64 (endIpInt - startIpInt + 1) in
    let cidrBits := GetCidrBlockBits (Z.min maxCidrSize remainingCidrSize) in
    let list_ := AddIp startIpInt (u32 (IPV4_BIT_COUNT - cidrBits)) list_ in
    let nextStart := u64 (startIpInt + u64 (Z.shiftl 1 cidrBits)) in
    if endIpInt <? nextStart then inr list_ else inl (u32 nextStart, list_)
  else inr list_.

(** The bound exceeds the number of addresses a range can have. *)
Definition ip4_bound : positive := 4294967297%positive.

Definition GetIp4AndMask (startAddr endAddr : Z) : Z * list Ip4Data :=
  let startIpInt := ntohl startAddr in
  let endIpInt := ntohl endAddr in
  if endIpInt <? startIpInt then (NETFIREWALL_ERR, [])
  else match run (ip4_step endIpInt) ip4_bound (startIpInt, []) with
       | inr list_ => (NETFIREWALL_SUCCESS, list_)
       | inl (_, list_) => (NETFIREWALL_SUCCESS, list_)
       end.

(** ** [Ip4RuleMap] *)

Record Ip4RuleBitmap := mkIp4Rule { ir_mask : Z; ir_data : Z; ir_bitmap : Bitmap.t }.

Definition GetNetworkAddress (addr mask : Z) : Z :=
  let mask := if IPV4_MAX_PREFIXLEN <? mask then IPV4_MAX_PREFIXLEN else mask in
  if mask =? 0 then 0
  else Z.land addr (u32 (Z.shiftl 0xFFFFFFFF (IPV4_MAX_PREFIXLEN - mask))).

Definition ip4_OrForEach (bitmap : Bitmap.t) (v : list Ip4RuleBitmap) : list Ip4RuleBitmap :=
  (fun it => mkIp4Rule (ir_mask it) (ir_data it) (Bitmap.Or (ir_bitmap it) bitmap)) <$> v.

(** The loop over the existing rules: the new rule's bitmap copy and the
    insertion flag are threaded through, each rule is updated in place. *)
Fixpoint ip4_insert_loop (addr mask : Z) (v : list Ip4RuleBitmap) (bitmapCopy : Bitmap.t)
    (shouldInsert : bool) : list Ip4RuleBitmap * Bitmap.t * bool :=
  match v with
  | [] => ([], bitmapCopy, shouldInsert)
  | it :: r =>
      let netOrderAddr := htonl addr in
      let networkAddr := GetNetworkAddress addr mask in
      let existingIp := ntohl (ir_data it) in
      let existingNetworkAddr := GetNetworkAddress existingIp (ir_mask it) in
      let '(bm, shouldInsert) :=
        if (ir_data it =? netOrderAddr) && (ir_mask it =? mask)
        then (Bitmap.Or (ir_bitmap it) bitmapCopy, false) else (ir_bitmap it, shouldInsert) in
      let bm :=
        if (mask <? ir_mask it) && (GetNetworkAddress existingIp mask =? networkAddr)
        then Bitmap.Or bm bitmapCopy else bm in
      let bitmapCopy :=
        if (ir_mask it <? mask) && (GetNetworkAddress addr (ir_mask it) =? existingNetworkAddr)
        then Bitmap.Or bitmapCopy bm else bitmapCopy in
      let '(r', bitmapCopy, shouldInsert) := ip4_insert_loop addr mask r bitmapCopy shouldInsert in
      (mkIp4Rule (ir_mask it) (ir_data it) bm :: r', bitmapCopy, shouldInsert)
  end.

Definition ip4_OrInsert (addr mask : Z) (bitmap : Bitmap.t) (v : list Ip4RuleBitmap)
    : list Ip4RuleBitmap :=
  let mask := if IPV4_MAX_PREFIXLEN <? mask then IPV4_MAX_PREFIXLEN else mask in
  let '(v', bitmapCopy, shouldInsert) := ip4_insert_loop addr mask v bitmap true in
  if shouldInsert then v' ++ [mkIp4Rule mask (htonl addr) bitmapCopy] else v'.

Example ip4_blocks : GetIp4AndMask (htonl 3232235521) (htonl 3232235526) =
  (0, [mkIp4 32 3232235521; mkIp4 31 3232235522; mkIp4 31 3232235524; mkIp4 32 3232235526]).
Proof. vm_compute. reflexivity. Qed.
Example ip4_all : GetIp4AndMask 0 0xFFFFFFFF = (0, [mkIp4 0 0]).
Proof. vm_compute. reflexivity. Qed.

(** ** The blocks tile the range *)

Lemma cidr_block_bits_spec fuel : forall x c, 1 <= x < 2 ^ Z.of_nat fuel ->
  cidr_block_bits fuel x c = c + Z.log2 x.
Proof.
  induction fuel as [|fuel IH]; intros x c Hx; [simpl in Hx; lia|].
  rewrite Nat2Z.inj_succ, Z.pow_succ_r in Hx by lia. cbn [cidr_block_bits].
  rewrite Z.shiftr_div_pow2 by lia. change (2 ^ 1) with 2.
  destruct (Z.eqb_spec (x / 2) 0) as [E|E]; cbn [negb].
  - assert (x = 1) as -> by (pose proof (Z.div_mod x 2); pose proof (Z.mod_pos_bound x 2); lia).
    simpl. lia.
  - assert (1 <= x / 2) by (pose proof (Z.div_pos x 2); lia).
    rewrite IH by (pose proof (Z.div_mod x 2); pose proof (Z.mod_pos_bound x 2); lia).
    assert (Hl : Z.log2 (x / 2) = Z.log2 x - 1).
    { change (x / 2) with (x / 2 ^ 1). rewrite <- Z.shiftr_div_pow2, Z.log2_shiftr by lia.
      assert (H2 : Z.log2 2 <= Z.log2 x)
        by (apply Z.log2_le_mono; pose proof (Z.div_mod x 2); pose proof (Z.mod_pos_bound x 2); lia).
      change (Z.log2 2) with 1 in H2. lia. }
    rewrite Hl. lia.
Qed.

Lemma suffix_zero_length_spec fuel : forall ip c, 0 < ip < 2 ^ Z.of_nat fuel ->
  exists k, suffix_zero_length fuel ip c = c + k /\ 0 <= k < Z.of_nat fuel /\ ip mod 2 ^ k = 0.
Proof.
  induction fuel as [|fuel IH]; intros ip c Hx; [simpl in Hx; lia|].
  rewrite Nat2Z.inj_succ, Z.pow_succ_r in Hx by lia. cbn [suffix_zero_length].
  change 1 with (Z.ones 1) at 1. rewrite Z.land_ones by lia. change (2 ^ 1) with 2.
  rewrite Z.shiftr_div_pow2 by lia. change (2 ^ 1) with 2.
  pose proof (Z.div_mod ip 2). pose proof (Z.mod_pos_bound ip 2).
  destruct (Z.eqb_spec (ip mod 2) 0) as [E|E].
  - destruct (IH (ip / 2) (c + 1)) as (k & Ek & Hk & Hm); [lia|].
    exists (k + 1). split; [lia|]. split; [lia|].
    rewrite Z.pow_add_r, Z.mul_comm by lia. change (2 ^ 1) with 2.
    replace ip with (2 * (ip / 2)) at 1 by lia.
    rewrite Z.mul_mod_distr_l by (pose proof (Prefix.pow2_pos k); lia). lia.
  - exists 0. split_and!; try lia. apply Z.mod_1_r.
Qed.

Lemma GetSuffixZeroLength_spec ip : in_width 32 ip ->
  0 <= GetSuffixZeroLength ip <= 32 /\ ip mod 2 ^ GetSuffixZeroLength ip = 0.
Proof.
  unfold in_width, GetSuffixZeroLength, IPV4_BIT_COUNT. intros H. destruct (Z.eqb_spec ip 0) as [->|].
  - split; [lia|done].
  - destruct (suffix_zero_length_spec 32 ip 0) as (k & -> & Hk & Hm); [lia|].
    rewrite Z.add_0_l. split; [lia|done].
Qed.

Definition block_of (d : Ip4Data) : Z * Z := (ip4_data d, ip4_mask d).

(** The size of the next block: the largest power of two that divides the
    start and does not pass the end. *)
Lemma ip4_block s e : in_width 32 s -> in_width 32 e -> s <= e ->
  let bits := GetCidrBlockBits (Z.min (u64 (Z.shiftl 1 (GetSuffixZeroLength s))) (u64 (e - s + 1))) in
  0 <= bits <= 32 /\ s mod 2 ^ bits = 0 /\ s + 2 ^ bits <= e + 1.
Proof.
  intros Hs He Hse. cbn zeta. destruct (GetSuffixZeroLength_spec s Hs) as [Hz Hm].
  set (z := GetSuffixZeroLength s) in *. unfold in_width in *.
  assert (Hz2 : 1 <= 2 ^ z <= 2 ^ 32).
  { split; [pose proof (Prefix.pow2_pos z); lia|apply Z.pow_le_mono_r; lia]. }
  rewrite Z.shiftl_1_l, !wrap_small by (unfold in_width; lia).
  set (c := Z.min (2 ^ z) (e - s + 1)). assert (Hc : 1 <= c <= 2 ^ 32) by lia.
  unfold GetCidrBlockBits. rewrite cidr_block_bits_spec by (simpl; lia). rewrite Z.add_0_l.
  pose proof (Z.log2_spec c ltac:(lia)) as [L1 L2]. pose proof (Z.log2_nonneg c).
  assert (Hle : Z.log2 c <= z).
  { rewrite <- (Z.log2_pow2 z) by lia. apply Z.log2_le_mono. lia. }
  split; [lia|]. split; [|lia].
  apply Z.mod_divide in Hm; [|lia]. apply Z.mod_divide; [apply Z.pow_nonzero; lia|].
  etransitivity; [|exact Hm]. exists (2 ^ (z - Z.log2 c)). rewrite <- Z.pow_add_r by lia. f_equal. lia.
Qed.

(** Loop invariant: what has been added tiles the part before [startIpInt]. *)
Definition ip4_inv (s0 e : Z) (st : Z * list Ip4Data) : Prop :=
  s0 <= fst st <= e /\ Prefix.tiles 32 s0 (block_of <$> snd st) (fst st - 1).

Lemma ip4_step_ok s0 e st : in_width 32 s0 -> in_width 32 e -> ip4_inv s0 e st ->
  match ip4_step e st with
  | inl st' => ip4_inv s0 e st' /\ 0 <= e - fst st' + 1 < e - fst st + 1
  | inr l => Prefix.tiles 32 s0 (block_of <$> l) e
  end.
Proof.
  destruct st as [s l]. intros Hs0 He [Hr T]. cbn [fst snd] in *. unfold in_width in *.
  unfold ip4_step. rewrite (proj2 (Z.leb_le _ _)) by lia.
  destruct (ip4_block s e) as (Hb & Hm & Hle); unfold in_width; try lia.
  set (bits := GetCidrBlockBits _) in *. pose proof (Prefix.pow2_pos bits ltac:(lia)).
  assert (2 ^ bits <= 2 ^ 32) by (apply Z.pow_le_mono_r; lia).
  unfold IPV4_BIT_COUNT. rewrite Z.shiftl_1_l.
  rewrite (wrap_small 32 (32 - bits)), (wrap_small 64 (2 ^ bits)), (wrap_small 64 (s + 2 ^ bits))
    by (unfold in_width; lia).
  assert (T' : Prefix.tiles 32 s0 (block_of <$> AddIp s (32 - bits) l) (s + 2 ^ bits - 1)).
  { unfold AddIp. rewrite fmap_app. apply (Prefix.tiles_app _ _ _ (s - 1)); [done|]. simpl.
    unfold Prefix.aligned. replace (32 - (32 - bits)) with bits by lia.
    replace (s - 1 + 1) with s by lia. split_and!; done || lia. }
  destruct (Z.ltb_spec e (s + 2 ^ bits)) as [L|L].
  - replace e with (s + 2 ^ bits - 1) by lia. done.
  - rewrite wrap_small by (unfold in_width; lia). cbn [fst]. split; [|lia].
    split; cbn [fst snd]; [lia|done].
Qed.

Lemma GetIp4AndMask_spec sa ea : let s := ntohl sa in let e := ntohl ea in
  if e <? s then GetIp4AndMask sa ea = (NETFIREWALL_ERR, [])
  else exists l, GetIp4AndMask sa ea = (NETFIREWALL_SUCCESS, l) /\
         Prefix.tiles 32 s (block_of <$> l) e.
Proof.
  cbn zeta. unfold GetIp4AndMask. pose proof (htonl_width sa) as Hs. pose proof (htonl_width ea) as He.
  change (htonl sa) with (ntohl sa) in Hs. change (htonl ea) with (ntohl ea) in He.
  destruct (Z.ltb_spec (ntohl ea) (ntohl sa)) as [L|L]; [done|].
  set (s := ntohl sa) in *. set (e := ntohl ea) in *.
  destruct (run_total (ip4_step e) (ip4_inv s e) (fun l => Prefix.tiles 32 s (block_of <$> l) e)
              (fun st => e - fst st + 1)) with (p := ip4_bound) (s := (s, @nil Ip4Data)) as (l & E & T).
  - intros st Hst. by apply ip4_step_ok.
  - split; cbn [fst snd]; [lia|]. simpl. lia.
  - unfold ip4_bound, in_width in *. simpl. lia.
  - rewrite E. by exists l.
Qed.

(** [GetIp4AndMask] terminates for every range and returns aligned CIDR
    blocks that tile it exactly; an inverted range is an error. *)
Theorem GetIp4AndMask_correct sa ea : let s := ntohl sa in let e := ntohl ea in
  if e <? s then GetIp4AndMask sa ea = (NETFIREWALL_ERR, [])
  else exists l, GetIp4AndMask sa ea = (NETFIREWALL_SUCCESS, l) /\
         Prefix.tiles 32 s (block_of <$> l) e.
Proof. apply GetIp4AndMask_spec. Qed.

(** ** The rule map keeps, per prefix, every rule that covers it *)

Lemma GetNetworkAddress_spec addr mask : in_width 32 addr -> 0 <= mask <= 32 ->
  GetNetworkAddress addr mask = addr / 2 ^ (32 - mask) * 2 ^ (32 - mask).
Proof.
  intros Ha Hm. unfold GetNetworkAddress, IPV4_MAX_PREFIXLEN.
  rewrite (proj2 (Z.ltb_ge 32 mask)) by lia. destruct (Z.eqb_spec mask 0) as [->|Hne].
  - rewrite Z.div_small; [lia|apply Ha].
  - rewrite <- Z.shiftr_div_pow2, <- Z.shiftl_mul_pow2 by lia. apply Z.bits_inj'. intros i Hi.
    rewrite Z.land_spec, testbit_wrap, !Z.shiftl_spec by lia.
    change 0xFFFFFFFF with (Z.ones 32).
    destruct (Z_lt_le_dec i 32) as [L|L].
    + rewrite bool_decide_eq_true_2 by done. simpl. destruct (Z_lt_le_dec i (32 - mask)).
      * by rewrite !(Z.testbit_neg_r _ (i - (32 - mask))), andb_false_r by lia.
      * rewrite Z.ones_spec_low, andb_true_r, Z.shiftr_spec by lia. f_equal. lia.
    + rewrite (testbit_high 32 addr) by (done || lia). simpl. rewrite Z.shiftr_spec by lia.
      symmetry. apply (testbit_high 32); [done|lia].
Qed.

Lemma network_in_prefix a b mask : in_width 32 a -> in_width 32 b -> 0 <= mask <= 32 ->
  (GetNetworkAddress a mask =? GetNetworkAddress b mask) = Prefix.in_prefix 32 a mask b.
Proof.
  intros Ha Hb Hm. rewrite !GetNetworkAddress_spec by done. unfold Prefix.in_prefix.
  pose proof (Prefix.pow2_pos (32 - mask) ltac:(lia)).
  destruct (Z.eqb_spec (b / 2 ^ (32 - mask)) (a / 2 ^ (32 - mask))) as [->|N]; [by apply Z.eqb_eq|].
  apply Z.eqb_neq. nia.
Qed.

(** An insertion request: (address, mask, bitmap). *)
Abbreviation request := (Z * Z * Bitmap.t)%type.

Definition req_ok (r : request) : Prop :=
  let '(a, m, b) := r in in_width 32 a /\ 0 <= m <= 32 /\ Prefix.aligned 32 a m /\ Bitmap.ok b.

(** Rule [n] was requested for a prefix that contains the prefix [d]/[l]. *)
Definition covered (ins : list request) (d l n : Z) : Prop :=
  exists d' l' b', (d', l', b') ∈ ins /\ l' <= l /\ Prefix.in_prefix 32 d' l' d = true /\
    Bitmap.test b' n = true.

Definition entry_ok (ins : list request) (e : Ip4RuleBitmap) : Prop :=
  in_width 32 (ir_data e) /\ 0 <= ir_mask e <= 32 /\
  Prefix.aligned 32 (ntohl (ir_data e)) (ir_mask e) /\ Bitmap.ok (ir_bitmap e) /\
  (forall n, Bitmap.test (ir_bitmap e) n = true <-> covered ins (ntohl (ir_data e)) (ir_mask e) n).

Lemma ntohl_width x : in_width 32 (ntohl x).
Proof. apply htonl_width. Qed.

Lemma covered_cons r ins d l n : covered (r :: ins) d l n <->
  (let '(a, m, b) := r in m <= l /\ Prefix.in_prefix 32 a m d = true /\ Bitmap.test b n = true)
  \/ covered ins d l n.
Proof.
  destruct r as [[a m] b]. unfold covered. setoid_rewrite elem_of_cons. split.
  - intros (d' & l' & b' & [E|H] & H1 & H2 & H3); [simplify_eq; by left|right]. by exists d', l', b'.
  - intros [(H1 & H2 & H3)|(d' & l' & b' & H & H1 & H2 & H3)].
    + exists a, m, b. auto.
    + exists d', l', b'. auto.
Qed.

Lemma covered_inside ins d l d' l' n : 0 <= l <= l' -> l' <= 32 ->
  Forall req_ok ins -> Prefix.in_prefix 32 d l d' = true -> covered ins d l n -> covered ins d' l' n.
Proof.
  intros H1 H2 Hok Hin (d0 & l0 & b0 & Hi & Hl & Hp & Ht). exists d0, l0, b0.
  split_and!; try done; [lia|].
  rewrite Forall_forall in Hok. destruct (Hok _ Hi) as (_ & Hr & _).
  rewrite <- (Prefix.in_prefix_trans _ d0 d d' l0) by done. by apply (Prefix.in_prefix_shorter _ _ _ l); try lia.
Qed.

(** Two aligned prefixes of one length that meet are the same prefix. *)
Lemma aligned_same a b m : 0 <= m <= 32 -> Prefix.aligned 32 a m -> Prefix.aligned 32 b m ->
  Prefix.in_prefix 32 a m b = true -> a = b.
Proof.
  unfold Prefix.aligned, Prefix.in_prefix. rewrite Z.eqb_eq. intros Hm Ha Hb E.
  pose proof (Prefix.pow2_pos (32 - m) ltac:(lia)).
  rewrite (Z.div_mod a (2 ^ (32 - m))), (Z.div_mod b (2 ^ (32 - m))) by lia. lia.
Qed.

Definition ir_key (e : Ip4RuleBitmap) : Z * Z := (ntohl (ir_data e), ir_mask e).

Section Insert.
Context (ins : list request) (a m : Z) (b : Bitmap.t).
Context (Hins : Forall req_ok ins) (Hreq : req_ok (a, m, b)).

Definition copy_ok (c : Bitmap.t) : Prop :=
  Bitmap.ok c /\ (forall n, Bitmap.test b n = true -> Bitmap.test c n = true) /\
  (forall n, Bitmap.test c n = true -> covered ((a, m, b) :: ins) a m n).

(** The new prefix contains the entry / the entry strictly contains it. *)
Definition below (it : Ip4RuleBitmap) : bool :=
  (m <=? ir_mask it) && Prefix.in_prefix 32 a m (ntohl (ir_data it)).
Definition above (it : Ip4RuleBitmap) : bool :=
  (ir_mask it <? m) && Prefix.in_prefix 32 (ntohl (ir_data it)) (ir_mask it) a.

Lemma below_same it : entry_ok ins it -> m = ir_mask it ->
  below it = (ir_data it =? htonl a) && (ir_mask it =? m).
Proof.
  intros (Hd & Hl & Al & _) E. destruct Hreq as (Ha & Hm & Aa & _). unfold below.
  rewrite <- E, Z.leb_refl, Z.eqb_refl, andb_true_r in *. clear E. simpl.
  destruct (Z.eqb_spec (ir_data it) (htonl a)) as [E|E].
  - rewrite E, ntohl_htonl by done. apply Prefix.in_prefix_refl.
  - destruct (Prefix.in_prefix 32 a m (ntohl (ir_data it))) eqn:P; [|done].
    apply aligned_same in P; [|done..]. exfalso. apply E. rewrite P. symmetry. by apply (ntohl_htonl (ir_data it)).
Qed.

Lemma insert_loop_cons it r c si : entry_ok ins it ->
  ip4_insert_loop a m (it :: r) c si =
    (let bm := if below it then Bitmap.Or (ir_bitmap it) c else ir_bitmap it in
     let c := if above it then Bitmap.Or c bm else c in
     let si := if (ir_data it =? htonl a) && (ir_mask it =? m) then false else si in
     let '(r', c, si) := ip4_insert_loop a m r c si in
     (mkIp4Rule (ir_mask it) (ir_data it) bm :: r', c, si)).
Proof.
  intros Hit. pose proof (below_same it Hit) as Hsame.
  destruct Hit as (Hd & Hl & Al & _). destruct Hreq as (Ha & Hm & Aa & _).
  pose proof (ntohl_width (ir_data it)). cbn [ip4_insert_loop]. cbn zeta.
  rewrite (network_in_prefix (ntohl (ir_data it)) a m), (network_in_prefix a (ntohl (ir_data it))) by done.
  rewrite (Prefix.in_prefix_sym _ _ a), (Prefix.in_prefix_sym _ a _ (ir_mask it)).
  unfold above. destruct (Z.lt_trichotomy m (ir_mask it)) as [L|[L|L]].
  - unfold below. rewrite (proj2 (Z.ltb_lt m (ir_mask it))), (proj2 (Z.leb_le m (ir_mask it))), (proj2 (Z.ltb_ge (ir_mask it) m)),
      (proj2 (Z.eqb_neq (ir_mask it) m)) by lia. rewrite andb_false_r. simpl. done.
  - rewrite (Hsame L). rewrite (proj2 (Z.ltb_ge m (ir_mask it))), (proj2 (Z.ltb_ge (ir_mask it) m)) by lia. simpl.
    by destruct ((ir_data it =? htonl a) && (ir_mask it =? m)).
  - unfold below. rewrite (proj2 (Z.ltb_ge m (ir_mask it))), (proj2 (Z.leb_gt m (ir_mask it))), (proj2 (Z.ltb_lt (ir_mask it) m)),
      (proj2 (Z.eqb_neq (ir_mask it) m)) by lia. rewrite andb_false_r. simpl. done.
Qed.

Lemma entry_step it c : entry_ok ins it -> copy_ok c ->
  entry_ok ((a, m, b) :: ins) (mkIp4Rule (ir_mask it) (ir_data it)
    (if below it then Bitmap.Or (ir_bitmap it) c else ir_bitmap it)).
Proof.
  intros (Hd & Hl & Al & Hb & Ht) (Hc & Hbc & Hcc). destruct Hreq as (Ha & Hm & Aa & Hbok).
  unfold entry_ok. cbn [ir_mask ir_data ir_bitmap]. unfold below.
  do 3 (split; [done|]). split; [by case_match; [apply Bitmap.Or_ok|]|].
  intros n. rewrite covered_cons, <- Ht. destruct (Z.leb_spec m (ir_mask it)); simpl;
    [|split; [by right|]; intros [(? & _)|?]; [lia|done]].
  destruct (Prefix.in_prefix 32 a m (ntohl (ir_data it))) eqn:P;
    [|split; [by right|]; intros [(_ & ? & _)|?]; done].
  rewrite Bitmap.test_Or, orb_true_iff by done. split.
  - intros [?|Hn]; [by right|]. apply Hcc, covered_cons in Hn as [(_ & _ & Hn)|Hn]; [by left|].
    right. apply Ht. apply (covered_inside _ a m); done || lia.
  - intros [(_ & _ & Hn)|Hn]; auto.
Qed.

Lemma copy_step it c : entry_ok ins it -> copy_ok c ->
  let bm := if below it then Bitmap.Or (ir_bitmap it) c else ir_bitmap it in
  let c' := if above it then Bitmap.Or c bm else c in
  copy_ok c' /\ (forall n, Bitmap.test c n = true -> Bitmap.test c' n = true) /\
  (above it = true -> forall n, Bitmap.test (ir_bitmap it) n = true -> Bitmap.test c' n = true).
Proof.
  intros (Hd & Hl & Al & Hb & Ht) (Hc & Hbc & Hcc). destruct Hreq as (Ha & Hm & Aa & Hbok). cbn zeta.
  destruct (above it) eqn:Ab; [|by split_and!].
  apply andb_true_iff in Ab as [L P]. apply Z.ltb_lt in L.
  unfold below. rewrite (proj2 (Z.leb_gt m _)) by lia. simpl. unfold copy_ok.
  pose proof (Bitmap.Or_ok _ _ Hc Hb). setoid_rewrite (fun n => Bitmap.test_Or c (ir_bitmap it) n Hc Hb).
  setoid_rewrite orb_true_iff. split; [split; [done|]|by auto]. split; [by auto|]. intros n.
  intros [Hn|Hn]; [by apply Hcc|]. apply Ht in Hn. apply covered_cons. right.
  apply (covered_inside _ (ntohl (ir_data it)) (ir_mask it)); done || lia.
Qed.

Lemma insert_loop_spec v : Forall (entry_ok ins) v -> forall c si, copy_ok c ->
  let '(v', c', si') := ip4_insert_loop a m v c si in
  Forall (entry_ok ((a, m, b) :: ins)) v' /\ ir_key <$> v' = ir_key <$> v /\ copy_ok c' /\
  (forall n, Bitmap.test c n = true -> Bitmap.test c' n = true) /\
  (forall it n, it ∈ v -> above it = true -> Bitmap.test (ir_bitmap it) n = true -> Bitmap.test c' n = true) /\
  (si' = false <-> si = false \/ (a, m) ∈ ir_key <$> v).
Proof.
  induction 1 as [|it r Hit Hr IH]; intros c si Hc.
  - cbn [ip4_insert_loop]. split_and!; try done.
    + intros ? ? H. by apply elem_of_nil in H.
    + split; [by left|]. intros [|H]; [done|]. by apply elem_of_nil in H.
  - rewrite insert_loop_cons by done. cbn zeta.
    pose proof (copy_step it c Hit Hc) as (Hc1 & Hmono & Hab). cbn zeta in Hc1, Hmono, Hab.
    specialize (IH _ (if (ir_data it =? htonl a) && (ir_mask it =? m) then false else si) Hc1).
    destruct (ip4_insert_loop a m r _ _) as [[r' c'] si'].
    destruct IH as (F & K & Hc' & Hm' & Ha' & Hsi). split_and!; try done; auto.
    + constructor; [by apply entry_step|done].
    + rewrite !fmap_cons, K. done.
    + intros it' n Hi Hab' Hn. apply elem_of_cons in Hi as [->|Hi]; [|by apply (Ha' it')]. by apply Hm', Hab.
    + rewrite Hsi, fmap_cons, elem_of_cons. destruct Hit as (Hd & _). destruct Hreq as (Ha & _).
      assert (E : (ir_data it =? htonl a) && (ir_mask it =? m) = true <-> (a, m) = ir_key it).
      { rewrite andb_true_iff, !Z.eqb_eq. unfold ir_key. split.
        - intros [-> <-]. by rewrite ntohl_htonl.
        - intros [= E1 E2]. split; [|done]. rewrite E1. symmetry. by apply (ntohl_htonl (ir_data it)). }
      destruct ((ir_data it =? htonl a) && (ir_mask it =? m)); [|intuition congruence].
      split; [|by left]. right. left. by apply E.
Qed.

End Insert.

Definition map_ok (ins : list request) (v : list Ip4RuleBitmap) : Prop :=
  Forall req_ok ins /\ Forall (entry_ok ins) v /\
  (forall a m b, (a, m, b) ∈ ins -> (a, m) ∈ ir_key <$> v).

Lemma entry_ok_self ins v a m b c : map_ok ins v -> req_ok (a, m, b) -> (a, m) ∉ ir_key <$> v ->
  copy_ok ins a m b c ->
  (forall it n, it ∈ v -> above a m it = true -> Bitmap.test (ir_bitmap it) n = true -> Bitmap.test c n = true) ->
  entry_ok ((a, m, b) :: ins) (mkIp4Rule m (htonl a) c).
Proof.
  intros (Hins & Hv & Hk) (Ha & Hm & Aa & Hb) Hnew (Hc & Hbc & Hcc) Hab.
  unfold entry_ok. cbn [ir_mask ir_data ir_bitmap]. rewrite ntohl_htonl by done.
  split; [apply htonl_width|]. do 3 (split; [done|]). intros n. split; [apply Hcc|].
  rewrite covered_cons. intros [(_ & _ & ?)|(d & l & b' & Hi & Hl & Hp & Hn)]; [auto|].
  pose proof (Hk _ _ _ Hi) as Hkey. rewrite Forall_forall in Hins.
  destruct (Hins _ Hi) as (Hd & Hl' & Ad & Hb'). destruct (decide (l = m)) as [->|Hne].
  { apply aligned_same in Hp; [|done..]. by subst. }
  apply list_elem_of_fmap in Hkey as (it & Eit & Hit). injection Eit as E1 E2. apply (Hab it); [done|..].
  - unfold above. rewrite <- E1, <- E2, Hp, andb_true_r. apply Z.ltb_lt. lia.
  - rewrite Forall_forall in Hv. destruct (Hv _ Hit) as (_ & _ & _ & _ & Ht). apply Ht.
    exists d, l, b'. rewrite <- E1, <- E2. split_and!; try done. apply Prefix.in_prefix_refl.
Qed.

Lemma ip4_OrInsert_ok ins v a m b : map_ok ins v -> req_ok (a, m, b) ->
  map_ok ((a, m, b) :: ins) (ip4_OrInsert a m b v).
Proof.
  intros Hok Hreq. pose proof Hok as (Hins & Hv & Hk). pose proof Hreq as (Ha & Hm & Aa & Hb).
  unfold ip4_OrInsert, IPV4_MAX_PREFIXLEN. rewrite (proj2 (Z.ltb_ge 32 m)) by lia.
  assert (Hc0 : copy_ok ins a m b b).
  { split; [done|]. split; [done|]. intros n Hn. apply covered_cons. left.
    split; [lia|]. split; [apply Prefix.in_prefix_refl|done]. }
  pose proof (insert_loop_spec ins a m b Hins Hreq v Hv b true Hc0) as L.
  destruct (ip4_insert_loop a m v b true) as [[v' c'] si'].
  destruct L as (Fv' & K & Hc' & _ & Hab & Hsi).
  split; [by constructor|]. destruct si'.
  - assert (Hnew : (a, m) ∉ ir_key <$> v).
    { intros Hin. assert (true = false) by (apply Hsi; by right). done. }
    split.
    + rewrite Forall_app. split; [done|]. apply Forall_singleton. by apply (entry_ok_self ins v).
    + intros a' m' b' Hi. rewrite fmap_app, elem_of_app, K. apply elem_of_cons in Hi as [E|Hi].
      * right. simplify_eq. apply list_elem_of_singleton. unfold ir_key. simpl. by rewrite ntohl_htonl.
      * left. by apply (Hk _ _ b').
  - split; [done|]. intros a' m' b' Hi. rewrite K. apply elem_of_cons in Hi as [E|Hi]; [|by apply (Hk _ _ b')].
    simplify_eq. destruct (proj1 Hsi eq_refl) as [|]; done.
Qed.

(** The kernel's view of the map: an LPM trie keyed by (prefix, length). *)
Definition ip4_lpm (v : list Ip4RuleBitmap) (p : Z) : option Bitmap.t :=
  Prefix.lpm 32 ((fun e => (ntohl (ir_data e), ir_mask e, ir_bitmap e)) <$> v) p.

(** Lookup finds exactly the rules requested for a prefix that holds [p]. *)
Lemma map_ok_lookup ins v p n : map_ok ins v ->
  Bitmap.test (default Bitmap.Clear (ip4_lpm v p)) n = true <->
  exists a m b, (a, m, b) ∈ ins /\ Prefix.in_prefix 32 a m p = true /\ Bitmap.test b n = true.
Proof.
  intros (Hins & Hv & Hk). unfold ip4_lpm, Prefix.lpm. rewrite Forall_forall in Hins. rewrite Forall_forall in Hv.
  set (es := _ <$> v). assert (Hent : forall a m b, (a, m, b) ∈ ins -> exists c, (a, m, c) ∈ es).
  { intros a m b Hi. apply Hk, list_elem_of_fmap in Hi as (e & [= -> ->] & He).
    exists (ir_bitmap e). apply list_elem_of_fmap. by exists e. }
  pose proof (Prefix.lpm_best_spec 32 es p) as L. destruct (Prefix.lpm_best 32 es p) as [[l c]|]; simpl.
  - destruct L as (d & Hi & Hp & Hmax). apply list_elem_of_fmap in Hi as (e & [= -> -> ->] & He).
    destruct (Hv _ He) as (_ & Hle & _ & _ & Ht). rewrite Ht. split.
    + intros (d' & l' & b' & Hi & Hl & Hp' & Hn). exists d', l', b'. split_and!; try done.
      destruct (Hins _ Hi) as (_ & Hm & _).
      rewrite <- (Prefix.in_prefix_trans _ d' (ntohl (ir_data e)) p l') by done.
      apply (Prefix.in_prefix_shorter _ _ _ (ir_mask e)); done || lia.
    + intros (a & m & b & Hi & Hp' & Hn). exists a, m, b. destruct (Hent _ _ _ Hi) as [c Hc].
      assert (m <= ir_mask e) by (by apply (Hmax a m c)).
      destruct (Hins _ Hi) as (_ & Hm & _). split_and!; try done.
      rewrite Prefix.in_prefix_sym in Hp'. rewrite Prefix.in_prefix_sym.
      rewrite (Prefix.in_prefix_trans _ p (ntohl (ir_data e)) a m); [done|].
      rewrite Prefix.in_prefix_sym. apply (Prefix.in_prefix_shorter _ _ _ (ir_mask e)); done || lia.
  - split; [by rewrite Bitmap.test_Clear|]. intros (a & m & b & Hi & Hp' & _).
    destruct (Hent _ _ _ Hi) as [c Hc]. by rewrite (L _ _ _ Hc) in Hp'.
Qed.

Definition ip4_OrInserts (reqs : list request) (v : list Ip4RuleBitmap) : list Ip4RuleBitmap :=
  foldl (fun v '(a, m, b) => ip4_OrInsert a m b v) v reqs.

Lemma ip4_OrInserts_ok reqs : forall ins v, map_ok ins v -> Forall req_ok reqs ->
  map_ok (rev reqs ++ ins) (ip4_OrInserts reqs v).
Proof.
  induction reqs as [|[[a m] b] r IH]; intros ins v Hok F; [done|].
  apply Forall_cons in F as [H F]. simpl. rewrite <- app_assoc. apply IH; [|done]. by apply ip4_OrInsert_ok.
Qed.

Lemma map_ok_nil : map_ok [] [].
Proof. split_and!; try done. intros ? ? ? H. by apply elem_of_nil in H. Qed.

(** After any sequence of [OrInsert]s of CIDR blocks, the kernel's
    longest-prefix lookup of an address returns exactly the rules whose
    inserted blocks contain it, whatever the order and nesting of the blocks. *)
Theorem ip4_OrInsert_correct (reqs : list request) (p n : Z) : Forall req_ok reqs ->
  Bitmap.test (default Bitmap.Clear (ip4_lpm (ip4_OrInserts reqs []) p)) n = true <->
  exists a m b, (a, m, b) ∈ reqs /\ Prefix.in_prefix 32 a m p = true /\ Bitmap.test b n = true.
Proof.
  intros F. rewrite (map_ok_lookup (rev reqs ++ [])) by (apply ip4_OrInserts_ok; [apply map_ok_nil|done]).
  rewrite app_nil_r. setoid_rewrite list_elem_of_In. setoid_rewrite <- in_rev. done.
Qed.

Lemma ip4_OrInsert_correct_witness :
  let reqs := [(3232235776, 24, Bitmap.make_n 0); (3232235520, 16, Bitmap.make_n 1)] in
  Bitmap.test (default Bitmap.Clear (ip4_lpm (ip4_OrInserts reqs []) 3232235777)) 1 = true.
Proof.
  cbn zeta. apply (ip4_OrInsert_correct _ 3232235777 1).
  - repeat constructor; simpl; try (unfold in_width; lia); try done.
  - exists 3232235520, 16, (Bitmap.make_n 1). split_and!; [|done..]. by right; left.
Defined.

End Ip4Rules.
