(* ===== verification/Ip6Rules.v ===== *)
(** * IPv6 rules (services/netmanagernative/bpf: [IpParamParser] for IPv6 and
    class [Ip6RuleMap])

    An [in6_addr] is its sixteen bytes in network order. A range of addresses
    is cut into prefixes by scanning the bits of its two ends; the model keeps
    the byte and bit loops of the source, and the proofs relate them to
    arithmetic on the 128-bit value of an address. *)

From S2P Require Import Prelude Prefix Bitmap.

Module Ip6Rules.

Definition NETFIREWALL_SUCCESS : Z := 0.
Definition NETFIREWALL_ERR : Z := 1.
Definition BIT_PER_BYTE : Z := 8.
Definition IPV6_BIT_COUNT : Z := 128.
Definition IPV6_BYTE_COUNT : Z := 16.
Definition IPV6_MAX_PREFIXLEN : Z := 128.

(** [s6_addr[16]]. *)
Abbreviation in6_addr := (list Z).

Record Ip6Data := mkIp6 { ip6_prefixlen : Z; ip6_data : in6_addr }.

(** [addr.s6_addr[i]], and the store to it. *)
Definition s6 (addr : in6_addr) (i : Z) : Z := nth (Z.to_nat i) addr 0.
Definition set_s6 (addr : in6_addr) (i b : Z) : in6_addr := <[Z.to_nat i := b]> addr.

(** [memcmp] of two addresses: the sign of the first difference. *)
Fixpoint memcmp (a b : list Z) : Z :=
  match a, b with
  | x :: a, y :: b => if x =? y then memcmp a b else if x <? y then -1 else 1
  | _, _ => 0
  end.

(** ** Scanning the bits of an address *)

(** [for (j = 7; j >= 0; --j)] in one byte where the two addresses differ. *)
Fixpoint prefix_bits (j : nat) (i x y : Z) : option Z :=
  let byte := u8 (Z.shiftl 1 (Z.of_nat j)) in
  if Z.land x byte =? Z.land y byte then
    match j with O => None | S j => prefix_bits j i x y end
  else Some (u32 (i * BIT_PER_BYTE + BIT_PER_BYTE - Z.of_nat j - 1)).

Fixpoint prefix_bytes (fuel : nat) (i : Z) (start end_ : in6_addr) : Z :=
  match fuel with
  | O => IPV6_MAX_PREFIXLEN
  | S fuel =>
      if s6 start i =? s6 end_ i then prefix_bytes fuel (i + 1) start end_
      else match prefix_bits 7 i (s6 start i) (s6 end_ i) with
           | Some prefixlen => prefixlen
           | None => prefix_bytes fuel (i + 1) start end_
           end
  end.
Definition GetIp6Prefixlen (start end_ : in6_addr) : Z := prefix_bytes 16 0 start end_.

(** [for (; j <= k; ++j)] over the bits of one byte; at most 8 of them. *)
Fixpoint rfind_bits (fuel : nat) (x j k value : Z) : option Z :=
  match fuel with
  | O => None
  | S fuel =>
      if j <=? k then
        let byte := u8 (Z.shiftl 1 j) in
        let tmp := Z.shiftr (Z.land x byte) j in
        if tmp =? value then Some j else rfind_bits fuel x (j + 1) k value
      else None
  end.

(** [for (i = endBytes; i >= startBytes; --i)], left when [i == startBytes]. *)
Fixpoint rfind_bytes (fuel : nat) (addr : in6_addr) (i startBytes endBytes startBits endBits value : Z) : Z :=
  match fuel with
  | O => IPV6_BIT_COUNT
  | S fuel =>
      if startBytes <=? i then
        let j := if i =? endBytes then BIT_PER_BYTE - endBits - 1 else 0 in
        let k := if i =? startBytes then BIT_PER_BYTE - startBits - 1 else BIT_PER_BYTE - 1 in
        match rfind_bits 8 (s6 addr i) j k value with
        | Some j => u32 (i * BIT_PER_BYTE + BIT_PER_BYTE - j - 1)
        | None => if i =? startBytes then IPV6_BIT_COUNT
                  else rfind_bytes fuel addr (i - 1) startBytes endBytes startBits endBits value
        end
      else IPV6_BIT_COUNT
  end.

Definition RfindIp6 (addr : in6_addr) (startBit endBit value : Z) : Z :=
  if endBit <? startBit then IPV6_BIT_COUNT
  else
    let startBits := startBit mod BIT_PER_BYTE in
    let startBytes := startBit / BIT_PER_BYTE in
    let endBits := endBit mod BIT_PER_BYTE in
    let endBytes := endBit / BIT_PER_BYTE in
    rfind_bytes 16 addr endBytes startBytes endBytes startBits endBits value.

(** [for (; j >= 0; --j)]. *)
Fixpoint find_bits (j : nat) (x value : Z) : option Z :=
  let tmp := Z.land (Z.shiftr x (Z.of_nat j)) 1 in
  if tmp =? value then Some (Z.of_nat j) else match j with O => None | S j => find_bits j x value end.

Fixpoint find_bytes (fuel : nat) (addr : in6_addr) (i startBytes startBits value : Z) : Z :=
  match fuel with
  | O => IPV6_BIT_COUNT
  | S fuel =>
      if i <? IPV6_BYTE_COUNT then
        let j := if i =? startBytes then BIT_PER_BYTE - startBits - 1 else BIT_PER_BYTE - 1 in
        match find_bits (Z.to_nat j) (s6 addr i) value with
        | Some j => u32 (i * BIT_PER_BYTE + BIT_PER_BYTE - j - 1)
        | None => find_bytes fuel addr (i + 1) startBytes startBits value
        end
      else IPV6_BIT_COUNT
  end.

Definition FindIp6 (addr : in6_addr) (startBit value : Z) : Z :=
  if IPV6_BIT_COUNT <=? startBit then IPV6_BIT_COUNT
  else
    let startBits := startBit mod BIT_PER_BYTE in
    let startBytes := startBit / BIT_PER_BYTE in
    find_bytes 16 addr startBytes startBytes startBits value.

Definition AddIp6 (addr : in6_addr) (prefixlen : Z) (list_ : list Ip6Data) : list Ip6Data :=
  list_ ++ [mkIp6 prefixlen addr].

(** ** Stepping to the next block *)

(** The bit loop on byte [i]: [inr] is the early return, [inl] the carry into
    the next byte. [clear] says that bits [j <= off] are cleared first. *)
Fixpoint change_bits (fuel : nat) (x j off : Z) (clear : bool) : Z + Z :=
  match fuel with
  | O => inl x
  | S fuel =>
      let byte := u8 (Z.shiftl 1 j) in
      if clear && (j <=? off) then change_bits fuel (Z.land x (255 - byte)) (j + 1) off clear
      else if negb (Z.land x byte =? 0) then change_bits fuel (Z.land x (255 - byte)) (j + 1) off clear
      else inr (Z.lor x byte)
  end.

(** [for (i = bytes; i >= 0; --i)]. *)
Fixpoint change_bytes (i : nat) (addr : in6_addr) (bytes off : Z) (needSetZero : bool) : in6_addr :=
  let clear := needSetZero && (Z.of_nat i =? bytes) in
  match change_bits 8 (s6 addr (Z.of_nat i)) 0 off clear with
  | inr x => set_s6 addr (Z.of_nat i) x
  | inl x =>
      let addr := set_s6 addr (Z.of_nat i) x in
      match i with O => addr | S i => change_bytes i addr bytes off needSetZero end
  end.

Definition ChangeIp6Start (startBit : Z) (addr : in6_addr) : in6_addr :=
  let bits := startBit mod BIT_PER_BYTE in
  let bytes := startBit / BIT_PER_BYTE in
  let addr :=
    if bytes <? IPV6_BYTE_COUNT - 1
    then take (Z.to_nat (bytes + 1)) addr ++ replicate (Z.to_nat (IPV6_BYTE_COUNT - bytes - 1)) 0
    else addr in
  let '(bytes, bits, needSetZero) :=
    if IPV6_BYTE_COUNT <=? bytes then (IPV6_BYTE_COUNT - 1, BIT_PER_BYTE - 1, false) else (bytes, bits, true) in
  let off := BIT_PER_BYTE - bits - 1 in
  change_bytes (Z.to_nat bytes) addr bytes off needSetZero.

(** ** [GetIp6AndMask] *)

(** [while (off != IPV6_BIT_COUNT && off != prefixlen)]. *)
Fixpoint ip6_down (fuel : nat) (addr6Start : in6_addr) (prefixlen off : Z)
    (st : in6_addr * list Ip6Data) : in6_addr * list Ip6Data :=
  match fuel with
  | O => st
  | S fuel =>
      if negb (off =? IPV6_BIT_COUNT) && negb (off =? prefixlen) then
        let '(tmpAddr, list_) := st in
        let list_ := AddIp6 tmpAddr (off + 1) list_ in
        let tmpAddr := ChangeIp6Start (off + 1) tmpAddr in
        ip6_down fuel addr6Start prefixlen (RfindIp6 addr6Start prefixlen (off - 1) 0) (tmpAddr, list_)
      else st
  end.

(** [while (off != IPV6_BIT_COUNT)]. *)
Fixpoint ip6_up (fuel : nat) (addr6End : in6_addr) (off : Z)
    (st : in6_addr * list Ip6Data) : in6_addr * list Ip6Data :=
  match fuel with
  | O => st
  | S fuel =>
      if negb (off =? IPV6_BIT_COUNT) then
        let '(tmpAddr, list_) := st in
        let list_ := AddIp6 tmpAddr (off + 1) list_ in
        let tmpAddr := ChangeIp6Start (off + 1) tmpAddr in
        ip6_up fuel addr6End (FindIp6 addr6End (off + 1) 1) (tmpAddr, list_)
      else st
  end.

(** The two loops visit each of the 128 bits at most once. *)
Definition ip6_fuel : nat := 129.

(** What follows the scan of the start address. *)
Definition ip6_finish (addr6End : in6_addr) (prefixlen : Z) (st : in6_addr * list Ip6Data)
    : Z * list Ip6Data :=
  let off := FindIp6 addr6End prefixlen 1 in
  if off =? IPV6_BIT_COUNT then (NETFIREWALL_ERR, snd st)
  else
    let '(tmpAddr, list_) := ip6_up ip6_fuel addr6End (FindIp6 addr6End (off + 1) 1) st in
    if memcmp tmpAddr addr6End =? 0
    then (NETFIREWALL_SUCCESS, AddIp6 tmpAddr IPV6_MAX_PREFIXLEN list_)
    else (NETFIREWALL_SUCCESS, list_).

Definition GetIp6AndMask (addr6Start addr6End : in6_addr) : Z * list Ip6Data :=
  let ret := memcmp addr6Start addr6End in
  if 0 <? ret then (NETFIREWALL_ERR, [])
  else if ret =? 0 then (NETFIREWALL_SUCCESS, AddIp6 addr6Start IPV6_MAX_PREFIXLEN [])
  else
    let prefixlen := GetIp6Prefixlen addr6Start addr6End in
    let tmpAddr := addr6Start in
    let off := RfindIp6 addr6Start prefixlen (IPV6_BIT_COUNT - 1) 1 in
    if negb (off =? IPV6_BIT_COUNT) then
      let list_ := AddIp6 tmpAddr (off + 1) [] in
      let tmpAddr := ChangeIp6Start (off + 1) tmpAddr in
      let off := RfindIp6 addr6Start prefixlen off 0 in
      ip6_finish addr6End prefixlen (ip6_down ip6_fuel addr6Start prefixlen off (tmpAddr, list_))
    else if RfindIp6 addr6End prefixlen (IPV6_BIT_COUNT - 1) 0 =? IPV6_BIT_COUNT
      then (NETFIREWALL_SUCCESS, AddIp6 addr6Start prefixlen [])
      else ip6_finish addr6End prefixlen (tmpAddr, []).

(** ** [Ip6RuleMap] *)

Record Ip6RuleBitmap := mkIp6Rule { i6_prefixlen : Z; i6_data : in6_addr; i6_bitmap : Bitmap.t }.

Definition GetNetworkAddress (addr : in6_addr) (prefixLen : Z) : in6_addr :=
  let out := replicate 16 0 in
  if (prefixLen <? 0) || (IPV6_MAX_PREFIXLEN <? prefixLen) then out
  else if prefixLen =? 0 then out
  else
    let quotient := prefixLen / 8 in
    let remainder := prefixLen mod 8 in
    let out := ((fun b => Z.land b 0xff) <$> take (Z.to_nat quotient) addr) ++ drop (Z.to_nat quotient) out in
    if negb (remainder =? 0)
    then set_s6 out quotient (Z.land (s6 addr quotient) (u8 (Z.lnot (Z.shiftr 0xff remainder))))
    else out.

Definition ip6_OrForEach (bitmap : Bitmap.t) (v : list Ip6RuleBitmap) : list Ip6RuleBitmap :=
  (fun it => mkIp6Rule (i6_prefixlen it) (i6_data it) (Bitmap.Or (i6_bitmap it) bitmap)) <$> v.

Definition ip6_matches (addr : in6_addr) (prefixlen : Z) (it : Ip6RuleBitmap) : bool :=
  (memcmp addr (i6_data it) =? 0)
  || (memcmp (GetNetworkAddress addr (s32 prefixlen)) (GetNetworkAddress (i6_data it) (s32 (i6_prefixlen it))) =? 0).

Definition ip6_OrInsert (addr : in6_addr) (prefixlen : Z) (bitmap : Bitmap.t) (v : list Ip6RuleBitmap)
    : list Ip6RuleBitmap :=
  if existsb (ip6_matches addr prefixlen) v
  then (fun it => if ip6_matches addr prefixlen it
                  then mkIp6Rule (i6_prefixlen it) (i6_data it) (Bitmap.Or (i6_bitmap it) bitmap) else it) <$> v
  else v ++ [mkIp6Rule prefixlen addr bitmap].

Definition addr6 (tail : list Z) : in6_addr := replicate (16 - length tail) 0 ++ tail.

Example ip6_1_6 : GetIp6AndMask (addr6 [1]) (addr6 [6]) =
  (0, [mkIp6 128 (addr6 [1]); mkIp6 127 (addr6 [2]); mkIp6 127 (addr6 [4]); mkIp6 128 (addr6 [6])]).
Proof. vm_compute. reflexivity. Qed.
Example ip6_0_5 : GetIp6AndMask (addr6 []) (addr6 [5]) = (0, [mkIp6 128 (addr6 [])]).
Proof. vm_compute. reflexivity. Qed.

(** ** The value of an address *)

Definition val (l : list Z) : Z := foldl (fun acc b => acc * 256 + b) 0 l.

Definition wf (addr : in6_addr) : Prop := length addr = 16%nat /\ Forall (in_width 8) addr.

(** Bit [b] of an address, counted from the most significant one. *)
Definition bit_at (addr : in6_addr) (b : Z) : bool := Z.testbit (s6 addr (b / 8)) (7 - b mod 8).

Lemma val_acc l acc : foldl (fun acc b => acc * 256 + b) acc l = acc * 2 ^ (8 * Z.of_nat (length l)) + val l.
Proof.
  unfold val. revert acc. induction l as [|x l IH]; intros acc; [simpl; lia|].
  cbn [foldl length]. rewrite IH, (IH (0 * 256 + x)), Nat2Z.inj_succ.
  replace (8 * Z.succ (Z.of_nat (length l))) with (8 + 8 * Z.of_nat (length l)) by lia.
  rewrite Z.pow_add_r by lia. change (2 ^ 8) with 256. lia.
Qed.

Lemma val_app l1 l2 : val (l1 ++ l2) = val l1 * 2 ^ (8 * Z.of_nat (length l2)) + val l2.
Proof. unfold val at 1. by rewrite foldl_app, val_acc. Qed.

Lemma val_cons x l : val (x :: l) = x * 2 ^ (8 * Z.of_nat (length l)) + val l.
Proof. change (x :: l) with ([x] ++ l). rewrite val_app. unfold val at 1. simpl. lia. Qed.

Lemma val_width l : Forall (in_width 8) l -> in_width (8 * Z.of_nat (length l)) (val l).
Proof.
  unfold in_width. induction 1 as [|x l Hx Hl IH]; [unfold val; simpl; lia|].
  rewrite val_cons. cbn [length]. rewrite Nat2Z.inj_succ.
  replace (8 * Z.succ (Z.of_nat (length l))) with (8 + 8 * Z.of_nat (length l)) by lia.
  rewrite Z.pow_add_r by lia. change (2 ^ 8) with 256 in *. nia.
Qed.

Lemma val_zeros n : val (replicate n 0) = 0.
Proof. induction n as [|n IH]; [done|]. cbn [replicate]. rewrite val_cons, IH. lia. Qed.

Lemma val_wf addr : wf addr -> in_width 128 (val addr).
Proof. intros [L W]. pose proof (val_width addr W) as H. by rewrite L in H. Qed.

Lemma testbit_mul_add x k r i : 0 <= k -> in_width k r -> k <= i ->
  Z.testbit (x * 2 ^ k + r) i = Z.testbit x (i - k).
Proof.
  intros Hk Hr Hi. replace i with ((i - k) + k) at 1 by lia.
  rewrite <- Z.shiftr_spec, Z.shiftr_div_pow2 by lia.
  rewrite Z.div_add_l by (apply Z.pow_nonzero; lia). rewrite Z.div_small by apply Hr. f_equal. lia.
Qed.

Lemma testbit_mul_add_low x k r i : 0 <= i < k -> Z.testbit (x * 2 ^ k + r) i = Z.testbit r i.
Proof.
  intros Hi. rewrite <- (Z.mod_pow2_bits_low _ k i), Z.add_comm, Z.mod_add by (try apply Z.pow_nonzero; lia).
  apply Z.mod_pow2_bits_low. lia.
Qed.

Lemma val_bits l : Forall (in_width 8) l -> forall b, 0 <= b < 8 * Z.of_nat (length l) ->
  Z.testbit (val l) (8 * Z.of_nat (length l) - 1 - b) = bit_at l b.
Proof.
  unfold bit_at, s6. induction 1 as [|x l Hx Hl IH]; intros b Hb; [simpl in Hb; lia|].
  rewrite val_cons. cbn [length] in *. rewrite Nat2Z.inj_succ in *.
  destruct (Z_lt_le_dec b 8) as [L|L].
  - rewrite testbit_mul_add by (try apply val_width; done || lia).
    rewrite Z.div_small, Z.mod_small by lia. simpl. f_equal. lia.
  - rewrite testbit_mul_add_low by lia.
    replace (8 * Z.succ (Z.of_nat (length l)) - 1 - b) with (8 * Z.of_nat (length l) - 1 - (b - 8)) by lia.
    rewrite IH by lia. replace b with ((b - 8) + 1 * 8) at 3 4 by lia.
    rewrite Z.div_add, Z.mod_add by lia.
    assert (0 <= (b - 8) / 8) by (apply Z.div_pos; lia).
    rewrite Z2Nat.inj_add by lia. change (Z.to_nat 1) with 1%nat. rewrite Nat.add_comm. done.
Qed.

Lemma bit_val addr b : wf addr -> 0 <= b < 128 -> bit_at addr b = Z.testbit (val addr) (127 - b).
Proof. intros [L W] Hb. rewrite <- val_bits by (done || lia). rewrite L. done. Qed.

Lemma bit_at_byte addr i j : 0 <= j <= 7 -> bit_at addr (i * 8 + 8 - j - 1) = Z.testbit (s6 addr i) j.
Proof.
  intros Hj. unfold bit_at.
  assert (E : (i * 8 + 8 - j - 1) / 8 = i) by (symmetry; apply (Z.div_unique _ _ _ (7 - j)); lia).
  assert (F : (i * 8 + 8 - j - 1) mod 8 = 7 - j) by (symmetry; apply (Z.mod_unique _ _ i); lia).
  rewrite E, F. f_equal. lia.
Qed.

Lemma s6_width addr i : wf addr -> in_width 8 (s6 addr i).
Proof.
  intros [L W]. unfold s6. destruct (lt_dec (Z.to_nat i) (length addr)) as [H|H].
  - apply (Forall_nth (in_width 8) 0 addr); done.
  - rewrite nth_overflow by lia. unfold in_width. lia.
Qed.

Lemma memcmp_val a b : Forall (in_width 8) a -> Forall (in_width 8) b -> length a = length b ->
  memcmp a b = match val a ?= val b with Lt => -1 | Eq => 0 | Gt => 1 end.
Proof.
  intros Wa. revert b. induction Wa as [|x a Hx Wa IH]; intros [|y b] Wb L; simpl in L; try done.
  apply Forall_cons in Wb as [Hy Wb]. cbn [memcmp]. rewrite !val_cons, (IH b Wb) by lia.
  replace (length b) with (length a) by lia.
  pose proof (val_width a Wa) as [? ?]. pose proof (val_width b Wb) as Vb.
  replace (length b) with (length a) in Vb by lia. destruct Vb.
  destruct (Z.eqb_spec x y) as [->|N].
  - by rewrite Zcompare_plus_compat.
  - destruct (Z.ltb_spec x y); [rewrite (proj2 (Z.compare_lt_iff _ _)) by nia|
      rewrite (proj2 (Z.compare_gt_iff _ _)) by nia]; done.
Qed.

(** ** What the scans find *)

(** [r] is the last position of [[s, e]] whose bit is [v], or 128 if there is none. *)
Definition last_bit (f : Z -> bool) (s e : Z) (v : bool) (r : Z) : Prop :=
  (r = 128 /\ forall b, s <= b <= e -> f b = negb v) \/
  (s <= r <= e /\ f r = v /\ forall b, r < b <= e -> f b = negb v).

(** [r] is the first position of [[s, 128)] whose bit is [v], or 128. *)
Definition first_bit (f : Z -> bool) (s : Z) (v : bool) (r : Z) : Prop :=
  s <= r <= 128 /\ (r = 128 \/ f r = v) /\ forall b, s <= b < r -> f b = negb v.

Lemma first_bit_end f v : first_bit f 128 v 128.
Proof. split_and!; [lia|lia|by left|intros; lia]. Qed.

Lemma bit_test x j v : in_width 8 x -> 0 <= j <= 7 ->
  (Z.shiftr (Z.land x (u8 (Z.shiftl 1 j))) j =? Z.b2z v) = Bool.eqb (Z.testbit x j) v /\
  (Z.land (Z.shiftr x j) 1 =? Z.b2z v) = Bool.eqb (Z.testbit x j) v.
Proof.
  intros Hx Hj.
  assert (C : all_below 256 (fun x => all_below 8 (fun j => forallb (fun v =>
      Bool.eqb (Z.shiftr (Z.land x (u8 (Z.shiftl 1 j))) j =? Z.b2z v) (Bool.eqb (Z.testbit x j) v) &&
      Bool.eqb (Z.land (Z.shiftr x j) 1 =? Z.b2z v) (Bool.eqb (Z.testbit x j) v)) [true; false])) = true)
    by (vm_compute; reflexivity).
  pose proof (all_below_spec _ _ (byte_check _ C x Hx) j ltac:(lia)) as H. clear C. cbn beta in H.
  rewrite forallb_forall in H. specialize (H v ltac:(destruct v; simpl; auto)).
  apply andb_true_iff in H as [H1 H2]. apply eqb_prop in H1, H2. split; assumption.
Qed.

Lemma eqb_false_negb a b : Bool.eqb a b = false -> a = negb b.
Proof. by destruct a, b. Qed.

Lemma rfind_bits_spec fuel x v : in_width 8 x -> forall j k, 0 <= j -> k <= 7 -> k - j + 1 <= Z.of_nat fuel ->
  match rfind_bits fuel x j k (Z.b2z v) with
  | Some r => j <= r <= k /\ Z.testbit x r = v /\ forall i, j <= i < r -> Z.testbit x i = negb v
  | None => forall i, j <= i <= k -> Z.testbit x i = negb v
  end.
Proof.
  intros Hx. induction fuel as [|fuel IH]; intros j k Hj Hk Hf; [simpl in *; intros; lia|].
  cbn [rfind_bits]. destruct (Z.leb_spec j k) as [L|L]; [|intros; lia].
  destruct (bit_test x j v Hx ltac:(lia)) as [-> _].
  destruct (Bool.eqb (Z.testbit x j) v) eqn:E.
  - apply eqb_prop in E. split_and!; [lia|lia|done|intros; lia].
  - apply eqb_false_negb in E. specialize (IH (j + 1) k ltac:(lia) Hk ltac:(lia)).
    destruct (rfind_bits fuel x (j + 1) k (Z.b2z v)) as [r|].
    + destruct IH as (? & ? & H). split_and!; [lia|lia|done|].
      intros i Hi. destruct (decide (i = j)) as [->|]; [done|]. apply H. lia.
    + intros i Hi. destruct (decide (i = j)) as [->|]; [done|]. apply IH. lia.
Qed.

Lemma find_bits_spec x v j : in_width 8 x -> (j <= 7)%nat ->
  match find_bits j x (Z.b2z v) with
  | Some r => 0 <= r <= Z.of_nat j /\ Z.testbit x r = v /\ forall i, r < i <= Z.of_nat j -> Z.testbit x i = negb v
  | None => forall i, 0 <= i <= Z.of_nat j -> Z.testbit x i = negb v
  end.
Proof.
  intros Hx. induction j as [|j IH]; intros Hj; cbn [find_bits];
    [destruct (bit_test x (Z.of_nat 0) v Hx ltac:(lia)) as [_ ->]|
     destruct (bit_test x (Z.of_nat (S j)) v Hx ltac:(lia)) as [_ ->]].
  all: destruct (Bool.eqb _ v) eqn:E; [apply eqb_prop in E; split_and!; [lia|lia|done|intros; lia]|
         apply eqb_false_negb in E].
  - intros i Hi. by replace i with 0 by lia.
  - specialize (IH ltac:(lia)). destruct (find_bits j x (Z.b2z v)) as [r|].
    + destruct IH as (? & ? & H). split_and!; [lia|lia|done|]. intros i Hi.
      destruct (decide (i = Z.of_nat (S j))) as [->|]; [done|]. apply H. lia.
    + intros i Hi. destruct (decide (i = Z.of_nat (S j))) as [->|]; [done|]. apply IH. lia.
Qed.

Lemma byte_of_bit b : exists i j, b = i * 8 + 8 - j - 1 /\ 0 <= j <= 7 /\ i = b / 8 /\ j = 7 - b mod 8.
Proof.
  exists (b / 8), (7 - b mod 8). pose proof (Z.div_mod b 8). pose proof (Z.mod_pos_bound b 8). lia.
Qed.

Lemma rfind_bytes_spec fuel addr s e v : wf addr -> 0 <= s <= e -> e < 128 ->
  forall i, s / 8 <= i <= e / 8 -> i - s / 8 + 1 <= Z.of_nat fuel ->
  last_bit (bit_at addr) s (Z.min e (i * 8 + 7)) v
    (rfind_bytes fuel addr i (s / 8) (e / 8) (s mod 8) (e mod 8) (Z.b2z v)).
Proof.
  intros Hw Hse He. pose proof (Z.div_mod s 8). pose proof (Z.mod_pos_bound s 8).
  pose proof (Z.div_mod e 8). pose proof (Z.mod_pos_bound e 8).
  assert (0 <= s / 8) by (apply Z.div_pos; lia).
  induction fuel as [|fuel IH]; intros i Hi Hf; [simpl in *; lia|].
  cbn [rfind_bytes]. unfold BIT_PER_BYTE. rewrite (proj2 (Z.leb_le _ _)) by lia.
  set (j := if i =? e / 8 then 8 - e mod 8 - 1 else 0).
  set (k := if i =? s / 8 then 8 - s mod 8 - 1 else 8 - 1).
  assert (Hj : Z.min e (i * 8 + 7) = i * 8 + 8 - j - 1 /\ 0 <= j)
    by (subst j; destruct (Z.eqb_spec i (e / 8)); lia).
  assert (Hk : (if i =? s / 8 then s = i * 8 + 8 - k - 1 else s < i * 8) /\ k <= 7)
    by (subst k; destruct (Z.eqb_spec i (s / 8)); lia).
  pose proof (rfind_bits_spec 8 (s6 addr i) v (s6_width addr i Hw) j k ltac:(lia) ltac:(lia) ltac:(lia)) as R.
  assert (Hlow : forall b, i * 8 <= b <= Z.min e (i * 8 + 7) -> s <= b -> exists j', b = i * 8 + 8 - j' - 1 /\ j <= j' <= k).
  { intros b Hb Hs. exists (i * 8 + 7 - b). split; [lia|]. destruct (i =? s / 8); subst k; lia. }
  destruct (rfind_bits 8 (s6 addr i) j k (Z.b2z v)) as [r|].
  - destruct R as (Rr & Rv & Rn). right. rewrite wrap_small by (unfold in_width; lia).
    split_and!; [destruct (i =? s / 8); lia|lia|by rewrite bit_at_byte by lia|].
    intros b Hb. destruct (Hlow b) as (j' & -> & Hj'); [lia|destruct (i =? s / 8); lia|].
    rewrite bit_at_byte by lia. apply Rn. lia.
  - assert (Rb : forall b, i * 8 <= b <= Z.min e (i * 8 + 7) -> s <= b -> bit_at addr b = negb v).
    { intros b Hb Hs. destruct (Hlow b Hb Hs) as (j' & -> & Hj'). rewrite bit_at_byte by lia. by apply R. }
    destruct (Z.eqb_spec i (s / 8)) as [E|E].
    + left. split; [done|]. intros b Hb. apply Rb; lia.
    + specialize (IH (i - 1) ltac:(lia) ltac:(lia)).
      replace (Z.min e ((i - 1) * 8 + 7)) with (i * 8 - 1) in IH by lia.
      destruct IH as [[-> Hn]|(Hr & Hv & Hn)]; [left; split; [done|]|right; split_and!; [lia|lia|done|]];
        intros b Hb; (destruct (Z_lt_le_dec b (i * 8)); [apply Hn; lia|apply Rb; lia]).
Qed.

Lemma RfindIp6_spec addr s e v : wf addr -> 0 <= s -> e < 128 ->
  last_bit (bit_at addr) s e v (RfindIp6 addr s e (Z.b2z v)).
Proof.
  intros Hw Hs He. unfold RfindIp6, BIT_PER_BYTE.
  destruct (Z.ltb_spec e s); [left; split; [done|intros; lia]|].
  assert (s / 8 <= e / 8) by (apply Z.div_le_mono; lia).
  assert (e / 8 < 16) by (apply Z.div_lt_upper_bound; lia). assert (0 <= s / 8) by (apply Z.div_pos; lia).
  pose proof (rfind_bytes_spec 16 addr s e v Hw ltac:(lia) He (e / 8) ltac:(lia) ltac:(lia)) as R.
  replace (Z.min e (e / 8 * 8 + 7)) with e in R
    by (pose proof (Z.div_mod e 8); pose proof (Z.mod_pos_bound e 8); lia). done.
Qed.

Lemma find_bytes_spec fuel addr s v : wf addr -> 0 <= s < 128 ->
  forall i, s / 8 <= i <= 16 -> 16 - i <= Z.of_nat fuel ->
  first_bit (bit_at addr) (Z.max s (i * 8)) v (find_bytes fuel addr i (s / 8) (s mod 8) (Z.b2z v)).
Proof.
  intros Hw Hs. pose proof (Z.div_mod s 8). pose proof (Z.mod_pos_bound s 8).
  assert (0 <= s / 8) by (apply Z.div_pos; lia).
  induction fuel as [|fuel IH]; intros i Hi Hf.
  { replace (Z.max s (i * 8)) with 128 by (simpl in *; lia). apply first_bit_end. }
  cbn [find_bytes]. unfold IPV6_BYTE_COUNT, BIT_PER_BYTE. destruct (Z.ltb_spec i 16) as [L|L];
    [|replace (Z.max s (i * 8)) with 128 by lia; apply first_bit_end].
  set (j := if i =? s / 8 then 8 - s mod 8 - 1 else 8 - 1).
  assert (Hj : Z.max s (i * 8) = i * 8 + 8 - j - 1 /\ 0 <= j <= 7)
    by (subst j; destruct (Z.eqb_spec i (s / 8)); lia).
  pose proof (find_bits_spec (s6 addr i) v (Z.to_nat j) (s6_width addr i Hw) ltac:(lia)) as R.
  rewrite Z2Nat.id in R by lia.
  assert (Hbit : forall b, Z.max s (i * 8) <= b < i * 8 + 8 -> exists j', b = i * 8 + 8 - j' - 1 /\ 0 <= j' <= j).
  { intros b Hb. exists (i * 8 + 7 - b). lia. }
  destruct (find_bits (Z.to_nat j) (s6 addr i) (Z.b2z v)) as [r|].
  - destruct R as (Rr & Rv & Rn). rewrite wrap_small by (unfold in_width; lia).
    split_and!; [lia|lia|right; by rewrite bit_at_byte by lia|].
    intros b Hb. destruct (Hbit b) as (j' & -> & Hj'); [lia|]. rewrite bit_at_byte by lia. apply Rn. lia.
  - destruct (IH (i + 1) ltac:(lia) ltac:(lia)) as (Hr & Hv & Hn). split_and!; [lia|lia|done|].
    intros b Hb. destruct (Z_lt_le_dec b (i * 8 + 8)); [|apply Hn; lia].
    destruct (Hbit b) as (j' & -> & Hj'); [lia|]. rewrite bit_at_byte by lia. by apply R.
Qed.

Lemma FindIp6_spec addr s v : wf addr -> 0 <= s <= 128 ->
  first_bit (bit_at addr) s v (FindIp6 addr s (Z.b2z v)).
Proof.
  intros Hw Hs. unfold FindIp6, BIT_PER_BYTE, IPV6_BIT_COUNT.
  destruct (Z.leb_spec 128 s); [replace s with 128 by lia; apply first_bit_end|].
  assert (s / 8 < 16) by (apply Z.div_lt_upper_bound; lia). assert (0 <= s / 8) by (apply Z.div_pos; lia).
  pose proof (find_bytes_spec 16 addr s v Hw ltac:(lia) (s / 8) ltac:(lia) ltac:(lia)) as R.
  replace (Z.max s (s / 8 * 8)) with s in R
    by (pose proof (Z.div_mod s 8); pose proof (Z.mod_pos_bound s 8); lia). done.
Qed.

Lemma land_bit_eq x y j : in_width 8 x -> in_width 8 y -> 0 <= j <= 7 ->
  (Z.land x (u8 (Z.shiftl 1 j)) =? Z.land y (u8 (Z.shiftl 1 j))) = Bool.eqb (Z.testbit x j) (Z.testbit y j).
Proof.
  intros Hx Hy Hj.
  assert (C : forall x, in_width 8 x -> Z.land x (u8 (Z.shiftl 1 j)) = if Z.testbit x j then 2 ^ j else 0).
  { intros z Hz. assert (C : all_below 256 (fun x => all_below 8 (fun j =>
        Z.land x (u8 (Z.shiftl 1 j)) =? if Z.testbit x j then 2 ^ j else 0)) = true) by (vm_compute; reflexivity).
    apply Z.eqb_eq. apply (all_below_spec _ _ (byte_check _ C z Hz) j). lia. }
  rewrite (C x Hx), (C y Hy). pose proof (Prefix.pow2_pos j ltac:(lia)).
  destruct (Z.testbit x j), (Z.testbit y j); cbn [Bool.eqb]; rewrite ?Z.eqb_refl; try done; apply Z.eqb_neq; lia.
Qed.

Lemma div_bits_above x y n : 0 <= n -> (forall k, n <= k -> Z.testbit x k = Z.testbit y k) ->
  x / 2 ^ n = y / 2 ^ n.
Proof.
  intros Hn H. rewrite <- !Z.shiftr_div_pow2 by done. apply Z.bits_inj'. intros k Hk.
  rewrite !Z.shiftr_spec by done. apply H. lia.
Qed.

Lemma div_succ_bit x n : 0 <= n -> x / 2 ^ n = 2 * (x / 2 ^ (n + 1)) + Z.b2z (Z.testbit x n).
Proof.
  intros Hn. rewrite Z.testbit_spec' by done. rewrite Z.pow_add_r, <- Z.div_div by (try apply Z.pow_nonzero; lia).
  change (2 ^ 1) with 2. apply Z.div_mod. lia.
Qed.

(** The highest bit in which two numbers differ tells which is larger. *)
Lemma bit_order x y r : 0 <= r -> x < y -> Z.testbit x r <> Z.testbit y r ->
  (forall k, r < k -> Z.testbit x k = Z.testbit y k) -> Z.testbit x r = false /\ Z.testbit y r = true.
Proof.
  intros Hr L N H. assert (E : x / 2 ^ (r + 1) = y / 2 ^ (r + 1)) by (apply div_bits_above; [lia|]; intros; apply H; lia).
  assert (M : x / 2 ^ r <= y / 2 ^ r) by (apply Z.div_le_mono; [apply Z.pow_pos_nonneg|]; lia).
  rewrite (div_succ_bit x r), (div_succ_bit y r), E in M by done.
  destruct (Z.testbit x r), (Z.testbit y r); cbn [Z.b2z] in *; done || lia.
Qed.

Lemma prefix_bits_spec j i x y : in_width 8 x -> in_width 8 y -> (j <= 7)%nat -> 0 <= i < 16 -> x < y ->
  (forall k, Z.of_nat j < k -> Z.testbit x k = Z.testbit y k) ->
  exists r, prefix_bits j i x y = Some (i * 8 + 8 - r - 1) /\ 0 <= r <= Z.of_nat j /\
    Z.testbit x r = false /\ Z.testbit y r = true /\ (forall k, r < k -> Z.testbit x k = Z.testbit y k).
Proof.
  intros Hx Hy. revert i. induction j as [|j IH]; intros i Hj Hi L Hk; cbn [prefix_bits];
    rewrite land_bit_eq by (done || lia); unfold BIT_PER_BYTE;
    destruct (Bool.eqb _ _) eqn:E.
  - exfalso. apply eqb_prop in E. enough (x = y) by lia. apply Z.bits_inj'. intros k Hk0.
    destruct (decide (k = 0)) as [->|]; [done|]. apply Hk. lia.
  - exists 0. rewrite wrap_small by (unfold in_width; lia). split; [done|]. split; [lia|].
    apply eqb_false_iff in E. destruct (bit_order x y 0) as [? ?]; done || lia.
  - apply eqb_prop in E. destruct (IH i) as (r & -> & Hr & ?); try done; [lia|..].
    { intros k Hk'. destruct (decide (k = Z.of_nat (S j))) as [->|]; [done|]. apply Hk. lia. }
    exists r. split; [done|]. split; [lia|done].
  - exists (Z.of_nat (S j)). rewrite wrap_small by (unfold in_width; lia). split; [done|]. split; [lia|].
    apply eqb_false_iff in E. destruct (bit_order x y (Z.of_nat (S j))) as [? ?]; done || lia.
Qed.

(** [p] is the length of the common prefix of two addresses in order. *)
Definition split_at (a b : in6_addr) (p : Z) : Prop :=
  0 <= p < 128 /\ bit_at a p = false /\ bit_at b p = true /\ forall k, 0 <= k < p -> bit_at a k = bit_at b k.

Lemma memcmp_lt_at a b : length a = length b -> memcmp a b = -1 ->
  exists i, (i < length a)%nat /\ nth i a 0 < nth i b 0 /\ forall k, (k < i)%nat -> nth k a 0 = nth k b 0.
Proof.
  revert b. induction a as [|x a IH]; intros [|y b] L M; simpl in *; try done.
  destruct (Z.eqb_spec x y) as [->|N].
  - destruct (IH b) as (i & ? & ? & H); [lia|done|]. exists (S i). split_and!; [lia|done|].
    intros [|k] Hk; [done|]. apply H. lia.
  - destruct (Z.ltb_spec x y); [|done]. exists O. split_and!; [lia|done|lia].
Qed.

Lemma prefix_bytes_skip fuel i a b n : (forall k, i <= k < i + Z.of_nat n -> s6 a k = s6 b k) ->
  prefix_bytes (n + fuel) i a b = prefix_bytes fuel (i + Z.of_nat n) a b.
Proof.
  revert i. induction n as [|n IH]; intros i H; [simpl; f_equal; lia|].
  cbn [Nat.add prefix_bytes]. rewrite (H i), Z.eqb_refl by lia. rewrite IH; [f_equal; lia|].
  intros k Hk. apply H. lia.
Qed.

Lemma GetIp6Prefixlen_spec a b : wf a -> wf b -> memcmp a b = -1 -> split_at a b (GetIp6Prefixlen a b).
Proof.
  intros Wa Wb M. destruct (memcmp_lt_at a b) as (i & Hi & L & Heq); [by destruct Wa as [-> _], Wb as [-> _]|done|].
  pose proof Wa as [La _]. rewrite La in Hi. unfold GetIp6Prefixlen.
  replace 16%nat with (i + S (15 - i))%nat by lia.
  rewrite prefix_bytes_skip by (intros k Hk; unfold s6; apply Heq; lia).
  rewrite Z.add_0_l. cbn [prefix_bytes]. set (z := Z.of_nat i).
  assert (E : s6 a z = nth i a 0 /\ s6 b z = nth i b 0) by (unfold s6, z; by rewrite Nat2Z.id).
  rewrite (proj2 (Z.eqb_neq (s6 a z) (s6 b z))) by (destruct E as [-> ->]; lia).
  destruct (prefix_bits_spec 7 z (s6 a z) (s6 b z)) as (r & -> & Hr & Ha & Hb & Hab);
    [by apply s6_width|by apply s6_width|lia|lia|destruct E as [-> ->]; lia| |].
  { intros k Hk. rewrite !(testbit_high 8); try done; try (by apply s6_width); lia. }
  split; [lia|]. rewrite !bit_at_byte by lia. split; [done|]. split; [done|].
  intros k Hk. destruct (Z_lt_le_dec k (z * 8)) as [Hlt|Hge].
  - unfold bit_at, s6. rewrite Heq; [done|]. assert (0 <= k / 8) by (apply Z.div_pos; lia).
    assert (k / 8 < z) by (apply Z.div_lt_upper_bound; lia). lia.
  - replace k with (z * 8 + 8 - (z * 8 + 7 - k) - 1) by lia. rewrite !bit_at_byte by lia. apply Hab. lia.
Qed.

(** ** Stepping over a block *)

Lemma change_bits_inc x : in_width 8 x ->
  change_bits 8 x 0 0 false = if x =? 255 then inl 0 else inr (x + 1).
Proof.
  intros Hx. assert (C : all_below 256 (fun x => match change_bits 8 x 0 0 false with
      | inl y => (x =? 255) && (y =? 0) | inr y => negb (x =? 255) && (y =? x + 1) end) = true)
    by (vm_compute; reflexivity).
  pose proof (byte_check _ C x Hx) as H. clear C. cbn beta in H.
  destruct (change_bits 8 x 0 0 false), (x =? 255); cbn [andb negb] in H; try discriminate H;
    apply Z.eqb_eq in H; by subst.
Qed.

Lemma change_bits_off fuel x j off off' : change_bits fuel x j off false = change_bits fuel x j off' false.
Proof. revert x j. induction fuel as [|fuel IH]; intros x j; cbn [change_bits andb]; [done|]. by rewrite IH. Qed.

(** The byte in which the block ends: drop the low bits, add one above them. *)
Lemma change_bits_clear x off : in_width 8 x -> 0 <= off <= 7 ->
  let y := (x / 2 ^ (off + 1) + 1) * 2 ^ (off + 1) in
  change_bits 8 x 0 off true = if y =? 256 then inl 0 else inr y.
Proof.
  intros Hx Ho. cbn zeta. assert (C : all_below 256 (fun x => all_below 8 (fun off =>
      let y := (x / 2 ^ (off + 1) + 1) * 2 ^ (off + 1) in
      match change_bits 8 x 0 off true with
      | inl z => (y =? 256) && (z =? 0) | inr z => negb (y =? 256) && (z =? y) end)) = true)
    by (vm_compute; reflexivity).
  pose proof (all_below_spec _ _ (byte_check _ C x Hx) off ltac:(lia)) as H. clear C. cbn beta zeta in H.
  set (y := (x / 2 ^ (off + 1) + 1) * 2 ^ (off + 1)) in *.
  destruct (change_bits 8 x 0 off true), (y =? 256); cbn [andb negb] in H; try discriminate H;
    apply Z.eqb_eq in H; by rewrite H.
Qed.

Lemma s6_mid l1 x l2 : s6 (l1 ++ x :: l2) (Z.of_nat (length l1)) = x.
Proof. unfold s6. rewrite Nat2Z.id, app_nth2, Nat.sub_diag by lia. done. Qed.

Lemma set_s6_mid l1 x l2 y : set_s6 (l1 ++ x :: l2) (Z.of_nat (length l1)) y = l1 ++ y :: l2.
Proof. unfold set_s6. rewrite Nat2Z.id. by rewrite insert_app_r_alt, Nat.sub_diag by lia. Qed.

(** A carry into byte [length l1] increments the number formed by the bytes up to it. *)
Lemma change_bytes_inc l1 : forall x l2 bytes off ns, ns = false \/ Z.of_nat (length l1) < bytes ->
  Forall (in_width 8) (l1 ++ [x]) ->
  exists l', change_bytes (length l1) (l1 ++ x :: l2) bytes off ns = l' ++ l2 /\ length l' = S (length l1) /\
    Forall (in_width 8) l' /\ val l' = (val (l1 ++ [x]) + 1) mod 2 ^ (8 * Z.of_nat (S (length l1))).
Proof.
  induction l1 as [|x0 l0 IH] using rev_ind; intros x l2 bytes off ns Hns W;
    apply Forall_app in W as [W0 [Wx _]%Forall_cons].
  all: match goal with |- context [change_bytes ?n] => set (i := n) end.
  all: assert (Hc : ns && (Z.of_nat i =? bytes) = false)
    by (destruct Hns as [->|]; [done|]; rewrite (proj2 (Z.eqb_neq (Z.of_nat i) bytes)) by (subst i; lia); apply andb_false_r).
  - cbn [app length] in *. subst i. cbn [change_bytes]. rewrite Hc, (s6_mid [] x l2 : s6 (x :: l2) (Z.of_nat 0) = x).
    rewrite (change_bits_off 8 x 0 off 0), change_bits_inc by done.
    unfold in_width in Wx. destruct (Z.eqb_spec x 255) as [->|N].
    + exists [0]. split_and!; try done. repeat constructor; unfold in_width; lia.
    + exists [x + 1]. rewrite (set_s6_mid [] x l2 (x + 1) : set_s6 (x :: l2) (Z.of_nat 0) (x + 1) = _).
      split_and!; try done; [repeat constructor; unfold in_width; lia|].
      unfold val. simpl. rewrite Z.mod_small; lia.
  - assert (Ei : i = S (length l0)) by (subst i; rewrite length_app; simpl; lia).
    rewrite Ei in *. cbn [change_bytes]. rewrite Hc.
    replace (Z.of_nat (S (length l0))) with (Z.of_nat (length (l0 ++ [x0]))) by (rewrite length_app; simpl; lia).
    assert (HL : length (l0 ++ [x0]) = S (length l0)) by (rewrite length_app; simpl; lia).
    rewrite s6_mid, (change_bits_off 8 x 0 off 0), change_bits_inc by done.
    assert (P8 : forall n, 2 ^ (8 * Z.of_nat (S n)) = 2 ^ (8 * Z.of_nat n) * 256).
    { intros n. rewrite Nat2Z.inj_succ. replace (8 * Z.succ (Z.of_nat n)) with (8 * Z.of_nat n + 8) by lia.
      by rewrite Z.pow_add_r by lia. }
    pose proof (val_width _ W0) as V0. rewrite HL in V0.
    unfold in_width in Wx, V0. rewrite val_app. cbn [length]. change (8 * Z.of_nat 1) with 8. change (2 ^ 8) with 256.
    replace (val [x]) with x by (unfold val; simpl; lia).
    destruct (Z.eqb_spec x 255) as [->|N].
    + rewrite set_s6_mid, ?HL, <- app_assoc. cbn [app].
      destruct (IH x0 (0 :: l2) bytes off ns) as (l' & E & L & W & V); [subst i|done|].
      { destruct Hns as [|Hns]; [by left|right]. rewrite length_app in Hns. simpl in Hns. lia. }
      exists (l' ++ [0]). rewrite E, <- app_assoc. split_and!; [done|rewrite length_app; simpl; lia| |].
      * apply Forall_app. split; [done|]. repeat constructor; unfold in_width; lia.
      * rewrite val_app, V, (P8 (S (length l0))). cbn [length]. change (2 ^ (8 * Z.of_nat 1)) with 256.
        replace (val (l0 ++ [x0]) * 256 + 255 + 1) with ((val (l0 ++ [x0]) + 1) * 256) by lia.
        rewrite Z.mul_mod_distr_r by (try apply Z.pow_nonzero; lia). unfold val at 2. simpl. lia.
    + rewrite set_s6_mid, ?HL. exists ((l0 ++ [x0]) ++ [x + 1]). rewrite <- (app_assoc (l0 ++ [x0])). split_and!; [done| | |].
      * rewrite !length_app. simpl. lia.
      * apply Forall_app. split; [done|]. repeat constructor; unfold in_width; lia.
      * rewrite val_app, (P8 (S (length l0))). cbn [length]. change (2 ^ (8 * Z.of_nat 1)) with 256.
        rewrite Z.mod_small by lia. unfold val at 2. simpl. lia.
Qed.

(** The first address after the block of [x] whose low [k] bits are free. *)
Definition next_block (k v : Z) : Z := (v / 2 ^ k + 1) * 2 ^ k.

(** The last byte of the block and the carry out of it. *)
Lemma change_bytes_block l1 x m off : Forall (in_width 8) (l1 ++ [x]) -> 0 <= off <= 7 ->
  let y := (x / 2 ^ (off + 1) + 1) * 2 ^ (off + 1) in
  exists l', change_bytes (length l1) (l1 ++ x :: replicate m 0) (Z.of_nat (length l1)) off true = l' ++ replicate m 0 /\
    length l' = S (length l1) /\ Forall (in_width 8) l' /\
    val l' = (val l1 * 256 + y) mod 2 ^ (8 * Z.of_nat (S (length l1))).
Proof.
  intros W Ho y. apply Forall_app in W as [W1 [Wx _]%Forall_cons]. pose proof (val_width _ W1) as V1. unfold in_width in V1.
  assert (P8 : 2 ^ (8 * Z.of_nat (S (length l1))) = 2 ^ (8 * Z.of_nat (length l1)) * 256).
  { rewrite Nat2Z.inj_succ. replace (8 * Z.succ (Z.of_nat (length l1))) with (8 * Z.of_nat (length l1) + 8) by lia.
    by rewrite Z.pow_add_r by lia. }
  assert (Hy : 0 <= y <= 256).
  { subst y. assert (0 < 2 ^ (off + 1)) by (apply Z.pow_pos_nonneg; lia). unfold in_width in Wx.
    assert (Hd : 256 = 2 ^ (7 - off) * 2 ^ (off + 1)) by (rewrite <- Z.pow_add_r by lia; by replace (7 - off + (off + 1)) with 8 by lia).
    assert (x / 2 ^ (off + 1) < 2 ^ (7 - off)) by (apply Z.div_lt_upper_bound; lia).
    assert (0 <= x / 2 ^ (off + 1)) by (apply Z.div_pos; lia). nia. }
  destruct l1 as [|x0 l0 _] using rev_ind.
  - cbn [length change_bytes app]. rewrite (s6_mid [] x (replicate m 0) : s6 (x :: _) (Z.of_nat 0) = x).
    change (Z.of_nat 0 =? Z.of_nat 0) with true. cbn [andb]. rewrite change_bits_clear by done. fold y.
    cbn [length] in P8. rewrite P8. change (val []) with 0. change (2 ^ (8 * Z.of_nat 0)) with 1.
    destruct (Z.eqb_spec y 256) as [E|E]; rewrite (set_s6_mid [] x (replicate m 0) _ : set_s6 (x :: _) (Z.of_nat 0) _ = _).
    + exists [0]. split_and!; try done; [repeat constructor; unfold in_width; lia|]. by rewrite E.
    + exists [y]. split_and!; try done; [repeat constructor; unfold in_width; lia|].
      rewrite Z.mod_small by lia. unfold val; simpl; lia.
  - assert (HL : length (l0 ++ [x0]) = S (length l0)) by (rewrite length_app; simpl; lia).
    replace (change_bytes (length (l0 ++ [x0]))) with (change_bytes (S (length l0))) by (by rewrite HL).
    cbn [change_bytes]. rewrite <- HL, s6_mid, Z.eqb_refl. cbn [andb].
    rewrite change_bits_clear by done. fold y. rewrite P8. destruct (Z.eqb_spec y 256) as [E|E]; rewrite set_s6_mid.
    + rewrite <- app_assoc. cbn [app].
      destruct (change_bytes_inc l0 x0 (0 :: replicate m 0) (Z.of_nat (length (l0 ++ [x0]))) off true)
        as (l' & E' & L & W & V); [right; lia|done|].
      exists (l' ++ [0]). rewrite E', <- app_assoc. split_and!; [done|rewrite length_app; simpl; lia| |].
      * apply Forall_app. split; [done|]. repeat constructor; unfold in_width; lia.
      * rewrite val_app, V, E, <- HL. cbn [length]. change (2 ^ (8 * Z.of_nat 1)) with 256.
        replace (val (l0 ++ [x0]) * 256 + 256) with ((val (l0 ++ [x0]) + 1) * 256) by lia.
        rewrite Z.mul_mod_distr_r by (try apply Z.pow_nonzero; lia). unfold val at 2. simpl. lia.
    + exists ((l0 ++ [x0]) ++ [y]). rewrite <- (app_assoc (l0 ++ [x0])). split_and!; [done| | |].
      * rewrite length_app. simpl. lia.
      * apply Forall_app. split; [done|]. repeat constructor; unfold in_width; lia.
      * rewrite val_app. cbn [length]. change (2 ^ (8 * Z.of_nat 1)) with 256.
        rewrite Z.mod_small by lia. unfold val at 2. simpl. lia.
Qed.

Lemma split_bytes addr n : wf addr -> (n < 16)%nat -> exists l1 x l2, addr = l1 ++ x :: l2 /\ length l1 = n /\
  length l2 = (15 - n)%nat /\ Forall (in_width 8) (l1 ++ [x]) /\ Forall (in_width 8) l2.
Proof.
  intros [L W] Hn. destruct (lookup_lt_is_Some_2 addr n) as [x Hx]; [lia|].
  pose proof (take_drop_middle addr n x Hx) as E. exists (take n addr), x, (drop (S n) addr).
  split_and!; [done|rewrite length_take; lia|rewrite length_drop; lia| |by apply Forall_drop].
  rewrite <- E in W. apply Forall_app in W as [W1 [Wx _]%Forall_cons]. apply Forall_app. split; [done|by constructor].
Qed.

Lemma ChangeIp6Start_spec sb addr : wf addr -> 1 <= sb <= 128 ->
  wf (ChangeIp6Start sb addr) /\ val (ChangeIp6Start sb addr) = next_block (128 - sb) (val addr) mod 2 ^ 128.
Proof.
  intros Hw Hsb. unfold ChangeIp6Start, next_block, BIT_PER_BYTE, IPV6_BYTE_COUNT.
  destruct (decide (sb = 128)) as [->|Hne].
  - change (16 <=? 128 / 8) with true. change (128 / 8 <? 16 - 1) with false. cbn beta iota zeta.
    destruct (split_bytes addr 15 Hw) as (l1 & x & l2 & -> & L1 & L2 & W1 & _); [lia|].
    destruct l2; [|done]. change (Z.to_nat (16 - 1)) with 15%nat. rewrite <- L1.
    destruct (change_bytes_inc l1 x [] (16 - 1) (8 - (8 - 1) - 1) false) as (l' & -> & L' & W' & V); [by left|done|].
    rewrite app_nil_r, V, L1. change (128 - 128) with 0. change (2 ^ 0) with 1. rewrite Z.div_1_r, Z.mul_1_r.
    split; [split; [lia|done]|done].
  - pose proof (Z.div_mod sb 8). pose proof (Z.mod_pos_bound sb 8). assert (0 <= sb / 8) by (apply Z.div_pos; lia).
    set (n := Z.to_nat (sb / 8)). rewrite (proj2 (Z.leb_gt 16 (sb / 8))) by lia. cbn beta iota zeta.
    destruct (split_bytes addr n Hw) as (l1 & x & l2 & -> & L1 & L2 & W1 & W2); [lia|].
    assert (Em : (if sb / 8 <? 16 - 1 then take (Z.to_nat (sb / 8 + 1)) (l1 ++ x :: l2) ++
        replicate (Z.to_nat (16 - sb / 8 - 1)) 0 else l1 ++ x :: l2) = l1 ++ x :: replicate (15 - n) 0).
    { destruct (Z.ltb_spec (sb / 8) (16 - 1)).
      - replace (Z.to_nat (sb / 8 + 1)) with (length l1 + 1)%nat by lia. rewrite take_app_add.
        rewrite <- app_assoc. cbn [take firstn app]. rewrite take_0. cbn [app]. do 3 f_equal. lia.
      - destruct l2; [|simpl in L2; lia]. by replace (15 - n)%nat with 0%nat by lia. }
    rewrite Em. fold n.
    replace (change_bytes n _ (sb / 8)) with (change_bytes (length l1) (l1 ++ x :: replicate (15 - n) 0) (Z.of_nat (length l1)))
      by (rewrite L1; f_equal; lia).
    destruct (change_bytes_block l1 x (15 - n) (8 - sb mod 8 - 1) W1) as (l' & -> & L' & W' & V); [lia|].
    split.
    + split; [rewrite length_app, length_replicate; lia|]. apply Forall_app. split; [done|].
      apply Forall_replicate. unfold in_width. lia.
    + rewrite (val_app l'), val_zeros, length_replicate, Z.add_0_r, V, (val_app l1), val_cons, L2.
      set (m := 8 * Z.of_nat (15 - n)). set (q := 8 - sb mod 8 - 1 + 1).
      replace (8 * Z.of_nat (length (x :: l2))) with (8 + m) by (simpl length; lia).
      replace (128 - sb) with (q + m) by (subst q m; lia).
      pose proof (val_width l2 W2) as V2. rewrite L2 in V2. fold m in V2.
      rewrite !Z.pow_add_r by lia. rewrite Z.mul_comm with (n := 2 ^ q) (m := 2 ^ m).
      rewrite <- Z.div_div by (try apply Z.pow_nonzero; try apply Z.pow_pos_nonneg; lia).
      replace (val l1 * (2 ^ 8 * 2 ^ m) + (x * 2 ^ m + val l2)) with ((val l1 * 256 + x) * 2 ^ m + val l2) by lia.
      rewrite Z.div_add_l, (Z.div_small (val l2)) by (try apply Z.pow_nonzero; done || lia).
      assert (H8 : 256 = 2 ^ (8 - q) * 2 ^ q) by (rewrite <- Z.pow_add_r by lia; by replace (8 - q + q) with 8 by lia).
      rewrite Z.add_0_r, H8, Z.mul_assoc, Z.div_add_l by (apply Z.pow_nonzero; lia).
      replace (2 ^ 128) with (2 ^ (8 * Z.of_nat (S (length l1))) * 2 ^ m)
        by (rewrite <- Z.pow_add_r by lia; f_equal; lia).
      rewrite <- Z.mul_mod_distr_r by (apply Z.pow_nonzero; lia). f_equal. lia.
Qed.

(** ** The blocks tile the range *)

Definition block_of (d : Ip6Data) : Z * Z := (val (ip6_data d), ip6_prefixlen d).
Definition floor_block (k v : Z) : Z := v / 2 ^ k * 2 ^ k.

Lemma next_block_ones v j K : 0 <= j <= K -> (forall i, j <= i < K -> Z.testbit v i = true) ->
  next_block j v = next_block K v.
Proof.
  intros HjK. replace K with (j + Z.of_nat (Z.to_nat (K - j))) by lia. generalize (Z.to_nat (K - j)) as n.
  induction n as [|n IH]; intros H; [by rewrite Z.add_0_r|].
  rewrite IH by (intros; apply H; lia). unfold next_block. set (m := j + Z.of_nat n).
  replace (j + Z.of_nat (S n)) with (m + 1) by lia.
  rewrite (div_succ_bit v m), (H m), Z.pow_add_r by lia. simpl Z.b2z. lia.
Qed.

Lemma next_block_zero v k : 0 <= k -> Z.testbit v k = false -> next_block k v + 2 ^ k = next_block (k + 1) v.
Proof.
  intros Hk Hb. unfold next_block. rewrite (div_succ_bit v k), Hb, Z.pow_add_r by lia. simpl Z.b2z. lia.
Qed.

Lemma next_block_again v k : 0 <= k -> next_block k (next_block k v) = next_block k v + 2 ^ k.
Proof. intros Hk. unfold next_block at 1. unfold next_block at 1. rewrite Z.div_mul by (apply Z.pow_nonzero; lia).
  unfold next_block. lia. Qed.

Lemma next_block_bound v k K : in_width 128 v -> 0 <= k <= K -> K < 128 -> Z.testbit v K = false ->
  0 <= next_block k v < 2 ^ 128.
Proof.
  intros [V0 V1] Hk HK Hb. unfold next_block. assert (0 < 2 ^ k) by (apply Z.pow_pos_nonneg; lia).
  assert (0 <= v / 2 ^ k) by (apply Z.div_pos; lia). split; [nia|].
  assert (0 < 2 ^ K) by (apply Z.pow_pos_nonneg; lia).
  assert (EK : 2 ^ 128 = 2 ^ (128 - (K + 1)) * 2 * 2 ^ K).
  { change 2 with (2 ^ 1) at 3. rewrite <- !Z.pow_add_r by lia. f_equal. lia. }
  assert (U : v < (v / 2 ^ K + 1) * 2 ^ K) by (pose proof (Z.mod_pos_bound v (2 ^ K)); pose proof (Z.div_mod v (2 ^ K)); lia).
  assert (L : v / 2 ^ (K + 1) < 2 ^ (128 - (K + 1))).
  { apply Z.div_lt_upper_bound; [apply Z.pow_pos_nonneg; lia|]. rewrite <- Z.pow_add_r by lia.
    by replace (K + 1 + (128 - (K + 1))) with 128 by lia. }
  rewrite (div_succ_bit v K), Hb in U by lia. simpl Z.b2z in U.
  assert (Ek : 2 ^ K = 2 ^ (K - k) * 2 ^ k) by (rewrite <- Z.pow_add_r by lia; f_equal; lia).
  assert (v / 2 ^ k < (2 * (v / 2 ^ (K + 1)) + 0 + 1) * 2 ^ (K - k)).
  { apply Z.div_lt_upper_bound; [lia|]. rewrite Ek in U. lia. }
  assert (0 < 2 ^ (K - k)) by (apply Z.pow_pos_nonneg; lia). rewrite EK. nia.
Qed.

Lemma next_block_aligned v k : 0 <= k -> next_block k v mod 2 ^ k = 0.
Proof. intros Hk. apply Z.mod_mul. apply Z.pow_nonzero; lia. Qed.

Lemma tiles_AddIp6 s l tmp off : Prefix.tiles 128 s (block_of <$> l) (val tmp - 1) -> 0 <= off <= 127 ->
  val tmp mod 2 ^ (127 - off) = 0 ->
  Prefix.tiles 128 s (block_of <$> AddIp6 tmp (off + 1) l) (val tmp + 2 ^ (127 - off) - 1).
Proof.
  intros T Ho Ha. unfold AddIp6. rewrite fmap_app. apply (Prefix.tiles_app _ _ _ (val tmp - 1)); [done|].
  simpl. unfold Prefix.aligned. replace (128 - (off + 1)) with (127 - off) by lia. split_and!; done || lia.
Qed.

(** Scanning the start address: every zero bit after the common prefix, from
    the right, gives one more block, up to the middle of the range. *)
Lemma ip6_down_spec s P : wf s -> 0 <= P < 128 -> bit_at s P = false ->
  forall fuel off tmp l, off - P < Z.of_nat fuel -> P <= off <= 127 -> bit_at s off = false -> wf tmp ->
  val tmp = next_block (127 - off) (val s) -> Prefix.tiles 128 (val s) (block_of <$> l) (val tmp - 1) ->
  exists tmp' l', ip6_down fuel s P off (tmp, l) = (tmp', l') /\ wf tmp' /\
    val tmp' = next_block (127 - P) (val s) /\ Prefix.tiles 128 (val s) (block_of <$> l') (val tmp' - 1).
Proof.
  intros Ws HP HbP. pose proof (val_wf s Ws) as Vs.
  induction fuel as [|fuel IH]; intros off tmp l Hf Ho Hb Wt Vt T; [simpl in Hf; lia|].
  cbn [ip6_down]. unfold IPV6_BIT_COUNT. rewrite (proj2 (Z.eqb_neq off 128)) by lia.
  destruct (Z.eqb_spec off P) as [->|N]; cbn [negb andb]; [by exists tmp, l|].
  destruct (ChangeIp6Start_spec (off + 1) tmp Wt) as [Wt' Vt']; [lia|].
  replace (128 - (off + 1)) with (127 - off) in Vt' by lia.
  rewrite Vt in Vt' at 1. rewrite next_block_again, next_block_zero in Vt' by (try rewrite <- bit_val; done || lia).
  rewrite (bit_val s P) in HbP by (done || lia).
  rewrite Z.mod_small in Vt' by (apply (next_block_bound _ _ (127 - P)); done || lia).
  pose proof (RfindIp6_spec s P (off - 1) false Ws ltac:(lia) ltac:(lia)) as R. change (Z.b2z false) with 0 in R.
  set (off' := RfindIp6 s P (off - 1) 0) in *.
  destruct R as [[_ R]|(Ro & Rb & Rn)]; [rewrite <- (bit_val s P), R in HbP by (done || lia); done|].
  apply IH; [lia|lia|done|done| |].
  - rewrite Vt'. replace (127 - off + 1) with (128 - off) by lia. apply next_block_ones; [lia|].
    intros i Hi. replace i with (127 - (127 - i)) by lia. rewrite <- bit_val by (done || lia). apply Rn. lia.
  - replace (val (ChangeIp6Start (off + 1) tmp) - 1) with (val tmp + 2 ^ (127 - off) - 1).
    + apply tiles_AddIp6; [done|lia|]. rewrite Vt. apply next_block_aligned. lia.
    + rewrite Vt', Vt, <- next_block_zero by (try rewrite <- bit_val; done || lia). done.
Qed.

Lemma floor_block_zeros v j K : 0 <= j <= K -> (forall i, j <= i < K -> Z.testbit v i = false) ->
  floor_block j v = floor_block K v.
Proof.
  intros HjK. replace K with (j + Z.of_nat (Z.to_nat (K - j))) by lia. generalize (Z.to_nat (K - j)) as n.
  induction n as [|n IH]; intros H; [by rewrite Z.add_0_r|].
  rewrite IH by (intros; apply H; lia). unfold floor_block. set (m := j + Z.of_nat n).
  replace (j + Z.of_nat (S n)) with (m + 1) by lia.
  rewrite (div_succ_bit v m), (H m), Z.pow_add_r by lia. simpl Z.b2z. lia.
Qed.

Lemma floor_block_one v k : 0 <= k -> Z.testbit v k = true -> floor_block k v = floor_block (k + 1) v + 2 ^ k.
Proof.
  intros Hk Hb. unfold floor_block. rewrite (div_succ_bit v k), Hb, Z.pow_add_r by lia. simpl Z.b2z. lia.
Qed.

Lemma floor_block_le v k : 0 <= k -> floor_block k v <= v.
Proof.
  intros Hk. unfold floor_block. assert (0 < 2 ^ k) by (apply Z.pow_pos_nonneg; lia).
  pose proof (Z.mod_pos_bound v (2 ^ k)). pose proof (Z.div_mod v (2 ^ k)). lia.
Qed.

(** Scanning the end address: every one bit after position [p] gives a block.
    [D] is the distance at which the blocks trail the end address. *)
Lemma ip6_up_spec e s D : wf e -> 0 <= D -> forall fuel p off tmp l,
  128 - p <= Z.of_nat fuel -> 0 <= p <= 128 -> first_bit (bit_at e) p true off -> wf tmp ->
  val tmp = floor_block (128 - p) (val e) - D -> D mod 2 ^ (128 - p) = 0 ->
  Prefix.tiles 128 s (block_of <$> l) (val tmp - 1) ->
  exists tmp' l', ip6_up (S fuel) e off (tmp, l) = (tmp', l') /\ wf tmp' /\ val tmp' = val e - D /\
    Prefix.tiles 128 s (block_of <$> l') (val tmp' - 1).
Proof.
  intros We HD. pose proof (val_wf e We) as Ve.
  induction fuel as [|fuel IH]; intros p off tmp l Hf Hp (Ho & Hbo & Hz) Wt Vt Dp T.
  all: cbn [ip6_up]; unfold IPV6_BIT_COUNT; destruct (Z.eqb_spec off 128) as [->|N]; cbn [negb].
  1,3: exists tmp, l; split_and!; try done; try apply Wt; rewrite Vt; f_equal;
    rewrite <- (floor_block_zeros _ 0) by (try lia; intros i Hi; replace i with (127 - (127 - i)) by lia;
      rewrite <- bit_val by (done || lia); apply Hz; lia);
    unfold floor_block; rewrite Z.div_1_r; lia.
  { simpl in Hf. lia. }
  destruct Hbo as [|Hbo]; [done|]. rewrite bit_val in Hbo by (done || lia).
  assert (Vt2 : val tmp = floor_block (127 - off + 1) (val e) - D).
  { rewrite Vt. f_equal. replace (127 - off + 1) with (128 - off) by lia. symmetry. apply floor_block_zeros; [lia|].
    intros i Hi. replace i with (127 - (127 - i)) by lia. rewrite <- bit_val by (done || lia). apply Hz. lia. }
  assert (Dk : D mod 2 ^ (127 - off) = 0).
  { apply Z.mod_divide in Dp; [|apply Z.pow_nonzero; lia]. apply Z.mod_divide; [apply Z.pow_nonzero; lia|].
    etransitivity; [|exact Dp]. exists (2 ^ (1 + off - p)). rewrite <- Z.pow_add_r by lia. f_equal. lia. }
  assert (Ak : val tmp mod 2 ^ (127 - off) = 0).
  { rewrite Vt2. apply Z.mod_divide; [apply Z.pow_nonzero; lia|]. apply Z.divide_sub_r.
    - unfold floor_block. rewrite Z.pow_add_r, Z.mul_comm by lia. apply Z.divide_mul_l, Z.divide_mul_l. by exists 1; lia.
    - apply Z.mod_divide; [apply Z.pow_nonzero; lia|done]. }
  assert (Nb : next_block (127 - off) (val tmp) = val tmp + 2 ^ (127 - off)).
  { unfold next_block. pose proof (Z.div_mod (val tmp) (2 ^ (127 - off)) ltac:(apply Z.pow_nonzero; lia)). lia. }
  destruct (ChangeIp6Start_spec (off + 1) tmp Wt) as [Wt' Vt']; [lia|].
  replace (128 - (off + 1)) with (127 - off) in Vt' by lia.
  assert (F : val tmp + 2 ^ (127 - off) = floor_block (127 - off) (val e) - D)
    by (rewrite floor_block_one by (done || lia); lia).
  assert (0 < 2 ^ (127 - off)) by (apply Z.pow_pos_nonneg; lia).
  pose proof (floor_block_le (val e) (127 - off) ltac:(lia)). pose proof (val_wf tmp Wt) as [? _]. destruct Ve as [_ Ve].
  rewrite Nb, Z.mod_small in Vt' by lia.
  apply (IH (off + 1)); [lia|lia| |done| |by replace (128 - (off + 1)) with (127 - off) by lia|].
  - apply (FindIp6_spec e (off + 1) true We). lia.
  - replace (128 - (off + 1)) with (127 - off) by lia. lia.
  - rewrite Vt'. apply tiles_AddIp6; [done|lia|done].
Qed.

(** Facts about the two ends of a range with common prefix length [P]. *)
Lemma split_at_val s e P : wf s -> wf e -> split_at s e P ->
  val e / 2 ^ (127 - P) = val s / 2 ^ (127 - P) + 1 /\ val s / 2 ^ (128 - P) = val e / 2 ^ (128 - P) /\
  Z.testbit (val s) (127 - P) = false /\ Z.testbit (val e) (127 - P) = true.
Proof.
  intros Ws We (HP & Hs & He & Heq). rewrite bit_val in Hs, He by (done || lia).
  assert (E : val s / 2 ^ (128 - P) = val e / 2 ^ (128 - P)).
  { apply div_bits_above; [lia|]. intros k Hk. destruct (Z_lt_le_dec k 128).
    - replace k with (127 - (127 - k)) by lia. rewrite <- !bit_val by (done || lia). apply Heq. lia.
    - rewrite !(testbit_high 128); try done; try (by apply val_wf); lia. }
  split_and!; try done. rewrite (div_succ_bit (val e)), (div_succ_bit (val s)), Hs, He by lia.
  replace (127 - P + 1) with (128 - P) by lia. rewrite E. simpl. lia.
Qed.

Lemma ip6_finish_spec s e P D tmp l : wf s -> wf e -> split_at s e P -> wf tmp ->
  0 <= D -> D mod 2 ^ (127 - P) = 0 -> val tmp = floor_block (127 - P) (val e) - D ->
  Prefix.tiles 128 (val s) (block_of <$> l) (val tmp - 1) ->
  exists l', ip6_finish e P (tmp, l) = (NETFIREWALL_SUCCESS, l') /\
    Prefix.tiles 128 (val s) (block_of <$> l') (if D =? 0 then val e else val e - D - 1).
Proof.
  intros Ws We Hsp Wt HD HDm Vt T. pose proof Hsp as (HP & _ & HbP & _). unfold ip6_finish.
  destruct (FindIp6_spec e P true We) as (Ho & _ & Hz); [lia|]. change (Z.b2z true) with 1 in *.
  assert (EP : FindIp6 e P 1 = P).
  { destruct (decide (FindIp6 e P 1 = P)) as [|N]; [done|]. specialize (Hz P ltac:(lia)). by rewrite HbP in Hz. }
  rewrite EP. unfold IPV6_BIT_COUNT, ip6_fuel. rewrite (proj2 (Z.eqb_neq P 128)) by lia.
  destruct (ip6_up_spec e (val s) D We HD 128 (P + 1) (FindIp6 e (P + 1) 1) tmp l) as (tmp' & l' & -> & Wt' & Vt' & T').
  - lia.
  - lia.
  - apply (FindIp6_spec e (P + 1) true We). lia.
  - done.
  - by replace (128 - (P + 1)) with (127 - P) by lia.
  - by replace (128 - (P + 1)) with (127 - P) by lia.
  - done.
  - rewrite memcmp_val by (apply Wt' || apply We || by rewrite (proj1 Wt'), (proj1 We)). rewrite Vt'.
    destruct (Z.eqb_spec D 0) as [->|N].
    + rewrite Z.sub_0_r, Z.compare_refl. cbn. eexists. split; [done|].
      pose proof (tiles_AddIp6 (val s) l' tmp' 127 T' ltac:(lia) (Z.mod_1_r _)) as T2.
      rewrite Vt' in T2. change (2 ^ (127 - 127)) with 1 in T2. by replace (val e - 0 + 1 - 1) with (val e) in T2 by lia.
    + rewrite (proj2 (Z.compare_lt_iff _ _)) by lia. cbn. exists l'. split; [done|]. by rewrite Vt' in T'.
Qed.

(** The range starts at the first address of the block that spans it and does
    not end at its last one. *)
Definition starts_block (s e : in6_addr) : bool :=
  let P := GetIp6Prefixlen s e in
  (val s mod 2 ^ (128 - P) =? 0) && negb (val e mod 2 ^ (128 - P) =? 2 ^ (128 - P) - 1).

Lemma low_bits_zero s P : wf s -> 0 <= P < 128 ->
  (forall b, P <= b <= 127 -> bit_at s b = false) <-> val s mod 2 ^ (128 - P) = 0.
Proof.
  intros Ws HP. split.
  - intros H. apply Z.bits_inj'. intros k Hk. rewrite Z.testbit_0_l. destruct (Z_lt_le_dec k (128 - P)).
    + rewrite Z.mod_pow2_bits_low by lia. replace k with (127 - (127 - k)) by lia.
      rewrite <- bit_val by (done || lia). apply H. lia.
    + apply Z.mod_pow2_bits_high. lia.
  - intros H b Hb. rewrite bit_val, <- (Z.mod_pow2_bits_low _ (128 - P)), H by (done || lia). apply Z.testbit_0_l.
Qed.

Lemma low_bits_one e P : wf e -> 0 <= P < 128 ->
  (forall b, P <= b <= 127 -> bit_at e b = true) <-> val e mod 2 ^ (128 - P) = 2 ^ (128 - P) - 1.
Proof.
  intros We HP. replace (2 ^ (128 - P) - 1) with (Z.ones (128 - P)) by (rewrite Z.ones_equiv; lia). split.
  - intros H. apply Z.bits_inj'. intros k Hk. destruct (Z_lt_le_dec k (128 - P)).
    + rewrite Z.mod_pow2_bits_low, Z.ones_spec_low by lia. replace k with (127 - (127 - k)) by lia.
      rewrite <- bit_val by (done || lia). apply H. lia.
    + rewrite Z.mod_pow2_bits_high, Z.ones_spec_high by lia. done.
  - intros H b Hb. rewrite bit_val, <- (Z.mod_pow2_bits_low _ (128 - P)), H by (done || lia).
    apply Z.ones_spec_low. lia.
Qed.

(** From a start address with a one after the common prefix: the whole range. *)
Lemma ip6_scan_spec s e off : wf s -> wf e -> let P := GetIp6Prefixlen s e in split_at s e P ->
  off = RfindIp6 s P 127 1 -> off <> 128 ->
  exists l, ip6_finish e P (ip6_down ip6_fuel s P (RfindIp6 s P off 0)
    (ChangeIp6Start (off + 1) s, AddIp6 s (off + 1) [])) = (NETFIREWALL_SUCCESS, l) /\
    Prefix.tiles 128 (val s) (block_of <$> l) (val e).
Proof.
  intros Ws We P Hsp Eo No. pose proof (split_at_val s e P Ws We Hsp) as (Eq & _ & BPs & _).
  pose proof Hsp as (HP & HbP & _). pose proof (RfindIp6_spec s P 127 true Ws ltac:(lia) ltac:(lia)) as R.
  change (Z.b2z true) with 1 in R. rewrite <- Eo in R. destruct R as [[]|(Ro & Rb & Rz)]; [done|].
  assert (Al : val s mod 2 ^ (127 - off) = 0).
  { destruct (decide (off = 127)) as [->|]; [apply Z.mod_1_r|]. replace (127 - off) with (128 - (off + 1)) by lia.
    apply low_bits_zero; [done|lia|]. intros b Hb. apply Rz. lia. }
  destruct (ChangeIp6Start_spec (off + 1) s Ws) as [Wt Vt]; [lia|].
  replace (128 - (off + 1)) with (127 - off) in Vt by lia.
  rewrite Z.mod_small in Vt by (apply (next_block_bound _ _ (127 - P)); [by apply val_wf|lia|lia|done]).
  assert (Nb : next_block (127 - off) (val s) = val s + 2 ^ (127 - off)).
  { unfold next_block. pose proof (Z.div_mod (val s) (2 ^ (127 - off)) ltac:(apply Z.pow_nonzero; lia)). lia. }
  pose proof (RfindIp6_spec s P off false Ws ltac:(lia) ltac:(lia)) as R. change (Z.b2z false) with 0 in R.
  set (off2 := RfindIp6 s P off 0) in *. destruct R as [[_ R]|(Ro2 & Rb2 & R1)]; [by rewrite R in HbP by lia|].
  destruct (ip6_down_spec s P Ws HP HbP ip6_fuel off2 (ChangeIp6Start (off + 1) s) (AddIp6 s (off + 1) []))
    as (tmp & l & -> & Wt2 & Vt2 & T).
  - unfold ip6_fuel. lia.
  - lia.
  - done.
  - done.
  - rewrite Vt. apply next_block_ones; [lia|]. intros i Hi. replace i with (127 - (127 - i)) by lia.
    rewrite <- bit_val by (done || lia). apply R1. lia.
  - rewrite Vt, Nb. apply tiles_AddIp6; [simpl; lia|lia|done].
  - destruct (ip6_finish_spec s e P 0 tmp l Ws We Hsp Wt2) as (l' & -> & T'); [lia|apply Z.mod_0_l, Z.pow_nonzero; lia| |exact T|].
    + rewrite Vt2. unfold next_block, floor_block. rewrite Eq. lia.
    + by exists l'.
Qed.

Lemma GetIp6AndMask_spec s e : wf s -> wf e ->
  if val e <? val s then GetIp6AndMask s e = (NETFIREWALL_ERR, [])
  else exists l, GetIp6AndMask s e = (NETFIREWALL_SUCCESS, l) /\
    Prefix.tiles 128 (val s) (block_of <$> l)
      (if (val s <? val e) && starts_block s e then val e - 2 ^ (127 - GetIp6Prefixlen s e) - 1 else val e).
Proof.
  intros Ws We. unfold GetIp6AndMask. pose proof (memcmp_val s e) as M.
  specialize (M (proj2 Ws) (proj2 We) ltac:(by rewrite (proj1 Ws), (proj1 We))).
  destruct (Z.compare_spec (val s) (val e)) as [E|L|L]; rewrite M.
  - rewrite E, Z.ltb_irrefl. cbn. eexists. split; [done|]. simpl. unfold Prefix.aligned.
    change (2 ^ (128 - IPV6_MAX_PREFIXLEN)) with 1. rewrite Z.mod_1_r. split_and!; done || lia.
  - rewrite (proj2 (Z.ltb_ge (val e) (val s))), (proj2 (Z.ltb_lt (val s) (val e))) by lia. change (0 <? -1) with false. change (-1 =? 0) with false. cbn [andb].
    pose proof (GetIp6Prefixlen_spec s e Ws We M) as Hsp. unfold starts_block.
    set (P := GetIp6Prefixlen s e) in *. pose proof Hsp as (HP & _ & HbPe & _). change (IPV6_BIT_COUNT - 1) with 127.
    pose proof (split_at_val s e P Ws We Hsp) as (Eq & Eq2 & BPs & BPe).
    pose proof (RfindIp6_spec s P 127 true Ws ltac:(lia) ltac:(lia)) as R. change (Z.b2z true) with 1 in R.
    set (off := RfindIp6 s P 127 1) in *. unfold IPV6_BIT_COUNT. destruct (Z.eqb_spec off 128) as [E|N]; cbn [negb].
    + assert (Z0 : val s mod 2 ^ (128 - P) = 0)
        by (apply low_bits_zero; [done|lia|]; destruct R as [[_ R]|R]; [done|lia]).
      rewrite Z0. change (0 =? 0) with true. cbn [andb].
      pose proof (RfindIp6_spec e P 127 false We ltac:(lia) ltac:(lia)) as R2. change (Z.b2z false) with 0 in R2.
      assert (Hp : 2 ^ (128 - P) = 2 * 2 ^ (127 - P)) by (replace (128 - P) with (Z.succ (127 - P)) by lia; apply Z.pow_succ_r; lia).
      pose proof (Prefix.pow2_pos (127 - P) ltac:(lia)).
      pose proof (Z.div_mod (val s) (2 ^ (128 - P))). pose proof (Z.div_mod (val e) (2 ^ (128 - P))).
      destruct (Z.eqb_spec (RfindIp6 e P 127 0) 128) as [E2|N2].
      * assert (Z1 : val e mod 2 ^ (128 - P) = 2 ^ (128 - P) - 1)
          by (apply low_bits_one; [done|lia|]; destruct R2 as [[_ R2]|R2]; [done|lia]).
        rewrite Z1, Z.eqb_refl. cbn [negb]. eexists. split; [done|]. simpl. unfold Prefix.aligned. split_and!; done || lia.
      * assert (Z1 : val e mod 2 ^ (128 - P) <> 2 ^ (128 - P) - 1).
        { intros Z1. destruct R2 as [[? _]|(Hr & Hb & _)]; [done|].
          rewrite (proj2 (low_bits_one e P We HP) Z1) in Hb by lia. done. }
        rewrite (proj2 (Z.eqb_neq _ _) Z1). cbn [negb].
        destruct (ip6_finish_spec s e P (2 ^ (127 - P)) s [] Ws We Hsp Ws) as (l & -> & T).
        -- lia.
        -- apply Z.mod_same. lia.
        -- unfold floor_block. rewrite Eq. assert (F : floor_block (127 - P) (val s) = val s).
           { unfold floor_block. pose proof (Z.div_mod (val s) (2 ^ (127 - P))).
             assert (val s mod 2 ^ (127 - P) = 0); [|lia]. apply Z.mod_divide; [lia|].
             apply Z.mod_divide in Z0; [|lia]. etransitivity; [|exact Z0]. exists 2. lia. }
           unfold floor_block in F. lia.
        -- simpl. lia.
        -- exists l. split; [done|]. by rewrite (proj2 (Z.eqb_neq (2 ^ (127 - P)) 0)) in T by lia.
    + destruct (ip6_scan_spec s e off Ws We Hsp eq_refl N) as (l & E & T). fold P in E. rewrite E.
      exists l. split; [done|]. replace (val s mod 2 ^ (128 - P) =? 0) with false; [done|].
      symmetry. apply Z.eqb_neq. intros Z0. destruct R as [[? _]|(Hr & Hb & _)]; [done|].
      by rewrite (proj2 (low_bits_zero s P Ws HP) Z0) in Hb by lia.
  - by rewrite (proj2 (Z.ltb_lt (val e) (val s))) by lia.
Qed.

(** C40: [GetIp6AndMask] terminates on every range of addresses: an inverted
    range is an error, and any other range is cut into aligned prefixes that
    tile it exactly, provided the range does not start at the first address of
    the smallest block that spans it while ending before that block's last. *)
Theorem GetIp6AndMask_correct s e : wf s -> wf e -> (val s < val e -> starts_block s e = false) ->
  if val e <? val s then GetIp6AndMask s e = (NETFIREWALL_ERR, [])
  else exists l, GetIp6AndMask s e = (NETFIREWALL_SUCCESS, l) /\
    Prefix.tiles 128 (val s) (block_of <$> l) (val e).
Proof.
  intros Ws We H. pose proof (GetIp6AndMask_spec s e Ws We) as G.
  destruct (Z.ltb_spec (val e) (val s)); [done|]. destruct G as (l & E & T). exists l. split; [done|].
  destruct (Z.ltb_spec (val s) (val e)); [by rewrite H in T by lia|done].
Qed.

Lemma GetIp6AndMask_correct_witness : exists l, GetIp6AndMask (addr6 [1]) (addr6 [3; 7]) = (NETFIREWALL_SUCCESS, l) /\
  Prefix.tiles 128 1 (block_of <$> l) 775.
Proof.
  apply (GetIp6AndMask_correct (addr6 [1]) (addr6 [3; 7])); [..|by vm_compute].
  - split; [done|]. repeat constructor; vm_compute; congruence.
  - split; [done|]. repeat constructor; vm_compute; congruence.
Defined.

(** A range that starts at the first address of the smallest block that
    spans it, and ends before the last address of that block, is reported as
    a success but loses addresses: the prefixes returned stop half a block too
    early and none of them contains the end of the range. *)
Theorem GetIp6AndMask_loses_end s e : wf s -> wf e -> val s < val e -> starts_block s e = true ->
  exists l, GetIp6AndMask s e = (NETFIREWALL_SUCCESS, l) /\
    Prefix.tiles 128 (val s) (block_of <$> l) (val e - 2 ^ (127 - GetIp6Prefixlen s e) - 1) /\
    existsb (fun d => Prefix.in_prefix 128 (val (ip6_data d)) (ip6_prefixlen d) (val e)) l = false.
Proof.
  intros Ws We L B. pose proof (GetIp6AndMask_spec s e Ws We) as G.
  rewrite (proj2 (Z.ltb_ge _ _)), (proj2 (Z.ltb_lt (val s) _)), B in G by lia. cbn [andb] in G.
  destruct G as (l & E & T).
  exists l. split; [done|]. split; [done|]. apply (Prefix.tiles_cover _ _ _ _ (val e)) in T.
  assert (0 < 2 ^ (127 - GetIp6Prefixlen s e)).
  { assert (M : memcmp s e = -1).
    { rewrite memcmp_val by (apply Ws || apply We || by rewrite (proj1 Ws), (proj1 We)).
      by rewrite (proj2 (Z.compare_lt_iff _ _)) by lia. }
    destruct (GetIp6Prefixlen_spec s e Ws We M) as (HP & _). apply Z.pow_pos_nonneg; lia. }
  rewrite (proj2 (Z.leb_gt (val e) (val e - 2 ^ (127 - GetIp6Prefixlen s e) - 1))), andb_false_r in T by lia.
  rewrite <- T. clear.
  induction l as [|d l IH]; [done|]. simpl. by rewrite IH.
Qed.

Lemma GetIp6AndMask_loses_end_witness : exists l, GetIp6AndMask (addr6 []) (addr6 [5]) = (NETFIREWALL_SUCCESS, l) /\
  existsb (fun d => Prefix.in_prefix 128 (val (ip6_data d)) (ip6_prefixlen d) 5) l = false.
Proof.
  destruct (GetIp6AndMask_loses_end (addr6 []) (addr6 [5])) as (l & E & _ & N); [..|by exists l].
  - split; [done|]. repeat constructor; vm_compute; congruence.
  - split; [done|]. repeat constructor; vm_compute; congruence.
  - vm_compute. congruence.
  - by vm_compute.
Defined.

End Ip6Rules.
