(* ===== verification/BitmapManager.v ===== *)
(** * The rule compiler (services/netmanagernative/bpf, class [BitmapManager]
    and template [BpfUnorderedMap])

    A list of IP rules becomes one lookup table per packet field; a rule that
    leaves a field open is or-ed into every entry of that field's table. *)

From S2P Require Import Prelude Prefix Bitmap PortMap Ip4Rules Ip6Rules.

Module BitmapManager.

Definition NETFIREWALL_SUCCESS : Z := 0.
Definition NETFIREWALL_ERR : Z := 1.
Definition IPV4_MAX_PREFIXLEN : Z := 32.
Definition IPV6_MAX_PREFIXLEN : Z := 128.
Definition PORT_MAX_MASK : Z := 16.

(** ** Rules (interfaces/innerkits/netmanagernative/include/netfirewall_parcel.h) *)

Definition FAMILY_IPV4 : Z := 1.
Definition FAMILY_IPV6 : Z := 2.
Definition SINGLE_IP : Z := 1.
Definition MULTIPLE_IP : Z := 2.

(** The two views of the union; IPv4 addresses are in network byte order. *)
Record NetFirewallIpParam := mkIpParam {
  ip_family : Z; ip_type : Z; ip_mask : Z;
  ip_v4start : Z; ip_v4end : Z;
  ip_v6start : Ip6Rules.in6_addr; ip_v6end : Ip6Rules.in6_addr }.

Inductive FirewallRuleAction := RULE_INVALID | RULE_ALLOW | RULE_DENY.
#[global] Instance FirewallRuleAction_dec : EqDecision FirewallRuleAction.
Proof. solve_decision. Defined.
Inductive NetFirewallRuleDirection := RULE_IN | RULE_OUT.
#[global] Instance NetFirewallRuleDirection_dec : EqDecision NetFirewallRuleDirection.
Proof. solve_decision. Defined.

(** Values of [enum class NetworkProtocol] the code names. *)
Definition PROTO_ICMP : Z := 1.
Definition PROTO_ICMPV6 : Z := 58.

Record NetFirewallIpRule := mkIpRule {
  r_userId : Z; r_appUid : Z;
  r_direction : NetFirewallRuleDirection; r_action : FirewallRuleAction; r_protocol : Z;
  r_localIps : list NetFirewallIpParam; r_remoteIps : list NetFirewallIpParam;
  r_localPorts : list (Z * Z); r_remotePorts : list (Z * Z);
  r_interface : string }.

(** ** [BpfUnorderedMap<T>] *)

Section UnorderedMap.
Context `{Countable T}.

Definition OrInsert (key : T) (val : Bitmap.t) (map_ : gmap T Bitmap.t) : gmap T Bitmap.t :=
  match map_ !! key with
  | None => <[key := val]> map_
  | Some old => <[key := Bitmap.Or old val]> map_
  end.

Definition OrForEach (other : Bitmap.t) (map_ : gmap T Bitmap.t) : gmap T Bitmap.t :=
  (fun b => Bitmap.Or b other) <$> map_.

Definition Delete (key : T) (map_ : gmap T Bitmap.t) : Z * gmap T Bitmap.t :=
  (match map_ !! key with Some _ => 1 | None => 0 end, delete key map_).

Definition Empty (map_ : gmap T Bitmap.t) : bool := bool_decide (map_ = ∅).
End UnorderedMap.

(** ** State of the manager *)

Record t := mkManager {
  srcIp4Map_ : list Ip4Rules.Ip4RuleBitmap; dstIp4Map_ : list Ip4Rules.Ip4RuleBitmap;
  srcIp6Map_ : list Ip6Rules.Ip6RuleBitmap; dstIp6Map_ : list Ip6Rules.Ip6RuleBitmap;
  srcPortMap_ : list PortMap.portRuleBitmap; dstPortMap_ : list PortMap.portRuleBitmap;
  protoMap_ : gmap Z Bitmap.t; appUidMap_ : gmap Z Bitmap.t; uidMap_ : gmap Z Bitmap.t;
  actionMap_ : gmap Z Bitmap.t; interfaceMap_ : gmap string Bitmap.t }.

Definition Clear (m : t) : t := mkManager [] [] [] [] [] [] ∅ ∅ ∅ ∅ ∅.

Definition set_ip4 (isSrc : bool) (v : list Ip4Rules.Ip4RuleBitmap) (m : t) : t :=
  let '(mkManager s4 d4 s6 d6 sp dp pr au ui ac ifc) := m in
  if isSrc then mkManager v d4 s6 d6 sp dp pr au ui ac ifc else mkManager s4 v s6 d6 sp dp pr au ui ac ifc.
Definition set_ip6 (isSrc : bool) (v : list Ip6Rules.Ip6RuleBitmap) (m : t) : t :=
  let '(mkManager s4 d4 s6 d6 sp dp pr au ui ac ifc) := m in
  if isSrc then mkManager s4 d4 v d6 sp dp pr au ui ac ifc else mkManager s4 d4 s6 v sp dp pr au ui ac ifc.

(** ** Inserting the addresses of a rule *)

(** [InsertIp4SegBitmap] on the map it is given. *)
Definition InsertIp4SegBitmap (item : NetFirewallIpParam) (bitmap : Bitmap.t)
    (ip4Map : option (list Ip4Rules.Ip4RuleBitmap)) : Z * option (list Ip4Rules.Ip4RuleBitmap) :=
  match ip4Map with
  | None => (NETFIREWALL_ERR, None)
  | Some v =>
      if ip_type item =? SINGLE_IP then
        if IPV4_MAX_PREFIXLEN <? ip_mask item then (NETFIREWALL_ERR, Some v)
        else (NETFIREWALL_SUCCESS, Some (Ip4Rules.ip4_OrInsert (ntohl (ip_v4start item)) (ip_mask item) bitmap v))
      else if ip_type item =? MULTIPLE_IP then
        let '(ret, ips) := Ip4Rules.GetIp4AndMask (ip_v4start item) (ip_v4end item) in
        if negb (ret =? NETFIREWALL_SUCCESS) then (ret, Some v)
        else (NETFIREWALL_SUCCESS, Some (foldl (fun v ipData =>
               Ip4Rules.ip4_OrInsert (Ip4Rules.ip4_data ipData) (Ip4Rules.ip4_mask ipData) bitmap v) v ips))
      else (NETFIREWALL_SUCCESS, Some v)
  end.

Definition InsertIp6SegBitmap (item : NetFirewallIpParam) (bitmap : Bitmap.t)
    (ip6Map : option (list Ip6Rules.Ip6RuleBitmap)) : Z * option (list Ip6Rules.Ip6RuleBitmap) :=
  match ip6Map with
  | None => (NETFIREWALL_ERR, None)
  | Some v =>
      if ip_type item =? SINGLE_IP then
        if IPV6_MAX_PREFIXLEN <? ip_mask item then (NETFIREWALL_ERR, Some v)
        else (NETFIREWALL_SUCCESS, Some (Ip6Rules.ip6_OrInsert (ip_v6start item) (ip_mask item) bitmap v))
      else if ip_type item =? MULTIPLE_IP then
        let '(ret, ips) := Ip6Rules.GetIp6AndMask (ip_v6start item) (ip_v6end item) in
        if negb (ret =? NETFIREWALL_SUCCESS) then (ret, Some v)
        else (NETFIREWALL_SUCCESS, Some (foldl (fun v ipData =>
               Ip6Rules.ip6_OrInsert (Ip6Rules.ip6_data ipData) (Ip6Rules.ip6_prefixlen ipData) bitmap v) v ips))
      else (NETFIREWALL_SUCCESS, Some v)
  end.

(** One iteration of the loop of [InsertIpBitmap]. *)
Definition insert_ip (isSrc : bool) (bitmap : Bitmap.t) (item : NetFirewallIpParam) (m : t) : Z * t :=
  let ip4Map := if ip_family item =? FAMILY_IPV4
                then Some (if isSrc then srcIp4Map_ m else dstIp4Map_ m) else None in
  let ip6Map := if ip_family item =? FAMILY_IPV4 then None
                else if ip_family item =? FAMILY_IPV6
                then Some (if isSrc then srcIp6Map_ m else dstIp6Map_ m) else None in
  if ip_family item =? FAMILY_IPV4 then
    let '(ret, v) := InsertIp4SegBitmap item bitmap ip4Map in
    (ret, match v with Some v => set_ip4 isSrc v m | None => m end)
  else
    let '(ret, v) := InsertIp6SegBitmap item bitmap ip6Map in
    (ret, match v with Some v => set_ip6 isSrc v m | None => m end).

Fixpoint InsertIpBitmap (ipInfo : list NetFirewallIpParam) (isSrc : bool) (bitmap : Bitmap.t) (m : t) : Z * t :=
  match ipInfo with
  | [] => (NETFIREWALL_SUCCESS, m)
  | item :: r =>
      let '(ret, m) := insert_ip isSrc bitmap item m in
      if negb (ret =? NETFIREWALL_SUCCESS) then (ret, m) else InsertIpBitmap r isSrc bitmap m
  end.

Definition IsNotNeedPort (protocol : Z) : bool := (protocol =? PROTO_ICMPV6) || (protocol =? PROTO_ICMP).

(** ** Compiling the fields a rule constrains *)

(** The hash-map fields of one rule. *)
Definition mark_maps (rule : NetFirewallIpRule) (bitmap : Bitmap.t) (m : t) : t :=
  let '(mkManager s4 d4 s6 d6 sp dp pr au ui ac ifc) := m in
  mkManager s4 d4 s6 d6 sp dp
    (if negb (r_protocol rule =? 0) then OrInsert (u8 (r_protocol rule)) bitmap pr else pr)
    (if 0 <? r_appUid rule then OrInsert (u32 (r_appUid rule)) bitmap au else au)
    (if 0 <? r_userId rule then OrInsert (u32 (r_userId rule)) bitmap ui else ui)
    (if negb (bool_decide (r_action rule = RULE_ALLOW)) then OrInsert 1 bitmap ac else ac)
    (if negb (bool_decide (r_interface rule = EmptyString)) then OrInsert (r_interface rule) bitmap ifc else ifc).

(** The loop of [BuildMarkBitmap]: port segments are collected on the side. *)
Fixpoint mark_loop (ruleList : list (option NetFirewallIpRule)) (index : Z)
    (srcPortMap dstPortMap : list PortMap.SegmentBitmap) (m : t)
    : Z * list PortMap.SegmentBitmap * list PortMap.SegmentBitmap * t :=
  match ruleList with
  | [] => (NETFIREWALL_SUCCESS, srcPortMap, dstPortMap, m)
  | None :: rest => mark_loop rest index srcPortMap dstPortMap m
  | Some rule :: rest =>
      let bitmap := Bitmap.make_n index in
      let '(ret, m) := InsertIpBitmap (r_remoteIps rule) true bitmap m in
      if negb (ret =? 0) then (NETFIREWALL_ERR, srcPortMap, dstPortMap, m)
      else
        let '(ret, m) := InsertIpBitmap (r_localIps rule) false bitmap m in
        if negb (ret =? 0) then (NETFIREWALL_ERR, srcPortMap, dstPortMap, m)
        else
          let '(srcPortMap, dstPortMap) :=
            if negb (IsNotNeedPort (r_protocol rule))
            then (PortMap.AddPortBitmap (r_remotePorts rule) bitmap srcPortMap,
                  PortMap.AddPortBitmap (r_localPorts rule) bitmap dstPortMap)
            else (srcPortMap, dstPortMap) in
          mark_loop rest (u32 (index + 1)) srcPortMap dstPortMap (mark_maps rule bitmap m)
  end.

Definition BuildMarkBitmap (ruleList : list (option NetFirewallIpRule)) (m : t) : Z * t :=
  let '(ret, srcPortMap, dstPortMap, m) := mark_loop ruleList 0 [] [] m in
  if negb (ret =? NETFIREWALL_SUCCESS) then (ret, m)
  else
    let '(mkManager s4 d4 s6 d6 sp dp pr au ui ac ifc) := m in
    (NETFIREWALL_SUCCESS,
     mkManager s4 d4 s6 d6 (PortMap.OrInsertPortBitmap srcPortMap sp) (PortMap.OrInsertPortBitmap dstPortMap dp)
       pr au ui ac ifc).

(** ** The fallback entries *)

Definition OTHER_IP4_KEY : Z := 0xffffffff.
Definition OTHER_PORT_KEY : Z := u16 0xffffffff.
Definition OTHER_PROTO_KEY : Z := u8 0xffffffff.
Definition OTHER_APPUID_KEY : Z := 0xffffffff.
Definition OTHER_UID_KEY : Z := 0xffffffff.

Definition Insert (m : t) : t :=
  let '(mkManager s4 d4 s6 d6 sp dp pr au ui ac ifc) := m in
  let bitmap := Bitmap.make in
  let otherIp6Key := replicate 16 0xff in
  mkManager
    (Ip4Rules.ip4_OrInsert OTHER_IP4_KEY IPV4_MAX_PREFIXLEN bitmap s4)
    (Ip4Rules.ip4_OrInsert OTHER_IP4_KEY IPV4_MAX_PREFIXLEN bitmap d4)
    (Ip6Rules.ip6_OrInsert otherIp6Key IPV6_MAX_PREFIXLEN bitmap s6)
    (Ip6Rules.ip6_OrInsert otherIp6Key IPV6_MAX_PREFIXLEN bitmap d6)
    (PortMap.port_OrInsert OTHER_PORT_KEY PORT_MAX_MASK bitmap sp)
    (PortMap.port_OrInsert OTHER_PORT_KEY PORT_MAX_MASK bitmap dp)
    (OrInsert OTHER_PROTO_KEY Bitmap.make pr)
    (OrInsert OTHER_APPUID_KEY Bitmap.make au)
    (OrInsert OTHER_UID_KEY Bitmap.make ui)
    (OrInsert 1 Bitmap.make ac)
    (OrInsert EmptyString Bitmap.make ifc).

(** ** The fields a rule leaves open *)

Definition no_mark (rule : NetFirewallIpRule) (bitmap : Bitmap.t) (m : t) : t :=
  let '(mkManager s4 d4 s6 d6 sp dp pr au ui ac ifc) := m in
  let noRemoteIp := bool_decide (r_remoteIps rule = []) in
  let noLocalIp := bool_decide (r_localIps rule = []) in
  let noRemotePort := bool_decide (r_remotePorts rule = []) || IsNotNeedPort (r_protocol rule) in
  let noLocalPort := bool_decide (r_localPorts rule = []) || IsNotNeedPort (r_protocol rule) in
  mkManager
    (if noRemoteIp then Ip4Rules.ip4_OrForEach bitmap s4 else s4)
    (if noLocalIp then Ip4Rules.ip4_OrForEach bitmap d4 else d4)
    (if noRemoteIp then Ip6Rules.ip6_OrForEach bitmap s6 else s6)
    (if noLocalIp then Ip6Rules.ip6_OrForEach bitmap d6 else d6)
    (if noRemotePort then PortMap.port_OrForEach bitmap sp else sp)
    (if noLocalPort then PortMap.port_OrForEach bitmap dp else dp)
    (if r_protocol rule =? 0 then OrForEach bitmap pr else pr)
    (if r_appUid rule <? 1 then OrForEach bitmap au else au)
    (if r_userId rule <? 1 then OrForEach bitmap ui else ui)
    ac
    (if bool_decide (r_interface rule = EmptyString) then OrForEach bitmap ifc else ifc).

(** [None] is the dereference of a null rule. *)
Fixpoint no_mark_loop (ruleList : list (option NetFirewallIpRule)) (index : Z) (m : t) : option t :=
  match ruleList with
  | [] => Some m
  | None :: _ => None
  | Some rule :: rest => no_mark_loop rest (u32 (index + 1)) (no_mark rule (Bitmap.make_n index) m)
  end.
Definition BuildNoMarkBitmap (ruleList : list (option NetFirewallIpRule)) (m : t) : option t :=
  no_mark_loop ruleList 0 m.

Definition BuildBitmapMap (ruleList : list (option NetFirewallIpRule)) (m : t) : option (Z * t) :=
  let m := Clear m in
  let '(ret, m) := BuildMarkBitmap ruleList m in
  if negb (ret =? NETFIREWALL_SUCCESS) then Some (ret, m)
  else
    let m := Insert m in
    m ← BuildNoMarkBitmap ruleList m; Some (NETFIREWALL_SUCCESS, m).

(** [Hltons] and [Nstohl]. *)
Definition Hltons (n : Z) : Z := htons (u16 (Z.land n 0x0000ffff)).
Definition Nstohl (n : Z) : Z := Z.lor 0 (ntohs n).

(** ** Meaning of the compiled tables *)

Abbreviation rule := NetFirewallIpRule.

(** Rule number [n] exists and satisfies [P]. *)
Definition at_rule (rules : list rule) (P : rule -> bool) (n : Z) : bool :=
  match rules !! Z.to_nat n with Some r => P r | None => false end.

Definition bit (b : option Bitmap.t) (n : Z) : bool := from_option (fun b => Bitmap.test b n) false b.

Definition bm_ok (b : option Bitmap.t) : Prop := from_option Bitmap.ok True b.

Lemma at_rule_app rules r P n : 0 <= n ->
  at_rule (rules ++ [r]) P n = at_rule rules P n || ((n =? Z.of_nat (length rules)) && P r).
Proof.
  intros Hn. unfold at_rule. destruct (Z_lt_le_dec n (Z.of_nat (length rules))) as [L|L].
  - rewrite lookup_app_l by lia. rewrite (proj2 (Z.eqb_neq n _)), orb_false_r by lia. done.
  - rewrite (lookup_ge_None_2 rules) by lia. rewrite lookup_app_r by lia. simpl.
    destruct (Z.eqb_spec n (Z.of_nat (length rules))) as [->|].
    + by rewrite Nat2Z.id, Nat.sub_diag.
    + destruct (Z.to_nat n - length rules)%nat eqn:E; [lia|done].
Qed.

Lemma at_rule_or rules P Q n : at_rule rules (fun r => P r || Q r) n = at_rule rules P n || at_rule rules Q n.
Proof. unfold at_rule. by destruct (rules !! _). Qed.

Lemma test_mark k n : (k <= 2016)%nat -> 0 <= n -> Z.of_nat k < 2016 ->
  Bitmap.test (Bitmap.make_n (Z.of_nat k)) n = (n =? Z.of_nat k).
Proof.
  intros Hk Hn L. rewrite Bitmap.test_make_n by lia. rewrite Z.eqb_sym, (proj2 (Z.ltb_lt _ Bitmap.BITMAP_BIT_COUNT)).
  - apply andb_true_r.
  - unfold Bitmap.BITMAP_BIT_COUNT, Bitmap.BITMAP_LEN, Bitmap.BIT_PER_BYTE. lia.
Qed.

Section Hash.
Context `{Countable K}.

(** The table holds, under each key, the rules that ask for that key. *)
Definition hash_ok (key_of : rule -> option K) (rules : list rule) (m : gmap K Bitmap.t) : Prop :=
  forall k, bm_ok (m !! k) /\
    forall n, 0 <= n -> bit (m !! k) n = at_rule rules (fun r => bool_decide (key_of r = Some k)) n.

Lemma hash_step key_of rules r m : hash_ok key_of rules m -> Z.of_nat (length rules) < 2016 ->
  hash_ok key_of (rules ++ [r])
    (match key_of r with Some k => OrInsert k (Bitmap.make_n (Z.of_nat (length rules))) m | None => m end).
Proof.
  intros Hm L k. pose proof (Bitmap.make_n_ok (Z.of_nat (length rules)) ltac:(lia)) as Hb.
  assert (Hsame : key_of r <> Some k -> forall n, 0 <= n ->
    at_rule (rules ++ [r]) (fun r => bool_decide (key_of r = Some k)) n = at_rule rules (fun r => bool_decide (key_of r = Some k)) n).
  { intros Hne n Hn. rewrite at_rule_app by done. rewrite (bool_decide_eq_false_2 _ Hne), andb_false_r. apply orb_false_r. }
  destruct (key_of r) as [k'|] eqn:E.
  2: { destruct (Hm k) as [H1 H2]. split; [done|]. intros n Hn. rewrite Hsame by done. by apply H2. }
  unfold OrInsert. destruct (decide (k' = k)) as [->|Hne].
  - destruct (Hm k) as [H1 H2].
    assert (R : forall n, 0 <= n -> at_rule (rules ++ [r]) (fun r => bool_decide (key_of r = Some k)) n =
        bit (m !! k) n || Bitmap.test (Bitmap.make_n (Z.of_nat (length rules))) n).
    { intros n Hn. rewrite at_rule_app, H2, test_mark, E, bool_decide_eq_true_2, andb_true_r by (done || lia). done. }
    destruct (m !! k) as [old|]; rewrite lookup_insert_eq; simpl in *.
    + split; [by apply Bitmap.Or_ok|]. intros n Hn. by rewrite R, Bitmap.test_Or.
    + split; [done|]. intros n Hn. by rewrite R.
  - assert (X : (match m !! k' with None => <[k' := Bitmap.make_n (Z.of_nat (length rules))]> m
      | Some old => <[k' := Bitmap.Or old (Bitmap.make_n (Z.of_nat (length rules)))]> m end) !! k = m !! k)
      by (destruct (m !! k'); by rewrite lookup_insert_ne).
    rewrite X. destruct (Hm k) as [H1 H2]. split; [done|]. intros n Hn. rewrite Hsame by (congruence || done). by apply H2.
Qed.

Lemma hash_ok_nil key_of : hash_ok key_of [] ∅.
Proof. intros k. rewrite lookup_empty. split; [done|]. intros n _. unfold at_rule. by rewrite lookup_nil. Qed.

End Hash.

(** ** The keys of a rule *)

Definition proto_key (r : rule) : option Z := if negb (r_protocol r =? 0) then Some (u8 (r_protocol r)) else None.
Definition appuid_key (r : rule) : option Z := if 0 <? r_appUid r then Some (u32 (r_appUid r)) else None.
Definition uid_key (r : rule) : option Z := if 0 <? r_userId r then Some (u32 (r_userId r)) else None.
Definition action_key (r : rule) : option Z :=
  if negb (bool_decide (r_action r = RULE_ALLOW)) then Some 1 else None.
Definition iface_key (r : rule) : option string :=
  if negb (bool_decide (r_interface r = EmptyString)) then Some (r_interface r) else None.

(** The IPv4 addresses an address parameter stands for. *)
Definition ip_covers4 (p : Z) (i : NetFirewallIpParam) : bool :=
  (ip_family i =? FAMILY_IPV4) &&
  (if ip_type i =? SINGLE_IP then Prefix.in_prefix 32 (ntohl (ip_v4start i)) (ip_mask i) p
   else (ip_type i =? MULTIPLE_IP) && (ntohl (ip_v4start i) <=? p) && (p <=? ntohl (ip_v4end i))).
Definition ips_cover4 (ips : list NetFirewallIpParam) (p : Z) : bool := existsb (ip_covers4 p) ips.

(** The ports a rule asks for. *)
Definition ports_cover (r : rule) (ports : list (Z * Z)) (p : Z) : bool :=
  negb (IsNotNeedPort (r_protocol r)) && existsb (fun x => PortMap.range_has x p) ports.

(** What the compiler accepts: subnets without host bits, ordered ranges. *)
Definition ip_ok (i : NetFirewallIpParam) : Prop :=
  if ip_family i =? FAMILY_IPV4 then
    if ip_type i =? SINGLE_IP then 0 <= ip_mask i <= 32 /\ Prefix.aligned 32 (ntohl (ip_v4start i)) (ip_mask i)
    else ip_type i = MULTIPLE_IP -> ntohl (ip_v4start i) <= ntohl (ip_v4end i)
  else ip_family i = FAMILY_IPV6 /\
    if ip_type i =? SINGLE_IP then 0 <= ip_mask i <= 128
    else ip_type i = MULTIPLE_IP ->
      Ip6Rules.wf (ip_v6start i) /\ Ip6Rules.wf (ip_v6end i) /\ Ip6Rules.val (ip_v6start i) <= Ip6Rules.val (ip_v6end i).

Definition rule_ok (r : rule) : Prop :=
  Forall ip_ok (r_remoteIps r) /\ Forall ip_ok (r_localIps r) /\
  Forall PortMap.range_ok (r_remotePorts r) /\ Forall PortMap.range_ok (r_localPorts r).

(** ** Address tables *)

(** Some request for a prefix that holds [p] carries rule [n]. *)
Definition hits (ins : list Ip4Rules.request) (p n : Z) : Prop :=
  exists a m b, (a, m, b) ∈ ins /\ Prefix.in_prefix 32 a m p = true /\ Bitmap.test b n = true.

Lemma hits_app l1 l2 p n : hits (l1 ++ l2) p n <-> hits l1 p n \/ hits l2 p n.
Proof.
  unfold hits. setoid_rewrite elem_of_app. split.
  - intros (a & m & b & [H|H] & ?); [left|right]; by exists a, m, b.
  - intros [(a & m & b & H & ?)|(a & m & b & H & ?)]; exists a, m, b; auto.
Qed.

Lemma hits_same blocks b p n :
  hits (rev ((fun x => (fst x, snd x, b)) <$> blocks)) p n <->
  existsb (fun x => Prefix.in_prefix 32 (fst x) (snd x) p) blocks = true /\ Bitmap.test b n = true.
Proof.
  unfold hits. setoid_rewrite list_elem_of_In. setoid_rewrite <- in_rev. setoid_rewrite <- list_elem_of_In.
  setoid_rewrite list_elem_of_fmap. rewrite existsb_exists. split.
  - intros (a & m & b' & ([x y] & [= -> -> ->] & Hi) & Hp & Hn). split; [|done]. exists (x, y).
    split; [by apply list_elem_of_In|done].
  - intros (([x y] & Hi & Hp) & Hn). exists x, y, b. split_and!; [|done..]. exists (x, y). split; [done|].
    by apply list_elem_of_In.
Qed.

Lemma OrInserts_blocks blocks b ins v : Ip4Rules.map_ok ins v -> Bitmap.ok b ->
  Forall (fun x => in_width 32 (fst x) /\ 0 <= snd x <= 32 /\ Prefix.aligned 32 (fst x) (snd x)) blocks ->
  exists ins', Ip4Rules.map_ok ins' (Ip4Rules.ip4_OrInserts ((fun x => (fst x, snd x, b)) <$> blocks) v) /\
    forall p n, hits ins' p n <->
      hits ins p n \/ (existsb (fun x => Prefix.in_prefix 32 (fst x) (snd x) p) blocks = true /\ Bitmap.test b n = true).
Proof.
  intros Hm Hb F. eexists. split.
  - apply Ip4Rules.ip4_OrInserts_ok; [exact Hm|]. apply Forall_fmap. eapply Forall_impl; [exact F|].
    intros [x y] (H1 & H2 & H3). exact (conj H1 (conj H2 (conj H3 Hb))).
  - intros p n. rewrite hits_app, hits_same. tauto.
Qed.

Lemma InsertIp4_spec i b ins v : ip_family i = FAMILY_IPV4 -> ip_ok i -> Bitmap.ok b -> Ip4Rules.map_ok ins v ->
  exists v' ins', InsertIp4SegBitmap i b (Some v) = (NETFIREWALL_SUCCESS, Some v') /\ Ip4Rules.map_ok ins' v' /\
    forall p n, hits ins' p n <-> hits ins p n \/ (ip_covers4 p i = true /\ Bitmap.test b n = true).
Proof.
  intros Ef Hok Hb Hm. unfold ip_ok, InsertIp4SegBitmap, ip_covers4 in *. rewrite Ef in *.
  change (FAMILY_IPV4 =? FAMILY_IPV4) with true in *. cbn [andb]. cbn iota in Hok.
  destruct (ip_type i =? SINGLE_IP).
  - unfold IPV4_MAX_PREFIXLEN. rewrite (proj2 (Z.ltb_ge 32 (ip_mask i))) by lia.
    destruct (OrInserts_blocks [(ntohl (ip_v4start i), ip_mask i)] b ins v Hm Hb) as (ins' & Hm' & Hh).
    { repeat constructor; simpl; try apply Hok; try apply Ip4Rules.ntohl_width. }
    eexists _, ins'. split; [done|]. split; [exact Hm'|]. intros p n. rewrite Hh. simpl. by rewrite orb_false_r.
  - destruct (Z.eqb_spec (ip_type i) MULTIPLE_IP) as [Et|Et].
    + specialize (Hok Et). pose proof (Ip4Rules.GetIp4AndMask_spec (ip_v4start i) (ip_v4end i)) as G. cbn zeta in G.
      rewrite (proj2 (Z.ltb_ge _ _)) in G by lia. destruct G as (l & -> & T).
      change (Ip4Rules.NETFIREWALL_SUCCESS =? NETFIREWALL_SUCCESS) with true. cbn [negb].
      destruct (OrInserts_blocks (Ip4Rules.block_of <$> l) b ins v Hm Hb) as (ins' & Hm' & Hh).
      { eapply Forall_impl; [apply (Prefix.tiles_aligned _ _ _ _ T)|]. intros x (? & ? & ?).
        pose proof (Ip4Rules.ntohl_width (ip_v4start i)). pose proof (Ip4Rules.ntohl_width (ip_v4end i)).
        unfold in_width in *. split_and!; done || lia. }
      eexists _, ins'. split; [|split; [exact Hm'|]].
      * f_equal. f_equal. unfold Ip4Rules.ip4_OrInserts. clear. revert v.
        induction l as [|d l IH]; intros v; [done|]. cbn [foldl fmap list_fmap]. apply IH.
      * intros p n. rewrite Hh, (Prefix.tiles_cover _ _ _ _ p T). done.
    + exists v, ins. split; [done|]. split; [done|]. intros p n. split; [by left|]. by intros [?|[? _]].
Qed.

Lemma InsertIp6_spec i b v : ip_family i = FAMILY_IPV6 -> ip_ok i ->
  exists v', InsertIp6SegBitmap i b (Some v) = (NETFIREWALL_SUCCESS, Some v').
Proof.
  intros Ef Hok. unfold ip_ok, InsertIp6SegBitmap in *. rewrite Ef in *.
  change (FAMILY_IPV6 =? FAMILY_IPV4) with false in *. cbn iota in Hok. destruct Hok as [_ Hok].
  destruct (ip_type i =? SINGLE_IP).
  - unfold IPV6_MAX_PREFIXLEN. rewrite (proj2 (Z.ltb_ge 128 _)) by lia. by eexists.
  - destruct (Z.eqb_spec (ip_type i) MULTIPLE_IP) as [Et|Et]; [|by eexists].
    destruct (Hok Et) as (Ws & We & L). pose proof (Ip6Rules.GetIp6AndMask_spec _ _ Ws We) as G.
    rewrite (proj2 (Z.ltb_ge _ _)) in G by lia. destruct G as (l & -> & _). by eexists.
Qed.

Definition ip4_of (isSrc : bool) (m : t) := if isSrc then srcIp4Map_ m else dstIp4Map_ m.

(** Only the address tables of one side change. *)
Definition only_ips (isSrc : bool) (m m' : t) : Prop := exists v4 v6, m' = set_ip4 isSrc v4 (set_ip6 isSrc v6 m).

Lemma only_ips_refl isSrc m : only_ips isSrc m m.
Proof. destruct m as [s4 d4 s6 d6 ?]. destruct isSrc; [by exists s4, s6|by exists d4, d6]. Qed.

Lemma only_ips_trans isSrc m1 m2 m3 : only_ips isSrc m1 m2 -> only_ips isSrc m2 m3 -> only_ips isSrc m1 m3.
Proof. intros (v4 & v6 & ->) (w4 & w6 & ->). exists w4, w6. destruct m1, isSrc; done. Qed.

Lemma InsertIpBitmap_spec ips isSrc b : Forall ip_ok ips -> Bitmap.ok b -> forall m ins, Ip4Rules.map_ok ins (ip4_of isSrc m) ->
  exists m' ins', InsertIpBitmap ips isSrc b m = (NETFIREWALL_SUCCESS, m') /\ only_ips isSrc m m' /\
    Ip4Rules.map_ok ins' (ip4_of isSrc m') /\
    forall p n, hits ins' p n <-> hits ins p n \/ (ips_cover4 ips p = true /\ Bitmap.test b n = true).
Proof.
  intros F Hb. induction F as [|i r Hi F IH]; intros m ins Hm.
  { exists m, ins. split_and!; try done; [apply only_ips_refl|apply Hm..|]. intros p n. split; [by left|]. by intros [|[]]. }
  cbn [InsertIpBitmap]. unfold insert_ip. destruct (Z.eqb_spec (ip_family i) FAMILY_IPV4) as [Ef|Ef].
  - destruct (InsertIp4_spec i b ins (ip4_of isSrc m) Ef Hi Hb Hm) as (v' & ins1 & E & Hm1 & H1).
    unfold ip4_of in E. rewrite E. change (NETFIREWALL_SUCCESS =? NETFIREWALL_SUCCESS) with true. cbn [negb].
    destruct (IH (set_ip4 isSrc v' m) ins1) as (m' & ins' & -> & Ho & Hm' & H'); [by destruct m, isSrc|].
    exists m', ins'. split; [done|]. split.
    { eapply only_ips_trans; [|exact Ho]. destruct m as [s4 d4 s6 d6 ?].
      destruct isSrc; [by exists v', s6|by exists v', d6]. }
    split; [done|]. intros p n. rewrite H', H1. unfold ips_cover4. simpl. rewrite orb_true_iff. tauto.
  - unfold ip_ok in Hi. rewrite (proj2 (Z.eqb_neq _ _) Ef) in Hi. destruct Hi as [E6 Hi].
    rewrite E6. change (FAMILY_IPV6 =? FAMILY_IPV6) with true. cbn iota.
    destruct (InsertIp6_spec i b (if isSrc then srcIp6Map_ m else dstIp6Map_ m) E6) as (v' & E).
    { unfold ip_ok. by rewrite (proj2 (Z.eqb_neq _ _) Ef). }
    rewrite E. change (NETFIREWALL_SUCCESS =? NETFIREWALL_SUCCESS) with true. cbn [negb].
    destruct (IH (set_ip6 isSrc v' m) ins) as (m' & ins' & -> & Ho & Hm' & H'); [by destruct m, isSrc|].
    exists m', ins'. split; [done|]. split.
    { eapply only_ips_trans; [|exact Ho]. destruct m as [s4 d4 s6 d6 ?].
      destruct isSrc; [by exists s4, v'|by exists d4, v']. }
    split; [done|]. intros p n. rewrite H'. unfold ips_cover4. simpl. unfold ip_covers4 at 2.
    rewrite (proj2 (Z.eqb_neq _ _) Ef). simpl. done.
Qed.

(** ** What [BuildMarkBitmap] has compiled after some rules *)

Definition ip4_table (cover : rule -> Z -> bool) (rules : list rule) (v : list Ip4Rules.Ip4RuleBitmap) : Prop :=
  exists ins, Ip4Rules.map_ok ins v /\
    forall p n, 0 <= n -> hits ins p n <-> at_rule rules (fun r => cover r p) n = true.

Definition seg_table (cover : rule -> Z -> bool) (rules : list rule) (sp : list PortMap.SegmentBitmap) : Prop :=
  PortMap.chain 0 sp /\
  forall p n, 0 <= n -> bit (PortMap.seg_at sp p) n = at_rule rules (fun r => cover r p) n.

Definition remote4 (r : rule) := ips_cover4 (r_remoteIps r).
Definition local4 (r : rule) := ips_cover4 (r_localIps r).
Definition remotePort (r : rule) := ports_cover r (r_remotePorts r).
Definition localPort (r : rule) := ports_cover r (r_localPorts r).

Record mark_inv (rules : list rule) (sp dp : list PortMap.SegmentBitmap) (m : t) : Prop := {
  mi_src : ip4_table remote4 rules (srcIp4Map_ m);
  mi_dst : ip4_table local4 rules (dstIp4Map_ m);
  mi_sport : seg_table remotePort rules sp;
  mi_dport : seg_table localPort rules dp;
  mi_noports : srcPortMap_ m = [] /\ dstPortMap_ m = [];
  mi_proto : hash_ok proto_key rules (protoMap_ m);
  mi_appuid : hash_ok appuid_key rules (appUidMap_ m);
  mi_uid : hash_ok uid_key rules (uidMap_ m);
  mi_action : hash_ok action_key rules (actionMap_ m);
  mi_iface : hash_ok iface_key rules (interfaceMap_ m) }.

Lemma seg_table_step (sel : rule -> list (Z * Z)) rules r sp :
  let cover := fun r p => ports_cover r (sel r) p in
  seg_table cover rules sp -> Z.of_nat (length rules) < 2016 -> Forall PortMap.range_ok (sel r) ->
  seg_table cover (rules ++ [r])
    (if negb (IsNotNeedPort (r_protocol r))
     then PortMap.AddPortBitmap (sel r) (Bitmap.make_n (Z.of_nat (length rules))) sp else sp).
Proof.
  intros cover [C S] L F. pose proof (Bitmap.make_n_ok (Z.of_nat (length rules)) ltac:(lia)) as Hb.
  destruct (PortMap.AddPortBitmap_at (sel r) _ Hb sp F C) as [C' S'].
  split; [by destruct (negb _)|]. intros p n Hn. rewrite at_rule_app, <- S by done.
  unfold cover at 1, ports_cover. destruct (negb (IsNotNeedPort (r_protocol r))); simpl.
  - unfold bit in *. rewrite S', test_mark by (done || lia). f_equal. apply andb_comm.
  - by rewrite andb_false_r, orb_false_r.
Qed.

Lemma ip4_table_step (sel : rule -> list NetFirewallIpParam) rules r ins' v' ins :
  (forall p n, 0 <= n -> hits ins p n <-> at_rule rules (fun r => ips_cover4 (sel r) p) n = true) ->
  Ip4Rules.map_ok ins' v' -> Z.of_nat (length rules) < 2016 ->
  (forall p n, hits ins' p n <-> hits ins p n \/
     (ips_cover4 (sel r) p = true /\ Bitmap.test (Bitmap.make_n (Z.of_nat (length rules))) n = true)) ->
  ip4_table (fun r => ips_cover4 (sel r)) (rules ++ [r]) v'.
Proof.
  intros S Hm L H. exists ins'. split; [done|]. intros p n Hn.
  rewrite H, S, at_rule_app, test_mark, orb_true_iff, andb_true_iff by (done || lia). tauto.
Qed.

Lemma mark_maps_inv rules r sp dp m m2 :
  mark_inv rules sp dp m -> Z.of_nat (length rules) < 2016 ->
  ip4_table remote4 (rules ++ [r]) (srcIp4Map_ m2) -> ip4_table local4 (rules ++ [r]) (dstIp4Map_ m2) ->
  (exists m1, only_ips true m m1 /\ only_ips false m1 m2) ->
  Forall PortMap.range_ok (r_remotePorts r) -> Forall PortMap.range_ok (r_localPorts r) ->
  mark_inv (rules ++ [r])
    (if negb (IsNotNeedPort (r_protocol r))
     then PortMap.AddPortBitmap (r_remotePorts r) (Bitmap.make_n (Z.of_nat (length rules))) sp else sp)
    (if negb (IsNotNeedPort (r_protocol r))
     then PortMap.AddPortBitmap (r_localPorts r) (Bitmap.make_n (Z.of_nat (length rules))) dp else dp)
    (mark_maps r (Bitmap.make_n (Z.of_nat (length rules))) m2).
Proof.
  intros [_ _ Hs Hd Hn Hp Ha Hu Hac Hi] L I1 I2 (m1 & (v4 & v6 & ->) & (w4 & w6 & ->)) R1 R2.
  destruct m as [s4 d4 s6 d6 sp0 dp0 pr au ui ac ifc]. simpl in *.
  constructor; simpl; try done.
  - by apply (seg_table_step r_remotePorts).
  - by apply (seg_table_step r_localPorts).
  - apply (hash_step _ _ r) in Hp; [|done]. unfold proto_key in Hp at 2. by destruct (negb _).
  - apply (hash_step _ _ r) in Ha; [|done]. unfold appuid_key in Ha at 2. by destruct (0 <? r_appUid r).
  - apply (hash_step _ _ r) in Hu; [|done]. unfold uid_key in Hu at 2. by destruct (0 <? r_userId r).
  - apply (hash_step _ _ r) in Hac; [|done]. unfold action_key in Hac at 2. by destruct (negb _).
  - apply (hash_step _ _ r) in Hi; [|done]. unfold iface_key in Hi at 2. by destruct (negb _).
Qed.

Lemma mark_loop_spec rest : Forall rule_ok rest -> forall rules sp dp m, mark_inv rules sp dp m ->
  Z.of_nat (length rules + length rest) <= 2016 ->
  exists sp' dp' m', mark_loop (Some <$> rest) (Z.of_nat (length rules)) sp dp m = (NETFIREWALL_SUCCESS, sp', dp', m') /\
    mark_inv (rules ++ rest) sp' dp' m'.
Proof.
  induction 1 as [|r rest (Hr1 & Hr2 & Hr3 & Hr4) F IH]; intros rules sp dp m I L.
  { exists sp, dp, m. by rewrite app_nil_r. }
  cbn [length] in L. pose proof (Bitmap.make_n_ok (Z.of_nat (length rules)) ltac:(lia)) as Hb.
  cbn [fmap list_fmap mark_loop]. destruct (mi_src _ _ _ _ I) as (ins & Hm & Hi).
  destruct (InsertIpBitmap_spec (r_remoteIps r) true _ Hr1 Hb m ins Hm) as (m1 & ins1 & -> & O1 & Hm1 & H1).
  change (NETFIREWALL_SUCCESS =? 0) with true. cbn [negb]. destruct (mi_dst _ _ _ _ I) as (insd & Hmd & Hid).
  assert (Ed : dstIp4Map_ m1 = dstIp4Map_ m) by (destruct O1 as (? & ? & ->); by destruct m).
  destruct (InsertIpBitmap_spec (r_localIps r) false _ Hr2 Hb m1 insd) as (m2 & ins2 & -> & O2 & Hm2 & H2).
  { unfold ip4_of. by rewrite Ed. }
  assert (Es : srcIp4Map_ m2 = srcIp4Map_ m1) by (destruct O2 as (? & ? & ->); by destruct m1).
  change (NETFIREWALL_SUCCESS =? 0) with true. cbn [negb].
  unshelve epose proof (mark_maps_inv rules r sp dp m m2 I _ _ _ (ex_intro _ m1 (conj O1 O2)) Hr3 Hr4) as J; [lia|..].
  - rewrite Es. by eapply (ip4_table_step r_remoteIps); [exact Hi|exact Hm1|lia|].
  - by eapply (ip4_table_step r_localIps); [exact Hid|exact Hm2|lia|].
  - destruct (IH _ _ _ _ J) as (sp' & dp' & m' & E & I'); [rewrite length_app; simpl; lia|].
    exists sp', dp', m'. rewrite <- app_assoc in I'. split; [|done]. rewrite <- E.
    rewrite wrap_small by (unfold in_width; lia). rewrite length_app, Nat2Z.inj_add. cbn [length].
    by destruct (negb (IsNotNeedPort (r_protocol r))).
Qed.

(** ** Looking a packet field up

    The kernel program asks a table for the key of the packet and, if there is
    no entry, for the fallback key (netfirewall_match.h, [lookup_map]). *)

Definition lookup_map {K} (map_ : K -> option Bitmap.t) (key other_key : K) : option Bitmap.t :=
  match map_ key with Some result => Some result | None => map_ other_key end.

(** Looking up [k] finds the rules that [cover] it. *)
Definition table_ok {K} (lk : K -> option Bitmap.t) (other : K) (cover : rule -> K -> bool) (rules : list rule)
    (k : K) : Prop :=
  exists b, lookup_map lk k other = Some b /\ Bitmap.ok b /\
    forall n, 0 <= n -> Bitmap.test b n = at_rule rules (fun r => cover r k) n.

Lemma Or_Clear b : Bitmap.ok b -> Bitmap.Or b Bitmap.Clear = b.
Proof.
  intros Hb. apply Bitmap.ext; [apply Bitmap.Or_ok; [done|apply Bitmap.Clear_ok]|done|].
  intros n _. by rewrite Bitmap.test_Or, Bitmap.test_Clear, orb_false_r by (done || apply Bitmap.Clear_ok).
Qed.

Lemma at_rule_false rules P n : Forall (fun r => P r = false) rules -> at_rule rules P n = false.
Proof.
  intros F. unfold at_rule. destruct (rules !! Z.to_nat n) as [r|] eqn:E; [|done].
  by apply (Forall_lookup_1 _ _ _ _ F) in E.
Qed.

(** Hash tables with the fallback entry added. *)
Lemma hash_table `{Countable K} (key_of : rule -> option K) rules m other k :
  hash_ok key_of rules m -> Forall (fun r => key_of r <> Some other) rules ->
  table_ok (fun k => OrInsert other Bitmap.make m !! k) other (fun r k => bool_decide (key_of r = Some k)) rules k.
Proof.
  intros Hm F. assert (Ho : forall n, at_rule rules (fun r => bool_decide (key_of r = Some other)) n = false).
  { intros n. apply at_rule_false. eapply Forall_impl; [exact F|]. intros r Hr. by apply bool_decide_eq_false_2. }
  assert (E : OrInsert other Bitmap.make m = match m !! other with Some _ => m | None => <[other := Bitmap.Clear]> m end).
  { unfold OrInsert, Bitmap.make. destruct (Hm other) as [H1 _]. destruct (m !! other) as [b|] eqn:Eb; [|done].
    rewrite Or_Clear by done. by apply insert_id. }
  assert (L : exists b, OrInsert other Bitmap.make m !! other = Some b /\ Bitmap.ok b /\ forall n, 0 <= n -> Bitmap.test b n = false).
  { rewrite E. destruct (Hm other) as [H1 H2]. destruct (m !! other) as [b|] eqn:Eb.
    - exists b. split; [done|]. split; [done|]. intros n Hn. rewrite <- (Ho n). by apply H2.
    - exists Bitmap.Clear. rewrite lookup_insert_eq. split; [done|]. split; [apply Bitmap.Clear_ok|].
      intros. apply Bitmap.test_Clear. }
  destruct L as (b & Lb & Kb & Tb). unfold table_ok, lookup_map. rewrite Lb.
  destruct (decide (k = other)) as [->|Hne].
  { rewrite Lb. exists b. split; [done|]. split; [done|]. intros n Hn. by rewrite Ho, Tb. }
  assert (Ek : OrInsert other Bitmap.make m !! k = m !! k) by (rewrite E; destruct (m !! other); by rewrite ?lookup_insert_ne).
  rewrite Ek. destruct (Hm k) as [H1 H2]. destruct (m !! k) as [c|].
  - exists c. by split.
  - exists b. split; [done|]. split; [done|]. intros n Hn. rewrite <- H2, Tb by done. done.
Qed.

(** The address table with the fallback entry added. *)
Lemma ip4_lpm_ok ins v p : Ip4Rules.map_ok ins v -> bm_ok (Ip4Rules.ip4_lpm v p).
Proof.
  intros (_ & F & _). unfold Ip4Rules.ip4_lpm, Prefix.lpm.
  pose proof (Prefix.lpm_best_spec 32 ((fun e => (ntohl (Ip4Rules.ir_data e), Ip4Rules.ir_mask e, Ip4Rules.ir_bitmap e)) <$> v) p) as L.
  destruct (Prefix.lpm_best _ _ _) as [[l b]|]; [|done]. destruct L as (d & Hi & _).
  apply list_elem_of_fmap in Hi as (e & [= _ _ ->] & He). rewrite Forall_forall in F. by destruct (F _ He) as (_ & _ & _ & ? & _).
Qed.

Lemma ip4_table_lookup cover rules v p : ip4_table cover rules v ->
  Forall (fun r => cover r OTHER_IP4_KEY = false) rules ->
  table_ok (Ip4Rules.ip4_lpm (Ip4Rules.ip4_OrInsert OTHER_IP4_KEY IPV4_MAX_PREFIXLEN Bitmap.make v))
    OTHER_IP4_KEY cover rules p.
Proof.
  intros (ins & Hm & Hh) F. set (v' := Ip4Rules.ip4_OrInsert _ _ _ v).
  assert (Hm' : Ip4Rules.map_ok ((OTHER_IP4_KEY, 32, Bitmap.Clear) :: ins) v').
  { apply Ip4Rules.ip4_OrInsert_ok; [done|]. unfold Ip4Rules.req_ok, OTHER_IP4_KEY, IPV4_MAX_PREFIXLEN, in_width.
    split; [lia|]. split; [lia|]. split; [done|apply Bitmap.Clear_ok]. }
  assert (Hh' : forall q n, 0 <= n -> bit (Ip4Rules.ip4_lpm v' q) n = at_rule rules (fun r => cover r q) n).
  { intros q n Hn. pose proof (Ip4Rules.map_ok_lookup _ v' q n Hm') as L. apply Bool.eq_iff_eq_true. rewrite <- Hh by done.
    transitivity (Bitmap.test (default Bitmap.Clear (Ip4Rules.ip4_lpm v' q)) n = true).
    - unfold bit. destruct (Ip4Rules.ip4_lpm v' q); simpl; [done|]. by rewrite Bitmap.test_Clear.
    - rewrite L. fold (hits ((OTHER_IP4_KEY, 32, Bitmap.Clear) :: ins) q n).
      change (_ :: ins) with ([(OTHER_IP4_KEY, 32, Bitmap.Clear)] ++ ins). rewrite hits_app. split; [|by right].
      intros [(a & m & b & Hi & _ & Ht)|]; [|done]. apply list_elem_of_singleton in Hi as [= -> -> ->].
      by rewrite Bitmap.test_Clear in Ht. }
  assert (Lo : is_Some (Ip4Rules.ip4_lpm v' OTHER_IP4_KEY)).
  { destruct Hm' as (_ & _ & Hk). specialize (Hk _ _ _ (list_elem_of_here _ _)).
    unfold Ip4Rules.ip4_lpm, Prefix.lpm. set (es := _ <$> v').
    pose proof (Prefix.lpm_best_spec 32 es OTHER_IP4_KEY) as L. destruct (Prefix.lpm_best 32 es OTHER_IP4_KEY); [by eexists|].
    apply list_elem_of_fmap in Hk as (e & [= E1 E2] & He). specialize (L (ntohl (Ip4Rules.ir_data e)) (Ip4Rules.ir_mask e) (Ip4Rules.ir_bitmap e)).
    rewrite <- E1, Prefix.in_prefix_refl in L. discriminate L. rewrite E1. apply list_elem_of_fmap. by exists e. }
  unfold table_ok, lookup_map. pose proof (ip4_lpm_ok _ _ p Hm') as Kp. pose proof (ip4_lpm_ok _ _ OTHER_IP4_KEY Hm') as Ko.
  pose proof (Hh' p) as Hp. destruct (Ip4Rules.ip4_lpm v' p) as [b|]; [by exists b|].
  destruct Lo as [b Eb]. pose proof (Hh' OTHER_IP4_KEY) as Hoth. rewrite Eb in *. exists b. split; [done|]. split; [done|].
  intros n Hn. rewrite <- Hp by done. specialize (Hoth n Hn). simpl in Hoth. rewrite Hoth.
  by apply (at_rule_false _ (fun r => cover r OTHER_IP4_KEY)).
Qed.

(** The port table with the fallback entry added. *)
Definition port_entries_ok (v : list PortMap.portRuleBitmap) : Prop :=
  Forall (fun e => Bitmap.ok (PortMap.pb_bitmap e) /\ PortMap.pb_prefixlen e <= 16) v.

Lemma port_OrInsert_ok s mask b v : port_entries_ok v -> Bitmap.ok b -> mask <= 16 -> port_entries_ok (PortMap.port_OrInsert s mask b v).
Proof.
  unfold port_entries_ok. intros F Hb Hm. induction F as [|e v [He Hl] F IH]; simpl; [by apply Forall_singleton|].
  case_match; constructor; try done. split; [by apply Bitmap.Or_ok|done].
Qed.

Lemma insert_rules_ok b rules : Bitmap.ok b -> forall v, port_entries_ok v ->
  port_entries_ok (foldl (PortMap.insert_port_rule b) v rules).
Proof.
  intros Hb. induction rules as [|r rules IH]; intros v Hv; [done|]. simpl. apply IH.
  unfold PortMap.insert_port_rule. destruct (Z.ltb_spec PortMap.PORT_MAX_MASK (PortMap.pr_prefixlen r)); [done|].
  apply port_OrInsert_ok; done.
Qed.

Lemma OrInsertPort_ok segs : forall lo v, PortMap.chain lo segs -> port_entries_ok v ->
  port_entries_ok (PortMap.OrInsertPortBitmap segs v).
Proof.
  induction segs as [|x segs IH]; intros lo v C Hv; [done|]. cbn [PortMap.OrInsertPortBitmap foldl].
  simpl in C. destruct C as (_ & _ & Hb & C).
  destruct (PortMap.GetPortRangeAndMask _ _) as [ret rules]. apply (IH _ _ C).
  destruct (negb _); [done|]. by apply insert_rules_ok.
Qed.

Lemma port_OrInsert_clear s mask v : port_entries_ok v ->
  PortMap.port_OrInsert s mask Bitmap.make v = v \/
  PortMap.port_OrInsert s mask Bitmap.make v = v ++ [PortMap.mkPortBitmap mask s Bitmap.make].
Proof.
  induction 1 as [|e v [He _] F IH]; [by right|]. simpl. case_match.
  - left. unfold Bitmap.make. rewrite Or_Clear by done. by destruct e.
  - destruct IH as [-> | ->]; [by left|by right].
Qed.

Lemma lpm_app_last (es : list (Z * Z * Bitmap.t)) v p : Forall (fun '(d, l, _) => l <= 16) es -> in_width 16 p ->
  Prefix.lpm 16 (es ++ [(65535, 16, v)]) p = if p =? 65535 then Some v else Prefix.lpm 16 es p.
Proof.
  intros F Hp. unfold Prefix.lpm. assert (E : Prefix.in_prefix 16 65535 16 p = (p =? 65535)).
  { unfold Prefix.in_prefix. change (2 ^ (16 - 16)) with 1. by rewrite !Z.div_1_r. }
  destruct (Z.eqb_spec p 65535) as [->|Hne].
  - assert (L : Prefix.lpm_best 16 (es ++ [(65535, 16, v)]) 65535 = Some (16, v)); [|by rewrite L].
    induction F as [|[[d l] w] es Hl F IH]; [done|]. simpl. rewrite IH.
    rewrite (proj2 (Z.ltb_ge 16 l)) by lia. by rewrite andb_false_r.
  - f_equal. clear F. induction es as [|[[d l] w] es IH]; simpl; [by rewrite E|by rewrite IH].
Qed.

Lemma seg_table_lookup cover rules sp p : seg_table cover rules sp -> in_width 16 p ->
  Forall (fun r => cover r 65535 = false) rules ->
  table_ok (PortMap.port_lpm (PortMap.port_OrInsert OTHER_PORT_KEY PORT_MAX_MASK Bitmap.make (PortMap.OrInsertPortBitmap sp [])))
    65535 cover rules p.
Proof.
  intros [C S] Hp F. pose proof (fun q => PortMap.OrInsertPortBitmap_spec sp q C) as L0.
  pose proof (OrInsertPort_ok sp 0 [] C (Forall_nil_2 _)) as K. set (v := PortMap.OrInsertPortBitmap sp []) in *.
  assert (Z0 : forall n, at_rule rules (fun r => cover r 65535) n = false) by (intros n; by apply at_rule_false).
  assert (L : forall q, in_width 16 q -> bm_ok (PortMap.port_lpm (PortMap.port_OrInsert OTHER_PORT_KEY PORT_MAX_MASK Bitmap.make v) q) /\
    forall n, 0 <= n -> bit (PortMap.port_lpm (PortMap.port_OrInsert OTHER_PORT_KEY PORT_MAX_MASK Bitmap.make v) q) n
      = at_rule rules (fun r => cover r q) n).
  { intros q Hq. assert (Kq : bm_ok (PortMap.seg_at sp q)).
    { destruct (PortMap.seg_at sp q) as [b|] eqn:E; [|done]. by apply (PortMap.seg_at_ok _ _ _ _ C) in E as [? _]. }
    assert (Same : PortMap.port_OrInsert OTHER_PORT_KEY PORT_MAX_MASK Bitmap.make v = v ->
      bm_ok (PortMap.port_lpm v q) /\ forall n, 0 <= n -> bit (PortMap.port_lpm v q) n = at_rule rules (fun r => cover r q) n).
    { intros _. rewrite L0. split; [done|]. intros n Hn. by apply S. }
    destruct (port_OrInsert_clear OTHER_PORT_KEY PORT_MAX_MASK v K) as [E|E]; [rewrite E; by apply Same|].
    rewrite E. unfold PortMap.port_lpm. rewrite fmap_app.
    change (PortMap.port_entry <$> [_]) with [(65535, 16, Bitmap.make)]. rewrite lpm_app_last; [|by apply Forall_fmap; eapply Forall_impl; [exact K|]; intros ? []|done].
    destruct (Z.eqb_spec q 65535) as [->|Hne].
    - split; [apply Bitmap.Clear_ok|]. intros n Hn. rewrite Z0. apply Bitmap.test_Clear.
    - fold (PortMap.port_lpm v q). rewrite L0. split; [done|]. intros n Hn. by apply S. }
  assert (So : is_Some (PortMap.port_lpm (PortMap.port_OrInsert OTHER_PORT_KEY PORT_MAX_MASK Bitmap.make v) 65535)).
  { unfold PortMap.port_lpm, Prefix.lpm. set (es := PortMap.port_entry <$> _).
    pose proof (Prefix.lpm_best_spec 16 es 65535) as B. destruct (Prefix.lpm_best 16 es 65535); [by eexists|].
    exfalso. assert (Hex : exists b, (65535, 16, b) ∈ es).
    { unfold es. clear. change 65535 with (ntohs OTHER_PORT_KEY). change 16 with PORT_MAX_MASK.
      induction v as [|e v [b IH]]; simpl; [eexists; by left|]. case_match.
      - apply andb_true_iff in H as [E1 E2]. apply Z.eqb_eq in E1, E2. exists (Bitmap.Or (PortMap.pb_bitmap e) Bitmap.make).
        apply elem_of_cons. left. unfold PortMap.port_entry. simpl. by rewrite E1, E2.
      - exists b. by right. }
    destruct Hex as [b Hb]. specialize (B _ _ _ Hb). by rewrite Prefix.in_prefix_refl in B. }
  unfold table_ok, lookup_map. destruct (L p Hp) as [K1 B1]. destruct (L 65535 ltac:(unfold in_width; lia)) as [K2 B2].
  destruct (PortMap.port_lpm _ p) as [b|]; [by exists b|]. destruct So as [b Eb]. rewrite Eb in *.
  exists b. split; [done|]. split; [done|]. intros n Hn. rewrite <- B1 by done. specialize (B2 n Hn). simpl in B2. by rewrite B2, Z0.
Qed.

(** ** Rules that leave a field open *)

Fixpoint open_or (P : rule -> bool) (rules : list rule) (idx : Z) (x : Bitmap.t) : Bitmap.t :=
  match rules with
  | [] => x
  | r :: rest => open_or P rest (idx + 1) (if P r then Bitmap.Or x (Bitmap.make_n idx) else x)
  end.

Lemma open_or_spec P rules : forall idx x, Bitmap.ok x -> 0 <= idx -> idx + Z.of_nat (length rules) <= 2016 ->
  Bitmap.ok (open_or P rules idx x) /\
  forall n, 0 <= n -> Bitmap.test (open_or P rules idx x) n = Bitmap.test x n || ((idx <=? n) && at_rule rules P (n - idx)).
Proof.
  induction rules as [|r rest IH]; intros idx x Hx Hi L; simpl in *.
  { split; [done|]. intros n _. unfold at_rule. by rewrite lookup_nil, andb_false_r, orb_false_r. }
  pose proof (Bitmap.make_n_ok idx Hi) as Hb.
  destruct (IH (idx + 1) (if P r then Bitmap.Or x (Bitmap.make_n idx) else x)) as [K T]; [|lia|lia|].
  { case_match; [by apply Bitmap.Or_ok|done]. }
  split; [done|]. intros n Hn. rewrite T by done.
  pose proof (test_mark (Z.to_nat idx) n ltac:(lia) Hn ltac:(lia)) as M. rewrite Z2Nat.id in M by lia.
  assert (E : Bitmap.test (if P r then Bitmap.Or x (Bitmap.make_n idx) else x) n = Bitmap.test x n || ((n =? idx) && P r)).
  { destruct (P r); [by rewrite Bitmap.test_Or, M, andb_true_r|by rewrite andb_false_r, orb_false_r]. }
  rewrite E. unfold at_rule. destruct (Z.eqb_spec n idx) as [->|N].
  - rewrite Z.leb_refl, Z.sub_diag, (proj2 (Z.leb_gt (idx + 1) idx)) by lia. simpl. by rewrite orb_false_r.
  - destruct (Z.leb_spec (idx + 1) n), (Z.leb_spec idx n); simpl; try lia; rewrite ?orb_false_r; try done.
    by replace (Z.to_nat (n - idx)) with (S (Z.to_nat (n - (idx + 1)))) by lia.
Qed.

Lemma ip4_lpm_foreach (P : bool) b v p :
  Ip4Rules.ip4_lpm (if P then Ip4Rules.ip4_OrForEach b v else v) p =
  (fun x => if P then Bitmap.Or x b else x) <$> Ip4Rules.ip4_lpm v p.
Proof.
  unfold Ip4Rules.ip4_lpm. rewrite <- (Prefix.lpm_fmap 32 (fun x => if P then Bitmap.Or x b else x)). f_equal.
  unfold Ip4Rules.ip4_OrForEach. rewrite <- list_fmap_compose. destruct P.
  - rewrite <- list_fmap_compose. by apply list_fmap_ext.
  - by apply list_fmap_ext.
Qed.

Lemma port_lpm_foreach (P : bool) b v p :
  PortMap.port_lpm (if P then PortMap.port_OrForEach b v else v) p =
  (fun x => if P then Bitmap.Or x b else x) <$> PortMap.port_lpm v p.
Proof.
  unfold PortMap.port_lpm. rewrite <- (Prefix.lpm_fmap 16 (fun x => if P then Bitmap.Or x b else x)). f_equal.
  unfold PortMap.port_OrForEach. rewrite <- list_fmap_compose. destruct P.
  - rewrite <- list_fmap_compose. by apply list_fmap_ext.
  - by apply list_fmap_ext.
Qed.

Lemma hash_foreach `{Countable K} (P : bool) b (m : gmap K Bitmap.t) k :
  (if P then OrForEach b m else m) !! k = (fun x => if P then Bitmap.Or x b else x) <$> m !! k.
Proof. unfold OrForEach. destruct P; [by rewrite lookup_fmap|]. by destruct (m !! k). Qed.

Definition noRemoteIp (r : rule) : bool := bool_decide (r_remoteIps r = []).
Definition noLocalIp (r : rule) : bool := bool_decide (r_localIps r = []).
Definition noRemotePort (r : rule) : bool := bool_decide (r_remotePorts r = []) || IsNotNeedPort (r_protocol r).
Definition noLocalPort (r : rule) : bool := bool_decide (r_localPorts r = []) || IsNotNeedPort (r_protocol r).
Definition noProto (r : rule) : bool := r_protocol r =? 0.
Definition noAppUid (r : rule) : bool := r_appUid r <? 1.
Definition noUid (r : rule) : bool := r_userId r <? 1.
Definition noIface (r : rule) : bool := bool_decide (r_interface r = EmptyString).

Record no_mark_rel (rules : list rule) (idx : Z) (m m' : t) : Prop := {
  nm_src : forall p, Ip4Rules.ip4_lpm (srcIp4Map_ m') p = open_or noRemoteIp rules idx <$> Ip4Rules.ip4_lpm (srcIp4Map_ m) p;
  nm_dst : forall p, Ip4Rules.ip4_lpm (dstIp4Map_ m') p = open_or noLocalIp rules idx <$> Ip4Rules.ip4_lpm (dstIp4Map_ m) p;
  nm_sport : forall p, PortMap.port_lpm (srcPortMap_ m') p = open_or noRemotePort rules idx <$> PortMap.port_lpm (srcPortMap_ m) p;
  nm_dport : forall p, PortMap.port_lpm (dstPortMap_ m') p = open_or noLocalPort rules idx <$> PortMap.port_lpm (dstPortMap_ m) p;
  nm_proto : forall k, protoMap_ m' !! k = open_or noProto rules idx <$> protoMap_ m !! k;
  nm_appuid : forall k, appUidMap_ m' !! k = open_or noAppUid rules idx <$> appUidMap_ m !! k;
  nm_uid : forall k, uidMap_ m' !! k = open_or noUid rules idx <$> uidMap_ m !! k;
  nm_iface : forall k, interfaceMap_ m' !! k = open_or noIface rules idx <$> interfaceMap_ m !! k;
  nm_action : actionMap_ m' = actionMap_ m }.

Lemma fmap_open_or_cons P r rest idx (o : option Bitmap.t) :
  open_or P rest (idx + 1) <$> ((fun x => if P r then Bitmap.Or x (Bitmap.make_n idx) else x) <$> o) = open_or P (r :: rest) idx <$> o.
Proof. by destruct o. Qed.

Lemma no_mark_loop_spec rules : forall idx m, 0 <= idx -> idx + Z.of_nat (length rules) <= 2016 ->
  exists m', no_mark_loop (Some <$> rules) idx m = Some m' /\ no_mark_rel rules idx m m'.
Proof.
  induction rules as [|r rest IH]; intros idx m Hi L.
  { exists m. split; [done|]. constructor; try done; intros; simpl; by destruct (_ : option Bitmap.t). }
  cbn [length] in L. cbn [fmap list_fmap no_mark_loop]. rewrite wrap_small by (unfold in_width; lia).
  destruct (IH (idx + 1) (no_mark r (Bitmap.make_n idx) m)) as (m' & -> & R); [lia..|].
  exists m'. split; [done|]. destruct m as [s4 d4 s6 d6 sp dp pr au ui ac ifc], R.
  cbn [no_mark srcIp4Map_ dstIp4Map_ srcPortMap_ dstPortMap_ protoMap_ appUidMap_ uidMap_ actionMap_ interfaceMap_] in *.
  constructor; intros; rewrite <- ?fmap_open_or_cons.
  - by rewrite nm_src0, ip4_lpm_foreach.
  - by rewrite nm_dst0, ip4_lpm_foreach.
  - by rewrite nm_sport0, port_lpm_foreach.
  - by rewrite nm_dport0, port_lpm_foreach.
  - by rewrite nm_proto0, hash_foreach.
  - by rewrite nm_appuid0, hash_foreach.
  - by rewrite nm_uid0, hash_foreach.
  - by rewrite nm_iface0, hash_foreach.
  - done.
Qed.

(** Opening adds the open rules to what a lookup finds. *)
Lemma table_open {K} (lk lk' : K -> option Bitmap.t) other cover P rules k :
  table_ok lk other cover rules k -> Z.of_nat (length rules) <= 2016 ->
  (forall k, lk' k = open_or P rules 0 <$> lk k) ->
  table_ok lk' other (fun r k => cover r k || P r) rules k.
Proof.
  intros (b & E & Kb & Tb) L H. destruct (open_or_spec P rules 0 b Kb) as [K' T']; [lia..|].
  exists (open_or P rules 0 b). split; [|split; [done|]].
  - unfold lookup_map in *. rewrite !H. destruct (lk k) as [c|]; simpl; [by simplify_eq|]. by rewrite E.
  - intros n Hn. rewrite T', Tb, at_rule_or, Z.sub_0_r by done. by rewrite (proj2 (Z.leb_le 0 n)).
Qed.

(** ** The compiled tables *)

(** The rule does not ask for a key the tables use as fallback entry. *)
Definition rule_plain (r : rule) : Prop :=
  remote4 r OTHER_IP4_KEY = false /\ local4 r OTHER_IP4_KEY = false /\
  remotePort r 65535 = false /\ localPort r 65535 = false /\
  u8 (r_protocol r) <> 255 /\ r_appUid r < 2 ^ 31 /\ r_userId r < 2 ^ 31.

(** Every table but the two of IPv6 addresses finds, for a key, the rules that ask for it or leave it open.
    The tables [srcIp6Map_] and [dstIp6Map_] are left out: they do not have the property, since the blocks of a range
    can miss its end and a wider prefix is merged into a longer one with the same network address
    ([Ip6Rules.GetIp6AndMask_loses_end] and the merging of [Ip6RuleMap::OrInsert]). *)
Record compiled (rules : list rule) (m : t) : Prop := {
  co_src : forall p, table_ok (Ip4Rules.ip4_lpm (srcIp4Map_ m)) OTHER_IP4_KEY (fun r p => remote4 r p || noRemoteIp r) rules p;
  co_dst : forall p, table_ok (Ip4Rules.ip4_lpm (dstIp4Map_ m)) OTHER_IP4_KEY (fun r p => local4 r p || noLocalIp r) rules p;
  co_sport : forall p, in_width 16 p ->
    table_ok (PortMap.port_lpm (srcPortMap_ m)) 65535 (fun r p => remotePort r p || noRemotePort r) rules p;
  co_dport : forall p, in_width 16 p ->
    table_ok (PortMap.port_lpm (dstPortMap_ m)) 65535 (fun r p => localPort r p || noLocalPort r) rules p;
  co_proto : forall k, table_ok (fun k => protoMap_ m !! k) OTHER_PROTO_KEY
    (fun r k => bool_decide (proto_key r = Some k) || noProto r) rules k;
  co_appuid : forall k, table_ok (fun k => appUidMap_ m !! k) OTHER_APPUID_KEY
    (fun r k => bool_decide (appuid_key r = Some k) || noAppUid r) rules k;
  co_uid : forall k, table_ok (fun k => uidMap_ m !! k) OTHER_UID_KEY
    (fun r k => bool_decide (uid_key r = Some k) || noUid r) rules k;
  co_iface : forall k, table_ok (fun k => interfaceMap_ m !! k) EmptyString
    (fun r k => bool_decide (iface_key r = Some k) || noIface r) rules k;
  co_action : exists b, actionMap_ m !! 1 = Some b /\ Bitmap.ok b /\
    forall n, 0 <= n -> Bitmap.test b n = at_rule rules (fun r => negb (bool_decide (r_action r = RULE_ALLOW))) n }.

Lemma mark_inv_nil m : mark_inv [] [] [] (Clear m).
Proof.
  assert (N : forall P n, at_rule [] P n = false) by (intros; unfold at_rule; by rewrite lookup_nil).
  assert (I : forall c, ip4_table c [] []).
  { intros c. exists []. split; [apply Ip4Rules.map_ok_nil|]. intros p n _. rewrite N. split; [|done].
    intros (? & ? & ? & H & _). by apply elem_of_nil in H. }
  assert (S : forall c, seg_table c [] []) by (intros c; split; [done|]; intros p n _; by rewrite N).
  constructor; try apply I; try apply S; try apply hash_ok_nil. done.
Qed.

Lemma word_key_plain x : 0 < x < 2 ^ 31 -> u32 x <> 0xffffffff.
Proof. intros H. rewrite wrap_small by (unfold in_width; lia). lia. Qed.

Lemma action_table rules m : hash_ok action_key rules m ->
  exists b, OrInsert 1 Bitmap.make m !! 1 = Some b /\ Bitmap.ok b /\
    forall n, 0 <= n -> Bitmap.test b n = at_rule rules (fun r => negb (bool_decide (r_action r = RULE_ALLOW))) n.
Proof.
  intros H. destruct (H 1) as [K T]. unfold OrInsert.
  assert (E : forall n, at_rule rules (fun r => bool_decide (action_key r = Some 1)) n =
                        at_rule rules (fun r => negb (bool_decide (r_action r = RULE_ALLOW))) n).
  { intros n. unfold at_rule, action_key. destruct (rules !! Z.to_nat n) as [r|]; [|done]. by destruct (negb _). }
  destruct (m !! 1) as [b|]; rewrite lookup_insert_eq.
  - exists (Bitmap.Or b Bitmap.make). rewrite Or_Clear by done. split; [done|]. split; [done|].
    intros n Hn. rewrite <- E. by apply T.
  - exists Bitmap.Clear. split; [done|]. split; [apply Bitmap.Clear_ok|]. intros n Hn. rewrite <- E, <- T by done.
    by rewrite Bitmap.test_Clear.
Qed.

Lemma BuildBitmapMap_spec rules m0 : Forall rule_ok rules -> Forall rule_plain rules -> Z.of_nat (length rules) <= 2016 ->
  exists m, BuildBitmapMap (Some <$> rules) m0 = Some (NETFIREWALL_SUCCESS, m) /\ compiled rules m.
Proof.
  intros F P L. unfold BuildBitmapMap, BuildMarkBitmap, BuildNoMarkBitmap.
  destruct (mark_loop_spec rules F [] [] [] _ (mark_inv_nil m0)) as (sp & dp & m1 & E0 & I); [simpl; lia|].
  change (Z.of_nat (length [])) with 0 in E0. rewrite E0.
  change (NETFIREWALL_SUCCESS =? NETFIREWALL_SUCCESS) with true. cbn [negb]. simpl in I.
  destruct m1 as [s4 d4 s6 d6 sp0 dp0 pr au ui ac ifc]. destruct I as [Is Id Isp Idp [Es Ed] Ip Ia Iu Iac Ii]; simpl in *.
  subst sp0 dp0. change (NETFIREWALL_SUCCESS =? NETFIREWALL_SUCCESS) with true. cbn [negb].
  set (m2 := mkManager _ _ _ _ _ _ _ _ _ _ _) at 1.
  destruct (no_mark_loop_spec rules 0 m2) as (m & E & R); [lia|lia|]. rewrite E. exists m. split; [done|].
  destruct R as [R1 R2 R3 R4 R5 R6 R7 R8 R9]. subst m2; simpl in *. constructor; intros.
  - eapply table_open; [apply ip4_table_lookup; [exact Is|]|done|exact R1]. eapply Forall_impl; [exact P|]. by intros r (? & _).
  - eapply table_open; [apply ip4_table_lookup; [exact Id|]|done|exact R2]. eapply Forall_impl; [exact P|]. by intros r (_ & ? & _).
  - eapply table_open; [apply seg_table_lookup; [exact Isp|done|]|done|exact R3]. eapply Forall_impl; [exact P|]. by intros r (_ & _ & ? & _).
  - eapply table_open; [apply seg_table_lookup; [exact Idp|done|]|done|exact R4]. eapply Forall_impl; [exact P|]. by intros r (_ & _ & _ & ? & _).
  - eapply table_open; [apply hash_table; [exact Ip|]|done|exact R5]. eapply Forall_impl; [exact P|].
    intros r (_ & _ & _ & _ & Hp & _). unfold proto_key, OTHER_PROTO_KEY. case_match; [|done]. intros [= X]. by apply Hp.
  - eapply table_open; [apply hash_table; [exact Ia|]|done|exact R6]. eapply Forall_impl; [exact P|].
    intros r (_ & _ & _ & _ & _ & Ha & _). unfold appuid_key. destruct (Z.ltb_spec 0 (r_appUid r)); [|done].
    intros [= X]. revert X. apply word_key_plain. lia.
  - eapply table_open; [apply hash_table; [exact Iu|]|done|exact R7]. eapply Forall_impl; [exact P|].
    intros r (_ & _ & _ & _ & _ & _ & Hu). unfold uid_key. destruct (Z.ltb_spec 0 (r_userId r)); [|done].
    intros [= X]. revert X. apply word_key_plain. lia.
  - eapply table_open; [apply hash_table; [exact Ii|]|done|exact R8]. apply Forall_true.
    intros r. unfold iface_key. case_bool_decide as Hi; simpl; [done|]. by intros [= X].
  - rewrite R9. by apply action_table.
Qed.
(** C2: Compiling up to 2016 well-formed rules succeeds and gives tables of
    IPv4 addresses, ports, protocols, applications, users and interfaces in
    which every lookup, fallback included, finds exactly the rules that ask
    for the key or leave the field open, and the action table has exactly the
    rules that do not allow.  The rules may have IPv6 addresses too, but nothing
    is said about the two IPv6 address tables, which are not exact.  Well-formed:
    subnets have no host bits (with them a later rule can hide an earlier one,
    [same_subnet_host_bits]), ranges of addresses and ports are in order, and
    no rule asks for a key that the tables use as their fallback entry
    (255.255.255.255, port 65535, protocol 255, users of 2^31 and above). *)
Theorem BuildBitmapMap_correct rules m0 :
  Forall rule_ok rules -> Forall rule_plain rules -> Z.of_nat (length rules) <= 2016 ->
  exists m, BuildBitmapMap (Some <$> rules) m0 = Some (NETFIREWALL_SUCCESS, m) /\ compiled rules m.
Proof. apply BuildBitmapMap_spec. Qed.

Definition tcp_rule : NetFirewallIpRule :=
  mkIpRule 100 20010 RULE_OUT RULE_ALLOW 6
    [mkIpParam FAMILY_IPV4 MULTIPLE_IP 0 (htonl 0x0A000001) (htonl 0x0A0000FF) [] []] [] [] [(1024, 2047)] EmptyString.

Lemma BuildBitmapMap_correct_witness :
  exists m, BuildBitmapMap [Some tcp_rule; Some tcp_rule] (mkManager [] [] [] [] [] [] ∅ ∅ ∅ ∅ ∅) = Some (0, m) /\
    compiled [tcp_rule; tcp_rule] m.
Proof.
  apply (BuildBitmapMap_correct [tcp_rule; tcp_rule]); [..|simpl; lia].
  - repeat constructor; simpl; unfold in_width; try lia; vm_compute; congruence.
  - by repeat constructor; vm_compute.
Defined.

(** A null rule in the list is skipped by the first pass and dereferenced
    by the second: compilation never returns once the first pass succeeds. *)
Theorem BuildBitmapMap_null_rule ruleList m0 : None ∈ ruleList ->
  fst (BuildMarkBitmap ruleList (Clear m0)) = NETFIREWALL_SUCCESS -> BuildBitmapMap ruleList m0 = None.
Proof.
  intros Hn Hs. unfold BuildBitmapMap. destruct (BuildMarkBitmap ruleList (Clear m0)) as [ret m]. simpl in Hs. subst ret.
  change (NETFIREWALL_SUCCESS =? NETFIREWALL_SUCCESS) with true. cbn [negb]. unfold BuildNoMarkBitmap.
  assert (N : forall idx m, no_mark_loop ruleList idx m = None); [|by rewrite N].
  clear m. induction ruleList as [|[r|] rest IH]; intros idx m; [by apply elem_of_nil in Hn| |done].
  simpl. apply IH. by apply elem_of_cons in Hn as [|].
Qed.

Lemma BuildBitmapMap_null_rule_witness :
  BuildBitmapMap [Some tcp_rule; None] (mkManager [] [] [] [] [] [] ∅ ∅ ∅ ∅ ∅) = None.
Proof. apply BuildBitmapMap_null_rule; [by right; left|vm_compute; reflexivity]. Defined.

(** Two rules for one subnet written with different host bits get two
    entries for the same trie key, and the later one hides the earlier. *)
Theorem same_subnet_host_bits :
  let rule_for a := mkIpRule 0 0 RULE_IN RULE_DENY 0 [] [mkIpParam FAMILY_IPV4 SINGLE_IP 24 (htonl a) 0 [] []] [] [] EmptyString in
  exists m b, BuildBitmapMap [Some (rule_for 0xC0A80105); Some (rule_for 0xC0A80100)] (mkManager [] [] [] [] [] [] ∅ ∅ ∅ ∅ ∅)
      = Some (0, m) /\
    lookup_map (Ip4Rules.ip4_lpm (srcIp4Map_ m)) 0xC0A80109 OTHER_IP4_KEY = Some b /\
    Bitmap.test b 0 = false /\ Bitmap.test b 1 = true.
Proof. cbn zeta. eexists _, _. split; [vm_compute; reflexivity|]. split; [vm_compute; reflexivity|]. split; vm_compute; reflexivity. Qed.

End BitmapManager.
