(* ===== verification/Conntrack.v ===== *)
(** * Connection tracking of the firewall
    (services/netmanagernative/bpf/include/netfirewall/netfirewall_ct.h and
    the collector [ConntrackGcTask] of bpf_netfirewall.cpp)

    The table maps a connection tuple to an entry with a lifetime (in seconds
    of the monotonic clock) and flags; a packet of a known connection bypasses
    the rules.  The table of the kernel (netfirewall_ct_map.h) is an LRU hash of
    5000 entries: when it is full the kernel drops an entry, of its own choice,
    for a new one.  Here the operations work on a table without a bound, and the
    kernel may drop an entry at any time ([step_evict]). *)

From S2P Require Import Prelude.

Module Conntrack.

Definition TCP_CONN_TIMEOUT_SEC : Z := 21600.
Definition NONTCP_CONN_TIMEOUT_SEC : Z := 60.
Definition TCP_SYN_TIMEOUT_SEC : Z := 60.
Definition REPORT_INTERVAL_SEC : Z := 5.
Definition REPORT_FLAGS : Z := 0xff.
Definition IPPROTO_TCP : Z := 6.
Definition AF_INET : Z := 2.

Inductive ct_action := CT_ACTION_UNSPEC | CT_ACTION_CREATE | CT_ACTION_CLOSE.
Inductive ct_dir := CT_EGRESS | CT_INGRESS.
Inductive ct_status := CT_NEW | CT_ESTABLISHED | CT_REOPENED | CT_RELATED.
#[global] Instance ct_dir_dec : EqDecision ct_dir.
Proof. solve_decision. Defined.
#[global] Instance ct_status_dec : EqDecision ct_status.
Proof. solve_decision. Defined.

(** The union of the two address pairs, tagged by the view in use. *)
Abbreviation addr_pair := ((Z * Z) + (list Z * list Z))%type.

(** [struct ct_tuple]: uid, family, protocol, addresses, source port, destination port. *)
Abbreviation ct_tuple := (Z * Z * Z * addr_pair * Z * Z)%type.

Record ct_entry := mkCt {
  lifetime : Z;
  rx_closing_flag : bool; tx_closing_flag : bool; seen_non_syn : bool;
  tx_seen_flag : Z; rx_seen_flag : Z;
  last_tx_report : Z; last_rx_report : Z }.

Abbreviation ct_map := (gmap ct_tuple ct_entry).

(** ** Flags

    [union tcp_flags] on a little-endian machine: the two flag bytes of the TCP
    header followed by padding; the kernel's [TCP_FLAG_*] masks apply to the
    32-bit view. *)
Record tcp_flags := mkFlags { upper_bits : Z; lower_bits : Z }.
Definition value (f : tcp_flags) : Z := upper_bits f + 256 * lower_bits f.
Definition of_value (v : Z) : tcp_flags := mkFlags (v mod 256) (v / 256 mod 256).

Definition TCP_FLAG_FIN : Z := 0x00000100.
Definition TCP_FLAG_SYN : Z := 0x00000200.
Definition TCP_FLAG_RST : Z := 0x00000400.

(** A C condition: non-zero is true. *)
Definition nz (z : Z) : bool := negb (z =? 0).

Definition reset_seen_flags (e : ct_entry) : ct_entry :=
  mkCt (lifetime e) (rx_closing_flag e) (tx_closing_flag e) (seen_non_syn e) 0 0 (last_tx_report e) (last_rx_report e).
Definition reset_closing_flags (e : ct_entry) : ct_entry :=
  mkCt (lifetime e) false false (seen_non_syn e) (tx_seen_flag e) (rx_seen_flag e) (last_tx_report e) (last_rx_report e).
Definition is_conn_alive (e : ct_entry) : bool := negb (rx_closing_flag e) || negb (tx_closing_flag e).
Definition is_conn_closing (e : ct_entry) : bool := tx_closing_flag e || rx_closing_flag e.

Definition get_tcp_conn_action (flags : tcp_flags) : ct_action :=
  if nz (Z.land (value flags) (Z.lor TCP_FLAG_RST TCP_FLAG_FIN)) then CT_ACTION_CLOSE
  else if nz (Z.land (value flags) TCP_FLAG_SYN) then CT_ACTION_CREATE
  else CT_ACTION_UNSPEC.

Definition is_seen_both_syns (e : ct_entry) : bool :=
  let rx_syn := nz (Z.land (rx_seen_flag e) TCP_FLAG_SYN) in
  let tx_syn := nz (Z.land (tx_seen_flag e) TCP_FLAG_SYN) in
  rx_syn && tx_syn.

(** ** Timeouts; [now] is the clock in seconds *)

Definition update_timeout_inner (now : Z) (e : ct_entry) (life : Z) (dir : ct_dir) (flags : tcp_flags)
    : bool * ct_entry :=
  let seen_flags := Z.land (lower_bits flags) REPORT_FLAGS in
  let e := mkCt (u32 (now + life)) (rx_closing_flag e) (tx_closing_flag e) (seen_non_syn e)
             (tx_seen_flag e) (rx_seen_flag e) (last_tx_report e) (last_rx_report e) in
  let '(last_seen_flags, last_report) :=
    match dir with
    | CT_INGRESS => (rx_seen_flag e, last_rx_report e)
    | CT_EGRESS => (tx_seen_flag e, last_tx_report e)
    end in
  let seen_flags := Z.lor seen_flags last_seen_flags in
  if (u32 (last_report + REPORT_INTERVAL_SEC) <? now) || negb (last_seen_flags =? seen_flags) then
    (true, match dir with
           | CT_INGRESS => mkCt (lifetime e) (rx_closing_flag e) (tx_closing_flag e) (seen_non_syn e)
                             (tx_seen_flag e) seen_flags (last_tx_report e) now
           | CT_EGRESS => mkCt (lifetime e) (rx_closing_flag e) (tx_closing_flag e) (seen_non_syn e)
                             seen_flags (rx_seen_flag e) now (last_rx_report e)
           end)
  else (false, e).

Definition set_non_syn (b : bool) (e : ct_entry) : ct_entry :=
  mkCt (lifetime e) (rx_closing_flag e) (tx_closing_flag e) b (tx_seen_flag e) (rx_seen_flag e)
    (last_tx_report e) (last_rx_report e).

Definition ct_update_timeout (now : Z) (e : ct_entry) (tcp : bool) (dir : ct_dir) (seen_flags : tcp_flags)
    : bool * ct_entry :=
  let syn := nz (Z.land (value seen_flags) TCP_FLAG_SYN) in
  let '(e, timeout) :=
    if tcp then
      let e := set_non_syn (seen_non_syn e || negb syn) e in
      (e, if seen_non_syn e then TCP_CONN_TIMEOUT_SEC else TCP_SYN_TIMEOUT_SEC)
    else (e, NONTCP_CONN_TIMEOUT_SEC) in
  update_timeout_inner now e timeout dir seen_flags.

(** ** The table *)

Definition ct_zero : ct_entry := mkCt 0 false false false 0 0 0 0.

Definition ct_protocol (t : ct_tuple) : Z := let '(_, _, p, _, _, _) := t in p.

Definition ct_create_entry (now : Z) (tuple : ct_tuple) (dir : ct_dir) (m : ct_map) : ct_map :=
  let is_tcp := ct_protocol tuple =? IPPROTO_TCP in
  let seen_flags := of_value (Z.lor 0 (if is_tcp then TCP_FLAG_SYN else 0)) in
  let '(_, entry) := ct_update_timeout now ct_zero is_tcp dir seen_flags in
  <[tuple := entry]> m.

(** What the packet shows about its transport header: not TCP, or TCP with the
    flag bytes ([None] when they cannot be loaded). *)
Record l4_view := mkL4 { is_tcp : bool; loaded_flags : option tcp_flags }.

Definition close_entry (dir : ct_dir) (flags : tcp_flags) (e : ct_entry) : ct_entry :=
  let set rx tx := mkCt (lifetime e) rx tx (seen_non_syn e) (tx_seen_flag e) (rx_seen_flag e)
                     (last_tx_report e) (last_rx_report e) in
  if negb (is_seen_both_syns e) && nz (Z.land (value flags) TCP_FLAG_RST) then set true true
  else match dir with
       | CT_INGRESS => set true (tx_closing_flag e)
       | CT_EGRESS => set (rx_closing_flag e) true
       end.

Definition ct_lookup_entry (now : Z) (pkt : l4_view) (tuple : ct_tuple) (dir : ct_dir) (m : ct_map)
    : ct_status * ct_map :=
  match m !! tuple with
  | None => (CT_NEW, m)
  | Some entry =>
      match (if is_tcp pkt then loaded_flags pkt else Some (mkFlags 0 0)) with
      | None => (CT_RELATED, m)
      | Some seen_flags =>
          let entry := if is_conn_alive entry
                       then snd (ct_update_timeout now entry (is_tcp pkt) dir seen_flags) else entry in
          match get_tcp_conn_action seen_flags with
          | CT_ACTION_CREATE =>
              if is_conn_closing entry then
                let entry := set_non_syn false (reset_seen_flags (reset_closing_flags entry)) in
                let entry := snd (ct_update_timeout now entry (is_tcp pkt) dir seen_flags) in
                (CT_REOPENED, <[tuple := entry]> m)
              else (CT_ESTABLISHED, <[tuple := entry]> m)
          | CT_ACTION_CLOSE =>
              let entry := close_entry dir seen_flags entry in
              if is_conn_alive entry then (CT_ESTABLISHED, <[tuple := entry]> m)
              else (CT_ESTABLISHED, delete tuple m)
          | CT_ACTION_UNSPEC => (CT_ESTABLISHED, <[tuple := entry]> m)
          end
      end
  end.

Definition swap_ct_tuple_ports (t : ct_tuple) : ct_tuple :=
  let '(uid, family, protocol, addrs, sport, dport) := t in (uid, family, protocol, addrs, dport, sport).

Definition swap_ct_tuple_addrs (t : ct_tuple) : ct_tuple :=
  let '(uid, family, protocol, addrs, sport, dport) := t in
  let addrs := match addrs with inl (s, d) => inl (d, s) | inr (s, d) => inr (d, s) end in
  (uid, family, protocol, addrs, sport, dport).

(** The second component is the tuple the caller goes on with. *)
Definition ct_map_lookup_entry (now : Z) (pkt : l4_view) (tuple : ct_tuple) (dir : ct_dir) (is_loopback : bool)
    (m : ct_map) : ct_status * ct_tuple * ct_map :=
  let '(status, m) := ct_lookup_entry now pkt tuple dir m in
  if bool_decide (status = CT_NEW) && is_loopback then
    let tuple := swap_ct_tuple_ports (swap_ct_tuple_addrs tuple) in
    let '(status, m) := ct_lookup_entry now pkt tuple dir m in (status, tuple, m)
  else (status, tuple, m).

(** [ConntrackGcTask]: entries whose lifetime has passed are deleted. *)
Definition ConntrackGcTask (now : Z) (m : ct_map) : ct_map :=
  filter (fun kv => negb (lifetime kv.2 <? now) = true) m.

(** ** Well-formed entries *)

Definition entry_ok (e : ct_entry) : Prop :=
  in_width 8 (tx_seen_flag e) /\ in_width 8 (rx_seen_flag e) /\ in_width 32 (lifetime e).

Definition ct_ok (m : ct_map) : Prop := map_Forall (fun _ e => entry_ok e) m.
Definition flags_ok (f : tcp_flags) : Prop := in_width 8 (upper_bits f) /\ in_width 8 (lower_bits f).

Lemma update_inner_ok now e life dir flags : entry_ok e -> flags_ok flags ->
  entry_ok (snd (update_timeout_inner now e life dir flags)).
Proof.
  intros (H1 & H2 & H3) (_ & Hl).
  assert (W : in_width 8 (Z.land (lower_bits flags) REPORT_FLAGS)) by (apply land_width; [lia|done|done]).
  pose proof (wrap_range 32 (now + life) ltac:(lia)). unfold update_timeout_inner.
  destruct dir; simpl; case_match; simpl; (split; [|split]); simpl; try done; by apply lor_width.
Qed.

Lemma ct_update_timeout_ok now e tcp dir flags : entry_ok e -> flags_ok flags ->
  entry_ok (snd (ct_update_timeout now e tcp dir flags)).
Proof. intros He Hf. unfold ct_update_timeout. destruct tcp; by apply update_inner_ok. Qed.

Lemma close_entry_ok dir flags e : entry_ok e -> entry_ok (close_entry dir flags e).
Proof. intros H. unfold close_entry. case_match; [done|]. by destruct dir. Qed.

Definition l4_ok (pkt : l4_view) : Prop := from_option flags_ok True (loaded_flags pkt).

Lemma ct_lookup_entry_ok now pkt tuple dir m : ct_ok m -> l4_ok pkt -> ct_ok (snd (ct_lookup_entry now pkt tuple dir m)).
Proof.
  intros Hm Hp. unfold ct_lookup_entry. destruct (m !! tuple) as [e|] eqn:E; [|done].
  assert (He : entry_ok e) by exact (Hm _ _ E).
  destruct (if is_tcp pkt then loaded_flags pkt else Some (mkFlags 0 0)) as [f|] eqn:Ef; [|done].
  assert (Hf : flags_ok f).
  { unfold l4_ok in Hp. destruct (is_tcp pkt); [by rewrite Ef in Hp|]. injection Ef as <-. split; unfold in_width; simpl; lia. }
  set (e1 := if is_conn_alive e then _ else e).
  assert (H1 : entry_ok e1) by (subst e1; destruct (is_conn_alive e); [by apply ct_update_timeout_ok|done]). clearbody e1.
  destruct (get_tcp_conn_action f); simpl.
  - by apply map_Forall_insert_2.
  - destruct (is_conn_closing e1); simpl; apply map_Forall_insert_2; try done. apply ct_update_timeout_ok; [|done].
    destruct H1 as (_ & _ & ?). split; [|split]; simpl; unfold in_width in *; done || lia.
  - destruct (is_conn_alive _); simpl; [apply map_Forall_insert_2; [by apply close_entry_ok|done]|by apply map_Forall_delete].
Qed.

(** ** Reachable tables *)

(** What happens to the table: a new connection is recorded, a packet is
    looked up, the collector runs, the kernel makes room. *)
Inductive ct_step : ct_map -> ct_map -> Prop :=
| step_create now tuple dir m : ct_step m (ct_create_entry now tuple dir m)
| step_lookup now pkt tuple dir m : l4_ok pkt -> ct_step m (snd (ct_lookup_entry now pkt tuple dir m))
| step_gc now m : ct_step m (ConntrackGcTask now m)
| step_evict tuple m : ct_step m (delete tuple m).

Inductive ct_reachable : ct_map -> Prop :=
| reach_empty : ct_reachable ∅
| reach_step m m' : ct_reachable m -> ct_step m m' -> ct_reachable m'.

Definition ct_inv (m : ct_map) : Prop := ct_ok m /\ map_Forall (fun _ e => is_conn_alive e = true) m.

Lemma update_alive now e tcp dir flags : is_conn_alive (snd (ct_update_timeout now e tcp dir flags)) = is_conn_alive e.
Proof. unfold ct_update_timeout, update_timeout_inner. destruct tcp, dir; simpl; by case_match. Qed.

Lemma lookup_alive now pkt tuple dir m : map_Forall (fun _ e => is_conn_alive e = true) m ->
  map_Forall (fun _ e => is_conn_alive e = true) (snd (ct_lookup_entry now pkt tuple dir m)).
Proof.
  intros Hm. unfold ct_lookup_entry. destruct (m !! tuple) as [e|] eqn:E; [|done].
  pose proof (Hm _ _ E) as He. simpl in He. rewrite He.
  destruct (if is_tcp pkt then loaded_flags pkt else Some (mkFlags 0 0)) as [f|]; [|done].
  destruct (get_tcp_conn_action f); simpl.
  - apply map_Forall_insert_2; [by rewrite update_alive|done].
  - destruct (is_conn_closing _); simpl; apply map_Forall_insert_2; try done; by rewrite update_alive.
  - destruct (is_conn_alive (close_entry _ _ _)) eqn:Ec; simpl; [by apply map_Forall_insert_2|by apply map_Forall_delete].
Qed.

Lemma ct_step_inv m m' : ct_inv m -> ct_step m m' -> ct_inv m'.
Proof.
  intros [H1 H2] S. destruct S as [now tuple dir m|now pkt tuple dir m Hp|now m|tuple m].
  - unfold ct_create_entry. pose proof (ct_update_timeout_ok now ct_zero (ct_protocol tuple =? IPPROTO_TCP) dir
      (of_value (Z.lor 0 (if ct_protocol tuple =? IPPROTO_TCP then TCP_FLAG_SYN else 0)))) as K.
    pose proof (update_alive now ct_zero (ct_protocol tuple =? IPPROTO_TCP) dir
      (of_value (Z.lor 0 (if ct_protocol tuple =? IPPROTO_TCP then TCP_FLAG_SYN else 0)))) as A.
    destruct (ct_update_timeout _ _ _ _ _) as [u e]. simpl in K, A. split; apply map_Forall_insert_2; try done.
    apply K; [split; [|split]; unfold in_width; simpl; lia|].
    destruct (ct_protocol tuple =? IPPROTO_TCP); split; unfold in_width; vm_compute; split; congruence.
  - split; [by apply ct_lookup_entry_ok|by apply lookup_alive].
  - split; apply map_Forall_lookup_2; intros k e E; apply map_lookup_filter_Some in E as [E _]; [by apply H1 in E|by apply H2 in E].
  - split; by apply map_Forall_delete.
Qed.

Lemma ct_reachable_spec m : ct_reachable m -> ct_inv m.
Proof. induction 1 as [|m m' _ IH S]; [by split|]. by apply (ct_step_inv m). Qed.

(** In every reachable table no entry has both closing flags set, and the
    recorded flags and lifetimes stay within their machine widths. *)
Theorem ct_reachable_alive m tuple e : ct_reachable m -> m !! tuple = Some e ->
  is_conn_alive e = true /\ in_width 8 (tx_seen_flag e) /\ in_width 8 (rx_seen_flag e) /\ in_width 32 (lifetime e).
Proof. intros H E. destruct (ct_reachable_spec m H) as [K A]. split; [by apply A in E|by apply K in E]. Qed.

Definition demo_tuple : ct_tuple := (100, AF_INET, IPPROTO_TCP, inl (1, 2), 80, 1000).

Lemma ct_reachable_alive_witness :
  is_conn_alive (default ct_zero (ct_create_entry 7 demo_tuple CT_EGRESS ∅ !! demo_tuple)) = true.
Proof.
  destruct (ct_create_entry 7 demo_tuple CT_EGRESS ∅ !! demo_tuple) as [e|] eqn:E; [|vm_compute in E; discriminate E].
  apply (ct_reachable_alive _ demo_tuple e) in E; [apply E|].
  apply (reach_step ∅); [apply reach_empty|apply step_create].
Defined.

(** ** Resets *)

Lemma both_syns_never e : entry_ok e -> is_seen_both_syns e = false.
Proof.
  intros (Ht & Hr & _). unfold is_seen_both_syns.
  assert (E : Z.land (rx_seen_flag e) TCP_FLAG_SYN = 0); [|by rewrite E].
  assert (C : all_below 256 (fun x => Z.land x TCP_FLAG_SYN =? 0) = true) by (vm_compute; reflexivity).
  apply Z.eqb_eq, (byte_check _ C _ Hr).
Qed.

(** The test for "a SYN was seen in both directions" never succeeds: the
    recorded flags are one byte and the mask selects a bit above it. So a
    reset in one direction removes the connection from the table at once,
    also when it was fully established. *)
Theorem ct_reset_deletes now pkt flags tuple dir m : ct_reachable m -> is_Some (m !! tuple) ->
  is_tcp pkt = true -> loaded_flags pkt = Some flags -> flags_ok flags -> Z.land (value flags) TCP_FLAG_RST <> 0 ->
  ct_lookup_entry now pkt tuple dir m = (CT_ESTABLISHED, delete tuple m).
Proof.
  intros Hm [e E] Ht Hl Hf Hr. destruct (ct_reachable_spec m Hm) as [K A].
  pose proof (A _ _ E) as Ae. pose proof (K _ _ E) as Ke. simpl in Ae, Ke.
  unfold ct_lookup_entry. rewrite E, Ht, Hl, Ae.
  assert (Ec : get_tcp_conn_action flags = CT_ACTION_CLOSE).
  { unfold get_tcp_conn_action. destruct (nz _) eqn:N; [done|]. unfold nz in N. apply negb_false_iff, Z.eqb_eq in N.
    rewrite Z.land_lor_distr_r in N. apply Z.lor_eq_0_iff in N as [N _]. done. }
  rewrite Ec. unfold close_entry. rewrite both_syns_never by (by apply ct_update_timeout_ok).
  assert (Nr : nz (Z.land (value flags) TCP_FLAG_RST) = true) by (unfold nz; by apply negb_true_iff, Z.eqb_neq).
  by rewrite Nr.
Qed.

Lemma ct_reset_deletes_witness :
  ct_lookup_entry 9 (mkL4 true (Some (mkFlags 80 4))) demo_tuple CT_INGRESS (ct_create_entry 7 demo_tuple CT_EGRESS ∅)
  = (CT_ESTABLISHED, delete demo_tuple (ct_create_entry 7 demo_tuple CT_EGRESS ∅)).
Proof.
  apply (ct_reset_deletes 9 (mkL4 true (Some (mkFlags 80 4))) (mkFlags 80 4)).
  - apply (reach_step ∅); [apply reach_empty|apply step_create].
  - by eexists.
  - done.
  - done.
  - split; unfold in_width; simpl; lia.
  - done.
Defined.

(** ** Lifetimes *)

Lemma update_lifetime now e tcp dir flags : in_width 32 (now + TCP_CONN_TIMEOUT_SEC) -> 0 <= now ->
  now + 60 <= lifetime (snd (ct_update_timeout now e tcp dir flags)).
Proof.
  unfold in_width, ct_update_timeout, update_timeout_inner, TCP_CONN_TIMEOUT_SEC, TCP_SYN_TIMEOUT_SEC, NONTCP_CONN_TIMEOUT_SEC.
  intros H Hn. assert (W : forall x, 60 <= x <= 21600 -> now + 60 <= u32 (now + x)).
  { intros x Hx. rewrite wrap_small by (unfold in_width; lia). lia. }
  destruct tcp, dir; simpl; repeat case_match; simpl; apply W; lia.
Qed.

(** A connection stays in the table for at least a minute after each of
    its packets that does not close it: a packet that finds its entry at time
    [t] leaves an entry the collector keeps until [t + 60], and other
    connections are not touched. *)
Theorem ct_refresh_survives now later pkt flags tuple dir m : ct_reachable m -> is_Some (m !! tuple) ->
  (if is_tcp pkt then loaded_flags pkt = Some flags /\ flags_ok flags else flags = mkFlags 0 0) ->
  get_tcp_conn_action flags <> CT_ACTION_CLOSE ->
  in_width 32 (now + TCP_CONN_TIMEOUT_SEC) -> 0 <= now -> later <= now + 60 ->
  let m' := snd (ct_lookup_entry now pkt tuple dir m) in
  is_Some (ConntrackGcTask later m' !! tuple) /\
  forall other, other <> tuple -> m' !! other = m !! other.
Proof.
  intros Hm [e E] Hp Ha Hw Hn Hl. destruct (ct_reachable_spec m Hm) as [_ A]. pose proof (A _ _ E) as Ae. simpl in Ae.
  unfold ct_lookup_entry. rewrite E.
  assert (Ef : (if is_tcp pkt then loaded_flags pkt else Some (mkFlags 0 0)) = Some flags)
    by (destruct (is_tcp pkt); [apply Hp|by rewrite Hp]).
  rewrite Ef, Ae. assert (G : forall e', now + 60 <= lifetime e' -> is_Some (ConntrackGcTask later (<[tuple := e']> m) !! tuple)).
  { intros e' He'. exists e'. apply map_lookup_filter_Some. split; [apply lookup_insert_eq|].
    simpl. apply negb_true_iff, Z.ltb_ge. lia. }
  destruct (get_tcp_conn_action flags); [|destruct (is_conn_closing _)|done]; simpl;
    (split; [apply G; by apply update_lifetime|intros other No; by rewrite lookup_insert_ne]).
Qed.

Lemma ct_refresh_survives_witness :
  is_Some (ConntrackGcTask 69 (snd (ct_lookup_entry 9 (mkL4 true (Some (mkFlags 80 16))) demo_tuple CT_INGRESS
    (ct_create_entry 7 demo_tuple CT_EGRESS ∅))) !! demo_tuple).
Proof.
  apply (ct_refresh_survives 9 69 (mkL4 true (Some (mkFlags 80 16))) (mkFlags 80 16)).
  - apply (reach_step ∅); [apply reach_empty|apply step_create].
  - by eexists.
  - simpl. split; [done|]. split; unfold in_width; simpl; lia.
  - done.
  - unfold in_width, TCP_CONN_TIMEOUT_SEC. lia.
  - lia.
  - lia.
Defined.

End Conntrack.
