(* ===== verification/FirewallMatch.v ===== *)
(** * The packet filter in the kernel
    (services/netmanagernative/bpf/include/netfirewall: netfirewall_utils.h,
    netfirewall_bitmap.h, netfirewall_match.h, netfirewall.h)

    A packet is reduced to a match tuple; each field is looked up in the table
    of its direction, the bitmaps found are intersected, and the surviving
    rules together with the default action decide the packet. Packets are
    byte lists, so the header offsets of the source are part of the model. *)

From S2P Require Import Prelude Prefix Bitmap PortMap Ip4Rules Ip6Rules BitmapManager Conntrack.

Module FirewallMatch.

Definition AF_INET : Z := 2.
Definition AF_INET6 : Z := 10.
Definition IPPROTO_TCP : Z := 6.
Definition IPPROTO_UDP : Z := 17.
Definition USER_ID_DIVIDOR : Z := 200000.
Definition DEFAULT_USER_ID : Z := 100.
Definition PROTOCOL_SAT_EXPAK : Z := 64.

Inductive sk_action := SK_DROP | SK_PASS.
#[global] Instance sk_action_dec : EqDecision sk_action.
Proof. solve_decision. Defined.
Inductive stream_dir := INGRESS | EGRESS.
#[global] Instance stream_dir_dec : EqDecision stream_dir.
Proof. solve_decision. Defined.

(** ** Packets *)

Record sk_buff := mkSkb {
  skb_family : Z; skb_data : list Z; skb_socket_uid : Z; skb_ifindex : Z;
  skb_dev_name : option string (** [None]: [bpf_skb_get_dev_name] fails *) }.

(** [bpf_skb_load_bytes] into a zeroed buffer: all or nothing. *)
Definition load_bytes (skb : sk_buff) (off len : nat) : list Z :=
  if (off + len <=? length (skb_data skb))%nat then take len (drop off (skb_data skb)) else replicate len 0.

Definition byte_of (l : list Z) (i : nat) : Z := nth i l 0.
Definition be (l : list Z) : Z := Ip6Rules.val l.
Definition slice (l : list Z) (i n : nat) : list Z := take n (drop i l).

Definition VERSION_OFFSET : Z := 4.
Definition VERSION_IPV4 : Z := 4.
Definition IPHDR_SIZE : nat := 20.
Definition IPV6HDR_SIZE : nat := 40.
Definition TCPHDR_SIZE : nat := 20.
Definition UDPHDR_SIZE : nat := 8.

Definition is_ipv4_format_skb (skb : sk_buff) : bool :=
  if skb_family skb =? AF_INET then true
  else if skb_family skb =? AF_INET6
  then Z.shiftr (byte_of (load_bytes skb 0 1) 0) VERSION_OFFSET =? VERSION_IPV4
  else false.

Definition get_l3_nhoff (skb : sk_buff) : nat := 0.
Definition get_l4_nhoff (skb : sk_buff) : nat :=
  (get_l3_nhoff skb + if is_ipv4_format_skb skb then IPHDR_SIZE else IPV6HDR_SIZE)%nat.

(** Field offsets of [struct iphdr] (protocol 9, saddr 12, daddr 16) and
    [struct ipv6hdr] (nexthdr 6, saddr 8, daddr 24). *)
Definition load_l4_protocol (skb : sk_buff) (l3_nhoff : nat) : option Z :=
  if is_ipv4_format_skb skb then Some (byte_of (load_bytes skb l3_nhoff IPHDR_SIZE) 9)
  else if skb_family skb =? AF_INET6 then Some (byte_of (load_bytes skb l3_nhoff IPV6HDR_SIZE) 6)
  else None.

Definition is_l4_protocol (skb : sk_buff) (l3_nhoff : nat) (protocol : Z) : bool :=
  match load_l4_protocol skb l3_nhoff with Some p => p =? protocol | None => false end.

(** Addresses in network order, read as big-endian numbers. *)
Definition load_l3_v4_addrs (skb : sk_buff) (l3_nhoff : nat) : option (Z * Z) :=
  if negb (skb_family skb =? AF_INET) then None
  else let iph := load_bytes skb l3_nhoff IPHDR_SIZE in Some (be (slice iph 12 4), be (slice iph 16 4)).

Definition load_l3_v6_addrs (skb : sk_buff) (l3_nhoff : nat) : option (list Z * list Z) :=
  if negb (skb_family skb =? AF_INET6) then None
  else let ip6h := load_bytes skb l3_nhoff IPV6HDR_SIZE in Some (slice ip6h 8 16, slice ip6h 24 16).

Definition load_l4_ports (skb : sk_buff) (l4_nhoff : nat) (protocol : Z) : option (Z * Z) :=
  if protocol =? IPPROTO_TCP then
    let tcph := load_bytes skb l4_nhoff TCPHDR_SIZE in Some (be (slice tcph 0 2), be (slice tcph 2 2))
  else if protocol =? IPPROTO_UDP then
    let udph := load_bytes skb l4_nhoff UDPHDR_SIZE in Some (be (slice udph 0 2), be (slice udph 2 2))
  else None.

(** The RST bit of byte 13 of the TCP header. *)
Definition load_l4_header_flags (skb : sk_buff) (l4_nhoff : nat) : Z :=
  Z.b2z (Z.testbit (byte_of (load_bytes skb l4_nhoff TCPHDR_SIZE) 13) 2).

Definition TCP_FLAGS_OFFSET : nat := 12.
Definition TCP_FLAGS_SIZE : nat := 2.
Definition load_tcp_flags (skb : sk_buff) (l4_nhoff : nat) : option Conntrack.tcp_flags :=
  if (l4_nhoff + TCP_FLAGS_OFFSET + TCP_FLAGS_SIZE <=? length (skb_data skb))%nat then
    let b := load_bytes skb (l4_nhoff + TCP_FLAGS_OFFSET) TCP_FLAGS_SIZE in
    Some (Conntrack.mkFlags (byte_of b 0) (byte_of b 1))
  else None.

(** ** The match tuple

    IPv4 addresses and ports are kept as the numbers their network-order bytes
    spell, the order in which the tries compare them. *)

Record match_tuple := mkTuple {
  mt_dir : stream_dir; mt_family : Z; mt_protocol : Z;
  ipv4_saddr : Z; ipv4_daddr : Z; ipv6_saddr : list Z; ipv6_daddr : list Z;
  mt_sport : Z; mt_dport : Z; mt_appuid : Z; mt_uid : Z; mt_rst : Z; mt_ifindex : Z }.

(** ** Kernel tables *)

Record kernel := mkKernel {
  k_in : BitmapManager.t; k_out : BitmapManager.t;
  k_default : gmap Z (sk_action * sk_action);
  k_current_uid : option Z;
  k_domain4 : list (Z * Z * (Z * Z)); k_domain6 : list (Z * Z * (Z * Z));
  k_loop4 : list (Z * Z * Z); k_loop6 : list (Z * Z * Z);
  k_ct : Conntrack.ct_map }.

(** [GET_MAP(ingress, ...)]. *)
Definition tables (k : kernel) (t : match_tuple) : BitmapManager.t :=
  if bool_decide (mt_dir t = INGRESS) then k_in k else k_out k.

Definition get_user_id (k : kernel) (sock_uid : Z) : Z :=
  let user_id := sock_uid / USER_ID_DIVIDOR in
  if 0 <? user_id then user_id else default DEFAULT_USER_ID (k_current_uid k).

Definition swap_tuple_ports (t : match_tuple) : match_tuple :=
  mkTuple (mt_dir t) (mt_family t) (mt_protocol t) (ipv4_saddr t) (ipv4_daddr t) (ipv6_saddr t) (ipv6_daddr t)
    (mt_dport t) (mt_sport t) (mt_appuid t) (mt_uid t) (mt_rst t) (mt_ifindex t).

Definition swap_tuple_addrs (t : match_tuple) : match_tuple :=
  if mt_family t =? AF_INET then
    mkTuple (mt_dir t) (mt_family t) (mt_protocol t) (ipv4_daddr t) (ipv4_saddr t) (ipv6_saddr t) (ipv6_daddr t)
      (mt_sport t) (mt_dport t) (mt_appuid t) (mt_uid t) (mt_rst t) (mt_ifindex t)
  else
    mkTuple (mt_dir t) (mt_family t) (mt_protocol t) (ipv4_saddr t) (ipv4_daddr t) (ipv6_daddr t) (ipv6_saddr t)
      (mt_sport t) (mt_dport t) (mt_appuid t) (mt_uid t) (mt_rst t) (mt_ifindex t).

Definition zero6 : list Z := replicate 16 0.

Definition get_match_tuple (k : kernel) (skb : sk_buff) (dir : stream_dir) : option match_tuple :=
  let l3_nhoff := get_l3_nhoff skb in
  let l4_nhoff := get_l4_nhoff skb in
  let '(s4, d4) := if is_ipv4_format_skb skb then default (0, 0) (load_l3_v4_addrs skb l3_nhoff) else (0, 0) in
  let '(s6, d6) := if is_ipv4_format_skb skb then (zero6, zero6)
                   else default (zero6, zero6) (load_l3_v6_addrs skb l3_nhoff) in
  match load_l4_protocol skb l3_nhoff with
  | None => None
  | Some protocol =>
      let sock_uid := skb_socket_uid skb in
      let '(sport, dport, rst) :=
        if (protocol =? IPPROTO_TCP) || (protocol =? IPPROTO_UDP) then
          let '(sport, dport) := default (0, 0) (load_l4_ports skb l4_nhoff protocol) in
          (sport, dport, if protocol =? IPPROTO_TCP then load_l4_header_flags skb l4_nhoff else 0)
        else (0, 0, 0) in
      let tuple := mkTuple dir (skb_family skb) protocol s4 d4 s6 d6 sport dport sock_uid (get_user_id k sock_uid)
                     rst (skb_ifindex skb) in
      Some (if bool_decide (dir = EGRESS) then swap_tuple_ports (swap_tuple_addrs tuple) else tuple)
  end.

(** ** Bitmaps *)

Definition bitmap_and (bitmap val : Bitmap.t) : Bitmap.t := zip_with Z.land bitmap val.
Definition bitmap_and_inv (bitmap val : Bitmap.t) : Bitmap.t :=
  zip_with (fun a b => Z.land a (u32 (Z.lnot b))) bitmap val.
Definition bitmap_positive (bitmap : Bitmap.t) : bool := existsb (fun w => 0 <? w) bitmap.

(** [if (result) { bitmap_and(key->val, result->val); }]. *)
Definition and_result (key : Bitmap.t) (result : option Bitmap.t) : Bitmap.t :=
  match result with Some result => bitmap_and key result | None => key end.

(** ** Looking the fields up *)

(** IPv6 addresses are compared byte by byte, i.e. by value. *)
Definition ip6_lpm (v : list Ip6Rules.Ip6RuleBitmap) (p : list Z) : option Bitmap.t :=
  Prefix.lpm 128 ((fun e => (Ip6Rules.val (Ip6Rules.i6_data e), Ip6Rules.i6_prefixlen e, Ip6Rules.i6_bitmap e)) <$> v)
    (Ip6Rules.val p).

Definition match_loopback (k : kernel) (t : match_tuple) : bool :=
  if (mt_protocol t =? PROTOCOL_SAT_EXPAK) && (mt_ifindex t =? 1) then true
  else
    let result :=
      if mt_family t =? AF_INET then
        match Prefix.lpm 32 (k_loop4 k) (ipv4_saddr t) with
        | Some _ => Prefix.lpm 32 (k_loop4 k) (ipv4_daddr t)
        | None => None
        end
      else
        match Prefix.lpm 128 (k_loop6 k) (Ip6Rules.val (ipv6_saddr t)) with
        | Some _ => Prefix.lpm 128 (k_loop6 k) (Ip6Rules.val (ipv6_daddr t))
        | None => None
        end in
    match result with Some _ => true | None => false end.

Definition match_addrs (m : BitmapManager.t) (t : match_tuple) (key : Bitmap.t) : Bitmap.t :=
  if mt_family t =? AF_INET then
    let key := and_result key (BitmapManager.lookup_map (Ip4Rules.ip4_lpm (BitmapManager.srcIp4Map_ m))
                 (ipv4_saddr t) BitmapManager.OTHER_IP4_KEY) in
    and_result key (BitmapManager.lookup_map (Ip4Rules.ip4_lpm (BitmapManager.dstIp4Map_ m))
      (ipv4_daddr t) BitmapManager.OTHER_IP4_KEY)
  else
    let other := replicate 16 0xff in
    let key := and_result key (BitmapManager.lookup_map (ip6_lpm (BitmapManager.srcIp6Map_ m)) (ipv6_saddr t) other) in
    and_result key (BitmapManager.lookup_map (ip6_lpm (BitmapManager.dstIp6Map_ m)) (ipv6_daddr t) other).

Definition match_ports (m : BitmapManager.t) (t : match_tuple) (key : Bitmap.t) : Bitmap.t :=
  let other := ntohs BitmapManager.OTHER_PORT_KEY in
  let key := and_result key (BitmapManager.lookup_map (PortMap.port_lpm (BitmapManager.srcPortMap_ m)) (mt_sport t) other) in
  and_result key (BitmapManager.lookup_map (PortMap.port_lpm (BitmapManager.dstPortMap_ m)) (mt_dport t) other).

Definition match_protocol (m : BitmapManager.t) (t : match_tuple) (key : Bitmap.t) : Bitmap.t :=
  and_result key (BitmapManager.lookup_map (fun k => BitmapManager.protoMap_ m !! k) (mt_protocol t)
    BitmapManager.OTHER_PROTO_KEY).
Definition match_appuid (m : BitmapManager.t) (t : match_tuple) (key : Bitmap.t) : Bitmap.t :=
  and_result key (BitmapManager.lookup_map (fun k => BitmapManager.appUidMap_ m !! k) (mt_appuid t)
    BitmapManager.OTHER_APPUID_KEY).
Definition match_uid (m : BitmapManager.t) (t : match_tuple) (key : Bitmap.t) : Bitmap.t :=
  and_result key (BitmapManager.lookup_map (fun k => BitmapManager.uidMap_ m !! k) (mt_uid t)
    BitmapManager.OTHER_UID_KEY).

Definition match_interface (m : BitmapManager.t) (skb : sk_buff) (key : Bitmap.t) : option Bitmap.t :=
  match skb_dev_name skb with
  | None => None
  | Some name => Some (and_result key (BitmapManager.lookup_map (fun k => BitmapManager.interfaceMap_ m !! k) name EmptyString))
  end.

(** [memset(key, 0xff, sizeof(struct bitmap))]. *)
Definition all_ones : Bitmap.t := replicate Bitmap.BITMAP_LEN 0xffffffff.

Definition match_action_key (m : BitmapManager.t) (skb : sk_buff) (t : match_tuple) : option Bitmap.t :=
  let key := all_ones in
  let key := match_addrs m t key in
  let key := match_protocol m t key in
  let key := match_ports m t key in
  let key := match_appuid m t key in
  let key := match_uid m t key in
  match_interface m skb key.

Definition MatchDomain (k : kernel) (t : match_tuple) : bool :=
  let result := if mt_family t =? AF_INET then Prefix.lpm 32 (k_domain4 k) (ipv4_saddr t)
                else Prefix.lpm 128 (k_domain6 k) (Ip6Rules.val (ipv6_saddr t)) in
  match result with
  | Some (appuid, uid) => (mt_uid t =? uid) && ((mt_appuid t =? appuid) || (appuid =? 0))
  | None => false
  end.

Definition match_action (k : kernel) (t : match_tuple) (key : Bitmap.t) : sk_action :=
  let sk_act := match k_default k !! mt_uid t with
                | Some (inaction, outaction) => if bool_decide (mt_dir t = INGRESS) then inaction else outaction
                | None => SK_PASS
                end in
  match BitmapManager.actionMap_ (tables k t) !! 1 with
  | Some action_bitmap =>
      if bitmap_positive key then
        if bool_decide (sk_act = SK_DROP) then
          let key := bitmap_and key action_bitmap in
          if negb (bitmap_positive key) || MatchDomain k t then SK_PASS else sk_act
        else
          let key := bitmap_and_inv key action_bitmap in
          if negb (bitmap_positive key) && negb (MatchDomain k t) then SK_DROP else sk_act
      else if MatchDomain k t then SK_PASS else sk_act
  | None => if MatchDomain k t then SK_PASS else sk_act
  end.

(** ** The two hooks

    The verdict of the DNS scan ([match_dns_query], netfirewall_domain.h) and
    the clock are inputs; logging and sending resets have no effect on the
    tables. *)

Definition get_packet_rst_flag (t : match_tuple) : bool := mt_rst t =? 1.

Definition get_ct_tuple (t : match_tuple) : Conntrack.ct_tuple :=
  (mt_uid t, mt_family t, mt_protocol t,
   if mt_family t =? AF_INET then inl (ipv4_saddr t, ipv4_daddr t) else inr (ipv6_saddr t, ipv6_daddr t),
   mt_sport t, mt_dport t).

Definition l4_of (skb : sk_buff) : Conntrack.l4_view :=
  Conntrack.mkL4 (is_l4_protocol skb (get_l3_nhoff skb) IPPROTO_TCP) (load_tcp_flags skb (get_l4_nhoff skb)).

Definition set_ct (ct : Conntrack.ct_map) (k : kernel) : kernel :=
  mkKernel (k_in k) (k_out k) (k_default k) (k_current_uid k) (k_domain4 k) (k_domain6 k) (k_loop4 k) (k_loop6 k) ct.

Definition netfirewall_policy_ingress (dns : sk_action) (now : Z) (skb : sk_buff) (k : kernel) : sk_action * kernel :=
  if bool_decide (dns = SK_DROP) then (SK_DROP, k)
  else match get_match_tuple k skb INGRESS with
  | None => (SK_PASS, k)
  | Some tuple =>
      let '(status, ct_tpl, ct) :=
        Conntrack.ct_map_lookup_entry now (l4_of skb) (get_ct_tuple tuple) Conntrack.CT_INGRESS (match_loopback k tuple) (k_ct k) in
      let k := set_ct ct k in
      if negb (bool_decide (status = Conntrack.CT_NEW)) then (SK_PASS, k)
      else if get_packet_rst_flag tuple then (SK_PASS, k)
      else match match_action_key (tables k tuple) skb tuple with
      | None => (SK_PASS, k)
      | Some key =>
          if negb (bool_decide (match_action k tuple key = SK_PASS)) then (SK_DROP, k)
          else (SK_PASS, set_ct (Conntrack.ct_create_entry now ct_tpl Conntrack.CT_INGRESS (k_ct k)) k)
      end
  end.

Definition FIREWALL_DNS_QUERY_PORT : Z := 53.
Definition FIREWALL_DNS_OVER_QUERY_PORT : Z := 853.

Definition MatchDnsQuery (k : kernel) (t : match_tuple) : bool :=
  let port := mt_sport t in
  if (port =? FIREWALL_DNS_QUERY_PORT) || (port =? FIREWALL_DNS_OVER_QUERY_PORT) then
    match k_default k !! mt_uid t with
    | Some (_, outaction) => negb (bool_decide (outaction = SK_PASS))
    | None => false
    end
  else false.

Definition netfirewall_policy_egress (dns : sk_action) (now : Z) (skb : sk_buff) (k : kernel) : sk_action * kernel :=
  if bool_decide (dns = SK_DROP) then (SK_DROP, k)
  else match get_match_tuple k skb EGRESS with
  | None => (SK_PASS, k)
  | Some tuple =>
      if get_packet_rst_flag tuple then (SK_PASS, k)
      else
      let '(status, ct_tpl, ct) :=
        Conntrack.ct_map_lookup_entry now (l4_of skb) (get_ct_tuple tuple) Conntrack.CT_EGRESS (match_loopback k tuple) (k_ct k) in
      let k := set_ct ct k in
      if negb (bool_decide (status = Conntrack.CT_NEW)) then (SK_PASS, k)
      else if get_packet_rst_flag tuple then (SK_PASS, k)
      else match match_action_key (tables k tuple) skb tuple with
      | None => (SK_PASS, k)
      | Some key =>
          if negb (MatchDnsQuery k tuple) && negb (bool_decide (match_action k tuple key = SK_PASS)) then (SK_DROP, k)
          else (SK_PASS, set_ct (Conntrack.ct_create_entry now ct_tpl Conntrack.CT_EGRESS (k_ct k)) k)
      end
  end.

(** ** Which rules a packet matches *)

Import BitmapManager.

(** An IPv4 packet on interface [name] fits every field the rule constrains. *)
Definition rule_matches4 (t : match_tuple) (name : string) (r : NetFirewallIpRule) : bool :=
  (remote4 r (ipv4_saddr t) || noRemoteIp r) && (local4 r (ipv4_daddr t) || noLocalIp r) &&
  (bool_decide (proto_key r = Some (mt_protocol t)) || noProto r) &&
  (remotePort r (mt_sport t) || noRemotePort r) && (localPort r (mt_dport t) || noLocalPort r) &&
  (bool_decide (appuid_key r = Some (mt_appuid t)) || noAppUid r) &&
  (bool_decide (uid_key r = Some (mt_uid t)) || noUid r) &&
  (bool_decide (iface_key r = Some name) || noIface r).

Lemma and_table {K} (lk : K -> option Bitmap.t) other cover rules k key :
  Bitmap.ok key -> table_ok lk other cover rules k ->
  let key' := and_result key (lookup_map lk k other) in
  Bitmap.ok key' /\ forall n, 0 <= n -> Bitmap.test key' n = Bitmap.test key n && at_rule rules (fun r => cover r k) n.
Proof.
  intros Hk (b & E & Hb & T). cbn zeta. rewrite E. split; [by apply Bitmap.And_ok|].
  intros n Hn. simpl. rewrite <- T by done. by apply Bitmap.test_And.
Qed.

Lemma at_rule_and rules P Q n : at_rule rules P n && at_rule rules Q n = at_rule rules (fun r => P r && Q r) n.
Proof. unfold at_rule. by destruct (rules !! _). Qed.

Lemma all_ones_ok : Bitmap.ok all_ones.
Proof. split; [done|]. apply Forall_replicate. unfold in_width. lia. Qed.

Lemma all_ones_check : forallb (fun k => Bitmap.test all_ones (Z.of_nat k)) (seq 0 2016) = true.
Proof. vm_compute. reflexivity. Qed.

Lemma test_all_ones n : 0 <= n < 2016 -> Bitmap.test all_ones n = true.
Proof.
  intros Hn. pose proof (proj1 (forallb_forall _ _) all_ones_check (Z.to_nat n)) as H. cbn beta in H.
  rewrite Z2Nat.id in H by lia.
  apply H, in_seq. lia.
Qed.

Lemma at_rule_bound rules P n : at_rule rules P n = true -> 0 <= n -> n < Z.of_nat (length rules).
Proof.
  unfold at_rule. destruct (rules !! Z.to_nat n) eqn:E; [|done]. intros _ Hn. apply lookup_lt_Some in E. lia.
Qed.

Lemma match_action_key_spec rules m skb t name : compiled rules m -> Z.of_nat (length rules) <= 2016 ->
  mt_family t = AF_INET -> in_width 16 (mt_sport t) -> in_width 16 (mt_dport t) -> skb_dev_name skb = Some name ->
  exists key, match_action_key m skb t = Some key /\ Bitmap.ok key /\
    forall n, 0 <= n -> Bitmap.test key n = at_rule rules (rule_matches4 t name) n.
Proof.
  intros [C1 C2 C3 C4 C5 C6 C7 C8 _] L Ef Hs Hd Hn. unfold match_action_key, match_addrs, match_interface. rewrite Ef, Hn.
  change (AF_INET =? AF_INET) with true. cbn iota zeta.
  change (ntohs OTHER_PORT_KEY) with 65535.
  destruct (and_table _ _ _ _ _ _ all_ones_ok (C1 (ipv4_saddr t))) as [K1 T1]. set (k1 := and_result all_ones _) in *.
  destruct (and_table _ _ _ _ _ _ K1 (C2 (ipv4_daddr t))) as [K2 T2]. set (k2 := and_result k1 _) in *.
  destruct (and_table _ _ _ _ _ _ K2 (C5 (mt_protocol t))) as [K3 T3].
  change (and_result k2 _) with (match_protocol m t k2) in K3, T3. set (k3 := match_protocol m t k2) in *.
  unfold match_ports. change (ntohs OTHER_PORT_KEY) with 65535.
  destruct (and_table _ _ _ _ _ _ K3 (C3 (mt_sport t) Hs)) as [K4 T4]. set (k4 := and_result k3 _) in *.
  destruct (and_table _ _ _ _ _ _ K4 (C4 (mt_dport t) Hd)) as [K5 T5]. cbn zeta. set (k5 := and_result k4 _) in *.
  destruct (and_table _ _ _ _ _ _ K5 (C6 (mt_appuid t))) as [K6 T6].
  change (and_result k5 _) with (match_appuid m t k5) in K6, T6. set (k6 := match_appuid m t k5) in *.
  destruct (and_table _ _ _ _ _ _ K6 (C7 (mt_uid t))) as [K7 T7].
  change (and_result k6 _) with (match_uid m t k6) in K7, T7. set (k7 := match_uid m t k6) in *.
  destruct (and_table _ _ _ _ _ _ K7 (C8 name)) as [K8 T8].
  eexists. split; [reflexivity|]. split; [exact K8|]. intros n Hn0.
  rewrite T8, T7, T6, T5, T4, T3, T2, T1 by done. rewrite <- !andb_assoc, !at_rule_and.
  destruct (at_rule rules (rule_matches4 t name) n) eqn:E.
  - rewrite test_all_ones by (apply at_rule_bound in E; lia). simpl. rewrite <- E. unfold at_rule, rule_matches4.
    destruct (rules !! Z.to_nat n); [|done]. by rewrite <- !andb_assoc.
  - apply andb_false_iff. right. rewrite <- E. unfold at_rule, rule_matches4.
    destruct (rules !! Z.to_nat n); [|done]. by rewrite <- !andb_assoc.
Qed.

(** ** The verdict *)

Lemma bitmap_positive_spec key : Bitmap.ok key ->
  bitmap_positive key = true <-> exists n, 0 <= n < 2016 /\ Bitmap.test key n = true.
Proof.
  intros [L W]. unfold bitmap_positive. rewrite existsb_exists. split.
  - intros (w & Hi & Hw). apply Z.ltb_lt in Hw. apply list_elem_of_In, list_elem_of_lookup in Hi as [i Hi].
    pose proof (lookup_lt_Some _ _ _ Hi) as Li. rewrite L in Li. unfold Bitmap.BITMAP_LEN in Li.
    pose proof (Forall_lookup_1 _ _ _ _ W Hi) as [_ Ww].
    assert (Hl : 0 <= Z.log2 w < 32) by (split; [apply Z.log2_nonneg|by apply Z.log2_lt_pow2]).
    exists (32 * Z.of_nat i + Z.log2 w). split; [lia|]. unfold Bitmap.test.
    replace ((32 * Z.of_nat i + Z.log2 w) / 32) with (Z.of_nat i) by (apply (Z.div_unique _ _ _ (Z.log2 w)); lia).
    replace ((32 * Z.of_nat i + Z.log2 w) mod 32) with (Z.log2 w) by (apply (Z.mod_unique _ _ (Z.of_nat i)); lia).
    rewrite Nat2Z.id, (nth_lookup_Some _ _ _ _ Hi). by apply Z.bit_log2.
  - intros (n & Hn & Ht). unfold Bitmap.test in Ht. set (i := Z.to_nat (n / 32)) in *.
    assert (Hi : (i < length key)%nat).
    { rewrite L. unfold Bitmap.BITMAP_LEN. assert (n / 32 < 63) by (apply Z.div_lt_upper_bound; lia).
      assert (0 <= n / 32) by (apply Z.div_pos; lia). lia. }
    exists (nth i key 0). split; [by apply nth_In|]. apply Z.ltb_lt.
    assert (Hw : in_width 32 (nth i key 0)) by (by apply (Forall_nth (in_width 32) 0 key)).
    destruct (decide (nth i key 0 = 0)) as [E|]; [by rewrite E, Z.testbit_0_l in Ht|]. unfold in_width in Hw. lia.
Qed.

Lemma and_inv_ok a b : Bitmap.ok a -> Bitmap.ok b -> Bitmap.ok (bitmap_and_inv a b).
Proof.
  intros [La Wa] [Lb Wb]. split; [unfold bitmap_and_inv; rewrite length_zip_with; lia|].
  apply Bitmap.Forall_zip_width; [|done..]. intros x y Hx Hy. apply land_width; [lia|done|]. apply wrap_range. lia.
Qed.

Lemma test_and_inv a b n : Bitmap.ok a -> Bitmap.ok b -> 0 <= n ->
  Bitmap.test (bitmap_and_inv a b) n = Bitmap.test a n && negb (Bitmap.test b n).
Proof.
  intros [La _] [Lb _] Hn. unfold Bitmap.test, bitmap_and_inv. rewrite Bitmap.nth_zip_with by (done || lia).
  pose proof (Z.mod_pos_bound n 32). rewrite Z.land_spec, testbit_wrap, bool_decide_eq_true_2, Z.lnot_spec by lia. done.
Qed.

Lemma some_rule rules P : (exists n, 0 <= n < 2016 /\ at_rule rules P n = true) <->
  existsb P rules = true /\ exists n, 0 <= n < 2016 /\ at_rule rules P n = true.
Proof.
  split; [|tauto]. intros (n & Hn & H). split; [|by exists n]. unfold at_rule in H.
  destruct (rules !! Z.to_nat n) as [r|] eqn:E; [|done]. apply existsb_exists. exists r. split; [|done].
  apply list_elem_of_In. by eapply list_elem_of_lookup_2.
Qed.

Lemma positive_rules rules P key : Bitmap.ok key -> Z.of_nat (length rules) <= 2016 ->
  (forall n, 0 <= n -> Bitmap.test key n = at_rule rules P n) -> bitmap_positive key = existsb P rules.
Proof.
  intros Hk L T. apply Bool.eq_iff_eq_true. rewrite bitmap_positive_spec by done. split.
  - intros (n & Hn & H). rewrite T in H by lia. apply (proj1 (some_rule rules P)). by exists n.
  - intros H. apply existsb_exists in H as (r & Hi & Hp). apply list_elem_of_In, list_elem_of_lookup in Hi as [i Hi].
    pose proof (lookup_lt_Some _ _ _ Hi). exists (Z.of_nat i). split; [lia|]. rewrite T by lia. unfold at_rule.
    by rewrite Nat2Z.id, Hi.
Qed.

(** The policy the comment of [match_action] describes, on rules. *)
Definition verdict (dflt : sk_action) (domain : bool) (matching : NetFirewallIpRule -> bool)
    (rules : list NetFirewallIpRule) : sk_action :=
  let denies r := negb (bool_decide (r_action r = RULE_ALLOW)) in
  if negb (existsb matching rules) then (if domain then SK_PASS else dflt)
  else if domain then SK_PASS
  else match dflt with
       | SK_DROP => if existsb (fun r => matching r && denies r) rules then SK_DROP else SK_PASS
       | SK_PASS => if existsb (fun r => matching r && negb (denies r)) rules then SK_PASS else SK_DROP
       end.

Definition default_of (k : kernel) (t : match_tuple) : sk_action :=
  match k_default k !! mt_uid t with
  | Some (inaction, outaction) => if bool_decide (mt_dir t = INGRESS) then inaction else outaction
  | None => SK_PASS
  end.

Lemma match_action_spec rules k t key matching : Z.of_nat (length rules) <= 2016 -> Bitmap.ok key ->
  compiled rules (tables k t) -> (forall n, 0 <= n -> Bitmap.test key n = at_rule rules matching n) ->
  match_action k t key = verdict (default_of k t) (MatchDomain k t) matching rules.
Proof.
  intros L Hk C T. destruct (co_action _ _ C) as (a & Ea & Ka & Ta).
  unfold match_action, verdict. rewrite Ea. fold (default_of k t).
  rewrite (positive_rules rules matching key) by done. destruct (existsb matching rules); simpl; [|done].
  rewrite (positive_rules rules (fun r => matching r && negb (bool_decide (r_action r = RULE_ALLOW))) (bitmap_and key a));
    [|by apply Bitmap.And_ok|done|].
  2: { intros n Hn. rewrite <- at_rule_and, <- T, <- Ta by done. by apply Bitmap.test_And. }
  rewrite (positive_rules rules (fun r => matching r && negb (negb (bool_decide (r_action r = RULE_ALLOW)))) (bitmap_and_inv key a));
    [|by apply and_inv_ok|done|].
  2: { intros n Hn. rewrite test_and_inv, T, Ta by done. unfold at_rule. by destruct (rules !! _). }
  destruct (default_of k t); simpl; destruct (MatchDomain k t); simpl; rewrite ?orb_true_r, ?orb_false_r, ?andb_false_r, ?andb_true_r; try done;
    by destruct (existsb _ rules).
Qed.

(** ** End to end: from the rule list to the packet *)

(** C1: The compiled firewall classifies IPv4 packets exactly as the rule list
    says: compiling succeeds, and the bitmap the kernel computes for a packet
    holds exactly the numbers of the rules that match it, for up to 2016
    well-formed rules that do not use the keys reserved for fallback entries. *)
Theorem firewall_classifies rules m0 :
  Forall rule_ok rules -> Forall rule_plain rules -> Z.of_nat (length rules) <= 2016 ->
  exists m, BuildBitmapMap (Some <$> rules) m0 = Some (BitmapManager.NETFIREWALL_SUCCESS, m) /\
    forall skb t name, mt_family t = AF_INET -> in_width 16 (mt_sport t) -> in_width 16 (mt_dport t) ->
      skb_dev_name skb = Some name ->
      exists key, match_action_key m skb t = Some key /\
        forall n, 0 <= n -> Bitmap.test key n = at_rule rules (rule_matches4 t name) n.
Proof.
  intros F P L. destruct (BuildBitmapMap_spec rules m0 F P L) as (m & E & C). exists m. split; [done|].
  intros skb t name Ef Hs Hd Hn. destruct (match_action_key_spec rules m skb t name) as (key & Ek & _ & T); try done.
  by exists key.
Qed.

Definition demo_rule : NetFirewallIpRule :=
  mkIpRule 100 0 RULE_IN RULE_DENY 6 []
    [mkIpParam FAMILY_IPV4 SINGLE_IP 24 (htonl 0xC0A80100) 0 [] []] [(80, 443)] [] EmptyString.

Lemma demo_rule_ok : rule_ok demo_rule /\ rule_plain demo_rule.
Proof.
  split; [split; [|split; [|split]]|by split_and!]; repeat constructor; simpl; unfold in_width; done || lia.
Qed.

Lemma firewall_classifies_witness :
  exists m, BuildBitmapMap [Some demo_rule] (mkManager [] [] [] [] [] [] ∅ ∅ ∅ ∅ ∅) = Some (0, m) /\
    exists key, match_action_key m (mkSkb AF_INET [] 0 2 (Some "wlan0"%string))
      (mkTuple INGRESS AF_INET 6 0xC0A80105 1 [] [] 5000 443 20010 100 0 2) = Some key /\ Bitmap.test key 0 = true.
Proof.
  destruct (firewall_classifies [demo_rule] (mkManager [] [] [] [] [] [] ∅ ∅ ∅ ∅ ∅)) as (m & E & H).
  - constructor; [apply demo_rule_ok|constructor].
  - constructor; [apply demo_rule_ok|constructor].
  - simpl. lia.
  - exists m. split; [exact E|].
    destruct (H (mkSkb AF_INET [] 0 2 (Some "wlan0"%string))
      (mkTuple INGRESS AF_INET 6 0xC0A80105 1 [] [] 5000 443 20010 100 0 2) "wlan0"%string) as (key & Ek & T);
      [done|unfold in_width; simpl; lia|unfold in_width; simpl; lia|done|].
    exists key. split; [exact Ek|]. rewrite (T 0) by lia. vm_compute. reflexivity.
Defined.

Lemma load_bytes_width skb off len : Forall (in_width 8) (skb_data skb) -> Forall (in_width 8) (load_bytes skb off len).
Proof.
  intros W. unfold load_bytes. case_match; [by apply Forall_take, Forall_drop|]. apply Forall_replicate. unfold in_width; lia.
Qed.

Lemma be2_width l i : Forall (in_width 8) l -> in_width 16 (be (slice l i 2)).
Proof.
  intros W. unfold be, slice. pose proof (Ip6Rules.val_width (take 2 (drop i l)) (Forall_take _ _ _ (Forall_drop _ _ _ W))) as V.
  destruct V as [V0 V1]. split; [done|]. eapply Z.lt_le_trans; [exact V1|]. apply Z.pow_le_mono_r; [lia|].
  rewrite length_take. lia.
Qed.

Lemma get_match_tuple_ports k skb dir t : Forall (in_width 8) (skb_data skb) -> get_match_tuple k skb dir = Some t ->
  in_width 16 (mt_sport t) /\ in_width 16 (mt_dport t).
Proof.
  intros W. unfold get_match_tuple. destruct (if is_ipv4_format_skb skb then _ else _) as [s4 d4].
  destruct (if is_ipv4_format_skb skb then (zero6, zero6) else _) as [s6 d6].
  destruct (load_l4_protocol _ _) as [p|]; [|done].
  assert (Z0 : in_width 16 0) by (unfold in_width; lia).
  assert (P : in_width 16 (fst (default (0, 0) (load_l4_ports skb (get_l4_nhoff skb) p))) /\
              in_width 16 (snd (default (0, 0) (load_l4_ports skb (get_l4_nhoff skb) p)))).
  { unfold load_l4_ports. destruct (p =? IPPROTO_TCP); [|destruct (p =? IPPROTO_UDP)]; simpl; try done;
      split; apply be2_width, load_bytes_width; done. }
  destruct (default (0, 0) (load_l4_ports skb (get_l4_nhoff skb) p)) as [sp dp]. simpl in P. destruct P as [P1 P2].
  destruct ((p =? IPPROTO_TCP) || (p =? IPPROTO_UDP)); intros [= <-];
    (destruct (bool_decide (dir = EGRESS)); [unfold swap_tuple_addrs; case_match|]); done.
Qed.

(** The packet starts a connection the table does not know, and is not a reset. *)
Definition new_connection (now : Z) (skb : sk_buff) (dir : Conntrack.ct_dir) (k : kernel) (t : match_tuple) : Prop :=
  fst (fst (Conntrack.ct_map_lookup_entry now (l4_of skb) (get_ct_tuple t) dir (match_loopback k t) (k_ct k))) = Conntrack.CT_NEW
  /\ mt_rst t <> 1.

(** C6: The inbound hook decides a packet of an IPv4 socket (family AF_INET)
    that starts a connection by the rules compiled for inbound traffic (up to
    2016 of them) and the user's default action, and a packet it lets through
    is recorded, so that the rest of its connection bypasses the rules.  The
    packet is one that the DNS filter passes, that is no reset, and whose
    interface has a name.  Packets of IPv6 sockets are not covered: the IPv6
    address tables are not exact, and IPv4 packets of dual-stack sockets reach
    the rules without their addresses ([dual_stack_addresses_lost]). *)
Theorem ingress_verdict rules now skb k t name : Z.of_nat (length rules) <= 2016 -> compiled rules (k_in k) ->
  Forall (in_width 8) (skb_data skb) -> skb_dev_name skb = Some name -> skb_family skb = AF_INET ->
  get_match_tuple k skb INGRESS = Some t -> new_connection now skb Conntrack.CT_INGRESS k t ->
  let '(act, k') := netfirewall_policy_ingress SK_PASS now skb k in
  act = verdict (default_of k t) (MatchDomain k t) (rule_matches4 t name) rules /\
  (act = SK_PASS -> match_loopback k t = false -> is_Some (k_ct k' !! get_ct_tuple t)).
Proof.
  intros L C W Hn Hf Et [Hnew Hr]. destruct (get_match_tuple_ports _ _ _ _ W Et) as [Hs Hd].
  assert (Ef : mt_family t = AF_INET /\ mt_dir t = INGRESS).
  { revert Et. unfold get_match_tuple. destruct (if is_ipv4_format_skb skb then _ else _).
    destruct (if is_ipv4_format_skb skb then (zero6, zero6) else _). destruct (load_l4_protocol _ _); [|done].
    destruct (if (_ || _) : bool then _ else _) as [[? ?] ?]. intros [= <-]. done. }
  destruct Ef as [Ef Ed]. unfold netfirewall_policy_ingress. rewrite Et. simpl.
  destruct (Conntrack.ct_map_lookup_entry _ _ _ _ _ _) as [[status ct_tpl] ct] eqn:Ect. simpl in Hnew. subst status. simpl.
  unfold get_packet_rst_flag. rewrite (proj2 (Z.eqb_neq _ _) Hr).
  assert (Etab : tables (set_ct ct k) t = k_in k) by (unfold tables; by rewrite Ed).
  rewrite Etab. destruct (match_action_key_spec rules (k_in k) skb t name) as (key & -> & Kk & Tk); try done.
  rewrite (match_action_spec rules (set_ct ct k) t key (rule_matches4 t name)); try done; [|by rewrite Etab].
  change (default_of (set_ct ct k) t) with (default_of k t). change (MatchDomain (set_ct ct k) t) with (MatchDomain k t).
  destruct (verdict _ _ _ _) eqn:Ev; simpl; (split; [done|]); [done|]. intros _ Hlo.
  unfold Conntrack.ct_map_lookup_entry in Ect. rewrite Hlo in Ect.
  destruct (Conntrack.ct_lookup_entry _ _ _ _ _) as [st ct']. rewrite andb_false_r in Ect. injection Ect as _ E2 E3. subst ct_tpl ct'.
  unfold Conntrack.ct_create_entry. destruct (Conntrack.ct_update_timeout _ _ _ _ _) as [u e]. rewrite lookup_insert_eq. by eexists.
Qed.

(** A TCP packet 192.168.1.5:5000 -> 10.0.0.1:443 of user 100. *)
Definition demo_skb : sk_buff :=
  mkSkb AF_INET ([69; 0; 0; 40; 0; 0; 0; 0; 64; 6; 0; 0; 192; 168; 1; 5; 10; 0; 0; 1] ++
                 [19; 136; 1; 187; 0; 0; 0; 0; 0; 0; 0; 0; 80; 2; 0; 0; 0; 0; 0; 0]) 20010000 2 (Some "wlan0"%string).
Definition demo_kernel (m : BitmapManager.t) : kernel := mkKernel m m ∅ None [] [] [] [] ∅.
Definition empty_manager : BitmapManager.t := mkManager [] [] [] [] [] [] ∅ ∅ ∅ ∅ ∅.

Lemma demo_compiled : exists m, BuildBitmapMap [Some demo_rule] empty_manager = Some (0, m) /\ compiled [demo_rule] m.
Proof.
  apply (BuildBitmapMap_spec [demo_rule]); [..|simpl; lia]; (constructor; [apply demo_rule_ok|constructor]).
Qed.

Lemma ingress_verdict_witness : exists m, BuildBitmapMap [Some demo_rule] empty_manager = Some (0, m) /\
  fst (netfirewall_policy_ingress SK_PASS 5 demo_skb (demo_kernel m)) = SK_DROP.
Proof.
  destruct demo_compiled as (m & E & C). exists m. split; [exact E|].
  pose proof (ingress_verdict [demo_rule] 5 demo_skb (demo_kernel m)
    (mkTuple INGRESS AF_INET 6 3232235781 167772161 zero6 zero6 5000 443 20010000 100 0 2) "wlan0"%string) as V.
  destruct (netfirewall_policy_ingress SK_PASS 5 demo_skb (demo_kernel m)) as [act k'].
  destruct V as [V _]; [simpl; lia|exact C| |reflexivity|reflexivity|vm_compute; reflexivity| |].
  - repeat constructor; unfold in_width; lia.
  - split; [vm_compute; reflexivity|simpl; lia].
  - simpl. rewrite V. vm_compute. reflexivity.
Defined.

(** C7: The outbound hook decides a packet of an IPv4 socket (family AF_INET)
    that starts a connection by the rules compiled for outbound traffic (up to
    2016 of them) and the user's default action, except that queries to a DNS
    port pass when the user's outbound default is to drop.  As above, the DNS
    filter passes the packet, it is no reset, its interface has a name, and
    packets of IPv6 sockets are not covered. *)
Theorem egress_verdict rules now skb k t name : Z.of_nat (length rules) <= 2016 -> compiled rules (k_out k) ->
  Forall (in_width 8) (skb_data skb) -> skb_dev_name skb = Some name -> skb_family skb = AF_INET ->
  get_match_tuple k skb EGRESS = Some t -> new_connection now skb Conntrack.CT_EGRESS k t ->
  fst (netfirewall_policy_egress SK_PASS now skb k) =
    if MatchDnsQuery k t then SK_PASS
    else verdict (default_of k t) (MatchDomain k t) (rule_matches4 t name) rules.
Proof.
  intros L C W Hn Hf Et [Hnew Hr]. destruct (get_match_tuple_ports _ _ _ _ W Et) as [Hs Hd].
  assert (Ef : mt_family t = AF_INET /\ mt_dir t = EGRESS).
  { revert Et. unfold get_match_tuple. destruct (if is_ipv4_format_skb skb then _ else _).
    destruct (if is_ipv4_format_skb skb then (zero6, zero6) else _). destruct (load_l4_protocol _ _); [|done].
    destruct (if (_ || _) : bool then _ else _) as [[? ?] ?]. intros [= <-].
    unfold swap_tuple_addrs. simpl. case_match; done. }
  destruct Ef as [Ef Ed]. unfold netfirewall_policy_egress. rewrite Et. simpl.
  unfold get_packet_rst_flag. rewrite (proj2 (Z.eqb_neq _ _) Hr).
  destruct (Conntrack.ct_map_lookup_entry _ _ _ _ _ _) as [[status ct_tpl] ct] eqn:Ect. simpl in Hnew. subst status. simpl.
  assert (Etab : tables (set_ct ct k) t = k_out k) by (unfold tables; by rewrite Ed).
  rewrite Etab. destruct (match_action_key_spec rules (k_out k) skb t name) as (key & -> & Kk & Tk); try done.
  rewrite (match_action_spec rules (set_ct ct k) t key (rule_matches4 t name)); try done; [|by rewrite Etab].
  change (MatchDnsQuery (set_ct ct k) t) with (MatchDnsQuery k t).
  change (default_of (set_ct ct k) t) with (default_of k t). change (MatchDomain (set_ct ct k) t) with (MatchDomain k t).
  destruct (MatchDnsQuery k t); simpl; [done|]. by destruct (verdict _ _ _ _).
Qed.

Lemma egress_verdict_witness : exists m, BuildBitmapMap [Some demo_rule] empty_manager = Some (0, m) /\
  fst (netfirewall_policy_egress SK_PASS 5 demo_skb (demo_kernel m)) = SK_PASS.
Proof.
  destruct demo_compiled as (m & E & C). exists m. split; [exact E|].
  rewrite (egress_verdict [demo_rule] 5 demo_skb (demo_kernel m)
    (mkTuple EGRESS AF_INET 6 167772161 3232235781 zero6 zero6 443 5000 20010000 100 0 2) "wlan0"%string);
    [vm_compute; reflexivity|simpl; lia|exact C| |reflexivity|reflexivity|vm_compute; reflexivity|].
  - repeat constructor; unfold in_width; lia.
  - split; [vm_compute; reflexivity|simpl; lia].
Defined.

(** ** Packets the filter does not see as they are *)

(** An IPv4 packet of a dual-stack (AF_INET6) socket reaches the rules
    without its addresses: the tuple is an IPv6 one with all-zero addresses,
    so that rules on IPv4 addresses never apply to it. *)
Theorem dual_stack_addresses_lost k skb dir t : skb_family skb = AF_INET6 -> is_ipv4_format_skb skb = true ->
  get_match_tuple k skb dir = Some t ->
  mt_family t = AF_INET6 /\ ipv4_saddr t = 0 /\ ipv4_daddr t = 0 /\ ipv6_saddr t = zero6 /\ ipv6_daddr t = zero6.
Proof.
  intros Ef Ei. unfold get_match_tuple, load_l3_v4_addrs. rewrite Ei, Ef. change (AF_INET6 =? AF_INET) with false. simpl.
  destruct (load_l4_protocol _ _) as [p|]; [|done]. destruct (if (_ || _) : bool then _ else _) as [[sp dp] rst].
  intros [= <-]. unfold swap_tuple_addrs. destruct (bool_decide (dir = EGRESS)); simpl; done.
Qed.

Lemma dual_stack_addresses_lost_witness :
  let skb := mkSkb AF_INET6 (skb_data demo_skb) 20010000 2 (Some "wlan0"%string) in
  exists t, get_match_tuple (demo_kernel empty_manager) skb INGRESS = Some t /\ ipv4_saddr t = 0.
Proof.
  intros skb. eexists. split; [vm_compute; reflexivity|].
  apply (dual_stack_addresses_lost (demo_kernel empty_manager) skb INGRESS); vm_compute; reflexivity.
Defined.

(** The fallback entry shares its key with the broadcast address: a rule
    for 255.255.255.255 alone is found for every source address. *)
Theorem fallback_address_collision p : in_width 32 p ->
  let r := mkIpRule 0 0 RULE_IN RULE_DENY 0 [] [mkIpParam FAMILY_IPV4 SINGLE_IP 32 0xffffffff 0 [] []] [] [] EmptyString in
  exists m b, BuildBitmapMap [Some r] empty_manager = Some (0, m) /\
    lookup_map (Ip4Rules.ip4_lpm (srcIp4Map_ m)) p OTHER_IP4_KEY = Some b /\ Bitmap.test b 0 = true.
Proof.
  intros Hp. cbn zeta. eexists _, (Bitmap.make_n 0). split; [vm_compute; reflexivity|]. split; [|vm_compute; reflexivity].
  unfold lookup_map, Ip4Rules.ip4_lpm, Prefix.lpm. cbn [srcIp4Map_ fmap list_fmap Prefix.lpm_best].
  destruct (Prefix.in_prefix 32 _ _ p); vm_compute; reflexivity.
Qed.

Lemma fallback_address_collision_witness :
  let r := mkIpRule 0 0 RULE_IN RULE_DENY 0 [] [mkIpParam FAMILY_IPV4 SINGLE_IP 32 0xffffffff 0 [] []] [] [] EmptyString in
  exists m b, BuildBitmapMap [Some r] empty_manager = Some (0, m) /\
    lookup_map (Ip4Rules.ip4_lpm (srcIp4Map_ m)) 0x0A000001 OTHER_IP4_KEY = Some b /\ Bitmap.test b 0 = true.
Proof. apply (fallback_address_collision 0x0A000001). unfold in_width. lia. Defined.

End FirewallMatch.
