(* ===== verification/Firewall.v ===== *)
(** * The firewall service in user space
    (services/netmanagernative/bpf/src/bpf_netfirewall.cpp, class
    [NetsysBpfNetFirewall])

    Rules arrive in pages, are compiled per direction and written to the
    kernel's tables; domain rules are written under reversed domain names. *)

From S2P Require Import Prelude Prefix Bitmap PortMap Ip4Rules Ip6Rules BitmapManager Conntrack FirewallMatch.

Module Firewall.
Import BitmapManager FirewallMatch.

(** ** Kernel map files *)

Inductive map_name :=
| M_saddr | M_saddr6 | M_daddr | M_daddr6 | M_sport | M_dport | M_proto | M_appuid | M_uid | M_action | M_iface
| M_ct | M_default | M_current_uid | M_domain_pass | M_domain_deny | M_domain4 | M_domain6 | M_loop4 | M_loop6.

(** [struct domain_hash_key]: prefix length, uid, appuid, data. *)
Abbreviation DomainHashKey := (Z * Z * Z * list Z)%type.

Inductive NetFirewallRuleType := TYPE_INVALID | TYPE_IP | TYPE_DOMAIN | TYPE_DNS | TYPE_DEFAULT_ACTION | TYPE_ALL.

Record NetFirewallDomainParam := mkDomainParam { isWildcard : bool; domain : list Z }.
Record NetFirewallDomainRule := mkDomainRule {
  d_userId : Z; d_appUid : Z; d_action : FirewallRuleAction; domains : list NetFirewallDomainParam }.

Record t := mkFw {
  isBpfLoaded_ : bool;
  firewallIpRules_ : list (option NetFirewallIpRule);
  firewallDomainRules_ : list NetFirewallDomainRule;
  kern : kernel;
  domain_pass : gmap DomainHashKey Z; domain_deny : gmap DomainHashKey Z;
  callbacks_ : list Z }.

Definition set_kern (k : kernel) (s : t) : t :=
  mkFw (isBpfLoaded_ s) (firewallIpRules_ s) (firewallDomainRules_ s) k (domain_pass s) (domain_deny s) (callbacks_ s).
Definition set_ip_rules (l : list (option NetFirewallIpRule)) (s : t) : t :=
  mkFw (isBpfLoaded_ s) l (firewallDomainRules_ s) (kern s) (domain_pass s) (domain_deny s) (callbacks_ s).
Definition set_domain_rules (l : list NetFirewallDomainRule) (s : t) : t :=
  mkFw (isBpfLoaded_ s) (firewallIpRules_ s) l (kern s) (domain_pass s) (domain_deny s) (callbacks_ s).
Definition set_domain_maps (p d : gmap DomainHashKey Z) (s : t) : t :=
  mkFw (isBpfLoaded_ s) (firewallIpRules_ s) (firewallDomainRules_ s) (kern s) p d (callbacks_ s).

(** Change the tables of one direction ([GET_MAP_PATH(ingress, ...)]). *)
Definition upd (ingress : bool) (f : BitmapManager.t -> BitmapManager.t) (k : kernel) : kernel :=
  if ingress
  then mkKernel (f (k_in k)) (k_out k) (k_default k) (k_current_uid k) (k_domain4 k) (k_domain6 k) (k_loop4 k) (k_loop6 k) (k_ct k)
  else mkKernel (k_in k) (f (k_out k)) (k_default k) (k_current_uid k) (k_domain4 k) (k_domain6 k) (k_loop4 k) (k_loop6 k) (k_ct k).

Section Service.
(** Which map files can be opened and written. *)
Context (avail : map_name -> bool).

(** ** Writing the compiled tables

    Every write to an available map succeeds and returns 0, every write to
    another returns -1; [n] writes add up to [- n]. *)
Definition WriteSrcIpv4BpfMap (manager : BitmapManager.t) (ingress : bool) (k : kernel) : Z * kernel :=
  let v := srcIp4Map_ manager in
  if bool_decide (v = []) then (-1, k)
  else if avail M_saddr
  then (0, upd ingress (fun '(mkManager s4 d4 s6 d6 sp dp pr au ui ac ifc) => mkManager (s4 ++ v) d4 s6 d6 sp dp pr au ui ac ifc) k)
  else (- Z.of_nat (length v), k).

Definition WriteSrcIpv6BpfMap (manager : BitmapManager.t) (ingress : bool) (k : kernel) : Z * kernel :=
  let v := srcIp6Map_ manager in
  if bool_decide (v = []) then (-1, k)
  else if avail M_saddr6
  then (0, upd ingress (fun '(mkManager s4 d4 s6 d6 sp dp pr au ui ac ifc) => mkManager s4 d4 (s6 ++ v) d6 sp dp pr au ui ac ifc) k)
  else (- Z.of_nat (length v), k).

Definition WriteDstIpv4BpfMap (manager : BitmapManager.t) (ingress : bool) (k : kernel) : Z * kernel :=
  let v := dstIp4Map_ manager in
  if bool_decide (v = []) then (-1, k)
  else if avail M_daddr
  then (0, upd ingress (fun '(mkManager s4 d4 s6 d6 sp dp pr au ui ac ifc) => mkManager s4 (d4 ++ v) s6 d6 sp dp pr au ui ac ifc) k)
  else (- Z.of_nat (length v), k).

Definition WriteDstIpv6BpfMap (manager : BitmapManager.t) (ingress : bool) (k : kernel) : Z * kernel :=
  let v := dstIp6Map_ manager in
  if bool_decide (v = []) then (-1, k)
  else if avail M_daddr6
  then (0, upd ingress (fun '(mkManager s4 d4 s6 d6 sp dp pr au ui ac ifc) => mkManager s4 d4 s6 (d6 ++ v) sp dp pr au ui ac ifc) k)
  else (- Z.of_nat (length v), k).

(** [WritePortBpfMap] through [WriteSrcPortBpfMap] / [WriteDstPortBpfMap]: the
    map is opened once. *)
Definition WriteSrcPortBpfMap (manager : BitmapManager.t) (ingress : bool) (k : kernel) : Z * kernel :=
  let v := srcPortMap_ manager in
  if bool_decide (v = []) then (-1, k)
  else if avail M_sport
  then (0, upd ingress (fun '(mkManager s4 d4 s6 d6 sp dp pr au ui ac ifc) => mkManager s4 d4 s6 d6 (sp ++ v) dp pr au ui ac ifc) k)
  else (-1, k).

Definition WriteDstPortBpfMap (manager : BitmapManager.t) (ingress : bool) (k : kernel) : Z * kernel :=
  let v := dstPortMap_ manager in
  if bool_decide (v = []) then (-1, k)
  else if avail M_dport
  then (0, upd ingress (fun '(mkManager s4 d4 s6 d6 sp dp pr au ui ac ifc) => mkManager s4 d4 s6 d6 sp (dp ++ v) pr au ui ac ifc) k)
  else (-1, k).

(** Hash maps: a write replaces the value of its key. *)
Definition WriteProtoBpfMap (manager : BitmapManager.t) (ingress : bool) (k : kernel) : Z * kernel :=
  let v := protoMap_ manager in
  if Empty v then (-1, k)
  else if avail M_proto
  then (0, upd ingress (fun '(mkManager s4 d4 s6 d6 sp dp pr au ui ac ifc) => mkManager s4 d4 s6 d6 sp dp (v ∪ pr) au ui ac ifc) k)
  else (- Z.of_nat (size v), k).

Definition WriteAppUidBpfMap (manager : BitmapManager.t) (ingress : bool) (k : kernel) : Z * kernel :=
  let v := appUidMap_ manager in
  if Empty v then (-1, k)
  else if avail M_appuid
  then (0, upd ingress (fun '(mkManager s4 d4 s6 d6 sp dp pr au ui ac ifc) => mkManager s4 d4 s6 d6 sp dp pr (v ∪ au) ui ac ifc) k)
  else (- Z.of_nat (size v), k).

Definition WriteUidBpfMap (manager : BitmapManager.t) (ingress : bool) (k : kernel) : Z * kernel :=
  let v := uidMap_ manager in
  if Empty v then (-1, k)
  else if avail M_uid
  then (0, upd ingress (fun '(mkManager s4 d4 s6 d6 sp dp pr au ui ac ifc) => mkManager s4 d4 s6 d6 sp dp pr au (v ∪ ui) ac ifc) k)
  else (- Z.of_nat (size v), k).

Definition WriteActionBpfMap (manager : BitmapManager.t) (ingress : bool) (k : kernel) : Z * kernel :=
  let v := actionMap_ manager in
  if Empty v then (-1, k)
  else if avail M_action
  then (0, upd ingress (fun '(mkManager s4 d4 s6 d6 sp dp pr au ui ac ifc) => mkManager s4 d4 s6 d6 sp dp pr au ui (v ∪ ac) ifc) k)
  else (- Z.of_nat (size v), k).

Definition INTERFACE_NAME_MAX_LEN : nat := 16.

(** Names that do not fit the key are skipped. *)
Definition WriteInterfaceBpfMap (manager : BitmapManager.t) (ingress : bool) (k : kernel) : Z * kernel :=
  if Empty (interfaceMap_ manager) then (-1, k)
  else
    let v := filter (fun kv => (String.length kv.1 < INTERFACE_NAME_MAX_LEN)%nat) (interfaceMap_ manager) in
    if avail M_iface
    then (0, upd ingress (fun '(mkManager s4 d4 s6 d6 sp dp pr au ui ac ifc) => mkManager s4 d4 s6 d6 sp dp pr au ui ac (v ∪ ifc)) k)
    else (- Z.of_nat (size v), k).

(** [ClearBpfMap] on every table of a direction and on the connection table. *)
Definition ClearBpfFirewallRules (ingress : bool) (k : kernel) : kernel :=
  let k := upd ingress (fun '(mkManager s4 d4 s6 d6 sp dp pr au ui ac ifc) =>
    mkManager (if avail M_saddr then [] else s4) (if avail M_daddr then [] else d4)
      (if avail M_saddr6 then [] else s6) (if avail M_daddr6 then [] else d6)
      (if avail M_sport then [] else sp) (if avail M_dport then [] else dp)
      (if avail M_proto then ∅ else pr) (if avail M_appuid then ∅ else au) (if avail M_uid then ∅ else ui)
      (if avail M_action then ∅ else ac) (if avail M_iface then ∅ else ifc)) k in
  set_ct (if avail M_ct then ∅ else k_ct k) k.

Definition write_all (manager : BitmapManager.t) (ingress : bool) (k : kernel) : kernel :=
  let k := snd (WriteSrcIpv4BpfMap manager ingress k) in
  let k := snd (WriteSrcIpv6BpfMap manager ingress k) in
  let k := snd (WriteDstIpv4BpfMap manager ingress k) in
  let k := snd (WriteDstIpv6BpfMap manager ingress k) in
  let k := snd (WriteSrcPortBpfMap manager ingress k) in
  let k := snd (WriteDstPortBpfMap manager ingress k) in
  let k := snd (WriteProtoBpfMap manager ingress k) in
  let k := snd (WriteAppUidBpfMap manager ingress k) in
  let k := snd (WriteUidBpfMap manager ingress k) in
  let k := snd (WriteActionBpfMap manager ingress k) in
  snd (WriteInterfaceBpfMap manager ingress k).

(** [None] is the crash inherited from the compiler. The summed write results
    are only logged. *)
Definition SetBpfFirewallRules (ruleList : list (option NetFirewallIpRule)) (direction : NetFirewallRuleDirection)
    (k : kernel) : option (Z * kernel) :=
  '(ret, manager) ← BuildBitmapMap ruleList (mkManager [] [] [] [] [] [] ∅ ∅ ∅ ∅ ∅);
  if negb (ret =? 0) then Some (ret, k)
  else
    let ingress := bool_decide (direction = RULE_IN) in
    Some (BitmapManager.NETFIREWALL_SUCCESS, write_all manager ingress (ClearBpfFirewallRules ingress k)).

(** The split of [SetFirewallIpRules]; [None] when a rule is null. *)
Definition is_icmp (r : NetFirewallIpRule) : bool :=
  (r_protocol r =? PROTO_ICMP) || (r_protocol r =? PROTO_ICMPV6).
Fixpoint split_rules (ruleList : list (option NetFirewallIpRule))
    : option (list NetFirewallIpRule * list NetFirewallIpRule) :=
  match ruleList with
  | [] => Some ([], [])
  | None :: _ => None
  | Some rule :: rest =>
      '(inRules, outRules) ← split_rules rest;
      Some (match r_direction rule with
            | RULE_IN => if is_icmp rule then (inRules, rule :: outRules) else (rule :: inRules, outRules)
            | RULE_OUT => (inRules, rule :: outRules)
            end)
  end.

Definition SetFirewallIpRules (ruleList : list (option NetFirewallIpRule)) (k : kernel) : option (Z * kernel) :=
  '(inRules, outRules) ← split_rules ruleList;
  '(ret, k) ← (if bool_decide (inRules = []) then Some (BitmapManager.NETFIREWALL_SUCCESS, k)
               else SetBpfFirewallRules (Some <$> inRules) RULE_IN k);
  if bool_decide (outRules = []) then Some (ret, k)
  else '(ret', k) ← SetBpfFirewallRules (Some <$> outRules) RULE_OUT k; Some (ret + ret', k).

(** ** Domain rules *)

Definition DNS_DOMAIN_LEN : Z := 128.
Definition dot : Z := 46.
Definition star : Z := 42.

(** Tokens of a text between dots ([std::sregex_token_iterator] with -1): an
    empty token at the end is not produced. *)
Fixpoint split_dots (text cur : list Z) : list (list Z) :=
  match text with
  | [] => if bool_decide (cur = []) then [] else [cur]
  | c :: rest => if c =? dot then cur :: split_dots rest [] else split_dots rest (cur ++ [c])
  end.
Definition tokens (text : list Z) : list (list Z) :=
  if bool_decide (text = []) then [[]] else split_dots text [].

(** The copy loop: (bytes written so far, whether it ran to the end). *)
Fixpoint fill_key (v : list (list Z)) (data : list Z) : list Z * bool :=
  match v with
  | [] => (data, true)
  | s :: rest =>
      let strLen := Z.of_nat (length s) in
      if DNS_DOMAIN_LEN <? Z.of_nat (length data) + strLen + 1 then (data, false)
      else fill_key rest (data ++ s ++ [u8 strLen])
  end.

(** The data array is padded with zeros to its 128 bytes. *)
Definition pad_key (data : list Z) : list Z := data ++ replicate (128 - length data) 0.

Definition GetDomainHashKey (domain : list Z) (out : DomainHashKey) : DomainHashKey :=
  let '(prefixlen, uid, appuid, old) := out in
  if bool_decide (domain = []) then out
  else
    let text := filter (fun c => negb (c =? star) = true) (reverse domain) in
    let '(data, complete) := fill_key (tokens text) [] in
    ((if complete then u32 ((4 + 4 + Z.of_nat (length data)) * 8) else prefixlen), uid, appuid, pad_key data).

Definition SetBpfFirewallDomainRules (action : FirewallRuleAction) (key : DomainHashKey) (uid appuid : Z) (s : t) : Z * t :=
  let '(prefixlen, _, _, data) := key in
  let key := (prefixlen, uid, appuid, data) in
  match action with
  | RULE_ALLOW => if avail M_domain_pass then (0, set_domain_maps (<[key := 1]> (domain_pass s)) (domain_deny s) s) else (-1, s)
  | RULE_DENY => if avail M_domain_deny then (0, set_domain_maps (domain_pass s) (<[key := 1]> (domain_deny s)) s) else (-1, s)
  | RULE_INVALID => (0, s)
  end.

Definition ClearDomainCache (k : kernel) : kernel :=
  mkKernel (k_in k) (k_out k) (k_default k) (k_current_uid k)
    (if avail M_domain4 then [] else k_domain4 k) (if avail M_domain6 then [] else k_domain6 k)
    (k_loop4 k) (k_loop6 k) (k_ct k).

Definition ClearDomainRules (s : t) : t :=
  let s := set_kern (ClearDomainCache (kern s)) s in
  set_domain_maps (if avail M_domain_pass then ∅ else domain_pass s) (if avail M_domain_deny then ∅ else domain_deny s) s.

Definition zero_key : DomainHashKey := (0, 0, 0, replicate 128 0).

(** The result is that of the last write. *)
Definition set_domain_rule (rule : NetFirewallDomainRule) (st : Z * t) (param : NetFirewallDomainParam) : Z * t :=
  let '(ret, s) := st in
  if bool_decide (domain param = []) then (ret, s)
  else SetBpfFirewallDomainRules (d_action rule) (GetDomainHashKey (domain param) zero_key)
         (u32 (d_userId rule)) (u32 (d_appUid rule)) s.

Definition SetFirewallDomainRules (ruleList : list NetFirewallDomainRule) (s : t) : Z * t :=
  if bool_decide (ruleList = []) then (BitmapManager.NETFIREWALL_ERR, s)
  else
    let s := ClearDomainRules s in
    foldl (fun st rule => foldl (set_domain_rule rule) st (domains rule)) (0, s) ruleList.

(** ** The entry points *)

Inductive rule_page :=
| IpPage (rules : list (option NetFirewallIpRule))
| DomainPage (rules : list NetFirewallDomainRule)
| OtherPage (empty : bool).

Definition page_empty (p : rule_page) : bool :=
  match p with IpPage l => bool_decide (l = []) | DomainPage l => bool_decide (l = []) | OtherPage e => e end.

Definition SetFirewallRules (ruleList : rule_page) (isFinish : bool) (s : t) : option (Z * t) :=
  if negb (isBpfLoaded_ s) then Some (BitmapManager.NETFIREWALL_ERR, s)
  else if page_empty ruleList then Some (BitmapManager.NETFIREWALL_ERR, s)
  else match ruleList with
  | IpPage rules =>
      let s := set_ip_rules (firewallIpRules_ s ++ rules) s in
      if isFinish then
        '(ret, k) ← SetFirewallIpRules (firewallIpRules_ s) (kern s);
        Some (ret, set_ip_rules [] (set_kern k s))
      else Some (BitmapManager.NETFIREWALL_SUCCESS, s)
  | DomainPage rules =>
      let s := set_domain_rules (firewallDomainRules_ s ++ rules) s in
      if isFinish then
        let '(ret, s) := SetFirewallDomainRules (firewallDomainRules_ s) s in
        Some (ret, set_domain_rules [] s)
      else Some (BitmapManager.NETFIREWALL_SUCCESS, s)
  | OtherPage _ => Some (BitmapManager.NETFIREWALL_SUCCESS, s)
  end.

Definition set_default (d : gmap Z (sk_action * sk_action)) (k : kernel) : kernel :=
  mkKernel (k_in k) (k_out k) d (k_current_uid k) (k_domain4 k) (k_domain6 k) (k_loop4 k) (k_loop6 k) (k_ct k).

Definition ClearFirewallDefaultAction (s : t) : Z * t :=
  if negb (isBpfLoaded_ s) then (BitmapManager.NETFIREWALL_ERR, s)
  else if avail M_default then (BitmapManager.NETFIREWALL_SUCCESS, set_kern (set_default ∅ (kern s)) s)
  else (BitmapManager.NETFIREWALL_ERR, s).

Definition ClearFirewallRules (type : NetFirewallRuleType) (s : t) : Z * t :=
  let clear_ip s := set_kern (ClearBpfFirewallRules false (ClearBpfFirewallRules true (kern s))) (set_ip_rules [] s) in
  let clear_domain s := ClearDomainRules (set_domain_rules [] s) in
  (BitmapManager.NETFIREWALL_SUCCESS,
   match type with
   | TYPE_IP => clear_ip s
   | TYPE_DOMAIN => clear_domain s
   | TYPE_DEFAULT_ACTION => snd (ClearFirewallDefaultAction s)
   | TYPE_ALL => snd (ClearFirewallDefaultAction (clear_domain (clear_ip s)))
   | TYPE_INVALID | TYPE_DNS => s
   end).

Definition SetFirewallDefaultAction (userId : Z) (inDefault outDefault : FirewallRuleAction) (s : t) : Z * t :=
  if negb (isBpfLoaded_ s) then (BitmapManager.NETFIREWALL_ERR, s)
  else
    let act d := if bool_decide (d = RULE_ALLOW) then SK_PASS else SK_DROP in
    if negb (avail M_default) then (BitmapManager.NETFIREWALL_ERR, s)
    else
      let k := set_default (<[u32 userId := (act inDefault, act outDefault)]> (k_default (kern s))) (kern s) in
      let k := set_ct (if avail M_ct then ∅ else k_ct k) k in
      (BitmapManager.NETFIREWALL_SUCCESS, set_kern k s).

Definition SetFirewallCurrentUserId (userId : Z) (s : t) : Z * t :=
  if negb (isBpfLoaded_ s) then (BitmapManager.NETFIREWALL_ERR, s)
  else if negb (avail M_current_uid) then (BitmapManager.NETFIREWALL_ERR, s)
  else let k := kern s in
    (BitmapManager.NETFIREWALL_SUCCESS,
     set_kern (mkKernel (k_in k) (k_out k) (k_default k) (Some (u32 userId)) (k_domain4 k) (k_domain6 k)
                 (k_loop4 k) (k_loop6 k) (k_ct k)) s).

Definition LOOP_BACK_IPV4 : Z := 0x7F000000.
Definition LOOP_BACK_IPV4_PREFIXLEN : Z := 8.
Definition LOOP_BACK_IPV6_PREFIXLEN : Z := 128.

Definition WriteLoopBackBpfMap (k : kernel) : Z * kernel :=
  let loops l4 l6 k := mkKernel (k_in k) (k_out k) (k_default k) (k_current_uid k) (k_domain4 k) (k_domain6 k) l4 l6 (k_ct k) in
  if negb (avail M_loop4) then (BitmapManager.NETFIREWALL_ERR, k)
  else
    let k := loops (k_loop4 k ++ [(LOOP_BACK_IPV4, LOOP_BACK_IPV4_PREFIXLEN, 1)]) (k_loop6 k) k in
    if negb (avail M_loop6) then (BitmapManager.NETFIREWALL_ERR, k)
    else (BitmapManager.NETFIREWALL_SUCCESS, loops (k_loop4 k) (k_loop6 k ++ [(1, LOOP_BACK_IPV6_PREFIXLEN, 1)]) k).

Definition SetBpfLoaded (load : bool) (s : t) : t :=
  let s := mkFw load (firewallIpRules_ s) (firewallDomainRules_ s) (kern s) (domain_pass s) (domain_deny s) (callbacks_ s) in
  if load then set_kern (snd (WriteLoopBackBpfMap (kern s))) s else s.

(** Callbacks are compared by identity; [None] is a null pointer. *)
Definition set_callbacks (l : list Z) (s : t) : t :=
  mkFw (isBpfLoaded_ s) (firewallIpRules_ s) (firewallDomainRules_ s) (kern s) (domain_pass s) (domain_deny s) l.

Definition RegisterCallback (callback : option Z) (s : t) : Z * t :=
  match callback with None => (-1, s) | Some c => (0, set_callbacks (callbacks_ s ++ [c]) s) end.

Fixpoint erase_first (c : Z) (l : list Z) : option (list Z) :=
  match l with [] => None | x :: r => if x =? c then Some r else cons x <$> erase_first c r end.

Definition UnregisterCallback (callback : option Z) (s : t) : Z * t :=
  match callback with
  | None => (-1, s)
  | Some c => match erase_first c (callbacks_ s) with Some l => (0, set_callbacks l s) | None => (-1, s) end
  end.

End Service.

(** ** Reading a domain key back *)

Definition BIT_PER_BYTE : Z := 8.
Definition DNS_DOMAIN_LEN_MIN : Z := 1.

Fixpoint decode_labels (fuel : nat) (q : list Z) (i : nat) (isFirst : bool) (domain : list Z) : list Z :=
  match fuel with
  | O => domain
  | S fuel =>
      if (i <? length q)%nat then
        let labelLen := nth i q 0 in
        let i := S i in
        if labelLen =? 0 then domain
        else if Z.of_nat (length q) <? Z.of_nat i + labelLen then domain
        else
          let domain := if negb isFirst then domain ++ [dot] else domain in
          decode_labels fuel q (i + Z.to_nat labelLen) false (domain ++ take (Z.to_nat labelLen) (drop i q))
      else domain
  end.

Definition DecodeDomainFromKey (key : DomainHashKey) : list Z :=
  let '(prefixlen, _, _, data) := key in
  if prefixlen =? 0 then []
  else if prefixlen <? (4 + 4) * BIT_PER_BYTE then []
  else
    let domainPrefixlen := u32 (prefixlen - (4 + 4) * BIT_PER_BYTE) in
    if domainPrefixlen <=? 0 then []
    else
      let domainLenBytes := domainPrefixlen / BIT_PER_BYTE in
      if domainLenBytes <? DNS_DOMAIN_LEN_MIN then []
      else
        let domainLenBytes := if DNS_DOMAIN_LEN <? domainLenBytes then DNS_DOMAIN_LEN else domainLenBytes in
        let q := reverse (take (Z.to_nat domainLenBytes) data) in
        decode_labels (length q) q 0 true [].

(** ** Installing a rule set *)

Definition all_avail : map_name -> bool := fun _ => true.
Definition tables_of (ingress : bool) (k : kernel) : BitmapManager.t := if ingress then k_in k else k_out k.

(** What ends up in the kernel: the compiled tables, long interface names dropped. *)
Definition installed (m : BitmapManager.t) : BitmapManager.t :=
  let '(mkManager s4 d4 s6 d6 sp dp pr au ui ac ifc) := m in
  mkManager s4 d4 s6 d6 sp dp pr au ui ac
    (filter (fun kv => (String.length kv.1 < INTERFACE_NAME_MAX_LEN)%nat) ifc).

Lemma upd_id ingress f k : (forall m, f m = m) -> upd ingress f k = k.
Proof. intros H. destruct k, ingress; unfold upd; simpl; by rewrite H. Qed.

Lemma upd_same i f k : tables_of i (upd i f k) = f (tables_of i k).
Proof. by destruct i. Qed.
Lemma upd_other i f k : tables_of (negb i) (upd i f k) = tables_of (negb i) k.
Proof. by destruct i. Qed.
Lemma upd_ct i f k : k_ct (upd i f k) = k_ct k.
Proof. by destruct i. Qed.
Lemma upd_default i f k : k_default (upd i f k) = k_default k.
Proof. by destruct i. Qed.
Lemma upd_current i f k : k_current_uid (upd i f k) = k_current_uid k.
Proof. by destruct i. Qed.

Ltac write_upd :=
  intros; match goal with |- snd (?W _ _ _ _) = _ => unfold W end; simpl;
  unfold Empty; case_bool_decide; simpl; [|reflexivity];
  match goal with H : _ = _ |- _ => rewrite H end; symmetry; apply upd_id; intros [];
  rewrite ?map_filter_empty, ?app_nil_r, ?(left_id_L ∅ (∪)); reflexivity.

Lemma write_src4 m i k : snd (WriteSrcIpv4BpfMap all_avail m i k) =
  upd i (fun '(mkManager s4 d4 s6 d6 sp dp pr au ui ac ifc) => mkManager (s4 ++ srcIp4Map_ m) d4 s6 d6 sp dp pr au ui ac ifc) k.
Proof. write_upd. Qed.
Lemma write_src6 m i k : snd (WriteSrcIpv6BpfMap all_avail m i k) =
  upd i (fun '(mkManager s4 d4 s6 d6 sp dp pr au ui ac ifc) => mkManager s4 d4 (s6 ++ srcIp6Map_ m) d6 sp dp pr au ui ac ifc) k.
Proof. write_upd. Qed.
Lemma write_dst4 m i k : snd (WriteDstIpv4BpfMap all_avail m i k) =
  upd i (fun '(mkManager s4 d4 s6 d6 sp dp pr au ui ac ifc) => mkManager s4 (d4 ++ dstIp4Map_ m) s6 d6 sp dp pr au ui ac ifc) k.
Proof. write_upd. Qed.
Lemma write_dst6 m i k : snd (WriteDstIpv6BpfMap all_avail m i k) =
  upd i (fun '(mkManager s4 d4 s6 d6 sp dp pr au ui ac ifc) => mkManager s4 d4 s6 (d6 ++ dstIp6Map_ m) sp dp pr au ui ac ifc) k.
Proof. write_upd. Qed.
Lemma write_sport m i k : snd (WriteSrcPortBpfMap all_avail m i k) =
  upd i (fun '(mkManager s4 d4 s6 d6 sp dp pr au ui ac ifc) => mkManager s4 d4 s6 d6 (sp ++ srcPortMap_ m) dp pr au ui ac ifc) k.
Proof. write_upd. Qed.
Lemma write_dport m i k : snd (WriteDstPortBpfMap all_avail m i k) =
  upd i (fun '(mkManager s4 d4 s6 d6 sp dp pr au ui ac ifc) => mkManager s4 d4 s6 d6 sp (dp ++ dstPortMap_ m) pr au ui ac ifc) k.
Proof. write_upd. Qed.
Lemma write_proto m i k : snd (WriteProtoBpfMap all_avail m i k) =
  upd i (fun '(mkManager s4 d4 s6 d6 sp dp pr au ui ac ifc) => mkManager s4 d4 s6 d6 sp dp (protoMap_ m ∪ pr) au ui ac ifc) k.
Proof. write_upd. Qed.
Lemma write_appuid m i k : snd (WriteAppUidBpfMap all_avail m i k) =
  upd i (fun '(mkManager s4 d4 s6 d6 sp dp pr au ui ac ifc) => mkManager s4 d4 s6 d6 sp dp pr (appUidMap_ m ∪ au) ui ac ifc) k.
Proof. write_upd. Qed.
Lemma write_uid m i k : snd (WriteUidBpfMap all_avail m i k) =
  upd i (fun '(mkManager s4 d4 s6 d6 sp dp pr au ui ac ifc) => mkManager s4 d4 s6 d6 sp dp pr au (uidMap_ m ∪ ui) ac ifc) k.
Proof. write_upd. Qed.
Lemma write_action m i k : snd (WriteActionBpfMap all_avail m i k) =
  upd i (fun '(mkManager s4 d4 s6 d6 sp dp pr au ui ac ifc) => mkManager s4 d4 s6 d6 sp dp pr au ui (actionMap_ m ∪ ac) ifc) k.
Proof. write_upd. Qed.
Lemma write_iface m i k : snd (WriteInterfaceBpfMap all_avail m i k) =
  upd i (fun '(mkManager s4 d4 s6 d6 sp dp pr au ui ac ifc) => mkManager s4 d4 s6 d6 sp dp pr au ui ac
    (filter (fun kv => (String.length kv.1 < INTERFACE_NAME_MAX_LEN)%nat) (interfaceMap_ m) ∪ ifc)) k.
Proof. write_upd. Qed.

Lemma write_all_spec m i k :
  let k' := write_all all_avail m i (ClearBpfFirewallRules all_avail i k) in
  tables_of i k' = installed m /\ tables_of (negb i) k' = tables_of (negb i) k /\ k_ct k' = ∅ /\
  k_default k' = k_default k /\ k_current_uid k' = k_current_uid k.
Proof.
  cbn zeta. unfold write_all.
  rewrite write_iface, write_action, write_uid, write_appuid, write_proto, write_dport, write_sport, write_dst6, write_dst4, write_src6, write_src4.
  rewrite !upd_same, !upd_other, !upd_ct, !upd_default, !upd_current. split_and!; try (by destruct k, i).
  unfold ClearBpfFirewallRules. replace (tables_of i (set_ct _ _)) with empty_manager by (by destruct k as [[] [] ?], i).
  destruct m. cbn [empty_manager installed srcIp4Map_ dstIp4Map_ srcIp6Map_ dstIp6Map_ srcPortMap_ dstPortMap_ protoMap_ appUidMap_ uidMap_ actionMap_ interfaceMap_ app].
  by rewrite !(right_id_L ∅ (∪)).
Qed.

(** A table lookup is not changed by dropping names no rule uses. *)
Lemma iface_filter rules (m : gmap string Bitmap.t) k : (forall k, table_ok (fun k => m !! k) EmptyString
    (fun r k => bool_decide (iface_key r = Some k) || noIface r) rules k) ->
  Forall (fun r => (String.length (r_interface r) < INTERFACE_NAME_MAX_LEN)%nat) rules ->
  table_ok (fun k => filter (fun kv : string * Bitmap.t => (String.length kv.1 < INTERFACE_NAME_MAX_LEN)%nat) m !! k) EmptyString
    (fun r k => bool_decide (iface_key r = Some k) || noIface r) rules k.
Proof.
  intros H F. set (m' := filter _ m).
  assert (Low : forall k, (String.length k < INTERFACE_NAME_MAX_LEN)%nat -> m' !! k = m !! k).
  { intros q Hq. unfold m'. destruct (m !! q) as [b|] eqn:E.
    - by apply map_lookup_filter_Some.
    - apply map_lookup_filter_None. by left. }
  assert (L0 : m' !! EmptyString = m !! EmptyString) by (apply Low; unfold INTERFACE_NAME_MAX_LEN; simpl; lia).
  destruct (lt_dec (String.length k) INTERFACE_NAME_MAX_LEN) as [Hk|Hk].
  - destruct (H k) as (b & E & Kb & Tb). exists b. split; [|done]. unfold lookup_map in *. rewrite (Low k Hk), L0. done.
  - assert (N : m' !! k = None).
    { unfold m'. destruct (filter _ m !! k) as [b|] eqn:E; [|done].
      apply map_lookup_filter_Some in E as [_ E]. simpl in E. lia. }
    destruct (H EmptyString) as (b & E & Kb & Tb). exists b. split.
    { unfold lookup_map in *. rewrite N, L0. destruct (m !! EmptyString); [exact E|exact E]. }
    split; [done|]. intros n Hn. rewrite Tb by done. unfold at_rule. destruct (rules !! Z.to_nat n) as [r|] eqn:Er; [|done].
    apply (Forall_lookup_1 _ _ _ _ F) in Er. f_equal.
    assert (I1 : iface_key r <> Some EmptyString) by (unfold iface_key; case_bool_decide as X; simpl; [done|]; by intros [= ?]).
    assert (I2 : iface_key r <> Some k) by (unfold iface_key; case_bool_decide as X; simpl; [done|]; intros [= ?]; subst k; lia).
    by rewrite !bool_decide_eq_false_2.
Qed.

Lemma compiled_installed rules m : compiled rules m ->
  Forall (fun r => (String.length (r_interface r) < INTERFACE_NAME_MAX_LEN)%nat) rules -> compiled rules (installed m).
Proof.
  intros [C1 C2 C3 C4 C5 C6 C7 C8 C9] F. destruct m; simpl in *. constructor; simpl; try done.
  intros k. by apply iface_filter.
Qed.

Definition in_rules (rules : list NetFirewallIpRule) : list NetFirewallIpRule :=
  filter (fun r => r_direction r = RULE_IN /\ is_icmp r = false) rules.
Definition out_rules (rules : list NetFirewallIpRule) : list NetFirewallIpRule :=
  filter (fun r => r_direction r = RULE_OUT \/ is_icmp r = true) rules.

Lemma split_rules_spec rules : split_rules (Some <$> rules) = Some (in_rules rules, out_rules rules).
Proof.
  induction rules as [|r rest IH]; [done|]. cbn [fmap list_fmap split_rules]. rewrite IH. simpl.
  unfold in_rules, out_rules. rewrite !filter_cons. destruct (r_direction r) eqn:Ed, (is_icmp r) eqn:Ei; f_equal;
    repeat case_decide; intuition congruence.
Qed.

Definition rule_fits (r : NetFirewallIpRule) : Prop :=
  rule_ok r /\ rule_plain r /\ (String.length (r_interface r) < INTERFACE_NAME_MAX_LEN)%nat.

Lemma SetBpfFirewallRules_spec rules d k : Forall rule_fits rules -> Z.of_nat (length rules) <= 2016 ->
  let i := bool_decide (d = RULE_IN) in
  exists k', SetBpfFirewallRules all_avail (Some <$> rules) d k = Some (BitmapManager.NETFIREWALL_SUCCESS, k') /\
    compiled rules (tables_of i k') /\ tables_of (negb i) k' = tables_of (negb i) k /\ k_ct k' = ∅ /\ k_default k' = k_default k.
Proof.
  intros F L i. unfold SetBpfFirewallRules.
  destruct (BuildBitmapMap_spec rules (mkManager [] [] [] [] [] [] ∅ ∅ ∅ ∅ ∅)) as (m & -> & C);
    [eapply Forall_impl; [exact F|]; by intros r (? & _)|eapply Forall_impl; [exact F|]; by intros r (_ & ? & _)|done|].
  simpl. fold i. destruct (write_all_spec m i k) as (T1 & T2 & T3 & T4 & _). eexists. split; [done|]. rewrite T1. split_and!; try done.
  apply compiled_installed; [done|]. eapply Forall_impl; [exact F|]. by intros r (_ & _ & ?).
Qed.

Lemma Forall_sub (P : NetFirewallIpRule -> Prop) Q `{forall r, Decision (Q r)} l : Forall P l -> Forall P (filter Q l).
Proof. rewrite !Forall_forall. intros Hl x Hx. apply list_elem_of_filter in Hx as [_ Hx]. auto. Qed.

(** A rule set is installed in both directions at once: each direction that
    has rules gets tables compiled from exactly its rules (inbound ICMP rules
    go with the outbound ones) and the connection table is emptied; a
    direction without rules keeps the tables it had, also when they hold rules
    of an earlier set. *)
Theorem SetFirewallIpRules_installs rules k : Forall rule_fits rules -> Z.of_nat (length rules) <= 2016 ->
  exists k', SetFirewallIpRules all_avail (Some <$> rules) k = Some (BitmapManager.NETFIREWALL_SUCCESS, k') /\
    (if bool_decide (in_rules rules = []) then k_in k' = k_in k else compiled (in_rules rules) (k_in k')) /\
    (if bool_decide (out_rules rules = []) then k_out k' = k_out k else compiled (out_rules rules) (k_out k')) /\
    (rules <> [] -> k_ct k' = ∅).
Proof.
  intros F L. unfold SetFirewallIpRules. rewrite split_rules_spec. cbn [mbind option_bind].
  assert (Lin : Z.of_nat (length (in_rules rules)) <= 2016) by (pose proof (length_filter (fun r => r_direction r = RULE_IN /\ is_icmp r = false) rules); unfold in_rules; lia).
  assert (Lout : Z.of_nat (length (out_rules rules)) <= 2016) by (pose proof (length_filter (fun r => r_direction r = RULE_OUT \/ is_icmp r = true) rules); unfold out_rules; lia).
  destruct (SetBpfFirewallRules_spec (in_rules rules) RULE_IN k (Forall_sub _ _ _ F) Lin) as (k1 & E1 & C1 & S1 & T1 & _).
  simpl in C1, S1.
  assert (X : rules <> [] -> in_rules rules = [] -> out_rules rules = [] -> False).
  { destruct rules as [|r rest]; [done|]. intros _. unfold in_rules, out_rules. rewrite !filter_cons.
    destruct (r_direction r) eqn:Ed, (is_icmp r) eqn:Ei; repeat case_decide; intuition congruence. }
  destruct (bool_decide (in_rules rules = [])) eqn:Ei, (bool_decide (out_rules rules = [])) eqn:Eo;
    rewrite ?bool_decide_eq_true, ?bool_decide_eq_false in *; cbn [mbind option_bind].
  - exists k. split_and!; try done. intros Hr. by destruct X.
  - destruct (SetBpfFirewallRules_spec (out_rules rules) RULE_OUT k (Forall_sub _ _ _ F) Lout) as (k2 & -> & C2 & S2 & T2 & _).
    simpl in *. exists k2. split_and!; done.
  - rewrite E1. cbn [mbind option_bind]. exists k1. split_and!; done.
  - rewrite E1. cbn [mbind option_bind].
    destruct (SetBpfFirewallRules_spec (out_rules rules) RULE_OUT k1 (Forall_sub _ _ _ F) Lout) as (k2 & -> & C2 & S2 & T2 & _).
    simpl in *. exists k2. split_and!; try done. by rewrite S2.
Qed.

Lemma SetFirewallIpRules_installs_witness :
  exists k', SetFirewallIpRules all_avail [Some demo_rule] (demo_kernel empty_manager) = Some (0, k') /\
    compiled [demo_rule] (k_in k').
Proof.
  destruct (SetFirewallIpRules_installs [demo_rule] (demo_kernel empty_manager)) as (k' & E & C & _);
    [|simpl; lia|by exists k'].
  constructor; [|constructor]. split; [apply demo_rule_ok|]. split; [apply demo_rule_ok|].
  unfold INTERFACE_NAME_MAX_LEN; simpl; lia.
Defined.

(** Sending a rule set in pages has the same effect as sending it whole:
    pages are collected until the last one. *)
Theorem SetFirewallRules_pages avail a b s : isBpfLoaded_ s = true -> a <> [] -> b <> [] ->
  (SetFirewallRules avail (IpPage a) false s ≫= fun st => SetFirewallRules avail (IpPage b) true (snd st))
  = SetFirewallRules avail (IpPage (a ++ b)) true s.
Proof.
  intros Hl Ha Hb. unfold SetFirewallRules. rewrite Hl. simpl. rewrite !bool_decide_eq_false_2; [|by destruct a|done|done].
  simpl. rewrite Hl. simpl. by rewrite app_assoc.
Qed.

Lemma SetFirewallRules_pages_witness :
  let s := mkFw true [] [] (demo_kernel empty_manager) ∅ ∅ [] in
  (SetFirewallRules all_avail (IpPage [Some demo_rule]) false s ≫= fun st => SetFirewallRules all_avail (IpPage [Some tcp_rule]) true (snd st))
  = SetFirewallRules all_avail (IpPage [Some demo_rule; Some tcp_rule]) true s.
Proof. intros s. apply (SetFirewallRules_pages all_avail [Some demo_rule] [Some tcp_rule]); done. Defined.

(** ** Domain names survive the key format *)

Fixpoint join (ls : list (list Z)) : list Z :=
  match ls with
  | [] => []
  | [x] => x
  | x :: r => x ++ dot :: join r
  end.

Definition label_ok (l : list Z) : Prop := l <> [] /\ Forall (fun c => c <> dot /\ c <> star) l.

(** A dotted name made of plain labels that fits the key. *)
Definition name_ok (ls : list (list Z)) : Prop :=
  ls <> [] /\ Forall label_ok ls /\ (length (join ls) < 128)%nat.

Lemma join_cons x ls : ls <> [] -> join (x :: ls) = x ++ dot :: join ls.
Proof. by destruct ls. Qed.

Lemma join_snoc ls x : ls <> [] -> join (ls ++ [x]) = join ls ++ dot :: x.
Proof.
  induction ls as [|y ls IH]; intros H; [done|]. destruct ls as [|z ls]; [done|].
  cbn [app]. rewrite (join_cons y), (join_cons y) by done. change (z :: ls ++ [x]) with ((z :: ls) ++ [x]).
  rewrite IH by done. by rewrite <- app_assoc.
Qed.

Lemma reverse_join ls : reverse (join ls) = join (reverse (reverse <$> ls)).
Proof.
  induction ls as [|x ls IH]; [done|]. destruct ls as [|y ls]; [done|].
  rewrite join_cons by done. rewrite fmap_cons, reverse_cons, join_snoc.
  - rewrite reverse_app, reverse_cons, IH, <- app_assoc. done.
  - intros E. apply (f_equal length) in E. rewrite length_reverse, length_fmap in E. done.
Qed.

Lemma split_dots_join ls : Forall label_ok ls -> ls <> [] -> forall cur, split_dots (join ls) cur = match ls with [] => [] | x :: r => (cur ++ x) :: r end.
Proof.
  assert (P : forall x rest cur, Forall (fun c => c <> dot /\ c <> star) x -> split_dots (x ++ rest) cur = split_dots rest (cur ++ x)).
  { induction x as [|c x IH]; intros rest cur F; [by rewrite app_nil_r|]. apply Forall_cons in F as [[Hc _] F].
    simpl. rewrite (proj2 (Z.eqb_neq _ _) Hc), IH by done. by rewrite <- app_assoc. }
  induction 1 as [|x r [Hx Fx] F IH]; intros Hn cur; [done|]. destruct r as [|y r].
  - cbn [join]. rewrite <- (app_nil_r x) at 1. rewrite P by done. simpl. rewrite bool_decide_eq_false_2; [done|].
    intros E. apply app_eq_nil in E as [_ E]. done.
  - rewrite join_cons, P by done. cbn [split_dots]. rewrite Z.eqb_refl. by rewrite IH.
Qed.

Definition enc (s : list Z) : list Z := s ++ [Z.of_nat (length s)].

Lemma length_enc ls : ls <> [] -> length (concat (enc <$> ls)) = S (length (join ls)).
Proof.
  induction ls as [|x ls IH]; intros H; [done|]. destruct ls as [|y ls].
  - cbn. rewrite app_nil_r. unfold enc. rewrite length_app. simpl. lia.
  - rewrite join_cons by done. change (concat (enc <$> x :: y :: ls)) with (enc x ++ concat (enc <$> y :: ls)).
    rewrite length_app, IH by done.
    unfold enc. rewrite !length_app. simpl. lia.
Qed.

Lemma fill_key_spec ls : forall data, (length data + length (concat (enc <$> ls)) <= 128)%nat ->
  fill_key ls data = (data ++ concat (enc <$> ls), true).
Proof.
  induction ls as [|s ls IH]; intros data H; simpl; [by rewrite app_nil_r|].
  change (concat (enc <$> s :: ls)) with (enc s ++ concat (enc <$> ls)) in H. rewrite length_app in H. unfold enc at 1 in H. rewrite length_app in H. simpl in H.
  unfold DNS_DOMAIN_LEN. rewrite (proj2 (Z.ltb_ge _ _)) by lia.
  rewrite wrap_small by (unfold in_width; lia). fold (enc s). rewrite IH by (rewrite length_app; unfold enc at 1; rewrite length_app; simpl; lia).
  by rewrite <- app_assoc.
Qed.

Lemma reverse_concat (xs : list (list Z)) : reverse (concat xs) = concat (reverse (reverse <$> xs)).
Proof.
  induction xs as [|x xs IH]; [done|]. rewrite fmap_cons, reverse_cons, concat_app. simpl.
  by rewrite reverse_app, IH, app_nil_r.
Qed.

Definition lab (l : list Z) : list Z := Z.of_nat (length l) :: l.

Lemma reverse_enc ls : reverse (concat (enc <$> reverse (reverse <$> ls))) = concat (lab <$> ls).
Proof.
  rewrite reverse_concat, <- list_fmap_compose. f_equal. rewrite fmap_reverse, reverse_involutive, <- list_fmap_compose.
  apply list_fmap_ext. intros i x _. simpl. unfold enc, lab. rewrite reverse_app, length_reverse, reverse_involutive. done.
Qed.

Lemma concat_dots y r : concat ((fun l => dot :: l) <$> y :: r) = dot :: join (y :: r).
Proof.
  revert y. induction r as [|z r IH]; intros y; [simpl; by rewrite app_nil_r|]. rewrite join_cons by done.
  change (concat ((fun l => dot :: l) <$> y :: z :: r)) with ((dot :: y) ++ concat ((fun l => dot :: l) <$> z :: r)).
  by rewrite IH.
Qed.

Lemma decode_labels_spec ls : Forall label_ok ls -> forall fuel pre first domain, (length ls <= fuel)%nat ->
  decode_labels fuel (pre ++ concat (lab <$> ls)) (length pre) first domain =
  domain ++ (if first then join ls else concat ((fun l => dot :: l) <$> ls)).
Proof.
  induction 1 as [|x r [Hx Fx] F IH]; intros fuel pre first domain Hf.
  - transitivity domain; [|destruct first; simpl; by rewrite app_nil_r].
    change (concat (lab <$> [])) with (@nil Z). rewrite app_nil_r. destruct fuel; [done|]. cbn [decode_labels].
    by rewrite Nat.ltb_irrefl.
  - cbn [length] in Hf. destruct fuel as [|fuel]; [lia|]. cbn [decode_labels fmap list_fmap concat].
    set (q := pre ++ lab x ++ concat (lab <$> r)).
    assert (Lq : length q = (length pre + S (length x) + length (concat (lab <$> r)))%nat).
    { unfold q, lab. rewrite !length_app. simpl. lia. }
    rewrite (proj2 (Nat.ltb_lt _ _)) by lia.
    assert (Hn : nth (length pre) q 0 = Z.of_nat (length x)) by (unfold q, lab; rewrite app_nth2, Nat.sub_diag by lia; done).
    rewrite Hn. assert (length x <> 0%nat) by (by destruct x).
    rewrite (proj2 (Z.eqb_neq (Z.of_nat (length x)) 0)) by lia. rewrite (proj2 (Z.ltb_ge _ _)) by lia. rewrite Nat2Z.id.
    assert (Hd : take (length x) (drop (S (length pre)) q) = x).
    { unfold q, lab. cbn [app]. rewrite cons_middle, app_assoc, drop_app_length' by (rewrite length_app; simpl; lia).
      by rewrite take_app_length. }
    rewrite Hd. replace q with ((pre ++ lab x) ++ concat (lab <$> r)) by (unfold q; by rewrite app_assoc).
    replace (S (length pre) + length x)%nat with (length (pre ++ lab x)) by (rewrite length_app; simpl; lia).
    rewrite IH by lia. destruct first; simpl.
    + destruct r as [|y r]; [by rewrite !app_nil_r|]. rewrite <- app_assoc. f_equal.
      apply (f_equal (app x)), concat_dots.
    + by rewrite <- !app_assoc.
Qed.

Lemma filter_star_id l : Forall (fun c => c <> star) l -> filter (fun c => negb (c =? star) = true) l = l.
Proof.
  induction 1 as [|c l Hc F IH]; [done|]. rewrite filter_cons, IH. case_decide as D; [done|].
  exfalso. apply D. by rewrite (proj2 (Z.eqb_neq _ _) Hc).
Qed.

Lemma join_no_star ls : Forall label_ok ls -> Forall (fun c => c <> star) (join ls).
Proof.
  induction 1 as [|x r [_ Fx] F IH]; [constructor|].
  assert (Fx' : Forall (fun c => c <> star) x) by (eapply Forall_impl; [exact Fx|]; by intros c []).
  destruct r as [|y r]; [done|]. rewrite join_cons by done. apply Forall_app. split; [done|]. by constructor.
Qed.

(** A domain name written into a key is read back unchanged: for every
    name of plain labels that fits the 128 bytes of a key,
    [DecodeDomainFromKey] inverts [GetDomainHashKey]. *)
Theorem domain_key_roundtrip ls : name_ok ls ->
  DecodeDomainFromKey (GetDomainHashKey (join ls) zero_key) = join ls.
Proof.
  intros (Hn & F & L). set (rs := reverse (reverse <$> ls)).
  assert (Hrs : rs <> []).
  { intros E. apply (f_equal length) in E. unfold rs in E. rewrite length_reverse, length_fmap in E. by destruct ls. }
  assert (Frs : Forall label_ok rs).
  { apply Forall_reverse, Forall_fmap. eapply Forall_impl; [exact F|]. intros l [Hl Fl]. split; [|by apply Forall_reverse].
    intros E. apply (f_equal length) in E. rewrite length_reverse in E. by destruct l. }
  assert (Hj : join ls <> []).
  { destruct ls as [|x r]; [done|]. apply Forall_cons in F as [[Hx _] _]. destruct r; [done|].
    rewrite join_cons by done. by destruct x. }
  unfold GetDomainHashKey, zero_key. rewrite bool_decide_eq_false_2 by done.
  rewrite reverse_join. fold rs. rewrite filter_star_id by (by apply join_no_star).
  unfold tokens. rewrite bool_decide_eq_false_2.
  2: { unfold rs. rewrite <- reverse_join. intros E. apply Hj. apply (f_equal reverse) in E. by rewrite reverse_involutive in E. }
  rewrite split_dots_join by done.
  assert (Es : match rs with [] => [] | x :: r => ([] ++ x) :: r end = rs) by (by destruct rs). rewrite Es.
  assert (Lj : length (join rs) = length (join ls)) by (unfold rs; by rewrite <- reverse_join, length_reverse).
  pose proof (length_enc rs Hrs) as Le. rewrite Lj in Le.
  rewrite fill_key_spec by (cbn [length]; lia). cbn [app]. set (data := concat (enc <$> rs)) in *.
  unfold DecodeDomainFromKey, BIT_PER_BYTE, DNS_DOMAIN_LEN_MIN, DNS_DOMAIN_LEN.
  set (n := Z.of_nat (length data)). assert (Hnn : 1 <= n <= 128) by lia.
  rewrite (wrap_small 32 ((4 + 4 + n) * 8)) by (unfold in_width; lia).
  rewrite (proj2 (Z.eqb_neq ((4 + 4 + n) * 8) 0)), (proj2 (Z.ltb_ge ((4 + 4 + n) * 8) _)) by lia.
  rewrite wrap_small by (unfold in_width; lia). replace ((4 + 4 + n) * 8 - (4 + 4) * 8) with (n * 8) by lia.
  rewrite (proj2 (Z.leb_gt (n * 8) 0)) by lia. rewrite Z.div_mul by lia.
  rewrite (proj2 (Z.ltb_ge n 1)), (proj2 (Z.ltb_ge 128 n)) by lia.
  unfold pad_key, n. rewrite Nat2Z.id, take_app_length. unfold data, rs. rewrite reverse_enc.
  rewrite (decode_labels_spec ls F _ [] true []); [done|].
  clear. induction ls as [|x r IH]; [done|]. cbn [fmap list_fmap concat length]. rewrite length_app. unfold lab at 1. simpl. lia.
Qed.

Lemma domain_key_roundtrip_witness :
  DecodeDomainFromKey (GetDomainHashKey (join [[119; 119; 119]; [97; 98]; [99; 111; 109]]) zero_key)
  = join [[119; 119; 119]; [97; 98]; [99; 111; 109]].
Proof.
  apply domain_key_roundtrip. split; [done|]. split; [|simpl; lia]. repeat constructor; done.
Defined.

End Firewall.
