(* ===== verification/NetCaps.v ===== *)
(** * Network capabilities

    The capability bit set of [services/netconnmanager/src/net_caps.cpp] and
    the enumerations and plain records it shares with the suppliers and the
    requests.  A [std::set<NetCap>] is a [gset Z] of enumeration values; the
    bit set [caps_] is the 32-bit integer the class keeps. *)

From S2P Require Import Prelude.

Module NetCaps.

(** ** [enum NetCap] (net_all_capabilities.h) *)
Definition NET_CAPABILITY_MMS : Z := 0.
Definition NET_CAPABILITY_INTERNET : Z := 12.
Definition NET_CAPABILITY_VALIDATED : Z := 16.
Definition NET_CAPABILITY_PORTAL : Z := 17.
Definition NET_CAPABILITY_INTERNAL_DEFAULT : Z := 18.
Definition NET_CAPABILITY_INTERNAL_CHANNEL : Z := 25.
Definition NET_CAPABILITY_CHECKING_CONNECTIVITY : Z := 31.
Definition NET_CAPABILITY_END : Z := 32.

Inductive NetBearType :=
  BEARER_CELLULAR | BEARER_WIFI | BEARER_BLUETOOTH | BEARER_ETHERNET
| BEARER_VPN | BEARER_WIFI_AWARE | BEARER_DEFAULT.

#[global] Instance NetBearType_eq_dec : EqDecision NetBearType.
Proof. solve_decision. Defined.

Definition NetBearType_num (b : NetBearType) : Z :=
  match b with
  | BEARER_CELLULAR => 0 | BEARER_WIFI => 1 | BEARER_BLUETOOTH => 2 | BEARER_ETHERNET => 3
  | BEARER_VPN => 4 | BEARER_WIFI_AWARE => 5 | BEARER_DEFAULT => 6
  end.

Definition NetBearType_of (n : Z) : option NetBearType :=
  match n with
  | 0 => Some BEARER_CELLULAR | 1 => Some BEARER_WIFI | 2 => Some BEARER_BLUETOOTH
  | 3 => Some BEARER_ETHERNET | 4 => Some BEARER_VPN | 5 => Some BEARER_WIFI_AWARE
  | 6 => Some BEARER_DEFAULT | _ => None
  end.

#[global] Instance NetBearType_countable : Countable NetBearType.
Proof. apply (inj_countable NetBearType_num NetBearType_of). by intros []. Defined.

(** ** The bit set

    [1 << cap] is an [int]; combined with the unsigned [caps_] it is converted
    modulo [2^32]. *)
Definition IsValidNetCap (cap : Z) : bool :=
  (NET_CAPABILITY_MMS <=? cap) && (cap <? NET_CAPABILITY_END).

Definition InsertNetCap (cap caps : Z) : Z :=
  if IsValidNetCap cap then Z.lor caps (u32 (Z.shiftl 1 cap)) else caps.

Definition RemoveNetCap (cap caps : Z) : Z :=
  if IsValidNetCap cap then Z.land caps (u32 (Z.lnot (Z.shiftl 1 cap))) else caps.

(** [(caps_ >> cap) & 1], converted to [bool].  The source leaves the shift
    undefined for [cap >= 32]; the laws below are stated for valid ones. *)
Definition HasNetCap (cap caps : Z) : bool :=
  negb (Z.land (Z.shiftr caps cap) 1 =? 0).

Definition HasNetCaps (set : gset Z) (caps : Z) : bool :=
  forallb (fun cap => HasNetCap cap caps) (elements set).

(** [NetCaps::NetCaps(const std::set<NetCap> &)]. *)
Definition of_set (set : gset Z) : Z := foldr InsertNetCap 0 (elements set).

(** [for (cap = 0; cap < NET_CAPABILITY_END; cap++)]. *)
Definition ToSet (caps : Z) : gset Z :=
  foldr (fun cap acc => if HasNetCap cap caps then {[cap]} ∪ acc else acc) ∅
    (seqZ 0 NET_CAPABILITY_END).

(** ** Laws *)

Lemma HasNetCap_testbit cap caps : 0 <= cap -> HasNetCap cap caps = Z.testbit caps cap.
Proof.
  intros Hc. unfold HasNetCap.
  replace (Z.land (Z.shiftr caps cap) 1) with ((Z.shiftr caps cap) mod 2)
    by (symmetry; apply (Z.land_ones _ 1); lia).
  rewrite <- Z.bit0_mod, Z.shiftr_spec by lia.
  replace (0 + cap) with cap by lia. by destruct (Z.testbit caps cap).
Qed.

Lemma IsValidNetCap_spec cap : IsValidNetCap cap = true <-> 0 <= cap < 32.
Proof. unfold IsValidNetCap, NET_CAPABILITY_MMS, NET_CAPABILITY_END. rewrite andb_true_iff. lia. Qed.

Lemma pow_bit cap i : 0 <= cap < 32 -> Z.testbit (u32 (Z.shiftl 1 cap)) i = bool_decide (i = cap).
Proof.
  intros Hc. rewrite testbit_wrap, Z.shiftl_1_l by lia. destruct (Z_lt_le_dec i 0) as [Hn|Hn].
  { rewrite Z.testbit_neg_r, andb_false_r by done. rewrite bool_decide_eq_false_2 by lia. done. }
  rewrite Z.pow2_bits_eqb by lia. destruct (Z.eqb_spec cap i) as [->|Hne].
  - by rewrite !bool_decide_eq_true_2 by lia.
  - by rewrite andb_false_r, bool_decide_eq_false_2 by lia.
Qed.

Lemma npow_bit cap i : 0 <= cap < 32 -> 0 <= i < 32 ->
  Z.testbit (u32 (Z.lnot (Z.shiftl 1 cap))) i = bool_decide (i <> cap).
Proof.
  intros Hc Hi. rewrite testbit_wrap, Z.lnot_spec, Z.shiftl_1_l, Z.pow2_bits_eqb by lia.
  rewrite bool_decide_eq_true_2 by lia. simpl.
  destruct (Z.eqb_spec cap i) as [->|Hne].
  - by rewrite bool_decide_eq_false_2 by congruence.
  - by rewrite bool_decide_eq_true_2 by congruence.
Qed.

Lemma Has_Insert cap caps i : 0 <= cap < 32 -> 0 <= i ->
  HasNetCap i (InsertNetCap cap caps) = bool_decide (i = cap) || HasNetCap i caps.
Proof.
  intros Hc Hi. unfold InsertNetCap. rewrite (proj2 (IsValidNetCap_spec cap)) by done.
  rewrite !HasNetCap_testbit, Z.lor_spec, pow_bit by done. apply orb_comm.
Qed.

Lemma Has_Remove cap caps i : 0 <= cap < 32 -> 0 <= i < 32 ->
  HasNetCap i (RemoveNetCap cap caps) = bool_decide (i <> cap) && HasNetCap i caps.
Proof.
  intros Hc Hi. unfold RemoveNetCap. rewrite (proj2 (IsValidNetCap_spec cap)) by done.
  rewrite !HasNetCap_testbit, Z.land_spec, npow_bit by lia. apply andb_comm.
Qed.

Lemma Insert_width cap caps : in_width 32 caps -> in_width 32 (InsertNetCap cap caps).
Proof.
  intros H. unfold InsertNetCap. case_match; [|done].
  apply lor_width; [lia|done|]. by apply wrap_range.
Qed.

Lemma Remove_width cap caps : in_width 32 caps -> in_width 32 (RemoveNetCap cap caps).
Proof.
  intros H. unfold RemoveNetCap. case_match; [|done].
  apply land_width; [lia|done|]. by apply wrap_range.
Qed.

(** The set a bit set denotes. *)
Lemma elem_of_ToSet caps i : i ∈ ToSet caps <-> 0 <= i < 32 /\ HasNetCap i caps = true.
Proof.
  unfold ToSet.
  assert (G : forall l, i ∈ foldr (fun cap acc => if HasNetCap cap caps then {[cap]} ∪ acc else acc)
                              (∅ : gset Z) l <-> i ∈ l /\ HasNetCap i caps = true).
  { induction l as [|c l IH]; simpl; [set_solver|].
    destruct (HasNetCap c caps) eqn:E; rewrite elem_of_cons.
    - rewrite elem_of_union, elem_of_singleton, IH. naive_solver.
    - rewrite IH. naive_solver congruence. }
  rewrite G, elem_of_seqZ. unfold NET_CAPABILITY_END. split; intros [? ?]; (split; [lia|done]).
Qed.

Lemma Has_of_list l i : Forall (fun c => 0 <= c < 32) l -> 0 <= i ->
  HasNetCap i (foldr InsertNetCap 0 l) = bool_decide (i ∈ l).
Proof.
  intros Hl Hi. induction Hl as [|c l Hc Hl IH]; simpl.
  - by rewrite HasNetCap_testbit, Z.bits_0 by done.
  - rewrite Has_Insert, IH by done. apply eq_true_iff_eq.
    rewrite orb_true_iff, !bool_decide_eq_true, elem_of_cons. done.
Qed.

Definition caps_valid (set : gset Z) : Prop := forall c, c ∈ set -> 0 <= c < 32.

Lemma Has_of_set set i : caps_valid set -> 0 <= i -> HasNetCap i (of_set set) = bool_decide (i ∈ set).
Proof.
  intros Hv Hi. unfold of_set. rewrite Has_of_list; [|apply Forall_forall; intros c; rewrite elem_of_elements; apply Hv|done].
  apply bool_decide_ext. by rewrite elem_of_elements.
Qed.

Lemma of_set_width set : in_width 32 (of_set set).
Proof.
  unfold of_set. induction (elements set) as [|c l IH]; simpl; [by unfold in_width|]. by apply Insert_width.
Qed.

Lemma HasNetCaps_subset set caps : caps_valid set -> HasNetCaps set caps = bool_decide (set ⊆ ToSet caps).
Proof.
  intros Hv. apply eq_true_iff_eq. unfold HasNetCaps. rewrite forallb_forall, bool_decide_eq_true. split.
  - intros H c Hc. apply elem_of_ToSet. split; [by apply Hv|].
    apply H. by apply list_elem_of_In, elem_of_elements.
  - intros H c Hc. apply list_elem_of_In, elem_of_elements in Hc. by apply H, elem_of_ToSet in Hc as [_ ?].
Qed.

Lemma caps_ext a b : in_width 32 a -> in_width 32 b ->
  (forall i, 0 <= i < 32 -> HasNetCap i a = HasNetCap i b) -> a = b.
Proof.
  intros Ha Hb H. apply Z.bits_inj'. intros i Hi. destruct (Z_lt_le_dec i 32) as [Hl|Hl].
  - rewrite <- !HasNetCap_testbit by lia. apply H. lia.
  - by rewrite (testbit_high 32 a), (testbit_high 32 b) by lia || done.
Qed.

Lemma ToSet_of_set_spec set : caps_valid set -> ToSet (of_set set) = set.
Proof.
  intros Hv. apply set_eq. intros i. rewrite elem_of_ToSet. split.
  - intros [Hi H]. rewrite Has_of_set in H by (done || lia). by apply bool_decide_eq_true in H.
  - intros Hi. split; [by apply Hv|]. rewrite Has_of_set; [by apply bool_decide_eq_true|done|]. by apply Hv in Hi; lia.
Qed.

Lemma ToSet_valid caps : caps_valid (ToSet caps).
Proof. intros c Hc. by apply elem_of_ToSet in Hc as [? _]. Qed.

Lemma of_set_ToSet_spec caps : in_width 32 caps -> of_set (ToSet caps) = caps.
Proof.
  intros Hw. apply caps_ext; [apply of_set_width|done|]. intros i Hi.
  rewrite Has_of_set by (apply ToSet_valid || lia). apply eq_true_iff_eq.
  rewrite bool_decide_eq_true, elem_of_ToSet. naive_solver.
Qed.

Lemma ToSet_Insert cap caps : 0 <= cap < 32 -> ToSet (InsertNetCap cap caps) = {[cap]} ∪ ToSet caps.
Proof.
  intros Hc. apply set_eq. intros i. rewrite elem_of_union, elem_of_singleton, !elem_of_ToSet. split.
  - intros [Hi H]. rewrite Has_Insert in H by (done || lia).
    apply orb_true_iff in H as [H|H]; [left; by apply bool_decide_eq_true in H|by right].
  - intros [->|[Hi H]]; (split; [done|]); rewrite Has_Insert by (done || lia).
    + by rewrite bool_decide_eq_true_2.
    + by rewrite H, orb_true_r.
Qed.

Lemma ToSet_Remove cap caps : 0 <= cap < 32 -> ToSet (RemoveNetCap cap caps) = ToSet caps ∖ {[cap]}.
Proof.
  intros Hc. apply set_eq. intros i. rewrite elem_of_difference, elem_of_singleton, !elem_of_ToSet. split.
  - intros [Hi H]. rewrite Has_Remove in H by done. apply andb_true_iff in H as [H ?].
    by apply bool_decide_eq_true in H.
  - intros [[Hi H] Hne]. split; [done|]. rewrite Has_Remove by done. by rewrite H, bool_decide_eq_true_2.
Qed.

Lemma Has_ToSet cap caps : 0 <= cap < 32 -> HasNetCap cap caps = bool_decide (cap ∈ ToSet caps).
Proof. intros Hc. apply eq_true_iff_eq. rewrite bool_decide_eq_true, elem_of_ToSet. naive_solver. Qed.

(** The 32-bit encoding of capability sets is a bijection between the sets of valid capabilities and the 32-bit words: building a [NetCaps] from a set and reading it back with [ToSet] gives the set, and every word is rebuilt from its set; insertion and removal of a valid capability are the set operations under it, and [HasNetCaps] is set inclusion. *)
Theorem netcaps_set_encoding caps set cap : in_width 32 caps -> caps_valid set -> 0 <= cap < 32 ->
  ToSet (of_set set) = set /\ of_set (ToSet caps) = caps /\
  ToSet (InsertNetCap cap caps) = {[cap]} ∪ ToSet caps /\
  ToSet (RemoveNetCap cap caps) = ToSet caps ∖ {[cap]} /\
  HasNetCaps set caps = bool_decide (set ⊆ ToSet caps).
Proof.
  intros Hw Hv Hc. split_and!.
  - by apply ToSet_of_set_spec.
  - by apply of_set_ToSet_spec.
  - by apply ToSet_Insert.
  - by apply ToSet_Remove.
  - by apply HasNetCaps_subset.
Qed.

Lemma netcaps_set_encoding_witness :
  ToSet (of_set {[12; 16; 31]}) = {[12; 16; 31]} /\ of_set (ToSet 4096) = 4096 /\
  ToSet (InsertNetCap 31 4096) = {[31]} ∪ ToSet 4096 /\
  ToSet (RemoveNetCap 31 4096) = ToSet 4096 ∖ {[31]} /\
  HasNetCaps {[12; 16; 31]} 4096 = bool_decide ({[12; 16; 31]} ⊆ ToSet 4096).
Proof.
  apply (netcaps_set_encoding 4096 {[12; 16; 31]} 31).
  - by unfold in_width.
  - intros c. rewrite !elem_of_union, !elem_of_singleton. lia.
  - lia.
Defined.

End NetCaps.
