(* ===== verification/NetData.v ===== *)
(** * Connection data and the interfaces between the connection components

    The records the connection manager passes around
    ([interfaces/innerkits]: link information, supplier information, requests,
    specifiers), the result codes, and two interfaces:

    - [Outside W]: what a supplier calls outside of the process, the remote
      supplier callback and the native DNS cache.  A call takes the state [W]
      of the rest of the system and returns it changed, so nothing is assumed
      about what happens there;
    - [INetwork W N]: what a supplier uses of its [Network] object, with the
      laws ([NetworkLaws]) the suppliers' theorems rely on. *)

From S2P Require Import Prelude NetCaps.
Import NetCaps.

Module NetData.

Definition NETMANAGER_SUCCESS : Z := 0.
Definition NETMANAGER_ERR_LOCAL_PTR_NULL : Z := 2100105.
Definition NETMANAGER_ERR_PARAMETER_ERROR : Z := 401.
Definition NET_CONN_ERR_NET_TYPE_NOT_FOUND : Z := 2101003.
Definition NET_CONN_ERR_CALLBACK_NOT_FOUND : Z := 2101007.
Definition NET_CONN_ERR_SAME_CALLBACK : Z := 2101008.
Definition NET_CONN_ERR_INVALID_NETWORK : Z := 2101013.
Definition NET_CONN_ERR_SERVICE_UPDATE_NET_LINK_INFO_FAIL : Z := 2101015.
Definition NET_CONN_ERR_NO_SUPPLIER : Z := 2101016.
Definition NET_CONN_ERR_SERVICE_NO_REQUEST : Z := 2101018.
Definition NET_CONN_ERR_NET_OVER_MAX_REQUEST_NUM : Z := 2101022.
Definition NET_CONN_ERR_POLICY_DISABLED : Z := 2101024.
Definition INVALID_NET_ID : Z := 0.

Inductive NetDetectionStatus :=
  UNKNOWN_STATE | INVALID_DETECTION_STATE | VERIFICATION_STATE | CAPTIVE_PORTAL_STATE
| QUALITY_POOR_STATE | QUALITY_NORMAL_STATE | QUALITY_GOOD_STATE | ACCEPT_UNVALIDATED.

#[global] Instance NetDetectionStatus_eq_dec : EqDecision NetDetectionStatus.
Proof. solve_decision. Defined.

Inductive NetConnState :=
  NET_CONN_STATE_UNKNOWN | NET_CONN_STATE_IDLE | NET_CONN_STATE_CONNECTING
| NET_CONN_STATE_CONNECTED | NET_CONN_STATE_DISCONNECTING | NET_CONN_STATE_DISCONNECTED.

#[global] Instance NetConnState_eq_dec : EqDecision NetConnState.
Proof. solve_decision. Defined.

(** [enum IpType] of [INetAddr]. *)
Definition IP_UNKNOWN : Z := 0.
Definition IPV4 : Z := 1.
Definition IPV6 : Z := 2.

Record INetAddr := mkINetAddr {
  type_ : Z; family_ : Z; prefixlen_ : Z;
  address_ : string; netMask_ : string; hostName_ : string; port_ : Z;
}.

(** [INetAddr::operator==] compares every field. *)
#[global] Instance INetAddr_eq_dec : EqDecision INetAddr.
Proof. solve_decision. Defined.

Definition RTN_UNICAST : Z := 1.

Record Route := mkRoute {
  iface_ : string; destination_ : INetAddr; gateway_ : INetAddr;
  rtnType_ : Z; rt_mtu_ : Z; isHost_ : bool; hasGateway_ : bool;
  isDefaultRoute_ : bool; isExcludedRoute_ : bool;
}.

(** [Route::operator==] compares only these four fields. *)
Definition Route_eqb (a b : Route) : bool :=
  bool_decide (iface_ a = iface_ b) && bool_decide (destination_ a = destination_ b)
  && bool_decide (gateway_ a = gateway_ b) && eqb (isExcludedRoute_ a) (isExcludedRoute_ b).

Definition IsIpv6Default (r : Route) : bool :=
  (rtnType_ r =? RTN_UNICAST) && (prefixlen_ (destination_ r) =? 0) && (type_ (destination_ r) =? IPV6).
Definition IsIpv4Default (r : Route) : bool :=
  (rtnType_ r =? RTN_UNICAST) && (prefixlen_ (destination_ r) =? 0) && (type_ (destination_ r) =? IPV4).

Record HttpProxy := mkHttpProxy {
  host_ : string; proxy_port_ : Z; username_ : string; password_ : string; exclusionList_ : list string;
  userId_ : Z;
}.

(** [HttpProxy::operator==] compares everything but the user. *)
Definition HttpProxy_eqb (a b : HttpProxy) : bool :=
  bool_decide (host_ a = host_ b) && (proxy_port_ a =? proxy_port_ b)
  && bool_decide (exclusionList_ a = exclusionList_ b)
  && bool_decide (username_ a = username_ b) && bool_decide (password_ a = password_ b).

Record NetLinkInfo := mkNetLinkInfo {
  ifaceName_ : string; domain_ : string;
  netAddrList_ : list INetAddr; dnsList_ : list INetAddr; routeList_ : list Route;
  mtu_ : Z; tcpBufferSizes_ : string; ident_ : string; httpProxy_ : HttpProxy;
  isIpv4LinkValid_ : bool; isIpv6LinkValid_ : bool; isUserDefinedDnsServer_ : bool;
}.

Definition set_ident (i : string) (l : NetLinkInfo) : NetLinkInfo :=
  mkNetLinkInfo (ifaceName_ l) (domain_ l) (netAddrList_ l) (dnsList_ l) (routeList_ l) (mtu_ l)
    (tcpBufferSizes_ l) i (httpProxy_ l) (isIpv4LinkValid_ l) (isIpv6LinkValid_ l)
    (isUserDefinedDnsServer_ l).

Definition HasNetAddr (a : INetAddr) (l : NetLinkInfo) : bool := bool_decide (a ∈ netAddrList_ l).
Definition HasRoute (r : Route) (l : NetLinkInfo) : bool := existsb (fun x => Route_eqb x r) (routeList_ l).
Definition HasIpv6DefaultRoute (l : NetLinkInfo) : bool := existsb IsIpv6Default (routeList_ l).
Definition HasIpv4DefaultRoute (l : NetLinkInfo) : bool := existsb IsIpv4Default (routeList_ l).
Definition HasIpv4Address (l : NetLinkInfo) : bool := existsb (fun a => type_ a =? IPV4) (netAddrList_ l).
Definition HasIpv4DnsServer (l : NetLinkInfo) : bool := existsb (fun a => type_ a =? IPV4) (dnsList_ l).
Definition IsIpv4Provisioned (l : NetLinkInfo) : bool :=
  HasIpv4DefaultRoute l && HasIpv4Address l && HasIpv4DnsServer l.

Record NetAllCapabilities := mkNetAllCapabilities {
  linkUpBandwidthKbps_ : Z; linkDownBandwidthKbps_ : Z;
  all_netCaps_ : gset Z; bearerTypes_ : gset NetBearType;
}.

Record NetSpecifier := mkNetSpecifier { spec_ident_ : string; netCapabilities_ : NetAllCapabilities }.

Record NetSupplierInfo := mkNetSupplierInfo {
  isAvailable_ : bool; isRoaming_ : bool; strength_ : Z; frequency_ : Z;
  info_linkUp_ : Z; info_linkDown_ : Z; info_uid_ : Z; info_ident_ : string; score_ : Z;
}.

Definition default_NetSupplierInfo : NetSupplierInfo := mkNetSupplierInfo false false 0 0 0 0 0 "" 0.

(** [enum RegisterType { UNKOWN, REGISTER, REQUEST }]. *)
Definition UNKOWN : Z := 0.
Definition REGISTER : Z := 1.
Definition REQUEST : Z := 2.

Record NetRequest := mkNetRequest {
  uid : Z; requestId : Z; registerType : Z; isControlled : bool;
  ident : string; bearTypes : gset NetBearType; netCaps : gset Z;
}.

(** [NetRequest() = default] and the constructor with its default arguments. *)
Definition default_NetRequest : NetRequest := mkNetRequest 0 0 REGISTER false "" ∅ ∅.
Definition NetRequest_of (u reqId regType : Z) : NetRequest := mkNetRequest u reqId regType false "" ∅ ∅.

(** ** What lies outside *)

Class Outside (W : Type) := {
  (** [INetSupplierCallback::RequestNetwork] and [ReleaseNetwork] on the
      callback object with the given identity. *)
  RequestNetwork : Z -> string -> gset Z -> NetRequest -> W -> Z * W;
  ReleaseNetwork : Z -> NetRequest -> W -> Z * W;
  (** [NetsysController::FlushDnsCache]. *)
  FlushDnsCache : Z -> W -> Z * W;
}.

Class INetwork (W N : Type) := {
  net_GetNetId : N -> Z;
  net_IsConnecting : N -> bool;
  net_IsConnected : N -> bool;
  net_GetHttpProxy : N -> HttpProxy;
  net_GetNetLinkInfo : N -> NetLinkInfo;
  net_UpdateBasicNetwork : bool -> N -> W -> bool * N * W;
  net_UpdateNetLinkInfo : NetLinkInfo -> N -> W -> bool * N * W;
  net_UpdateNetConnState : NetConnState -> N -> W -> N * W;
  net_SetDefaultNetWork : N -> W -> N * W;
  net_ClearDefaultNetWorkNetId : N -> W -> N * W;
  net_UpdateGlobalHttpProxy : HttpProxy -> N -> W -> N * W;
  net_ResumeNetworkInfo : N -> W -> bool * N * W;
}.

(** What the suppliers rely on: the identifier of a network never changes,
    and its connection state changes only through [UpdateNetConnState], which
    makes a network connected exactly when it is told so. *)
Class NetworkLaws (W N : Type) `{INetwork W N} := {
  nl_id_basic b n w : net_GetNetId (net_UpdateBasicNetwork b n w).1.2 = net_GetNetId n;
  nl_id_link l n w : net_GetNetId (net_UpdateNetLinkInfo l n w).1.2 = net_GetNetId n;
  nl_id_state c n w : net_GetNetId (net_UpdateNetConnState c n w).1 = net_GetNetId n;
  nl_id_default n w : net_GetNetId (net_SetDefaultNetWork n w).1 = net_GetNetId n;
  nl_id_clear n w : net_GetNetId (net_ClearDefaultNetWorkNetId n w).1 = net_GetNetId n;
  nl_conn_basic b n w : net_IsConnected (net_UpdateBasicNetwork b n w).1.2 = net_IsConnected n;
  nl_conn_link l n w : net_IsConnected (net_UpdateNetLinkInfo l n w).1.2 = net_IsConnected n;
  nl_conn_state c n w :
    net_IsConnected (net_UpdateNetConnState c n w).1 = bool_decide (c = NET_CONN_STATE_CONNECTED);
  nl_conn_default n w : net_IsConnected (net_SetDefaultNetWork n w).1 = net_IsConnected n;
  nl_conn_clear n w : net_IsConnected (net_ClearDefaultNetWorkNetId n w).1 = net_IsConnected n;
}.

End NetData.
