(* ===== verification/NetSupplier.v ===== *)
(** * Network suppliers

    [services/netconnmanager/src/net_supplier.cpp]: a supplier is a bearer
    (cellular, Wi-Fi, ...) registered with the connection manager.  It keeps
    its capabilities twice, as the bit set [netCaps_] and as the set in
    [netAllCapabilities_], the identifiers of the requests it serves
    ([requestList_]) and of those it is the best network for
    ([bestReqList_]), and the state that its score is computed from.

    Every operation takes the supplier and, where it calls outside, the state
    [w] of the rest of the system ([NetData.Outside]); its [Network] object is
    used through [NetData.INetwork].  An operation that would dereference the
    null [network_] returns [None]. *)

From S2P Require Import Prelude NetCaps NetData.
Import NetCaps NetData.

Module NetSupplier.

Section supplier.
Context {W N : Type} `{!Outside W} `{!INetwork W N}.

Record NetSupplier := mkNetSupplier {
  netSupplierType_ : NetBearType;
  netSupplierIdent_ : string;
  netCaps_ : Z;
  netSupplierInfo_ : NetSupplierInfo;
  netAllCapabilities_ : NetAllCapabilities;
  supplierId_ : Z;
  netScore_ : Z;
  requestList_ : gset Z;
  bestReqList_ : gset Z;
  netController_ : option Z;
  network_ : option N;
  netHandle_ : option Z;
  restrictBackground_ : bool;
  supType_ : Z;
  netQuality_ : NetDetectionStatus;
  isFirstTimeDetectionDone : bool;
  isAcceptUnvaliad : bool;
  sup_uid_ : Z;
  netExtAttribute_ : string;
  isOnceSuppress_ : bool;
  netRequest_ : NetRequest;
}.

Definition set_netSupplierIdent_ (v : string) (s : NetSupplier) : NetSupplier :=
  mkNetSupplier
    (netSupplierType_ s) v (netCaps_ s) (netSupplierInfo_ s) (netAllCapabilities_ s)
    (supplierId_ s) (netScore_ s) (requestList_ s) (bestReqList_ s) (netController_ s) (network_ s)
    (netHandle_ s) (restrictBackground_ s) (supType_ s) (netQuality_ s)
    (isFirstTimeDetectionDone s) (isAcceptUnvaliad s) (sup_uid_ s) (netExtAttribute_ s)
    (isOnceSuppress_ s) (netRequest_ s).
Definition set_netCaps_ (v : Z) (s : NetSupplier) : NetSupplier :=
  mkNetSupplier
    (netSupplierType_ s) (netSupplierIdent_ s) v (netSupplierInfo_ s) (netAllCapabilities_ s)
    (supplierId_ s) (netScore_ s) (requestList_ s) (bestReqList_ s) (netController_ s) (network_ s)
    (netHandle_ s) (restrictBackground_ s) (supType_ s) (netQuality_ s)
    (isFirstTimeDetectionDone s) (isAcceptUnvaliad s) (sup_uid_ s) (netExtAttribute_ s)
    (isOnceSuppress_ s) (netRequest_ s).
Definition set_netSupplierInfo_ (v : NetSupplierInfo) (s : NetSupplier) : NetSupplier :=
  mkNetSupplier
    (netSupplierType_ s) (netSupplierIdent_ s) (netCaps_ s) v (netAllCapabilities_ s)
    (supplierId_ s) (netScore_ s) (requestList_ s) (bestReqList_ s) (netController_ s) (network_ s)
    (netHandle_ s) (restrictBackground_ s) (supType_ s) (netQuality_ s)
    (isFirstTimeDetectionDone s) (isAcceptUnvaliad s) (sup_uid_ s) (netExtAttribute_ s)
    (isOnceSuppress_ s) (netRequest_ s).
Definition set_netAllCapabilities_ (v : NetAllCapabilities) (s : NetSupplier) : NetSupplier :=
  mkNetSupplier
    (netSupplierType_ s) (netSupplierIdent_ s) (netCaps_ s) (netSupplierInfo_ s) v (supplierId_ s)
    (netScore_ s) (requestList_ s) (bestReqList_ s) (netController_ s) (network_ s) (netHandle_ s)
    (restrictBackground_ s) (supType_ s) (netQuality_ s) (isFirstTimeDetectionDone s)
    (isAcceptUnvaliad s) (sup_uid_ s) (netExtAttribute_ s) (isOnceSuppress_ s) (netRequest_ s).
Definition set_netScore_ (v : Z) (s : NetSupplier) : NetSupplier :=
  mkNetSupplier
    (netSupplierType_ s) (netSupplierIdent_ s) (netCaps_ s) (netSupplierInfo_ s)
    (netAllCapabilities_ s) (supplierId_ s) v (requestList_ s) (bestReqList_ s) (netController_ s)
    (network_ s) (netHandle_ s) (restrictBackground_ s) (supType_ s) (netQuality_ s)
    (isFirstTimeDetectionDone s) (isAcceptUnvaliad s) (sup_uid_ s) (netExtAttribute_ s)
    (isOnceSuppress_ s) (netRequest_ s).
Definition set_requestList_ (v : gset Z) (s : NetSupplier) : NetSupplier :=
  mkNetSupplier
    (netSupplierType_ s) (netSupplierIdent_ s) (netCaps_ s) (netSupplierInfo_ s)
    (netAllCapabilities_ s) (supplierId_ s) (netScore_ s) v (bestReqList_ s) (netController_ s)
    (network_ s) (netHandle_ s) (restrictBackground_ s) (supType_ s) (netQuality_ s)
    (isFirstTimeDetectionDone s) (isAcceptUnvaliad s) (sup_uid_ s) (netExtAttribute_ s)
    (isOnceSuppress_ s) (netRequest_ s).
Definition set_bestReqList_ (v : gset Z) (s : NetSupplier) : NetSupplier :=
  mkNetSupplier
    (netSupplierType_ s) (netSupplierIdent_ s) (netCaps_ s) (netSupplierInfo_ s)
    (netAllCapabilities_ s) (supplierId_ s) (netScore_ s) (requestList_ s) v (netController_ s)
    (network_ s) (netHandle_ s) (restrictBackground_ s) (supType_ s) (netQuality_ s)
    (isFirstTimeDetectionDone s) (isAcceptUnvaliad s) (sup_uid_ s) (netExtAttribute_ s)
    (isOnceSuppress_ s) (netRequest_ s).
Definition set_netController_ (v : option Z) (s : NetSupplier) : NetSupplier :=
  mkNetSupplier
    (netSupplierType_ s) (netSupplierIdent_ s) (netCaps_ s) (netSupplierInfo_ s)
    (netAllCapabilities_ s) (supplierId_ s) (netScore_ s) (requestList_ s) (bestReqList_ s) v
    (network_ s) (netHandle_ s) (restrictBackground_ s) (supType_ s) (netQuality_ s)
    (isFirstTimeDetectionDone s) (isAcceptUnvaliad s) (sup_uid_ s) (netExtAttribute_ s)
    (isOnceSuppress_ s) (netRequest_ s).
Definition set_network_ (v : option N) (s : NetSupplier) : NetSupplier :=
  mkNetSupplier
    (netSupplierType_ s) (netSupplierIdent_ s) (netCaps_ s) (netSupplierInfo_ s)
    (netAllCapabilities_ s) (supplierId_ s) (netScore_ s) (requestList_ s) (bestReqList_ s)
    (netController_ s) v (netHandle_ s) (restrictBackground_ s) (supType_ s) (netQuality_ s)
    (isFirstTimeDetectionDone s) (isAcceptUnvaliad s) (sup_uid_ s) (netExtAttribute_ s)
    (isOnceSuppress_ s) (netRequest_ s).
Definition set_netHandle_ (v : option Z) (s : NetSupplier) : NetSupplier :=
  mkNetSupplier
    (netSupplierType_ s) (netSupplierIdent_ s) (netCaps_ s) (netSupplierInfo_ s)
    (netAllCapabilities_ s) (supplierId_ s) (netScore_ s) (requestList_ s) (bestReqList_ s)
    (netController_ s) (network_ s) v (restrictBackground_ s) (supType_ s) (netQuality_ s)
    (isFirstTimeDetectionDone s) (isAcceptUnvaliad s) (sup_uid_ s) (netExtAttribute_ s)
    (isOnceSuppress_ s) (netRequest_ s).
Definition set_restrictBackground_ (v : bool) (s : NetSupplier) : NetSupplier :=
  mkNetSupplier
    (netSupplierType_ s) (netSupplierIdent_ s) (netCaps_ s) (netSupplierInfo_ s)
    (netAllCapabilities_ s) (supplierId_ s) (netScore_ s) (requestList_ s) (bestReqList_ s)
    (netController_ s) (network_ s) (netHandle_ s) v (supType_ s) (netQuality_ s)
    (isFirstTimeDetectionDone s) (isAcceptUnvaliad s) (sup_uid_ s) (netExtAttribute_ s)
    (isOnceSuppress_ s) (netRequest_ s).
Definition set_supType_ (v : Z) (s : NetSupplier) : NetSupplier :=
  mkNetSupplier
    (netSupplierType_ s) (netSupplierIdent_ s) (netCaps_ s) (netSupplierInfo_ s)
    (netAllCapabilities_ s) (supplierId_ s) (netScore_ s) (requestList_ s) (bestReqList_ s)
    (netController_ s) (network_ s) (netHandle_ s) (restrictBackground_ s) v (netQuality_ s)
    (isFirstTimeDetectionDone s) (isAcceptUnvaliad s) (sup_uid_ s) (netExtAttribute_ s)
    (isOnceSuppress_ s) (netRequest_ s).
Definition set_netQuality_ (v : NetDetectionStatus) (s : NetSupplier) : NetSupplier :=
  mkNetSupplier
    (netSupplierType_ s) (netSupplierIdent_ s) (netCaps_ s) (netSupplierInfo_ s)
    (netAllCapabilities_ s) (supplierId_ s) (netScore_ s) (requestList_ s) (bestReqList_ s)
    (netController_ s) (network_ s) (netHandle_ s) (restrictBackground_ s) (supType_ s) v
    (isFirstTimeDetectionDone s) (isAcceptUnvaliad s) (sup_uid_ s) (netExtAttribute_ s)
    (isOnceSuppress_ s) (netRequest_ s).
Definition set_isFirstTimeDetectionDone (v : bool) (s : NetSupplier) : NetSupplier :=
  mkNetSupplier
    (netSupplierType_ s) (netSupplierIdent_ s) (netCaps_ s) (netSupplierInfo_ s)
    (netAllCapabilities_ s) (supplierId_ s) (netScore_ s) (requestList_ s) (bestReqList_ s)
    (netController_ s) (network_ s) (netHandle_ s) (restrictBackground_ s) (supType_ s)
    (netQuality_ s) v (isAcceptUnvaliad s) (sup_uid_ s) (netExtAttribute_ s) (isOnceSuppress_ s)
    (netRequest_ s).
Definition set_isAcceptUnvaliad (v : bool) (s : NetSupplier) : NetSupplier :=
  mkNetSupplier
    (netSupplierType_ s) (netSupplierIdent_ s) (netCaps_ s) (netSupplierInfo_ s)
    (netAllCapabilities_ s) (supplierId_ s) (netScore_ s) (requestList_ s) (bestReqList_ s)
    (netController_ s) (network_ s) (netHandle_ s) (restrictBackground_ s) (supType_ s)
    (netQuality_ s) (isFirstTimeDetectionDone s) v (sup_uid_ s) (netExtAttribute_ s)
    (isOnceSuppress_ s) (netRequest_ s).
Definition set_sup_uid_ (v : Z) (s : NetSupplier) : NetSupplier :=
  mkNetSupplier
    (netSupplierType_ s) (netSupplierIdent_ s) (netCaps_ s) (netSupplierInfo_ s)
    (netAllCapabilities_ s) (supplierId_ s) (netScore_ s) (requestList_ s) (bestReqList_ s)
    (netController_ s) (network_ s) (netHandle_ s) (restrictBackground_ s) (supType_ s)
    (netQuality_ s) (isFirstTimeDetectionDone s) (isAcceptUnvaliad s) v (netExtAttribute_ s)
    (isOnceSuppress_ s) (netRequest_ s).
Definition set_netExtAttribute_ (v : string) (s : NetSupplier) : NetSupplier :=
  mkNetSupplier
    (netSupplierType_ s) (netSupplierIdent_ s) (netCaps_ s) (netSupplierInfo_ s)
    (netAllCapabilities_ s) (supplierId_ s) (netScore_ s) (requestList_ s) (bestReqList_ s)
    (netController_ s) (network_ s) (netHandle_ s) (restrictBackground_ s) (supType_ s)
    (netQuality_ s) (isFirstTimeDetectionDone s) (isAcceptUnvaliad s) (sup_uid_ s) v
    (isOnceSuppress_ s) (netRequest_ s).
Definition set_isOnceSuppress_ (v : bool) (s : NetSupplier) : NetSupplier :=
  mkNetSupplier
    (netSupplierType_ s) (netSupplierIdent_ s) (netCaps_ s) (netSupplierInfo_ s)
    (netAllCapabilities_ s) (supplierId_ s) (netScore_ s) (requestList_ s) (bestReqList_ s)
    (netController_ s) (network_ s) (netHandle_ s) (restrictBackground_ s) (supType_ s)
    (netQuality_ s) (isFirstTimeDetectionDone s) (isAcceptUnvaliad s) (sup_uid_ s)
    (netExtAttribute_ s) v (netRequest_ s).
Definition set_netRequest_ (v : NetRequest) (s : NetSupplier) : NetSupplier :=
  mkNetSupplier
    (netSupplierType_ s) (netSupplierIdent_ s) (netCaps_ s) (netSupplierInfo_ s)
    (netAllCapabilities_ s) (supplierId_ s) (netScore_ s) (requestList_ s) (bestReqList_ s)
    (netController_ s) (network_ s) (netHandle_ s) (restrictBackground_ s) (supType_ s)
    (netQuality_ s) (isFirstTimeDetectionDone s) (isAcceptUnvaliad s) (sup_uid_ s)
    (netExtAttribute_ s) (isOnceSuppress_ s) v.

(** The two assignments to fields of [netAllCapabilities_]. *)
Definition set_all_netCaps (f : gset Z -> gset Z) (s : NetSupplier) : NetSupplier :=
  let a := netAllCapabilities_ s in
  set_netAllCapabilities_ (mkNetAllCapabilities (linkUpBandwidthKbps_ a) (linkDownBandwidthKbps_ a)
    (f (all_netCaps_ a)) (bearerTypes_ a)) s.
Definition set_bandwidth (up down : Z) (s : NetSupplier) : NetSupplier :=
  let a := netAllCapabilities_ s in
  set_netAllCapabilities_ (mkNetAllCapabilities up down (all_netCaps_ a) (bearerTypes_ a)) s.

(** ** Scores *)

Definition NET_TYPE_SCORE_INTERVAL : Z := 10.
Definition NET_VALID_SCORE : Z := 4 * NET_TYPE_SCORE_INTERVAL.
Definition DIFF_SCORE_BETWEEN_GOOD_POOR : Z := 2 * NET_TYPE_SCORE_INTERVAL.
Definition MAX_SCORE : Z := 10 * NET_TYPE_SCORE_INTERVAL.

(** The table [netTypeScore_], without [ENABLE_WIFI_PRIORITY_ETHER]. *)
Definition netTypeScore_ (t : NetBearType) : option Z :=
  match t with
  | BEARER_CELLULAR => Some (6 * NET_TYPE_SCORE_INTERVAL)
  | BEARER_WIFI => Some (7 * NET_TYPE_SCORE_INTERVAL)
  | BEARER_BLUETOOTH => Some (5 * NET_TYPE_SCORE_INTERVAL)
  | BEARER_ETHERNET => Some (8 * NET_TYPE_SCORE_INTERVAL)
  | BEARER_VPN => Some (9 * NET_TYPE_SCORE_INTERVAL)
  | BEARER_WIFI_AWARE => Some (10 * NET_TYPE_SCORE_INTERVAL)
  | BEARER_DEFAULT => None
  end.

Definition InitNetScore (s : NetSupplier) : NetSupplier :=
  match netTypeScore_ (netSupplierType_ s) with
  | None => s
  | Some score => set_netScore_ score s
  end.

(** ** Queries *)

Definition sup_HasNetCap (cap : Z) (s : NetSupplier) : bool := HasNetCap cap (netCaps_ s).
Definition CompareNetCaps (caps : gset Z) (s : NetSupplier) : bool :=
  if bool_decide (caps = ∅) then true else HasNetCaps caps (netCaps_ s).
Definition IsAvailable (s : NetSupplier) : bool := isAvailable_ (netSupplierInfo_ s).
Definition GetNetId (s : NetSupplier) : Z :=
  match network_ s with None => INVALID_NET_ID | Some n => net_GetNetId n end.
Definition GetFrequency (s : NetSupplier) : Z := u16 (frequency_ (netSupplierInfo_ s)).
Definition IsConnecting (s : NetSupplier) : bool :=
  match network_ s with Some n => net_IsConnecting n | None => false end.
Definition IsConnected (s : NetSupplier) : bool :=
  match network_ s with Some n => net_IsConnected n | None => false end.
Definition GetHttpProxy (dflt : HttpProxy) (s : NetSupplier) : HttpProxy :=
  match network_ s with None => dflt | Some n => net_GetHttpProxy n end.
Definition IsNetQualityPoor (s : NetSupplier) : bool := bool_decide (netQuality_ s = QUALITY_POOR_STATE).
Definition IsNetAcceptUnavalidate (s : NetSupplier) : bool := bool_decide (netQuality_ s = ACCEPT_UNVALIDATED).
Definition IsOnceSuppress (s : NetSupplier) : bool :=
  if IsNetQualityPoor s then false else isOnceSuppress_ s.
Definition IsNetValidated (s : NetSupplier) : bool :=
  sup_HasNetCap NET_CAPABILITY_VALIDATED s && negb (sup_HasNetCap NET_CAPABILITY_CHECKING_CONNECTIVITY s).
Definition IsInFirstTimeDetecting (s : NetSupplier) : bool := negb (isFirstTimeDetectionDone s).
Definition HasBestRequest (reqId : Z) (s : NetSupplier) : bool := bool_decide (reqId ∈ bestReqList_ s).
Definition GetBestRequestSize (s : NetSupplier) : nat := size (bestReqList_ s).

Definition GetRealScore (s : NetSupplier) : Z :=
  if isAcceptUnvaliad s then MAX_SCORE
  else if IsInFirstTimeDetecting s then netScore_ s - NET_VALID_SCORE
  else if negb (IsNetValidated s) then netScore_ s - NET_VALID_SCORE
  else if IsNetQualityPoor s then netScore_ s - DIFF_SCORE_BETWEEN_GOOD_POOR
  else netScore_ s.

(** [TechToType] and [GetSupplierType]; the values of [NetSlotTech]. *)
Definition TechToType (techType : Z) : string :=
  if techType =? 1 then "2G"
  else if (techType =? 9) || (techType =? 10) then "4G"
  else "3G".
Definition SetSupplierType (type : Z) (s : NetSupplier) : NetSupplier := set_supType_ type s.
Definition GetSupplierType (s : NetSupplier) : string :=
  if supType_ s =? -1 then "" else TechToType (supType_ s).

(** ** Capabilities and detection *)

(** The file-local [RemoveNetCap]. *)
Definition sup_RemoveNetCap (cap : Z) (s : NetSupplier) : NetSupplier :=
  set_all_netCaps (fun c => c ∖ {[cap]}) (set_netCaps_ (RemoveNetCap cap (netCaps_ s)) s).

(** [netCaps_.InsertNetCap(cap); netAllCapabilities_.netCaps_.insert(cap);] *)
Definition sup_InsertNetCap (cap : Z) (s : NetSupplier) : NetSupplier :=
  set_all_netCaps (fun c => {[cap]} ∪ c) (set_netCaps_ (InsertNetCap cap (netCaps_ s)) s).

Definition SetOnceSuppress (s : NetSupplier) : NetSupplier :=
  set_isOnceSuppress_ (if IsAvailable s then false else true) s.

Definition insert_if_absent (cap : Z) (s : NetSupplier) : NetSupplier :=
  if sup_HasNetCap cap s then s else sup_InsertNetCap cap s.
Definition remove_if_present (cap : Z) (s : NetSupplier) : NetSupplier :=
  if sup_HasNetCap cap s then sup_RemoveNetCap cap s else s.

(** [None]: [network_->GetNetId()] with a null [network_]. *)
Definition SetNetValid (netState : NetDetectionStatus) (s : NetSupplier) (w : W) : option (NetSupplier * W) :=
  match netState with
  | VERIFICATION_STATE =>
      let s := insert_if_absent NET_CAPABILITY_VALIDATED s in
      if sup_HasNetCap NET_CAPABILITY_PORTAL s then
        let s := sup_RemoveNetCap NET_CAPABILITY_PORTAL s in
        match network_ s with
        | None => None
        | Some n => Some (s, (FlushDnsCache (u16 (net_GetNetId n)) w).2)
        end
      else Some (s, w)
  | CAPTIVE_PORTAL_STATE =>
      Some (remove_if_present NET_CAPABILITY_VALIDATED (insert_if_absent NET_CAPABILITY_PORTAL s), w)
  | QUALITY_POOR_STATE => Some (set_netQuality_ QUALITY_POOR_STATE s, w)
  | QUALITY_GOOD_STATE => Some (SetOnceSuppress (set_netQuality_ QUALITY_GOOD_STATE s), w)
  | ACCEPT_UNVALIDATED => Some (set_isAcceptUnvaliad true (set_netQuality_ ACCEPT_UNVALIDATED s), w)
  | UNKNOWN_STATE | INVALID_DETECTION_STATE | QUALITY_NORMAL_STATE =>
      Some (remove_if_present NET_CAPABILITY_PORTAL (remove_if_present NET_CAPABILITY_VALIDATED s), w)
  end.

Definition ResetNetSupplier (s : NetSupplier) (w : W) : option (NetSupplier * W) :=
  let s := set_netQuality_ QUALITY_NORMAL_STATE s in
  let s := set_isFirstTimeDetectionDone false s in
  let s := set_isAcceptUnvaliad false s in
  let s := set_isOnceSuppress_ false s in
  let s := set_netCaps_ (InsertNetCap NET_CAPABILITY_CHECKING_CONNECTIVITY (netCaps_ s)) s in
  match SetNetValid VERIFICATION_STATE s w with
  | None => None
  | Some (s, w) =>
      let s := set_all_netCaps (fun c => {[NET_CAPABILITY_CHECKING_CONNECTIVITY]} ∪ c) s in
      Some (set_netExtAttribute_ "" s, w)
  end.

(** The constructor; [id] is the value taken from [g_nextNetSupplierId++]. *)
Definition new_NetSupplier (bearerType : NetBearType) (identS : string) (caps : gset Z) (id : Z) (w : W)
  : option (NetSupplier * W) :=
  let s := mkNetSupplier bearerType identS (of_set caps) default_NetSupplierInfo
    (mkNetAllCapabilities 0 0 caps {[bearerType]}) id 0 ∅ ∅ None None None true (-1)
    QUALITY_NORMAL_STATE false false 0 "" false default_NetRequest in
  match ResetNetSupplier s w with
  | None => None
  | Some (s, w) => Some (InitNetScore s, w)
  end.

Definition SetDetectionDone (s : NetSupplier) : NetSupplier :=
  let s := if negb (isFirstTimeDetectionDone s) then set_isFirstTimeDetectionDone true s else s in
  remove_if_present NET_CAPABILITY_CHECKING_CONNECTIVITY s.

Definition SetReuseCap (reuseCap : Z) (add : bool) (s : NetSupplier) : NetSupplier :=
  if add then sup_InsertNetCap reuseCap s else sup_RemoveNetCap reuseCap s.

Definition UpdateNetCap (caps : gset Z) (s : NetSupplier) : NetSupplier :=
  set_all_netCaps (fun _ => caps) (set_netCaps_ (of_set caps) s).

Definition SetNetExtAttribute (a : string) (s : NetSupplier) : NetSupplier := set_netExtAttribute_ a s.
Definition SetUid (u : Z) (s : NetSupplier) : NetSupplier := set_sup_uid_ u s.
Definition SetRestrictBackground (b : bool) (s : NetSupplier) : NetSupplier := set_restrictBackground_ b s.

(** ** The network of the supplier *)

Definition SetNetwork (n : option N) (s : NetSupplier) : NetSupplier :=
  let s := set_network_ n s in
  match n with Some n => set_netHandle_ (Some (net_GetNetId n)) s | None => s end.

Definition UpdateNetConnState (c : NetConnState) (s : NetSupplier) (w : W) : NetSupplier * W :=
  match network_ s with
  | Some n => let '(n, w) := net_UpdateNetConnState c n w in (set_network_ (Some n) s, w)
  | None => (s, w)
  end.

Definition UpdateNetSupplierInfo (info : NetSupplierInfo) (s : NetSupplier) (w : W) : NetSupplier * W :=
  let oldAvailable := isAvailable_ (netSupplierInfo_ s) in
  let s := set_netSupplierInfo_ info s in
  let s := set_bandwidth (info_linkUp_ info) (info_linkDown_ info) s in
  let s := if bool_decide (info_ident_ info <> "") then set_netSupplierIdent_ (info_ident_ info) s else s in
  let s := if negb (score_ info =? 0) then set_netScore_ (score_ info) s else s in
  if eqb oldAvailable (isAvailable_ info) then (s, w)
  else match network_ s with
  | None => (s, w)
  | Some n =>
      let '(_, n, w) := net_UpdateBasicNetwork (isAvailable_ info) n w in
      let s := set_network_ (Some n) s in
      if negb (isAvailable_ info) then UpdateNetConnState NET_CONN_STATE_DISCONNECTED s w else (s, w)
  end.

Definition SIMID_IDENT_PREFIX : string := "simId".

(** The caller's [NetLinkInfo] is changed in place and is returned too. *)
Definition UpdateNetLinkInfo (link : NetLinkInfo) (s : NetSupplier) (w : W)
  : Z * NetLinkInfo * NetSupplier * W :=
  match network_ s with
  | None => (NET_CONN_ERR_INVALID_NETWORK, link, s, w)
  | Some n =>
      if negb (IsAvailable s) then (NET_CONN_ERR_INVALID_NETWORK, link, s, w)
      else
        let i := netSupplierIdent_ s in
        let len := String.length SIMID_IDENT_PREFIX in
        let link := if bool_decide (String.substring 0 len i = SIMID_IDENT_PREFIX)
                    then set_ident (String.substring len (String.length i - len) i) link else link in
        let '(ok, n, w) := net_UpdateNetLinkInfo link n w in
        let s := set_network_ (Some n) s in
        if negb ok then (NET_CONN_ERR_SERVICE_UPDATE_NET_LINK_INFO_FAIL, link, s, w)
        else let '(s, w) := UpdateNetConnState NET_CONN_STATE_CONNECTED s w in
             (NETMANAGER_SUCCESS, link, s, w)
  end.

Definition on_network (f : N -> W -> N * W) (s : NetSupplier) (w : W) : NetSupplier * W :=
  match network_ s with
  | Some n => let '(n, w) := f n w in (set_network_ (Some n) s, w)
  | None => (s, w)
  end.
Definition SetDefault : NetSupplier -> W -> NetSupplier * W := on_network net_SetDefaultNetWork.
Definition ClearDefault : NetSupplier -> W -> NetSupplier * W := on_network net_ClearDefaultNetWorkNetId.
Definition UpdateGlobalHttpProxy (p : HttpProxy) : NetSupplier -> W -> NetSupplier * W :=
  on_network (net_UpdateGlobalHttpProxy p).
Definition ResumeNetworkInfo (s : NetSupplier) (w : W) : bool * NetSupplier * W :=
  match network_ s with
  | None => (false, s, w)
  | Some n => let '(ok, n, w) := net_ResumeNetworkInfo n w in (ok, set_network_ (Some n) s, w)
  end.

(** ** Requests *)

Definition REG_OK : Z := 0.

Definition SupplierConnection (caps : gset Z) (req : NetRequest) (s : NetSupplier) (w : W) : bool * W :=
  match netController_ s with
  | None => (false, w)
  | Some c => let '(errCode, w) := RequestNetwork c (netSupplierIdent_ s) caps req w in (errCode =? REG_OK, w)
  end.

(** The request handed to [ReleaseNetwork]: a default [NetRequest] with these
    fields assigned. *)
Definition release_request (caps : gset Z) (req : NetRequest) (s : NetSupplier) : NetRequest :=
  mkNetRequest (uid req) (requestId req) (registerType req) (isControlled default_NetRequest)
    (netSupplierIdent_ s) (bearTypes req) caps.

Definition SupplierDisconnection (caps : gset Z) (req : NetRequest) (s : NetSupplier) (w : W) : bool * W :=
  match netController_ s with
  | None => (false, w)
  | Some c => let '(errCode, w) := ReleaseNetwork c (release_request caps req s) w in (errCode =? REG_OK, w)
  end.

Definition RegisterSupplierCallback (callback : option Z) (s : NetSupplier) (w : W) : NetSupplier * W :=
  let s := set_netController_ callback s in
  if bool_decide (callback <> None) && bool_decide (requestList_ s <> ∅)
  then (s, (SupplierConnection (ToSet (netCaps_ s)) (netRequest_ s) s w).2) else (s, w).

Definition AddRequest (req : NetRequest) (s : NetSupplier) (w : W) : bool * NetSupplier * W :=
  let isEmpty := bool_decide (requestList_ s = ∅) in
  let s := set_requestList_ ({[requestId req]} ∪ requestList_ s) s in
  let s := match netController_ s with None => set_netRequest_ req s | Some _ => s end in
  if isEmpty || bool_decide (netSupplierType_ s = BEARER_WIFI) || negb (IsAvailable s)
  then let '(r, w) := SupplierConnection (ToSet (netCaps_ s)) req s w in (r, s, w)
  else (true, s, w).

Definition RemoveRequest (req : NetRequest) (s : NetSupplier) (w : W) : bool * NetSupplier * W :=
  if bool_decide (requestId req ∉ requestList_ s) then (false, s, w)
  else
    let s := set_requestList_ (requestList_ s ∖ {[requestId req]}) s in
    let isEmpty := bool_decide (requestList_ s = ∅) in
    if isEmpty || bool_decide (netSupplierType_ s = BEARER_WIFI)
    then (true, s, (SupplierDisconnection (ToSet (netCaps_ s)) req s w).2)
    else (true, s, w).

Definition AddBestRequest (reqId : Z) (s : NetSupplier) : NetSupplier :=
  set_bestReqList_ ({[reqId]} ∪ bestReqList_ s) s.
Definition RemoveBestRequest (reqId : Z) (s : NetSupplier) : NetSupplier :=
  if bool_decide (reqId ∈ bestReqList_ s) then set_bestReqList_ (bestReqList_ s ∖ {[reqId]}) s else s.

Definition RequestToConnect (req : NetRequest) (s : NetSupplier) (w : W) : bool * NetSupplier * W :=
  if bool_decide (netSupplierType_ s = BEARER_CELLULAR) && isControlled req then (true, s, w)
  else AddRequest req s w.

Definition SelectAsBestNetwork (req : NetRequest) (s : NetSupplier) (w : W) : NetSupplier * W :=
  let '(_, s, w) :=
    if bool_decide (netSupplierType_ s <> BEARER_CELLULAR) || negb (isControlled req)
    then AddRequest req s w else RemoveRequest req s w in
  (AddBestRequest (requestId req) s, w).

Definition ReceiveBestScore (bestScore id : Z) (req : NetRequest) (s : NetSupplier) (w : W) : NetSupplier * W :=
  if id =? supplierId_ s then (s, w)
  else if bool_decide (requestId req ∉ requestList_ s) then (s, w)
  else if bestScore <=? netScore_ s then (s, w)
  else let '(_, s, w) := RemoveRequest req s w in (s, w).

Definition CancelRequest (req : NetRequest) (s : NetSupplier) (w : W) : Z * NetSupplier * W :=
  let s := RemoveBestRequest (requestId req) s in
  let '(ret, s, w) := RemoveRequest req s w in
  (if ret then NETMANAGER_SUCCESS else NET_CONN_ERR_SERVICE_NO_REQUEST, s, w).

End supplier.

Arguments NetSupplier : clear implicits.

(** ** Histories *)

Section theory.
Context {W N : Type} `{!Outside W} `{!INetwork W N} `{!NetworkLaws W N}.

Implicit Types (s : NetSupplier N) (w : W).
#[local] Opaque ToSet HasNetCap InsertNetCap RemoveNetCap of_set.

(** The operations of a supplier that change it, as steps, with capabilities of the
    enumeration (0 to 31).  The proxy and the resumption, which only reach the network
    object, are left out. *)
Inductive sup_step : NetSupplier N * W -> NetSupplier N * W -> Prop :=
| step_valid st s w s' w' : SetNetValid st s w = Some (s', w') -> sup_step (s, w) (s', w')
| step_reset s w s' w' : ResetNetSupplier s w = Some (s', w') -> sup_step (s, w) (s', w')
| step_score s w : sup_step (s, w) (InitNetScore s, w)
| step_done s w : sup_step (s, w) (SetDetectionDone s, w)
| step_reuse c add s w : 0 <= c < 32 -> sup_step (s, w) (SetReuseCap c add s, w)
| step_caps c s w : caps_valid c -> sup_step (s, w) (UpdateNetCap c s, w)
| step_ext a s w : sup_step (s, w) (SetNetExtAttribute a s, w)
| step_uid u s w : sup_step (s, w) (SetUid u s, w)
| step_restrict b s w : sup_step (s, w) (SetRestrictBackground b s, w)
| step_type t s w : sup_step (s, w) (SetSupplierType t s, w)
| step_network n s w : sup_step (s, w) (SetNetwork n s, w)
| step_conn c s w : sup_step (s, w) (UpdateNetConnState c s w)
| step_info i s w : sup_step (s, w) (UpdateNetSupplierInfo i s w)
| step_link l s w : sup_step (s, w) ((UpdateNetLinkInfo l s w).1.2, (UpdateNetLinkInfo l s w).2)
| step_default s w : sup_step (s, w) (SetDefault s w)
| step_clear s w : sup_step (s, w) (ClearDefault s w)
| step_callback c s w : sup_step (s, w) (RegisterSupplierCallback c s w)
| step_connect r s w : sup_step (s, w) ((RequestToConnect r s w).1.2, (RequestToConnect r s w).2)
| step_select r s w : sup_step (s, w) (SelectAsBestNetwork r s w)
| step_best sc i r s w : sup_step (s, w) (ReceiveBestScore sc i r s w)
| step_cancel r s w : sup_step (s, w) ((CancelRequest r s w).1.2, (CancelRequest r s w).2)
| step_unbest r s w : sup_step (s, w) (RemoveBestRequest r s, w).

(** A supplier some time after its construction. *)
Inductive sup_reachable : NetSupplier N * W -> Prop :=
| reach_new b i c id w s' w' : caps_valid c -> new_NetSupplier b i c id w = Some (s', w') -> sup_reachable (s', w')
| reach_step x y : sup_reachable x -> sup_step x y -> sup_reachable y.

(** The two representations of the capabilities agree, and the published
    handle names the supplier's network. *)
Definition caps_inv s : Prop :=
  in_width 32 (netCaps_ s) /\ ToSet (netCaps_ s) = all_netCaps_ (netAllCapabilities_ s).
Definition handle_inv s : Prop := forall n, network_ s = Some n -> netHandle_ s = Some (net_GetNetId n).

(** A supplier without its request lists. *)
Definition core s : NetSupplier N :=
  set_netRequest_ default_NetRequest (set_bestReqList_ ∅ (set_requestList_ ∅ s)).

(** *** Frame lemmas *)

Lemma caps_inv_core s s' : core s = core s' -> caps_inv s -> caps_inv s'.
Proof. intros E. change (caps_inv (core s) -> caps_inv (core s')). by rewrite E. Qed.
Lemma handle_inv_core s s' : core s = core s' -> handle_inv s -> handle_inv s'.
Proof. intros E. change (handle_inv (core s) -> handle_inv (core s')). by rewrite E. Qed.

Lemma AddRequest_core r s w : core (AddRequest r s w).1.2 = core s.
Proof. unfold AddRequest. by repeat (case_match; simplify_eq/=). Qed.
Lemma RemoveRequest_core r s w : core (RemoveRequest r s w).1.2 = core s.
Proof. unfold RemoveRequest. by repeat (case_match; simplify_eq/=). Qed.
Lemma RequestToConnect_core r s w : core (RequestToConnect r s w).1.2 = core s.
Proof. unfold RequestToConnect. case_match; [done|apply AddRequest_core]. Qed.
Lemma RemoveBestRequest_core r s : core (RemoveBestRequest r s) = core s.
Proof. unfold RemoveBestRequest. by case_match. Qed.
Lemma SelectAsBestNetwork_core r s w : core (SelectAsBestNetwork r s w).1 = core s.
Proof.
  pose proof (AddRequest_core r s w) as H1. pose proof (RemoveRequest_core r s w) as H2.
  unfold SelectAsBestNetwork. destruct (_ || _).
  - destruct (AddRequest r s w) as [[? s1] ?]. exact H1.
  - destruct (RemoveRequest r s w) as [[? s1] ?]. exact H2.
Qed.
Lemma ReceiveBestScore_core sc i r s w : core (ReceiveBestScore sc i r s w).1 = core s.
Proof.
  pose proof (RemoveRequest_core r s w) as H1.
  unfold ReceiveBestScore. repeat (case_match; [done|]).
  destruct (RemoveRequest r s w) as [[? s1] ?]. exact H1.
Qed.
Lemma CancelRequest_core r s w : core (CancelRequest r s w).1.2 = core s.
Proof.
  unfold CancelRequest. destruct (RemoveRequest _ _ _) as [[? s1] ?] eqn:E. simpl.
  pose proof (RemoveRequest_core r (RemoveBestRequest (requestId r) s) w) as H1. rewrite E in H1. simpl in H1.
  by rewrite H1, RemoveBestRequest_core.
Qed.

(** *** Capability lemmas *)

Abbreviation bits s := (ToSet (netCaps_ s)).
Abbreviation caps s := (all_netCaps_ (netAllCapabilities_ s)).

Lemma has_bits c s : 0 <= c < 32 -> sup_HasNetCap c s = bool_decide (c ∈ bits s).
Proof. apply Has_ToSet. Qed.

Lemma insert_bits c s : 0 <= c < 32 -> bits (insert_if_absent c s) = {[c]} ∪ bits s.
Proof.
  intros Hc. unfold insert_if_absent. rewrite has_bits by done. case_bool_decide as Hin.
  - set_solver.
  - by apply ToSet_Insert.
Qed.
Lemma insert_caps c s : 0 <= c < 32 ->
  caps (insert_if_absent c s) = if bool_decide (c ∈ bits s) then caps s else {[c]} ∪ caps s.
Proof. intros Hc. unfold insert_if_absent. rewrite has_bits by done. by case_bool_decide. Qed.

Lemma remove_bits c s : 0 <= c < 32 -> bits (remove_if_present c s) = bits s ∖ {[c]}.
Proof.
  intros Hc. unfold remove_if_present. rewrite has_bits by done. case_bool_decide as Hin.
  - by apply ToSet_Remove.
  - set_solver.
Qed.
Lemma remove_caps c s : 0 <= c < 32 ->
  caps (remove_if_present c s) = if bool_decide (c ∈ bits s) then caps s ∖ {[c]} else caps s.
Proof. intros Hc. unfold remove_if_present. rewrite has_bits by done. by case_bool_decide. Qed.

Lemma insert_width c s : in_width 32 (netCaps_ s) -> in_width 32 (netCaps_ (insert_if_absent c s)).
Proof. intros H. unfold insert_if_absent. case_match; [done|]. by apply Insert_width. Qed.
Lemma remove_width c s : in_width 32 (netCaps_ s) -> in_width 32 (netCaps_ (remove_if_present c s)).
Proof. intros H. unfold remove_if_present. case_match; [|done]. by apply Remove_width. Qed.

Lemma insert_inv c s : 0 <= c < 32 -> caps_inv s -> caps_inv (insert_if_absent c s).
Proof.
  intros Hc [Hw He]. split; [by apply insert_width|]. rewrite insert_bits, insert_caps, He by done.
  case_bool_decide; set_solver.
Qed.
Lemma remove_inv c s : 0 <= c < 32 -> caps_inv s -> caps_inv (remove_if_present c s).
Proof.
  intros Hc [Hw He]. split; [by apply remove_width|]. rewrite remove_bits, remove_caps, He by done.
  case_bool_decide; set_solver.
Qed.
Lemma reuse_inv c add s : 0 <= c < 32 -> caps_inv s -> caps_inv (SetReuseCap c add s).
Proof.
  intros Hc [Hw He]. destruct add; split; simpl.
  - by apply Insert_width.
  - by rewrite ToSet_Insert, He.
  - by apply Remove_width.
  - by rewrite ToSet_Remove, He.
Qed.

(** What a detection result makes of the capabilities. *)
Definition detected (st : NetDetectionStatus) (c : gset Z) : gset Z :=
  match st with
  | VERIFICATION_STATE => ({[NET_CAPABILITY_VALIDATED]} ∪ c) ∖ {[NET_CAPABILITY_PORTAL]}
  | CAPTIVE_PORTAL_STATE => ({[NET_CAPABILITY_PORTAL]} ∪ c) ∖ {[NET_CAPABILITY_VALIDATED]}
  | QUALITY_POOR_STATE | QUALITY_GOOD_STATE | ACCEPT_UNVALIDATED => c
  | UNKNOWN_STATE | INVALID_DETECTION_STATE | QUALITY_NORMAL_STATE =>
      c ∖ {[NET_CAPABILITY_VALIDATED; NET_CAPABILITY_PORTAL]}
  end.

Lemma verified_eq s w : SetNetValid VERIFICATION_STATE s w =
  let s1 := insert_if_absent NET_CAPABILITY_VALIDATED s in
  if bool_decide (NET_CAPABILITY_PORTAL ∈ bits s) then
    match network_ s with
    | None => None
    | Some n => Some (remove_if_present NET_CAPABILITY_PORTAL s1, (FlushDnsCache (u16 (net_GetNetId n)) w).2)
    end
  else Some (remove_if_present NET_CAPABILITY_PORTAL s1, w).
Proof.
  unfold SetNetValid, remove_if_present. cbv zeta.
  assert (E : sup_HasNetCap NET_CAPABILITY_PORTAL (insert_if_absent NET_CAPABILITY_VALIDATED s)
              = bool_decide (NET_CAPABILITY_PORTAL ∈ bits s)).
  { rewrite has_bits by done. rewrite insert_bits by done. apply bool_decide_ext.
    rewrite elem_of_union, elem_of_singleton. split; [|by right]. by intros [?|]. }
  rewrite E. case_bool_decide; [|done].
  unfold insert_if_absent, sup_RemoveNetCap. by destruct (sup_HasNetCap NET_CAPABILITY_VALIDATED s).
Qed.

Lemma SetNetValid_inv st s w s' w' : caps_inv s -> SetNetValid st s w = Some (s', w') ->
  caps_inv s' /\ caps s' = detected st (caps s).
Proof.
  intros Hi E. destruct st.
  3: { rewrite verified_eq in E. cbv zeta in E.
       assert (E' : s' = remove_if_present NET_CAPABILITY_PORTAL (insert_if_absent NET_CAPABILITY_VALIDATED s))
         by (repeat case_match; congruence). subst s'.
       assert (Hi' : caps_inv (remove_if_present NET_CAPABILITY_PORTAL (insert_if_absent NET_CAPABILITY_VALIDATED s)))
         by (by apply remove_inv, insert_inv). split; [done|].
       destruct Hi' as [_ <-]. destruct Hi as [_ <-]. rewrite remove_bits, insert_bits by done. unfold detected. reflexivity. }
  all: cbn [SetNetValid] in E; injection E as <- _; unfold detected; try (split; [exact Hi|reflexivity]).
  all: lazymatch goal with |- caps_inv ?t /\ _ =>
         assert (Hi' : caps_inv t) by (apply remove_inv; [done|]; first [by apply remove_inv | by apply insert_inv]) end.
  all: split; [done|]; destruct Hi' as [_ <-], Hi as [_ <-]; rewrite remove_bits by done.
  1,2,4: rewrite remove_bits by done; set_solver.
  rewrite insert_bits by done. reflexivity.
Qed.

Lemma SetNetValid_None st s w : SetNetValid st s w = None <->
  st = VERIFICATION_STATE /\ NET_CAPABILITY_PORTAL ∈ bits s /\ network_ s = None.
Proof.
  destruct st; try (simpl; split; [done|intros [? _]; done]).
  rewrite verified_eq. cbv zeta. case_bool_decide; destruct (network_ s); naive_solver.
Qed.

Lemma Reset_inv s w s' w' : caps_inv s -> ResetNetSupplier s w = Some (s', w') ->
  caps_inv s' /\
  caps s' = {[NET_CAPABILITY_CHECKING_CONNECTIVITY]} ∪ detected VERIFICATION_STATE (caps s).
Proof.
  intros [Hw He] E. unfold ResetNetSupplier in E. cbv zeta in E.
  set (s0 := set_netCaps_ _ _) in E.
  assert (Hb : bits s0 = {[NET_CAPABILITY_CHECKING_CONNECTIVITY]} ∪ caps s)
    by (rewrite <- He; by apply ToSet_Insert).
  assert (Hw0 : in_width 32 (netCaps_ s0)) by (by apply Insert_width).
  assert (Hc : caps s0 = caps s) by done. clearbody s0. rewrite verified_eq in E. cbv zeta in E.
  set (s1 := remove_if_present _ _) in E.
  assert (E' : s' = set_netExtAttribute_ "" (set_all_netCaps (fun c => {[NET_CAPABILITY_CHECKING_CONNECTIVITY]} ∪ c) s1))
    by (repeat case_match; congruence). subst s'.
  assert (H1 : caps s1 = if bool_decide (NET_CAPABILITY_PORTAL ∈ bits s0)
            then caps (insert_if_absent NET_CAPABILITY_VALIDATED s0) ∖ {[NET_CAPABILITY_PORTAL]}
            else caps (insert_if_absent NET_CAPABILITY_VALIDATED s0)).
  { unfold s1. rewrite remove_caps by done. erewrite bool_decide_ext; [done|].
    rewrite insert_bits by done. rewrite elem_of_union, elem_of_singleton.
    split; [by intros [?|]|by right]. }
  assert (Hcaps : {[NET_CAPABILITY_CHECKING_CONNECTIVITY]} ∪ caps s1
      = {[NET_CAPABILITY_CHECKING_CONNECTIVITY]} ∪ detected VERIFICATION_STATE (caps s)).
  { rewrite H1, insert_caps, Hc, Hb by done. unfold detected. repeat case_bool_decide; set_solver. }
  split; [split|exact Hcaps].
  - apply remove_width, insert_width, Hw0.
  - change (bits s1 = {[NET_CAPABILITY_CHECKING_CONNECTIVITY]} ∪ caps s1). rewrite Hcaps.
    unfold s1. rewrite remove_bits, insert_bits, Hb by done. unfold detected. set_solver.
Qed.

(** *** The network handle *)

Definition same_net s s' : Prop := network_ s' = network_ s /\ netHandle_ s' = netHandle_ s.

Lemma same_net_inv s s' : same_net s s' -> handle_inv s -> handle_inv s'.
Proof. intros [E1 E2] H n. rewrite E1, E2. apply H. Qed.

Lemma insert_net c s : same_net s (insert_if_absent c s).
Proof. unfold insert_if_absent. by case_match. Qed.
Lemma remove_net c s : same_net s (remove_if_present c s).
Proof. unfold remove_if_present. by case_match. Qed.
Lemma same_net_trans a b c : same_net a b -> same_net b c -> same_net a c.
Proof. intros [] []. split; congruence. Qed.

Lemma SetNetValid_net st s w s' w' : SetNetValid st s w = Some (s', w') -> same_net s s'.
Proof.
  destruct st.
  3: { rewrite verified_eq. cbv zeta. intros E.
       assert (E' : s' = remove_if_present NET_CAPABILITY_PORTAL (insert_if_absent NET_CAPABILITY_VALIDATED s))
         by (repeat case_match; congruence). subst s'.
       eapply same_net_trans; [apply insert_net|apply remove_net]. }
  all: cbn [SetNetValid]; injection 1 as <- _; try done.
  all: eapply same_net_trans; [|apply remove_net]; (apply remove_net || apply insert_net).
Qed.

Lemma Reset_net s w s' w' : ResetNetSupplier s w = Some (s', w') -> same_net s s'.
Proof.
  unfold ResetNetSupplier. cbv zeta. destruct (SetNetValid _ _ _) as [[s1 w1]|] eqn:E; [|done].
  injection 1 as <- <-. apply SetNetValid_net in E as [E1 E2]. done.
Qed.

Lemma network_upd_inv f s w :
  (forall n, net_GetNetId (f n w).1 = net_GetNetId n) -> handle_inv s -> handle_inv (on_network f s w).1.
Proof.
  intros Hf Hi. unfold on_network. destruct (network_ s) as [n|] eqn:E; [|done].
  specialize (Hf n). destruct (f n w) as [n' w']. intros m [= <-]. simpl in *. rewrite Hf. by apply Hi.
Qed.

Lemma on_network_caps f s w : caps_inv s -> caps_inv (on_network f s w).1.
Proof. unfold on_network. destruct (network_ s) as [n|]; [|done]. by destruct (f n w). Qed.

Lemma UpdateNetConnState_eq c s w : UpdateNetConnState c s w = on_network (net_UpdateNetConnState c) s w.
Proof. done. Qed.

Lemma info_inv i s w : caps_inv s /\ handle_inv s ->
  caps_inv (UpdateNetSupplierInfo i s w).1 /\ handle_inv (UpdateNetSupplierInfo i s w).1.
Proof.
  intros [Hc Hh]. unfold UpdateNetSupplierInfo. cbv zeta.
  set (s1 := if negb (score_ i =? 0) then _ else _).
  assert (H1 : caps_inv s1 /\ handle_inv s1 /\ network_ s1 = network_ s).
  { unfold s1. by repeat case_match. }
  destruct H1 as (Hc1 & Hh1 & Hn1). clearbody s1. case_match; [done|].
  destruct (network_ s1) as [n|] eqn:En; [|done].
  pose proof (nl_id_basic (isAvailable_ i) n w) as Hid.
  destruct (net_UpdateBasicNetwork _ n w) as [[b n'] w']. simpl in Hid.
  assert (Hh2 : handle_inv (set_network_ (Some n') s1)).
  { intros m [= <-]. rewrite Hid. by apply Hh1. }
  case_match; [|done]. rewrite UpdateNetConnState_eq.
  split; [by apply on_network_caps|apply network_upd_inv; [|done]]. intros m. apply nl_id_state.
Qed.

Lemma link_inv l s w : caps_inv s /\ handle_inv s ->
  caps_inv (UpdateNetLinkInfo l s w).1.2 /\ handle_inv (UpdateNetLinkInfo l s w).1.2.
Proof.
  intros [Hc Hh]. unfold UpdateNetLinkInfo. destruct (network_ s) as [n|] eqn:En; [|done].
  case_match; [done|]. cbv zeta. set (l' := if bool_decide _ then _ else _). clearbody l'.
  pose proof (nl_id_link l' n w) as Hid.
  destruct (net_UpdateNetLinkInfo l' n w) as [[b n'] w']. simpl in Hid.
  assert (Hh2 : handle_inv (set_network_ (Some n') s)).
  { intros m [= <-]. rewrite Hid. by apply Hh. }
  case_match; [done|]. rewrite UpdateNetConnState_eq.
  pose proof (on_network_caps (net_UpdateNetConnState NET_CONN_STATE_CONNECTED) (set_network_ (Some n') s) w' Hc) as H1.
  pose proof (network_upd_inv (net_UpdateNetConnState NET_CONN_STATE_CONNECTED) (set_network_ (Some n') s) w'
    (fun m => nl_id_state _ m w') Hh2) as H2.
  by destruct (on_network _ _ _).
Qed.

Lemma core_inv s s' : core s' = core s -> caps_inv s /\ handle_inv s -> caps_inv s' /\ handle_inv s'.
Proof. intros E [? ?]. split; [by eapply caps_inv_core|by eapply handle_inv_core]. Qed.

Lemma step_inv x y : sup_step x y -> caps_inv x.1 /\ handle_inv x.1 -> caps_inv y.1 /\ handle_inv y.1.
Proof.
  intros Hs Hi. pose proof Hi as [Hc Hh]. destruct Hs; try done; simpl in *.
  - split; [by eapply SetNetValid_inv|eapply same_net_inv; [by eapply SetNetValid_net|done]].
  - split; [by eapply Reset_inv|eapply same_net_inv; [by eapply Reset_net|done]].
  - unfold InitNetScore. by case_match.
  - unfold SetDetectionDone.
    assert (Hd : caps_inv (if negb (isFirstTimeDetectionDone s) then set_isFirstTimeDetectionDone true s else s)
      /\ handle_inv (if negb (isFirstTimeDetectionDone s) then set_isFirstTimeDetectionDone true s else s))
      by (by case_match).
    destruct Hd. split; [by apply remove_inv|eapply same_net_inv; [apply remove_net|done]].
  - split; [by apply reuse_inv|]. by destruct add.
  - split; [|done]. split; [apply of_set_width|by apply ToSet_of_set_spec].
  - unfold SetNetwork. destruct n as [n|]; split; try done. by intros m [= <-].
  - rewrite UpdateNetConnState_eq. split; [by apply on_network_caps|apply network_upd_inv; [|done]].
    intros. apply nl_id_state.
  - by apply info_inv.
  - by apply link_inv.
  - split; [by apply on_network_caps|apply network_upd_inv; [|done]]. intros. apply nl_id_default.
  - split; [by apply on_network_caps|apply network_upd_inv; [|done]]. intros. apply nl_id_clear.
  - unfold RegisterSupplierCallback. by case_match.
  - eapply core_inv; [apply RequestToConnect_core|done].
  - eapply core_inv; [apply SelectAsBestNetwork_core|done].
  - eapply core_inv; [apply ReceiveBestScore_core|done].
  - eapply core_inv; [apply CancelRequest_core|done].
  - eapply core_inv; [apply RemoveBestRequest_core|done].
Qed.

Lemma new_inv b i c id w s' w' : caps_valid c -> new_NetSupplier b i c id w = Some (s', w') ->
  caps_inv s' /\ handle_inv s'.
Proof.
  intros Hv E. unfold new_NetSupplier in E. cbv zeta in E.
  destruct (ResetNetSupplier _ w) as [[s1 w1]|] eqn:ER; [|done]. injection E as <- <-.
  assert (H1 : caps_inv s1 /\ handle_inv s1).
  { split; [eapply Reset_inv; [|exact ER]|eapply same_net_inv; [eapply Reset_net, ER|done]].
    split; [apply of_set_width|by apply ToSet_of_set_spec]. }
  unfold InitNetScore. by case_match.
Qed.

Lemma reachable_inv x : sup_reachable x -> caps_inv x.1 /\ handle_inv x.1.
Proof.
  induction 1 as [b i c id w s' w' Hv E|x y Hr IH Hs].
  - by eapply new_inv.
  - by eapply step_inv.
Qed.

(** C27: In every state a supplier reaches from its construction by any sequence of its operations (detection results, resets, capability updates, link and availability updates, requests), the bit set [netCaps_] the scores are computed from and the set in [netAllCapabilities_] given to clients denote the same capabilities, and the published [netHandle_] carries the identifier of the supplier's network. *)
Theorem supplier_capabilities_mirrored s w : sup_reachable (s, w) ->
  in_width 32 (netCaps_ s) /\ ToSet (netCaps_ s) = all_netCaps_ (netAllCapabilities_ s) /\
  (forall n, network_ s = Some n -> netHandle_ s = Some (net_GetNetId n)).
Proof. intros H. apply reachable_inv in H as [[? ?] ?]. done. Qed.

(** What a detection result does to the capabilities of a supplier whose two representations agree, on every branch: a verified network gains [VALIDATED] and loses [PORTAL], a captive portal the reverse, any other detection failure loses both, the quality reports change neither; and the only way the operation can fail is the dereference of a null network when [PORTAL] has to be dropped. *)
Theorem SetNetValid_capabilities st s w :
  in_width 32 (netCaps_ s) -> ToSet (netCaps_ s) = all_netCaps_ (netAllCapabilities_ s) ->
  match SetNetValid st s w with
  | Some (s', _) => all_netCaps_ (netAllCapabilities_ s') = detected st (all_netCaps_ (netAllCapabilities_ s))
      /\ ToSet (netCaps_ s') = all_netCaps_ (netAllCapabilities_ s')
  | None => st = VERIFICATION_STATE /\ sup_HasNetCap NET_CAPABILITY_PORTAL s = true /\ network_ s = None
  end.
Proof.
  intros Hw He. destruct (SetNetValid st s w) as [[s' w']|] eqn:E.
  - eapply SetNetValid_inv in E as [[_ E1] E2]; [|by split]. done.
  - apply SetNetValid_None in E as (-> & Hp & Hn). split; [done|]. split; [|done].
    rewrite has_bits by done. by apply bool_decide_eq_true.
Qed.

(** *** Scores *)

(** The score is the one of the bearer type, as [InitNetScore] sets it. *)
Definition default_score s : Prop := netTypeScore_ (netSupplierType_ s) = Some (netScore_ s).

Lemma default_score_range s : default_score s -> 50 <= netScore_ s <= 100.
Proof.
  unfold default_score, netTypeScore_, NET_TYPE_SCORE_INTERVAL.
  destruct (netSupplierType_ s); intros E; simplify_eq; lia.
Qed.

(** A supplier whose detection is complete, that is validated, of good
    quality, and of a bearer other than Bluetooth. *)
Definition validated_good s : Prop :=
  IsInFirstTimeDetecting s = false /\ IsNetValidated s = true /\ IsNetQualityPoor s = false /\
  netSupplierType_ s <> BEARER_BLUETOOTH.

(** How suppliers rank when they keep the score of their bearer type: every real score is between 10 and 100, so a supplier is always eligible; a supplier the user accepted ranks at least as high as any other; and a supplier that is unvalidated or still detecting and was not accepted ranks strictly below every validated supplier of good quality other than Bluetooth, unless it is a Wi-Fi Aware one, which may tie. *)
Theorem GetRealScore_ranking a b : default_score a -> default_score b ->
  10 <= GetRealScore a <= MAX_SCORE /\
  (isAcceptUnvaliad a = true -> GetRealScore b <= GetRealScore a) /\
  (isAcceptUnvaliad a = false -> IsInFirstTimeDetecting a || negb (IsNetValidated a) = true ->
   validated_good b ->
   GetRealScore a <= GetRealScore b /\ (netSupplierType_ a <> BEARER_WIFI_AWARE -> GetRealScore a < GetRealScore b)).
Proof.
  intros Ha Hb. pose proof (default_score_range a Ha). pose proof (default_score_range b Hb).
  unfold GetRealScore, MAX_SCORE, NET_VALID_SCORE, DIFF_SCORE_BETWEEN_GOOD_POOR, NET_TYPE_SCORE_INTERVAL.
  split; [|split].
  - repeat case_match; lia.
  - intros ->. repeat case_match; lia.
  - intros -> Hv (-> & -> & -> & Hnb). simpl.
    assert (E : (if IsInFirstTimeDetecting a then netScore_ a - 40 else if negb (IsNetValidated a) then netScore_ a - 40
      else if IsNetQualityPoor a then netScore_ a - 20 else netScore_ a) = netScore_ a - 40)
      by (destruct (IsInFirstTimeDetecting a); [done|]; simpl in Hv; by rewrite Hv).
    change (4 * 10) with 40. change (2 * 10) with 20. rewrite E.
    assert (Hb2 : 60 <= netScore_ b).
    { unfold default_score, netTypeScore_, NET_TYPE_SCORE_INTERVAL in Hb.
      destruct (netSupplierType_ b); simplify_eq/=; try done; lia. }
    assert (Ha2 : netSupplierType_ a <> BEARER_WIFI_AWARE -> netScore_ a <= 90).
    { unfold default_score, netTypeScore_, NET_TYPE_SCORE_INTERVAL in Ha.
      destruct (netSupplierType_ a); simplify_eq/=; try done; lia. }
    destruct (isAcceptUnvaliad b); (split; [lia|intros Hna; specialize (Ha2 Hna); lia]).
Qed.

(** Selecting a supplier as the best network for a request and then cancelling the request leaves no trace: the cancellation succeeds, the request is in neither list afterwards, every other request is where it was, and nothing else of the supplier has changed. *)
Theorem select_cancel_roundtrip r s w :
  netSupplierType_ s <> BEARER_CELLULAR \/ isControlled r = false ->
  let '(s1, w1) := SelectAsBestNetwork r s w in
  let '(ret, s2, w2) := CancelRequest r s1 w1 in
  HasBestRequest (requestId r) s1 = true /\ requestId r ∈ requestList_ s1 /\
  ret = NETMANAGER_SUCCESS /\
  requestList_ s2 = requestList_ s ∖ {[requestId r]} /\
  bestReqList_ s2 = bestReqList_ s ∖ {[requestId r]} /\
  core s2 = core s.
Proof.
  intros Hr.
  pose proof (SelectAsBestNetwork_core r s w) as C1.
  destruct (SelectAsBestNetwork r s w) as [s1 w1] eqn:E1.
  assert (L1 : requestList_ s1 = {[requestId r]} ∪ requestList_ s /\ bestReqList_ s1 = {[requestId r]} ∪ bestReqList_ s).
  { unfold SelectAsBestNetwork in E1.
    assert (Hor : bool_decide (netSupplierType_ s <> BEARER_CELLULAR) || negb (isControlled r) = true).
    { destruct Hr as [Hr|Hr]; [by rewrite bool_decide_eq_true_2|by rewrite Hr, orb_true_r]. }
    rewrite Hor in E1. unfold AddRequest in E1. by repeat (case_match; simplify_eq/=). }
  destruct L1 as [L1 B1].
  pose proof (CancelRequest_core r s1 w1) as C2.
  destruct (CancelRequest r s1 w1) as [[ret s2] w2] eqn:E2. simpl in C1, C2.
  assert (E3 : ret = NETMANAGER_SUCCESS /\ requestList_ s2 = requestList_ s1 ∖ {[requestId r]} /\
    bestReqList_ s2 = bestReqList_ s1 ∖ {[requestId r]}).
  { assert (Hb : requestId r ∈ bestReqList_ s1) by (rewrite B1; clear; set_solver).
    assert (Hl : requestId r ∈ requestList_ s1) by (rewrite L1; clear; set_solver).
    unfold CancelRequest, RemoveBestRequest in E2. rewrite (bool_decide_eq_true_2 _ Hb) in E2.
    unfold RemoveRequest in E2. rewrite bool_decide_eq_false_2 in E2 by (by intros Hx).
    cbv zeta in E2. by destruct (_ || _); simplify_eq/=. }
  destruct E3 as (-> & L2 & B2). clear E1 E2 Hr. split_and!; [| |done| | |by rewrite C2]; clear C1 C2.
  - unfold HasBestRequest. apply bool_decide_eq_true. rewrite B1. set_solver.
  - rewrite L1. set_solver.
  - rewrite L2, L1. set_solver.
  - rewrite B2, B1. set_solver.
Qed.

(** Constructing a supplier whose initial capabilities contain [PORTAL] crashes: the constructor resets the supplier, which drops [PORTAL] and flushes the DNS cache of a network that is not set yet. *)
Theorem portal_supplier_null_network b i c id w : caps_valid c -> NET_CAPABILITY_PORTAL ∈ c ->
  new_NetSupplier b i c id w = None (A := NetSupplier N * W).
Proof.
  intros Hv Hp. unfold new_NetSupplier, ResetNetSupplier. cbv zeta.
  rewrite (proj2 (SetNetValid_None _ _ _)); [done|]. split_and!; [done| |done].
  cbn -[NET_CAPABILITY_PORTAL NET_CAPABILITY_CHECKING_CONNECTIVITY].
  rewrite ToSet_Insert, ToSet_of_set_spec by done. by apply elem_of_union_r.
Qed.

End theory.

(** ** The conversation with the supplier callback

    The calls to the supplier callback in the order they are made, with the
    code every call is answered with as a parameter. *)

Inductive ctl_call := CRequest (c : Z) (reqId : Z) | CRelease (c : Z) (reqId : Z) | CFlush (netId : Z).

Definition logging (ans : Z) : Outside (list ctl_call) := {|
  RequestNetwork c _ _ r w := (ans, w ++ [CRequest c (requestId r)]);
  ReleaseNetwork c r w := (ans, w ++ [CRelease c (requestId r)]);
  FlushDnsCache n w := (ans, w ++ [CFlush n]);
|}.

Section conversation.
Context {N : Type} (ans : Z).
#[local] Instance answering : Outside (list ctl_call) := logging ans.
#[local] Opaque ToSet HasNetCap InsertNetCap RemoveNetCap of_set.
Implicit Types (s : NetSupplier N) (w : list ctl_call).

Inductive req_op :=
| OpConnect (r : NetRequest) | OpSelect (r : NetRequest)
| OpBest (bestScore id : Z) (r : NetRequest) | OpCancel (r : NetRequest).

Definition do_req_op (o : req_op) (x : NetSupplier N * list ctl_call) : NetSupplier N * list ctl_call :=
  let '(s, w) := x in
  match o with
  | OpConnect r => let '(_, s, w) := RequestToConnect r s w in (s, w)
  | OpSelect r => SelectAsBestNetwork r s w
  | OpBest sc i r => ReceiveBestScore sc i r s w
  | OpCancel r => let '(_, s, w) := CancelRequest r s w in (s, w)
  end.

Definition run_req_ops (l : list req_op) (x : NetSupplier N * list ctl_call) : NetSupplier N * list ctl_call :=
  foldl (fun x o => do_req_op o x) x l.

(** The protocol a supplier callback expects: requests and releases
    alternate.  [protocol c l] runs it from the state "asked to connect" [c];
    it fails on a repeated request or a release of nothing. *)
Fixpoint protocol (c : bool) (l : list ctl_call) : option bool :=
  match l with
  | [] => Some c
  | CRequest _ _ :: l => if c then None else protocol true l
  | CRelease _ _ :: l => if c then protocol false l else None
  | CFlush _ :: l => protocol c l
  end.

Lemma protocol_app c l m : protocol c (l ++ m) = protocol c l ≫= fun c => protocol c m.
Proof. revert c. induction l as [|[? ?|? ?|?] l IH]; intros b; simpl; try done; destruct b; simpl; done || apply IH. Qed.

(** A connected, available supplier of a bearer other than Wi-Fi whose
    conversation so far is in the state its request list says. *)
Definition in_sync (x : NetSupplier N * list ctl_call) : Prop :=
  netSupplierType_ x.1 <> BEARER_WIFI /\ IsAvailable x.1 = true /\ netController_ x.1 <> None /\
  protocol false x.2 = Some (bool_decide (requestList_ x.1 <> ∅)).

Lemma add_sync r s w : in_sync (s, w) -> in_sync ((AddRequest r s w).1.2, (AddRequest r s w).2).
Proof.
  intros (Ht & Ha & Hc & Hp). simpl in *. unfold AddRequest. cbv zeta.
  destruct (netController_ s) as [c|] eqn:Ec; [|done].
  set (s1 := set_requestList_ _ s). change (netController_ s1) with (netController_ s). rewrite Ec.
  change (netSupplierType_ s1) with (netSupplierType_ s). change (IsAvailable s1) with (IsAvailable s).
  rewrite Ha, (bool_decide_eq_false_2 (netSupplierType_ s = BEARER_WIFI)) by done.
  assert (Hne : requestList_ s1 <> ∅) by (simpl; set_solver).
  destruct (decide (requestList_ s = ∅)) as [Hemp|Hemp].
  - rewrite (bool_decide_eq_true_2 _ Hemp). simpl.
    unfold SupplierConnection. change (netController_ s1) with (netController_ s). rewrite Ec. simpl.
    split_and!; [exact Ht|exact Ha|change (netController_ s <> None); by rewrite Ec|cbn [fst snd]].
    rewrite protocol_app, Hp, (bool_decide_eq_true_2 _ Hne), bool_decide_eq_false_2 by (by intros ?). done.
  - rewrite (bool_decide_eq_false_2 _ Hemp). simpl.
    split_and!; [exact Ht|exact Ha|change (netController_ s <> None); by rewrite Ec|cbn [fst snd]].
    by rewrite Hp, (bool_decide_eq_true_2 _ Hne), bool_decide_eq_true_2.
Qed.

Lemma remove_sync r s w : in_sync (s, w) -> in_sync ((RemoveRequest r s w).1.2, (RemoveRequest r s w).2).
Proof.
  intros (Ht & Ha & Hc & Hp). simpl in *. unfold RemoveRequest. cbv zeta.
  destruct (decide (requestId r ∈ requestList_ s)) as [Hin|Hin];
    [rewrite bool_decide_eq_false_2 by (by intros ?)|rewrite bool_decide_eq_true_2 by done; by split_and!].
  destruct (netController_ s) as [c|] eqn:Ec; [|done].
  set (s1 := set_requestList_ _ s). change (netSupplierType_ s1) with (netSupplierType_ s).
  rewrite (bool_decide_eq_false_2 (netSupplierType_ s = BEARER_WIFI)) by done.
  assert (Hold : requestList_ s <> ∅) by set_solver.
  destruct (decide (requestList_ s1 = ∅)) as [Hemp|Hemp].
  - rewrite (bool_decide_eq_true_2 _ Hemp). simpl.
    unfold SupplierDisconnection. change (netController_ s1) with (netController_ s). rewrite Ec. simpl.
    split_and!; [exact Ht|exact Ha|change (netController_ s <> None); by rewrite Ec|cbn [fst snd]].
    rewrite protocol_app, Hp, (bool_decide_eq_true_2 _ Hold), bool_decide_eq_false_2 by (intros Hx; by apply Hx). done.
  - rewrite (bool_decide_eq_false_2 _ Hemp). simpl.
    split_and!; [exact Ht|exact Ha|change (netController_ s <> None); by rewrite Ec|cbn [fst snd]].
    by rewrite Hp, (bool_decide_eq_true_2 _ Hold), bool_decide_eq_true_2.
Qed.

Lemma best_sync s s' w : requestList_ s' = requestList_ s -> core s' = core s -> in_sync (s, w) -> in_sync (s', w).
Proof.
  intros Er Ec (Ht & Ha & Hc & Hp). simpl in *.
  assert (E : netSupplierType_ s' = netSupplierType_ s /\ IsAvailable s' = IsAvailable s /\ netController_ s' = netController_ s).
  { change (netSupplierType_ (core s') = netSupplierType_ (core s) /\
      IsAvailable (core s') = IsAvailable (core s) /\ netController_ (core s') = netController_ (core s)). by rewrite Ec. }
  destruct E as (E1 & E2 & E3). unfold in_sync. simpl. by rewrite E1, E2, E3, Er.
Qed.

Lemma do_req_op_sync o x : in_sync x -> in_sync (do_req_op o x).
Proof.
  destruct x as [s w]. intros Hs. pose proof (add_sync) as HA. pose proof remove_sync as HR.
  destruct o as [r|r|sc i r|r]; simpl.
  - unfold RequestToConnect. destruct (_ && _); [done|]. specialize (HA r s w Hs). by destruct (AddRequest r s w) as [[??]?].
  - unfold SelectAsBestNetwork. specialize (HA r s w Hs). specialize (HR r s w Hs).
    destruct (_ || _).
    + destruct (AddRequest r s w) as [[? s1] w1]. by eapply best_sync, HA.
    + destruct (RemoveRequest r s w) as [[? s1] w1]. by eapply best_sync, HR.
  - unfold ReceiveBestScore. specialize (HR r s w Hs).
    destruct (_ =? _); [done|]. destruct (bool_decide _); [done|]. destruct (_ <=? _); [done|].
    by destruct (RemoveRequest r s w) as [[? s1] w1].
  - unfold CancelRequest. cbv zeta.
    assert (Hs1 : in_sync (RemoveBestRequest (requestId r) s, w)).
    { eapply best_sync; [| |exact Hs].
      - unfold RemoveBestRequest. by case_match.
      - apply RemoveBestRequest_core. }
    specialize (HR r _ _ Hs1). by destruct (RemoveRequest r _ w) as [[? s2] w2].
Qed.

Lemma run_sync l x : in_sync x -> in_sync (run_req_ops l x).
Proof.
  unfold run_req_ops. revert x. induction l as [|o l IH]; intros x Hx; [done|]. simpl. by apply IH, do_req_op_sync.
Qed.

(** An available supplier of a bearer other than Wi-Fi with a registered callback keeps the protocol of the callback whatever requests are made, selected, outscored or cancelled on it: the callback sees requests and releases strictly alternate, and the last one is a request exactly when some request is still in the supplier's list. *)
Theorem supplier_callback_protocol l s c :
  netSupplierType_ s <> BEARER_WIFI -> IsAvailable s = true -> netController_ s = Some c -> requestList_ s = ∅ ->
  let '(s', log) := run_req_ops l (s, []) in
  protocol false log = Some (bool_decide (requestList_ s' <> ∅)).
Proof.
  intros Ht Ha Hc He. assert (H0 : in_sync (s, [])).
  { split_and!; try done; simpl; [by rewrite Hc|].
    rewrite bool_decide_eq_false_2 by (intros Hx; by apply Hx). done. }
  apply (run_sync l) in H0. destruct (run_req_ops l (s, [])) as [s' log]. apply H0.
Qed.

End conversation.

(** ** Concrete suppliers

    The logging world with a network that is only its identifier and its
    connection state. *)

#[local] Instance log_world : Outside (list ctl_call) := logging 0.
Definition no_proxy : HttpProxy := mkHttpProxy "" 0 "" "" [] (-1).
#[local] Instance flag_network : INetwork (list ctl_call) (Z * bool) := {|
  net_GetNetId := fst; net_IsConnecting _ := false; net_IsConnected := snd;
  net_GetHttpProxy _ := no_proxy;
  net_GetNetLinkInfo _ := mkNetLinkInfo "" "" [] [] [] 0 "" "" no_proxy false false false;
  net_UpdateBasicNetwork _ n w := (true, n, w);
  net_UpdateNetLinkInfo _ n w := (true, n, w);
  net_UpdateNetConnState c n w := ((n.1, bool_decide (c = NET_CONN_STATE_CONNECTED)), w);
  net_SetDefaultNetWork n w := (n, w);
  net_ClearDefaultNetWorkNetId n w := (n, w);
  net_UpdateGlobalHttpProxy _ n w := (n, w);
  net_ResumeNetworkInfo n w := (true, n, w);
|}.
#[local] Instance flag_network_laws : NetworkLaws (list ctl_call) (Z * bool).
Proof. by split. Qed.

Definition cellular_example : NetSupplier (Z * bool) :=
  match new_NetSupplier BEARER_CELLULAR "simId1" {[NET_CAPABILITY_INTERNET]} 1003 [] with
  | Some (s, _) => s
  | None => mkNetSupplier BEARER_DEFAULT "" 0 default_NetSupplierInfo (mkNetAllCapabilities 0 0 ∅ ∅) 0 0 ∅ ∅
              None None None true 0 UNKNOWN_STATE false false 0 "" false default_NetRequest
  end.

Lemma cellular_example_reachable : sup_reachable (cellular_example, []).
Proof.
  apply (reach_new BEARER_CELLULAR "simId1" {[NET_CAPABILITY_INTERNET]} 1003 []); [|by vm_compute].
  intros c ->%elem_of_singleton. done.
Qed.

Lemma supplier_capabilities_mirrored_witness :
  in_width 32 (netCaps_ (SetReuseCap 25 true cellular_example)) /\
  ToSet (netCaps_ (SetReuseCap 25 true cellular_example))
    = all_netCaps_ (netAllCapabilities_ (SetReuseCap 25 true cellular_example)) /\
  (forall n, network_ (SetReuseCap 25 true cellular_example) = Some n ->
     netHandle_ (SetReuseCap 25 true cellular_example) = Some (net_GetNetId n)).
Proof.
  apply (supplier_capabilities_mirrored _ ([] : list ctl_call)).
  eapply reach_step; [apply cellular_example_reachable|]. by apply step_reuse.
Defined.

Lemma SetNetValid_capabilities_witness :
  match SetNetValid CAPTIVE_PORTAL_STATE cellular_example [] with
  | Some (s', _) => all_netCaps_ (netAllCapabilities_ s')
        = detected CAPTIVE_PORTAL_STATE (all_netCaps_ (netAllCapabilities_ cellular_example))
      /\ ToSet (netCaps_ s') = all_netCaps_ (netAllCapabilities_ s')
  | None => CAPTIVE_PORTAL_STATE = VERIFICATION_STATE
      /\ sup_HasNetCap NET_CAPABILITY_PORTAL cellular_example = true /\ network_ cellular_example = None
  end.
Proof.
  apply (SetNetValid_capabilities CAPTIVE_PORTAL_STATE cellular_example []).
  - by vm_compute.
  - by vm_compute.
Defined.

(** A validated supplier, and one that still is in its first detection. *)
Definition cellular_validated : NetSupplier (Z * bool) := SetDetectionDone cellular_example.

Lemma GetRealScore_ranking_witness :
  10 <= GetRealScore cellular_example <= MAX_SCORE /\
  (isAcceptUnvaliad cellular_example = true -> GetRealScore cellular_validated <= GetRealScore cellular_example) /\
  (isAcceptUnvaliad cellular_example = false ->
   IsInFirstTimeDetecting cellular_example || negb (IsNetValidated cellular_example) = true ->
   validated_good cellular_validated ->
   GetRealScore cellular_example <= GetRealScore cellular_validated /\
   (netSupplierType_ cellular_example <> BEARER_WIFI_AWARE ->
    GetRealScore cellular_example < GetRealScore cellular_validated)).
Proof. apply GetRealScore_ranking; by vm_compute. Defined.

Definition request_example (id : Z) : NetRequest := NetRequest_of 100 id REQUEST.

Lemma select_cancel_roundtrip_witness :
  let '(s1, w1) := SelectAsBestNetwork (request_example 7) cellular_example [] in
  let '(ret, s2, w2) := CancelRequest (request_example 7) s1 w1 in
  HasBestRequest (requestId (request_example 7)) s1 = true /\ requestId (request_example 7) ∈ requestList_ s1 /\
  ret = NETMANAGER_SUCCESS /\
  requestList_ s2 = requestList_ cellular_example ∖ {[requestId (request_example 7)]} /\
  bestReqList_ s2 = bestReqList_ cellular_example ∖ {[requestId (request_example 7)]} /\
  core s2 = core cellular_example.
Proof. apply (select_cancel_roundtrip (request_example 7) cellular_example []). right. reflexivity. Defined.

Definition cellular_serving : NetSupplier (Z * bool) :=
  set_netController_ (Some 5) (UpdateNetSupplierInfo (mkNetSupplierInfo true false 0 0 0 0 0 "" 0) cellular_example []).1.

Lemma supplier_callback_protocol_witness :
  let '(s', log) := run_req_ops 0 [OpConnect (request_example 7); OpSelect (request_example 8); OpCancel (request_example 7)]
                      (cellular_serving, []) in
  protocol false log = Some (bool_decide (requestList_ s' <> ∅)).
Proof.
  apply (supplier_callback_protocol 0 [OpConnect (request_example 7); OpSelect (request_example 8); OpCancel (request_example 7)]
    cellular_serving 5); try reflexivity. by vm_compute.
Defined.

Lemma portal_supplier_null_network_witness :
  new_NetSupplier (N := Z * bool) BEARER_WIFI "wifi" {[NET_CAPABILITY_PORTAL]} 1003 ([] : list ctl_call) = None.
Proof.
  apply portal_supplier_null_network.
  - intros c ->%elem_of_singleton. done.
  - by apply elem_of_singleton.
Defined.

End NetSupplier.
