(* ===== verification/Network.v ===== *)
(** * The network of a supplier
    (services/netconnmanager/src/network.cpp)

    A [Network] owns the link information of one network and keeps the system
    in step with it: the interface, the addresses, the routes and the resolver
    are changed by calls to the native service, one call per difference between
    the old and the new information.

    What is called outside is one function of [Netsys W] on an inductive type
    of calls, so that nothing is assumed about it; the theorem about routes
    reads the calls from a log ([Logged]).  The suppliers use a network through the
    interface [INetwork] of [NetData]; the instance and its laws are at the end. *)

From stdpp Require Import pretty.
From S2P Require Import Prelude NetCaps NetData.
Import NetCaps NetData.

Module Network.

Definition LOCAL_ROUTE_NEXT_HOP : string := "0.0.0.0".
Definition LOCAL_ROUTE_IPV6_DESTINATION : string := "::".
Definition INVALID_IPV4 : string := "0.0.0.0".
Definition INVALID_IPV6 : string := "::".
Definition BATCH_ROUTE_THRESHOLD : nat := 1024.
Definition LAST_DETECTION_LAPSE_MS : Z := 2000.
Definition DETECTION_RESULT_WAIT_MS : Z := 3000.
Definition MAX_IPV4_DNS_NUM : Z := 5.
Definition MAX_IPV6_DNS_NUM : Z := 2.
Definition MAX_ROUTE_ADDRESS_LENGTH : nat := 4096.
Definition LOCAL_NET_ID : Z := 99.
Definition AF_INET : Z := 2.
Definition AF_INET6 : Z := 10.

(** [enum SocketDestroyType]. *)
Definition DESTROY_DEFAULT_CELLULAR : Z := 0.
Definition DESTROY_SPECIAL_CELLULAR : Z := 1.
Definition DESTROY_DEFAULT : Z := 2.

(** [enum NetDetectionResultCode]. *)
Definition NET_DETECTION_FAIL : Z := 0.
Definition NET_DETECTION_SUCCESS : Z := 1.
Definition NET_DETECTION_CAPTIVE_PORTAL : Z := 2.

(** [nmd::NetworkRouteInfo]. *)
Record NetworkRouteInfo := mkRouteInfo { ifName : string; destination : string; nextHop : string; ri_excluded : bool }.

(** ** What a network calls *)

Inductive NetsysCall :=
| NetworkCreatePhysical (netId permission : Z)
| NetworkCreateVirtual (netId : Z) (hasDns : bool)
| NetworkDestroy (netId : Z) (isVpn : bool)
| CreateNetworkCache (netId : Z) (isVpn : bool)
| DestroyNetworkCache (netId : Z) (isVpn : bool)
| NetworkAddInterface (netId : Z) (iface : string) (bearer : NetBearType)
| NetworkRemoveInterface (netId : Z) (iface : string)
| NetworkAddRoute (netId : Z) (iface dest hop : string) (excluded : bool)
| NetworkAddRoutes (netId : Z) (infos : list NetworkRouteInfo)
| NetworkRemoveRoute (netId : Z) (iface dest hop : string)
| AddInterfaceAddress (iface addr : string) (prefixLen : Z)
| DelInterfaceAddress (iface addr : string) (prefixLen : Z) (socketType : option Z)
| SetResolverConfig (netId timeout retry : Z) (servers domains : list string)
| SetUserDefinedServerFlag (netId : Z) (flag : bool)
| SetInterfaceMtu (iface : string) (mtu : Z)
| SetTcpBufferSizes (sizes : string)
| SetEnableIpv6 (iface : string) (on : Z) (restart : bool)
| FlushDnsCacheOf (netId : Z)
| SetDefaultNetWorkOf (netId : Z)
| ClearDefaultNetWork
| CloseSocketsOf (addr : string) (uid : Z)
| UpdateStatsData
| MonitorNew (netId : Z) (bearer : NetBearType) (info : NetLinkInfo) (screenOn : bool) (lastDetectTime : Z)
| MonitorStart (monitor : Z)
| MonitorStop (monitor : Z)
| MonitorStopDualStackProbe (monitor : Z)
| MonitorUpdateDualStackProbeTime (monitor time : Z)
| Nat464New (netId : Z) (iface : string)
| Nat464MaybeUpdateV6Iface (service : Z) (iface : string)
| Nat464UpdateService (service : Z) (stop : bool)
| PostDelayedDetection (netId delayMs : Z)
| NotifyDetectionResult (callbacks : list Z) (result : Z) (url : string)
| DetectionHandler (supplierId : Z) (state : NetDetectionStatus)
| ConnectionChangedBroadcast (bearer : NetBearType) (state : NetConnState)
| SupplierFault (netId : Z).

(** A call returns its result code, or the identity of a created object. *)
Class Netsys (W : Type) := {
  call : NetsysCall -> W -> Z * W;
  IsIfaceNameInUse : string -> Z -> W -> bool;
  MonitorIsDetecting : Z -> W -> bool;
  MonitorLastDetectTime : Z -> W -> Z;
  GetCurrentMilliSecond : W -> Z;
}.

(** The address functions of [CommonUtils]. *)
Class AddrUtils := {
  GetAddrFamily : string -> Z;
  Ipv4PrefixLen : string -> Z;
  Ipv6PrefixLen : string -> Z;
  IsValidIPV4 : string -> bool;
  IsValidIPV6 : string -> bool;
  IsUsableGlobalIpv6Addr : string -> bool;
  IsIPv6LinkLocal : string -> bool;
  (** [std::from_chars] on the text after the slash. *)
  prefix_of_string : string -> option Z;
}.

Record Network := mkNetwork {
  netId_ : Z; supplierId_ : Z; netLinkInfo_ : NetLinkInfo; state_ : NetConnState; detectResult_ : NetDetectionStatus;
  isPhyNetCreated_ : bool; isVirtualCreated_ : bool; netMonitor_ : option Z; netCallback_ : bool;
  netBearer_ : NetBearType; isInternalDefault_ : bool; netDetectionRetCallback_ : list Z;
  isDetectingForDns_ : bool; isSupportInternet_ : bool; nat464Service_ : option Z; lastDetectTime_ : Z;
  forbidDetectionFlag_ : bool; isNeedResume_ : bool; isScreenOn_ : bool; dualStackProbeTime_ : Z
}.

(** [NetLinkInfo::Initialize] and the default members. *)
Definition default_HttpProxy : HttpProxy := mkHttpProxy "" 0 "" "" [] (-1).
Definition empty_info : NetLinkInfo := mkNetLinkInfo "" "" [] [] [] 0 "" "" default_HttpProxy false false false.

Definition new_Network (netId supplierId : Z) (bearer : NetBearType) : Network :=
  mkNetwork netId supplierId empty_info NET_CONN_STATE_UNKNOWN UNKNOWN_STATE false false None false bearer false []
    false false None 0 false false true 0.

(** Field updates. *)
Definition set_netLinkInfo_ (x : NetLinkInfo) (n : Network) : Network :=
  mkNetwork (netId_ n) (supplierId_ n) x (state_ n) (detectResult_ n) (isPhyNetCreated_ n) (isVirtualCreated_ n) (netMonitor_ n) (netCallback_ n) (netBearer_ n) (isInternalDefault_ n) (netDetectionRetCallback_ n) (isDetectingForDns_ n) (isSupportInternet_ n) (nat464Service_ n) (lastDetectTime_ n) (forbidDetectionFlag_ n) (isNeedResume_ n) (isScreenOn_ n) (dualStackProbeTime_ n).
Definition set_state_ (x : NetConnState) (n : Network) : Network :=
  mkNetwork (netId_ n) (supplierId_ n) (netLinkInfo_ n) x (detectResult_ n) (isPhyNetCreated_ n) (isVirtualCreated_ n) (netMonitor_ n) (netCallback_ n) (netBearer_ n) (isInternalDefault_ n) (netDetectionRetCallback_ n) (isDetectingForDns_ n) (isSupportInternet_ n) (nat464Service_ n) (lastDetectTime_ n) (forbidDetectionFlag_ n) (isNeedResume_ n) (isScreenOn_ n) (dualStackProbeTime_ n).
Definition set_detectResult_ (x : NetDetectionStatus) (n : Network) : Network :=
  mkNetwork (netId_ n) (supplierId_ n) (netLinkInfo_ n) (state_ n) x (isPhyNetCreated_ n) (isVirtualCreated_ n) (netMonitor_ n) (netCallback_ n) (netBearer_ n) (isInternalDefault_ n) (netDetectionRetCallback_ n) (isDetectingForDns_ n) (isSupportInternet_ n) (nat464Service_ n) (lastDetectTime_ n) (forbidDetectionFlag_ n) (isNeedResume_ n) (isScreenOn_ n) (dualStackProbeTime_ n).
Definition set_isPhyNetCreated_ (x : bool) (n : Network) : Network :=
  mkNetwork (netId_ n) (supplierId_ n) (netLinkInfo_ n) (state_ n) (detectResult_ n) x (isVirtualCreated_ n) (netMonitor_ n) (netCallback_ n) (netBearer_ n) (isInternalDefault_ n) (netDetectionRetCallback_ n) (isDetectingForDns_ n) (isSupportInternet_ n) (nat464Service_ n) (lastDetectTime_ n) (forbidDetectionFlag_ n) (isNeedResume_ n) (isScreenOn_ n) (dualStackProbeTime_ n).
Definition set_isVirtualCreated_ (x : bool) (n : Network) : Network :=
  mkNetwork (netId_ n) (supplierId_ n) (netLinkInfo_ n) (state_ n) (detectResult_ n) (isPhyNetCreated_ n) x (netMonitor_ n) (netCallback_ n) (netBearer_ n) (isInternalDefault_ n) (netDetectionRetCallback_ n) (isDetectingForDns_ n) (isSupportInternet_ n) (nat464Service_ n) (lastDetectTime_ n) (forbidDetectionFlag_ n) (isNeedResume_ n) (isScreenOn_ n) (dualStackProbeTime_ n).
Definition set_netMonitor_ (x : option Z) (n : Network) : Network :=
  mkNetwork (netId_ n) (supplierId_ n) (netLinkInfo_ n) (state_ n) (detectResult_ n) (isPhyNetCreated_ n) (isVirtualCreated_ n) x (netCallback_ n) (netBearer_ n) (isInternalDefault_ n) (netDetectionRetCallback_ n) (isDetectingForDns_ n) (isSupportInternet_ n) (nat464Service_ n) (lastDetectTime_ n) (forbidDetectionFlag_ n) (isNeedResume_ n) (isScreenOn_ n) (dualStackProbeTime_ n).
Definition set_isInternalDefault_ (x : bool) (n : Network) : Network :=
  mkNetwork (netId_ n) (supplierId_ n) (netLinkInfo_ n) (state_ n) (detectResult_ n) (isPhyNetCreated_ n) (isVirtualCreated_ n) (netMonitor_ n) (netCallback_ n) (netBearer_ n) x (netDetectionRetCallback_ n) (isDetectingForDns_ n) (isSupportInternet_ n) (nat464Service_ n) (lastDetectTime_ n) (forbidDetectionFlag_ n) (isNeedResume_ n) (isScreenOn_ n) (dualStackProbeTime_ n).
Definition set_isDetectingForDns_ (x : bool) (n : Network) : Network :=
  mkNetwork (netId_ n) (supplierId_ n) (netLinkInfo_ n) (state_ n) (detectResult_ n) (isPhyNetCreated_ n) (isVirtualCreated_ n) (netMonitor_ n) (netCallback_ n) (netBearer_ n) (isInternalDefault_ n) (netDetectionRetCallback_ n) x (isSupportInternet_ n) (nat464Service_ n) (lastDetectTime_ n) (forbidDetectionFlag_ n) (isNeedResume_ n) (isScreenOn_ n) (dualStackProbeTime_ n).
Definition set_isSupportInternet_ (x : bool) (n : Network) : Network :=
  mkNetwork (netId_ n) (supplierId_ n) (netLinkInfo_ n) (state_ n) (detectResult_ n) (isPhyNetCreated_ n) (isVirtualCreated_ n) (netMonitor_ n) (netCallback_ n) (netBearer_ n) (isInternalDefault_ n) (netDetectionRetCallback_ n) (isDetectingForDns_ n) x (nat464Service_ n) (lastDetectTime_ n) (forbidDetectionFlag_ n) (isNeedResume_ n) (isScreenOn_ n) (dualStackProbeTime_ n).
Definition set_nat464Service_ (x : option Z) (n : Network) : Network :=
  mkNetwork (netId_ n) (supplierId_ n) (netLinkInfo_ n) (state_ n) (detectResult_ n) (isPhyNetCreated_ n) (isVirtualCreated_ n) (netMonitor_ n) (netCallback_ n) (netBearer_ n) (isInternalDefault_ n) (netDetectionRetCallback_ n) (isDetectingForDns_ n) (isSupportInternet_ n) x (lastDetectTime_ n) (forbidDetectionFlag_ n) (isNeedResume_ n) (isScreenOn_ n) (dualStackProbeTime_ n).
Definition set_lastDetectTime_ (x : Z) (n : Network) : Network :=
  mkNetwork (netId_ n) (supplierId_ n) (netLinkInfo_ n) (state_ n) (detectResult_ n) (isPhyNetCreated_ n) (isVirtualCreated_ n) (netMonitor_ n) (netCallback_ n) (netBearer_ n) (isInternalDefault_ n) (netDetectionRetCallback_ n) (isDetectingForDns_ n) (isSupportInternet_ n) (nat464Service_ n) x (forbidDetectionFlag_ n) (isNeedResume_ n) (isScreenOn_ n) (dualStackProbeTime_ n).
Definition set_isNeedResume_ (x : bool) (n : Network) : Network :=
  mkNetwork (netId_ n) (supplierId_ n) (netLinkInfo_ n) (state_ n) (detectResult_ n) (isPhyNetCreated_ n) (isVirtualCreated_ n) (netMonitor_ n) (netCallback_ n) (netBearer_ n) (isInternalDefault_ n) (netDetectionRetCallback_ n) (isDetectingForDns_ n) (isSupportInternet_ n) (nat464Service_ n) (lastDetectTime_ n) (forbidDetectionFlag_ n) x (isScreenOn_ n) (dualStackProbeTime_ n).
Definition set_netDetectionRetCallback_ (x : list Z) (n : Network) : Network :=
  mkNetwork (netId_ n) (supplierId_ n) (netLinkInfo_ n) (state_ n) (detectResult_ n) (isPhyNetCreated_ n) (isVirtualCreated_ n) (netMonitor_ n) (netCallback_ n) (netBearer_ n) (isInternalDefault_ n) x (isDetectingForDns_ n) (isSupportInternet_ n) (nat464Service_ n) (lastDetectTime_ n) (forbidDetectionFlag_ n) (isNeedResume_ n) (isScreenOn_ n) (dualStackProbeTime_ n).
Definition set_isScreenOn_ (x : bool) (n : Network) : Network :=
  mkNetwork (netId_ n) (supplierId_ n) (netLinkInfo_ n) (state_ n) (detectResult_ n) (isPhyNetCreated_ n) (isVirtualCreated_ n) (netMonitor_ n) (netCallback_ n) (netBearer_ n) (isInternalDefault_ n) (netDetectionRetCallback_ n) (isDetectingForDns_ n) (isSupportInternet_ n) (nat464Service_ n) (lastDetectTime_ n) (forbidDetectionFlag_ n) (isNeedResume_ n) x (dualStackProbeTime_ n).
Definition set_forbidDetectionFlag_ (x : bool) (n : Network) : Network :=
  mkNetwork (netId_ n) (supplierId_ n) (netLinkInfo_ n) (state_ n) (detectResult_ n) (isPhyNetCreated_ n) (isVirtualCreated_ n) (netMonitor_ n) (netCallback_ n) (netBearer_ n) (isInternalDefault_ n) (netDetectionRetCallback_ n) (isDetectingForDns_ n) (isSupportInternet_ n) (nat464Service_ n) (lastDetectTime_ n) x (isNeedResume_ n) (isScreenOn_ n) (dualStackProbeTime_ n).
Definition set_netCallback_ (x : bool) (n : Network) : Network :=
  mkNetwork (netId_ n) (supplierId_ n) (netLinkInfo_ n) (state_ n) (detectResult_ n) (isPhyNetCreated_ n) (isVirtualCreated_ n) (netMonitor_ n) x (netBearer_ n) (isInternalDefault_ n) (netDetectionRetCallback_ n) (isDetectingForDns_ n) (isSupportInternet_ n) (nat464Service_ n) (lastDetectTime_ n) (forbidDetectionFlag_ n) (isNeedResume_ n) (isScreenOn_ n) (dualStackProbeTime_ n).
Definition set_dualStackProbeTime_ (x : Z) (n : Network) : Network :=
  mkNetwork (netId_ n) (supplierId_ n) (netLinkInfo_ n) (state_ n) (detectResult_ n) (isPhyNetCreated_ n) (isVirtualCreated_ n) (netMonitor_ n) (netCallback_ n) (netBearer_ n) (isInternalDefault_ n) (netDetectionRetCallback_ n) (isDetectingForDns_ n) (isSupportInternet_ n) (nat464Service_ n) (lastDetectTime_ n) (forbidDetectionFlag_ n) (isNeedResume_ n) (isScreenOn_ n) x.
Definition set_ifaceName (x : string) (l : NetLinkInfo) : NetLinkInfo :=
  mkNetLinkInfo x (domain_ l) (netAddrList_ l) (dnsList_ l) (routeList_ l) (mtu_ l) (tcpBufferSizes_ l) (ident_ l) (httpProxy_ l) (isIpv4LinkValid_ l) (isIpv6LinkValid_ l) (isUserDefinedDnsServer_ l).
Definition set_routeList (x : list Route) (l : NetLinkInfo) : NetLinkInfo :=
  mkNetLinkInfo (ifaceName_ l) (domain_ l) (netAddrList_ l) (dnsList_ l) x (mtu_ l) (tcpBufferSizes_ l) (ident_ l) (httpProxy_ l) (isIpv4LinkValid_ l) (isIpv6LinkValid_ l) (isUserDefinedDnsServer_ l).
Definition set_link_valid (v4 v6 : bool) (l : NetLinkInfo) : NetLinkInfo :=
  mkNetLinkInfo (ifaceName_ l) (domain_ l) (netAddrList_ l) (dnsList_ l) (routeList_ l) (mtu_ l) (tcpBufferSizes_ l) (ident_ l) (httpProxy_ l) v4 v6 (isUserDefinedDnsServer_ l).

Definition upd_info (f : NetLinkInfo -> NetLinkInfo) (n : Network) : Network := set_netLinkInfo_ (f (netLinkInfo_ n)) n.

(** ** Calls as a state monad over the world *)

Section Operations.
Context {W : Type} `{!Netsys W} `{!AddrUtils}.

(** A call whose result is not looked at. *)
Definition do_call (c : NetsysCall) (w : W) : W := (call c w).2.
(** A call that reports a fault of the supplier when it fails. *)
Definition do_checked (netId : Z) (c : NetsysCall) (w : W) : W :=
  let '(ret, w) := call c w in
  if ret =? NETMANAGER_SUCCESS then w else do_call (SupplierFault netId) w.

(** ** Detection *)

Definition StopNetDetection (n : Network) (w : W) : Network * W :=
  match netMonitor_ n with
  | None => (n, w)
  | Some m =>
      let w := do_call (MonitorStop m) w in
      let w := do_call (MonitorStopDualStackProbe m) w in
      (set_netMonitor_ None (set_lastDetectTime_ (MonitorLastDetectTime m w) n), w)
  end.

Definition InitNetMonitor (n : Network) (w : W) : Network * W :=
  match netMonitor_ n with
  | Some m => (n, do_call (MonitorStart m) w)
  | None =>
      let '(m, w) := call (MonitorNew (netId_ n) (netBearer_ n) (netLinkInfo_ n) (isScreenOn_ n) (lastDetectTime_ n)) w in
      let w := do_call (MonitorUpdateDualStackProbeTime m (dualStackProbeTime_ n)) w in
      (set_netMonitor_ (Some m) n, do_call (MonitorStart m) w)
  end.

Definition net_connected (n : Network) : bool := bool_decide (state_ n = NET_CONN_STATE_CONNECTED).
Definition net_connecting (n : Network) : bool := bool_decide (state_ n = NET_CONN_STATE_CONNECTING).

(** The build with power management, outside of factory mode. *)
Definition StartNetDetection (needReport : bool) (n : Network) (w : W) : Network * W :=
  if negb (net_connected n) then (n, w)
  else if forbidDetectionFlag_ n then (n, w)
  else
    let '(n, w) := if needReport then StopNetDetection n w else (n, w) in
    InitNetMonitor n w.

Definition DelayStartDetectionForIpUpdate (hasSameIpAddr : bool) (n : Network) (w : W) : bool * W :=
  if negb hasSameIpAddr then (false, w)
  else if negb (bool_decide (netBearer_ n = BEARER_CELLULAR)) && negb (bool_decide (netBearer_ n = BEARER_WIFI)) then (false, w)
  else match netMonitor_ n with
       | None => (false, w)
       | Some m =>
           if negb (MonitorIsDetecting m w) then (false, w)
           else if LAST_DETECTION_LAPSE_MS <=? u64 (GetCurrentMilliSecond w - MonitorLastDetectTime m w) then (false, w)
           else (true, do_call (PostDelayedDetection (netId_ n) DETECTION_RESULT_WAIT_MS) w)
       end.

Definition NetDetectionResultConvert (s : NetDetectionStatus) : Z :=
  match s with
  | INVALID_DETECTION_STATE => NET_DETECTION_FAIL
  | VERIFICATION_STATE => NET_DETECTION_SUCCESS
  | CAPTIVE_PORTAL_STATE => NET_DETECTION_CAPTIVE_PORTAL
  | _ => NET_DETECTION_FAIL
  end.

Definition HandleNetMonitorResult (s : NetDetectionStatus) (url : string) (n : Network) (w : W) : Network * W :=
  let n := set_isDetectingForDns_ false n in
  let w := do_call (NotifyDetectionResult (netDetectionRetCallback_ n) (NetDetectionResultConvert s) url) w in
  if netCallback_ n && negb (bool_decide (detectResult_ n = s)) then
    (set_detectResult_ s n, do_call (DetectionHandler (supplierId_ n) s) w)
  else (n, w).

Definition RegisterNetDetectionCallback (callback : option Z) (n : Network) : Network :=
  match callback with
  | None => n
  | Some c => if bool_decide (c ∈ netDetectionRetCallback_ n) then n
              else set_netDetectionRetCallback_ (netDetectionRetCallback_ n ++ [c]) n
  end.

(** [erase] of the first equal element. *)
Fixpoint remove_first (c : Z) (l : list Z) : list Z :=
  match l with [] => [] | x :: r => if x =? c then r else x :: remove_first c r end.

Definition UnRegisterNetDetectionCallback (callback : option Z) (n : Network) : Z * Network :=
  match callback with
  | None => (NETMANAGER_ERR_LOCAL_PTR_NULL, n)
  | Some c => (NETMANAGER_SUCCESS, set_netDetectionRetCallback_ (remove_first c (netDetectionRetCallback_ n)) n)
  end.

Definition NetDetectionForDnsHealth (dnsHealthSuccess : bool) (n : Network) (w : W) : Network * W :=
  if negb (net_connected n) then (n, w)
  else match netMonitor_ n with
       | None => (n, w)
       | Some m =>
           if bool_decide (detectResult_ n = INVALID_DETECTION_STATE) && dnsHealthSuccess && negb (isDetectingForDns_ n) then
             (set_isDetectingForDns_ true n, do_call (MonitorStart m) w)
           else if bool_decide (detectResult_ n = VERIFICATION_STATE) && negb dnsHealthSuccess && negb (MonitorIsDetecting m w) then
             (n, do_call (MonitorStart m) w)
           else (n, w)
       end.

Definition SetNetCaps (caps : gset Z) (n : Network) : Network :=
  set_isInternalDefault_ (bool_decide (NET_CAPABILITY_INTERNAL_DEFAULT ∈ caps))
    (set_isSupportInternet_ (bool_decide (NET_CAPABILITY_INTERNET ∈ caps)) n).

(** ** Addresses and routes *)

Definition dest_string (r : Route) : string := address_ (destination_ r) +:+ "/" +:+ pretty (prefixlen_ (destination_ r)).

Definition IsAddressValid (r : Route) : bool :=
  (String.length (address_ (destination_ r)) <=? MAX_ROUTE_ADDRESS_LENGTH)%nat.

Definition default_destination (r : Route) : bool :=
  bool_decide (address_ (destination_ r) = LOCAL_ROUTE_NEXT_HOP)
  || bool_decide (address_ (destination_ r) = LOCAL_ROUTE_IPV6_DESTINATION).

Definition local_hop (r : Route) : string :=
  if GetAddrFamily (address_ (destination_ r)) =? AF_INET6 then "" else LOCAL_ROUTE_NEXT_HOP.

(** The prefix length an address is removed with when the network goes down. *)
Definition release_prefix (a : INetAddr) : Z :=
  if prefixlen_ a =? 0 then Ipv4PrefixLen (netMask_ a) else prefixlen_ a.

Definition update_prefix (a : INetAddr) : Z :=
  if prefixlen_ a =? 0 then
    if GetAddrFamily (address_ a) =? AF_INET6 then Ipv6PrefixLen (netMask_ a) else Ipv4PrefixLen (netMask_ a)
  else prefixlen_ a.

Definition remove_route (n : Network) (r : Route) (w : W) : W :=
  do_call (NetworkRemoveRoute (netId_ n) (iface_ r) (dest_string r) (address_ (gateway_ r))) w.

Definition ReleaseRouteList (l : NetLinkInfo) (n : Network) (w : W) : Network * W :=
  let w := foldl (fun w a => do_call (DelInterfaceAddress (ifaceName_ l) (address_ a) (release_prefix a) None) w) w (netAddrList_ l) in
  let w := foldl (fun w r =>
    if default_destination r || negb (IsAddressValid r) then w
    else do_call (NetworkRemoveRoute LOCAL_NET_ID (iface_ r) (dest_string r) (local_hop r)) w) w (routeList_ l) in
  (set_isNeedResume_ false n, w).

Definition ReleaseBasicNetwork (n : Network) (w : W) : bool * Network * W :=
  if negb (isPhyNetCreated_ n) then (true, n, w)
  else
    let '(n, w) := StopNetDetection n w in
    let l := netLinkInfo_ n in
    let '(n, w) :=
      if negb (IsIfaceNameInUse (ifaceName_ l) (netId_ n) w) || isNeedResume_ n then ReleaseRouteList l n w
      else
        let socketType := if isInternalDefault_ n then DESTROY_SPECIAL_CELLULAR
                          else if bool_decide (netBearer_ n = BEARER_CELLULAR) then DESTROY_DEFAULT_CELLULAR
                          else DESTROY_DEFAULT in
        (n, foldl (fun w a => do_call (DelInterfaceAddress (ifaceName_ l) (address_ a) (release_prefix a) (Some socketType)) w) w (netAddrList_ l)) in
    let w := foldl (fun w r => if IsAddressValid r then remove_route n r w else w) w (routeList_ l) in
    let w := do_call (NetworkRemoveInterface (netId_ n) (ifaceName_ l)) w in
    let w := do_call (NetworkDestroy (netId_ n) false) w in
    let w := do_call (DestroyNetworkCache (netId_ n) false) w in
    (true, set_isPhyNetCreated_ false (set_netLinkInfo_ empty_info n), w).

Definition CreateBasicNetwork (n : Network) (w : W) : bool * Network * W :=
  if isPhyNetCreated_ n then (true, n, w)
  else
    let '(ret, w) := call (NetworkCreatePhysical (netId_ n) 0) w in
    if negb (ret =? NETMANAGER_SUCCESS) then (false, n, do_call (SupplierFault (netId_ n)) w)
    else (true, set_isPhyNetCreated_ true n, do_call (CreateNetworkCache (netId_ n) false) w).

Definition CreateVirtualNetwork (n : Network) (w : W) : bool * Network * W :=
  if isVirtualCreated_ n then (true, n, w)
  else
    let hasDns := negb (bool_decide (dnsList_ (netLinkInfo_ n) = [])) in
    let '(ret, w) := call (NetworkCreateVirtual (netId_ n) hasDns) w in
    if negb (ret =? NETMANAGER_SUCCESS) then (false, n, do_call (SupplierFault (netId_ n)) w)
    else (true, set_isVirtualCreated_ true n, do_call (CreateNetworkCache (netId_ n) true) w).

Definition ReleaseVirtualNetwork (n : Network) (w : W) : bool * Network * W :=
  if negb (isVirtualCreated_ n) then (true, n, w)
  else
    let l := netLinkInfo_ n in
    let w := foldl (fun w a => do_call (DelInterfaceAddress (ifaceName_ l) (address_ a) (release_prefix a) None) w) w (netAddrList_ l) in
    let w := do_call (NetworkRemoveInterface (netId_ n) (ifaceName_ l)) w in
    let w := do_call (NetworkDestroy (netId_ n) true) w in
    let w := do_call (DestroyNetworkCache (netId_ n) true) w in
    (true, set_isVirtualCreated_ false (set_netLinkInfo_ empty_info n), w).

Definition UpdateBasicNetwork (isAvailable : bool) (n : Network) (w : W) : bool * Network * W :=
  let vpn := bool_decide (netBearer_ n = BEARER_VPN) in
  if isAvailable then if vpn then CreateVirtualNetwork n w else CreateBasicNetwork n w
  else if vpn then ReleaseVirtualNetwork n w
  else
    let w := match nat464Service_ n with Some s => do_call (Nat464UpdateService s true) w | None => w end in
    ReleaseBasicNetwork n w.

Definition UpdateStatsCached (l : NetLinkInfo) (n : Network) (w : W) : W :=
  if bool_decide (ifaceName_ l = ifaceName_ (netLinkInfo_ n)) && bool_decide (ident_ l = ident_ (netLinkInfo_ n)) then w
  else do_checked (netId_ n) UpdateStatsData w.

Definition UpdateInterfaces (l : NetLinkInfo) (n : Network) (w : W) : Network * W :=
  let old := ifaceName_ (netLinkInfo_ n) in
  if bool_decide (ifaceName_ l = old) then (n, w)
  else
    let w := if bool_decide (ifaceName_ l = "") then w
             else do_checked (netId_ n) (NetworkAddInterface (netId_ n) (ifaceName_ l) (netBearer_ n)) w in
    let w := if bool_decide (old = "") then w else do_checked (netId_ n) (NetworkRemoveInterface (netId_ n) old) w in
    (upd_info (set_ifaceName (ifaceName_ l)) n, w).

(** The loop erases the routes of the family and keeps the others. *)
Definition of_family (t : Z) (r : Route) : bool := (type_ (destination_ r) =? t) && IsAddressValid r.
Definition RemoveRouteByFamily (t : Z) (n : Network) (w : W) : Network * W :=
  let routes := routeList_ (netLinkInfo_ n) in
  (upd_info (set_routeList (List.filter (fun r => negb (of_family t r)) routes)) n,
   foldl (fun w r => if of_family t r then remove_route n r w else w) w routes).

Definition HandleUpdateIpAddrs (l : NetLinkInfo) (n : Network) (w : W) : W :=
  foldl (fun w a =>
    if HasNetAddr a (netLinkInfo_ n) then w
    else do_checked (netId_ n) (AddInterfaceAddress (ifaceName_ l) (address_ a) (update_prefix a)) w) w (netAddrList_ l).

Definition UpdateIpAddrs (l : NetLinkInfo) (n : Network) (w : W) : bool * Network * W :=
  let old := netLinkInfo_ n in
  let same family := existsb (fun a => HasNetAddr a l && (GetAddrFamily (address_ a) =? family)) (netAddrList_ old) in
  let w := foldl (fun w a =>
    if HasNetAddr a l then w
    else do_checked (netId_ n) (DelInterfaceAddress (ifaceName_ old) (address_ a) (update_prefix a) None) w) w (netAddrList_ old) in
  let '(n, w) := if same AF_INET then (n, w) else RemoveRouteByFamily IPV4 n w in
  let '(n, w) := if same AF_INET6 then (n, w) else RemoveRouteByFamily IPV6 n w in
  (same AF_INET || same AF_INET6, n, HandleUpdateIpAddrs l n w).

Definition has_local (n : Network) (r : Route) : bool :=
  negb (bool_decide (netBearer_ n = BEARER_VPN)) && negb (default_destination r).

(** Two calls, of which a failure is reported once. *)
Definition two_calls (netId : Z) (c1 : NetsysCall) (c2 : option NetsysCall) (w : W) : W :=
  let '(ret, w) := call c1 w in
  let '(res, w) := match c2 with Some c => call c w | None => (NETMANAGER_SUCCESS, w) end in
  if (ret =? NETMANAGER_SUCCESS) && (res =? NETMANAGER_SUCCESS) then w else do_call (SupplierFault netId) w.

Definition delete_route (n : Network) (r : Route) (w : W) : W :=
  two_calls (netId_ n) (NetworkRemoveRoute (netId_ n) (iface_ r) (dest_string r) (address_ (gateway_ r)))
    (if has_local n r then Some (NetworkRemoveRoute LOCAL_NET_ID (iface_ r) (dest_string r) (local_hop r)) else None) w.

Definition add_route (n : Network) (r : Route) (w : W) : W :=
  two_calls (netId_ n) (NetworkAddRoute (netId_ n) (iface_ r) (dest_string r) (address_ (gateway_ r)) (isExcludedRoute_ r))
    (if has_local n r then Some (NetworkAddRoute LOCAL_NET_ID (iface_ r) (dest_string r) (local_hop r) false) else None) w.

Definition UpdateNewRoutes (old l : NetLinkInfo) (n : Network) (w : W) : W :=
  let w := foldl (fun w r => if HasRoute r old || negb (IsAddressValid r) then w else add_route n r w) w (routeList_ l) in
  if bool_decide (routeList_ l = []) then do_call (SupplierFault (netId_ n)) w else w.

Definition BatchUpdateRoutes (old l : NetLinkInfo) (n : Network) (w : W) : W :=
  let new := List.filter (fun r => negb (HasRoute r old || negb (IsAddressValid r))) (routeList_ l) in
  let batchRoutes := map (fun r => mkRouteInfo (iface_ r) (dest_string r) (address_ (gateway_ r)) (isExcludedRoute_ r)) new in
  let batchLocalRoutes := map (fun r => mkRouteInfo (iface_ r) (dest_string r) (local_hop r) false) (List.filter (has_local n) new) in
  let '(ret, w) := if bool_decide (batchRoutes = []) then (NETMANAGER_SUCCESS, w) else call (NetworkAddRoutes (netId_ n) batchRoutes) w in
  let '(res, w) := if bool_decide (batchLocalRoutes = []) then (NETMANAGER_SUCCESS, w) else call (NetworkAddRoutes LOCAL_NET_ID batchLocalRoutes) w in
  let w := if (ret =? NETMANAGER_SUCCESS) && (res =? NETMANAGER_SUCCESS) then w else do_call (SupplierFault (netId_ n)) w in
  if bool_decide (routeList_ l = []) then do_call (SupplierFault (netId_ n)) w else w.

Definition HandleDeleteIpv6Route (old l : NetLinkInfo) (netId : Z) (w : W) : W :=
  if HasIpv6DefaultRoute old && negb (HasIpv6DefaultRoute l) && IsIpv4Provisioned l then
    do_call (FlushDnsCacheOf netId) (do_call (SetEnableIpv6 (ifaceName_ l) 0 true) w)
  else w.

Definition UpdateRoutes (l : NetLinkInfo) (n : Network) (w : W) : W :=
  let old := netLinkInfo_ n in
  let w := foldl (fun w r => if HasRoute r l || negb (IsAddressValid r) then w else delete_route n r w) w (routeList_ old) in
  let w := if (BATCH_ROUTE_THRESHOLD <? length (routeList_ l))%nat then BatchUpdateRoutes old l n w
           else UpdateNewRoutes old l n w in
  HandleDeleteIpv6Route old l (netId_ n) w.

(** ** The resolver *)

(** The loop over the servers: the accepted ones, the domains and the two
    counters. *)
Definition dns_step (iface : string) (acc : list string * list string * Z * Z) (dns : INetAddr) : list string * list string * Z * Z :=
  let '(servers, domains, v4, v6) := acc in
  if bool_decide (address_ dns = "") || bool_decide (address_ dns = INVALID_IPV4) || bool_decide (address_ dns = INVALID_IPV6) then acc
  else
    let domains := domains ++ [hostName_ dns] in
    let family := GetAddrFamily (address_ dns) in
    if (type_ dns =? IPV4) || (family =? AF_INET) then
      (if v4 <? MAX_IPV4_DNS_NUM then servers ++ [address_ dns] else servers, domains, v4 + 1, v6)
    else if (type_ dns =? IPV6) || (family =? AF_INET6) then
      let final := if IsIPv6LinkLocal (address_ dns) && bool_decide (String.index 0 "%" (address_ dns) = None) && negb (bool_decide (iface = ""))
                   then address_ dns +:+ "%" +:+ iface else address_ dns in
      (if v6 <? MAX_IPV6_DNS_NUM then servers ++ [final] else servers, domains, v4, v6 + 1)
    else (servers ++ [address_ dns], domains, v4, v6).

Definition dns_servers (l : NetLinkInfo) : list string * list string :=
  let '(servers, domains, _, _) := foldl (dns_step (ifaceName_ l)) ([], [], 0, 0) (dnsList_ l) in (servers, domains).

Definition UpdateDns (l : NetLinkInfo) (n : Network) (w : W) : W :=
  let '(servers, domains) := dns_servers l in
  let w := do_checked (netId_ n) (SetResolverConfig (netId_ n) 0 0 servers domains) w in
  let w := do_call (SetUserDefinedServerFlag (netId_ n) (isUserDefinedDnsServer_ l)) w in
  if bool_decide (dnsList_ l = []) then do_call (SupplierFault (netId_ n)) w else w.

Definition UpdateMtu (l : NetLinkInfo) (n : Network) (w : W) : W :=
  if mtu_ l =? mtu_ (netLinkInfo_ n) then w else do_checked (netId_ n) (SetInterfaceMtu (ifaceName_ l) (mtu_ l)) w.

Definition UpdateTcpBufferSize (l : NetLinkInfo) (n : Network) (w : W) : W :=
  if bool_decide (tcpBufferSizes_ l = tcpBufferSizes_ (netLinkInfo_ n)) then w
  else do_checked (netId_ n) (SetTcpBufferSizes (tcpBufferSizes_ l)) w.

(** ** The validity of the link *)

Definition IsValidIpRoute (dest : INetAddr) (hop : string) : bool :=
  let pos := String.index 0 "/" (address_ dest) in
  let ip := match pos with Some p => String.substring 0 p (address_ dest) | None => address_ dest end in
  let family := GetAddrFamily ip in
  if family =? AF_INET then IsValidIPV4 ip && (IsValidIPV4 hop || bool_decide (hop = ""))
  else if family =? AF_INET6 then
    match pos with
    | Some p =>
        match prefix_of_string (String.substring (S p) (String.length (address_ dest) - S p) (address_ dest)) with
        | None => false
        | Some prefix => IsValidIPV6 ip && (0 <? prefix) && (prefix <=? 128) && (IsValidIPV6 hop || bool_decide (hop = ""))
        end
    | None => IsValidIPV6 ip && (IsValidIPV6 hop || bool_decide (hop = ""))
    end
  else false.

(** The two loops only raise flags, so that leaving them early when both are
    raised changes nothing. *)
Definition UpdateNetLinkInfoLinkType (l : NetLinkInfo) (n : Network) : Network :=
  let validRoute family := existsb (fun r => IsValidIpRoute (destination_ r) (address_ (gateway_ r))
                             && (GetAddrFamily (address_ (destination_ r)) =? family)) (routeList_ l) in
  let hasIpv4 := existsb (fun a => (GetAddrFamily (address_ a) =? AF_INET) && validRoute AF_INET) (netAddrList_ l) in
  let hasIpv6 := existsb (fun a => (GetAddrFamily (address_ a) =? AF_INET6) && validRoute AF_INET6
                             && IsUsableGlobalIpv6Addr (address_ a)) (netAddrList_ l) in
  set_netLinkInfo_ (set_link_valid hasIpv4 hasIpv6 l) n.

(** ** The whole update *)

Definition IsNat464Prefered (n : Network) : bool :=
  bool_decide (netBearer_ n ∈ [BEARER_CELLULAR; BEARER_WIFI; BEARER_ETHERNET])
  && negb (existsb (fun a => negb (type_ a =? IPV6)) (netAddrList_ (netLinkInfo_ n)))
  && negb (bool_decide (ifaceName_ (netLinkInfo_ n) = "")) && net_connected n.

(** The end of [UpdateNetLinkInfo] and of [UpdateNetConnState]. *)
Definition update_nat464 (n : Network) (w : W) : Network * W :=
  let iface := ifaceName_ (netLinkInfo_ n) in
  if IsNat464Prefered n then
    let '(s, n, w) := match nat464Service_ n with
                      | Some s => (s, n, w)
                      | None => let '(s, w) := call (Nat464New (netId_ n) iface) w in (s, set_nat464Service_ (Some s) n, w)
                      end in
    (n, do_call (Nat464UpdateService s false) (do_call (Nat464MaybeUpdateV6Iface s iface) w))
  else match nat464Service_ n with Some s => (n, do_call (Nat464UpdateService s true) w) | None => (n, w) end.

Definition UpdateNetLinkInfo (l : NetLinkInfo) (n : Network) (w : W) : bool * Network * W :=
  let w := UpdateStatsCached l n w in
  let '(n, w) := UpdateInterfaces l n w in
  let inUse := IsIfaceNameInUse (ifaceName_ l) (netId_ n) w in
  let '(hasSameIpAddr, n, w) := if negb inUse || isSupportInternet_ n then UpdateIpAddrs l n w else (false, n, w) in
  let w := UpdateRoutes l n w in
  let w := UpdateDns l n w in
  let w := UpdateMtu l n w in
  let w := UpdateTcpBufferSize l n w in
  let n := UpdateNetLinkInfoLinkType l n in
  let '(n, w) := update_nat464 n w in
  if negb (bool_decide (netBearer_ n = BEARER_VPN)) && isSupportInternet_ n then
    let '(delayed, w) := DelayStartDetectionForIpUpdate hasSameIpAddr n w in
    if delayed then (true, n, w)
    else let '(n, w) := StartNetDetection true n w in (true, n, w)
  else (true, n, w).

Definition GetNetLinkInfo (n : Network) : NetLinkInfo :=
  if bool_decide (netBearer_ n = BEARER_VPN) then netLinkInfo_ n
  else set_routeList (List.filter default_destination (routeList_ (netLinkInfo_ n))) (netLinkInfo_ n).

(** ** The connection state *)

Definition UpdateNetConnState (s : NetConnState) (n : Network) (w : W) : Network * W :=
  if bool_decide (state_ n = s) then (n, w)
  else
    let n := match s with
             | NET_CONN_STATE_IDLE | NET_CONN_STATE_CONNECTING | NET_CONN_STATE_CONNECTED
             | NET_CONN_STATE_DISCONNECTING => set_state_ s n
             | NET_CONN_STATE_DISCONNECTED => set_detectResult_ UNKNOWN_STATE (set_netLinkInfo_ empty_info (set_state_ s n))
             | NET_CONN_STATE_UNKNOWN => set_state_ NET_CONN_STATE_UNKNOWN n
             end in
    let w := do_call (ConnectionChangedBroadcast (netBearer_ n) s) w in
    update_nat464 n w.

Definition SetDefaultNetWork (n : Network) (w : W) : Network * W :=
  let '(ret, w) := call (SetDefaultNetWorkOf (netId_ n)) w in
  if negb (ret =? NETMANAGER_SUCCESS) then (n, do_call (SupplierFault (netId_ n)) w) else StartNetDetection false n w.

Definition ClearDefaultNetWorkNetId (n : Network) (w : W) : Network * W := (n, do_checked (netId_ n) ClearDefaultNetWork w).

Definition UpdateGlobalHttpProxy (p : HttpProxy) (n : Network) (w : W) : Network * W := StartNetDetection true n w.

Definition ResumeNetworkInfo (n : Network) (w : W) : bool * Network * W :=
  let nli := netLinkInfo_ n in
  let n := if isSupportInternet_ n then set_isNeedResume_ true n else n in
  let '(ok, n, w) := UpdateBasicNetwork false n w in
  if negb ok then (false, n, w)
  else
    let '(ok, n, w) := UpdateBasicNetwork true n w in
    if negb ok then (false, n, w) else UpdateNetLinkInfo nli n w.

Definition CloseSocketsUid (u : Z) (n : Network) (w : W) : W :=
  foldl (fun w a => do_call (CloseSocketsOf (address_ a) u) w) w (netAddrList_ (netLinkInfo_ n)).

End Operations.

(** ** The interface of the suppliers *)

Section Interface.
Context {W : Type} `{!Netsys W} `{!AddrUtils}.

#[global] Instance network_INetwork : INetwork W Network := {
  net_GetNetId := netId_;
  net_IsConnecting := net_connecting;
  net_IsConnected := net_connected;
  net_GetHttpProxy n := httpProxy_ (netLinkInfo_ n);
  net_GetNetLinkInfo := GetNetLinkInfo;
  net_UpdateBasicNetwork := UpdateBasicNetwork;
  net_UpdateNetLinkInfo := UpdateNetLinkInfo;
  net_UpdateNetConnState := UpdateNetConnState;
  net_SetDefaultNetWork := SetDefaultNetWork;
  net_ClearDefaultNetWorkNetId := ClearDefaultNetWorkNetId;
  net_UpdateGlobalHttpProxy := UpdateGlobalHttpProxy;
  net_ResumeNetworkInfo := ResumeNetworkInfo;
}.

(** What no operation but [UpdateNetConnState] changes. *)
Definition core (n : Network) : Z * NetConnState * NetBearType * bool :=
  (netId_ n, state_ n, netBearer_ n, isSupportInternet_ n).

Lemma StopNetDetection_core n w : core (StopNetDetection n w).1 = core n.
Proof. unfold StopNetDetection. by destruct (netMonitor_ n). Qed.

Lemma InitNetMonitor_core n w : core (InitNetMonitor n w).1 = core n.
Proof. unfold InitNetMonitor. destruct (netMonitor_ n); [done|]. by destruct (call _ w). Qed.

Lemma StartNetDetection_core b n w : core (StartNetDetection b n w).1 = core n.
Proof.
  unfold StartNetDetection. destruct (negb _); [done|]. destruct (forbidDetectionFlag_ n); [done|].
  destruct b; [|apply InitNetMonitor_core]. pose proof (StopNetDetection_core n w) as E.
  destruct (StopNetDetection n w) as [n1 w1]. simpl in E. by rewrite InitNetMonitor_core.
Qed.

Lemma update_nat464_core n w : core (update_nat464 n w).1 = core n.
Proof.
  unfold update_nat464. destruct (IsNat464Prefered n); destruct (nat464Service_ n); try done. by destruct (call _ w).
Qed.

Lemma UpdateInterfaces_core l n w : core (UpdateInterfaces l n w).1 = core n.
Proof. unfold UpdateInterfaces. by destruct (bool_decide _). Qed.

Lemma UpdateIpAddrs_core l n w : core (UpdateIpAddrs l n w).1.2 = core n.
Proof.
  unfold UpdateIpAddrs, RemoveRouteByFamily. repeat case_match; by simplify_eq.
Qed.

Lemma UpdateNetLinkInfo_core l n w : core (UpdateNetLinkInfo l n w).1.2 = core n.
Proof.
  unfold UpdateNetLinkInfo. set (w0 := UpdateStatsCached l n w).
  pose proof (UpdateInterfaces_core l n w0) as E1. destruct (UpdateInterfaces l n w0) as [n1 w1]. simpl in E1.
  set (r := if negb (IsIfaceNameInUse _ _ _) || _ then _ else _).
  assert (E2 : core r.1.2 = core n1) by (unfold r; destruct (negb _ || _); [apply UpdateIpAddrs_core|done]).
  destruct r as [[same n2] w2]. simpl in E2.
  match goal with |- context [update_nat464 ?a ?b] => pose proof (update_nat464_core a b) as E3; destruct (update_nat464 a b) as [n3 w3] end.
  simpl in E3. assert (E4 : core n3 = core n) by (rewrite E3, <- E1, <- E2; done).
  destruct (negb _ && _); [|done]. destruct (DelayStartDetectionForIpUpdate same n3 w3) as [[] w4]; [done|].
  pose proof (StartNetDetection_core true n3 w4) as E5. destruct (StartNetDetection true n3 w4). simpl in *. by rewrite E5.
Qed.

Lemma UpdateBasicNetwork_core b n w : core (UpdateBasicNetwork b n w).1.2 = core n.
Proof.
  unfold UpdateBasicNetwork. destruct b; destruct (bool_decide _).
  - unfold CreateVirtualNetwork. destruct (isVirtualCreated_ n); [done|]. destruct (call _ w). by destruct (negb _).
  - unfold CreateBasicNetwork. destruct (isPhyNetCreated_ n); [done|]. destruct (call _ w). by destruct (negb _).
  - unfold ReleaseVirtualNetwork. by destruct (negb _).
  - set (w0 := match nat464Service_ n with Some _ => _ | None => _ end). unfold ReleaseBasicNetwork.
    destruct (negb _); [done|]. pose proof (StopNetDetection_core n w0) as E. destruct (StopNetDetection n w0) as [n1 w1].
    simpl in E. unfold ReleaseRouteList. destruct (negb _ || _); exact E.
Qed.

(** The laws the suppliers rely on hold of this network. *)
#[global] Instance network_laws : NetworkLaws W Network.
Proof.
  assert (HC : forall n n' : Network, core n = core n' -> netId_ n = netId_ n' /\ net_connected n = net_connected n').
  { intros n n' E. injection E as E1 E2 _ _. split; [done|]. unfold net_connected. by rewrite E2. }
  assert (HD : forall n w, core (SetDefaultNetWork n w).1 = core n).
  { intros n w. unfold SetDefaultNetWork. destruct (call _ w). destruct (negb _); [done|]. apply StartNetDetection_core. }
  split; intros; cbn.
  1: apply (HC _ n), UpdateBasicNetwork_core.
  1: apply (HC _ n), UpdateNetLinkInfo_core.
  2: apply (HC _ n), HD.
  2: done.
  2: apply (HC _ n), UpdateBasicNetwork_core.
  2: apply (HC _ n), UpdateNetLinkInfo_core.
  3: apply (HC _ n), HD.
  3: done.
  - unfold UpdateNetConnState. destruct (bool_decide _); [done|].
    match goal with |- context [update_nat464 ?a ?b] => pose proof (update_nat464_core a b) as E; destruct (HC _ _ E) as [-> _] end.
    by destruct c.
  - unfold UpdateNetConnState. destruct (decide (state_ n = c)) as [Es|].
    + rewrite (bool_decide_eq_true_2 _ Es). cbn. unfold net_connected. by rewrite Es.
    + rewrite bool_decide_eq_false_2 by done.
      match goal with |- context [update_nat464 ?a ?b] => pose proof (update_nat464_core a b) as E; destruct (HC _ _ E) as [_ ->] end.
      by destruct c.
Qed.

End Interface.

(** ** The routing tables *)

(** A route of the system: the network, the interface, the destination and the
    next hop. *)
Abbreviation route_key := (Z * (string * string * string))%type.

(** Restarting IPv6 on an interface drops the IPv6 routes over it, of all
    networks; an IPv6 destination has a colon. *)
Definition v6_dest (d : string) : bool := match String.index 0 ":" d with Some _ => true | None => false end.
Definition over_v6 (iface : string) (k : route_key) : bool := let '(_, (i, d, _)) := k in bool_decide (i = iface) && v6_dest d.

(** What a call asks of the routing tables. *)
Definition request (c : NetsysCall) (t : gset route_key) : gset route_key :=
  match c with
  | NetworkAddRoute n i d h _ => {[(n, (i, d, h))]} ∪ t
  | NetworkAddRoutes n infos => list_to_set (map (fun r => (n, (ifName r, destination r, nextHop r))) infos) ∪ t
  | NetworkRemoveRoute n i d h => t ∖ {[(n, (i, d, h))]}
  | SetEnableIpv6 i on _ => if on =? 0 then filter (fun k => over_v6 i k = false) t else t
  | _ => t
  end.

Definition touches_routes (c : NetsysCall) : bool :=
  match c with
  | NetworkAddRoute _ _ _ _ _ | NetworkAddRoutes _ _ | NetworkRemoveRoute _ _ _ _ | SetEnableIpv6 _ _ _ => true
  | _ => false
  end.

(** A world that keeps a log of the calls, whatever it answers to them. *)
Record Logged (W : Type) := mkLogged { world : W; calls : list NetsysCall }.
Arguments mkLogged {W}. Arguments world {W}. Arguments calls {W}.

#[local] Instance logged_netsys {W : Type} `{!Netsys W} : Netsys (Logged W) := {
  call c w := let '(ret, x) := call c (world w) in (ret, mkLogged x (calls w ++ [c]));
  IsIfaceNameInUse i n w := IsIfaceNameInUse i n (world w);
  MonitorIsDetecting m w := MonitorIsDetecting m (world w);
  MonitorLastDetectTime m w := MonitorLastDetectTime m (world w);
  GetCurrentMilliSecond w := GetCurrentMilliSecond (world w);
}.

Section Routes.
Context {W0 : Type} {NS : Netsys W0} {AU : AddrUtils}.
#[local] Abbreviation W := (Logged W0).

(** The routes that were asked for and not taken back since. *)
Definition asked (w : W) : gset route_key := foldl (fun t c => request c t) ∅ (calls w).
Definition has_route (w : W) (k : route_key) : Prop := k ∈ asked w.

Lemma asked_call c w : asked (call c w).2 = request c (asked w).
Proof. cbn. destruct (call c (world w)) as [ret x]. unfold asked. cbn. by rewrite foldl_app. Qed.

Lemma rt_add n i d h e w k : has_route (call (NetworkAddRoute n i d h e) w).2 k <-> k = (n, (i, d, h)) \/ has_route w k.
Proof. unfold has_route. rewrite asked_call. cbn [request]. set_solver. Qed.

Lemma rt_adds n infos w k : has_route (call (NetworkAddRoutes n infos) w).2 k <->
  (exists r, r ∈ infos /\ k = (n, (ifName r, destination r, nextHop r))) \/ has_route w k.
Proof. unfold has_route. rewrite asked_call. cbn [request]. rewrite elem_of_union, elem_of_list_to_set, list_elem_of_fmap. naive_solver. Qed.

Lemma rt_remove n i d h w k : has_route (call (NetworkRemoveRoute n i d h) w).2 k <-> k <> (n, (i, d, h)) /\ has_route w k.
Proof. unfold has_route. rewrite asked_call. cbn [request]. set_solver. Qed.

Lemma rt_restart i b w k : has_route (call (SetEnableIpv6 i 0 b) w).2 k <-> over_v6 i k = false /\ has_route w k.
Proof. unfold has_route. rewrite asked_call. cbn [request]. change (0 =? 0) with true. cbn [request]. by rewrite elem_of_filter. Qed.

Lemma rt_other c w k : touches_routes c = false -> has_route (call c w).2 k <-> has_route w k.
Proof. unfold has_route. rewrite asked_call. by destruct c. Qed.

Definition rkey (r : Route) : string * string * string := (iface_ r, dest_string r, address_ (gateway_ r)).

Lemma Route_eqb_spec a b : Route_eqb a b = true <->
  iface_ a = iface_ b /\ destination_ a = destination_ b /\ gateway_ a = gateway_ b /\ isExcludedRoute_ a = isExcludedRoute_ b.
Proof. unfold Route_eqb. rewrite !andb_true_iff, !bool_decide_eq_true, eqb_true_iff. tauto. Qed.

Lemma Route_eqb_sym a b : Route_eqb a b = true -> Route_eqb b a = true.
Proof. rewrite !Route_eqb_spec. naive_solver. Qed.

Lemma Route_eqb_key a b : Route_eqb a b = true -> rkey a = rkey b /\ IsAddressValid a = IsAddressValid b /\
  forall t, of_family t a = of_family t b.
Proof. rewrite Route_eqb_spec. intros (E1 & E2 & E3 & _). unfold rkey, of_family, IsAddressValid, dest_string. by rewrite E1, E2, E3. Qed.

Lemma HasRoute_spec r l : HasRoute r l = true <-> exists r', r' ∈ routeList_ l /\ Route_eqb r' r = true.
Proof.
  unfold HasRoute. rewrite existsb_exists. split; intros (r' & H1 & H2); exists r'; (split; [|done]); by apply list_elem_of_In.
Qed.

(** No two different routes of the lists are one route of the system. *)
Definition keys_distinct (rs : list Route) : Prop :=
  forall r r', r ∈ rs -> r' ∈ rs -> rkey r = rkey r' -> Route_eqb r r' = true.

(** The table of the network [netId] in [w] is the list [rs]. *)
Definition table_is (netId : Z) (rs : list Route) (w : W) : Prop :=
  forall x, has_route w (netId, x) <-> exists r, r ∈ rs /\ IsAddressValid r = true /\ x = rkey r.

Definition synced (n : Network) (w : W) : Prop := table_is (netId_ n) (routeList_ (netLinkInfo_ n)) w.

(** Worlds with the same tables. *)
Definition quiet (w w' : W) : Prop := forall k, has_route w' k <-> has_route w k.

Lemma quiet_refl w : quiet w w.
Proof. done. Qed.
Lemma quiet_trans w1 w2 w3 : quiet w1 w2 -> quiet w2 w3 -> quiet w1 w3.
Proof. intros H1 H2 k. by rewrite (H2 k). Qed.

Lemma quiet_call c w : touches_routes c = false -> quiet w (call c w).2.
Proof. intros H k. by apply rt_other. Qed.

Lemma quiet_do c w : touches_routes c = false -> quiet w (do_call c w).
Proof. apply quiet_call. Qed.

Lemma quiet_checked i c w : touches_routes c = false -> quiet w (do_checked i c w).
Proof.
  intros H. unfold do_checked. pose proof (quiet_call c w H) as Q. destruct (call c w) as [ret w1]. simpl in Q.
  destruct (ret =? _); [done|]. apply (quiet_trans _ w1); [done|by apply quiet_do].
Qed.

Lemma quiet_fold {A} (f : W -> A -> W) (l : list A) w : (forall w a, quiet w (f w a)) -> quiet w (foldl f w l).
Proof. intros H. revert w. induction l as [|a l IH]; intros w; [done|]. simpl. by apply (quiet_trans _ (f w a)). Qed.

Lemma table_quiet i rs w w' : quiet w w' -> table_is i rs w -> table_is i rs w'.
Proof. intros Q H x. by rewrite (Q _). Qed.

(** ** Removing and adding *)

Lemma two_calls_routes i c1 c2 w k :
  has_route (two_calls i c1 c2 w) k <->
  has_route (match c2 with Some c => call c (call c1 w).2 | None => (0, (call c1 w).2) end).2 k.
Proof.
  unfold two_calls. destruct (call c1 w) as [r1 w1]. cbn [snd].
  destruct c2 as [c|]; [destruct (call c w1) as [r2 w2]|]; cbn [snd]; destruct (_ && _); try done; by apply quiet_do.
Qed.

Lemma delete_route_spec n r w x : netId_ n <> LOCAL_NET_ID ->
  has_route (delete_route n r w) (netId_ n, x) <-> x <> rkey r /\ has_route w (netId_ n, x).
Proof.
  intros Hn. unfold delete_route. rewrite two_calls_routes. destruct (has_local n r); cbn [snd]; rewrite !rt_remove; unfold rkey.
  - split; [intros (_ & H1 & H2)|intros [H1 H2]]; repeat split; congruence || done.
  - split; [intros (H1 & H2)|intros [H1 H2]]; repeat split; congruence || done.
Qed.

Lemma add_route_spec n r w x : netId_ n <> LOCAL_NET_ID ->
  has_route (add_route n r w) (netId_ n, x) <-> x = rkey r \/ has_route w (netId_ n, x).
Proof.
  intros Hn. unfold add_route. rewrite two_calls_routes. destruct (has_local n r); cbn [snd]; rewrite !rt_add; unfold rkey.
  - split; [intros [E|[E|E]]|intros [E|E]]; simplify_eq; auto.
  - split; [intros [E|E]|intros [E|E]]; simplify_eq; auto.
Qed.

Lemma remove_route_spec n r w x :
  has_route (remove_route n r w) (netId_ n, x) <-> x <> rkey r /\ has_route w (netId_ n, x).
Proof.
  unfold remove_route, do_call. rewrite rt_remove. unfold rkey.
  split; [intros (H1 & H2)|intros [H1 H2]]; repeat split; congruence || done.
Qed.

(** A loop that removes the routes satisfying [P]. *)
Lemma removing_loop (P : Route -> bool) (step : Route -> W -> W) (f : W -> Route -> W) i rs w x :
  (forall w r, f w r = if P r then step r w else w) ->
  (forall r w, has_route (step r w) (i, x) <-> x <> rkey r /\ has_route w (i, x)) ->
  has_route (foldl f w rs) (i, x) <-> has_route w (i, x) /\ ~ exists r, r ∈ rs /\ P r = true /\ x = rkey r.
Proof.
  intros Hf HS. revert w. induction rs as [|r rs IH]; intros w; simpl.
  - split; [|tauto]. intros H. split; [done|]. intros (r & Hr & _). by apply elem_of_nil in Hr.
  - rewrite IH, Hf. setoid_rewrite elem_of_cons. destruct (P r) eqn:EP; [rewrite HS|]; naive_solver congruence.
Qed.

(** A loop that adds the routes satisfying [P]. *)
Lemma adding_loop (P : Route -> bool) (step : Route -> W -> W) i rs w x :
  (forall r w, has_route (step r w) (i, x) <-> x = rkey r \/ has_route w (i, x)) ->
  has_route (foldl (fun w r => if P r then w else step r w) w rs) (i, x) <->
  has_route w (i, x) \/ exists r, r ∈ rs /\ P r = false /\ x = rkey r.
Proof.
  intros HS. revert w. induction rs as [|r rs IH]; intros w; simpl.
  - split; [tauto|]. intros [H|(r & Hr & _)]; [done|by apply elem_of_nil in Hr].
  - rewrite IH. setoid_rewrite elem_of_cons. destruct (P r) eqn:EP; [|rewrite HS]; naive_solver congruence.
Qed.

Lemma RemoveRouteByFamily_synced t n w : keys_distinct (routeList_ (netLinkInfo_ n)) -> synced n w ->
  let '(n', w') := RemoveRouteByFamily t n w in synced n' w'.
Proof.
  intros HD HS. unfold RemoveRouteByFamily, synced, table_is. intros x. cbn [netId_ netLinkInfo_ upd_info set_netLinkInfo_ routeList_ set_routeList].
  rewrite (removing_loop (of_family t) (remove_route n)) by (intros; done || apply remove_route_spec). rewrite (HS x). split.
  - intros [(r & Hr & Hv & ->) Hno]. exists r. split; [|done]. apply list_elem_of_In, filter_In.
    split; [by apply list_elem_of_In|]. apply negb_true_iff. destruct (of_family t r) eqn:E; [|done]. exfalso. eauto.
  - intros (r & Hr & Hv & ->). apply list_elem_of_In, filter_In in Hr as [Hr Hf]. apply list_elem_of_In in Hr.
    apply negb_true_iff in Hf. split; [by exists r|]. intros (r' & Hr' & Hf' & E).
    destruct (Route_eqb_key r r') as (_ & _ & EF); [by apply HD|]. rewrite EF in Hf. congruence.
Qed.

(** Routes only disappear from the list. *)
Lemma RemoveRouteByFamily_routes t n (w : W) r :
  r ∈ routeList_ (netLinkInfo_ (RemoveRouteByFamily t n w).1) -> r ∈ routeList_ (netLinkInfo_ n).
Proof. cbn. intros H. apply list_elem_of_In, filter_In in H as [H _]. by apply list_elem_of_In. Qed.

Lemma keys_distinct_sub rs rs' : (forall r, r ∈ rs' -> r ∈ rs) -> keys_distinct rs -> keys_distinct rs'.
Proof. intros H HD r r' H1 H2. apply HD; by apply H. Qed.

Lemma added_infos (new : list Route) (i : Z) (x : string * string * string) (f : Route -> NetworkRouteInfo) : (forall r, (ifName (f r), destination (f r), nextHop (f r)) = rkey r) ->
  (exists q, q ∈ map f new /\ (i, x) = (i, (ifName q, destination q, nextHop q))) <-> exists r, r ∈ new /\ x = rkey r.
Proof.
  intros Hf. setoid_rewrite list_elem_of_fmap. split.
  - intros (q & (r & -> & Hr) & E). exists r. split; [done|]. injection E as ->. apply Hf.
  - intros (r & Hr & ->). exists (f r). split; [by exists r|]. by rewrite Hf.
Qed.

Lemma BatchUpdateRoutes_routes old l n w x : netId_ n <> LOCAL_NET_ID ->
  has_route (BatchUpdateRoutes old l n w) (netId_ n, x) <->
  has_route w (netId_ n, x) \/ exists r, r ∈ routeList_ l /\ HasRoute r old || negb (IsAddressValid r) = false /\ x = rkey r.
Proof.
  intros Hn. unfold BatchUpdateRoutes. set (new := List.filter _ (routeList_ l)).
  set (f := fun r => mkRouteInfo (iface_ r) (dest_string r) (address_ (gateway_ r)) (isExcludedRoute_ r)).
  set (local := map _ (List.filter (has_local n) new)).
  set (r1 := if bool_decide (map f new = []) then _ else _).
  assert (H1 : has_route r1.2 (netId_ n, x) <-> has_route w (netId_ n, x) \/ exists r, r ∈ new /\ x = rkey r).
  { unfold r1. destruct (decide (map f new = [])) as [E|E].
    - rewrite (bool_decide_eq_true_2 _ E). apply map_eq_nil in E. rewrite E. cbn [snd].
      split; [tauto|]. intros [H|(r & Hr & _)]; [done|by apply elem_of_nil in Hr].
    - rewrite (bool_decide_eq_false_2 _ E), rt_adds, (added_infos new (netId_ n) x f) by done. tauto. }
  destruct r1 as [ret w1]. cbn [snd] in H1.
  set (r2 := if bool_decide (local = []) then _ else _).
  assert (H2 : has_route r2.2 (netId_ n, x) <-> has_route w1 (netId_ n, x)).
  { unfold r2. destruct (bool_decide (local = [])); [done|]. rewrite rt_adds. split; [|tauto].
    intros [(q & _ & E)|H]; [congruence|done]. }
  destruct r2 as [res w2]. cbn [snd] in H2.
  set (w3 := if _ && _ then w2 else _). assert (H3 : quiet w2 w3) by (unfold w3; destruct (_ && _); [done|by apply quiet_do]).
  assert (H4 : quiet w3 (if bool_decide (routeList_ l = []) then do_call (SupplierFault (netId_ n)) w3 else w3))
    by (destruct (bool_decide _); [by apply quiet_do|done]).
  rewrite (H4 _), (H3 _), H2, H1. unfold new. setoid_rewrite list_elem_of_In. setoid_rewrite filter_In.
  setoid_rewrite negb_true_iff. naive_solver.
Qed.

Lemma UpdateNewRoutes_routes old l n w x : netId_ n <> LOCAL_NET_ID ->
  has_route (UpdateNewRoutes old l n w) (netId_ n, x) <->
  has_route w (netId_ n, x) \/ exists r, r ∈ routeList_ l /\ HasRoute r old || negb (IsAddressValid r) = false /\ x = rkey r.
Proof.
  intros Hn. unfold UpdateNewRoutes. set (w1 := foldl _ w _).
  assert (H : has_route (if bool_decide (routeList_ l = []) then do_call (SupplierFault (netId_ n)) w1 else w1) (netId_ n, x) <-> has_route w1 (netId_ n, x))
    by (destruct (bool_decide _); [by apply quiet_do|done]).
  rewrite H. apply adding_loop. intros. by apply add_route_spec.
Qed.

(** Whether the update restarts IPv6: the default route of IPv6 is lost and IPv4 is usable. *)
Definition restarts (old l : NetLinkInfo) : bool := HasIpv6DefaultRoute old && negb (HasIpv6DefaultRoute l) && IsIpv4Provisioned l.

Lemma HandleDeleteIpv6Route_routes old l i w k :
  has_route (HandleDeleteIpv6Route old l i w) k <-> has_route w k /\ (restarts old l = true -> over_v6 (ifaceName_ l) k = false).
Proof.
  unfold HandleDeleteIpv6Route, restarts. destruct (_ && _ && _); [|naive_solver].
  unfold do_call at 1. rewrite rt_other by done. unfold do_call. rewrite rt_restart. naive_solver.
Qed.

(** The table of the network is the list, but for the IPv6 routes over its interface when [restart]. *)
Definition table_after (netId : Z) (iface : string) (restart : bool) (rs : list Route) (w : W) : Prop :=
  forall x, has_route w (netId, x) <->
    (exists r, r ∈ rs /\ IsAddressValid r = true /\ x = rkey r) /\ (restart = true -> over_v6 iface (netId, x) = false).

Lemma table_after_quiet i f b rs w w' : quiet w w' -> table_after i f b rs w -> table_after i f b rs w'.
Proof. intros Q H x. by rewrite (Q _). Qed.

(** The difference of the two lists is what is removed and added. *)
Lemma UpdateRoutes_table l n w : netId_ n <> LOCAL_NET_ID ->
  keys_distinct (routeList_ (netLinkInfo_ n) ++ routeList_ l) -> synced n w ->
  table_after (netId_ n) (ifaceName_ l) (restarts (netLinkInfo_ n) l) (routeList_ l) (UpdateRoutes l n w).
Proof.
  intros Hn HD HS x. unfold UpdateRoutes. rewrite HandleDeleteIpv6Route_routes. apply and_iff_compat_r.
  set (old := netLinkInfo_ n) in *. set (w1 := foldl _ w _).
  assert (H1 : has_route w1 (netId_ n, x) <-> has_route w (netId_ n, x) /\
    ~ exists r, r ∈ routeList_ old /\ negb (HasRoute r l || negb (IsAddressValid r)) = true /\ x = rkey r).
  { apply (removing_loop _ (delete_route n)); intros; [|by apply delete_route_spec].
    by destruct (HasRoute r l || negb (IsAddressValid r)). }
  assert (H2 : has_route (if (BATCH_ROUTE_THRESHOLD <? length (routeList_ l))%nat then BatchUpdateRoutes old l n w1 else UpdateNewRoutes old l n w1) (netId_ n, x)
    <-> has_route w1 (netId_ n, x) \/ exists r, r ∈ routeList_ l /\ HasRoute r old || negb (IsAddressValid r) = false /\ x = rkey r)
    by (destruct (_ <? _)%nat; [by apply BatchUpdateRoutes_routes|by apply UpdateNewRoutes_routes]).
  rewrite H2, H1, (HS x). fold old. clear H1 H2 w1. setoid_rewrite negb_true_iff. setoid_rewrite orb_false_iff. setoid_rewrite negb_false_iff. split.
  - intros [[(r & Hr & Hv & ->) Hno]|(r & Hr & [_ Hv] & ->)]; [|by exists r].
    destruct (HasRoute r l) eqn:E; [|exfalso; eauto 10]. apply HasRoute_spec in E as (r' & Hr' & E).
    destruct (Route_eqb_key r' r E) as (Ek & Ev & _). exists r'. by rewrite Ek, Ev.
  - intros (r & Hr & Hv & ->). destruct (HasRoute r old) eqn:E; [left|right; eauto 10].
    apply HasRoute_spec in E as (r' & Hr' & E). destruct (Route_eqb_key r' r E) as (Ek & Ev & _).
    split; [exists r'; by rewrite Ek, Ev|]. intros (r'' & Hr'' & [Hf _] & Ekey).
    assert (HasRoute r'' l = true); [|congruence]. apply HasRoute_spec. exists r. split; [done|].
    apply HD; [by apply elem_of_app; right|by apply elem_of_app; left|done].
Qed.

(** ** The other steps leave the tables alone *)

Lemma address_loop_quiet (P : INetAddr -> bool) (c : INetAddr -> NetsysCall) i l w :
  (forall a, touches_routes (c a) = false) -> quiet w (foldl (fun w a => if P a then w else do_checked i (c a) w) w l).
Proof. intros Hc. apply quiet_fold. intros w' a. destruct (P a); [done|]. by apply quiet_checked. Qed.

Lemma UpdateIpAddrs_synced l n w : keys_distinct (routeList_ (netLinkInfo_ n)) -> synced n w ->
  let '(_, n', w') := UpdateIpAddrs l n w in
  synced n' w' /\ netId_ n' = netId_ n /\ forall r, r ∈ routeList_ (netLinkInfo_ n') -> r ∈ routeList_ (netLinkInfo_ n).
Proof.
  intros HD HS. unfold UpdateIpAddrs. set (w1 := foldl _ w _).
  assert (H1 : synced n w1) by (apply (table_quiet _ _ w); [by apply address_loop_quiet|done]).
  assert (HF : forall b t n w, keys_distinct (routeList_ (netLinkInfo_ n)) -> synced n w ->
    let r := if b : bool then (n, w) else RemoveRouteByFamily t n w in
    synced r.1 r.2 /\ netId_ r.1 = netId_ n /\ forall q, q ∈ routeList_ (netLinkInfo_ r.1) -> q ∈ routeList_ (netLinkInfo_ n)).
  { clear. intros b t n w HD HS. destruct b; cbn [fst snd]; [done|]. pose proof (RemoveRouteByFamily_synced t n w HD HS) as H.
    pose proof (RemoveRouteByFamily_routes t n w) as HR. split; [exact H|]. by split. }
  set (s4 := existsb _ _). set (s6 := existsb (fun a => _ && (_ =? AF_INET6)) _).
  destruct (HF s4 IPV4 n w1 HD H1) as (A1 & A2 & A3). destruct (if s4 then (n, w1) else RemoveRouteByFamily IPV4 n w1) as [n2 w2].
  cbn [fst snd] in A1, A2, A3.
  destruct (HF s6 IPV6 n2 w2 (keys_distinct_sub _ _ A3 HD) A1) as (B1 & B2 & B3).
  destruct (if s6 then (n2, w2) else RemoveRouteByFamily IPV6 n2 w2) as [n3 w3]. cbn [fst snd] in B1, B2, B3.
  split; [|split; [congruence|auto]]. apply (table_quiet _ _ w3); [by apply address_loop_quiet|done].
Qed.

Lemma UpdateDns_quiet l n w : quiet w (UpdateDns l n w).
Proof.
  unfold UpdateDns. destruct (dns_servers l) as [servers domains]. set (w1 := do_checked _ _ w). set (w2 := do_call _ w1).
  apply (quiet_trans _ w1); [by apply quiet_checked|]. apply (quiet_trans _ w2); [by apply quiet_do|].
  destruct (bool_decide _); [by apply quiet_do|done].
Qed.

Lemma UpdateInterfaces_quiet l n w : quiet w (UpdateInterfaces l n w).2 /\ netId_ (UpdateInterfaces l n w).1 = netId_ n /\
  routeList_ (netLinkInfo_ (UpdateInterfaces l n w).1) = routeList_ (netLinkInfo_ n).
Proof.
  unfold UpdateInterfaces. destruct (bool_decide _); [done|]. cbn [fst snd]. split; [|done]. set (w1 := if bool_decide (ifaceName_ l = "") then w else _).
  assert (Q : quiet w w1) by (unfold w1; destruct (bool_decide _); [done|by apply quiet_checked]).
  clearbody w1. destruct (bool_decide _); [done|]. by apply (quiet_trans _ w1); [|apply quiet_checked].
Qed.

Lemma update_nat464_quiet n w : quiet w (update_nat464 n w).2 /\ netId_ (update_nat464 n w).1 = netId_ n /\
  netLinkInfo_ (update_nat464 n w).1 = netLinkInfo_ n.
Proof.
  unfold update_nat464. destruct (IsNat464Prefered n); destruct (nat464Service_ n) as [sv|].
  - split; [|done]. apply (quiet_trans _ (do_call (Nat464MaybeUpdateV6Iface sv (ifaceName_ (netLinkInfo_ n))) w)); by apply quiet_do.
  - pose proof (quiet_call (Nat464New (netId_ n) (ifaceName_ (netLinkInfo_ n))) w eq_refl) as Q. destruct (call _ w) as [sv w1].
    cbn in Q |- *. split; [|done]. apply (quiet_trans _ w1); [done|].
    apply (quiet_trans _ (do_call (Nat464MaybeUpdateV6Iface sv (ifaceName_ (netLinkInfo_ n))) w1)); by apply quiet_do.
  - split; [by apply quiet_do|done].
  - done.
Qed.

Lemma StartNetDetection_quiet b n w : quiet w (StartNetDetection b n w).2 /\
  netLinkInfo_ (StartNetDetection b n w).1 = netLinkInfo_ n.
Proof.
  assert (HI : forall n w, quiet w (InitNetMonitor n w).2 /\ netLinkInfo_ (InitNetMonitor n w).1 = netLinkInfo_ n).
  { clear. intros n w. unfold InitNetMonitor. destruct (netMonitor_ n) as [m|]; [split; [by apply quiet_do|done]|].
    pose proof (quiet_call (MonitorNew (netId_ n) (netBearer_ n) (netLinkInfo_ n) (isScreenOn_ n) (lastDetectTime_ n)) w eq_refl) as Q.
    destruct (call _ w) as [m w1]. cbn in Q |- *. split; [|done]. apply (quiet_trans _ w1); [done|].
    apply (quiet_trans _ (do_call (MonitorUpdateDualStackProbeTime m (dualStackProbeTime_ n)) w1)); by apply quiet_do. }
  assert (HT : quiet w (StopNetDetection n w).2 /\ netLinkInfo_ (StopNetDetection n w).1 = netLinkInfo_ n).
  { unfold StopNetDetection. destruct (netMonitor_ n) as [m|]; [|done]. split; [|done].
    apply (quiet_trans _ (do_call (MonitorStop m) w)); by apply quiet_do. }
  unfold StartNetDetection. destruct (negb _); [done|]. destruct (forbidDetectionFlag_ n); [done|].
  destruct b; [|apply HI]. destruct HT as [T1 T2]. destruct (StopNetDetection n w) as [n1 w1]. cbn [fst snd] in T1, T2.
  destruct (HI n1 w1) as [I1 I2]. split; [by apply (quiet_trans _ w1)|congruence].
Qed.

Lemma Delay_quiet b n w : quiet w (DelayStartDetectionForIpUpdate b n w).2.
Proof. unfold DelayStartDetectionForIpUpdate. repeat case_match; try done. by apply quiet_do. Qed.

(** The steps of the update after the routes. *)
Lemma update_tail_quiet l n w : quiet w (UpdateTcpBufferSize l n (UpdateMtu l n (UpdateDns l n w))).
Proof.
  apply (quiet_trans _ (UpdateDns l n w)); [apply UpdateDns_quiet|].
  apply (quiet_trans _ (UpdateMtu l n (UpdateDns l n w))).
  - unfold UpdateMtu. destruct (_ =? _); [done|by apply quiet_checked].
  - unfold UpdateTcpBufferSize. destruct (bool_decide _); [done|by apply quiet_checked].
Qed.

(** The end of the update: the translator and the detection. *)
Definition finish_update (same : bool) (n : Network) (w : W) : bool * Network * W :=
  let '(n, w) := update_nat464 n w in
  if negb (bool_decide (netBearer_ n = BEARER_VPN)) && isSupportInternet_ n then
    let '(delayed, w) := DelayStartDetectionForIpUpdate same n w in
    if delayed then (true, n, w)
    else let '(n, w) := StartNetDetection true n w in (true, n, w)
  else (true, n, w).

Lemma finish_quiet same n w :
  let '(ok, n', w') := finish_update same n w in
  ok = true /\ netId_ n' = netId_ n /\ netLinkInfo_ n' = netLinkInfo_ n /\ quiet w w'.
Proof.
  unfold finish_update.
  destruct (update_nat464_quiet n w) as (Q5 & I5 & R5). destruct (update_nat464 n w) as [n5 w5]. cbn [fst snd] in Q5, I5, R5.
  destruct (negb _ && _); [|done].
  pose proof (Delay_quiet same n5 w5) as Q6. destruct (DelayStartDetectionForIpUpdate same n5 w5) as [d w6]. cbn [snd] in Q6.
  assert (Q : quiet w w6) by (by apply (quiet_trans _ w5)). destruct d; [done|].
  destruct (StartNetDetection_quiet true n5 w6) as (Q7 & R7). pose proof (StartNetDetection_core true n5 w6) as C7.
  destruct (StartNetDetection true n5 w6) as [n7 w7]. cbn [fst snd] in Q7, R7, C7. injection C7 as C7 _ _ _.
  split; [done|]. split; [congruence|]. split; [congruence|]. by apply (quiet_trans _ w6).
Qed.

Lemma restarts_sub old old' l : (forall r, r ∈ routeList_ old' -> r ∈ routeList_ old) -> restarts old' l = true -> restarts old l = true.
Proof.
  unfold restarts, HasIpv6DefaultRoute. rewrite !andb_true_iff, !existsb_exists. intros H [[(r & Hr & Hd) Hl] Hp].
  split; [split; [|done]|done]. exists r. split; [|done]. by apply list_elem_of_In, H, list_elem_of_In.
Qed.

(** C19: an update of the link information asks for the routes of the new
    information.  The claim is about the requests the update makes to the
    native service, whatever the service answers and does with them: when the
    routes asked for so far in the table of the network, less those taken back,
    are exactly those of the old information, then afterwards every route asked
    for is one of the new information, every IPv4 route of it and every route
    over another interface is asked for, and so is every route of it unless
    the update restarts IPv6 on the interface, which drops the IPv6 routes over
    it; it restarts IPv6 only when the default route of IPv6 is lost and the new
    information has IPv4.  This holds whichever way the routes are added, and also
    when a change of address removed a whole family of them first.  (Different
    routes must differ in interface, destination or next hop; the local network
    is left out.) *)
Theorem UpdateNetLinkInfo_routes l n w : netId_ n <> LOCAL_NET_ID ->
  keys_distinct (routeList_ (netLinkInfo_ n) ++ routeList_ l) -> synced n w ->
  let '(ok, n', w') := UpdateNetLinkInfo l n w in
  ok = true /\ netId_ n' = netId_ n /\ routeList_ (netLinkInfo_ n') = routeList_ l /\
  (forall x, has_route w' (netId_ n, x) -> exists r, r ∈ routeList_ l /\ IsAddressValid r = true /\ x = rkey r) /\
  (forall r, r ∈ routeList_ l -> IsAddressValid r = true -> over_v6 (ifaceName_ l) (netId_ n, rkey r) = false -> has_route w' (netId_ n, rkey r)) /\
  (restarts (netLinkInfo_ n) l = false -> synced n' w').
Proof.
  intros Hn HD HS. unfold UpdateNetLinkInfo. set (w0 := UpdateStatsCached l n w).
  assert (Q0 : quiet w w0) by (unfold w0, UpdateStatsCached; destruct (_ && _); [done|by apply quiet_checked]).
  destruct (UpdateInterfaces_quiet l n w0) as (Q1 & I1 & R1). destruct (UpdateInterfaces l n w0) as [n1 w1]. cbn [fst snd] in Q1, I1, R1.
  assert (S1 : synced n1 w1) by (unfold synced; rewrite I1, R1; apply (table_quiet _ _ w); [by apply (quiet_trans _ w0)|done]).
  assert (HD1 : keys_distinct (routeList_ (netLinkInfo_ n1))).
  { rewrite R1. apply (keys_distinct_sub (routeList_ (netLinkInfo_ n) ++ routeList_ l)); [|done]. intros r Hr. apply elem_of_app. by left. }
  set (r := if negb (IsIfaceNameInUse _ _ _) || _ then _ else _).
  assert (H2 : synced r.1.2 r.2 /\ netId_ r.1.2 = netId_ n1 /\ forall q, q ∈ routeList_ (netLinkInfo_ r.1.2) -> q ∈ routeList_ (netLinkInfo_ n1)).
  { unfold r. destruct (negb _ || _); [|done]. pose proof (UpdateIpAddrs_synced l n1 w1 HD1 S1) as H.
    by destruct (UpdateIpAddrs l n1 w1) as [[b n2] w2]. }
  destruct r as [[same n2] w2]. cbn [fst snd] in H2. destruct H2 as (S2 & I2 & R2).
  assert (R : forall q, q ∈ routeList_ (netLinkInfo_ n2) -> q ∈ routeList_ (netLinkInfo_ n)) by (intros q Hq; rewrite <- R1; auto).
  assert (S3 : table_after (netId_ n2) (ifaceName_ l) (restarts (netLinkInfo_ n2) l) (routeList_ l) (UpdateRoutes l n2 w2)).
  { apply UpdateRoutes_table; [congruence| |done].
    apply (keys_distinct_sub (routeList_ (netLinkInfo_ n) ++ routeList_ l)); [|done].
    intros q Hq. apply elem_of_app in Hq as [Hq|Hq]; apply elem_of_app; [left; auto|by right]. }
  set (w4 := UpdateTcpBufferSize _ _ _). set (n4 := UpdateNetLinkInfoLinkType l n2).
  pose proof (finish_quiet same n4 w4) as HF. fold (finish_update same n4 w4).
  destruct (finish_update same n4 w4) as [[ok n5] w5]. destruct HF as (-> & E1 & E2 & Q5). cbn in E1.
  apply (table_after_quiet _ _ _ _ _ w5) in S3; [|apply (quiet_trans _ w4); [apply update_tail_quiet|done]].
  replace (netId_ n2) with (netId_ n) in * by congruence. split; [done|]. split; [done|]. split; [by rewrite E2|]. split_and!.
  - intros x Hx. by apply S3 in Hx as [Hx _].
  - intros q Hq Hv Ho. apply S3. split; [by exists q|done].
  - intros Hr x. rewrite E1, E2. rewrite (S3 x). cbn [routeList_ netLinkInfo_ set_netLinkInfo_ set_link_valid]. split; [tauto|]. intros Hx. split; [done|].
    intros Hb. apply (restarts_sub _ _ _ R) in Hb. congruence.
Qed.

End Routes.

(** ** A world with a routing table, and an update that leaks *)

Definition table_call (c : NetsysCall) (w : gset route_key) : Z * gset route_key := (NETMANAGER_SUCCESS, request c w).

#[local] Instance table_netsys : Netsys (gset route_key) := {
  call := table_call; IsIfaceNameInUse _ _ _ := false; MonitorIsDetecting _ _ := false;
  MonitorLastDetectTime _ _ := 0; GetCurrentMilliSecond _ := 0;
}.

(** Addresses with a colon are IPv6. *)
#[local] Instance table_addr : AddrUtils := {
  GetAddrFamily a := match String.index 0 ":" a with Some _ => AF_INET6 | None => AF_INET end;
  Ipv4PrefixLen _ := 24; Ipv6PrefixLen _ := 64; IsValidIPV4 _ := true; IsValidIPV6 _ := true;
  IsUsableGlobalIpv6Addr _ := true; IsIPv6LinkLocal _ := false; prefix_of_string _ := None;
}.

Definition v4_addr (a : string) (len : Z) : INetAddr := mkINetAddr IPV4 2 len a "" "" 0.
Definition v4_route (dest : string) (len : Z) (hop : string) : Route :=
  mkRoute "wlan0" (v4_addr dest len) (v4_addr hop 32) RTN_UNICAST 0 false true false false.
Definition link_info (addr : string) (routes : list Route) : NetLinkInfo :=
  mkNetLinkInfo "wlan0" "" [v4_addr addr 24] [] routes 1500 "" "" default_HttpProxy false false false.

Lemma UpdateNetLinkInfo_routes_witness :
  let n := new_Network 101 1 BEARER_WIFI in
  let l := link_info "192.168.1.10" [v4_route "0.0.0.0" 0 "192.168.1.1"; v4_route "192.168.1.0" 24 "0.0.0.0"] in
  let '(ok, n', w') := UpdateNetLinkInfo l n (mkLogged (∅ : gset route_key) []) in ok = true /\ synced n' w'.
Proof.
  intros n l. pose proof (UpdateNetLinkInfo_routes l n (mkLogged (∅ : gset route_key) [])) as H.
  destruct (UpdateNetLinkInfo l n (mkLogged (∅ : gset route_key) [])) as [[ok n'] w']. destruct H as (H1 & _ & _ & _ & _ & H2).
  - done.
  - intros r r' Hr Hr'. cbn in Hr, Hr'.
    repeat (apply elem_of_cons in Hr as [->|Hr]; [|try (by apply elem_of_nil in Hr)]);
    repeat (apply elem_of_cons in Hr' as [->|Hr']; [|try (by apply elem_of_nil in Hr')]); try by vm_compute.
  - intros x. cbn. split; [set_solver|]. intros (r & Hr & _). by apply elem_of_nil in Hr.
  - split; [exact H1|]. by apply H2.
Defined.

(** When the address of a network changes, its routes in the local table
    are not removed: the routes are taken out of the list before the removal
    that covers the local table looks at it.  Wi-Fi with 192.168.1.10 moves to
    10.0.0.5: the old subnet stays in the local table, and no later update or
    release of the network removes it, since the list no longer has it. *)
Theorem local_route_leaks :
  let n := new_Network 101 1 BEARER_WIFI in
  let l1 := link_info "192.168.1.10" [v4_route "192.168.1.0" 24 "0.0.0.0"] in
  let l2 := link_info "10.0.0.5" [v4_route "10.0.0.0" 24 "0.0.0.0"] in
  let '(_, n0, w0) := UpdateBasicNetwork (W := gset route_key) true n ∅ in
  let '(_, n1, w1) := UpdateNetLinkInfo l1 n0 w0 in
  let '(_, n2, w2) := UpdateNetLinkInfo l2 n1 w1 in
  let '(_, n3, w3) := UpdateBasicNetwork false n2 w2 in
  routeList_ (netLinkInfo_ n3) = [] /\
  bool_decide ((LOCAL_NET_ID, ("wlan0", "192.168.1.0/24", "0.0.0.0")) ∈ w3) = true /\
  bool_decide ((LOCAL_NET_ID, ("wlan0", "10.0.0.0/24", "0.0.0.0")) ∈ w3) = false /\
  bool_decide ((101, ("wlan0", "192.168.1.0/24", "0.0.0.0")) ∈ w3) = false.
Proof. by vm_compute. Qed.

End Network.
