(* ===== verification/NetActivate.v ===== *)
(** * Requests for a network

    [services/netconnmanager/src/net_activate.cpp]: a [NetActivate] is one
    registered or requested network of a client.  It holds the specifier the
    suppliers are matched against and the supplier that serves it, as the
    identifier of that supplier. *)

From S2P Require Import Prelude NetCaps NetData NetSupplier.
Import NetCaps NetData.

Module NetActivate.

(** [enum CallbackType]. *)
Inductive CallbackType :=
  CALL_TYPE_UNKNOWN | CALL_TYPE_AVAILABLE | CALL_TYPE_LOSTING | CALL_TYPE_LOST
| CALL_TYPE_UPDATE_CAP | CALL_TYPE_UPDATE_LINK | CALL_TYPE_UNAVAILABLE | CALL_TYPE_BLOCK_STATUS.

#[global] Instance CallbackType_eq_dec : EqDecision CallbackType.
Proof. solve_decision. Defined.

Definition DEFAULT_REQUEST_ID : Z := 0.
Definition MIN_REQUEST_ID : Z := DEFAULT_REQUEST_ID + 1.
Definition MAX_REQUEST_ID : Z := 2 ^ 31 - 1.

Record NetActivate := mkNetActivate {
  netSpecifier_ : option NetSpecifier;
  netConnCallback_ : option Z;
  netServiceSupplied_ : option Z;
  timeoutMS_ : Z;
  act_netRequest_ : NetRequest;
  isAppFrozened_ : bool;
  lastCallbackType_ : CallbackType;
  lastNetId_ : Z;
  isNotifyLostDelay_ : bool;
  notifyLostNetId_ : Z;
  isFrozenedSkip_ : bool;
  NeedSkipLostDelay_ : bool;
}.

Definition set_netServiceSupplied_ v a := mkNetActivate (netSpecifier_ a) (netConnCallback_ a) v (timeoutMS_ a)
  (act_netRequest_ a) (isAppFrozened_ a) (lastCallbackType_ a) (lastNetId_ a) (isNotifyLostDelay_ a)
  (notifyLostNetId_ a) (isFrozenedSkip_ a) (NeedSkipLostDelay_ a).
Definition set_act_netRequest_ v a := mkNetActivate (netSpecifier_ a) (netConnCallback_ a) (netServiceSupplied_ a)
  (timeoutMS_ a) v (isAppFrozened_ a) (lastCallbackType_ a) (lastNetId_ a) (isNotifyLostDelay_ a)
  (notifyLostNetId_ a) (isFrozenedSkip_ a) (NeedSkipLostDelay_ a).
Definition set_last c n a := mkNetActivate (netSpecifier_ a) (netConnCallback_ a) (netServiceSupplied_ a)
  (timeoutMS_ a) (act_netRequest_ a) (isAppFrozened_ a) c n (isNotifyLostDelay_ a)
  (notifyLostNetId_ a) (isFrozenedSkip_ a) (NeedSkipLostDelay_ a).
Definition set_lost_delay b n a := mkNetActivate (netSpecifier_ a) (netConnCallback_ a) (netServiceSupplied_ a)
  (timeoutMS_ a) (act_netRequest_ a) (isAppFrozened_ a) (lastCallbackType_ a) (lastNetId_ a) b
  n (isFrozenedSkip_ a) (NeedSkipLostDelay_ a).
Definition set_NeedSkipLostDelay_ v a := mkNetActivate (netSpecifier_ a) (netConnCallback_ a) (netServiceSupplied_ a)
  (timeoutMS_ a) (act_netRequest_ a) (isAppFrozened_ a) (lastCallbackType_ a) (lastNetId_ a) (isNotifyLostDelay_ a)
  (notifyLostNetId_ a) (isFrozenedSkip_ a) v.

Definition GetRequestId (a : NetActivate) : Z := requestId (act_netRequest_ a).
Definition GetUid (a : NetActivate) : Z := uid (act_netRequest_ a).
Definition SetServiceSupply (s : option Z) (a : NetActivate) : NetActivate := set_netServiceSupplied_ s a.

Definition set_requestId (r : Z) (q : NetRequest) : NetRequest :=
  mkNetRequest (uid q) r (registerType q) (isControlled q) (ident q) (bearTypes q) (netCaps q).
Definition SetRequestId (r : Z) (a : NetActivate) : NetActivate :=
  set_act_netRequest_ (set_requestId r (act_netRequest_ a)) a.

(** The constructor: the request id is [g_nextRequestId++], and the counter,
    returned second, starts again from the first id past the last one. *)
Definition next_request_id (g : Z) : Z := if MAX_REQUEST_ID <? u32 (g + 1) then MIN_REQUEST_ID else u32 (g + 1).
Definition new_NetActivate (specifier : option NetSpecifier) (callback : option Z) (timeoutMS uidA regType g : Z)
  : NetActivate * Z :=
  let q := match specifier with
           | Some sp => mkNetRequest uidA g regType false (spec_ident_ sp)
                          (bearerTypes_ (netCapabilities_ sp)) (all_netCaps_ (netCapabilities_ sp))
           | None => NetRequest_of uidA g regType
           end in
  (mkNetActivate specifier callback None timeoutMS q false CALL_TYPE_UNKNOWN 0 false 0 false false,
   next_request_id g).

(** ** Matching *)

Definition IDENT_WIFI : string := "wifi".

Definition CompareByNetworkIdent (identS : string) (bearerType : NetBearType) (skipCheckIdent : bool)
  (a : NetActivate) : bool :=
  match netSpecifier_ a with
  | None => false
  | Some sp =>
      if bool_decide (identS = "") || bool_decide (spec_ident_ sp = "") then true
      else if bool_decide (IDENT_WIFI = spec_ident_ sp) then true
      else if bool_decide (identS = spec_ident_ sp) then true
      else if skipCheckIdent && bool_decide (BEARER_WIFI = bearerType) then true
      else false
  end.

Definition CompareByNetworkCapabilities (caps : Z) (a : NetActivate) : bool :=
  match netSpecifier_ a with
  | None => false
  | Some sp =>
      let reqCaps := all_netCaps_ (netCapabilities_ sp) in
      if bool_decide (reqCaps = ∅) then HasNetCap NET_CAPABILITY_INTERNET caps else HasNetCaps reqCaps caps
  end.

Definition CompareByNetworkNetType (bearerType : NetBearType) (a : NetActivate) : bool :=
  match netSpecifier_ a with
  | None => false
  | Some sp =>
      let reqTypes := bearerTypes_ (netCapabilities_ sp) in
      if bool_decide (reqTypes = ∅) then true else bool_decide (bearerType ∈ reqTypes)
  end.

Definition CompareByNetworkBand (netLinkUpBand netLinkDownBand : Z) (a : NetActivate) : bool :=
  match netSpecifier_ a with
  | None => false
  | Some sp =>
      (linkUpBandwidthKbps_ (netCapabilities_ sp) <=? netLinkUpBand)
      && (linkDownBandwidthKbps_ (netCapabilities_ sp) <=? netLinkDownBand)
  end.

Definition MatchRequestAndNetwork {N} (supplier : option (NetSupplier.NetSupplier N)) (skipCheckIdent : bool)
  (a : NetActivate) : bool :=
  match supplier with
  | None => false
  | Some s =>
      if negb (CompareByNetworkCapabilities (NetSupplier.netCaps_ s) a) then false
      else if negb (CompareByNetworkNetType (NetSupplier.netSupplierType_ s) a) then false
      else if negb (CompareByNetworkIdent (NetSupplier.netSupplierIdent_ s) (NetSupplier.netSupplierType_ s)
                      skipCheckIdent a) then false
      else CompareByNetworkBand (linkUpBandwidthKbps_ (NetSupplier.netAllCapabilities_ s))
             (linkDownBandwidthKbps_ (NetSupplier.netAllCapabilities_ s)) a
  end.

Definition HaveCapability (netCap : Z) (a : NetActivate) : bool :=
  match netSpecifier_ a with
  | None => false
  | Some sp => bool_decide (netCap ∈ all_netCaps_ (netCapabilities_ sp))
  end.

Definition HaveTypes (types : gset NetBearType) (a : NetActivate) : bool :=
  match netSpecifier_ a with
  | None => false
  | Some sp => bool_decide (types <> ∅) && forallb (fun t => bool_decide (t ∈ bearerTypes_ (netCapabilities_ sp))) (elements types)
  end.

Definition CheckTypes (types : gset NetBearType) (a : NetActivate) : bool :=
  match netSpecifier_ a with
  | None => false
  | Some sp => bool_decide (BEARER_WIFI ∉ bearerTypes_ (netCapabilities_ sp)) && HaveTypes types a
  end.

(** ** Callback throttling *)

Definition SetLastCallbackType (c : CallbackType) (a : NetActivate) : NetActivate :=
  if (bool_decide (c = CALL_TYPE_UPDATE_CAP) || bool_decide (c = CALL_TYPE_UPDATE_LINK))
     && bool_decide (lastCallbackType_ a = CALL_TYPE_AVAILABLE)
  then a else set_last c (lastNetId_ a) a.

(** [limitation]: the service limits callbacks of frozen applications;
    [foreground]: the application is in the foreground; [handle]: the
    identifier in the handle of the supplier that serves the request, if both
    exist. *)
Definition IsAllowCallback (limitation foreground : bool) (handle : option Z) (c : CallbackType) (a : NetActivate)
  : bool * NetActivate :=
  if limitation && isAppFrozened_ a && negb foreground then
    let a := match handle with
             | Some h => if bool_decide (lastCallbackType_ a <> CALL_TYPE_LOST) && bool_decide (c = CALL_TYPE_LOST)
                            && (lastNetId_ a =? 0)
                         then set_last (lastCallbackType_ a) h a else a
             | None => a
             end in
    (false, SetLastCallbackType c a)
  else if isNotifyLostDelay_ a && bool_decide (c = CALL_TYPE_LOST) then (false, a)
  else (true, set_lost_delay false 0 a).

(** What a request asks for: a supplier satisfies it when it has the
    capabilities (or Internet access where none is asked for), is of one of
    the bearers asked for, and meets the bandwidths and the identifier. *)
Definition wants (sp : NetSpecifier) (skip : bool) {N} (s : NetSupplier.NetSupplier N) : Prop :=
  (let req := all_netCaps_ (netCapabilities_ sp) in
   (if bool_decide (req = ∅) then {[NET_CAPABILITY_INTERNET]} else req) ⊆ ToSet (NetSupplier.netCaps_ s)) /\
  (bearerTypes_ (netCapabilities_ sp) = ∅ \/ NetSupplier.netSupplierType_ s ∈ bearerTypes_ (netCapabilities_ sp)) /\
  (NetSupplier.netSupplierIdent_ s = "" \/ spec_ident_ sp = "" \/ spec_ident_ sp = IDENT_WIFI \/
   NetSupplier.netSupplierIdent_ s = spec_ident_ sp \/ (skip = true /\ NetSupplier.netSupplierType_ s = BEARER_WIFI)) /\
  linkUpBandwidthKbps_ (netCapabilities_ sp) <= linkUpBandwidthKbps_ (NetSupplier.netAllCapabilities_ s) /\
  linkDownBandwidthKbps_ (netCapabilities_ sp) <= linkDownBandwidthKbps_ (NetSupplier.netAllCapabilities_ s).

Lemma match_caps_spec sp caps a : netSpecifier_ a = Some sp -> caps_valid (all_netCaps_ (netCapabilities_ sp)) ->
  CompareByNetworkCapabilities caps a = true <->
  (let req := all_netCaps_ (netCapabilities_ sp) in
   (if bool_decide (req = ∅) then {[NET_CAPABILITY_INTERNET]} else req) ⊆ ToSet caps).
Proof.
  intros E Hv. unfold CompareByNetworkCapabilities. rewrite E. cbv zeta. case_bool_decide.
  - rewrite Has_ToSet, bool_decide_eq_true by done. by rewrite singleton_subseteq_l.
  - rewrite HasNetCaps_subset, bool_decide_eq_true by done. done.
Qed.

Lemma match_spec {N} sp skip (s : NetSupplier.NetSupplier N) a :
  netSpecifier_ a = Some sp -> caps_valid (all_netCaps_ (netCapabilities_ sp)) ->
  MatchRequestAndNetwork (Some s) skip a = true <-> wants sp skip s.
Proof.
  intros E Hv. unfold MatchRequestAndNetwork, wants.
  pose proof (match_caps_spec sp (NetSupplier.netCaps_ s) a E Hv) as Hc. cbv zeta in Hc |- *. rewrite <- Hc. clear Hc.
  unfold CompareByNetworkNetType, CompareByNetworkIdent, CompareByNetworkBand. rewrite !E.
  set (c1 := CompareByNetworkCapabilities _ a).
  repeat case_bool_decide; destruct c1, skip; simpl; rewrite ?andb_true_iff, ?Z.leb_le; naive_solver.
Qed.

(** [MatchRequestAndNetwork] decides exactly whether a supplier satisfies a request: the capabilities asked for (Internet when none are) are among the supplier's, the bearer is one of those asked for or none is asked for, the identifier agrees or one side leaves it open, and both bandwidths suffice. *)
Theorem MatchRequestAndNetwork_correct {N} sp skip (s : NetSupplier.NetSupplier N) a :
  netSpecifier_ a = Some sp -> caps_valid (all_netCaps_ (netCapabilities_ sp)) ->
  MatchRequestAndNetwork (Some s) skip a = true <-> wants sp skip s.
Proof. apply match_spec. Qed.

(** The specifier of the default request ([CreateDefaultRequest]):
    Internet access through something that is not a VPN. *)
Definition default_specifier : NetSpecifier := mkNetSpecifier "" (mkNetAllCapabilities 0 0 {[NET_CAPABILITY_INTERNET; 15]} ∅).

Lemma MatchRequestAndNetwork_correct_witness :
  MatchRequestAndNetwork (Some NetSupplier.cellular_example) false
    (new_NetActivate (Some default_specifier) None 0 0 REQUEST 1).1 = true <->
  wants default_specifier false NetSupplier.cellular_example.
Proof.
  apply MatchRequestAndNetwork_correct; [reflexivity|].
  intros c Hc. unfold default_specifier in Hc. simpl in Hc.
  apply elem_of_union in Hc as [->%elem_of_singleton| ->%elem_of_singleton]; done.
Defined.

End NetActivate.
