(* ===== verification/NetConn.v ===== *)
(** * The connection service

    [services/netconnmanager/src/net_conn_service.cpp]: the registry of
    suppliers and requests, the choice of the best network for every request
    and of the default network, the notifications to the clients, and the
    bookkeeping of client callbacks.

    Objects the source shares through pointers live in two stores,
    [suppliers] and [activates]: [netSuppliers_] holds the identifiers of the
    registered suppliers, while a request or [defaultNetSupplier_] may still
    refer to one that was unregistered.  A [std::map] is iterated in the order
    of its keys.  Tasks the service posts with a delay are kept as pending
    ([lostDelayTasks], [findBestTask]) and run by a later step; the event
    handler exists, as it does once the service is initialised.  Telemetry,
    death recipients and logging are left out. *)

From stdpp Require Import sorting.
From S2P Require Import Prelude NetCaps NetData NetSupplier NetActivate.
Import NetCaps NetData NetSupplier NetActivate.

Module NetConn.

(** What the service calls outside of the connection manager: the client
    callbacks, the native service, broadcasts, the policy service and the
    system parameters. *)
Class Clients (W : Type) := {
  NetAvailable : Z -> option Z -> W -> W;
  NetCapabilitiesChange : Z -> option Z -> NetAllCapabilities -> W -> W;
  NetConnectionPropertiesChange : Z -> option Z -> NetLinkInfo -> W -> W;
  NetLost : Z -> option Z -> W -> W;
  NetUnavailable : Z -> W -> W;
  NetBlockStatusChange : Z -> option Z -> bool -> W -> W;
  NotifyNetBearerType : gset NetBearType -> W -> W;
  SendHttpProxyChangeBroadcast : HttpProxy -> W -> W;
  IsUidNetAccess : Z -> bool -> W -> bool;
  (** [PERSIST_WIFI_DELAY_ELEVATOR_ENABLE] or [PERSIST_WIFI_DELAY_WEAK_SIGNAL_ENABLE]. *)
  isNeedDelay : W -> bool;
  (** [PERSIST_EDM_MMS_DISABLE]. *)
  isMmsDisabled : W -> bool;
}.

(** Construction of a [Network] ([Network::Network] and [SetNetCaps]). *)
Class NetworkNew (N : Type) := {
  new_Network : Z -> Z -> NetBearType -> gset Z -> N;
}.

Section service.
Context {W N : Type} `{!Outside W} `{!INetwork W N} `{!Clients W} `{!NetworkNew N}.

Record NetConnService := mkNetConnService {
  suppliers : gmap Z (NetSupplier N);
  netSuppliers_ : gset Z;
  activates : gmap Z NetActivate;
  netUidActivates_ : gmap Z (list Z);
  defaultNetActivate_ : option Z;
  defaultNetSupplier_ : option Z;
  netUidRequest_ : gmap Z Z;
  internalDefaultUidRequest_ : gmap Z Z;
  netIdLastValue_ : Z;
  internalNetIdLastValue_ : Z;
  g_nextNetSupplierId : Z;
  g_nextRequestId : Z;
  next_activate : Z;
  notifyLostDelayCache_ : gset Z;
  lostDelayTasks : gset Z;
  uidLostDelaySet_ : gset Z;
  isDelayHandleFindBestNetwork_ : bool;
  delaySupplierId_ : Z;
  findBestTask : bool;
  prevNetSupplierType_ : NetBearType;
  controlFunc_ : option (NetRequest -> bool);
  world : W;
}.

Definition set_suppliers (v : gmap Z (NetSupplier N)) (S : NetConnService) : NetConnService :=
  mkNetConnService
    v (netSuppliers_ S) (activates S) (netUidActivates_ S) (defaultNetActivate_ S)
    (defaultNetSupplier_ S) (netUidRequest_ S) (internalDefaultUidRequest_ S) (netIdLastValue_ S)
    (internalNetIdLastValue_ S) (g_nextNetSupplierId S) (g_nextRequestId S) (next_activate S)
    (notifyLostDelayCache_ S) (lostDelayTasks S) (uidLostDelaySet_ S)
    (isDelayHandleFindBestNetwork_ S) (delaySupplierId_ S) (findBestTask S)
    (prevNetSupplierType_ S) (controlFunc_ S) (world S).
Definition set_netSuppliers_ (v : gset Z) (S : NetConnService) : NetConnService :=
  mkNetConnService
    (suppliers S) v (activates S) (netUidActivates_ S) (defaultNetActivate_ S)
    (defaultNetSupplier_ S) (netUidRequest_ S) (internalDefaultUidRequest_ S) (netIdLastValue_ S)
    (internalNetIdLastValue_ S) (g_nextNetSupplierId S) (g_nextRequestId S) (next_activate S)
    (notifyLostDelayCache_ S) (lostDelayTasks S) (uidLostDelaySet_ S)
    (isDelayHandleFindBestNetwork_ S) (delaySupplierId_ S) (findBestTask S)
    (prevNetSupplierType_ S) (controlFunc_ S) (world S).
Definition set_activates (v : gmap Z NetActivate) (S : NetConnService) : NetConnService :=
  mkNetConnService
    (suppliers S) (netSuppliers_ S) v (netUidActivates_ S) (defaultNetActivate_ S)
    (defaultNetSupplier_ S) (netUidRequest_ S) (internalDefaultUidRequest_ S) (netIdLastValue_ S)
    (internalNetIdLastValue_ S) (g_nextNetSupplierId S) (g_nextRequestId S) (next_activate S)
    (notifyLostDelayCache_ S) (lostDelayTasks S) (uidLostDelaySet_ S)
    (isDelayHandleFindBestNetwork_ S) (delaySupplierId_ S) (findBestTask S)
    (prevNetSupplierType_ S) (controlFunc_ S) (world S).
Definition set_netUidActivates_ (v : gmap Z (list Z)) (S : NetConnService) : NetConnService :=
  mkNetConnService
    (suppliers S) (netSuppliers_ S) (activates S) v (defaultNetActivate_ S) (defaultNetSupplier_ S)
    (netUidRequest_ S) (internalDefaultUidRequest_ S) (netIdLastValue_ S)
    (internalNetIdLastValue_ S) (g_nextNetSupplierId S) (g_nextRequestId S) (next_activate S)
    (notifyLostDelayCache_ S) (lostDelayTasks S) (uidLostDelaySet_ S)
    (isDelayHandleFindBestNetwork_ S) (delaySupplierId_ S) (findBestTask S)
    (prevNetSupplierType_ S) (controlFunc_ S) (world S).
Definition set_defaultNetActivate_ (v : option Z) (S : NetConnService) : NetConnService :=
  mkNetConnService
    (suppliers S) (netSuppliers_ S) (activates S) (netUidActivates_ S) v (defaultNetSupplier_ S)
    (netUidRequest_ S) (internalDefaultUidRequest_ S) (netIdLastValue_ S)
    (internalNetIdLastValue_ S) (g_nextNetSupplierId S) (g_nextRequestId S) (next_activate S)
    (notifyLostDelayCache_ S) (lostDelayTasks S) (uidLostDelaySet_ S)
    (isDelayHandleFindBestNetwork_ S) (delaySupplierId_ S) (findBestTask S)
    (prevNetSupplierType_ S) (controlFunc_ S) (world S).
Definition set_defaultNetSupplier_ (v : option Z) (S : NetConnService) : NetConnService :=
  mkNetConnService
    (suppliers S) (netSuppliers_ S) (activates S) (netUidActivates_ S) (defaultNetActivate_ S) v
    (netUidRequest_ S) (internalDefaultUidRequest_ S) (netIdLastValue_ S)
    (internalNetIdLastValue_ S) (g_nextNetSupplierId S) (g_nextRequestId S) (next_activate S)
    (notifyLostDelayCache_ S) (lostDelayTasks S) (uidLostDelaySet_ S)
    (isDelayHandleFindBestNetwork_ S) (delaySupplierId_ S) (findBestTask S)
    (prevNetSupplierType_ S) (controlFunc_ S) (world S).
Definition set_netUidRequest_ (v : gmap Z Z) (S : NetConnService) : NetConnService :=
  mkNetConnService
    (suppliers S) (netSuppliers_ S) (activates S) (netUidActivates_ S) (defaultNetActivate_ S)
    (defaultNetSupplier_ S) v (internalDefaultUidRequest_ S) (netIdLastValue_ S)
    (internalNetIdLastValue_ S) (g_nextNetSupplierId S) (g_nextRequestId S) (next_activate S)
    (notifyLostDelayCache_ S) (lostDelayTasks S) (uidLostDelaySet_ S)
    (isDelayHandleFindBestNetwork_ S) (delaySupplierId_ S) (findBestTask S)
    (prevNetSupplierType_ S) (controlFunc_ S) (world S).
Definition set_internalDefaultUidRequest_ (v : gmap Z Z) (S : NetConnService) : NetConnService :=
  mkNetConnService
    (suppliers S) (netSuppliers_ S) (activates S) (netUidActivates_ S) (defaultNetActivate_ S)
    (defaultNetSupplier_ S) (netUidRequest_ S) v (netIdLastValue_ S) (internalNetIdLastValue_ S)
    (g_nextNetSupplierId S) (g_nextRequestId S) (next_activate S) (notifyLostDelayCache_ S)
    (lostDelayTasks S) (uidLostDelaySet_ S) (isDelayHandleFindBestNetwork_ S) (delaySupplierId_ S)
    (findBestTask S) (prevNetSupplierType_ S) (controlFunc_ S) (world S).
Definition set_netIdLastValue_ (v : Z) (S : NetConnService) : NetConnService :=
  mkNetConnService
    (suppliers S) (netSuppliers_ S) (activates S) (netUidActivates_ S) (defaultNetActivate_ S)
    (defaultNetSupplier_ S) (netUidRequest_ S) (internalDefaultUidRequest_ S) v
    (internalNetIdLastValue_ S) (g_nextNetSupplierId S) (g_nextRequestId S) (next_activate S)
    (notifyLostDelayCache_ S) (lostDelayTasks S) (uidLostDelaySet_ S)
    (isDelayHandleFindBestNetwork_ S) (delaySupplierId_ S) (findBestTask S)
    (prevNetSupplierType_ S) (controlFunc_ S) (world S).
Definition set_internalNetIdLastValue_ (v : Z) (S : NetConnService) : NetConnService :=
  mkNetConnService
    (suppliers S) (netSuppliers_ S) (activates S) (netUidActivates_ S) (defaultNetActivate_ S)
    (defaultNetSupplier_ S) (netUidRequest_ S) (internalDefaultUidRequest_ S) (netIdLastValue_ S) v
    (g_nextNetSupplierId S) (g_nextRequestId S) (next_activate S) (notifyLostDelayCache_ S)
    (lostDelayTasks S) (uidLostDelaySet_ S) (isDelayHandleFindBestNetwork_ S) (delaySupplierId_ S)
    (findBestTask S) (prevNetSupplierType_ S) (controlFunc_ S) (world S).
Definition set_g_nextNetSupplierId (v : Z) (S : NetConnService) : NetConnService :=
  mkNetConnService
    (suppliers S) (netSuppliers_ S) (activates S) (netUidActivates_ S) (defaultNetActivate_ S)
    (defaultNetSupplier_ S) (netUidRequest_ S) (internalDefaultUidRequest_ S) (netIdLastValue_ S)
    (internalNetIdLastValue_ S) v (g_nextRequestId S) (next_activate S) (notifyLostDelayCache_ S)
    (lostDelayTasks S) (uidLostDelaySet_ S) (isDelayHandleFindBestNetwork_ S) (delaySupplierId_ S)
    (findBestTask S) (prevNetSupplierType_ S) (controlFunc_ S) (world S).
Definition set_g_nextRequestId (v : Z) (S : NetConnService) : NetConnService :=
  mkNetConnService
    (suppliers S) (netSuppliers_ S) (activates S) (netUidActivates_ S) (defaultNetActivate_ S)
    (defaultNetSupplier_ S) (netUidRequest_ S) (internalDefaultUidRequest_ S) (netIdLastValue_ S)
    (internalNetIdLastValue_ S) (g_nextNetSupplierId S) v (next_activate S)
    (notifyLostDelayCache_ S) (lostDelayTasks S) (uidLostDelaySet_ S)
    (isDelayHandleFindBestNetwork_ S) (delaySupplierId_ S) (findBestTask S)
    (prevNetSupplierType_ S) (controlFunc_ S) (world S).
Definition set_next_activate (v : Z) (S : NetConnService) : NetConnService :=
  mkNetConnService
    (suppliers S) (netSuppliers_ S) (activates S) (netUidActivates_ S) (defaultNetActivate_ S)
    (defaultNetSupplier_ S) (netUidRequest_ S) (internalDefaultUidRequest_ S) (netIdLastValue_ S)
    (internalNetIdLastValue_ S) (g_nextNetSupplierId S) (g_nextRequestId S) v
    (notifyLostDelayCache_ S) (lostDelayTasks S) (uidLostDelaySet_ S)
    (isDelayHandleFindBestNetwork_ S) (delaySupplierId_ S) (findBestTask S)
    (prevNetSupplierType_ S) (controlFunc_ S) (world S).
Definition set_notifyLostDelayCache_ (v : gset Z) (S : NetConnService) : NetConnService :=
  mkNetConnService
    (suppliers S) (netSuppliers_ S) (activates S) (netUidActivates_ S) (defaultNetActivate_ S)
    (defaultNetSupplier_ S) (netUidRequest_ S) (internalDefaultUidRequest_ S) (netIdLastValue_ S)
    (internalNetIdLastValue_ S) (g_nextNetSupplierId S) (g_nextRequestId S) (next_activate S) v
    (lostDelayTasks S) (uidLostDelaySet_ S) (isDelayHandleFindBestNetwork_ S) (delaySupplierId_ S)
    (findBestTask S) (prevNetSupplierType_ S) (controlFunc_ S) (world S).
Definition set_lostDelayTasks (v : gset Z) (S : NetConnService) : NetConnService :=
  mkNetConnService
    (suppliers S) (netSuppliers_ S) (activates S) (netUidActivates_ S) (defaultNetActivate_ S)
    (defaultNetSupplier_ S) (netUidRequest_ S) (internalDefaultUidRequest_ S) (netIdLastValue_ S)
    (internalNetIdLastValue_ S) (g_nextNetSupplierId S) (g_nextRequestId S) (next_activate S)
    (notifyLostDelayCache_ S) v (uidLostDelaySet_ S) (isDelayHandleFindBestNetwork_ S)
    (delaySupplierId_ S) (findBestTask S) (prevNetSupplierType_ S) (controlFunc_ S) (world S).
Definition set_uidLostDelaySet_ (v : gset Z) (S : NetConnService) : NetConnService :=
  mkNetConnService
    (suppliers S) (netSuppliers_ S) (activates S) (netUidActivates_ S) (defaultNetActivate_ S)
    (defaultNetSupplier_ S) (netUidRequest_ S) (internalDefaultUidRequest_ S) (netIdLastValue_ S)
    (internalNetIdLastValue_ S) (g_nextNetSupplierId S) (g_nextRequestId S) (next_activate S)
    (notifyLostDelayCache_ S) (lostDelayTasks S) v (isDelayHandleFindBestNetwork_ S)
    (delaySupplierId_ S) (findBestTask S) (prevNetSupplierType_ S) (controlFunc_ S) (world S).
Definition set_isDelayHandleFindBestNetwork_ (v : bool) (S : NetConnService) : NetConnService :=
  mkNetConnService
    (suppliers S) (netSuppliers_ S) (activates S) (netUidActivates_ S) (defaultNetActivate_ S)
    (defaultNetSupplier_ S) (netUidRequest_ S) (internalDefaultUidRequest_ S) (netIdLastValue_ S)
    (internalNetIdLastValue_ S) (g_nextNetSupplierId S) (g_nextRequestId S) (next_activate S)
    (notifyLostDelayCache_ S) (lostDelayTasks S) (uidLostDelaySet_ S) v (delaySupplierId_ S)
    (findBestTask S) (prevNetSupplierType_ S) (controlFunc_ S) (world S).
Definition set_delaySupplierId_ (v : Z) (S : NetConnService) : NetConnService :=
  mkNetConnService
    (suppliers S) (netSuppliers_ S) (activates S) (netUidActivates_ S) (defaultNetActivate_ S)
    (defaultNetSupplier_ S) (netUidRequest_ S) (internalDefaultUidRequest_ S) (netIdLastValue_ S)
    (internalNetIdLastValue_ S) (g_nextNetSupplierId S) (g_nextRequestId S) (next_activate S)
    (notifyLostDelayCache_ S) (lostDelayTasks S) (uidLostDelaySet_ S)
    (isDelayHandleFindBestNetwork_ S) v (findBestTask S) (prevNetSupplierType_ S) (controlFunc_ S)
    (world S).
Definition set_findBestTask (v : bool) (S : NetConnService) : NetConnService :=
  mkNetConnService
    (suppliers S) (netSuppliers_ S) (activates S) (netUidActivates_ S) (defaultNetActivate_ S)
    (defaultNetSupplier_ S) (netUidRequest_ S) (internalDefaultUidRequest_ S) (netIdLastValue_ S)
    (internalNetIdLastValue_ S) (g_nextNetSupplierId S) (g_nextRequestId S) (next_activate S)
    (notifyLostDelayCache_ S) (lostDelayTasks S) (uidLostDelaySet_ S)
    (isDelayHandleFindBestNetwork_ S) (delaySupplierId_ S) v (prevNetSupplierType_ S)
    (controlFunc_ S) (world S).
Definition set_prevNetSupplierType_ (v : NetBearType) (S : NetConnService) : NetConnService :=
  mkNetConnService
    (suppliers S) (netSuppliers_ S) (activates S) (netUidActivates_ S) (defaultNetActivate_ S)
    (defaultNetSupplier_ S) (netUidRequest_ S) (internalDefaultUidRequest_ S) (netIdLastValue_ S)
    (internalNetIdLastValue_ S) (g_nextNetSupplierId S) (g_nextRequestId S) (next_activate S)
    (notifyLostDelayCache_ S) (lostDelayTasks S) (uidLostDelaySet_ S)
    (isDelayHandleFindBestNetwork_ S) (delaySupplierId_ S) (findBestTask S) v (controlFunc_ S)
    (world S).
Definition set_world (v : W) (S : NetConnService) : NetConnService :=
  mkNetConnService
    (suppliers S) (netSuppliers_ S) (activates S) (netUidActivates_ S) (defaultNetActivate_ S)
    (defaultNetSupplier_ S) (netUidRequest_ S) (internalDefaultUidRequest_ S) (netIdLastValue_ S)
    (internalNetIdLastValue_ S) (g_nextNetSupplierId S) (g_nextRequestId S) (next_activate S)
    (notifyLostDelayCache_ S) (lostDelayTasks S) (uidLostDelaySet_ S)
    (isDelayHandleFindBestNetwork_ S) (delaySupplierId_ S) (findBestTask S)
    (prevNetSupplierType_ S) (controlFunc_ S) v.

(** ** Access to the shared objects *)

(** Calls an operation of a supplier object, or of a request object. *)
Definition on_supplier (id : Z) (f : NetSupplier N -> W -> NetSupplier N * W) (S : NetConnService) : NetConnService :=
  match suppliers S !! id with
  | Some s => let '(s, w) := f s (world S) in set_world w (set_suppliers (<[id := s]> (suppliers S)) S)
  | None => S
  end.
Definition upd_supplier (id : Z) (f : NetSupplier N -> NetSupplier N) (S : NetConnService) : NetConnService :=
  set_suppliers (alter f id (suppliers S)) S.
Definition upd_activate (aid : Z) (f : NetActivate -> NetActivate) (S : NetConnService) : NetConnService :=
  set_activates (alter f aid (activates S)) S.

(** The iteration orders of [netSuppliers_] and of [netUidActivates_]. *)
Definition supplier_ids (S : NetConnService) : list Z := merge_sort Z.le (elements (netSuppliers_ S)).
Definition activate_uids (S : NetConnService) : list Z := merge_sort Z.le (elements (dom (netUidActivates_ S))).
Definition activate_ids (S : NetConnService) : list Z :=
  flat_map (fun u => default [] (netUidActivates_ S !! u)) (activate_uids S).

(** The supplier object registered under an identifier. *)
Definition FindNetSupplier (id : Z) (S : NetConnService) : option (NetSupplier N) :=
  if bool_decide (id ∈ netSuppliers_ S) then suppliers S !! id else None.

Definition GetDefaultNetSupplierType (S : NetConnService) : NetBearType :=
  match defaultNetSupplier_ S ≫= fun d => suppliers S !! d with
  | None => BEARER_DEFAULT
  | Some s => netSupplierType_ s
  end.
Definition GetDefaultNetSupplierId (S : NetConnService) : Z :=
  match defaultNetSupplier_ S ≫= fun d => suppliers S !! d with
  | None => 0
  | Some s => supplierId_ s
  end.

(** ** Network identifiers *)

Definition MIN_NET_ID : Z := 100.
Definition MAX_NET_ID : Z := 65535 - 1024.
Definition MIN_INTERNAL_NET_ID : Z := 1.
Definition MAX_INTERNAL_NET_ID : Z := 50.

(** The network with an identifier, found by the first registered supplier
    that reports it: [None] when there is no such supplier or when its
    [network_] is null. *)
Definition FindNetwork (netId : Z) (S : NetConnService) : option N :=
  match find (fun id => match suppliers S !! id with Some s => GetNetId s =? netId | None => false end)
          (supplier_ids S) with
  | Some id => suppliers S !! id ≫= network_
  | None => None
  end.

Definition net_unused (netId : Z) (S : NetConnService) : bool :=
  match FindNetwork netId S with None => true | Some _ => false end.

(** The loop body runs [n] more times. *)
Fixpoint gen_net_id (n : nat) (last : Z) (S : NetConnService) : Z * Z :=
  match n with
  | O => (INVALID_NET_ID, last)
  | Datatypes.S n =>
      let last := last + 1 in
      let last := if MAX_NET_ID <? last then MIN_NET_ID else last in
      if net_unused last S then (last, last) else gen_net_id n last S
  end.
Definition GenerateNetId (S : NetConnService) : Z * NetConnService :=
  let '(r, last) := gen_net_id (Z.to_nat (MAX_NET_ID - MIN_NET_ID + 1)) (netIdLastValue_ S) S in
  (r, set_netIdLastValue_ last S).

Fixpoint gen_internal_id (n : nat) (last : Z) (S : NetConnService) : Z * Z :=
  match n with
  | O => (INVALID_NET_ID, last)
  | Datatypes.S n =>
      let '(value, last) := if MAX_INTERNAL_NET_ID <? last then (MIN_INTERNAL_NET_ID, MIN_INTERNAL_NET_ID)
                            else (last, last + 1) in
      if net_unused value S then (value, last) else gen_internal_id n last S
  end.
Definition GenerateInternalNetId (S : NetConnService) : Z * NetConnService :=
  let '(r, last) := gen_internal_id (Z.to_nat (MAX_INTERNAL_NET_ID - MIN_INTERNAL_NET_ID + 1))
                      (internalNetIdLastValue_ S) S in
  (r, set_internalNetIdLastValue_ last S).

(** ** The best network for a request *)

Definition best_step (S : NetConnService) (a : NetActivate) (acc : Z * option Z) (id : Z) : Z * option Z :=
  match suppliers S !! id with
  | None => acc
  | Some s =>
      if negb (IsConnected s) || negb (MatchRequestAndNetwork (Some s) false a) then acc
      else let score := GetRealScore s in
           if acc.1 <? score then (score, Some id) else acc
  end.
Definition FindBestNetworkForRequest (S : NetConnService) (a : NetActivate) : Z * option Z :=
  foldl (best_step S a) (0, None) (supplier_ids S).

Definition MakeDefaultNetWork (newSupplier : option Z) (S : NetConnService) : NetConnService :=
  if bool_decide (defaultNetSupplier_ S = newSupplier) then S
  else
    let S := match defaultNetSupplier_ S with Some o => on_supplier o ClearDefault S | None => S end in
    let S := match newSupplier with Some n => on_supplier n SetDefault S | None => S end in
    set_defaultNetSupplier_ newSupplier S.

(** Hands a request to every registered supplier it matches. *)
Definition request_to (a : NetActivate) (S : NetConnService) (id : Z) : NetConnService :=
  match suppliers S !! id with
  | None => S
  | Some s =>
      if negb (MatchRequestAndNetwork (Some s) true a) then S
      else on_supplier id (fun s w => let '(_, s, w) := RequestToConnect (act_netRequest_ a) s w in (s, w)) S
  end.
Definition SendRequestToAllNetwork (a : NetActivate) (S : NetConnService) : NetConnService :=
  match netSpecifier_ a with
  | None => S
  | Some _ => foldl (request_to a) S (supplier_ids S)
  end.

Definition SendAllRequestToNetwork (id : Z) (S : NetConnService) : NetConnService :=
  foldl (fun S aid => match activates S !! aid with None => S | Some a => request_to a S id end)
    S (activate_ids S).

Definition score_request (reqId uidR : Z) (t : NetBearType) : NetRequest :=
  mkNetRequest uidR reqId REGISTER false "" {[t]} ∅.
Definition SendBestScoreAllNetwork (reqId bestScore supplierId : Z) (t : NetBearType) (uidR : Z) (S : NetConnService)
  : NetConnService :=
  foldl (fun S id =>
      match suppliers S !! id with
      | None => S
      | Some s => if sup_HasNetCap NET_CAPABILITY_INTERNAL_DEFAULT s then S
                  else on_supplier id (ReceiveBestScore bestScore supplierId (score_request reqId uidR t)) S
      end) S (supplier_ids S).

(** ** Delayed loss notifications *)

Definition FindNotifyLostDelayCache (netId : Z) (S : NetConnService) : bool :=
  bool_decide (netId ∈ notifyLostDelayCache_ S).
Definition CheckNotifyLostDelay (a : NetActivate) (type : CallbackType) (S : NetConnService) : bool :=
  if bool_decide (type <> CALL_TYPE_LOST) then false
  else bool_decide (GetUid a ∈ uidLostDelaySet_ S) || NeedSkipLostDelay_ a.

Definition StartNotifyLostDelay (netId : Z) (S : NetConnService) : NetConnService :=
  set_notifyLostDelayCache_ ({[netId]} ∪ notifyLostDelayCache_ S)
    (set_lostDelayTasks ({[netId]} ∪ lostDelayTasks S) S).

(** One request of [HandleNotifyLostDelay]; [u] is the key of the map. *)
Definition notify_lost_step (netId u : Z) (S : NetConnService) (aid : Z) : NetConnService :=
  match activates S !! aid with
  | None => S
  | Some a =>
      if bool_decide (u ∉ uidLostDelaySet_ S) && negb (NeedSkipLostDelay_ a) then S
      else
        let S := if isNotifyLostDelay_ a && (notifyLostNetId_ a =? netId)
                 then upd_activate aid (set_lost_delay false 0) S else S in
        match netServiceSupplied_ a, netConnCallback_ a with
        | None, Some cb => set_world (NetLost cb (Some netId) (world S)) S
        | _, _ => S
        end
  end.
Definition HandleNotifyLostDelay (netId : Z) (S : NetConnService) : NetConnService :=
  foldl (fun S u => foldl (notify_lost_step netId u) S (default [] (netUidActivates_ S !! u))) S (activate_uids S).

Definition StopNotifyLostDelay (netId : Z) (S : NetConnService) : NetConnService :=
  let S := set_notifyLostDelayCache_ (notifyLostDelayCache_ S ∖ {[netId]}) S in
  let S := set_lostDelayTasks (lostDelayTasks S ∖ {[netId]}) S in
  HandleNotifyLostDelay netId S.

(** ** Notifications *)

Definition default_NetLinkInfo : NetLinkInfo :=
  mkNetLinkInfo "" "" [] [] [] 0 "" "" (mkHttpProxy "" 0 "" "" [] (-1)) false false false.
Definition link_of (s : NetSupplier N) : NetLinkInfo :=
  match network_ s with Some n => net_GetNetLinkInfo n | None => default_NetLinkInfo end.

Definition NET_CAPABILITY_NOT_METERED : Z := 11.

Definition HandleCallback (s : NetSupplier N) (cb : Z) (type : CallbackType) (w : W) : W :=
  match type with
  | CALL_TYPE_LOST => NetLost cb (netHandle_ s) w
  | CALL_TYPE_UPDATE_CAP => NetCapabilitiesChange cb (netHandle_ s) (netAllCapabilities_ s) w
  | CALL_TYPE_UPDATE_LINK => NetConnectionPropertiesChange cb (netHandle_ s) (link_of s) w
  | CALL_TYPE_BLOCK_STATUS =>
      NetBlockStatusChange cb (netHandle_ s)
        (IsUidNetAccess (info_uid_ (netSupplierInfo_ s)) (sup_HasNetCap NET_CAPABILITY_NOT_METERED s) w) w
  | CALL_TYPE_UNAVAILABLE => NetUnavailable cb w
  | _ => w
  end.

Definition CallbackForAvailable (id : Z) (callback : option Z) (S : NetConnService) : NetConnService :=
  match suppliers S !! id, callback with
  | Some s, Some cb =>
      let w := NetAvailable cb (netHandle_ s) (world S) in
      let w := NetCapabilitiesChange cb (netHandle_ s) (netAllCapabilities_ s) w in
      let w := NetConnectionPropertiesChange cb (netHandle_ s) (link_of s) w in
      set_world (NotifyNetBearerType (bearerTypes_ (netAllCapabilities_ s)) w) S
  | _, _ => S
  end.

Definition CallbackForSupplier (id : Z) (type : CallbackType) (S : NetConnService) : NetConnService :=
  match suppliers S !! id with
  | None => S
  | Some s =>
      let netId := GetNetId s in
      foldl (fun S aid =>
        match activates S !! aid with
        | None => S
        | Some a =>
            match netConnCallback_ a with
            | None => S
            | Some cb =>
                if negb (HasBestRequest (GetRequestId a) s) then S
                else if FindNotifyLostDelayCache netId S && CheckNotifyLostDelay a type S
                then upd_activate aid (set_lost_delay true netId) S
                else set_world (HandleCallback s cb type (world S)) S
            end
        end) S (activate_ids S)
  end.

Definition NotifyNetBearerTypeChange (S : NetConnService) : NetConnService :=
  let cur := GetDefaultNetSupplierType S in
  if bool_decide (cur = BEARER_DEFAULT) || bool_decide (prevNetSupplierType_ S = cur) then S
  else let S := set_prevNetSupplierType_ cur S in
       set_world (NotifyNetBearerType {[cur]} (world S)) S.

Definition NotFindBestSupplier (reqId aid : Z) (old : option Z) (callback : option Z) (S : NetConnService)
  : NetConnService :=
  let S :=
    match old with
    | None => S
    | Some o =>
        let S := upd_supplier o (RemoveBestRequest reqId) S in
        match callback, suppliers S !! o, activates S !! aid with
        | Some cb, Some s, Some a =>
            let netId := GetNetId s in
            if FindNotifyLostDelayCache netId S && CheckNotifyLostDelay a CALL_TYPE_LOST S
            then upd_activate aid (set_lost_delay true netId) S
            else set_world (NetLost cb (netHandle_ s) (world S)) S
        | _, _, _ => S
        end
    end in
  let S := upd_activate aid (SetServiceSupply None) S in
  match activates S !! aid with Some a => SendRequestToAllNetwork a S | None => S end.

(** One request of [FindBestNetworkForAllRequest]. *)
Definition find_best_step (S : NetConnService) (aid : Z) : NetConnService :=
  match activates S !! aid with
  | None => S
  | Some a =>
      if isFrozenedSkip_ a && isAppFrozened_ a then S
      else
        let reqId := GetRequestId a in
        let '(score, best) := FindBestNetworkForRequest S a in
        let S := if bool_decide (defaultNetActivate_ S = Some aid) then MakeDefaultNetWork best S else S in
        let old := netServiceSupplied_ a in
        match best with
        | None => NotFindBestSupplier reqId aid old (netConnCallback_ a) S
        | Some b =>
            let S := upd_activate aid (set_NeedSkipLostDelay_ false) S in
            let t := match suppliers S !! b with Some s => netSupplierType_ s | None => BEARER_DEFAULT end in
            let S := SendBestScoreAllNetwork reqId score b t (GetUid a) S in
            let S := on_supplier b (SelectAsBestNetwork (act_netRequest_ a)) S in
            if bool_decide (Some b = old) then S
            else
              let S := match old with Some o => upd_supplier o (RemoveBestRequest reqId) S | None => S end in
              let S := upd_activate aid (SetServiceSupply (Some b)) S in
              CallbackForAvailable b (netConnCallback_ a) S
        end
  end.
Definition FindBestNetworkForAllRequest (S : NetConnService) : NetConnService :=
  NotifyNetBearerTypeChange (foldl find_best_step S (activate_ids S)).

Definition RequestAllNetworkExceptDefault (S : NetConnService) : NetConnService :=
  match defaultNetSupplier_ S ≫= fun d => suppliers S !! d, defaultNetActivate_ S ≫= fun a => activates S !! a with
  | Some d, Some a =>
      if IsNetValidated d || IsNetAcceptUnavalidate d then S
      else foldl (fun S id =>
          match suppliers S !! id with
          | None => S
          | Some s =>
              if bool_decide (Some id = defaultNetSupplier_ S) then S
              else if netScore_ d <=? netScore_ s then S
              else if sup_HasNetCap NET_CAPABILITY_INTERNAL_DEFAULT s then S
              else request_to a S id
          end) S (supplier_ids S)
  | _, _ => S
  end.

(** ** Suppliers *)

Definition GetNetSupplierFromList (bearerType : NetBearType) (identS : string) (caps : gset Z) (S : NetConnService)
  : option Z :=
  find (fun id => match suppliers S !! id with
                  | Some s => bool_decide (bearerType = netSupplierType_ s)
                              && bool_decide (identS = netSupplierIdent_ s) && CompareNetCaps caps s
                  | None => false
                  end) (supplier_ids S).

(** The code, the supplier id (when one is assigned) and the service after;
    [None] when the construction of the supplier crashes. *)
Definition RegisterNetSupplierAsync (bearerType : NetBearType) (identS : string) (caps : gset Z) (callingUid : Z)
  (S : NetConnService) : option (Z * option Z * NetConnService) :=
  if bool_decide (bearerType = BEARER_DEFAULT) then Some (NET_CONN_ERR_NET_TYPE_NOT_FOUND, None, S)
  else match GetNetSupplierFromList bearerType identS caps S with
  | Some id => Some (NETMANAGER_SUCCESS, Some id, S)
  | None =>
      let supplierId := g_nextNetSupplierId S in
      let S := set_g_nextNetSupplierId (u32 (supplierId + 1)) S in
      match new_NetSupplier bearerType identS caps supplierId (world S) with
      | None => None
      | Some (s, w) =>
          let S := set_world w S in
          let '(netId, S') := if bool_decide (NET_CAPABILITY_INTERNAL_DEFAULT ∈ caps)
                              then GenerateInternalNetId S else GenerateNetId S in
          let S := S' in
          if netId =? INVALID_NET_ID then Some (NET_CONN_ERR_INVALID_NETWORK, Some supplierId, S)
          else
            let s := SetNetwork (Some (new_Network netId supplierId bearerType caps)) s in
            let s := SetUid callingUid s in
            let S := set_suppliers (<[supplierId := s]> (suppliers S)) S in
            let S := set_netSuppliers_ ({[supplierId]} ∪ netSuppliers_ S) S in
            Some (NETMANAGER_SUCCESS, Some supplierId, S)
      end
  end.

Definition RegisterNetSupplierCallbackAsync (id : Z) (callback : option Z) (S : NetConnService) : Z * NetConnService :=
  match callback with
  | None => (NETMANAGER_ERR_LOCAL_PTR_NULL, S)
  | Some _ =>
      match FindNetSupplier id S with
      | None => (NET_CONN_ERR_NO_SUPPLIER, S)
      | Some _ =>
          let S := on_supplier id (RegisterSupplierCallback callback) S in
          (NETMANAGER_SUCCESS, SendAllRequestToNetwork id S)
      end
  end.

Definition UnregisterNetSupplierAsync (id : Z) (S : NetConnService) : Z * NetConnService :=
  match FindNetSupplier id S with
  | None => (NET_CONN_ERR_NO_SUPPLIER, S)
  | Some _ =>
      let S := if bool_decide (defaultNetSupplier_ S = Some id) then MakeDefaultNetWork None S else S in
      let S := on_supplier id (UpdateNetSupplierInfo default_NetSupplierInfo) S in
      let S := set_netSuppliers_ (netSuppliers_ S ∖ {[id]}) S in
      (NETMANAGER_SUCCESS, FindBestNetworkForAllRequest S)
  end.

(** ** Delayed choice of the best network *)

Definition RemoveDelayNetwork (S : NetConnService) : NetConnService :=
  set_delaySupplierId_ 0 (set_isDelayHandleFindBestNetwork_ false (set_findBestTask false S)).

Definition HandlePreFindBestNetworkForDelay (id : Z) (isFirstTimeDetect : bool) (S : NetConnService) : NetConnService :=
  match suppliers S !! id with
  | None => S
  | Some s =>
      if isDelayHandleFindBestNetwork_ S then S
      else if bool_decide (netSupplierType_ s = BEARER_WIFI) && isFirstTimeDetect
              && bool_decide (GetDefaultNetSupplierType S = BEARER_CELLULAR) && isNeedDelay (world S)
      then set_findBestTask true (set_delaySupplierId_ id (set_isDelayHandleFindBestNetwork_ true S))
      else S
  end.

(** ** Detection results and supplier updates *)

Definition set_net_valid (id : Z) (st : NetDetectionStatus) (S : NetConnService) : option NetConnService :=
  match suppliers S !! id with
  | None => Some S
  | Some s => match SetNetValid st s (world S) with
              | None => None
              | Some (s, w) => Some (set_world w (set_suppliers (<[id := s]> (suppliers S)) S))
              end
  end.

Definition HandleDetectionResult (id : Z) (st : NetDetectionStatus) (S : NetConnService) : option NetConnService :=
  match FindNetSupplier id S with
  | None => Some S
  | Some s =>
      let isFirstTimeDetect := IsInFirstTimeDetecting s in
      match set_net_valid id st S with
      | None => None
      | Some S' =>
          let S := S' in
          let S := upd_supplier id SetDetectionDone S in
          let S := CallbackForSupplier id CALL_TYPE_UPDATE_CAP S in
          let ifValid := bool_decide (st = VERIFICATION_STATE) in
          let cur := GetDefaultNetSupplierType S in
          let s := default s (suppliers S !! id) in
          let S := if bool_decide (cur <> BEARER_DEFAULT) && bool_decide (cur <> BEARER_CELLULAR)
                   then RemoveDelayNetwork S
                   else if isFirstTimeDetect && IsOnceSuppress s
                   then HandlePreFindBestNetworkForDelay id isFirstTimeDetect S else S in
          let S := if (delaySupplierId_ S =? id) && isDelayHandleFindBestNetwork_ S
                      && bool_decide (netSupplierType_ s = BEARER_WIFI) && ifValid
                   then S else FindBestNetworkForAllRequest S in
          Some (if negb ifValid && (GetDefaultNetSupplierId S =? id) then RequestAllNetworkExceptDefault S else S)
      end
  end.

(** The delayed task. *)
Definition HandleFindBestNetworkForDelay (S : NetConnService) : option NetConnService :=
  let S := set_isDelayHandleFindBestNetwork_ false S in
  match FindNetSupplier (delaySupplierId_ S) S with
  | None => Some (set_delaySupplierId_ 0 S)
  | Some s =>
      match (if IsNetValidated s then HandleDetectionResult (delaySupplierId_ S) VERIFICATION_STATE S else Some S) with
      | None => None
      | Some S' => Some (set_delaySupplierId_ 0 S')
      end
  end.

Definition NETMANAGER_ERR_INVALID_PARAMETER : Z := 2100001.

Definition UpdateSupplierScoreAsync (id : Z) (st : NetDetectionStatus) (S : NetConnService) : option (Z * NetConnService) :=
  match FindNetSupplier id S with
  | None => Some (NETMANAGER_ERR_INVALID_PARAMETER, S)
  | Some _ =>
      match set_net_valid id st (RemoveDelayNetwork S) with
      | None => None
      | Some S' =>
          let S := S' in
          let S := FindBestNetworkForAllRequest S in
          Some (NETMANAGER_SUCCESS, if GetDefaultNetSupplierId S =? id then RequestAllNetworkExceptDefault S else S)
      end
  end.

Definition HandleSupplierNotAvailable (id : Z) (isOldAvailable : bool) (S : NetConnService) : NetConnService :=
  let netId := match suppliers S !! id with Some s => GetNetId s | None => INVALID_NET_ID end in
  let S := if isOldAvailable then StartNotifyLostDelay netId S else S in
  if id =? delaySupplierId_ S then RemoveDelayNetwork S else S.

Definition empty_proxy : HttpProxy := mkHttpProxy "" 0 "" "" [] (-1).

Definition UpdateNetSupplierInfoAsync (id : Z) (info : option NetSupplierInfo) (S : NetConnService)
  : option (Z * NetConnService) :=
  match info with
  | None => Some (NETMANAGER_ERR_PARAMETER_ERROR, S)
  | Some info =>
      match FindNetSupplier id S with
      | None => Some (NET_CONN_ERR_NO_SUPPLIER, S)
      | Some s =>
          let isOldAvailable := IsAvailable s in
          let S := on_supplier id (UpdateNetSupplierInfo info) S in
          let after :=
            if negb (isAvailable_ info) then
              let S := HandleSupplierNotAvailable id isOldAvailable S in
              match suppliers S !! id with
              | None => Some (empty_proxy, S)
              | Some s =>
                  match ResetNetSupplier s (world S) with
                  | None => None
                  | Some (s, w) =>
                      Some (GetHttpProxy empty_proxy s, set_world w (set_suppliers (<[id := s]> (suppliers S)) S))
                  end
              end
            else
              let netId := match suppliers S !! id with Some s => GetNetId s | None => INVALID_NET_ID end in
              Some (empty_proxy, CallbackForSupplier id CALL_TYPE_UPDATE_CAP (StopNotifyLostDelay netId S)) in
          match after with
          | None => None
          | Some (oldHttpProxy, S') =>
              let S := S' in
              let S := if score_ info =? 0 then upd_supplier id InitNetScore S else S in
              let S := FindBestNetworkForAllRequest S in
              Some (NETMANAGER_SUCCESS,
                    if bool_decide (host_ oldHttpProxy <> "")
                    then set_world (SendHttpProxyChangeBroadcast empty_proxy (world S)) S else S)
          end
      end
  end.

Definition UpdateNetLinkInfoAsync (id : Z) (link : option NetLinkInfo) (S : NetConnService) : Z * NetConnService :=
  match link with
  | None => (NETMANAGER_ERR_PARAMETER_ERROR, S)
  | Some link =>
      match FindNetSupplier id S with
      | None => (NET_CONN_ERR_NO_SUPPLIER, S)
      | Some s =>
          let oldHttpProxy := GetHttpProxy empty_proxy s in
          let '(code, link, s, w) := UpdateNetLinkInfo link s (world S) in
          let S := set_world w (set_suppliers (<[id := s]> (suppliers S)) S) in
          if negb (code =? NETMANAGER_SUCCESS) then (NET_CONN_ERR_SERVICE_UPDATE_NET_LINK_INFO_FAIL, S)
          else
            let S := CallbackForSupplier id CALL_TYPE_UPDATE_LINK S in
            let S := HandlePreFindBestNetworkForDelay id (IsInFirstTimeDetecting s) S in
            let S := if negb (isDelayHandleFindBestNetwork_ S) then FindBestNetworkForAllRequest S else S in
            (NETMANAGER_SUCCESS,
             if negb (HttpProxy_eqb oldHttpProxy (httpProxy_ link))
             then set_world (SendHttpProxyChangeBroadcast (httpProxy_ link) (world S)) S else S)
      end
  end.

(** ** Client callbacks *)

Definition MAX_ALLOW_UID_NUM : Z := 2000.

(** The counters of a uid, by the type of the registration. *)
Definition uid_counts (regType : Z) (S : NetConnService) : gmap Z Z :=
  if regType =? REGISTER then netUidRequest_ S else internalDefaultUidRequest_ S.
Definition set_uid_counts (regType : Z) (m : gmap Z Z) (S : NetConnService) : NetConnService :=
  if regType =? REGISTER then set_netUidRequest_ m S else set_internalDefaultUidRequest_ m S.

Definition IncreaseNetConnCallbackCntForUid (callingUid regType : Z) (S : NetConnService) : Z * NetConnService :=
  let m := uid_counts regType S in
  match m !! callingUid with
  | None => (NETMANAGER_SUCCESS, set_uid_counts regType (<[callingUid := 1]> m) S)
  | Some c =>
      if MAX_ALLOW_UID_NUM <=? c then (NET_CONN_ERR_NET_OVER_MAX_REQUEST_NUM, S)
      else (NETMANAGER_SUCCESS, set_uid_counts regType (<[callingUid := u32 (c + 1)]> m) S)
  end.

Definition DecreaseNetConnCallbackCntForUid (callingUid regType : Z) (S : NetConnService) : NetConnService :=
  let m := uid_counts regType S in
  match m !! callingUid with
  | None => S
  | Some c =>
      let c := if 1 <=? c then c - 1 else c in
      if c =? 0 then set_uid_counts regType (delete callingUid m) S
      else set_uid_counts regType (<[callingUid := c]> m) S
  end.

(** The type a registration is counted under, computed from the specifier. *)
Definition registration_type (sp : option NetSpecifier) : Z :=
  match sp with
  | Some sp =>
      if bool_decide (NET_CAPABILITY_INTERNAL_DEFAULT ∈ all_netCaps_ (netCapabilities_ sp))
         || bool_decide (BEARER_CELLULAR ∈ bearerTypes_ (netCapabilities_ sp))
      then REQUEST else REGISTER
  | None => REGISTER
  end.

(** Request id, registration type and uid of the request with a callback. *)
Definition FindSameCallback (callback : Z) (S : NetConnService) : option (Z * Z * Z) :=
  match find (fun aid => match activates S !! aid with
                         | Some a => bool_decide (netConnCallback_ a = Some callback)
                         | None => false
                         end) (activate_ids S) with
  | Some aid =>
      match activates S !! aid with
      | Some a => Some (GetRequestId a, registration_type (netSpecifier_ a), GetUid a)
      | None => None
      end
  | None => None
  end.

Definition set_controlled (b : bool) (q : NetRequest) : NetRequest :=
  mkNetRequest (uid q) (requestId q) (registerType q) b (ident q) (bearTypes q) (netCaps q).

Definition ActivateNetwork (specifier : NetSpecifier) (callback timeoutMS regType callingUid : Z) (S : NetConnService)
  : Z * NetConnService :=
  let '(request, g) := new_NetActivate (Some specifier) (Some callback) timeoutMS callingUid regType (g_nextRequestId S) in
  let S := set_g_nextRequestId g S in
  let request := match controlFunc_ S with
                 | Some f => set_act_netRequest_ (set_controlled (f (act_netRequest_ request)) (act_netRequest_ request)) request
                 | None => request
                 end in
  let aid := next_activate S in
  let S := set_next_activate (aid + 1) (set_activates (<[aid := request]> (activates S)) S) in
  let S := set_netUidActivates_
             (<[callingUid := default [] (netUidActivates_ S !! callingUid) ++ [aid]]> (netUidActivates_ S)) S in
  let '(bestScore, bestNet) := FindBestNetworkForRequest S request in
  match bestNet with
  | Some b =>
      if negb (bestScore =? 0) then
        let S := on_supplier b (SelectAsBestNetwork (act_netRequest_ request)) S in
        let S := upd_activate aid (SetServiceSupply (Some b)) S in
        (NETMANAGER_SUCCESS, CallbackForAvailable b (Some callback) S)
      else
        let S := if timeoutMS =? 0 then set_world (NetUnavailable callback (world S)) S else S in
        (NETMANAGER_SUCCESS, SendRequestToAllNetwork request S)
  | None =>
      let S := if timeoutMS =? 0 then set_world (NetUnavailable callback (world S)) S else S in
      (NETMANAGER_SUCCESS, SendRequestToAllNetwork request S)
  end.

Definition RegisterNetConnCallbackAsync (specifier : option NetSpecifier) (callback : option Z)
  (timeoutMS callingUid : Z) (S : NetConnService) : Z * NetConnService :=
  match specifier, callback with
  | Some sp, Some cb =>
      match FindSameCallback cb S with
      | Some _ => (NET_CONN_ERR_SAME_CALLBACK, S)
      | None =>
          let regType := registration_type specifier in
          if bool_decide (NET_CAPABILITY_MMS ∈ all_netCaps_ (netCapabilities_ sp)) && isMmsDisabled (world S)
          then (NET_CONN_ERR_POLICY_DISABLED, S)
          else
            let r := IncreaseNetConnCallbackCntForUid callingUid regType S in
            if negb (r.1 =? NETMANAGER_SUCCESS) then r
            else ActivateNetwork sp cb timeoutMS REGISTER callingUid r.2
      end
  | _, _ => (NETMANAGER_ERR_LOCAL_PTR_NULL, S)
  end.

Definition RequestNetConnectionAsync (specifier : option NetSpecifier) (callback : option Z)
  (timeoutMS callingUid : Z) (S : NetConnService) : Z * NetConnService :=
  match specifier, callback with
  | Some sp, Some cb =>
      match FindSameCallback cb S with
      | Some _ => (NET_CONN_ERR_SAME_CALLBACK, S)
      | None =>
          let r := IncreaseNetConnCallbackCntForUid callingUid REQUEST S in
          if negb (r.1 =? NETMANAGER_SUCCESS) then r
          else ActivateNetwork sp cb timeoutMS REQUEST callingUid r.2
      end
  | _, _ => (NETMANAGER_ERR_LOCAL_PTR_NULL, S)
  end.

Definition CancelRequestForSupplier (a : NetActivate) (reqId : Z) (S : NetConnService) : NetConnService :=
  let cancel S id :=
    let q := mkNetRequest (GetUid a) reqId UNKOWN false "" {[GetDefaultNetSupplierType S]} ∅ in
    on_supplier id (fun s w => let '(_, s, w) := CancelRequest q s w in (s, w)) S in
  let S := match netServiceSupplied_ a with Some b => cancel S b | None => S end in
  foldl cancel S (supplier_ids S).

(** The loop of [DecreaseNetActivates] over the requests of a uid, from
    position [i].  A null request, or one without a callback, is skipped
    without advancing the iterator.  [None]: the fuel ran out. *)
Fixpoint decrease_loop (fuel : nat) (callback : Z) (l : list Z) (i : nat) (S : NetConnService)
  : option (list Z * NetConnService) :=
  match fuel with
  | O => None
  | Datatypes.S fuel =>
      match l !! i with
      | None => Some (l, S)
      | Some aid =>
          match activates S !! aid with
          | None => decrease_loop fuel callback l i S
          | Some a =>
              match netConnCallback_ a with
              | None => decrease_loop fuel callback l i S
              | Some cb =>
                  if cb =? callback
                  then Some (delete i l, CancelRequestForSupplier a (GetRequestId a) S)
                  else decrease_loop fuel callback l (Datatypes.S i) S
              end
          end
      end
  end.

Definition DecreaseNetActivates (fuel : nat) (callingUid callback : Z) (S : NetConnService) : option NetConnService :=
  match netUidActivates_ S !! callingUid with
  | None => Some S
  | Some l =>
      match decrease_loop fuel callback l 0 S with
      | None => None
      | Some (l, S') =>
          Some (match l with
                | [] => set_netUidActivates_ (delete callingUid (netUidActivates_ S')) S'
                | _ => set_netUidActivates_ (<[callingUid := l]> (netUidActivates_ S')) S'
                end)
      end
  end.

Definition UnregisterNetConnCallbackAsync (fuel : nat) (callback : option Z) (S : NetConnService)
  : option (Z * NetConnService) :=
  match callback with
  | None => Some (NETMANAGER_ERR_LOCAL_PTR_NULL, S)
  | Some cb =>
      match FindSameCallback cb S with
      | None => Some (NET_CONN_ERR_CALLBACK_NOT_FOUND, S)
      | Some (reqId, regType, u) =>
          let S := DecreaseNetConnCallbackCntForUid u regType S in
          match DecreaseNetActivates fuel u cb S with
          | None => None
          | Some S' => Some (NETMANAGER_SUCCESS, S')
          end
      end
  end.

Definition UID_NET_MANAGER : Z := 1099.

(** [CreateDefaultRequest]: the request of the default network, registered
    without a callback under the uid of the connection manager itself. *)
Definition CreateDefaultRequest (S : NetConnService) : NetConnService :=
  match defaultNetActivate_ S with
  | Some _ => S
  | None =>
      let '(a, g) := new_NetActivate (Some default_specifier) None 0 0 REQUEST (g_nextRequestId S) in
      let S := set_g_nextRequestId g S in
      let aid := next_activate S in
      let S := set_next_activate (aid + 1) (set_activates (<[aid := SetRequestId DEFAULT_REQUEST_ID a]> (activates S)) S) in
      let S := set_defaultNetActivate_ (Some aid) S in
      set_netUidActivates_
        (<[UID_NET_MANAGER := default [] (netUidActivates_ S !! UID_NET_MANAGER) ++ [aid]]> (netUidActivates_ S)) S
  end.

End service.

Arguments NetConnService : clear implicits.

Section theory.
Context {W N : Type} `{!Outside W} `{!INetwork W N} `{!Clients W} `{!NetworkNew N} `{!NetworkLaws W N}.
Implicit Types (S T : NetConnService W N) (s : NetSupplier N) (a : NetActivate).
#[local] Opaque ToSet HasNetCap InsertNetCap RemoveNetCap of_set.

(** ** Iteration orders *)

Lemma supplier_ids_elem id S : id ∈ supplier_ids S <-> id ∈ netSuppliers_ S.
Proof.
  unfold supplier_ids. rewrite (merge_sort_Permutation Z.le). apply elem_of_elements.
Qed.
Lemma supplier_ids_sorted S : StronglySorted Z.le (supplier_ids S).
Proof. apply (StronglySorted_merge_sort Z.le). Qed.

(** ** The best supplier *)

(** A supplier the request may be served by. *)
Definition eligible S a (id : Z) s : Prop :=
  suppliers S !! id = Some s /\ IsConnected s = true /\ MatchRequestAndNetwork (Some s) false a = true.

Definition best_ok S a (l : list Z) (acc : Z * option Z) : Prop :=
  match acc.2 with
  | None => acc.1 = 0 /\ forall id s, id ∈ l -> eligible S a id s -> GetRealScore s <= 0
  | Some b => 0 < acc.1 /\ b ∈ l /\ (exists s, eligible S a b s /\ GetRealScore s = acc.1) /\
      forall id s, id ∈ l -> eligible S a id s ->
        GetRealScore s <= acc.1 /\ (GetRealScore s = acc.1 -> b <= id)
  end.

Lemma best_step_ok S a l acc id : Forall (fun x => x <= id) l -> best_ok S a l acc ->
  best_ok S a (l ++ [id]) (best_step S a acc id).
Proof.
  intros Hle Hok. unfold best_step.
  assert (Hkeep : (forall s, eligible S a id s -> GetRealScore s <= acc.1) -> best_ok S a (l ++ [id]) acc).
  { intros Hn. unfold best_ok in *. destruct acc as [sc [b|]]; simpl in *.
    - destruct Hok as (Hp & Hb & He & Hall). split_and!; [done|set_solver|done|].
      intros i s Hi Hs. apply elem_of_app in Hi as [Hi|Hi%list_elem_of_singleton]; [by apply Hall|subst i].
      split; [by apply Hn|]. intros _. by eapply Forall_forall in Hle.
    - destruct Hok as [-> Hall]. split; [done|]. intros i s Hi Hs.
      apply elem_of_app in Hi as [Hi|Hi%list_elem_of_singleton]; [by eapply Hall|subst i]. by apply Hn. }
  destruct (suppliers S !! id) as [s|] eqn:Es; [|apply Hkeep; by intros s [? _]; simplify_eq].
  destruct (negb (IsConnected s) || negb (MatchRequestAndNetwork (Some s) false a)) eqn:En.
  { apply Hkeep. intros s' (? & H1 & H2). simplify_eq. by rewrite H1, H2 in En. }
  apply orb_false_iff in En as [H1%negb_false_iff H2%negb_false_iff].
  cbv zeta. destruct (Z.ltb_spec acc.1 (GetRealScore s)) as [Hlt|Hge].
  2: { apply Hkeep. intros s' (? & _). by simplify_eq. }
  unfold best_ok. simpl. split_and!.
  - unfold best_ok in Hok. destruct acc as [sc [b|]]; simpl in *; lia.
  - set_solver.
  - by exists s.
  - intros i s' Hi Hs'. apply elem_of_app in Hi as [Hi|Hi%list_elem_of_singleton].
    + assert (GetRealScore s' <= acc.1).
      { unfold best_ok in Hok. destruct acc as [sc [b|]]; simpl in *.
        - destruct Hok as (_ & _ & _ & Hall). by apply (Hall i).
        - destruct Hok as [-> Hall]. by apply (Hall i). }
      split; lia.
    + subst i. destruct Hs' as (? & _). simplify_eq. split; [lia|done].
Qed.

Lemma best_fold_ok S a l k acc : StronglySorted Z.le l -> Forall (fun x => Forall (Z.le x) l) k ->
  best_ok S a k acc -> best_ok S a (k ++ l) (foldl (best_step S a) acc l).
Proof.
  revert k acc. induction l as [|id l IH]; intros k acc Hs Hk Hok; simpl.
  { by rewrite app_nil_r. }
  inversion_clear Hs as [|? ? Hsl Hid]. rewrite cons_middle, app_assoc. apply IH; [done| |].
  - apply Forall_app. split.
    + eapply Forall_impl; [exact Hk|]. intros x Hx. by inversion_clear Hx.
    + by constructor.
  - apply best_step_ok; [|done]. eapply Forall_impl; [exact Hk|]. intros x Hx. by inversion_clear Hx.
Qed.

Lemma FindBest_ok S a : best_ok S a (supplier_ids S) (FindBestNetworkForRequest S a).
Proof.
  unfold FindBestNetworkForRequest.
  apply (best_fold_ok S a (supplier_ids S) []); [apply supplier_ids_sorted|done|].
  split; [done|]. intros id s Hin. by apply not_elem_of_nil in Hin.
Qed.

(** C25: The choice of the best network for a request is right: when some registered, connected supplier matching the request has a positive real score, the one chosen is such a supplier with the greatest score, and among those with that score the one registered under the smallest identifier; otherwise none is chosen and the score returned is 0. *)
Theorem FindBestNetworkForRequest_optimal S a :
  match FindBestNetworkForRequest S a with
  | (score, Some b) =>
      0 < score /\ b ∈ netSuppliers_ S /\ (exists s, eligible S a b s /\ GetRealScore s = score) /\
      (forall id s, id ∈ netSuppliers_ S -> eligible S a id s ->
        GetRealScore s <= score /\ (GetRealScore s = score -> b <= id))
  | (score, None) =>
      score = 0 /\ forall id s, id ∈ netSuppliers_ S -> eligible S a id s -> GetRealScore s <= 0
  end.
Proof.
  pose proof (FindBest_ok S a) as H. unfold best_ok in H.
  destruct (FindBestNetworkForRequest S a) as [score [b|]]; simpl in H.
  - destruct H as (? & Hb & ? & Hall). apply supplier_ids_elem in Hb. split_and!; try done.
    intros id s Hid. apply Hall. by apply supplier_ids_elem.
  - destruct H as [? Hall]. split; [done|]. intros id s Hid. apply Hall. by apply supplier_ids_elem.
Qed.

(** ** What the choice depends on

    The part of a supplier the choice of the best network reads, and the part
    of the service: requests being made, scores being announced and defaults
    being set leave it alone. *)

Definition sview s :=
  (IsConnected s, netCaps_ s, netSupplierType_ s, netSupplierIdent_ s, netAllCapabilities_ s, GetRealScore s).
Definition view S := (sview <$> suppliers S, netSuppliers_ S, netUidActivates_ S, defaultNetActivate_ S).
Definition bests S : gmap Z (gset Z) := bestReqList_ <$> suppliers S.
Definition quiet S := (view S, activates S, defaultNetSupplier_ S, bests S).

Lemma core_sview s s' : core s' = core s -> sview s' = sview s.
Proof. intros E. change (sview (core s') = sview (core s)). by rewrite E. Qed.

Lemma match_sview s s' a a' skip : sview s' = sview s -> netSpecifier_ a' = netSpecifier_ a ->
  MatchRequestAndNetwork (Some s') skip a' = MatchRequestAndNetwork (Some s) skip a.
Proof.
  unfold sview. intros E Ea. injection E as _ E2 E3 E4 E5 _.
  unfold MatchRequestAndNetwork, CompareByNetworkCapabilities, CompareByNetworkNetType, CompareByNetworkIdent,
    CompareByNetworkBand. by rewrite E2, E3, E4, E5, Ea.
Qed.

Lemma view_lookup S T id : view T = view S -> sview <$> suppliers T !! id = sview <$> suppliers S !! id.
Proof. intros E. injection E as E _ _ _. rewrite <- !lookup_fmap. by rewrite E. Qed.

Lemma best_step_view S T a a' acc id : view T = view S -> netSpecifier_ a' = netSpecifier_ a ->
  best_step T a' acc id = best_step S a acc id.
Proof.
  intros Ev Ea. pose proof (view_lookup S T id Ev) as El. unfold best_step.
  destruct (suppliers T !! id) as [t|], (suppliers S !! id) as [s|]; simpl in El; [|done|done|done].
  apply (inj Some) in El as Es.
  rewrite (match_sview s t a a' false Es Ea). unfold sview in Es. injection Es as E1 _ _ _ _ E6.
  by rewrite E1, E6.
Qed.

Lemma FindBest_view S T a a' : view T = view S -> netSpecifier_ a' = netSpecifier_ a ->
  FindBestNetworkForRequest T a' = FindBestNetworkForRequest S a.
Proof.
  intros Ev Ea. unfold FindBestNetworkForRequest.
  assert (El : supplier_ids T = supplier_ids S) by (injection Ev as _ E _ _; unfold supplier_ids; by rewrite E).
  rewrite El. generalize (supplier_ids S) (0, @None Z). induction l as [|id l IH]; intros acc; [done|]. simpl.
  rewrite (best_step_view S T a a' acc id Ev Ea). apply IH.
Qed.

Lemma activate_ids_view S T : view T = view S -> activate_ids T = activate_ids S.
Proof. intros E. injection E as _ _ E _. unfold activate_ids, activate_uids. by rewrite E. Qed.

(** *** Quiet operations *)

Lemma quiet_inv S T : quiet T = quiet S ->
  view T = view S /\ activates T = activates S /\ defaultNetSupplier_ T = defaultNetSupplier_ S /\ bests T = bests S.
Proof.
  intros H. split_and!.
  - exact (f_equal (fun q => q.1.1.1) H).
  - exact (f_equal (fun q => q.1.1.2) H).
  - exact (f_equal (fun q => q.1.2) H).
  - exact (f_equal snd H).
Qed.

Lemma quiet_foldl {B} (f : NetConnService W N -> B -> NetConnService W N) l S :
  (forall T b, quiet (f T b) = quiet T) -> quiet (foldl f S l) = quiet S.
Proof. intros Hf. revert S. induction l as [|b l IH]; intros S; [done|]. simpl. by rewrite IH. Qed.

Lemma fmap_insert_same {A B} (g : A -> B) (m : gmap Z A) id (x y : A) :
  m !! id = Some x -> g y = g x -> g <$> <[id := y]> m = g <$> m.
Proof. intros Hx Hg. rewrite fmap_insert, Hg. apply insert_id. by rewrite lookup_fmap, Hx. Qed.

Lemma on_supplier_quiet id f S :
  (forall s w, sview (f s w).1 = sview s /\ bestReqList_ (f s w).1 = bestReqList_ s) ->
  quiet (on_supplier id f S) = quiet S.
Proof.
  intros Hf. unfold on_supplier. destruct (suppliers S !! id) as [s|] eqn:E; [|done].
  specialize (Hf s (world S)). destruct (f s (world S)) as [s' w']. simpl in Hf. destruct Hf as [H1 H2].
  unfold quiet, view, bests. simpl. by rewrite (fmap_insert_same sview _ _ s), (fmap_insert_same bestReqList_ _ _ s).
Qed.

Lemma RemoveRequest_best r s w : bestReqList_ (RemoveRequest r s w).1.2 = bestReqList_ s.
Proof. unfold RemoveRequest. by repeat (case_match; simplify_eq/=). Qed.
Lemma AddRequest_best r s w : bestReqList_ (AddRequest r s w).1.2 = bestReqList_ s.
Proof. unfold AddRequest. by repeat (case_match; simplify_eq/=). Qed.

Lemma request_to_quiet a S id : quiet (request_to a S id) = quiet S.
Proof.
  unfold request_to. destruct (suppliers S !! id); [|done]. case_match; [done|].
  apply on_supplier_quiet. intros s w.
  pose proof (RequestToConnect_core (act_netRequest_ a) s w) as Hc.
  assert (Hb : bestReqList_ (RequestToConnect (act_netRequest_ a) s w).1.2 = bestReqList_ s)
    by (unfold RequestToConnect; case_match; [done|apply AddRequest_best]).
  destruct (RequestToConnect _ s w) as [[? s'] w']. split; [by apply core_sview|done].
Qed.

Lemma SendRequest_quiet a S : quiet (SendRequestToAllNetwork a S) = quiet S.
Proof. unfold SendRequestToAllNetwork. case_match; [|done]. apply quiet_foldl. intros. apply request_to_quiet. Qed.

Lemma SendBestScore_quiet r sc i t u S : quiet (SendBestScoreAllNetwork r sc i t u S) = quiet S.
Proof.
  unfold SendBestScoreAllNetwork. apply quiet_foldl. intros T id. destruct (suppliers T !! id); [|done].
  case_match; [done|]. apply on_supplier_quiet. intros s w. split.
  - apply core_sview, ReceiveBestScore_core.
  - unfold ReceiveBestScore. repeat (case_match; [done|]).
    pose proof (RemoveRequest_best (score_request r u t) s w) as Hb.
    by destruct (RemoveRequest _ s w) as [[? ?] ?].
Qed.

Lemma on_network_quiet (f : N -> W -> N * W) s w :
  (forall n, net_IsConnected (f n w).1 = net_IsConnected n) ->
  sview (on_network f s w).1 = sview s /\ bestReqList_ (on_network f s w).1 = bestReqList_ s.
Proof.
  intros Hf. unfold on_network. destruct (network_ s) as [n|] eqn:En; [|done].
  specialize (Hf n). destruct (f n w) as [n' w']. simpl in *. split; [|done].
  unfold sview, IsConnected. simpl. by rewrite En, Hf.
Qed.

Lemma MakeDefault_quiet n S : quiet (MakeDefaultNetWork n S) = (view S, activates S, n, bests S).
Proof.
  unfold MakeDefaultNetWork. case_bool_decide as Hd; [by subst|].
  set (S1 := match defaultNetSupplier_ S with Some o => _ | None => _ end).
  assert (H1 : quiet S1 = quiet S).
  { unfold S1. case_match; [|done]. apply on_supplier_quiet. intros s w. apply on_network_quiet. intros. apply nl_conn_clear. }
  set (S2 := match n with Some o => _ | None => _ end).
  assert (H2 : quiet S2 = quiet S).
  { rewrite <- H1. unfold S2. destruct n; [|done]. apply on_supplier_quiet. intros s w. apply on_network_quiet.
    intros. apply nl_conn_default. }
  apply quiet_inv in H2 as (E1 & E2 & _ & E4). unfold quiet.
  change (view (set_defaultNetSupplier_ n S2)) with (view S2). change (bests (set_defaultNetSupplier_ n S2)) with (bests S2).
  change (activates (set_defaultNetSupplier_ n S2)) with (activates S2). by rewrite E1, E2, E4.
Qed.

(** *** One request *)

Lemma RemoveBest_list r s : bestReqList_ (RemoveBestRequest r s) = bestReqList_ s ∖ {[r]}.
Proof. unfold RemoveBestRequest. case_bool_decide; [done|]. set_solver. Qed.

Lemma fmap_alter_same {A B} (g : A -> B) (f : A -> A) (m : gmap Z A) id :
  (forall x, g (f x) = g x) -> g <$> alter f id m = g <$> m.
Proof.
  intros Hf. apply map_eq. intros i. rewrite !lookup_fmap. destruct (decide (i = id)) as [->|].
  - rewrite lookup_alter_eq. destruct (m !! id); simpl; by rewrite ?Hf.
  - by rewrite lookup_alter_ne.
Qed.
Lemma fmap_alter_map {A B} (g : A -> B) (f : A -> A) (h : B -> B) (m : gmap Z A) id :
  (forall x, g (f x) = h (g x)) -> g <$> alter f id m = alter h id (g <$> m).
Proof.
  intros Hf. apply map_eq. intros i. rewrite lookup_fmap. destruct (decide (i = id)) as [->|].
  - rewrite !lookup_alter_eq, lookup_fmap. destruct (m !! id); simpl; by rewrite ?Hf.
  - by rewrite !lookup_alter_ne, lookup_fmap.
Qed.

Lemma RemoveBest_effect o r S :
  quiet (upd_supplier o (RemoveBestRequest r) S)
  = (view S, activates S, defaultNetSupplier_ S, alter (fun l => l ∖ {[r]}) o (bests S)).
Proof.
  unfold quiet, view, bests, upd_supplier. simpl.
  rewrite (fmap_alter_same sview), (fmap_alter_map bestReqList_ _ (fun l => l ∖ {[r]})); [done| |].
  - apply RemoveBest_list.
  - intros x. apply core_sview, RemoveBestRequest_core.
Qed.

Lemma Select_effect b q S :
  quiet (on_supplier b (SelectAsBestNetwork q) S)
  = (view S, activates S, defaultNetSupplier_ S, alter (fun l => {[requestId q]} ∪ l) b (bests S)).
Proof.
  unfold on_supplier. destruct (suppliers S !! b) as [s|] eqn:E.
  - pose proof (SelectAsBestNetwork_core q s (world S)) as Hc.
    assert (Hb : bestReqList_ (SelectAsBestNetwork q s (world S)).1 = {[requestId q]} ∪ bestReqList_ s).
    { unfold SelectAsBestNetwork. pose proof (AddRequest_best q s (world S)) as H1.
      pose proof (RemoveRequest_best q s (world S)) as H2. destruct (_ || _).
      - destruct (AddRequest q s (world S)) as [[? s1] ?]. simpl in *. by rewrite H1.
      - destruct (RemoveRequest q s (world S)) as [[? s1] ?]. simpl in *. by rewrite H2. }
    destruct (SelectAsBestNetwork q s (world S)) as [s' w']. simpl in *.
    unfold quiet, view, bests. simpl. rewrite (fmap_insert_same sview _ _ s) by (done || by apply core_sview).
    f_equal. apply map_eq. intros i. rewrite lookup_fmap. destruct (decide (i = b)) as [->|].
    + by rewrite lookup_insert_eq, lookup_alter_eq, lookup_fmap, E; simpl; rewrite Hb.
    + by rewrite lookup_insert_ne, lookup_alter_ne, lookup_fmap.
  - unfold quiet. f_equal. symmetry. apply map_eq. intros i. destruct (decide (i = b)) as [->|].
    + unfold bests. by rewrite lookup_alter_eq, lookup_fmap, E.
    + by rewrite lookup_alter_ne.
Qed.

Lemma CallbackForAvailable_quiet b cb S : quiet (CallbackForAvailable b cb S) = quiet S.
Proof. unfold CallbackForAvailable. by repeat case_match. Qed.

Lemma upd_activate_quiet aid f S :
  quiet (upd_activate aid f S) = (view S, alter f aid (activates S), defaultNetSupplier_ S, bests S).
Proof. done. Qed.

(** What a step leaves of a request besides its supplier. *)
Definition same_request a a' : Prop :=
  netSpecifier_ a' = netSpecifier_ a /\ netConnCallback_ a' = netConnCallback_ a /\
  act_netRequest_ a' = act_netRequest_ a /\ isFrozenedSkip_ a' = isFrozenedSkip_ a /\
  isAppFrozened_ a' = isAppFrozened_ a.

(** How the best-request lists of the suppliers change when the request [r]
    moves from [old] to [best]. *)
Definition moved (r : Z) (best old : option Z) (m : gmap Z (gset Z)) : gmap Z (gset Z) :=
  let m := match best with Some b => alter (fun l => {[r]} ∪ l) b m | None => m end in
  match old with
  | Some o => if bool_decide (best = Some o) then m else alter (fun l => l ∖ {[r]}) o m
  | None => m
  end.

Lemma NotFind_effect r aid a old cb S : activates S !! aid = Some a ->
  let T := NotFindBestSupplier r aid old cb S in
  view T = view S /\
  (exists a', activates T = <[aid := a']> (activates S) /\ netServiceSupplied_ a' = None /\ same_request a a') /\
  defaultNetSupplier_ T = defaultNetSupplier_ S /\ bests T = moved r None old (bests S).
Proof.
  intros Ha. cbv zeta. unfold NotFindBestSupplier. cbv zeta.
  set (S1 := match old with Some o => _ | None => S end).
  assert (H1 : exists f, quiet S1 = (view S, alter f aid (activates S), defaultNetSupplier_ S, moved r None old (bests S))
                /\ same_request a (f a)).
  { unfold S1, moved. destruct old as [o|].
    2: { exists id. split; [|done]. unfold quiet. by rewrite alter_id. }
    rewrite bool_decide_eq_false_2 by done.
    pose proof (RemoveBest_effect o r S) as Hr.
    set (S0 := upd_supplier o (RemoveBestRequest r) S) in *.
    assert (Ei : (view S, alter id aid (activates S), defaultNetSupplier_ S, alter (fun l => l ∖ {[r]}) o (bests S)) = quiet S0)
      by (rewrite alter_id; done).
    destruct cb as [cb|]; [|by exists id].
    destruct (suppliers S0 !! o) as [s0|]; [|by exists id].
    destruct (activates S0 !! aid) as [a0|]; [|by exists id].
    destruct (_ && _); [|by exists id].
    exists (set_lost_delay true (GetNetId s0)). split; [|done]. rewrite upd_activate_quiet.
    assert (E0 : activates S0 = activates S) by done. rewrite E0.
    change (view S0) with (quiet S0).1.1.1. change (bests S0) with (quiet S0).2. rewrite Hr. done. }
  destruct H1 as (f & H1 & Hf).
  set (S2 := upd_activate aid (SetServiceSupply None) S1).
  assert (H2 : quiet S2 = (view S, <[aid := SetServiceSupply None (f a)]> (activates S), defaultNetSupplier_ S, moved r None old (bests S))).
  { unfold S2. rewrite upd_activate_quiet.
    change (view S1) with (quiet S1).1.1.1. change (bests S1) with (quiet S1).2.
    change (activates S1) with (quiet S1).1.1.2. change (defaultNetSupplier_ S1) with (quiet S1).1.2. rewrite H1. simpl.
    f_equal. f_equal. f_equal. apply map_eq. intros i. destruct (decide (i = aid)) as [->|].
    - by rewrite !lookup_alter_eq, lookup_insert_eq, Ha.
    - by rewrite !lookup_alter_ne, lookup_insert_ne. }
  assert (H3 : quiet (match activates S2 !! aid with Some a => SendRequestToAllNetwork a S2 | None => S2 end) = quiet S2)
    by (case_match; [apply SendRequest_quiet|done]).
  rewrite H2 in H3. set (T := match activates S2 !! aid with Some _ => _ | None => _ end) in *.
  split_and!; [exact (f_equal (fun q => q.1.1.1) H3)| |exact (f_equal (fun q => q.1.2) H3)|exact (f_equal snd H3)].
  exists (SetServiceSupply None (f a)). split; [exact (f_equal (fun q => q.1.1.2) H3)|done].
Qed.

Definition skipped a : bool := isFrozenedSkip_ a && isAppFrozened_ a.

(** The effect of one step on the service. *)
Definition assigned S T (aid : Z) a (best : option Z) : Prop :=
  view T = view S /\
  (exists a', activates T = <[aid := a']> (activates S) /\ netServiceSupplied_ a' = best /\ same_request a a') /\
  defaultNetSupplier_ T = (if bool_decide (defaultNetActivate_ S = Some aid) then best else defaultNetSupplier_ S) /\
  bests T = moved (GetRequestId a) best (netServiceSupplied_ a) (bests S).

Lemma maybe_default_quiet aid best S :
  quiet (if bool_decide (defaultNetActivate_ S = Some aid) then MakeDefaultNetWork best S else S)
  = (view S, activates S, (if bool_decide (defaultNetActivate_ S = Some aid) then best else defaultNetSupplier_ S), bests S).
Proof. case_bool_decide; [apply MakeDefault_quiet|done]. Qed.

Lemma quiet_eta S : quiet S = (view S, activates S, defaultNetSupplier_ S, bests S).
Proof. done. Qed.

Lemma quiet_proj S v ac d b : quiet S = (v, ac, d, b) ->
  view S = v /\ activates S = ac /\ defaultNetSupplier_ S = d /\ bests S = b.
Proof.
  intros H. split_and!; [exact (f_equal (fun q => q.1.1.1) H)|exact (f_equal (fun q => q.1.1.2) H)
    |exact (f_equal (fun q => q.1.2) H)|exact (f_equal snd H)].
Qed.

Lemma find_best_step_spec S aid a : activates S !! aid = Some a -> skipped a = false ->
  assigned S (find_best_step S aid) aid a (FindBestNetworkForRequest S a).2.
Proof.
  intros Ha Hk. unfold find_best_step. rewrite Ha. unfold skipped in Hk. rewrite Hk.
  destruct (FindBestNetworkForRequest S a) as [score best]. cbv zeta. cbn [snd].
  pose proof (maybe_default_quiet aid best S) as HD.
  set (S1 := if bool_decide (defaultNetActivate_ S = Some aid) then _ else S) in *.
  apply quiet_proj in HD as (D1 & D2 & D3 & D4).
  destruct best as [b|].
  2: { assert (Ha1 : activates S1 !! aid = Some a) by (by rewrite D2).
       pose proof (NotFind_effect (GetRequestId a) aid a (netServiceSupplied_ a) (netConnCallback_ a) S1 Ha1) as H.
       cbv zeta in H. destruct H as (H1 & H2 & H3 & H4).
       rewrite D1 in H1. rewrite D2 in H2. rewrite D3 in H3. rewrite D4 in H4. done. }
  set (S2 := upd_activate aid (set_NeedSkipLostDelay_ false) S1).
  set (t := match suppliers S2 !! b with Some s => netSupplierType_ s | None => BEARER_DEFAULT end).
  set (S3 := SendBestScoreAllNetwork (GetRequestId a) score b t (GetUid a) S2).
  assert (H3 : quiet S3 = (view S, alter (set_NeedSkipLostDelay_ false) aid (activates S),
    (if bool_decide (defaultNetActivate_ S = Some aid) then Some b else defaultNetSupplier_ S), bests S)).
  { unfold S3. rewrite SendBestScore_quiet. unfold S2. rewrite upd_activate_quiet, D1, D2, D3, D4. done. }
  pose proof (Select_effect b (act_netRequest_ a) S3) as H4.
  set (S4 := on_supplier b (SelectAsBestNetwork (act_netRequest_ a)) S3) in *.
  apply quiet_proj in H3 as (E1 & E2 & E3 & E4). rewrite E1, E2, E3, E4 in H4.
  apply quiet_proj in H4 as (F1 & F2 & F3 & F4).
  assert (Halt : forall f, alter f aid (activates S) = <[aid := f a]> (activates S)).
  { intros f. apply map_eq. intros i. destruct (decide (i = aid)) as [->|].
    - by rewrite lookup_alter_eq, lookup_insert_eq, Ha.
    - by rewrite lookup_alter_ne, lookup_insert_ne. }
  destruct (decide (Some b = netServiceSupplied_ a)) as [Hold|Hold];
    [rewrite (bool_decide_eq_true_2 _ Hold)|rewrite (bool_decide_eq_false_2 _ Hold)].
  { unfold assigned. rewrite F1, F2, F3, F4, Halt, <- Hold. split_and!; [done| |done|].
    - exists (set_NeedSkipLostDelay_ false a). split_and!; [done|simpl; by rewrite <- Hold|done].
    - unfold moved. by rewrite bool_decide_eq_true_2. }
  set (S5 := match netServiceSupplied_ a with Some o => _ | None => S4 end).
  assert (H5 : quiet S5 = (view S, activates S4, defaultNetSupplier_ S4,
                 moved (GetRequestId a) (Some b) (netServiceSupplied_ a) (bests S))).
  { unfold S5, moved. destruct (netServiceSupplied_ a) as [o|].
    - rewrite bool_decide_eq_false_2 by done. rewrite RemoveBest_effect, F1, F4. done.
    - by rewrite quiet_eta, F1, F4. }
  apply quiet_proj in H5 as (G1 & G2 & G3 & G4).
  assert (H6 : quiet (CallbackForAvailable b (netConnCallback_ a) (upd_activate aid (SetServiceSupply (Some b)) S5))
    = (view S, alter (SetServiceSupply (Some b)) aid (activates S5), defaultNetSupplier_ S5, bests S5)).
  { rewrite CallbackForAvailable_quiet, upd_activate_quiet, G1. done. }
  apply quiet_proj in H6 as (K1 & K2 & K3 & K4). unfold assigned. rewrite K1, K2, K3, K4, G2, G3, G4, F2, F3.
  split_and!; [done| |done|done].
  exists (SetServiceSupply (Some b) (set_NeedSkipLostDelay_ false a)). split_and!; [|done|done].
  apply map_eq. intros i. destruct (decide (i = aid)) as [->|].
  - by rewrite !lookup_alter_eq, lookup_insert_eq, Ha.
  - by rewrite !lookup_alter_ne, lookup_insert_ne.
Qed.

Lemma find_best_step_skip S aid :
  (forall a, activates S !! aid = Some a -> skipped a = true) -> find_best_step S aid = S.
Proof.
  intros H. unfold find_best_step. destruct (activates S !! aid) as [a|]; [|done].
  unfold skipped in H. by rewrite H.
Qed.

(** *** All requests *)

(** The outcome for one request of a service [S] whose round ended in [T]. *)
Definition settled S T (aid : Z) a : Prop :=
  exists a', activates T !! aid = Some a' /\ same_request a a' /\
    netServiceSupplied_ a' = if skipped a then netServiceSupplied_ a else (FindBestNetworkForRequest S a).2.

Lemma NotifyBearer_quiet S : quiet (NotifyNetBearerTypeChange S) = quiet S.
Proof. unfold NotifyNetBearerTypeChange. by case_match. Qed.

Lemma same_request_refl a : same_request a a.
Proof. done. Qed.

Lemma step_other S aid aid' : aid <> aid' -> activates (find_best_step S aid) !! aid' = activates S !! aid'.
Proof.
  intros Hne. destruct (activates S !! aid) as [a|] eqn:Ea.
  - destruct (skipped a) eqn:Ek.
    + rewrite find_best_step_skip; [done|]. intros. by simplify_eq.
    + destruct (find_best_step_spec S aid a Ea Ek) as (_ & (a' & -> & _) & _). by rewrite lookup_insert_ne.
  - rewrite find_best_step_skip; [done|]. intros. by simplify_eq.
Qed.

Lemma step_view S aid : view (find_best_step S aid) = view S.
Proof.
  destruct (activates S !! aid) as [a|] eqn:Ea.
  - destruct (skipped a) eqn:Ek.
    + rewrite find_best_step_skip; [done|]. intros. by simplify_eq.
    + by destruct (find_best_step_spec S aid a Ea Ek) as (? & _).
  - rewrite find_best_step_skip; [done|]. intros. by simplify_eq.
Qed.

Lemma round_other l S aid : aid ∉ l -> activates (foldl find_best_step S l) !! aid = activates S !! aid.
Proof.
  revert S. induction l as [|x l IH]; intros S Hn; [done|]. simpl. rewrite IH by set_solver.
  apply step_other. set_solver.
Qed.

Lemma round_view l S : view (foldl find_best_step S l) = view S.
Proof. revert S. induction l as [|x l IH]; intros S; [done|]. simpl. by rewrite IH, step_view. Qed.

Lemma view_default S T : view T = view S -> defaultNetActivate_ T = defaultNetActivate_ S.
Proof. intros H. exact (f_equal snd H). Qed.

Lemma round_settled l S aid a : NoDup l -> aid ∈ l -> activates S !! aid = Some a ->
  settled S (foldl find_best_step S l) aid a.
Proof.
  revert S. induction l as [|x l IH]; intros S Hd Hin Ha; [set_solver|].
  apply NoDup_cons in Hd as [Hx Hd]. simpl. apply elem_of_cons in Hin as [->|Hin].
  - unfold settled. rewrite round_other by done. destruct (skipped a) eqn:Ek.
    + rewrite find_best_step_skip by (intros; by simplify_eq). by exists a.
    + destruct (find_best_step_spec S x a Ha Ek) as (_ & (a' & E & Hs & Hr) & _).
      exists a'. by rewrite E, lookup_insert_eq.
  - assert (Hne : x <> aid) by set_solver.
    destruct (IH (find_best_step S x) Hd Hin) as (a' & E & Hr & Hs); [by rewrite step_other|].
    exists a'. split_and!; [done|done|]. rewrite Hs.
    destruct (skipped a); [done|]. f_equal. by apply FindBest_view, eq_refl; apply step_view.
Qed.

Lemma round_keeps_default l d S : defaultNetActivate_ S = Some d -> d ∉ l ->
  defaultNetSupplier_ (foldl find_best_step S l) = defaultNetSupplier_ S.
Proof.
  revert S. induction l as [|y l IH]; intros T HT Hdl; [done|]. simpl. rewrite IH; [| |set_solver].
  - destruct (activates T !! y) as [b|] eqn:Eb.
    + destruct (skipped b) eqn:Kb; [rewrite find_best_step_skip by (intros; by simplify_eq); done|].
      destruct (find_best_step_spec T y b Eb Kb) as (_ & _ & HDy & _).
      rewrite bool_decide_eq_false_2 in HDy by (rewrite HT; intros [= ->]; set_solver). done.
    + rewrite find_best_step_skip; [done|]. intros; by simplify_eq.
  - rewrite (view_default T); [done|apply step_view].
Qed.

Lemma round_default l S d a : NoDup l -> defaultNetActivate_ S = Some d -> d ∈ l -> activates S !! d = Some a ->
  skipped a = false -> defaultNetSupplier_ (foldl find_best_step S l) = (FindBestNetworkForRequest S a).2.
Proof.
  intros Hnd Hd. revert S Hd. induction l as [|x l IH]; intros S Hd Hin Ha Hk; [set_solver|].
  apply NoDup_cons in Hnd as [Hx Hnd]. simpl.
  destruct (decide (x = d)) as [->|Hne].
  - destruct (find_best_step_spec S d a Ha Hk) as (Hv & (a' & E & Hs & Hr) & HD & _).
    rewrite bool_decide_eq_true_2 in HD by done. rewrite <- HD. clear IH.
    apply (round_keeps_default _ d); [|done]. rewrite (view_default S); [done|apply step_view].
  - rewrite (IH Hnd (find_best_step S x)).
    + f_equal. apply FindBest_view; [apply step_view|done].
    + rewrite (view_default S); [done|apply step_view].
    + set_solver.
    + by rewrite step_other.
    + done.
Qed.

(** C3: A round of [FindBestNetworkForAllRequest] settles every request: after it each registered request is served by the best supplier for it (by none where there is none), as chosen from the state the round started in, except that the requests of frozen applications keep the supplier they had; the specifier, callback and identity of the requests are untouched; and the default network is the best supplier for the default request. *)
Theorem FindBestNetworkForAllRequest_settles S : NoDup (activate_ids S) ->
  (forall aid a, aid ∈ activate_ids S -> activates S !! aid = Some a ->
     exists a', activates (FindBestNetworkForAllRequest S) !! aid = Some a' /\ same_request a a' /\
       netServiceSupplied_ a' = if skipped a then netServiceSupplied_ a else (FindBestNetworkForRequest S a).2) /\
  (forall d a, defaultNetActivate_ S = Some d -> d ∈ activate_ids S -> activates S !! d = Some a -> skipped a = false ->
     defaultNetSupplier_ (FindBestNetworkForAllRequest S) = (FindBestNetworkForRequest S a).2).
Proof.
  intros Hd. unfold FindBestNetworkForAllRequest.
  destruct (quiet_inv _ _ (NotifyBearer_quiet (foldl find_best_step S (activate_ids S)))) as (_ & Ha & HD & _).
  rewrite Ha, HD. split.
  - intros aid a Hin Hl. by apply round_settled.
  - intros d a E1 Hin Hl Hk. by eapply round_default.
Qed.

(** ** Suppliers and requests agree

    A supplier lists a request as one it is the best network for exactly when
    that request is served by it. *)

Definition registered S (aid : Z) a : Prop := aid ∈ activate_ids S /\ activates S !! aid = Some a.

Definition requests_distinct S : Prop :=
  NoDup (activate_ids S) /\
  forall aid aid' a a', registered S aid a -> registered S aid' a' -> GetRequestId a = GetRequestId a' -> aid = aid'.

Definition best_lists_agree S : Prop :=
  forall sid s r, suppliers S !! sid = Some s ->
    (r ∈ bestReqList_ s <-> exists aid a, registered S aid a /\ GetRequestId a = r /\ netServiceSupplied_ a = Some sid).

(** The same over the lists alone. *)
Definition bests_agree S : Prop :=
  forall sid l r, bests S !! sid = Some l ->
    (r ∈ l <-> exists aid a, registered S aid a /\ GetRequestId a = r /\ netServiceSupplied_ a = Some sid).

Lemma bests_agree_iff S : best_lists_agree S <-> bests_agree S.
Proof.
  unfold best_lists_agree, bests_agree, bests. split.
  - intros H sid l r Hl. rewrite lookup_fmap in Hl. destruct (suppliers S !! sid) as [s|] eqn:E; [|done].
    simplify_eq/=. by apply H.
  - intros H sid s r Hs. apply H. by rewrite lookup_fmap, Hs.
Qed.

Lemma moved_lookup r best old m sid : moved r best old m !! sid =
  (fun l => if bool_decide (best = Some sid) then {[r]} ∪ l
            else if bool_decide (old = Some sid) then l ∖ {[r]} else l) <$> m !! sid.
Proof.
  unfold moved. set (m1 := match best with Some b => _ | None => m end).
  assert (H1 : m1 !! sid = (fun l => if bool_decide (best = Some sid) then {[r]} ∪ l else l) <$> m !! sid).
  { unfold m1. destruct best as [b|]; [|by rewrite option_fmap_id].
    destruct (decide (b = sid)) as [->|Hne].
    - by rewrite lookup_alter_eq, bool_decide_eq_true_2.
    - rewrite lookup_alter_ne, bool_decide_eq_false_2 by (done || by intros [= ?]). by rewrite option_fmap_id. }
  clearbody m1. destruct old as [o|]; [|done].
  destruct (decide (best = Some o)) as [Hb|Hb];
    [rewrite (bool_decide_eq_true_2 _ Hb)|rewrite (bool_decide_eq_false_2 _ Hb)].
  - rewrite H1. destruct (m !! sid); [|done]. simpl. f_equal. subst best.
    destruct (decide (o = sid)) as [->|Hne].
    + by rewrite bool_decide_eq_true_2.
    + by rewrite !bool_decide_eq_false_2 by (by intros [= ?]).
  - destruct (decide (o = sid)) as [->|Hne].
    + rewrite lookup_alter_eq, H1. destruct (m !! sid); [|done]. simpl.
      by rewrite (bool_decide_eq_false_2 _ Hb), bool_decide_eq_true_2.
    + rewrite lookup_alter_ne, H1 by done. destruct (m !! sid); [|done]. simpl.
      by rewrite (bool_decide_eq_false_2 (Some o = Some sid)) by (by intros [= ?]).
Qed.

Lemma assigned_registered S T aid a best x b : assigned S T aid a best -> registered S aid a ->
  registered T x b <-> (x = aid /\ activates T !! aid = Some b) \/ (x <> aid /\ registered S x b).
Proof.
  intros (Hv & (a' & Ea & _) & _) [Hin Ha]. unfold registered. rewrite (activate_ids_view S T Hv), Ea.
  rewrite lookup_insert_eq. destruct (decide (x = aid)) as [->|Hne].
  - rewrite lookup_insert_eq. naive_solver.
  - rewrite lookup_insert_ne by done. naive_solver.
Qed.

Lemma assigned_distinct S T aid a best : assigned S T aid a best -> registered S aid a ->
  requests_distinct S -> requests_distinct T.
Proof.
  intros HA Hr [Hnd Hdis]. pose proof HA as (Hv & (a' & Ea & _ & Hsame) & _).
  split; [by rewrite (activate_ids_view S T Hv)|].
  assert (Hback : forall x b, registered T x b -> exists b0, registered S x b0 /\ GetRequestId b0 = GetRequestId b).
  { intros x b Hx. apply (assigned_registered S T aid a best x b HA Hr) in Hx as [[-> Hb]|[Hne Hx]]; [|by exists b].
    exists a. split; [done|]. rewrite Ea, lookup_insert_eq in Hb. simplify_eq. unfold GetRequestId.
    destruct Hsame as (_ & _ & -> & _). done. }
  intros x y b c Hx Hy E. destruct (Hback x b Hx) as (b0 & Hx0 & Eb). destruct (Hback y c Hy) as (c0 & Hy0 & Ec).
  eapply Hdis; [exact Hx0|exact Hy0|congruence].
Qed.

Lemma assigned_agree S T aid a best : assigned S T aid a best -> registered S aid a ->
  requests_distinct S -> bests_agree S -> bests_agree T.
Proof.
  intros HA Hr [Hnd Hdis] Hag sid l' r Hl'.
  pose proof HA as (_ & (a' & Ea & Hsup & Hsame) & _ & Hb).
  assert (Hid : GetRequestId a' = GetRequestId a) by (unfold GetRequestId; by destruct Hsame as (_ & _ & -> & _)).
  rewrite Hb, moved_lookup in Hl'. destruct (bests S !! sid) as [l|] eqn:El; [|done]. simpl in Hl'.
  apply (inj Some) in Hl'. specialize (Hag sid l).
  destruct (decide (r = GetRequestId a)) as [->|Hne].
  - trans (best = Some sid).
    + rewrite <- Hl'. case_bool_decide as E1; [set_solver|]. case_bool_decide as E2; [set_solver|].
      rewrite Hag by done. split; [|done]. intros (x & b & Hx & Ex & Es).
      assert (x = aid) by (by eapply Hdis). subst x. destruct Hx as [_ Hx], Hr as [_ Hr]. congruence.
    + split.
      * intros ->. exists aid, a'. split_and!; [|done|done].
        apply (assigned_registered S T aid a _ aid a' HA Hr). left. split; [done|]. by rewrite Ea, lookup_insert_eq.
      * intros (x & b & Hx & Ex & Es).
        apply (assigned_registered S T aid a best x b HA Hr) in Hx as [[-> Hb']|[Hne Hx]].
        -- rewrite Ea, lookup_insert_eq in Hb'. congruence.
        -- exfalso. apply Hne. by eapply Hdis.
  - trans (r ∈ l).
    + rewrite <- Hl'. repeat case_bool_decide; set_solver.
    + rewrite Hag by done. split; intros (x & b & Hx & Ex & Es); exists x, b; (split_and!; [|done|done]).
      * apply (assigned_registered S T aid a best x b HA Hr). right. split; [|done].
        intros ->. destruct Hx as [_ Hx], Hr as [_ Hr]. congruence.
      * apply (assigned_registered S T aid a best x b HA Hr) in Hx as [[-> Hb']|[Hnx Hx]]; [|done].
        rewrite Ea, lookup_insert_eq in Hb'. congruence.
Qed.

Lemma step_agree S aid : aid ∈ activate_ids S -> requests_distinct S -> bests_agree S ->
  requests_distinct (find_best_step S aid) /\ bests_agree (find_best_step S aid).
Proof.
  intros Hin Hd Ha. destruct (activates S !! aid) as [a|] eqn:Ea.
  - destruct (skipped a) eqn:Ek.
    + rewrite find_best_step_skip; [done|]. intros. by simplify_eq.
    + pose proof (find_best_step_spec S aid a Ea Ek) as HA.
      split; [by eapply assigned_distinct|by eapply assigned_agree].
  - rewrite find_best_step_skip; [done|]. intros. by simplify_eq.
Qed.

Lemma round_agree l S : (forall x, x ∈ l -> x ∈ activate_ids S) -> requests_distinct S -> bests_agree S ->
  requests_distinct (foldl find_best_step S l) /\ bests_agree (foldl find_best_step S l).
Proof.
  revert S. induction l as [|x l IH]; intros S Hl Hd Ha; [done|]. simpl.
  destruct (step_agree S x) as [Hd' Ha']; [apply Hl; set_solver|done|done|].
  apply IH; [|done|done]. intros y Hy. rewrite (activate_ids_view S _ (step_view S x)). apply Hl. set_solver.
Qed.

Lemma quiet_agree S T : quiet T = quiet S -> requests_distinct S /\ bests_agree S -> requests_distinct T /\ bests_agree T.
Proof.
  intros Hq. apply quiet_inv in Hq as (Hv & Ha & _ & Hb).
  unfold requests_distinct, bests_agree, registered. by rewrite (activate_ids_view S T Hv), Ha, Hb.
Qed.

(** C20: The suppliers' and the requests' records of who serves whom stay in agreement through a round of [FindBestNetworkForAllRequest]: if every supplier, registered or not, lists exactly the requests it serves before the round, it does after it, whatever moved; the requests stay distinct. *)
Theorem FindBestNetworkForAllRequest_agrees S : requests_distinct S -> best_lists_agree S ->
  requests_distinct (FindBestNetworkForAllRequest S) /\ best_lists_agree (FindBestNetworkForAllRequest S).
Proof.
  intros Hd Ha. rewrite bests_agree_iff in Ha |- *. unfold FindBestNetworkForAllRequest.
  eapply quiet_agree; [apply NotifyBearer_quiet|]. by apply round_agree.
Qed.

(** ** Network identifiers *)

Lemma net_unused_spec netId S : netId <> INVALID_NET_ID -> net_unused netId S = true ->
  forall sid s, sid ∈ netSuppliers_ S -> suppliers S !! sid = Some s -> GetNetId s <> netId.
Proof.
  intros Hv Hu sid s Hin Hs E. unfold net_unused, FindNetwork in Hu.
  destruct (find _ (supplier_ids S)) as [id|] eqn:Ef.
  - apply find_some in Ef as [_ Ef]. destruct (suppliers S !! id) as [t|] eqn:Et; [|done]. simpl in Hu.
    apply Z.eqb_eq in Ef. unfold GetNetId in Ef. destruct (network_ t); [done|]. by rewrite <- Ef in Hv.
  - eapply find_none in Ef; [|apply list_elem_of_In, supplier_ids_elem, Hin]. simpl in Ef. rewrite Hs in Ef.
    by apply Z.eqb_neq in Ef.
Qed.

Definition id_count : Z := MAX_NET_ID - MIN_NET_ID + 1.

(** The [k]-th identifier tried after [last]. *)
Definition nth_id (last k : Z) : Z := MIN_NET_ID + (last - MIN_NET_ID + k) mod id_count.

Lemma next_id last : MIN_NET_ID - 1 <= last <= MAX_NET_ID ->
  (if MAX_NET_ID <? last + 1 then MIN_NET_ID else last + 1) = nth_id last 1 /\ MIN_NET_ID <= nth_id last 1 <= MAX_NET_ID.
Proof.
  intros H. unfold nth_id, id_count, MAX_NET_ID, MIN_NET_ID in *.
  destruct (Z.ltb_spec (65535 - 1024) (last + 1)); div_mod_lia.
Qed.

Lemma nth_id_step last k : nth_id (nth_id last 1) k = nth_id last (k + 1).
Proof. unfold nth_id, id_count, MAX_NET_ID, MIN_NET_ID. f_equal. div_mod_lia. Qed.

Lemma gen_net_id_spec n last S : MIN_NET_ID - 1 <= last <= MAX_NET_ID ->
  let '(r, last') := gen_net_id n last S in
  MIN_NET_ID - 1 <= last' <= MAX_NET_ID /\
  ((r = INVALID_NET_ID /\ forall k, 1 <= k <= Z.of_nat n -> net_unused (nth_id last k) S = false) \/
   (r = last' /\ MIN_NET_ID <= r <= MAX_NET_ID /\ net_unused r S = true)).
Proof.
  revert last. induction n as [|n IH]; intros last Hl.
  { simpl. split; [done|]. left. split; [done|]. intros k Hk. lia. }
  cbn [gen_net_id]. destruct (next_id last Hl) as [-> Hr].
  destruct (net_unused (nth_id last 1) S) eqn:Eu.
  { split; [lia|]. by right. }
  specialize (IH (nth_id last 1)). destruct (gen_net_id n (nth_id last 1) S) as [r l'].
  destruct IH as [H1 H2]; [lia|]. split; [done|]. destruct H2 as [[-> Hall]|H2]; [left|by right].
  split; [done|]. intros k Hk. destruct (Z.eq_dec k 1) as [->|]; [done|].
  specialize (Hall (k - 1)). rewrite nth_id_step in Hall. replace (k - 1 + 1) with k in Hall by lia. apply Hall. lia.
Qed.

(** Network identifiers are allocated soundly and completely: from any legal value of the counter, [GenerateNetId] returns an identifier between 100 and 64511 that no registered supplier's network has, or reports failure only when every identifier of that range is in use; the counter stays legal. *)
Theorem GenerateNetId_correct S : MIN_NET_ID - 1 <= netIdLastValue_ S <= MAX_NET_ID ->
  let '(r, T) := GenerateNetId S in
  MIN_NET_ID - 1 <= netIdLastValue_ T <= MAX_NET_ID /\
  ((MIN_NET_ID <= r <= MAX_NET_ID /\
    forall sid s, sid ∈ netSuppliers_ S -> suppliers S !! sid = Some s -> GetNetId s <> r) \/
   (r = INVALID_NET_ID /\ forall i, MIN_NET_ID <= i <= MAX_NET_ID -> exists n, FindNetwork i S = Some n)).
Proof.
  intros Hl. unfold GenerateNetId.
  pose proof (gen_net_id_spec (Z.to_nat (MAX_NET_ID - MIN_NET_ID + 1)) (netIdLastValue_ S) S Hl) as H.
  destruct (gen_net_id _ _ S) as [r l']. destruct H as [H1 H2]. split; [exact H1|].
  destruct H2 as [[-> Hall]|(-> & Hr & Hu)]; [right|left].
  - split; [done|]. intros i Hi.
    assert (Hk : exists k, 1 <= k <= id_count /\ nth_id (netIdLastValue_ S) k = i).
    { exists ((i - netIdLastValue_ S - 1) mod id_count + 1). unfold nth_id, id_count, MAX_NET_ID, MIN_NET_ID in *.
      split; div_mod_lia. }
    destruct Hk as (k & Hk & <-). specialize (Hall k).
    assert (Hf : net_unused (nth_id (netIdLastValue_ S) k) S = false).
    { apply Hall. rewrite Z2Nat.id; [exact Hk|]. unfold MAX_NET_ID, MIN_NET_ID. lia. }
    unfold net_unused in Hf. case_match; [by eexists|done].
  - split; [done|]. apply net_unused_spec; [|done]. unfold INVALID_NET_ID, MIN_NET_ID in *. lia.
Qed.

(** ** Detection results never crash *)

(** Every registered supplier has its network, as [RegisterNetSupplierAsync]
    leaves it. *)
Definition networks_set S : Prop := forall sid s, suppliers S !! sid = Some s -> network_ s <> None.

Lemma set_net_valid_total id st S : networks_set S -> set_net_valid id st S <> None.
Proof.
  intros Hn. unfold set_net_valid. destruct (suppliers S !! id) as [s|] eqn:E; [|done].
  destruct (SetNetValid st s (world S)) as [[s' w']|] eqn:Ev; [done|].
  apply SetNetValid_None in Ev as (_ & _ & Hx). by apply Hn in E.
Qed.

(** While every supplier has its network, no detection result and no score update can crash the service: the handlers return on every input. *)
Theorem detection_handlers_total id st S : networks_set S ->
  HandleDetectionResult id st S <> None /\ UpdateSupplierScoreAsync id st S <> None /\
  HandleFindBestNetworkForDelay S <> None.
Proof.
  intros Hn.
  assert (H1 : forall id st T, networks_set T -> HandleDetectionResult id st T <> None).
  { intros i t T HT. unfold HandleDetectionResult. case_match; [|done].
    pose proof (set_net_valid_total i t T HT). by destruct (set_net_valid i t T). }
  split_and!; [by apply H1| |].
  - unfold UpdateSupplierScoreAsync. case_match; [|done].
    pose proof (set_net_valid_total id st (RemoveDelayNetwork S) Hn). by destruct (set_net_valid _ _ _).
  - unfold HandleFindBestNetworkForDelay. cbv zeta. case_match; [|done].
    destruct (IsNetValidated _); [|done].
    set (T := set_isDelayHandleFindBestNetwork_ false S) in *.
    pose proof (H1 (delaySupplierId_ T) VERIFICATION_STATE T Hn). by destruct (HandleDetectionResult _ _ T).
Qed.

(** ** Unregistering a callback *)

(** The books about clients, which calls to suppliers leave alone. *)
Definition books S := (netUidActivates_ S, netUidRequest_ S, internalDefaultUidRequest_ S).

Lemma on_supplier_books id f S : books (on_supplier id f S) = books S.
Proof. unfold on_supplier. destruct (suppliers S !! id) as [s|]; [|done]. by destruct (f s (world S)). Qed.

Lemma foldl_books {B} (f : NetConnService W N -> B -> NetConnService W N) l S :
  (forall T b, books (f T b) = books T) -> books (foldl f S l) = books S.
Proof. intros Hf. revert S. induction l as [|b l IH]; intros S; [done|]. simpl. by rewrite IH. Qed.

Lemma Cancel_books a r S : books (CancelRequestForSupplier a r S) = books S.
Proof.
  unfold CancelRequestForSupplier. cbv zeta. rewrite foldl_books by (intros; apply on_supplier_books).
  destruct (netServiceSupplied_ a); [apply on_supplier_books|done].
Qed.

Lemma SendRequest_books a S : books (SendRequestToAllNetwork a S) = books S.
Proof.
  unfold SendRequestToAllNetwork. destruct (netSpecifier_ a); [|done]. apply foldl_books. intros T id.
  unfold request_to. destruct (suppliers T !! id); [|done]. destruct (negb _); [done|apply on_supplier_books].
Qed.

Lemma CallbackForAvailable_books b cb S : books (CallbackForAvailable b cb S) = books S.
Proof. unfold CallbackForAvailable. by destruct (suppliers S !! b), cb. Qed.

(** The first request of the list with a callback, provided every request
    before it has some other one. *)
Definition first_with (cb : Z) (l : list Z) (i : nat) S : Prop :=
  (exists aid a, l !! i = Some aid /\ activates S !! aid = Some a /\ netConnCallback_ a = Some cb) /\
  forall j aid, (j < i)%nat -> l !! j = Some aid ->
    exists a c, activates S !! aid = Some a /\ netConnCallback_ a = Some c /\ c <> cb.

Lemma decrease_loop_found fuel cb l i k S aid a : (i <= k)%nat -> (k - i < fuel)%nat ->
  l !! k = Some aid -> activates S !! aid = Some a -> netConnCallback_ a = Some cb -> first_with cb l k S ->
  decrease_loop fuel cb l i S = Some (delete k l, CancelRequestForSupplier a (GetRequestId a) S).
Proof.
  intros Hik Hf Hl Ha Hc [_ Hbefore]. revert i Hik Hf. induction fuel as [|fuel IH]; intros i Hik Hf; [lia|].
  cbn [decrease_loop]. destruct (decide (i = k)) as [->|Hne].
  - by rewrite Hl, Ha, Hc, Z.eqb_refl.
  - assert (Hi : (i < k)%nat) by lia.
    destruct (lookup_lt_is_Some_2 l i) as [x Hx]; [apply lookup_lt_Some in Hl; lia|].
    destruct (Hbefore i x Hi Hx) as (b & c & Hb & Hcb & Hn).
    rewrite Hx, Hb, Hcb, (proj2 (Z.eqb_neq c cb) Hn). apply IH; lia.
Qed.

Lemma decrease_loop_stuck fuel cb l i S aid a : l !! i = Some aid -> activates S !! aid = Some a ->
  netConnCallback_ a = None -> decrease_loop fuel cb l i S = None.
Proof.
  intros Hl Ha Hc. induction fuel as [|fuel IH]; [done|]. cbn [decrease_loop]. by rewrite Hl, Ha, Hc.
Qed.

(** Removing the request of a callback terminates when the requests of the uid that come before it have callbacks of their own, and then takes exactly that request out of the uid's list, and the uid out of the map when none is left. *)
Theorem DecreaseNetActivates_removes fuel u cb l k S : netUidActivates_ S !! u = Some l -> first_with cb l k S ->
  (k < fuel)%nat ->
  exists T, DecreaseNetActivates fuel u cb S = Some T /\
    netUidActivates_ T !! u = (match delete k l with [] => None | l' => Some l' end) /\
    forall v, v <> u -> netUidActivates_ T !! v = netUidActivates_ S !! v.
Proof.
  intros Hl Hf Hk. pose proof Hf as [(aid & a & Hi & Ha & Hc) _]. unfold DecreaseNetActivates. rewrite Hl.
  rewrite (decrease_loop_found fuel cb l 0 k S aid a) by (done || lia).
  pose proof (f_equal (fun b => b.1.1) (Cancel_books a (GetRequestId a) S)) as Hcancel. simpl in Hcancel.
  eexists. split; [done|]. destruct (delete k l) as [|x l']; simpl; rewrite Hcancel.
  - split; [apply lookup_delete_eq|]. intros v Hv. by apply lookup_delete_ne.
  - split; [apply lookup_insert_eq|]. intros v Hv. by apply lookup_insert_ne.
Qed.

(** A request without a callback at the head of a uid's list makes every unregistration for that uid run forever: the loop skips such a request without advancing its iterator, so no number of iterations finishes it. *)
Theorem DecreaseNetActivates_diverges u cb aid a l S :
  netUidActivates_ S !! u = Some (aid :: l) -> activates S !! aid = Some a -> netConnCallback_ a = None ->
  forall fuel, DecreaseNetActivates fuel u cb S = None.
Proof.
  intros Hl Ha Hc fuel. unfold DecreaseNetActivates. rewrite Hl. by erewrite decrease_loop_stuck.
Qed.

(** *** Counting callbacks *)

Lemma elem_of_activate_ids x S : x ∈ activate_ids S <-> exists u l, netUidActivates_ S !! u = Some l /\ x ∈ l.
Proof.
  unfold activate_ids, activate_uids. rewrite list_elem_of_In, in_flat_map. split.
  - intros (u & _ & Hx). destruct (netUidActivates_ S !! u) as [l|] eqn:E; [|done].
    exists u, l. split; [done|by apply list_elem_of_In].
  - intros (u & l & E & Hx). exists u. rewrite E. split; [|by apply list_elem_of_In].
    apply list_elem_of_In. rewrite (merge_sort_Permutation Z.le). apply elem_of_elements. by apply elem_of_dom_2 in E.
Qed.

Lemma FindSame_None cb S : FindSameCallback cb S = None <->
  forall aid a, registered S aid a -> netConnCallback_ a <> Some cb.
Proof.
  unfold FindSameCallback. destruct (find _ (activate_ids S)) as [x|] eqn:Ef.
  - apply find_some in Ef as [Hin Hx]. destruct (activates S !! x) as [a|] eqn:Ea; [|done].
    apply bool_decide_eq_true in Hx. split; [done|]. intros H. exfalso. apply (H x a); [|done].
    split; [by apply list_elem_of_In|done].
  - split; [|done]. intros _ aid a [Hin Ha] Hc.
    eapply find_none in Ef; [|by apply list_elem_of_In]. simpl in Ef. rewrite Ha in Ef.
    by apply bool_decide_eq_false in Ef.
Qed.

Lemma FindSame_unique cb S aid a : registered S aid a -> netConnCallback_ a = Some cb ->
  (forall x b, registered S x b -> netConnCallback_ b = Some cb -> x = aid) ->
  FindSameCallback cb S = Some (GetRequestId a, registration_type (netSpecifier_ a), GetUid a).
Proof.
  intros Hr Hc Hu. unfold FindSameCallback. destruct (find _ (activate_ids S)) as [x|] eqn:Ef.
  - apply find_some in Ef as [Hin Hx]. destruct (activates S !! x) as [b|] eqn:Eb; [|done].
    apply bool_decide_eq_true in Hx. assert (x = aid) as ->.
    { apply (Hu x b); [|done]. split; [by apply list_elem_of_In|done]. }
    destruct Hr as [_ Hr]. congruence.
  - destruct Hr as [Hin Ha]. eapply find_none in Ef; [|by apply list_elem_of_In]. simpl in Ef.
    rewrite Ha in Ef. by apply bool_decide_eq_false in Ef.
Qed.

(** No request object is used twice. *)
Definition fresh_activate S : Prop := next_activate S ∉ activate_ids S.

Lemma ActivateNetwork_effect sp cb t reg u S :
  let T := (ActivateNetwork sp cb t reg u S).2 in
  (ActivateNetwork sp cb t reg u S).1 = NETMANAGER_SUCCESS /\
  books T = (<[u := default [] (netUidActivates_ S !! u) ++ [next_activate S]]> (netUidActivates_ S),
             netUidRequest_ S, internalDefaultUidRequest_ S) /\
  exists a, activates T = <[next_activate S := a]> (activates S) /\
    netSpecifier_ a = Some sp /\ netConnCallback_ a = Some cb /\ GetUid a = u.
Proof.
  cbv zeta. unfold ActivateNetwork.
  destruct (new_NetActivate (Some sp) (Some cb) t u reg (g_nextRequestId S)) as [q g] eqn:En. cbv zeta.
  set (q1 := match controlFunc_ _ with Some f => _ | None => q end).
  assert (Hq : netSpecifier_ q1 = Some sp /\ netConnCallback_ q1 = Some cb /\ GetUid q1 = u).
  { unfold new_NetActivate in En. simplify_eq/=. unfold q1. by case_match. }
  clearbody q1. clear En q.
  set (S1 := set_netUidActivates_ _ _).
  assert (HB : books S1 = (<[u := default [] (netUidActivates_ S !! u) ++ [next_activate S]]> (netUidActivates_ S),
             netUidRequest_ S, internalDefaultUidRequest_ S)) by done.
  assert (HA : activates S1 = <[next_activate S := q1]> (activates S)) by done.
  change (next_activate (set_g_nextRequestId g S)) with (next_activate S). clearbody S1.
  assert (Hrest : forall T, quiet T = quiet S1 -> books T = books S1 ->
    let R := SendRequestToAllNetwork q1 T in
    books R = (<[u := default [] (netUidActivates_ S !! u) ++ [next_activate S]]> (netUidActivates_ S),
             netUidRequest_ S, internalDefaultUidRequest_ S) /\
    exists a, activates R = <[next_activate S := a]> (activates S) /\
      netSpecifier_ a = Some sp /\ netConnCallback_ a = Some cb /\ GetUid a = u).
  { intros T Hq1 Hb1. cbv zeta. rewrite SendRequest_books, Hb1. split; [done|].
    destruct (quiet_inv _ _ (SendRequest_quiet q1 T)) as (_ & -> & _). apply quiet_inv in Hq1 as (_ & -> & _).
    by exists q1. }
  destruct (FindBestNetworkForRequest S1 q1) as [sc [b|]].
  - destruct (negb (sc =? 0)).
    + cbn [fst snd]. split; [done|]. rewrite CallbackForAvailable_books.
      split; [change (books (on_supplier b (SelectAsBestNetwork (act_netRequest_ q1)) S1)
                = (<[u := default [] (netUidActivates_ S !! u) ++ [next_activate S]]> (netUidActivates_ S),
                   netUidRequest_ S, internalDefaultUidRequest_ S)); by rewrite on_supplier_books|].
      destruct (quiet_inv _ _ (CallbackForAvailable_quiet b (Some cb)
        (upd_activate (next_activate S) (SetServiceSupply (Some b))
          (on_supplier b (SelectAsBestNetwork (act_netRequest_ q1)) S1)))) as (_ & -> & _).
      pose proof (quiet_proj _ _ _ _ _ (Select_effect b (act_netRequest_ q1) S1)) as (_ & E & _).
      exists (SetServiceSupply (Some b) q1). split_and!; [|apply Hq|apply Hq|apply Hq].
      cbn [upd_activate set_activates activates]. rewrite E, HA.
      apply map_eq. intros i. destruct (decide (i = next_activate S)) as [->|].
      * by rewrite lookup_alter_eq, !lookup_insert_eq.
      * by rewrite lookup_alter_ne, !lookup_insert_ne.
    + split; [done|]. cbn [snd]. apply Hrest; by destruct (t =? 0).
  - split; [done|]. cbn [snd]. apply Hrest; by destruct (t =? 0).
Qed.

Lemma ActivateNetwork_found sp cb t reg u S : fresh_activate S -> FindSameCallback cb S = None ->
  exists r, FindSameCallback cb (ActivateNetwork sp cb t reg u S).2 = Some (r, registration_type (Some sp), u).
Proof.
  intros Hf Hn. destruct (ActivateNetwork_effect sp cb t reg u S) as (_ & HB & (a & HA & H1 & H2 & H3)).
  set (T := (ActivateNetwork sp cb t reg u S).2) in *.
  assert (Hids : forall x, x ∈ activate_ids T -> x = next_activate S \/ x ∈ activate_ids S).
  { intros x (v & l & E & Hx)%elem_of_activate_ids.
    pose proof (f_equal (fun b => b.1.1) HB) as EB. simpl in EB. rewrite EB in E.
    destruct (decide (v = u)) as [->|Hne].
    - rewrite lookup_insert_eq in E. injection E as <-. apply elem_of_app in Hx as [Hx|Hx%list_elem_of_singleton]; [|by left].
      right. apply elem_of_activate_ids. destruct (netUidActivates_ S !! u) as [l|] eqn:El; [by exists u, l|].
      by apply not_elem_of_nil in Hx.
    - rewrite lookup_insert_ne in E by done. right. apply elem_of_activate_ids. by exists v, l. }
  exists (GetRequestId a). rewrite <- H1, <- H3. apply (FindSame_unique cb T (next_activate S)).
  - split; [|by rewrite HA, lookup_insert_eq]. apply elem_of_activate_ids.
    pose proof (f_equal (fun b => b.1.1) HB) as EB. simpl in EB.
    eexists u, _. rewrite EB, lookup_insert_eq. split; [done|]. apply elem_of_app. right. by apply list_elem_of_singleton.
  - done.
  - intros x b [Hx Hb] Hc. destruct (Hids x Hx) as [|Hold]; [done|]. exfalso.
    assert (Hne : x <> next_activate S) by (intros ->; by apply Hf).
    rewrite HA, lookup_insert_ne in Hb by done. by apply (proj1 (FindSame_None cb S) Hn x b).
Qed.

Lemma Decrease_books fuel u cb S T : DecreaseNetActivates fuel u cb S = Some T ->
  internalDefaultUidRequest_ T = internalDefaultUidRequest_ S.
Proof.
  unfold DecreaseNetActivates. destruct (netUidActivates_ S !! u) as [l|]; [|congruence].
  destruct (decrease_loop fuel cb l 0 S) as [[l' S']|] eqn:E; [|done].
  assert (HS : internalDefaultUidRequest_ S' = internalDefaultUidRequest_ S).
  { clear -E. revert E. generalize 0%nat. induction fuel as [|fuel IH]; intros i; [done|]. cbn [decrease_loop].
    destruct (l !! i) as [x|]; [|congruence]. destruct (activates S !! x) as [a|]; [|apply IH].
    destruct (netConnCallback_ a) as [c|]; [|apply IH]. destruct (c =? cb); [|apply IH].
    injection 1 as <- <-. exact (f_equal snd (Cancel_books a (GetRequestId a) S)). }
  intros [= <-]. rewrite <- HS. by destruct l'.
Qed.

(** A client that requests a network without asking for the cellular bearer or the internal default network, and unregisters its callback again, is counted for ever: the request is counted among the requests of its uid, the unregistration discounts it from the registrations, so that however the unregistration ends the count of requests has grown by one. *)
Theorem request_count_leaks sp cb t u S c : fresh_activate S -> FindSameCallback cb S = None ->
  registration_type (Some sp) = REGISTER ->
  default 0 (internalDefaultUidRequest_ S !! u) = c -> 0 <= c < MAX_ALLOW_UID_NUM ->
  let '(code, T) := RequestNetConnectionAsync (Some sp) (Some cb) t u S in
  code = NETMANAGER_SUCCESS /\
  forall fuel code' R, UnregisterNetConnCallbackAsync fuel (Some cb) T = Some (code', R) ->
    code' = NETMANAGER_SUCCESS /\ internalDefaultUidRequest_ R !! u = Some (c + 1).
Proof.
  intros Hf Hn Hreg Hc Hlt. unfold RequestNetConnectionAsync. rewrite Hn.
  assert (HI : IncreaseNetConnCallbackCntForUid u REQUEST S
    = (NETMANAGER_SUCCESS, set_internalDefaultUidRequest_ (<[u := c + 1]> (internalDefaultUidRequest_ S)) S)).
  { unfold IncreaseNetConnCallbackCntForUid. change (uid_counts REQUEST S) with (internalDefaultUidRequest_ S).
    destruct (internalDefaultUidRequest_ S !! u) as [k|]; simpl in Hc; subst c; [|done].
    rewrite (proj2 (Z.leb_gt _ _)) by lia. rewrite wrap_small; [done|]. unfold in_width, MAX_ALLOW_UID_NUM in *. lia. }
  rewrite HI. cbn [fst snd]. simpl (negb _). cbn match.
  set (S1 := set_internalDefaultUidRequest_ _ S).
  destruct (ActivateNetwork_effect sp cb t REQUEST u S1) as (Hcode & HB & _).
  destruct (ActivateNetwork_found sp cb t REQUEST u S1 Hf Hn) as (r & HF).
  destruct (ActivateNetwork sp cb t REQUEST u S1) as [code T]. cbn [fst snd] in Hcode, HB, HF. split; [done|].
  intros fuel code' R. unfold UnregisterNetConnCallbackAsync. rewrite HF, Hreg. cbv zeta.
  set (T1 := DecreaseNetConnCallbackCntForUid u REGISTER T).
  assert (H1 : internalDefaultUidRequest_ T1 = <[u := c + 1]> (internalDefaultUidRequest_ S)).
  { transitivity (internalDefaultUidRequest_ T); [|exact (f_equal snd HB)].
    unfold T1, DecreaseNetConnCallbackCntForUid. destruct (uid_counts REGISTER T !! u); [|done].
    by destruct (_ =? 0). }
  destruct (DecreaseNetActivates fuel u cb T1) as [R'|] eqn:ED; [|done]. intros [= <- <-]. split; [done|].
  rewrite (Decrease_books _ _ _ _ _ ED), H1. apply lookup_insert_eq.
Qed.

End theory.

(** ** A concrete service

    A world that logs what the service does, a network that is its identifier
    and its connection state, and a service with the default request and one
    connected cellular supplier. *)

Inductive event :=
  ECtl (c : ctl_call) | EAvailable (cb : Z) | ELost (cb : Z) | EUnavailable (cb : Z) | EChange (cb : Z)
| EBearer | EProxy.

#[local] Instance event_outside : Outside (list event) := {|
  RequestNetwork c _ _ r w := (0, w ++ [ECtl (CRequest c (requestId r))]);
  ReleaseNetwork c r w := (0, w ++ [ECtl (CRelease c (requestId r))]);
  FlushDnsCache n w := (0, w ++ [ECtl (CFlush n)]);
|}.
#[local] Instance event_clients : Clients (list event) := {|
  NetAvailable cb _ w := w ++ [EAvailable cb];
  NetCapabilitiesChange cb _ _ w := w ++ [EChange cb];
  NetConnectionPropertiesChange cb _ _ w := w ++ [EChange cb];
  NetLost cb _ w := w ++ [ELost cb];
  NetUnavailable cb w := w ++ [EUnavailable cb];
  NetBlockStatusChange cb _ _ w := w ++ [EChange cb];
  NotifyNetBearerType _ w := w ++ [EBearer];
  SendHttpProxyChangeBroadcast _ w := w ++ [EProxy];
  IsUidNetAccess _ _ _ := true;
  isNeedDelay _ := false;
  isMmsDisabled _ := false;
|}.
#[local] Instance event_network : INetwork (list event) (Z * bool) := {|
  net_GetNetId := fst; net_IsConnecting _ := false; net_IsConnected := snd;
  net_GetHttpProxy _ := empty_proxy;
  net_GetNetLinkInfo _ := default_NetLinkInfo;
  net_UpdateBasicNetwork _ n w := (true, n, w);
  net_UpdateNetLinkInfo _ n w := (true, n, w);
  net_UpdateNetConnState c n w := ((n.1, bool_decide (c = NET_CONN_STATE_CONNECTED)), w);
  net_SetDefaultNetWork n w := (n, w);
  net_ClearDefaultNetWorkNetId n w := (n, w);
  net_UpdateGlobalHttpProxy _ n w := (n, w);
  net_ResumeNetworkInfo n w := (true, n, w);
|}.
#[local] Instance event_network_laws : NetworkLaws (list event) (Z * bool).
Proof. by split. Qed.
#[local] Instance event_network_new : NetworkNew (Z * bool) := {| new_Network netId _ _ _ := (netId, false) |}.

Definition connected_cellular : NetSupplier (Z * bool) :=
  SetNetwork (Some (100, true)) (SetReuseCap 15 true NetSupplier.cellular_example).

Definition empty_service : NetConnService (list event) (Z * bool) :=
  mkNetConnService ∅ ∅ ∅ ∅ None None ∅ ∅ 99 1 1003 1 0 ∅ ∅ ∅ false 0 false BEARER_DEFAULT None [].

Definition default_request : NetActivate := SetRequestId 0 (new_NetActivate (Some default_specifier) None 0 0 REQUEST 1).1.

Definition example_service : NetConnService (list event) (Z * bool) :=
  mkNetConnService {[1003 := connected_cellular]} {[1003]} {[0 := default_request]} {[UID_NET_MANAGER := [0]]}
    (Some 0) None ∅ ∅ 100 1 1004 2 1 ∅ ∅ ∅ false 0 false BEARER_DEFAULT None [].

(** The round picks the supplier and makes it the default network. *)
Example example_round :
  netServiceSupplied_ <$> activates (FindBestNetworkForAllRequest example_service) !! 0 = Some (Some 1003) /\
  defaultNetSupplier_ (FindBestNetworkForAllRequest example_service) = Some 1003 /\
  bestReqList_ <$> suppliers (FindBestNetworkForAllRequest example_service) !! 1003 = Some {[0]}.
Proof. by vm_compute. Qed.

Lemma example_ids : activate_ids example_service = [0].
Proof. by vm_compute. Qed.

Lemma example_registered aid a : registered example_service aid a -> aid = 0 /\ a = default_request.
Proof.
  intros [Hin Ha]. rewrite example_ids in Hin. apply list_elem_of_singleton in Hin as ->.
  split; [done|]. simpl in Ha. by apply lookup_singleton_Some in Ha as [_ <-].
Qed.

Lemma FindBestNetworkForRequest_optimal_witness :
  match FindBestNetworkForRequest example_service default_request with
  | (score, Some b) =>
      0 < score /\ b ∈ netSuppliers_ example_service /\
      (exists s, eligible example_service default_request b s /\ GetRealScore s = score) /\
      (forall id s, id ∈ netSuppliers_ example_service -> eligible example_service default_request id s ->
        GetRealScore s <= score /\ (GetRealScore s = score -> b <= id))
  | (score, None) =>
      score = 0 /\ forall id s, id ∈ netSuppliers_ example_service -> eligible example_service default_request id s ->
        GetRealScore s <= 0
  end.
Proof. apply FindBestNetworkForRequest_optimal. Defined.

Lemma FindBestNetworkForAllRequest_settles_witness :
  (forall aid a, aid ∈ activate_ids example_service -> activates example_service !! aid = Some a ->
     exists a', activates (FindBestNetworkForAllRequest example_service) !! aid = Some a' /\ same_request a a' /\
       netServiceSupplied_ a' = if skipped a then netServiceSupplied_ a else (FindBestNetworkForRequest example_service a).2) /\
  (forall d a, defaultNetActivate_ example_service = Some d -> d ∈ activate_ids example_service ->
     activates example_service !! d = Some a -> skipped a = false ->
     defaultNetSupplier_ (FindBestNetworkForAllRequest example_service) = (FindBestNetworkForRequest example_service a).2).
Proof. apply FindBestNetworkForAllRequest_settles. rewrite example_ids. apply NoDup_singleton. Defined.

Lemma FindBestNetworkForAllRequest_agrees_witness :
  requests_distinct (FindBestNetworkForAllRequest example_service) /\
  best_lists_agree (FindBestNetworkForAllRequest example_service).
Proof.
  apply FindBestNetworkForAllRequest_agrees.
  - split; [rewrite example_ids; apply NoDup_singleton|].
    intros x y a b [-> _]%example_registered [-> _]%example_registered. done.
  - intros sid s r Hs. simpl in Hs. apply lookup_singleton_Some in Hs as [<- <-]. split.
    + intros Hr. by apply not_elem_of_empty in Hr.
    + intros (x & a & [_ ->]%example_registered & _ & Hn). done.
Defined.

Lemma GenerateNetId_correct_witness :
  let '(r, T) := GenerateNetId example_service in
  MIN_NET_ID - 1 <= netIdLastValue_ T <= MAX_NET_ID /\
  ((MIN_NET_ID <= r <= MAX_NET_ID /\
    forall sid s, sid ∈ netSuppliers_ example_service -> suppliers example_service !! sid = Some s -> GetNetId s <> r) \/
   (r = INVALID_NET_ID /\ forall i, MIN_NET_ID <= i <= MAX_NET_ID -> exists n, FindNetwork i example_service = Some n)).
Proof. apply (GenerateNetId_correct example_service). by vm_compute. Defined.

Lemma detection_handlers_total_witness :
  HandleDetectionResult 1003 VERIFICATION_STATE example_service <> None /\
  UpdateSupplierScoreAsync 1003 VERIFICATION_STATE example_service <> None /\
  HandleFindBestNetworkForDelay example_service <> None.
Proof.
  apply detection_handlers_total. intros sid s Hs. simpl in Hs. by apply lookup_singleton_Some in Hs as [_ <-].
Defined.

Lemma request_count_leaks_witness :
  let '(code, T) := RequestNetConnectionAsync (Some default_specifier) (Some 77) 0 1000 example_service in
  code = NETMANAGER_SUCCESS /\
  forall fuel code' R, UnregisterNetConnCallbackAsync fuel (Some 77) T = Some (code', R) ->
    code' = NETMANAGER_SUCCESS /\ internalDefaultUidRequest_ R !! 1000 = Some (0 + 1).
Proof.
  apply (request_count_leaks default_specifier 77 0 1000 example_service 0).
  - unfold fresh_activate. rewrite example_ids. intros H. by apply list_elem_of_singleton in H.
  - by vm_compute.
  - by vm_compute.
  - reflexivity.
  - unfold MAX_ALLOW_UID_NUM. lia.
Defined.

(** A service in which a client with its own uid has registered a callback. *)
Definition client_service : NetConnService (list event) (Z * bool) :=
  (RegisterNetConnCallbackAsync (Some default_specifier) (Some 77) 0 1000 example_service).2.

Lemma DecreaseNetActivates_removes_witness :
  exists T, DecreaseNetActivates 1 1000 77 client_service = Some T /\
    netUidActivates_ T !! 1000 = None /\ forall v, v <> 1000 -> netUidActivates_ T !! v = netUidActivates_ client_service !! v.
Proof.
  apply (DecreaseNetActivates_removes 1 1000 77 [1] 0).
  - by vm_compute.
  - split; [|intros; lia]. eexists 1, _. split_and!; [done|by vm_compute|by vm_compute].
  - lia.
Defined.

(** The same with the uid of the connection manager, whose list starts with
    the default request. *)
Definition manager_service : NetConnService (list event) (Z * bool) :=
  (RegisterNetConnCallbackAsync (Some default_specifier) (Some 77) 0 UID_NET_MANAGER (CreateDefaultRequest empty_service)).2.

Lemma DecreaseNetActivates_diverges_witness :
  FindSameCallback 77 manager_service = Some (2, REGISTER, UID_NET_MANAGER) /\
  forall fuel, DecreaseNetActivates fuel UID_NET_MANAGER 77 manager_service = None.
Proof.
  split; [by vm_compute|].
  apply (DecreaseNetActivates_diverges UID_NET_MANAGER 77 0 default_request [1]); by vm_compute.
Defined.

End NetConn.
