(* ===== verification/ClatUtils.v ===== *)
(** * Checksums and addresses of the 464XLAT translator
    (services/netmanagernative/src/netsys/clat_utils.cpp)

    The Internet checksum is a sum of 16-bit words in ones' complement
    arithmetic, that is, modulo [65535].  The functions here fold, adjust and
    compute such sums on the bytes of a packet, choose the IPv4 address of the
    tunnel and make the IPv6 address of the translator checksum-neutral. *)

From S2P Require Import Prelude.
Open Scope word_scope.

Module ClatUtils.

(** A region of memory is the list of its bytes; the sources read it as
    little-endian words. *)
Abbreviation bytes := (list Z).
Definition is_bytes (l : bytes) : Prop := Forall (in_width 8) l.

Definition V4ADDR_BIT_LEN : Z := 32.
Definition INADDR_NONE : Z := 0xffffffff.
Definition CLAT_V6ADDR_RANDOMIZE_OFFSET : nat := 8.
Definition CLAT_V6ADDR_NEUTRALIZE_OFFSET : nat := 3.

(** ** Checksums *)

(** One test of the loop that folds the carries back. *)
Definition fold_body (sum32 : Z) : Z + Z :=
  if sum32 .>> 16 =? 0 then inr sum32
  else inl ((sum32 .& 0xffff) + (sum32 .>> 16)).

(** Three tests are enough for a 32-bit sum ([Checksum32To16_fuel]). *)
Definition Checksum32To16 (sum32 : Z) : Z :=
  match run fold_body 3 sum32 with inl s | inr s => u16 s end.

Definition AdjustChecksum (oldSum16 oldSumHdr newSumHdr : Z) : Z :=
  let oldSum16 := u16 (Z.lnot oldSum16) in
  let sumFolded := Checksum32To16 (u32 (newSumHdr + oldSum16)) in
  let oldFolded := Checksum32To16 oldSumHdr in
  if oldFolded <? sumFolded then u16 (Z.lnot (sumFolded - oldFolded))
  else u16 (Z.lnot (sumFolded - oldFolded - 1)).

Fixpoint AddChecksum (sum : Z) (data : bytes) : Z :=
  match data with
  | a :: b :: rest => AddChecksum (u32 (sum + (a + 256 * b))) rest
  | [a] => u32 (sum + a)
  | [] => sum
  end.

Definition CalChecksum (data : bytes) : Z :=
  u16 (Z.lnot (Checksum32To16 (AddChecksum 0xffff data))).

(** [random] is what [arc4random_buf] wrote into the last eight bytes. *)
Definition MakeChecksumNeutral (random v6Addr v4Addr nat64Prefix : bytes) : bytes :=
  let v6Addr := take CLAT_V6ADDR_RANDOMIZE_OFFSET v6Addr ++ random in
  let adjustOffset := (CLAT_V6ADDR_RANDOMIZE_OFFSET + CLAT_V6ADDR_NEUTRALIZE_OFFSET)%nat in
  let middleBytes := u16 ((nth adjustOffset v6Addr 0 .<< 8) + nth (S adjustOffset) v6Addr 0) in
  let v4Checksum := AddChecksum 0 v4Addr in
  let v6Checksum := u32 (AddChecksum 0 nat64Prefix + AddChecksum 0 v6Addr) in
  let delta := AdjustChecksum middleBytes v4Checksum v6Checksum in
  <[S adjustOffset := delta .& 0xff]> (<[adjustOffset := u8 (delta .>> 8)]> v6Addr).

(** ** The IPv4 address of the tunnel *)

Section TunAddress.

(** What the kernel answers when a datagram socket is connected to the
    address: [None] when no socket could be opened, otherwise whether the
    local name of the socket is that address. *)
Context (probe : Z -> option bool).

(** The list is [g_tunV4AddrInUse]. *)
Definition IsIpv4AddressFree (v4Addr : Z) (g_tunV4AddrInUse : list Z) : bool * list Z :=
  if bool_decide (v4Addr ∈ g_tunV4AddrInUse) then (false, g_tunV4AddrInUse)
  else match probe v4Addr with
       | None => (false, g_tunV4AddrInUse)
       | Some inuse =>
           (negb inuse, if inuse then g_tunV4AddrInUse else g_tunV4AddrInUse ++ [v4Addr])
       end.

Definition v4_mask (prefixLen : Z) : Z :=
  if prefixLen =? 0 then 0
  else u32 (0xffffffff .>> (V4ADDR_BIT_LEN - prefixLen) .<< (V4ADDR_BIT_LEN - prefixLen)).

(** The body of the do-while loop and its test. *)
Definition available_body (mask prefix initV4Num : Z) (st : Z * list Z) : (Z * list Z) + (Z * list Z) :=
  let '(v4Num, inUse) := st in
  let '(isFree, inUse) := IsIpv4AddressFree (htonl v4Num) inUse in
  if isFree then inr (htonl v4Num, inUse)
  else
    let v4Num := prefix .| (u32 (v4Num + 1) .& u32 (Z.lnot mask)) in
    if v4Num =? initV4Num then inr (INADDR_NONE, inUse) else inl (v4Num, inUse).

(** At most one pass over the [2^32] addresses. *)
Definition GetAvailableIpv4Address (initV4Addr prefixLen : Z) (inUse : list Z) : Z * list Z :=
  if (prefixLen <? 0) || (V4ADDR_BIT_LEN <? prefixLen) then (INADDR_NONE, inUse)
  else
    let mask := v4_mask prefixLen in
    let v4Num := ntohl initV4Addr in
    let prefix := v4Num .& mask in
    match run (available_body mask prefix v4Num) (2 ^ 32)%positive (v4Num, inUse) with
    | inr r => r
    | inl (_, inUse) => (INADDR_NONE, inUse)
    end.

End TunAddress.

(** [inet_pton] decides whether the string is an address. *)
Definition FreeTunV4Addr (v4Addr : option Z) (inUse : list Z) : list Z :=
  match v4Addr with
  | None => inUse
  | Some a => filter (fun x => x <> a) inUse
  end.

(** ** Folding and adding modulo 65535 *)

Lemma fold_step s : in_width 32 s ->
  Z.land s 0xffff + Z.shiftr s 16 = s mod 2 ^ 16 + s / 2 ^ 16.
Proof. intros _. change 0xffff with (Z.ones 16). by rewrite Z.land_ones, Z.shiftr_div_pow2 by lia. Qed.

(** What [Checksum32To16] computes: the representative of the sum modulo
    65535 in [1..65535], and zero only for zero. *)
Definition fold16 (s : Z) : Z := if s =? 0 then 0 else (s - 1) mod 65535 + 1.

Lemma Checksum32To16_fuel s : in_width 32 s -> exists r, run fold_body 3 s = inr r /\ r = fold16 s /\ in_width 16 r.
Proof.
  intros Hs.
  assert (HF : forall t, in_width 32 t -> fold_body t =
    if t <? 2 ^ 16 then inr t else inl (t mod 2 ^ 16 + t / 2 ^ 16)).
  { intros t Ht. unfold fold_body. rewrite fold_step by done. rewrite Z.shiftr_div_pow2 by lia.
    unfold in_width in Ht. destruct (Z.ltb_spec t (2 ^ 16)).
    - by rewrite Z.div_small by lia.
    - destruct (Z.eqb_spec (t / 2 ^ 16) 0); [div_mod_lia|done]. }
  assert (HS : forall t, in_width 32 t -> 2 ^ 16 <= t -> fold16 (t mod 2 ^ 16 + t / 2 ^ 16) = fold16 t).
  { intros t Ht Hge. unfold fold16, in_width in *.
    destruct (Z.eqb_spec (t mod 2 ^ 16 + t / 2 ^ 16) 0); [div_mod_lia|].
    destruct (Z.eqb_spec t 0); [lia|]. f_equal.
    replace (t - 1) with (t mod 2 ^ 16 + t / 2 ^ 16 - 1 + (t / 2 ^ 16) * 65535) by div_mod_lia.
    by rewrite Z.mod_add by lia. }
  assert (HB : forall t, in_width 16 t -> fold16 t = t).
  { intros t Ht. unfold fold16, in_width in *. destruct (Z.eqb_spec t 0); [lia|].
    rewrite Z.mod_small by lia. lia. }
  cbn [run]. unfold in_width in *. rewrite (HF s Hs). destruct (Z.ltb_spec s (2 ^ 16)).
  { exists s. rewrite HB by lia. by repeat split; try lia. }
  set (s1 := s mod 2 ^ 16 + s / 2 ^ 16). assert (H1 : 0 <= s1 < 2 ^ 17) by (unfold s1; div_mod_lia).
  rewrite (HF s1) by lia. destruct (Z.ltb_spec s1 (2 ^ 16)).
  { exists s1. rewrite <- (HS s) by lia. fold s1. rewrite HB by lia. by repeat split; try lia. }
  set (s2 := s1 mod 2 ^ 16 + s1 / 2 ^ 16).
  assert (H2 : 0 <= s2 < 2 ^ 16).
  { unfold s2. assert (s1 <= 2 * 65535) by (unfold s1; div_mod_lia). div_mod_lia. }
  rewrite (HF s2) by lia. rewrite (proj2 (Z.ltb_lt s2 _)) by lia. exists s2.
  rewrite <- (HS s) by lia. fold s1. rewrite <- (HS s1) by lia. fold s2.
  rewrite HB by lia. by repeat split; try lia.
Qed.

Lemma Checksum32To16_eq s : in_width 32 s -> Checksum32To16 s = fold16 s.
Proof.
  intros Hs. destruct (Checksum32To16_fuel s Hs) as (r & E & -> & Hr).
  unfold Checksum32To16. rewrite E. by apply wrap_small.
Qed.

Lemma fold16_width s : in_width 16 (fold16 s).
Proof. unfold fold16, in_width. destruct (s =? 0); div_mod_lia. Qed.

Lemma fold16_mod s : fold16 s mod 65535 = s mod 65535.
Proof.
  unfold fold16. destruct (Z.eqb_spec s 0); [by subst|].
  rewrite Zplus_mod_idemp_l. f_equal; lia.
Qed.

Lemma lnot16 x : in_width 16 x -> u16 (Z.lnot x) = 65535 - x.
Proof.
  unfold in_width. intros Hx. rewrite Z.lnot_eq_pred_opp. unfold wrap.
  symmetry. apply (Z.mod_unique _ _ (-1)); lia.
Qed.

(** The sum of the little-endian words of a region, unbounded. *)
Fixpoint wsum (data : bytes) : Z :=
  match data with
  | a :: b :: rest => a + 256 * b + wsum rest
  | [a] => a
  | [] => 0
  end.

(** Induction on the words of a region. *)
Lemma words_ind (P : bytes -> Prop) :
  P [] -> (forall a, P [a]) -> (forall a b r, P r -> P (a :: b :: r)) -> forall l, P l.
Proof.
  intros H0 H1 H2 l. enough (P l /\ forall a, P (a :: l)) by tauto.
  induction l as [|x l [IH1 IH2]]; [split; auto|]. split; [apply IH2|auto].
Qed.

Lemma AddChecksum_wsum data : forall sum, in_width 32 sum -> AddChecksum sum data = u32 (sum + wsum data).
Proof.
  induction data as [|a|a b r IH] using words_ind; intros sum Hs; simpl.
  - rewrite Z.add_0_r. by rewrite wrap_small.
  - done.
  - rewrite IH by (by apply wrap_range). unfold wrap. rewrite Zplus_mod_idemp_l. f_equal; lia.
Qed.

Lemma wsum_bound data : is_bytes data -> 0 <= wsum data <= 32768 * (Z.of_nat (length data) + 1).
Proof.
  induction data as [|a|a b r IH] using words_ind; intros H; cbn [wsum length]; [lia| |].
  - apply Forall_cons in H as [Ha _]. unfold in_width in Ha. lia.
  - apply Forall_cons in H as [Ha H]. apply Forall_cons in H as [Hb H].
    specialize (IH H). unfold in_width in *. lia.
Qed.

Lemma AddChecksum_exact sum data : in_width 32 sum -> is_bytes data ->
  sum + 32768 * (Z.of_nat (length data) + 1) < 2 ^ 32 -> AddChecksum sum data = sum + wsum data.
Proof.
  intros Hs Hd Hl. rewrite AddChecksum_wsum by done. apply wrap_small.
  pose proof (wsum_bound data Hd). unfold in_width in *. lia.
Qed.

Lemma wsum_app l1 l2 : Nat.Even (length l1) -> wsum (l1 ++ l2) = wsum l1 + wsum l2.
Proof.
  induction l1 as [|a|a b r IH] using words_ind; intros H; simpl in *.
  - lia.
  - destruct H; lia.
  - rewrite IH; [lia|]. destruct H as [k Hk]. exists (k - 1)%nat. lia.
Qed.

(** ** Adjusting *)

Lemma AdjustChecksum_width o oh nh : in_width 16 (AdjustChecksum o oh nh).
Proof. unfold AdjustChecksum. destruct (_ <? _); by apply wrap_range. Qed.

(** The adjusted checksum, modulo 65535. *)
Lemma AdjustChecksum_mod o oh nh : in_width 16 o -> in_width 32 oh -> 0 <= nh < 2 ^ 32 - 65535 ->
  (AdjustChecksum o oh nh - (o + oh - nh)) mod 65535 = 0.
Proof.
  intros Ho Hoh Hnh. unfold AdjustChecksum. rewrite lnot16 by done.
  rewrite (wrap_small 32) by width.
  rewrite !Checksum32To16_eq by width.
  set (sf := fold16 (nh + (65535 - o))). set (f := fold16 oh).
  assert (Hsf : in_width 16 sf) by apply fold16_width.
  assert (Hf : in_width 16 f) by apply fold16_width.
  assert (Esf : sf mod 65535 = (nh + (65535 - o)) mod 65535) by apply fold16_mod.
  assert (Ef : f mod 65535 = oh mod 65535) by apply fold16_mod.
  clearbody sf f. unfold in_width in *. destruct (Z.ltb_spec f sf).
  - rewrite lnot16 by width. div_mod_lia.
  - replace (sf - f - 1) with (sf - f + 65535 + (-1) * 65536) by lia.
    assert (Hw : u16 (Z.lnot (sf - f + 65535 + -1 * 65536)) = 65535 - (sf - f + 65535)).
    { rewrite Z.lnot_eq_pred_opp. unfold wrap. symmetry. apply (Z.mod_unique _ _ 0); lia. }
    rewrite Hw. div_mod_lia.
Qed.

Lemma AdjustChecksum_canonical o oh nh : in_width 16 o -> in_width 32 oh -> 0 < nh < 2 ^ 32 - 65535 ->
  AdjustChecksum o oh nh < 65535.
Proof.
  intros Ho Hoh Hnh. unfold AdjustChecksum. rewrite lnot16 by done.
  rewrite (wrap_small 32) by width.
  rewrite !Checksum32To16_eq by width.
  assert (Hsf : 0 < fold16 (nh + (65535 - o))).
  { unfold fold16, in_width in *. rewrite (proj2 (Z.eqb_neq _ _)) by lia. div_mod_lia. }
  pose proof (fold16_width (nh + (65535 - o))) as Wsf. pose proof (fold16_width oh) as Wf.
  unfold in_width in *. destruct (Z.ltb_spec (fold16 oh) (fold16 (nh + (65535 - o)))).
  - rewrite lnot16 by width. lia.
  - rewrite Z.lnot_eq_pred_opp. unfold wrap. rewrite Z.mod_small; lia.
Qed.

#[export] Hint Resolve fold16_width AdjustChecksum_width : width.

(** ** The checksum-neutral address *)

Lemma wsum_cons2 a b r : wsum (a :: b :: r) = a + 256 * b + wsum r.
Proof. done. Qed.

(** The two adjusted bytes straddle two words: their contribution to a sum of
    little-endian words is their big-endian value. *)
Lemma neutral_wsum (p r : bytes) b0 b1 b2 b3 b4 b5 b6 b7 x y : length p = 8%nat ->
  wsum (<[12%nat := y]> (<[11%nat := x]> (p ++ [b0; b1; b2; b3; b4; b5; b6; b7]))) =
  wsum (p ++ [b0; b1; b2; b3; b4; b5; b6; b7]) - (256 * b3 + b4) + (256 * x + y).
Proof.
  intros Hp. rewrite !insert_app_r_alt by lia. rewrite Hp.
  rewrite !wsum_app by (exists 4%nat; lia). simpl. lia.
Qed.

Lemma take_bytes n l : is_bytes l -> is_bytes (take n l).
Proof. apply Forall_take. Qed.

Lemma MakeChecksumNeutral_sum random v6 v4 pre :
  is_bytes random -> is_bytes v6 -> is_bytes v4 -> is_bytes pre ->
  length random = 8%nat -> length v6 = 16%nat -> length v4 = 4%nat -> length pre = 16%nat ->
  (wsum pre + wsum (MakeChecksumNeutral random v6 v4 pre) - wsum v4) mod 65535 = 0.
Proof.
  intros Br B6 B4 Bp Lr L6 L4 Lp. unfold MakeChecksumNeutral.
  do 8 (destruct random as [|? random]; [simpl in Lr; lia|]).
  destruct random; [|simpl in Lr; lia].
  change (CLAT_V6ADDR_RANDOMIZE_OFFSET) with 8%nat. change CLAT_V6ADDR_NEUTRALIZE_OFFSET with 3%nat.
  assert (Lt : length (take 8 v6) = 8%nat) by (rewrite length_take; lia).
  set (t := take 8 v6) in *. assert (Bt : is_bytes t) by (by apply take_bytes).
  cbn [Nat.add]. rewrite (app_nth2 t) by lia. rewrite (app_nth2 t) by lia. rewrite Lt. cbn [Nat.sub nth].
  set (full := t ++ _) at 1. cbv zeta.
  repeat (apply Forall_cons in Br as [? Br]). unfold in_width in *.
  set (mid := u16 _). set (d := AdjustChecksum _ _ _).
  assert (Hmid : mid = 256 * z2 + z3).
  { unfold mid. rewrite Z.shiftl_mul_pow2 by lia. unfold wrap. rewrite Z.mod_small; lia. }
  assert (Bf : is_bytes full).
  { apply Forall_app. split; [done|]. repeat constructor; unfold in_width; lia. }
  assert (Lf : length full = 16%nat) by (unfold full; rewrite length_app, Lt; done).
  pose proof (wsum_bound _ Bf). pose proof (wsum_bound _ Bp). pose proof (wsum_bound _ B4).
  assert (A : forall l, is_bytes l -> (length l <= 16)%nat -> AddChecksum 0 l = wsum l).
  { intros l Hl Hn. rewrite AddChecksum_exact; [lia|unfold in_width; lia|done|lia]. }
  assert (Hd : (d - (mid + wsum v4 - (wsum pre + wsum full))) mod 65535 = 0).
  { unfold d. rewrite !A by (done || lia). rewrite (wrap_small 32) by width.
    apply AdjustChecksum_mod; unfold in_width; lia. }
  assert (Wd : in_width 16 d) by apply AdjustChecksum_width. unfold in_width in Wd.
  assert (E1 : u8 (Z.shiftr d 8) = d / 256).
  { rewrite Z.shiftr_div_pow2 by lia. apply wrap_small. unfold in_width. div_mod_lia. }
  assert (E2 : Z.land d 0xff = d mod 256) by (change 0xff with (Z.ones 8); by rewrite Z.land_ones by lia).
  rewrite E1, E2. rewrite neutral_wsum by done. fold full.
  clearbody d mid full. div_mod_lia.
Qed.

(** ** The search for a free address *)

Section Search.
Context (probe : Z -> option bool).

(** An address nobody uses: not handed out before and not bound locally. *)
Definition is_free (inUse : list Z) (a : Z) : Prop := a ∉ inUse /\ probe a = Some false.

Lemma IsIpv4AddressFree_spec inUse a :
  (is_free inUse a /\ IsIpv4AddressFree probe a inUse = (true, inUse ++ [a])) \/
  (~ is_free inUse a /\ IsIpv4AddressFree probe a inUse = (false, inUse)).
Proof.
  unfold is_free, IsIpv4AddressFree.
  destruct (decide (a ∈ inUse)) as [H|H].
  { rewrite (bool_decide_eq_true_2 _ H). right. split; [by intros [? _]|done]. }
  rewrite (bool_decide_eq_false_2 _ H).
  destruct (probe a) as [[]|]; [right|left|right]; (split; [|done]);
    solve [by intros [_ [=]] | done].
Qed.

Context (len : Z) (Hlen : 0 <= len <= 32).

(** The number of addresses of the subnet and its [k]-th address counted from
    [init], wrapping around. *)
Definition subnet_size : Z := 2 ^ (32 - len).
Definition nth_address (init k : Z) : Z := init / subnet_size * subnet_size + (init + k) mod subnet_size.

Lemma subnet_size_pos : 0 < subnet_size.
Proof. apply Z.pow_pos_nonneg; lia. Qed.

Lemma subnet_size_divides : subnet_size * 2 ^ len = 2 ^ 32.
Proof. unfold subnet_size. rewrite <- Z.pow_add_r by lia. f_equal; lia. Qed.

Lemma v4_mask_eq : v4_mask len = 2 ^ 32 - subnet_size.
Proof.
  unfold v4_mask, V4ADDR_BIT_LEN. destruct (Z.eqb_spec len 0) as [E0|Hn].
  { unfold subnet_size. by rewrite E0. }
  rewrite Z.shiftl_mul_pow2, Z.shiftr_div_pow2 by lia. fold subnet_size.
  pose proof subnet_size_pos. pose proof subnet_size_divides as D.
  pose proof (Z.pow_pos_nonneg 2 len).
  assert (E : 0xffffffff / subnet_size = 2 ^ len - 1).
  { symmetry. apply (Z.div_unique _ _ _ (subnet_size - 1)); nia. }
  rewrite E. replace ((2 ^ len - 1) * subnet_size) with (2 ^ 32 - subnet_size) by lia.
  apply wrap_small. unfold in_width. nia.
Qed.

Lemma land_mask x : in_width 32 x -> Z.land x (v4_mask len) = x / subnet_size * subnet_size.
Proof.
  intros Hx. pose proof subnet_size_pos as Hp. rewrite v4_mask_eq.
  unfold subnet_size in *. set (n := 32 - len) in *. assert (0 <= n <= 32) by lia.
  rewrite <- Z.shiftr_div_pow2, <- Z.shiftl_mul_pow2 by lia.
  replace (2 ^ 32 - 2 ^ n) with (Z.shiftl (Z.ones (32 - n)) n).
  2: { rewrite Z.shiftl_mul_pow2, Z.ones_equiv by lia.
       replace (2 ^ 32) with (2 ^ (32 - n) * 2 ^ n) by (rewrite <- Z.pow_add_r by lia; f_equal; lia). lia. }
  apply Z.bits_inj_iff'. intros i Hi.
  rewrite Z.land_spec, !Z.shiftl_spec by lia. destruct (Z_lt_le_dec i n).
  { rewrite !(Z.testbit_neg_r _ (i - n)) by lia. by rewrite andb_false_r. }
  rewrite Z.shiftr_spec, Z.sub_add by lia. destruct (Z_lt_le_dec i 32).
  - rewrite Z.ones_spec_low by lia. by rewrite andb_true_r.
  - by rewrite (testbit_high 32 x) by (done || lia).
Qed.

Lemma land_not_mask x : in_width 32 x -> Z.land x (u32 (Z.lnot (v4_mask len))) = x mod subnet_size.
Proof.
  intros Hx. pose proof subnet_size_pos as Hp. rewrite v4_mask_eq.
  assert (E : u32 (Z.lnot (2 ^ 32 - subnet_size)) = Z.ones (32 - len)).
  { rewrite Z.lnot_eq_pred_opp, Z.ones_equiv. fold subnet_size. unfold wrap. pose proof subnet_size_divides.
    pose proof (Z.pow_pos_nonneg 2 len). symmetry. apply (Z.mod_unique _ _ (-1)); nia. }
  rewrite E. by rewrite Z.land_ones by lia.
Qed.

Lemma lor_prefix q r : 0 <= r < subnet_size -> Z.lor (q * subnet_size) r = q * subnet_size + r.
Proof.
  intros Hr. unfold subnet_size in *. rewrite <- Z.shiftl_mul_pow2 by lia.
  rewrite <- Z.add_lor_land. assert (Z.land (Z.shiftl q (32 - len)) r = 0) as ->; [|lia].
  apply Z.bits_inj_iff'. intros i Hi. rewrite Z.land_spec, Z.bits_0.
  destruct (Z_lt_le_dec i (32 - len)).
  - by rewrite Z.shiftl_spec_low.
  - rewrite (testbit_high (32 - len) r) by width. by rewrite andb_false_r.
Qed.

Lemma nth_address_0 init : nth_address init 0 = init.
Proof.
  pose proof subnet_size_pos. unfold nth_address. rewrite Z.add_0_r.
  pose proof (Z.div_mod init subnet_size). lia.
Qed.

Lemma nth_address_width init k : in_width 32 init -> in_width 32 (nth_address init k).
Proof.
  unfold in_width, nth_address. intros Hi. pose proof subnet_size_pos. pose proof subnet_size_divides.
  pose proof (Z.mod_pos_bound (init + k) subnet_size). pose proof (Z.pow_pos_nonneg 2 len).
  assert (0 <= init / subnet_size < 2 ^ len) by (split; [apply Z.div_pos|apply Z.div_lt_upper_bound]; lia).
  nia.
Qed.

(** The step of the loop moves to the next address. *)
Lemma next_address init k : in_width 32 init ->
  Z.lor (Z.land init (v4_mask len)) (Z.land (u32 (nth_address init k + 1)) (u32 (Z.lnot (v4_mask len)))) =
  nth_address init (k + 1).
Proof.
  intros Hi. pose proof subnet_size_pos. rewrite land_mask, land_not_mask by (done || by apply wrap_range).
  rewrite lor_prefix by (apply Z.mod_pos_bound; lia). unfold nth_address. f_equal.
  unfold wrap. rewrite <- Znumtheory.Zmod_div_mod; [|lia|lia|].
  - replace (init / subnet_size * subnet_size + (init + k) mod subnet_size + 1)
      with ((init + k) mod subnet_size + 1 + init / subnet_size * subnet_size) by lia.
    rewrite Z.mod_add, Zplus_mod_idemp_l by lia. f_equal; lia.
  - exists (2 ^ len). rewrite <- subnet_size_divides. lia.
Qed.

Lemma nth_address_wraps init k : 0 < k <= subnet_size -> nth_address init k = init <-> k = subnet_size.
Proof.
  intros Hk. unfold nth_address. pose proof subnet_size_pos.
  pose proof (Z.div_mod init subnet_size). pose proof (Z.mod_pos_bound init subnet_size).
  set (r := init mod subnet_size) in *. set (q := init / subnet_size) in *.
  assert (E : (init + k) mod subnet_size = (r + k) mod subnet_size).
  { rewrite (Z.div_mod init subnet_size) by lia. fold r q.
    replace (subnet_size * q + r + k) with (r + k + q * subnet_size) by lia. by rewrite Z.mod_add by lia. }
  rewrite E. destruct (Z_lt_le_dec (r + k) subnet_size).
  - rewrite Z.mod_small by lia. lia.
  - assert ((r + k) mod subnet_size = r + k - subnet_size) as ->; [|lia].
    symmetry. destruct (Z.eq_dec (r + k) (2 * subnet_size)); [lia|]. apply (Z.mod_unique _ _ 1); lia.
Qed.

(** The result of the search: the first free address from [init] on, recorded
    as handed out, or [INADDR_NONE] when there is none. *)
Definition search_result (init : Z) (inUse : list Z) (r : Z * list Z) : Prop :=
  (exists k, 0 <= k < subnet_size /\ is_free inUse (htonl (nth_address init k)) /\
     (forall j, 0 <= j < k -> ~ is_free inUse (htonl (nth_address init j))) /\
     r = (htonl (nth_address init k), inUse ++ [htonl (nth_address init k)])) \/
  ((forall j, 0 <= j < subnet_size -> ~ is_free inUse (htonl (nth_address init j))) /\ r = (INADDR_NONE, inUse)).

Lemma search_total init inUse : in_width 32 init ->
  exists r, run (available_body probe (v4_mask len) (Z.land init (v4_mask len)) init) (2 ^ 32)%positive (init, inUse)
    = inr r /\ search_result init inUse r.
Proof.
  intros Hi. pose proof subnet_size_pos. pose proof subnet_size_divides. pose proof (Z.pow_pos_nonneg 2 len).
  set (at_k := fun (k : Z) (st : Z * list Z) => 0 <= k < subnet_size /\ st = (nth_address init k, inUse) /\
    forall j, 0 <= j < k -> ~ is_free inUse (htonl (nth_address init j))).
  set (Inv := fun st => exists k, at_k k st).
  set (m := fun st : Z * list Z => subnet_size - 1 - (st.1 - init) mod subnet_size).
  assert (Em : forall k, 0 <= k < subnet_size -> m (nth_address init k, inUse) = subnet_size - 1 - k).
  { intros k Hk. unfold m, nth_address. simpl. f_equal.
    replace (init / subnet_size * subnet_size + (init + k) mod subnet_size - init)
      with ((init + k) mod subnet_size - init mod subnet_size)
      by (pose proof (Z.div_mod init subnet_size); lia).
    rewrite <- Zminus_mod. rewrite Z.mod_small; lia. }
  apply run_total with (I := Inv) (m := m).
  - intros st (k & Hk & -> & Hj). unfold available_body.
    destruct (IsIpv4AddressFree_spec inUse (htonl (nth_address init k))) as [[Hf ->]|[Hf ->]].
    { left. exists k. done. }
    rewrite next_address by done. destruct (Z.eqb_spec (nth_address init (k + 1)) init) as [E|E].
    { right. split; [|done]. apply nth_address_wraps in E; [|lia]. intros j Hj'.
      destruct (Z.eq_dec j k) as [->|]; [done|]. apply Hj. lia. }
    assert (k + 1 < subnet_size).
    { destruct (Z.eq_dec (k + 1) subnet_size) as [E'|]; [|lia]. by rewrite <- nth_address_wraps in E' by lia. }
    rewrite !Em by lia. split; [|lia]. exists (k + 1). split; [lia|]. split; [done|]. intros j Hj'.
    destruct (Z.eq_dec j k) as [->|]; [done|]. apply Hj. lia.
  - exists 0. split; [lia|]. rewrite nth_address_0. split; [done|]. lia.
  - rewrite <- (nth_address_0 init) at 1. rewrite Em by lia. nia.
Qed.

(** The search for the IPv4 address of the tunnel terminates and tries the
    addresses of the subnet in order from the initial one, wrapping around: it
    returns the first free one and records it, or [INADDR_NONE], without
    recording anything, when none of the [2^(32-len)] addresses is free. *)
Theorem GetAvailableIpv4Address_first_free initV4Addr inUse : in_width 32 initV4Addr ->
  search_result (ntohl initV4Addr) inUse (GetAvailableIpv4Address probe initV4Addr len inUse).
Proof.
  intros Hi. unfold GetAvailableIpv4Address.
  rewrite (proj2 (Z.ltb_ge _ _)), (proj2 (Z.ltb_ge _ _)) by (unfold V4ADDR_BIT_LEN; lia). cbn [orb].
  destruct (search_total (ntohl initV4Addr) inUse) as (r & -> & Hr); [apply htonl_width|done].
Qed.

End Search.

(** 192.0.0.0/29 with the first address handed out and the second one bound
    locally: the third is chosen. *)
Lemma GetAvailableIpv4Address_first_free_witness :
  let probe a := Some (bool_decide (a = htonl 0xC0000001)) in
  in_width 32 (htonl 0xC0000000) /\
  search_result probe 29 (ntohl (htonl 0xC0000000)) [htonl 0xC0000000]
    (GetAvailableIpv4Address probe (htonl 0xC0000000) 29 [htonl 0xC0000000]) /\
  GetAvailableIpv4Address probe (htonl 0xC0000000) 29 [htonl 0xC0000000] =
    (htonl 0xC0000002, [htonl 0xC0000000; htonl 0xC0000002]).
Proof.
  intros probe. split; [split; by vm_compute|]. split; [|by vm_compute].
  apply (GetAvailableIpv4Address_first_free probe 29); [lia|split; by vm_compute].
Defined.

(** The address made by [MakeChecksumNeutral] keeps the interface's /64
    prefix and makes the translation checksum-neutral: whatever the random
    bytes are, the 16-bit words of the NAT64 prefix and of the new address sum
    up to those of the IPv4 address it stands for, modulo 65535. *)
Theorem MakeChecksumNeutral_neutral random v6 v4 pre :
  is_bytes random -> is_bytes v6 -> is_bytes v4 -> is_bytes pre ->
  length random = 8%nat -> length v6 = 16%nat -> length v4 = 4%nat -> length pre = 16%nat ->
  take 8 (MakeChecksumNeutral random v6 v4 pre) = take 8 v6 /\
  (wsum pre + wsum (MakeChecksumNeutral random v6 v4 pre)) mod 65535 = wsum v4 mod 65535.
Proof.
  intros Br B6 B4 Bp Lr L6 L4 Lp. split.
  - unfold MakeChecksumNeutral. rewrite !take_insert_ge by (simpl; lia).
    rewrite take_app_le by (rewrite length_take; unfold CLAT_V6ADDR_RANDOMIZE_OFFSET; lia).
    by rewrite take_take.
  - pose proof (MakeChecksumNeutral_sum random v6 v4 pre Br B6 B4 Bp Lr L6 L4 Lp). div_mod_lia.
Qed.

Lemma MakeChecksumNeutral_neutral_witness :
  let v6 := [0x20; 1; 0xd; 0xb8; 0; 0; 0; 1; 0; 0; 0; 0; 0; 0; 0; 1] in
  let pre := [0; 0x64; 0xff; 0x9b; 0; 0; 0; 0; 0; 0; 0; 0; 0; 0; 0; 0] in
  let random := [11; 22; 33; 44; 55; 66; 77; 88] in
  (wsum pre + wsum (MakeChecksumNeutral random v6 [192; 0; 0; 4] pre)) mod 65535 = wsum [192; 0; 0; 4] mod 65535.
Proof.
  intros v6 pre random.
  apply (MakeChecksumNeutral_neutral random v6 [192; 0; 0; 4] pre);
    try done; repeat constructor; done.
Defined.

End ClatUtils.
