(* ===== verification/Clat.v ===== *)
(** * Packet translation of the 464XLAT translator
    (services/netmanagernative/src/netsys/clatd_packet_converter.cpp, and the
    packet built by clatd.cpp)

    A [ClatdPacketConverter] turns one IPv4 packet into an IPv6 packet or back,
    with the IP headers quoted in ICMP errors, as a list of buffers that are
    sent one after the other.  The headers are records whose multi-byte fields
    hold the little-endian reading of the bytes in memory, as the C structures
    do, so that [htons] and [htonl] appear where the source has them.

    An [option] result is [None] when the source would read outside a buffer. *)

From S2P Require Import Prelude ClatUtils.
Import ClatUtils.
Open Scope word_scope.

Module Clat.

Definition NETMANAGER_SUCCESS : Z := 0.
Definition NETMANAGER_ERR_INVALID_PARAMETER : Z := 2100001.
Definition NETMANAGER_ERR_OPERATION_FAILED : Z := 2100002.

(** ** Constants of the protocols *)

Definition IPPROTO_ICMP : Z := 1.
Definition IPPROTO_TCP : Z := 6.
Definition IPPROTO_UDP : Z := 17.
Definition IPPROTO_FRAGMENT : Z := 44.
Definition IPPROTO_GRE : Z := 47.
Definition IPPROTO_ESP : Z := 50.
Definition IPPROTO_ICMPV6 : Z := 58.
Definition IPVERSION : Z := 4.
Definition IP_DF : Z := 0x4000.
Definition IP_MF : Z := 0x2000.
Definition IP_OFFMASK : Z := 0x1fff.
(** In memory order on a little-endian machine. *)
Definition IP6F_OFF_MASK : Z := 0xf8ff.
Definition IP6F_MORE_FRAG : Z := 0x0100.

Definition ICMP_ECHOREPLY : Z := 0.
Definition ICMP_DEST_UNREACH : Z := 3.
Definition ICMP_ECHO : Z := 8.
Definition ICMP_TIME_EXCEEDED : Z := 11.
Definition ICMP_PARAMETERPROB : Z := 12.
Definition ICMP_UNREACH_NET : Z := 0.
Definition ICMP_UNREACH_HOST : Z := 1.
Definition ICMP_UNREACH_PORT : Z := 3.
Definition ICMP_UNREACH_SRCFAIL : Z := 5.
Definition ICMP_UNREACH_NET_UNKNOWN : Z := 6.
Definition ICMP_UNREACH_HOST_UNKNOWN : Z := 7.
Definition ICMP_UNREACH_ISOLATED : Z := 8.
Definition ICMP_UNREACH_NET_PROHIB : Z := 9.
Definition ICMP_UNREACH_HOST_PROHIB : Z := 10.
Definition ICMP_UNREACH_TOSNET : Z := 11.
Definition ICMP_UNREACH_TOSHOST : Z := 12.
Definition ICMP_UNREACH_FILTER_PROHIB : Z := 13.
Definition ICMP_UNREACH_PRECEDENCE_CUTOFF : Z := 15.
Definition ICMP6_DST_UNREACH : Z := 1.
Definition ICMP6_TIME_EXCEEDED : Z := 3.
Definition ICMP6_PARAM_PROB : Z := 4.
Definition ICMP6_ECHO_REQUEST : Z := 128.
Definition ICMP6_ECHO_REPLY : Z := 129.
Definition ICMP6_DST_UNREACH_NOROUTE : Z := 0.
Definition ICMP6_DST_UNREACH_ADMIN : Z := 1.
Definition ICMP6_DST_UNREACH_BEYONDSCOPE : Z := 2.
Definition ICMP6_DST_UNREACH_ADDR : Z := 3.
Definition ICMP6_DST_UNREACH_NOPORT : Z := 4.

Definition TCP_HDR_MIN_LEN : Z := 20.
Definition TCP_HDR_MAX_LEN : Z := 60.
Definition IPV4_HDR_MIN_LEN : Z := 20.
Definition IPV6_HDR_LEN : Z := 40.
Definition WORD_32BIT_IN_BYTE_UNIT : Z := 4.
Definition IPV6_VERSION_FLAG : Z := 0x60.
Definition CLAT_PREFIX_BYTE_LEN : nat := 12.
Definition IPV6_FRAG_OFFSET_BIT_SUPPLEMENTARY : Z := 3.
Definition IP_TP_PACKET_POSITION_DELTA : nat := 2.
Definition TP_CSUM_UNNECESSARY : Z := 1.
Definition ETH_P_IP : Z := 0x0800.

(** [enum ClatdPacketPosition], the index of a buffer. *)
Definition CLATD_TUNHDR : nat := 0.
Definition CLATD_IPHDR : nat := 1.
Definition CLATD_TPHDR : nat := 3.
Definition CLATD_PAYLOAD : nat := 7.
Definition CLATD_MAX : nat := 8.

Inductive ClatdConvertType := CONVERT_FROM_V6_TO_V4 | CONVERT_FROM_V4_TO_V6.

(** ** Memory *)

Fixpoint le_bytes (n : nat) (x : Z) : bytes :=
  match n with O => [] | S n => x mod 256 :: le_bytes n (x / 256) end.
Fixpoint le (l : bytes) : Z :=
  match l with [] => 0 | b :: r => b + 256 * le r end.

(** [n] bytes at an offset. *)
Definition sub (off n : nat) (l : bytes) : bytes := take n (drop off l).
Definition byte (l : bytes) (off : nat) : Z := nth off l 0.
Definition splice (off : nat) (new l : bytes) : bytes := take off l ++ new ++ drop (off + length new) l.

(** ** Headers *)

Record iphdr := mkIphdr {
  ihl : Z; version : Z; tos : Z; tot_len : Z; id : Z; frag_off : Z;
  ttl : Z; protocol : Z; check : Z; saddr : Z; daddr : Z
}.
Definition IPHDR_SIZE : nat := 20.

Definition read_iphdr (p : bytes) : option iphdr :=
  if (length p <? IPHDR_SIZE)%nat then None
  else Some (mkIphdr (byte p 0 mod 16) (byte p 0 / 16) (byte p 1) (le (sub 2 2 p)) (le (sub 4 2 p))
    (le (sub 6 2 p)) (byte p 8) (byte p 9) (le (sub 10 2 p)) (le (sub 12 4 p)) (le (sub 16 4 p))).

Definition iphdr_bytes (h : iphdr) : bytes :=
  [ihl h + 16 * version h; tos h] ++ le_bytes 2 (tot_len h) ++ le_bytes 2 (id h) ++ le_bytes 2 (frag_off h) ++
  [ttl h; protocol h] ++ le_bytes 2 (check h) ++ le_bytes 4 (saddr h) ++ le_bytes 4 (daddr h).

(** The three bytes after the version are left as the stack had them. *)
Record ip6_hdr := mkIp6Hdr {
  ip6_vfc : Z; ip6_flow_rest : bytes; ip6_plen : Z; ip6_nxt : Z; ip6_hlim : Z;
  ip6_src : bytes; ip6_dst : bytes
}.
Definition IP6_HDR_SIZE : nat := 40.

Definition read_ip6_hdr (p : bytes) : option ip6_hdr :=
  if (length p <? IP6_HDR_SIZE)%nat then None
  else Some (mkIp6Hdr (byte p 0) (sub 1 3 p) (le (sub 4 2 p)) (byte p 6) (byte p 7) (sub 8 16 p) (sub 24 16 p)).

Definition ip6_hdr_bytes (h : ip6_hdr) : bytes :=
  ip6_vfc h :: ip6_flow_rest h ++ le_bytes 2 (ip6_plen h) ++ [ip6_nxt h; ip6_hlim h] ++ ip6_src h ++ ip6_dst h.

Definition set_ip6_plen (x : Z) (h : ip6_hdr) : ip6_hdr :=
  mkIp6Hdr (ip6_vfc h) (ip6_flow_rest h) x (ip6_nxt h) (ip6_hlim h) (ip6_src h) (ip6_dst h).
Definition set_ip6_nxt (x : Z) (h : ip6_hdr) : ip6_hdr :=
  mkIp6Hdr (ip6_vfc h) (ip6_flow_rest h) (ip6_plen h) x (ip6_hlim h) (ip6_src h) (ip6_dst h).
Definition set_tot_len (x : Z) (h : iphdr) : iphdr :=
  mkIphdr (ihl h) (version h) (tos h) x (id h) (frag_off h) (ttl h) (protocol h) (check h) (saddr h) (daddr h).
Definition set_check (x : Z) (h : iphdr) : iphdr :=
  mkIphdr (ihl h) (version h) (tos h) (tot_len h) (id h) (frag_off h) (ttl h) (protocol h) x (saddr h) (daddr h).
Definition set_frag (fo i pr : Z) (h : iphdr) : iphdr :=
  mkIphdr (ihl h) (version h) (tos h) (tot_len h) i fo (ttl h) pr (check h) (saddr h) (daddr h).

Record ip6_frag := mkIp6Frag { ip6f_nxt : Z; ip6f_reserved : Z; ip6f_offlg : Z; ip6f_ident : Z }.
Definition IP6_FRAG_SIZE : nat := 8.

Definition read_ip6_frag (p : bytes) : option ip6_frag :=
  if (length p <? IP6_FRAG_SIZE)%nat then None
  else Some (mkIp6Frag (byte p 0) (byte p 1) (le (sub 2 2 p)) (le (sub 4 4 p))).

Definition ip6_frag_bytes (h : ip6_frag) : bytes :=
  [ip6f_nxt h; ip6f_reserved h] ++ le_bytes 2 (ip6f_offlg h) ++ le_bytes 4 (ip6f_ident h).

(** [icmphdr] and [icmp6_hdr] have the same layout; the last four bytes are
    the identifier and sequence number of an echo. *)
Record icmphdr := mkIcmp { icmp_type : Z; icmp_code : Z; icmp_checksum : Z; icmp_un : bytes }.
Definition ICMPHDR_SIZE : nat := 8.

Definition read_icmphdr (p : bytes) : option icmphdr :=
  if (length p <? ICMPHDR_SIZE)%nat then None
  else Some (mkIcmp (byte p 0) (byte p 1) (le (sub 2 2 p)) (sub 4 4 p)).

Definition icmphdr_bytes (h : icmphdr) : bytes :=
  [icmp_type h; icmp_code h] ++ le_bytes 2 (icmp_checksum h) ++ icmp_un h.

(** [tcphdr::doff] and the offsets of the two checksums. *)
Definition TCPHDR_SIZE : nat := 20.
Definition UDPHDR_SIZE : nat := 8.
Definition TCP_CHECK : nat := 16.
Definition UDP_CHECK : nat := 6.
Definition read_doff (p : bytes) : option Z :=
  if (length p <? TCPHDR_SIZE)%nat then None else Some (byte p 12 / 16).

(** ** The converter *)

(** The buffers; [iovBufs_[i]] is meant to hold [iovBufLens_[i]] bytes. *)
Record conv := mkConv { iovBufs_ : list bytes; iovBufLens_ : list nat; effectivePos_ : nat }.
Definition new_conv : conv := mkConv (replicate CLATD_MAX []) (replicate CLATD_MAX 0%nat) 0.

Definition set_len (pos n : nat) (c : conv) : conv :=
  mkConv (iovBufs_ c) (<[pos := n]> (iovBufLens_ c)) (effectivePos_ c).
Definition set_buf (pos : nat) (b : bytes) (c : conv) : conv :=
  mkConv (<[pos := b]> (iovBufs_ c)) (iovBufLens_ c) (effectivePos_ c).
Definition set_pos (n : nat) (c : conv) : conv := mkConv (iovBufs_ c) (iovBufLens_ c) n.

(** The members that a conversion only reads. [stack pos i] is the byte that
    an uninitialised local header of the conversion at [pos] has at [i]. *)
Record config := mkConfig {
  localV4Addr_ : Z; localV6Addr_ : bytes; prefixAddr_ : bytes; stack : nat -> nat -> Z
}.

(** The indeterminate bytes are whatever bytes the stack held. *)
Definition stack_bytes (g : config) (pos off n : nat) : bytes := map (fun i => stack g pos i mod 256) (seq off n).

Definition lenZ (p : bytes) : Z := Z.of_nat (length p).

Section Converter.
Context (g : config).

Definition IsV4PacketValid (p : bytes) : option bool :=
  if (length p <? IPHDR_SIZE)%nat then Some false
  else h ← read_iphdr p;
       if ihl h * WORD_32BIT_IN_BYTE_UNIT <? IPV4_HDR_MIN_LEN then Some false
       else if lenZ p <? ihl h * WORD_32BIT_IN_BYTE_UNIT then Some false
       else Some (version h =? IPVERSION).

Definition same_prefix (v6 : bytes) : bool :=
  bool_decide (take CLAT_PREFIX_BYTE_LEN (prefixAddr_ g) = take CLAT_PREFIX_BYTE_LEN v6).

Definition IsV6PacketValid (p : bytes) : option bool :=
  if (length p <? IP6_HDR_SIZE)%nat then Some false
  else h ← read_ip6_hdr p;
       if byte (ip6_dst h) 0 =? 0xff then Some false
       else if negb (same_prefix (ip6_src h) && bool_decide (ip6_dst h = localV6Addr_ g))
            && negb (same_prefix (ip6_dst h) && bool_decide (ip6_src h = localV6Addr_ g))
            && negb (ip6_nxt h =? IPPROTO_ICMPV6)
       then Some false else Some true.

Definition ConvertV4Address (v4 : Z) : bytes :=
  if v4 =? localV4Addr_ g then localV6Addr_ g
  else take CLAT_PREFIX_BYTE_LEN (prefixAddr_ g) ++ le_bytes 4 v4.

Definition ConvertV6Address (v6 : bytes) : Z :=
  if same_prefix v6 then le (sub CLAT_PREFIX_BYTE_LEN 4 v6)
  else if bool_decide (v6 = localV6Addr_ g) then localV4Addr_ g
  else INADDR_NONE.

Definition WriteIpv6Header (pos : nat) (tpProtocol : Z) (h : iphdr) : ip6_hdr :=
  mkIp6Hdr IPV6_VERSION_FLAG (stack_bytes g pos 1 3) 0 tpProtocol (ttl h)
    (ConvertV4Address (saddr h)) (ConvertV4Address (daddr h)).

Definition WriteIpv4Header (tpProtocol : Z) (h : ip6_hdr) : iphdr :=
  let src := ConvertV6Address (ip6_src h) in
  mkIphdr (IPV4_HDR_MIN_LEN / WORD_32BIT_IN_BYTE_UNIT) IPVERSION 0 (htons (Z.of_nat IPHDR_SIZE)) 0 (htons IP_DF)
    (ip6_hlim h) tpProtocol 0
    (if src =? INADDR_NONE then htonl (u32 ((0xffffff .<< 8) + ip6_hlim h)) else src)
    (ConvertV6Address (ip6_dst h)).

(** [None] stands for the returned length zero. *)
Definition WriteFragHeader (h6 : ip6_hdr) (h : iphdr) : option ip6_frag * ip6_hdr :=
  let fragValue := ntohs (frag_off h) in
  let fragOffset := fragValue .& IP_OFFMASK in
  if (fragOffset =? 0) && (fragValue .& IP_MF =? 0) then (None, h6)
  else
    let offlg := htons (u16 (fragOffset .<< IPV6_FRAG_OFFSET_BIT_SUPPLEMENTARY)) in
    let offlg := if fragValue .& IP_MF =? 0 then offlg else offlg .| IP6F_MORE_FRAG in
    (Some (mkIp6Frag (ip6_nxt h6) 0 offlg (htonl (ntohs (id h)))), set_ip6_nxt IPPROTO_FRAGMENT h6).

(** The new header and the two protocols. *)
Definition ProcessFragHeader (f : ip6_frag) (h : iphdr) : iphdr * Z * Z :=
  let fragOffset := ntohs (ip6f_offlg f .& IP6F_OFF_MASK) .>> IPV6_FRAG_OFFSET_BIT_SUPPLEMENTARY in
  let fragOffset := if ip6f_offlg f .& IP6F_MORE_FRAG =? 0 then fragOffset else fragOffset .| IP_MF in
  let v6TpProtocol := ip6f_nxt f in
  let v4TpProtocol := if v6TpProtocol =? IPPROTO_ICMPV6 then IPPROTO_ICMP else v6TpProtocol in
  (set_frag (htons fragOffset) (htons (ntohl (ip6f_ident f) .& 0xffff)) v4TpProtocol h, v6TpProtocol, v4TpProtocol).

Definition CalV4PseudoHeaderChecksum (h : iphdr) (tpLen tpProtocol : Z) : Z :=
  let sum := AddChecksum 0 (le_bytes 4 (saddr h)) in
  let sum := AddChecksum sum (le_bytes 4 (daddr h)) in
  let sum := AddChecksum sum (le_bytes 2 (htons (u16 tpLen))) in
  AddChecksum sum (le_bytes 2 (htons tpProtocol)).

Definition CalV6PseudoHeaderChecksum (h : ip6_hdr) (tpLen tpProtocol : Z) : Z :=
  let sum := AddChecksum 0 (ip6_src h) in
  let sum := AddChecksum sum (ip6_dst h) in
  let sum := AddChecksum sum (le_bytes 4 (htonl (u32 tpLen))) in
  AddChecksum sum (le_bytes 4 (htonl tpProtocol)).

Definition GetIovPacketLength (pos : nat) (c : conv) : Z :=
  u16 (Z.of_nat (sum_list (drop (S pos) (iovBufLens_ c)))).

(** The loop over the buffers from [pos] on; a buffer shorter than its length
    is read past its end. *)
Fixpoint add_bufs (sum : Z) (lens : list nat) (bufs : list bytes) : option Z :=
  match lens, bufs with
  | n :: lens, b :: bufs =>
      if (0 <? n)%nat then
        if (length b <? n)%nat then None else add_bufs (AddChecksum sum (take n b)) lens bufs
      else add_bufs sum lens bufs
  | _, _ => Some sum
  end.
Definition CalIovPacketChecksum (sum : Z) (pos : nat) (c : conv) : option Z :=
  s ← add_bufs sum (drop pos (iovBufLens_ c)) (drop pos (iovBufs_ c)); Some (u16 (Z.lnot (Checksum32To16 s))).

Definition WritePayload (pos : nat) (tp : bytes) (c : conv) : conv :=
  set_pos CLATD_MAX (set_len CLATD_PAYLOAD (length tp) (set_buf CLATD_PAYLOAD tp
    (set_len (pos + IP_TP_PACKET_POSITION_DELTA) 0 c))).

(** ** Transport headers. [tp] is the region of [tpLen] bytes at the header. *)

(** Every rejection also resets [effectivePos_]; the caller below does so. *)
Definition IsTcpPacketValid (tp : bytes) : option bool :=
  if (length tp <? TCPHDR_SIZE)%nat then Some false
  else doff ← read_doff tp;
       if doff * WORD_32BIT_IN_BYTE_UNIT <? TCP_HDR_MIN_LEN then Some false
       else if lenZ tp <? doff * WORD_32BIT_IN_BYTE_UNIT then Some false
       else if TCP_HDR_MAX_LEN <? doff * WORD_32BIT_IN_BYTE_UNIT then Some false
       else Some true.

Definition ConvertTcpPacket (pos : nat) (tp : bytes) (oldChecksum newChecksum : Z) (c : conv) : option (Z * conv) :=
  valid ← IsTcpPacketValid tp;
  if negb valid then Some (NETMANAGER_ERR_INVALID_PARAMETER, set_pos 0 c)
  else
    doff ← read_doff tp;
    let tcpHdrLen := Z.to_nat (doff * WORD_32BIT_IN_BYTE_UNIT) in
    let c := set_len pos tcpHdrLen c in
    let c := set_buf CLATD_PAYLOAD (drop tcpHdrLen tp) c in
    let c := set_len CLATD_PAYLOAD (length tp - tcpHdrLen) c in
    let newCheck := AdjustChecksum (le (sub TCP_CHECK 2 tp)) oldChecksum newChecksum in
    let c := set_buf pos (splice TCP_CHECK (le_bytes 2 newCheck) (take tcpHdrLen tp)) c in
    Some (NETMANAGER_SUCCESS, set_pos (S CLATD_PAYLOAD) c).

Definition ConvertUdpPacket (pos : nat) (tp : bytes) (oldChecksum newChecksum : Z) (c : conv) : option (Z * conv) :=
  if (length tp <? UDPHDR_SIZE)%nat then Some (NETMANAGER_ERR_INVALID_PARAMETER, set_pos 0 c)
  else
    let c := set_len pos UDPHDR_SIZE c in
    let c := set_len CLATD_PAYLOAD (length tp - UDPHDR_SIZE) c in
    let c := set_buf CLATD_PAYLOAD (drop UDPHDR_SIZE tp) c in
    let udpHeader := take UDPHDR_SIZE tp in
    let check := le (sub UDP_CHECK 2 tp) in
    cc ← (if check =? 0 then
            let c := set_buf pos udpHeader c in
            k ← CalIovPacketChecksum newChecksum pos c; Some (k, c)
          else Some (AdjustChecksum check oldChecksum newChecksum, c));
    let '(check, c) := cc in
    let check := if check =? 0 then 0xffff else check in
    let c := set_buf pos (splice UDP_CHECK (le_bytes 2 check) udpHeader) c in
    Some (NETMANAGER_SUCCESS, set_pos (S CLATD_PAYLOAD) c).

(** The new type and code; an unknown message gets the type of a parameter
    problem and, in the code, what the stack held. *)
Definition ConvertIcmpTypeAndCode (junk icmpType icmpCode : Z) : Z * Z :=
  if icmpType =? ICMP_ECHO then (ICMP6_ECHO_REQUEST, icmpCode)
  else if icmpType =? ICMP_ECHOREPLY then (ICMP6_ECHO_REPLY, icmpCode)
  else if icmpType =? ICMP_TIME_EXCEEDED then (ICMP6_TIME_EXCEEDED, icmpCode)
  else if icmpType =? ICMP_DEST_UNREACH then
    if bool_decide (icmpCode ∈ [ICMP_UNREACH_NET; ICMP_UNREACH_HOST; ICMP_UNREACH_SRCFAIL; ICMP_UNREACH_NET_UNKNOWN;
         ICMP_UNREACH_HOST_UNKNOWN; ICMP_UNREACH_ISOLATED; ICMP_UNREACH_TOSNET; ICMP_UNREACH_TOSHOST])
    then (ICMP6_DST_UNREACH, ICMP6_DST_UNREACH_NOROUTE)
    else if icmpCode =? ICMP_UNREACH_PORT then (ICMP6_DST_UNREACH, ICMP6_DST_UNREACH_NOPORT)
    else if bool_decide (icmpCode ∈ [ICMP_UNREACH_NET_PROHIB; ICMP_UNREACH_HOST_PROHIB; ICMP_UNREACH_FILTER_PROHIB;
         ICMP_UNREACH_PRECEDENCE_CUTOFF])
    then (ICMP6_DST_UNREACH, ICMP6_DST_UNREACH_ADMIN)
    else (ICMP6_PARAM_PROB, junk)
  else (ICMP6_PARAM_PROB, junk).

Definition ConvertIcmpV6TypeAndCode (junk icmp6Type icmp6Code : Z) : Z * Z :=
  if icmp6Type =? ICMP6_ECHO_REQUEST then (ICMP_ECHO, icmp6Code)
  else if icmp6Type =? ICMP6_ECHO_REPLY then (ICMP_ECHOREPLY, icmp6Code)
  else if icmp6Type =? ICMP6_TIME_EXCEEDED then (ICMP_TIME_EXCEEDED, icmp6Code)
  else if icmp6Type =? ICMP6_DST_UNREACH then
    if bool_decide (icmp6Code ∈ [ICMP6_DST_UNREACH_NOROUTE; ICMP6_DST_UNREACH_BEYONDSCOPE; ICMP6_DST_UNREACH_ADDR])
    then (ICMP_DEST_UNREACH, ICMP_UNREACH_HOST)
    else if icmp6Code =? ICMP6_DST_UNREACH_ADMIN then (ICMP_DEST_UNREACH, ICMP_UNREACH_HOST_PROHIB)
    else if icmp6Code =? ICMP6_DST_UNREACH_NOPORT then (ICMP_DEST_UNREACH, ICMP_UNREACH_PORT)
    else (ICMP_PARAMETERPROB, junk)
  else (ICMP_PARAMETERPROB, junk).

(** The part of the two ICMP conversions that stores the header twice: with a
    zero checksum to compute it, then with it. *)
Definition store_icmp (pos : nat) (type code sum : Z) (un : bytes) (c : conv) : option conv :=
  let c := set_buf pos (icmphdr_bytes (mkIcmp type code 0 un)) c in
  k ← CalIovPacketChecksum sum pos c;
  Some (set_buf pos (icmphdr_bytes (mkIcmp type code k un)) c).

(** The echo of both: the rest of the packet is the payload. *)
Definition echo_payload (payload : bytes) (c : conv) : conv :=
  set_pos (S CLATD_PAYLOAD) (set_len CLATD_PAYLOAD (length payload) (set_buf CLATD_PAYLOAD payload c)).

(** [rec] converts a packet quoted in an error. *)
Definition ConvertIcmpPacket (rec : nat -> bytes -> conv -> option (Z * conv))
    (pos : nat) (tp : bytes) (checksum : Z) (c : conv) : option (Z * conv) :=
  if (length tp <? ICMPHDR_SIZE)%nat then Some (NETMANAGER_ERR_INVALID_PARAMETER, set_pos 0 c)
  else
    h ← read_icmphdr tp;
    let '(type, code) := ConvertIcmpTypeAndCode (stack g pos 1 mod 256) (icmp_type h) (icmp_code h) in
    let c := set_len pos ICMPHDR_SIZE c in
    let payload := drop ICMPHDR_SIZE tp in
    r ← (if (pos =? CLATD_TPHDR)%nat && ((type =? ICMP6_DST_UNREACH) || (type =? ICMP6_TIME_EXCEEDED)) then
           rc ← rec (S pos) payload c;
           Some (rc.1, rc.2, u32 (checksum + htons (IPV6_HDR_LEN - IPV4_HDR_MIN_LEN)), stack_bytes g pos 4 4)
         else if (type =? ICMP6_ECHO_REQUEST) || (type =? ICMP6_ECHO_REPLY) then
           Some (NETMANAGER_SUCCESS, echo_payload payload c, checksum, icmp_un h)
         else Some (NETMANAGER_ERR_INVALID_PARAMETER, set_pos 0 c, checksum, stack_bytes g pos 4 4));
    let '(ret, c, checksum, un) := r in
    c ← store_icmp pos type code checksum un c;
    Some (ret, c).

Definition ConvertIcmpv6Packet (rec : nat -> bytes -> conv -> option (Z * conv))
    (pos : nat) (tp : bytes) (c : conv) : option (Z * conv) :=
  if (length tp <? ICMPHDR_SIZE)%nat then Some (NETMANAGER_ERR_INVALID_PARAMETER, set_pos 0 c)
  else
    h ← read_icmphdr tp;
    let '(type, code) := ConvertIcmpV6TypeAndCode (stack g pos 1 mod 256) (icmp_type h) (icmp_code h) in
    let c := set_len pos ICMPHDR_SIZE c in
    let payload := drop ICMPHDR_SIZE tp in
    r ← (if (pos =? CLATD_TPHDR)%nat && (icmp_type h <? ICMP6_ECHO_REQUEST) && negb (type =? ICMP_PARAMETERPROB) then
           rc ← rec (S pos) payload c; Some (rc.1, rc.2, stack_bytes g pos 4 4)
         else if (type =? ICMP_ECHO) || (type =? ICMP_ECHOREPLY) then
           Some (NETMANAGER_SUCCESS, echo_payload payload c, icmp_un h)
         else Some (NETMANAGER_ERR_INVALID_PARAMETER, set_pos 0 c, stack_bytes g pos 4 4));
    let '(ret, c, un) := r in
    c ← store_icmp pos type code 0 un c;
    Some (ret, c).

(** ** From IPv4 to IPv6 *)

Definition ConvertV4TpPacket (rec : nat -> bytes -> conv -> option (Z * conv))
    (pos : nat) (h : iphdr) (h6 : ip6_hdr) (tp : bytes) (v6TpProtocol : Z) (c : conv) : option (Z * conv) :=
  let oldChecksum := CalV4PseudoHeaderChecksum h (lenZ tp) (protocol h) in
  let newChecksum := CalV6PseudoHeaderChecksum h6 (lenZ tp) v6TpProtocol in
  let tpPos := (pos + IP_TP_PACKET_POSITION_DELTA)%nat in
  r ← (if v6TpProtocol =? IPPROTO_ICMPV6 then ConvertIcmpPacket rec tpPos tp newChecksum c
       else if v6TpProtocol =? IPPROTO_TCP then ConvertTcpPacket tpPos tp oldChecksum newChecksum c
       else if v6TpProtocol =? IPPROTO_UDP then ConvertUdpPacket tpPos tp oldChecksum newChecksum c
       else if (v6TpProtocol =? IPPROTO_GRE) || (v6TpProtocol =? IPPROTO_ESP) then
         Some (NETMANAGER_SUCCESS, WritePayload pos tp c)
       else Some (NETMANAGER_ERR_INVALID_PARAMETER, c));
  let '(ret, c) := r in
  let h6 := set_ip6_plen (htons (GetIovPacketLength pos c)) h6 in
  Some (ret, set_buf pos (ip6_hdr_bytes h6) c).

(** The recursion is on the depth of quoted packets. *)
Fixpoint ConvertV4Packet (depth : nat) (pos : nat) (p : bytes) (c : conv) : option (Z * conv) :=
  match depth with
  | O => None
  | S depth =>
      valid ← IsV4PacketValid p;
      if negb valid then Some (NETMANAGER_ERR_INVALID_PARAMETER, c)
      else
        h ← read_iphdr p;
        let v6TpProtocol := if protocol h =? IPPROTO_ICMP then IPPROTO_ICMPV6 else protocol h in
        let h6 := WriteIpv6Header pos v6TpProtocol h in
        let c := set_len pos IP6_HDR_SIZE c in
        let '(frag, h6) := WriteFragHeader h6 h in
        let fragBytes := match frag with Some f => ip6_frag_bytes f | None => [] end in
        let c := set_buf (S pos) fragBytes (set_len (S pos) (length fragBytes) c) in
        let tp := drop (Z.to_nat (ihl h * WORD_32BIT_IN_BYTE_UNIT)) p in
        if match frag with Some f => negb (ip6f_offlg f .& IP6F_OFF_MASK =? 0) | None => false end then
          let c := WritePayload pos tp c in
          let h6 := set_ip6_plen (htons (GetIovPacketLength pos c)) h6 in
          Some (NETMANAGER_SUCCESS, set_buf pos (ip6_hdr_bytes h6) c)
        else ConvertV4TpPacket (ConvertV4Packet depth) pos h h6 tp v6TpProtocol c
  end.

(** ** From IPv6 to IPv4 *)

(** The end of a conversion: the lengths and the checksum of the header. *)
Definition finish_v4 (pos : nat) (h : iphdr) (c : conv) : conv :=
  let h := set_tot_len (htons (u16 (ntohs (tot_len h) + GetIovPacketLength pos c))) h in
  let h := set_check (CalChecksum (iphdr_bytes h)) h in
  set_buf pos (iphdr_bytes h) c.

(** [tp] is the region of [tpLen] bytes after the fixed header, also when a
    fragment header follows it. *)
Definition ConvertV6TpPacket (rec : nat -> bytes -> conv -> option (Z * conv))
    (pos : nat) (h6 : ip6_hdr) (h : iphdr) (tp : bytes) (v4TpProtocol : Z) (c : conv) : option (Z * conv) :=
  let v6TpProtocol := ip6_nxt h6 in
  let oldChecksum := CalV6PseudoHeaderChecksum h6 (lenZ tp) v6TpProtocol in
  let newChecksum := CalV4PseudoHeaderChecksum h (lenZ tp) v4TpProtocol in
  let tpPos := (pos + IP_TP_PACKET_POSITION_DELTA)%nat in
  r ← (if v4TpProtocol =? IPPROTO_ICMP then ConvertIcmpv6Packet rec tpPos tp c
       else if v4TpProtocol =? IPPROTO_TCP then ConvertTcpPacket tpPos tp oldChecksum newChecksum c
       else if v4TpProtocol =? IPPROTO_UDP then ConvertUdpPacket tpPos tp oldChecksum newChecksum c
       else if (v4TpProtocol =? IPPROTO_GRE) || (v4TpProtocol =? IPPROTO_ESP) then
         Some (NETMANAGER_SUCCESS, WritePayload pos tp c)
       else Some (NETMANAGER_ERR_INVALID_PARAMETER, c));
  let '(ret, c) := r in
  Some (ret, finish_v4 pos h c).

Fixpoint ConvertV6Packet (depth : nat) (pos : nat) (p : bytes) (c : conv) : option (Z * conv) :=
  match depth with
  | O => None
  | S depth =>
      valid ← IsV6PacketValid p;
      if negb valid then Some (NETMANAGER_ERR_INVALID_PARAMETER, c)
      else
        h6 ← read_ip6_hdr p;
        let v6TpProtocol := ip6_nxt h6 in
        let v4TpProtocol := if v6TpProtocol =? IPPROTO_ICMPV6 then IPPROTO_ICMP else v6TpProtocol in
        let h := WriteIpv4Header v4TpProtocol h6 in
        let c := set_len pos IPHDR_SIZE c in
        let rest := drop IP6_HDR_SIZE p in
        if v6TpProtocol =? IPPROTO_FRAGMENT then
          if (length rest <? IP6_FRAG_SIZE)%nat then Some (NETMANAGER_ERR_INVALID_PARAMETER, set_pos 0 c)
          else
            f ← read_ip6_frag rest;
            let '(h, _, v4TpProtocol) := ProcessFragHeader f h in
            if negb (ip6f_offlg f .& IP6F_OFF_MASK =? 0) then
              Some (NETMANAGER_SUCCESS, finish_v4 pos h (WritePayload pos (drop IP6_FRAG_SIZE rest) c))
            else
              ConvertV6TpPacket (ConvertV6Packet depth) pos h6 h
                (take (length rest - IP6_FRAG_SIZE) rest) v4TpProtocol c
        else ConvertV6TpPacket (ConvertV6Packet depth) pos h6 h rest v4TpProtocol c
  end.

Definition WriteTunHeader (skip_csum : bool) (c : conv) : conv :=
  let flags := if skip_csum then htons TP_CSUM_UNNECESSARY else 0 in
  let b := le_bytes 2 flags ++ le_bytes 2 (htons ETH_P_IP) in
  set_buf CLATD_TUNHDR b (set_len CLATD_TUNHDR (length b) c).

(** A quoted packet is not itself searched for quoted packets, so that a
    depth of two is never exceeded. *)
Definition ConvertPacket (type : ClatdConvertType) (skip_csum : bool) (p : bytes) : option (Z * conv) :=
  match type with
  | CONVERT_FROM_V4_TO_V6 => ConvertV4Packet 2 CLATD_IPHDR p new_conv
  | CONVERT_FROM_V6_TO_V4 =>
      r ← ConvertV6Packet 2 CLATD_IPHDR p new_conv;
      let '(ret, c) := r in
      if negb (ret =? NETMANAGER_SUCCESS) then Some (ret, c)
      else if (0 <? effectivePos_ c)%nat then Some (ret, WriteTunHeader skip_csum c)
      else Some (ret, c)
  end.

End Converter.

(** [Clatd::SendDadPacket]: the neighbour solicitation for the translator's
    own address, with the random [nonce]; [cksum] is the checksum field. *)
Definition ND_NEIGHBOR_SOLICIT : Z := 135.
Definition NDP_NOUNCE_OPT : Z := 14.
Definition IPV6_SRC_OFFSET : nat := 8.
Definition SOLICITED_NODE_PREFIX : bytes := [0xff; 2; 0; 0; 0; 0; 0; 0; 0; 0; 0; 1; 0xff; 0; 0; 0].
Definition SOLICITED_NODE_SUFFIX_OFFSET : nat := 13.

Definition dad_header (v6Addr : bytes) : ip6_hdr :=
  mkIp6Hdr IPV6_VERSION_FLAG [0; 0; 0] (htons 32) IPPROTO_ICMPV6 0xff (replicate 16 0)
    (take SOLICITED_NODE_SUFFIX_OFFSET SOLICITED_NODE_PREFIX ++ drop SOLICITED_NODE_SUFFIX_OFFSET v6Addr).
Definition dad_body (v6Addr nonce : bytes) (cksum : Z) : bytes :=
  icmphdr_bytes (mkIcmp ND_NEIGHBOR_SOLICIT 0 cksum [0; 0; 0; 0]) ++ v6Addr ++ [NDP_NOUNCE_OPT; 1] ++ nonce.
Definition dad_bytes (v6Addr nonce : bytes) (cksum : Z) : bytes :=
  ip6_hdr_bytes (dad_header v6Addr) ++ dad_body v6Addr nonce cksum.
Definition SendDadPacket (v6Addr nonce : bytes) : bytes :=
  let h := dad_header v6Addr in
  let checkSum := u32 (ip6_plen h + htons (ip6_nxt h)) in
  let checkSum := AddChecksum checkSum (drop IPV6_SRC_OFFSET (dad_bytes v6Addr nonce 0)) in
  dad_bytes v6Addr nonce (u16 (Z.lnot (Checksum32To16 checkSum))).

(** [GetConvertedPacket] and the gathering write of the caller: the bytes of
    the first [effectivePos] buffers. *)
Definition GetConvertedPacket (c : conv) : bytes :=
  concat (take (effectivePos_ c) (zip_with take (iovBufLens_ c) (iovBufs_ c))).

(** ** Memory lemmas *)

Lemma le_bytes_length n x : length (le_bytes n x) = n.
Proof. revert x. induction n; simpl; auto. Qed.

Lemma le_bytes_ok n x : is_bytes (le_bytes n x).
Proof.
  revert x. induction n; intros x; simpl; constructor; [|apply IHn].
  unfold in_width. change (2 ^ 8) with 256. apply Z.mod_pos_bound. lia.
Qed.

Lemma le_le_bytes n x : le (le_bytes n x) = x mod 2 ^ (8 * Z.of_nat n).
Proof.
  revert x. induction n as [|n IH]; intros x; [by rewrite Z.mod_1_r|].
  cbn [le_bytes le]. rewrite IH.
  replace (8 * Z.of_nat (S n)) with (8 + 8 * Z.of_nat n) by lia.
  rewrite Z.pow_add_r by lia. change (2 ^ 8) with 256. rewrite Z.rem_mul_r; [lia|lia|].
  apply Z.pow_pos_nonneg; lia.
Qed.

Lemma le_small n x : in_width (8 * Z.of_nat n) x -> le (le_bytes n x) = x.
Proof. intros H. rewrite le_le_bytes. by apply Z.mod_small. Qed.

Lemma le_bytes_le l : is_bytes l -> le_bytes (length l) (le l) = l.
Proof.
  induction 1 as [|b l Hb Hl IH]; [done|]. cbn [length le le_bytes]. unfold in_width in Hb.
  replace ((b + 256 * le l) mod 256) with b by div_mod_lia.
  replace ((b + 256 * le l) / 256) with (le l) by div_mod_lia. by rewrite IH.
Qed.

Lemma le_width l n : is_bytes l -> length l = n -> in_width (8 * Z.of_nat n) (le l).
Proof.
  intros Hl <-. rewrite <- (le_bytes_le l Hl) at 2. rewrite le_le_bytes. apply wrap_range. lia.
Qed.

Lemma sub_length off n l : (off + n <= length l)%nat -> length (sub off n l) = n.
Proof. intros H. unfold sub. rewrite length_take, length_drop. lia. Qed.

Lemma sub_bytes off n l : is_bytes l -> is_bytes (sub off n l).
Proof. intros H. by apply Forall_take, Forall_drop. Qed.


Lemma splice_length off new l : (off + length new <= length l)%nat -> length (splice off new l) = length l.
Proof. intros H. unfold splice. rewrite !length_app, length_take, length_drop. lia. Qed.

Lemma splice_bytes off new l : is_bytes new -> is_bytes l -> is_bytes (splice off new l).
Proof. intros Hn Hl. apply Forall_app. split; [by apply Forall_take|]. apply Forall_app. split; [done|by apply Forall_drop]. Qed.

(** Writing into the head of a region cut in two. *)
Lemma splice_take off new n l : (off + length new <= n)%nat ->
  splice off new (take n l) ++ drop n l = splice off new l.
Proof.
  intros H. unfold splice. rewrite take_take, <- !app_assoc. f_equal; [f_equal; lia|]. f_equal.
  rewrite drop_take_drop by lia. done.
Qed.



Lemma splice_sub off n l : (off + n <= length l)%nat -> splice off (sub off n l) l = l.
Proof.
  intros H. unfold splice. rewrite sub_length by lia. unfold sub.
  rewrite <- (drop_drop l n off). by rewrite take_drop, take_drop.
Qed.

(** A 16-bit word replaced at an even offset. *)
Lemma wsum_word l : length l = 2%nat -> wsum l = le l.
Proof. destruct l as [|a [|b [|]]]; try done. simpl. lia. Qed.

Lemma even_take off (l : bytes) : (off <= length l)%nat -> Nat.Even off -> Nat.Even (length (take off l)).
Proof. intros H E. by rewrite length_take, Nat.min_l. Qed.

Lemma wsum_splice off new l : length new = 2%nat -> Nat.Even off -> (off + 2 <= length l)%nat ->
  wsum (splice off new l) = wsum l - le (sub off 2 l) + le new.
Proof.
  intros Hn He Hl. rewrite <- (splice_sub off 2 l Hl) at 2. unfold splice. rewrite sub_length by lia. rewrite Hn.
  assert (E2 : Nat.Even 2) by (by exists 1%nat).
  assert (Et : Nat.Even (length (take off l))) by (apply even_take; [lia|done]).
  rewrite !wsum_app by (rewrite ?Hn, ?sub_length by lia; done).
  rewrite (wsum_word new Hn), (wsum_word (sub off 2 l)) by (by apply sub_length). lia.
Qed.

(** ** Headers are read back as they were written *)

Definition iphdr_wf (h : iphdr) : Prop :=
  in_width 4 (ihl h) /\ in_width 4 (version h) /\ in_width 8 (tos h) /\ in_width 16 (tot_len h) /\ in_width 16 (id h) /\
  in_width 16 (frag_off h) /\ in_width 8 (ttl h) /\ in_width 8 (protocol h) /\ in_width 16 (check h) /\
  in_width 32 (saddr h) /\ in_width 32 (daddr h).

Lemma read_iphdr_bytes h r : iphdr_wf h -> read_iphdr (iphdr_bytes h ++ r) = Some h.
Proof.
  intros H. unfold read_iphdr. rewrite length_app. change (length (iphdr_bytes h)) with 20%nat. cbn [Nat.add Nat.ltb Nat.leb IPHDR_SIZE].
  destruct h as [a b c d e f i j k l m]. unfold iphdr_wf in H. cbn in H.
  destruct H as (Ha & Hb & _ & Hd & He & Hf & _ & _ & Hk & Hl & Hm).
  unfold iphdr_bytes, sub, byte. cbn [ihl version tos tot_len id frag_off ttl protocol check saddr daddr].
  cbn [le_bytes app take drop nth]. unfold in_width in Ha, Hb.
  f_equal. f_equal; [div_mod_lia|div_mod_lia|..].
  - exact (le_small 2 d Hd).
  - exact (le_small 2 e He).
  - exact (le_small 2 f Hf).
  - exact (le_small 2 k Hk).
  - exact (le_small 4 l Hl).
  - exact (le_small 4 m Hm).
Qed.


Definition ip6_hdr_wf (h : ip6_hdr) : Prop :=
  length (ip6_flow_rest h) = 3%nat /\ in_width 16 (ip6_plen h) /\
  length (ip6_src h) = 16%nat /\ length (ip6_dst h) = 16%nat.

Lemma ip6_hdr_bytes_length h : ip6_hdr_wf h -> length (ip6_hdr_bytes h) = 40%nat.
Proof.
  intros (H1 & _ & H2 & H3). unfold ip6_hdr_bytes. simpl. rewrite !length_app. simpl. rewrite length_app. lia.
Qed.

Lemma cut_app {A} (l r : list A) n : length l = n -> take n (l ++ r) = l /\ drop n (l ++ r) = r.
Proof. intros <-. by rewrite take_app_length, drop_app_length. Qed.

Lemma read_ip6_hdr_bytes h r : ip6_hdr_wf h -> read_ip6_hdr (ip6_hdr_bytes h ++ r) = Some h.
Proof.
  intros Hw. unfold read_ip6_hdr. rewrite length_app, ip6_hdr_bytes_length by done. cbn [Nat.add Nat.ltb Nat.leb IP6_HDR_SIZE].
  destruct h as [v f l n hl s d]. destruct Hw as (Hf & Hl & Hs & Hd). cbn in Hf, Hl, Hs, Hd.
  destruct f as [|f0 [|f1 [|f2 [|]]]]; try done.
  unfold ip6_hdr_bytes. cbn [ip6_vfc ip6_flow_rest ip6_plen ip6_nxt ip6_hlim ip6_src ip6_dst].
  set (P := [v; f0; f1; f2; l mod 256; l / 256 mod 256; n; hl]).
  match goal with |- context [byte ?x 0] => replace x with (P ++ s ++ d ++ r) by (unfold P; cbn; by rewrite <- app_assoc) end.
  destruct (cut_app P (s ++ d ++ r) 8 eq_refl) as [_ E0].
  destruct (cut_app s (d ++ r) 16 Hs) as [E1 E2]. destruct (cut_app d r 16 Hd) as [E3 E4].
  assert (S1 : sub 8 16 (P ++ s ++ d ++ r) = s) by (unfold sub; by rewrite E0).
  assert (S2 : sub 24 16 (P ++ s ++ d ++ r) = d).
  { unfold sub. change 24%nat with (8 + 16)%nat. by rewrite <- drop_drop, E0, E2. }
  rewrite S1, S2. unfold sub, byte, P. cbn. f_equal. f_equal. exact (le_small 2 l Hl).
Qed.

(** ** What happens to a transport segment *)

(** A segment the converter passes on without looking inside: TCP with a
    sound data offset, UDP with a checksum, GRE and ESP. *)
Definition tp_ok (proto : Z) (tp : bytes) : bool :=
  if proto =? IPPROTO_TCP then bool_decide (IsTcpPacketValid tp = Some true)
  else if proto =? IPPROTO_UDP then (UDPHDR_SIZE <=? length tp)%nat && negb (le (sub UDP_CHECK 2 tp) =? 0)
  else (proto =? IPPROTO_GRE) || (proto =? IPPROTO_ESP).

(** The segment with its checksum adjusted from one pseudo-header to another. *)
Definition adjusted_udp (check old new : Z) : Z :=
  let k := AdjustChecksum check old new in if k =? 0 then 0xffff else k.
Definition tp_out (proto old new : Z) (tp : bytes) : bytes :=
  if proto =? IPPROTO_TCP then splice TCP_CHECK (le_bytes 2 (AdjustChecksum (le (sub TCP_CHECK 2 tp)) old new)) tp
  else if proto =? IPPROTO_UDP then splice UDP_CHECK (le_bytes 2 (adjusted_udp (le (sub UDP_CHECK 2 tp)) old new)) tp
  else tp.

Lemma tcp_valid_inv tp : IsTcpPacketValid tp = Some true ->
  exists doff, read_doff tp = Some doff /\ (20 <= Z.to_nat (doff * WORD_32BIT_IN_BYTE_UNIT) <= length tp)%nat.
Proof.
  unfold IsTcpPacketValid. destruct (Nat.ltb_spec (length tp) TCPHDR_SIZE); [done|].
  unfold mbind, option_bind. destruct (read_doff tp) as [doff|]; [|done].
  destruct (Z.ltb_spec (doff * WORD_32BIT_IN_BYTE_UNIT) TCP_HDR_MIN_LEN); [done|].
  destruct (Z.ltb_spec (lenZ tp) (doff * WORD_32BIT_IN_BYTE_UNIT)); [done|]. intros _.
  exists doff. split; [done|]. unfold lenZ, TCP_HDR_MIN_LEN in *. lia.
Qed.

Lemma tp_ok_length proto tp : tp_ok proto tp = true ->
  (proto = IPPROTO_TCP -> (20 <= length tp)%nat) /\ (proto = IPPROTO_UDP -> (8 <= length tp)%nat).
Proof.
  unfold tp_ok. intros H. split; intros ->.
  - change (IPPROTO_TCP =? IPPROTO_TCP) with true in H. cbv iota in H. apply bool_decide_eq_true_1 in H. destruct (tcp_valid_inv _ H) as (d & _ & ?). lia.
  - change (IPPROTO_UDP =? IPPROTO_TCP) with false in H. change (IPPROTO_UDP =? IPPROTO_UDP) with true in H.
    cbv iota in H. apply andb_prop in H as [H _]. by apply Nat.leb_le in H.
Qed.

Lemma tp_out_length proto old new tp : tp_ok proto tp = true -> length (tp_out proto old new tp) = length tp.
Proof.
  intros H. destruct (tp_ok_length _ _ H) as [HT HU]. unfold tp_out.
  destruct (Z.eqb_spec proto IPPROTO_TCP); [|destruct (Z.eqb_spec proto IPPROTO_UDP); [|done]];
    apply splice_length; rewrite le_bytes_length; unfold TCP_CHECK, UDP_CHECK; [specialize (HT ltac:(done))|specialize (HU ltac:(done))]; lia.
Qed.

Lemma tp_out_bytes proto old new tp : is_bytes tp -> is_bytes (tp_out proto old new tp).
Proof.
  intros H. unfold tp_out.
  destruct (proto =? IPPROTO_TCP); [|destruct (proto =? IPPROTO_UDP); [|done]];
    apply splice_bytes; done || apply le_bytes_ok.
Qed.

Lemma adjusted_udp_spec k old new : in_width 16 k -> in_width 32 old -> 0 <= new < 2 ^ 32 - 65535 ->
  in_width 16 (adjusted_udp k old new) /\ adjusted_udp k old new <> 0 /\
  (adjusted_udp k old new - (k + old - new)) mod 65535 = 0.
Proof.
  intros Hk Ho Hn. pose proof (AdjustChecksum_mod k old new Hk Ho Hn) as HM.
  pose proof (AdjustChecksum_width k old new) as HW. unfold adjusted_udp.
  destruct (Z.eqb_spec (AdjustChecksum k old new) 0) as [E|E]; [|done].
  rewrite E in HM. split; [done|]. split; [done|]. div_mod_lia.
Qed.

(** The sum a receiver checks is unchanged modulo 65535. *)
Lemma tp_out_sum proto old new tp : is_bytes tp -> tp_ok proto tp = true ->
  proto = IPPROTO_TCP \/ proto = IPPROTO_UDP -> in_width 32 old -> 0 <= new < 2 ^ 32 - 65535 ->
  (new + wsum (tp_out proto old new tp)) mod 65535 = (old + wsum tp) mod 65535.
Proof.
  intros Hb Hok Hp Ho Hn. destruct (tp_ok_length _ _ Hok) as [HT HU].
  assert (HC : forall off, (off + 2 <= length tp)%nat -> in_width 16 (le (sub off 2 tp))).
  { intros off Hl. apply (le_width _ 2); [by apply sub_bytes|by apply sub_length]. }
  unfold tp_out. destruct Hp as [-> | ->]; cbn [Z.eqb Pos.eqb IPPROTO_TCP IPPROTO_UDP].
  - specialize (HT eq_refl). rewrite wsum_splice; [|done|by exists 8%nat|unfold TCP_CHECK; lia].
    rewrite (le_small 2) by apply AdjustChecksum_width.
    pose proof (AdjustChecksum_mod (le (sub TCP_CHECK 2 tp)) old new ltac:(apply HC; unfold TCP_CHECK; lia) Ho Hn). div_mod_lia.
  - specialize (HU eq_refl). rewrite wsum_splice; [|done|by exists 3%nat|unfold UDP_CHECK; lia].
    destruct (adjusted_udp_spec (le (sub UDP_CHECK 2 tp)) old new) as (HW & _ & HM);
      [apply HC; unfold UDP_CHECK; lia|done|done|]. rewrite (le_small 2) by exact HW. div_mod_lia.
Qed.

(** The pseudo-headers stay far from the overflow of their 32-bit sums. *)
Definition short (l : bytes) : Prop := is_bytes l /\ (length l <= 16)%nat.

Lemma le_bytes_short n x : (n <= 16)%nat -> short (le_bytes n x).
Proof. intros H. split; [apply le_bytes_ok|by rewrite le_bytes_length]. Qed.

Lemma add_four a b c d : short a -> short b -> short c -> short d ->
  AddChecksum (AddChecksum (AddChecksum (AddChecksum 0 a) b) c) d = wsum a + wsum b + wsum c + wsum d /\
  0 <= wsum a + wsum b + wsum c + wsum d <= 2228224.
Proof.
  assert (HS : forall l, short l -> 0 <= wsum l <= 557056).
  { intros l [Hl Hn]. pose proof (wsum_bound l Hl). lia. }
  assert (HA : forall s l, 0 <= s <= 2228224 -> short l -> AddChecksum s l = s + wsum l).
  { intros s l Hs [Hl Hn]. apply AddChecksum_exact; unfold in_width; (done || lia). }
  intros Ha Hb Hc Hd. pose proof (HS a Ha). pose proof (HS b Hb). pose proof (HS c Hc). pose proof (HS d Hd).
  rewrite (HA 0 a) by (done || lia). rewrite (HA _ b) by (done || lia).
  rewrite (HA _ c) by (done || lia). rewrite (HA _ d) by (done || lia). lia.
Qed.

Lemma CalV4PseudoHeaderChecksum_sum h l pr :
  CalV4PseudoHeaderChecksum h l pr = wsum (le_bytes 4 (saddr h)) + wsum (le_bytes 4 (daddr h)) +
    wsum (le_bytes 2 (htons (u16 l))) + wsum (le_bytes 2 (htons pr)) /\
  0 <= CalV4PseudoHeaderChecksum h l pr <= 2228224.
Proof.
  unfold CalV4PseudoHeaderChecksum.
  destruct (add_four (le_bytes 4 (saddr h)) (le_bytes 4 (daddr h)) (le_bytes 2 (htons (u16 l))) (le_bytes 2 (htons pr)))
    as [-> ?]; [apply le_bytes_short; lia..|done].
Qed.

Lemma CalV6PseudoHeaderChecksum_sum h l pr : short (ip6_src h) -> short (ip6_dst h) ->
  CalV6PseudoHeaderChecksum h l pr = wsum (ip6_src h) + wsum (ip6_dst h) +
    wsum (le_bytes 4 (htonl (u32 l))) + wsum (le_bytes 4 (htonl pr)) /\
  0 <= CalV6PseudoHeaderChecksum h l pr <= 2228224.
Proof.
  intros Hs Hd. unfold CalV6PseudoHeaderChecksum.
  destruct (add_four (ip6_src h) (ip6_dst h) (le_bytes 4 (htonl (u32 l))) (le_bytes 4 (htonl pr)))
    as [-> ?]; [done|done|apply le_bytes_short; lia..|done].
Qed.

(** ** The converted packet *)

(** The buffers of the outer packet before and after its transport part, for
    an IP header of [n] bytes and the fragment header [fb]. *)
Definition begun (n : nat) (fb : bytes) : conv :=
  mkConv [[]; []; fb; []; []; []; []; []] [0; n; length fb; 0; 0; 0; 0; 0]%nat 0.
Definition filled (n : nat) (fb hb tph pay : bytes) : conv :=
  mkConv [[]; hb; fb; tph; []; []; []; pay] [0; n; length fb; length tph; 0; 0; 0; length pay]%nat 8.

(** The transport conversions that do not depend on the direction. *)
Definition convert_tp (proto old new : Z) (pos : nat) (tp : bytes) (c : conv) : option (Z * conv) :=
  if proto =? IPPROTO_TCP then ConvertTcpPacket (pos + IP_TP_PACKET_POSITION_DELTA) tp old new c
  else if proto =? IPPROTO_UDP then ConvertUdpPacket (pos + IP_TP_PACKET_POSITION_DELTA) tp old new c
  else if (proto =? IPPROTO_GRE) || (proto =? IPPROTO_ESP) then Some (NETMANAGER_SUCCESS, WritePayload pos tp c)
  else Some (NETMANAGER_ERR_INVALID_PARAMETER, c).

Lemma convert_tp_filled proto old new n fb tp : tp_ok proto tp = true ->
  exists tph pay, convert_tp proto old new CLATD_IPHDR tp (begun n fb) = Some (NETMANAGER_SUCCESS, filled n fb [] tph pay) /\
    tph ++ pay = tp_out proto old new tp.
Proof.
  unfold tp_ok, convert_tp, tp_out. intros H. destruct (Z.eqb_spec proto IPPROTO_TCP).
  { apply bool_decide_eq_true_1 in H. unfold ConvertTcpPacket. rewrite H. cbn [mbind option_bind negb].
    destruct (tcp_valid_inv tp H) as (doff & -> & Hd). cbn [mbind option_bind].
    set (k := Z.to_nat (doff * WORD_32BIT_IN_BYTE_UNIT)) in *.
    set (b := le_bytes 2 _). assert (Hb : length b = 2%nat) by apply le_bytes_length.
    exists (splice TCP_CHECK b (take k tp)), (drop k tp). split.
    - unfold filled. rewrite splice_length by (rewrite Hb, length_take; unfold TCP_CHECK; lia).
      rewrite length_take, length_drop, Nat.min_l by lia. done.
    - apply splice_take. rewrite Hb. unfold TCP_CHECK. lia. }
  destruct (Z.eqb_spec proto IPPROTO_UDP).
  { apply andb_prop in H as [H1 H2]. apply Nat.leb_le in H1. apply negb_true_iff in H2.
    unfold ConvertUdpPacket. rewrite (proj2 (Nat.ltb_ge _ _)) by lia. rewrite H2. cbn [mbind option_bind].
    fold (adjusted_udp (le (sub UDP_CHECK 2 tp)) old new).
    set (b := le_bytes 2 (adjusted_udp _ _ _)). assert (Hb : length b = 2%nat) by apply le_bytes_length.
    exists (splice UDP_CHECK b (take UDPHDR_SIZE tp)), (drop UDPHDR_SIZE tp). split.
    - unfold filled. rewrite splice_length by (rewrite Hb, length_take; unfold UDP_CHECK, UDPHDR_SIZE in *; lia).
      rewrite length_take, length_drop, Nat.min_l by lia. done.
    - apply splice_take. rewrite Hb. unfold UDP_CHECK, UDPHDR_SIZE. lia. }
  rewrite H. by exists [], tp.
Qed.

Lemma filled_length n fb hb tph pay :
  GetIovPacketLength CLATD_IPHDR (filled n fb hb tph pay) = u16 (Z.of_nat (length fb + length (tph ++ pay))).
Proof. unfold GetIovPacketLength, filled. cbn. rewrite length_app. do 2 f_equal. lia. Qed.

Lemma filled_packet n fb hb tph pay : length hb = n ->
  GetConvertedPacket (set_buf CLATD_IPHDR hb (filled n fb [] tph pay)) = hb ++ fb ++ tph ++ pay.
Proof.
  intros <-. unfold GetConvertedPacket, filled, set_buf. cbn. by rewrite !firstn_all, app_nil_r.
Qed.

Definition local_ok (g : config) : Prop :=
  in_width 32 (localV4Addr_ g) /\ is_bytes (localV6Addr_ g) /\ is_bytes (prefixAddr_ g) /\
  length (localV6Addr_ g) = 16%nat /\ length (prefixAddr_ g) = 16%nat.

Lemma ConvertV4Address_ok g a : local_ok g -> is_bytes (ConvertV4Address g a) /\ length (ConvertV4Address g a) = 16%nat.
Proof.
  intros (_ & H1 & H2 & H3 & H4). unfold ConvertV4Address. destruct (_ =? _); [done|]. split.
  - apply Forall_app. split; [by apply Forall_take|apply le_bytes_ok].
  - rewrite length_app, length_take, le_bytes_length. unfold CLAT_PREFIX_BYTE_LEN. lia.
Qed.

(** The IPv6 header of the translated packet before its length is known. *)
Definition v6_header (g : config) (h : iphdr) : option ip6_frag * ip6_hdr :=
  WriteFragHeader (WriteIpv6Header g CLATD_IPHDR (protocol h) h) h.
Definition frag_bytes (f : option ip6_frag) : bytes := match f with Some f => ip6_frag_bytes f | None => [] end.
Definition later_fragment (f : option ip6_frag) : bool :=
  match f with Some f => negb (ip6f_offlg f .& IP6F_OFF_MASK =? 0) | None => false end.

Lemma v6_header_fields g h : 
  let h6 := (v6_header g h).2 in
  ip6_vfc h6 = IPV6_VERSION_FLAG /\ ip6_flow_rest h6 = stack_bytes g CLATD_IPHDR 1 3 /\ ip6_plen h6 = 0 /\
  ip6_hlim h6 = ttl h /\ ip6_src h6 = ConvertV4Address g (saddr h) /\ ip6_dst h6 = ConvertV4Address g (daddr h) /\
  ip6_nxt h6 = match (v6_header g h).1 with Some _ => IPPROTO_FRAGMENT | None => protocol h end.
Proof. unfold v6_header, WriteFragHeader. by destruct (_ && _). Qed.

Lemma v6_header_wf g h x : local_ok g -> in_width 16 x -> ip6_hdr_wf (set_ip6_plen x (v6_header g h).2).
Proof.
  intros Hg Hx. destruct (v6_header_fields g h) as (_ & Hf & _ & _ & Hs & Hd & _). unfold ip6_hdr_wf. cbn.
  rewrite Hf, Hs, Hd. repeat split; [apply Hx..| |]; by apply ConvertV4Address_ok.
Qed.

(** The translated packet in one equation, for the packets whose transport
    part is not ICMP. *)
Lemma v4_output g b p h (tp := drop (Z.to_nat (ihl h * WORD_32BIT_IN_BYTE_UNIT)) p) :
  local_ok g -> IsV4PacketValid p = Some true -> read_iphdr p = Some h -> protocol h <> IPPROTO_ICMP ->
  protocol h <> IPPROTO_ICMPV6 ->
  (later_fragment (v6_header g h).1 || tp_ok (protocol h) tp) = true ->
  let '(f, h6) := v6_header g h in
  let old := CalV4PseudoHeaderChecksum h (lenZ tp) (protocol h) in
  let new := CalV6PseudoHeaderChecksum h6 (lenZ tp) (protocol h) in
  let out := if later_fragment f then tp else tp_out (protocol h) old new tp in
  exists c, ConvertPacket g CONVERT_FROM_V4_TO_V6 b p = Some (NETMANAGER_SUCCESS, c) /\
    GetConvertedPacket c =
      ip6_hdr_bytes (set_ip6_plen (htons (u16 (Z.of_nat (length (frag_bytes f) + length tp)))) h6) ++ frag_bytes f ++ out.
Proof.
  intros Hg Hv Hr Hi Hi6 Hok. pose proof (v6_header_wf g h) as Hwf. revert Hok Hwf.
  destruct (v6_header g h) as [f h6] eqn:EH. cbn [fst snd]. intros Hok Hwf.
  unfold ConvertPacket. cbn [ConvertV4Packet]. rewrite Hv. cbn [mbind option_bind negb]. rewrite Hr. cbn [mbind option_bind].
  rewrite (proj2 (Z.eqb_neq (protocol h) IPPROTO_ICMP) Hi). fold (v6_header g h). rewrite EH.
  fold tp. fold (frag_bytes f). fold (later_fragment f).
  change (set_buf (S CLATD_IPHDR) (frag_bytes f) _) with (begun IP6_HDR_SIZE (frag_bytes f)).
  destruct (later_fragment f) eqn:El.
  - eexists. split; [reflexivity|].
    change (WritePayload CLATD_IPHDR tp _) with (filled IP6_HDR_SIZE (frag_bytes f) [] [] tp).
    rewrite filled_length, filled_packet by (apply ip6_hdr_bytes_length, Hwf; [done|apply htons_width]). done.
  - simpl orb in Hok. unfold ConvertV4TpPacket.
    rewrite (proj2 (Z.eqb_neq (protocol h) IPPROTO_ICMPV6) Hi6).
    set (old := CalV4PseudoHeaderChecksum _ _ _). set (new := CalV6PseudoHeaderChecksum _ _ _).
    destruct (convert_tp_filled (protocol h) old new IP6_HDR_SIZE (frag_bytes f) tp Hok) as (tph & pay & E & Eo).
    unfold convert_tp in E. rewrite E. cbn [mbind option_bind]. eexists. split; [reflexivity|].
    rewrite filled_length, filled_packet by (apply ip6_hdr_bytes_length, Hwf; [done|apply htons_width]).
    rewrite Eo, tp_out_length by done. done.
Qed.






(** ** Addresses *)



Lemma v4_tp_length p h : IsV4PacketValid p = Some true -> read_iphdr p = Some h ->
  (length (drop (Z.to_nat (ihl h * WORD_32BIT_IN_BYTE_UNIT)) p) + 20 <= length p)%nat.
Proof.
  intros Hv Hr. rewrite length_drop. unfold IsV4PacketValid in Hv.
  destruct (Nat.ltb_spec (length p) IPHDR_SIZE) as [|HL]; [done|].
  rewrite Hr in Hv. cbn [mbind option_bind] in Hv.
  destruct (Z.ltb_spec (ihl h * WORD_32BIT_IN_BYTE_UNIT) IPV4_HDR_MIN_LEN); [done|].
  unfold IPV4_HDR_MIN_LEN, IPHDR_SIZE in *. lia.
Qed.

(** C24: the translation of an IPv4 packet that carries TCP or UDP (with a
    checksum), whole or as the first fragment, succeeds; the IPv6 header has
    the mapped addresses, the hop limit and the length of what follows it, and
    the checksum of the segment is right for the IPv6 pseudo-header exactly
    when it was right for the IPv4 one, whatever the uninitialised bytes are. *)
Theorem v4_to_v6_checksum g b p h (tp := drop (Z.to_nat (ihl h * WORD_32BIT_IN_BYTE_UNIT)) p) :
  local_ok g -> is_bytes p -> lenZ p <= 65535 -> IsV4PacketValid p = Some true -> read_iphdr p = Some h ->
  protocol h = IPPROTO_TCP \/ protocol h = IPPROTO_UDP -> tp_ok (protocol h) tp = true ->
  later_fragment (v6_header g h).1 = false ->
  exists c h6 tp', ConvertPacket g CONVERT_FROM_V4_TO_V6 b p = Some (NETMANAGER_SUCCESS, c) /\
    read_ip6_hdr (GetConvertedPacket c) = Some h6 /\
    drop IP6_HDR_SIZE (GetConvertedPacket c) = frag_bytes (v6_header g h).1 ++ tp' /\ length tp' = length tp /\
    ip6_src h6 = ConvertV4Address g (saddr h) /\ ip6_dst h6 = ConvertV4Address g (daddr h) /\ ip6_hlim h6 = ttl h /\
    ntohs (ip6_plen h6) = Z.of_nat (length (frag_bytes (v6_header g h).1 ++ tp')) /\
    (CalV6PseudoHeaderChecksum h6 (lenZ tp') (protocol h) + wsum tp') mod 65535 =
    (CalV4PseudoHeaderChecksum h (lenZ tp) (protocol h) + wsum tp) mod 65535.
Proof.
  intros Hg Hb Hl Hv Hr Hp Hok Hf.
  assert (Nx : protocol h <> IPPROTO_ICMP /\ protocol h <> IPPROTO_ICMPV6) by (destruct Hp as [-> | ->]; done).
  pose proof (v4_output g b p h Hg Hv Hr (proj1 Nx) (proj2 Nx)) as HO. fold tp in HO.
  rewrite Hok, orb_true_r in HO. specialize (HO eq_refl).
  destruct (v6_header_fields g h) as (_ & _ & _ & Eh & Es & Ed & _).
  pose proof (fun x => v6_header_wf g h x Hg) as Hwf.
  destruct (v6_header g h) as [f h6]. cbn [fst snd] in *. rewrite Hf in HO. destruct HO as (c & HC & HG).
  set (old := CalV4PseudoHeaderChecksum h (lenZ tp) (protocol h)) in *.
  set (new := CalV6PseudoHeaderChecksum h6 (lenZ tp) (protocol h)) in *.
  set (h6' := set_ip6_plen _ h6) in HG. specialize (Hwf _ (htons_width (u16 (Z.of_nat (length (frag_bytes f) + length tp))))).
  exists c, h6', (tp_out (protocol h) old new tp).
  assert (Btp : is_bytes tp) by (by apply Forall_drop).
  assert (S6 : short (ip6_src h6) /\ short (ip6_dst h6)).
  { rewrite Es, Ed. destruct (ConvertV4Address_ok g (saddr h) Hg), (ConvertV4Address_ok g (daddr h) Hg).
    repeat split; (done || lia). }
  split; [done|]. rewrite HG. split; [by apply read_ip6_hdr_bytes|].
  split; [by rewrite (proj2 (cut_app (ip6_hdr_bytes h6') _ 40 (ip6_hdr_bytes_length _ Hwf)))|].
  split; [by apply tp_out_length|]. split; [done|]. split; [done|]. split; [done|]. split.
  - rewrite length_app, tp_out_length by done. unfold h6'. cbn [ip6_plen set_ip6_plen].
    rewrite ntohs_htons by (by apply wrap_range). apply wrap_small. unfold in_width. 
    assert (length (frag_bytes f) <= 8)%nat by (destruct f; simpl; lia).
    pose proof (v4_tp_length p h Hv Hr) as HT. fold tp in HT.
    unfold lenZ in Hl. lia.
  - replace (lenZ (tp_out _ _ _ _)) with (lenZ tp) by (unfold lenZ; by rewrite tp_out_length).
    change (CalV6PseudoHeaderChecksum h6' (lenZ tp) (protocol h)) with new.
    destruct (CalV4PseudoHeaderChecksum_sum h (lenZ tp) (protocol h)) as [_ B4].
    destruct (CalV6PseudoHeaderChecksum_sum h6 (lenZ tp) (protocol h) (proj1 S6) (proj2 S6)) as [_ B6].
    apply tp_out_sum; [done..| |]; unfold in_width, old, new; lia.
Qed.

(** ** There and back *)



















(** ** No read outside a buffer *)























Lemma stack_bytes_length g pos off n : length (stack_bytes g pos off n) = n.
Proof. unfold stack_bytes. by rewrite length_map, length_seq. Qed.
















(** ** Examples: the translator of 192.0.0.4 and 2001:db8:0:1::, with the
    well-known prefix *)

Definition example_config : config :=
  mkConfig (le [192; 0; 0; 4]) [0x20; 1; 0xd; 0xb8; 0; 0; 0; 1; 11; 22; 33; 44; 55; 66; 77; 88]
    [0; 0x64; 0xff; 0x9b; 0; 0; 0; 0; 0; 0; 0; 0; 0; 0; 0; 0] (fun _ _ => 7).
Definition example_udp : bytes := [0x12; 0x34; 0; 53; 0; 12; 0xab; 0xcd; 1; 2; 3; 4].
Definition example_header (frag : Z) : iphdr :=
  mkIphdr 5 4 0 (htons 32) 0x1234 (htons frag) 64 IPPROTO_UDP 0 (le [192; 0; 0; 4]) (le [8; 8; 8; 8]).
Definition example_v4 (frag : Z) : bytes := iphdr_bytes (example_header frag) ++ example_udp.

Lemma example_config_ok : local_ok example_config.
Proof. repeat split; try done; repeat constructor; done. Defined.
Lemma example_v4_bytes frag : is_bytes (example_v4 frag).
Proof. repeat (apply Forall_cons_2; [first [done | by apply Z.mod_pos_bound]|]). apply Forall_nil_2. Defined.


Lemma v4_to_v6_checksum_witness :
  exists c h6 tp', ConvertPacket example_config CONVERT_FROM_V4_TO_V6 false (example_v4 IP_MF) = Some (NETMANAGER_SUCCESS, c) /\
    read_ip6_hdr (GetConvertedPacket c) = Some h6 /\ drop IP6_HDR_SIZE (GetConvertedPacket c) = frag_bytes (v6_header example_config (example_header IP_MF)).1 ++ tp'.
Proof.
  destruct (v4_to_v6_checksum example_config false (example_v4 IP_MF) (example_header IP_MF)) as (c & h6 & tp' & H1 & H2 & H3 & _);
    [apply example_config_ok|apply example_v4_bytes|by vm_compute|by vm_compute|by vm_compute|by right|by vm_compute|by vm_compute|].
  by exists c, h6, tp'.
Defined.


(** The first fragment of a datagram is not translated back: the IPv6
    conversion takes the fragment header for the UDP header. The UDP
    datagram, marked as a first fragment, is translated to IPv6; the packet
    translated back carries the eight bytes of the fragment header, with a
    rewritten checksum, and the last eight bytes of the datagram are lost. *)
Theorem first_fragment_corrupted :
  exists c6 c4, ConvertPacket example_config CONVERT_FROM_V4_TO_V6 false (example_v4 IP_MF) = Some (NETMANAGER_SUCCESS, c6) /\
    sub 40 8 (GetConvertedPacket c6) = [IPPROTO_UDP; 0; 0; 1; 0; 0; 0x34; 0x12] /\
    ConvertPacket example_config CONVERT_FROM_V6_TO_V4 false (GetConvertedPacket c6) = Some (NETMANAGER_SUCCESS, c4) /\
    drop 24 (GetConvertedPacket c4) = [IPPROTO_UDP; 0; 0; 1; 0; 0; 0x52; 0xbf; 0x12; 0x34; 0; 53].
Proof. do 2 eexists. split; [by vm_compute|]. split; [by vm_compute|]. split; by vm_compute. Qed.

(** An ICMPv6 error that quotes an IPv6 packet ending inside its fragment
    header makes the converter read past a buffer: the length of the quoted
    header is recorded before the error return, the buffer is not, and the
    checksum of the ICMP message runs over it. *)
Theorem quoted_short_fragment_overread :
  let quoted := ip6_hdr_bytes (mkIp6Hdr 0x60 [0; 0; 0] (htons 4) IPPROTO_FRAGMENT 64
      (localV6Addr_ example_config) [0; 0x64; 0xff; 0x9b; 0; 0; 0; 0; 0; 0; 0; 0; 8; 8; 8; 8]) ++ [17; 0; 0; 0] in
  let p := ip6_hdr_bytes (mkIp6Hdr 0x60 [0; 0; 0] (htons 52) IPPROTO_ICMPV6 64
      [0; 0x64; 0xff; 0x9b; 0; 0; 0; 0; 0; 0; 0; 0; 8; 8; 8; 8] (localV6Addr_ example_config)) ++
    icmphdr_bytes (mkIcmp ICMP6_TIME_EXCEEDED 0 0 [0; 0; 0; 0]) ++ quoted in
  IsV6PacketValid example_config p = Some true /\ ConvertPacket example_config CONVERT_FROM_V6_TO_V4 false p = None.
Proof. split; by vm_compute. Qed.

(** ** Fragments and the duplicate address detection *)

Lemma land_single v n : 0 <= n -> Z.land v (2 ^ n) = if Z.testbit v n then 2 ^ n else 0.
Proof.
  intros Hn. apply Z.bits_inj_iff'. intros i Hi. rewrite Z.land_spec, Z.pow2_bits_eqb by lia.
  destruct (Z.eqb_spec n i) as [->|Hne].
  - destruct (Z.testbit v i); [by rewrite Z.pow2_bits_true|by rewrite Z.bits_0].
  - rewrite andb_false_r. destruct (Z.testbit v n); [|by rewrite Z.bits_0]. by rewrite Z.pow2_bits_false.
Qed.

(** The offset and the flag through the two encodings. *)
Lemma frag_offset_back x : in_width 16 x ->
  let v := ntohs x in
  let offlg := htons (u16 (Z.shiftl (Z.land v IP_OFFMASK) IPV6_FRAG_OFFSET_BIT_SUPPLEMENTARY)) in
  let offlg := if Z.land v IP_MF =? 0 then offlg else Z.lor offlg IP6F_MORE_FRAG in
  let r := Z.shiftr (ntohs (Z.land offlg IP6F_OFF_MASK)) IPV6_FRAG_OFFSET_BIT_SUPPLEMENTARY in
  ntohs (htons (if Z.land offlg IP6F_MORE_FRAG =? 0 then r else Z.lor r IP_MF)) = Z.land v (IP_MF + IP_OFFMASK).
Proof.
  intros Hx v. change (IP_MF + IP_OFFMASK) with (Z.lor IP_OFFMASK IP_MF). rewrite Z.land_lor_distr_r.
  change IP_MF with (2 ^ 13). rewrite (land_single v 13) by lia.
  assert (Hv : 0 <= Z.land v IP_OFFMASK < 2 ^ 13).
  { change IP_OFFMASK with (Z.ones 13). rewrite Z.land_ones by lia. apply Z.mod_pos_bound. lia. }
  revert Hv. generalize (Z.land v IP_OFFMASK) (Z.testbit v 13). intros o mf Ho.
  pose proof (all_bits_spec 13 0 (fun o => forallb (fun mf : bool =>
    let m := if mf then 2 ^ 13 else 0 in
    let offlg := htons (u16 (Z.shiftl o IPV6_FRAG_OFFSET_BIT_SUPPLEMENTARY)) in
    let offlg := if m =? 0 then offlg else Z.lor offlg IP6F_MORE_FRAG in
    let r := Z.shiftr (ntohs (Z.land offlg IP6F_OFF_MASK)) IPV6_FRAG_OFFSET_BIT_SUPPLEMENTARY in
    ntohs (htons (if Z.land offlg IP6F_MORE_FRAG =? 0 then r else Z.lor r (2 ^ 13))) =? Z.lor o m) [true; false])
    ltac:(by vm_compute) o Ho) as H.
  rewrite forallb_forall in H. specialize (H mf ltac:(destruct mf; simpl; auto)). by apply Z.eqb_eq in H.
Qed.

(** The fragment header written for an IPv4 fragment gives its offset,
    its more-fragments flag, its identification and its protocol back when it
    is translated to IPv4 again. *)
Theorem fragment_header_roundtrip h h6 f h6' h0 : iphdr_wf h -> WriteFragHeader h6 h = (Some f, h6') ->
  let '(h', v6TpProtocol, v4TpProtocol) := ProcessFragHeader f h0 in
  ntohs (frag_off h') = Z.land (ntohs (frag_off h)) (IP_MF + IP_OFFMASK) /\ id h' = id h /\
  v6TpProtocol = ip6_nxt h6 /\ v4TpProtocol = (if ip6_nxt h6 =? IPPROTO_ICMPV6 then IPPROTO_ICMP else ip6_nxt h6) /\
  ip6_nxt h6' = IPPROTO_FRAGMENT.
Proof.
  intros (_ & _ & _ & _ & Hid & Hfo & _) HW. revert HW. unfold WriteFragHeader. destruct (_ && _); [done|].
  intros [= <- <-]. unfold ProcessFragHeader. cbn [ip6f_offlg ip6f_ident ip6f_nxt frag_off id set_frag ip6_nxt set_ip6_nxt].
  split; [|split; [|done]]; [by apply frag_offset_back|].
  rewrite ntohl_htonl by (split; [apply htons_width|]; pose proof (htons_width (id h)) as [? ?]; unfold ntohs; lia).
  change 0xffff with (Z.ones 16). rewrite Z.land_ones by lia.
  rewrite (Z.mod_small (ntohs (id h))) by apply htons_width. by apply ntohs_htons.
Qed.

Lemma fragment_header_roundtrip_witness :
  let h := example_header 0x2005 in let h6 := mkIp6Hdr 0x60 [0; 0; 0] 0 17 64 [] [] in
  exists f h6', WriteFragHeader h6 h = (Some f, h6') /\ ntohs (frag_off (ProcessFragHeader f h).1.1) = 0x2005.
Proof.
  intros h h6. do 2 eexists. split; [by vm_compute|].
  eapply (fragment_header_roundtrip h h6 _ _ h); [repeat split; by vm_compute|by vm_compute].
Defined.

(** The solicitation in its parts. *)
Section Dad.
Context (v6Addr nonce : bytes) (Ba : is_bytes v6Addr) (Bn : is_bytes nonce).
Context (La : length v6Addr = 16%nat) (Ln : length nonce = 6%nat).

Lemma dad_header_wf : ip6_hdr_wf (dad_header v6Addr).
Proof. unfold ip6_hdr_wf. cbn. rewrite length_drop, La. repeat split; done || lia. Qed.

Lemma dad_body_length k : length (dad_body v6Addr nonce k) = 32%nat.
Proof. unfold dad_body. by rewrite !length_app, La, Ln. Qed.

Lemma dad_body_bytes : is_bytes (dad_body v6Addr nonce 0).
Proof.
  repeat (apply Forall_app; split); try done; by repeat constructor.
Qed.

Lemma dad_addresses : short (ip6_src (dad_header v6Addr)) /\ short (ip6_dst (dad_header v6Addr)).
Proof.
  split; (split; [|cbn; rewrite ?length_drop, ?La; lia]); [by repeat constructor|].
  apply Forall_app. split; [by repeat constructor|by apply Forall_drop].
Qed.

Lemma dad_drop k :
  drop IP6_HDR_SIZE (dad_bytes v6Addr nonce k) = dad_body v6Addr nonce k /\
  drop IPV6_SRC_OFFSET (dad_bytes v6Addr nonce k) =
    ip6_src (dad_header v6Addr) ++ ip6_dst (dad_header v6Addr) ++ dad_body v6Addr nonce k.
Proof.
  split; [apply (cut_app (ip6_hdr_bytes _)), ip6_hdr_bytes_length, dad_header_wf|].
  unfold dad_bytes, ip6_hdr_bytes, IPV6_SRC_OFFSET. cbn [dad_header ip6_vfc ip6_flow_rest app le_bytes drop]. by rewrite <- !app_assoc.
Qed.

End Dad.

(** The neighbour solicitation sent for the translator's address carries a
    valid ICMPv6 checksum, whatever the nonce. *)
Theorem SendDadPacket_checksum v6Addr nonce : is_bytes v6Addr -> is_bytes nonce ->
  length v6Addr = 16%nat -> length nonce = 6%nat ->
  length (SendDadPacket v6Addr nonce) = 72%nat /\
  (CalV6PseudoHeaderChecksum (dad_header v6Addr) 32 IPPROTO_ICMPV6 + wsum (drop IP6_HDR_SIZE (SendDadPacket v6Addr nonce)))
    mod 65535 = 0.
Proof.
  intros Ba Bn La Ln. destruct (dad_addresses v6Addr nonce Ba La Ln) as [Ss Sd].
  pose proof (dad_body_bytes v6Addr nonce Ba Bn) as B0. pose proof (dad_body_length v6Addr nonce La Ln) as LB.
  split.
  { unfold SendDadPacket, dad_bytes at 1. by rewrite length_app, LB, ip6_hdr_bytes_length by (by apply dad_header_wf). }
  unfold SendDadPacket. rewrite (proj1 (dad_drop v6Addr nonce La _)), (proj2 (dad_drop v6Addr nonce La 0)).
  destruct (CalV6PseudoHeaderChecksum_sum (dad_header v6Addr) 32 IPPROTO_ICMPV6 Ss Sd) as [-> _].
  set (h := dad_header v6Addr) in *. set (k := u16 _).
  change (wsum (le_bytes 4 (htonl (u32 32)))) with 8192. change (wsum (le_bytes 4 (htonl IPPROTO_ICMPV6))) with 14848.
  assert (L16 : length (ip6_src h) = 16%nat /\ length (ip6_dst h) = 16%nat) by (destruct (dad_header_wf v6Addr La) as (_ & _ & H); exact H).
  set (S0 := 23040 + (wsum (ip6_src h) + wsum (ip6_dst h) + wsum (dad_body v6Addr nonce 0))).
  pose proof (wsum_bound _ (proj1 Ss)). pose proof (wsum_bound _ (proj1 Sd)). pose proof (wsum_bound _ B0) as HB. rewrite LB in HB.
  assert (Ek : k = 65535 - fold16 S0).
  { unfold k. change (u32 (ip6_plen h + htons (ip6_nxt h))) with 23040.
    rewrite AddChecksum_exact.
    - rewrite !wsum_app by (rewrite ?(proj1 L16), ?(proj2 L16); by exists 8%nat). 
      replace (23040 + _) with S0 by (unfold S0; lia).
      rewrite Checksum32To16_eq by (unfold in_width, S0; lia). apply lnot16, fold16_width.
    - done.
    - apply Forall_app. split; [apply Ss|]. apply Forall_app. split; [apply Sd|done].
    - rewrite !length_app, LB, (proj1 L16), (proj2 L16). lia. }
  pose proof (fold16_width S0) as HF. pose proof (fold16_mod S0) as HM.
  assert (Ew : wsum (dad_body v6Addr nonce k) = wsum (dad_body v6Addr nonce 0) + k).
  { change (dad_body v6Addr nonce k) with (splice 2 (le_bytes 2 k) (dad_body v6Addr nonce 0)).
    rewrite wsum_splice by (done || by exists 1%nat || rewrite LB; lia). rewrite (le_small 2) by width.
    change (le (sub 2 2 (dad_body v6Addr nonce 0))) with 0. lia. }
  rewrite Ew. clearbody k. unfold in_width in *. unfold S0 in *. div_mod_lia.
Qed.

Lemma SendDadPacket_checksum_witness :
  let a := localV6Addr_ example_config in
  (CalV6PseudoHeaderChecksum (dad_header a) 32 IPPROTO_ICMPV6 + wsum (drop IP6_HDR_SIZE (SendDadPacket a [1; 2; 3; 4; 5; 6]))) mod 65535 = 0.
Proof. apply (SendDadPacket_checksum (localV6Addr_ example_config) [1; 2; 3; 4; 5; 6]); try done; by repeat constructor. Defined.

End Clat.
