(* ===== verification/Iptables.v ===== *)
(** * The filter tables and the command queue
    (services/netmanagernative/src/netsys/iptables_wrapper.cpp)

    The native managers change the packet filter by iptables commands.  A
    command is here a value of [Command]; the program that executes it is not
    part of the sources and is the interface [Iptables]: [exec] runs one command
    on a table and [rules] reads a chain.  [IptablesLaws] states what the manual
    page promises of the commands the sources use, and [Packets] what a rule
    matches; [walk] is the documented traversal of the chains.

    [IptablesWrapper::RunCommand] puts a command into a serial queue and returns
    before it has run, so that its result says nothing about the command.  The
    tables below are those reached when the queue is empty. *)

From S2P Require Import Prelude NetData.
Import NetData.

Module Iptables.

Definition NETMANAGER_ERROR : Z := -1.

(** [enum IpType]. *)
Inductive IpType := IPTYPE_IPV4 | IPTYPE_IPV6 | IPTYPE_IPV4V6.

(** [enum ChainType], [enum FirewallRule] and [enum FirewallType]
    (interfaces/innerkits/netmanagernative/include/iptables_type.h): plain
    integers, since the callers cast any 32-bit value to them. *)
Definition CHAIN_OHBW_INPUT : Z := 4.
Definition CHAIN_OHBW_OUTPUT : Z := 5.
Definition CHAIN_OHBW_FORWARD : Z := 6.
Definition CHAIN_OHFW_INPUT : Z := 7.
Definition CHAIN_OHFW_OUTPUT : Z := 8.
Definition CHAIN_OHFW_FORWARD : Z := 9.
Definition CHAIN_OHBW_GLOBAL_ALERT : Z := 11.
Definition CHAIN_OHBW_COSTLY_SHARED : Z := 12.
Definition CHAIN_OHBW_DENIED_LIST_BOX : Z := 13.
Definition CHAIN_OHBW_ALLOWED_LIST_BOX : Z := 14.
Definition CHAIN_OHBW_DATA_SAVER : Z := 15.
Definition CHAIN_OHFW_DOZABLE : Z := 16.
Definition CHAIN_OHFW_POWERSAVING : Z := 17.
Definition CHAIN_OHFW_UNDOZABLE : Z := 18.
Definition CHAIN_OHFW_ALLOWED_LIST_BOX : Z := 19.

Definition RULE_ALLOW : Z := 1.
Definition RULE_DENY : Z := 2.

Inductive FirewallType := TYPE_ALLOWED_LIST | TYPE_DENIDE_LIST.

(** ** Rules and commands *)

Inductive Match :=
| OwnerUid (uid : Z)                 (* -m owner --uid-owner uid *)
| OwnerRange (lo hi : Z)             (* -m owner --uid-owner lo-hi *)
| OwnerAbove (max : string)          (* -m owner ! --uid-owner 0-max *)
| InIface (iface : string)           (* -i iface *)
| OutIface (iface : string)          (* -o iface *)
| ProtoEsp                           (* -p esp *)
| TcpRst                             (* -p tcp --tcp-flags RST RST *)
| Icmpv6Type (type : Z)              (* -p icmpv6 --icmpv6-type type *)
| MarkBit                            (* -m mark --mark 0x100000/0x100000 *)
| Quota (bytes : Z) (name : string)  (* -m quota --quota bytes --name name *)
| Quota2 (bytes : Z) (name : string) (* -m quota2 --quota bytes --name name *)
| OverQuota2 (bytes : Z) (name : string). (* -m quota2 ! --quota bytes --name name *)

Inductive Target :=
| ACCEPT | DROP | REJECT | RETURN
| Jump (chain : string)
| NoTarget.

Record Rule := mkRule { rule_matches : list Match; rule_target : Target }.

#[global] Instance Match_eq_dec : EqDecision Match.
Proof. solve_decision. Defined.
#[global] Instance Target_eq_dec : EqDecision Target.
Proof. solve_decision. Defined.
#[global] Instance Rule_eq_dec : EqDecision Rule.
Proof. solve_decision. Defined.

(** The commands on the table [filter]: [-N], [-X], [-F], [-A], [-I], [-D] and
    [-R chain 1]. *)
Inductive Command :=
| NewChain (chain : string)
| DeleteChain (chain : string)
| Flush (chain : string)
| Append (chain : string) (rule : Rule)
| Insert (chain : string) (rule : Rule)
| Delete (chain : string) (rule : Rule)
| ReplaceFirst (chain : string) (rule : Rule).

Definition cmd_chain (cmd : Command) : string :=
  match cmd with
  | NewChain c | DeleteChain c | Flush c | Append c _ | Insert c _ | Delete c _ | ReplaceFirst c _ => c
  end.

Definition is_NewChain (cmd : Command) : bool := match cmd with NewChain _ => true | _ => false end.

Fixpoint remove_rule (r : Rule) (l : list Rule) : list Rule :=
  match l with
  | [] => []
  | x :: l => if decide (x = r) then l else x :: remove_rule r l
  end.

Lemma remove_rule_skip r l1 l2 : r ∉ l1 -> remove_rule r (l1 ++ l2) = l1 ++ remove_rule r l2.
Proof.
  induction l1 as [|x l1 IH]; intros Hr; [done|]. cbn [app remove_rule].
  apply not_elem_of_cons in Hr as [Hx Hr]. by rewrite decide_False, IH by congruence.
Qed.

(** ** The program that executes the commands *)

Class Iptables (T : Type) := {
  exec : Command -> T -> T;
  rules : T -> string -> option (list Rule);
}.

Definition target_exists {T} `{Iptables T} (t : T) (r : Rule) : Prop :=
  match rule_target r with Jump c => is_Some (rules t c) | _ => True end.

(** A command changes its own chain only.  A chain is created empty, and a
    second creation is refused; a chain is removed only when nothing refers to
    it, so [-X] may leave it; [-D] removes the first equal rule and is refused
    when there is none; a command on a missing chain is refused. *)
Class IptablesLaws (T : Type) `{Iptables T} := {
  exec_other : forall cmd (t : T) c, c <> cmd_chain cmd -> rules (exec cmd t) c = rules t c;
  exec_missing : forall cmd (t : T), is_NewChain cmd = false ->
    rules t (cmd_chain cmd) = None -> rules (exec cmd t) (cmd_chain cmd) = None;
  exec_new : forall c (t : T), rules (exec (NewChain c) t) c = Some (default [] (rules t c));
  exec_delete_chain : forall c (t : T),
    rules (exec (DeleteChain c) t) c = None \/ rules (exec (DeleteChain c) t) c = rules t c;
  exec_flush : forall c (t : T) l, rules t c = Some l -> rules (exec (Flush c) t) c = Some [];
  exec_append : forall c r (t : T) l, rules t c = Some l -> target_exists t r ->
    rules (exec (Append c r) t) c = Some (l ++ [r]);
  exec_insert : forall c r (t : T) l, rules t c = Some l -> target_exists t r ->
    rules (exec (Insert c r) t) c = Some (r :: l);
  exec_delete : forall c r (t : T) l, rules t c = Some l ->
    rules (exec (Delete c r) t) c = Some (remove_rule r l);
  exec_replace : forall c r (t : T) r0 l, rules t c = Some (r0 :: l) -> target_exists t r ->
    rules (exec (ReplaceFirst c r) t) c = Some (r :: l);
}.

(** ** Packets and the traversal of the chains *)

Class Packets (P : Type) := {
  owner : P -> option Z;
  out_iface : P -> string;
  matches : P -> Match -> bool;
}.

Class PacketsLaws (P : Type) `{Packets P} := {
  matches_uid : forall (p : P) u, matches p (OwnerUid u) = bool_decide (owner p = Some u);
  matches_range : forall (p : P) lo hi,
    matches p (OwnerRange lo hi) = match owner p with Some u => (lo <=? u) && (u <=? hi) | None => false end;
  matches_out : forall (p : P) i, matches p (OutIface i) = bool_decide (out_iface p = i);
}.

Inductive Verdict := Accepted | Dropped | Rejected | Passed.

Section Walk.
Context {P : Type} `{Packets P}.

Definition rule_matches_packet (p : P) (r : Rule) : bool := forallb (matches p) (rule_matches r).

(** The rules of a chain in order: [RETURN] and the end of the chain pass the
    packet back to the caller. *)
Fixpoint eval (jump : string -> Verdict) (p : P) (l : list Rule) : Verdict :=
  match l with
  | [] => Passed
  | r :: l =>
      if rule_matches_packet p r then
        match rule_target r with
        | ACCEPT => Accepted
        | DROP => Dropped
        | REJECT => Rejected
        | RETURN => Passed
        | Jump c => match jump c with Passed => eval jump p l | v => v end
        | NoTarget => eval jump p l
        end
      else eval jump p l
  end.

(** [depth] bounds the nesting of the jumps. *)
Fixpoint walk (depth : nat) (chains : string -> option (list Rule)) (p : P) (c : string) : Verdict :=
  match depth, chains c with
  | S d, Some l => eval (walk d chains p) p l
  | _, _ => Passed
  end.

Lemma walk_chain d chains p c l : chains c = Some l -> walk (S d) chains p c = eval (walk d chains p) p l.
Proof. intros E. cbn [walk]. by rewrite E. Qed.

Lemma eval_app jump p l1 l2 :
  eval jump p (l1 ++ l2) =
  if existsb (fun r => rule_matches_packet p r && bool_decide (rule_target r = RETURN)) l1
  then eval jump p l1 else match eval jump p l1 with Passed => eval jump p l2 | v => v end.
Proof.
  induction l1 as [|r l1 IH]; [done|]. cbn [app eval existsb].
  destruct (rule_matches_packet p r) eqn:Em; cbn [andb orb]; [|done].
  destruct (rule_target r) eqn:Et; cbn [orb]; rewrite ?bool_decide_eq_true_2, ?bool_decide_eq_false_2 by done;
    cbn [orb]; try done.
  - by destruct (existsb _ _).
  - by destruct (existsb _ _).
  - by destruct (existsb _ _).
  - destruct (jump chain) eqn:Ej; [by destruct (existsb _ _)..|]. done.
Qed.

(** Rules that do not match are passed over. *)
Lemma eval_skip jump p l1 l2 :
  Forall (fun r => rule_matches_packet p r = false) l1 -> eval jump p (l1 ++ l2) = eval jump p l2.
Proof. induction 1 as [|r l1 E _ IH]; [done|]. cbn [app eval]. by rewrite E. Qed.

(** One group of per-user rules: the target of the first one decides. *)
Lemma eval_uids `{!PacketsLaws P} jump p u tg us l : owner p = Some u -> (forall c, tg <> Jump c) -> tg <> NoTarget ->
  eval jump p (map (fun v => mkRule [OwnerUid v] tg) us ++ l)
  = if decide (u ∈ us) then eval jump p [mkRule [] tg] else eval jump p l.
Proof.
  intros Eo Hj Hn. induction us as [|v us IH].
  - by rewrite decide_False by set_solver.
  - cbn [map app eval]. unfold rule_matches_packet at 1. cbn [rule_matches forallb rule_target].
    rewrite matches_uid, Eo, andb_true_r. destruct (decide (u = v)) as [->|Hne].
    + rewrite bool_decide_eq_true_2, decide_True by set_solver.
      cbn [eval]. unfold rule_matches_packet. cbn. destruct tg; (done || naive_solver).
    + rewrite bool_decide_eq_false_2 by congruence. rewrite IH.
      destruct (decide (u ∈ us)); [rewrite decide_True by set_solver|rewrite decide_False by set_solver]; done.
Qed.

End Walk.

(** ** The command queue *)

Record IptablesWrapper (T : Type) := mkWrapper {
  iptablesWrapperFfrtQueue_ : bool;
  isIptablesSystemAccess_ : bool;
  isIp6tablesSystemAccess_ : bool;
  ipv4_filter : T;
  ipv6_filter : T
}.
Arguments mkWrapper {T}.
Arguments iptablesWrapperFfrtQueue_ {T}.
Arguments isIptablesSystemAccess_ {T}.
Arguments isIp6tablesSystemAccess_ {T}.
Arguments ipv4_filter {T}.
Arguments ipv6_filter {T}.

Section Wrapper.
Context {T : Type} `{Iptables T}.
Implicit Types w : IptablesWrapper T.

Definition wants_ipv4 (t : IpType) : bool := match t with IPTYPE_IPV4 | IPTYPE_IPV4V6 => true | IPTYPE_IPV6 => false end.
Definition wants_ipv6 (t : IpType) : bool := match t with IPTYPE_IPV6 | IPTYPE_IPV4V6 => true | IPTYPE_IPV4 => false end.

Definition RunCommand (ipType : IpType) (command : Command) (w : IptablesWrapper T) : Z * IptablesWrapper T :=
  if negb (iptablesWrapperFfrtQueue_ w) then (NETMANAGER_ERROR, w)
  else
    let t4 := if isIptablesSystemAccess_ w && wants_ipv4 ipType then exec command (ipv4_filter w) else ipv4_filter w in
    let t6 := if isIp6tablesSystemAccess_ w && wants_ipv6 ipType then exec command (ipv6_filter w) else ipv6_filter w in
    (NETMANAGER_SUCCESS,
     mkWrapper (iptablesWrapperFfrtQueue_ w) (isIptablesSystemAccess_ w) (isIp6tablesSystemAccess_ w) t4 t6).

Definition RunMutipleCommands (ipType : IpType) (commands : list Command) (w : IptablesWrapper T)
  : Z * IptablesWrapper T :=
  if negb (iptablesWrapperFfrtQueue_ w) then (NETMANAGER_ERROR, w)
  else (NETMANAGER_SUCCESS, foldl (fun w c => (RunCommand ipType c w).2) w commands).

(** [(op1() == NETMANAGER_ERROR) || (op2() == NETMANAGER_ERROR) || ...]: after an
    error the rest is not run. *)
Fixpoint any_error (ops : list (IptablesWrapper T -> Z * IptablesWrapper T)) (w : IptablesWrapper T)
  : bool * IptablesWrapper T :=
  match ops with
  | [] => (false, w)
  | op :: ops => let '(r, w) := op w in if r =? NETMANAGER_ERROR then (true, w) else any_error ops w
  end.

(** [err = err || (RunCommand(...) == NETMANAGER_ERROR)], once per command. *)
Definition run_commands (ipType : IpType) (cmds : list Command) (err : bool) (w : IptablesWrapper T)
  : bool * IptablesWrapper T :=
  if err then (true, w) else any_error (map (RunCommand ipType) cmds) w.

(** [hasError ? NETMANAGER_ERROR : NETMANAGER_SUCCESS]. *)
Definition code_of (err : bool) : Z := if err then NETMANAGER_ERROR else NETMANAGER_SUCCESS.

(** The service is set up: the queue exists and the commands are installed. *)
Definition ready w : Prop :=
  iptablesWrapperFfrtQueue_ w = true /\ isIptablesSystemAccess_ w = true /\ isIp6tablesSystemAccess_ w = true.

Definition exec_all (cmds : list Command) (t : T) : T := foldl (fun t c => exec c t) t cmds.

Definition set_filters (w : IptablesWrapper T) (t4 t6 : T) : IptablesWrapper T :=
  mkWrapper (iptablesWrapperFfrtQueue_ w) (isIptablesSystemAccess_ w) (isIp6tablesSystemAccess_ w) t4 t6.

(** On a service that is set up the commands run in order and none fails. *)
Lemma run_commands_ready ty cmds w : ready w ->
  run_commands ty cmds false w =
  (false, set_filters w (if wants_ipv4 ty then exec_all cmds (ipv4_filter w) else ipv4_filter w)
                        (if wants_ipv6 ty then exec_all cmds (ipv6_filter w) else ipv6_filter w)).
Proof.
  unfold run_commands. revert w.
  induction cmds as [|c cmds IH]; intros [q a4 a6 t4 t6] (Hq & H4 & H6); cbn in Hq, H4, H6; subst; cbn.
  - by destruct (wants_ipv4 ty), (wants_ipv6 ty).
  - rewrite IH by done. cbn. by destruct (wants_ipv4 ty), (wants_ipv6 ty).
Qed.

Lemma RunCommand_ready ty c w : ready w ->
  RunCommand ty c w = (NETMANAGER_SUCCESS,
    set_filters w (if wants_ipv4 ty then exec c (ipv4_filter w) else ipv4_filter w)
                  (if wants_ipv6 ty then exec c (ipv6_filter w) else ipv6_filter w)).
Proof. destruct w as [q a4 a6 t4 t6]. intros (Hq & H4 & H6); cbn in *; subst. done. Qed.

Lemma ready_set_filters w t4 t6 : ready w -> ready (set_filters w t4 t6).
Proof. done. Qed.

End Wrapper.

(** ** Running commands against the laws

    [kernel] proves [rules (exec ... t) c = ?l] by peeling the commands off: those
    on other chains by [exec_other], the others by their laws, with the
    hypotheses on [t] at the bottom. *)

Abbreviation Knowledge := (gmap string (option (list Rule))).

Section Facts.
Context {T : Type} `{IptablesLaws T}.

Lemma exec_new_eq c (t : T) o : rules t c = o -> rules (exec (NewChain c) t) c = Some (default [] o).
Proof. intros <-. apply exec_new. Qed.

Lemma exec_all_other c cmds : forall t : T,
  Forall (fun cmd => c <> cmd_chain cmd) cmds -> rules (exec_all cmds t) c = rules t c.
Proof.
  induction cmds as [|cmd cmds IH]; intros t F; [done|]. apply Forall_cons in F as [Hn F].
  cbn [exec_all foldl]. change (foldl _ ?x cmds) with (exec_all cmds x). rewrite IH by done. by apply exec_other.
Qed.

Lemma exec_all_app cmds1 cmds2 (t : T) : exec_all (cmds1 ++ cmds2) t = exec_all cmds2 (exec_all cmds1 t).
Proof. unfold exec_all. by rewrite foldl_app. Qed.

(** A chain that exists stays, unless it is removed. *)
Lemma exec_exists cmd (t : T) c :
  match cmd with DeleteChain c' => c' <> c | Append c' r | Insert c' r | ReplaceFirst c' r => c' <> c \/ target_exists t r | _ => True end ->
  match cmd with ReplaceFirst c' _ => c' <> c | _ => True end ->
  is_Some (rules t c) -> is_Some (rules (exec cmd t) c).
Proof.
  intros Hd Hr [l E]. destruct (decide (c = cmd_chain cmd)) as [->|Hne]; [|rewrite exec_other by done; eauto].
  destruct cmd; cbn in *; try done.
  - rewrite exec_new. eauto.
  - erewrite exec_flush by done. eauto.
  - destruct Hd; [done|]. erewrite exec_append by done. eauto.
  - destruct Hd; [done|]. erewrite exec_insert by done. eauto.
  - erewrite exec_delete by done. eauto.
Qed.

(** What is known about some of the chains, and what a command makes of it. *)
Definition knows (t : T) (m : Knowledge) : Prop := forall c o, m !! c = Some o -> rules t c = o.

Definition target_known (m : Knowledge) (r : Rule) : bool :=
  match rule_target r with Jump c => match m !! c with Some (Some _) => true | _ => false end | _ => true end.

Definition know_exec (m : Knowledge) (cmd : Command) : Knowledge :=
  match cmd with
  | NewChain c => match m !! c with Some o => <[c := Some (default [] o)]> m | None => m end
  | Append c r =>
      match m !! c with
      | Some (Some l) => if target_known m r then <[c := Some (l ++ [r])]> m else delete c m
      | _ => m
      end
  | Flush c => match m !! c with Some (Some _) => <[c := Some []]> m | _ => m end
  | _ => delete (cmd_chain cmd) m
  end.

Lemma target_known_exists t m r : knows t m -> target_known m r = true -> target_exists t r.
Proof.
  unfold target_known, target_exists. intros K. destruct (rule_target r); try done.
  destruct (m !! chain) as [[l|]|] eqn:E; try done. intros _. rewrite (K _ _ E). eauto.
Qed.

Lemma know_exec_sound t m cmd : knows t m -> knows (exec cmd t) (know_exec m cmd).
Proof.
  intros K c o. destruct (decide (c = cmd_chain cmd)) as [->|Hne].
  - destruct cmd; cbn [know_exec cmd_chain]; rewrite ?lookup_delete_eq; try done.
    + destruct (m !! chain) as [o'|] eqn:E; [|by rewrite E]. rewrite lookup_insert_eq. intros [= <-].
      rewrite exec_new. by rewrite (K _ _ E).
    + destruct (m !! chain) as [[l|]|] eqn:E; [|by rewrite E; intros [= <-]; apply exec_missing; [|apply K]|by rewrite E].
      rewrite lookup_insert_eq. intros [= <-]. by eapply exec_flush, K.
    + destruct (m !! chain) as [[l|]|] eqn:E; [|by rewrite E; intros [= <-]; apply exec_missing; [|apply K]|by rewrite E].
      destruct (target_known m rule) eqn:Et; [|by rewrite lookup_delete_eq].
      rewrite lookup_insert_eq. intros [= <-]. apply exec_append; [by apply K|by eapply target_known_exists].
  - rewrite exec_other by done. intros E. apply K. revert E.
    destruct cmd; cbn in *; repeat case_match; rewrite ?lookup_insert_ne, ?lookup_delete_ne by congruence; done.
Qed.

Lemma know_exec_all_sound cmds : forall t m, knows t m -> knows (exec_all cmds t) (foldl know_exec m cmds).
Proof. induction cmds as [|c cmds IH]; intros t m K; [done|]. by apply IH, know_exec_sound. Qed.

(** What a manager knows before its first command: the built-in chains exist and
    its own do not. *)
Definition fresh_knowledge (names : list string) (li lo : list Rule) : Knowledge :=
  <["INPUT" := Some li]> (<["OUTPUT" := Some lo]> (list_to_map (map (fun c => (c, None)) names))).

Lemma fresh_knows t names li lo : (forall c, c ∈ names -> rules t c = None) ->
  rules t "INPUT" = Some li -> rules t "OUTPUT" = Some lo -> knows t (fresh_knowledge names li lo).
Proof.
  intros Hf Ei Eo c o. unfold fresh_knowledge.
  rewrite lookup_insert_Some. intros [[<- <-]|[_ E]]; [done|].
  apply lookup_insert_Some in E as [[<- <-]|[_ E]]; [done|].
  apply elem_of_list_to_map_2 in E. apply list_elem_of_fmap in E as (c' & [= -> ->] & Hc). by apply Hf.
Qed.

(** Appending rules without jumps. *)
Lemma exec_appends c rs : forall (t : T) l, rules t c = Some l -> Forall (fun r => forall c', rule_target r <> Jump c') rs ->
  rules (exec_all (map (Append c) rs) t) c = Some (l ++ rs).
Proof.
  induction rs as [|r rs IH]; intros t l E F; cbn [map exec_all foldl]; [by rewrite app_nil_r|].
  apply Forall_cons in F as [Hr F]. change (foldl _ ?y (map ?h rs)) with (exec_all (map h rs) y).
  erewrite IH; [|apply exec_append; [done|]|done].
  - by rewrite <- app_assoc.
  - unfold target_exists. destruct (rule_target r); naive_solver.
Qed.

End Facts.

Ltac chain_ne := cbn; solve [discriminate | congruence].
Ltac kernel :=
  lazymatch goal with
  | |- rules (exec ?cmd ?t) ?c = _ =>
      first [ rewrite exec_other by chain_ne; kernel
            | eapply exec_append; [kernel|kernel_target]
            | eapply exec_insert; [kernel|kernel_target]
            | eapply exec_delete; kernel
            | eapply exec_flush; kernel
            | eapply exec_replace; [kernel|kernel_target]
            | eapply exec_new_eq; kernel ]
  | |- _ => first [eassumption | reflexivity]
  end
with kernel_target := first [exact I | unfold target_exists; cbn; eexists; kernel].

(** ** A table that obeys the laws *)

Abbreviation Table := (gmap string (list Rule)).

Definition jumps_to (c : string) (r : Rule) : bool := bool_decide (rule_target r = Jump c).

Definition target_ok (t : Table) (r : Rule) : bool :=
  match rule_target r with Jump c => bool_decide (is_Some (t !! c)) | _ => true end.

Definition table_exec (cmd : Command) (t : Table) : Table :=
  match cmd with
  | NewChain c => match t !! c with Some _ => t | None => <[c := []]> t end
  | DeleteChain c =>
      if bool_decide (t !! c = Some []) && forallb (fun kl => forallb (fun r => negb (jumps_to c r)) (snd kl)) (map_to_list t)
      then delete c t else t
  | Flush c => match t !! c with Some _ => <[c := []]> t | None => t end
  | Append c r => match t !! c with Some l => if target_ok t r then <[c := l ++ [r]]> t else t | None => t end
  | Insert c r => match t !! c with Some l => if target_ok t r then <[c := r :: l]> t else t | None => t end
  | Delete c r => match t !! c with Some l => <[c := remove_rule r l]> t | None => t end
  | ReplaceFirst c r =>
      match t !! c with Some (_ :: l) => if target_ok t r then <[c := r :: l]> t else t | _ => t end
  end.

#[global] Instance Table_Iptables : Iptables Table := { exec := table_exec; rules := fun t c => t !! c }.

(** The table and the wrapper after boot. *)
Definition boot_table : Table := <["INPUT" := []]> (<["OUTPUT" := []]> ∅).
Definition boot_wrapper : IptablesWrapper Table := mkWrapper true true true boot_table boot_table.

Lemma boot_table_other c : c <> "INPUT" -> c <> "OUTPUT" -> rules boot_table c = None.
Proof. intros H1 H2. cbn. unfold boot_table. by rewrite !lookup_insert_ne, lookup_empty by congruence. Qed.

Lemma target_ok_spec (t : Table) r : target_exists t r -> target_ok t r = true.
Proof. unfold target_exists, target_ok. destruct (rule_target r); try done. intros. by rewrite bool_decide_eq_true_2. Qed.

#[global] Instance Table_IptablesLaws : IptablesLaws Table.
Proof.
  split; cbn [exec rules Table_Iptables].
  - intros cmd t c Hne. destruct cmd; cbn in *; repeat case_match; simplify_eq;
      rewrite ?lookup_insert_ne, ?lookup_delete_ne by congruence; congruence.
  - intros cmd t Hn E. destruct cmd; cbn in *; by rewrite ?E.
  - intros c t. cbn. destruct (t !! c) eqn:E; [done|by rewrite lookup_insert_eq].
  - intros c t. cbn. case_match; [left; by rewrite lookup_delete_eq|by right].
  - intros c t l E. cbn. rewrite E. by rewrite lookup_insert_eq.
  - intros c r t l E Ht. cbn. by rewrite E, target_ok_spec, lookup_insert_eq.
  - intros c r t l E Ht. cbn. by rewrite E, target_ok_spec, lookup_insert_eq.
  - intros c r t l E. cbn. by rewrite E, lookup_insert_eq.
  - intros c r t r0 l E Ht. cbn. by rewrite E, target_ok_spec, lookup_insert_eq.
Qed.

(** A packet of a local socket that leaves by an interface. *)
Record OutPacket := mkOutPacket { op_uid : option Z; op_iface : string; op_rst : bool; op_over : bool }.

Definition out_matches (p : OutPacket) (m : Match) : bool :=
  match m with
  | OwnerUid u => bool_decide (op_uid p = Some u)
  | OwnerRange lo hi => match op_uid p with Some u => (lo <=? u) && (u <=? hi) | None => false end
  | OutIface i => bool_decide (op_iface p = i)
  | TcpRst => op_rst p
  | OverQuota2 _ _ => op_over p
  | _ => false
  end.

#[global] Instance OutPacket_Packets : Packets OutPacket :=
  { owner := op_uid; out_iface := op_iface; matches := out_matches }.
#[global] Instance OutPacket_PacketsLaws : PacketsLaws OutPacket.
Proof. by split. Qed.

End Iptables.
