(* ===== verification/BandwidthManager.v ===== *)
(** * Bandwidth limits of the native service
    (services/netmanagernative/src/manager/bandwidth_manager.cpp)

    Metered interfaces have a byte quota; on them some users are denied, some are
    allowed although the data saver is on.  The manager keeps the quotas and the
    two sets of users and mirrors every change of them into the IPv4 filter table
    by iptables commands, without reading the table back.

    [bw_kernel] says what the chains hold for given fields of the manager; every
    operation keeps it ([bw_step_inv]), and [metered_verdict] reads off it what
    happens to a packet that leaves by a metered interface. *)

From S2P Require Import Prelude NetData Iptables.
Import NetData Iptables.

Module BandwidthManager.

Record BandwidthManager := mkBandwidth {
  chainInitFlag_ : bool;
  dataSaverEnable_ : bool;
  globalAlertBytes_ : Z;
  ifaceAlertBytes_ : gmap string Z;
  ifaceQuotaBytes_ : gmap string Z;
  deniedListUids_ : gset Z;
  allowedListUids_ : gset Z
}.

(** [enum Operate]. *)
Inductive Operate := OP_SET | OP_UNSET.

Definition new_BandwidthManager : BandwidthManager := mkBandwidth false false 0 ∅ ∅ ∅ ∅.

Definition set_chainInitFlag_ x b :=
  mkBandwidth x (dataSaverEnable_ b) (globalAlertBytes_ b) (ifaceAlertBytes_ b) (ifaceQuotaBytes_ b) (deniedListUids_ b) (allowedListUids_ b).
Definition set_dataSaverEnable_ x b :=
  mkBandwidth (chainInitFlag_ b) x (globalAlertBytes_ b) (ifaceAlertBytes_ b) (ifaceQuotaBytes_ b) (deniedListUids_ b) (allowedListUids_ b).
Definition set_globalAlertBytes_ x b :=
  mkBandwidth (chainInitFlag_ b) (dataSaverEnable_ b) x (ifaceAlertBytes_ b) (ifaceQuotaBytes_ b) (deniedListUids_ b) (allowedListUids_ b).
Definition set_ifaceAlertBytes_ x b :=
  mkBandwidth (chainInitFlag_ b) (dataSaverEnable_ b) (globalAlertBytes_ b) x (ifaceQuotaBytes_ b) (deniedListUids_ b) (allowedListUids_ b).
Definition set_ifaceQuotaBytes_ x b :=
  mkBandwidth (chainInitFlag_ b) (dataSaverEnable_ b) (globalAlertBytes_ b) (ifaceAlertBytes_ b) x (deniedListUids_ b) (allowedListUids_ b).
Definition set_deniedListUids_ x b :=
  mkBandwidth (chainInitFlag_ b) (dataSaverEnable_ b) (globalAlertBytes_ b) (ifaceAlertBytes_ b) (ifaceQuotaBytes_ b) x (allowedListUids_ b).
Definition set_allowedListUids_ x b :=
  mkBandwidth (chainInitFlag_ b) (dataSaverEnable_ b) (globalAlertBytes_ b) (ifaceAlertBytes_ b) (ifaceQuotaBytes_ b) (deniedListUids_ b) x.

(** ** Names *)

Definition CHAIN_NAME_COSTLY_PTR : string := "ohbw_costly_".

Definition FetchChainName (chain : Z) : string :=
  if chain =? CHAIN_OHBW_INPUT then "ohbw_INPUT"
  else if chain =? CHAIN_OHBW_OUTPUT then "ohbw_OUTPUT"
  else if chain =? CHAIN_OHBW_FORWARD then "ohbw_FORWARD"
  else if chain =? CHAIN_OHBW_DENIED_LIST_BOX then "ohbw_denied_list_box"
  else if chain =? CHAIN_OHBW_ALLOWED_LIST_BOX then "ohbw_allowed_list_box"
  else if chain =? CHAIN_OHBW_GLOBAL_ALERT then "ohbw_global_alert"
  else if chain =? CHAIN_OHBW_COSTLY_SHARED then "ohbw_costly_shared"
  else if chain =? CHAIN_OHBW_DATA_SAVER then "ohbw_data_saver"
  else "oh_unusable".

(** [CommonUtils::CheckIfaceName], with [isalnum] of the C locale. *)
Definition INTERFACE_NAME_MAX_SIZE : nat := 16.

Definition isalnum (c : Z) : bool :=
  ((48 <=? c) && (c <=? 57)) || ((65 <=? c) && (c <=? 90)) || ((97 <=? c) && (c <=? 122)).

(** Letters, digits, [-], [_], [.] and [:]. *)
Definition iface_char (c : Z) : bool := isalnum c || (c =? 45) || (c =? 95) || (c =? 46) || (c =? 58).

Definition CheckIfaceName (name : string) : bool :=
  match (fun a => Z.of_nat (Ascii.nat_of_ascii a)) <$> String.list_ascii_of_string name with
  | [] => false
  | c :: l => (length (c :: l) <=? INTERFACE_NAME_MAX_SIZE)%nat && isalnum c && forallb iface_char l
  end.

Section Operations.
Context {T : Type} `{Iptables T}.
Abbreviation W := (IptablesWrapper T).

(** The chains [InitChain] creates and [DeInitChain] removes. *)
Definition bw_chains : list Z :=
  [CHAIN_OHBW_INPUT; CHAIN_OHBW_OUTPUT; CHAIN_OHBW_FORWARD; CHAIN_OHBW_DENIED_LIST_BOX;
   CHAIN_OHBW_ALLOWED_LIST_BOX; CHAIN_OHBW_GLOBAL_ALERT; CHAIN_OHBW_COSTLY_SHARED; CHAIN_OHBW_DATA_SAVER].

Definition IptablesNewChain (chain : Z) (w : W) : Z * W := RunCommand IPTYPE_IPV4 (NewChain (FetchChainName chain)) w.
Definition IptablesNewChain_named (chainName : string) (w : W) : Z * W := RunCommand IPTYPE_IPV4 (NewChain chainName) w.

Definition IptablesDeleteChain_named (chainName : string) (w : W) : Z * W :=
  let '(hasError, w) := run_commands IPTYPE_IPV4 [Flush chainName; DeleteChain chainName] false w in
  (code_of hasError, w).
Definition IptablesDeleteChain (chain : Z) (w : W) : Z * W :=
  let '(hasError, w) := run_commands IPTYPE_IPV4 [Flush (FetchChainName chain); DeleteChain (FetchChainName chain)] false w in
  (code_of hasError, w).

Definition InitChain (b : BandwidthManager) (w : W) : Z * BandwidthManager * W :=
  let '(hasError, w) := any_error (map IptablesNewChain bw_chains) w in
  (code_of hasError, set_chainInitFlag_ true b, w).

Definition DeInitChain (b : BandwidthManager) (w : W) : Z * BandwidthManager * W :=
  let '(hasError, w) := any_error (map IptablesDeleteChain bw_chains) w in
  (code_of hasError, set_chainInitFlag_ false b, w).

Definition bw_chain_rules : list Command :=
  [Append "INPUT" (mkRule [] (Jump (FetchChainName CHAIN_OHBW_INPUT)));
   Append "OUTPUT" (mkRule [] (Jump (FetchChainName CHAIN_OHBW_OUTPUT)));
   Append (FetchChainName CHAIN_OHBW_INPUT) (mkRule [ProtoEsp] RETURN);
   Append (FetchChainName CHAIN_OHBW_INPUT) (mkRule [MarkBit] RETURN)].
Definition list_box_rules : list Command :=
  [Append (FetchChainName CHAIN_OHBW_DENIED_LIST_BOX) (mkRule [] (Jump (FetchChainName CHAIN_OHBW_ALLOWED_LIST_BOX)));
   Append (FetchChainName CHAIN_OHBW_ALLOWED_LIST_BOX) (mkRule [] (Jump (FetchChainName CHAIN_OHBW_DATA_SAVER)));
   Append (FetchChainName CHAIN_OHBW_DATA_SAVER) (mkRule [] RETURN)].
Definition alert_rules : list Command :=
  [Append (FetchChainName CHAIN_OHBW_INPUT) (mkRule [] (Jump (FetchChainName CHAIN_OHBW_GLOBAL_ALERT)));
   Append (FetchChainName CHAIN_OHBW_OUTPUT) (mkRule [] (Jump (FetchChainName CHAIN_OHBW_GLOBAL_ALERT)))].

Definition run_block (cmds : list Command) (w : W) : Z * W :=
  let '(hasError, w) := run_commands IPTYPE_IPV4 cmds false w in (code_of hasError, w).

Definition InitDefaultBwChainRules : W -> Z * W := run_block bw_chain_rules.
Definition InitDefaultListBoxChainRules : W -> Z * W := run_block list_box_rules.
Definition InitDefaultAlertChainRules : W -> Z * W := run_block alert_rules.

Definition InitDefaultRules (w : W) : Z * W :=
  let '(hasError, w) :=
    any_error [InitDefaultBwChainRules; InitDefaultListBoxChainRules; InitDefaultAlertChainRules] w in
  (code_of hasError, w).

Definition CheckChainInitialization (b : BandwidthManager) (w : W) : BandwidthManager * W :=
  if chainInitFlag_ b then (b, w)
  else
    let '(_, b, w) := InitChain b w in
    let '(_, w) := InitDefaultRules w in
    (b, w).

(** ** Alerts

    Private and called by nothing; [SetGlobalAlert] removes with [-m quota] what
    it adds with [-m quota2], and [SetCostlyAlert] names a chain that is never
    created. *)

Definition SetGlobalAlert (operate : Operate) (bytes : Z) (b : BandwidthManager) (w : W) : Z * BandwidthManager * W :=
  let chainName := FetchChainName CHAIN_OHBW_GLOBAL_ALERT in
  match operate with
  | OP_SET =>
      let b := set_globalAlertBytes_ bytes b in
      let '(hasError, w) := run_commands IPTYPE_IPV4 [Append chainName (mkRule [Quota2 bytes "globalAlert"] NoTarget)] false w in
      (code_of hasError, b, w)
  | OP_UNSET =>
      if bytes =? globalAlertBytes_ b then
        let '(hasError, w) := run_commands IPTYPE_IPV4 [Delete chainName (mkRule [Quota bytes "globalAlert"] NoTarget)] false w in
        (code_of hasError, set_globalAlertBytes_ 0 b, w)
      else (NETMANAGER_ERROR, b, w)
  end.

(** [operator[]] of a map creates the entry with 0. *)
Definition SetCostlyAlert (operate : Operate) (iface : string) (bytes : Z) (b : BandwidthManager) (w : W)
  : Z * BandwidthManager * W :=
  let chainName := CHAIN_NAME_COSTLY_PTR +:+ iface +:+ "alert" in
  let rule := mkRule [Quota2 bytes (iface +:+ "Alert")] NoTarget in
  match operate with
  | OP_SET =>
      let b := set_ifaceAlertBytes_ (<[iface := bytes]> (ifaceAlertBytes_ b)) b in
      let '(hasError, w) := run_commands IPTYPE_IPV4 [Append chainName rule] false w in
      (code_of hasError, b, w)
  | OP_UNSET =>
      let old := default 0 (ifaceAlertBytes_ b !! iface) in
      let b := set_ifaceAlertBytes_ (<[iface := old]> (ifaceAlertBytes_ b)) b in
      if bytes =? old then
        let '(hasError, w) := run_commands IPTYPE_IPV4 [Delete chainName rule] false w in
        (code_of hasError, set_ifaceAlertBytes_ (<[iface := 0]> (ifaceAlertBytes_ b)) b, w)
      else (NETMANAGER_ERROR, b, w)
  end.

(** ** The data saver *)

Definition saver_exempt : Rule := mkRule [OwnerRange 0 9999] RETURN.

Definition EnableDataSaver (enable : bool) (b : BandwidthManager) (w : W) : Z * BandwidthManager * W :=
  let '(b, w) := CheckChainInitialization b w in
  let chainName := FetchChainName CHAIN_OHBW_DATA_SAVER in
  if enable && negb (dataSaverEnable_ b) then
    let b := set_dataSaverEnable_ true b in
    let '(hasError, w) :=
      run_commands IPTYPE_IPV4 [ReplaceFirst chainName (mkRule [] REJECT); Insert chainName saver_exempt] false w in
    (code_of hasError, b, w)
  else if negb enable && dataSaverEnable_ b then
    let b := set_dataSaverEnable_ false b in
    let '(hasError, w) :=
      run_commands IPTYPE_IPV4 [Delete chainName saver_exempt; ReplaceFirst chainName (mkRule [] RETURN)] false w in
    (code_of hasError, b, w)
  else (NETMANAGER_ERROR, b, w).

(** ** Quotas *)

Definition costly_chain (ifName : string) : string := CHAIN_NAME_COSTLY_PTR +:+ ifName.
Definition quota_rule (ifName : string) (bytes : Z) : Rule := mkRule [OverQuota2 bytes ifName] REJECT.
Definition denied_jump (ifName : string) : Rule := mkRule [OutIface ifName] (Jump (FetchChainName CHAIN_OHBW_DENIED_LIST_BOX)).
Definition costly_in (ifName : string) : Rule := mkRule [InIface ifName] (Jump (costly_chain ifName)).
Definition costly_out (ifName : string) : Rule := mkRule [OutIface ifName] (Jump (costly_chain ifName)).

Definition SetIfaceQuotaDetail (ifName : string) (bytes : Z) (b : BandwidthManager) (w : W) : Z * BandwidthManager * W :=
  let chainName := costly_chain ifName in
  match ifaceQuotaBytes_ b !! ifName with
  | Some old =>
      let '(hasError, w) :=
        run_commands IPTYPE_IPV4 [Delete chainName (quota_rule ifName old); Append chainName (quota_rule ifName bytes)] false w in
      (NETMANAGER_SUCCESS, set_ifaceQuotaBytes_ (<[ifName := bytes]> (ifaceQuotaBytes_ b)) b, w)
  | None =>
      let '(r, w) := IptablesNewChain_named chainName w in
      let b := set_ifaceQuotaBytes_ (<[ifName := bytes]> (ifaceQuotaBytes_ b)) b in
      let '(hasError, w) :=
        run_commands IPTYPE_IPV4
          [Append (FetchChainName CHAIN_OHBW_OUTPUT) (denied_jump ifName);
           Insert (FetchChainName CHAIN_OHBW_INPUT) (costly_in ifName);
           Insert (FetchChainName CHAIN_OHBW_OUTPUT) (costly_out ifName);
           Append (FetchChainName CHAIN_OHBW_FORWARD) (costly_in ifName);
           Append (FetchChainName CHAIN_OHBW_FORWARD) (costly_out ifName);
           Append chainName (quota_rule ifName bytes)] (r =? NETMANAGER_ERROR) w in
      (code_of hasError, b, w)
  end.

Definition SetIfaceQuota (ifName : string) (bytes : Z) (b : BandwidthManager) (w : W) : Z * BandwidthManager * W :=
  if negb (CheckIfaceName ifName) then (NETMANAGER_ERROR, b, w)
  else
    let '(b, w) := CheckChainInitialization b w in
    SetIfaceQuotaDetail ifName bytes b w.

Definition RemoveIfaceQuota (ifName : string) (b : BandwidthManager) (w : W) : Z * BandwidthManager * W :=
  if negb (CheckIfaceName ifName) then (NETMANAGER_ERROR, b, w)
  else
    let '(b, w) := CheckChainInitialization b w in
    let chainName := costly_chain ifName in
    match ifaceQuotaBytes_ b !! ifName with
    | None => (NETMANAGER_ERROR, b, w)
    | Some _ =>
        let b := set_ifaceQuotaBytes_ (delete ifName (ifaceQuotaBytes_ b)) b in
        let '(hasError, w) :=
          run_commands IPTYPE_IPV4
            [Delete (FetchChainName CHAIN_OHBW_OUTPUT) (denied_jump ifName);
             Delete (FetchChainName CHAIN_OHBW_INPUT) (costly_in ifName);
             Delete (FetchChainName CHAIN_OHBW_OUTPUT) (costly_out ifName);
             Delete (FetchChainName CHAIN_OHBW_FORWARD) (costly_in ifName);
             Delete (FetchChainName CHAIN_OHBW_FORWARD) (costly_out ifName)] false w in
        let '(hasError, w) :=
          if hasError then (true, w)
          else let '(r, w) := IptablesDeleteChain_named chainName w in (r =? NETMANAGER_ERROR, w) in
        (code_of hasError, b, w)
    end.

(** ** The lists of users *)

Definition reject_uid (uid : Z) : Rule := mkRule [OwnerUid uid] REJECT.
Definition return_uid (uid : Z) : Rule := mkRule [OwnerUid uid] RETURN.

Definition AddDeniedList (uid : Z) (b : BandwidthManager) (w : W) : Z * BandwidthManager * W :=
  let '(b, w) := CheckChainInitialization b w in
  if bool_decide (uid ∈ deniedListUids_ b) then (NETMANAGER_ERROR, b, w)
  else
    let b := set_deniedListUids_ ({[uid]} ∪ deniedListUids_ b) b in
    let '(r, w) := RunCommand IPTYPE_IPV4 (Insert (FetchChainName CHAIN_OHBW_DENIED_LIST_BOX) (reject_uid uid)) w in
    (r, b, w).

Definition RemoveDeniedList (uid : Z) (b : BandwidthManager) (w : W) : Z * BandwidthManager * W :=
  let '(b, w) := CheckChainInitialization b w in
  if bool_decide (uid ∈ deniedListUids_ b) then
    let b := set_deniedListUids_ (deniedListUids_ b ∖ {[uid]}) b in
    let '(r, w) := RunCommand IPTYPE_IPV4 (Delete (FetchChainName CHAIN_OHBW_DENIED_LIST_BOX) (reject_uid uid)) w in
    (r, b, w)
  else (NETMANAGER_ERROR, b, w).

Definition AddAllowedList (uid : Z) (b : BandwidthManager) (w : W) : Z * BandwidthManager * W :=
  let '(b, w) := CheckChainInitialization b w in
  if bool_decide (uid ∈ allowedListUids_ b) then (NETMANAGER_ERROR, b, w)
  else
    let b := set_allowedListUids_ ({[uid]} ∪ allowedListUids_ b) b in
    let '(r, w) := RunCommand IPTYPE_IPV4 (Insert (FetchChainName CHAIN_OHBW_ALLOWED_LIST_BOX) (return_uid uid)) w in
    (r, b, w).

Definition RemoveAllowedList (uid : Z) (b : BandwidthManager) (w : W) : Z * BandwidthManager * W :=
  let '(b, w) := CheckChainInitialization b w in
  if bool_decide (uid ∈ allowedListUids_ b) then
    let b := set_allowedListUids_ (allowedListUids_ b ∖ {[uid]}) b in
    let '(r, w) := RunCommand IPTYPE_IPV4 (Delete (FetchChainName CHAIN_OHBW_ALLOWED_LIST_BOX) (return_uid uid)) w in
    (r, b, w)
  else (NETMANAGER_ERROR, b, w).

(** The public operations. *)
Inductive Call :=
| CallEnableDataSaver (enable : bool)
| CallSetIfaceQuota (ifName : string) (bytes : Z)
| CallRemoveIfaceQuota (ifName : string)
| CallAddDeniedList (uid : Z)
| CallRemoveDeniedList (uid : Z)
| CallAddAllowedList (uid : Z)
| CallRemoveAllowedList (uid : Z).

Definition perform (c : Call) (b : BandwidthManager) (w : W) : Z * BandwidthManager * W :=
  match c with
  | CallEnableDataSaver e => EnableDataSaver e b w
  | CallSetIfaceQuota i n => SetIfaceQuota i n b w
  | CallRemoveIfaceQuota i => RemoveIfaceQuota i b w
  | CallAddDeniedList u => AddDeniedList u b w
  | CallRemoveDeniedList u => RemoveDeniedList u b w
  | CallAddAllowedList u => AddAllowedList u b w
  | CallRemoveAllowedList u => RemoveAllowedList u b w
  end.

End Operations.

(** ** What the chains hold *)

Abbreviation INPUT_ := "ohbw_INPUT".
Abbreviation OUTPUT_ := "ohbw_OUTPUT".
Abbreviation FORWARD_ := "ohbw_FORWARD".
Abbreviation DENIED_ := "ohbw_denied_list_box".
Abbreviation ALLOWED_ := "ohbw_allowed_list_box".
Abbreviation SAVER_ := "ohbw_data_saver".
Abbreviation ALERT_ := "ohbw_global_alert".

(** A group of rules, one for each member of a set, in some order. *)
Definition lists {A} (l : list A) (P : A -> Prop) : Prop := NoDup l /\ forall x, x ∈ l <-> P x.

Lemma lists_nil {A} (P : A -> Prop) : (forall x, ~ P x) -> lists [] P.
Proof. intros HP. split; [constructor|]. intros x. split; [by intros ?%not_elem_of_nil|by intros ?%HP]. Qed.

Lemma lists_cons {A} (x : A) l (P Q : A -> Prop) : lists l P -> ~ P x -> (forall y, Q y <-> y = x \/ P y) -> lists (x :: l) Q.
Proof.
  intros [Hn Hl] Hx HQ. split; [constructor; [by rewrite Hl|done]|].
  intros y. by rewrite elem_of_cons, Hl, HQ.
Qed.

Lemma lists_snoc {A} (x : A) l (P Q : A -> Prop) : lists l P -> ~ P x -> (forall y, Q y <-> y = x \/ P y) -> lists (l ++ [x]) Q.
Proof.
  intros [Hn Hl] Hx HQ. split.
  - apply NoDup_app. split_and!; [done| |apply NoDup_singleton]. intros y Hy ->%list_elem_of_singleton. by apply Hx, Hl.
  - intros y. rewrite elem_of_app, list_elem_of_singleton, Hl, HQ. tauto.
Qed.

Lemma lists_remove {A} `{EqDecision A} (x : A) (l : list A) (P Q : A -> Prop) : lists l P -> (forall y, Q y <-> y <> x /\ P y) ->
  lists (filter (fun y => y <> x) l) Q.
Proof.
  intros [Hn Hl] HQ. split; [by apply NoDup_filter|]. intros y. by rewrite list_elem_of_filter, Hl, HQ.
Qed.

Lemma lists_ext {A} (l : list A) (P Q : A -> Prop) : lists l P -> (forall y, Q y <-> P y) -> lists l Q.
Proof. intros [Hn Hl] HQ. split; [done|]. intros y. by rewrite Hl, HQ. Qed.

Lemma filter_keep {A} `{EqDecision A} (x : A) (l : list A) : x ∉ l -> filter (fun y => y <> x) l = l.
Proof.
  induction l as [|y l IH]; [done|]. intros [Hx Hl]%not_elem_of_cons. by rewrite filter_cons_True, IH by congruence.
Qed.

(** Deleting the rule of one member deletes it from the group. *)
Lemma remove_rule_map {A} `{EqDecision A} (g : A -> Rule) `{!Inj (=) (=) g} x (l : list A) rest : NoDup l -> x ∈ l ->
  remove_rule (g x) (map g l ++ rest) = map g (filter (fun y => y <> x) l) ++ rest.
Proof.
  induction 1 as [|y l Hy Hn IH]; [by intros ?%not_elem_of_nil|]. intros Hx. cbn [map app remove_rule].
  rewrite filter_cons. destruct (decide (g y = g x)) as [->%(inj g)|Hne].
  - rewrite decide_False by auto. by rewrite filter_keep.
  - rewrite decide_True by congruence. cbn [map app]. f_equal. apply IH. by apply elem_of_cons in Hx as [->|?].
Qed.

Record bw_kernel (b : BandwidthManager) (f : string -> option (list Rule)) : Prop := {
  bk_denied : exists dl, lists dl (fun u => u ∈ deniedListUids_ b) /\
    f DENIED_ = Some (map reject_uid dl ++ [mkRule [] (Jump ALLOWED_)]);
  bk_allowed : exists al, lists al (fun u => u ∈ allowedListUids_ b) /\
    f ALLOWED_ = Some (map return_uid al ++ [mkRule [] (Jump SAVER_)]);
  bk_saver : f SAVER_ = Some (if dataSaverEnable_ b then [saver_exempt; mkRule [] REJECT] else [mkRule [] RETURN]);
  bk_alert : f ALERT_ = Some [];
  bk_output : exists cl il, lists cl (fun i => is_Some (ifaceQuotaBytes_ b !! i)) /\
    lists il (fun i => is_Some (ifaceQuotaBytes_ b !! i)) /\
    f OUTPUT_ = Some (map costly_out cl ++ mkRule [] (Jump ALERT_) :: map denied_jump il);
  bk_input : is_Some (f INPUT_);
  bk_forward : is_Some (f FORWARD_);
  bk_quota : forall i n, ifaceQuotaBytes_ b !! i = Some n -> f (costly_chain i) = Some [quota_rule i n];
  bk_free : forall i, ifaceQuotaBytes_ b !! i = None -> f (costly_chain i) = None \/ f (costly_chain i) = Some [];
}.

(** Before the first operation: the built-in chains exist, those of the manager
    do not. *)
Record bw_fresh (f : string -> option (list Rule)) : Prop := {
  bf_input : is_Some (f "INPUT");
  bf_output : is_Some (f "OUTPUT");
  bf_chains : forall c, c ∈ map FetchChainName bw_chains -> f c = None;
  bf_costly : forall i, f (costly_chain i) = None;
}.

Section Invariant.
Context {T : Type} `{IptablesLaws T}.
Abbreviation W := (IptablesWrapper T).
Implicit Types (b : BandwidthManager) (w : W) (t : T).

Definition bw_inv (b : BandwidthManager) (w : W) : Prop :=
  ready w /\
  if chainInitFlag_ b then bw_kernel b (rules (ipv4_filter w))
  else (dataSaverEnable_ b = false /\ ifaceQuotaBytes_ b = ∅ /\ deniedListUids_ b = ∅ /\ allowedListUids_ b = ∅) /\
       bw_fresh (rules (ipv4_filter w)).

(** A field of the invariant about chains that the command does not touch. *)
Ltac frame :=
  intros;
  repeat match goal with |- context [rules (exec ?cmd ?t) ?c] => rewrite (exec_other cmd t c) by chain_ne end;
  eauto.

#[local] Instance reject_uid_inj : Inj (=) (=) reject_uid.
Proof. by intros u v [=]. Qed.
#[local] Instance return_uid_inj : Inj (=) (=) return_uid.
Proof. by intros u v [=]. Qed.
#[local] Instance denied_jump_inj : Inj (=) (=) denied_jump.
Proof. by intros u v [=]. Qed.
#[local] Instance costly_out_inj : Inj (=) (=) costly_out.
Proof. by intros u v [=]. Qed.
#[local] Instance costly_chain_inj : Inj (=) (=) costly_chain.
Proof. intros u v. apply (inj (String.append CHAIN_NAME_COSTLY_PTR)). Qed.

(** *** The lists of users *)

Lemma denied_add b t uid : bw_kernel b (rules t) -> uid ∉ deniedListUids_ b ->
  bw_kernel (set_deniedListUids_ ({[uid]} ∪ deniedListUids_ b) b) (rules (exec (Insert DENIED_ (reject_uid uid)) t)).
Proof.
  intros [] Hu. split; cbn [deniedListUids_ allowedListUids_ dataSaverEnable_ ifaceQuotaBytes_ set_deniedListUids_];
    [|frame..].
  destruct bk_denied0 as (dl & Hl & E). exists (uid :: dl). split.
  - apply (lists_cons _ _ _ _ Hl Hu). set_solver.
  - by eapply exec_insert.
Qed.

Lemma denied_remove b t uid : bw_kernel b (rules t) -> uid ∈ deniedListUids_ b ->
  bw_kernel (set_deniedListUids_ (deniedListUids_ b ∖ {[uid]}) b) (rules (exec (Delete DENIED_ (reject_uid uid)) t)).
Proof.
  intros [] Hu. split; cbn [deniedListUids_ allowedListUids_ dataSaverEnable_ ifaceQuotaBytes_ set_deniedListUids_];
    [|frame..].
  destruct bk_denied0 as (dl & Hl & E). exists (filter (fun y => y <> uid) dl). split.
  - apply (lists_remove _ _ _ _ Hl). set_solver.
  - erewrite exec_delete by done. f_equal. apply remove_rule_map; [tc_solve|apply Hl|by apply Hl].
Qed.

Lemma allowed_add b t uid : bw_kernel b (rules t) -> uid ∉ allowedListUids_ b ->
  bw_kernel (set_allowedListUids_ ({[uid]} ∪ allowedListUids_ b) b) (rules (exec (Insert ALLOWED_ (return_uid uid)) t)).
Proof.
  intros [] Hu. split; cbn [deniedListUids_ allowedListUids_ dataSaverEnable_ ifaceQuotaBytes_ set_allowedListUids_];
    [frame| |frame..].
  destruct bk_allowed0 as (dl & Hl & E). exists (uid :: dl). split.
  - apply (lists_cons _ _ _ _ Hl Hu). set_solver.
  - by eapply exec_insert.
Qed.

Lemma allowed_remove b t uid : bw_kernel b (rules t) -> uid ∈ allowedListUids_ b ->
  bw_kernel (set_allowedListUids_ (allowedListUids_ b ∖ {[uid]}) b) (rules (exec (Delete ALLOWED_ (return_uid uid)) t)).
Proof.
  intros [] Hu. split; cbn [deniedListUids_ allowedListUids_ dataSaverEnable_ ifaceQuotaBytes_ set_allowedListUids_];
    [frame| |frame..].
  destruct bk_allowed0 as (dl & Hl & E). exists (filter (fun y => y <> uid) dl). split.
  - apply (lists_remove _ _ _ _ Hl). set_solver.
  - erewrite exec_delete by done. f_equal. apply remove_rule_map; [tc_solve|apply Hl|by apply Hl].
Qed.

(** *** The data saver *)

Lemma saver_on b t : bw_kernel b (rules t) -> dataSaverEnable_ b = false ->
  bw_kernel (set_dataSaverEnable_ true b)
    (rules (exec (Insert SAVER_ saver_exempt) (exec (ReplaceFirst SAVER_ (mkRule [] REJECT)) t))).
Proof.
  intros [] Es. rewrite Es in bk_saver0.
  split; cbn [deniedListUids_ allowedListUids_ dataSaverEnable_ ifaceQuotaBytes_ set_dataSaverEnable_];
    [frame|frame| |frame..]. kernel.
Qed.

Lemma saver_off b t : bw_kernel b (rules t) -> dataSaverEnable_ b = true ->
  bw_kernel (set_dataSaverEnable_ false b)
    (rules (exec (ReplaceFirst SAVER_ (mkRule [] RETURN)) (exec (Delete SAVER_ saver_exempt) t))).
Proof.
  intros [] Es. rewrite Es in bk_saver0.
  split; cbn [deniedListUids_ allowedListUids_ dataSaverEnable_ ifaceQuotaBytes_ set_dataSaverEnable_];
    [frame|frame| |frame..].
  eapply exec_replace; [|exact I]. erewrite exec_delete by done. done.
Qed.

(** *** Quotas *)

Definition new_quota_commands (i : string) (n : Z) : list Command :=
  [NewChain (costly_chain i); Append OUTPUT_ (denied_jump i); Insert INPUT_ (costly_in i); Insert OUTPUT_ (costly_out i);
   Append FORWARD_ (costly_in i); Append FORWARD_ (costly_out i); Append (costly_chain i) (quota_rule i n)].

Lemma quota_insert_iff (q : gmap string Z) i n j : is_Some (<[i := n]> q !! j) <-> j = i \/ is_Some (q !! j).
Proof. rewrite lookup_insert_is_Some. destruct (decide (i = j)); naive_solver. Qed.

Lemma quota_new b t i n : bw_kernel b (rules t) -> ifaceQuotaBytes_ b !! i = None ->
  bw_kernel (set_ifaceQuotaBytes_ (<[i := n]> (ifaceQuotaBytes_ b)) b) (rules (exec_all (new_quota_commands i n) t)).
Proof.
  intros [] Ei. cbn [new_quota_commands exec_all foldl].
  destruct bk_output0 as (cl & il & Hc & Hi & Eo), bk_input0 as [li El], bk_forward0 as [lf Ef], bk_denied0 as (dl & Hd & Ed).
  assert (Hn : ~ is_Some (ifaceQuotaBytes_ b !! i)) by (rewrite Ei; by intros []).
  split; cbn [deniedListUids_ allowedListUids_ dataSaverEnable_ ifaceQuotaBytes_ set_ifaceQuotaBytes_];
    [exists dl; split; [done|frame]|frame..| | | | |].
  - exists (i :: cl), (il ++ [i]). split_and!.
    + apply (lists_cons _ _ _ _ Hc Hn). apply quota_insert_iff.
    + apply (lists_snoc _ _ _ _ Hi Hn). apply quota_insert_iff.
    + etransitivity; [kernel|]. rewrite map_app. cbn [map app]. by rewrite <- app_assoc.
  - eexists. kernel.
  - eexists. kernel.
  - intros j m Ej. apply lookup_insert_Some in Ej as [[<- <-]|[Hne Ej]].
    + etransitivity; [kernel|]. by destruct (bk_free0 i Ei) as [->| ->].
    + rewrite !exec_other by first [chain_ne | cbn; intros E%(inj costly_chain); congruence]. by apply bk_quota0.
  - intros j Ej. apply lookup_insert_None in Ej as [Ej Hne].
    rewrite !exec_other by first [chain_ne | cbn; intros E%(inj costly_chain); congruence]. by apply bk_free0.
Qed.

Lemma quota_update b t i n old : bw_kernel b (rules t) -> ifaceQuotaBytes_ b !! i = Some old ->
  bw_kernel (set_ifaceQuotaBytes_ (<[i := n]> (ifaceQuotaBytes_ b)) b)
    (rules (exec (Append (costly_chain i) (quota_rule i n)) (exec (Delete (costly_chain i) (quota_rule i old)) t))).
Proof.
  intros [] Ei. assert (Eq : forall j, is_Some (<[i := n]> (ifaceQuotaBytes_ b) !! j) <-> is_Some (ifaceQuotaBytes_ b !! j)).
  { intros j. rewrite quota_insert_iff. split; [|by auto]. intros [->|?]; [by rewrite Ei|done]. }
  split; cbn [deniedListUids_ allowedListUids_ dataSaverEnable_ ifaceQuotaBytes_ set_ifaceQuotaBytes_];
    [frame..| |frame|frame| |].
  - destruct bk_output0 as (cl & il & Hc & Hi & Eo). exists cl, il. split_and!;
      [by apply (lists_ext _ _ _ Hc)|by apply (lists_ext _ _ _ Hi)|frame].
  - intros j m Ej. apply lookup_insert_Some in Ej as [[<- <-]|[Hne Ej]].
    + etransitivity; [eapply exec_append; [|exact I]; erewrite exec_delete by (by apply bk_quota0); done|].
      cbn [remove_rule]. by rewrite decide_True.
    + rewrite !exec_other by (cbn; intros E%(inj costly_chain); congruence). by apply bk_quota0.
  - intros j Ej. apply lookup_insert_None in Ej as [Ej Hne].
    rewrite !exec_other by (cbn; intros E%(inj costly_chain); congruence). by apply bk_free0.
Qed.

Definition remove_quota_commands (i : string) : list Command :=
  [Delete OUTPUT_ (denied_jump i); Delete INPUT_ (costly_in i); Delete OUTPUT_ (costly_out i);
   Delete FORWARD_ (costly_in i); Delete FORWARD_ (costly_out i); Flush (costly_chain i); DeleteChain (costly_chain i)].

Lemma quota_delete_iff (q : gmap string Z) i j : is_Some (delete i q !! j) <-> j <> i /\ is_Some (q !! j).
Proof. rewrite lookup_delete_is_Some. naive_solver. Qed.

Lemma remove_output_rules i cl il : NoDup cl -> NoDup il -> i ∈ cl -> i ∈ il ->
  remove_rule (costly_out i) (remove_rule (denied_jump i) (map costly_out cl ++ mkRule [] (Jump ALERT_) :: map denied_jump il))
  = map costly_out (filter (fun j => j <> i) cl) ++ mkRule [] (Jump ALERT_) :: map denied_jump (filter (fun j => j <> i) il).
Proof.
  intros Nc Ni Hc Hi. rewrite remove_rule_skip.
  - rewrite (remove_rule_map costly_out i cl) by done. f_equal. cbn [remove_rule]. rewrite decide_False by discriminate.
    f_equal. rewrite <- (app_nil_r (map denied_jump il)), (remove_rule_map denied_jump i il) by done. by rewrite app_nil_r.
  - intros (j & E & _)%list_elem_of_fmap. discriminate E.
Qed.

Lemma quota_remove b t i n : bw_kernel b (rules t) -> ifaceQuotaBytes_ b !! i = Some n ->
  bw_kernel (set_ifaceQuotaBytes_ (delete i (ifaceQuotaBytes_ b)) b) (rules (exec_all (remove_quota_commands i) t)).
Proof.
  intros [] Ei. cbn [remove_quota_commands exec_all foldl].
  destruct bk_output0 as (cl & il & Hc & Hi & Eo), bk_input0 as [li El], bk_forward0 as [lf Ef].
  assert (Hn : is_Some (ifaceQuotaBytes_ b !! i)) by (by rewrite Ei).
  split; cbn [deniedListUids_ allowedListUids_ dataSaverEnable_ ifaceQuotaBytes_ set_ifaceQuotaBytes_];
    [frame..| | | | |].
  - exists (filter (fun j => j <> i) cl), (filter (fun j => j <> i) il). split_and!;
      [apply (lists_remove _ _ _ _ Hc), quota_delete_iff|apply (lists_remove _ _ _ _ Hi), quota_delete_iff|].
    etransitivity; [kernel|]. f_equal. apply remove_output_rules; [apply Hc|apply Hi|by apply Hc|by apply Hi].
  - eexists. kernel.
  - eexists. kernel.
  - intros j m Ej. apply lookup_delete_Some in Ej as [Hne Ej].
    rewrite !exec_other by first [chain_ne | cbn; intros E%(inj costly_chain); congruence]. by apply bk_quota0.
  - intros j Ej. destruct (decide (j = i)) as [->|Hne].
    + match goal with |- rules (exec (DeleteChain ?c) ?t) _ = _ \/ _ => destruct (exec_delete_chain c t) as [E|E] end;
        [by left|right]. rewrite E.
      pose proof (bk_quota0 i n Ei). kernel.
    + rewrite lookup_delete_ne in Ej by done.
      rewrite !exec_other by first [chain_ne | cbn; intros E%(inj costly_chain); congruence]. by apply bk_free0.
Qed.

(** *** Initialisation *)

Definition init_commands : list Command :=
  map (fun c => NewChain (FetchChainName c)) bw_chains ++ bw_chain_rules ++ list_box_rules ++ alert_rules.

Lemma bw_init_kernel t b : bw_fresh (rules t) ->
  dataSaverEnable_ b = false -> ifaceQuotaBytes_ b = ∅ -> deniedListUids_ b = ∅ -> allowedListUids_ b = ∅ ->
  bw_kernel b (rules (exec_all init_commands t)).
Proof.
  intros Hf Es Eq Ed Ea. destruct (bf_input _ Hf) as [li Ei], (bf_output _ Hf) as [lo Eo].
  pose proof (know_exec_all_sound init_commands _ _ (fresh_knows t (map FetchChainName bw_chains) li lo (bf_chains _ Hf) Ei Eo)) as K.
  split.
  - exists []. split; [apply lists_nil; intros u; rewrite Ed; apply not_elem_of_empty|]. apply K. vm_compute. reflexivity.
  - exists []. split; [apply lists_nil; intros u; rewrite Ea; apply not_elem_of_empty|]. apply K. vm_compute. reflexivity.
  - rewrite Es. apply K. vm_compute. reflexivity.
  - apply K. vm_compute. reflexivity.
  - exists [], []. rewrite Eq. split_and!; [apply lists_nil; intros i; rewrite lookup_empty; by intros []..|].
    apply K. vm_compute. reflexivity.
  - eexists. apply K. vm_compute. reflexivity.
  - eexists. apply K. vm_compute. reflexivity.
  - intros i n. by rewrite Eq, lookup_empty.
  - intros i _. destruct (decide (i = "shared")) as [->|Hne].
    + right. apply K. vm_compute. reflexivity.
    + left. rewrite exec_all_other; [apply (bf_costly _ Hf)|]. unfold costly_chain, CHAIN_NAME_COSTLY_PTR.
      repeat constructor; cbn; try discriminate. intros E. apply Hne.
      by apply (inj (String.append "ohbw_costly_")) in E.
Qed.

Lemma run_block_ready cmds w : ready w ->
  run_block cmds w = (NETMANAGER_SUCCESS, set_filters w (exec_all cmds (ipv4_filter w)) (ipv6_filter w)).
Proof. intros Hr. unfold run_block. by rewrite run_commands_ready. Qed.

Lemma bw_CheckChainInitialization_fresh b w : ready w -> chainInitFlag_ b = false ->
  CheckChainInitialization b w =
  (set_chainInitFlag_ true b, set_filters w (exec_all init_commands (ipv4_filter w)) (ipv6_filter w)).
Proof.
  intros Hr Ef. unfold CheckChainInitialization, InitChain. rewrite Ef.
  change (any_error (map IptablesNewChain bw_chains) w)
    with (run_commands IPTYPE_IPV4 (map (fun c => NewChain (FetchChainName c)) bw_chains) false w).
  rewrite run_commands_ready by done. cbn [wants_ipv4 wants_ipv6].
  unfold InitDefaultRules, InitDefaultBwChainRules, InitDefaultListBoxChainRules, InitDefaultAlertChainRules.
  cbn [any_error]. rewrite !run_block_ready by done. reflexivity.
Qed.

(** An initialised manager is left alone; a fresh one gets its chains. *)
Lemma bw_CheckChainInitialization_inv b w : bw_inv b w ->
  exists w', CheckChainInitialization b w = (set_chainInitFlag_ true b, w') /\
    ready w' /\ bw_kernel (set_chainInitFlag_ true b) (rules (ipv4_filter w')).
Proof.
  intros [Hr Hi]. destruct (chainInitFlag_ b) eqn:Ef.
  - assert (E : set_chainInitFlag_ true b = b) by (destruct b; cbn in *; by subst). rewrite E.
    exists w. split; [|done]. unfold CheckChainInitialization. by rewrite Ef.
  - destruct Hi as [(Es & Eq & Ed & Ea) Hf]. rewrite bw_CheckChainInitialization_fresh by done.
    eexists. split; [reflexivity|]. split; [done|]. by apply bw_init_kernel.
Qed.

(** *** Every operation keeps the chains in step *)

Lemma bw_initialised_inv b w : chainInitFlag_ b = true -> ready w -> bw_kernel b (rules (ipv4_filter w)) -> bw_inv b w.
Proof. intros Ef Hr Hk. split; [done|]. by rewrite Ef. Qed.

Lemma bw_perform_inv c b w : bw_inv b w -> let '(_, b', w') := perform c b w in bw_inv b' w'.
Proof.
  intros Hi. destruct (bw_CheckChainInitialization_inv b w Hi) as (w' & E & Hr & Hk).
  assert (Ef : chainInitFlag_ (set_chainInitFlag_ true b) = true) by done.
  revert E Ef Hk. generalize (set_chainInitFlag_ true b). intros b1 E Ef Hk.
  destruct c; cbn [perform];
    unfold EnableDataSaver, SetIfaceQuota, RemoveIfaceQuota, AddDeniedList, RemoveDeniedList, AddAllowedList, RemoveAllowedList;
    rewrite ?E.
  - destruct (enable && negb (dataSaverEnable_ b1)) eqn:E1; [|destruct (negb enable && dataSaverEnable_ b1) eqn:E2].
    + apply andb_prop in E1 as [-> E1%negb_true_iff]. rewrite run_commands_ready by done.
      apply bw_initialised_inv; [done..|]. by apply saver_on.
    + apply andb_prop in E2 as [E2 E3]. rewrite run_commands_ready by done.
      apply bw_initialised_inv; [done..|]. by apply saver_off.
    + by apply bw_initialised_inv.
  - destruct (negb (CheckIfaceName ifName)); [done|]. unfold SetIfaceQuotaDetail.
    destruct (ifaceQuotaBytes_ b1 !! ifName) as [old|] eqn:Eq.
    + rewrite run_commands_ready by done. apply bw_initialised_inv; [done..|]. by eapply quota_update.
    + unfold IptablesNewChain_named. rewrite RunCommand_ready by done. cbn [negb Z.eqb NETMANAGER_SUCCESS NETMANAGER_ERROR].
      rewrite run_commands_ready by done. apply bw_initialised_inv; [done..|]. by apply (quota_new _ _ ifName bytes Hk).
  - destruct (negb (CheckIfaceName ifName)); [done|]. rewrite ?E.
    destruct (ifaceQuotaBytes_ b1 !! ifName) as [old|] eqn:Eq; [|by apply bw_initialised_inv].
    rewrite run_commands_ready by done. unfold IptablesDeleteChain_named. rewrite run_commands_ready by done.
    apply bw_initialised_inv; [done..|]. by apply (quota_remove _ _ ifName old Hk).
  - case_bool_decide; [by apply bw_initialised_inv|]. rewrite RunCommand_ready by done.
    apply bw_initialised_inv; [done..|]. by apply denied_add.
  - case_bool_decide; [|by apply bw_initialised_inv]. rewrite RunCommand_ready by done.
    apply bw_initialised_inv; [done..|]. by apply denied_remove.
  - case_bool_decide; [by apply bw_initialised_inv|]. rewrite RunCommand_ready by done.
    apply bw_initialised_inv; [done..|]. by apply allowed_add.
  - case_bool_decide; [|by apply bw_initialised_inv]. rewrite RunCommand_ready by done.
    apply bw_initialised_inv; [done..|]. by apply allowed_remove.
Qed.

(** *** Runs of the service

    Between two operations the other managers may change chains of their own, and
    rules of the built-in ones. *)

Definition bw_stable (w w' : W) : Prop :=
  ready w' /\
  (forall x, rules (ipv4_filter w') ("ohbw_" +:+ x) = rules (ipv4_filter w) ("ohbw_" +:+ x)) /\
  (forall c, c = "INPUT" \/ c = "OUTPUT" -> is_Some (rules (ipv4_filter w) c) -> is_Some (rules (ipv4_filter w') c)).

Inductive bw_reach : BandwidthManager -> W -> Prop :=
| bw_start w : ready w -> bw_fresh (rules (ipv4_filter w)) -> bw_reach new_BandwidthManager w
| bw_call b w c r b' w' : bw_reach b w -> perform c b w = (r, b', w') -> bw_reach b' w'
| bw_env b w w' : bw_reach b w -> bw_stable w w' -> bw_reach b w'.

Lemma bw_stable_inv b w w' : bw_inv b w -> bw_stable w w' -> bw_inv b w'.
Proof.
  intros [_ Hi] (Hr & Hs & Hb). split; [done|].
  assert (Hc : forall i, rules (ipv4_filter w') (costly_chain i) = rules (ipv4_filter w) (costly_chain i))
    by (intros i; apply (Hs ("costly_" +:+ i))).
  destruct (chainInitFlag_ b).
  - assert (He : forall c, c ∈ [DENIED_; ALLOWED_; SAVER_; ALERT_; OUTPUT_; INPUT_; FORWARD_] ->
      rules (ipv4_filter w') c = rules (ipv4_filter w) c).
    { intros c Hin. repeat (apply elem_of_cons in Hin as [->|Hin]; [exact (Hs _)|]). by apply not_elem_of_nil in Hin. }
    destruct Hi. split; rewrite ?He by set_solver; auto; intros i; rewrite Hc; auto.
  - destruct Hi as [Hz []]. split; [done|]. split; [auto..| |].
    + intros c Hin. rewrite <- (bf_chains0 c Hin). clear Hz.
      repeat (apply elem_of_cons in Hin as [->|Hin]; [exact (Hs _)|]). by apply not_elem_of_nil in Hin.
    + intros i. by rewrite Hc.
Qed.

Lemma bw_reach_inv b w : bw_reach b w -> bw_inv b w.
Proof.
  induction 1 as [w Hr Hf|b w c r b' w' _ IH E|b w w' _ IH Hs].
  - by split.
  - pose proof (bw_perform_inv c b w IH) as Hp. by rewrite E in Hp.
  - by eapply bw_stable_inv.
Qed.

(** *** What happens to a packet *)

Context {P : Type} `{PacketsLaws P}.

(** Denied users are blocked; with the data saver, so are the applications that
    are not in the allowed list. *)
Definition bw_blocks (b : BandwidthManager) (uid : Z) : bool :=
  bool_decide (uid ∈ deniedListUids_ b)
  || (negb (bool_decide (uid ∈ allowedListUids_ b)) && dataSaverEnable_ b && negb ((0 <=? uid) && (uid <=? 9999))).

(** An interface without quota is not metered. *)
Definition bw_verdict (b : BandwidthManager) (uid : Z) (p : P) : Verdict :=
  match ifaceQuotaBytes_ b !! out_iface p with
  | None => Passed
  | Some n => if matches p (OverQuota2 n (out_iface p)) || bw_blocks b uid then Rejected else Passed
  end.

Lemma eval_ifaces jump (p : P) (g : string -> string) l rest :
  eval jump p (map (fun i => mkRule [OutIface i] (Jump (g i))) l ++ rest) =
  if decide (out_iface p ∈ l)
  then match jump (g (out_iface p)) with Passed => eval jump p rest | v => v end
  else eval jump p rest.
Proof.
  induction l as [|i l IH]; [by rewrite decide_False by apply not_elem_of_nil|].
  cbn [map app eval]. unfold rule_matches_packet at 1. cbn [rule_matches forallb rule_target].
  rewrite matches_out, andb_true_r. case_bool_decide as Ei.
  - rewrite decide_True by (subst; apply list_elem_of_here). rewrite <- Ei.
    destruct (jump (g (out_iface p))) eqn:Ej; try done. rewrite IH, ?Ej. by case_decide.
  - rewrite IH. destruct (decide (out_iface p ∈ l)) as [Hl|Hl].
    + by rewrite decide_True by (by right).
    + rewrite decide_False; [done|]. by intros [?|?]%elem_of_cons.
Qed.

Lemma list_box_verdict b t (p : P) d uid : bw_kernel b (rules t) -> owner p = Some uid ->
  walk (S (S (S d))) (rules t) p DENIED_ = if bw_blocks b uid then Rejected else Passed.
Proof.
  intros [] Eu. destruct bk_denied0 as (dl & [_ Hd] & Ed), bk_allowed0 as (al & [_ Ha] & Ea). unfold bw_blocks.
  assert (Es : walk (S d) (rules t) p SAVER_ =
               if dataSaverEnable_ b && negb ((0 <=? uid) && (uid <=? 9999)) then Rejected else Passed).
  { rewrite (walk_chain _ _ _ _ _ bk_saver0). destruct (dataSaverEnable_ b); cbn [eval]; unfold rule_matches_packet;
      cbn [rule_matches rule_target saver_exempt forallb]; [|done].
    rewrite matches_range, Eu. by destruct ((0 <=? uid) && (uid <=? 9999)). }
  rewrite (walk_chain _ _ _ _ _ Ed). unfold reject_uid. rewrite (eval_uids _ _ _ _ _ _ Eu) by done.
  cbn [eval]. unfold rule_matches_packet. cbn [rule_matches rule_target forallb].
  destruct (decide (uid ∈ dl)) as [Hin|Hin]; [by rewrite bool_decide_eq_true_2 by (by apply Hd)|].
  rewrite bool_decide_eq_false_2 by (by rewrite <- Hd). cbn [orb].
  rewrite (walk_chain _ _ _ _ _ Ea). unfold return_uid. rewrite (eval_uids _ _ _ _ _ _ Eu) by done.
  cbn [eval]. unfold rule_matches_packet. cbn [rule_matches rule_target forallb].
  destruct (decide (uid ∈ al)) as [Hal|Hal]; [by rewrite bool_decide_eq_true_2 by (by apply Ha)|].
  rewrite bool_decide_eq_false_2 by (by rewrite <- Ha). cbn [negb andb]. rewrite Es.
  by destruct (dataSaverEnable_ b && negb ((0 <=? uid) && (uid <=? 9999))).
Qed.

Lemma bw_inv_verdict b w (p : P) d uid : bw_inv b w -> owner p = Some uid ->
  walk (4 + d) (rules (ipv4_filter w)) p OUTPUT_ = bw_verdict b uid p.
Proof.
  intros [_ Hi] Eu. unfold bw_verdict. destruct (chainInitFlag_ b).
  - pose proof Hi as Hk. destruct Hi. destruct bk_output0 as (cl & il & [_ Hc] & [_ Hil] & Eo). cbn [Nat.add].
    rewrite (walk_chain _ _ _ _ _ Eo). unfold costly_out, denied_jump. rewrite eval_ifaces. cbn [eval].
    unfold rule_matches_packet at 1 2. cbn [rule_matches rule_target forallb].
    rewrite (walk_chain _ _ _ ALERT_ _ bk_alert0). cbn [eval].
    rewrite <- (app_nil_r (map _ il)), (eval_ifaces _ p (fun _ => FetchChainName CHAIN_OHBW_DENIED_LIST_BOX)).
    change (FetchChainName CHAIN_OHBW_DENIED_LIST_BOX) with DENIED_. rewrite (list_box_verdict b _ p d uid Hk Eu).
    destruct (ifaceQuotaBytes_ b !! out_iface p) as [n|] eqn:Eq.
    + rewrite !decide_True by (first [apply Hc|apply Hil]; by rewrite Eq).
      rewrite (walk_chain _ _ _ _ _ (bk_quota0 _ _ Eq)). cbn [eval]. unfold rule_matches_packet, quota_rule.
      cbn [rule_matches rule_target forallb]. rewrite andb_true_r.
      destruct (matches p (OverQuota2 n (out_iface p))); [done|]. by destruct (bw_blocks b uid).
    + rewrite !decide_False; [done|..]; first [rewrite Hc|rewrite Hil]; rewrite Eq; by intros [].
  - destruct Hi as [(_ & -> & _) []]. cbn [Nat.add walk].
    assert (E : rules (ipv4_filter w) OUTPUT_ = None) by (apply bf_chains0; by right; left).
    by rewrite E, lookup_empty.
Qed.

(** C17: What the bandwidth manager was told is what the packet filter does: in
    every state the service can reach, a packet of user [uid] that leaves by an
    interface without quota passes the chains of the manager, and one that
    leaves by a metered interface is rejected exactly when the quota is used up,
    the user is denied, or the data saver is on and the user is an application
    that is not in the allowed list. *)
Theorem metered_verdict b w (p : P) d uid : bw_reach b w -> owner p = Some uid ->
  walk (4 + d) (rules (ipv4_filter w)) p (FetchChainName CHAIN_OHBW_OUTPUT) = bw_verdict b uid p.
Proof. intros Hr. by apply bw_inv_verdict, bw_reach_inv. Qed.

End Invariant.

Lemma boot_bw_fresh : bw_fresh (rules boot_table).
Proof.
  split; [done..| |].
  - intros c Hin. apply boot_table_other; intros ->; vm_compute in Hin; by repeat (apply elem_of_cons in Hin as [?|Hin]; [done|]); apply elem_of_nil in Hin.
  - intros i. by apply boot_table_other.
Qed.

Definition run_calls (cs : list Call) (b : BandwidthManager) (w : IptablesWrapper Table) : BandwidthManager * IptablesWrapper Table :=
  foldl (fun '(b, w) c => let '(_, b, w) := perform c b w in (b, w)) (b, w) cs.

Lemma bw_run_calls_reach cs : forall b w, bw_reach b w -> bw_reach (run_calls cs b w).1 (run_calls cs b w).2.
Proof.
  induction cs as [|c cs IH]; intros b w Hr; [done|]. unfold run_calls. cbn [foldl].
  destruct (perform c b w) as [[r b'] w'] eqn:E. apply IH. by eapply bw_call.
Qed.

Lemma metered_verdict_witness :
  let w := (run_calls [CallSetIfaceQuota "wlan0" 1000; CallAddDeniedList 20010] new_BandwidthManager boot_wrapper).2 in
  walk 4 (rules (ipv4_filter w)) (mkOutPacket (Some 20010) "wlan0" false false) (FetchChainName CHAIN_OHBW_OUTPUT) = Rejected.
Proof.
  set (cs := [_; _]). cbn zeta.
  pose proof (bw_run_calls_reach cs _ _ (bw_start boot_wrapper (conj eq_refl (conj eq_refl eq_refl)) boot_bw_fresh)) as Hr.
  rewrite (metered_verdict _ _ (mkOutPacket (Some 20010) "wlan0" false false) 0 20010 Hr) by reflexivity.
  vm_compute. reflexivity.
Defined.

End BandwidthManager.
