(* ===== verification/FirewallManager.v ===== *)
(** * Power and idle firewalls of the native service
    (services/netmanagernative/src/manager/firewall_manager.cpp)

    Three chains block applications: while the device idles all but those of an
    allowed list ([ohfw_dozable]), likewise while it saves power
    ([ohfw_powersaving]), and those of a denied list ([ohfw_undozable]).  The
    manager keeps for each chain whether it is linked into [ohfw_OUTPUT] and the
    users it was told, and changes the IPv4 and the IPv6 table together.

    [fw_kernel] says what the chains hold; every operation except
    [ClearAllRules] keeps it, and [firewall_verdict] reads off it which packets
    are dropped.  [ClearAllRules] empties the chains and does not touch the
    fields ([ClearAllRules_disables]). *)

From S2P Require Import Prelude NetData Iptables.
Import NetData Iptables.

Module FirewallManager.

Record FirewallChainStatus := mkStatus { enable : bool; type : FirewallType; uids : list Z }.

Record FirewallManager := mkFirewallManager {
  chainInitFlag_ : bool;
  strMaxUid_ : string;
  firewallType_ : FirewallType;
  firewallChainStatus_ : gmap Z FirewallChainStatus
}.

Definition set_chainInitFlag_ x m := mkFirewallManager x (strMaxUid_ m) (firewallType_ m) (firewallChainStatus_ m).
Definition set_firewallType_ x m := mkFirewallManager (chainInitFlag_ m) (strMaxUid_ m) x (firewallChainStatus_ m).
Definition set_status x m := mkFirewallManager (chainInitFlag_ m) (strMaxUid_ m) (firewallType_ m) x.

Definition SYSTEM_UID_RANGE : Z := 9999.
Definition DEFAULT_MAX_UID_RANGE : string := "4294967295".

(** The text after the last blank. *)
Fixpoint after_last_blank (s : string) : option string :=
  match s with
  | String.EmptyString => None
  | String.String c s =>
      match after_last_blank s with
      | Some r => Some r
      | None => if Z.of_nat (Ascii.nat_of_ascii c) =? 32 then Some s else None
      end
  end.

(** [content] is the file /proc/self/uid_map, when it can be opened. *)
Definition ReadMaxUidConfig (content : option string) : string :=
  match content with
  | None => DEFAULT_MAX_UID_RANGE
  | Some content =>
      match after_last_blank content with
      | None => DEFAULT_MAX_UID_RANGE
      | Some maxUid => if bool_decide (maxUid = "") then DEFAULT_MAX_UID_RANGE else maxUid
      end
  end.

Definition new_FirewallManager (content : option string) : FirewallManager :=
  let status := mkStatus false TYPE_ALLOWED_LIST [] in
  mkFirewallManager false (ReadMaxUidConfig content) TYPE_ALLOWED_LIST
    (<[CHAIN_OHFW_ALLOWED_LIST_BOX := status]> (<[CHAIN_OHFW_UNDOZABLE := status]>
      (<[CHAIN_OHFW_POWERSAVING := status]> (<[CHAIN_OHFW_DOZABLE := status]> ∅)))).

(** [firewallChainStatus_[chain]]; the four chains that are ever looked up are
    created by the constructor. *)
Definition status_of (m : FirewallManager) (chain : Z) : FirewallChainStatus :=
  default (mkStatus false TYPE_ALLOWED_LIST []) (firewallChainStatus_ m !! chain).
Definition put_status (chain : Z) (s : FirewallChainStatus) (m : FirewallManager) : FirewallManager :=
  set_status (<[chain := s]> (firewallChainStatus_ m)) m.
Definition set_uids (l : list Z) (s : FirewallChainStatus) : FirewallChainStatus := mkStatus (enable s) (type s) l.
Definition set_enable (e : bool) (s : FirewallChainStatus) : FirewallChainStatus := mkStatus e (type s) (uids s).

Definition IsFirewallChian (chain : Z) : Z :=
  if negb (chain =? CHAIN_OHFW_DOZABLE) && negb (chain =? CHAIN_OHFW_POWERSAVING)
     && negb (chain =? CHAIN_OHFW_UNDOZABLE) && negb (chain =? CHAIN_OHFW_ALLOWED_LIST_BOX)
  then NETMANAGER_ERROR else NETMANAGER_SUCCESS.

Definition FetchChainName (chain : Z) : string :=
  if chain =? CHAIN_OHFW_INPUT then "ohfw_INPUT"
  else if chain =? CHAIN_OHFW_OUTPUT then "ohfw_OUTPUT"
  else if chain =? CHAIN_OHFW_FORWARD then "ohfw_FORWARD"
  else if chain =? CHAIN_OHFW_DOZABLE then "ohfw_dozable"
  else if chain =? CHAIN_OHFW_ALLOWED_LIST_BOX then "ohfw_allowed_list_box"
  else if chain =? CHAIN_OHFW_POWERSAVING then "ohfw_powersaving"
  else if chain =? CHAIN_OHFW_UNDOZABLE then "ohfw_undozable"
  else "oh_unusable".

Definition FetchChainType (chain : Z) : FirewallType :=
  if chain =? CHAIN_OHFW_DOZABLE then TYPE_ALLOWED_LIST
  else if chain =? CHAIN_OHFW_POWERSAVING then TYPE_ALLOWED_LIST
  else if chain =? CHAIN_OHFW_UNDOZABLE then TYPE_DENIDE_LIST
  else TYPE_ALLOWED_LIST.

Section Operations.
Context {T : Type} `{Iptables T}.
Abbreviation W := (IptablesWrapper T).

(** The packets every chain lets through: those of the loopback interface,
    resets, and with IPv6 neighbour solicitations and advertisements. *)
Definition SetFireWallCommand (chainName : string) (command : Command) (w : W) : bool * W :=
  let '(ret, w) :=
    run_commands IPTYPE_IPV4V6
      [command;
       Append chainName (mkRule [InIface "lo"] RETURN);
       Append chainName (mkRule [OutIface "lo"] RETURN);
       Append chainName (mkRule [TcpRst] RETURN)] false w in
  run_commands IPTYPE_IPV6
    [Append chainName (mkRule [Icmpv6Type 135] RETURN);
     Append chainName (mkRule [Icmpv6Type 136] RETURN)] ret w.

Definition fw_chains : list Z :=
  [CHAIN_OHFW_INPUT; CHAIN_OHFW_OUTPUT; CHAIN_OHFW_FORWARD; CHAIN_OHFW_DOZABLE;
   CHAIN_OHFW_ALLOWED_LIST_BOX; CHAIN_OHFW_POWERSAVING; CHAIN_OHFW_UNDOZABLE].

Definition IptablesNewChain (chain : Z) (w : W) : Z * W := RunCommand IPTYPE_IPV4V6 (NewChain (FetchChainName chain)) w.

Definition IptablesDeleteChain (chain : Z) (w : W) : Z * W :=
  let '(ret, w) := run_commands IPTYPE_IPV4V6 [Flush (FetchChainName chain); DeleteChain (FetchChainName chain)] false w in
  (code_of ret, w).

Definition InitChain (m : FirewallManager) (w : W) : Z * FirewallManager * W :=
  let '(ret, w) := any_error (map IptablesNewChain fw_chains) w in
  (code_of ret, set_chainInitFlag_ true m, w).

Definition DeInitChain (m : FirewallManager) (w : W) : Z * FirewallManager * W :=
  let '(ret, w) := any_error (map IptablesDeleteChain fw_chains) w in
  (code_of ret, set_chainInitFlag_ false m, w).

Definition default_rules : list Command :=
  [Append "INPUT" (mkRule [] (Jump (FetchChainName CHAIN_OHFW_INPUT)));
   Append "OUTPUT" (mkRule [] (Jump (FetchChainName CHAIN_OHFW_OUTPUT)))].

Definition InitDefaultRules (w : W) : Z * W :=
  let '(ret, w) := run_commands IPTYPE_IPV4V6 default_rules false w in (code_of ret, w).

Definition CheckChainInitialization (m : FirewallManager) (w : W) : FirewallManager * W :=
  if chainInitFlag_ m then (m, w)
  else
    let '(_, m, w) := InitChain m w in
    let '(_, w) := InitDefaultRules w in
    (m, w).

Definition ClearAllRules (w : W) : Z * W :=
  let '(ret, w) :=
    run_commands IPTYPE_IPV4V6
      (map (fun chain => Flush (FetchChainName chain))
         [CHAIN_OHFW_DOZABLE; CHAIN_OHFW_POWERSAVING; CHAIN_OHFW_UNDOZABLE; CHAIN_OHFW_INPUT; CHAIN_OHFW_OUTPUT;
          CHAIN_OHFW_FORWARD; CHAIN_OHFW_ALLOWED_LIST_BOX]) false w in
  (code_of ret, w).

(** [-t filter option chainName -m owner --uid-owner uid -j target], with the
    option as the command it stands for. *)
Definition IptablesSetRule (chainName : string) (option : string -> Rule -> Command) (target : Target) (uid : Z) (w : W) : Z * W :=
  RunCommand IPTYPE_IPV4V6 (option chainName (mkRule [OwnerUid uid] target)) w.

Definition return_uid (uid : Z) : Rule := mkRule [OwnerUid uid] RETURN.
Definition drop_uid (uid : Z) : Rule := mkRule [OwnerUid uid] DROP.

(** The result of [SetFireWallCommand] replaces the one so far. *)
Definition SetUidsAllowedListChain (chain : Z) (uids : list Z) (m : FirewallManager) (w : W) : Z * FirewallManager * W :=
  if negb (chain =? CHAIN_OHFW_DOZABLE) && negb (chain =? CHAIN_OHFW_POWERSAVING) then (NETMANAGER_ERROR, m, w)
  else
    let '(m, w) := CheckChainInitialization m w in
    let chainName := FetchChainName chain in
    let '(_, w) :=
      run_commands IPTYPE_IPV4V6
        ([Flush chainName; Append chainName (mkRule [] (Jump (FetchChainName CHAIN_OHFW_ALLOWED_LIST_BOX)))]
         ++ map (fun uid => Append chainName (return_uid uid)) uids
         ++ [Append chainName (mkRule [OwnerRange 0 SYSTEM_UID_RANGE] RETURN)]) false w in
    let '(ret, w) := SetFireWallCommand chainName (Append chainName (mkRule [OwnerAbove (strMaxUid_ m)] RETURN)) w in
    let '(ret, w) := run_commands IPTYPE_IPV4V6 [Append chainName (mkRule [] DROP)] ret w in
    let m := if ret then m else put_status chain (set_uids uids (status_of m chain)) m in
    (code_of ret, m, w).

Definition SetUidsDeniedListChain (chain : Z) (uids : list Z) (m : FirewallManager) (w : W) : Z * FirewallManager * W :=
  if negb (chain =? CHAIN_OHFW_UNDOZABLE) then (NETMANAGER_ERROR, m, w)
  else
    let '(m, w) := CheckChainInitialization m w in
    let chainName := FetchChainName chain in
    let '(ret, w) := SetFireWallCommand chainName (Flush chainName) w in
    let '(ret, w) := run_commands IPTYPE_IPV4V6 (map (fun uid => Append chainName (drop_uid uid)) uids) ret w in
    let m := if ret then m else put_status chain (set_uids uids (status_of m chain)) m in
    (code_of ret, m, w).

Definition EnableChain (chain : Z) (enable_ : bool) (m : FirewallManager) (w : W) : Z * FirewallManager * W :=
  if IsFirewallChian chain =? NETMANAGER_ERROR then (NETMANAGER_ERROR, m, w)
  else
    let '(m, w) := CheckChainInitialization m w in
    let chainName := FetchChainName chain in
    let fChainName := FetchChainName CHAIN_OHFW_OUTPUT in
    let finish (ret : bool) (m : FirewallManager) (w : W) :=
      let m := if ret then m
               else put_status chain (set_enable enable_ (status_of m chain)) (set_firewallType_ (FetchChainType chain) m) in
      (code_of ret, m, w) in
    if enable_ && negb (enable (status_of m chain)) then
      let '(ret, w) := run_commands IPTYPE_IPV4V6 [Append fChainName (mkRule [] (Jump chainName))] false w in
      finish ret m w
    else if negb enable_ then
      let '(ret, w) :=
        run_commands IPTYPE_IPV4V6 [Delete fChainName (mkRule [] (Jump chainName)); Flush chainName] false w in
      finish ret (put_status chain (set_uids [] (status_of m chain)) m) w
    else (NETMANAGER_ERROR, m, w).

(** [std::vector::erase] of the first equal element. *)
Fixpoint erase_first (x : Z) (l : list Z) : list Z :=
  match l with [] => [] | y :: l => if decide (y = x) then l else y :: erase_first x l end.

Definition SetUidRule (chain uid firewallRule : Z) (m : FirewallManager) (w : W) : Z * FirewallManager * W :=
  if IsFirewallChian chain =? NETMANAGER_ERROR then (NETMANAGER_ERROR, m, w)
  else if negb (enable (status_of m chain)) then (NETMANAGER_ERROR, m, w)
  else
    let '(m, w) := CheckChainInitialization m w in
    let chainName := FetchChainName chain in
    let '(removes, op, target) :=
      match FetchChainType chain with
      | TYPE_DENIDE_LIST => if firewallRule =? RULE_DENY then (false, Append, DROP) else (true, Delete, DROP)
      | TYPE_ALLOWED_LIST =>
          let target := if negb (chain =? CHAIN_OHFW_ALLOWED_LIST_BOX) then RETURN else ACCEPT in
          if firewallRule =? RULE_ALLOW then (false, Insert, target) else (true, Delete, target)
      end in
    let status := status_of m chain in
    let found := bool_decide (uid ∈ uids status) in
    if negb removes && negb found then
      let '(r, w) := IptablesSetRule chainName op target uid w in
      if r =? NETMANAGER_ERROR then (NETMANAGER_ERROR, m, w)
      else (NETMANAGER_SUCCESS, put_status chain (set_uids (uids status ++ [uid]) status) m, w)
    else if removes && found then
      let '(r, w) := IptablesSetRule chainName op target uid w in
      if r =? NETMANAGER_ERROR then (NETMANAGER_ERROR, m, w)
      else (NETMANAGER_SUCCESS, put_status chain (set_uids (erase_first uid (uids status)) status) m, w)
    else (NETMANAGER_ERROR, m, w).

(** The operations that keep the chains and the fields in step. *)
Inductive Call :=
| CallSetUidsAllowedListChain (chain : Z) (uids : list Z)
| CallSetUidsDeniedListChain (chain : Z) (uids : list Z)
| CallEnableChain (chain : Z) (enable_ : bool)
| CallSetUidRule (chain uid rule : Z).

Definition perform (c : Call) (m : FirewallManager) (w : W) : Z * FirewallManager * W :=
  match c with
  | CallSetUidsAllowedListChain chain uids => SetUidsAllowedListChain chain uids m w
  | CallSetUidsDeniedListChain chain uids => SetUidsDeniedListChain chain uids m w
  | CallEnableChain chain e => EnableChain chain e m w
  | CallSetUidRule chain uid rule => SetUidRule chain uid rule m w
  end.

End Operations.

(** ** What the chains hold *)

Abbreviation OUTPUT_ := "ohfw_OUTPUT".
Abbreviation BOX_ := "ohfw_allowed_list_box".
Abbreviation UNDOZABLE_ := "ohfw_undozable".

Definition exempts (six : bool) : list Rule :=
  [mkRule [InIface "lo"] RETURN; mkRule [OutIface "lo"] RETURN; mkRule [TcpRst] RETURN]
  ++ (if six then [mkRule [Icmpv6Type 135] RETURN; mkRule [Icmpv6Type 136] RETURN] else []).

(** An allowed-list chain after it was filled for the users [base]. *)
Definition allow_rules (six : bool) (max : string) (base : list Z) : list Rule :=
  mkRule [] (Jump BOX_) :: map return_uid base
  ++ [mkRule [OwnerRange 0 SYSTEM_UID_RANGE] RETURN; mkRule [OwnerAbove max] RETURN] ++ exempts six ++ [mkRule [] DROP].

Definition allow_chain (c : Z) : Prop := c = CHAIN_OHFW_DOZABLE \/ c = CHAIN_OHFW_POWERSAVING.
Definition linked_chain (c : Z) : Prop := allow_chain c \/ c = CHAIN_OHFW_UNDOZABLE.

(** Users added later are at the head of the chain and at the end of the list. *)
Definition holds_allowed (filled six : bool) (max : string) (us : list Z) (o : option (list Rule)) : Prop :=
  exists base ins, us = base ++ reverse ins /\ NoDup ins /\ (forall u, u ∈ ins -> u ∉ base) /\ (filled = false -> base = []) /\
    o = Some (map return_uid ins ++ if filled then allow_rules six max base else []).

Definition holds_denied (six : bool) (us : list Z) (o : option (list Rule)) : Prop :=
  o = Some (map drop_uid us) \/ o = Some (exempts six ++ map drop_uid us).

Definition jump_to (c : Z) : Rule := mkRule [] (Jump (FetchChainName c)).

(** [filled c]: the chain [c] was filled since it was last disabled. *)
Record fw_kernel (filled : Z -> bool) (six : bool) (m : FirewallManager) (f : string -> option (list Rule)) : Prop := {
  fk_allow : forall c, allow_chain c ->
    holds_allowed (filled c) six (strMaxUid_ m) (uids (status_of m c)) (f (FetchChainName c));
  fk_deny : holds_denied six (uids (status_of m CHAIN_OHFW_UNDOZABLE)) (f UNDOZABLE_);
  fk_box : f BOX_ = Some [];
  fk_output : exists el, NoDup el /\ (forall c, c ∈ el <-> linked_chain c /\ enable (status_of m c) = true) /\
    f OUTPUT_ = Some (map jump_to el);
}.

Record fw_fresh (f : string -> option (list Rule)) : Prop := {
  ff_input : is_Some (f "INPUT");
  ff_output : is_Some (f "OUTPUT");
  ff_chains : forall c, c ∈ map FetchChainName fw_chains -> f c = None;
}.

Lemma status_of_put c s m c' : status_of (put_status c s m) c' = if decide (c = c') then s else status_of m c'.
Proof.
  unfold status_of, put_status. cbn [firewallChainStatus_ set_status]. case_decide as E.
  - subst. by rewrite lookup_insert_eq.
  - by rewrite lookup_insert_ne.
Qed.

Lemma FetchChainName_inj c c' : linked_chain c -> linked_chain c' -> FetchChainName c = FetchChainName c' -> c = c'.
Proof. by intros [[->| ->]| ->] [[->| ->]| ->]. Qed.

Section Invariant.
Context {T : Type} `{IptablesLaws T}.
Abbreviation W := (IptablesWrapper T).
Implicit Types (m : FirewallManager) (w : W) (t : T) (g : Z -> bool).

(** The box is never linked, so nothing is ever put into it. *)
Definition box_unused m : Prop := status_of m CHAIN_OHFW_ALLOWED_LIST_BOX = mkStatus false TYPE_ALLOWED_LIST [].

Definition unused m : Prop := forall c, linked_chain c -> enable (status_of m c) = false /\ uids (status_of m c) = [].

Definition fw_inv (g : Z -> bool) (m : FirewallManager) (w : W) : Prop :=
  ready w /\ box_unused m /\
  if chainInitFlag_ m then fw_kernel g false m (rules (ipv4_filter w)) /\ fw_kernel g true m (rules (ipv6_filter w))
  else unused m /\ (forall c, g c = false) /\ fw_fresh (rules (ipv4_filter w)) /\ fw_fresh (rules (ipv6_filter w)).

Lemma linked_allow c : allow_chain c -> linked_chain c.
Proof. by left. Qed.

Lemma name_ne c c' : linked_chain c -> linked_chain c' -> c <> c' -> FetchChainName c <> FetchChainName c'.
Proof. intros Hc Hc' Hne E. by apply Hne, FetchChainName_inj. Qed.

Lemma name_not_output c : linked_chain c -> FetchChainName c <> OUTPUT_ /\ FetchChainName c <> BOX_.
Proof. by intros [[->| ->]| ->]. Qed.

(** The part of the invariant about the chains [c] is not. *)
Lemma fw_kernel_upd g g' six m m' f f' c : linked_chain c -> fw_kernel g six m f ->
  strMaxUid_ m' = strMaxUid_ m ->
  (forall c', c' <> c -> g' c' = g c') ->
  (forall c', c' <> c -> linked_chain c' -> f' (FetchChainName c') = f (FetchChainName c') /\ status_of m' c' = status_of m c') ->
  f' BOX_ = f BOX_ ->
  (allow_chain c -> holds_allowed (g' c) six (strMaxUid_ m) (uids (status_of m' c)) (f' (FetchChainName c))) ->
  (c = CHAIN_OHFW_UNDOZABLE -> holds_denied six (uids (status_of m' c)) (f' UNDOZABLE_)) ->
  (exists el, NoDup el /\ (forall c', c' ∈ el <-> linked_chain c' /\ enable (status_of m' c') = true) /\
     f' OUTPUT_ = Some (map jump_to el)) ->
  fw_kernel g' six m' f'.
Proof.
  intros Hc [] Em Eg Ef Eb Ha Hd Ho. split.
  - intros c' Hc'. rewrite Em. destruct (decide (c' = c)) as [->|Hne]; [auto|].
    destruct (Ef c' Hne (linked_allow _ Hc')) as [-> ->]. rewrite Eg by done. auto.
  - destruct (decide (c = CHAIN_OHFW_UNDOZABLE)) as [->|Hne]; [auto|].
    destruct (Ef CHAIN_OHFW_UNDOZABLE) as [E1 E2]; [congruence|by right|].
    change (FetchChainName CHAIN_OHFW_UNDOZABLE) with UNDOZABLE_ in E1. by rewrite E1, E2.
  - by rewrite Eb.
  - done.
Qed.

(** The links are unchanged when no chain is enabled or disabled. *)
Lemma links_same g six m m' f : fw_kernel g six m f ->
  (forall c, linked_chain c -> enable (status_of m' c) = enable (status_of m c)) ->
  exists el, NoDup el /\ (forall c, c ∈ el <-> linked_chain c /\ enable (status_of m' c) = true) /\ f OUTPUT_ = Some (map jump_to el).
Proof.
  intros [_ _ _ (el & Hn & Hl & E)] Hs. exists el. split_and!; [done| |done].
  intros c. rewrite Hl. split; intros [Hc Ee]; (split; [done|]); rewrite <- Ee; [|symmetry]; by apply Hs.
Qed.

Definition upd (g : Z -> bool) (c : Z) (x : bool) : Z -> bool := fun c' => if decide (c' = c) then x else g c'.

Lemma put_uids_enable c l m c' : enable (status_of (put_status c (set_uids l (status_of m c)) m) c') = enable (status_of m c').
Proof. rewrite status_of_put. case_decide; by subst. Qed.

(** A change of the users of one chain by commands on that chain. *)
Lemma uids_change g g' six m t t' c l : linked_chain c -> fw_kernel g six m (rules t) ->
  (forall c', c' <> c -> g' c' = g c') ->
  (forall x, x <> FetchChainName c -> rules t' x = rules t x) ->
  (allow_chain c -> holds_allowed (g' c) six (strMaxUid_ m) l (rules t' (FetchChainName c))) ->
  (c = CHAIN_OHFW_UNDOZABLE -> holds_denied six l (rules t' UNDOZABLE_)) ->
  fw_kernel g' six (put_status c (set_uids l (status_of m c)) m) (rules t').
Proof.
  intros Hc Hk Hg Ht Ha Hd. pose proof (name_not_output c Hc) as [Hn1 Hn2].
  apply (fw_kernel_upd g g' six m _ (rules t) _ c); try done.
  - intros c' Hne Hc'. split; [by apply Ht, name_ne|]. rewrite status_of_put. by rewrite decide_False by done.
  - by apply Ht.
  - rewrite status_of_put, decide_True by done. done.
  - rewrite status_of_put, decide_True by done. done.
  - rewrite Ht by done. apply (links_same g six m); [done|]. intros c' _. apply put_uids_enable.
Qed.

(** *** Filling a chain *)

Definition fill_allow (six : bool) (max : string) (name : string) (us : list Z) : list Command :=
  Flush name :: map (Append name) (allow_rules six max us).

Lemma commands_on name cmds (t : T) : Forall (fun cmd => cmd_chain cmd = name) cmds ->
  forall x, x <> name -> rules (exec_all cmds t) x = rules t x.
Proof.
  intros F x Hx. apply exec_all_other. eapply Forall_impl; [exact F|]. cbn. congruence.
Qed.

Lemma appends_on name rs : Forall (fun cmd => cmd_chain cmd = name) (map (Append name) rs).
Proof. apply Forall_fmap, Forall_forall. done. Qed.

Lemma no_jump_uids tg us : (forall c, tg <> Jump c) -> Forall (fun r => forall c', rule_target r <> Jump c') (map (fun u => mkRule [OwnerUid u] tg) us).
Proof. intros Ht. apply Forall_fmap, Forall_forall. intros u _ c'. apply Ht. Qed.

Lemma no_jump_exempts six : Forall (fun r => forall c', rule_target r <> Jump c') (exempts six).
Proof. unfold exempts. destruct six; repeat constructor; done. Qed.

Lemma allow_fill g six m t c us : allow_chain c -> fw_kernel g six m (rules t) ->
  fw_kernel (upd g c true) six (put_status c (set_uids us (status_of m c)) m)
    (rules (exec_all (fill_allow six (strMaxUid_ m) (FetchChainName c) us) t)).
Proof.
  intros Hc Hk. destruct (fk_allow _ _ _ _ Hk c Hc) as (base & ins & _ & _ & _ & _ & El).
  apply (uids_change g _ six m t); [by left|done| | | |].
  - intros c' Hne. unfold upd. by rewrite decide_False.
  - apply commands_on. constructor; [done|apply appends_on].
  - intros _. exists us, []. unfold upd. rewrite decide_True by done.
    split_and!; [by rewrite app_nil_r|constructor|by intros u ?%not_elem_of_nil|done|]. cbn [map app].
    unfold fill_allow, allow_rules. cbn [map exec_all foldl]. change (foldl _ ?y (map ?h ?rs)) with (exec_all (map h rs) y).
    rewrite (exec_appends _ _ _ [mkRule [] (Jump BOX_)]).
    + reflexivity.
    + apply (exec_append _ _ _ []); [by eapply exec_flush|]. unfold target_exists. cbn [rule_target].
      rewrite exec_other by (cbn; by intros E%eq_sym%name_not_output; [|left]). rewrite (fk_box _ _ _ _ Hk). eauto.
    + apply Forall_app. split; [by apply no_jump_uids|]. do 2 (constructor; [done|]).
      apply Forall_app. split; [apply no_jump_exempts|]. by repeat constructor.
  - intros ->. by destruct Hc.
Qed.

Definition fill_deny (six : bool) (us : list Z) : list Command :=
  Flush UNDOZABLE_ :: map (Append UNDOZABLE_) (exempts six ++ map drop_uid us).

Lemma deny_fill g six m t us : fw_kernel g six m (rules t) ->
  fw_kernel g six (put_status CHAIN_OHFW_UNDOZABLE (set_uids us (status_of m CHAIN_OHFW_UNDOZABLE)) m)
    (rules (exec_all (fill_deny six us) t)).
Proof.
  intros Hk. assert (exists l, rules t UNDOZABLE_ = Some l) as [l El] by (destruct (fk_deny _ _ _ _ Hk); eauto).
  apply (uids_change g _ six m t); [by right|done|done| | |].
  - apply commands_on. constructor; [done|apply appends_on].
  - by intros [|].
  - intros _. right. unfold fill_deny. cbn [exec_all foldl]. change (foldl _ ?y (map ?h ?rs)) with (exec_all (map h rs) y).
    rewrite (exec_appends _ _ _ []); [reflexivity|by eapply exec_flush|].
    apply Forall_app. split; [apply no_jump_exempts|by apply no_jump_uids].
Qed.

(** *** Single users *)

#[local] Instance return_uid_inj : Inj (=) (=) return_uid.
Proof. by intros u v [=]. Qed.
#[local] Instance drop_uid_inj : Inj (=) (=) drop_uid.
Proof. by intros u v [=]. Qed.

Lemma remove_rule_erase (h : Z -> Rule) `{!Inj (=) (=) h} u us rest : u ∈ us ->
  remove_rule (h u) (map h us ++ rest) = map h (erase_first u us) ++ rest.
Proof.
  induction us as [|v us IH]; [by intros ?%not_elem_of_nil|]. intros Hu. cbn [map app remove_rule erase_first].
  destruct (decide (v = u)) as [->|Hne]; [by rewrite decide_True|].
  rewrite decide_False by (by intros ?%(inj h)). cbn [map app]. f_equal. apply IH. by apply elem_of_cons in Hu as [->|?].
Qed.

Lemma erase_first_notin u us : u ∉ us -> erase_first u us = us.
Proof.
  induction us as [|v us IH]; [done|]. intros [Hv Hu]%not_elem_of_cons. cbn. by rewrite decide_False, IH by congruence.
Qed.

Lemma erase_first_app_l u us vs : u ∈ us -> erase_first u (us ++ vs) = erase_first u us ++ vs.
Proof.
  induction us as [|v us IH]; [by intros ?%not_elem_of_nil|]. intros Hu. cbn [app erase_first].
  destruct (decide (v = u)) as [->|Hne]; [done|]. rewrite IH; [done|]. by apply elem_of_cons in Hu as [->|?].
Qed.

Lemma erase_first_app_r u us vs : u ∉ us -> erase_first u (us ++ vs) = us ++ erase_first u vs.
Proof.
  induction us as [|v us IH]; [done|]. intros [Hv Hu]%not_elem_of_cons. cbn [app erase_first].
  by rewrite decide_False, IH by congruence.
Qed.

Lemma erase_first_snoc_ne u v us : u <> v -> erase_first u (us ++ [v]) = erase_first u us ++ [v].
Proof.
  intros Hne. destruct (decide (u ∈ us)) as [Hu|Hu]; [by apply erase_first_app_l|].
  rewrite erase_first_app_r, (erase_first_notin u us) by done. cbn. by rewrite decide_False by congruence.
Qed.

Lemma erase_first_reverse u us : NoDup us -> erase_first u (reverse us) = reverse (erase_first u us).
Proof.
  induction 1 as [|v us Hv Hn IH]; [done|]. rewrite reverse_cons. cbn [erase_first]. destruct (decide (v = u)) as [->|Hne].
  - rewrite erase_first_app_r by (by rewrite elem_of_reverse). cbn. rewrite decide_True by done. by rewrite app_nil_r.
  - rewrite erase_first_snoc_ne by congruence. by rewrite IH, reverse_cons.
Qed.

Lemma erase_first_incl u v us : v ∈ erase_first u us -> v ∈ us.
Proof.
  induction us as [|x us IH]; [done|]. cbn. destruct (decide (x = u)); [by right|].
  intros [->|?]%elem_of_cons; [by left|right; auto].
Qed.

Lemma erase_first_NoDup u us : NoDup us -> NoDup (erase_first u us).
Proof.
  induction 1 as [|x us Hx Hn IH]; [constructor|]. cbn. destruct (decide (x = u)); [done|].
  constructor; [by intros ?%erase_first_incl|done].
Qed.

Lemma allow_insert g six m t c u : allow_chain c -> fw_kernel g six m (rules t) -> u ∉ uids (status_of m c) ->
  fw_kernel g six (put_status c (set_uids (uids (status_of m c) ++ [u]) (status_of m c)) m)
    (rules (exec (Insert (FetchChainName c) (return_uid u)) t)).
Proof.
  intros Hc Hk Hu. destruct (fk_allow _ _ _ _ Hk c Hc) as (base & ins & Es & Hn & Hd & Hf & El).
  rewrite Es in Hu. apply not_elem_of_app in Hu as [Hb Hi]. rewrite elem_of_reverse in Hi.
  apply (uids_change g _ six m t); [by left|done|done| | |].
  - intros x Hx. by apply exec_other.
  - intros _. exists base, (u :: ins). split_and!.
    + by rewrite Es, <- app_assoc, reverse_cons.
    + by constructor.
    + intros v [->|Hv]%elem_of_cons; auto.
    + done.
    + by eapply exec_insert.
  - intros ->. by destruct Hc.
Qed.

Lemma allow_delete g six m t c u : allow_chain c -> fw_kernel g six m (rules t) -> u ∈ uids (status_of m c) ->
  fw_kernel g six (put_status c (set_uids (erase_first u (uids (status_of m c))) (status_of m c)) m)
    (rules (exec (Delete (FetchChainName c) (return_uid u)) t)).
Proof.
  intros Hc Hk Hu. destruct (fk_allow _ _ _ _ Hk c Hc) as (base & ins & Es & Hn & Hd & Hf & El).
  rewrite Es in Hu.
  apply (uids_change g _ six m t); [by left|done|done| | |].
  - intros x Hx. by apply exec_other.
  - intros _. rewrite (exec_delete _ _ _ _ El), Es. destruct (decide (u ∈ ins)) as [Hi|Hi].
    + exists base, (erase_first u ins). split_and!.
      * rewrite erase_first_app_r by auto. by rewrite erase_first_reverse.
      * by apply erase_first_NoDup.
      * intros v Hv%erase_first_incl. auto.
      * done.
      * by rewrite (remove_rule_erase return_uid).
    + assert (Hb : u ∈ base) by (rewrite elem_of_app, elem_of_reverse in Hu; tauto).
      exists (erase_first u base), ins. split_and!.
      * by rewrite erase_first_app_l.
      * done.
      * intros v Hv Hv'%erase_first_incl. by apply (Hd v).
      * intros Ef. rewrite (Hf Ef) in Hb. by apply not_elem_of_nil in Hb.
      * rewrite remove_rule_skip by (by rewrite (list_elem_of_fmap_inj return_uid)).
        destruct (g c); [|rewrite Hf in Hb by done; by apply not_elem_of_nil in Hb].
        unfold allow_rules. cbn [remove_rule]. rewrite decide_False by done.
        by rewrite (remove_rule_erase return_uid).
  - intros ->. by destruct Hc.
Qed.

Lemma deny_append g six m t u : fw_kernel g six m (rules t) ->
  let c := CHAIN_OHFW_UNDOZABLE in
  fw_kernel g six (put_status c (set_uids (uids (status_of m c) ++ [u]) (status_of m c)) m)
    (rules (exec (Append UNDOZABLE_ (drop_uid u)) t)).
Proof.
  intros Hk c. apply (uids_change g _ six m t); [by right|done|done| | |].
  - intros x Hx. by apply exec_other.
  - by intros [|].
  - intros _. destruct (fk_deny _ _ _ _ Hk) as [E|E]; [left|right];
      rewrite (exec_append _ (drop_uid u) _ _ E I), map_app; [done|]. by rewrite app_assoc.
Qed.

Lemma deny_delete g six m t u : fw_kernel g six m (rules t) ->
  let c := CHAIN_OHFW_UNDOZABLE in u ∈ uids (status_of m c) ->
  fw_kernel g six (put_status c (set_uids (erase_first u (uids (status_of m c))) (status_of m c)) m)
    (rules (exec (Delete UNDOZABLE_ (drop_uid u)) t)).
Proof.
  intros Hk c Hu. apply (uids_change g _ six m t); [by right|done|done| | |].
  - intros x Hx. by apply exec_other.
  - by intros [|].
  - intros _. destruct (fk_deny _ _ _ _ Hk) as [E|E]; [left|right]; rewrite (exec_delete _ _ _ _ E).
    + rewrite <- (app_nil_r (map drop_uid _)), (remove_rule_erase drop_uid) by done. by rewrite app_nil_r.
    + rewrite remove_rule_skip.
      * rewrite <- (app_nil_r (map drop_uid _)), (remove_rule_erase drop_uid) by done. by rewrite app_nil_r.
      * unfold exempts. destruct six; cbn; rewrite !not_elem_of_cons; repeat split; try done; apply not_elem_of_nil.
Qed.

(** *** Linking and unlinking *)

Lemma link g six m t c : linked_chain c -> fw_kernel g six m (rules t) -> enable (status_of m c) = false ->
  fw_kernel g six (put_status c (set_enable true (status_of m c)) m) (rules (exec (Append OUTPUT_ (jump_to c)) t)).
Proof.
  intros Hc Hk He. pose proof (name_not_output c Hc) as [Hn1 Hn2]. destruct (fk_output _ _ _ _ Hk) as (el & Hn & Hl & Eo).
  assert (Hx : is_Some (rules t (FetchChainName c))).
  { destruct Hc as [Hc| ->]; [destruct (fk_allow _ _ _ _ Hk c Hc) as (? & ? & _ & _ & _ & _ & ->); eauto|].
    change (FetchChainName CHAIN_OHFW_UNDOZABLE) with UNDOZABLE_. destruct (fk_deny _ _ _ _ Hk) as [->| ->]; eauto. }
  apply (fw_kernel_upd g g six m _ (rules t) _ c); try done.
  - intros c' Hne Hc'. pose proof (name_not_output c' Hc') as [Hn1' Hn2']. split; [by apply exec_other|].
    rewrite status_of_put. by rewrite decide_False by done.
  - by apply exec_other.
  - intros Ha. rewrite exec_other by done. rewrite status_of_put, decide_True by done. by apply (fk_allow _ _ _ _ Hk).
  - intros ->. rewrite exec_other by done. rewrite status_of_put, decide_True by done. by apply (fk_deny _ _ _ _ Hk).
  - exists (el ++ [c]). split_and!.
    + apply NoDup_app. split_and!; [done| |apply NoDup_singleton]. intros c' Hc' ->%list_elem_of_singleton.
      apply Hl in Hc' as [_ ?]. congruence.
    + intros c'. rewrite elem_of_app, list_elem_of_singleton, Hl, status_of_put. destruct (decide (c = c')) as [->|Hne].
      * split; [by intros _|by right].
      * split; [by intros [?|?]|by left].
    + rewrite map_app. by eapply exec_append.
Qed.

Lemma remove_jump c el : NoDup el -> (forall c', c' ∈ el -> linked_chain c') -> linked_chain c ->
  remove_rule (jump_to c) (map jump_to el) = map jump_to (filter (fun c' => c' <> c) el).
Proof.
  intros Hn Hl Hc. induction Hn as [|x el Hx Hn IH]; [done|]. cbn [map remove_rule].
  assert (Hlx : linked_chain x) by (apply Hl; by left). destruct (decide (x = c)) as [->|Hne].
  - rewrite decide_True, filter_cons_False by auto. f_equal.
    clear -Hx. induction el as [|y el IH]; [done|]. apply not_elem_of_cons in Hx as [? ?].
    rewrite filter_cons_True by auto. f_equal. auto.
  - rewrite decide_False, filter_cons_True; [|done|].
    + cbn [map]. f_equal. apply IH. intros c' Hc'. apply Hl. by right.
    + intros [= E]. by apply Hne, FetchChainName_inj.
Qed.

Lemma unlink g six m t c : linked_chain c -> fw_kernel g six m (rules t) ->
  fw_kernel (upd g c false) six (put_status c (mkStatus false (type (status_of m c)) []) m)
    (rules (exec (Flush (FetchChainName c)) (exec (Delete OUTPUT_ (jump_to c)) t))).
Proof.
  intros Hc Hk. pose proof (name_not_output c Hc) as [Hn1 Hn2]. destruct (fk_output _ _ _ _ Hk) as (el & Hn & Hl & Eo).
  assert (exists l, rules t (FetchChainName c) = Some l) as [l El].
  { destruct Hc as [Hc| ->]; [destruct (fk_allow _ _ _ _ Hk c Hc) as (? & ? & _ & _ & _ & _ & ->); eauto|].
    change (FetchChainName CHAIN_OHFW_UNDOZABLE) with UNDOZABLE_. destruct (fk_deny _ _ _ _ Hk) as [->| ->]; eauto. }
  assert (Ec : rules (exec (Flush (FetchChainName c)) (exec (Delete OUTPUT_ (jump_to c)) t)) (FetchChainName c) = Some []).
  { eapply exec_flush. by rewrite exec_other. }
  apply (fw_kernel_upd g _ six m _ (rules t) _ c); try done.
  - intros c' Hne. unfold upd. by rewrite decide_False.
  - intros c' Hne Hc'. pose proof (name_not_output c' Hc') as [Hn1' Hn2']. split.
    + rewrite exec_other by (by apply name_ne). by apply exec_other.
    + rewrite status_of_put. by rewrite decide_False by done.
  - rewrite exec_other by done. by apply exec_other.
  - intros Ha. exists [], []. rewrite status_of_put. unfold upd. rewrite !decide_True by done.
    split_and!; [done|constructor|by intros u ?%not_elem_of_nil|done|done].
  - intros ->. left. rewrite status_of_put, decide_True by done. done.
  - exists (filter (fun c' => c' <> c) el). split_and!.
    + by apply NoDup_filter.
    + intros c'. rewrite list_elem_of_filter, Hl, status_of_put. destruct (decide (c = c')) as [->|Hne]; [|naive_solver].
      split; [by intros [? _]|by intros [_ ?]].
    + rewrite exec_other by done. rewrite (exec_delete _ _ _ _ Eo). f_equal. apply remove_jump; [done|naive_solver|done].
Qed.

(** *** Initialisation *)

Definition init_commands : list Command := map (fun c => NewChain (FetchChainName c)) fw_chains ++ default_rules.

Lemma fw_init_kernel g six m t : fw_fresh (rules t) -> unused m -> (forall c, g c = false) ->
  fw_kernel g six m (rules (exec_all init_commands t)).
Proof.
  intros Hf Hu Hg. destruct (ff_input _ Hf) as [li Ei], (ff_output _ Hf) as [lo Eo].
  pose proof (know_exec_all_sound init_commands _ _ (fresh_knows t (map FetchChainName fw_chains) li lo (ff_chains _ Hf) Ei Eo)) as K.
  split.
  - intros c Hc. exists [], []. rewrite Hg. destruct (Hu c (or_introl Hc)) as [_ ->].
    split_and!; [done|constructor|by intros u ?%not_elem_of_nil|done|].
    destruct Hc as [->| ->]; apply K; vm_compute; reflexivity.
  - left. destruct (Hu CHAIN_OHFW_UNDOZABLE (or_intror eq_refl)) as [_ ->]. apply K. vm_compute. reflexivity.
  - apply K. vm_compute. reflexivity.
  - exists []. split_and!; [constructor| |apply K; vm_compute; reflexivity].
    intros c. split; [by intros ?%not_elem_of_nil|]. intros [Hc E]. destruct (Hu c Hc). congruence.
Qed.

Lemma fw_CheckChainInitialization_fresh m w : ready w -> chainInitFlag_ m = false ->
  CheckChainInitialization m w =
  (set_chainInitFlag_ true m,
   set_filters w (exec_all init_commands (ipv4_filter w)) (exec_all init_commands (ipv6_filter w))).
Proof.
  intros Hr Ef. unfold CheckChainInitialization, InitChain. rewrite Ef.
  change (any_error (map IptablesNewChain fw_chains) w)
    with (run_commands IPTYPE_IPV4V6 (map (fun c => NewChain (FetchChainName c)) fw_chains) false w).
  rewrite run_commands_ready by done. unfold InitDefaultRules. rewrite run_commands_ready by done. reflexivity.
Qed.

Lemma fw_CheckChainInitialization_inv g m w : fw_inv g m w ->
  exists w', CheckChainInitialization m w = (set_chainInitFlag_ true m, w') /\ fw_inv g (set_chainInitFlag_ true m) w'.
Proof.
  intros (Hr & Hb & Hi). destruct (chainInitFlag_ m) eqn:Ef.
  - assert (E : set_chainInitFlag_ true m = m) by (destruct m; cbn in *; by subst). rewrite E. exists w.
    unfold CheckChainInitialization. rewrite Ef. split; [done|]. split_and!; [done..|]. by rewrite Ef.
  - destruct Hi as (Hu & Hg & H4 & H6). rewrite fw_CheckChainInitialization_fresh by done.
    eexists. split; [reflexivity|]. split_and!; [done..|]. cbn [chainInitFlag_ set_chainInitFlag_].
    split; by apply fw_init_kernel.
Qed.

(** *** Every operation keeps the chains in step *)

Lemma fw_kernel_same g six m m' f : strMaxUid_ m' = strMaxUid_ m -> (forall c, status_of m' c = status_of m c) ->
  fw_kernel g six m f -> fw_kernel g six m' f.
Proof. intros Em Es []. split; rewrite ?Em; [intros c; rewrite Es|rewrite Es|..]; auto. setoid_rewrite Es. done. Qed.

Lemma fw_initialised_inv g m w : chainInitFlag_ m = true -> ready w -> box_unused m ->
  (forall six, fw_kernel g six m (rules (if six then ipv6_filter w else ipv4_filter w))) -> fw_inv g m w.
Proof. intros Ef Hr Hb Hk. split_and!; [done..|]. rewrite Ef. split; [apply (Hk false)|apply (Hk true)]. Qed.

Lemma box_unused_put c s m : linked_chain c -> box_unused m -> box_unused (put_status c s m).
Proof. intros Hc Hb. unfold box_unused. rewrite status_of_put, decide_False; [done|]. by destruct Hc as [[->| ->]| ->]. Qed.

Definition is_allow (c : Z) : bool := (c =? CHAIN_OHFW_DOZABLE) || (c =? CHAIN_OHFW_POWERSAVING).

Lemma is_allow_spec c : is_allow c = true <-> allow_chain c.
Proof. unfold is_allow, allow_chain. rewrite orb_true_iff, !Z.eqb_eq. done. Qed.

Lemma SetUidsAllowedListChain_inv g m w c us : fw_inv g m w -> allow_chain c ->
  let '(_, m', w') := SetUidsAllowedListChain c us m w in fw_inv (upd g c true) m' w'.
Proof.
  intros Hi Hc. unfold SetUidsAllowedListChain.
  replace (negb _ && negb _) with false by (by destruct Hc as [->| ->]).
  destruct (fw_CheckChainInitialization_inv g m w Hi) as (w' & -> & Hr & Hb & Hk4 & Hk6).
  rewrite run_commands_ready by done. unfold SetFireWallCommand. rewrite !run_commands_ready by done.
  apply fw_initialised_inv; [done..|by apply box_unused_put; [left|]|].
  intros six. cbn [wants_ipv4 wants_ipv6 ipv4_filter ipv6_filter set_filters].
  destruct six; rewrite <- !exec_all_app.
  - match goal with |- context [exec_all ?l _] =>
      replace l with (fill_allow true (strMaxUid_ (set_chainInitFlag_ true m)) (FetchChainName c) us) end; [by apply allow_fill|].
    unfold fill_allow, allow_rules. cbn. by rewrite map_app, map_map, <- app_assoc.
  - match goal with |- context [exec_all ?l _] =>
      replace l with (fill_allow false (strMaxUid_ (set_chainInitFlag_ true m)) (FetchChainName c) us) end; [by apply allow_fill|].
    unfold fill_allow, allow_rules. cbn. by rewrite map_app, map_map, <- app_assoc.
Qed.

Lemma SetUidsDeniedListChain_inv g m w us : fw_inv g m w ->
  let '(_, m', w') := SetUidsDeniedListChain CHAIN_OHFW_UNDOZABLE us m w in fw_inv g m' w'.
Proof.
  intros Hi. unfold SetUidsDeniedListChain. cbn [negb Z.eqb CHAIN_OHFW_UNDOZABLE].
  destruct (fw_CheckChainInitialization_inv g m w Hi) as (w' & E & Hr & Hb & Hk4 & Hk6). cbn in E |- *. rewrite E.
  unfold SetFireWallCommand. rewrite !run_commands_ready by done.
  apply fw_initialised_inv; [done..|by apply box_unused_put; [right|]|].
  intros six. cbn [wants_ipv4 wants_ipv6 ipv4_filter ipv6_filter set_filters].
  destruct six; rewrite <- !exec_all_app.
  - match goal with |- context [exec_all ?l _] => replace l with (fill_deny true us) end; [by apply deny_fill|].
    unfold fill_deny. cbn. by rewrite map_map.
  - match goal with |- context [exec_all ?l _] => replace l with (fill_deny false us) end; [by apply deny_fill|].
    unfold fill_deny. cbn. by rewrite map_map.
Qed.

Definition is_linked (c : Z) : bool := is_allow c || (c =? CHAIN_OHFW_UNDOZABLE).

Lemma is_linked_spec c : is_linked c = true <-> linked_chain c.
Proof. unfold is_linked, linked_chain. by rewrite orb_true_iff, is_allow_spec, Z.eqb_eq. Qed.

Lemma IsFirewallChian_spec c :
  (IsFirewallChian c =? NETMANAGER_ERROR) = negb (is_linked c || (c =? CHAIN_OHFW_ALLOWED_LIST_BOX)).
Proof.
  unfold IsFirewallChian, is_linked, is_allow.
  by destruct (c =? CHAIN_OHFW_DOZABLE), (c =? CHAIN_OHFW_POWERSAVING), (c =? CHAIN_OHFW_UNDOZABLE), (c =? CHAIN_OHFW_ALLOWED_LIST_BOX).
Qed.

Lemma EnableChain_inv g m w c e : fw_inv g m w -> c <> CHAIN_OHFW_ALLOWED_LIST_BOX ->
  let '(_, m', w') := EnableChain c e m w in
  fw_inv (if is_linked c && negb e then upd g c false else g) m' w'.
Proof.
  intros Hi Hbox. unfold EnableChain. rewrite IsFirewallChian_spec.
  rewrite (proj2 (Z.eqb_neq _ _) Hbox), orb_false_r. destruct (is_linked c) eqn:El; [|done]. cbn [negb andb].
  apply is_linked_spec in El.
  destruct (fw_CheckChainInitialization_inv g m w Hi) as (w' & -> & Hi').
  pose proof Hi' as (Hr & Hb & Hk4 & Hk6). clear Hi. revert Hi' Hb Hk4 Hk6.
  assert (Ef : chainInitFlag_ (set_chainInitFlag_ true m) = true) by done.
  revert Ef. generalize (set_chainInitFlag_ true m). clear m. intros m Ef Hi' Hb Hk4 Hk6.
  destruct e; cbn [negb andb].
  - destruct (enable (status_of m c)) eqn:Ee; cbn [negb]; [done|].
    rewrite run_commands_ready by done.
    apply fw_initialised_inv; [done|done|by apply box_unused_put|].
    intros six. destruct six; (eapply fw_kernel_same; [| |apply link; [exact El| |exact Ee]]); first [done|eassumption].
  - rewrite run_commands_ready by done.
    apply fw_initialised_inv; [done|done|by apply box_unused_put; [|apply (box_unused_put c _ m)]|].
    assert (Es : forall c', status_of (put_status c (set_enable false (status_of (put_status c (set_uids [] (status_of m c)) m) c))
        (set_firewallType_ (FetchChainType c) (put_status c (set_uids [] (status_of m c)) m))) c'
        = status_of (put_status c (mkStatus false (type (status_of m c)) []) m) c').
    { intros c'. rewrite !status_of_put. case_decide as Ec; [subst; by rewrite decide_True|].
      change (status_of (set_firewallType_ _ ?x)) with (status_of x). rewrite status_of_put. by rewrite decide_False. }
    intros six. destruct six; (eapply fw_kernel_same; [|exact Es|]); [done|by apply unlink|done|by apply unlink].
Qed.

Lemma SetUidRule_inv g m w c u r : fw_inv g m w -> let '(_, m', w') := SetUidRule c u r m w in fw_inv g m' w'.
Proof.
  intros Hi. unfold SetUidRule. rewrite IsFirewallChian_spec. destruct (decide (c = CHAIN_OHFW_ALLOWED_LIST_BOX)) as [->|Hbox].
  { cbn [is_linked is_allow negb orb]. destruct Hi as (Hr & Hb & Hk). by rewrite Hb. }
  rewrite (proj2 (Z.eqb_neq _ _) Hbox), orb_false_r. destruct (is_linked c) eqn:El; [|done]. cbn [negb].
  apply is_linked_spec in El. destruct (enable (status_of m c)) eqn:Ee; cbn [negb]; [|done]. clear Ee.
  destruct (fw_CheckChainInitialization_inv g m w Hi) as (w' & -> & Hi').
  pose proof Hi' as (Hr & Hb & Hk4 & Hk6). clear Hi. revert Hi' Hb Hk4 Hk6.
  assert (Ef : chainInitFlag_ (set_chainInitFlag_ true m) = true) by done.
  revert Ef. generalize (set_chainInitFlag_ true m). clear m. intros m Ef Hi' Hb Hk4 Hk6. unfold IptablesSetRule.
  destruct El as [Ha| ->].
  - replace (FetchChainType c) with TYPE_ALLOWED_LIST by (by destruct Ha as [->| ->]).
    cbn [negb]. destruct (r =? RULE_ALLOW); cbn [negb andb]; case_bool_decide as Hu; cbn [negb]; try done;
      rewrite RunCommand_ready by done; cbn [Z.eqb NETMANAGER_SUCCESS NETMANAGER_ERROR];
      (apply fw_initialised_inv; [done|done|by apply box_unused_put; [left|]|]); intros six;
      destruct six; first [by apply allow_insert|by apply allow_delete].
  - change (FetchChainType CHAIN_OHFW_UNDOZABLE) with TYPE_DENIDE_LIST.
    destruct (r =? RULE_DENY); cbn [negb andb]; case_bool_decide as Hu; cbn [negb]; try done;
      rewrite RunCommand_ready by done; cbn [Z.eqb NETMANAGER_SUCCESS NETMANAGER_ERROR];
      (apply fw_initialised_inv; [done|done|by apply box_unused_put; [right|]|]); intros six;
      destruct six; first [by apply deny_append|by apply deny_delete].
Qed.

(** Which chains are filled after an operation. *)
Definition filled_after (c : Call) (g : Z -> bool) : Z -> bool :=
  match c with
  | CallSetUidsAllowedListChain chain _ => if is_allow chain then upd g chain true else g
  | CallEnableChain chain e => if is_linked chain && negb e then upd g chain false else g
  | _ => g
  end.

(** Nothing links the box. *)
Definition call_ok (c : Call) : Prop := match c with CallEnableChain chain _ => chain <> CHAIN_OHFW_ALLOWED_LIST_BOX | _ => True end.

Lemma fw_perform_inv g m w c : fw_inv g m w -> call_ok c -> let '(_, m', w') := perform c m w in fw_inv (filled_after c g) m' w'.
Proof.
  intros Hi Hok. destruct c as [c us|c us|c e|c u r]; cbn [perform filled_after call_ok] in *.
  - destruct (is_allow c) eqn:Ea; [by apply SetUidsAllowedListChain_inv, is_allow_spec|].
    unfold SetUidsAllowedListChain. rewrite <- negb_orb. unfold is_allow in Ea. by rewrite Ea.
  - destruct (decide (c = CHAIN_OHFW_UNDOZABLE)) as [->|Hne]; [by apply SetUidsDeniedListChain_inv|].
    unfold SetUidsDeniedListChain. by rewrite (proj2 (Z.eqb_neq _ _) Hne).
  - by apply EnableChain_inv.
  - by apply SetUidRule_inv.
Qed.

(** *** Runs of the service *)

Definition family (six : bool) (w : W) : T := if six then ipv6_filter w else ipv4_filter w.

(** Between two operations the other managers may change chains of their own. *)
Definition fw_stable (w w' : W) : Prop :=
  ready w' /\
  (forall six x, rules (family six w') ("ohfw_" +:+ x) = rules (family six w) ("ohfw_" +:+ x)) /\
  (forall six c, c = "INPUT" \/ c = "OUTPUT" -> is_Some (rules (family six w) c) -> is_Some (rules (family six w') c)).

Inductive fw_reach : (Z -> bool) -> FirewallManager -> W -> Prop :=
| fw_start content w : ready w -> (forall six, fw_fresh (rules (family six w))) ->
    fw_reach (fun _ => false) (new_FirewallManager content) w
| fw_call g m w c r m' w' : fw_reach g m w -> call_ok c -> perform c m w = (r, m', w') -> fw_reach (filled_after c g) m' w'
| fw_env g m w w' : fw_reach g m w -> fw_stable w w' -> fw_reach g m w'.

Lemma fw_stable_kernel g six m f f' : (forall x, f' ("ohfw_" +:+ x) = f ("ohfw_" +:+ x)) -> fw_kernel g six m f -> fw_kernel g six m f'.
Proof.
  intros Hs []. split.
  - intros c Hc. replace (f' (FetchChainName c)) with (f (FetchChainName c)); [auto|].
    destruct Hc as [->| ->]; [exact (eq_sym (Hs "dozable"))|exact (eq_sym (Hs "powersaving"))].
  - replace (f' UNDOZABLE_) with (f UNDOZABLE_); [auto|exact (eq_sym (Hs "undozable"))].
  - replace (f' BOX_) with (f BOX_); [auto|exact (eq_sym (Hs "allowed_list_box"))].
  - replace (f' OUTPUT_) with (f OUTPUT_); [auto|exact (eq_sym (Hs "OUTPUT"))].
Qed.

Lemma fw_stable_fresh f f' : (forall x, f' ("ohfw_" +:+ x) = f ("ohfw_" +:+ x)) ->
  (forall c, c = "INPUT" \/ c = "OUTPUT" -> is_Some (f c) -> is_Some (f' c)) -> fw_fresh f -> fw_fresh f'.
Proof.
  intros Hs Hb []. split; [auto..|]. intros c Hin. rewrite <- (ff_chains0 c Hin).
  repeat (apply elem_of_cons in Hin as [->|Hin]; [exact (Hs _)|]). by apply not_elem_of_nil in Hin.
Qed.

Lemma fw_reach_inv g m w : fw_reach g m w -> fw_inv g m w.
Proof.
  induction 1 as [content w Hr Hf|g m w c r m' w' _ IH Hok E|g m w w' _ IH (Hr & Hs & Hb)].
  - split_and!; [done|done|]. split_and!; [by intros c [[->| ->]| ->]|done|apply (Hf false)|apply (Hf true)].
  - pose proof (fw_perform_inv g m w c IH Hok) as Hp. by rewrite E in Hp.
  - destruct IH as (_ & Hbox & Hi). split_and!; [done..|]. destruct (chainInitFlag_ m).
    + destruct Hi as [H4 H6].
      split; [apply (fw_stable_kernel _ _ _ _ _ (Hs false) H4)|apply (fw_stable_kernel _ _ _ _ _ (Hs true) H6)].
    + destruct Hi as (Hu & Hg & H4 & H6). split_and!;
        [done..|apply (fw_stable_fresh _ _ (Hs false) (Hb false) H4)|apply (fw_stable_fresh _ _ (Hs true) (Hb true) H6)].
Qed.

(** *** What happens to a packet *)

Context {P : Type} `{PacketsLaws P}.

(** A packet no chain lets through for its kind: not of the loopback interface,
    not a reset, and with IPv6 not part of neighbour discovery. *)
Definition plain (six : bool) (m : FirewallManager) (p : P) : Prop :=
  matches p (OwnerAbove (strMaxUid_ m)) = false /\ Forall (fun r => rule_matches_packet p r = false) (exempts six).

Definition chain_drops (g : Z -> bool) (m : FirewallManager) (uid c : Z) : bool :=
  if is_allow c then g c && negb (bool_decide (uid ∈ uids (status_of m c))) else bool_decide (uid ∈ uids (status_of m c)).

(** An application is blocked by an enabled allowed-list chain that was filled
    without it, or by the enabled denied-list chain that names it. *)
Definition fw_blocks (g : Z -> bool) (m : FirewallManager) (uid : Z) : bool :=
  existsb (fun c => enable (status_of m c) && chain_drops g m uid c)
    [CHAIN_OHFW_DOZABLE; CHAIN_OHFW_POWERSAVING; CHAIN_OHFW_UNDOZABLE].

Lemma walk_allow g six m t (p : P) d uid c : fw_kernel g six m (rules t) -> allow_chain c -> owner p = Some uid -> 9999 < uid ->
  plain six m p -> walk (S (S d)) (rules t) p (FetchChainName c) = if chain_drops g m uid c then Dropped else Passed.
Proof.
  intros Hk Hc Eu Happ [Hab Hex]. unfold chain_drops. rewrite (proj2 (is_allow_spec c) Hc).
  destruct (fk_allow _ _ _ _ Hk c Hc) as (base & ins & Es & _ & _ & Hf & El).
  rewrite (walk_chain _ _ _ _ _ El). unfold return_uid at 1. rewrite (eval_uids _ _ _ _ _ _ Eu) by done. rewrite Es.
  destruct (decide (uid ∈ ins)) as [Hi|Hi].
  { rewrite bool_decide_eq_true_2 by (rewrite elem_of_app, elem_of_reverse; by right). by rewrite andb_false_r. }
  destruct (g c); [|done]. cbn [andb]. unfold allow_rules. cbn [eval]. unfold rule_matches_packet at 1.
  cbn [rule_matches rule_target forallb]. rewrite (walk_chain _ _ _ _ _ (fk_box _ _ _ _ Hk)). cbn [eval].
  unfold return_uid. rewrite (eval_uids _ _ _ _ _ _ Eu) by done. destruct (decide (uid ∈ base)) as [Hb|Hb].
  { by rewrite bool_decide_eq_true_2 by (rewrite elem_of_app; by left). }
  rewrite bool_decide_eq_false_2 by (rewrite elem_of_app, elem_of_reverse; tauto). cbn [negb app eval].
  unfold rule_matches_packet. cbn [rule_matches rule_target forallb].
  rewrite matches_range, Eu, Hab. rewrite (proj2 (Z.leb_gt uid SYSTEM_UID_RANGE)) by (unfold SYSTEM_UID_RANGE; lia).
  rewrite andb_false_r. cbn [andb]. by rewrite (eval_skip _ p (exempts six)).
Qed.

Lemma walk_deny g six m t (p : P) d uid : fw_kernel g six m (rules t) -> owner p = Some uid -> plain six m p ->
  walk (S d) (rules t) p UNDOZABLE_ = if chain_drops g m uid CHAIN_OHFW_UNDOZABLE then Dropped else Passed.
Proof.
  intros Hk Eu [_ Hex]. unfold chain_drops. cbn [is_allow].
  change (is_allow CHAIN_OHFW_UNDOZABLE) with false. cbn iota.
  destruct (fk_deny _ _ _ _ Hk) as [E|E]; rewrite (walk_chain _ _ _ _ _ E); [|rewrite eval_skip by done];
    unfold drop_uid; rewrite <- (app_nil_r (map _ _)), (eval_uids _ _ _ _ _ _ Eu) by done;
    (case_decide as Hu; [by rewrite bool_decide_eq_true_2|by rewrite bool_decide_eq_false_2]).
Qed.

Lemma eval_jumps jump (p : P) (drops : Z -> bool) el :
  (forall c, c ∈ el -> jump (FetchChainName c) = if drops c then Dropped else Passed) ->
  eval jump p (map jump_to el) = if existsb drops el then Dropped else Passed.
Proof.
  induction el as [|c el IH]; [done|]. intros Hj. cbn [map eval existsb]. unfold rule_matches_packet at 1.
  cbn [rule_matches rule_target jump_to forallb]. rewrite Hj by (by left). destruct (drops c); [done|].
  apply IH. intros c' Hc'. apply Hj. by right.
Qed.

Lemma kernel_verdict g six m t (p : P) d uid : fw_kernel g six m (rules t) -> owner p = Some uid -> 9999 < uid ->
  plain six m p -> walk (3 + d) (rules t) p OUTPUT_ = if fw_blocks g m uid then Dropped else Passed.
Proof.
  intros Hk Eu Happ Hp. destruct (fk_output _ _ _ _ Hk) as (el & _ & Hl & Eo). cbn [Nat.add].
  rewrite (walk_chain _ _ _ _ _ Eo), (eval_jumps _ _ (chain_drops g m uid)).
  - replace (existsb (chain_drops g m uid) el) with (fw_blocks g m uid); [done|]. apply eq_true_iff_eq.
    unfold fw_blocks. rewrite !existsb_exists. split.
    + intros (c & Hc & [He Hd]%andb_prop). exists c. split; [|done]. apply list_elem_of_In, Hl. split; [|done].
      destruct Hc as [<-|[<-|[<-|[]]]]; [left; by left|left; by right|by right].
    + intros (c & [Hc He]%list_elem_of_In%Hl & Hd). exists c. rewrite He, Hd. split; [|done].
      destruct Hc as [[->| ->]| ->]; cbn; auto.
  - intros c [[Hc| ->] _]%Hl; [by apply walk_allow with (six := six)|by apply walk_deny with (six := six)].
Qed.

Lemma fw_inv_verdict g m w (p : P) d uid six : fw_inv g m w -> owner p = Some uid -> 9999 < uid -> plain six m p ->
  walk (3 + d) (rules (family six w)) p OUTPUT_ = if fw_blocks g m uid then Dropped else Passed.
Proof.
  intros (_ & _ & Hi) Eu Happ Hp. destruct (chainInitFlag_ m).
  - destruct Hi as [H4 H6]. destruct six; [by apply (kernel_verdict _ true)|by apply (kernel_verdict _ false)].
  - destruct Hi as (Hu & Hg & H4 & H6).
    assert (E : rules (family six w) OUTPUT_ = None)
      by (destruct six; [apply (ff_chains _ H6)|apply (ff_chains _ H4)]; by right; left).
    cbn [Nat.add walk]. rewrite E. unfold fw_blocks. cbn [existsb].
    rewrite (proj1 (Hu CHAIN_OHFW_DOZABLE (or_introl (or_introl eq_refl)))),
      (proj1 (Hu CHAIN_OHFW_POWERSAVING (or_introl (or_intror eq_refl)))),
      (proj1 (Hu CHAIN_OHFW_UNDOZABLE (or_intror eq_refl))). done.
Qed.

(** C18: What the firewall manager was told is what both packet filters do: in
    every state the service can reach without [ClearAllRules], a packet of an
    application that leaves the device is dropped by the chains of the manager
    exactly when an enabled allowed-list chain was filled without its user or
    the enabled denied-list chain names it, whatever the order in which the
    chains were linked and the users added and removed. *)
Theorem firewall_verdict g m w (p : P) d uid six : fw_reach g m w -> owner p = Some uid -> 9999 < uid -> plain six m p ->
  walk (3 + d) (rules (family six w)) p (FetchChainName CHAIN_OHFW_OUTPUT) = if fw_blocks g m uid then Dropped else Passed.
Proof. intros Hr. by apply fw_inv_verdict, fw_reach_inv. Qed.

(** *** Clearing the rules *)

Lemma ClearAllRules_output w six l : ready w -> rules (family six w) OUTPUT_ = Some l ->
  rules (family six (ClearAllRules w).2) OUTPUT_ = Some [].
Proof.
  intros Hr E. unfold ClearAllRules. rewrite run_commands_ready by done.
  destruct six; cbn [family snd ipv4_filter ipv6_filter set_filters wants_ipv4 wants_ipv6 map exec_all foldl] in *; kernel.
Qed.

(** [ClearAllRules] opens the firewall behind the back of the fields: after it
    no packet is dropped by the chains of the manager, although a chain that was
    enabled is still recorded as enabled, and enabling it again is refused. *)
Theorem ClearAllRules_disables g m w c (p : P) d six : fw_reach g m w -> linked_chain c -> enable (status_of m c) = true ->
  let w' := (ClearAllRules w).2 in
  walk d (rules (family six w')) p (FetchChainName CHAIN_OHFW_OUTPUT) = Passed /\
  EnableChain c true m w' = (NETMANAGER_ERROR, m, w').
Proof.
  intros Hr Hc He. apply fw_reach_inv in Hr as (Hrd & _ & Hi). cbn zeta.
  destruct (chainInitFlag_ m) eqn:Ef; [|destruct Hi as (Hu & _); destruct (Hu c Hc); congruence]. split.
  - assert (exists l, rules (family six w) OUTPUT_ = Some l) as [l El].
    { destruct Hi as [H4 H6]. destruct six; [destruct (fk_output _ _ _ _ H6) as (el & _ & _ & E)|
        destruct (fk_output _ _ _ _ H4) as (el & _ & _ & E)]; eauto. }
    destruct d as [|d]; [done|]. by rewrite (walk_chain _ _ _ _ _ (ClearAllRules_output w six l Hrd El)).
  - unfold EnableChain, CheckChainInitialization. rewrite IsFirewallChian_spec, (proj2 (is_linked_spec c) Hc), Ef.
    cbn [orb negb andb]. by rewrite He.
Qed.

End Invariant.

Lemma boot_fw_fresh six : fw_fresh (rules (family six boot_wrapper)).
Proof.
  replace (family six boot_wrapper) with boot_table by (by destruct six). split; [done..|].
  intros c Hin. apply boot_table_other; intros ->; vm_compute in Hin; by repeat (apply elem_of_cons in Hin as [?|Hin]; [done|]); apply elem_of_nil in Hin.
Qed.

Definition run_calls (cs : list Call) (g : Z -> bool) (m : FirewallManager) (w : IptablesWrapper Table) :
    (Z -> bool) * FirewallManager * IptablesWrapper Table :=
  foldl (fun '(g, m, w) c => let '(_, m, w) := perform c m w in (filled_after c g, m, w)) (g, m, w) cs.

Lemma fw_run_calls_reach cs : Forall call_ok cs -> forall g m w, fw_reach g m w ->
  fw_reach (run_calls cs g m w).1.1 (run_calls cs g m w).1.2 (run_calls cs g m w).2.
Proof.
  induction 1 as [|c cs Hc _ IH]; intros g m w Hr; [done|]. unfold run_calls. cbn [foldl].
  destruct (perform c m w) as [[r m'] w'] eqn:E. apply IH. by eapply fw_call.
Qed.

(** The idle chain is filled for user 20010 and enabled. *)
Definition idle_run : (Z -> bool) * FirewallManager * IptablesWrapper Table :=
  run_calls [CallSetUidsAllowedListChain CHAIN_OHFW_DOZABLE [20010]; CallEnableChain CHAIN_OHFW_DOZABLE true]
    (fun _ => false) (new_FirewallManager None) boot_wrapper.

Lemma idle_run_reach : fw_reach idle_run.1.1 idle_run.1.2 idle_run.2.
Proof.
  apply fw_run_calls_reach; [by repeat constructor|]. by apply (fw_start None boot_wrapper (conj eq_refl (conj eq_refl eq_refl)) boot_fw_fresh).
Qed.

Lemma firewall_verdict_witness :
  walk 3 (rules (family true idle_run.2)) (mkOutPacket (Some 20011) "wlan0" false false) (FetchChainName CHAIN_OHFW_OUTPUT) = Dropped /\
  walk 3 (rules (family true idle_run.2)) (mkOutPacket (Some 20010) "wlan0" false false) (FetchChainName CHAIN_OHFW_OUTPUT) = Passed.
Proof.
  split.
  - rewrite (firewall_verdict _ _ _ (mkOutPacket (Some 20011) "wlan0" false false) 0 20011 true idle_run_reach);
      [by vm_compute|done|lia|]. split; [done|]. by repeat constructor.
  - rewrite (firewall_verdict _ _ _ (mkOutPacket (Some 20010) "wlan0" false false) 0 20010 true idle_run_reach);
      [by vm_compute|done|lia|]. split; [done|]. by repeat constructor.
Defined.

Lemma ClearAllRules_disables_witness : enable (status_of idle_run.1.2 CHAIN_OHFW_DOZABLE) = true /\
  walk 3 (rules (family false (ClearAllRules idle_run.2).2)) (mkOutPacket (Some 20011) "wlan0" false false)
    (FetchChainName CHAIN_OHFW_OUTPUT) = Passed.
Proof.
  assert (He : enable (status_of idle_run.1.2 CHAIN_OHFW_DOZABLE) = true) by (vm_compute; reflexivity). split; [exact He|].
  exact (proj1 (ClearAllRules_disables _ _ _ CHAIN_OHFW_DOZABLE (mkOutPacket (Some 20011) "wlan0" false false) 3 false idle_run_reach
           (or_introl (or_introl eq_refl)) He)).
Defined.

End FirewallManager.
