(* ===== verification/PolicyNetsys.v ===== *)
(** * What the policy service asks of the native service
    (services/netpolicymanager/src/common/netsys_policy_wrapper.cpp)

    [PolicyNetsys W] has the calls; the answers are not used by the policy
    service.  [PolicyNetsysLaws W] says what they mean, in terms of an abstract
    state [NetsysView]: the two lists of users and the data saver of the bandwidth
    manager, and for each chain of the firewall manager whether it is enabled,
    whether it was filled, and its users.  [realises w v] relates a state of the
    native service to it; the instance is in [NativeNetsys]. *)

From S2P Require Import Prelude NetData Iptables.
Import NetData Iptables.

Module PolicyNetsys.

Class PolicyNetsys (W : Type) := {
  BandwidthEnableDataSaver : bool -> W -> Z * W;
  BandwidthSetIfaceQuota : string -> Z -> W -> Z * W;
  BandwidthRemoveIfaceQuota : string -> W -> Z * W;
  BandwidthAddDeniedList : Z -> W -> Z * W;
  BandwidthRemoveDeniedList : Z -> W -> Z * W;
  BandwidthAddAllowedList : Z -> W -> Z * W;
  BandwidthRemoveAllowedList : Z -> W -> Z * W;
  FirewallSetUidsAllowedListChain : Z -> list Z -> W -> Z * W;
  FirewallSetUidsDeniedListChain : Z -> list Z -> W -> Z * W;
  FirewallSetUidRule : Z -> list Z -> Z -> W -> Z * W;
  FirewallEnableChain : Z -> bool -> W -> Z * W;
  ClearFirewallAllRules : W -> Z * W;
}.

Definition PowerSaveUpdataAllowedList {W} `{PolicyNetsys W} (uid firewallRule : Z) (w : W) : Z * W :=
  FirewallSetUidRule CHAIN_OHFW_ALLOWED_LIST_BOX [uid] firewallRule w.

(** ** The abstract state *)

Record ChainView := mkChainView { cv_enabled : bool; cv_filled : bool; cv_uids : gset Z }.

Record NetsysView := mkView {
  v_denied : gset Z;
  v_allowed : gset Z;
  v_saver : bool;
  v_chain : Z -> ChainView
}.

Definition set_denied x v := mkView x (v_allowed v) (v_saver v) (v_chain v).
Definition set_allowed x v := mkView (v_denied v) x (v_saver v) (v_chain v).
Definition set_saver x v := mkView (v_denied v) (v_allowed v) x (v_chain v).
Definition set_chain (c : Z) (x : ChainView) v :=
  mkView (v_denied v) (v_allowed v) (v_saver v) (fun c' => if decide (c' = c) then x else v_chain v c').

(** [ohfw_dozable] and [ohfw_powersaving] list the allowed users,
    [ohfw_undozable] the denied ones. *)
Definition allow_chainb (c : Z) : bool := (c =? CHAIN_OHFW_DOZABLE) || (c =? CHAIN_OHFW_POWERSAVING).
Definition deny_chainb (c : Z) : bool := c =? CHAIN_OHFW_UNDOZABLE.

Definition fill_chain (c : Z) (us : list Z) (v : NetsysView) : NetsysView :=
  set_chain c (mkChainView (cv_enabled (v_chain v c)) true (list_to_set us)) v.

(** Disabling a chain empties it. *)
Definition enable_chain (c : Z) (e : bool) (v : NetsysView) : NetsysView :=
  if e then set_chain c (mkChainView true (cv_filled (v_chain v c)) (cv_uids (v_chain v c))) v
  else set_chain c (mkChainView false false ∅) v.

(** A user rule has an effect only while the chain is enabled. *)
Definition uid_rule (c r u : Z) (v : NetsysView) : NetsysView :=
  let x := v_chain v c in
  if (allow_chainb c || deny_chainb c) && cv_enabled x then
    let adds := if allow_chainb c then r =? RULE_ALLOW else r =? RULE_DENY in
    set_chain c (mkChainView true (cv_filled x) (if adds then {[u]} ∪ cv_uids x else cv_uids x ∖ {[u]})) v
  else v.

Definition fold_rules (c : Z) (us : list Z) (r : Z) (v : NetsysView) : NetsysView :=
  foldl (fun v u => uid_rule c r u v) v us.

Class PolicyNetsysLaws (W : Type) `{PolicyNetsys W} := {
  realises : W -> NetsysView -> Prop;
  r_saver : forall w v e, realises w v -> realises (BandwidthEnableDataSaver e w).2 (set_saver e v);
  r_quota : forall w v i n, realises w v -> realises (BandwidthSetIfaceQuota i n w).2 v;
  r_noquota : forall w v i, realises w v -> realises (BandwidthRemoveIfaceQuota i w).2 v;
  r_add_denied : forall w v u, realises w v -> realises (BandwidthAddDeniedList u w).2 (set_denied ({[u]} ∪ v_denied v) v);
  r_remove_denied : forall w v u, realises w v -> realises (BandwidthRemoveDeniedList u w).2 (set_denied (v_denied v ∖ {[u]}) v);
  r_add_allowed : forall w v u, realises w v -> realises (BandwidthAddAllowedList u w).2 (set_allowed ({[u]} ∪ v_allowed v) v);
  r_remove_allowed : forall w v u, realises w v -> realises (BandwidthRemoveAllowedList u w).2 (set_allowed (v_allowed v ∖ {[u]}) v);
  r_fill_allow : forall w v c us, realises w v -> allow_chainb c = true -> NoDup us ->
    realises (FirewallSetUidsAllowedListChain c us w).2 (fill_chain c us v);
  r_fill_deny : forall w v us, realises w v -> NoDup us ->
    realises (FirewallSetUidsDeniedListChain CHAIN_OHFW_UNDOZABLE us w).2 (fill_chain CHAIN_OHFW_UNDOZABLE us v);
  r_fill_deny_other : forall w v c us, realises w v -> c <> CHAIN_OHFW_UNDOZABLE ->
    realises (FirewallSetUidsDeniedListChain c us w).2 v;
  r_uid_rule : forall w v c us r, realises w v -> r = RULE_ALLOW \/ r = RULE_DENY -> 0 <= c <= CHAIN_OHFW_ALLOWED_LIST_BOX ->
    realises (FirewallSetUidRule c us r w).2 (fold_rules c us r v);
  r_enable : forall w v c e, realises w v -> allow_chainb c || deny_chainb c = true ->
    realises (FirewallEnableChain c e w).2 (enable_chain c e v);
}.

End PolicyNetsys.
