(* ===== verification/NativeNetsys.v ===== *)
(** * The native service behind the policy calls
    (services/netmanagernative/src/netsys/net_manager_native.cpp)

    The bandwidth manager and the firewall manager share the filter tables.  Each
    operation of one leaves the chains of the other alone ([bw_calls_stable],
    [fw_calls_stable]), so both invariants hold together and the native service
    is an instance of [PolicyNetsysLaws]. *)

From S2P Require Import Prelude NetData Iptables BandwidthManager FirewallManager PolicyNetsys.
Import NetData Iptables PolicyNetsys.

Module NativeNetsys.
Module BW := BandwidthManager.
Module FW := FirewallManager.

Record Native (T : Type) := mkNative {
  bandwidthManager_ : BW.BandwidthManager;
  firewallManager_ : FW.FirewallManager;
  iptables : IptablesWrapper T
}.
Arguments mkNative {T}.
Arguments bandwidthManager_ {T}.
Arguments firewallManager_ {T}.
Arguments iptables {T}.

Section Calls.
Context {T : Type} `{Iptables T}.
Abbreviation N := (Native T).

Definition on_bandwidth (c : BW.Call) (n : N) : Z * N :=
  let '(r, b, w) := BW.perform c (bandwidthManager_ n) (iptables n) in (r, mkNative b (firewallManager_ n) w).
Definition on_firewall (c : FW.Call) (n : N) : Z * N :=
  let '(r, m, w) := FW.perform c (firewallManager_ n) (iptables n) in (r, mkNative (bandwidthManager_ n) m w).

Definition native_BandwidthEnableDataSaver (enable : bool) : N -> Z * N := on_bandwidth (BW.CallEnableDataSaver enable).
Definition native_BandwidthSetIfaceQuota (ifName : string) (bytes : Z) : N -> Z * N := on_bandwidth (BW.CallSetIfaceQuota ifName bytes).
Definition native_BandwidthRemoveIfaceQuota (ifName : string) : N -> Z * N := on_bandwidth (BW.CallRemoveIfaceQuota ifName).
Definition native_BandwidthAddDeniedList (uid : Z) : N -> Z * N := on_bandwidth (BW.CallAddDeniedList uid).
Definition native_BandwidthRemoveDeniedList (uid : Z) : N -> Z * N := on_bandwidth (BW.CallRemoveDeniedList uid).
Definition native_BandwidthAddAllowedList (uid : Z) : N -> Z * N := on_bandwidth (BW.CallAddAllowedList uid).
Definition native_BandwidthRemoveAllowedList (uid : Z) : N -> Z * N := on_bandwidth (BW.CallRemoveAllowedList uid).
Definition native_FirewallSetUidsAllowedListChain (chain : Z) (uids : list Z) : N -> Z * N :=
  on_firewall (FW.CallSetUidsAllowedListChain chain uids).
Definition native_FirewallSetUidsDeniedListChain (chain : Z) (uids : list Z) : N -> Z * N :=
  on_firewall (FW.CallSetUidsDeniedListChain chain uids).
Definition native_FirewallEnableChain (chain : Z) (enable : bool) : N -> Z * N := on_firewall (FW.CallEnableChain chain enable).

(** The chain is an unsigned number; a failure for one user does not stop the loop. *)
Definition native_FirewallSetUidRule (chain : Z) (uids : list Z) (firewallRule : Z) (n : N) : Z * N :=
  if chain >? CHAIN_OHFW_ALLOWED_LIST_BOX then (NETMANAGER_ERR_PARAMETER_ERROR, n)
  else if negb (firewallRule =? RULE_ALLOW) && negb (firewallRule =? RULE_DENY) then (NETMANAGER_ERR_PARAMETER_ERROR, n)
  else (NETMANAGER_SUCCESS, foldl (fun n uid => (on_firewall (FW.CallSetUidRule chain uid firewallRule) n).2) n uids).

Definition native_ClearFirewallAllRules (n : N) : Z * N :=
  let '(r, w) := FW.ClearAllRules (iptables n) in (r, mkNative (bandwidthManager_ n) (firewallManager_ n) w).

#[global] Instance native_PolicyNetsys : PolicyNetsys N := {
  BandwidthEnableDataSaver := native_BandwidthEnableDataSaver;
  BandwidthSetIfaceQuota := native_BandwidthSetIfaceQuota;
  BandwidthRemoveIfaceQuota := native_BandwidthRemoveIfaceQuota;
  BandwidthAddDeniedList := native_BandwidthAddDeniedList;
  BandwidthRemoveDeniedList := native_BandwidthRemoveDeniedList;
  BandwidthAddAllowedList := native_BandwidthAddAllowedList;
  BandwidthRemoveAllowedList := native_BandwidthRemoveAllowedList;
  FirewallSetUidsAllowedListChain := native_FirewallSetUidsAllowedListChain;
  FirewallSetUidsDeniedListChain := native_FirewallSetUidsDeniedListChain;
  FirewallSetUidRule := native_FirewallSetUidRule;
  FirewallEnableChain := native_FirewallEnableChain;
  ClearFirewallAllRules := native_ClearFirewallAllRules;
}.

End Calls.

(** ** The managers do not disturb each other *)

Section Frame.
Context {T : Type} `{IptablesLaws T}.
Abbreviation W := (IptablesWrapper T).

(** [w'] differs from [w] only in chains whose name satisfies [own]. *)
Definition only (own : string -> Prop) (w w' : W) : Prop :=
  (iptablesWrapperFfrtQueue_ w', isIptablesSystemAccess_ w', isIp6tablesSystemAccess_ w')
    = (iptablesWrapperFfrtQueue_ w, isIptablesSystemAccess_ w, isIp6tablesSystemAccess_ w) /\
  forall six x, ~ own x -> rules (FW.family six w') x = rules (FW.family six w) x.

#[global] Instance only_refl own : Reflexive (only own).
Proof. by split. Qed.
#[global] Instance only_trans own : Transitive (only own).
Proof. intros w1 w2 w3 [E1 F1] [E2 F2]. split; [congruence|]. intros six x Hx. by rewrite F2, F1. Qed.

Lemma RunCommand_only own ty c w r w' : own (cmd_chain c) -> RunCommand ty c w = (r, w') -> only own w w'.
Proof.
  intros Ho. unfold RunCommand. destruct (negb _); [by intros [= _ <-]|]. intros [= _ <-]. split; [done|].
  intros six x Hx. assert (x <> cmd_chain c) by congruence.
  destruct six; cbn [FW.family ipv4_filter ipv6_filter]; case_match; by rewrite ?exec_other.
Qed.

Lemma run_commands_only own ty cmds : forall e w r w', Forall (fun c => own (cmd_chain c)) cmds ->
  run_commands ty cmds e w = (r, w') -> only own w w'.
Proof.
  intros e w r w' F. unfold run_commands. destruct e; [by intros [= _ <-]|]. revert w.
  induction F as [|c cmds Hc _ IH]; intros w; cbn [map any_error]; [by intros [= _ <-]|].
  destruct (RunCommand ty c w) as [r1 w1] eqn:E1. pose proof (RunCommand_only _ _ _ _ _ _ Hc E1) as O1.
  case_match; [by intros [= _ <-]|]. intros E. by transitivity w1; [|apply IH].
Qed.

Lemma only_ready own w w' : only own w w' -> ready w -> ready w'.
Proof. intros [[= E1 E2 E3] _] (?&?&?). split_and!; congruence. Qed.

(** Chains of one manager only: the built-in chains and those of the other stay. *)
Definition bw_own (x : string) : Prop := exists y, x = "ohbw_" +:+ y.
Definition fw_own (x : string) : Prop := (exists y, x = "ohfw_" +:+ y) \/ x = "oh_unusable".

Lemma only_bw_stable w w' : only bw_own w w' -> ready w -> FW.fw_stable w w'.
Proof.
  intros O Hr. split_and!; [by eapply only_ready| |]; intros six x.
  - apply O. by intros [y [=]].
  - intros Hx. destruct O as [_ O]. rewrite O; [done|]. by intros [y E]; destruct Hx; subst.
Qed.

Lemma only_fw_stable w w' : only fw_own w w' -> ready w -> BW.bw_stable w w'.
Proof.
  intros O Hr. split_and!; [by eapply only_ready| |]; intros x.
  - apply (proj2 O false). by intros [[y [=]]|[=]].
  - intros Hx. pose proof (proj2 O false) as Of. cbn [FW.family] in Of. rewrite Of; [done|].
    by intros [[y E]|E]; destruct Hx; subst.
Qed.

Lemma fw_stable_trans w1 w2 w3 : FW.fw_stable w1 w2 -> FW.fw_stable w2 w3 -> FW.fw_stable w1 w3.
Proof. intros (R1 & S1 & B1) (R2 & S2 & B2). split_and!; [done| |]; intros; [by rewrite S2, S1|auto]. Qed.
Lemma bw_stable_trans w1 w2 w3 : BW.bw_stable w1 w2 -> BW.bw_stable w2 w3 -> BW.bw_stable w1 w3.
Proof. intros (R1 & S1 & B1) (R2 & S2 & B2). split_and!; [done| |]; intros; [by rewrite S2, S1|auto]. Qed.

(** *** The bandwidth manager leaves the firewall alone *)

(** The commands of an initialisation touch the chains of the manager and append
    to the built-in ones. *)
Lemma init_frame own cmds (t : T) : Forall (fun c => own (cmd_chain c) \/ cmd_chain c = "INPUT" \/ cmd_chain c = "OUTPUT") cmds ->
  forall x, ~ own x -> x <> "INPUT" -> x <> "OUTPUT" -> rules (exec_all cmds t) x = rules t x.
Proof.
  intros F x Ho Hi Hx. apply exec_all_other. eapply Forall_impl; [exact F|]. cbn. intros c Hc E. subst x. tauto.
Qed.

Lemma bw_init_commands_own : Forall (fun c => bw_own (cmd_chain c) \/ cmd_chain c = "INPUT" \/ cmd_chain c = "OUTPUT") BW.init_commands.
Proof. repeat (constructor; [first [by right; left|by right; right|left; by eexists]|]). constructor. Qed.

Lemma fw_init_commands_own : Forall (fun c => fw_own (cmd_chain c) \/ cmd_chain c = "INPUT" \/ cmd_chain c = "OUTPUT") FW.init_commands.
Proof. repeat (constructor; [first [by right; left|by right; right|left; left; by eexists]|]). constructor. Qed.

Lemma bw_init_stable b w b' w' : BW.bw_inv b w -> BW.CheckChainInitialization b w = (b', w') -> FW.fw_stable w w'.
Proof.
  intros [Hr Hi] E. destruct (BW.chainInitFlag_ b) eqn:Ef.
  - revert E. unfold BW.CheckChainInitialization. rewrite Ef. intros [= _ <-]. by apply only_bw_stable.
  - rewrite BW.bw_CheckChainInitialization_fresh in E by done. apply pair_equal_spec in E as [_ <-]. destruct Hi as [_ Hf].
    destruct (BW.bf_input _ Hf) as [li Ei], (BW.bf_output _ Hf) as [lo Eo].
    pose proof (know_exec_all_sound BW.init_commands _ _
      (fresh_knows _ (map BW.FetchChainName BW.bw_chains) li lo (BW.bf_chains _ Hf) Ei Eo)) as K.
    split_and!; [done| |]; intros [] x; cbn [FW.family ipv4_filter ipv6_filter set_filters]; try done.
    + apply (init_frame bw_own); [apply bw_init_commands_own|by intros [y [=]]|discriminate|discriminate].
    + intros [->| ->] _; eexists; apply K; vm_compute; reflexivity.
Qed.

Lemma fw_init_stable g m w m' w' : FW.fw_inv g m w -> FW.CheckChainInitialization m w = (m', w') -> BW.bw_stable w w'.
Proof.
  intros (Hr & _ & Hi) E. destruct (FW.chainInitFlag_ m) eqn:Ef.
  - revert E. unfold FW.CheckChainInitialization. rewrite Ef. intros [= _ <-]. by apply only_fw_stable.
  - rewrite FW.fw_CheckChainInitialization_fresh in E by done. apply pair_equal_spec in E as [_ <-]. destruct Hi as (_ & _ & Hf & _).
    destruct (FW.ff_input _ Hf) as [li Ei], (FW.ff_output _ Hf) as [lo Eo].
    pose proof (know_exec_all_sound FW.init_commands _ _
      (fresh_knows _ (map FW.FetchChainName FW.fw_chains) li lo (FW.ff_chains _ Hf) Ei Eo)) as K.
    split_and!; [done| |]; intros x; cbn [ipv4_filter set_filters].
    + apply (init_frame fw_own); [apply fw_init_commands_own|by intros [[y [=]]|[=]]|discriminate|discriminate].
    + intros [->| ->] _; eexists; apply K; vm_compute; reflexivity.
Qed.

(** *** The operations *)

Ltac only_chain :=
  match goal with
  | |- only _ ?x ?x => reflexivity
  | O : only _ ?x ?y |- only _ ?x _ => transitivity y; [exact O|clear O; only_chain]
  end.
Ltac own_chain := repeat (constructor; [first [by eexists|eexists (String.append "costly_" _); reflexivity]|]); constructor.
Ltac only_step :=
  match goal with
  | |- context [run_commands ?ty ?cmds ?e ?w] =>
      let E := fresh "E" in destruct (run_commands ty cmds e w) eqn:E; eapply (run_commands_only bw_own) in E; [|own_chain]
  | |- context [RunCommand ?ty ?c ?w] =>
      let E := fresh "E" in destruct (RunCommand ty c w) eqn:E; eapply (RunCommand_only bw_own) in E; [|by eexists]
  end.

Lemma bw_calls_stable b w c r b' w' : BW.bw_inv b w -> BW.perform c b w = (r, b', w') -> FW.fw_stable w w'.
Proof.
  intros Hi. assert (Hr : ready w) by apply Hi.
  destruct (BW.CheckChainInitialization b w) as [b1 w1] eqn:E1. pose proof (bw_init_stable b w b1 w1 Hi E1) as S1.
  assert (Hr1 : ready w1) by apply S1.
  assert (Hstep : forall w2, only bw_own w1 w2 -> FW.fw_stable w w2)
    by (intros w2 O; eapply fw_stable_trans; [exact S1|by apply only_bw_stable]).
  assert (Hsame : FW.fw_stable w w) by (by apply only_bw_stable).
  destruct c; cbn [BW.perform];
    unfold BW.EnableDataSaver, BW.SetIfaceQuota, BW.RemoveIfaceQuota, BW.AddDeniedList, BW.RemoveDeniedList,
      BW.AddAllowedList, BW.RemoveAllowedList, BW.SetIfaceQuotaDetail, BW.IptablesNewChain_named, BW.IptablesDeleteChain_named;
    rewrite ?E1; repeat (only_step || case_match); intros [= _ _ <-]; simplify_eq; try done;
    apply Hstep; only_chain.
Qed.

Lemma FetchChainName_own c : fw_own (FW.FetchChainName c).
Proof. unfold FW.FetchChainName. repeat case_match; first [left; by eexists|by right]. Qed.

Ltac own_commands :=
  repeat first [ apply Forall_nil; exact I
               | apply Forall_cons; split; [apply FetchChainName_own|]
               | apply Forall_app; split
               | apply Forall_fmap, Forall_forall; intros; apply FetchChainName_own ].
Ltac fw_step :=
  match goal with
  | |- context [run_commands ?ty ?cmds ?e ?w] =>
      let E := fresh "E" in destruct (run_commands ty cmds e w) eqn:E;
      eapply (run_commands_only fw_own) in E; [|own_commands]
  | |- context [RunCommand ?ty ?c ?w] =>
      let E := fresh "E" in destruct (RunCommand ty c w) eqn:E;
      eapply (RunCommand_only fw_own) in E; [|apply FetchChainName_own]
  end.

Lemma fw_calls_stable g m w c r m' w' : FW.fw_inv g m w -> FW.perform c m w = (r, m', w') -> BW.bw_stable w w'.
Proof.
  intros Hi. assert (Hr : ready w) by apply Hi.
  destruct (FW.CheckChainInitialization m w) as [m1 w1] eqn:E1. pose proof (fw_init_stable g m w m1 w1 Hi E1) as S1.
  assert (Hr1 : ready w1) by apply S1.
  assert (Hstep : forall w2, only fw_own w1 w2 -> BW.bw_stable w w2)
    by (intros w2 O; eapply bw_stable_trans; [exact S1|by apply only_fw_stable]).
  assert (Hsame : BW.bw_stable w w) by (by apply only_fw_stable).
  destruct c; cbn [FW.perform];
    unfold FW.SetUidsAllowedListChain, FW.SetUidsDeniedListChain, FW.EnableChain, FW.SetUidRule, FW.SetFireWallCommand;
    unfold FW.IptablesSetRule; rewrite ?E1; repeat (fw_step || case_match); intros [= _ _ <-]; simplify_eq; try done;
    apply Hstep; first [only_chain|eapply (RunCommand_only fw_own); [|eassumption]; apply FetchChainName_own].
Qed.

End Frame.

(** ** The fields after an operation *)

Section Fields.
Context {T : Type} `{IptablesLaws T}.
Implicit Types (w : IptablesWrapper T) (v : NetsysView).

Lemma bw_check_fields b w : let b' := (BW.CheckChainInitialization b w).1 in
  BW.deniedListUids_ b' = BW.deniedListUids_ b /\ BW.allowedListUids_ b' = BW.allowedListUids_ b /\
  BW.dataSaverEnable_ b' = BW.dataSaverEnable_ b.
Proof. unfold BW.CheckChainInitialization, BW.InitChain, BW.InitDefaultRules. repeat case_match; simplify_eq/=; done. Qed.

(** What an operation makes of the two lists and the data saver. *)
Definition bw_spec (c : BW.Call) (v : NetsysView) : NetsysView :=
  match c with
  | BW.CallEnableDataSaver e => set_saver e v
  | BW.CallSetIfaceQuota _ _ | BW.CallRemoveIfaceQuota _ => v
  | BW.CallAddDeniedList u => set_denied ({[u]} ∪ v_denied v) v
  | BW.CallRemoveDeniedList u => set_denied (v_denied v ∖ {[u]}) v
  | BW.CallAddAllowedList u => set_allowed ({[u]} ∪ v_allowed v) v
  | BW.CallRemoveAllowedList u => set_allowed (v_allowed v ∖ {[u]}) v
  end.

Definition bw_view (b : BW.BandwidthManager) (v : NetsysView) : Prop :=
  v_denied v = BW.deniedListUids_ b /\ v_allowed v = BW.allowedListUids_ b /\ v_saver v = BW.dataSaverEnable_ b.

Lemma bw_perform_view c b w r b' w' v : BW.perform c b w = (r, b', w') -> bw_view b v -> bw_view b' (bw_spec c v).
Proof.
  intros E (Ed & Ea & Es). pose proof (bw_check_fields b w) as (Fd & Fa & Fs). revert E.
  destruct (BW.CheckChainInitialization b w) as [b1 w1] eqn:E1. cbn [fst] in *.
  destruct c; cbn [BW.perform bw_spec];
    unfold BW.EnableDataSaver, BW.SetIfaceQuota, BW.RemoveIfaceQuota, BW.AddDeniedList, BW.RemoveDeniedList,
      BW.AddAllowedList, BW.RemoveAllowedList, BW.SetIfaceQuotaDetail;
    rewrite ?E1; repeat case_match; intros [= _ <- _]; simplify_eq;
    unfold bw_view; cbn; rewrite ?Fd, ?Fa, ?Fs, ?Ed, ?Ea, ?Es; split_and!; try done;
    try (destruct enable, (BW.dataSaverEnable_ b1), (BW.dataSaverEnable_ b); simplify_eq/=; done);
    repeat match goal with E : bool_decide _ = true |- _ => apply bool_decide_eq_true_1 in E; rewrite ?Fd, ?Fa in E
                         | E : bool_decide _ = false |- _ => apply bool_decide_eq_false_1 in E; rewrite ?Fd, ?Fa in E end;
    apply leibniz_equiv; set_solver.
Qed.

Lemma fw_check_status m w c : FW.status_of (FW.CheckChainInitialization m w).1 c = FW.status_of m c.
Proof. unfold FW.CheckChainInitialization, FW.InitChain, FW.InitDefaultRules. repeat case_match; simplify_eq/=; done. Qed.

Lemma fw_check_ready g m w : FW.fw_inv g m w ->
  exists m1 w1, FW.CheckChainInitialization m w = (m1, w1) /\ ready w1 /\ (forall c, FW.status_of m1 c = FW.status_of m c).
Proof.
  intros Hi. destruct (FW.fw_CheckChainInitialization_inv g m w Hi) as (w1 & E & Hr & _).
  eexists _, w1. split; [exact E|]. split; [done|]. intros c. pose proof (fw_check_status m w c) as Es. by rewrite E in Es.
Qed.

Lemma fill_allow_status g m w c us : FW.fw_inv g m w -> FW.allow_chain c ->
  forall c', FW.status_of (FW.SetUidsAllowedListChain c us m w).1.2 c' =
  if decide (c = c') then FW.set_uids us (FW.status_of m c) else FW.status_of m c'.
Proof.
  intros Hi Hc c'. unfold FW.SetUidsAllowedListChain. replace (negb _ && negb _) with false by (by destruct Hc as [->| ->]).
  destruct (fw_check_ready g m w Hi) as (m1 & w1 & -> & Hr & Es). unfold FW.SetFireWallCommand.
  rewrite !run_commands_ready by done. cbn [fst snd]. rewrite FW.status_of_put. case_decide; by rewrite ?Es.
Qed.

Lemma fill_deny_status g m w us : FW.fw_inv g m w ->
  forall c', FW.status_of (FW.SetUidsDeniedListChain CHAIN_OHFW_UNDOZABLE us m w).1.2 c' =
  if decide (CHAIN_OHFW_UNDOZABLE = c') then FW.set_uids us (FW.status_of m CHAIN_OHFW_UNDOZABLE) else FW.status_of m c'.
Proof.
  intros Hi c'. unfold FW.SetUidsDeniedListChain. rewrite Z.eqb_refl. cbn [negb].
  destruct (fw_check_ready g m w Hi) as (m1 & w1 & -> & Hr & Es). unfold FW.SetFireWallCommand.
  rewrite !run_commands_ready by done. cbn [fst snd]. rewrite FW.status_of_put. case_decide; by rewrite ?Es.
Qed.

Lemma enable_status g m w c e : FW.fw_inv g m w -> FW.linked_chain c ->
  forall c', FW.status_of (FW.EnableChain c e m w).1.2 c' =
  if decide (c = c')
  then (if e then FW.set_enable true (FW.status_of m c) else FW.mkStatus false (FW.type (FW.status_of m c)) [])
  else FW.status_of m c'.
Proof.
  intros Hi Hc c'. unfold FW.EnableChain. rewrite FW.IsFirewallChian_spec, (proj2 (FW.is_linked_spec c) Hc). cbn [orb negb].
  destruct (fw_check_ready g m w Hi) as (m1 & w1 & -> & Hr & Es). destruct e; cbn [negb andb].
  - rewrite Es. destruct (FW.enable (FW.status_of m c)) eqn:Ee; cbn [negb].
    + cbn [fst snd]. case_decide as Ec; [subst|done]. rewrite Es. destruct (FW.status_of m c'); cbn in *; by subst.
    + rewrite !run_commands_ready by done. cbn [fst snd]. rewrite FW.status_of_put. case_decide; [by rewrite ?Es|by rewrite <- Es].
  - rewrite !run_commands_ready by done. cbn [fst snd]. rewrite FW.status_of_put. case_decide as Ec.
    + rewrite FW.status_of_put, decide_True by done. cbn. by rewrite Es.
    + change (FW.status_of (FW.set_firewallType_ _ ?x)) with (FW.status_of x). rewrite FW.status_of_put, decide_False by done. apply Es.
Qed.

Definition add_or_remove (c r u : Z) (l : list Z) : list Z :=
  if (if FW.is_allow c then r =? RULE_ALLOW else r =? RULE_DENY)
  then (if bool_decide (u ∈ l) then l else l ++ [u]) else FW.erase_first u l.

Lemma uid_rule_status g m w c u r : FW.fw_inv g m w ->
  forall c', FW.status_of (FW.SetUidRule c u r m w).1.2 c' =
  if decide (c = c')
  then (if FW.is_linked c && FW.enable (FW.status_of m c)
        then FW.set_uids (add_or_remove c r u (FW.uids (FW.status_of m c))) (FW.status_of m c) else FW.status_of m c)
  else FW.status_of m c'.
Proof.
  intros Hi c'. unfold FW.SetUidRule. rewrite FW.IsFirewallChian_spec.
  destruct (FW.is_linked c) eqn:El; cbn [orb negb andb].
  - destruct (FW.enable (FW.status_of m c)) eqn:Ee; cbn [negb]; [|cbn; case_decide; by subst].
    destruct (fw_check_ready g m w Hi) as (m1 & w1 & -> & Hr & Es). unfold FW.IptablesSetRule, add_or_remove.
    assert (Esame : FW.set_uids (FW.uids (FW.status_of m c)) (FW.status_of m c) = FW.status_of m c)
      by (by destruct (FW.status_of m c)).
    apply FW.is_linked_spec in El. destruct El as [Ha| ->].
    + replace (FW.FetchChainType c) with TYPE_ALLOWED_LIST by (by destruct Ha as [->| ->]).
      rewrite (proj2 (FW.is_allow_spec c) Ha), !Es.
      destruct (r =? RULE_ALLOW); cbn [negb andb]; case_bool_decide as Hu; cbn [negb andb];
        rewrite ?RunCommand_ready by done; cbn; rewrite ?FW.status_of_put; case_decide; subst; rewrite ?Es; try done.
      by rewrite FW.erase_first_notin, Esame.
    + change (FW.FetchChainType CHAIN_OHFW_UNDOZABLE) with TYPE_DENIDE_LIST.
      change (FW.is_allow CHAIN_OHFW_UNDOZABLE) with false. rewrite !Es. cbn iota.
      destruct (r =? RULE_DENY); cbn [negb andb]; case_bool_decide as Hu; cbn [negb andb];
        rewrite ?RunCommand_ready by done; cbn; rewrite ?FW.status_of_put; case_decide; subst; rewrite ?Es; try done.
      by rewrite FW.erase_first_notin, Esame.
  - destruct (c =? CHAIN_OHFW_ALLOWED_LIST_BOX) eqn:Eb; cbn [negb]; [|cbn; case_decide; by subst].
    apply Z.eqb_eq in Eb as ->. destruct Hi as (_ & Hb & _). rewrite Hb. cbn. case_decide; [by subst|done].
Qed.

(** ** The native service realises the abstract state *)

Definition chains_view (g : Z -> bool) (m : FW.FirewallManager) (v : NetsysView) : Prop :=
  forall c, FW.linked_chain c ->
    cv_enabled (v_chain v c) = FW.enable (FW.status_of m c) /\
    (FW.is_allow c = true -> cv_filled (v_chain v c) = g c) /\
    cv_uids (v_chain v c) = list_to_set (FW.uids (FW.status_of m c)) /\
    NoDup (FW.uids (FW.status_of m c)).

Definition native_realises (n : Native T) (v : NetsysView) : Prop :=
  BW.bw_inv (bandwidthManager_ n) (iptables n) /\ bw_view (bandwidthManager_ n) v /\
  exists g, FW.fw_inv g (firewallManager_ n) (iptables n) /\ chains_view g (firewallManager_ n) v.

Lemma fw_stable_inv g m w w' : FW.fw_inv g m w -> FW.fw_stable w w' -> FW.fw_inv g m w'.
Proof.
  intros (_ & Hbox & Hi) (Hr & Hs & Hb). split_and!; [done..|]. destruct (FW.chainInitFlag_ m).
  - destruct Hi as [H4 H6].
    split; [apply (FW.fw_stable_kernel _ _ _ _ _ (Hs false) H4)|apply (FW.fw_stable_kernel _ _ _ _ _ (Hs true) H6)].
  - destruct Hi as (Hu & Hg & H4 & H6). split_and!; [done..| |];
      [apply (FW.fw_stable_fresh _ _ (Hs false) (Hb false) H4)|apply (FW.fw_stable_fresh _ _ (Hs true) (Hb true) H6)].
Qed.

Lemma on_bandwidth_realises c n v : native_realises n v -> native_realises (on_bandwidth c n).2 (bw_spec c v).
Proof.
  intros (Hb & Hv & g & Hf & Hc). unfold on_bandwidth.
  destruct (BW.perform c (bandwidthManager_ n) (iptables n)) as [[r b'] w'] eqn:E. cbn [snd]. split_and!; cbn.
  - pose proof (BW.bw_perform_inv c _ _ Hb) as Hp. by rewrite E in Hp.
  - by eapply bw_perform_view.
  - exists g. split.
    + eapply fw_stable_inv; [exact Hf|]. by eapply bw_calls_stable.
    + by destruct c.
Qed.

Lemma on_firewall_realises c n v v' : native_realises n v -> FW.call_ok c ->
  (v_denied v', v_allowed v', v_saver v') = (v_denied v, v_allowed v, v_saver v) ->
  (forall g, FW.fw_inv g (firewallManager_ n) (iptables n) -> chains_view g (firewallManager_ n) v ->
     chains_view (FW.filled_after c g) (FW.perform c (firewallManager_ n) (iptables n)).1.2 v') ->
  native_realises (on_firewall c n).2 v'.
Proof.
  intros (Hb & (Ed & Ea & Es) & g & Hf & Hc) Hok [= E1 E2 E3] Hv'. specialize (Hv' g Hf Hc). unfold on_firewall.
  destruct (FW.perform c (firewallManager_ n) (iptables n)) as [[r m'] w'] eqn:E. cbn [snd fst] in *. split_and!; cbn.
  - eapply BW.bw_stable_inv; [exact Hb|]. by eapply fw_calls_stable.
  - split_and!; congruence.
  - exists (FW.filled_after c g). split; [|done]. pose proof (FW.fw_perform_inv g _ _ c Hf Hok) as Hp. by rewrite E in Hp.
Qed.

Lemma chainb_linked c : allow_chainb c || deny_chainb c = true <-> FW.linked_chain c.
Proof. rewrite <- FW.is_linked_spec. done. Qed.

(** The view of a chain after its status changed and the others stayed. *)
Lemma chains_view_upd g g' m m' v c x : chains_view g m v -> FW.linked_chain c ->
  (forall c', c <> c' -> FW.linked_chain c' -> FW.status_of m' c' = FW.status_of m c') ->
  (forall c', c <> c' -> g' c' = g c') ->
  cv_enabled x = FW.enable (FW.status_of m' c) -> (FW.is_allow c = true -> cv_filled x = g' c) ->
  cv_uids x = list_to_set (FW.uids (FW.status_of m' c)) -> NoDup (FW.uids (FW.status_of m' c)) ->
  chains_view g' m' (set_chain c x v).
Proof.
  intros Hv Hc Hs Hg He Hf Hu Hn c' Hc'. cbn [v_chain set_chain]. case_decide as E; [by subst|].
  destruct (Hv c' Hc') as (E1 & E2 & E3 & E4). rewrite Hs, Hg by done. done.
Qed.

Lemma erase_first_set u l : NoDup l -> (list_to_set (FW.erase_first u l) : gset Z) = list_to_set l ∖ {[u]}.
Proof.
  induction 1 as [|x l Hx Hn IH]; cbn; [set_solver|]. destruct (decide (x = u)) as [->|Hne].
  - apply leibniz_equiv. intros y. rewrite elem_of_difference, elem_of_union, elem_of_singleton, elem_of_list_to_set.
    split; [intros Hy; split; [by right|by intros ->]|tauto].
  - cbn. rewrite IH. set_solver.
Qed.

Lemma add_or_remove_set c r u l : NoDup l -> NoDup (add_or_remove c r u l) /\
  (list_to_set (add_or_remove c r u l) : gset Z) =
  if (if FW.is_allow c then r =? RULE_ALLOW else r =? RULE_DENY) then {[u]} ∪ list_to_set l else list_to_set l ∖ {[u]}.
Proof.
  intros Hn. unfold add_or_remove. destruct (if FW.is_allow c then _ else _).
  - case_bool_decide as Hu.
    + split; [done|]. apply leibniz_equiv. set_solver.
    + split; [|rewrite list_to_set_app_L; cbn; set_solver]. apply NoDup_app. split_and!; [done| |apply NoDup_singleton].
      by intros y Hy ->%list_elem_of_singleton.
  - split; [by apply FW.erase_first_NoDup|by apply erase_first_set].
Qed.

Lemma set_uid_rule_realises n v c u r : native_realises n v ->
  native_realises (on_firewall (FW.CallSetUidRule c u r) n).2 (uid_rule c r u v).
Proof.
  intros Hn. apply (on_firewall_realises _ _ v); [done|done| |].
  - unfold uid_rule. by case_match.
  - intros g Hf Hv. cbn [FW.perform FW.filled_after]. pose proof (uid_rule_status g _ _ c u r Hf) as Es.
    unfold uid_rule. change (allow_chainb c || deny_chainb c) with (FW.is_linked c) in *. change (allow_chainb c) with (FW.is_allow c).
    destruct (FW.is_linked c) eqn:El; cbn [andb] in *.
    + apply FW.is_linked_spec in El. destruct (Hv c El) as (Ee & Eg & Eu & Hnd). rewrite Ee.
      destruct (FW.enable (FW.status_of (firewallManager_ n) c)) eqn:Een.
      * destruct (add_or_remove_set c r u _ Hnd) as [Hn' Eset].
        eapply chains_view_upd; [exact Hv|done| |done|..].
        -- intros c' Hne _. by rewrite Es, decide_False.
        -- by rewrite Es, decide_True.
        -- done.
        -- rewrite Es, decide_True by done. cbn. rewrite Eset, Eu. by destruct (FW.is_allow c).
        -- by rewrite Es, decide_True.
      * intros c' Hc'. rewrite Es. case_decide; [subst|]; by apply Hv.
    + intros c' Hc'. rewrite Es. case_decide; [subst|]; by apply Hv.
Qed.

#[global] Instance native_PolicyNetsysLaws : PolicyNetsysLaws (Native T).
Proof.
  refine (Build_PolicyNetsysLaws _ _ native_realises _ _ _ _ _ _ _ _ _ _ _ _).
  - intros w v e. apply (on_bandwidth_realises (BW.CallEnableDataSaver e)).
  - intros w v i n. apply (on_bandwidth_realises (BW.CallSetIfaceQuota i n)).
  - intros w v i. apply (on_bandwidth_realises (BW.CallRemoveIfaceQuota i)).
  - intros w v u. apply (on_bandwidth_realises (BW.CallAddDeniedList u)).
  - intros w v u. apply (on_bandwidth_realises (BW.CallRemoveDeniedList u)).
  - intros w v u. apply (on_bandwidth_realises (BW.CallAddAllowedList u)).
  - intros w v u. apply (on_bandwidth_realises (BW.CallRemoveAllowedList u)).
  - intros n v c us Hn Hc Hnd. apply FW.is_allow_spec in Hc as Ha.
    apply (on_firewall_realises (FW.CallSetUidsAllowedListChain c us) n v); [done|done|done|].
    intros g Hf Hv. cbn [FW.perform FW.filled_after]. change (FW.is_allow c) with (allow_chainb c). rewrite Hc.
    pose proof (fill_allow_status g _ _ c us Hf Ha) as Es. destruct (Hv c (or_introl Ha)) as (Ee & _).
    eapply chains_view_upd; [exact Hv|by left|..]; try (rewrite Es, decide_True by done; done).
    + intros c' Hne _. by rewrite Es, decide_False.
    + intros c' Hne. unfold FW.upd. by rewrite decide_False.
    + intros _. unfold FW.upd. by rewrite decide_True.
  - intros n v us Hn Hnd. apply (on_firewall_realises (FW.CallSetUidsDeniedListChain _ us) n v); [done|done|done|].
    intros g Hf Hv. cbn [FW.perform FW.filled_after].
    pose proof (fill_deny_status g _ _ us Hf) as Es. destruct (Hv CHAIN_OHFW_UNDOZABLE (or_intror eq_refl)) as (Ee & _).
    eapply chains_view_upd; [exact Hv|by right|..]; try (rewrite Es, decide_True by done; done); [|done..].
    intros c' Hne _. by rewrite Es, decide_False.
  - intros [b m w] v c us Hn Hne. cbn [FirewallSetUidsDeniedListChain native_PolicyNetsys]. unfold native_FirewallSetUidsDeniedListChain, on_firewall.
    cbn [FW.perform firewallManager_ iptables]. unfold FW.SetUidsDeniedListChain. by rewrite (proj2 (Z.eqb_neq _ _) Hne).
  - intros n v c us r Hn Hr Hc. cbn [FirewallSetUidRule native_PolicyNetsys]. unfold native_FirewallSetUidRule.
    replace (c >? CHAIN_OHFW_ALLOWED_LIST_BOX) with false by (symmetry; rewrite Z.gtb_ltb; apply Z.ltb_ge; lia).
    replace (negb (r =? RULE_ALLOW) && negb (r =? RULE_DENY)) with false by (by destruct Hr as [->| ->]).
    cbn [snd]. unfold fold_rules. revert n v Hn. induction us as [|u us IH]; intros n v Hn; [done|].
    cbn [foldl]. apply IH. by apply set_uid_rule_realises.
  - intros n v c e Hn Hc%chainb_linked. apply (on_firewall_realises (FW.CallEnableChain c e) n v); [done| | |].
    + cbn. by destruct Hc as [[->| ->]| ->].
    + by destruct e.
    + intros g Hf Hv. cbn [FW.perform FW.filled_after]. rewrite (proj2 (FW.is_linked_spec c) Hc).
      pose proof (enable_status g _ _ c e Hf Hc) as Es. destruct (Hv c Hc) as (Ee & Eg & Eu & Hnd).
      unfold enable_chain. destruct e; cbn [negb andb]; (eapply chains_view_upd; [exact Hv|done|..]);
        try (rewrite Es, decide_True by done; done); try done;
        try (intros c' Hne _; by rewrite Es, decide_False).
      * intros c' Hne. unfold FW.upd. by rewrite decide_False.
      * intros _. unfold FW.upd. by rewrite decide_True.
      * rewrite Es, decide_True by done. constructor.
Defined.

(** ** What the filters do, in terms of the abstract state *)

Definition fresh_view : NetsysView := mkView ∅ ∅ false (fun _ => mkChainView false false ∅).

(** A system after boot: the managers are new, their chains do not exist. *)
Definition booted (w : IptablesWrapper T) : Prop :=
  ready w /\ BW.bw_fresh (rules (ipv4_filter w)) /\ forall six, FW.fw_fresh (rules (FW.family six w)).

Definition native_new (uid_map : option string) (w : IptablesWrapper T) : Native T :=
  mkNative BW.new_BandwidthManager (FW.new_FirewallManager uid_map) w.

Lemma booted_realises uid_map w : booted w -> realises (native_new uid_map w) fresh_view.
Proof.
  intros (Hr & Hb & Hf). split_and!; [by split|done|]. exists (fun _ => false). split.
  - split_and!; [done|done|]. split_and!; [by intros c [[->| ->]| ->]|done|apply (Hf false)|apply (Hf true)].
  - intros c Hc. destruct Hc as [[->| ->]| ->]; (split_and!; [done|done|done|constructor]).
Qed.

Context {P : Type} `{PacketsLaws P}.

(** Metered traffic of an application. *)
Definition metered_blocked (v : NetsysView) (uid : Z) : bool :=
  bool_decide (uid ∈ v_denied v) || (negb (bool_decide (uid ∈ v_allowed v)) && v_saver v).

Lemma metered_blocks n v (p : P) d uid bytes : realises n v -> owner p = Some uid -> 9999 < uid ->
  BW.ifaceQuotaBytes_ (bandwidthManager_ n) !! out_iface p = Some bytes -> matches p (OverQuota2 bytes (out_iface p)) = false ->
  walk (4 + d) (rules (ipv4_filter (iptables n))) p "ohbw_OUTPUT" = if metered_blocked v uid then Rejected else Passed.
Proof.
  intros (Hb & (Ed & Ea & Es) & _) Eu Happ Eq Eo. rewrite (BW.bw_inv_verdict _ _ _ _ uid Hb Eu).
  unfold BW.bw_verdict, BW.bw_blocks, metered_blocked. rewrite Eq, Eo, Ed, Ea, Es.
  rewrite (proj2 (Z.leb_gt uid 9999)) by lia. by rewrite !andb_false_r, andb_true_r.
Qed.

Definition view_drops (v : NetsysView) (uid c : Z) : bool :=
  cv_enabled (v_chain v c) &&
  if allow_chainb c then cv_filled (v_chain v c) && negb (bool_decide (uid ∈ cv_uids (v_chain v c)))
  else bool_decide (uid ∈ cv_uids (v_chain v c)).

Definition firewall_blocked (v : NetsysView) (uid : Z) : bool :=
  view_drops v uid CHAIN_OHFW_DOZABLE || view_drops v uid CHAIN_OHFW_POWERSAVING || view_drops v uid CHAIN_OHFW_UNDOZABLE.

Lemma firewall_blocks n v (p : P) d uid six : realises n v -> owner p = Some uid -> 9999 < uid ->
  FW.plain six (firewallManager_ n) p ->
  walk (3 + d) (rules (FW.family six (iptables n))) p "ohfw_OUTPUT" = if firewall_blocked v uid then Dropped else Passed.
Proof.
  intros (_ & _ & g & Hf & Hv) Eu Happ Hp. rewrite (FW.fw_inv_verdict g _ _ _ _ uid six Hf) by done.
  assert (E : forall c, FW.linked_chain c -> view_drops v uid c =
    FW.enable (FW.status_of (firewallManager_ n) c) && FW.chain_drops g (firewallManager_ n) uid c).
  { intros c Hc. destruct (Hv c Hc) as (Ee & Eg & Es & _). unfold view_drops, FW.chain_drops.
    change (allow_chainb c) with (FW.is_allow c). rewrite Ee, Es. f_equal.
    rewrite (bool_decide_ext _ _ (elem_of_list_to_set (C := gset Z) uid _)).
    destruct (FW.is_allow c); [by rewrite Eg|done]. }
  unfold firewall_blocked, FW.fw_blocks. cbn [existsb].
  rewrite !E by (first [by left; left|by left; right|by right]). by rewrite orb_false_r, orb_assoc.
Qed.

End Fields.

End NativeNetsys.
