(* ===== verification/PolicyFile.v ===== *)
(** * The stored policies
    (services/netpolicymanager/src/core/net_policy_file.cpp)

    The object the policy service keeps in its file: the policies of the users as
    text, the background policy, the quotas and the lists of the firewalls.
    Printing the object as JSON and parsing it is left to cJSON: the file holds
    the object itself. *)

From stdpp Require Import pretty.
From S2P Require Import Prelude NetData.
Import NetData.

Module PolicyFile.

(** ** Numbers as text *)

(** [std::to_string] of an unsigned number. *)
Definition to_string (z : Z) : string := pretty (Z.to_N z).

(** [std::from_chars] of an unsigned number that must use the whole text. *)
Fixpoint parse_digits (s : string) (acc : Z) : option Z :=
  match s with
  | String.EmptyString => Some acc
  | String.String c s =>
      let d := Z.of_nat (Ascii.nat_of_ascii c) - 48 in
      if (0 <=? d) && (d <=? 9) then parse_digits s (acc * 10 + d) else None
  end.

(** [CommonUtils::StrToUint]. *)
Definition StrToUint (value : string) (defaultErr : Z) : Z :=
  match value with
  | String.EmptyString => defaultErr
  | _ => match parse_digits value 0 with Some n => if n <? 2 ^ 32 then n else defaultErr | None => defaultErr end
  end.

Lemma parse_digit x s acc : (x < 10)%N -> parse_digits (String.String (pretty_N_char x) s) acc = parse_digits s (acc * 10 + Z.of_N x).
Proof.
  intros Hx.
  assert (x = 0 \/ x = 1 \/ x = 2 \/ x = 3 \/ x = 4 \/ x = 5 \/ x = 6 \/ x = 7 \/ x = 8 \/ x = 9)%N as Hc by lia.
  by repeat (destruct Hc as [->|Hc]); [..|subst].
Qed.

Lemma parse_go x : forall s, parse_digits (pretty_N_go x s) 0 = parse_digits s (Z.of_N x).
Proof.
  induction (N.lt_wf_0 x) as [x _ IH]; intros s. destruct (decide (x = 0)%N) as [->|Hx]; [by rewrite pretty_N_go_0|].
  rewrite pretty_N_go_step by lia. rewrite IH by (apply N.div_lt; lia).
  rewrite parse_digit by (apply N.mod_lt; lia). f_equal.
  pose proof (N.div_mod x 10). lia.
Qed.

Lemma StrToUint_to_string z d : in_width 32 z -> StrToUint (to_string z) d = z.
Proof.
  intros Hz. assert (E : parse_digits (to_string z) 0 = Some z).
  { unfold to_string, pretty, pretty_N. case_decide as E0; [|rewrite parse_go; cbn; f_equal; unfold in_width in Hz; lia].
    assert (z = 0) as -> by (unfold in_width in Hz; lia). reflexivity. }
  unfold StrToUint. rewrite E. destruct (to_string z) eqn:Es.
  - cbn in E. injection E as <-. vm_compute in Es. discriminate.
  - by rewrite (proj2 (Z.ltb_lt _ _)) by (unfold in_width in Hz; lia).
Qed.

Lemma to_string_inj y z : 0 <= y -> 0 <= z -> to_string y = to_string z -> y = z.
Proof. intros Hy Hz E. apply pretty_N_inj in E. lia. Qed.

(** ** The object *)

Definition NET_POLICY_NONE : Z := 0.
Definition NET_POLICY_ALLOW_METERED_BACKGROUND : Z := 1.
Definition NET_POLICY_REJECT_METERED_BACKGROUND : Z := 2.

Definition HOS_VERSION : string := "1.0".
Definition BACKGROUND_POLICY_ALLOW : string := "allow".
Definition BACKGROUND_POLICY_REJECT : string := "reject".

Record UidPolicy := mkUidPolicy { up_uid : string; up_policy : string }.

Record NetPolicyQuota := mkQuota {
  netType : string; simId : string; periodStartTime : string; periodDuration : string; warningBytes : string;
  limitBytes : string; lastLimitSnooze : string; metered : string; ident : string
}.

Record NetFirewallRuleList := mkRuleList { deniedList : gset Z; allowedList : gset Z }.

Record NetPolicy := mkNetPolicy {
  hosVersion : string;
  uidPolicies : list UidPolicy;
  backgroundPolicyStatus : string;
  netQuotaPolicies : list NetPolicyQuota;
  netFirewallRules : gmap Z NetFirewallRuleList
}.

(** [disk] is the object last handed to the writer. *)
Record NetPolicyFile := mkFile { netPolicy_ : NetPolicy; disk : option NetPolicy }.

Definition set_hosVersion x p := mkNetPolicy x (uidPolicies p) (backgroundPolicyStatus p) (netQuotaPolicies p) (netFirewallRules p).
Definition set_uidPolicies x p := mkNetPolicy (hosVersion p) x (backgroundPolicyStatus p) (netQuotaPolicies p) (netFirewallRules p).
Definition set_background x p := mkNetPolicy (hosVersion p) (uidPolicies p) x (netQuotaPolicies p) (netFirewallRules p).
Definition set_rules x p := mkNetPolicy (hosVersion p) (uidPolicies p) (backgroundPolicyStatus p) (netQuotaPolicies p) x.
Definition on_policy (f : NetPolicy -> NetPolicy) (n : NetPolicyFile) : NetPolicyFile := mkFile (f (netPolicy_ n)) (disk n).

(** [Obj2Json] gives an empty version and an empty background policy their
    defaults, in the object itself. *)
Definition Obj2Json (p : NetPolicy) : NetPolicy :=
  let p := if bool_decide (hosVersion p = "") then set_hosVersion HOS_VERSION p else p in
  if bool_decide (backgroundPolicyStatus p = "") then set_background BACKGROUND_POLICY_ALLOW p else p.

Definition WriteFile (n : NetPolicyFile) : NetPolicyFile :=
  let p := Obj2Json (netPolicy_ n) in mkFile p (Some p).

Definition ReadUidPolicies (n : NetPolicyFile) : list UidPolicy := uidPolicies (netPolicy_ n).

(** ** Policies of the users *)

(** [enum NetUidPolicyOpType]. *)
Inductive NetUidPolicyOpType := OP_DO_NOTHING | OP_ADD | OP_DELETE | OP_UPDATE.

(** [oldPolicy] is assigned the user found, not the policy. *)
Definition ArbitrationWritePolicyToFile (uid policy : Z) (n : NetPolicyFile) : NetUidPolicyOpType :=
  let '(haveUidAndPolicy, oldPolicy) :=
    foldl (fun '(have, old) e => let uidTemp := StrToUint (up_uid e) 0 in
             if uid =? uidTemp then (true, uidTemp) else (have, old))
      (false, NET_POLICY_NONE) (uidPolicies (netPolicy_ n)) in
  if haveUidAndPolicy : bool then
    if negb (oldPolicy =? policy) && (policy =? NET_POLICY_NONE) then OP_DELETE
    else if negb (oldPolicy =? policy) && negb (policy =? NET_POLICY_NONE) then OP_UPDATE
    else OP_DO_NOTHING
  else if policy =? NET_POLICY_NONE then OP_DO_NOTHING
  else OP_ADD.

Fixpoint update_first (uid policy : string) (l : list UidPolicy) : list UidPolicy :=
  match l with
  | [] => []
  | e :: l => if bool_decide (up_uid e = uid) then mkUidPolicy (up_uid e) policy :: l else e :: update_first uid policy l
  end.

Fixpoint erase_first (uid : string) (l : list UidPolicy) : list UidPolicy :=
  match l with
  | [] => []
  | e :: l => if bool_decide (up_uid e = uid) then l else e :: erase_first uid l
  end.

Definition WritePolicyByUid_op (op : NetUidPolicyOpType) (uid policy : Z) (n : NetPolicyFile) : NetPolicyFile :=
  WriteFile (on_policy (fun p =>
    match op with
    | OP_UPDATE => set_uidPolicies (update_first (to_string uid) (to_string policy) (uidPolicies p)) p
    | OP_DELETE => set_uidPolicies (erase_first (to_string uid) (uidPolicies p)) p
    | OP_ADD => set_uidPolicies (uidPolicies p ++ [mkUidPolicy (to_string uid) (to_string policy)]) p
    | OP_DO_NOTHING => p
    end) n).

Definition WritePolicyByUid (uid policy : Z) (n : NetPolicyFile) : NetPolicyFile :=
  WritePolicyByUid_op (ArbitrationWritePolicyToFile uid policy n) uid policy n.

Definition RemoveInexistentUid (uid : Z) (n : NetPolicyFile) : NetPolicyFile := WritePolicyByUid_op OP_DELETE uid 0 n.

(** ** The other parts *)

Definition WriteBackgroundPolicy (allow : bool) (n : NetPolicyFile) : NetPolicyFile :=
  WriteFile (on_policy (set_background (if allow then BACKGROUND_POLICY_ALLOW else BACKGROUND_POLICY_REJECT)) n).

Definition ReadBackgroundPolicy (n : NetPolicyFile) : bool :=
  bool_decide (backgroundPolicyStatus (netPolicy_ n) = BACKGROUND_POLICY_ALLOW).

(** The lists of a chain; [operator[]] creates them empty. *)
Definition chain_lists (chainType : Z) (n : NetPolicyFile) : NetFirewallRuleList :=
  default (mkRuleList ∅ ∅) (netFirewallRules (netPolicy_ n) !! chainType).

Definition ReadFirewallRules (chainType : Z) (allowed denied : gset Z) (n : NetPolicyFile) : gset Z * gset Z * NetPolicyFile :=
  let r := chain_lists chainType n in
  (allowed ∪ allowedList r, denied ∪ deniedList r,
   on_policy (fun p => set_rules (<[chainType := r]> (netFirewallRules p)) p) n).

Definition WriteFirewallRules (chainType : Z) (allowed denied : gset Z) (n : NetPolicyFile) : NetPolicyFile :=
  WriteFile (on_policy (fun p => set_rules (<[chainType := mkRuleList denied allowed]> (netFirewallRules p)) p) n).

Definition ResetPolicies (n : NetPolicyFile) : NetPolicyFile :=
  WriteFile (on_policy (fun p => mkNetPolicy (hosVersion p) [] BACKGROUND_POLICY_ALLOW [] ∅) n).

(** Reading replaces what [ResetPolicies] left: [stored] is the object read from
    the file or its backup, if there is one. *)
Definition InitPolicy (stored : option NetPolicy) (n : NetPolicyFile) : bool * NetPolicyFile :=
  let n := ResetPolicies n in
  match stored with
  | None => (false, n)
  | Some p => (true, mkFile p (disk n))
  end.

(** ** What the file says about a user *)

Definition entry (e : Z * Z) : UidPolicy := mkUidPolicy (to_string e.1) (to_string e.2).

Definition valid_policy (policy : Z) : bool :=
  (policy =? NET_POLICY_NONE) || (policy =? NET_POLICY_ALLOW_METERED_BACKGROUND) || (policy =? NET_POLICY_REJECT_METERED_BACKGROUND).

(** The entries are those of the map [m], which does not contain the policy [NONE]. *)
Definition file_maps (n : NetPolicyFile) (m : gmap Z Z) : Prop :=
  exists l, uidPolicies (netPolicy_ n) = map entry l /\ NoDup l.*1 /\ (forall u p, (u, p) ∈ l <-> m !! u = Some p) /\
    Forall (fun e => in_width 32 e.1 /\ valid_policy e.2 = true /\ e.2 <> 0) l.

Lemma WriteFile_uidPolicies n : uidPolicies (netPolicy_ (WriteFile n)) = uidPolicies (netPolicy_ n).
Proof. unfold WriteFile, Obj2Json. cbn. by repeat case_match. Qed.

Lemma arbitration_scan uid l acc : in_width 32 uid -> Forall (fun e => in_width 32 e.1) l ->
  foldl (fun '(have, old) e => let uidTemp := StrToUint (up_uid e) 0 in
           if uid =? uidTemp then (true, uidTemp) else (have, old)) acc (map entry l)
  = if bool_decide (uid ∈ l.*1) then (true, uid) else acc.
Proof.
  intros Hu F. revert acc. induction F as [|[u p] l Hl F IH]; intros [have old]; [done|].
  cbn [map foldl fmap list_fmap]. cbn [up_uid entry fst snd]. rewrite StrToUint_to_string by done.
  rewrite IH. cbn [fst] in *. destruct (Z.eqb_spec uid u) as [->|Hne].
  - rewrite (bool_decide_eq_true_2 (u ∈ u :: _)) by (by left). by case_bool_decide.
  - destruct (bool_decide (uid ∈ l.*1)) eqn:E.
    + apply bool_decide_eq_true_1 in E. by rewrite bool_decide_eq_true_2 by (by right).
    + apply bool_decide_eq_false_1 in E. rewrite bool_decide_eq_false_2; [done|]. by intros [?|?]%elem_of_cons.
Qed.

Lemma entry_uid_eq u e : 0 <= u -> in_width 32 e.1 -> bool_decide (up_uid (entry e) = to_string u) = bool_decide (e.1 = u).
Proof.
  intros Hu He. apply bool_decide_ext. cbn. split; [|by intros ->]. intros E. apply to_string_inj in E; [done| |done].
  unfold in_width in He. lia.
Qed.

Lemma erase_entries u l : 0 <= u -> Forall (fun e => in_width 32 e.1) l -> NoDup l.*1 ->
  erase_first (to_string u) (map entry l) = map entry (filter (fun e => e.1 <> u) l).
Proof.
  intros Hu F. induction F as [|e l He F IH]; [done|]. intros [Hx Hn]%NoDup_cons. cbn [map erase_first].
  rewrite entry_uid_eq by done. rewrite filter_cons. case_bool_decide as E.
  - rewrite decide_False by auto. f_equal. symmetry. clear -Hx E. induction l as [|y l IH]; [done|].
    apply not_elem_of_cons in Hx as [Hy Hx]. rewrite filter_cons_True by congruence. f_equal. by apply IH.
  - rewrite decide_True by done. cbn [map]. f_equal. by apply IH.
Qed.

Lemma update_entries u p l : 0 <= u -> Forall (fun e => in_width 32 e.1) l ->
  NoDup l.*1 -> update_first (to_string u) (to_string p) (map entry l) = map entry (map (fun e => if decide (e.1 = u) then (u, p) else e) l).
Proof.
  intros Hu F. induction F as [|e l He F IH]; [done|]. intros [Hx Hn]%NoDup_cons. cbn [map update_first].
  rewrite entry_uid_eq by done. case_bool_decide as E.
  - rewrite decide_True by done. subst u. f_equal. clear -Hx. induction l as [|y l IH]; [done|].
    apply not_elem_of_cons in Hx as [Hy Hx]. cbn [map]. rewrite decide_False by congruence. f_equal. by apply IH.
  - rewrite decide_False by done. f_equal. by apply IH.
Qed.

Lemma fst_map_update u p (l : list (Z * Z)) : (map (fun e => if decide (e.1 = u) then (u, p) else e) l).*1 = l.*1.
Proof. induction l as [|e l IH]; [done|]. cbn. rewrite IH. case_decide; by subst. Qed.

Lemma elem_fst (l : list (Z * Z)) u : u ∈ l.*1 <-> exists p, (u, p) ∈ l.
Proof.
  rewrite list_elem_of_fmap. split; [intros ([v p] & -> & Hin); by exists p|]. intros [p Hp]. by exists (u, p).
Qed.

(** What writing a policy stores: nothing changes for a user with an entry whose number is that of the policy. *)
Definition stored (uid policy : Z) (m : gmap Z Z) : gmap Z Z :=
  if (uid =? policy) && bool_decide (is_Some (m !! uid)) then m
  else if policy =? 0 then delete uid m else <[uid := policy]> m.

Lemma stored_other uid policy m u : u <> uid -> stored uid policy m !! u = m !! u.
Proof. intros Hne. unfold stored. repeat case_match; [done|by rewrite lookup_delete_ne|by rewrite lookup_insert_ne]. Qed.

Lemma stored_big uid policy m : valid_policy policy = true -> 2 < uid ->
  stored uid policy m = if policy =? 0 then delete uid m else <[uid := policy]> m.
Proof.
  intros Hp Hu. unfold stored. rewrite (proj2 (Z.eqb_neq uid policy)); [done|].
  unfold valid_policy, NET_POLICY_NONE, NET_POLICY_ALLOW_METERED_BACKGROUND, NET_POLICY_REJECT_METERED_BACKGROUND in Hp. lia.
Qed.

Lemma WritePolicyByUid_maps n m uid policy : file_maps n m -> in_width 32 uid -> valid_policy policy = true ->
  file_maps (WritePolicyByUid uid policy n) (stored uid policy m).
Proof.
  intros (l & El & Hn & Em & F) Hu Hp. unfold WritePolicyByUid, ArbitrationWritePolicyToFile, stored.
  assert (F1 : Forall (fun e => in_width 32 e.1) l) by (eapply Forall_impl; [exact F|]; by intros ? [? _]).
  assert (H0 : 0 <= uid) by (unfold in_width in Hu; lia).
  rewrite El, arbitration_scan by done. unfold file_maps.
  assert (Hs : bool_decide (is_Some (m !! uid)) = bool_decide (uid ∈ l.*1)).
  { apply bool_decide_ext. rewrite elem_fst. setoid_rewrite Em. done. }
  rewrite Hs. clear Hs. case_bool_decide as Hin; [destruct (uid =? policy) eqn:Hneq|rewrite andb_false_r]; cbn [negb andb];
    [exists l; unfold WritePolicyByUid_op; by rewrite WriteFile_uidPolicies|..]; change NET_POLICY_NONE with 0;
    destruct (Z.eqb_spec policy 0) as [->|Hnz]; cbn [WritePolicyByUid_op andb negb]; unfold WritePolicyByUid_op;
    rewrite WriteFile_uidPolicies; cbn [on_policy netPolicy_ uidPolicies set_uidPolicies]; rewrite El.
  - exists (filter (fun e => e.1 <> uid) l). split_and!.
    + by apply erase_entries.
    + eapply sublist_NoDup; [exact Hn|]. apply fmap_sublist, sublist_filter.
    + intros u p. rewrite list_elem_of_filter, lookup_delete_Some, Em. cbn. naive_solver.
    + apply Forall_forall. intros e [_ He]%list_elem_of_filter. by eapply Forall_forall in F.
  - exists (map (fun e => if decide (e.1 = uid) then (uid, policy) else e) l). split_and!.
    + by apply update_entries.
    + by rewrite fst_map_update.
    + intros u p. rewrite lookup_insert_Some, <- Em. split.
      * intros ([u' p'] & E & He)%list_elem_of_fmap. cbn in E. case_decide as Eu; simplify_eq; [by left|right].
        split; [|done]. congruence.
      * intros [[<- <-]|[Hne He]]; apply list_elem_of_fmap.
        -- apply elem_fst in Hin as [q Hq]. exists (uid, q). split; [|done]. cbn. by rewrite decide_True.
        -- exists (u, p). split; [|done]. cbn. by rewrite decide_False.
    + apply Forall_forall. intros e (e' & -> & He')%list_elem_of_fmap. case_decide; [done|]. by eapply Forall_forall in F.
  - exists l. split_and!; [done..| |done]. intros u p. rewrite Em, lookup_delete_Some. split; [|tauto].
    intros E. split; [|done]. intros ->. apply Hin, elem_fst. exists p. by apply Em.
  - exists (l ++ [(uid, policy)]). split_and!.
    + by rewrite map_app.
    + rewrite fmap_app. apply NoDup_app. split_and!; [done| |apply NoDup_singleton]. by intros u Hu' ->%list_elem_of_singleton.
    + intros u p. rewrite elem_of_app, list_elem_of_singleton, Em, lookup_insert_Some.
      split; [|naive_solver]. intros [E|[= -> ->]]; [|by left]. right. split; [|done]. intros ->.
      apply Hin, elem_fst. exists p. by apply Em.
    + apply Forall_app. split; [done|]. by constructor.
Qed.

(** Writing what is stored leaves the entries in place. *)
Lemma WritePolicyByUid_same n l uid policy : uidPolicies (netPolicy_ n) = map entry l -> NoDup l.*1 ->
  Forall (fun e => in_width 32 e.1 /\ valid_policy e.2 = true /\ e.2 <> 0) l -> (uid, policy) ∈ l ->
  uidPolicies (netPolicy_ (WritePolicyByUid uid policy n)) = map entry l.
Proof.
  intros El Hn F Hin. pose proof (proj1 (Forall_forall _ _) F _ Hin) as (Hu & Hp & Hnz). cbn [fst snd] in *.
  assert (F1 : Forall (fun e => in_width 32 e.1) l) by (eapply Forall_impl; [exact F|]; by intros ? [? _]).
  unfold WritePolicyByUid, ArbitrationWritePolicyToFile. rewrite El, arbitration_scan by done.
  rewrite bool_decide_eq_true_2 by (apply elem_fst; by exists policy).
  destruct (uid =? policy); [cbn [negb andb]; unfold WritePolicyByUid_op; by rewrite WriteFile_uidPolicies|]. change NET_POLICY_NONE with 0.
  rewrite (proj2 (Z.eqb_neq policy 0)) by done. cbn [negb andb]. unfold WritePolicyByUid_op. rewrite WriteFile_uidPolicies.
  cbn [on_policy netPolicy_ uidPolicies set_uidPolicies]. rewrite El, update_entries by (try done; unfold in_width in Hu; lia).
  f_equal. rewrite <- (map_id l) at 2. apply map_ext_in. intros [u p] He%list_elem_of_In. case_decide as E; [|done]. cbn in E. subst u.
  f_equal. assert (E : (uid, p) = (uid, policy)); [|congruence]. clear -Hn He Hin. induction l as [|[u q] l IH]; [by apply elem_of_nil in He|].
  apply NoDup_cons in Hn as [Hx Hn]. apply elem_of_cons in He as [He|He], Hin as [Hi|Hi]; simplify_eq; [done| | |by apply IH];
    destruct Hx; apply elem_fst; eauto.
Qed.

Lemma RemoveInexistentUid_maps n m uid : file_maps n m -> in_width 32 uid -> file_maps (RemoveInexistentUid uid n) (delete uid m).
Proof.
  intros (l & El & Hn & Em & F) Hu. exists (filter (fun e => e.1 <> uid) l).
  assert (F1 : Forall (fun e => in_width 32 e.1) l) by (eapply Forall_impl; [exact F|]; by intros ? [? _]). split_and!.
  - unfold RemoveInexistentUid, WritePolicyByUid_op. rewrite WriteFile_uidPolicies. cbn. rewrite El.
    apply erase_entries; [unfold in_width in Hu; lia|done|done].
  - eapply sublist_NoDup; [exact Hn|]. apply fmap_sublist, sublist_filter.
  - intros u p. rewrite list_elem_of_filter, lookup_delete_Some, Em. cbn. naive_solver.
  - apply Forall_forall. intros e [_ He]%list_elem_of_filter. by eapply Forall_forall in F.
Qed.

End PolicyFile.
