(* ===== verification/Parcel.v ===== *)
(** * Parcels and the calls between processes

    The service is called from other processes.  A proxy writes the arguments of
    a call into a [MessageParcel], the parcel is sent, a stub reads the arguments,
    calls the service and writes the answer into a second parcel.  Parcels and the
    transport are not part of the repository, so they are an interface here:

    - [IParcel P]: a parcel, with the operations the code uses; [ParcelLaws P]
      states what it relies on: a parcel is a queue of the items written into it,
      and a write into a parcel that has room succeeds;
    - [M P A]: a function of the code that reads or writes one parcel and gives up
      at the first failure; [emits] and [consumes] say which items it writes and
      reads, and compose along [mbind], so that a round trip follows from the two. *)

From S2P Require Import Prelude.

Module Parcel.

(** ** What a parcel holds

    An integer is stored by its width: [ReadInt32] and [ReadUint32] both read
    the four bytes that [WriteInt32] or [WriteUint32] has stored. *)
Inductive Item :=
| IBool (b : bool)
| IW8 (w : Z)
| IW16 (w : Z)
| IW32 (w : Z)
| IW64 (w : Z)
| IString (s : string)
| IUInt32Vector (l : list Z)
| IStringVector (l : list string)
| IRemoteObject (o : Z)
| IToken (s : string).

Inductive Kind := KBool | K8 | K16 | K32 | K64 | KString | KUInt32Vector | KStringVector | KRemoteObject | KToken.

Definition kind (i : Item) : Kind :=
  match i with
  | IBool _ => KBool | IW8 _ => K8 | IW16 _ => K16 | IW32 _ => K32 | IW64 _ => K64 | IString _ => KString
  | IUInt32Vector _ => KUInt32Vector | IStringVector _ => KStringVector | IRemoteObject _ => KRemoteObject | IToken _ => KToken
  end.

Class IParcel (P : Type) := {
  new_parcel : P;
  (** the parcel after a failed write or read is unspecified *)
  write : Item -> P -> bool * P;
  read : Kind -> P -> option Item * P;
}.

(** What the code relies on.  [written] is everything ever written, [unread] the
    part of it that has not been read; [fits] holds of the contents the capacity
    of a parcel admits. *)
Class ParcelLaws (P : Type) `{IParcel P} := {
  written : P -> list Item;
  unread : P -> list Item;
  fits : list Item -> Prop;
  fits_prefix l l' : fits (l ++ l') -> fits l;
  written_new : written new_parcel = [];
  unread_new : unread new_parcel = [];
  write_written i p : (write i p).1 = true -> written (write i p).2 = written p ++ [i];
  write_unread i p : (write i p).1 = true -> unread (write i p).2 = unread p ++ [i];
  write_fits i p : fits (written p ++ [i]) -> (write i p).1 = true;
  read_first i l p : unread p = i :: l -> (read (kind i) p).1 = Some i /\ unread (read (kind i) p).2 = l;
}.

(** ** Functions on one parcel *)

Definition M (P A : Type) : Type := P -> option A * P.

#[global] Instance M_ret P : MRet (M P) := fun A a p => (Some a, p).
#[global] Instance M_bind P : MBind (M P) := fun A B k m p =>
  match m p with (Some a, p) => k a p | (None, p) => (None, p) end.

(** [return false], [return nullptr]. *)
Definition fail {P A} : M P A := fun p => (None, p).

Section Api.
Context {P : Type} `{IParcel P}.

Definition wr (i : Item) : M P unit := fun p => let '(b, p) := write i p in (if b then Some tt else None, p).
Definition rd {A} (k : Kind) (f : Item -> option A) : M P A := fun p => let '(o, p) := read k p in (o ≫= f, p).

Definition WriteBool (b : bool) : M P unit := wr (IBool b).
Definition WriteInt8 (z : Z) : M P unit := wr (IW8 (u8 z)).
Definition WriteUint8 (z : Z) : M P unit := wr (IW8 (u8 z)).
Definition WriteUint16 (z : Z) : M P unit := wr (IW16 (u16 z)).
Definition WriteInt32 (z : Z) : M P unit := wr (IW32 (u32 z)).
Definition WriteUint32 (z : Z) : M P unit := wr (IW32 (u32 z)).
Definition WriteInt64 (z : Z) : M P unit := wr (IW64 (u64 z)).
Definition WriteString (s : string) : M P unit := wr (IString s).
Definition WriteUInt32Vector (l : list Z) : M P unit := wr (IUInt32Vector l).
Definition WriteStringVector (l : list string) : M P unit := wr (IStringVector l).
Definition WriteRemoteObject (o : Z) : M P unit := wr (IRemoteObject o).
Definition WriteToken (s : string) : M P unit := wr (IToken s).

Definition ReadBool : M P bool := rd KBool (fun i => match i with IBool b => Some b | _ => None end).
Definition w8 (i : Item) := match i with IW8 w => Some w | _ => None end.
Definition w16 (i : Item) := match i with IW16 w => Some w | _ => None end.
Definition w32 (i : Item) := match i with IW32 w => Some w | _ => None end.
Definition w64 (i : Item) := match i with IW64 w => Some w | _ => None end.
Definition ReadInt8 : M P Z := w ← rd K8 w8; mret (swrap 8 w).
Definition ReadUint8 : M P Z := rd K8 w8.
Definition ReadUint16 : M P Z := rd K16 w16.
Definition ReadInt32 : M P Z := w ← rd K32 w32; mret (s32 w).
Definition ReadUint32 : M P Z := rd K32 w32.
Definition ReadInt64 : M P Z := w ← rd K64 w64; mret (s64 w).
Definition ReadString : M P string := rd KString (fun i => match i with IString s => Some s | _ => None end).
Definition ReadUInt32Vector : M P (list Z) :=
  rd KUInt32Vector (fun i => match i with IUInt32Vector l => Some l | _ => None end).
Definition ReadStringVector : M P (list string) :=
  rd KStringVector (fun i => match i with IStringVector l => Some l | _ => None end).
Definition ReadRemoteObject : M P Z := rd KRemoteObject (fun i => match i with IRemoteObject o => Some o | _ => None end).
Definition ReadToken : M P string := rd KToken (fun i => match i with IToken s => Some s | _ => None end).

(** [for (const auto &x : l) { if (!f(x)) return false; }] *)
Fixpoint each {A} (f : A -> M P unit) (l : list A) : M P unit :=
  match l with [] => mret tt | x :: l => f x;; each f l end.

(** [for (i = 0; i < n; i++) { if (!read(x)) return false; v.push_back(x); }] *)
Fixpoint times {A} (n : nat) (m : M P A) : M P (list A) :=
  match n with O => mret [] | S n => x ← m; l ← times n m; mret (x :: l) end.

End Api.

(** A signed integer of [w] bits. *)
Definition in_signed (w z : Z) : Prop := - 2 ^ (w - 1) <= z < 2 ^ (w - 1).

Lemma swrap_wrap w z : 0 <= w -> swrap w (wrap w z) = swrap w z.
Proof. intros Hw. unfold swrap, wrap. by rewrite Zmod_mod. Qed.

(** ** The items a function writes and reads *)

Section Wire.
Context {P : Type} `{ParcelLaws P}.

Definition emits (m : M P unit) (l : list Item) : Prop :=
  forall p, ((m p).1 = Some tt -> unread (m p).2 = unread p ++ l /\ written (m p).2 = written p ++ l)
            /\ (fits (written p ++ l) -> (m p).1 = Some tt).

Definition consumes {A} (m : M P A) (l : list Item) (a : A) : Prop :=
  forall p rest, unread p = l ++ rest -> (m p).1 = Some a /\ unread (m p).2 = rest.

Lemma emits_ret : emits (mret tt) [].
Proof. intros p. by rewrite !app_nil_r. Qed.

Lemma emits_bind m k l1 l2 : emits m l1 -> emits k l2 -> emits (m;; k) (l1 ++ l2).
Proof.
  intros Hm Hk p. unfold mbind, M_bind. destruct (Hm p) as [Hm1 Hm2]. destruct (m p) as [[[]|] p1] eqn:E; cbn in *.
  - destruct (Hm1 eq_refl) as [Hu Hw]. pose proof (Hk p1) as Hp. rewrite Hu, Hw, <- !app_assoc in Hp. exact Hp.
  - split; [done|]. rewrite app_assoc. intros Hf. apply fits_prefix in Hf. discriminate (Hm2 Hf).
Qed.

Lemma emits_wr i : emits (wr i) [i].
Proof.
  intros p. unfold wr. pose proof (write_written i p) as Hw. pose proof (write_unread i p) as Hu. pose proof (write_fits i p) as Hf.
  destruct (write i p) as [[] p']; cbn in *; split; intros; [by rewrite Hu, Hw|done|done|]. by specialize (Hf ltac:(done)).
Qed.

Lemma emits_each {A} (f : A -> M P unit) (g : A -> list Item) l :
  (forall a, a ∈ l -> emits (f a) (g a)) -> emits (each f l) (flat_map g l).
Proof.
  induction l as [|a l IH]; intros Hf; cbn; [apply emits_ret|]. apply emits_bind; [apply Hf; left|].
  apply IH. intros b Hb. apply Hf. by right.
Qed.

Lemma consumes_ret {A} (a : A) : consumes (mret a) [] a.
Proof. by intros p rest Hu. Qed.

Lemma consumes_bind {A B} (m : M P A) (k : A -> M P B) l1 l2 a b :
  consumes m l1 a -> consumes (k a) l2 b -> consumes (m ≫= k) (l1 ++ l2) b.
Proof.
  intros Hm Hk p rest. rewrite <- app_assoc. intros Hu. destruct (Hm p _ Hu) as [H1 H2]. unfold mbind, M_bind.
  destruct (m p) as [[x|] p1]; cbn in *; [|done]. injection H1 as ->. by apply Hk.
Qed.

Lemma consumes_rd {A} (f : Item -> option A) i a : f i = Some a -> consumes (rd (kind i) f) [i] a.
Proof.
  intros Hf p rest Hu. destruct (read_first i rest p Hu) as [H1 H2]. unfold rd.
  destruct (read (kind i) p) as [o p']; cbn in *. subst o. by rewrite <- Hf.
Qed.

Lemma consumes_times {A} (m : M P A) (g : A -> list Item) l :
  (forall a, a ∈ l -> consumes m (g a) a) -> consumes (times (length l) m) (flat_map g l) l.
Proof.
  induction l as [|a l IH]; intros Hm; cbn; [apply consumes_ret|]. apply consumes_bind with a; [apply Hm; left|].
  rewrite <- (app_nil_r (flat_map g l)). apply consumes_bind with l; [|apply consumes_ret]. apply IH. intros b Hb. apply Hm. by right.
Qed.

(** What is written by [m] into a parcel that holds nothing unread is what [u]
    reads back. *)
Lemma wire_roundtrip {A} (m : M P unit) (u : M P A) l a p :
  emits m l -> consumes u l a -> unread p = [] -> (m p).1 = Some tt ->
  (u (m p).2).1 = Some a /\ unread (u (m p).2).2 = [].
Proof.
  intros Hm Hu Hp Hok. destruct (Hm p) as [H1 _]. destruct (H1 Hok) as [Hq _].
  apply Hu. by rewrite Hq, Hp, app_nil_r.
Qed.

Lemma emits_cons i k l : emits k l -> emits (wr i;; k) (i :: l).
Proof. apply (emits_bind _ _ [i]), emits_wr. Qed.

Lemma consumes_cons {A B} (m : M P A) (k : A -> M P B) i l a b :
  consumes m [i] a -> consumes (k a) l b -> consumes (m ≫= k) (i :: l) b.
Proof. apply (consumes_bind _ _ [i]). Qed.

(** A last function of a sequence, whose result is returned as it is. *)
Lemma consumes_last {A B} (m : M P A) (f : A -> B) l a : consumes m l a -> consumes (x ← m; mret (f x)) l (f a).
Proof. intros Hm. rewrite <- (app_nil_r l). by apply consumes_bind with a; [|apply consumes_ret]. Qed.

Lemma consumes_bool b : consumes ReadBool [IBool b] b.
Proof. by apply (consumes_rd _ (IBool b)). Qed.
Lemma consumes_string s : consumes ReadString [IString s] s.
Proof. by apply (consumes_rd _ (IString s)). Qed.
Lemma consumes_uids l : consumes ReadUInt32Vector [IUInt32Vector l] l.
Proof. by apply (consumes_rd _ (IUInt32Vector l)). Qed.
Lemma consumes_strings l : consumes ReadStringVector [IStringVector l] l.
Proof. by apply (consumes_rd _ (IStringVector l)). Qed.
Lemma consumes_remote o : consumes ReadRemoteObject [IRemoteObject o] o.
Proof. by apply (consumes_rd _ (IRemoteObject o)). Qed.
Lemma consumes_token s : consumes ReadToken [IToken s] s.
Proof. by apply (consumes_rd _ (IToken s)). Qed.

Lemma consumes_u8 z : in_width 8 z -> consumes ReadUint8 [IW8 (u8 z)] z.
Proof. intros Hz. rewrite wrap_small by done. by apply (consumes_rd _ (IW8 z)). Qed.
Lemma consumes_u16 z : in_width 16 z -> consumes ReadUint16 [IW16 (u16 z)] z.
Proof. intros Hz. rewrite wrap_small by done. by apply (consumes_rd _ (IW16 z)). Qed.
Lemma consumes_u32 z : in_width 32 z -> consumes ReadUint32 [IW32 (u32 z)] z.
Proof. intros Hz. rewrite wrap_small by done. by apply (consumes_rd _ (IW32 z)). Qed.

(** Reading a word at the other signedness converts it, as a cast does. *)
Lemma consumes_word32 z : consumes ReadUint32 [IW32 (u32 z)] (u32 z).
Proof. by apply (consumes_rd _ (IW32 (u32 z))). Qed.

Lemma consumes_signed (w : Z) (rdw : M P Z) i z : 0 < w -> in_signed w z -> consumes rdw [i] (wrap w z) ->
  consumes (x ← rdw; mret (swrap w x)) [i] z.
Proof.
  intros Hw Hz Hr. replace z with (swrap w (wrap w z)) at 1 by (by rewrite swrap_wrap, swrap_small by first [lia|done]).
  by apply consumes_last.
Qed.

(** Reading an unsigned word as a signed one. *)
Lemma consumes_cast32 z : consumes ReadInt32 [IW32 (u32 z)] (s32 z).
Proof. rewrite <- swrap_wrap by lia. apply (consumes_last (rd K32 w32) s32). by apply (consumes_rd _ (IW32 (u32 z))). Qed.

Lemma consumes_i8 z : in_signed 8 z -> consumes ReadInt8 [IW8 (u8 z)] z.
Proof. intros Hz. apply consumes_signed; [lia|done|]. by apply (consumes_rd _ (IW8 (u8 z))). Qed.
Lemma consumes_i32 z : in_signed 32 z -> consumes ReadInt32 [IW32 (u32 z)] z.
Proof. intros Hz. apply consumes_signed; [lia|done|]. by apply (consumes_rd _ (IW32 (u32 z))). Qed.
Lemma consumes_i64 z : in_signed 64 z -> consumes ReadInt64 [IW64 (u64 z)] z.
Proof. intros Hz. apply consumes_signed; [lia|done|]. by apply (consumes_rd _ (IW64 (u64 z))). Qed.

End Wire.

Create HintDb wire discriminated.
#[export] Hint Resolve consumes_bool consumes_string consumes_uids consumes_strings consumes_remote consumes_token
  consumes_u8 consumes_u16 consumes_u32 consumes_i8 consumes_i32 consumes_i64 emits_ret emits_wr consumes_ret : wire.

(** [wire] runs a function that writes or reads item by item. *)
Ltac wire_step :=
  first [ assumption | apply emits_cons | apply emits_ret | apply emits_wr | apply consumes_ret
        | eapply consumes_cons; [solve [eauto 4 with wire]|]
        | eapply emits_bind; [solve [eauto 4 with wire]|]
        | eapply consumes_bind; [solve [eauto 4 with wire]|] ].
Ltac wire := repeat (wire_step; cbn beta).

(** ** A parcel: two queues and a capacity *)

Definition QUEUE_CAPACITY : Z := 4096.

Record Queue := mkQueue { q_written : list Item; q_unread : list Item }.

#[global] Instance Kind_eq_dec : EqDecision Kind.
Proof. solve_decision. Defined.

#[global] Instance queue_parcel : IParcel Queue := {
  new_parcel := mkQueue [] [];
  write i q := if Z.of_nat (length (q_written q)) <? QUEUE_CAPACITY
               then (true, mkQueue (q_written q ++ [i]) (q_unread q ++ [i])) else (false, q);
  read k q := match q_unread q with
              | i :: l => if decide (kind i = k) then (Some i, mkQueue (q_written q) l) else (None, q)
              | [] => (None, q)
              end;
}.

#[global] Instance queue_laws : ParcelLaws Queue.
Proof.
  refine {| written := q_written; unread := q_unread; fits l := Z.of_nat (length l) <= QUEUE_CAPACITY |}.
  - intros l l'. rewrite length_app. lia.
  - done.
  - done.
  - intros i p. cbn. by case_match.
  - intros i p. cbn. by case_match.
  - intros i p. rewrite length_app. cbn. intros Hf. by rewrite (proj2 (Z.ltb_lt _ _)) by lia.
  - intros i l p. cbn. intros ->. by rewrite decide_True.
Defined.

End Parcel.
