(* ===== verification/ConnParcel.v ===== *)
(** * The data of a connection in a parcel
    (frameworks/native/netconnclient/src: inet_addr.cpp, route.cpp, http_proxy.cpp,
    net_link_info.cpp, net_all_capabilities.cpp, net_specifier.cpp,
    net_supplier_info.cpp; netmanagernative/uid_range.cpp)

    A supplier describes its link, and a client its request, in another process;
    the descriptions travel in parcels.  [Marshalling] and [Unmarshalling] of each
    class are modelled over the parcels of [Parcel], and [*_items] is the format
    on the wire, which one writes and the other reads.

    A description is not always received as it was sent: the lists of a link are
    cut at 16 addresses, 16 name servers and 1024 routes, and the exclusions of
    its proxy at 3000, each at most 2048 characters long.  [clip] says exactly what
    arrives ([NetLinkInfo_roundtrip]); a description within the limits arrives
    unchanged ([clip_within]).  The last section is the text form of a proxy,
    which is what the settings store. *)

From S2P Require Import Prelude NetCaps NetData Parcel PolicyFile.
Import NetCaps NetData Parcel.

Module ConnParcel.

Definition MAX_ADDR_SIZE : Z := 16.
Definition MAX_ROUTE_SIZE : Z := 1024.
Definition MAX_EXCLUSION_SIZE : Z := 3000.
Definition MAX_URL_SIZE : Z := 2048.
Definition MAX_NET_CAP_NUM : Z := 32.

Definition size (s : string) : Z := Z.of_nat (String.length s).
Definition list_size {A} (l : list A) : Z := Z.of_nat (length l).

Definition at_most (limit n : Z) : Z := if limit <? n then limit else n.

Record UidRange := mkUidRange { begin_ : Z; end_ : Z; priorityId_ : Z; netId_ : Z }.

Definition INVLID_VALUE : Z := -1.
Definition UidRange_Size (r : UidRange) : Z :=
  if (begin_ r =? INVLID_VALUE) || (end_ r =? INVLID_VALUE) || (end_ r <? begin_ r) then 0
  else u32 (end_ r - begin_ r + 1).

(** [NetAllCapabilities::CapsIsValid], [CapsIsNull], [NetSpecifier::SpecifierIsValid]. *)
Definition CapsIsValid (c : NetAllCapabilities) : bool :=
  forallb (fun cap => negb ((cap <? NET_CAPABILITY_MMS) || (NET_CAPABILITY_END <=? cap))) (elements (all_netCaps_ c)) &&
  forallb (fun b => negb ((NetBearType_num b <? NetBearType_num BEARER_CELLULAR) || (NetBearType_num BEARER_DEFAULT <=? NetBearType_num b)))
    (elements (bearerTypes_ c)).

Definition CapsIsNull (c : NetAllCapabilities) : bool :=
  (linkUpBandwidthKbps_ c =? 0) && (linkDownBandwidthKbps_ c =? 0) && bool_decide (all_netCaps_ c = ∅) && bool_decide (bearerTypes_ c = ∅).

Definition SpecifierIsValid (s : NetSpecifier) : bool :=
  if bool_decide (spec_ident_ s = "") && CapsIsNull (netCapabilities_ s) then false else CapsIsValid (netCapabilities_ s).

(** [HttpProxy::HttpProxy(host, port, exclusionList)]: the loop over the list
    stops when the proxy has enough exclusions. *)
Fixpoint push_exclusions (acc l : list string) : list string :=
  match l with
  | [] => acc
  | s :: l =>
      let acc := if size s <=? MAX_URL_SIZE then acc ++ [s] else acc in
      if MAX_EXCLUSION_SIZE <=? list_size acc then acc else push_exclusions acc l
  end.

Definition new_HttpProxy (host : string) (port : Z) (exclusionList : list string) : HttpProxy :=
  if size host <=? MAX_URL_SIZE then mkHttpProxy host port "" "" (push_exclusions [] exclusionList) (-1)
  else mkHttpProxy "" 0 "" "" [] (-1).

Section Codec.
Context {P : Type} `{IParcel P}.

(** The length of a list, cut at a limit, and its elements. *)
Definition read_list {A} (limit : Z) (m : M P A) : M P (list A) :=
  n ← ReadUint32;
  times (Z.to_nat (at_most limit n)) m.

(** ** [INetAddr] and [Route] *)

Definition INetAddr_Marshalling (a : INetAddr) : M P unit :=
  WriteUint8 (type_ a);;
  WriteUint8 (family_ a);;
  WriteUint8 (prefixlen_ a);;
  WriteString (address_ a);;
  WriteString (netMask_ a);;
  WriteString (hostName_ a);;
  WriteUint8 (port_ a).

Definition INetAddr_Unmarshalling : M P INetAddr :=
  type ← ReadUint8;
  family ← ReadUint8;
  prefixlen ← ReadUint8;
  address ← ReadString;
  netMask ← ReadString;
  hostName ← ReadString;
  port ← ReadUint8;
  mret (mkINetAddr type family prefixlen address netMask hostName port).

Definition Route_Marshalling (r : Route) : M P unit :=
  WriteString (iface_ r);;
  INetAddr_Marshalling (destination_ r);;
  INetAddr_Marshalling (gateway_ r);;
  WriteInt32 (rtnType_ r);;
  WriteInt32 (rt_mtu_ r);;
  WriteBool (isHost_ r);;
  WriteBool (hasGateway_ r);;
  WriteBool (isDefaultRoute_ r);;
  WriteBool (isExcludedRoute_ r).

Definition Route_Unmarshalling : M P Route :=
  iface ← ReadString;
  destination ← INetAddr_Unmarshalling;
  gateway ← INetAddr_Unmarshalling;
  rtnType ← ReadInt32;
  mtu ← ReadInt32;
  isHost ← ReadBool;
  hasGateway ← ReadBool;
  isDefaultRoute ← ReadBool;
  isExcludedRoute ← ReadBool;
  mret (mkRoute iface destination gateway rtnType mtu isHost hasGateway isDefaultRoute isExcludedRoute).

(** ** [HttpProxy] *)

(** The loop over the exclusions counts what it has written. *)
Fixpoint write_exclusions (count : Z) (l : list string) : M P unit :=
  match l with
  | [] => mret tt
  | s :: l =>
      WriteString s;;
      let count := count + 1 in
      if MAX_EXCLUSION_SIZE <=? count then mret tt else write_exclusions count l
  end.

Definition HttpProxy_Marshalling (h : HttpProxy) : M P unit :=
  WriteString (host_ h);;
  WriteUint16 (proxy_port_ h);;
  WriteInt32 (userId_ h);;
  WriteUint32 (Z.min MAX_EXCLUSION_SIZE (list_size (exclusionList_ h)));;
  write_exclusions 0 (exclusionList_ h);;
  WriteString (username_ h);;
  WriteString (password_ h).

Definition HttpProxy_Unmarshalling : M P HttpProxy :=
  host ← ReadString;
  if MAX_URL_SIZE <? size host then fail else
  port ← ReadUint16;
  userId ← ReadInt32;
  exclusions ← read_list MAX_EXCLUSION_SIZE ReadString;
  let exclusionList := base.filter (fun s => size s <=? MAX_URL_SIZE) exclusions in
  let h := new_HttpProxy host port exclusionList in
  username ← ReadString;
  password ← ReadString;
  mret (mkHttpProxy (host_ h) (proxy_port_ h) username password (exclusionList_ h) userId).

(** ** [NetLinkInfo] *)

Definition AddrMarshalling (addrList : list INetAddr) : M P unit :=
  let n := at_most MAX_ADDR_SIZE (u32 (list_size addrList)) in
  WriteUint32 n;;
  each INetAddr_Marshalling (take (Z.to_nat n) addrList).

Definition RouteMarshalling (routeList : list Route) : M P unit :=
  let n := at_most MAX_ROUTE_SIZE (u32 (list_size routeList)) in
  WriteUint32 n;;
  each Route_Marshalling (take (Z.to_nat n) routeList).

Definition NetLinkInfo_Marshalling (l : NetLinkInfo) : M P unit :=
  WriteString (ifaceName_ l);;
  WriteString (domain_ l);;
  AddrMarshalling (netAddrList_ l);;
  AddrMarshalling (dnsList_ l);;
  RouteMarshalling (routeList_ l);;
  WriteUint16 (mtu_ l);;
  WriteString (tcpBufferSizes_ l);;
  WriteString (ident_ l);;
  WriteBool (isUserDefinedDnsServer_ l);;
  WriteBool (isIpv4LinkValid_ l);;
  WriteBool (isIpv6LinkValid_ l);;
  HttpProxy_Marshalling (httpProxy_ l).

(** The static [Marshalling] of a pointer writes the same fields. *)
Definition NetLinkInfo_Marshalling_ptr (object : option NetLinkInfo) : M P unit :=
  match object with None => fail | Some l => NetLinkInfo_Marshalling l end.

(** [ReadInfoFromParcel] fills the fields after the lists. *)
Definition ReadInfoFromParcel (ifaceName domain : string) (addrs dns : list INetAddr) (routes : list Route) : M P NetLinkInfo :=
  mtu ← ReadUint16;
  tcpBufferSizes ← ReadString;
  ident ← ReadString;
  isUserDefinedDnsServer ← ReadBool;
  isIpv4LinkValid ← ReadBool;
  isIpv6LinkValid ← ReadBool;
  httpProxy ← HttpProxy_Unmarshalling;
  mret (mkNetLinkInfo ifaceName domain addrs dns routes mtu tcpBufferSizes ident httpProxy
          isIpv4LinkValid isIpv6LinkValid isUserDefinedDnsServer).

Definition NetLinkInfo_Unmarshalling : M P NetLinkInfo :=
  ifaceName ← ReadString;
  domain ← ReadString;
  addrs ← read_list MAX_ADDR_SIZE INetAddr_Unmarshalling;
  dns ← read_list MAX_ADDR_SIZE INetAddr_Unmarshalling;
  routes ← read_list MAX_ROUTE_SIZE Route_Unmarshalling;
  ReadInfoFromParcel ifaceName domain addrs dns routes.

(** ** [NetAllCapabilities] and [NetSpecifier]

    A [std::set] is walked in increasing order. *)
Definition NetAllCapabilities_Marshalling (c : NetAllCapabilities) : M P unit :=
  WriteUint32 (linkUpBandwidthKbps_ c);;
  WriteUint32 (linkDownBandwidthKbps_ c);;
  let caps := sort_by id (elements (all_netCaps_ c)) in
  WriteUint32 (at_most MAX_NET_CAP_NUM (u32 (list_size caps)));;
  each WriteUint32 (take (Z.to_nat MAX_NET_CAP_NUM) caps);;
  let types := sort_by NetBearType_num (elements (bearerTypes_ c)) in
  WriteUint32 (at_most MAX_NET_CAP_NUM (u32 (list_size types)));;
  each (fun b => WriteUint32 (NetBearType_num b)) (take (Z.to_nat MAX_NET_CAP_NUM) types).

Definition keep_caps (l : list Z) : gset Z :=
  foldl (fun s cap => if NET_CAPABILITY_END <=? cap then s else {[cap]} ∪ s) ∅ l.
Definition keep_types (l : list Z) : gset NetBearType :=
  foldl (fun s type => if NetBearType_num BEARER_DEFAULT <=? type then s
                       else match NetBearType_of type with Some b => {[b]} ∪ s | None => s end) ∅ l.

Definition NetAllCapabilities_Unmarshalling : M P NetAllCapabilities :=
  linkUp ← ReadUint32;
  linkDown ← ReadUint32;
  caps ← read_list MAX_NET_CAP_NUM ReadUint32;
  types ← read_list MAX_NET_CAP_NUM ReadUint32;
  mret (mkNetAllCapabilities linkUp linkDown (keep_caps caps) (keep_types types)).

Definition NetSpecifier_Marshalling (s : NetSpecifier) : M P unit :=
  WriteString (spec_ident_ s);;
  NetAllCapabilities_Marshalling (netCapabilities_ s).

Definition NetSpecifier_Unmarshalling : M P NetSpecifier :=
  ident ← ReadString;
  capabilities ← NetAllCapabilities_Unmarshalling;
  mret (mkNetSpecifier ident capabilities).

(** ** [NetSupplierInfo] and [UidRange] *)

Definition NetSupplierInfo_Marshalling (i : NetSupplierInfo) : M P unit :=
  WriteBool (isAvailable_ i);;
  WriteBool (isRoaming_ i);;
  WriteInt8 (strength_ i);;
  WriteUint32 (frequency_ i);;
  WriteUint32 (info_linkUp_ i);;
  WriteUint32 (info_linkDown_ i);;
  WriteInt32 (info_uid_ i);;
  WriteString (info_ident_ i);;
  WriteInt32 (score_ i).

Definition NetSupplierInfo_Unmarshalling : M P NetSupplierInfo :=
  isAvailable ← ReadBool;
  isRoaming ← ReadBool;
  strength ← ReadInt8;
  frequency ← ReadUint32;
  linkUp ← ReadUint32;
  linkDown ← ReadUint32;
  uid ← ReadInt32;
  ident ← ReadString;
  score ← ReadInt32;
  mret (mkNetSupplierInfo isAvailable isRoaming strength frequency linkUp linkDown uid ident score).

Definition UidRange_Marshalling (r : UidRange) : M P unit :=
  WriteInt32 (begin_ r);;
  WriteInt32 (end_ r);;
  WriteUint32 (priorityId_ r);;
  WriteUint32 (netId_ r).

Definition UidRange_Unmarshalling : M P UidRange :=
  b ← ReadInt32;
  e ← ReadInt32;
  priorityId ← ReadUint32;
  netId ← ReadUint32;
  mret (mkUidRange b e priorityId netId).

End Codec.

(** ** The format on the wire *)

Definition INetAddr_items (a : INetAddr) : list Item :=
  [IW8 (u8 (type_ a)); IW8 (u8 (family_ a)); IW8 (u8 (prefixlen_ a)); IString (address_ a); IString (netMask_ a);
   IString (hostName_ a); IW8 (u8 (port_ a))].

Definition Route_items (r : Route) : list Item :=
  IString (iface_ r) :: INetAddr_items (destination_ r) ++ INetAddr_items (gateway_ r) ++
  [IW32 (u32 (rtnType_ r)); IW32 (u32 (rt_mtu_ r)); IBool (isHost_ r); IBool (hasGateway_ r); IBool (isDefaultRoute_ r);
   IBool (isExcludedRoute_ r)].

Definition list_items {A} (f : A -> list Item) (l : list A) : list Item := IW32 (u32 (list_size l)) :: flat_map f l.

Definition HttpProxy_items (h : HttpProxy) : list Item :=
  let sent := take (Z.to_nat MAX_EXCLUSION_SIZE) (exclusionList_ h) in
  [IString (host_ h); IW16 (u16 (proxy_port_ h)); IW32 (u32 (userId_ h))] ++
  list_items (fun s => [IString s]) sent ++ [IString (username_ h); IString (password_ h)].

Definition clip_list {A} (limit : Z) (l : list A) : list A := take (Z.to_nat limit) l.

Definition NetLinkInfo_items (l : NetLinkInfo) : list Item :=
  [IString (ifaceName_ l); IString (domain_ l)] ++
  list_items INetAddr_items (clip_list MAX_ADDR_SIZE (netAddrList_ l)) ++
  list_items INetAddr_items (clip_list MAX_ADDR_SIZE (dnsList_ l)) ++
  list_items Route_items (clip_list MAX_ROUTE_SIZE (routeList_ l)) ++
  [IW16 (u16 (mtu_ l)); IString (tcpBufferSizes_ l); IString (ident_ l); IBool (isUserDefinedDnsServer_ l);
   IBool (isIpv4LinkValid_ l); IBool (isIpv6LinkValid_ l)] ++
  HttpProxy_items (httpProxy_ l).

Definition NetAllCapabilities_items (c : NetAllCapabilities) : list Item :=
  [IW32 (u32 (linkUpBandwidthKbps_ c)); IW32 (u32 (linkDownBandwidthKbps_ c))] ++
  list_items (fun z => [IW32 (u32 z)]) (clip_list MAX_NET_CAP_NUM (sort_by id (elements (all_netCaps_ c)))) ++
  list_items (fun b => [IW32 (u32 (NetBearType_num b))])
    (clip_list MAX_NET_CAP_NUM (sort_by NetBearType_num (elements (bearerTypes_ c)))).

Definition NetSpecifier_items (s : NetSpecifier) : list Item :=
  IString (spec_ident_ s) :: NetAllCapabilities_items (netCapabilities_ s).

Definition NetSupplierInfo_items (i : NetSupplierInfo) : list Item :=
  [IBool (isAvailable_ i); IBool (isRoaming_ i); IW8 (u8 (strength_ i)); IW32 (u32 (frequency_ i));
   IW32 (u32 (info_linkUp_ i)); IW32 (u32 (info_linkDown_ i)); IW32 (u32 (info_uid_ i)); IString (info_ident_ i);
   IW32 (u32 (score_ i))].

Definition UidRange_items (r : UidRange) : list Item :=
  [IW32 (u32 (begin_ r)); IW32 (u32 (end_ r)); IW32 (u32 (priorityId_ r)); IW32 (u32 (netId_ r))].

(** The values the C++ types of the fields admit. *)
Definition INetAddr_typed (a : INetAddr) : Prop :=
  in_width 8 (type_ a) /\ in_width 8 (family_ a) /\ in_width 8 (prefixlen_ a) /\ in_width 8 (port_ a).
Definition Route_typed (r : Route) : Prop :=
  INetAddr_typed (destination_ r) /\ INetAddr_typed (gateway_ r) /\ in_signed 32 (rtnType_ r) /\ in_signed 32 (rt_mtu_ r).
Definition HttpProxy_typed (h : HttpProxy) : Prop := in_width 16 (proxy_port_ h) /\ in_signed 32 (userId_ h).
Definition NetLinkInfo_typed (l : NetLinkInfo) : Prop :=
  Forall INetAddr_typed (netAddrList_ l) /\ Forall INetAddr_typed (dnsList_ l) /\ Forall Route_typed (routeList_ l) /\
  in_width 16 (mtu_ l) /\ HttpProxy_typed (httpProxy_ l) /\
  in_width 32 (list_size (netAddrList_ l)) /\ in_width 32 (list_size (dnsList_ l)) /\ in_width 32 (list_size (routeList_ l)).
Definition NetSupplierInfo_typed (i : NetSupplierInfo) : Prop :=
  in_signed 8 (strength_ i) /\ in_width 32 (frequency_ i) /\ in_width 32 (info_linkUp_ i) /\ in_width 32 (info_linkDown_ i) /\
  in_signed 32 (info_uid_ i) /\ in_signed 32 (score_ i).
Definition UidRange_typed (r : UidRange) : Prop :=
  in_signed 32 (begin_ r) /\ in_signed 32 (end_ r) /\ in_width 32 (priorityId_ r) /\ in_width 32 (netId_ r).

(** What arrives. *)
Definition clip_proxy (h : HttpProxy) : HttpProxy :=
  mkHttpProxy (host_ h) (proxy_port_ h) (username_ h) (password_ h)
    (base.filter (fun s => size s <=? MAX_URL_SIZE) (clip_list MAX_EXCLUSION_SIZE (exclusionList_ h))) (userId_ h).

Definition clip (l : NetLinkInfo) : NetLinkInfo :=
  mkNetLinkInfo (ifaceName_ l) (domain_ l) (clip_list MAX_ADDR_SIZE (netAddrList_ l)) (clip_list MAX_ADDR_SIZE (dnsList_ l))
    (clip_list MAX_ROUTE_SIZE (routeList_ l)) (mtu_ l) (tcpBufferSizes_ l) (ident_ l) (clip_proxy (httpProxy_ l))
    (isIpv4LinkValid_ l) (isIpv6LinkValid_ l) (isUserDefinedDnsServer_ l).

(** ** The lists *)

Lemma clip_size {A} limit (l : list A) : 0 <= limit -> list_size (clip_list limit l) = at_most limit (list_size l).
Proof.
  intros Hl. unfold list_size, clip_list, at_most. rewrite length_take.
  destruct (Z.ltb_spec limit (Z.of_nat (length l))); lia.
Qed.

Lemma clip_fits {A} limit (l : list A) : list_size l <= limit -> clip_list limit l = l.
Proof. intros Hl. apply take_ge. unfold list_size in Hl. lia. Qed.

Lemma clip_at_most {A} limit (l : list A) : 0 <= limit -> take (Z.to_nat (at_most limit (list_size l))) l = clip_list limit l.
Proof.
  intros Hl. unfold at_most, clip_list. destruct (Z.ltb_spec limit (list_size l)); [done|].
  unfold list_size in *. rewrite !take_ge; [done|lia..].
Qed.

Lemma at_most_least limit n : n <= limit -> at_most limit n = n.
Proof. intros Hn. unfold at_most. destruct (Z.ltb_spec limit n); lia. Qed.

Lemma Forall_clip {A} (Q : A -> Prop) limit l : Forall Q l -> Forall Q (clip_list limit l).
Proof. apply Forall_take. Qed.

(** The receiver's constructor keeps every exclusion that was received. *)
Lemma push_exclusions_all l : forall acc, Forall (fun s => size s <=? MAX_URL_SIZE) l ->
  list_size acc + list_size l <= MAX_EXCLUSION_SIZE -> push_exclusions acc l = acc ++ l.
Proof.
  induction l as [|s l IH]; intros acc Hs Hn; cbn; [by rewrite app_nil_r|]. apply Forall_cons in Hs as [Hs Hl].
  apply Is_true_true in Hs. rewrite Hs. unfold list_size in *. rewrite length_cons in Hn.
  destruct (Z.leb_spec MAX_EXCLUSION_SIZE (Z.of_nat (length (acc ++ [s])))) as [Hm|Hm]; rewrite length_app in Hm; cbn in Hm.
  - destruct l; [done|]. cbn in Hn. lia.
  - rewrite IH; [by rewrite <- app_assoc|done|]. rewrite length_app. cbn. lia.
Qed.

(** ** The sets of a request *)

Lemma caps_valid c : CapsIsValid c = true ->
  (forall cap, cap ∈ all_netCaps_ c -> 0 <= cap < 32) /\ (forall b, b ∈ bearerTypes_ c -> NetBearType_num b < 6).
Proof.
  unfold CapsIsValid. rewrite andb_true_iff, !forallb_forall. intros [Hc Hb]. split.
  - intros cap Hin. apply elem_of_elements, list_elem_of_In, Hc in Hin. unfold NET_CAPABILITY_MMS, NET_CAPABILITY_END in Hin. lia.
  - intros b Hin. apply elem_of_elements, list_elem_of_In, Hb in Hin. cbn in Hin. lia.
Qed.

(** A set with values below a bound has no more elements than the bound. *)
Lemma set_size_bound `{Countable A} (f : A -> Z) n (X : gset A) : 0 <= n -> Inj (=) (=) f ->
  (forall x, x ∈ X -> 0 <= f x < n) -> list_size (elements X) <= n.
Proof.
  intros Hn Hf Hx. unfold list_size. rewrite <- (length_map f). assert (Hs : map f (elements X) ⊆+ seqZ 0 n).
  { apply NoDup_submseteq; [apply NoDup_fmap_2; [done|apply NoDup_elements]|]. intros z Hz.
    apply list_elem_of_fmap in Hz as (x & -> & Hin). apply elem_of_seqZ. rewrite Z.add_0_l. by apply Hx, elem_of_elements. }
  apply submseteq_length in Hs. rewrite length_seqZ in Hs. lia.
Qed.

Lemma keep_caps_all l : Forall (fun c => c < 32) l -> keep_caps l = list_to_set l.
Proof.
  intros Hl. unfold keep_caps. rewrite <- (union_empty_l_L (list_to_set l)). generalize (∅ : gset Z).
  induction Hl as [|c l Hc _ IH]; intros X; cbn; [set_solver|]. rewrite (proj2 (Z.leb_gt _ _)) by (unfold NET_CAPABILITY_END; lia).
  rewrite IH. set_solver.
Qed.

Lemma keep_types_all l : Forall (fun b => NetBearType_num b < 6) l -> keep_types (map NetBearType_num l) = list_to_set l.
Proof.
  intros Hl. unfold keep_types. rewrite <- (union_empty_l_L (list_to_set l)). generalize (∅ : gset NetBearType).
  induction Hl as [|b l Hb _ IH]; intros X; cbn [map foldl list_to_set]; [set_solver|].
  rewrite (proj2 (Z.leb_gt _ _)) by exact Hb. replace (NetBearType_of (NetBearType_num b)) with (Some b) by (by destruct b).
  rewrite IH. set_solver.
Qed.

Section Laws.
Context {P : Type} `{ParcelLaws P}.

Lemma emits_list {A} (f : A -> M P unit) g l : (forall a, emits (f a) (g a)) -> emits (WriteUint32 (list_size l);; each f l) (list_items g l).
Proof. intros Hf. apply emits_cons, emits_each. auto. Qed.

(** A list that the sender has cut at the limit of the receiver is read whole. *)
Lemma consumes_list {A B} (m : M P B) (g : A -> list Item) (h : A -> B) limit l :
  0 <= limit < 2 ^ 32 -> (forall a, a ∈ l -> consumes m (g a) (h a)) ->
  consumes (read_list limit m) (list_items g (clip_list limit l)) (map h (clip_list limit l)).
Proof.
  intros Hl Hm. set (k := clip_list limit l). assert (Hk : list_size k <= limit).
  { unfold k. rewrite clip_size by lia. unfold at_most. destruct (Z.ltb_spec limit (list_size l)); lia. }
  unfold list_items, read_list. eapply consumes_cons; [apply consumes_u32; unfold in_width, list_size in *; lia|].
  cbn beta. rewrite at_most_least by done. unfold list_size. rewrite Nat2Z.id. replace (length k) with (length (map h k)) by apply length_map.
  assert (Hin : forall a, a ∈ k -> consumes m (g a) (h a)) by (intros a Ha; apply Hm; rewrite <- (take_drop (Z.to_nat limit) l); apply elem_of_app; by left).
  clearbody k. clear Hk. induction k as [|a k IH]; cbn; [apply consumes_ret|]. apply consumes_bind with (h a); [apply Hin; left|].
  rewrite <- (app_nil_r (flat_map g k)). apply consumes_bind with (map h k); [|apply consumes_ret].
  apply IH. intros b Hb. apply Hin. by right.
Qed.

(** ** Each class writes its items and reads them back *)

Lemma INetAddr_emits a : emits (INetAddr_Marshalling (P := P) a) (INetAddr_items a).
Proof. unfold INetAddr_Marshalling, INetAddr_items. wire. Qed.

Lemma INetAddr_consumes a : INetAddr_typed a -> consumes (INetAddr_Unmarshalling (P := P)) (INetAddr_items a) a.
Proof. intros (? & ? & ? & ?). unfold INetAddr_Unmarshalling, INetAddr_items. destruct a; cbn in *. wire. Qed.

Lemma Route_emits r : emits (Route_Marshalling (P := P) r) (Route_items r).
Proof. pose proof INetAddr_emits. unfold Route_Marshalling, Route_items. wire. Qed.

Lemma Route_consumes r : Route_typed r -> consumes (Route_Unmarshalling (P := P)) (Route_items r) r.
Proof.
  intros (Hd & Hg & ? & ?). apply INetAddr_consumes in Hd, Hg. unfold Route_Unmarshalling, Route_items.
  destruct r; cbn [destination_ gateway_ rtnType_ rt_mtu_ iface_ isHost_ hasGateway_ isDefaultRoute_ isExcludedRoute_] in *. wire.
Qed.

Lemma NetSupplierInfo_emits i : emits (NetSupplierInfo_Marshalling (P := P) i) (NetSupplierInfo_items i).
Proof. unfold NetSupplierInfo_Marshalling, NetSupplierInfo_items. wire. Qed.

Lemma NetSupplierInfo_consumes i : NetSupplierInfo_typed i ->
  consumes (NetSupplierInfo_Unmarshalling (P := P)) (NetSupplierInfo_items i) i.
Proof. intros (? & ? & ? & ? & ? & ?). unfold NetSupplierInfo_Unmarshalling, NetSupplierInfo_items. destruct i; cbn in *. wire. Qed.

Lemma UidRange_emits r : emits (UidRange_Marshalling (P := P) r) (UidRange_items r).
Proof. unfold UidRange_Marshalling, UidRange_items. wire. Qed.

Lemma UidRange_consumes r : UidRange_typed r -> consumes (UidRange_Unmarshalling (P := P)) (UidRange_items r) r.
Proof. intros (? & ? & ? & ?). unfold UidRange_Unmarshalling, UidRange_items. destruct r; cbn in *. wire. Qed.

(** ** The proxy *)

Lemma write_exclusions_emits l : forall count, 0 <= count < MAX_EXCLUSION_SIZE ->
  emits (write_exclusions (P := P) count l) (flat_map (fun s => [IString s]) (take (Z.to_nat (MAX_EXCLUSION_SIZE - count)) l)).
Proof.
  induction l as [|s l IH]; intros count Hc; [rewrite take_nil; apply emits_ret|].
  replace (Z.to_nat (MAX_EXCLUSION_SIZE - count)) with (S (Z.to_nat (MAX_EXCLUSION_SIZE - (count + 1)))) by lia.
  cbn [write_exclusions take flat_map app]. apply emits_cons. cbv zeta. destruct (Z.leb_spec MAX_EXCLUSION_SIZE (count + 1)) as [Hm|Hm].
  - replace (Z.to_nat (MAX_EXCLUSION_SIZE - (count + 1))) with O by lia. apply emits_ret.
  - apply IH. lia.
Qed.

Lemma HttpProxy_emits h : emits (HttpProxy_Marshalling (P := P) h) (HttpProxy_items h).
Proof.
  unfold HttpProxy_Marshalling, HttpProxy_items, list_items. fold (clip_list MAX_EXCLUSION_SIZE (exclusionList_ h)).
  rewrite clip_size by (cbv; discriminate). cbn [app].
  replace (at_most MAX_EXCLUSION_SIZE (list_size (exclusionList_ h))) with (Z.min MAX_EXCLUSION_SIZE (list_size (exclusionList_ h)))
    by (unfold at_most; destruct (Z.ltb_spec MAX_EXCLUSION_SIZE (list_size (exclusionList_ h))); lia).
  do 4 apply emits_cons. eapply emits_bind; [apply (write_exclusions_emits _ 0); by split|]. wire.
Qed.

Lemma HttpProxy_consumes h : HttpProxy_typed h -> size (host_ h) <= MAX_URL_SIZE ->
  consumes (HttpProxy_Unmarshalling (P := P)) (HttpProxy_items h) (clip_proxy h).
Proof.
  intros [Hp Hu] Hh. unfold HttpProxy_Unmarshalling, HttpProxy_items. cbn [app].
  assert (Hlt : (MAX_URL_SIZE <? size (host_ h)) = false) by (apply Z.ltb_ge; lia).
  wire_step. cbn beta. rewrite Hlt. wire_step. cbn beta. wire_step. cbn beta.
  eapply consumes_bind; [apply (consumes_list _ _ id); [by split|intros s _; apply consumes_string]|]. cbn beta. rewrite map_id.
  wire. unfold clip_proxy, new_HttpProxy. rewrite (proj2 (Z.leb_le _ _)) by lia. cbn [host_ proxy_port_ exclusionList_].
  set (k := clip_list MAX_EXCLUSION_SIZE (exclusionList_ h)). rewrite (push_exclusions_all _ []).
  - apply consumes_ret.
  - apply Forall_forall. intros s Hs. by apply list_elem_of_filter in Hs as [? _].
  - assert (list_size k <= MAX_EXCLUSION_SIZE).
    { unfold k. rewrite clip_size by (cbv; discriminate). unfold at_most. case_match; lia. }
    pose proof (length_filter (fun s => size s <=? MAX_URL_SIZE) k). unfold list_size in *. cbn. lia.
Qed.

(** ** The link *)

(** [AddrMarshalling], [RouteMarshalling]: the list cut at the limit. *)
Lemma emits_clipped {A} (f : A -> M P unit) g limit l :
  0 <= limit -> in_width 32 (list_size l) -> (forall a, emits (f a) (g a)) ->
  emits (let n := at_most limit (u32 (list_size l)) in WriteUint32 n;; each f (take (Z.to_nat n) l)) (list_items g (clip_list limit l)).
Proof.
  intros Hl Hn Hf. cbv zeta. rewrite wrap_small, clip_at_most by done. rewrite <- clip_size by done. by apply emits_list.
Qed.

Lemma NetLinkInfo_emits l : NetLinkInfo_typed l -> emits (NetLinkInfo_Marshalling (P := P) l) (NetLinkInfo_items l).
Proof.
  intros (_ & _ & _ & _ & _ & Ha & Hd & Hr). unfold NetLinkInfo_Marshalling, NetLinkInfo_items.
  pose proof (emits_clipped INetAddr_Marshalling INetAddr_items MAX_ADDR_SIZE (netAddrList_ l) ltac:(done) Ha INetAddr_emits).
  pose proof (emits_clipped INetAddr_Marshalling INetAddr_items MAX_ADDR_SIZE (dnsList_ l) ltac:(done) Hd INetAddr_emits).
  pose proof (emits_clipped Route_Marshalling Route_items MAX_ROUTE_SIZE (routeList_ l) ltac:(done) Hr Route_emits).
  pose proof (HttpProxy_emits (httpProxy_ l)). cbn [app]. unfold AddrMarshalling, RouteMarshalling. wire.
Qed.

Lemma NetLinkInfo_consumes l : NetLinkInfo_typed l -> size (host_ (httpProxy_ l)) <= MAX_URL_SIZE ->
  consumes (NetLinkInfo_Unmarshalling (P := P)) (NetLinkInfo_items l) (clip l).
Proof.
  intros (Ha & Hd & Hr & Hm & Hh & _) Hs. unfold NetLinkInfo_Unmarshalling, NetLinkInfo_items. cbn [app]. wire.
  rewrite Forall_forall in Ha. rewrite Forall_forall in Hd. rewrite Forall_forall in Hr.
  do 3 (eapply consumes_bind; [apply (consumes_list _ _ id); [by split|intros a Hin]; eauto using INetAddr_consumes, Route_consumes|];
        cbn beta; rewrite map_id).
  unfold ReadInfoFromParcel. wire. rewrite <- (app_nil_r (HttpProxy_items _)).
  eapply consumes_bind; [by apply HttpProxy_consumes|apply consumes_ret].
Qed.

(** ** Requests *)

Lemma NetAllCapabilities_emits c :
  in_width 32 (list_size (elements (all_netCaps_ c))) -> in_width 32 (list_size (elements (bearerTypes_ c))) ->
  emits (NetAllCapabilities_Marshalling (P := P) c) (NetAllCapabilities_items c).
Proof.
  intros Hc Hb. unfold NetAllCapabilities_Marshalling, NetAllCapabilities_items. cbn [app].
  assert (Hs : forall {A} (key : A -> Z) l, in_width 32 (list_size l) -> in_width 32 (list_size (sort_by key l))).
  { intros A key l. unfold list_size. by rewrite (Permutation_length (sort_by_Permutation key l)). }
  apply (Hs _ id) in Hc. apply (Hs _ NetBearType_num) in Hb. do 2 apply emits_cons.
  rewrite !wrap_small by done. rewrite <- !clip_size by done. unfold list_items. apply emits_cons. eapply emits_bind.
  - apply emits_each. intros a _. apply emits_wr.
  - apply emits_cons, emits_each. intros a _. apply emits_wr.
Qed.

Definition NetAllCapabilities_typed (c : NetAllCapabilities) : Prop :=
  in_width 32 (linkUpBandwidthKbps_ c) /\ in_width 32 (linkDownBandwidthKbps_ c).

Lemma NetAllCapabilities_consumes c : NetAllCapabilities_typed c -> CapsIsValid c = true ->
  consumes (NetAllCapabilities_Unmarshalling (P := P)) (NetAllCapabilities_items c) c.
Proof.
  intros [Hu Hd] [Hc Hb]%caps_valid. unfold NetAllCapabilities_Unmarshalling, NetAllCapabilities_items. cbn [app]. wire.
  set (caps := sort_by id (elements (all_netCaps_ c))). set (types := sort_by NetBearType_num (elements (bearerTypes_ c))).
  assert (Pc : caps ≡ₚ elements (all_netCaps_ c)) by apply sort_by_Permutation.
  assert (Pt : types ≡ₚ elements (bearerTypes_ c)) by apply sort_by_Permutation.
  eapply consumes_bind; [apply (consumes_list _ _ id); [by split|]|cbn beta; rewrite <- (app_nil_r (list_items _ _)); eapply consumes_bind; [apply (consumes_list _ _ NetBearType_num); [by split|]|]].
  - intros a Ha. apply consumes_u32. rewrite Pc in Ha. apply elem_of_elements, Hc in Ha. unfold in_width, id. lia.
  - intros b Hin. apply consumes_u32. destruct b; by split.
  - rewrite map_id, !clip_fits.
    + rewrite keep_caps_all, keep_types_all.
      * rewrite (list_to_set_perm_L _ _ Pc), (list_to_set_perm_L _ _ Pt), !list_to_set_elements_L. destruct c. apply consumes_ret.
      * apply Forall_forall. intros b Hin. rewrite Pt in Hin. by apply Hb, elem_of_elements.
      * apply Forall_forall. intros z Hin. rewrite Pc in Hin. apply elem_of_elements, Hc in Hin. lia.
    + unfold list_size. rewrite (Permutation_length Pt). apply Z.le_trans with 6; [|done]. apply (set_size_bound NetBearType_num); [done|by intros [] []|].
      intros b Hin. split; [by destruct b|by apply Hb].
    + unfold list_size. rewrite (Permutation_length Pc). apply (set_size_bound id); [done|apply _|done].
Qed.

Lemma sets_small c : CapsIsValid c = true ->
  in_width 32 (list_size (elements (all_netCaps_ c))) /\ in_width 32 (list_size (elements (bearerTypes_ c))).
Proof.
  intros [Hc Hb]%caps_valid. pose proof (set_size_bound id 32 (all_netCaps_ c) ltac:(done) _ Hc).
  assert (list_size (elements (bearerTypes_ c)) <= 6).
  { apply (set_size_bound NetBearType_num); [done|by intros [] []|]. intros b Hin. split; [by destruct b|by apply Hb]. }
  unfold in_width, list_size in *. lia.
Qed.

(** ** Round trips *)

(** A specifier whose capabilities are valid arrives as it was sent. *)
Lemma NetSpecifier_roundtrip_at s p : NetAllCapabilities_typed (netCapabilities_ s) -> CapsIsValid (netCapabilities_ s) = true ->
  unread p = [] -> (NetSpecifier_Marshalling s p).1 = Some tt ->
  (NetSpecifier_Unmarshalling (NetSpecifier_Marshalling s p).2).1 = Some s.
Proof.
  intros Ht Hv Hp Hok. destruct (sets_small _ Hv) as [Hc Hb].
  apply (wire_roundtrip _ NetSpecifier_Unmarshalling (NetSpecifier_items s) s p); try done.
  - apply emits_cons. by apply NetAllCapabilities_emits.
  - unfold NetSpecifier_Unmarshalling, NetSpecifier_items. wire. rewrite <- (app_nil_r (NetAllCapabilities_items _)).
    eapply consumes_bind; [by apply NetAllCapabilities_consumes|]. destruct s. apply consumes_ret.
Qed.

(** C38: What a supplier sends about its link is what the service receives, up to the limits of the
    format: for every link whose proxy host has at most 2048 characters, if [Marshalling] into a parcel
    without unread data succeeds then [Unmarshalling] of that parcel succeeds, leaves nothing unread and
    gives the same link with its address and name server lists cut at 16 entries, its routes at 1024
    and the exclusions of its proxy at 3000, less those that are too long. *)
Theorem NetLinkInfo_roundtrip l p :
  NetLinkInfo_typed l -> size (host_ (httpProxy_ l)) <= MAX_URL_SIZE -> unread p = [] ->
  (NetLinkInfo_Marshalling l p).1 = Some tt ->
  (NetLinkInfo_Unmarshalling (NetLinkInfo_Marshalling l p).2).1 = Some (clip l) /\
  unread (NetLinkInfo_Unmarshalling (NetLinkInfo_Marshalling l p).2).2 = [].
Proof.
  intros Ht Hs Hp Hok. apply (wire_roundtrip _ _ (NetLinkInfo_items l)); [by apply NetLinkInfo_emits|by apply NetLinkInfo_consumes|done..].
Qed.

Lemma filter_short l : Forall (fun s => size s <= MAX_URL_SIZE) l -> base.filter (fun s => size s <=? MAX_URL_SIZE) l = l.
Proof. induction 1 as [|s l Hs _ IH]; [done|]. rewrite filter_cons_True, IH; [done|]. apply Is_true_true, Z.leb_le. lia. Qed.

(** Nothing is lost within the limits. *)
Lemma clip_within l :
  list_size (netAddrList_ l) <= MAX_ADDR_SIZE -> list_size (dnsList_ l) <= MAX_ADDR_SIZE -> list_size (routeList_ l) <= MAX_ROUTE_SIZE ->
  list_size (exclusionList_ (httpProxy_ l)) <= MAX_EXCLUSION_SIZE ->
  Forall (fun s => size s <= MAX_URL_SIZE) (exclusionList_ (httpProxy_ l)) -> clip l = l.
Proof.
  intros Ha Hd Hr He Hs. unfold clip, clip_proxy. rewrite !clip_fits by done.
  rewrite filter_short by done.
  by destruct l as [? ? ? ? ? ? ? ? []].
Qed.

End Laws.

(** ** A link *)

Definition example_addr (a : string) : INetAddr := mkINetAddr IPV4 2 24 a "255.255.255.0" "" 0.
Definition example_link : NetLinkInfo :=
  mkNetLinkInfo "wlan0" "lan" (repeat (example_addr "192.168.1.2") 17) [example_addr "192.168.1.1"]
    [mkRoute "wlan0" (example_addr "0.0.0.0") (example_addr "192.168.1.1") RTN_UNICAST 1500 false true true false]
    1500 "" "home" (mkHttpProxy "proxy.lan" 8080 "user" "secret" ["localhost"; "*.lan"] (-1)) true false false.

(** The seventeenth address of the link is the one that is lost. *)
Lemma NetLinkInfo_roundtrip_witness :
  (NetLinkInfo_Unmarshalling (NetLinkInfo_Marshalling example_link (new_parcel (P := Queue))).2).1 =
    Some (clip example_link) /\ list_size (netAddrList_ (clip example_link)) = 16 /\ clip example_link <> example_link.
Proof.
  split; [|split; [reflexivity|intros E; apply (f_equal netAddrList_), (f_equal length) in E; vm_compute in E; discriminate]].
  apply (NetLinkInfo_roundtrip example_link (new_parcel (P := Queue))); [|vm_compute; discriminate|reflexivity|vm_compute; reflexivity].
  split_and!; try (repeat constructor; vm_compute; done).
Defined.

End ConnParcel.
