(* ===== verification/HttpProxyText.v ===== *)
(** * The text form of a proxy
    (frameworks/native/netconnclient/src/http_proxy.cpp: [ToString], [Parser], [FromString])

    The settings store the global proxy as text: the host, the port and the
    exclusions, separated by tabs, each exclusion followed by a comma.  The reader
    takes blanks around an exclusion away.  [FromString_ToString]: what is written
    is what is read. *)

From stdpp Require Import pretty.
From Stdlib Require Import Ascii String.
From S2P Require Import Prelude NetData PolicyFile ConnParcel.
Import NetData ConnParcel.

Module HttpProxyText.

Definition TAB : ascii := ascii_of_nat 9.
Definition COMMA : ascii := ascii_of_nat 44.
Definition tab : string := String TAB "".
Definition comma : string := String COMMA "".

Definition ToString (h : HttpProxy) : string :=
  host_ h +:+ tab +:+ PolicyFile.to_string (proxy_port_ h) +:+ tab +:+ foldr (fun e s => e +:+ comma +:+ s) "" (exclusionList_ h).

(** ** Reading *)

(** [std::strtol] in base ten: blanks, a sign, digits.  [None] when no digit was
    read.  The saturation at [LONG_MAX] is left out: the caller rejects
    everything above 65535. *)
Definition isspace (c : ascii) : bool := let n := Z.of_nat (nat_of_ascii c) in (n =? 32) || ((9 <=? n) && (n <=? 13)).
Definition digit (c : ascii) : option Z :=
  let d := Z.of_nat (nat_of_ascii c) - 48 in if (0 <=? d) && (d <=? 9) then Some d else None.

Fixpoint skip_space (s : string) : string :=
  match s with String c s' => if isspace c then skip_space s' else s | EmptyString => "" end.

Fixpoint digits (s : string) (acc : Z) : Z :=
  match s with
  | String c s => match digit c with Some d => digits s (acc * 10 + d) | None => acc end
  | EmptyString => acc
  end.

Definition number (s : string) : option Z :=
  match s with String c _ => match digit c with Some _ => Some (digits s 0) | None => None end | EmptyString => None end.

Definition strtol (s : string) : option Z :=
  match skip_space s with
  | String c s' =>
      if Ascii.eqb c "-" then Z.opp <$> number s' else if Ascii.eqb c "+" then number s' else number (String c s')
  | EmptyString => None
  end.

Definition ParsePort (portStr : string) : option Z :=
  match strtol portStr with
  | Some port => if (port <? 0) || (65535 <? port) then None else Some port
  | None => None
  end.

(** [while (std::getline(ss, item, ','))]: a last line without a comma counts
    when it is not empty. *)
Fixpoint getlines (s item : string) : list string :=
  match s with
  | EmptyString => if bool_decide (item = "") then [] else [item]
  | String c s => if Ascii.eqb c COMMA then item :: getlines s "" else getlines s (item +:+ String c "")
  end.

Definition blank (c : ascii) : bool := Ascii.eqb c " " || Ascii.eqb c TAB.

(** [find_first_not_of] and [find_last_not_of] with the [substr] between them;
    an item of blanks only stays as it is. *)
Fixpoint skip_blanks (s : string) : string :=
  match s with String c s' => if blank c then skip_blanks s' else s | EmptyString => "" end.
Fixpoint drop_blanks (s : string) : string :=
  match s with
  | String c s => match drop_blanks s with EmptyString => if blank c then "" else String c "" | r => String c r end
  | EmptyString => ""
  end.
Definition trim (item : string) : string :=
  match skip_blanks item with EmptyString => item | s => drop_blanks s end.

Definition ParseProxyExclusionList (exclusionList : string) : list string := map trim (getlines exclusionList "").

(** [std::find(begin, end, '\t')]: the text before and after the tab. *)
Fixpoint find_tab (s : string) : option (string * string) :=
  match s with
  | EmptyString => None
  | String c s => if Ascii.eqb c TAB then Some ("", s) else '(a, b) ← find_tab s; Some (String c a, b)
  end.

(** The parser's operations return their value and the text that is left. *)
Definition GetHost (s : string) : option string * string :=
  match find_tab s with Some (host, rest) => (Some host, rest) | None => (None, s) end.
Definition GetPort (s : string) : option Z * string :=
  match find_tab s with Some (port, rest) => (ParsePort port, rest) | None => (None, s) end.
Definition GetExclusionList (s : string) : list string :=
  match s with EmptyString => [] | _ => ParseProxyExclusionList s end.

Definition FromString (str : string) : option HttpProxy :=
  let '(host, s) := GetHost str in
  let '(port, s) := GetPort s in
  match host, port with
  | Some host, Some port => Some (new_HttpProxy host port (GetExclusionList s))
  | _, _ => None
  end.

(** ** What the reader makes of what was written *)

Fixpoint has (c : ascii) (s : string) : bool :=
  match s with String x s => Ascii.eqb x c || has c s | EmptyString => false end.

Lemma app_cons_s c (a b : string) : String c a +:+ b = String c (a +:+ b).
Proof. done. Qed.

Lemma app_assoc_s (a b c : string) : a +:+ b +:+ c = (a +:+ b) +:+ c.
Proof. induction a as [|x a IH]; [done|]. rewrite !app_cons_s. by rewrite IH. Qed.

Lemma app_nil_s (a : string) : a +:+ "" = a.
Proof. induction a as [|x a IH]; [done|]. rewrite !app_cons_s. by rewrite IH. Qed.

Lemma find_tab_app a rest : has TAB a = false -> find_tab (a +:+ tab +:+ rest) = Some (a, rest).
Proof.
  induction a as [|c a IH]; [done|]. intros [Hc Ha]%orb_false_iff. rewrite app_cons_s. cbn [find_tab]. rewrite Hc. by rewrite (IH Ha).
Qed.

Lemma getlines_app e rest : forall item, has COMMA e = false -> getlines (e +:+ comma +:+ rest) item = (item +:+ e) :: getlines rest "".
Proof.
  induction e as [|c e IH]; intros item; [intros _; cbn; by rewrite app_nil_s|].
  intros [Hc He]%orb_false_iff. rewrite app_cons_s. cbn [getlines]. rewrite Hc, (IH _ He). by rewrite <- app_assoc_s.
Qed.

Lemma getlines_exclusions l : Forall (fun e => has COMMA e = false) l ->
  getlines (foldr (fun e s => e +:+ comma +:+ s) "" l) "" = l.
Proof.
  induction 1 as [|e l He _ IH]; [done|]. cbn [foldr].
  etransitivity; [apply (getlines_app e _ "" He)|]. cbn. f_equal. exact IH.
Qed.

Lemma parse_digits_number s z : s <> "" -> PolicyFile.parse_digits s 0 = Some z -> number s = Some z.
Proof.
  assert (Hg : forall s acc, PolicyFile.parse_digits s acc = Some z -> digits s acc = z).
  { clear s. induction s as [|c s IH]; cbn; intros acc; [by intros [= ->]|]. unfold digit. case_match; [apply IH|done]. }
  destruct s as [|c s]; [done|]. intros _ Hp. pose proof (Hg _ _ Hp) as Hd. cbn [PolicyFile.parse_digits] in Hp.
  unfold number. unfold digit at 1. case_match; [by rewrite Hd|done].
Qed.

(** A number starts with a digit, neither a blank nor a sign. *)
Lemma strtol_number s z : number s = Some z -> strtol s = Some z.
Proof.
  destruct s as [|c s]; [done|]. intros Hn. assert (Hd : is_Some (digit c)) by (cbn in Hn; by destruct (digit c)).
  assert (Hc : isspace c = false /\ Ascii.eqb c "-" = false /\ Ascii.eqb c "+" = false).
  { unfold digit in Hd. case_match eqn:E; [|by destruct Hd]. unfold isspace. split_and!; [lia|..].
    - destruct (Ascii.eqb_spec c "-") as [->|]; [by vm_compute in E|done].
    - destruct (Ascii.eqb_spec c "+") as [->|]; [by vm_compute in E|done]. }
  destruct Hc as (H1 & H2 & H3). unfold strtol. cbn [skip_space]. rewrite H1, H2, H3. exact Hn.
Qed.

Lemma parse_to_string z : 0 <= z -> PolicyFile.to_string z <> "" /\ PolicyFile.parse_digits (PolicyFile.to_string z) 0 = Some z.
Proof.
  intros Hz. assert (E : PolicyFile.parse_digits (PolicyFile.to_string z) 0 = Some z).
  { unfold PolicyFile.to_string, pretty, pretty_N. case_decide as E0; [|rewrite PolicyFile.parse_go; cbn; f_equal; lia].
    assert (z = 0) as -> by lia. reflexivity. }
  split; [|done]. intros Es. rewrite Es in E. cbn in E. injection E as <-. by vm_compute in Es.
Qed.

Lemma ParsePort_to_string z : in_width 16 z -> ParsePort (PolicyFile.to_string z) = Some z.
Proof.
  intros Hz. destruct (parse_to_string z ltac:(apply Hz)) as [Hne Hp]. unfold ParsePort.
  rewrite (strtol_number _ z) by (by apply parse_digits_number). unfold in_width in Hz. case_match; [lia|done].
Qed.

(** The digits hold no tab. *)
Lemma parse_digits_has_no_tab s : forall acc z, PolicyFile.parse_digits s acc = Some z -> has TAB s = false.
Proof.
  induction s as [|c s IH]; intros acc z; [done|]. cbn [PolicyFile.parse_digits has]. case_match eqn:E; [|done].
  intros Hp. rewrite (IH _ _ Hp), orb_false_r. destruct (Ascii.eqb_spec c TAB) as [->|]; [by vm_compute in E|done].
Qed.

(** A proxy the settings can hold: no separator inside a field, no blanks around
    an exclusion, and within the limits. *)
Definition storable (h : HttpProxy) : Prop :=
  has TAB (host_ h) = false /\ size (host_ h) <= MAX_URL_SIZE /\ in_width 16 (proxy_port_ h) /\
  Forall (fun e => has COMMA e = false /\ trim e = e /\ size e <= MAX_URL_SIZE) (exclusionList_ h) /\
  list_size (exclusionList_ h) <= MAX_EXCLUSION_SIZE.

Lemma exclusions_read l : Forall (fun e => has COMMA e = false /\ trim e = e /\ size e <= MAX_URL_SIZE) l ->
  list_size l <= MAX_EXCLUSION_SIZE -> push_exclusions [] (GetExclusionList (foldr (fun e s => e +:+ comma +:+ s) "" l)) = l.
Proof.
  intros Hl Hn. assert (E : GetExclusionList (foldr (fun e s => e +:+ comma +:+ s) "" l) = l).
  { transitivity (ParseProxyExclusionList (foldr (fun e s => e +:+ comma +:+ s) "" l)); [unfold GetExclusionList; by case_match|].
    unfold ParseProxyExclusionList. rewrite getlines_exclusions by (eapply Forall_impl; [exact Hl|]; by intros e []).
    clear Hn. induction Hl as [|e l (_ & He & _) _ IH]; cbn; [done|]. by rewrite He, IH. }
  rewrite E. rewrite (push_exclusions_all _ []); [done| |unfold list_size in *; cbn; lia].
  eapply Forall_impl; [exact Hl|]. intros e (_ & _ & He). apply Is_true_true, Z.leb_le. lia.
Qed.

(** The text form of a proxy can be read back: for a proxy whose host has no tab, whose exclusions have
    no commas and no blanks around them and which is within the limits of the class, [FromString] of
    [ToString] succeeds and gives the same host, port and exclusions; the credentials and the user are not part of the text. *)
Theorem FromString_ToString h : storable h ->
  FromString (ToString h) = Some (mkHttpProxy (host_ h) (proxy_port_ h) "" "" (exclusionList_ h) (-1)).
Proof.
  intros (Hh & Hs & Hp & He & Hn). unfold FromString, ToString, GetHost. rewrite find_tab_app by done.
  unfold GetPort. destruct (parse_to_string (proxy_port_ h) ltac:(apply Hp)) as [_ Hd].
  rewrite find_tab_app by (by eapply parse_digits_has_no_tab). rewrite ParsePort_to_string by done.
  unfold new_HttpProxy. rewrite (proj2 (Z.leb_le _ _)) by lia. by rewrite exclusions_read.
Qed.

Lemma FromString_ToString_witness :
  FromString (ToString (mkHttpProxy "proxy.lan" 8080 "user" "secret" ["localhost"; ""; "*.lan"] 100)) =
    Some (mkHttpProxy "proxy.lan" 8080 "" "" ["localhost"; ""; "*.lan"] (-1)).
Proof.
  apply (FromString_ToString (mkHttpProxy "proxy.lan" 8080 "user" "secret" ["localhost"; ""; "*.lan"] 100)).
  split_and!; [reflexivity|vm_compute; discriminate|vm_compute; split; [discriminate|reflexivity]| |vm_compute; discriminate].
  repeat constructor; vm_compute; discriminate.
Defined.

End HttpProxyText.
