(* ===== verification/Ipc.v ===== *)
(** * Calls between processes

    A proxy's function writes its arguments into a parcel, sends it and reads the
    answer from a second parcel; a stub's function reads the one and writes the
    other, and calls the service in between.  Both return early with a code when
    something fails.  [H P S A] is such a function on the two parcels and the state
    [S] behind them, and [wp] runs it: a rule per step, which needs to know only the
    items that are in the parcels. *)

From S2P Require Import Prelude Parcel.
Import Parcel.

Module Ipc.

Record Ctx (P S : Type) := mkCtx { data : P; reply : P; svc : S }.
Arguments mkCtx {P S} _ _ _.
Arguments data {P S} _.
Arguments reply {P S} _.
Arguments svc {P S} _.

(** [inl]: the function has returned this code. *)
Definition H (P S A : Type) : Type := Ctx P S -> (Z + A) * Ctx P S.

#[global] Instance H_ret P S : MRet (H P S) := fun A a c => (inr a, c).
#[global] Instance H_bind P S : MBind (H P S) := fun A B k m c =>
  match m c with (inr a, c) => k a c | (inl z, c) => (inl z, c) end.

Section Steps.
Context {P S : Type} {PI : IParcel P}.

(** [return code;] *)
Definition code {A} (z : Z) : H P S A := fun c => (inl z, c).

(** [if (!data.Op(...)) return err;] and the same on the reply. *)
Definition on_data {A} (m : M P A) (err : Z) : H P S A := fun c =>
  let '(o, d) := m (data c) in (match o with Some a => inr a | None => inl err end, mkCtx d (reply c) (svc c)).
Definition on_reply {A} (m : M P A) (err : Z) : H P S A := fun c =>
  let '(o, r) := m (reply c) in (match o with Some a => inr a | None => inl err end, mkCtx (data c) r (svc c)).

(** An operation whose result the code does not look at. *)
Definition unchecked_data {A} (m : M P A) : H P S (option A) := fun c =>
  let '(o, d) := m (data c) in (inr o, mkCtx d (reply c) (svc c)).
Definition unchecked_reply {A} (m : M P A) : H P S (option A) := fun c =>
  let '(o, r) := m (reply c) in (inr o, mkCtx (data c) r (svc c)).

(** A call of the object itself. *)
Definition call {A} (f : S -> A * S) : H P S A := fun c =>
  let '(a, s) := f (svc c) in (inr a, mkCtx (data c) (reply c) s).

(** The code a function returns, and what it leaves. *)
Definition finish (m : H P S Z) (c : Ctx P S) : Z * Ctx P S :=
  let '(r, c) := m c in (match r with inl z => z | inr z => z end, c).

End Steps.

(** [each] with a failure that is not looked at. *)
Definition ignore {P A} (m : M P A) : M P unit := fun p => (Some tt, (m p).2).

Section Wp.
Context {P S : Type} {PI : IParcel P} {PL : ParcelLaws P}.

Definition wp {A} (m : H P S A) (c : Ctx P S) (Q : Z + A -> Ctx P S -> Prop) : Prop := Q (m c).1 (m c).2.

(** [m] writes [l] when there is room. *)
Definition puts (m : M P unit) (l : list Item) : Prop :=
  forall p, fits (written p ++ l) -> (m p).1 = Some tt /\ unread (m p).2 = unread p ++ l /\ written (m p).2 = written p ++ l.

Lemma emits_puts m l : emits m l -> puts m l.
Proof. intros Hm p Hf. destruct (Hm p) as [H1 H2]. specialize (H2 Hf). destruct (H1 H2). done. Qed.

Lemma puts_ret : puts (mret tt) [].
Proof. apply emits_puts, emits_ret. Qed.

Lemma puts_bind m k l1 l2 : puts m l1 -> puts k l2 -> puts (m;; k) (l1 ++ l2).
Proof.
  intros Hm Hk p. rewrite app_assoc. intros Hf. destruct (Hm p (fits_prefix _ _ Hf)) as (H1 & Hu & Hw).
  unfold mbind, M_bind. destruct (m p) as [o p1]; cbn in *. subst o. rewrite <- Hw in Hf. destruct (Hk p1 Hf) as (H2 & -> & ->).
  rewrite Hu, Hw, <- !app_assoc. done.
Qed.

Lemma puts_ignore m l : puts m l -> puts (ignore m) l.
Proof. intros Hm p Hf. destruct (Hm p Hf) as (_ & ? & ?). done. Qed.

Lemma puts_each {A} (f : A -> M P unit) (g : A -> list Item) l : (forall a, a ∈ l -> puts (f a) (g a)) -> puts (each f l) (flat_map g l).
Proof.
  induction l as [|a l IH]; intros Hf; cbn; [apply puts_ret|]. apply puts_bind; [apply Hf; left|]. apply IH. intros b Hb. apply Hf. by right.
Qed.

Lemma wp_ret {A} (a : A) c (Q : Z + A -> Ctx P S -> Prop) : Q (inr a) c -> wp (mret a) c Q.
Proof. done. Qed.

Lemma wp_code {A} z c (Q : Z + A -> Ctx P S -> Prop) : Q (inl z) c -> wp (code z) c Q.
Proof. done. Qed.

Lemma wp_bind {A B} (m : H P S A) (k : A -> H P S B) c Q :
  wp m c (fun r c => match r with inr a => wp (k a) c Q | inl z => Q (inl z) c end) -> wp (m ≫= k) c Q.
Proof. unfold wp, mbind, H_bind. by destruct (m c) as [[z|a] c']. Qed.

Lemma wp_data_read {A} (m : M P A) l rest a err d r s (Q : Z + A -> Ctx P S -> Prop) :
  unread d = l ++ rest -> consumes m l a -> (forall d', unread d' = rest -> Q (inr a) (mkCtx d' r s)) -> wp (on_data m err) (mkCtx d r s) Q.
Proof. intros Hu Hm HQ. destruct (Hm d rest Hu) as [H1 H2]. unfold wp, on_data. cbn. destruct (m d) as [o d']; cbn in *. subst o. by apply HQ. Qed.

Lemma wp_reply_read {A} (m : M P A) l rest a err d r s (Q : Z + A -> Ctx P S -> Prop) :
  unread r = l ++ rest -> consumes m l a -> (forall r', unread r' = rest -> Q (inr a) (mkCtx d r' s)) -> wp (on_reply m err) (mkCtx d r s) Q.
Proof. intros Hu Hm HQ. destruct (Hm r rest Hu) as [H1 H2]. unfold wp, on_reply. cbn. destruct (m r) as [o r']; cbn in *. subst o. by apply HQ. Qed.

(** What a parcel that is only written holds. *)
Definition holds (p : P) (l : list Item) : Prop := unread p = l /\ written p = l.

Lemma holds_new : holds new_parcel [].
Proof. split; [apply unread_new|apply written_new]. Qed.

Lemma wp_data_write m l held err d r s (Q : Z + unit -> Ctx P S -> Prop) :
  holds d held -> fits (held ++ l) -> puts m l -> (forall d', holds d' (held ++ l) -> Q (inr tt) (mkCtx d' r s)) ->
  wp (on_data m err) (mkCtx d r s) Q.
Proof.
  intros [Hu Hw] Hf Hm HQ. rewrite <- Hw in Hf. destruct (Hm d Hf) as (H1 & H2 & H3). unfold wp, on_data. cbn.
  destruct (m d) as [o d']; cbn in *. subst o. apply HQ. split; congruence.
Qed.

Lemma wp_reply_write m l held err d r s (Q : Z + unit -> Ctx P S -> Prop) :
  holds r held -> fits (held ++ l) -> puts m l -> (forall r', holds r' (held ++ l) -> Q (inr tt) (mkCtx d r' s)) ->
  wp (on_reply m err) (mkCtx d r s) Q.
Proof.
  intros [Hu Hw] Hf Hm HQ. rewrite <- Hw in Hf. destruct (Hm r Hf) as (H1 & H2 & H3). unfold wp, on_reply. cbn.
  destruct (m r) as [o r']; cbn in *. subst o. apply HQ. split; congruence.
Qed.

Lemma wp_unchecked_data_write m l held d r s (Q : Z + option unit -> Ctx P S -> Prop) :
  holds d held -> fits (held ++ l) -> puts m l -> (forall d', holds d' (held ++ l) -> Q (inr (Some tt)) (mkCtx d' r s)) ->
  wp (unchecked_data m) (mkCtx d r s) Q.
Proof.
  intros [Hu Hw] Hf Hm HQ. rewrite <- Hw in Hf. destruct (Hm d Hf) as (H1 & H2 & H3). unfold wp, unchecked_data. cbn.
  destruct (m d) as [o d']; cbn in *. subst o. apply HQ. split; congruence.
Qed.

Lemma wp_unchecked_data_read {A} (m : M P A) l rest a d r s (Q : Z + option A -> Ctx P S -> Prop) :
  unread d = l ++ rest -> consumes m l a -> (forall d', unread d' = rest -> Q (inr (Some a)) (mkCtx d' r s)) -> wp (unchecked_data m) (mkCtx d r s) Q.
Proof. intros Hu Hm HQ. destruct (Hm d rest Hu) as [H1 H2]. unfold wp, unchecked_data. cbn. destruct (m d) as [o d']; cbn in *. subst o. by apply HQ. Qed.

Lemma wp_unchecked_reply_read {A} (m : M P A) l rest a d r s (Q : Z + option A -> Ctx P S -> Prop) :
  unread r = l ++ rest -> consumes m l a -> (forall r', unread r' = rest -> Q (inr (Some a)) (mkCtx d r' s)) -> wp (unchecked_reply m) (mkCtx d r s) Q.
Proof. intros Hu Hm HQ. destruct (Hm r rest Hu) as [H1 H2]. unfold wp, unchecked_reply. cbn. destruct (m r) as [o r']; cbn in *. subst o. by apply HQ. Qed.

Lemma wp_call {A} (f : S -> A * S) d r s (Q : Z + A -> Ctx P S -> Prop) :
  Q (inr (f s).1) (mkCtx d r (f s).2) -> wp (call f) (mkCtx d r s) Q.
Proof. unfold wp, call. cbn. by destruct (f s). Qed.

End Wp.

#[export] Hint Resolve emits_puts : wire.

End Ipc.
