(* ===== verification/PolicyParcel.v ===== *)
(** * Quota and access policies in a parcel
    (frameworks/native/netpolicyclient/src/net_quota_policy.cpp, net_access_policy.cpp)

    [Marshalling] and [Unmarshalling] of the two kinds of policies.  The format of
    a quota policy has no place for the time of the last warning, and a receiver
    takes at most 100 policies ([received_quotas]); the parcel of a list is written
    without looking at failures. *)

From S2P Require Import Prelude NetData Parcel ConnParcel Ipc.
Import NetData Parcel Ipc.
Import ConnParcel (list_size, at_most, clip_list, list_items, read_list, consumes_list, clip_at_most).

Module PolicyParcel.

Definition NETMANAGER_ERR_WRITE_REPLY_FAIL : Z := 2100204.
Definition DATA_USAGE_UNKNOWN : Z := -1.
Definition REMIND_NEVER : Z := -1.
Definition LIMIT_ACTION_NONE : Z := -1.
Definition MAX_POLICY_SIZE : Z := 100.
Definition MAX_UNMARSHALLING_SIZE : Z := 65535.

(** ** Quota policies *)

Record NetQuotaPolicy := mkQuotaPolicy {
  netType : Z; simId : string; q_ident : string;
  periodStartTime : Z; periodDuration : string; title : string; summary : string;
  warningBytes : Z; limitBytes : Z; lastWarningRemind : Z; lastLimitRemind : Z; metered : bool;
  source : Z; limitAction : Z; usedBytes : Z; usedTimeDuration : Z; possessor : string;
}.

Definition IsOverWarning (totalQuota : Z) (q : NetQuotaPolicy) : bool := warningBytes q <? totalQuota.
Definition IsOverLimit (totalQuota : Z) (q : NetQuotaPolicy) : bool := limitBytes q <? totalQuota.

(** [NetQuotaPolicy::Reset]. *)
Definition Reset (q : NetQuotaPolicy) : NetQuotaPolicy :=
  mkQuotaPolicy (netType q) (simId q) (q_ident q) (periodStartTime q) "M1" (title q) (summary q) DATA_USAGE_UNKNOWN DATA_USAGE_UNKNOWN
    REMIND_NEVER REMIND_NEVER false (source q) LIMIT_ACTION_NONE (usedBytes q) (usedTimeDuration q) (possessor q).

Section QuotaCodec.
Context {P : Type} `{IParcel P}.

Definition Quota_Marshalling (q : NetQuotaPolicy) : M P unit :=
  WriteInt32 (netType q);;
  WriteString (simId q);;
  WriteInt64 (periodStartTime q);;
  WriteString (periodDuration q);;
  WriteInt64 (warningBytes q);;
  WriteInt64 (limitBytes q);;
  WriteInt64 (lastLimitRemind q);;
  WriteBool (metered q);;
  WriteInt32 (source q);;
  WriteInt32 (limitAction q);;
  WriteString (q_ident q).

(** The fields that are not in the format keep the values of a new object. *)
Definition Quota_Unmarshalling : M P NetQuotaPolicy :=
  netType ← ReadInt32;
  simId ← ReadString;
  periodStartTime ← ReadInt64;
  periodDuration ← ReadString;
  warningBytes ← ReadInt64;
  limitBytes ← ReadInt64;
  lastLimitRemind ← ReadInt64;
  metered ← ReadBool;
  source ← ReadInt32;
  limitAction ← ReadInt32;
  ident ← ReadString;
  mret (mkQuotaPolicy netType simId ident periodStartTime periodDuration "" "" warningBytes limitBytes REMIND_NEVER
          lastLimitRemind metered source limitAction (-1) (-1) "").

Definition Quotas_Marshalling (l : list NetQuotaPolicy) : M P unit :=
  WriteUint32 (list_size l);;
  each (fun q => ignore (Quota_Marshalling q)) l.

(** The policies are pushed to the back of the caller's vector. *)
Definition Quotas_Unmarshalling (quotaPolicies : list NetQuotaPolicy) : M P (list NetQuotaPolicy) :=
  l ← read_list MAX_POLICY_SIZE Quota_Unmarshalling;
  mret (quotaPolicies ++ l).

End QuotaCodec.

Definition Quota_items (q : NetQuotaPolicy) : list Item :=
  [IW32 (u32 (netType q)); IString (simId q); IW64 (u64 (periodStartTime q)); IString (periodDuration q); IW64 (u64 (warningBytes q));
   IW64 (u64 (limitBytes q)); IW64 (u64 (lastLimitRemind q)); IBool (metered q); IW32 (u32 (source q)); IW32 (u32 (limitAction q));
   IString (q_ident q)].

Definition Quota_typed (q : NetQuotaPolicy) : Prop :=
  in_signed 32 (netType q) /\ in_signed 64 (periodStartTime q) /\ in_signed 64 (warningBytes q) /\ in_signed 64 (limitBytes q) /\
  in_signed 64 (lastLimitRemind q) /\ in_signed 32 (source q) /\ in_signed 32 (limitAction q).

(** What is left of a policy, and of a list of them, when it arrives. *)
Definition received_quota (q : NetQuotaPolicy) : NetQuotaPolicy :=
  mkQuotaPolicy (netType q) (simId q) (q_ident q) (periodStartTime q) (periodDuration q) "" "" (warningBytes q) (limitBytes q) REMIND_NEVER
    (lastLimitRemind q) (metered q) (source q) (limitAction q) (-1) (-1) "".
Definition received_quotas (l : list NetQuotaPolicy) : list NetQuotaPolicy := map received_quota (clip_list MAX_POLICY_SIZE l).

(** ** Access policies *)

Record NetworkAccessPolicy := mkAccess { wifiAllow : bool; cellularAllow : bool; wifiSwitchDisable : bool; cellularSwitchDisable : bool }.
Record AccessPolicySave := mkAccessSave { as_policy : NetworkAccessPolicy; uid_policies : gmap Z NetworkAccessPolicy }.
Record AccessPolicyParameter := mkAccessParameter { ap_flag : bool; ap_uid : Z; ap_callingUid : Z }.
Record NetAccessPolicy := mkSelfAccess { allowWiFi : bool; allowCellular : bool }.

Definition sorted_policies (m : gmap Z NetworkAccessPolicy) : list (Z * NetworkAccessPolicy) := sort_by fst (map_to_list m).

Section AccessCodec.
Context {P : Type} `{IParcel P}.

Definition write_access (a : NetworkAccessPolicy) : M P unit :=
  WriteBool (wifiAllow a);;
  WriteBool (cellularAllow a);;
  WriteBool (wifiSwitchDisable a);;
  WriteBool (cellularSwitchDisable a).

Definition read_access : M P NetworkAccessPolicy :=
  wifi ← ReadBool;
  cellular ← ReadBool;
  wifiSwitch ← ReadBool;
  cellularSwitch ← ReadBool;
  mret (mkAccess wifi cellular wifiSwitch cellularSwitch).

(** [NetworkAccessPolicy::Marshalling] and [Unmarshalling] return a code; every
    failure has the same one, [NETMANAGER_ERR_WRITE_REPLY_FAIL]. *)
Definition Access_Marshalling (policies : AccessPolicySave) (flag : bool) : M P unit :=
  if flag then write_access (as_policy policies)
  else if MAX_UNMARSHALLING_SIZE <? Z.of_nat (size (uid_policies policies)) then fail
  else WriteUint32 (Z.of_nat (size (uid_policies policies)));;
       each (fun e => WriteInt32 e.1;; write_access e.2) (sorted_policies (uid_policies policies)).

Definition read_entry : M P (Z * NetworkAccessPolicy) :=
  uid ← ReadUint32;
  a ← read_access;
  mret (uid, a).

(** [insert(std::pair<int32_t, NetworkAccessPolicy>(uid, ...))] into a map with
    unsigned keys, which keeps an entry that is there. *)
Definition insert_entry (m : gmap Z NetworkAccessPolicy) (e : Z * NetworkAccessPolicy) : gmap Z NetworkAccessPolicy :=
  let key := u32 (s32 e.1) in match m !! key with Some _ => m | None => <[key := e.2]> m end.

Definition Access_Unmarshalling (policies : AccessPolicySave) (flag : bool) : M P AccessPolicySave :=
  if flag then a ← read_access; mret (mkAccessSave a (uid_policies policies))
  else n ← ReadUint32;
       if MAX_UNMARSHALLING_SIZE <? n then fail
       else l ← times (Z.to_nat n) read_entry;
            mret (mkAccessSave (as_policy policies) (foldl insert_entry (uid_policies policies) l)).

End AccessCodec.

Definition access_items (a : NetworkAccessPolicy) : list Item :=
  [IBool (wifiAllow a); IBool (cellularAllow a); IBool (wifiSwitchDisable a); IBool (cellularSwitchDisable a)].
Definition entry_items (e : Z * NetworkAccessPolicy) : list Item := IW32 (u32 e.1) :: access_items e.2.
Definition Access_items (policies : AccessPolicySave) (flag : bool) : list Item :=
  if flag then access_items (as_policy policies)
  else list_items entry_items (sorted_policies (uid_policies policies)).

Definition Access_typed (policies : AccessPolicySave) : Prop :=
  (forall uid a, uid_policies policies !! uid = Some a -> in_width 32 uid) /\ Z.of_nat (size (uid_policies policies)) <= MAX_UNMARSHALLING_SIZE.

(** What the caller's object holds after the answer. *)
Definition received_access (mine policies : AccessPolicySave) (flag : bool) : AccessPolicySave :=
  if flag then mkAccessSave (as_policy policies) (uid_policies mine)
  else mkAccessSave (as_policy mine) (uid_policies mine ∪ uid_policies policies).

(** ** The map of the access policies *)

Lemma key_roundtrip uid : in_width 32 uid -> u32 (s32 uid) = uid.
Proof.
  unfold in_width, swrap, wrap. intros Hu. rewrite (Z.mod_small uid) by done.
  destruct (uid <? 2 ^ (32 - 1)); [by rewrite Z.mod_small|].
  replace (uid - 2 ^ 32) with (uid + (-1) * 2 ^ 32) by lia. rewrite Z.mod_add by done. by rewrite Z.mod_small.
Qed.

Lemma insert_entry_union m e : in_width 32 e.1 -> insert_entry m e = m ∪ {[e.1 := e.2]}.
Proof.
  intros He. unfold insert_entry. rewrite key_roundtrip by done. destruct (m !! e.1) as [x|] eqn:E.
  - symmetry. apply map_eq. intros i. rewrite lookup_union. destruct (decide (i = e.1)) as [->|Hi].
    + rewrite E, lookup_singleton_eq. done.
    + rewrite lookup_singleton_ne by done. by destruct (m !! i).
  - apply insert_union_singleton_r. done.
Qed.

Lemma foldl_insert l : forall m, Forall (fun e => in_width 32 e.1) l -> foldl insert_entry m l = m ∪ list_to_map l.
Proof.
  induction l as [|e l IH]; intros m Hl; cbn [foldl]; [by rewrite right_id_L by apply _|]. apply Forall_cons in Hl as [He Hl].
  rewrite IH, insert_entry_union by done. destruct e as [k a]. rewrite list_to_map_cons. cbn [fst snd].
  by rewrite insert_union_singleton_l, assoc_L by apply _.
Qed.

Lemma sorted_policies_map m : list_to_map (sorted_policies m) = m.
Proof.
  rewrite <- (list_to_map_to_list m) at 2. apply list_to_map_proper; [|apply sort_by_Permutation].
  apply (NoDup_Permutation_proper _ _ (fmap_Permutation fst _ _ (sort_by_Permutation fst (map_to_list m)))), NoDup_fst_map_to_list.
Qed.

Lemma sorted_policies_size m : list_size (sorted_policies m) = Z.of_nat (size m).
Proof. unfold list_size, sorted_policies. rewrite (Permutation_length (sort_by_Permutation _ _)). by rewrite length_map_to_list. Qed.

Lemma sorted_policies_typed policies : Access_typed policies -> Forall (fun e => in_width 32 e.1) (sorted_policies (uid_policies policies)).
Proof.
  intros [Ht _]. apply Forall_forall. intros [k a] Hin. unfold sorted_policies in Hin. rewrite sort_by_Permutation in Hin.
  apply elem_of_map_to_list in Hin. by eapply Ht.
Qed.

(** ** What is written is what is read *)

Section Laws.
Context {P : Type} {PI : IParcel P} {PL : ParcelLaws P}.

Lemma Quota_emits q : emits (Quota_Marshalling (P := P) q) (Quota_items q).
Proof. unfold Quota_Marshalling, Quota_items. wire. Qed.

Lemma Quota_consumes q : Quota_typed q -> consumes (Quota_Unmarshalling (P := P)) (Quota_items q) (received_quota q).
Proof.
  intros (? & ? & ? & ? & ? & ? & ?). unfold Quota_Unmarshalling, Quota_items, received_quota. wire.
Qed.

Lemma Quotas_puts l : puts (Quotas_Marshalling (P := P) l) (list_items Quota_items l).
Proof.
  apply (puts_bind _ _ [_]); [apply emits_puts, emits_wr|]. apply puts_each. intros q _. apply puts_ignore, emits_puts, Quota_emits.
Qed.

Lemma access_emits a : emits (write_access (P := P) a) (access_items a).
Proof. unfold write_access, access_items. wire. Qed.

Lemma access_consumes a : consumes (read_access (P := P)) (access_items a) a.
Proof. unfold read_access, access_items. destruct a. cbn. wire. Qed.

Lemma entry_consumes e : in_width 32 e.1 -> consumes (read_entry (P := P)) (entry_items e) e.
Proof.
  intros He. unfold read_entry, entry_items. wire. rewrite <- (app_nil_r (access_items e.2)).
  eapply consumes_bind; [apply access_consumes|]. destruct e. apply consumes_ret.
Qed.

Lemma Quotas_split l : list_items Quota_items l =
  (IW32 (u32 (list_size l)) :: flat_map Quota_items (clip_list MAX_POLICY_SIZE l)) ++ flat_map Quota_items (drop (Z.to_nat MAX_POLICY_SIZE) l).
Proof. unfold list_items, clip_list. cbn [app]. rewrite <- flat_map_app. by rewrite take_drop. Qed.

(** The receiver reads at most a hundred policies and leaves the rest. *)
Lemma Quotas_consumes mine l : Forall Quota_typed l -> in_width 32 (list_size l) ->
  consumes (Quotas_Unmarshalling (P := P) mine) (IW32 (u32 (list_size l)) :: flat_map Quota_items (clip_list MAX_POLICY_SIZE l))
    (mine ++ received_quotas l).
Proof.
  intros Hl Hn. apply (consumes_last _ (app mine)). unfold read_list. wire_step. cbn beta.
  replace (Z.to_nat (at_most MAX_POLICY_SIZE (list_size l))) with (length (received_quotas l)).
  - unfold received_quotas. assert (Hc : Forall Quota_typed (clip_list MAX_POLICY_SIZE l)) by (by apply Forall_take).
    induction Hc as [|q k Hq _ IH]; cbn [map length times flat_map]; [apply consumes_ret|]. eapply consumes_bind; [by apply Quota_consumes|].
    rewrite <- (app_nil_r (flat_map _ k)). eapply consumes_bind; [apply IH|apply consumes_ret].
  - unfold received_quotas, clip_list, at_most, list_size. rewrite length_map, length_take.
    destruct (Z.ltb_spec MAX_POLICY_SIZE (Z.of_nat (length l))); lia.
Qed.

Lemma Access_emits policies flag : Access_typed policies -> emits (Access_Marshalling (P := P) policies flag) (Access_items policies flag).
Proof.
  intros [Ht Hn]. unfold Access_Marshalling, Access_items. destruct flag; [apply access_emits|].
  rewrite (proj2 (Z.ltb_ge _ _)) by done. rewrite <- sorted_policies_size. apply emits_cons, emits_each. intros e _.
  apply emits_cons, access_emits.
Qed.

Lemma Access_consumes mine policies flag : Access_typed policies ->
  consumes (Access_Unmarshalling (P := P) mine flag) (Access_items policies flag) (received_access mine policies flag).
Proof.
  intros Hty. pose proof (sorted_policies_typed _ Hty) as Hs. destruct Hty as [_ Hn].
  unfold Access_Unmarshalling, Access_items, received_access. destruct flag.
  { rewrite <- (app_nil_r (access_items _)). eapply consumes_bind; [apply access_consumes|apply consumes_ret]. }
  unfold list_items. rewrite sorted_policies_size. eapply consumes_cons; [apply consumes_u32; unfold in_width, MAX_UNMARSHALLING_SIZE in *; lia|].
  cbn beta. rewrite (proj2 (Z.ltb_ge _ _)) by done. rewrite <- sorted_policies_size. unfold list_size. rewrite Nat2Z.id.
  rewrite <- (app_nil_r (flat_map _ _)). eapply consumes_bind.
  - apply consumes_times. intros e He. rewrite Forall_forall in Hs. by apply entry_consumes, Hs.
  - rewrite foldl_insert by done. rewrite sorted_policies_map. apply consumes_ret.
Qed.

End Laws.

(** ** What is lost *)

(** A quota policy that was sent and is sent again arrives as the first time: only the first transfer loses fields. *)
Lemma received_quota_idem q : received_quota (received_quota q) = received_quota q.
Proof. done. Qed.

Definition example_quota : NetQuotaPolicy :=
  mkQuotaPolicy 0 "sim" "" 0 "M1" "" "" 100 200 150 0 true 0 0 0 0 "".

(** The time of the last warning does not travel. *)
Lemma warning_time_lost : lastWarningRemind (received_quota example_quota) <> lastWarningRemind example_quota.
Proof. done. Qed.

(** Writing 400 policies into a parcel that has room for 372 reports a success, and the size it has written promises all. *)
Lemma quotas_written_in_part :
  let r := Quotas_Marshalling (P := Queue) (replicate 400 example_quota) new_parcel in
  r.1 = Some tt /\ head (q_written r.2) = Some (IW32 400) /\ Z.of_nat (length (q_written r.2)) = QUEUE_CAPACITY.
Proof. vm_compute. by split_and!. Qed.

End PolicyParcel.
