(* ===== verification/CTime.v ===== *)
(** * The calendar of the C library

    [localtime_r] and [mktime] as the quotas use them (net_quota_policy.cpp): the
    Gregorian calendar, with a time zone that is a fixed number of seconds east of
    UTC.  [mktime] takes the day and the time of day as they are, in range or not,
    and ignores the day of the year.

    A date is counted in eras of 400 years that begin on the first of March
    ([civil_from_days], [days_from_civil]); [days_from_civil_from_days] says that
    both agree. *)

From S2P Require Import Prelude.

Module CTime.

Definition DAY : Z := 86400.

(** [struct tm]: [tm_mon] counts from 0, [tm_year] from 1900. *)
Record tm := mkTm {
  tm_sec : Z; tm_min : Z; tm_hour : Z; tm_mday : Z; tm_mon : Z; tm_year : Z; tm_yday : Z
}.

(** ** Dates *)

(** Days of an era before a year of it, and of a year (from March) before a month. *)
Definition before_year (yoe : Z) : Z := 365 * yoe + yoe / 4 - yoe / 100.
Definition before_month (mp : Z) : Z := (153 * mp + 2) / 5.

Definition year_of_era (doe : Z) : Z := (doe - doe / 1460 + doe / 36524 - doe / 146096) / 365.
Definition month_of_year (doy : Z) : Z := (5 * doy + 2) / 153.

(** The day of era of a year, month (from March) and day. *)
Definition day_of_era (yoe mp d : Z) : Z := before_year yoe + before_month mp + d - 1.

(** Days since 1970-01-01 of the day [d] of month [m] of year [y]. *)
Definition days_from_civil (y m d : Z) : Z :=
  let y := if m <=? 2 then y - 1 else y in
  let mp := if m <=? 2 then m + 9 else m - 3 in
  y / 400 * 146097 + day_of_era (y mod 400) mp d - 719468.

Definition civil_from_days (days : Z) : Z * Z * Z :=
  let z := days + 719468 in
  let doe := z mod 146097 in
  let yoe := year_of_era doe in
  let doy := doe - before_year yoe in
  let mp := month_of_year doy in
  let m := if mp <? 10 then mp + 3 else mp - 9 in
  (z / 146097 * 400 + yoe + (if m <=? 2 then 1 else 0), m, doy - before_month mp + 1).

(** [year_of_era] grows by at most one a day, so it is enough to look at the first and the last day of each year. *)

Lemma year_step x : 0 <= x < 146096 -> year_of_era x <= year_of_era (x + 1).
Proof. intros Hx. unfold year_of_era. apply Z.div_le_mono; [lia|]. div_mod_lia. Qed.

Lemma year_mono x y : 0 <= x <= y -> y < 146097 -> year_of_era x <= year_of_era y.
Proof.
  intros Hx Hy. replace y with (x + (y - x)) by lia. remember (y - x) as k eqn:Ek. assert (Hk : 0 <= k) by lia.
  assert (Hb : x + k < 146097) by lia. clear Ek Hy. revert Hb. pattern k. apply natlike_ind; [by rewrite Z.add_0_r| |done].
  intros n Hn IH Hb. etransitivity; [apply IH; lia|]. replace (x + Z.succ n) with (x + n + 1) by lia. apply year_step. lia.
Qed.

(** The last year of an era has its leap day at the end of the era. *)
Definition year_end (yoe : Z) : Z := if yoe =? 399 then 146096 else before_year (yoe + 1) - 1.

Definition year_ok (yoe : Z) : bool :=
  (year_of_era (before_year yoe) =? yoe) && (year_of_era (year_end yoe) =? yoe) && (year_end yoe - before_year yoe <=? 365)
  && (0 <=? before_year yoe) && (year_end yoe <? 146097).

Lemma years_ok yoe : 0 <= yoe < 400 -> year_ok yoe = true.
Proof. apply (all_below_spec 400). vm_compute. reflexivity. Qed.

Definition day_ok (doy : Z) : bool :=
  let mp := month_of_year doy in
  let d := doy - before_month mp + 1 in
  (0 <=? mp) && (mp <? 12) && (1 <=? d) && (d <=? 31).

Lemma days_ok doy : 0 <= doy < 366 -> day_ok doy = true.
Proof. apply (all_below_spec 366). vm_compute. reflexivity. Qed.

Lemma year_found doe n : 0 <= doe -> doe <= year_end (Z.of_nat n) -> exists yoe, 0 <= yoe <= Z.of_nat n /\ before_year yoe <= doe <= year_end yoe.
Proof.
  intros H0. induction n as [|n IH]; intros Hd; [exists 0; split; [lia|done]|].
  destruct (Z_lt_le_dec doe (before_year (Z.of_nat (S n)))) as [Hl|Hl]; [|exists (Z.of_nat (S n)); split; [lia|done]].
  destruct IH as (yoe & Hy & Hb); [|exists yoe; split; [lia|done]].
  unfold year_end. rewrite Nat2Z.inj_succ, <- Z.add_1_r in Hl. destruct (Z.eqb_spec (Z.of_nat n) 399) as [E|_]; [|lia].
  rewrite E in Hl. change (before_year (399 + 1)) with 146096 in Hl. lia.
Qed.

Lemma year_of_era_spec doe : 0 <= doe < 146097 -> let yoe := year_of_era doe in 0 <= yoe < 400 /\ 0 <= doe - before_year yoe < 366.
Proof.
  intros Hd. cbv zeta. destruct (year_found doe 399 ltac:(lia)) as (yoe & Hy & Hb); [change (year_end (Z.of_nat 399)) with 146096; lia|].
  pose proof (years_ok yoe ltac:(lia)) as Hok. unfold year_ok in Hok. rewrite !andb_true_iff, ?Z.leb_le, ?Z.ltb_lt, ?Z.eqb_eq in Hok. destruct_and!.
  pose proof (year_mono (before_year yoe) doe ltac:(lia) ltac:(lia)). pose proof (year_mono doe (year_end yoe) ltac:(lia) ltac:(lia)).
  replace (year_of_era doe) with yoe by lia. lia.
Qed.

Lemma days_from_civil_from_days days : let '(y, m, d) := civil_from_days days in
  days_from_civil y m d = days /\ 1 <= m <= 12 /\ 1 <= d <= 31.
Proof.
  unfold civil_from_days. set (z := days + 719468). destruct (year_of_era_spec (z mod 146097) (Z.mod_pos_bound z 146097 ltac:(lia))) as [Hyoe Hdoy].
  apply days_ok in Hdoy as H. unfold day_ok in H. set (doe := z mod 146097) in *. set (yoe := year_of_era doe) in *. set (doy := doe - before_year yoe) in *.
  set (mp := month_of_year doy) in *. rewrite !andb_true_iff, ?Z.leb_le, ?Z.ltb_lt in H. destruct_and!.
  assert (Hz : z = z / 146097 * 146097 + doe) by (unfold doe; rewrite Z.mul_comm; apply Z.div_mod; lia).
  assert (Hy : forall e, (e * 400 + yoe) / 400 = e /\ (e * 400 + yoe) mod 400 = yoe).
  { intros e. split; [symmetry; apply (Z.div_unique _ _ _ yoe); lia|symmetry; apply (Z.mod_unique _ _ e); lia]. }
  destruct (Hy (z / 146097)) as [E1 E2]. unfold days_from_civil, day_of_era.
  destruct (Z.ltb_spec mp 10) as [Hm|Hm].
  - rewrite (proj2 (Z.leb_gt (mp + 3) 2)) by lia. replace (mp + 3 - 3) with mp by lia. rewrite Z.add_0_r, E1, E2.
    split_and!; [unfold z, doy in *; lia|lia..].
  - rewrite (proj2 (Z.leb_le (mp - 9) 2)) by lia. replace (mp - 9 + 9) with mp by lia. rewrite Z.add_simpl_r, E1, E2.
    split_and!; [unfold z, doy in *; lia|lia..].
Qed.

(** The day of the month is a plain number. *)
Lemma days_from_civil_day y m d : days_from_civil y m d = days_from_civil y m 1 + (d - 1).
Proof. unfold days_from_civil, day_of_era. lia. Qed.

(** ** Times *)

Definition localtime (zone t : Z) : tm :=
  let s := t + zone in
  let '(y, m, d) := civil_from_days (s / DAY) in
  let r := s mod DAY in
  mkTm (r mod 60) (r / 60 mod 60) (r / 3600) d (m - 1) (y - 1900) (s / DAY - days_from_civil y 1 1).

Definition mktime (zone : Z) (t : tm) : Z :=
  (days_from_civil (tm_year t + 1900 + tm_mon t / 12) (tm_mon t mod 12 + 1) 1 + (tm_mday t - 1)) * DAY
  + tm_hour t * 3600 + tm_min t * 60 + tm_sec t - zone.

Definition day_start (zone t : Z) : Z := (t + zone) / DAY * DAY - zone.

Lemma day_start_before zone t : day_start zone t <= t < day_start zone t + DAY.
Proof. unfold day_start, DAY. pose proof (Z.div_mod (t + zone) 86400). pose proof (Z.mod_pos_bound (t + zone) 86400). lia. Qed.

(** Any day and time of the month of [t]. *)
Lemma mktime_month zone t mday hour min sec yday :
  let l := localtime zone t in
  mktime zone (mkTm sec min hour mday (tm_mon l) (tm_year l) yday) =
  day_start zone t + (mday - tm_mday l) * DAY + hour * 3600 + min * 60 + sec.
Proof.
  cbv zeta. unfold localtime, mktime, day_start. pose proof (days_from_civil_from_days ((t + zone) / DAY)) as H.
  destruct (civil_from_days ((t + zone) / DAY)) as [[y m] d]. destruct H as (E & Hm & _). cbn [tm_mon tm_year tm_mday tm_hour tm_min tm_sec].
  rewrite (Z.div_small (m - 1)), (Z.mod_small (m - 1)) by lia. replace (y - 1900 + 1900 + 0) with y by lia.
  replace (m - 1 + 1) with m by lia. rewrite (days_from_civil_day y m d) in E. unfold DAY in *. lia.
Qed.

Lemma mktime_localtime zone t : mktime zone (localtime zone t) = t.
Proof.
  pose proof (mktime_month zone t (tm_mday (localtime zone t)) (tm_hour (localtime zone t)) (tm_min (localtime zone t))
    (tm_sec (localtime zone t)) (tm_yday (localtime zone t))) as H.
  cbv zeta in H. destruct (localtime zone t) as [sec min hour mday mon year yday] eqn:E. cbn in H. rewrite H.
  unfold localtime in E. destruct (civil_from_days _) as [[y m] d]. injection E as <- <- <- <- <- <- <-. unfold day_start, DAY.
  pose proof (Z.div_mod (t + zone) 86400 ltac:(lia)). set (r := (t + zone) mod 86400) in *.
  pose proof (Z.mod_pos_bound (t + zone) 86400 ltac:(lia)). fold r in H1. clear H. div_mod_lia.
Qed.

Lemma tm_mday_range zone t : 1 <= tm_mday (localtime zone t) <= 31.
Proof. unfold localtime. pose proof (days_from_civil_from_days ((t + zone) / DAY)) as H. destruct (civil_from_days _) as [[y m] d]. apply H. Qed.

(** 2024-02-29 12:34:56 UTC. *)
Example leap_day : localtime 0 1709210096 = mkTm 56 34 12 29 1 124 59.
Proof. vm_compute. reflexivity. Qed.

End CTime.
