(* ===== verification/NumText.v ===== *)
(** * Numbers as text
    (utils/common_utils/src/netmanager_base_common_utils.cpp)

    [CommonUtils::StrToInt], [StrToLong] and [StrToBool] with the [std::from_chars],
    [strtoll] and [strtoul] they call, and [std::to_string] of a signed number;
    [StrToUint] is in [PolicyFile].  [strtoll] is called with base 0: a leading
    zero makes the number octal.  What [to_string] prints is read back
    ([StrToInt_to_string], [StrToLong_to_string]). *)

From stdpp Require Import pretty.
From Stdlib Require Import Ascii String.
From S2P Require Import Prelude PolicyFile.

Module NumText.

(** [std::to_string] of a signed number. *)
Definition to_string (z : Z) : string := if z <? 0 then "-" +:+ PolicyFile.to_string (- z) else PolicyFile.to_string z.

(** [std::from_chars] of a signed number that must use the whole text: a minus, digits. *)
Definition from_chars (s : string) : option Z :=
  match s with
  | EmptyString => None
  | String c s' =>
      if Ascii.eqb c "-" then match s' with EmptyString => None | _ => Z.opp <$> PolicyFile.parse_digits s' 0 end
      else PolicyFile.parse_digits s 0
  end.

Definition StrToInt (value : string) (defaultErr : Z) : Z :=
  match from_chars value with
  | Some n => if (- 2 ^ 31 <=? n) && (n <? 2 ^ 31) then n else defaultErr
  | None => defaultErr
  end.

(** ** [strtoll] and [strtoul] with base 0 *)

Definition isspace (c : ascii) : bool := let n := Z.of_nat (nat_of_ascii c) in (n =? 32) || ((9 <=? n) && (n <=? 13)).

Fixpoint skip_space (s : string) : string :=
  match s with String c s' => if isspace c then skip_space s' else s | EmptyString => "" end.

Definition digit_val (c : ascii) : option Z :=
  let n := Z.of_nat (nat_of_ascii c) in
  if (48 <=? n) && (n <=? 57) then Some (n - 48)
  else if (97 <=? n) && (n <=? 122) then Some (n - 87)
  else if (65 <=? n) && (n <=? 90) then Some (n - 55)
  else None.

Definition is_digit (base : Z) (c : ascii) : bool := match digit_val c with Some d => d <? base | None => false end.

Fixpoint digits_in (base : Z) (s : string) (acc : Z) : Z :=
  match s with
  | String c s => match digit_val c with Some d => if d <? base then digits_in base s (acc * base + d) else acc | None => acc end
  | EmptyString => acc
  end.

Definition starts_digit (base : Z) (s : string) : bool := match s with String c _ => is_digit base c | EmptyString => false end.

(** The prefix decides the base; [0x] without a digit is a zero. *)
Definition magnitude (s : string) : option Z :=
  match s with
  | EmptyString => None
  | String c s' =>
      if Ascii.eqb c "0" then
        match s' with
        | String x s'' => if (Ascii.eqb x "x" || Ascii.eqb x "X") && starts_digit 16 s'' then Some (digits_in 16 s'' 0) else Some (digits_in 8 s 0)
        | EmptyString => Some 0
        end
      else if starts_digit 10 s then Some (digits_in 10 s 0) else None
  end.

Definition conversion (s : string) : option Z :=
  match skip_space s with
  | String c s' =>
      if Ascii.eqb c "-" then Z.opp <$> magnitude s' else if Ascii.eqb c "+" then magnitude s' else magnitude (String c s')
  | EmptyString => None
  end.

(** Out of range is [ERANGE]. *)
Definition StrToLong (value : string) (defaultErr : Z) : Z :=
  match conversion value with
  | Some n => if (- 2 ^ 63 <=? n) && (n <? 2 ^ 63) then n else defaultErr
  | None => defaultErr
  end.

(** [strtoul] negates a number with a minus as an unsigned one. *)
Definition StrToBool (value : string) (defaultErr : bool) : bool :=
  match conversion value with
  | Some n =>
      if 2 ^ 64 <=? Z.abs n then defaultErr
      else if 2 ^ 32 - 1 <? u64 n then defaultErr
      else negb (u64 n =? 0)
  | None => defaultErr
  end.

(** ** What is printed is read *)

Lemma digit_cases x : (x < 10)%N -> (x = 0 \/ x = 1 \/ x = 2 \/ x = 3 \/ x = 4 \/ x = 5 \/ x = 6 \/ x = 7 \/ x = 8 \/ x = 9)%N.
Proof. lia. Qed.

Lemma digits_in_go x : forall s, digits_in 10 (pretty_N_go x s) 0 = digits_in 10 s (Z.of_N x).
Proof.
  induction (N.lt_wf_0 x) as [x _ IH]; intros s. destruct (decide (x = 0)%N) as [->|Hx]; [by rewrite pretty_N_go_0|].
  rewrite pretty_N_go_step by lia. rewrite IH by (apply N.div_lt; lia).
  assert (Hd : forall d acc, (d < 10)%N -> digits_in 10 (String (pretty_N_char d) s) acc = digits_in 10 s (acc * 10 + Z.of_N d)).
  { intros d acc Hd. destruct (digit_cases d Hd) as [->|[->|[->|[->|[->|[->|[->|[->|[->| ->]]]]]]]]]; reflexivity. }
  rewrite Hd by (apply N.mod_lt; lia). f_equal. pose proof (N.div_mod x 10). lia.
Qed.

(** A number above zero does not begin with a zero, a sign or a blank. *)
Lemma pretty_head x : (x <> 0)%N -> forall s, exists d s', (0 < d < 10)%N /\ pretty_N_go x s = String (pretty_N_char d) s'.
Proof.
  induction (N.lt_wf_0 x) as [x _ IH]; intros Hx s. rewrite pretty_N_go_step by lia.
  destruct (decide (x / 10 = 0)%N) as [E|E].
  - rewrite E, pretty_N_go_0. eexists _, s. split; [|done]. pose proof (N.div_mod x 10). pose proof (N.mod_lt x 10). lia.
  - apply IH; [apply N.div_lt; lia|done].
Qed.

(** What a text of a positive number begins with. *)
Lemma positive_text z : 0 < z -> exists c s, PolicyFile.to_string z = String c s /\
  Ascii.eqb c "0" = false /\ Ascii.eqb c "-" = false /\ Ascii.eqb c "+" = false /\ isspace c = false /\ is_digit 10 c = true.
Proof.
  intros Hz. unfold PolicyFile.to_string, pretty, pretty_N. rewrite decide_False by lia.
  destruct (pretty_head (Z.to_N z) ltac:(lia) "") as (d & s & Hd & ->). eexists _, _. split; [done|].
  assert (Hc : (d = 1 \/ d = 2 \/ d = 3 \/ d = 4 \/ d = 5 \/ d = 6 \/ d = 7 \/ d = 8 \/ d = 9)%N) by lia.
  by destruct Hc as [->|[->|[->|[->|[->|[->|[->|[->| ->]]]]]]]].
Qed.

Lemma digits_in_text z : 0 <= z -> digits_in 10 (PolicyFile.to_string z) 0 = z.
Proof.
  intros Hz. unfold PolicyFile.to_string, pretty, pretty_N. case_decide as E; [|rewrite digits_in_go; cbn; lia].
  assert (z = 0) as -> by lia. done.
Qed.

Lemma magnitude_text z : 0 <= z -> magnitude (PolicyFile.to_string z) = Some z.
Proof.
  intros Hz. destruct (decide (z = 0)) as [->|Hne]; [done|]. destruct (positive_text z ltac:(lia)) as (c & s & E & E0 & _ & _ & _ & Ed).
  pose proof (digits_in_text z Hz) as Hv. rewrite E in *. unfold magnitude. rewrite E0. cbn [starts_digit]. rewrite Ed. by rewrite Hv.
Qed.

Lemma conversion_text z : conversion (to_string z) = Some z.
Proof.
  unfold to_string. destruct (Z.ltb_spec z 0) as [Hz|Hz].
  - change (Z.opp <$> magnitude (PolicyFile.to_string (- z)) = Some z). rewrite magnitude_text by lia. cbn. f_equal. lia.
  - destruct (decide (z = 0)) as [->|Hne]; [done|]. pose proof (magnitude_text z Hz) as Hm.
    destruct (positive_text z ltac:(lia)) as (c & s & E & _ & Em & Ep & Es & _). rewrite E in *. unfold conversion. cbn [skip_space].
    by rewrite Es, Em, Ep.
Qed.

Lemma StrToLong_to_string z d : - 2 ^ 63 <= z < 2 ^ 63 -> StrToLong (to_string z) d = z.
Proof.
  intros Hz. unfold StrToLong. rewrite conversion_text. by rewrite (proj2 (Z.leb_le _ _)), (proj2 (Z.ltb_lt _ _)) by lia.
Qed.

Lemma StrToBool_to_string b d : StrToBool (to_string (Z.b2z b)) d = b.
Proof. by destruct b. Qed.

Lemma parse_text z : 0 <= z -> PolicyFile.parse_digits (PolicyFile.to_string z) 0 = Some z.
Proof.
  intros Hz. unfold PolicyFile.to_string, pretty, pretty_N. case_decide as E; [|rewrite PolicyFile.parse_go; cbn; f_equal; lia].
  assert (z = 0) as -> by lia. done.
Qed.

Lemma StrToInt_to_string z d : - 2 ^ 31 <= z < 2 ^ 31 -> StrToInt (to_string z) d = z.
Proof.
  intros Hz. assert (E : from_chars (to_string z) = Some z).
  { unfold to_string. destruct (Z.ltb_spec z 0) as [Hn|Hn].
    - change ("-" +:+ PolicyFile.to_string (- z)) with (String "-" (PolicyFile.to_string (- z))). cbn.
      pose proof (parse_text (- z) ltac:(lia)) as Hp. destruct (positive_text (- z) ltac:(lia)) as (c & s & E & _). rewrite E in *.
      rewrite Hp. cbn. f_equal. lia.
    - destruct (decide (z = 0)) as [->|Hne]; [done|]. pose proof (parse_text z Hn) as Hp.
      destruct (positive_text z ltac:(lia)) as (c & s & E & _ & Em & _). rewrite E in *. cbn [from_chars]. by rewrite Em. }
  unfold StrToInt. rewrite E. by rewrite (proj2 (Z.leb_le _ _)), (proj2 (Z.ltb_lt _ _)) by lia.
Qed.

Lemma signed_to_string_inj y z : to_string y = to_string z -> y = z.
Proof. intros E. pose proof (conversion_text y) as Hy. rewrite E, conversion_text in Hy. by injection Hy. Qed.

(** Text with a leading zero is read as octal, and as nothing after an eight. *)
Example leading_zero : StrToLong "010" (-1) = 8 /\ StrToLong "08" (-1) = 0 /\ StrToInt "010" (-1) = 10.
Proof. by vm_compute. Qed.

End NumText.
