(* ===== verification/PolicyRule.v ===== *)
(** * Network rules of the applications
    (services/netpolicymanager/src/core/net_policy_rule.cpp)

    Every application with a policy has a rule, computed from its policy and the
    state of the device (idle, power save, background restriction, foreground):
    the conditions are collected in a bit mask, the first row of a table whose
    conditions all hold gives the rule and the operation on the lists of the
    native service.

    The native service is the interface [PolicyNetsys]; the file is [PolicyFile].
    [trans_decision] says what the table decides, [policy_agrees] that the lists
    of the native service always follow the rules, and [metered_enforced], with
    the native service of [NativeNetsys] and the packet filter behind it, that
    the answer of [IsUidNetAllowed] is what happens to the packets. *)

From S2P Require Import Prelude NetData Iptables BandwidthManager FirewallManager PolicyNetsys NativeNetsys PolicyFile PolicyParcel.
Import NetData PolicyNetsys NativeNetsys PolicyFile.

Module PolicyRule.

(** ** Constants *)

Definition POLICY_ERR_INVALID_POLICY : Z := 2104003.

(** [enum NetUidRule]. *)
Definition NET_RULE_NONE : Z := 0.
Definition NET_RULE_ALLOW_METERED_FOREGROUND : Z := 1.
Definition NET_RULE_ALLOW_METERED : Z := 2.
Definition NET_RULE_REJECT_METERED : Z := 4.
Definition NET_RULE_ALLOW_ALL : Z := 32.
Definition NET_RULE_REJECT_ALL : Z := 64.

(** [enum NetBackgroundPolicy]. *)
Definition NET_BACKGROUND_POLICY_ENABLE : Z := 1.
Definition NET_BACKGROUND_POLICY_DISABLE : Z := 2.
Definition NET_BACKGROUND_POLICY_TRUSTLIST : Z := 3.

(** [enum PolicyTransCondition]. *)
Definition POLICY_TRANS_CONDITION_UID_POLICY_NONE : Z := 1.
Definition POLICY_TRANS_CONDITION_FOREGROUND : Z := 8.
Definition POLICY_TRANS_CONDITION_BACKGROUND_RESTRICT : Z := 16.
Definition POLICY_TRANS_CONDITION_IDLE_ALLOWEDLIST : Z := 32.
Definition POLICY_TRANS_CONDITION_IDLE_MODE : Z := 64.
Definition POLICY_TRANS_CONDITION_POWERSAVE_ALLOWEDLIST : Z := 128.
Definition POLICY_TRANS_CONDITION_POWERSAVE_MODE : Z := 256.
Definition POLICY_TRANS_CONDITION_ADMIN_RESTRICT : Z := 512.

Definition POLICY_TRANS_CONDITION_MASK : Z := 1047552.
Definition POLICY_TRANS_RULE_MASK : Z := 1016.
Definition POLICY_TRANS_NET_CTRL_MASK : Z := 7.
Definition CONDITION_START_BIT : Z := 10.
Definition RULE_START_BIT : Z := 3.

(** [enum PolicyTransCtrl]. *)
Definition POLICY_TRANS_CTRL_NONE : Z := 0.
Definition POLICY_TRANS_CTRL_REMOVE_ALL : Z := 1.
Definition POLICY_TRANS_CTRL_ADD_DENIEDLIST : Z := 2.
Definition POLICY_TRANS_CTRL_ADD_ALLOWEDLIST : Z := 4.

(** Ten bits of conditions, seven of the rule, three of the operation; the source
    writes the rows in binary. *)
Definition POLICY_TRANS_MAP : list Z :=
  [98560; 524322; 66048; 10260;
   12300; 9228; 262656; 18452;
   17442; 1025; 4130; 1].

(** [NetPolicyEventHandler::MSG_...]. *)
Definition MSG_DEVICE_IDLE_LIST_UPDATED : Z := 1.
Definition MSG_DEVICE_IDLE_MODE_CHANGED : Z := 2.
Definition MSG_POWER_SAVE_MODE_CHANGED : Z := 3.
Definition MSG_UID_REMOVED : Z := 4.
Definition MSG_POWER_SAVE_LIST_UPDATED : Z := 5.
Definition MSG_UID_STATE_FOREGROUND : Z := 6.
Definition MSG_UID_STATE_BACKGROUND : Z := 7.

(** The senders of events. *)
Inductive Core := CoreTraffic | CoreFirewall | CoreRule.
#[global] Instance Core_eq_dec : EqDecision Core.
Proof. solve_decision. Defined.

Record PolicyEvent := mkEvent {
  ev_id : Z; ev_sender : option Core; deviceIdleMode : bool; deviceIdleList : gset Z; powerSaveMode : bool;
  powerSaveList : gset Z; deletedUid : Z; ev_uid : Z
}.

(** ** State *)

Record UidPolicyRule := mkUidRule { policy_ : Z; rule_ : Z; netsys_ : Z }.

Record NetPolicyRule := mkRuleState {
  uidPolicyRules_ : gmap Z UidPolicyRule;
  backgroundAllow_ : bool;
  deviceIdleMode_ : bool;
  powerSaveMode_ : bool;
  deviceIdleAllowedList_ : gset Z;
  powerSaveAllowedList_ : gset Z;
  foregroundUidList_ : gset Z
}.

Definition new_NetPolicyRule : NetPolicyRule := mkRuleState ∅ true false false ∅ ∅ ∅.

Definition set_rules_ x s := mkRuleState x (backgroundAllow_ s) (deviceIdleMode_ s) (powerSaveMode_ s)
  (deviceIdleAllowedList_ s) (powerSaveAllowedList_ s) (foregroundUidList_ s).
Definition set_backgroundAllow_ x s := mkRuleState (uidPolicyRules_ s) x (deviceIdleMode_ s) (powerSaveMode_ s)
  (deviceIdleAllowedList_ s) (powerSaveAllowedList_ s) (foregroundUidList_ s).
Definition set_deviceIdleMode_ x s := mkRuleState (uidPolicyRules_ s) (backgroundAllow_ s) x (powerSaveMode_ s)
  (deviceIdleAllowedList_ s) (powerSaveAllowedList_ s) (foregroundUidList_ s).
Definition set_powerSaveMode_ x s := mkRuleState (uidPolicyRules_ s) (backgroundAllow_ s) (deviceIdleMode_ s) x
  (deviceIdleAllowedList_ s) (powerSaveAllowedList_ s) (foregroundUidList_ s).
Definition set_deviceIdleAllowedList_ x s := mkRuleState (uidPolicyRules_ s) (backgroundAllow_ s) (deviceIdleMode_ s)
  (powerSaveMode_ s) x (powerSaveAllowedList_ s) (foregroundUidList_ s).
Definition set_powerSaveAllowedList_ x s := mkRuleState (uidPolicyRules_ s) (backgroundAllow_ s) (deviceIdleMode_ s)
  (powerSaveMode_ s) (deviceIdleAllowedList_ s) x (foregroundUidList_ s).
Definition set_foregroundUidList_ x s := mkRuleState (uidPolicyRules_ s) (backgroundAllow_ s) (deviceIdleMode_ s)
  (powerSaveMode_ s) (deviceIdleAllowedList_ s) (powerSaveAllowedList_ s) x.

(** What the callbacks are told. *)
Inductive Note :=
| NetUidPolicyChange (uid policy : Z)
| NetUidRuleChange (uid rule : Z)
| NetBackgroundPolicyChange (allow : bool)
| NetQuotaPolicyChange (quotaPolicies : list PolicyParcel.NetQuotaPolicy)
| NetMeteredIfacesChange (ifaces : list string).

Record World (W : Type) := mkWorld { netsys : W; file : NetPolicyFile; notes : list Note }.
Arguments mkWorld {W}.
Arguments netsys {W}.
Arguments file {W}.
Arguments notes {W}.

(** ** The table *)

Definition MoveToConditionBit (value : Z) : Z := Z.shiftr value CONDITION_START_BIT.
Definition MoveToRuleBit (value : Z) : Z := Z.shiftr value RULE_START_BIT.

Definition ChangePolicyToPolicyTransitionCondition (policy : Z) : Z :=
  if policy =? NET_POLICY_NONE then POLICY_TRANS_CONDITION_UID_POLICY_NONE else u32 (Z.shiftl policy 1).

Definition row_matches (policyCondition row : Z) : bool :=
  let condition := MoveToConditionBit (Z.land row POLICY_TRANS_CONDITION_MASK) in
  Z.land policyCondition condition =? condition.

(** The first row that matches; the last one when none does. *)
Definition GetMatchTransCondition (policyCondition : Z) : Z :=
  match List.find (row_matches policyCondition) POLICY_TRANS_MAP with
  | Some i => i
  | None => List.last POLICY_TRANS_MAP 0
  end.

Definition IsIdleMode (s : NetPolicyRule) : bool := deviceIdleMode_ s.
Definition InIdleAllowedList (uid : Z) (s : NetPolicyRule) : bool := bool_decide (uid ∈ deviceIdleAllowedList_ s).
Definition IsLimitByAdmin (s : NetPolicyRule) : bool := false.
Definition IsForeground (uid : Z) (s : NetPolicyRule) : bool := bool_decide (uid ∈ foregroundUidList_ s).
Definition IsPowerSave (s : NetPolicyRule) : bool := powerSaveMode_ s.
Definition InPowerSaveAllowedList (uid : Z) (s : NetPolicyRule) : bool := bool_decide (uid ∈ powerSaveAllowedList_ s).
Definition IsLimitedBackground (s : NetPolicyRule) : bool := negb (backgroundAllow_ s).

Definition or_if (b : bool) (bit mask : Z) : Z := if b then Z.lor mask bit else mask.

Definition BuildTransCondition (uid policy : Z) (s : NetPolicyRule) : Z :=
  let policyCondition := ChangePolicyToPolicyTransitionCondition policy in
  let policyCondition := or_if (IsIdleMode s) POLICY_TRANS_CONDITION_IDLE_MODE policyCondition in
  let policyCondition := or_if (InIdleAllowedList uid s) POLICY_TRANS_CONDITION_IDLE_ALLOWEDLIST policyCondition in
  let policyCondition := or_if (IsLimitByAdmin s) POLICY_TRANS_CONDITION_ADMIN_RESTRICT policyCondition in
  let policyCondition := or_if (IsPowerSave s) POLICY_TRANS_CONDITION_POWERSAVE_MODE policyCondition in
  let policyCondition := or_if (InPowerSaveAllowedList uid s) POLICY_TRANS_CONDITION_POWERSAVE_ALLOWEDLIST policyCondition in
  let policyCondition := or_if (IsLimitedBackground s) POLICY_TRANS_CONDITION_BACKGROUND_RESTRICT policyCondition in
  or_if (IsForeground uid s) POLICY_TRANS_CONDITION_FOREGROUND policyCondition.

Definition IsValidNetPolicy (policy : Z) : bool :=
  if policy =? NET_POLICY_NONE then true
  else if policy =? NET_POLICY_ALLOW_METERED_BACKGROUND then true
  else if policy =? NET_POLICY_REJECT_METERED_BACKGROUND then true
  else false.

(** ** The operations *)

Section Operations.
Context {W : Type} `{PolicyNetsys W}.
Implicit Types (s : NetPolicyRule) (w : World W).

Definition on_netsys (f : W -> Z * W) (w : World W) : World W := mkWorld (f (netsys w)).2 (file w) (notes w).
Definition on_file (f : NetPolicyFile -> NetPolicyFile) (w : World W) : World W := mkWorld (netsys w) (f (file w)) (notes w).
Definition notify (n : Note) (w : World W) : World W := mkWorld (netsys w) (file w) (notes w ++ [n]).

Definition ProcessCtrlNone (uid : Z) s w : World W :=
  if IsPowerSave s then on_netsys (PowerSaveUpdataAllowedList uid Iptables.RULE_DENY) w else w.

Definition ProcessCtrlAddAllowedList (uid : Z) s w : World W :=
  let w := on_netsys (BandwidthRemoveDeniedList uid) w in
  let w := on_netsys (BandwidthAddAllowedList uid) w in
  if IsPowerSave s then on_netsys (PowerSaveUpdataAllowedList uid Iptables.RULE_ALLOW) w else w.

Definition NetsysCtrl (uid netsysCtrl : Z) s w : World W :=
  if netsysCtrl =? POLICY_TRANS_CTRL_NONE then ProcessCtrlNone uid s w
  else if netsysCtrl =? POLICY_TRANS_CTRL_REMOVE_ALL then
    on_netsys (BandwidthRemoveDeniedList uid) (on_netsys (BandwidthRemoveAllowedList uid) w)
  else if netsysCtrl =? POLICY_TRANS_CTRL_ADD_DENIEDLIST then
    on_netsys (BandwidthRemoveAllowedList uid) (on_netsys (BandwidthAddDeniedList uid) w)
  else if netsysCtrl =? POLICY_TRANS_CTRL_ADD_ALLOWEDLIST then ProcessCtrlAddAllowedList uid s w
  else w.

Definition TransConditionToRuleAndNetsys (uid : Z) (policyRule : UidPolicyRule) s w : UidPolicyRule * World W :=
  let policyCondition := BuildTransCondition uid (policy_ policyRule) s in
  let conditionValue := GetMatchTransCondition policyCondition in
  let rule := MoveToRuleBit (Z.land conditionValue POLICY_TRANS_RULE_MASK) in
  let netsys := Z.land conditionValue POLICY_TRANS_NET_CTRL_MASK in
  let '(policyRule, w) :=
    if negb (netsys_ policyRule =? netsys)
    then (mkUidRule (policy_ policyRule) (rule_ policyRule) netsys, NetsysCtrl uid netsys s w)
    else (policyRule, w) in
  let w := on_file (WritePolicyByUid uid (policy_ policyRule)) w in
  if rule_ policyRule =? rule then (policyRule, w)
  else (mkUidRule (policy_ policyRule) rule (netsys_ policyRule), notify (NetUidRuleChange uid rule) w).

(** Recompute one entry. *)
Definition trans_entry (uid : Z) (pr : UidPolicyRule) s w : NetPolicyRule * World W :=
  let '(pr, w) := TransConditionToRuleAndNetsys uid pr s w in
  (set_rules_ (<[uid := pr]> (uidPolicyRules_ s)) s, w).

(** [std::map] is traversed in the order of the keys. *)
Definition TransPolicyToRule_all s w : NetPolicyRule * World W :=
  foldl (fun '(s, w) e => trans_entry e.1 e.2 s w) (s, w) (sort_by fst (map_to_list (uidPolicyRules_ s))).

Definition TransPolicyToRule_uid (uid : Z) s w : NetPolicyRule * World W :=
  match uidPolicyRules_ s !! uid with
  | None => (s, w)
  | Some pr => trans_entry uid pr s w
  end.

Definition TransPolicyToRule (uid policy : Z) s w : Z * NetPolicyRule * World W :=
  if negb (IsValidNetPolicy policy) then (POLICY_ERR_INVALID_POLICY, s, w)
  else
    let '(pr, w) :=
      match uidPolicyRules_ s !! uid with
      | None => (mkUidRule policy 128 7, notify (NetUidPolicyChange uid policy) w)
      | Some pr =>
          if negb (policy_ pr =? policy)
          then (mkUidRule policy (rule_ pr) (netsys_ pr), notify (NetUidPolicyChange uid policy) w)
          else (pr, w)
      end in
    let '(s, w) := trans_entry uid pr s w in
    (NETMANAGER_SUCCESS, s, w).

(** The loop runs over the vector of the file itself, which the body updates in
    place; an entry with the policy [NONE] would be erased under the loop. *)
Fixpoint init_loop (n i : nat) s w : NetPolicyRule * World W :=
  match n with
  | O => (s, w)
  | S n =>
      match ReadUidPolicies (file w) !! i with
      | None => (s, w)
      | Some e =>
          let '(_, s, w) := TransPolicyToRule (StrToUint (up_uid e) 0) (StrToUint (up_policy e) 0) s w in
          init_loop n (S i) s w
      end
  end.

Definition Init s w : NetPolicyRule * World W :=
  let s := set_backgroundAllow_ (ReadBackgroundPolicy (file w)) s in
  init_loop (length (ReadUidPolicies (file w))) 0 s w.

Definition GetPolicyByUid (uid : Z) s : Z * Z :=
  match uidPolicyRules_ s !! uid with
  | None => (NETMANAGER_SUCCESS, NET_POLICY_NONE)
  | Some pr => (NETMANAGER_SUCCESS, policy_ pr)
  end.

Definition GetUidsByPolicy (policy : Z) (uids : list Z) s : Z * list Z :=
  if negb (IsValidNetPolicy policy) then (POLICY_ERR_INVALID_POLICY, uids)
  else (NETMANAGER_SUCCESS,
        uids ++ map fst (filter (fun e => policy_ e.2 = policy) (sort_by fst (map_to_list (uidPolicyRules_ s))))).

Definition IsUidNetAllowed (uid : Z) (metered : bool) s : Z * bool :=
  let rule := match uidPolicyRules_ s !! uid with Some pr => rule_ pr | None => NET_RULE_NONE end in
  if rule =? NET_RULE_REJECT_ALL then (NETMANAGER_SUCCESS, false)
  else if negb metered then (NETMANAGER_SUCCESS, true)
  else if rule =? NET_RULE_REJECT_METERED then (NETMANAGER_SUCCESS, false)
  else if rule =? NET_RULE_ALLOW_METERED then (NETMANAGER_SUCCESS, true)
  else if rule =? NET_RULE_ALLOW_METERED_FOREGROUND then (NETMANAGER_SUCCESS, true)
  else if negb (backgroundAllow_ s) then (NETMANAGER_SUCCESS, false)
  else (NETMANAGER_SUCCESS, true).

Definition SetBackgroundPolicy (allow : bool) s w : Z * NetPolicyRule * World W :=
  if bool_decide (backgroundAllow_ s <> allow) then
    let w := notify (NetBackgroundPolicyChange allow) w in
    let s := set_backgroundAllow_ allow s in
    let '(s, w) := TransPolicyToRule_all s w in
    let w := on_file (WriteBackgroundPolicy allow) w in
    let w := on_netsys (BandwidthEnableDataSaver (negb allow)) w in
    (NETMANAGER_SUCCESS, s, w)
  else (NETMANAGER_ERR_PARAMETER_ERROR, s, w).

Definition GetBackgroundPolicyByUid (uid : Z) s : Z * Z :=
  let policy := (GetPolicyByUid uid s).2 in
  if negb (Z.land policy NET_POLICY_REJECT_METERED_BACKGROUND =? 0) then (NETMANAGER_SUCCESS, NET_BACKGROUND_POLICY_DISABLE)
  else if backgroundAllow_ s then (NETMANAGER_SUCCESS, NET_BACKGROUND_POLICY_ENABLE)
  else if negb (Z.land policy NET_POLICY_ALLOW_METERED_BACKGROUND =? 0) then (NETMANAGER_SUCCESS, NET_BACKGROUND_POLICY_TRUSTLIST)
  else (NETMANAGER_SUCCESS, NET_BACKGROUND_POLICY_DISABLE).

Definition ResetPolicies s w : Z * NetPolicyRule * World W :=
  let '(s, w) :=
    foldl (fun '(s, w) e => let '(_, s, w) := TransPolicyToRule e.1 NET_POLICY_NONE s w in (s, w))
      (s, w) (sort_by fst (map_to_list (uidPolicyRules_ s))) in
  SetBackgroundPolicy true s w.

Definition GetBackgroundPolicy s : Z * bool := (NETMANAGER_SUCCESS, backgroundAllow_ s).

Definition DeleteUid (uid : Z) s w : NetPolicyRule * World W :=
  let s := set_rules_ (delete uid (uidPolicyRules_ s)) s in
  let w := on_file (RemoveInexistentUid uid) w in
  let w := on_netsys (BandwidthRemoveDeniedList uid) w in
  let w := on_netsys (BandwidthRemoveAllowedList uid) w in
  (s, w).

Definition UpdateForegroundUidList (uid : Z) (isForeground : bool) s : NetPolicyRule :=
  if isForeground then set_foregroundUidList_ ({[uid]} ∪ foregroundUidList_ s) s
  else set_foregroundUidList_ (foregroundUidList_ s ∖ {[uid]}) s.

Definition HandleEvent (eventId : Z) (e : PolicyEvent) s w : NetPolicyRule * World W :=
  if eventId =? MSG_DEVICE_IDLE_LIST_UPDATED then (set_deviceIdleAllowedList_ (deviceIdleList e) s, w)
  else if eventId =? MSG_DEVICE_IDLE_MODE_CHANGED then TransPolicyToRule_all (set_deviceIdleMode_ (deviceIdleMode e) s) w
  else if eventId =? MSG_POWER_SAVE_MODE_CHANGED then TransPolicyToRule_all (set_powerSaveMode_ (powerSaveMode e) s) w
  else if eventId =? MSG_POWER_SAVE_LIST_UPDATED then (set_powerSaveAllowedList_ (powerSaveList e) s, w)
  else if eventId =? MSG_UID_REMOVED then DeleteUid (deletedUid e) s w
  else if eventId =? MSG_UID_STATE_FOREGROUND then TransPolicyToRule_uid (ev_uid e) (UpdateForegroundUidList (ev_uid e) true s) w
  else if eventId =? MSG_UID_STATE_BACKGROUND then TransPolicyToRule_uid (ev_uid e) (UpdateForegroundUidList (ev_uid e) false s) w
  else (s, w).

End Operations.

(** ** What the table decides *)

(** The rule of an application and the operation on the lists, as a decision:
    an idle device lets only the listed applications through, a foreground
    application is not limited, a device that saves power lets nothing through,
    and otherwise the policy decides together with the background restriction. *)
Definition decision (uid policy : Z) (s : NetPolicyRule) : Z * Z :=
  if IsIdleMode s then
    (if InIdleAllowedList uid s then NET_RULE_ALLOW_ALL else NET_RULE_REJECT_ALL, POLICY_TRANS_CTRL_NONE)
  else if IsForeground uid s then
    if policy =? NET_POLICY_ALLOW_METERED_BACKGROUND then (NET_RULE_ALLOW_METERED, POLICY_TRANS_CTRL_ADD_ALLOWEDLIST)
    else (NET_RULE_ALLOW_METERED_FOREGROUND, POLICY_TRANS_CTRL_ADD_ALLOWEDLIST)
  else if IsPowerSave s then (NET_RULE_REJECT_ALL, POLICY_TRANS_CTRL_NONE)
  else if policy =? NET_POLICY_REJECT_METERED_BACKGROUND then (NET_RULE_REJECT_METERED, POLICY_TRANS_CTRL_ADD_DENIEDLIST)
  else if IsLimitedBackground s then
    if policy =? NET_POLICY_ALLOW_METERED_BACKGROUND then (NET_RULE_ALLOW_METERED, POLICY_TRANS_CTRL_ADD_ALLOWEDLIST)
    else (NET_RULE_REJECT_METERED, POLICY_TRANS_CTRL_ADD_DENIEDLIST)
  else (NET_RULE_NONE, POLICY_TRANS_CTRL_REMOVE_ALL).

(** What the row found for the conditions says. *)
Definition trans_value (uid policy : Z) (s : NetPolicyRule) : Z * Z :=
  let conditionValue := GetMatchTransCondition (BuildTransCondition uid policy s) in
  (MoveToRuleBit (Z.land conditionValue POLICY_TRANS_RULE_MASK), Z.land conditionValue POLICY_TRANS_NET_CTRL_MASK).

Lemma IsValidNetPolicy_cases policy : IsValidNetPolicy policy = true <-> policy = 0 \/ policy = 1 \/ policy = 2.
Proof. unfold IsValidNetPolicy, NET_POLICY_NONE, NET_POLICY_ALLOW_METERED_BACKGROUND, NET_POLICY_REJECT_METERED_BACKGROUND.
  repeat case_match; lia. Qed.

Lemma trans_value_decision uid policy s : IsValidNetPolicy policy = true -> trans_value uid policy s = decision uid policy s.
Proof.
  intros Hp%IsValidNetPolicy_cases. unfold trans_value, BuildTransCondition, decision.
  destruct (IsIdleMode s), (InIdleAllowedList uid s), (IsPowerSave s), (InPowerSaveAllowedList uid s),
    (IsLimitedBackground s), (IsForeground uid s); destruct Hp as [->|[->| ->]]; reflexivity.
Qed.

(** C39: The table of the rules, searched row by row with bit masks, is the
    decision above: for every valid policy and every state of the device, the
    first row whose conditions all hold gives the rule and the operation of
    [decision]. *)
Theorem trans_decision uid policy s : IsValidNetPolicy policy = true ->
  trans_value uid policy s = decision uid policy s.
Proof. apply trans_value_decision. Qed.

Lemma trans_decision_witness :
  let s := mkRuleState ∅ false false false ∅ ∅ ∅ in trans_value 20010 0 s = (NET_RULE_REJECT_METERED, POLICY_TRANS_CTRL_ADD_DENIEDLIST).
Proof. intros s. rewrite (trans_decision 20010 0 s eq_refl). reflexivity. Defined.

(** ** One application at a time *)

Lemma decision_rules uid policy m s : decision uid policy (set_rules_ m s) = decision uid policy s.
Proof. done. Qed.

(** The pairs the table can give. *)
Definition decided (rule netsys : Z) : Prop :=
  (rule, netsys) ∈ [(32, 0); (64, 0); (4, 2); (2, 4); (1, 4); (0, 1)].

Lemma decision_decided uid policy s : decided (decision uid policy s).1 (decision uid policy s).2.
Proof. unfold decided, decision. repeat case_match; cbn; set_solver. Qed.

Section Trans.
Context {W : Type} `{PolicyNetsysLaws W}.
Implicit Types (s : NetPolicyRule) (w : World W) (v : NetsysView).

(** What the lists say of an application after an operation: nothing is known
    after [POLICY_TRANS_CTRL_NONE], which leaves them as they are. *)
Definition lists_ok (v : NetsysView) (uid netsys : Z) : Prop :=
  (netsys = 1 -> uid ∉ v_denied v /\ uid ∉ v_allowed v) /\
  (netsys = 2 -> uid ∈ v_denied v /\ uid ∉ v_allowed v) /\
  (netsys = 4 -> uid ∉ v_denied v /\ uid ∈ v_allowed v).

(** Two views differ at most in what the lists say of one application. *)
Definition only_uid (uid : Z) (v v' : NetsysView) : Prop :=
  v_saver v' = v_saver v /\ v_chain v' = v_chain v /\
  forall u, u <> uid -> (u ∈ v_denied v' <-> u ∈ v_denied v) /\ (u ∈ v_allowed v' <-> u ∈ v_allowed v).

Lemma only_uid_refl uid v : only_uid uid v v.
Proof. done. Qed.

Lemma realises_box (w : W) v uid r : realises w v -> r = Iptables.RULE_ALLOW \/ r = Iptables.RULE_DENY ->
  realises (PowerSaveUpdataAllowedList uid r w).2 v.
Proof. intros Hr Hc. apply (r_uid_rule w v Iptables.CHAIN_OHFW_ALLOWED_LIST_BOX [uid] r Hr Hc). done. Qed.

Lemma NetsysCtrl_realises uid netsysCtrl s w v : realises (netsys w) v -> netsysCtrl ∈ [0; 1; 2; 4] ->
  exists v', realises (netsys (NetsysCtrl uid netsysCtrl s w)) v' /\ only_uid uid v v' /\ lists_ok v' uid netsysCtrl.
Proof.
  intros Hr Hc. rewrite !elem_of_cons in Hc. destruct Hc as [->|[->|[->|[->|Hc]]]]; [..|by apply elem_of_nil in Hc].
  - exists v. split_and!; [|done|by split_and!]. cbn. unfold ProcessCtrlNone. destruct (IsPowerSave s); [|done].
    apply realises_box; [done|by right].
  - eexists. split_and!; [cbn; apply r_remove_denied, r_remove_allowed; exact Hr| |]; unfold only_uid, lists_ok; cbn; set_solver by lia.
  - eexists. split_and!; [cbn; apply r_remove_allowed, r_add_denied; exact Hr| |]; unfold only_uid, lists_ok; cbn; set_solver by lia.
  - exists (set_allowed ({[uid]} ∪ v_allowed v) (set_denied (v_denied v ∖ {[uid]}) v)).
    split_and!; [|unfold only_uid, lists_ok; cbn; set_solver by lia..].
    assert (Hr' := r_add_allowed _ _ uid (r_remove_denied _ _ uid Hr)). cbn. unfold ProcessCtrlAddAllowedList.
    destruct (IsPowerSave s); [|exact Hr']. apply realises_box; [exact Hr'|by left].
Qed.

(** What recomputing an entry gives. *)
Definition recomputed (uid : Z) (pr : UidPolicyRule) s : UidPolicyRule :=
  mkUidRule (policy_ pr) (decision uid (policy_ pr) s).1 (decision uid (policy_ pr) s).2.

Lemma NetsysCtrl_file uid netsysCtrl s w : file (NetsysCtrl uid netsysCtrl s w) = file w.
Proof. unfold NetsysCtrl, ProcessCtrlNone, ProcessCtrlAddAllowedList. by repeat case_match. Qed.

Lemma trans_entry_result uid pr s w : IsValidNetPolicy (policy_ pr) = true ->
  let '(s', w') := trans_entry uid pr s w in
  s' = set_rules_ (<[uid := recomputed uid pr s]> (uidPolicyRules_ s)) s /\
  file w' = WritePolicyByUid uid (policy_ pr) (file w) /\
  netsys w' = if netsys_ pr =? (decision uid (policy_ pr) s).2 then netsys w
              else netsys (NetsysCtrl uid (decision uid (policy_ pr) s).2 s w).
Proof.
  intros Hp%(trans_value_decision uid _ s). unfold trans_value in Hp. unfold trans_entry, TransConditionToRuleAndNetsys, recomputed.
  rewrite <- Hp. cbn [fst snd]. generalize (GetMatchTransCondition (BuildTransCondition uid (policy_ pr) s)). intros z.
  destruct pr as [p r n]. cbn [policy_ rule_ netsys_].
  destruct (Z.eqb_spec n (Z.land z POLICY_TRANS_NET_CTRL_MASK)) as [->|Hn]; cbn [negb policy_ rule_ netsys_];
    (destruct (Z.eqb_spec r (MoveToRuleBit (Z.land z POLICY_TRANS_RULE_MASK))) as [->|Hr]);
    cbn [file on_file notify netsys]; by rewrite ?NetsysCtrl_file.
Qed.

Lemma trans_entry_realises uid pr s w v : IsValidNetPolicy (policy_ pr) = true -> realises (netsys w) v ->
  lists_ok v uid (netsys_ pr) -> exists v', realises (netsys (trans_entry uid pr s w).2) v' /\ only_uid uid v v' /\
  lists_ok v' uid (decision uid (policy_ pr) s).2.
Proof.
  intros Hp Hr Hl. pose proof (trans_entry_result uid pr s w Hp) as Ht. destruct (trans_entry uid pr s w) as [s' w'].
  destruct Ht as (_ & _ & E). cbn [snd]. rewrite E. destruct (Z.eqb_spec (netsys_ pr) (decision uid (policy_ pr) s).2) as [E'|Hne].
  - exists v. by rewrite <- E'.
  - apply NetsysCtrl_realises; [done|]. pose proof (decision_decided uid (policy_ pr) s) as Hd. clear -Hd.
    unfold decided in Hd. destruct (decision uid (policy_ pr) s) as [r n]. cbn in *. set_solver.
Qed.

End Trans.

(** ** The invariant *)

Section Invariant.
Context {W : Type} `{PolicyNetsysLaws W}.
Implicit Types (s : NetPolicyRule) (w : World W) (v : NetsysView).

Definition entry_ok (v : NetsysView) (rules : gmap Z UidPolicyRule) (u : Z) : Prop :=
  match rules !! u with
  | None => u ∉ v_denied v /\ u ∉ v_allowed v
  | Some pr => IsValidNetPolicy (policy_ pr) = true /\ decided (rule_ pr) (netsys_ pr) /\ lists_ok v u (netsys_ pr)
  end.

Definition keys_ok s : Prop := forall u pr, uidPolicyRules_ s !! u = Some pr -> in_width 32 u.

(** The policies to store. *)
Definition policies (rules : gmap Z UidPolicyRule) : gmap Z Z :=
  omap (fun pr => if policy_ pr =? 0 then None else Some (policy_ pr)) rules.

Definition background_text (allow : bool) : string := if allow then BACKGROUND_POLICY_ALLOW else BACKGROUND_POLICY_REJECT.

(** The native service agrees with the rules, and its data saver is [saver]. *)
Definition netsys_agrees (saver : bool) s (w : World W) : Prop :=
  exists v, realises (netsys w) v /\ v_saver v = saver /\ forall u, entry_ok v (uidPolicyRules_ s) u.

Definition file_agrees (allow : bool) (m : gmap Z Z) (w : World W) : Prop :=
  file_maps (file w) m /\ backgroundPolicyStatus (netPolicy_ (file w)) = background_text allow.

(** The file has the policies, but for the users whose number is that of a policy: see [ArbitrationWritePolicyToFile]. *)
Definition stores (m : gmap Z Z) s : Prop := forall u, 2 < u -> m !! u = policies (uidPolicyRules_ s) !! u.

Definition agrees (saver allow : bool) s w : Prop :=
  keys_ok s /\ netsys_agrees saver s w /\ exists m, file_agrees allow m w /\ stores m s.

Lemma WriteFile_background n allow : backgroundPolicyStatus (netPolicy_ n) = background_text allow ->
  backgroundPolicyStatus (netPolicy_ (WriteFile n)) = background_text allow.
Proof. 
  intros E. unfold WriteFile, Obj2Json. cbn. destruct (bool_decide (hosVersion (netPolicy_ n) = _));
    cbn [backgroundPolicyStatus set_hosVersion]; rewrite E; destruct allow; exact E.
Qed.

Lemma WritePolicyByUid_background op uid policy n allow : backgroundPolicyStatus (netPolicy_ n) = background_text allow ->
  backgroundPolicyStatus (netPolicy_ (WritePolicyByUid_op op uid policy n)) = background_text allow.
Proof. intros E. apply WriteFile_background. by destruct op. Qed.

Lemma policies_insert uid pr rules : policies (<[uid := pr]> rules) =
  if policy_ pr =? 0 then delete uid (policies rules) else <[uid := policy_ pr]> (policies rules).
Proof.
  unfold policies. case_match eqn:E.
  - rewrite omap_insert_None by (by rewrite E). done.
  - by rewrite (omap_insert_Some _ _ _ _ (policy_ pr)) by (by rewrite E).
Qed.

Lemma valid_policy_IsValid policy : IsValidNetPolicy policy = valid_policy policy.
Proof. unfold IsValidNetPolicy, valid_policy. by repeat case_match. Qed.

(** An entry that may be recomputed: it is new, or the stored one with another policy. *)
Definition continues (uid : Z) (pr : UidPolicyRule) s : Prop :=
  IsValidNetPolicy (policy_ pr) = true /\
  (netsys_ pr = 7 \/ exists pr0, uidPolicyRules_ s !! uid = Some pr0 /\ netsys_ pr0 = netsys_ pr).

Lemma trans_entry_netsys allow uid pr s w : continues uid pr s -> netsys_agrees allow s w ->
  netsys_agrees allow (trans_entry uid pr s w).1 (trans_entry uid pr s w).2.
Proof.
  intros [Hp Hc] (v & Hr & Es & He).
  assert (Hl : lists_ok v uid (netsys_ pr)).
  { destruct Hc as [->|(pr0 & E & <-)]; [by split_and!|]. specialize (He uid). unfold entry_ok in He. rewrite E in He. apply He. }
  destruct (trans_entry_realises uid pr s w v Hp Hr Hl) as (v' & Hr' & (Es' & _ & Ho) & Hl').
  exists v'. split_and!; [done|congruence|]. intros u. pose proof (trans_entry_result uid pr s w Hp) as Ht.
  destruct (trans_entry uid pr s w) as [s' w']. destruct Ht as (-> & _). cbn. unfold entry_ok.
  destruct (decide (u = uid)) as [->|Hne].
  - rewrite lookup_insert_eq. cbn. split_and!; [done|apply decision_decided|apply Hl'..].
  - rewrite lookup_insert_ne by done. specialize (He u). unfold entry_ok in He. destruct (Ho u Hne) as [Hd Ha].
    case_match; [|by rewrite Hd, Ha]. destruct He as (? & ? & ?). split_and!; [done..|]. unfold lists_ok in *. by rewrite Hd, Ha.
Qed.

Lemma trans_entry_file allow m uid pr s w : in_width 32 uid -> IsValidNetPolicy (policy_ pr) = true -> file_agrees allow m w ->
  file_agrees allow (stored uid (policy_ pr) m) (trans_entry uid pr s w).2.
Proof.
  intros Hu Hp [Hf Hb]. pose proof (trans_entry_result uid pr s w Hp) as Ht. destruct (trans_entry uid pr s w) as [s' w'].
  destruct Ht as (_ & Ef & _). cbn [snd]. unfold file_agrees. rewrite Ef. split.
  - apply WritePolicyByUid_maps; [done|done|by rewrite <- valid_policy_IsValid].
  - by apply WritePolicyByUid_background.
Qed.

Lemma trans_entry_agrees saver allow uid pr s w : in_width 32 uid -> continues uid pr s -> agrees saver allow s w ->
  agrees saver allow (trans_entry uid pr s w).1 (trans_entry uid pr s w).2.
Proof.
  intros Hu Hc (Hk & Hn & m & Hf & Hm). split_and!; [|by apply trans_entry_netsys|exists (stored uid (policy_ pr) m); split; [by apply trans_entry_file; [|apply Hc|]|]].
  all: pose proof (trans_entry_result uid pr s w (proj1 Hc)) as Ht; destruct (trans_entry uid pr s w) as [s' w']; destruct Ht as (-> & _).
  - intros u pr'. cbn. rewrite lookup_insert_Some. intros [[<- _]|[_ E]]; [done|by eapply Hk].
  - intros u H2. cbn. rewrite policies_insert. cbn [recomputed policy_]. destruct (decide (u = uid)) as [->|Hne].
    + rewrite stored_big by (done || rewrite <- valid_policy_IsValid; apply Hc). case_match; [by rewrite !lookup_delete_eq|by rewrite !lookup_insert_eq].
    + rewrite stored_other, Hm by done. case_match; [by rewrite lookup_delete_ne|by rewrite lookup_insert_ne].
Qed.

(** ** The operations keep it *)

Lemma all_ind (I : NetPolicyRule -> World W -> Prop) s w :
  (forall u pr s w, I s w -> uidPolicyRules_ s !! u = Some pr ->
     IsValidNetPolicy (policy_ pr) = true /\ I (trans_entry u pr s w).1 (trans_entry u pr s w).2) ->
  I s w -> I (TransPolicyToRule_all s w).1 (TransPolicyToRule_all s w).2.
Proof.
  intros Hstep HI. unfold TransPolicyToRule_all. set (l := sort_by fst _).
  assert (Hl : NoDup l.*1 /\ forall u pr, (u, pr) ∈ l -> uidPolicyRules_ s !! u = Some pr).
  { unfold l. split; [rewrite sort_by_Permutation; apply NoDup_fst_map_to_list|].
    intros u pr. rewrite sort_by_Permutation. apply elem_of_map_to_list. }
  clearbody l. revert s w HI Hl. induction l as [|[u pr] l IH]; intros s w HI [Hn Hin]; [done|].
  apply NoDup_cons in Hn as [Hx Hn]. cbn [foldl fst snd]. assert (E : uidPolicyRules_ s !! u = Some pr) by (apply Hin; by left).
  destruct (Hstep u pr s w HI E) as [Hp HI']. pose proof (trans_entry_result u pr s w Hp) as Ht.
  destruct (trans_entry u pr s w) as [s' w']. destruct Ht as (-> & _). apply IH; [done|]. split; [done|].
  intros u' pr' Hin'. cbn. rewrite lookup_insert_ne; [apply Hin; by right|]. intros <-. apply Hx, list_elem_of_fmap. by exists (u, pr').
Qed.

Lemma stored_continues allow uid pr s w : netsys_agrees allow s w -> uidPolicyRules_ s !! uid = Some pr -> continues uid pr s.
Proof.
  intros (v & _ & _ & He) E. specialize (He uid). unfold entry_ok in He. rewrite E in He. split; [apply He|]. right. by exists pr.
Qed.

(** The rules change, the mode and the lists of the service do not. *)
Lemma trans_entry_background uid pr s w : IsValidNetPolicy (policy_ pr) = true ->
  backgroundAllow_ (trans_entry uid pr s w).1 = backgroundAllow_ s.
Proof.
  intros Hp. pose proof (trans_entry_result uid pr s w Hp) as Ht. destruct (trans_entry uid pr s w) as [s' w'].
  by destruct Ht as (-> & _).
Qed.

Lemma all_agrees saver allow s w : agrees saver allow s w ->
  agrees saver allow (TransPolicyToRule_all s w).1 (TransPolicyToRule_all s w).2 /\
  backgroundAllow_ (TransPolicyToRule_all s w).1 = backgroundAllow_ s.
Proof.
  intros Ha. apply (all_ind (fun s' w' => agrees saver allow s' w' /\ backgroundAllow_ s' = backgroundAllow_ s)); [|done].
  intros u pr s' w' [Ha' Eb] E. pose proof (stored_continues _ _ _ _ _ (proj1 (proj2 Ha')) E) as Hc.
  split; [apply Hc|]. rewrite trans_entry_background by apply Hc. split; [|done].
  apply trans_entry_agrees; [|done..]. by eapply (proj1 Ha').
Qed.

Lemma uid_agrees saver allow uid s w : agrees saver allow s w ->
  agrees saver allow (TransPolicyToRule_uid uid s w).1 (TransPolicyToRule_uid uid s w).2 /\
  backgroundAllow_ (TransPolicyToRule_uid uid s w).1 = backgroundAllow_ s.
Proof.
  intros Ha. unfold TransPolicyToRule_uid. destruct (uidPolicyRules_ s !! uid) as [pr|] eqn:E; [|done].
  pose proof (stored_continues _ _ _ _ _ (proj1 (proj2 Ha)) E) as Hc. rewrite trans_entry_background by apply Hc.
  split; [|done]. apply trans_entry_agrees; [|done..]. by eapply (proj1 Ha).
Qed.

(** Setting a policy recomputes an entry, after the callbacks were told. *)
Lemma set_policy_entry uid policy s w : IsValidNetPolicy policy = true -> exists pr w0,
  continues uid pr s /\ policy_ pr = policy /\ netsys w0 = netsys w /\ file w0 = file w /\
  TransPolicyToRule uid policy s w = (NETMANAGER_SUCCESS, (trans_entry uid pr s w0).1, (trans_entry uid pr s w0).2).
Proof.
  intros Hp. unfold TransPolicyToRule. rewrite Hp. cbn [negb]. destruct (uidPolicyRules_ s !! uid) as [pr|] eqn:E.
  - destruct (Z.eqb_spec (policy_ pr) policy) as [<-|Hne]; cbn [negb].
    + exists pr, w. split_and!; [split; [done|right; by exists pr]|done..|]. by destruct (trans_entry _ _ _ _).
    + exists (mkUidRule policy (rule_ pr) (netsys_ pr)), (notify (NetUidPolicyChange uid policy) w).
      split_and!; [split; [done|right; by exists pr]|done..|]. by destruct (trans_entry _ _ _ _).
  - exists (mkUidRule policy 128 7), (notify (NetUidPolicyChange uid policy) w).
    split_and!; [split; [done|by left]|done..|]. by destruct (trans_entry _ _ _ _).
Qed.

Lemma agrees_world saver allow s w w' : netsys w' = netsys w -> file w' = file w -> agrees saver allow s w -> agrees saver allow s w'.
Proof. intros En Ef. unfold agrees, netsys_agrees, file_agrees. by rewrite En, Ef. Qed.

Lemma set_policy_agrees saver allow uid policy s w : in_width 32 uid -> agrees saver allow s w ->
  let r := TransPolicyToRule uid policy s w in agrees saver allow r.1.2 r.2 /\ backgroundAllow_ r.1.2 = backgroundAllow_ s.
Proof.
  intros Hu Ha. destruct (IsValidNetPolicy policy) eqn:Hp.
  - destruct (set_policy_entry uid policy s w Hp) as (pr & w0 & Hc & _ & En & Ef & ->). cbn [fst snd].
    rewrite trans_entry_background by apply Hc. split; [|done]. apply trans_entry_agrees; [done..|]. by eapply agrees_world.
  - unfold TransPolicyToRule. by rewrite Hp.
Qed.

(** What the data saver is told: a call that changes the background policy sets it. *)
Definition told (saver : bool) s s' : bool :=
  if Bool.eqb (backgroundAllow_ s') (backgroundAllow_ s) then saver else negb (backgroundAllow_ s').

Lemma told_same saver s s' : backgroundAllow_ s' = backgroundAllow_ s -> told saver s s' = saver.
Proof. unfold told. intros ->. by rewrite eqb_reflx. Qed.

Lemma set_background_agrees saver allow s w : agrees saver (backgroundAllow_ s) s w ->
  let r := SetBackgroundPolicy allow s w in agrees (told saver s r.1.2) (backgroundAllow_ r.1.2) r.1.2 r.2.
Proof.
  intros Ha. unfold SetBackgroundPolicy. case_bool_decide as Hne; [|cbn; by rewrite told_same].
  set (s1 := set_backgroundAllow_ allow s). set (w1 := notify _ w).
  assert (Ha1 : agrees saver (backgroundAllow_ s) s1 w1) by done. destruct (all_agrees _ _ _ _ Ha1) as [Ha2 Eb].
  destruct (TransPolicyToRule_all s1 w1) as [s2 w2]. cbn [fst snd] in *. unfold told. rewrite Eb. cbn [backgroundAllow_ s1 set_backgroundAllow_].
  rewrite (proj2 (eqb_false_iff allow (backgroundAllow_ s))) by congruence.
  destruct Ha2 as (Hk & (v & Hr & Es & He) & m & [Hf Hb] & Hm). split_and!; [done| |exists m; split; [|done]].
  - eexists. split_and!; [by apply r_saver|done|]. intros u. apply (He u).
  - split; cbn [file on_netsys on_file].
    + destruct Hf as (l & El & Hl). exists l. split; [|done]. unfold WriteBackgroundPolicy. by rewrite WriteFile_uidPolicies.
    + by apply WriteFile_background.
Qed.

Lemma reset_agrees saver s w : agrees saver (backgroundAllow_ s) s w ->
  let r := ResetPolicies s w in agrees (told saver s r.1.2) (backgroundAllow_ r.1.2) r.1.2 r.2.
Proof.
  intros Ha. unfold ResetPolicies. assert (Hl : forall e, e ∈ sort_by fst (map_to_list (uidPolicyRules_ s)) -> in_width 32 e.1).
  { intros [u pr]. rewrite sort_by_Permutation, elem_of_map_to_list. by apply (proj1 Ha). }
  revert Hl. generalize (sort_by fst (map_to_list (uidPolicyRules_ s))). intros l. revert s w Ha.
  induction l as [|e l IH]; intros s w Ha Hl; [by apply set_background_agrees|]. cbn [foldl].
  destruct (set_policy_agrees _ _ e.1 NET_POLICY_NONE s w (Hl e (list_elem_of_here e l)) Ha) as [Ha' Eb].
  destruct (TransPolicyToRule e.1 NET_POLICY_NONE s w) as [[r s'] w']. cbn [fst snd] in *.
  assert (Et : forall s2, told saver s s2 = told saver s' s2) by (intros s2; unfold told; by rewrite Eb). rewrite Et.
  apply IH; [by rewrite Eb|]. intros e' He'. apply Hl. by right.
Qed.

Lemma delete_agrees saver allow uid s w : in_width 32 uid -> agrees saver allow s w ->
  agrees saver allow (DeleteUid uid s w).1 (DeleteUid uid s w).2.
Proof.
  intros Hu (Hk & (v & Hr & Es & He) & m & [Hf Hb] & Hm). unfold DeleteUid. cbn [fst snd]. split_and!; [| |exists (delete uid m); split].
  - intros u pr E. cbn in E. apply lookup_delete_Some in E as [_ E]. by eapply Hk.
  - eexists. split_and!; [cbn; apply r_remove_allowed, r_remove_denied; exact Hr|done|]. intros u. specialize (He u). unfold entry_ok in *.
    cbn. destruct (decide (u = uid)) as [->|Hne]; [rewrite lookup_delete_eq; set_solver|]. rewrite lookup_delete_ne by done.
    case_match; [|set_solver]. destruct He as (? & ? & Hl). split_and!; [done..|]. unfold lists_ok in *. set_solver.
  - split; cbn [file on_netsys on_file]; [by apply RemoveInexistentUid_maps|by apply WritePolicyByUid_background].
  - intros u H2. unfold policies. cbn. rewrite omap_delete. destruct (decide (u = uid)) as [->|Hne]; [by rewrite !lookup_delete_eq|].
    rewrite !lookup_delete_ne by done. by apply Hm.
Qed.

Lemma event_agrees saver eventId e s w : in_width 32 (deletedUid e) -> agrees saver (backgroundAllow_ s) s w ->
  let r := HandleEvent eventId e s w in agrees saver (backgroundAllow_ r.1) r.1 r.2 /\ backgroundAllow_ r.1 = backgroundAllow_ s.
Proof.
  intros Hu Ha. unfold HandleEvent, UpdateForegroundUidList. repeat case_match; try done;
    try (match goal with |- context [TransPolicyToRule_all ?s' w] =>
           destruct (all_agrees saver (backgroundAllow_ s) s' w) as [Ha' Eb]; [done|cbn zeta; rewrite Eb; split; [exact Ha'|done]] end);
    try (match goal with |- context [TransPolicyToRule_uid ?u ?s' w] =>
           destruct (uid_agrees saver (backgroundAllow_ s) u s' w) as [Ha' Eb]; [done|cbn zeta; rewrite Eb; split; [exact Ha'|done]] end).
  split; [by apply delete_agrees|done].
Qed.

(** *** Starting *)

Definition file_list (l : list (Z * Z)) (m : gmap Z Z) (w : World W) : Prop :=
  uidPolicies (netPolicy_ (file w)) = map entry l /\ NoDup l.*1 /\ (forall u p, (u, p) ∈ l <-> m !! u = Some p) /\
  Forall (fun e => in_width 32 e.1 /\ valid_policy e.2 = true /\ e.2 <> 0) l.

(** The rules read so far. *)
Definition started (done : list (Z * Z)) s : Prop :=
  keys_ok s /\ forall u p, policies (uidPolicyRules_ s) !! u = Some p <-> (u, p) ∈ done.

Lemma init_step uid policy l m s w before : file_list l m w -> (uid, policy) ∈ l -> started before s ->
  uid ∉ before.*1 ->
  let r := TransPolicyToRule uid policy s w in
  file_list l m r.2 /\ started (before ++ [(uid, policy)]) r.1.2 /\ backgroundAllow_ r.1.2 = backgroundAllow_ s /\
  (forall allow, backgroundPolicyStatus (netPolicy_ (file w)) = background_text allow ->
     backgroundPolicyStatus (netPolicy_ (file r.2)) = background_text allow) /\
  (forall saver, netsys_agrees saver s w -> netsys_agrees saver r.1.2 r.2).
Proof.
  intros (El & Hn & Em & F) Hin [Hk Hd] Hx. pose proof (proj1 (Forall_forall _ _) F _ Hin) as (Hu & Hp & Hnz). cbn [fst snd] in *.
  rewrite <- valid_policy_IsValid in Hp. destruct (set_policy_entry uid policy s w Hp) as (pr & w0 & Hc & Ep & En & Ef & ->). cbn [fst snd].
  rewrite trans_entry_background by apply Hc. pose proof (trans_entry_result uid pr s w0 (proj1 Hc)) as Ht.
  assert (Hag : forall saver, netsys_agrees saver s w -> netsys_agrees saver (trans_entry uid pr s w0).1 (trans_entry uid pr s w0).2).
  { intros saver (v & Hr & Hv). apply trans_entry_netsys; [done|]. exists v. by rewrite En. }
  destruct (trans_entry uid pr s w0) as [s' w']. destruct Ht as (-> & Ef' & _). cbn [fst snd] in *. rewrite Ep, Ef in Ef'. split; [|split; [split|split; [done|split; [|done]]]].
  - split; [|done]. rewrite Ef'. by apply WritePolicyByUid_same.
  - intros u q. cbn. rewrite lookup_insert_Some. intros [[<- _]|[_ E]]; [done|by eapply Hk].
  - intros u p. cbn. rewrite policies_insert. cbn [recomputed policy_]. rewrite Ep, (proj2 (Z.eqb_neq policy 0)) by done.
    rewrite lookup_insert_Some, Hd, elem_of_app, list_elem_of_singleton. split; [naive_solver|].
    intros [Hb|[= -> ->]]; [|by left]. right. split; [|done]. intros ->. apply Hx, elem_fst. by exists p.
  - intros allow Eb. rewrite Ef'. by apply WritePolicyByUid_background.
Qed.

Lemma init_loop_spec rest : forall before s w l m, l = before ++ rest -> file_list l m w -> started before s ->
  let r := init_loop (length rest) (length before) s w in
  file_list l m r.2 /\ started l r.1 /\ backgroundAllow_ r.1 = backgroundAllow_ s /\
  (forall allow, backgroundPolicyStatus (netPolicy_ (file w)) = background_text allow ->
     backgroundPolicyStatus (netPolicy_ (file r.2)) = background_text allow) /\
  (forall saver, netsys_agrees saver s w -> netsys_agrees saver r.1 r.2).
Proof.
  induction rest as [|[uid policy] rest IH]; intros before s w l m -> Hl Hb; cbn [length init_loop fst snd].
  { rewrite app_nil_r in *. done. }
  assert (Hin : (uid, policy) ∈ before ++ (uid, policy) :: rest) by (apply elem_of_app; right; by left).
  pose proof Hl as (El & Hn & _ & F). pose proof (proj1 (Forall_forall _ _) F _ Hin) as (Hw & Hp & _).
  assert (Hx : uid ∉ before.*1).
  { intros Hx. rewrite fmap_app in Hn. apply NoDup_app in Hn as (_ & Hn & _). apply (Hn _ Hx). by left. }
  unfold ReadUidPolicies. rewrite El, map_app, lookup_app_r by (by rewrite length_map). rewrite length_map, Nat.sub_diag. cbn [map lookup list_lookup].
  cbn [entry up_uid up_policy fst snd]. assert (Hpw : in_width 32 policy).
  { unfold valid_policy, NET_POLICY_NONE, NET_POLICY_ALLOW_METERED_BACKGROUND, NET_POLICY_REJECT_METERED_BACKGROUND in Hp. unfold in_width. cbn in Hp. lia. }
  rewrite !StrToUint_to_string by done.
  destruct (init_step uid policy _ m s w before Hl Hin Hb Hx) as (Hl' & Hb' & Ebg & Hst & Hag).
  destruct (TransPolicyToRule uid policy s w) as [[r s'] w']. cbn [fst snd] in *.
  destruct (IH (before ++ [(uid, policy)]) s' w' (before ++ (uid, policy) :: rest) m) as (H1 & H2 & H3 & H4 & H5);
    [by rewrite <- app_assoc|done..|]. rewrite length_app in *. cbn [length] in *. rewrite Nat.add_1_r in *.
  split; [done|split; [done|split; [congruence|split; eauto]]].
Qed.

Lemma Init_spec w allow m : file_agrees allow m w ->
  let r := Init new_NetPolicyRule w in
  keys_ok r.1 /\ policies (uidPolicyRules_ r.1) = m /\ backgroundAllow_ r.1 = allow /\ file_agrees allow m r.2 /\
  (forall saver, netsys_agrees saver new_NetPolicyRule w -> netsys_agrees saver r.1 r.2).
Proof.
  intros [(l & El & Hl) Hb]. unfold Init. set (s0 := set_backgroundAllow_ _ _).
  assert (Hf : file_list l m w) by done. unfold ReadUidPolicies. rewrite El, length_map.
  destruct (init_loop_spec l [] s0 w l m) as (H1 & [H2 H2'] & H3 & H4 & H5); [done|done| |].
  { split; [by intros u pr E; cbn in E; rewrite lookup_empty in E|]. intros u p. unfold policies. cbn. rewrite omap_empty, lookup_empty, elem_of_nil. done. }
  cbn [length] in *. split_and!; [done| | | |done].
  - apply map_eq. intros u. destruct Hl as (_ & Hl & _). apply option_eq. intros p. by rewrite H2', Hl.
  - rewrite H3. cbn. unfold ReadBackgroundPolicy. rewrite Hb. by destruct allow.
  - split; [|by apply H4]. exists l. apply H1.
Qed.

(** ** Runs of the service *)

Inductive PolicyCall :=
| CallSetPolicy (uid policy : Z)
| CallSetBackground (allow : bool)
| CallReset
| CallEvent (eventId : Z) (e : PolicyEvent).

Definition call (c : PolicyCall) s w : Z * NetPolicyRule * World W :=
  match c with
  | CallSetPolicy uid policy => TransPolicyToRule uid policy s w
  | CallSetBackground allow => SetBackgroundPolicy allow s w
  | CallReset => ResetPolicies s w
  | CallEvent eventId e => let '(s, w) := HandleEvent eventId e s w in (NETMANAGER_SUCCESS, s, w)
  end.

Definition call_ok (c : PolicyCall) : Prop :=
  match c with
  | CallSetPolicy uid _ => in_width 32 uid
  | CallEvent _ e => in_width 32 (deletedUid e)
  | _ => True
  end.

(** Meanwhile the quotas and the firewalls of the policy service change what is not
    about the lists, in the native service and in the file. *)
Definition keeps_lists (w w' : World W) : Prop :=
  (forall v, realises (netsys w) v -> exists v', realises (netsys w') v' /\
     v_denied v' = v_denied v /\ v_allowed v' = v_allowed v /\ v_saver v' = v_saver v) /\
  uidPolicies (netPolicy_ (file w')) = uidPolicies (netPolicy_ (file w)) /\
  (backgroundPolicyStatus (netPolicy_ (file w)) <> "" ->
   backgroundPolicyStatus (netPolicy_ (file w')) = backgroundPolicyStatus (netPolicy_ (file w))).

#[global] Instance keeps_lists_preorder : PreOrder keeps_lists.
Proof.
  split.
  - intros w. split; [|done]. intros v Hr. by exists v.
  - intros w1 w2 w3 (N1 & U1 & B1) (N2 & U2 & B2). split_and!.
    + intros v Hr. destruct (N1 v Hr) as (v1 & Hr1 & E1 & E2 & E3), (N2 v1 Hr1) as (v2 & Hr2 & E4 & E5 & E6).
      exists v2. split_and!; [done|congruence..].
    + congruence.
    + intros Hb. rewrite B2; [by apply B1|]. by rewrite (B1 Hb).
Qed.

Lemma keeps_lists_netsys (g : W -> Z * W) w :
  (forall v, realises (netsys w) v -> exists v', realises (g (netsys w)).2 v' /\
     v_denied v' = v_denied v /\ v_allowed v' = v_allowed v /\ v_saver v' = v_saver v) -> keeps_lists w (on_netsys g w).
Proof. intros Hg. by split. Qed.

Lemma quota_keeps_lists iface bytes w : keeps_lists w (on_netsys (BandwidthSetIfaceQuota iface bytes) w).
Proof. apply keeps_lists_netsys. intros v Hr. exists v. split; [by apply r_quota|done]. Qed.

(** The service starts with any file it wrote, whatever the background policy in it, and with a native service whose
    lists are empty.  The index is the data saver of the native service: starting leaves it as it is, also when the
    file says that background traffic is to be rejected; a call that changes the background policy sets it. *)
Inductive reach : bool -> NetPolicyRule -> World W -> Prop :=
| reach_start w v m allow : file_agrees allow m w -> realises (netsys w) v -> v_denied v = ∅ -> v_allowed v = ∅ ->
    reach (v_saver v) (Init new_NetPolicyRule w).1 (Init new_NetPolicyRule w).2
| reach_call saver c s w : reach saver s w -> call_ok c -> reach (told saver s (call c s w).1.2) (call c s w).1.2 (call c s w).2
| reach_env saver s w w' : reach saver s w -> keeps_lists w w' -> reach saver s w'.

Lemma reach_agrees saver s w : reach saver s w -> agrees saver (backgroundAllow_ s) s w.
Proof.
  induction 1 as [w v m allow Hf Hr Ed Ea|saver c s w _ IH Hok|saver s w w' _ IH (Hn & Hu & Hb)].
  - destruct (Init_spec w allow m Hf) as (Hk & Ep & Eb & Hf' & Hn). rewrite Eb.
    split_and!; [done| |exists m; split; [done|]; intros u _; by rewrite Ep].
    apply Hn. exists v. split_and!; [done..|]. intros u. unfold entry_ok. cbn. rewrite lookup_empty. set_solver.
  - destruct c as [uid policy|allow| |eventId e]; cbn [call call_ok fst snd] in *.
    + destruct (set_policy_agrees _ _ uid policy s w Hok IH) as [Ha Eb]. by rewrite told_same, Eb.
    + by apply set_background_agrees.
    + by apply reset_agrees.
    + destruct (event_agrees saver eventId e s w Hok IH) as [Ha Eb]. destruct (HandleEvent eventId e s w). cbn in *. by rewrite told_same.
  - destruct IH as (Hk & (v & Hr & Es & He) & m & [Hm Hs] & Hst). split_and!; [done| |exists m; split; [|done]].
    + destruct (Hn v Hr) as (v' & Hr' & Ed & Ea & Es'). exists v'. split_and!; [done|congruence|].
      intros u. specialize (He u). unfold entry_ok, lists_ok in *. by rewrite Ed, Ea.
    + split; [unfold file_maps in *; by rewrite Hu|]. rewrite Hb, Hs; [done|]. rewrite Hs. by destruct (backgroundAllow_ s).
Qed.

(** Once the data saver is in step with the background policy it stays so. *)
Lemma in_step_call saver c s w : saver = negb (backgroundAllow_ s) ->
  told saver s (call c s w).1.2 = negb (backgroundAllow_ (call c s w).1.2).
Proof. intros ->. unfold told. destruct (Bool.eqb_spec (backgroundAllow_ (call c s w).1.2) (backgroundAllow_ s)) as [->|]; done. Qed.

(** C31: The lists of the native service follow the rules: in every state the
    service can reach from any file it wrote and a native service with empty
    lists, there is a view the native service realises in which an application
    without a rule is in neither list, one whose last operation was "deny" is
    in the denied list only, one with "allow" in the allowed list only, one
    with "remove" in neither, and every stored rule is one the table can give;
    and in which the data saver is on exactly as it was last told: every call
    that changes the background policy turns it on when background traffic is
    not allowed and off when it is.  (Starting tells it nothing: with a stored
    "reject" it stays as the native service has it until the first such call.) *)
Theorem policy_agrees saver s w : reach saver s w -> netsys_agrees saver s w /\
  forall c, call_ok c -> let '(_, s', w') := call c s w in
    netsys_agrees (if Bool.eqb (backgroundAllow_ s') (backgroundAllow_ s) then saver else negb (backgroundAllow_ s')) s' w'.
Proof.
  intros Hr. split; [by apply reach_agrees in Hr as (_ & Hn & _)|]. intros c Hc.
  pose proof (reach_call _ c s w Hr Hc) as Hr'. destruct (call c s w) as [[r s'] w']. by apply reach_agrees in Hr' as (_ & Hn & _).
Qed.

(** *** Changing a mode *)

Lemma all_fold l : forall s w, Forall (fun e => IsValidNetPolicy (policy_ e.2) = true) l ->
  (foldl (fun '(s, w) e => trans_entry e.1 e.2 s w) (s, w) l).1 =
  set_rules_ (foldl (fun m e => <[e.1 := recomputed e.1 e.2 s]> m) (uidPolicyRules_ s) l) s.
Proof.
  induction l as [|e l IH]; intros s w F; [by destruct s|]. apply Forall_cons in F as [Hp F]. cbn [foldl].
  pose proof (trans_entry_result e.1 e.2 s w Hp) as Ht. destruct (trans_entry e.1 e.2 s w) as [s' w']. destruct Ht as (-> & _).
  by rewrite IH.
Qed.

Lemma fold_inserts (f : Z * UidPolicyRule -> UidPolicyRule) l : forall (m : gmap Z UidPolicyRule) u, NoDup l.*1 ->
  foldl (fun m e => <[e.1 := f e]> m) m l !! u =
  match (list_to_map l : gmap Z UidPolicyRule) !! u with Some pr => Some (f (u, pr)) | None => m !! u end.
Proof.
  induction l as [|[u' pr] l IH]; intros m u Hn; [done|]. apply NoDup_cons in Hn as [Hx Hn]. cbn.
  rewrite IH by done. destruct (decide (u' = u)) as [->|Hne].
  - rewrite !lookup_insert_eq. by rewrite not_elem_of_list_to_map_1.
  - by rewrite !lookup_insert_ne by done.
Qed.

Lemma all_recomputed s w u : (forall u, match uidPolicyRules_ s !! u with Some pr => IsValidNetPolicy (policy_ pr) = true | None => True end) ->
  let s' := (TransPolicyToRule_all s w).1 in
  uidPolicyRules_ s' !! u = (fun pr => recomputed u pr s') <$> uidPolicyRules_ s !! u /\ s' = set_rules_ (uidPolicyRules_ s') s.
Proof.
  intros Hv. unfold TransPolicyToRule_all. set (l := sort_by fst _). assert (Pl : l ≡ₚ map_to_list (uidPolicyRules_ s)) by apply sort_by_Permutation.
  assert (Hn : NoDup l.*1) by (rewrite Pl; apply NoDup_fst_map_to_list). cbn zeta. rewrite all_fold; [split; [|done]|].
  - cbn [set_rules_ uidPolicyRules_]. rewrite (fold_inserts (fun e => recomputed e.1 e.2 s)) by done.
    rewrite (list_to_map_proper l _ Hn Pl), list_to_map_to_list. by destruct (uidPolicyRules_ s !! u).
  - apply Forall_forall. intros [u' pr]. rewrite Pl, elem_of_map_to_list. intros E. specialize (Hv u'). by rewrite E in Hv.
Qed.

Lemma agrees_valid allow s w u : netsys_agrees allow s w ->
  match uidPolicyRules_ s !! u with Some pr => IsValidNetPolicy (policy_ pr) = true | None => True end.
Proof. intros (v & _ & _ & He). specialize (He u). unfold entry_ok in He. case_match; [apply He|done]. Qed.

(** When the device enters or leaves idle or power save mode, the rule of every
    application is the one the table decides in the new mode: the event keeps
    the applications and their policies and stores for each the decision in the
    state after the event, and nothing else of the state changes but the mode. *)
Theorem mode_event_recomputes saver s w eventId e u : reach saver s w ->
  eventId = MSG_DEVICE_IDLE_MODE_CHANGED \/ eventId = MSG_POWER_SAVE_MODE_CHANGED ->
  let s' := (HandleEvent eventId e s w).1 in
  uidPolicyRules_ s' !! u =
    (fun pr => mkUidRule (policy_ pr) (decision u (policy_ pr) s').1 (decision u (policy_ pr) s').2) <$> uidPolicyRules_ s !! u /\
  s' = set_rules_ (uidPolicyRules_ s')
         (if eventId =? MSG_DEVICE_IDLE_MODE_CHANGED then set_deviceIdleMode_ (deviceIdleMode e) s else set_powerSaveMode_ (powerSaveMode e) s).
Proof.
  intros Hr He. apply reach_agrees in Hr as (_ & Hn & _). pose proof (fun u => agrees_valid _ _ _ u Hn) as Hv.
  destruct He as [->| ->]; apply (all_recomputed (set_deviceIdleMode_ (deviceIdleMode e) s) w u Hv) ||
    apply (all_recomputed (set_powerSaveMode_ (powerSaveMode e) s) w u Hv).
Qed.

(** *** Restarting *)

(** C34: The policies survive a restart: once a policy was set with success for
    any user, a service that starts from the object last handed to the writer
    answers [GetBackgroundPolicy] as before and [GetPolicyByUid] as before for
    every user above 2.  (The users 0, 1 and 2 are left out: for them
    [ArbitrationWritePolicyToFile] takes the number of the user for the stored
    policy, and a change to the policy of that number is not written.) *)
Theorem policies_survive_restart saver s w uid policy (f0 : NetPolicyFile) (w0 : W) : reach saver s w -> in_width 32 uid ->
  IsValidNetPolicy policy = true ->
  let '(_, s', w') := TransPolicyToRule uid policy s w in
  let '(ok, f) := InitPolicy (disk (file w')) f0 in
  let s'' := (Init new_NetPolicyRule (mkWorld w0 f [])).1 in
  ok = true /\ (forall u, 2 < u -> GetPolicyByUid u s'' = GetPolicyByUid u s') /\ GetBackgroundPolicy s'' = GetBackgroundPolicy s'.
Proof.
  intros Hr Hu Hp. apply reach_agrees in Hr. destruct (set_policy_agrees _ _ uid policy s w Hu Hr) as [(Hk & _ & m & Hf & Hm) Eb].
  assert (Ed : disk (file (TransPolicyToRule uid policy s w).2) = Some (netPolicy_ (file (TransPolicyToRule uid policy s w).2))).
  { destruct (set_policy_entry uid policy s w Hp) as (pr & w1 & [Hp' _] & _ & _ & _ & ->). cbn [fst snd].
    pose proof (trans_entry_result uid pr s w1 Hp') as Ht. destruct (trans_entry uid pr s w1) as [s2 w2].
    destruct Ht as (_ & E & _). cbn [snd]. by rewrite E. }
  destruct (TransPolicyToRule uid policy s w) as [[r s'] w']. cbn [fst snd] in *. rewrite Ed. unfold InitPolicy.
  set (w1 := mkWorld w0 _ []). destruct (Init_spec w1 (backgroundAllow_ s) m Hf) as (_ & Ep & Eb' & _).
  split_and!; [done| |unfold GetBackgroundPolicy; congruence]. intros u H2. unfold GetPolicyByUid.
  assert (E : policies (uidPolicyRules_ (Init new_NetPolicyRule w1).1) !! u = policies (uidPolicyRules_ s') !! u) by (rewrite Ep; by apply Hm).
  unfold policies in E. rewrite !lookup_omap in E. unfold NET_POLICY_NONE.
  destruct (uidPolicyRules_ (Init new_NetPolicyRule w1).1 !! u) as [pr1|], (uidPolicyRules_ s' !! u) as [pr2|]; cbn in E |- *; try done;
    repeat case_match; repeat (match goal with Hz : (_ =? 0) = true |- _ => apply Z.eqb_eq in Hz end); congruence.
Qed.

End Invariant.

(** ** The policies and the packets *)

Section Enforced.
Context {T : Type} `{Iptables.IptablesLaws T} {P : Type} `{Iptables.PacketsLaws P}.

(** The answer of [IsUidNetAllowed] is what happens to the packets: with the
    native service behind the policy service, a packet of an application that
    leaves by a metered interface whose quota is not used up is rejected by the
    packet filter exactly when [IsUidNetAllowed] denies the application metered
    traffic, for every application that is under no rule about all traffic
    (those are left to the firewall), while the data saver is in step with the
    background policy. *)
Lemma metered_enforced saver s (w : World (Native T)) (p : P) d uid bytes : reach saver s w -> saver = negb (backgroundAllow_ s) ->
  Iptables.owner p = Some uid -> 9999 < uid ->
  BandwidthManager.ifaceQuotaBytes_ (bandwidthManager_ (netsys w)) !! Iptables.out_iface p = Some bytes ->
  Iptables.matches p (Iptables.OverQuota2 bytes (Iptables.out_iface p)) = false ->
  (forall pr, uidPolicyRules_ s !! uid = Some pr -> rule_ pr <> NET_RULE_ALLOW_ALL /\ rule_ pr <> NET_RULE_REJECT_ALL) ->
  Iptables.walk (4 + d) (Iptables.rules (Iptables.ipv4_filter (iptables (netsys w)))) p "ohbw_OUTPUT" =
  if (IsUidNetAllowed uid true s).2 then Iptables.Passed else Iptables.Rejected.
Proof.
  intros Hr Hin Eu Happ Eq Eo Hall. apply reach_agrees in Hr as (_ & (v & Hv & Es & He) & _). rewrite Hin in Es.
  rewrite (metered_blocks _ v p d uid bytes) by done. specialize (He uid). unfold entry_ok in He. unfold IsUidNetAllowed, metered_blocked.
  destruct (uidPolicyRules_ s !! uid) as [pr|].
  - destruct (Hall pr eq_refl) as [H32 H64]. destruct He as (_ & Hd & (L1 & L2 & L4)). unfold decided in Hd. rewrite Es.
    destruct pr as [p0 r n]. cbn [rule_ netsys_] in *. unfold NET_RULE_ALLOW_ALL, NET_RULE_REJECT_ALL in *.
    repeat (apply elem_of_cons in Hd as [[= -> ->]|Hd]; [first [done|
      (destruct (L1 eq_refl) || destruct (L2 eq_refl) || destruct (L4 eq_refl)); repeat case_bool_decide; try done;
        by destruct (backgroundAllow_ s)]|]).
    by apply elem_of_nil in Hd.
  - destruct He as [Hd Ha]. rewrite !bool_decide_eq_false_2, Es by done. cbn. by destruct (backgroundAllow_ s).
Qed.

End Enforced.

(** ** Examples *)

Definition boot_policy : NetPolicy := mkNetPolicy "1.0" [] BACKGROUND_POLICY_ALLOW [] ∅.
Definition boot_world : World (Native Iptables.Table) :=
  mkWorld (native_new None Iptables.boot_wrapper) (mkFile boot_policy None) [].

Lemma boot_reach : reach false (Init new_NetPolicyRule boot_world).1 (Init new_NetPolicyRule boot_world).2.
Proof.
  apply (reach_start _ fresh_view ∅ true); try done.
  - split; [|done]. exists []. split_and!; [done|constructor| |constructor]. intros u p. by rewrite elem_of_nil, lookup_empty.
  - apply booted_realises. split_and!; [done|apply BandwidthManager.boot_bw_fresh|apply FirewallManager.boot_fw_fresh].
Qed.

(** Application 20010 must not use metered networks; wlan0 is metered. *)
Definition example_state : NetPolicyRule * World (Native Iptables.Table) :=
  let '(s, w) := Init new_NetPolicyRule boot_world in
  let '(_, s, w) := call (CallSetPolicy 20010 NET_POLICY_REJECT_METERED_BACKGROUND) s w in
  (s, on_netsys (BandwidthSetIfaceQuota "wlan0" 1000) w).

Lemma example_reach : reach false example_state.1 example_state.2.
Proof.
  assert (E : told false (Init new_NetPolicyRule boot_world).1
    (call (CallSetPolicy 20010 NET_POLICY_REJECT_METERED_BACKGROUND) (Init new_NetPolicyRule boot_world).1 (Init new_NetPolicyRule boot_world).2).1.2 = false)
    by (by vm_compute).
  unfold example_state. pose proof boot_reach as H0. destruct (Init new_NetPolicyRule boot_world) as [s0 w0]. cbn [fst snd] in *.
  assert (H1 : call_ok (CallSetPolicy 20010 NET_POLICY_REJECT_METERED_BACKGROUND)) by (cbn; unfold in_width; lia).
  pose proof (reach_call false _ s0 w0 H0 H1) as H2. rewrite E in H2. destruct (call _ s0 w0) as [[r1 s1] w1].
  eapply reach_env; [exact H2|apply quota_keeps_lists].
Qed.

(** Rejecting background traffic turns the data saver on. *)
Lemma policy_agrees_witness :
  (let '(_, s, w) := call (CallSetBackground false) example_state.1 example_state.2 in netsys_agrees true s w) /\
  netsys_ <$> uidPolicyRules_ example_state.1 !! 20010 = Some POLICY_TRANS_CTRL_ADD_DENIEDLIST.
Proof.
  split; [|vm_compute; reflexivity]. pose proof (proj2 (policy_agrees _ _ _ example_reach) (CallSetBackground false) I) as H.
  assert (E : backgroundAllow_ (call (CallSetBackground false) example_state.1 example_state.2).1.2 = false) by (vm_compute; reflexivity).
  assert (E0 : backgroundAllow_ example_state.1 = true) by (vm_compute; reflexivity).
  destruct (call (CallSetBackground false) example_state.1 example_state.2) as [[r s] w]. cbn [fst snd] in E. rewrite E, E0 in H. exact H.
Defined.

(** A stored "reject" is read at the start, and the data saver stays off. *)
Lemma stored_reject_untold :
  let w := mkWorld (native_new None Iptables.boot_wrapper) (mkFile (set_background BACKGROUND_POLICY_REJECT boot_policy) None) [] in
  let r := Init new_NetPolicyRule w in backgroundAllow_ r.1 = false /\ reach false r.1 r.2.
Proof.
  split; [reflexivity|]. apply (reach_start _ fresh_view ∅ false); try done.
  - split; [|done]. exists []. split_and!; [done|constructor| |constructor]. intros u p. by rewrite elem_of_nil, lookup_empty.
  - apply booted_realises. split_and!; [done|apply BandwidthManager.boot_bw_fresh|apply FirewallManager.boot_fw_fresh].
Qed.

Lemma metered_enforced_witness :
  Iptables.walk 4 (Iptables.rules (Iptables.ipv4_filter (iptables (netsys example_state.2))))
    (Iptables.mkOutPacket (Some 20010) "wlan0" false false) "ohbw_OUTPUT" = Iptables.Rejected /\
  Iptables.walk 4 (Iptables.rules (Iptables.ipv4_filter (iptables (netsys example_state.2))))
    (Iptables.mkOutPacket (Some 20011) "wlan0" false false) "ohbw_OUTPUT" = Iptables.Passed.
Proof.
  split.
  - rewrite (metered_enforced _ _ _ (Iptables.mkOutPacket (Some 20010) "wlan0" false false) 0 20010 1000 example_reach);
      [vm_compute; reflexivity|vm_compute; reflexivity|reflexivity|lia|vm_compute; reflexivity|reflexivity|].
    intros pr E. vm_compute in E. injection E as <-. split; discriminate.
  - rewrite (metered_enforced _ _ _ (Iptables.mkOutPacket (Some 20011) "wlan0" false false) 0 20011 1000 example_reach);
      [vm_compute; reflexivity|vm_compute; reflexivity|reflexivity|lia|vm_compute; reflexivity|reflexivity|].
    intros pr E. vm_compute in E. discriminate.
Defined.

Lemma mode_event_recomputes_witness :
  rule_ <$> uidPolicyRules_ (HandleEvent MSG_DEVICE_IDLE_MODE_CHANGED (mkEvent 2 None true ∅ false ∅ 0 0)
                               example_state.1 example_state.2).1 !! 20010 = Some NET_RULE_REJECT_ALL.
Proof.
  rewrite (proj1 (mode_event_recomputes _ _ _ MSG_DEVICE_IDLE_MODE_CHANGED (mkEvent 2 None true ∅ false ∅ 0 0) 20010
                    example_reach (or_introl eq_refl))).
  vm_compute. reflexivity.
Defined.

Lemma policies_survive_restart_witness :
  let '(_, s, w) := TransPolicyToRule 20012 NET_POLICY_ALLOW_METERED_BACKGROUND example_state.1 example_state.2 in
  let '(ok, f) := InitPolicy (disk (file w)) (mkFile boot_policy None) in
  let s' := (Init new_NetPolicyRule (mkWorld (native_new None Iptables.boot_wrapper) f [])).1 in
  ok = true /\ GetPolicyByUid 20010 s' = GetPolicyByUid 20010 s.
Proof.
  pose proof (policies_survive_restart _ _ _ 20012 NET_POLICY_ALLOW_METERED_BACKGROUND (mkFile boot_policy None)
                (native_new None Iptables.boot_wrapper) example_reach ltac:(unfold in_width; lia) eq_refl) as Hs.
  destruct (TransPolicyToRule _ _ _ _) as [[r s] w]. destruct (InitPolicy _ _) as [ok f].
  exact (conj (proj1 Hs) (proj1 (proj2 Hs) 20010 ltac:(lia))).
Defined.

End PolicyRule.
