(* ===== verification/PolicyTraffic.v ===== *)
(** * Quotas of the networks
    (services/netpolicymanager/src/core/net_policy_traffic.cpp,
    net_quota_policy.cpp: GetPeriodStart, net_policy_file.cpp: the quotas in the
    file, services/netstatsmanager: GetIfaceStatsDetail)

    A quota policy says how many bytes a network may carry in a period.  The
    component keeps the policies and the interfaces they make metered; after every
    change it computes what is left of each quota, gives it to the native service
    as the quota of the interface, and publishes what is used up.

    What an operation reads from outside is an [Env]: the clock, the time zone, the
    interfaces of the networks, the rows of the statistics, and whether the file
    has a writer; it does not change during one operation. *)

From S2P Require Import Prelude NetCaps NetData Iptables BandwidthManager FirewallManager PolicyNetsys NativeNetsys PolicyFile.
From S2P Require Import Parcel ConnParcel PolicyParcel CTime NumText PolicyRule.
Import NetCaps NetData PolicyNetsys PolicyParcel.
Module PR := PolicyRule.PolicyRule.
Module BW := BandwidthManager.BandwidthManager.

Module PolicyTraffic.

(** ** Constants *)

Definition POLICY_ERR_INVALID_QUOTA_POLICY : Z := 2104004.
Definition NETMANAGER_ERR_WRITE_DATA_FAIL : Z := 2100203.
Definition LONG_MAX : Z := 2 ^ 63 - 1.
Definition DATA_USAGE_UNLIMITED : Z := LONG_MAX.
Definition LIMIT_ACTION_ACCESS_DISABLED : Z := 0.
Definition LIMIT_ACTION_ALERT_ONLY : Z := 1.
Definition REMIND_TYPE_WARNING : Z := 1.
Definition REMIND_TYPE_LIMIT : Z := 2.
Definition NINETY_PERCENTAGE : Z := 90.
Definition HUNDRED_PERCENTAGE : Z := 100.
Definition QUOTA_POLICY_NO_PERIOD : string := "--".
Definition PERIOD_DAY : string := "D".
Definition PERIOD_MONTH : string := "M".
Definition PERIOD_YEAR : string := "Y".
Definition PERIOD_START : Z := 1.
Definition DAY_MAX : Z := 31.
Definition MONTH_MAX : Z := 12.
Definition YEAR_MAX : Z := 366.
Definition PERIOD_DURATION_SIZE : nat := 2.
Definition IDENT_PREFIX_CELLULAR : string := "simId".
Definition UNKNOW_IFACE : string := "".

(** ** What is read from outside *)

Record NetStatsInfo := mkStats { st_iface : string; st_date : Z; st_rxBytes : Z; st_txBytes : Z }.

Record Env := mkEnv {
  now : Z;                                        (* time(nullptr) *)
  zone : Z;                                       (* seconds east of UTC *)
  iface_by_type : Z -> string -> string;          (* GetIfaceNameByType; empty when it fails *)
  stats : option (list NetStatsInfo);             (* the history and the cache; [None] when they are not available *)
  has_writer : bool                               (* the handler that writes the file exists *)
}.

(** [NetStatsService::GetIfaceStatsDetail]: the bytes received and sent; the
    info is left at zero on a failure. *)
Definition add_stats (info : Z * Z) (row : NetStatsInfo) : Z * Z := (u64 (info.1 + st_rxBytes row), u64 (info.2 + st_txBytes row)).

Definition GetIfaceStatsDetail (iface : string) (start end_ : Z) (e : Env) : Z * Z :=
  match stats e with
  | None => (0, 0)
  | Some allInfo =>
      if end_ <? start then (0, 0)
      else foldl (fun info row => if bool_decide (st_iface row = iface) && (start <=? st_date row) && (st_date row <=? end_)
                                  then add_stats info row else info) (0, 0) allInfo
  end.

(** ** The period *)

Definition prefix1 (s : string) : string := match s with String.EmptyString => "" | String.String c _ => String.String c "" end.
Definition suffix1 (s : string) : string := match s with String.EmptyString => "" | String.String _ s => s end.

(** [NetQuotaPolicy::GetPeriodStart]; the change of a short duration is made to a
    copy of the policy. *)
Definition GetPeriodStart (q : NetQuotaPolicy) (e : Env) : Z :=
  let periodDuration := if (String.length (periodDuration q) <? PERIOD_DURATION_SIZE)%nat then PERIOD_MONTH else periodDuration q in
  if now e <? 0 then -1 else
  let t := CTime.localtime (zone e) (now e) in
  let cycle := prefix1 periodDuration in
  let start := NumText.StrToInt (suffix1 periodDuration) (-1) in
  let t :=
    if bool_decide (cycle = PERIOD_DAY)
    then CTime.mkTm 0 0 start (CTime.tm_mday t) (CTime.tm_mon t) (CTime.tm_year t) (CTime.tm_yday t)
    else if bool_decide (cycle = PERIOD_YEAR)
    then CTime.mkTm 0 0 0 (CTime.tm_mday t) (CTime.tm_mon t) (CTime.tm_year t) (start - 1)
    else CTime.mkTm 0 0 0 start (CTime.tm_mon t) (CTime.tm_year t) (CTime.tm_yday t) in
  CTime.mktime (zone e) t.

Definition IsValidPeriodDuration (periodDuration : string) : bool :=
  if bool_decide (periodDuration = "") || (String.length periodDuration <? PERIOD_DURATION_SIZE)%nat then false else
  let cycle := prefix1 periodDuration in
  let start := NumText.StrToInt (suffix1 periodDuration) (-1) in
  if bool_decide (cycle = PERIOD_DAY) && ((PERIOD_START <=? start) && (start <=? DAY_MAX)) then true
  else if bool_decide (cycle = PERIOD_MONTH) && ((PERIOD_START <=? start) && (start <=? MONTH_MAX)) then true
  else if bool_decide (cycle = PERIOD_YEAR) && ((PERIOD_START <=? start) && (start <=? YEAR_MAX)) then true
  else false.

Definition IsValidNetType (netType : Z) : bool :=
  bool_decide (netType ∈ NetBearType_num <$> [BEARER_CELLULAR; BEARER_WIFI; BEARER_BLUETOOTH; BEARER_ETHERNET; BEARER_VPN; BEARER_WIFI_AWARE]).

Definition IsValidNetRemindType (remindType : Z) : bool := (remindType =? REMIND_TYPE_WARNING) || (remindType =? REMIND_TYPE_LIMIT).

Definition IsValidQuotaPolicy (q : NetQuotaPolicy) : bool :=
  if negb (IsValidNetType (netType q)) then false
  else if negb (IsValidPeriodDuration (periodDuration q)) then false else true.

(** ** One policy *)

Definition set_bytes (w l : Z) (action : Z) (q : NetQuotaPolicy) : NetQuotaPolicy :=
  mkQuotaPolicy (netType q) (simId q) (q_ident q) (periodStartTime q) (periodDuration q) (title q) (summary q) w l
    (lastWarningRemind q) (lastLimitRemind q) (metered q) (source q) action (usedBytes q) (usedTimeDuration q) (possessor q).
Definition set_reminds (w l : Z) (q : NetQuotaPolicy) : NetQuotaPolicy :=
  mkQuotaPolicy (netType q) (simId q) (q_ident q) (periodStartTime q) (periodDuration q) (title q) (summary q) (warningBytes q) (limitBytes q)
    w l (metered q) (source q) (limitAction q) (usedBytes q) (usedTimeDuration q) (possessor q).

(** The product is of 64 bits. *)
Definition formalize (q : NetQuotaPolicy) : NetQuotaPolicy :=
  let q :=
    if limitBytes q =? DATA_USAGE_UNKNOWN then set_bytes (warningBytes q) (limitBytes q) LIMIT_ACTION_ALERT_ONLY q
    else if warningBytes q =? DATA_USAGE_UNKNOWN
    then set_bytes (Z.quot (s64 (limitBytes q * NINETY_PERCENTAGE)) HUNDRED_PERCENTAGE) (limitBytes q) (limitAction q) q
    else q in
  let q := if limitAction q =? LIMIT_ACTION_ALERT_ONLY then set_bytes (warningBytes q) DATA_USAGE_UNLIMITED (limitAction q) q else q in
  let q := if limitBytes q <? warningBytes q then set_bytes DATA_USAGE_UNLIMITED (limitBytes q) (limitAction q) q else q in
  if limitBytes q =? DATA_USAGE_UNLIMITED then set_bytes (warningBytes q) (limitBytes q) LIMIT_ACTION_ALERT_ONLY q else q.

Definition GetMatchIfaces (q : NetQuotaPolicy) (e : Env) : string :=
  let ident :=
    if netType q =? NetBearType_num BEARER_CELLULAR then IDENT_PREFIX_CELLULAR +:+ simId q
    else if netType q =? NetBearType_num BEARER_WIFI then q_ident q
    else if netType q =? NetBearType_num BEARER_ETHERNET then q_ident q
    else "" in
  if NetBearType_num BEARER_DEFAULT <=? netType q then "" else iface_by_type e (netType q) ident.

Definition GetTotalQuota (q : NetQuotaPolicy) (e : Env) : Z :=
  let iface := GetMatchIfaces q e in
  let start := GetPeriodStart q e in
  let end_ := now e in
  if end_ <? 0 then 0 else
  let info := GetIfaceStatsDetail iface (u64 start) (u64 end_) e in
  let quota := s64 (u64 (info.1 + info.2)) in
  if quota <? 0 then 0 else quota.

Definition GetQuotaRemain (q : NetQuotaPolicy) (e : Env) : Z :=
  let start := GetPeriodStart q e in
  let totalQuota := GetTotalQuota q e in
  let hasLimit := negb (limitBytes q =? DATA_USAGE_UNKNOWN) in
  if (hasLimit || metered q) && (hasLimit && negb (bool_decide (periodDuration q = QUOTA_POLICY_NO_PERIOD))) then
    if start <=? lastLimitRemind q then LONG_MAX
    else let quota := s64 (limitBytes q - totalQuota) in if quota <? 0 then 0 else quota
  else LONG_MAX.

(** ** State and operations *)

(** [BroadcastManager::SendBroadcast]: the event and the bytes used. *)
Inductive Broadcast := NET_QUOTA_WARNING (n : Z) | NET_QUOTA_LIMIT_REMINDED (n : Z) | NET_QUOTA_LIMIT (n : Z).

(** [published] is what has been broadcast. *)
Record NetPolicyTraffic := mkTraffic { quotaPolicies_ : list NetQuotaPolicy; meteredIfaces_ : list string; published : list Broadcast }.

Definition new_NetPolicyTraffic : NetPolicyTraffic := mkTraffic [] [] [].
Definition set_quotaPolicies_ x s := mkTraffic x (meteredIfaces_ s) (published s).
Definition set_meteredIfaces_ x s := mkTraffic (quotaPolicies_ s) x (published s).
Definition publish x s := mkTraffic (quotaPolicies_ s) (meteredIfaces_ s) (published s ++ x).

Definition FormalizeQuotaPolicies (quotaPolicies : list NetQuotaPolicy) (s : NetPolicyTraffic) : NetPolicyTraffic :=
  set_quotaPolicies_ (map formalize (List.filter IsValidQuotaPolicy quotaPolicies)) s.

Definition GetNetQuotaPolicies (s : NetPolicyTraffic) : Z * list NetQuotaPolicy := (NETMANAGER_SUCCESS, quotaPolicies_ s).

Definition IsMeteredIfaces (ifaceName : string) (s : NetPolicyTraffic) : bool := bool_decide (ifaceName ∈ meteredIfaces_ s).

(** [SetNetworkEnableStatus] only logs, so that [UpdateNetEnableStatus] has no effect. *)
Definition quota_notice (e : Env) (q : NetQuotaPolicy) : list Broadcast :=
  let start := GetPeriodStart q e in
  let totalQuota := GetTotalQuota q e in
  if IsOverLimit totalQuota q then
    if start <? lastLimitRemind q then [NET_QUOTA_LIMIT_REMINDED totalQuota] else [NET_QUOTA_LIMIT totalQuota]
  else if IsOverWarning totalQuota q && (lastWarningRemind q <? start) then [NET_QUOTA_WARNING totalQuota] else [].

Definition UpdateQuotaNotify (e : Env) (s : NetPolicyTraffic) : NetPolicyTraffic := publish (flat_map (quota_notice e) (quotaPolicies_ s)) s.

(** ** The file *)

(** The fields of an entry. *)
Definition quota_entry (q : NetQuotaPolicy) : PolicyFile.NetPolicyQuota :=
  PolicyFile.mkQuota (NumText.to_string (netType q)) (simId q) (NumText.to_string (periodStartTime q)) (periodDuration q)
    (NumText.to_string (warningBytes q)) (NumText.to_string (limitBytes q)) (NumText.to_string (lastLimitRemind q))
    (NumText.to_string (Z.b2z (metered q))) (q_ident q).

Definition same_key (q : NetQuotaPolicy) (x : PolicyFile.NetPolicyQuota) : bool :=
  bool_decide (simId q = PolicyFile.simId x) && bool_decide (PolicyFile.netType x = NumText.to_string (netType q)).

(** The entry found is assigned every field. *)
Fixpoint UpdateQuotaPolicyExist (q : NetQuotaPolicy) (l : list PolicyFile.NetPolicyQuota) : option (list PolicyFile.NetPolicyQuota) :=
  match l with
  | [] => None
  | x :: l => if same_key q x then Some (quota_entry q :: l) else cons x <$> UpdateQuotaPolicyExist q l
  end.

Definition write_entry (l : list PolicyFile.NetPolicyQuota) (q : NetQuotaPolicy) : list PolicyFile.NetPolicyQuota :=
  match UpdateQuotaPolicyExist q l with Some l => l | None => l ++ [quota_entry q] end.

Definition set_quotas x (p : PolicyFile.NetPolicy) :=
  PolicyFile.mkNetPolicy (PolicyFile.hosVersion p) (PolicyFile.uidPolicies p) (PolicyFile.backgroundPolicyStatus p) x (PolicyFile.netFirewallRules p).

(** Without a writer the object changes and the file does not. *)
Definition file_WriteQuotaPolicies (quotaPolicies : list NetQuotaPolicy) (e : Env) (n : PolicyFile.NetPolicyFile) : bool * PolicyFile.NetPolicyFile :=
  let n := PolicyFile.on_policy (set_quotas (foldl write_entry [] quotaPolicies)) n in
  if has_writer e then (true, PolicyFile.WriteFile n)
  else (false, PolicyFile.mkFile (PolicyFile.Obj2Json (PolicyFile.netPolicy_ n)) (PolicyFile.disk n)).

Definition ToQuotaPolicy (x : PolicyFile.NetPolicyQuota) : NetQuotaPolicy :=
  mkQuotaPolicy (NumText.StrToInt (PolicyFile.netType x) (NetBearType_num BEARER_DEFAULT)) (PolicyFile.simId x) (PolicyFile.ident x)
    (NumText.StrToLong (PolicyFile.periodStartTime x) (-1)) (PolicyFile.periodDuration x) "" ""
    (NumText.StrToLong (PolicyFile.warningBytes x) DATA_USAGE_UNKNOWN) (NumText.StrToLong (PolicyFile.limitBytes x) DATA_USAGE_UNKNOWN)
    REMIND_NEVER (NumText.StrToLong (PolicyFile.lastLimitSnooze x) REMIND_NEVER) (NumText.StrToBool (PolicyFile.metered x) false)
    (-1) LIMIT_ACTION_NONE (-1) (-1) "".

Definition file_ReadQuotaPolicies (quotaPolicies : list NetQuotaPolicy) (n : PolicyFile.NetPolicyFile) : list NetQuotaPolicy :=
  quotaPolicies ++ map ToQuotaPolicy (PolicyFile.netQuotaPolicies (PolicyFile.netPolicy_ n)).

Definition IsQuotaPolicyExist (netType_ : Z) (simId_ : string) (n : PolicyFile.NetPolicyFile) : bool :=
  existsb (fun q => (netType_ =? netType q) && bool_decide (simId_ = simId q)) (file_ReadQuotaPolicies [] n).

Section Operations.
Context {W : Type} {PN : PolicyNetsys W}.
Implicit Types (s : NetPolicyTraffic) (w : PR.World W).

(** One round of the loop: the interface and its quota. *)
Definition quota_step (e : Env) (st : list string * PR.World W) (q : NetQuotaPolicy) : list string * PR.World W :=
  let iface := GetMatchIfaces q e in
  if bool_decide (iface = UNKNOW_IFACE) || negb (metered q) then st
  else
    let quotaRemain := GetQuotaRemain q e in
    (st.1 ++ [iface], if 0 <=? quotaRemain then PR.on_netsys (BandwidthSetIfaceQuota iface quotaRemain) st.2 else st.2).

Definition drop_step (keep : list string) (w : PR.World W) (iface : string) : PR.World W :=
  if bool_decide (iface ∈ keep) then w else PR.on_netsys (BandwidthRemoveIfaceQuota iface) w.

Definition UpdateMeteredIfacesQuota (e : Env) s w : list string * PR.World W :=
  let '(newMeteredIfaces, w) := foldl (quota_step e) ([], w) (quotaPolicies_ s) in
  (newMeteredIfaces, foldl (drop_step newMeteredIfaces) w (meteredIfaces_ s)).

Definition UpdateMeteredIfaces (newMeteredIfaces : list string) s w : NetPolicyTraffic * PR.World W :=
  (set_meteredIfaces_ newMeteredIfaces s, PR.notify (PR.NetMeteredIfacesChange newMeteredIfaces) w).

Definition WriteQuotaPolicies (e : Env) s w : bool * PR.World W :=
  let '(ok, f) := file_WriteQuotaPolicies (quotaPolicies_ s) e (PR.file w) in (ok, PR.mkWorld (PR.netsys w) f (PR.notes w)).

Definition UpdateQuotaPoliciesInner (e : Env) s w : Z * NetPolicyTraffic * PR.World W :=
  let '(meteredIfaces, w) := UpdateMeteredIfacesQuota e s w in
  let '(s, w) := UpdateMeteredIfaces meteredIfaces s w in
  let s := UpdateQuotaNotify e s in
  let '(ok, w) := WriteQuotaPolicies e s w in
  if negb ok then (NETMANAGER_ERR_WRITE_DATA_FAIL, s, w)
  else (NETMANAGER_SUCCESS, s, PR.notify (PR.NetQuotaPolicyChange (quotaPolicies_ s)) w).

Definition UpdateQuotaPolicies (quotaPolicies : list NetQuotaPolicy) (e : Env) s w : Z * NetPolicyTraffic * PR.World W :=
  if bool_decide (length quotaPolicies = O) then (POLICY_ERR_INVALID_QUOTA_POLICY, s, w)
  else UpdateQuotaPoliciesInner e (FormalizeQuotaPolicies quotaPolicies s) w.

Definition remind (netType_ : Z) (simId_ : string) (remindType : Z) (e : Env) (q : NetQuotaPolicy) : NetQuotaPolicy :=
  if (netType q =? netType_) && bool_decide (simId q = simId_) then
    if remindType =? REMIND_TYPE_WARNING then set_reminds (now e) (lastLimitRemind q) q else set_reminds (lastWarningRemind q) (now e) q
  else q.

Definition UpdateRemindPolicy (netType_ : Z) (simId_ : string) (remindType : Z) (e : Env) s w : Z * NetPolicyTraffic * PR.World W :=
  if negb (IsValidNetType netType_) then (NETMANAGER_ERR_PARAMETER_ERROR, s, w)
  else if negb (IsValidNetRemindType remindType) then (NETMANAGER_ERR_PARAMETER_ERROR, s, w)
  else
    let s := set_quotaPolicies_ (map (remind netType_ simId_ remindType e) (quotaPolicies_ s)) s in
    let '(_, s, w) := UpdateQuotaPoliciesInner e s w in
    (NETMANAGER_SUCCESS, s, w).

Definition ResetPolicies_sim (simId_ : string) (e : Env) s w : Z * NetPolicyTraffic * PR.World W :=
  UpdateQuotaPoliciesInner e (set_quotaPolicies_ (map (fun q => if bool_decide (simId q = simId_) then Reset q else q) (quotaPolicies_ s)) s) w.

Definition ResetPolicies (e : Env) s w : Z * NetPolicyTraffic * PR.World W :=
  UpdateQuotaPoliciesInner e (set_quotaPolicies_ (map Reset (quotaPolicies_ s)) s) w.

(** [OnBandwidthReachedLimit] of the native service. *)
Definition ReachedLimit (iface : string) (e : Env) s w : NetPolicyTraffic * PR.World W :=
  if IsMeteredIfaces iface s then let '(_, s, w) := UpdateQuotaPoliciesInner e s w in (s, w) else (s, w).

(** [NetAvailable] of the connection service. *)
Definition UpdateNetPolicy (e : Env) s w : NetPolicyTraffic * PR.World W := let '(_, s, w) := UpdateQuotaPoliciesInner e s w in (s, w).

Definition ReadQuotaPolicies (e : Env) s w : NetPolicyTraffic * PR.World W :=
  let s := set_quotaPolicies_ (file_ReadQuotaPolicies (quotaPolicies_ s) (PR.file w)) s in
  let '(_, s, w) := UpdateQuotaPoliciesInner e s w in (s, w).

Definition Init (e : Env) s w : NetPolicyTraffic * PR.World W := ReadQuotaPolicies e s w.

Inductive TrafficCall :=
| CallUpdateQuotaPolicies (l : list NetQuotaPolicy)
| CallUpdateRemindPolicy (netType_ : Z) (simId_ : string) (remindType : Z)
| CallResetPolicies_sim (simId_ : string)
| CallResetPolicies
| CallReachedLimit (iface : string)
| CallUpdateNetPolicy.

Definition traffic_call (c : TrafficCall) (e : Env) s w : Z * NetPolicyTraffic * PR.World W :=
  match c with
  | CallUpdateQuotaPolicies l => UpdateQuotaPolicies l e s w
  | CallUpdateRemindPolicy n i t => UpdateRemindPolicy n i t e s w
  | CallResetPolicies_sim i => ResetPolicies_sim i e s w
  | CallResetPolicies => ResetPolicies e s w
  | CallReachedLimit i => let '(s, w) := ReachedLimit i e s w in (NETMANAGER_SUCCESS, s, w)
  | CallUpdateNetPolicy => let '(s, w) := UpdateNetPolicy e s w in (NETMANAGER_SUCCESS, s, w)
  end.

End Operations.

(** ** One policy, in words *)

(** What [FormalizeQuotaPolicies] guarantees of every policy it keeps: there is
    a limit or none at all, without a limit there is only an alert, and a warning
    comes before the limit or never. *)
Lemma formalize_normal q : let q' := formalize q in
  limitBytes q' <> DATA_USAGE_UNKNOWN /\
  (limitBytes q' = DATA_USAGE_UNLIMITED <-> limitAction q' = LIMIT_ACTION_ALERT_ONLY) /\
  (warningBytes q' <= limitBytes q' \/ warningBytes q' = DATA_USAGE_UNLIMITED).
Proof.
  cbv zeta. unfold formalize.
  destruct (Z.eqb_spec (limitBytes q) DATA_USAGE_UNKNOWN), (Z.eqb_spec (warningBytes q) DATA_USAGE_UNKNOWN); cbn;
    unfold DATA_USAGE_UNKNOWN, DATA_USAGE_UNLIMITED, LONG_MAX, LIMIT_ACTION_ALERT_ONLY in *;
    repeat (case_match; cbn in * ); lia.
Qed.

(** A limit below a tenth of what 64 bits hold and no warning gives a warning at nine tenths of it. *)
Lemma formalize_warning q : warningBytes q = DATA_USAGE_UNKNOWN -> 0 <= limitBytes q < 2 ^ 56 -> limitAction q <> LIMIT_ACTION_ALERT_ONLY ->
  warningBytes (formalize q) = limitBytes q * 90 / 100 /\ limitBytes (formalize q) = limitBytes q.
Proof.
  intros Hw Hl Ha. unfold formalize. rewrite (proj2 (Z.eqb_neq (limitBytes q) _)), Hw by (unfold DATA_USAGE_UNKNOWN; lia).
  change (DATA_USAGE_UNKNOWN =? DATA_USAGE_UNKNOWN) with true. cbn -[Z.quot]. rewrite (proj2 (Z.eqb_neq (limitAction q) _)) by done. cbn -[Z.quot]. unfold NINETY_PERCENTAGE, HUNDRED_PERCENTAGE. rewrite swrap_small by lia.
  rewrite Z.quot_div_nonneg by lia. assert (limitBytes q * 90 / 100 <= limitBytes q) by (apply Z.div_le_upper_bound; lia).
  rewrite (proj2 (Z.ltb_ge _ _)) by lia. cbn. rewrite (proj2 (Z.eqb_neq _ _)) by (unfold DATA_USAGE_UNLIMITED, LONG_MAX; lia). done.
Qed.

(** A policy without limit and warning that is read and set again: the product
    exceeds 64 bits and the warning comes with the first byte. *)
Lemma formalize_twice q : limitBytes q = DATA_USAGE_UNKNOWN -> warningBytes q = DATA_USAGE_UNKNOWN ->
  warningBytes (formalize q) = DATA_USAGE_UNKNOWN /\ warningBytes (formalize (formalize q)) = 0.
Proof.
  intros Hl Hw. assert (E : formalize q = set_bytes DATA_USAGE_UNKNOWN DATA_USAGE_UNLIMITED LIMIT_ACTION_ALERT_ONLY q).
  { unfold formalize. rewrite Hl, Hw. done. }
  rewrite E. split; [done|]. done.
Qed.

Lemma GetTotalQuota_range q e : 0 <= GetTotalQuota q e < 2 ^ 63.
Proof.
  unfold GetTotalQuota. destruct (now e <? 0); [lia|]. destruct (Z.ltb_spec (s64 (u64 ((GetIfaceStatsDetail (GetMatchIfaces q e) (u64 (GetPeriodStart q e)) (u64 (now e)) e).1 +
    (GetIfaceStatsDetail (GetMatchIfaces q e) (u64 (GetPeriodStart q e)) (u64 (now e)) e).2))) 0); [lia|]. split; [done|].
  unfold swrap. pose proof (Z.mod_pos_bound (u64 ((GetIfaceStatsDetail (GetMatchIfaces q e) (u64 (GetPeriodStart q e)) (u64 (now e)) e).1 +
    (GetIfaceStatsDetail (GetMatchIfaces q e) (u64 (GetPeriodStart q e)) (u64 (now e)) e).2)) (2 ^ 64)). case_match; lia.
Qed.

(** What is left of a quota. *)
Lemma GetQuotaRemain_spec q e : - 1 <= limitBytes q < 2 ^ 63 ->
  GetQuotaRemain q e =
  if (limitBytes q =? DATA_USAGE_UNKNOWN) || bool_decide (periodDuration q = QUOTA_POLICY_NO_PERIOD) || (GetPeriodStart q e <=? lastLimitRemind q)
  then LONG_MAX else Z.max 0 (limitBytes q - GetTotalQuota q e).
Proof.
  intros Hl. pose proof (GetTotalQuota_range q e) as Ht. unfold GetQuotaRemain. destruct (limitBytes q =? DATA_USAGE_UNKNOWN); cbn [negb orb andb].
  - by destruct (metered q).
  - destruct (bool_decide _); cbn [negb]; [done|]. destruct (GetPeriodStart q e <=? lastLimitRemind q); [done|].
    cbn [orb]. rewrite swrap_small by lia. destruct (Z.ltb_spec (limitBytes q - GetTotalQuota q e) 0); lia.
Qed.

Lemma GetQuotaRemain_nonneg q e : 0 <= GetQuotaRemain q e.
Proof.
  unfold GetQuotaRemain. destruct (_ && _); [|by vm_compute]. destruct (_ <=? _); [by vm_compute|]. cbv zeta.
  destruct (Z.ltb_spec (s64 (limitBytes q - GetTotalQuota q e)) 0); lia.
Qed.

(** ** The quotas of the native service *)

Abbreviation valid_iface := BandwidthManager.CheckIfaceName.

(** What the calls mean for the quotas; the others leave them alone. *)
Class QuotaLaws (W : Type) {PN : PolicyNetsys W} := {
  quotas : W -> gmap string Z;
  q_set : forall w i n, quotas (BandwidthSetIfaceQuota i n w).2 = if valid_iface i then <[i := n]> (quotas w) else quotas w;
  q_remove : forall w i, quotas (BandwidthRemoveIfaceQuota i w).2 = if valid_iface i then delete i (quotas w) else quotas w;
  q_saver : forall w e, quotas (BandwidthEnableDataSaver e w).2 = quotas w;
  q_add_denied : forall w u, quotas (BandwidthAddDeniedList u w).2 = quotas w;
  q_remove_denied : forall w u, quotas (BandwidthRemoveDeniedList u w).2 = quotas w;
  q_add_allowed : forall w u, quotas (BandwidthAddAllowedList u w).2 = quotas w;
  q_remove_allowed : forall w u, quotas (BandwidthRemoveAllowedList u w).2 = quotas w;
  q_fill_allow : forall w c us, quotas (FirewallSetUidsAllowedListChain c us w).2 = quotas w;
  q_fill_deny : forall w c us, quotas (FirewallSetUidsDeniedListChain c us w).2 = quotas w;
  q_uid_rule : forall w c us r, quotas (FirewallSetUidRule c us r w).2 = quotas w;
  q_enable : forall w c e, quotas (FirewallEnableChain c e w).2 = quotas w;
}.

Section NativeQuotas.
Context {T : Type} {TI : Iptables.Iptables T}.

Definition quota_effect (c : BW.Call) (m : gmap string Z) : gmap string Z :=
  match c with
  | BW.CallSetIfaceQuota i n => if valid_iface i then <[i := n]> m else m
  | BW.CallRemoveIfaceQuota i => if valid_iface i then delete i m else m
  | _ => m
  end.

Lemma bw_check_quotas b (w : Iptables.IptablesWrapper T) : BW.ifaceQuotaBytes_ (BW.CheckChainInitialization b w).1 = BW.ifaceQuotaBytes_ b.
Proof. unfold BW.CheckChainInitialization, BW.InitChain, BW.InitDefaultRules. repeat case_match; simplify_eq/=; done. Qed.

Lemma bw_perform_quotas c b (w : Iptables.IptablesWrapper T) :
  BW.ifaceQuotaBytes_ (BW.perform c b w).1.2 = quota_effect c (BW.ifaceQuotaBytes_ b).
Proof.
  pose proof (bw_check_quotas b w) as Hc. destruct (BW.CheckChainInitialization b w) as [b1 w1] eqn:E1. cbn [fst] in Hc.
  destruct c; cbn [BW.perform quota_effect];
    unfold BW.EnableDataSaver, BW.SetIfaceQuota, BW.RemoveIfaceQuota, BW.AddDeniedList, BW.RemoveDeniedList,
      BW.AddAllowedList, BW.RemoveAllowedList, BW.SetIfaceQuotaDetail; rewrite ?E1;
    try (destruct (valid_iface ifName); cbn [negb]; [|done]);
    repeat case_match; simplify_eq/=; rewrite ?Hc; try done.
  symmetry. apply delete_id. congruence.
Qed.

Lemma fold_on_firewall_quotas c uids r (n : NativeNetsys.Native T) :
  NativeNetsys.bandwidthManager_ (foldl (fun n uid => (NativeNetsys.on_firewall (FirewallManager.CallSetUidRule c uid r) n).2) n uids) =
  NativeNetsys.bandwidthManager_ n.
Proof.
  revert n. induction uids as [|u uids IH]; intros n; [done|]. cbn [foldl]. rewrite IH. unfold NativeNetsys.on_firewall.
  by destruct (FirewallManager.perform _ _ _) as [[]].
Qed.

#[global] Instance native_quotas : QuotaLaws (NativeNetsys.Native T).
Proof.
  refine {| quotas n := BW.ifaceQuotaBytes_ (NativeNetsys.bandwidthManager_ n) |}; intros w; intros; cbn.
  1-7: unfold NativeNetsys.native_BandwidthSetIfaceQuota, NativeNetsys.native_BandwidthRemoveIfaceQuota,
    NativeNetsys.native_BandwidthEnableDataSaver, NativeNetsys.native_BandwidthAddDeniedList, NativeNetsys.native_BandwidthRemoveDeniedList,
    NativeNetsys.native_BandwidthAddAllowedList, NativeNetsys.native_BandwidthRemoveAllowedList, NativeNetsys.on_bandwidth;
    match goal with |- context [BW.perform ?c ?b ?x] => pose proof (bw_perform_quotas c b x) as Hq; destruct (BW.perform c b x) as [[]] end; exact Hq.
  all: unfold NativeNetsys.native_FirewallSetUidsAllowedListChain, NativeNetsys.native_FirewallSetUidsDeniedListChain,
    NativeNetsys.native_FirewallSetUidRule, NativeNetsys.native_FirewallEnableChain.
  3: { repeat case_match; try done. cbn [snd]. by rewrite fold_on_firewall_quotas. }
  all: unfold NativeNetsys.on_firewall; by destruct (FirewallManager.perform _ _ _) as [[]].
Defined.

End NativeQuotas.

(** ** What the quotas of the interfaces are *)

Definition counts (e : Env) (q : NetQuotaPolicy) : bool := negb (bool_decide (GetMatchIfaces q e = UNKNOW_IFACE)) && metered q.

(** The interfaces of the metered policies, and for each the rest of the last policy for it. *)
Definition metered_ifaces (e : Env) (l : list NetQuotaPolicy) : list string := map (fun q => GetMatchIfaces q e) (List.filter (counts e) l).

Fixpoint last_for (e : Env) (iface : string) (l : list NetQuotaPolicy) : option NetQuotaPolicy :=
  match l with
  | [] => None
  | q :: l => match last_for e iface l with
              | Some q => Some q
              | None => if counts e q && bool_decide (GetMatchIfaces q e = iface) then Some q else None
              end
  end.

Definition quota_for (e : Env) (l : list NetQuotaPolicy) (iface : string) : option Z := (fun q => GetQuotaRemain q e) <$> last_for e iface l.

Lemma last_for_metered e iface l : is_Some (last_for e iface l) <-> iface ∈ metered_ifaces e l.
Proof.
  unfold metered_ifaces. induction l as [|q l IH]; cbn [last_for List.filter map].
  - split; [by intros []|by intros ?%not_elem_of_nil].
  - destruct (last_for e iface l) as [x|].
    + split; [intros _|by eexists]. destruct IH as [IH _]. specialize (IH ltac:(by eexists)). destruct (counts e q); [by right|done].
    + destruct (counts e q); cbn [andb].
      * cbn [map]. rewrite elem_of_cons, <- IH. case_bool_decide as E; [split; [by left|by eexists]|].
        split; [by intros []|]. intros [->|Hs]; [done|exact Hs].
      * rewrite <- IH. done.
Qed.

(** The names the connection service gives are accepted by the native service. *)
Definition env_ok (e : Env) : Prop := forall t i, iface_by_type e t i = UNKNOW_IFACE \/ valid_iface (iface_by_type e t i) = true.

Lemma counts_valid e q : env_ok e -> counts e q = true -> valid_iface (GetMatchIfaces q e) = true.
Proof.
  intros He [Hc _]%andb_prop. apply negb_true_iff, bool_decide_eq_false in Hc. unfold GetMatchIfaces in *.
  destruct (_ <=? netType q); [done|]. by edestruct He.
Qed.

Lemma metered_ifaces_valid e l : env_ok e -> Forall (fun i => valid_iface i = true) (metered_ifaces e l).
Proof.
  intros He. apply Forall_forall. intros i Hi. unfold metered_ifaces in Hi. apply list_elem_of_In, in_map_iff in Hi as (q & <- & Hq).
  apply filter_In in Hq as [_ Hc]. by apply counts_valid.
Qed.

Section Enforce.
Context {W : Type} {PN : PolicyNetsys W} {QL : QuotaLaws W}.
Implicit Types (s : NetPolicyTraffic) (w : PR.World W).

Lemma quota_step_eq e acc w q : quota_step e (acc, w) q =
  if counts e q then (acc ++ [GetMatchIfaces q e], PR.on_netsys (BandwidthSetIfaceQuota (GetMatchIfaces q e) (GetQuotaRemain q e)) w) else (acc, w).
Proof.
  unfold quota_step, counts. rewrite (proj2 (Z.leb_le _ _)) by apply GetQuotaRemain_nonneg. destruct (bool_decide _), (metered q); done.
Qed.

(** The first loop. *)
Lemma quota_loop e l : env_ok e -> forall acc w, let r := foldl (quota_step e) (acc, w) l in
  r.1 = acc ++ metered_ifaces e l /\ PR.file r.2 = PR.file w /\ PR.notes r.2 = PR.notes w /\
  forall i, quotas (PR.netsys r.2) !! i = match quota_for e l i with Some n => Some n | None => quotas (PR.netsys w) !! i end.
Proof.
  intros He. induction l as [|q l IH]; intros acc w; cbv zeta; [split_and!; [by rewrite app_nil_r|done..]|].
  cbn [foldl]. rewrite quota_step_eq. unfold quota_for, metered_ifaces in *. cbn [List.filter map last_for].
  destruct (counts e q) eqn:Ec; cbn [andb].
  - destruct (IH (acc ++ [GetMatchIfaces q e]) (PR.on_netsys (BandwidthSetIfaceQuota (GetMatchIfaces q e) (GetQuotaRemain q e)) w)) as (-> & -> & -> & Hq).
    split_and!; [cbn [map]; by rewrite <- app_assoc|done|done|]. intros i. rewrite Hq. cbn [PR.on_netsys PR.netsys].
    destruct (last_for e i l) as [x|]; [done|]. cbn. rewrite q_set, (counts_valid e q He Ec).
    case_bool_decide as E; [rewrite E; apply lookup_insert_eq|by apply lookup_insert_ne].
  - destruct (IH acc w) as (-> & -> & -> & Hq). split_and!; [done..|]. intros i. rewrite Hq. by destruct (last_for e i l).
Qed.

(** The second loop. *)
Lemma drop_loop keep old : Forall (fun i => valid_iface i = true) old -> forall w, let w' := foldl (drop_step keep) w old in
  PR.file w' = PR.file w /\ PR.notes w' = PR.notes w /\
  forall i, quotas (PR.netsys w') !! i = if bool_decide (i ∈ old /\ i ∉ keep) then None else quotas (PR.netsys w) !! i.
Proof.
  induction 1 as [|j old Hj _ IH]; intros w; cbv zeta; [split_and!; [done..|]; intros i; by rewrite bool_decide_eq_false_2 by set_solver|].
  cbn [foldl]. destruct (IH (drop_step keep w j)) as (-> & -> & Hq). unfold drop_step in *.
  case_bool_decide as Hk; (split_and!; [done..|]); intros i; rewrite Hq.
  - do 2 case_bool_decide; try done; set_solver.
  - cbn [PR.on_netsys PR.netsys]. rewrite q_remove, Hj. destruct (decide (i = j)) as [->|Hne].
    + rewrite lookup_delete_eq, (bool_decide_eq_true_2 (j ∈ j :: old /\ _)) by set_solver. by case_bool_decide.
    + rewrite lookup_delete_ne by done. do 2 case_bool_decide; try done; set_solver.
Qed.

(** The interfaces with a quota are the metered ones. *)
Definition traffic_inv s w : Prop :=
  (forall i, is_Some (quotas (PR.netsys w) !! i) <-> i ∈ meteredIfaces_ s) /\ Forall (fun i => valid_iface i = true) (meteredIfaces_ s).

Lemma Inner_spec e s w r s' w' : traffic_inv s w -> env_ok e -> UpdateQuotaPoliciesInner e s w = (r, s', w') ->
  (forall i, quotas (PR.netsys w') !! i = quota_for e (quotaPolicies_ s) i) /\
  meteredIfaces_ s' = metered_ifaces e (quotaPolicies_ s) /\ quotaPolicies_ s' = quotaPolicies_ s /\
  PR.file w' = (file_WriteQuotaPolicies (quotaPolicies_ s) e (PR.file w)).2 /\
  r = (if has_writer e then NETMANAGER_SUCCESS else NETMANAGER_ERR_WRITE_DATA_FAIL).
Proof.
  intros [Hd Hv] He. unfold UpdateQuotaPoliciesInner, UpdateMeteredIfacesQuota.
  destruct (quota_loop e (quotaPolicies_ s) He [] w) as (E1 & Ef1 & _ & Hq1). destruct (foldl (quota_step e) ([], w) (quotaPolicies_ s)) as [l w1]. cbn in E1, Ef1, Hq1. subst l.
  destruct (drop_loop (metered_ifaces e (quotaPolicies_ s)) _ Hv w1) as (Ef2 & _ & Hq2). set (w2 := foldl (drop_step _) w1 _) in *.
  unfold UpdateMeteredIfaces, UpdateQuotaNotify, WriteQuotaPolicies. cbn [quotaPolicies_ publish set_meteredIfaces_ PR.file PR.notify].
  assert (Hall : forall i, quotas (PR.netsys w2) !! i = quota_for e (quotaPolicies_ s) i).
  { intros i. rewrite Hq2, Hq1. pose proof (last_for_metered e i (quotaPolicies_ s)) as Hl. unfold quota_for.
    destruct (last_for e i (quotaPolicies_ s)) as [q|]; cbn.
    - rewrite bool_decide_eq_false_2; [done|]. intros [_ Hn]. by apply Hn, Hl.
    - case_bool_decide as Hb; [done|]. apply eq_None_not_Some. rewrite Hd. intros Ho. apply Hb. split; [done|]. rewrite <- Hl. by intros []. }
  unfold file_WriteQuotaPolicies. rewrite Ef2, Ef1. by destruct (has_writer e); cbn [negb]; intros [= <- <- <-]; split_and!.
Qed.

Lemma Inner_inv e s w : traffic_inv s w -> env_ok e ->
  let '(_, s', w') := UpdateQuotaPoliciesInner e s w in traffic_inv s' w'.
Proof.
  intros Hi He. destruct (UpdateQuotaPoliciesInner e s w) as [[r s'] w'] eqn:E. destruct (Inner_spec _ _ _ _ _ _ Hi He E) as (Hq & Hm & _).
  split; [|rewrite Hm; by apply metered_ifaces_valid]. intros i. rewrite Hq, Hm, <- last_for_metered. apply fmap_is_Some.
Qed.

Lemma traffic_inv_policies l s w : traffic_inv s w -> traffic_inv (set_quotaPolicies_ l s) w.
Proof. done. Qed.

Lemma traffic_call_inv c e s w : traffic_inv s w -> env_ok e -> let '(_, s', w') := traffic_call c e s w in traffic_inv s' w'.
Proof.
  intros Hi He. assert (Hin : forall l, let '(_, s', w') := UpdateQuotaPoliciesInner e (set_quotaPolicies_ l s) w in traffic_inv s' w')
    by (intros l; by apply Inner_inv).
  pose proof (Inner_inv e s w Hi He) as Hs.
  destruct c; cbn [traffic_call]; unfold UpdateQuotaPolicies, UpdateRemindPolicy, ResetPolicies_sim, ResetPolicies, ReachedLimit, UpdateNetPolicy, FormalizeQuotaPolicies;
    repeat case_match; simplify_eq/=; try done;
    try match goal with E : UpdateQuotaPoliciesInner e (set_quotaPolicies_ ?l s) w = _ |- _ => specialize (Hin l); by rewrite E in Hin end; apply Hin.
Qed.

(** The component over the native service: started once, called, and other parts
    of the policy service changing the native service without its quotas. *)
Inductive traffic_reach : NetPolicyTraffic -> PR.World W -> Prop :=
| traffic_start e w : env_ok e -> quotas (PR.netsys w) = ∅ ->
    traffic_reach (Init e new_NetPolicyTraffic w).1 (Init e new_NetPolicyTraffic w).2
| traffic_step c e s w r s' w' : traffic_reach s w -> env_ok e -> traffic_call c e s w = (r, s', w') -> traffic_reach s' w'
| traffic_env s w w' : traffic_reach s w -> quotas (PR.netsys w') = quotas (PR.netsys w) -> traffic_reach s w'.

Lemma traffic_reach_inv s w : traffic_reach s w -> traffic_inv s w.
Proof.
  induction 1 as [e w He Hq|c e s w r s' w' _ IH He E|s w w' _ [IH1 IH2] Hq].
  - unfold Init, ReadQuotaPolicies. set (s0 := set_quotaPolicies_ _ _). assert (Hi : traffic_inv s0 w).
    { split; [|constructor]. intros i. rewrite Hq, lookup_empty. split; [by intros []|by intros ?%not_elem_of_nil]. }
    pose proof (Inner_inv e s0 w Hi He) as H. by destruct (UpdateQuotaPoliciesInner e s0 w) as [[]].
  - pose proof (traffic_call_inv c e s w IH He) as H. by rewrite E in H.
  - split; [|done]. intros i. by rewrite Hq.
Qed.

End Enforce.

(** ** The packets *)

Section Packets.
Context {T : Type} {TI : Iptables.Iptables T} {TL : Iptables.IptablesLaws T} {P : Type} {PI : Iptables.Packets P} {PL : Iptables.PacketsLaws P}.

Lemma foldl_realises {A} (f : PR.World (NativeNetsys.Native T) -> A -> PR.World (NativeNetsys.Native T)) v l :
  (forall w a, realises (PR.netsys w) v -> realises (PR.netsys (f w a)) v) -> forall w, realises (PR.netsys w) v -> realises (PR.netsys (foldl f w l)) v.
Proof. intros Hf. induction l as [|a l IH]; intros w Hw; [done|]. apply IH. by apply Hf. Qed.

(** The quotas are all that changes in the native service. *)
Lemma Inner_realises e s (w : PR.World (NativeNetsys.Native T)) v : realises (PR.netsys w) v ->
  realises (PR.netsys (UpdateQuotaPoliciesInner e s w).2) v.
Proof.
  intros Hv. unfold UpdateQuotaPoliciesInner, UpdateMeteredIfacesQuota.
  assert (H1 : forall l acc w, realises (PR.netsys w) v -> realises (PR.netsys (foldl (quota_step e) (acc, w) l).2) v).
  { induction l as [|q l IH]; intros acc w1 Hw1; [done|]. cbn [foldl]. rewrite quota_step_eq. destruct (counts e q); apply IH; [by apply r_quota|done]. }
  specialize (H1 (quotaPolicies_ s) [] w Hv). destruct (foldl (quota_step e) ([], w) (quotaPolicies_ s)) as [l w1]. cbn [snd] in H1.
  assert (H2 : realises (PR.netsys (foldl (drop_step l) w1 (meteredIfaces_ s))) v).
  { apply foldl_realises; [|done]. intros w2 i Hw2. unfold drop_step. case_bool_decide; [done|by apply r_noquota]. }
  unfold UpdateMeteredIfaces, WriteQuotaPolicies. by destruct (file_WriteQuotaPolicies _ e _) as [[] f].
Qed.

(** C15: Quotas are enforced: every operation of the component ends in
    [UpdateQuotaPoliciesInner]; in every run over the native service and the packet
    filter, after it an interface is metered exactly when a metered policy matches
    it, a packet on an interface that is not metered passes the chains of the bandwidth
    manager, and one on a metered interface is rejected exactly when what is
    left of the (last) policy for the interface is used up or the manager blocks its
    user. *)
Theorem quotas_enforced e s (w : PR.World (NativeNetsys.Native T)) r s' w' v (p : P) d uid :
  traffic_reach s w -> realises (PR.netsys w) v -> env_ok e -> UpdateQuotaPoliciesInner e s w = (r, s', w') -> Iptables.owner p = Some uid ->
  let policy := last_for e (Iptables.out_iface p) (quotaPolicies_ s') in
  IsMeteredIfaces (Iptables.out_iface p) s' = bool_decide (is_Some policy) /\
  Iptables.walk (4 + d) (Iptables.rules (Iptables.ipv4_filter (NativeNetsys.iptables (PR.netsys w')))) p "ohbw_OUTPUT" =
  match policy with
  | None => Iptables.Passed
  | Some q => if Iptables.matches p (Iptables.OverQuota2 (GetQuotaRemain q e) (Iptables.out_iface p)) ||
                 BW.bw_blocks (NativeNetsys.bandwidthManager_ (PR.netsys w')) uid
              then Iptables.Rejected else Iptables.Passed
  end.
Proof.
  intros Hr Hv He E Ho. cbv zeta. pose proof (Inner_realises e s w v Hv) as Hv'. rewrite E in Hv'. cbn [snd] in Hv'.
  destruct (Inner_spec _ _ _ _ _ _ (traffic_reach_inv _ _ Hr) He E) as (Hq & Hm & Ep & _). split.
  - unfold IsMeteredIfaces. apply bool_decide_ext. by rewrite Hm, Ep, last_for_metered.
  - destruct Hv' as (Hb & _). rewrite (BW.bw_inv_verdict _ _ _ _ uid Hb Ho). unfold BW.bw_verdict.
    specialize (Hq (Iptables.out_iface p)). cbn [quotas native_quotas] in Hq. rewrite Hq, Ep. unfold quota_for.
    by destruct (last_for e (Iptables.out_iface p) (quotaPolicies_ s)).
Qed.

End Packets.

(** ** The file *)

(** What is left of a policy after a restart. *)
Definition stored (q : NetQuotaPolicy) : NetQuotaPolicy :=
  mkQuotaPolicy (netType q) (simId q) (q_ident q) (periodStartTime q) (periodDuration q) "" "" (warningBytes q) (limitBytes q) REMIND_NEVER
    (lastLimitRemind q) (metered q) (-1) LIMIT_ACTION_NONE (-1) (-1) "".

Lemma ToQuotaPolicy_entry q : Quota_typed q -> ToQuotaPolicy (quota_entry q) = stored q.
Proof.
  intros (H1 & H2 & H3 & H4 & H5 & _). unfold Parcel.in_signed in *. unfold ToQuotaPolicy, quota_entry, stored. cbn.
  rewrite NumText.StrToInt_to_string, !NumText.StrToLong_to_string, NumText.StrToBool_to_string by done. done.
Qed.

Definition key (q : NetQuotaPolicy) : Z * string := (netType q, simId q).

Lemma same_key_entry q x : same_key q (quota_entry x) = bool_decide (key q = key x).
Proof.
  unfold same_key, key. cbn. rewrite <- bool_decide_and. apply bool_decide_ext. split.
  - intros [-> E]. apply NumText.signed_to_string_inj in E. by rewrite E.
  - by intros [= -> ->].
Qed.

Lemma update_none q l : key q ∉ map key l -> UpdateQuotaPolicyExist q (map quota_entry l) = None.
Proof.
  induction l as [|x l IH]; [done|]. cbn [map]. intros [Hx Hl]%not_elem_of_cons. cbn [UpdateQuotaPolicyExist].
  rewrite same_key_entry, bool_decide_eq_false_2 by done. by rewrite IH.
Qed.

Lemma written_entries l : forall acc, NoDup (map key (acc ++ l)) -> foldl write_entry (map quota_entry acc) l = map quota_entry (acc ++ l).
Proof.
  induction l as [|q l IH]; intros acc Hn; [by rewrite app_nil_r|]. cbn [foldl]. unfold write_entry at 2. rewrite update_none.
  - replace (map quota_entry acc ++ [quota_entry q]) with (map quota_entry (acc ++ [q])) by (by rewrite map_app).
    rewrite IH; by rewrite <- app_assoc.
  - rewrite map_app in Hn. cbn in Hn. apply NoDup_app in Hn as (_ & Hd & _). intros Hin. by eapply Hd; [exact Hin|left].
Qed.

(** Quotas survive a restart: when the policies have different keys (type of network and
    SIM card) and numbers of the types of the source, a service that starts from the
    object last handed to the writer reads back the type, card, identity, period, thresholds,
    limit reminder and metering of every policy, in order.  The time of the last warning and the
    action at the limit are not stored. *)
Theorem quotas_survive_restart {W} {PN : PolicyNetsys W} e s (w : PR.World W) r s' w' f0 :
  has_writer e = true -> Forall Quota_typed (quotaPolicies_ s) -> NoDup (map key (quotaPolicies_ s)) ->
  UpdateQuotaPoliciesInner e s w = (r, s', w') ->
  r = NETMANAGER_SUCCESS /\
  let '(ok, f) := PolicyFile.InitPolicy (PolicyFile.disk (PR.file w')) f0 in
  ok = true /\ file_ReadQuotaPolicies [] f = map stored (quotaPolicies_ s').
Proof.
  intros Hw Ht Hn E. assert (H : r = NETMANAGER_SUCCESS /\ quotaPolicies_ s' = quotaPolicies_ s /\
    exists p, PolicyFile.disk (PR.file w') = Some p /\ PolicyFile.netQuotaPolicies p = foldl write_entry [] (quotaPolicies_ s)).
  { revert E. unfold UpdateQuotaPoliciesInner. destruct (UpdateMeteredIfacesQuota e s w) as [l w1].
    unfold UpdateMeteredIfaces, WriteQuotaPolicies, file_WriteQuotaPolicies. rewrite Hw. cbn [negb]. intros [= <- <- <-].
    split_and!; [done|done|]. eexists. split; [reflexivity|]. unfold PolicyFile.Obj2Json. cbn. by repeat case_match. }
  destruct H as (-> & Ep & p & Ed & Eq). split; [done|]. rewrite Ed. cbn. split; [done|]. unfold file_ReadQuotaPolicies. cbn [app].
  rewrite Eq, Ep. change [] with (map quota_entry []). rewrite written_entries by done. cbn [app PolicyFile.netPolicy_].
  rewrite map_map. apply map_ext_Forall. by eapply Forall_impl; [exact Ht|apply ToQuotaPolicy_entry].
Qed.

(** ** The period *)

(** The bytes of an interface in a time. *)
Definition in_period (iface : string) (start end_ : Z) (row : NetStatsInfo) : bool :=
  bool_decide (st_iface row = iface) && (start <=? st_date row) && (st_date row <=? end_).
Definition bytes_in (iface : string) (start end_ : Z) (rows : list NetStatsInfo) : Z :=
  foldr (fun row n => if in_period iface start end_ row then st_rxBytes row + st_txBytes row + n else n) 0 rows.
Definition rows_ok (rows : list NetStatsInfo) : Prop := Forall (fun row => 0 <= st_rxBytes row /\ 0 <= st_txBytes row) rows.

Lemma bytes_in_nonneg iface start end_ rows : rows_ok rows -> 0 <= bytes_in iface start end_ rows.
Proof. unfold bytes_in. induction 1 as [|row rows Hr _ IH]; cbn [foldr]; [done|]. destruct (in_period _ _ _ row); lia. Qed.

Lemma stats_sum iface start end_ rows : rows_ok rows -> forall info, 0 <= info.1 -> 0 <= info.2 -> info.1 + info.2 + bytes_in iface start end_ rows < 2 ^ 63 ->
  let r := foldl (fun info row => if in_period iface start end_ row then add_stats info row else info) info rows in
  r.1 + r.2 = info.1 + info.2 + bytes_in iface start end_ rows.
Proof.
  induction 1 as [|row rows [H1 H2] Hr IH]; intros info Ha Hb Hs; cbv zeta; [cbn; lia|]. cbn [foldl].
  change (bytes_in iface start end_ (row :: rows)) with
    (if in_period iface start end_ row then st_rxBytes row + st_txBytes row + bytes_in iface start end_ rows else bytes_in iface start end_ rows) in *. pose proof (bytes_in_nonneg iface start end_ rows Hr). destruct (in_period iface start end_ row); [|by apply IH].
  unfold add_stats. rewrite !wrap_small by (unfold in_width; lia). rewrite IH; cbn [fst snd]; lia.
Qed.

Lemma GetTotalQuota_bytes q e rows : stats e = Some rows -> rows_ok rows -> 0 <= GetPeriodStart q e <= now e -> now e < 2 ^ 63 ->
  bytes_in (GetMatchIfaces q e) (GetPeriodStart q e) (now e) rows < 2 ^ 63 ->
  GetTotalQuota q e = bytes_in (GetMatchIfaces q e) (GetPeriodStart q e) (now e) rows.
Proof.
  intros Es Hr Hs Hn Hb. unfold GetTotalQuota. rewrite (proj2 (Z.ltb_ge (now e) 0)) by lia.
  rewrite (wrap_small 64 (GetPeriodStart q e)), (wrap_small 64 (now e)) by (unfold in_width; lia).
  pose proof (bytes_in_nonneg (GetMatchIfaces q e) (GetPeriodStart q e) (now e) rows Hr).
  pose proof (stats_sum (GetMatchIfaces q e) (GetPeriodStart q e) (now e) rows Hr (0, 0) ltac:(done) ltac:(done) ltac:(done)) as Hsum. cbv zeta in Hsum.
  unfold GetIfaceStatsDetail. rewrite Es, (proj2 (Z.ltb_ge (now e) _)) by lia. unfold in_period in Hsum. rewrite Hsum. cbn [fst snd]. rewrite !Z.add_0_l.
  rewrite Parcel.swrap_wrap, swrap_small by lia. rewrite (proj2 (Z.ltb_ge _ 0)) by lia. done.
Qed.

(** The period of a duration of two or more characters. *)
Lemma period_text q e c0 c t : periodDuration q = String c0 (String c t) -> 0 <= now e ->
  GetPeriodStart q e =
  let tm := CTime.localtime (zone e) (now e) in
  let start := NumText.StrToInt (String c t) (-1) in
  CTime.mktime (zone e)
    (if bool_decide (String c0 "" = PERIOD_DAY)
     then CTime.mkTm 0 0 start (CTime.tm_mday tm) (CTime.tm_mon tm) (CTime.tm_year tm) (CTime.tm_yday tm)
     else if bool_decide (String c0 "" = PERIOD_YEAR)
     then CTime.mkTm 0 0 0 (CTime.tm_mday tm) (CTime.tm_mon tm) (CTime.tm_year tm) (start - 1)
     else CTime.mkTm 0 0 0 start (CTime.tm_mon tm) (CTime.tm_year tm) (CTime.tm_yday tm)).
Proof. intros Ep Hn. unfold GetPeriodStart. rewrite Ep, (proj2 (Z.ltb_ge (now e) 0)) by done. reflexivity. Qed.

Lemma period_month q e k : periodDuration q = "M" +:+ PolicyFile.to_string k -> 0 < k < 2 ^ 31 -> 0 <= now e ->
  GetPeriodStart q e = CTime.day_start (zone e) (now e) + (k - CTime.tm_mday (CTime.localtime (zone e) (now e))) * CTime.DAY.
Proof.
  intros Ep Hk Hn. pose proof (NumText.StrToInt_to_string k (-1) ltac:(lia)) as Hs. unfold NumText.to_string in Hs.
  rewrite (proj2 (Z.ltb_ge k 0)) in Hs by lia. destruct (NumText.positive_text k ltac:(lia)) as (c & t & E & _). rewrite E in *.
  rewrite (period_text q e _ c t Ep Hn), Hs. cbv zeta. rewrite !bool_decide_false by done. rewrite CTime.mktime_month. lia.
Qed.

(** C35: The period of a monthly quota: a quota that starts on day [k] counts, from day [k] of the month on, exactly the
    bytes of its interface since the midnight of that day, which is at most 31 days ago; on the days of the month
    before [k] the start lies in the future and nothing is counted, so that the quota of the last period ends
    with its month. *)
Theorem month_quota_period q e k rows : periodDuration q = "M" +:+ PolicyFile.to_string k -> 1 <= k <= MONTH_MAX ->
  stats e = Some rows -> rows_ok rows -> 31 * CTime.DAY <= now e < 2 ^ 62 -> - CTime.DAY <= zone e <= CTime.DAY ->
  bytes_in (GetMatchIfaces q e) (GetPeriodStart q e) (now e) rows < 2 ^ 63 ->
  let start := GetPeriodStart q e in
  let mday := CTime.tm_mday (CTime.localtime (zone e) (now e)) in
  start = CTime.day_start (zone e) (now e) + (k - mday) * CTime.DAY /\
  (k <= mday -> start <= now e < start + 31 * CTime.DAY /\ GetTotalQuota q e = bytes_in (GetMatchIfaces q e) start (now e) rows) /\
  (mday < k -> now e < start /\ GetTotalQuota q e = 0).
Proof.
  intros Ep Hk Es Hr Hn Hz Hb. cbv zeta. unfold MONTH_MAX in Hk. pose proof (period_month q e k Ep ltac:(lia) ltac:(unfold CTime.DAY in *; lia)) as Hp.
  pose proof (CTime.day_start_before (zone e) (now e)) as Hd. pose proof (CTime.tm_mday_range (zone e) (now e)) as Hm. unfold CTime.DAY in *.
  split_and!; [done| |]; intros Hc.
  - assert (GetPeriodStart q e <= now e < GetPeriodStart q e + 31 * 86400) by lia. split; [done|]. apply GetTotalQuota_bytes; try done; lia.
  - split; [lia|]. unfold GetTotalQuota. rewrite (proj2 (Z.ltb_ge (now e) 0)) by lia. unfold GetIfaceStatsDetail. rewrite Es.
    rewrite (wrap_small 64 (GetPeriodStart q e)), (wrap_small 64 (now e)) by (unfold in_width; lia). by rewrite (proj2 (Z.ltb_lt (now e) (GetPeriodStart q e))) by lia.
Qed.

(** A yearly period starts today, whatever its day: [mktime] ignores the day of the year. *)
Lemma year_period_is_today q e d : periodDuration q = "Y" +:+ d -> d <> "" -> 0 <= now e ->
  GetPeriodStart q e = CTime.day_start (zone e) (now e).
Proof.
  intros Ep Hd Hn. destruct d as [|c d]; [done|]. rewrite (period_text q e _ c d Ep Hn). cbv zeta.
  rewrite bool_decide_false, bool_decide_true by done. rewrite CTime.mktime_month. lia.
Qed.

(** ** Examples *)

(** On the 29th of February 2024, with wlan0 the Wi-Fi network of the name home and 700 bytes on it. *)
Definition example_env : Env :=
  mkEnv 1709210096 0 (fun t i => if (t =? 1) && bool_decide (i = "home") then "wlan0" else "") (Some [mkStats "wlan0" 1709000000 300 400]) true.

Definition wifi_quota (ident : string) (period : string) : NetQuotaPolicy :=
  mkQuotaPolicy 1 "" ident (-1) period "" "" 900 1000 (-1) (-1) true (-1) 0 (-1) (-1) "".

Lemma example_env_ok : env_ok example_env.
Proof. intros t i. cbn. case_match; [by right|by left]. Qed.

Lemma month_quota_period_witness :
  let q := wifi_quota "home" "M12" in
  GetPeriodStart q example_env = 1707696000 /\ GetTotalQuota q example_env = 700.
Proof.
  cbv zeta. destruct (month_quota_period (wifi_quota "home" "M12") example_env 12 [mkStats "wlan0" 1709000000 300 400]) as (H1 & H2 & _).
  1-7: try reflexivity; try (by repeat constructor); by vm_compute.
  split; [exact H1|]. rewrite (proj2 (H2 ltac:(by vm_compute))). vm_compute. reflexivity.
Defined.

Definition started_traffic := Init example_env new_NetPolicyTraffic PR.boot_world.

Definition example_traffic := UpdateQuotaPolicies [wifi_quota "home" "M1"] example_env started_traffic.1 started_traffic.2.

Lemma quota_traffic_reach : traffic_reach example_traffic.1.2 example_traffic.2.
Proof.
  apply (traffic_step (CallUpdateQuotaPolicies [wifi_quota "home" "M1"]) example_env started_traffic.1 started_traffic.2 example_traffic.1.1);
    [|apply example_env_ok|cbn [traffic_call]; unfold example_traffic; by destruct (UpdateQuotaPolicies _ _ _ _) as [[]]].
  apply traffic_start; [apply example_env_ok|reflexivity].
Qed.

(** With 300 of 1000 bytes left the packets of the interface pass until they are used, and those of another interface pass always. *)
Lemma quotas_enforced_witness :
  let '(_, s', w') := UpdateQuotaPoliciesInner example_env example_traffic.1.2 example_traffic.2 in
  let verdict p := Iptables.walk 4 (Iptables.rules (Iptables.ipv4_filter (NativeNetsys.iptables (PR.netsys w')))) p "ohbw_OUTPUT" in
  IsMeteredIfaces "wlan0" s' = true /\ quota_for example_env (quotaPolicies_ s') "wlan0" = Some 300 /\
  verdict (Iptables.mkOutPacket (Some 20010) "wlan0" false false) = Iptables.Passed /\
  verdict (Iptables.mkOutPacket (Some 20010) "wlan0" false true) = Iptables.Rejected /\
  verdict (Iptables.mkOutPacket (Some 20010) "eth0" false true) = Iptables.Passed.
Proof.
  destruct (UpdateQuotaPoliciesInner example_env example_traffic.1.2 example_traffic.2) as [[r s'] w'] eqn:E.
  assert (Hv : realises (PR.netsys example_traffic.2) NativeNetsys.fresh_view).
  { unfold example_traffic, UpdateQuotaPolicies. apply Inner_realises. unfold started_traffic, Init, ReadQuotaPolicies.
    pose proof (Inner_realises example_env (set_quotaPolicies_ (file_ReadQuotaPolicies (quotaPolicies_ new_NetPolicyTraffic) (PR.file PR.boot_world)) new_NetPolicyTraffic)
      PR.boot_world NativeNetsys.fresh_view) as H. destruct (UpdateQuotaPoliciesInner _ _ _) as [[]]. apply H.
    apply NativeNetsys.booted_realises. split_and!; [done|apply BandwidthManager.boot_bw_fresh|apply FirewallManager.boot_fw_fresh]. }
  pose proof (fun p H => quotas_enforced example_env _ _ r s' w' _ p 0 20010 quota_traffic_reach Hv example_env_ok E H) as H.
  assert (Es : s' = (UpdateQuotaPoliciesInner example_env example_traffic.1.2 example_traffic.2).1.2) by (by rewrite E).
  assert (Ew : w' = (UpdateQuotaPoliciesInner example_env example_traffic.1.2 example_traffic.2).2) by (by rewrite E).
  cbv zeta. split_and!.
  - etransitivity; [apply (proj1 (H (Iptables.mkOutPacket (Some 20010) "wlan0" false false) eq_refl))|]. rewrite Es. vm_compute. reflexivity.
  - rewrite Es. vm_compute. reflexivity.
  - etransitivity; [refine (proj2 (H _ _)); reflexivity|]. rewrite Es, Ew. vm_compute. reflexivity.
  - etransitivity; [refine (proj2 (H _ _)); reflexivity|]. rewrite Es, Ew. vm_compute. reflexivity.
  - etransitivity; [refine (proj2 (H _ _)); reflexivity|]. rewrite Es, Ew. vm_compute. reflexivity.
Defined.

Lemma quotas_survive_restart_witness :
  let '(_, s', w') := UpdateQuotaPoliciesInner example_env example_traffic.1.2 example_traffic.2 in
  let '(ok, f) := PolicyFile.InitPolicy (PolicyFile.disk (PR.file w')) (PR.file PR.boot_world) in
  ok = true /\ map limitBytes (file_ReadQuotaPolicies [] f) = [1000].
Proof.
  destruct (UpdateQuotaPoliciesInner example_env example_traffic.1.2 example_traffic.2) as [[r s'] w'] eqn:E.
  assert (Eq : quotaPolicies_ example_traffic.1.2 = [formalize (wifi_quota "home" "M1")]) by (vm_compute; reflexivity).
  destruct (quotas_survive_restart example_env example_traffic.1.2 example_traffic.2 r s' w' (PR.file PR.boot_world)) as (_ & H).
  - reflexivity.
  - rewrite Eq. by repeat constructor.
  - rewrite Eq. apply NoDup_singleton.
  - exact E.
  - assert (Es : s' = (UpdateQuotaPoliciesInner example_env example_traffic.1.2 example_traffic.2).1.2) by (by rewrite E).
    destruct (PolicyFile.InitPolicy _ _) as [ok f]. destruct H as [-> ->]. split; [done|]. rewrite Es. vm_compute. reflexivity.
Defined.

(** Quotas for two Wi-Fi networks have the same key: after a restart the second is left, twice over the first. *)
Lemma wifi_quotas_collide :
  map q_ident (file_ReadQuotaPolicies [] (file_WriteQuotaPolicies [wifi_quota "home" "M1"; wifi_quota "cafe" "M1"] example_env (PR.file PR.boot_world)).2) = ["cafe"].
Proof. vm_compute. reflexivity. Qed.

End PolicyTraffic.
