(* ===== verification/PolicyFirewall.v ===== *)
(** * The firewalls of the policy service
    (services/netpolicymanager/src/core/net_policy_firewall.cpp and
    src/firewall_rule/firewall_rule.cpp)

    A [FirewallRule] keeps the users of one chain of the native service and sends
    them there; [NetPolicyFirewall] has three of them: the applications trusted
    while the device is idle, those trusted while it saves power, and those
    denied while it is idle.  The trust lists are also kept as sets and stored.

    [trust_enforced] says that the chains of the native service, and behind it
    the packet filter, follow the modes, the trust lists and the list of denied
    applications as last told, until power save mode is left, when all chains are cleared. *)

From S2P Require Import Prelude NetData Iptables BandwidthManager FirewallManager PolicyNetsys NativeNetsys PolicyFile PolicyRule.
Import NetData PolicyNetsys NativeNetsys PolicyFile PolicyRule.

Module PolicyFirewall.

Definition NETMANAGER_ERR_STATUS_EXIST : Z := 2100209.
Definition MAX_LIST_SIZE : nat := 1000.

Definition FIREWALL_CHAIN_DEVICE_IDLE : Z := 16.
Definition FIREWALL_CHAIN_POWER_SAVE : Z := 17.
Definition FIREWALL_CHAIN_IDLE_DENY : Z := 18.
Definition FIREWALL_RULE_ALLOW : Z := 1.
Definition FIREWALL_RULE_DENY : Z := 2.

(** ** The users of one chain *)

Record FirewallRule := mkFirewallRule { chainType_ : Z; allowedList_ : list Z; deniedList_ : list Z }.

Definition set_allowedList_ x r := mkFirewallRule (chainType_ r) x (deniedList_ r).
Definition set_deniedList_ x r := mkFirewallRule (chainType_ r) (allowedList_ r) x.

(** The default chain has no rule. *)
Definition CreateFirewallRule (chain : Z) : option FirewallRule :=
  if (chain =? FIREWALL_CHAIN_DEVICE_IDLE) || (chain =? FIREWALL_CHAIN_POWER_SAVE) || (chain =? FIREWALL_CHAIN_IDLE_DENY)
  then Some (mkFirewallRule chain [] []) else None.

Definition push_absent (l : list Z) (uid : Z) : list Z := if bool_decide (uid ∈ l) then l else l ++ [uid].

Definition SetAllowedList_uid (rule : Z) (l : list Z) (uid : Z) : list Z :=
  if rule =? FIREWALL_RULE_ALLOW then push_absent l uid else FirewallManager.erase_first uid l.

Definition SetDeniedList_uid (rule : Z) (l : list Z) (uid : Z) : list Z :=
  if (rule =? FIREWALL_RULE_DENY) && negb (bool_decide (uid ∈ l)) then l ++ [uid]
  else filter (fun u => u <> uid) l.

Section Rule.
Context {W : Type} `{PolicyNetsys W}.
Implicit Types (r : FirewallRule) (w : World W).

Definition SetAllowedList_uids (uids : list Z) (rule : Z) r w : FirewallRule * World W :=
  let r := set_allowedList_ (foldl (SetAllowedList_uid rule) (allowedList_ r) uids) r in
  (r, on_netsys (FirewallSetUidRule (chainType_ r) uids rule) w).

Definition SetAllowedList r w : World W := on_netsys (FirewallSetUidsAllowedListChain (chainType_ r) (allowedList_ r)) w.

(** [std::set] is traversed in increasing order. *)
Definition SetAllowedList_set (uids : gset Z) r w : FirewallRule * World W :=
  let r := set_allowedList_ (foldl push_absent (allowedList_ r) (sort_by id (elements uids))) r in
  (r, SetAllowedList r w).

Definition ClearAllowedList r w : FirewallRule * World W :=
  let r := set_allowedList_ [] r in
  (r, on_netsys (FirewallSetUidsAllowedListChain (chainType_ r) (allowedList_ r)) w).

Definition SetDeniedList r w : World W := on_netsys (FirewallSetUidsDeniedListChain (chainType_ r) (deniedList_ r)) w.

Definition SetDeniedList_uids (uids : list Z) (rule : Z) r w : FirewallRule * World W :=
  let r := set_deniedList_ (foldl (SetDeniedList_uid rule) (deniedList_ r) uids) r in
  (r, SetDeniedList r w).

Definition ClearDeniedList r w : FirewallRule * World W :=
  let r := set_deniedList_ [] r in
  (r, on_netsys (FirewallSetUidsDeniedListChain (chainType_ r) (deniedList_ r)) w).

Definition EnableFirewall (enable : bool) r w : World W := on_netsys (FirewallEnableChain (chainType_ r) enable) w.

Definition RemoveFromAllowedList (uid : Z) r : FirewallRule := set_allowedList_ (FirewallManager.erase_first uid (allowedList_ r)) r.

Definition rule_ClearFirewallAllRules w : World W := on_netsys ClearFirewallAllRules w.

End Rule.

(** ** The three firewalls *)

Record NetPolicyFirewall := mkFirewall {
  deviceIdleFirewallRule_ : option FirewallRule;
  powerSaveFirewallRule_ : option FirewallRule;
  idleDenyFirewallRule_ : option FirewallRule;
  fw_deviceIdleMode_ : bool;
  fw_powerSaveMode_ : bool;
  idleDenyMode_ : bool;
  fw_deviceIdleAllowedList_ : gset Z;
  deviceIdleDeniedList_ : gset Z;
  fw_powerSaveAllowedList_ : gset Z;
  powerSaveDeniedList_ : gset Z
}.

Definition new_NetPolicyFirewall : NetPolicyFirewall := mkFirewall None None None false false false ∅ ∅ ∅ ∅.

Definition set_idleRule x f := mkFirewall x (powerSaveFirewallRule_ f) (idleDenyFirewallRule_ f) (fw_deviceIdleMode_ f) (fw_powerSaveMode_ f)
  (idleDenyMode_ f) (fw_deviceIdleAllowedList_ f) (deviceIdleDeniedList_ f) (fw_powerSaveAllowedList_ f) (powerSaveDeniedList_ f).
Definition set_saveRule x f := mkFirewall (deviceIdleFirewallRule_ f) x (idleDenyFirewallRule_ f) (fw_deviceIdleMode_ f) (fw_powerSaveMode_ f)
  (idleDenyMode_ f) (fw_deviceIdleAllowedList_ f) (deviceIdleDeniedList_ f) (fw_powerSaveAllowedList_ f) (powerSaveDeniedList_ f).
Definition set_denyRule x f := mkFirewall (deviceIdleFirewallRule_ f) (powerSaveFirewallRule_ f) x (fw_deviceIdleMode_ f) (fw_powerSaveMode_ f)
  (idleDenyMode_ f) (fw_deviceIdleAllowedList_ f) (deviceIdleDeniedList_ f) (fw_powerSaveAllowedList_ f) (powerSaveDeniedList_ f).
Definition set_idleMode x f := mkFirewall (deviceIdleFirewallRule_ f) (powerSaveFirewallRule_ f) (idleDenyFirewallRule_ f) x (fw_powerSaveMode_ f)
  (idleDenyMode_ f) (fw_deviceIdleAllowedList_ f) (deviceIdleDeniedList_ f) (fw_powerSaveAllowedList_ f) (powerSaveDeniedList_ f).
Definition set_saveMode x f := mkFirewall (deviceIdleFirewallRule_ f) (powerSaveFirewallRule_ f) (idleDenyFirewallRule_ f) (fw_deviceIdleMode_ f) x
  (idleDenyMode_ f) (fw_deviceIdleAllowedList_ f) (deviceIdleDeniedList_ f) (fw_powerSaveAllowedList_ f) (powerSaveDeniedList_ f).
Definition set_denyMode x f := mkFirewall (deviceIdleFirewallRule_ f) (powerSaveFirewallRule_ f) (idleDenyFirewallRule_ f) (fw_deviceIdleMode_ f)
  (fw_powerSaveMode_ f) x (fw_deviceIdleAllowedList_ f) (deviceIdleDeniedList_ f) (fw_powerSaveAllowedList_ f) (powerSaveDeniedList_ f).
Definition set_idleLists a d f := mkFirewall (deviceIdleFirewallRule_ f) (powerSaveFirewallRule_ f) (idleDenyFirewallRule_ f) (fw_deviceIdleMode_ f)
  (fw_powerSaveMode_ f) (idleDenyMode_ f) a d (fw_powerSaveAllowedList_ f) (powerSaveDeniedList_ f).
Definition set_saveLists a d f := mkFirewall (deviceIdleFirewallRule_ f) (powerSaveFirewallRule_ f) (idleDenyFirewallRule_ f) (fw_deviceIdleMode_ f)
  (fw_powerSaveMode_ f) (idleDenyMode_ f) (fw_deviceIdleAllowedList_ f) (deviceIdleDeniedList_ f) a d.

Definition no_event : PolicyEvent := mkEvent 0 None false ∅ false ∅ 0 0.
Definition idle_list_event (l : gset Z) : PolicyEvent := mkEvent MSG_DEVICE_IDLE_LIST_UPDATED (Some CoreFirewall) false l false ∅ 0 0.
Definition idle_mode_event (b : bool) : PolicyEvent := mkEvent MSG_DEVICE_IDLE_MODE_CHANGED (Some CoreFirewall) b ∅ false ∅ 0 0.
Definition save_list_event (l : gset Z) : PolicyEvent := mkEvent MSG_POWER_SAVE_LIST_UPDATED (Some CoreFirewall) false ∅ false l 0 0.
Definition save_mode_event (b : bool) : PolicyEvent := mkEvent MSG_POWER_SAVE_MODE_CHANGED (Some CoreFirewall) false ∅ b ∅ 0 0.

Section Firewall.
Context {W : Type} `{PolicyNetsys W}.
Implicit Types (f : NetPolicyFirewall) (w : World W).

(** The result, the new states and the events posted for the other parts of the service. *)
Abbreviation Result := (Z * NetPolicyFirewall * World W * list PolicyEvent)%type.

Definition Init f w : NetPolicyFirewall * World W :=
  let f := set_idleRule (CreateFirewallRule FIREWALL_CHAIN_DEVICE_IDLE) f in
  let f := set_saveRule (CreateFirewallRule FIREWALL_CHAIN_POWER_SAVE) f in
  let f := set_denyRule (CreateFirewallRule FIREWALL_CHAIN_IDLE_DENY) f in
  match deviceIdleFirewallRule_ f, powerSaveFirewallRule_ f with
  | Some idle, Some save =>
      let '(a, d, file) := ReadFirewallRules FIREWALL_CHAIN_DEVICE_IDLE (fw_deviceIdleAllowedList_ f) (deviceIdleDeniedList_ f) (file w) in
      let f := set_idleLists a d f in
      let '(a, d, file) := ReadFirewallRules FIREWALL_CHAIN_POWER_SAVE (fw_powerSaveAllowedList_ f) (powerSaveDeniedList_ f) file in
      let f := set_saveLists a d f in
      let w := mkWorld (netsys w) file (notes w) in
      let '(idle, w) := SetAllowedList_set (fw_deviceIdleAllowedList_ f) idle w in
      let '(save, w) := SetAllowedList_set (fw_powerSaveAllowedList_ f) save w in
      (set_saveRule (Some save) (set_idleRule (Some idle) f), w)
  | _, _ => (f, w)
  end.

Definition trust_rule (isAllowed : bool) : Z := if isAllowed then FIREWALL_RULE_ALLOW else FIREWALL_RULE_DENY.

(** [UpdateFirewallPolicyList] for the set of one chain. *)
Definition UpdateFirewallPolicyList (uids : list Z) (isAllowed : bool) (s : gset Z) : gset Z :=
  foldl (fun s uid => if isAllowed then {[uid]} ∪ s else s ∖ {[uid]}) s uids.

Definition SetDeviceIdleTrustlist (uids : list Z) (isAllowed : bool) f w : Result :=
  if (MAX_LIST_SIZE <? length uids)%nat then (NETMANAGER_ERR_PARAMETER_ERROR, f, w, [])
  else match deviceIdleFirewallRule_ f with
  | None => (NETMANAGER_ERR_LOCAL_PTR_NULL, f, w, [])
  | Some rule =>
      if isAllowed && (MAX_LIST_SIZE <? size (fw_deviceIdleAllowedList_ f) + length uids)%nat
      then (NETMANAGER_ERR_PARAMETER_ERROR, f, w, [])
      else
        let f := set_idleLists (UpdateFirewallPolicyList uids isAllowed (fw_deviceIdleAllowedList_ f)) (deviceIdleDeniedList_ f) f in
        let w := on_file (WriteFirewallRules FIREWALL_CHAIN_DEVICE_IDLE (fw_deviceIdleAllowedList_ f) (deviceIdleDeniedList_ f)) w in
        let '(rule, w) := SetAllowedList_uids uids (trust_rule isAllowed) rule w in
        (NETMANAGER_SUCCESS, set_idleRule (Some rule) f, w, [idle_list_event (fw_deviceIdleAllowedList_ f)])
  end.

Definition SetPowerSaveTrustlist (uids : list Z) (isAllowed : bool) f w : Result :=
  if (MAX_LIST_SIZE <? length uids)%nat then (NETMANAGER_ERR_PARAMETER_ERROR, f, w, [])
  else match powerSaveFirewallRule_ f with
  | None => (NETMANAGER_ERR_LOCAL_PTR_NULL, f, w, [])
  | Some rule =>
      if isAllowed && (MAX_LIST_SIZE <? size (fw_powerSaveAllowedList_ f) + length uids)%nat
      then (NETMANAGER_ERR_PARAMETER_ERROR, f, w, [])
      else
        let f := set_saveLists (UpdateFirewallPolicyList uids isAllowed (fw_powerSaveAllowedList_ f)) (powerSaveDeniedList_ f) f in
        let w := on_file (WriteFirewallRules FIREWALL_CHAIN_POWER_SAVE (fw_powerSaveAllowedList_ f) (powerSaveDeniedList_ f)) w in
        let '(rule, w) := SetAllowedList_uids uids (trust_rule isAllowed) rule w in
        (NETMANAGER_SUCCESS, set_saveRule (Some rule) f, w, [save_list_event (fw_powerSaveAllowedList_ f)])
  end.

Definition GetDeviceIdleTrustlist f : Z * list Z :=
  match deviceIdleFirewallRule_ f with
  | None => (NETMANAGER_ERR_LOCAL_PTR_NULL, [])
  | Some rule => (NETMANAGER_SUCCESS, allowedList_ rule)
  end.

Definition GetPowerSaveTrustlist f : Z * list Z :=
  match powerSaveFirewallRule_ f with
  | None => (NETMANAGER_ERR_LOCAL_PTR_NULL, [])
  | Some rule => (NETMANAGER_SUCCESS, allowedList_ rule)
  end.

Definition UpdateDeviceIdlePolicy (enable : bool) f w : Result :=
  if bool_decide (fw_deviceIdleMode_ f = enable) then (NETMANAGER_ERR_STATUS_EXIST, f, w, [])
  else match deviceIdleFirewallRule_ f with
  | None => (NETMANAGER_ERR_LOCAL_PTR_NULL, f, w, [])
  | Some rule =>
      let w := if enable then SetAllowedList rule w else w in
      let w := EnableFirewall enable rule w in
      (NETMANAGER_SUCCESS, set_idleMode enable f, w, [idle_mode_event enable])
  end.

Definition UpdatePowerSavePolicy (enable : bool) f w : Result :=
  if bool_decide (fw_powerSaveMode_ f = enable) then (NETMANAGER_ERR_STATUS_EXIST, f, w, [])
  else match powerSaveFirewallRule_ f with
  | None => (NETMANAGER_ERR_LOCAL_PTR_NULL, f, w, [])
  | Some rule =>
      let w := if enable then SetAllowedList rule w else rule_ClearFirewallAllRules w in
      let w := EnableFirewall enable rule w in
      (NETMANAGER_SUCCESS, set_saveMode enable f, w, [save_mode_event enable])
  end.

Definition UpdateIdleDenyPolicy (enable : bool) f w : Result :=
  if bool_decide (idleDenyMode_ f = enable) then (NETMANAGER_ERR_STATUS_EXIST, f, w, [])
  else match idleDenyFirewallRule_ f with
  | None => (NETMANAGER_ERR_LOCAL_PTR_NULL, f, w, [])
  | Some rule => (NETMANAGER_SUCCESS, set_denyMode enable f, EnableFirewall enable rule w, [])
  end.

Definition SetUidsDeniedListChain (uids : list Z) (isAdd : bool) f w : Result :=
  if (MAX_LIST_SIZE <? length uids)%nat then (NETMANAGER_ERR_PARAMETER_ERROR, f, w, [])
  else match idleDenyFirewallRule_ f with
  | None => (NETMANAGER_ERR_LOCAL_PTR_NULL, f, w, [])
  | Some rule =>
      let '(rule, w) := SetDeniedList_uids uids (if isAdd then FIREWALL_RULE_DENY else FIREWALL_RULE_ALLOW) rule w in
      (NETMANAGER_SUCCESS, set_denyRule (Some rule) f, w, [])
  end.

Definition ResetPolicies f w : NetPolicyFirewall * World W * list PolicyEvent :=
  match deviceIdleFirewallRule_ f with
  | None => (f, w, [])
  | Some idle =>
      let '(idle, w) := ClearAllowedList idle w in
      let '(idle, w) := ClearDeniedList idle w in
      let f := set_idleRule (Some idle) f in
      match powerSaveFirewallRule_ f with
      | None => (f, w, [])
      | Some save =>
          let '(save, w) := ClearAllowedList save w in
          let '(save, w) := ClearDeniedList save w in
          let f := set_saveRule (Some save) f in
          match idleDenyFirewallRule_ f with
          | None => (f, w, [])
          | Some deny =>
              let '(deny, w) := ClearDeniedList deny w in
              let f := set_denyRule (Some deny) f in
              let f := set_idleLists ∅ ∅ f in
              let w := on_file (WriteFirewallRules FIREWALL_CHAIN_DEVICE_IDLE ∅ ∅) w in
              let f := set_saveLists ∅ ∅ f in
              let w := on_file (WriteFirewallRules FIREWALL_CHAIN_POWER_SAVE ∅ ∅) w in
              let '(_, f, w, e1) := UpdateDeviceIdlePolicy false f w in
              let '(_, f, w, e2) := UpdatePowerSavePolicy false f w in
              let '(_, f, w, e3) := UpdateIdleDenyPolicy false f w in
              (f, w, e1 ++ e2 ++ e3)
          end
      end
  end.

(** [None] when a rule that was not created is used. *)
Definition DeleteUid (uid : Z) f w : option (NetPolicyFirewall * World W * list PolicyEvent) :=
  let '(_, f, w, e1) := SetDeviceIdleTrustlist [uid] false f w in
  let '(_, f, w, e2) := SetPowerSaveTrustlist [uid] false f w in
  idle ← deviceIdleFirewallRule_ f;
  save ← powerSaveFirewallRule_ f;
  let f := set_idleRule (Some (RemoveFromAllowedList uid idle)) f in
  let f := set_saveRule (Some (RemoveFromAllowedList uid save)) f in
  Some (f, w, e1 ++ e2).

Definition HandleEvent (eventId : Z) (e : PolicyEvent) f w : option (NetPolicyFirewall * World W * list PolicyEvent) :=
  if eventId =? MSG_UID_REMOVED then DeleteUid (deletedUid e) f w
  else if eventId =? MSG_POWER_SAVE_MODE_CHANGED then
    let '(_, f, w, es) := UpdatePowerSavePolicy (powerSaveMode e) f w in Some (f, w, es)
  else Some (f, w, []).

End Firewall.

(** ** The lists as sets *)

Lemma trust_fold_set rule us : forall l, NoDup l ->
  NoDup (foldl (SetAllowedList_uid rule) l us) /\
  (list_to_set (foldl (SetAllowedList_uid rule) l us) : gset Z) =
  if rule =? FIREWALL_RULE_ALLOW then list_to_set us ∪ list_to_set l else list_to_set l ∖ list_to_set us.
Proof.
  induction us as [|u us IH]; intros l Hn; cbn [foldl]; [split; [done|]; case_match; set_solver|].
  destruct (add_or_remove_set Iptables.CHAIN_OHFW_DOZABLE rule u l Hn) as [Hn' Es].
  change (add_or_remove Iptables.CHAIN_OHFW_DOZABLE rule u l) with (SetAllowedList_uid rule l u) in *.
  change (FirewallManager.is_allow Iptables.CHAIN_OHFW_DOZABLE) with true in Es. cbn iota in Es.
  change Iptables.RULE_ALLOW with FIREWALL_RULE_ALLOW in Es.
  destruct (IH _ Hn') as [Hn'' ->]. split; [done|]. rewrite Es. destruct (rule =? FIREWALL_RULE_ALLOW); set_solver.
Qed.

Lemma push_fold_set us l : NoDup l -> NoDup (foldl push_absent l us) /\
  (list_to_set (foldl push_absent l us) : gset Z) = list_to_set us ∪ list_to_set l.
Proof. apply (trust_fold_set FIREWALL_RULE_ALLOW). Qed.

Lemma deny_fold_NoDup rule us : forall l, NoDup l -> NoDup (foldl (SetDeniedList_uid rule) l us).
Proof.
  induction us as [|u us IH]; intros l Hn; [done|]. apply IH. unfold SetDeniedList_uid. case_match eqn:E; [|by apply NoDup_filter].
  apply andb_true_iff in E as [_ E]. apply negb_true_iff, bool_decide_eq_false_1 in E.
  apply NoDup_app. split_and!; [done| |apply NoDup_singleton]. by intros y Hy ->%list_elem_of_singleton.
Qed.

Lemma UpdateFirewallPolicyList_set us isAllowed : forall s, UpdateFirewallPolicyList us isAllowed s =
  if isAllowed then list_to_set us ∪ s else s ∖ list_to_set us.
Proof.
  induction us as [|u us IH]; intros s; [cbn; destruct isAllowed; set_solver|].
  change (UpdateFirewallPolicyList (u :: us) isAllowed s) with
    (UpdateFirewallPolicyList us isAllowed (if isAllowed then {[u]} ∪ s else s ∖ {[u]})).
  rewrite IH. destruct isAllowed; cbn [list_to_set]; set_solver.
Qed.

(** What the rules of single users make of a chain. *)
Lemma fold_rules_chain c us r c' : (allow_chainb c = true) -> forall v,
  v_chain (fold_rules c us r v) c' =
  if decide (c' = c) then
    if cv_enabled (v_chain v c) then
      mkChainView true (cv_filled (v_chain v c))
        (if r =? Iptables.RULE_ALLOW then list_to_set us ∪ cv_uids (v_chain v c) else cv_uids (v_chain v c) ∖ list_to_set us)
    else v_chain v c
  else v_chain v c'.
Proof.
  intros Ha. induction us as [|u us IH]; intros v.
  - cbn. case_decide; [subst|done]. destruct (v_chain v c) as [[] fi us]; [|done]. cbn. f_equal. case_match; set_solver.
  - change (fold_rules c (u :: us) r v) with (fold_rules c us r (uid_rule c r u v)). rewrite IH. unfold uid_rule. rewrite Ha. cbn [orb andb].
    destruct (v_chain v c) as [[] fi us'] eqn:E; cbn [cv_enabled cv_filled cv_uids].
    + cbn [set_chain v_chain]. rewrite (decide_True (P := c = c)) by done. cbn [cv_enabled cv_filled cv_uids].
      destruct (decide (c' = c)) as [->|Hne]; [|done]. f_equal. cbn [list_to_set]. case_match; set_solver.
    + rewrite E. cbn. by case_decide; [subst|].
Qed.

(** Denying an application that is already denied takes it off the list. *)
Lemma deny_again_allows uid : foldl (SetDeniedList_uid FIREWALL_RULE_DENY) [] [uid; uid] = [].
Proof.
  cbn [foldl]. change (SetDeniedList_uid FIREWALL_RULE_DENY [] uid) with [uid]. unfold SetDeniedList_uid.
  rewrite bool_decide_eq_true_2 by set_solver. cbn [andb negb]. by rewrite filter_cons_False by auto.
Qed.

(** ** The invariant *)

Section Invariant.
Context {W : Type} `{PolicyNetsysLaws W}.
Implicit Types (f : NetPolicyFirewall) (w : World W) (v : NetsysView).

(** A trust list and its chain. *)
Definition trust_ok (c : Z) (mode : bool) (rule : option FirewallRule) (s : gset Z) v : Prop :=
  exists r, rule = Some r /\ chainType_ r = c /\ NoDup (allowedList_ r) /\ list_to_set (allowedList_ r) = s /\
    cv_enabled (v_chain v c) = mode /\ (mode = true -> cv_filled (v_chain v c) = true /\ cv_uids (v_chain v c) = s).

(** The denied list and its chain, which holds [denied]: what the calls have made of it, see [denied_next]. *)
Definition deny_ok (denied : gset Z) (mode : bool) (rule : option FirewallRule) v : Prop :=
  exists r, rule = Some r /\ chainType_ r = FIREWALL_CHAIN_IDLE_DENY /\ NoDup (deniedList_ r) /\
    cv_enabled (v_chain v FIREWALL_CHAIN_IDLE_DENY) = mode /\ cv_uids (v_chain v FIREWALL_CHAIN_IDLE_DENY) = denied.

Definition firewall_view (denied : gset Z) f v : Prop :=
  trust_ok FIREWALL_CHAIN_DEVICE_IDLE (fw_deviceIdleMode_ f) (deviceIdleFirewallRule_ f) (fw_deviceIdleAllowedList_ f) v /\
  trust_ok FIREWALL_CHAIN_POWER_SAVE (fw_powerSaveMode_ f) (powerSaveFirewallRule_ f) (fw_powerSaveAllowedList_ f) v /\
  deny_ok denied (idleDenyMode_ f) (idleDenyFirewallRule_ f) v.

Definition firewall_inv (denied : gset Z) f w : Prop := exists v, realises (netsys w) v /\ firewall_view denied f v.

Lemma trust_ok_other c mode rule s v v' : v_chain v' c = v_chain v c -> trust_ok c mode rule s v -> trust_ok c mode rule s v'.
Proof. intros E (r & Hr). exists r. by rewrite E. Qed.

Lemma deny_ok_other D mode rule v v' : v_chain v' FIREWALL_CHAIN_IDLE_DENY = v_chain v FIREWALL_CHAIN_IDLE_DENY ->
  deny_ok D mode rule v -> deny_ok D mode rule v'.
Proof. intros E (r & Hr). exists r. by rewrite E. Qed.

(** Filling, enabling and changing a trust chain, in terms of the view. *)
Lemma trust_uids c mode r s v uids isAllowed : allow_chainb c = true -> trust_ok c mode (Some r) s v ->
  trust_ok c mode (Some (set_allowedList_ (foldl (SetAllowedList_uid (trust_rule isAllowed)) (allowedList_ r) uids) r))
    (UpdateFirewallPolicyList uids isAllowed s) (fold_rules c uids (trust_rule isAllowed) v).
Proof.
  intros Ha (r' & [= <-] & Ec & Hn & Es & Ee & Hm). eexists. split; [done|]. cbn [set_allowedList_ chainType_ allowedList_].
  destruct (trust_fold_set (trust_rule isAllowed) uids _ Hn) as [Hn' Es']. rewrite fold_rules_chain, decide_True by done.
  rewrite Es', Es, UpdateFirewallPolicyList_set. split_and!; try done.
  - by destruct isAllowed.
  - rewrite Ee. by destruct mode.
  - intros ->. destruct (Hm eq_refl) as [Hf Hu]. rewrite Ee. cbn. rewrite Hu. by destruct isAllowed.
Qed.

Lemma trust_enable c mode r s v : allow_chainb c = true -> trust_ok c mode (Some r) s v ->
  trust_ok c true (Some r) s (enable_chain c true (fill_chain c (allowedList_ r) v)).
Proof.
  intros Ha (r' & [= <-] & Ec & Hn & Es & Ee & Hm). exists r. split_and!; try done; cbn; rewrite !decide_True by done; cbn; try done.
Qed.

Lemma trust_disable c mode r s v : trust_ok c mode (Some r) s v -> trust_ok c false (Some r) s (enable_chain c false v).
Proof.
  intros (r' & [= <-] & Ec & Hn & Es & Ee & Hm). exists r. split_and!; try done. cbn. by rewrite decide_True by done.
Qed.

Lemma trust_clear c mode r s v : trust_ok c mode (Some r) s v ->
  trust_ok c mode (Some (set_deniedList_ [] (set_allowedList_ [] r))) ∅ (fill_chain c [] v).
Proof.
  intros (r' & [= <-] & Ec & Hn & Es & Ee & Hm). eexists. split; [done|]. cbn. rewrite !decide_True by done. cbn.
  split_and!; try done. constructor.
Qed.

(** ** The operations keep it *)

Ltac other_chain :=
  first [ apply trust_ok_other | apply deny_ok_other ]; first [ reflexivity | rewrite fold_rules_chain by done; reflexivity ].

Lemma SetDeviceIdleTrustlist_inv D uids isAllowed f w : firewall_inv D f w ->
  let r := SetDeviceIdleTrustlist uids isAllowed f w in firewall_inv D r.1.1.2 r.1.2.
Proof.
  intros Hv. pose proof Hv as (v & Hr & Hi & Hs & Hd). unfold SetDeviceIdleTrustlist. destruct (_ <? length uids)%nat; [exact Hv|].
  pose proof Hi as (r & Er & Ec & _). rewrite Er in *. destruct (isAllowed && _); [exact Hv|]. cbn.
  eexists. split; [|split_and!].
  - cbn. rewrite Ec. apply r_uid_rule; [exact Hr| |done]. destruct isAllowed; [by left|by right].
  - cbn. by apply trust_uids.
  - cbn. revert Hs. other_chain.
  - cbn. revert Hd. other_chain.
Qed.

Lemma SetPowerSaveTrustlist_inv D uids isAllowed f w : firewall_inv D f w ->
  let r := SetPowerSaveTrustlist uids isAllowed f w in firewall_inv D r.1.1.2 r.1.2.
Proof.
  intros Hv. pose proof Hv as (v & Hr & Hi & Hs & Hd). unfold SetPowerSaveTrustlist. destruct (_ <? length uids)%nat; [exact Hv|].
  pose proof Hs as (r & Er & Ec & _). rewrite Er in *. destruct (isAllowed && _); [exact Hv|]. cbn.
  eexists. split; [|split_and!].
  - cbn. rewrite Ec. apply r_uid_rule; [exact Hr| |done]. destruct isAllowed; [by left|by right].
  - cbn. revert Hi. other_chain.
  - cbn. by apply trust_uids.
  - cbn. revert Hd. other_chain.
Qed.

Lemma UpdateDeviceIdlePolicy_inv D enable f w : firewall_inv D f w ->
  let r := UpdateDeviceIdlePolicy enable f w in firewall_inv D r.1.1.2 r.1.2.
Proof.
  intros Hv. pose proof Hv as (v & Hr & Hi & Hs & Hd). unfold UpdateDeviceIdlePolicy. case_bool_decide; [exact Hv|].
  pose proof Hi as (r & Er & Ec & Hn & _). rewrite Er in *. destruct enable; cbn.
  - eexists. split; [|split_and!].
    + cbn. rewrite Ec. apply r_enable; [|done]. by apply r_fill_allow.
    + cbn. rewrite Er. by eapply trust_enable.
    + revert Hs. other_chain.
    + revert Hd. other_chain.
  - eexists. split; [|split_and!].
    + cbn. rewrite Ec. by apply r_enable.
    + cbn. rewrite Er. by eapply trust_disable.
    + revert Hs. other_chain.
    + revert Hd. other_chain.
Qed.

(** Leaving power save mode clears all chains. *)
Lemma UpdatePowerSavePolicy_inv D enable f w : enable = true \/ fw_powerSaveMode_ f = false -> firewall_inv D f w ->
  let r := UpdatePowerSavePolicy enable f w in firewall_inv D r.1.1.2 r.1.2.
Proof.
  intros Hon Hv. pose proof Hv as (v & Hr & Hi & Hs & Hd). unfold UpdatePowerSavePolicy. case_bool_decide as Hm; [exact Hv|].
  destruct enable; [|destruct Hon; congruence]. pose proof Hs as (r & Er & Ec & Hn & _). rewrite Er in *. cbn.
  eexists. split; [|split_and!].
  - cbn. rewrite Ec. apply r_enable; [|done]. by apply r_fill_allow.
  - revert Hi. other_chain.
  - cbn. rewrite Er. by eapply trust_enable.
  - revert Hd. other_chain.
Qed.

Lemma deny_enable D e mode r v : deny_ok D mode (Some r) v ->
  deny_ok (if e : bool then D else ∅) e (Some r) (enable_chain FIREWALL_CHAIN_IDLE_DENY e v).
Proof.
  intros (r' & [= <-] & Ec & Hn & Em & Hu). exists r. split_and!; try done; destruct e; cbn; done.
Qed.

(** Disabling the chain empties it, and enabling it does not fill it again. *)
Definition denied_mode (D : gset Z) (enable : bool) f : gset Z := if idleDenyMode_ f && negb enable then ∅ else D.

Lemma UpdateIdleDenyPolicy_inv D enable f w : firewall_inv D f w ->
  let r := UpdateIdleDenyPolicy enable f w in firewall_inv (denied_mode D enable f) r.1.1.2 r.1.2.
Proof.
  intros Hv. pose proof Hv as (v & Hr & Hi & Hs & Hd). unfold UpdateIdleDenyPolicy. case_bool_decide as Hm.
  { replace (denied_mode D enable f) with D; [exact Hv|]. unfold denied_mode. rewrite Hm. by destruct enable. }
  replace (denied_mode D enable f) with (if enable then D else ∅) by (unfold denied_mode; by destruct enable, (idleDenyMode_ f)).
  pose proof Hd as (r & Er & Ec & _). rewrite Er in *. cbn. eexists. split; [|split_and!].
  - cbn. rewrite Ec. by apply r_enable.
  - revert Hi. destruct enable; other_chain.
  - revert Hs. destruct enable; other_chain.
  - cbn. rewrite Er. by eapply deny_enable.
Qed.

Lemma policy_deny_fill D mode r l v : deny_ok D mode (Some r) v -> NoDup l ->
  deny_ok (list_to_set l) mode (Some (set_deniedList_ l r)) (fill_chain FIREWALL_CHAIN_IDLE_DENY l v).
Proof. intros (r' & [= <-] & Ec & Hn & Em & Hu) Hl. eexists. by split_and!. Qed.

(** The list that the service keeps is sent to the chain as a whole. *)
Definition told_denied f : gset Z := match idleDenyFirewallRule_ f with Some r => list_to_set (deniedList_ r) | None => ∅ end.
Definition denied_list (D : gset Z) (uids : list Z) f' : gset Z := if (MAX_LIST_SIZE <? length uids)%nat then D else told_denied f'.

Lemma policy_SetUidsDeniedListChain_inv D uids isAdd f w : firewall_inv D f w ->
  let r := SetUidsDeniedListChain uids isAdd f w in firewall_inv (denied_list D uids r.1.1.2) r.1.1.2 r.1.2.
Proof.
  intros Hv. pose proof Hv as (v & Hr & Hi & Hs & Hd). unfold SetUidsDeniedListChain, denied_list. destruct (_ <? length uids)%nat; [exact Hv|].
  pose proof Hd as (r & Er & Ec & Hn & _). rewrite Er in *. cbn [SetDeniedList_uids fst snd told_denied set_denyRule idleDenyFirewallRule_]. set (l := foldl _ _ _).
  assert (Hl : NoDup l) by (by apply deny_fold_NoDup). eexists. split; [|split_and!].
  - cbn. rewrite Ec. by apply r_fill_deny.
  - revert Hi. other_chain.
  - revert Hs. other_chain.
  - cbn. by eapply policy_deny_fill.
Qed.

Lemma RemoveFromAllowedList_absent c mode r s v uid : trust_ok c mode (Some r) s v -> uid ∉ s -> RemoveFromAllowedList uid r = r.
Proof.
  intros (r' & [= <-] & _ & _ & Es & _) Hu. unfold RemoveFromAllowedList. rewrite FirewallManager.erase_first_notin; [by destruct r|].
  rewrite <- Es in Hu. set_solver.
Qed.

Lemma trust_none c mode rule s v : trust_ok c mode rule s v -> exists r, rule = Some r.
Proof. intros (r & -> & _). by exists r. Qed.

Lemma DeleteUid_inv D uid f w : firewall_inv D f w -> exists f' w' es, DeleteUid uid f w = Some (f', w', es) /\ firewall_inv D f' w' /\
  fw_powerSaveMode_ f' = fw_powerSaveMode_ f.
Proof.
  intros Hv. pose proof (SetDeviceIdleTrustlist_inv D [uid] false f w Hv) as H1. unfold DeleteUid.
  assert (E1 : let r := SetDeviceIdleTrustlist [uid] false f w in uid ∉ fw_deviceIdleAllowedList_ r.1.1.2 /\
    fw_powerSaveMode_ r.1.1.2 = fw_powerSaveMode_ f).
  { destruct Hv as (v & _ & Hi & _). destruct (trust_none _ _ _ _ _ Hi) as [r Er]. unfold SetDeviceIdleTrustlist.
    cbn. rewrite Er. cbn. set_solver. }
  destruct (SetDeviceIdleTrustlist [uid] false f w) as [[[c1 f1] w1] e1]. cbn [fst snd] in *.
  pose proof (SetPowerSaveTrustlist_inv D [uid] false f1 w1 H1) as H2.
  assert (E2 : let r := SetPowerSaveTrustlist [uid] false f1 w1 in uid ∉ fw_powerSaveAllowedList_ r.1.1.2 /\
    fw_deviceIdleAllowedList_ r.1.1.2 = fw_deviceIdleAllowedList_ f1 /\ fw_powerSaveMode_ r.1.1.2 = fw_powerSaveMode_ f1).
  { destruct H1 as (v & _ & _ & Hs & _). destruct (trust_none _ _ _ _ _ Hs) as [r Er]. unfold SetPowerSaveTrustlist.
    cbn. rewrite Er. cbn. set_solver. }
  destruct (SetPowerSaveTrustlist [uid] false f1 w1) as [[[c2 f2] w2] e2]. cbn [fst snd] in *.
  destruct E1 as [N1 M1], E2 as (N2 & L2 & M2). pose proof H2 as (v & Hr & Hi & Hs & Hd).
  destruct (trust_none _ _ _ _ _ Hi) as [ri Ei], (trust_none _ _ _ _ _ Hs) as [rs Es]. rewrite Ei, Es in *. cbn.
  rewrite L2 in Hi. rewrite (RemoveFromAllowedList_absent _ _ _ _ _ _ Hi N1), (RemoveFromAllowedList_absent _ _ _ _ _ _ Hs N2).
  eexists _, _, _. split; [done|]. split; [|cbn; congruence]. exists v. split; [done|]. split_and!; cbn; try done. by rewrite L2.
Qed.

Lemma fill_deny_other r w v : realises (netsys w) v -> chainType_ r <> FIREWALL_CHAIN_IDLE_DENY ->
  realises (netsys (ClearDeniedList r w).2) v.
Proof. intros Hr Hne. cbn. by apply r_fill_deny_other. Qed.

Lemma ResetPolicies_inv D f w : fw_powerSaveMode_ f = false -> firewall_inv D f w ->
  let r := ResetPolicies f w in firewall_inv ∅ r.1.1 r.1.2 /\ fw_powerSaveMode_ r.1.1 = false.
Proof.
  intros Hm (v & Hr & Hi & Hs & Hd). unfold ResetPolicies.
  destruct (trust_none _ _ _ _ _ Hi) as [ri Ei], (trust_none _ _ _ _ _ Hs) as [rs Es]. pose proof Hd as (rd & Ed & Cd & _).
  rewrite Ei in *. cbn [ClearAllowedList ClearDeniedList powerSaveFirewallRule_ set_idleRule]. rewrite Es in *.
  cbn [ClearAllowedList ClearDeniedList idleDenyFirewallRule_ set_saveRule set_idleRule]. rewrite Ed in *. cbn [ClearDeniedList].
  match goal with |- context [UpdateDeviceIdlePolicy false ?f0 ?w0] => set (f1 := f0); set (w1 := w0) end.
  assert (H1 : firewall_inv ∅ f1 w1 /\ fw_powerSaveMode_ f1 = false).
  { split; [|done].
    exists (fill_chain FIREWALL_CHAIN_IDLE_DENY [] (fill_chain FIREWALL_CHAIN_POWER_SAVE [] (fill_chain FIREWALL_CHAIN_DEVICE_IDLE [] v))).
    pose proof Hi as (ri' & [= <-] & Ci & _). pose proof Hs as (rs' & [= <-] & Cs & _).
    pose proof (NoDup_nil_2 : NoDup (@nil Z)) as Hnil. split; [|split_and!].
    - unfold w1. cbn. rewrite Ci, Cs, Cd. apply r_fill_deny; [|done]. apply r_fill_deny_other; [|done]. apply r_fill_allow; [|done..].
      apply r_fill_deny_other; [|done]. by apply r_fill_allow.
    - apply (trust_clear _ _ _ _ _) in Hi. revert Hi. other_chain.
    - eapply (trust_ok_other _ _ _ _ (fill_chain FIREWALL_CHAIN_POWER_SAVE [] (fill_chain FIREWALL_CHAIN_DEVICE_IDLE [] v))); [done|].
      apply (trust_clear _ _ _ (fw_powerSaveAllowedList_ f)). revert Hs. other_chain.
    - eapply (policy_deny_fill D _ _ []); [|done]. revert Hd. other_chain. }
  clearbody f1 w1. clear -H1. destruct H1 as [H1 M1].
  pose proof (UpdateDeviceIdlePolicy_inv ∅ false f1 w1 H1) as H2.
  assert (M2 : fw_powerSaveMode_ (UpdateDeviceIdlePolicy false f1 w1).1.1.2 = false).
  { unfold UpdateDeviceIdlePolicy. by repeat case_match. }
  destruct (UpdateDeviceIdlePolicy false f1 w1) as [[[c2 f2] w2] e2]. cbn [fst snd] in *.
  pose proof (UpdatePowerSavePolicy_inv ∅ false f2 w2 (or_intror M2) H2) as H3. unfold UpdatePowerSavePolicy in *.
  rewrite bool_decide_eq_true_2 in * by done. cbn [fst snd] in *.
  pose proof (UpdateIdleDenyPolicy_inv ∅ false f2 w2 H3) as H4.
  replace (denied_mode ∅ false f2) with (∅ : gset Z) in H4 by (unfold denied_mode; by destruct (_ && _)).
  assert (M4 : fw_powerSaveMode_ (UpdateIdleDenyPolicy false f2 w2).1.1.2 = false).
  { unfold UpdateIdleDenyPolicy. by repeat case_match. }
  by destruct (UpdateIdleDenyPolicy false f2 w2) as [[[c4 f4] w4] e4].
Qed.

Lemma sorted_elements (s : gset Z) : (list_to_set (sort_by id (elements s)) : gset Z) = s.
Proof. rewrite (list_to_set_perm_L _ _ (sort_by_Permutation id _)). apply list_to_set_elements_L. Qed.

Lemma Init_inv w v : realises (netsys w) v ->
  (forall c, allow_chainb c || deny_chainb c = true -> cv_enabled (v_chain v c) = false) ->
  cv_uids (v_chain v FIREWALL_CHAIN_IDLE_DENY) = ∅ ->
  firewall_inv ∅ (Init new_NetPolicyFirewall w).1 (Init new_NetPolicyFirewall w).2.
Proof.
  intros Hr Hoff Hden. unfold Init. cbn.
  set (a := chain_lists FIREWALL_CHAIN_DEVICE_IDLE (file w)). set (b := chain_lists FIREWALL_CHAIN_POWER_SAVE _).
  destruct (push_fold_set (sort_by id (elements (∅ ∪ allowedList a))) [] (NoDup_nil_2)) as [Na Sa].
  destruct (push_fold_set (sort_by id (elements (∅ ∪ allowedList b))) [] (NoDup_nil_2)) as [Nb Sb].
  rewrite sorted_elements in Sa, Sb.
  eexists. split; [cbn; apply r_fill_allow; [apply r_fill_allow; [exact Hr|..]|..]; done|]. split_and!.
  - eexists. split; [done|]. cbn. rewrite Sa. split_and!; try done; [set_solver|]. by apply Hoff.
  - eexists. split; [done|]. cbn. rewrite Sb. split_and!; try done; [set_solver|]. by apply Hoff.
  - eexists. split; [done|]. cbn. split_and!; [done|constructor|by apply Hoff|].
    exact Hden.
Qed.

(** ** Runs of the service *)

Inductive FirewallCall :=
| CallIdleTrust (uids : list Z) (isAllowed : bool)
| CallSaveTrust (uids : list Z) (isAllowed : bool)
| CallIdleMode (enable : bool)
| CallSaveMode (enable : bool)
| CallDenyMode (enable : bool)
| CallDenyList (uids : list Z) (isAdd : bool)
| CallFirewallReset
| CallFirewallEvent (eventId : Z) (e : PolicyEvent).

Definition firewall_call (c : FirewallCall) f w : option (NetPolicyFirewall * World W * list PolicyEvent) :=
  let ok := fun r : Z * NetPolicyFirewall * World W * list PolicyEvent => Some (r.1.1.2, r.1.2, r.2) in
  match c with
  | CallIdleTrust uids b => ok (SetDeviceIdleTrustlist uids b f w)
  | CallSaveTrust uids b => ok (SetPowerSaveTrustlist uids b f w)
  | CallIdleMode b => ok (UpdateDeviceIdlePolicy b f w)
  | CallSaveMode b => ok (UpdatePowerSavePolicy b f w)
  | CallDenyMode b => ok (UpdateIdleDenyPolicy b f w)
  | CallDenyList uids b => ok (SetUidsDeniedListChain uids b f w)
  | CallFirewallReset => Some (ResetPolicies f w)
  | CallFirewallEvent eventId e => HandleEvent eventId e f w
  end.

(** The call does not leave power save mode. *)
Definition stays_saving (c : FirewallCall) f : Prop :=
  match c with
  | CallSaveMode b => b = true \/ fw_powerSaveMode_ f = false
  | CallFirewallReset => fw_powerSaveMode_ f = false
  | CallFirewallEvent eventId e => eventId = MSG_POWER_SAVE_MODE_CHANGED -> powerSaveMode e = true \/ fw_powerSaveMode_ f = false
  | _ => True
  end.

(** What a call makes of the chain of the denied applications: telling a list replaces it, leaving the mode or a reset
    empties it, and nothing else changes it. *)
Definition denied_next (D : gset Z) (c : FirewallCall) f f' : gset Z :=
  match c with
  | CallDenyList uids _ => denied_list D uids f'
  | CallDenyMode b => denied_mode D b f
  | CallFirewallReset => ∅
  | _ => D
  end.

Lemma firewall_call_inv D c f w : stays_saving c f -> firewall_inv D f w ->
  exists f' w' es, firewall_call c f w = Some (f', w', es) /\ firewall_inv (denied_next D c f f') f' w'.
Proof.
  intros Hs Hv. destruct c as [uids b|uids b|b|b|b|uids b| |eventId e]; cbn [firewall_call].
  - eexists _, _, _. split; [done|]. by apply SetDeviceIdleTrustlist_inv.
  - eexists _, _, _. split; [done|]. by apply SetPowerSaveTrustlist_inv.
  - eexists _, _, _. split; [done|]. by apply UpdateDeviceIdlePolicy_inv.
  - eexists _, _, _. split; [done|]. by apply UpdatePowerSavePolicy_inv.
  - eexists _, _, _. split; [done|]. by apply UpdateIdleDenyPolicy_inv.
  - eexists _, _, _. split; [done|]. by apply policy_SetUidsDeniedListChain_inv.
  - destruct (ResetPolicies_inv D f w Hs Hv) as [Hr _]. destruct (ResetPolicies f w) as [[f' w'] es]. by eexists _, _, _.
  - unfold HandleEvent. cbn in Hs. destruct (eventId =? MSG_UID_REMOVED).
    + destruct (DeleteUid_inv D (deletedUid e) f w Hv) as (f' & w' & es & E & Hv' & _). by exists f', w', es.
    + destruct (Z.eqb_spec eventId MSG_POWER_SAVE_MODE_CHANGED) as [E|_]; [|by exists f, w, []].
      pose proof (UpdatePowerSavePolicy_inv D (powerSaveMode e) f w (Hs E) Hv) as Hp.
      destruct (UpdatePowerSavePolicy (powerSaveMode e) f w) as [[[r f'] w'] es]. by exists f', w', es.
Qed.

(** The stored lists. *)
Definition stored_lists f w : Prop :=
  chain_lists FIREWALL_CHAIN_DEVICE_IDLE (file w) = mkRuleList (deviceIdleDeniedList_ f) (fw_deviceIdleAllowedList_ f) /\
  chain_lists FIREWALL_CHAIN_POWER_SAVE (file w) = mkRuleList (powerSaveDeniedList_ f) (fw_powerSaveAllowedList_ f).

Lemma chain_lists_write c c' a d n :
  chain_lists c' (WriteFirewallRules c a d n) = if decide (c' = c) then mkRuleList d a else chain_lists c' n.
Proof.
  unfold chain_lists, WriteFirewallRules, WriteFile, Obj2Json. cbn.
  do 2 match goal with |- context [bool_decide ?P] => destruct (bool_decide P) end; cbn;
    (case_decide; [subst; by rewrite lookup_insert_eq|by rewrite lookup_insert_ne]).
Qed.

#[local] Arguments chain_lists : simpl never.
#[local] Arguments WriteFirewallRules : simpl never.

Lemma firewall_call_stored c f w f' w' es : stored_lists f w -> firewall_call c f w = Some (f', w', es) -> stored_lists f' w'.
Proof.
  intros Hl. assert (Hi : forall uids b f w, stored_lists f w ->
    stored_lists (SetDeviceIdleTrustlist uids b f w).1.1.2 (SetDeviceIdleTrustlist uids b f w).1.2).
  { clear. intros uids b f w [H1 H2]. unfold SetDeviceIdleTrustlist, SetAllowedList_uids. repeat case_match; try done; simplify_eq/=.
    unfold stored_lists. cbn. by rewrite !chain_lists_write. }
  assert (Hp : forall uids b f w, stored_lists f w ->
    stored_lists (SetPowerSaveTrustlist uids b f w).1.1.2 (SetPowerSaveTrustlist uids b f w).1.2).
  { clear. intros uids b f w [H1 H2]. unfold SetPowerSaveTrustlist, SetAllowedList_uids. repeat case_match; try done; simplify_eq/=.
    unfold stored_lists. cbn. by rewrite !chain_lists_write. }
  destruct c as [uids b|uids b|b|b|b|uids b| |eventId e]; cbn [firewall_call]; intros E; simplify_eq/=.
  - by apply Hi.
  - by apply Hp.
  - unfold UpdateDeviceIdlePolicy. repeat case_match; done.
  - unfold UpdatePowerSavePolicy. repeat case_match; done.
  - unfold UpdateIdleDenyPolicy. repeat case_match; done.
  - unfold SetUidsDeniedListChain, SetDeniedList_uids. repeat case_match; simplify_eq/=; done.
  - unfold ResetPolicies, ClearAllowedList, ClearDeniedList, UpdateDeviceIdlePolicy, UpdatePowerSavePolicy, UpdateIdleDenyPolicy in E.
    repeat case_match; simplify_eq/=; try done; unfold stored_lists; cbn; by rewrite !chain_lists_write.
  - unfold HandleEvent, DeleteUid in E. destruct (eventId =? MSG_UID_REMOVED).
    + specialize (Hi [deletedUid e] false f w Hl). destruct (SetDeviceIdleTrustlist _ _ _ _) as [[[? f1] w1] ?]. cbn in Hi.
      specialize (Hp [deletedUid e] false f1 w1 Hi). destruct (SetPowerSaveTrustlist _ _ _ _) as [[[? f2] w2] ?]. cbn in Hp.
      destruct (deviceIdleFirewallRule_ f2), (powerSaveFirewallRule_ f2); simplify_eq/=. done.
    + unfold UpdatePowerSavePolicy in E. repeat case_match; simplify_eq/=; done.
Qed.

Lemma Init_stored w : stored_lists (Init new_NetPolicyFirewall w).1 (Init new_NetPolicyFirewall w).2.
Proof.
  unfold Init, stored_lists. cbn. unfold chain_lists. cbn. rewrite lookup_insert_eq, lookup_insert_ne, lookup_insert_eq by done.
  rewrite lookup_insert_ne by done. cbn. rewrite !union_empty_l_L.
  by destruct (default _ (_ !! FIREWALL_CHAIN_DEVICE_IDLE)), (default _ (_ !! FIREWALL_CHAIN_POWER_SAVE)).
Qed.

(** Meanwhile the other parts of the service change what is not about the chains. *)
Definition keeps_chains (w w' : World W) : Prop :=
  (forall v, realises (netsys w) v -> exists v', realises (netsys w') v' /\ v_chain v' = v_chain v) /\
  netFirewallRules (netPolicy_ (file w')) = netFirewallRules (netPolicy_ (file w)).

(** The index is what the chain of the denied applications holds. *)
Inductive firewall_reach : gset Z -> NetPolicyFirewall -> World W -> Prop :=
| firewall_start w v : realises (netsys w) v ->
    (forall c, allow_chainb c || deny_chainb c = true -> cv_enabled (v_chain v c) = false) ->
    cv_uids (v_chain v FIREWALL_CHAIN_IDLE_DENY) = ∅ ->
    firewall_reach ∅ (Init new_NetPolicyFirewall w).1 (Init new_NetPolicyFirewall w).2
| firewall_step D c f w f' w' es : firewall_reach D f w -> stays_saving c f -> firewall_call c f w = Some (f', w', es) ->
    firewall_reach (denied_next D c f f') f' w'
| firewall_env D f w w' : firewall_reach D f w -> keeps_chains w w' -> firewall_reach D f w'.

Lemma firewall_reach_inv D f w : firewall_reach D f w -> firewall_inv D f w /\ stored_lists f w.
Proof.
  induction 1 as [w v Hr Hoff Hden|D c f w f' w' es _ [IH IHs] Hs E|D f w w' _ [IH IHs] [Hk Hf]].
  - split; [by eapply Init_inv|apply Init_stored].
  - split; [|by eapply firewall_call_stored]. destruct (firewall_call_inv D c f w Hs IH) as (f1 & w1 & es1 & E1 & H1). congruence.
  - split; [|unfold stored_lists, chain_lists in *; by rewrite Hf].
    destruct IH as (v & Hr & Hi & Hs & Hd). destruct (Hk v Hr) as (v' & Hr' & Ev). exists v'. split; [done|].
    unfold firewall_view. split_and!; [revert Hi; apply trust_ok_other|revert Hs; apply trust_ok_other|revert Hd; apply deny_ok_other];
      by rewrite Ev.
Qed.

(** The trust lists are one: in every state the service can reach before power
    save mode is left, every call returns (no rule is missing), and the list a
    client gets for the idle or the power save mode has no duplicates and is, as
    a set, the one that is stored in the file. *)
Theorem trust_lists_agree D f w c : firewall_reach D f w -> stays_saving c f ->
  is_Some (firewall_call c f w) /\
  NoDup (GetDeviceIdleTrustlist f).2 /\
  list_to_set (GetDeviceIdleTrustlist f).2 = allowedList (chain_lists FIREWALL_CHAIN_DEVICE_IDLE (file w)) /\
  NoDup (GetPowerSaveTrustlist f).2 /\
  list_to_set (GetPowerSaveTrustlist f).2 = allowedList (chain_lists FIREWALL_CHAIN_POWER_SAVE (file w)).
Proof.
  intros [Hr [-> ->]]%firewall_reach_inv Hs. destruct (firewall_call_inv D c f w Hs Hr) as (f' & w' & es & E & _).
  destruct Hr as (v & _ & (ri & Ei & _ & Ni & Li & _) & (rs & Es & _ & Ns & Ls & _) & _).
  unfold GetDeviceIdleTrustlist, GetPowerSaveTrustlist. rewrite Ei, Es. split_and!; try done.
Qed.

End Invariant.

(** ** The trust lists and the packets *)

Section Enforced.
Context {T : Type} `{Iptables.IptablesLaws T} {P : Type} `{Iptables.PacketsLaws P}.

(** A packet of an application is dropped when the device is idle or saves power
    and the list of that mode does not name the application, or when the denied
    mode is on and the chain of the denied applications names it. *)
Definition firewall_drops (f : NetPolicyFirewall) (denied : gset Z) (uid : Z) : bool :=
  (fw_deviceIdleMode_ f && negb (bool_decide (uid ∈ fw_deviceIdleAllowedList_ f))) ||
  (fw_powerSaveMode_ f && negb (bool_decide (uid ∈ fw_powerSaveAllowedList_ f))) ||
  (idleDenyMode_ f && bool_decide (uid ∈ denied)).

Lemma trust_enforced D f (w : World (Native T)) (p : P) d uid six : firewall_reach D f w ->
  Iptables.owner p = Some uid -> 9999 < uid -> FirewallManager.plain six (firewallManager_ (netsys w)) p ->
  Iptables.walk (3 + d) (Iptables.rules (FirewallManager.family six (iptables (netsys w)))) p "ohfw_OUTPUT" =
    if firewall_drops f D uid then Iptables.Dropped else Iptables.Passed.
Proof.
  intros [(v & Hr & Hi & Hs & Hd) _]%firewall_reach_inv Eu Happ Hp.
  destruct Hi as (ri & Ei & _ & _ & _ & Mi & Vi), Hs as (rs & Es & _ & _ & _ & Ms & Vs), Hd as (rd & Ed & _ & _ & Md & Vd).
  rewrite (firewall_blocks _ v p d uid six) by done. unfold firewall_blocked, view_drops, firewall_drops.
  change Iptables.CHAIN_OHFW_DOZABLE with FIREWALL_CHAIN_DEVICE_IDLE. change Iptables.CHAIN_OHFW_POWERSAVING with FIREWALL_CHAIN_POWER_SAVE.
  change Iptables.CHAIN_OHFW_UNDOZABLE with FIREWALL_CHAIN_IDLE_DENY. rewrite Mi, Ms, Md, Vd.
  change (allow_chainb FIREWALL_CHAIN_DEVICE_IDLE) with true. change (allow_chainb FIREWALL_CHAIN_POWER_SAVE) with true.
  change (allow_chainb FIREWALL_CHAIN_IDLE_DENY) with false. cbn iota.
  destruct (fw_deviceIdleMode_ f); [destruct (Vi eq_refl) as [-> ->]|]; (destruct (fw_powerSaveMode_ f); [destruct (Vs eq_refl) as [-> ->]|]); done.
Qed.

End Enforced.

End PolicyFirewall.
