(* ===== verification/PolicySystem.v ===== *)
(** * The policy service as a whole
    (services/netpolicymanager/src/core/net_policy_core.cpp, net_policy_base.cpp)

    The rules of the applications ([PolicyRule]) and the firewalls
    ([PolicyFirewall]) share the file and the native service and talk by events:
    a part posts an event with itself as the sender, the handler takes the events
    one after the other and gives each to the parts in the order they were
    created, except to its sender.

    Each part is proved with the other as its environment; here each is shown to
    respect what the other relies on ([rule_keeps_chains], [firewall_keeps_lists]),
    so that in every run of the system both hold ([system_run_parts]), and
    [system_enforced] says what happens to the packets of an application. *)

From S2P Require Import Prelude NetData Iptables BandwidthManager FirewallManager PolicyNetsys NativeNetsys PolicyFile PolicyRule PolicyFirewall.
Import NetData PolicyNetsys NativeNetsys PolicyFile.
Module PR := PolicyRule.PolicyRule.
Module PF := PolicyFirewall.PolicyFirewall.

Module PolicySystem.

Section Frames.
Context {W : Type} `{PolicyNetsysLaws W}.
Implicit Types (s : PR.NetPolicyRule) (f : PF.NetPolicyFirewall) (w : PR.World W).

(** ** The rules leave the chains alone *)

#[global] Instance keeps_chains_preorder : PreOrder (@PF.keeps_chains W _ _).
Proof.
  split.
  - intros w. split; [|done]. intros v Hr. by exists v.
  - intros w1 w2 w3 [N1 F1] [N2 F2]. split; [|congruence]. intros v Hr.
    destruct (N1 v Hr) as (v1 & Hr1 & E1), (N2 v1 Hr1) as (v2 & Hr2 & E2). exists v2. split; [done|congruence].
Qed.


Lemma keeps_chains_netsys (g : W -> Z * W) w :
  (forall v, realises (PR.netsys w) v -> exists v', realises (g (PR.netsys w)).2 v' /\ v_chain v' = v_chain v) ->
  PF.keeps_chains w (PR.on_netsys g w).
Proof. intros Hg. by split. Qed.

Lemma keeps_chains_file (g : NetPolicyFile -> NetPolicyFile) w :
  netFirewallRules (netPolicy_ (g (PR.file w))) = netFirewallRules (netPolicy_ (PR.file w)) -> PF.keeps_chains w (PR.on_file g w).
Proof. intros Hg. split; [|done]. intros v Hr. by exists v. Qed.

Lemma keeps_chains_notify n w : PF.keeps_chains w (PR.notify n w).
Proof. split; [|done]. intros v Hr. by exists v. Qed.

Lemma WriteFile_rules n : netFirewallRules (netPolicy_ (WriteFile n)) = netFirewallRules (netPolicy_ n).
Proof. unfold WriteFile, Obj2Json. cbn. by repeat case_match. Qed.

Lemma WritePolicyByUid_rules op uid policy n :
  netFirewallRules (netPolicy_ (WritePolicyByUid_op op uid policy n)) = netFirewallRules (netPolicy_ n).
Proof. unfold WritePolicyByUid_op. rewrite WriteFile_rules. by destruct op. Qed.

(** One call of the native service about the lists, or about the box. *)
Ltac lists_call :=
  let v := fresh "v" in let Hr := fresh "Hr" in apply keeps_chains_netsys; intros v Hr; eexists; split;
  [ first [ apply r_remove_denied | apply r_add_denied | apply r_remove_allowed | apply r_add_allowed | apply r_saver
          | apply PR.realises_box ]; first [ exact Hr | by left | by right ]
  | reflexivity ].

Lemma NetsysCtrl_chains uid netsysCtrl s w : PF.keeps_chains w (PR.NetsysCtrl uid netsysCtrl s w).
Proof.
  unfold PR.NetsysCtrl, PR.ProcessCtrlNone, PR.ProcessCtrlAddAllowedList.
  repeat case_match; try reflexivity; repeat (etransitivity; [|lists_call]); reflexivity.
Qed.

Lemma trans_entry_chains uid pr s w : PF.keeps_chains w (PR.trans_entry uid pr s w).2.
Proof.
  unfold PR.trans_entry, PR.TransConditionToRuleAndNetsys. set (n := Z.land _ PR.POLICY_TRANS_NET_CTRL_MASK). set (r := PR.MoveToRuleBit _).
  assert (Hf : forall p w, PF.keeps_chains w (PR.on_file (WritePolicyByUid uid p) w)).
  { intros p w0. apply keeps_chains_file. apply WritePolicyByUid_rules. }
  destruct (negb (PR.netsys_ pr =? n)); case_match; simplify_eq; case_match; simplify_eq; cbn [snd] in *;
    try (etransitivity; [|apply keeps_chains_notify]); (etransitivity; [|apply Hf]); first [apply NetsysCtrl_chains|reflexivity].
Qed.

Lemma TransPolicyToRule_all_chains s w : PF.keeps_chains w (PR.TransPolicyToRule_all s w).2.
Proof.
  unfold PR.TransPolicyToRule_all. generalize (sort_by fst (map_to_list (PR.uidPolicyRules_ s))). intros l. revert s w.
  induction l as [|e l IH]; intros s w; [done|]. cbn [foldl]. pose proof (trans_entry_chains e.1 e.2 s w) as Ht.
  destruct (PR.trans_entry e.1 e.2 s w) as [s' w']. by rewrite Ht, <- IH.
Qed.

Lemma TransPolicyToRule_uid_chains uid s w : PF.keeps_chains w (PR.TransPolicyToRule_uid uid s w).2.
Proof. unfold PR.TransPolicyToRule_uid. case_match; [apply trans_entry_chains|done]. Qed.

Lemma TransPolicyToRule_chains uid policy s w : PF.keeps_chains w (PR.TransPolicyToRule uid policy s w).2.
Proof.
  destruct (PR.IsValidNetPolicy policy) eqn:Hp; [|unfold PR.TransPolicyToRule; by rewrite Hp].
  unfold PR.TransPolicyToRule. rewrite Hp. cbn [negb].
  assert (Ht : forall pr w0, PF.keeps_chains w w0 -> PF.keeps_chains w (let '(s, w) := PR.trans_entry uid pr s w0 in (NETMANAGER_SUCCESS, s, w)).2).
  { intros pr w0 Hw. pose proof (trans_entry_chains uid pr s w0) as Ht. destruct (PR.trans_entry uid pr s w0). cbn in *. by rewrite Hw. }
  destruct (PR.uidPolicyRules_ s !! uid) as [pr|]; [destruct (negb _)|]; apply Ht; [apply keeps_chains_notify|reflexivity|apply keeps_chains_notify].
Qed.

Lemma SetBackgroundPolicy_chains allow s w : PF.keeps_chains w (PR.SetBackgroundPolicy allow s w).2.
Proof.
  unfold PR.SetBackgroundPolicy. case_bool_decide; [|done]. set (w1 := PR.notify _ w).
  pose proof (TransPolicyToRule_all_chains (PR.set_backgroundAllow_ allow s) w1) as Ht.
  destruct (PR.TransPolicyToRule_all _ w1) as [s2 w2]. cbn in *. etransitivity; [apply (keeps_chains_notify (PR.NetBackgroundPolicyChange allow))|].
  fold w1. rewrite Ht. etransitivity; [apply (keeps_chains_file (WriteBackgroundPolicy allow)); unfold WriteBackgroundPolicy; by rewrite WriteFile_rules|]. lists_call.
Qed.

(** What the rules do leaves the chains and their stored lists as they are. *)
Lemma rule_keeps_chains c s w : PF.keeps_chains w (PR.call c s w).2.
Proof.
  destruct c as [uid policy|allow| |eventId e]; cbn [PR.call].
  - apply TransPolicyToRule_chains.
  - apply SetBackgroundPolicy_chains.
  - unfold PR.ResetPolicies. generalize (sort_by fst (map_to_list (PR.uidPolicyRules_ s))). intros l. revert s w.
    induction l as [|e l IH]; intros s w; [apply SetBackgroundPolicy_chains|]. cbn [foldl].
    pose proof (TransPolicyToRule_chains e.1 NET_POLICY_NONE s w) as Ht. destruct (PR.TransPolicyToRule _ _ _ _) as [[r s'] w'].
    rewrite Ht. apply IH.
  - enough (PF.keeps_chains w (PR.HandleEvent eventId e s w).2) as Hk by (by destruct (PR.HandleEvent eventId e s w)).
    unfold PR.HandleEvent. repeat case_match; try done; try apply TransPolicyToRule_all_chains; try apply TransPolicyToRule_uid_chains.
    unfold PR.DeleteUid. cbn [snd]. do 2 (etransitivity; [|lists_call]). apply keeps_chains_file, WritePolicyByUid_rules.
Qed.

Lemma rule_init_keeps_chains s w : PF.keeps_chains w (PR.Init s w).2.
Proof.
  unfold PR.Init. generalize (PR.set_backgroundAllow_ (ReadBackgroundPolicy (PR.file w)) s).
  generalize (length (ReadUidPolicies (PR.file w))), 0%nat. intros n. revert w. induction n as [|n IH]; intros w i s'; [done|]. cbn.
  case_match; [|done]. match goal with |- context [PR.TransPolicyToRule ?u ?p ?s ?w] => pose proof (TransPolicyToRule_chains u p s w) as Ht end.
  destruct (PR.TransPolicyToRule _ _ _ _) as [[r s2] w2]. rewrite Ht. apply IH.
Qed.

(** ** The firewalls leave the lists alone *)

Lemma uid_rule_lists c r u v : v_denied (uid_rule c r u v) = v_denied v /\ v_allowed (uid_rule c r u v) = v_allowed v /\
  v_saver (uid_rule c r u v) = v_saver v.
Proof. unfold uid_rule. by case_match. Qed.

Lemma fold_rules_lists c us r : forall v, v_denied (fold_rules c us r v) = v_denied v /\
  v_allowed (fold_rules c us r v) = v_allowed v /\ v_saver (fold_rules c us r v) = v_saver v.
Proof.
  induction us as [|u us IH]; intros v; [done|].
  change (fold_rules c (u :: us) r v) with (fold_rules c us r (uid_rule c r u v)).
  destruct (IH (uid_rule c r u v)) as (-> & -> & ->). apply uid_rule_lists.
Qed.

Lemma keeps_lists_file (g : NetPolicyFile -> NetPolicyFile) w :
  uidPolicies (netPolicy_ (g (PR.file w))) = uidPolicies (netPolicy_ (PR.file w)) ->
  (backgroundPolicyStatus (netPolicy_ (PR.file w)) <> "" ->
   backgroundPolicyStatus (netPolicy_ (g (PR.file w))) = backgroundPolicyStatus (netPolicy_ (PR.file w))) ->
  PR.keeps_lists w (PR.on_file g w).
Proof. intros Hu Hb. split; [|done]. intros v Hr. by exists v. Qed.

Lemma WriteFirewallRules_lists c a d w : PR.keeps_lists w (PR.on_file (WriteFirewallRules c a d) w).
Proof.
  apply keeps_lists_file; unfold WriteFirewallRules; [by rewrite WriteFile_uidPolicies|]. intros Hb. unfold WriteFile, Obj2Json. cbn.
  destruct (bool_decide (hosVersion (netPolicy_ (PR.file w)) = "")); cbn; by rewrite bool_decide_eq_false_2.
Qed.

(** One call of the native service about the chains. *)
Ltac chain_call :=
  let v := fresh "v" in let Hr := fresh "Hr" in apply PR.keeps_lists_netsys; intros v Hr; eexists; split;
  [ first [ apply r_fill_allow | apply r_fill_deny | apply r_fill_deny_other | apply r_enable | apply r_uid_rule ];
    first [ exact Hr | done | assumption | idtac ]
  | first [ apply fold_rules_lists | by split_and! | match goal with |- context [enable_chain _ ?e] => by destruct e end ] ].

Lemma SetAllowedList_uids_lists uids isAllowed r w : allow_chainb (PF.chainType_ r) = true ->
  PR.keeps_lists w (PF.SetAllowedList_uids uids (PF.trust_rule isAllowed) r w).2.
Proof.
  intros Hc. unfold PF.SetAllowedList_uids. cbn [snd]. chain_call.
  - destruct isAllowed; [by left|by right].
  - unfold allow_chainb, Iptables.CHAIN_OHFW_DOZABLE, Iptables.CHAIN_OHFW_POWERSAVING, Iptables.CHAIN_OHFW_ALLOWED_LIST_BOX in *. cbn. lia.
Qed.

(** The rules exist, for their chains, without duplicates. *)
Definition created f : Prop := exists ri rs rd,
  PF.deviceIdleFirewallRule_ f = Some ri /\ PF.powerSaveFirewallRule_ f = Some rs /\ PF.idleDenyFirewallRule_ f = Some rd /\
  PF.chainType_ ri = PF.FIREWALL_CHAIN_DEVICE_IDLE /\ PF.chainType_ rs = PF.FIREWALL_CHAIN_POWER_SAVE /\
  PF.chainType_ rd = PF.FIREWALL_CHAIN_IDLE_DENY /\
  NoDup (PF.allowedList_ ri) /\ NoDup (PF.allowedList_ rs) /\ NoDup (PF.deniedList_ rd).

Lemma firewall_inv_created D f w : PF.firewall_inv D f w -> created f.
Proof.
  intros (v & _ & (ri & Ei & Ci & Ni & _) & (rs & Es & Cs & Ns & _) & (rd & Ed & Cd & Nd & _)). exists ri, rs, rd. by split_and!.
Qed.

Lemma SetDeviceIdleTrustlist_lists uids isAllowed f w : created f ->
  PR.keeps_lists w (PF.SetDeviceIdleTrustlist uids isAllowed f w).1.2.
Proof.
  intros (r & _ & _ & Er & _ & _ & Ec & _). unfold PF.SetDeviceIdleTrustlist. rewrite Er. destruct (_ <? length uids)%nat; [done|].
  destruct (isAllowed && _); [done|]. etransitivity; [apply WriteFirewallRules_lists|].
  apply (SetAllowedList_uids_lists uids isAllowed r). by rewrite Ec.
Qed.

Lemma SetPowerSaveTrustlist_lists uids isAllowed f w : created f ->
  PR.keeps_lists w (PF.SetPowerSaveTrustlist uids isAllowed f w).1.2.
Proof.
  intros (_ & r & _ & _ & Er & _ & _ & Ec & _). unfold PF.SetPowerSaveTrustlist. rewrite Er. destruct (_ <? length uids)%nat; [done|].
  destruct (isAllowed && _); [done|]. etransitivity; [apply WriteFirewallRules_lists|].
  apply (SetAllowedList_uids_lists uids isAllowed r). by rewrite Ec.
Qed.

Lemma EnableFirewall_lists e r w : allow_chainb (PF.chainType_ r) || deny_chainb (PF.chainType_ r) = true ->
  PR.keeps_lists w (PF.EnableFirewall e r w).
Proof. intros Hc. unfold PF.EnableFirewall. chain_call. Qed.

Lemma SetAllowedList_lists r w : allow_chainb (PF.chainType_ r) = true -> NoDup (PF.allowedList_ r) ->
  PR.keeps_lists w (PF.SetAllowedList r w).
Proof. intros Hc Hn. unfold PF.SetAllowedList. chain_call. Qed.

Lemma UpdateDeviceIdlePolicy_lists e f w : created f -> PR.keeps_lists w (PF.UpdateDeviceIdlePolicy e f w).1.2.
Proof.
  intros (r & _ & _ & Er & _ & _ & Ec & _ & _ & Hn & _). unfold PF.UpdateDeviceIdlePolicy. rewrite Er. case_bool_decide; [done|]. cbn.
  etransitivity; [|apply EnableFirewall_lists; by rewrite Ec]. destruct e; [|done]. apply SetAllowedList_lists; [by rewrite Ec|done].
Qed.

Lemma UpdatePowerSavePolicy_lists e f w : e = true \/ PF.fw_powerSaveMode_ f = false -> created f ->
  PR.keeps_lists w (PF.UpdatePowerSavePolicy e f w).1.2.
Proof.
  intros Hon (_ & r & _ & _ & Er & _ & _ & Ec & _ & _ & Hn & _). unfold PF.UpdatePowerSavePolicy. rewrite Er. case_bool_decide; [done|]. cbn.
  etransitivity; [|apply EnableFirewall_lists; by rewrite Ec]. destruct e; [|destruct Hon; congruence].
  apply SetAllowedList_lists; [by rewrite Ec|done].
Qed.

Lemma UpdateIdleDenyPolicy_lists e f w : created f -> PR.keeps_lists w (PF.UpdateIdleDenyPolicy e f w).1.2.
Proof.
  intros (_ & _ & r & _ & _ & Er & _ & _ & Ec & _). unfold PF.UpdateIdleDenyPolicy. rewrite Er. case_bool_decide; [done|]. cbn.
  apply EnableFirewall_lists. by rewrite Ec.
Qed.

Lemma SetUidsDeniedListChain_lists uids isAdd f w : created f ->
  PR.keeps_lists w (PF.SetUidsDeniedListChain uids isAdd f w).1.2.
Proof.
  intros (_ & _ & r & _ & _ & Er & _ & _ & Ec & _ & _ & Hn). unfold PF.SetUidsDeniedListChain. rewrite Er. case_match; [done|]. cbn.
  unfold PF.SetDeniedList. cbn. rewrite Ec. assert (Hl := PF.deny_fold_NoDup (if isAdd then PF.FIREWALL_RULE_DENY else PF.FIREWALL_RULE_ALLOW) uids _ Hn).
  chain_call.
Qed.

Lemma ClearAllowedList_lists r w : allow_chainb (PF.chainType_ r) = true -> PR.keeps_lists w (PF.ClearAllowedList r w).2.
Proof. intros Hc. unfold PF.ClearAllowedList. cbn. assert (Hn : NoDup (@nil Z)) by constructor. chain_call. Qed.

Lemma ClearDeniedList_lists r w : PR.keeps_lists w (PF.ClearDeniedList r w).2.
Proof.
  unfold PF.ClearDeniedList. cbn. assert (Hn : NoDup (@nil Z)) by constructor.
  destruct (decide (PF.chainType_ r = PF.FIREWALL_CHAIN_IDLE_DENY)) as [->|Hne]; chain_call.
Qed.

Lemma SetDeviceIdleTrustlist_created uids b f w : created f -> created (PF.SetDeviceIdleTrustlist uids b f w).1.1.2.
Proof.
  intros Hc. unfold PF.SetDeviceIdleTrustlist. repeat case_match; try done; simplify_eq.
  destruct Hc as (ri & rs & rd & Ei & Es & Ed & Ci & Cs & Cd & Ni & Ns & Nd). unfold PF.SetAllowedList_uids in *. simplify_eq.
  eexists _, rs, rd. split_and!; try done. cbn. by apply PF.trust_fold_set.
Qed.

Lemma UpdateDeviceIdlePolicy_created e f w : created f -> created (PF.UpdateDeviceIdlePolicy e f w).1.1.2.
Proof. unfold PF.UpdateDeviceIdlePolicy. by repeat case_match. Qed.

Lemma UpdateDeviceIdlePolicy_saving e f w : PF.fw_powerSaveMode_ (PF.UpdateDeviceIdlePolicy e f w).1.1.2 = PF.fw_powerSaveMode_ f.
Proof. unfold PF.UpdateDeviceIdlePolicy. by repeat case_match. Qed.

Lemma UpdatePowerSavePolicy_created e f w : created f -> created (PF.UpdatePowerSavePolicy e f w).1.1.2.
Proof. unfold PF.UpdatePowerSavePolicy. by repeat case_match. Qed.

Lemma ResetPolicies_lists f w : PF.fw_powerSaveMode_ f = false -> created f -> PR.keeps_lists w (PF.ResetPolicies f w).1.2.
Proof.
  intros Hm (ri & rs & rd & Ei & Es & Ed & Ci & Cs & Cd & Ni & Ns & Nd). unfold PF.ResetPolicies.
  rewrite Ei. cbn [PF.ClearAllowedList PF.ClearDeniedList PF.powerSaveFirewallRule_ PF.set_idleRule]. rewrite Es.
  cbn [PF.ClearAllowedList PF.ClearDeniedList PF.idleDenyFirewallRule_ PF.set_saveRule PF.set_idleRule]. rewrite Ed. cbn [PF.ClearDeniedList].
  match goal with |- context [PF.UpdateDeviceIdlePolicy false ?f0 ?w0] => set (f1 := f0); set (w1 := w0) end.
  assert (H1 : PR.keeps_lists w w1).
  { unfold w1. etransitivity; [|apply WriteFirewallRules_lists]. etransitivity; [|apply WriteFirewallRules_lists].
    etransitivity; [|apply (ClearDeniedList_lists rd)]. etransitivity; [|apply (ClearDeniedList_lists (PF.set_allowedList_ [] rs))].
    etransitivity; [|apply (ClearAllowedList_lists rs); by rewrite Cs].
    etransitivity; [|apply (ClearDeniedList_lists (PF.set_allowedList_ [] ri))]. apply (ClearAllowedList_lists ri). by rewrite Ci. }
  assert (C1 : created f1).
  { eexists _, _, _. split_and!; try done; cbn; try done; constructor. }
  assert (M1 : PF.fw_powerSaveMode_ f1 = false) by done. clearbody f1 w1. clear -H1 C1 M1. rewrite H1. clear H1.
  pose proof (UpdateDeviceIdlePolicy_lists false f1 w1 C1) as H2. pose proof (UpdateDeviceIdlePolicy_created false f1 w1 C1) as C2.
  pose proof (UpdateDeviceIdlePolicy_saving false f1 w1) as M2.
  destruct (PF.UpdateDeviceIdlePolicy false f1 w1) as [[[c2 f2] w2] e2]. cbn [fst snd] in *. rewrite M1 in M2. rewrite H2. clear H2.
  pose proof (UpdatePowerSavePolicy_lists false f2 w2 (or_intror M2) C2) as H3. pose proof (UpdatePowerSavePolicy_created false f2 w2 C2) as C3.
  destruct (PF.UpdatePowerSavePolicy false f2 w2) as [[[c3 f3] w3] e3]. cbn [fst snd] in *. rewrite H3. clear H3.
  pose proof (UpdateIdleDenyPolicy_lists false f3 w3 C3) as H4. by destruct (PF.UpdateIdleDenyPolicy false f3 w3) as [[[c4 f4] w4] e4].
Qed.

(** What the firewalls do leaves the lists, the data saver and the stored policies as they are. *)
Lemma firewall_keeps_lists c f w f' w' es : PF.stays_saving c f -> created f -> PF.firewall_call c f w = Some (f', w', es) ->
  PR.keeps_lists w w'.
Proof.
  intros Hs Hc E. destruct c as [uids b|uids b|b|b|b|uids b| |eventId e]; cbn [PF.firewall_call] in E; simplify_eq.
  - by apply SetDeviceIdleTrustlist_lists.
  - by apply SetPowerSaveTrustlist_lists.
  - by apply UpdateDeviceIdlePolicy_lists.
  - by apply UpdatePowerSavePolicy_lists.
  - by apply UpdateIdleDenyPolicy_lists.
  - by apply SetUidsDeniedListChain_lists.
  - pose proof (ResetPolicies_lists f w Hs Hc) as Hr. by rewrite E in Hr.
  - unfold PF.HandleEvent, PF.DeleteUid in E. cbn in Hs. destruct (eventId =? PR.MSG_UID_REMOVED).
    + pose proof (SetDeviceIdleTrustlist_lists [PR.deletedUid e] false f w Hc) as H1.
      pose proof (SetDeviceIdleTrustlist_created [PR.deletedUid e] false f w Hc) as C1.
      destruct (PF.SetDeviceIdleTrustlist _ _ _ _) as [[[? f1] w1] ?]. cbn [fst snd] in *. rewrite H1.
      pose proof (SetPowerSaveTrustlist_lists [PR.deletedUid e] false f1 w1 C1) as H2.
      destruct (PF.SetPowerSaveTrustlist _ _ _ _) as [[[? f2] w2] ?]. cbn [fst snd] in *. rewrite H2.
      destruct (PF.deviceIdleFirewallRule_ f2), (PF.powerSaveFirewallRule_ f2); simplify_eq/=. done.
    + destruct (Z.eqb_spec eventId PR.MSG_POWER_SAVE_MODE_CHANGED) as [Ee|_]; [|by simplify_eq].
      pose proof (UpdatePowerSavePolicy_lists (PR.powerSaveMode e) f w (Hs Ee) Hc) as H1.
      destruct (PF.UpdatePowerSavePolicy _ _ _) as [[[? f1] w1] ?]. by simplify_eq.
Qed.

Lemma firewall_init_keeps_lists w : PR.keeps_lists w (PF.Init PF.new_NetPolicyFirewall w).2.
Proof.
  unfold PF.Init. cbn -[PF.SetAllowedList_set]. unfold PF.SetAllowedList_set.
  etransitivity; [|apply SetAllowedList_lists; [done|apply PF.push_fold_set; constructor]].
  etransitivity; [|apply SetAllowedList_lists; [done|apply PF.push_fold_set; constructor]].
  split_and!; try done. intros v Hr. by exists v.
Qed.

End Frames.

(** ** The system *)

Record System (W : Type) := mkSystem {
  rule_core : PR.NetPolicyRule;
  firewall_core : PF.NetPolicyFirewall;
  world : PR.World W;
  queue : list PR.PolicyEvent
}.
Arguments mkSystem {W}.
Arguments rule_core {W}.
Arguments firewall_core {W}.
Arguments world {W}.
Arguments queue {W}.

Section System.
Context {W : Type} `{PolicyNetsysLaws W}.
Implicit Types (S : System W).

(** [NetPolicyCore::HandleEvent]: the quotas ignore events; the event goes to the
    firewalls, then to the rules, except to its sender. *)
Definition HandleEvent (e : PR.PolicyEvent) S : option (System W) :=
  '(f, w, es) ← (if bool_decide (PR.ev_sender e = Some PR.CoreFirewall) then Some (firewall_core S, world S, [])
                 else PF.HandleEvent (PR.ev_id e) e (firewall_core S) (world S));
  let '(s, w) := if bool_decide (PR.ev_sender e = Some PR.CoreRule) then (rule_core S, w)
                 else PR.HandleEvent (PR.ev_id e) e (rule_core S) w in
  Some (mkSystem s f w (queue S ++ es)).

(** The cores are created in this order. *)
Definition start_system (w : PR.World W) : System W :=
  let '(f, w) := PF.Init PF.new_NetPolicyFirewall w in
  let '(s, w) := PR.Init PR.new_NetPolicyRule w in
  mkSystem s f w [].

(** Events of the operating system have no sender; power save mode is not left. *)
Definition event_ok (e : PR.PolicyEvent) : Prop :=
  in_width 32 (PR.deletedUid e) /\
  (PR.ev_sender e = Some PR.CoreFirewall \/
   PR.ev_sender e = None /\ (PR.ev_id e = PR.MSG_POWER_SAVE_MODE_CHANGED -> PR.powerSaveMode e = true)).

(** The service starts with any file it wrote and a native service whose lists are empty and whose chains are off.  The
    indices are the data saver of the native service and the chain of the denied applications, as the calls have made
    them (see [PolicyRule.told] and [PolicyFirewall.denied_next]). *)
Inductive system_run : bool -> gset Z -> System W -> Prop :=
| system_start w v m allow : PR.file_agrees allow m w ->
    realises (PR.netsys w) v -> v_denied v = ∅ -> v_allowed v = ∅ ->
    (forall c, allow_chainb c || deny_chainb c = true -> cv_enabled (v_chain v c) = false) ->
    cv_uids (v_chain v PF.FIREWALL_CHAIN_IDLE_DENY) = ∅ -> system_run (v_saver v) ∅ (start_system w)
| system_rule b D s f w q c r s' w' : system_run b D (mkSystem s f w q) -> PR.call_ok c -> PR.call c s w = (r, s', w') ->
    system_run (PR.told b s s') D (mkSystem s' f w' q)
| system_firewall b D s f w q c f' w' es : system_run b D (mkSystem s f w q) -> PF.stays_saving c f ->
    PF.firewall_call c f w = Some (f', w', es) -> system_run b (PF.denied_next D c f f') (mkSystem s f' w' (q ++ es))
| system_quota b D s f w q iface bytes : system_run b D (mkSystem s f w q) ->
    system_run b D (mkSystem s f (PR.on_netsys (BandwidthSetIfaceQuota iface bytes) w) q)
| system_post b D s f w q e : system_run b D (mkSystem s f w q) -> PR.ev_sender e = None -> event_ok e ->
    system_run b D (mkSystem s f w (q ++ [e]))
| system_deliver b D s f w q e S' : system_run b D (mkSystem s f w (e :: q)) -> HandleEvent e (mkSystem s f w q) = Some S' ->
    system_run (PR.told b s (rule_core S')) D S'.

Definition system_reach S : Prop := exists saver denied, system_run saver denied S.

Lemma quota_keeps_chains iface bytes (w : PR.World W) : PF.keeps_chains w (PR.on_netsys (BandwidthSetIfaceQuota iface bytes) w).
Proof. apply keeps_chains_netsys. intros v Hr. exists v. split; [by apply r_quota|done]. Qed.

Lemma own_event_ok i b1 l1 b2 l2 : event_ok (PR.mkEvent i (Some PR.CoreFirewall) b1 l1 b2 l2 0 0).
Proof. split; [by vm_compute|by left]. Qed.

Lemma trust_posts uids b f (w : PR.World W) :
  Forall event_ok (PF.SetDeviceIdleTrustlist uids b f w).2 /\ Forall event_ok (PF.SetPowerSaveTrustlist uids b f w).2.
Proof.
  unfold PF.SetDeviceIdleTrustlist, PF.SetPowerSaveTrustlist.
  split; repeat case_match; cbn; repeat constructor; try apply own_event_ok; by vm_compute.
Qed.

Lemma mode_posts b f (w : PR.World W) : Forall event_ok (PF.UpdateDeviceIdlePolicy b f w).2 /\
  Forall event_ok (PF.UpdatePowerSavePolicy b f w).2 /\ Forall event_ok (PF.UpdateIdleDenyPolicy b f w).2.
Proof.
  unfold PF.UpdateDeviceIdlePolicy, PF.UpdatePowerSavePolicy, PF.UpdateIdleDenyPolicy.
  split_and!; repeat case_match; cbn; repeat constructor; try apply own_event_ok; by vm_compute.
Qed.

Lemma reset_posts f (w : PR.World W) : Forall event_ok (PF.ResetPolicies f w).2.
Proof.
  unfold PF.ResetPolicies, PF.ClearAllowedList, PF.ClearDeniedList. repeat (case_match; [|constructor]).
  match goal with |- context [PF.UpdateDeviceIdlePolicy false ?g ?v] =>
    destruct (mode_posts false g v) as (P1 & _ & _); destruct (PF.UpdateDeviceIdlePolicy false g v) as [[[? fa] wa] ea] end.
  destruct (mode_posts false fa wa) as (_ & P2 & _). destruct (PF.UpdatePowerSavePolicy false fa wa) as [[[? fb] wb] eb].
  destruct (mode_posts false fb wb) as (_ & _ & P3). destruct (PF.UpdateIdleDenyPolicy false fb wb) as [[[? fc] wc] ec].
  cbn [snd] in *. by repeat apply Forall_app_2.
Qed.

Lemma posted_ok c f (w : PR.World W) f' w' es : PF.firewall_call c f w = Some (f', w', es) -> Forall event_ok es.
Proof.
  intros E. destruct c as [uids b|uids b|b|b|b|uids b| |eventId e]; cbn [PF.firewall_call] in E; simplify_eq.
  - apply trust_posts.
  - apply trust_posts.
  - apply mode_posts.
  - apply mode_posts.
  - apply mode_posts.
  - unfold PF.SetUidsDeniedListChain. repeat case_match; constructor.
  - pose proof (reset_posts f w) as Hr. by rewrite E in Hr.
  - unfold PF.HandleEvent, PF.DeleteUid in E. destruct (eventId =? PR.MSG_UID_REMOVED).
    + destruct (trust_posts [PR.deletedUid e] false f w) as [H1 _]. destruct (PF.SetDeviceIdleTrustlist _ _ _ _) as [[[? f1] w1] e1].
      destruct (trust_posts [PR.deletedUid e] false f1 w1) as [_ H2]. destruct (PF.SetPowerSaveTrustlist _ _ _ _) as [[[? f2] w2] e2].
      cbn [snd] in *. destruct (PF.deviceIdleFirewallRule_ f2), (PF.powerSaveFirewallRule_ f2); simplify_eq/=. by apply Forall_app_2.
    + destruct (mode_posts (PR.powerSaveMode e) f w) as (_ & H1 & _). destruct (PF.UpdatePowerSavePolicy _ _ _) as [[[? f1] w1] e1].
      destruct (eventId =? PR.MSG_POWER_SAVE_MODE_CHANGED); simplify_eq; [done|constructor].
Qed.

Lemma event_stays e f : event_ok e -> PR.ev_sender e <> Some PR.CoreFirewall -> PF.stays_saving (PF.CallFirewallEvent (PR.ev_id e) e) f.
Proof. intros [_ [Hs|[_ Hs]]] Hn; [done|]. intros E. left. auto. Qed.

(** Delivering an event is a step of the firewalls followed by one of the rules. *)
Lemma deliver_parts b D e s f w q S' : PR.reach b s w -> PF.firewall_reach D f w -> Forall event_ok q -> event_ok e ->
  HandleEvent e (mkSystem s f w q) = Some S' ->
  PR.reach (PR.told b s (rule_core S')) (rule_core S') (world S') /\ PF.firewall_reach D (firewall_core S') (world S') /\ Forall event_ok (queue S').
Proof.
  intros Hr Hf Hq He. unfold HandleEvent. cbn [firewall_core world rule_core queue].
  assert (Hfw : forall f1 w1 es, (if bool_decide (PR.ev_sender e = Some PR.CoreFirewall) then Some (f, w, [])
      else PF.HandleEvent (PR.ev_id e) e f w) = Some (f1, w1, es) -> PR.reach b s w1 /\ PF.firewall_reach D f1 w1 /\ Forall event_ok es).
  { intros f1 w1 es. case_bool_decide as Hn; [by intros [= <- <- <-]|]. intros E. pose proof (event_stays e f He Hn) as Hs.
    split_and!; [|by eapply (PF.firewall_step D (PF.CallFirewallEvent (PR.ev_id e) e))|by eapply (posted_ok (PF.CallFirewallEvent (PR.ev_id e) e))].
    eapply PR.reach_env; [exact Hr|]. eapply (firewall_keeps_lists (PF.CallFirewallEvent (PR.ev_id e) e)); [exact Hs| |exact E].
    by eapply firewall_inv_created, PF.firewall_reach_inv. }
  destruct (if bool_decide (PR.ev_sender e = Some PR.CoreFirewall) then _ else _) as [[[f1 w1] es]|]; [|done].
  destruct (Hfw f1 w1 es eq_refl) as (Hr1 & Hf1 & Hes). cbn.
  case_bool_decide as Hn.
  - intros [= <-]. cbn. rewrite PR.told_same by done. split_and!; [done..|by apply Forall_app_2].
  - pose proof (PR.reach_call b (PR.CallEvent (PR.ev_id e) e) s w1 Hr1 (proj1 He)) as H1.
    pose proof (rule_keeps_chains (PR.CallEvent (PR.ev_id e) e) s w1) as H2. cbn [PR.call] in *.
    destruct (PR.HandleEvent (PR.ev_id e) e s w1) as [s2 w2]. intros [= <-]. cbn in *.
    split_and!; [done|by eapply PF.firewall_env|by apply Forall_app_2].
Qed.

Lemma system_run_parts b D S : system_run b D S ->
  PR.reach b (rule_core S) (world S) /\ PF.firewall_reach D (firewall_core S) (world S) /\ Forall event_ok (queue S).
Proof.
  induction 1 as [w v m allow Hf Hr Ed Ea Hoff Hden|b D s f w q c r s' w' _ (IHr & IHf & IHq) Hc E|b D s f w q c f' w' es _ (IHr & IHf & IHq) Hs E
    |b D s f w q iface bytes _ (IHr & IHf & IHq)|b D s f w q e _ (IHr & IHf & IHq) _ He|b D s f w q e S' _ (IHr & IHf & IHq) E]; cbn [rule_core firewall_core world queue] in *.
  - unfold start_system. pose proof (firewall_init_keeps_lists w) as (Hk & Hu & Hb).
    pose proof (PF.firewall_start w v Hr Hoff Hden) as H1. destruct (PF.Init PF.new_NetPolicyFirewall w) as [f w1]. cbn [fst snd] in *.
    pose proof (rule_init_keeps_chains PR.new_NetPolicyRule w1) as Hc.
    destruct (Hk v Hr) as (v1 & Hr1 & Ed1 & Ea1 & Es1). destruct Hf as [Hf Hbg]. rewrite <- Es1.
    assert (H2 : PR.reach (v_saver v1) (PR.Init PR.new_NetPolicyRule w1).1 (PR.Init PR.new_NetPolicyRule w1).2).
    { apply (PR.reach_start w1 v1 m allow); [split|done|congruence..]; [unfold file_maps in *; by rewrite Hu|].
      rewrite Hb; [done|]. rewrite Hbg. by destruct allow. }
    destruct (PR.Init PR.new_NetPolicyRule w1) as [s w2]. cbn in *. split_and!; [done| |constructor]. by eapply PF.firewall_env.
  - pose proof (PR.reach_call b c s w IHr Hc) as H1. pose proof (rule_keeps_chains c s w) as H2. rewrite E in H1, H2.
    split_and!; [done| |done]. by eapply PF.firewall_env.
  - split_and!; [|by eapply PF.firewall_step|apply Forall_app_2; [done|by eapply posted_ok]].
    eapply PR.reach_env; [exact IHr|]. eapply firewall_keeps_lists; [exact Hs| |exact E].
    by eapply firewall_inv_created, PF.firewall_reach_inv.
  - split_and!; [|eapply PF.firewall_env; [exact IHf|apply quota_keeps_chains]|done]. eapply PR.reach_env; [exact IHr|apply PR.quota_keeps_lists].
  - split_and!; [done..|]. apply Forall_app_2; [done|by constructor].
  - apply Forall_cons in IHq as [He IHq]. by eapply deliver_parts.
Qed.

(** ** Delivering the events *)

Lemma HandleEvent_total s f w q e : system_reach (mkSystem s f w (e :: q)) -> is_Some (HandleEvent e (mkSystem s f w q)).
Proof.
  intros (b & D & (_ & Hf & Hq)%system_run_parts). cbn in *. apply Forall_cons in Hq as [He _]. unfold HandleEvent. cbn [firewall_core world rule_core queue].
  destruct (decide (PR.ev_sender e = Some PR.CoreFirewall)) as [Hn|Hn].
  { rewrite (bool_decide_eq_true_2 (PR.ev_sender e = Some PR.CoreFirewall)) by done. cbn. destruct (if bool_decide _ then _ else _). by eexists. }
  rewrite (bool_decide_eq_false_2 (PR.ev_sender e = Some PR.CoreFirewall)) by done.
  destruct (PF.firewall_call_inv D (PF.CallFirewallEvent (PR.ev_id e) e) f w (event_stays e f He Hn) (proj1 (PF.firewall_reach_inv _ _ _ Hf)))
    as (f' & w' & es & E & _). cbn [PF.firewall_call] in E. rewrite E. cbn. destruct (if bool_decide _ then _ else _). by eexists.
Qed.

Definition deliver S : option (System W) :=
  match queue S with
  | [] => Some S
  | e :: q => HandleEvent e (mkSystem (rule_core S) (firewall_core S) (world S) q)
  end.

Fixpoint drain (n : nat) S : option (System W) :=
  match n with O => Some S | Datatypes.S n => S' ← deliver S; drain n S' end.

(** An event of the operating system makes the firewalls post two events at most,
    which make nobody post. *)
Definition weight (e : PR.PolicyEvent) : nat := if bool_decide (PR.ev_sender e = Some PR.CoreFirewall) then 1 else 3.
Definition total_weight (q : list PR.PolicyEvent) : nat := sum_list (map weight q).

Lemma total_weight_app q1 q2 : total_weight (q1 ++ q2) = (total_weight q1 + total_weight q2)%nat.
Proof. unfold total_weight. induction q1 as [|e q1 IH]; cbn; [done|]. rewrite IH. lia. Qed.

Lemma total_weight_bound q : (total_weight q <= 3 * length q)%nat.
Proof.
  induction q as [|e q IH]; [done|]. change (total_weight (e :: q)) with (weight e + total_weight q)%nat. unfold weight.
  cbn [length]. case_bool_decide; lia.
Qed.

Lemma own_weight i b1 l1 b2 l2 : total_weight [PR.mkEvent i (Some PR.CoreFirewall) b1 l1 b2 l2 0 0] = 1%nat.
Proof. done. Qed.

Ltac small := first [ apply Nat.le_0_l | unfold PF.idle_list_event, PF.save_list_event, PF.save_mode_event; rewrite own_weight; lia ].

Lemma HandleEvent_posts eventId e f (w : PR.World W) f' w' es : PF.HandleEvent eventId e f w = Some (f', w', es) -> (total_weight es <= 2)%nat.
Proof.
  assert (H1 : forall uids b f (w : PR.World W), (total_weight (PF.SetDeviceIdleTrustlist uids b f w).2 <= 1)%nat).
  { intros. unfold PF.SetDeviceIdleTrustlist. repeat case_match; cbn [snd]; small. }
  assert (H2 : forall uids b f (w : PR.World W), (total_weight (PF.SetPowerSaveTrustlist uids b f w).2 <= 1)%nat).
  { intros. unfold PF.SetPowerSaveTrustlist. repeat case_match; cbn [snd]; small. }
  unfold PF.HandleEvent, PF.DeleteUid. destruct (eventId =? PR.MSG_UID_REMOVED).
  - specialize (H1 [PR.deletedUid e] false f w). destruct (PF.SetDeviceIdleTrustlist _ _ _ _) as [[[? f1] w1] e1].
    specialize (H2 [PR.deletedUid e] false f1 w1). destruct (PF.SetPowerSaveTrustlist _ _ _ _) as [[[? f2] w2] e2]. cbn [snd] in *.
    destruct (PF.deviceIdleFirewallRule_ f2), (PF.powerSaveFirewallRule_ f2); cbn; intros; simplify_eq. rewrite total_weight_app. lia.
  - unfold PF.UpdatePowerSavePolicy. repeat case_match; intros; simplify_eq; small.
Qed.

Lemma HandleEvent_weight e s f w q S' : HandleEvent e (mkSystem s f w q) = Some S' ->
  (total_weight (queue S') < total_weight (e :: q))%nat.
Proof.
  unfold HandleEvent. cbn [firewall_core world rule_core queue]. change (total_weight (e :: q)) with (weight e + total_weight q)%nat. unfold weight.
  destruct (decide (PR.ev_sender e = Some PR.CoreFirewall)) as [Hn|Hn];
    [rewrite !(bool_decide_eq_true_2 (PR.ev_sender e = Some PR.CoreFirewall)) by done
    |rewrite !(bool_decide_eq_false_2 (PR.ev_sender e = Some PR.CoreFirewall)) by done].
  - cbn. destruct (if bool_decide _ then _ else _) as [s2 w2]. intros [= <-]. cbn [queue]. rewrite app_nil_r. lia.
  - destruct (PF.HandleEvent (PR.ev_id e) e f w) as [[[f1 w1] es]|] eqn:E; [|done]. apply HandleEvent_posts in E. cbn.
    destruct (if bool_decide _ then _ else _) as [s2 w2]. intros [= <-]. cbn [queue]. rewrite total_weight_app. lia.
Qed.

Lemma drain_weight n : forall S, system_reach S -> (total_weight (queue S) <= n)%nat ->
  exists S', drain n S = Some S' /\ queue S' = [] /\ system_reach S'.
Proof.
  induction n as [|n IH]; intros [s f w [|e q]] Hr Hw.
  - by eexists.
  - exfalso. unfold total_weight, weight in Hw. cbn in Hw. case_bool_decide; lia.
  - apply (IH _ Hr). cbn. lia.
  - destruct (HandleEvent_total s f w q e Hr) as [S' E]. cbn. unfold deliver. cbn. rewrite E. cbn.
    apply IH; [destruct Hr as (b & D & Hr); do 2 eexists; by eapply system_deliver|].
    apply HandleEvent_weight in E. cbn [queue] in Hw. lia.
Qed.

(** C33: Events are handled and come to an end: in every state the service can reach
    no event uses a firewall that does not exist, and delivering the events,
    with those they make the firewalls post, empties the queue in a number of
    steps that is three times its length at most. *)
Theorem events_drain S : system_reach S ->
  exists n S', (n <= 3 * length (queue S))%nat /\ drain n S = Some S' /\ queue S' = [] /\ system_reach S'.
Proof.
  intros Hr. destruct (drain_weight (total_weight (queue S)) S Hr (Nat.le_refl _)) as (S' & E). exists (total_weight (queue S)), S'.
  split; [apply total_weight_bound|done].
Qed.

End System.

(** ** The packets *)

Section Enforced.
Context {T : Type} `{Iptables.IptablesLaws T} {P : Type} `{Iptables.PacketsLaws P}.

(** C8: What the policy service decides is what happens to the packets of an
    application (a user above 9999), in every run of the rules, the firewalls
    and the event queue over the native service and the packet filter, from any
    file the service wrote, until power save mode is left (which clears all
    chains).  The chains of the firewall drop a packet, other than loopback,
    resets and neighbour discovery, exactly when the device is idle or saves
    power and the trust list of that mode does not name the application, or the
    denied mode is on and the chain of the denied applications names it: the
    list last told to it, or nothing when the mode was left or the policies were
    reset since.  On a metered interface whose quota is not used up the chains of
    the bandwidth manager reject the packet exactly when [IsUidNetAllowed] denies
    the application metered traffic, for every application that is under no rule
    about all traffic, while the data saver is in step with the background
    policy: it is from the first change of the background policy on, and from the
    start unless the stored policy is "reject", which starting does not tell it. *)
Theorem system_enforced saver denied (S : System (Native T)) (p : P) d uid six : system_run saver denied S ->
  Iptables.owner p = Some uid -> 9999 < uid -> FirewallManager.plain six (firewallManager_ (PR.netsys (world S))) p ->
  Iptables.walk (3 + d) (Iptables.rules (FirewallManager.family six (iptables (PR.netsys (world S))))) p "ohfw_OUTPUT" =
    (if PF.firewall_drops (firewall_core S) denied uid then Iptables.Dropped else Iptables.Passed) /\
  (saver = negb (PR.backgroundAllow_ (rule_core S)) ->
   forall bytes, BandwidthManager.ifaceQuotaBytes_ (bandwidthManager_ (PR.netsys (world S))) !! Iptables.out_iface p = Some bytes ->
    Iptables.matches p (Iptables.OverQuota2 bytes (Iptables.out_iface p)) = false ->
    (forall pr, PR.uidPolicyRules_ (rule_core S) !! uid = Some pr -> PR.rule_ pr <> PR.NET_RULE_ALLOW_ALL /\ PR.rule_ pr <> PR.NET_RULE_REJECT_ALL) ->
    Iptables.walk (4 + d) (Iptables.rules (Iptables.ipv4_filter (iptables (PR.netsys (world S))))) p "ohbw_OUTPUT" =
    if (PR.IsUidNetAllowed uid true (rule_core S)).2 then Iptables.Passed else Iptables.Rejected).
Proof.
  intros (Hr & Hf & _)%system_run_parts Eu Happ Hp. split; [by apply PF.trust_enforced|].
  intros Hin bytes Hq Ho Hall. by eapply PR.metered_enforced.
Qed.

End Enforced.

(** ** An example: application 20010 may not use metered networks and is trusted while the device is idle; wlan0 is metered *)

Definition run_rule (c : PR.PolicyCall) (S : System (Native Iptables.Table)) : System (Native Iptables.Table) :=
  let '(_, s, w) := PR.call c (rule_core S) (world S) in mkSystem s (firewall_core S) w (queue S).

Definition run_firewall (c : PF.FirewallCall) (S : System (Native Iptables.Table)) : System (Native Iptables.Table) :=
  match PF.firewall_call c (firewall_core S) (world S) with
  | Some (f, w, es) => mkSystem (rule_core S) f w (queue S ++ es)
  | None => S
  end.

Lemma run_rule_run b D c S : system_run b D S -> PR.call_ok c -> system_run (PR.told b (rule_core S) (rule_core (run_rule c S))) D (run_rule c S).
Proof. destruct S as [s f w q]. intros Hr Hc. unfold run_rule. cbn. destruct (PR.call c s w) as [[r s'] w'] eqn:E. by eapply system_rule. Qed.

Lemma run_firewall_run b D c S : system_run b D S -> PF.stays_saving c (firewall_core S) ->
  system_run b (PF.denied_next D c (firewall_core S) (firewall_core (run_firewall c S))) (run_firewall c S).
Proof.
  intros Hr Hc. pose proof (system_run_parts _ _ _ Hr) as (_ & Hf & _). destruct S as [s f w q]. unfold run_firewall. cbn in *.
  destruct (PF.firewall_call_inv D c f w Hc (proj1 (PF.firewall_reach_inv _ _ _ Hf))) as (f' & w' & es & E & _). rewrite E. by eapply system_firewall.
Qed.

Definition quota_system : System (Native Iptables.Table) :=
  let S := run_rule (PR.CallSetPolicy 20010 NET_POLICY_REJECT_METERED_BACKGROUND) (start_system PR.boot_world) in
  mkSystem (rule_core S) (firewall_core S) (PR.on_netsys (BandwidthSetIfaceQuota "wlan0" 1000) (world S)) (queue S).

(** The application 20012 is in the denied chain, and the denied mode is on. *)
Definition example_system : System (Native Iptables.Table) :=
  run_firewall (PF.CallDenyMode true) (run_firewall (PF.CallDenyList [20012] true)
    (run_firewall (PF.CallIdleMode true) (run_firewall (PF.CallIdleTrust [20010; 20012] true) quota_system))).

Lemma quota_system_run : system_run false ∅ quota_system.
Proof.
  unfold quota_system. set (S := run_rule _ _). assert (Hs : system_run false ∅ S).
  { assert (E : PR.told false (rule_core (start_system PR.boot_world)) (rule_core S) = false) by (vm_compute; reflexivity).
    rewrite <- E. apply run_rule_run; [|cbn; unfold in_width; lia]. apply (system_start PR.boot_world fresh_view ∅ true); try done.
    - split; [|done]. exists []. split_and!; [done|constructor| |constructor]. intros u p. by rewrite elem_of_nil, lookup_empty.
    - apply booted_realises. split_and!; [done|apply BandwidthManager.boot_bw_fresh|apply FirewallManager.boot_fw_fresh]. }
  destruct S as [s f w q]. by apply system_quota.
Qed.

Lemma example_system_run : system_run false {[20012]} example_system.
Proof.
  unfold example_system. set (S2 := run_firewall (PF.CallIdleMode true) _).
  assert (H2 : system_run false ∅ S2).
  { unfold S2. apply (run_firewall_run false ∅ (PF.CallIdleMode true)); [|done].
    by apply (run_firewall_run false ∅ (PF.CallIdleTrust [20010; 20012] true)); [apply quota_system_run|]. }
  pose proof (run_firewall_run _ _ (PF.CallDenyList [20012] true) S2 H2 I) as H3.
  assert (E3 : PF.denied_next ∅ (PF.CallDenyList [20012] true) (firewall_core S2) (firewall_core (run_firewall (PF.CallDenyList [20012] true) S2)) = {[20012]})
    by (vm_compute; reflexivity). rewrite E3 in H3. set (S3 := run_firewall (PF.CallDenyList [20012] true) S2) in *.
  pose proof (run_firewall_run _ _ (PF.CallDenyMode true) S3 H3 I) as H4.
  assert (E4 : PF.denied_next {[20012]} (PF.CallDenyMode true) (firewall_core S3) (firewall_core (run_firewall (PF.CallDenyMode true) S3)) = {[20012]})
    by (vm_compute; reflexivity). by rewrite E4 in H4.
Qed.

Definition example_packet (uid : Z) : Iptables.OutPacket := Iptables.mkOutPacket (Some uid) "wlan0" false false.

Lemma example_plain six uid : FirewallManager.plain six (firewallManager_ (PR.netsys (world example_system))) (example_packet uid).
Proof. split; [done|]. destruct six; by repeat constructor. Qed.

Lemma example_owner uid : Iptables.owner (example_packet uid) = Some uid.
Proof. done. Qed.

Lemma trust_lists_agree_witness :
  list_to_set (PF.GetDeviceIdleTrustlist (firewall_core example_system)).2 = ({[20010; 20012]} : gset Z) /\
  NoDup (PF.GetDeviceIdleTrustlist (firewall_core example_system)).2.
Proof.
  pose proof (proj1 (proj2 (system_run_parts _ _ _ example_system_run))) as Hf.
  destruct (PF.trust_lists_agree _ _ _ (PF.CallDenyMode true) Hf I) as (_ & Hn & Hl & _). split; [|exact Hn].
  rewrite Hl. vm_compute. reflexivity.
Defined.

Lemma events_drain_witness : length (queue example_system) = 2%nat /\
  exists n S', (n <= 6)%nat /\ drain n example_system = Some S' /\ queue S' = [].
Proof.
  assert (E : length (queue example_system) = 2%nat) by (vm_compute; reflexivity). split; [exact E|].
  destruct (events_drain example_system (ex_intro _ _ (ex_intro _ _ example_system_run))) as (n & S' & Hn & Hd & Hq & _).
  exists n, S'. rewrite E in Hn. exact (conj Hn (conj Hd Hq)).
Defined.

Lemma system_enforced_witness :
  let walks d six uid chain := Iptables.walk d (Iptables.rules (FirewallManager.family six (iptables (PR.netsys (world example_system))))) (example_packet uid) chain in
  walks 3%nat true 20011 "ohfw_OUTPUT" = Iptables.Dropped /\ walks 3%nat false 20012 "ohfw_OUTPUT" = Iptables.Dropped /\
  walks 3%nat true 20010 "ohfw_OUTPUT" = Iptables.Passed /\ walks 4%nat false 20010 "ohbw_OUTPUT" = Iptables.Rejected.
Proof.
  pose proof (fun uid H six => system_enforced false {[20012]} example_system (example_packet uid) 0 uid six example_system_run (example_owner _) H (example_plain _ _)) as E.
  cbv zeta. split_and!.
  - etransitivity; [exact (proj1 (E 20011 ltac:(lia) true))|vm_compute; reflexivity].
  - etransitivity; [exact (proj1 (E 20012 ltac:(lia) false))|vm_compute; reflexivity].
  - etransitivity; [exact (proj1 (E 20010 ltac:(lia) true))|vm_compute; reflexivity].
  - assert (Es : false = negb (PR.backgroundAllow_ (rule_core example_system))) by (vm_compute; reflexivity).
    assert (Er : forall pr, PR.uidPolicyRules_ (rule_core example_system) !! 20010 = Some pr -> PR.rule_ pr <> PR.NET_RULE_ALLOW_ALL /\ PR.rule_ pr <> PR.NET_RULE_REJECT_ALL)
      by (intros pr Ep; vm_compute in Ep; injection Ep as <-; split; discriminate).
    etransitivity; [apply (proj2 (E 20010 ltac:(lia) false) Es 1000); [vm_compute; reflexivity|reflexivity|exact Er]|vm_compute; reflexivity].
Defined.

(** ** A second object of the rules

    [NetPolicyDBClone::OnRestore] and [OnRestoreSingleApp] (net_policy_db_clone.cpp) get at the rules by
    [CreateCore<NetPolicyRule>()], which makes another object, starts it from the file and leaves it among the cores: from
    then on every event goes to both.  The second one keeps the policies of that time.  Here application 20010 may
    not use metered networks when a backup is restored; the policy is then taken back; and the next time
    the application leaves the foreground its packets are rejected again and the policy is back in the file, while
    the service reports that there is none. *)
Definition state_event (foreground : bool) : PR.PolicyEvent :=
  PR.mkEvent (if foreground then PR.MSG_UID_STATE_FOREGROUND else PR.MSG_UID_STATE_BACKGROUND) None false ∅ false ∅ 0 20010.
Definition two_cores (e : PR.PolicyEvent) (x : PR.NetPolicyRule * PR.NetPolicyRule * PR.World (Native Iptables.Table)) :=
  let '(s1, s2, w) := x in
  let '(s1, w) := PR.HandleEvent (PR.ev_id e) e s1 w in
  let '(s2, w) := PR.HandleEvent (PR.ev_id e) e s2 w in (s1, s2, w).
Definition metered_verdict (w : PR.World (Native Iptables.Table)) : Iptables.Verdict :=
  Iptables.walk 4 (Iptables.rules (Iptables.ipv4_filter (iptables (PR.netsys w)))) (Iptables.mkOutPacket (Some 20010) "wlan0" false false) "ohbw_OUTPUT".

Example restored_core_undoes_policy :
  let '(s1, w) := PR.example_state in
  let '(s2, w) := PR.Init PR.new_NetPolicyRule w in
  let '(_, s1, w) := PR.TransPolicyToRule 20010 NET_POLICY_NONE s1 w in
  metered_verdict w = Iptables.Passed /\ ReadUidPolicies (PR.file w) = [] /\
  let '(s1, s2, w) := two_cores (state_event false) (two_cores (state_event true) (s1, s2, w)) in
  metered_verdict w = Iptables.Rejected /\ ReadUidPolicies (PR.file w) = [mkUidPolicy "20010" "2"] /\ PR.GetPolicyByUid 20010 s1 = (0, 0).
Proof. by vm_compute. Qed.

End PolicySystem.
