(* ===== verification/BpfMap.v ===== *)
(** * Hash maps of the kernel
    (services/netmanagernative/bpf/include/bpf_mapper.h, and the map helpers of
    the programs)

    A map of type [BPF_MAP_TYPE_HASH] holds at most [max_entries] entries: an
    update of a key that is not there fails when the map is full.  The programs
    get a pointer to the value of a key and change it in place; the services read
    and write entries by system calls. *)

From S2P Require Import Prelude.

Module BpfMap.

Section BpfMap.
Context {K : Type} `{KC : Countable K} {V : Type}.
Implicit Types (max : nat) (k : K) (v : V) (m : gmap K V).

(** [bpf_map_update_elem] with [BPF_NOEXIST]; the programs ignore its result. *)
Definition update_noexist max k v m : gmap K V :=
  match m !! k with
  | Some _ => m
  | None => if (size m <? max)%nat then <[k := v]> m else m
  end.

(** With [BPF_ANY]: whether it was written. *)
Definition update_any max k v m : bool * gmap K V :=
  if bool_decide (is_Some (m !! k)) || (size m <? max)%nat then (true, <[k := v]> m) else (false, m).

Definition delete_elem k m : bool * gmap K V :=
  match m !! k with Some _ => (true, delete k m) | None => (false, m) end.

(** The value of a key, after the default has been entered when there is none. *)
Definition lookup_or_new max k v m : gmap K V := match m !! k with Some _ => m | None => update_noexist max k v m end.

(** ... and a change of it in place, when there is one. *)
Definition change (k : K) (f : V -> V) m : gmap K V := match m !! k with Some v => <[k := f v]> m | None => m end.

(** ** The methods of [BpfMapper] on a map that exists *)

Definition Write max k v m : Z * gmap K V := let '(ok, m) := update_any max k v m in (if ok then 0 else -1, m).
Definition Read k m (v : V) : Z * V := match m !! k with Some v => (0, v) | None => (-1, v) end.
Definition Delete k m : Z * gmap K V := let '(ok, m) := delete_elem k m in (if ok then 0 else -1, m).

(** The keys in an order of the kernel's. *)
Definition GetAllKeys m : list K := (map_to_list m).*1.

Fixpoint Clear (keys : list K) m : Z * gmap K V :=
  match keys with
  | [] => (0, m)
  | k :: keys => let '(r, m) := Delete k m in if r <? 0 then (-1, m) else Clear keys m
  end.

(** ** Lemmas *)

Lemma update_noexist_lookup max k v m k' : update_noexist max k v m !! k' = m !! k' \/
  k' = k /\ m !! k = None /\ (size m < max)%nat /\ update_noexist max k v m !! k' = Some v.
Proof.
  unfold update_noexist. destruct (m !! k) eqn:E; [by left|]. destruct (Nat.ltb_spec (size m) max) as [Hs|]; [|by left].
  destruct (decide (k' = k)) as [->|]; [|left; by rewrite lookup_insert_ne]. right. by rewrite lookup_insert_eq.
Qed.

Lemma update_noexist_present max k v m x : m !! k = Some x -> update_noexist max k v m = m.
Proof. unfold update_noexist. by intros ->. Qed.

Lemma update_noexist_ne max k v m k' : k' <> k -> update_noexist max k v m !! k' = m !! k'.
Proof. intros Hn. by destruct (update_noexist_lookup max k v m k') as [|[]]. Qed.

Lemma update_noexist_mono max k v m k' x : m !! k' = Some x -> update_noexist max k v m !! k' = Some x.
Proof. intros E. destruct (update_noexist_lookup max k v m k') as [->|(-> & En & _)]; [done|congruence]. Qed.

Lemma update_noexist_size max k v m : (size m <= max)%nat -> (size (update_noexist max k v m) <= max)%nat.
Proof.
  intros Hm. unfold update_noexist. destruct (m !! k) eqn:E; [done|]. destruct (Nat.ltb_spec (size m) max); [|done].
  by rewrite map_size_insert_None.
Qed.

Lemma lookup_or_new_mono max k v m k' x : m !! k' = Some x -> lookup_or_new max k v m !! k' = Some x.
Proof. unfold lookup_or_new. destruct (m !! k); [done|]. apply update_noexist_mono. Qed.

Lemma lookup_or_new_ne max k v m k' : k' <> k -> lookup_or_new max k v m !! k' = m !! k'.
Proof. unfold lookup_or_new. destruct (m !! k); [done|]. apply update_noexist_ne. Qed.

Lemma change_eq k f m : change k f m !! k = f <$> m !! k.
Proof. unfold change. destruct (m !! k) eqn:E; [by rewrite lookup_insert_eq|by rewrite E]. Qed.

Lemma change_ne k f m k' : k' <> k -> change k f m !! k' = m !! k'.
Proof. unfold change. destruct (m !! k); [|done]. intros. by rewrite lookup_insert_ne. Qed.

Lemma change_size k f m : size (change k f m) = size m.
Proof. unfold change. destruct (m !! k) eqn:E; [|done]. by rewrite map_size_insert_Some. Qed.

Lemma update_any_lookup max k v m k' : let '(ok, m') := update_any max k v m in
  (if ok then m' = <[k := v]> m else m' = m) /\ (k' <> k -> m' !! k' = m !! k').
Proof.
  unfold update_any. destruct (_ || _); [|done]. split; [done|]. intros. by rewrite lookup_insert_ne.
Qed.

(** Clearing all keys empties the map. *)
Lemma Clear_all keys : forall m, NoDup keys -> (forall k, is_Some (m !! k) <-> k ∈ keys) -> Clear keys m = (0, ∅).
Proof.
  induction keys as [|k keys IH]; intros m Hn Hk.
  - cbn. f_equal. apply map_empty. intros k. apply eq_None_not_Some. rewrite Hk. set_solver.
  - apply NoDup_cons in Hn as [Hnk Hn]. destruct (proj2 (Hk k) ltac:(set_solver)) as [x Ex]. cbn. unfold Delete, delete_elem. rewrite Ex. cbn.
    apply IH; [done|]. intros k'. rewrite lookup_delete_is_Some, Hk. set_solver.
Qed.

Lemma Clear_GetAllKeys m : Clear (GetAllKeys m) m = (0, ∅).
Proof.
  apply Clear_all; [apply NoDup_fst_map_to_list|]. intros k. unfold GetAllKeys. rewrite list_elem_of_fmap. split.
  - intros [v E]. exists (k, v). split; [done|]. by apply elem_of_map_to_list.
  - intros ([k' v] & -> & E). apply elem_of_map_to_list in E. by eexists.
Qed.

End BpfMap.

End BpfMap.
