(* ===== verification/NetsysBpf.v ===== *)
(** * The programs of the network in the kernel
    (services/netmanagernative/bpf/src/netsys.c, bpf/include/bpf_def.h)

    Programs attached to the sockets and packets of every process: they count the
    traffic of interfaces, applications and sockets, tell the services when a
    traffic limit is passed, keep applications without the permission from
    creating sockets, and enforce the access policies of the applications on Wi-Fi
    and cellular networks, for calls on sockets and for packets.

    The packets are those of [FirewallMatch] with the fields the firewall does not
    read; the firewall's own programs run first.  Counters are 64-bit and wrap. *)

From S2P Require Import Prelude BpfMap Conntrack FirewallMatch.
Module FM := FirewallMatch.FirewallMatch.

Module NetsysBpf.
Import BpfMap.

(** ** Constants *)

(** The sizes of the maps, with and without [SUPPORT_EBPF_MEM_MIN], and how many
    records fit into a ring buffer. *)
Record Sizes := mkSizes {
  APP_STATS_MAP_SIZE : nat; APP_STATS_MAP_SIZE_MIN : nat; IFACE_STATS_MAP_SIZE : nat; IFACE_NAME_MAP_SIZE : nat;
  IFACE_NAME_MAP_SIZE_MIN : nat; OH_SOCK_PERMISSION_MAP_SIZE : nat; BROKER_SOCK_PERMISSION_MAP_SIZE : nat;
  UID_ACCESS_POLICY_ARRAY_SIZE : nat; NET_NS_MAP_SIZE : nat; ring_records : nat }.
Definition min_sizes : Sizes := mkSizes 200 1 64 200 1 200 1 1000 2000 16383.
Definition normal_sizes : Sizes := mkSizes 5000 5000 1000 1000 1000 1000 1000 65535 5000 16383.
Definition TRAFFIC_INCREASE_MAP_SIZE : nat := 9.
Definition TRAFFIC_NOTIFY_TYPE : Z := 3.

Definition PACKET_OUTGOING : Z := 4.
Definition PACKET_LOOPBACK : Z := 5.
Definition UINT8_MAX : Z := 2 ^ 8 - 1.
Definition UINT64_MAX : Z := 2 ^ 64 - 1.
Definition SOCK_COOKIE_ID_NULL : Z := UINT64_MAX.
Definition SIM_UID_MAX : Z := 20000.
Definition SIM_UID_MIN : Z := 10000.
Definition DEFAULT_BROKER_UID_KEY : Z := 65535.
Definition DEFAULT_NETWORK_BEARER_MAP_KEY : Z := 0.
Definition VLAN_HEADER_LENGTH : Z := 8.
Definition TRANSFER_HEADER_LENGTH : Z := 20.
Definition IPV4_HEADER_LENGTH : Z := 20.
Definition IPV6_HEADER_LENGTH : Z := 40.
Definition IFACE_TYPE_CELLULAR : Z := 1.
Definition IFACE_TYPE_WIFI : Z := 2.
Definition NETWORK_BEARER_TYPE_INITIAL : Z := 0.
Definition NETWORK_BEARER_TYPE_CELLULAR : Z := 1.
Definition NETWORK_BEARER_TYPE_WIFI : Z := 2.

Definition WLAN_IPv4 : list Z := [172; 17; 1; 2].
Definition CELLULAR_IPv4 : list Z := [172; 17; 0; 2].
Definition CELLULAR_IPv42 : list Z := [127; 0; 0; 6].

Definition GET_IP_SEGMENT (ip seg : Z) : Z := Z.land (Z.shiftr ip ((seg - 1) * 8)) 0xff.
Definition IS_MATCHED_IP (ip : Z) (target : list Z) : bool :=
  (GET_IP_SEGMENT ip 1 =? nth 0 target 0) && (GET_IP_SEGMENT ip 2 =? nth 1 target 0) &&
  (GET_IP_SEGMENT ip 3 =? nth 2 target 0) && (GET_IP_SEGMENT ip 4 =? nth 3 target 0).

(** ** Packets and sockets *)

Record skb := mkSkb {
  fw_skb : FM.sk_buff;                    (* family, data, owner and interface *)
  pkt_type : Z; skb_mark : Z; skb_len : Z; gso_segs : Z; vlan_present : Z;
  local_ip4 : Z; local_ip6_3 : Z;         (* local_ip6[3] *)
  skb_cookie : Z }.                       (* bpf_get_socket_cookie *)

Definition family (p : skb) : Z := FM.skb_family (fw_skb p).
Definition ifindex (p : skb) : Z := FM.skb_ifindex (fw_skb p).
Definition sock_uid (p : skb) : Z := FM.skb_socket_uid (fw_skb p).

(** A call on a socket: the process, the network namespaces of the socket and of the system, and the mark
    and device of the socket. *)
Record sock_addr := mkSockAddr { cx_uid_gid : Z; cx_netns : Z; cx_init_netns : Z; cx_sk : option (Z * Z) }.

(** ** The maps *)

Record stats_value := mkStats { rxPackets : Z; rxBytes : Z; txPackets : Z; txBytes : Z }.
Definition no_stats : stats_value := mkStats 0 0 0 0.
Definition count_rx (len : Z) (v : stats_value) : stats_value := mkStats (u64 (rxPackets v + 1)) (u64 (rxBytes v + len)) (txPackets v) (txBytes v).
Definition count_tx (len : Z) (v : stats_value) : stats_value := mkStats (rxPackets v) (rxBytes v) (u64 (txPackets v + 1)) (u64 (txBytes v + len)).

(** The user, the interface and the type of the interface. *)
Definition stats_key : Type := Z * Z * Z.

Record Counters := mkCounters {
  iface_stats_map : gmap Z stats_value;
  app_uid_stats_map : gmap Z stats_value;
  app_uid_sim_stats_map : gmap stats_key stats_value;
  app_uid_if_stats_map : gmap stats_key stats_value;
  app_cookie_stats_map : gmap Z stats_value }.

Record Notify := mkNotify {
  limits_stats_map : gmap Z Z;
  increment_stats_map : gmap Z Z;
  ifindex_map : gmap Z Z;
  net_stats_ringbuf_map : list Z }.

Record uid_access_policy_value := mkPolicy {
  wifiPolicy : Z; cellularPolicy : Z; configSetFromFlag : Z; diagAckFlag : Z; netIfIndex : Z }.

Record Access := mkAccess {
  app_uid_access_policy_map : gmap Z uid_access_policy_value;
  broker_uid_access_policy_map : gmap Z Z;
  net_index_and_iface_map : gmap Z Z;
  ifindex_and_net_type_map : gmap Z Z;
  net_bear_type_map : gmap Z Z;
  ringbuf_map : list Z }.

Record Kernel := mkKernel {
  counters : Counters; notify : Notify; access : Access;
  sock_netns_map : gmap Z Z;
  oh_sock_permission_map : gmap Z Z; broker_sock_permission_map : gmap Z Z;
  firewall : FM.kernel }.

Definition set_counters x k := mkKernel x (notify k) (access k) (sock_netns_map k) (oh_sock_permission_map k) (broker_sock_permission_map k) (firewall k).
Definition set_notify x k := mkKernel (counters k) x (access k) (sock_netns_map k) (oh_sock_permission_map k) (broker_sock_permission_map k) (firewall k).
Definition set_access x k := mkKernel (counters k) (notify k) x (sock_netns_map k) (oh_sock_permission_map k) (broker_sock_permission_map k) (firewall k).
Definition set_sock_netns x k := mkKernel (counters k) (notify k) (access k) x (oh_sock_permission_map k) (broker_sock_permission_map k) (firewall k).
Definition set_firewall x k := mkKernel (counters k) (notify k) (access k) (sock_netns_map k) (oh_sock_permission_map k) (broker_sock_permission_map k) x.

Definition set_iface_stats x c := mkCounters x (app_uid_stats_map c) (app_uid_sim_stats_map c) (app_uid_if_stats_map c) (app_cookie_stats_map c).
Definition set_app_uid_stats x c := mkCounters (iface_stats_map c) x (app_uid_sim_stats_map c) (app_uid_if_stats_map c) (app_cookie_stats_map c).
Definition set_app_uid_sim_stats x c := mkCounters (iface_stats_map c) (app_uid_stats_map c) x (app_uid_if_stats_map c) (app_cookie_stats_map c).
Definition set_app_uid_if_stats x c := mkCounters (iface_stats_map c) (app_uid_stats_map c) (app_uid_sim_stats_map c) x (app_cookie_stats_map c).
Definition set_app_cookie_stats x c := mkCounters (iface_stats_map c) (app_uid_stats_map c) (app_uid_sim_stats_map c) (app_uid_if_stats_map c) x.

Definition set_policies x a := mkAccess x (broker_uid_access_policy_map a) (net_index_and_iface_map a) (ifindex_and_net_type_map a) (net_bear_type_map a) (ringbuf_map a).
Definition set_brokers x a := mkAccess (app_uid_access_policy_map a) x (net_index_and_iface_map a) (ifindex_and_net_type_map a) (net_bear_type_map a) (ringbuf_map a).
Definition set_net_index x a := mkAccess (app_uid_access_policy_map a) (broker_uid_access_policy_map a) x (ifindex_and_net_type_map a) (net_bear_type_map a) (ringbuf_map a).
Definition set_net_type x a := mkAccess (app_uid_access_policy_map a) (broker_uid_access_policy_map a) (net_index_and_iface_map a) x (net_bear_type_map a) (ringbuf_map a).
Definition set_bear_type x a := mkAccess (app_uid_access_policy_map a) (broker_uid_access_policy_map a) (net_index_and_iface_map a) (ifindex_and_net_type_map a) x (ringbuf_map a).
Definition set_ringbuf x a := mkAccess (app_uid_access_policy_map a) (broker_uid_access_policy_map a) (net_index_and_iface_map a) (ifindex_and_net_type_map a) (net_bear_type_map a) x.

Definition set_limits x n := mkNotify x (increment_stats_map n) (ifindex_map n) (net_stats_ringbuf_map n).
Definition set_increments x n := mkNotify (limits_stats_map n) x (ifindex_map n) (net_stats_ringbuf_map n).
Definition set_ifindexes x n := mkNotify (limits_stats_map n) (increment_stats_map n) x (net_stats_ringbuf_map n).
Definition set_events x n := mkNotify (limits_stats_map n) (increment_stats_map n) (ifindex_map n) x.

Section Programs.
Context (sz : Sizes).

(** A record fits into the buffer, or it is lost. *)
Definition ringbuf_submit (e : Z) (ring : list Z) : bool * list Z :=
  if (length ring <? ring_records sz)%nat then (true, ring ++ [e]) else (false, ring).

(** ** Traffic of the interfaces *)

Definition socket_ringbuf_net_stats_event_submit (flag : Z) (n : Notify) : Notify :=
  set_events (ringbuf_submit flag (net_stats_ringbuf_map n)).2 n.

(** All in 32 bits. *)
Definition get_data_len (p : skb) : Z :=
  let packages := if gso_segs p <? 1 then 1 else gso_segs p in
  let length := if vlan_present p =? 1 then u32 (skb_len p + VLAN_HEADER_LENGTH) else skb_len p in
  let length := if family p =? FM.AF_INET then u32 (length + u32 ((IPV4_HEADER_LENGTH + TRANSFER_HEADER_LENGTH) * (packages - 1))) else length in
  if family p =? FM.AF_INET6 then u32 (length + u32 ((IPV6_HEADER_LENGTH + TRANSFER_HEADER_LENGTH) * (packages - 1))) else length.

(** The sum so far, or 0 when it cannot be kept. *)
Definition update_new_incre_value (ifindex len : Z) (n : Notify) : Z * Notify :=
  let m := lookup_or_new TRAFFIC_INCREASE_MAP_SIZE ifindex 0 (increment_stats_map n) in
  match m !! ifindex with
  | Some old => let new := u64 (old + len) in (new, set_increments (<[ifindex := new]> m) n)
  | None => (0, set_increments m n)
  end.

(** The three tests are the same up to the key, which is 8 bits wide. *)
Definition is_exceed (mark used_value : Z) (n : Notify) : Z * Notify :=
  let m := lookup_or_new TRAFFIC_INCREASE_MAP_SIZE mark UINT64_MAX (limits_stats_map n) in
  match m !! mark with
  | Some available =>
      if available <? used_value then (mark, set_limits (update_any TRAFFIC_INCREASE_MAP_SIZE mark UINT64_MAX m).2 n)
      else (UINT8_MAX, set_limits m n)
  | None => (UINT8_MAX, set_limits m n)
  end.
Definition is_exceed_daily_mark (slotId used_value : Z) (n : Notify) : Z * Notify := is_exceed (u8 (slotId * TRAFFIC_NOTIFY_TYPE + 2)) used_value n.
Definition is_exceed_mothly_mark (slotId used_value : Z) (n : Notify) : Z * Notify := is_exceed (u8 (slotId * TRAFFIC_NOTIFY_TYPE + 1)) used_value n.
Definition is_exceed_mothly_limit (slotId used_value : Z) (n : Notify) : Z * Notify := is_exceed (u8 (slotId * TRAFFIC_NOTIFY_TYPE + 0)) used_value n.

(** The card whose interface it is. *)
Definition slot_of (ifindex : Z) (n : Notify) : option Z :=
  if bool_decide (ifindex_map n !! 0 = Some ifindex) then Some 0
  else if bool_decide (ifindex_map n !! 1 = Some ifindex) then Some 1 else None.

(** The first limit that is passed, and the marks of it. *)
Definition first_exceeded (slot used_value : Z) (n : Notify) : Z * Notify :=
  let '(flag, n) := is_exceed_mothly_limit slot used_value n in
  if negb (flag =? UINT8_MAX) then (flag, n) else
  let '(flag, n) := is_exceed_mothly_mark slot used_value n in
  if negb (flag =? UINT8_MAX) then (flag, n) else is_exceed_daily_mark slot used_value n.

(** The sum of the interface grows, and the limit it passes, if any. *)
Definition traffic_flag (p : skb) (ifindex : Z) (n : Notify) : Z * Notify :=
  match slot_of ifindex n with
  | None => (UINT8_MAX, n)
  | Some curSlotId =>
      let '(used_value, n) := update_new_incre_value ifindex (skb_len p) n in
      if used_value =? 0 then (UINT8_MAX, n) else first_exceeded curSlotId used_value n
  end.

Definition process_traffic_notify (p : skb) (ifindex : Z) (n : Notify) : Notify :=
  let '(flag, n) := traffic_flag p ifindex n in
  if negb (flag =? UINT8_MAX) then socket_ringbuf_net_stats_event_submit flag n else n.

Definition socket_iface_stats (p : skb) (k : Kernel) : Z * Kernel :=
  if pkt_type p =? PACKET_LOOPBACK then (1, k) else
  let c := counters k in
  let m := lookup_or_new (IFACE_STATS_MAP_SIZE sz) (ifindex p) no_stats (iface_stats_map c) in
  let m := change (ifindex p) (if pkt_type p =? PACKET_OUTGOING then count_tx (skb_len p) else count_rx (skb_len p)) m in
  (1, set_notify (process_traffic_notify p (ifindex p) (notify k)) (set_counters (set_iface_stats m c) k)).

(** ** Access policies *)

Definition check_socket_fwmark (mark : Z) (a : Access) : Z :=
  if Z.land (Z.shiftr mark 16) 0x1 =? 1 then default NETWORK_BEARER_TYPE_INITIAL (net_index_and_iface_map a !! Z.land mark 0xffff)
  else NETWORK_BEARER_TYPE_INITIAL.

Definition check_socket_bound_dev_if (ifIndex : Z) (a : Access) : Z :=
  default NETWORK_BEARER_TYPE_INITIAL (ifindex_and_net_type_map a !! ifIndex).

Definition check_socket_select_net (sk : option (Z * Z)) (a : Access) : Z :=
  match sk with
  | None => NETWORK_BEARER_TYPE_INITIAL
  | Some (mark, bound_dev_if) =>
      let net_bear_mark_type := check_socket_fwmark mark a in
      let net_bear_bound_type := check_socket_bound_dev_if bound_dev_if a in
      if negb (net_bear_bound_type =? NETWORK_BEARER_TYPE_INITIAL) then net_bear_bound_type else net_bear_mark_type
  end.

Definition check_network_policy (net_bear_mark_type : Z) (v : uid_access_policy_value) (a : Access) : Z :=
  if ((net_bear_mark_type =? NETWORK_BEARER_TYPE_WIFI) && (wifiPolicy v =? 0)) ||
     ((net_bear_mark_type =? NETWORK_BEARER_TYPE_CELLULAR) && (cellularPolicy v =? 0)) then 0
  else if negb (net_bear_mark_type =? NETWORK_BEARER_TYPE_INITIAL) then 1
  else if ((netIfIndex v =? NETWORK_BEARER_TYPE_WIFI) && (wifiPolicy v =? 0)) ||
          ((netIfIndex v =? NETWORK_BEARER_TYPE_CELLULAR) && (cellularPolicy v =? 0)) then 0
  else if netIfIndex v =? NETWORK_BEARER_TYPE_INITIAL then
    match net_bear_type_map a !! DEFAULT_NETWORK_BEARER_MAP_KEY with
    | None => 1
    | Some net_bear_type =>
        if (net_bear_type =? NETWORK_BEARER_TYPE_CELLULAR) && (cellularPolicy v =? 0) then 0
        else if (net_bear_type =? NETWORK_BEARER_TYPE_WIFI) && (wifiPolicy v =? 0) then 0
        else 1
    end
  else 1.

(** The application in whose name an application of a broker acts. *)
Definition check_broker_policy (uid : Z) (a : Access) : Z * Access :=
  if uid <? SIM_UID_MIN then (uid, a) else
  match broker_uid_access_policy_map a !! uid with
  | Some broker_uid_value => (broker_uid_value, a)
  | None =>
      match broker_uid_access_policy_map a !! DEFAULT_BROKER_UID_KEY with
      | Some broker_default_value =>
          if (SIM_UID_MIN <? uid) && (uid <? SIM_UID_MAX)
          then (broker_default_value, set_brokers (update_noexist (APP_STATS_MAP_SIZE_MIN sz) uid broker_default_value (broker_uid_access_policy_map a)) a)
          else (uid, a)
      | None => (uid, a)
      end
  end.

(** ** Traffic of the applications *)

Definition filter_sim_stats (ipv4 : Z) : bool := IS_MATCHED_IP ipv4 WLAN_IPv4 || IS_MATCHED_IP ipv4 CELLULAR_IPv4 || IS_MATCHED_IP ipv4 CELLULAR_IPv42.

Definition get_iface_type (ipv4 : Z) : Z :=
  if IS_MATCHED_IP ipv4 WLAN_IPv4 then IFACE_TYPE_WIFI
  else if IS_MATCHED_IP ipv4 CELLULAR_IPv4 || IS_MATCHED_IP ipv4 CELLULAR_IPv42 then IFACE_TYPE_CELLULAR else 0.

Definition sim_ip (p : skb) : Z :=
  if (family p =? FM.AF_INET) && filter_sim_stats (local_ip4 p) then local_ip4 p
  else if (family p =? FM.AF_INET6) && filter_sim_stats (local_ip6_3 p) then local_ip6_3 p else 0.

Definition rgm_stats_count (count : Z -> stats_value -> stats_value) (p : skb) (uid : Z) (c : Counters) : Counters :=
  let ip := sim_ip p in
  if ip =? 0 then c else
  let key := (u32 uid, ifindex p, get_iface_type ip) in
  let m := lookup_or_new (APP_STATS_MAP_SIZE sz) key no_stats (app_uid_sim_stats_map c) in
  set_app_uid_sim_stats (change key (count (get_data_len p)) m) c.
Definition rgm_stats_rx_count := rgm_stats_count count_rx.
Definition rgm_stats_tx_count := rgm_stats_count count_tx.

(** The user, the socket, and the user on the interface, or the simulated card. *)
Definition count_app (count : Z -> stats_value -> stats_value) (same_netns : bool) (p : skb) (c : Counters) : Counters :=
  let uid := sock_uid p in
  let c := set_app_uid_stats (change uid (count (skb_len p)) (lookup_or_new (APP_STATS_MAP_SIZE sz) uid no_stats (app_uid_stats_map c))) c in
  let c := set_app_cookie_stats (change (skb_cookie p) (count (skb_len p))
    (lookup_or_new (IFACE_NAME_MAP_SIZE_MIN sz) (skb_cookie p) no_stats (app_cookie_stats_map c))) c in
  if same_netns then
    let key := (u32 uid, ifindex p, 0) in
    set_app_uid_if_stats (change key (count (get_data_len p)) (lookup_or_new (IFACE_NAME_MAP_SIZE sz) key no_stats (app_uid_if_stats_map c))) c
  else rgm_stats_count count p uid c.

(** Whether the namespaces of the user and of the system are known and as [test] says. *)
Definition netns_are (test : Z -> Z -> bool) (uid : Z) (k : Kernel) : bool :=
  match sock_netns_map k !! uid, sock_netns_map k !! SOCK_COOKIE_ID_NULL with
  | Some value_sock_netns1, Some value_sock_netns2 => test value_sock_netns1 value_sock_netns2
  | _, _ => false
  end.

(** What both programs do with a packet after the firewall. *)
Definition skb_uid (count : Z -> stats_value -> stats_value) (p : skb) (k : Kernel) : Z * Kernel :=
  if pkt_type p =? PACKET_LOOPBACK then (1, k) else
  let uid := sock_uid p in
  let same_netns := netns_are Z.eqb uid k in
  let '(network_access_uid, a) := if netns_are (fun x y => negb (x =? y)) uid k then check_broker_policy uid (access k) else (uid, access k) in
  let k := set_access a k in
  let pass :=
    match app_uid_access_policy_map a !! u32 network_access_uid with
    | Some netAccessPolicyValue =>
        let net_bear_mark_type := check_socket_fwmark (skb_mark p) a in
        let net_bear_bound_type := check_socket_bound_dev_if (ifindex p) a in
        let net_bear_mark_type := if negb (net_bear_bound_type =? NETWORK_BEARER_TYPE_INITIAL) then net_bear_bound_type else net_bear_mark_type in
        negb (check_network_policy net_bear_mark_type netAccessPolicyValue a =? 0)
    | None => true
    end in
  if negb pass then (0, k) else (1, set_counters (count_app count same_netns p (counters k)) k).

(** [dns] is what the firewall's filter of DNS packets says, as in [FirewallMatch]. *)
Definition bpf_cgroup_skb_uid_ingress (dns : FM.sk_action) (now : Z) (p : skb) (k : Kernel) : Z * Kernel :=
  let '(act, f) := FM.netfirewall_policy_ingress dns now (fw_skb p) (firewall k) in
  let k := set_firewall f k in
  if negb (bool_decide (act = FM.SK_PASS)) then (0, k) else skb_uid count_rx p k.

Definition bpf_cgroup_skb_uid_egress (dns : FM.sk_action) (now : Z) (p : skb) (k : Kernel) : Z * Kernel :=
  let '(act, f) := FM.netfirewall_policy_egress dns now (fw_skb p) (firewall k) in
  let k := set_firewall f k in
  if negb (bool_decide (act = FM.SK_PASS)) then (0, k) else skb_uid count_tx p k.

(** ** Sockets *)

Definition uid_of (uid_gid : Z) : Z := Z.land uid_gid 0x00000000FFFFFFFF.

Definition inet_create_socket (ctx : sock_addr) (k : Kernel) : Z * Kernel :=
  let uid := uid_of (cx_uid_gid ctx) in
  let m := update_noexist (NET_NS_MAP_SIZE sz) uid (cx_netns ctx) (sock_netns_map k) in
  let m := update_noexist (NET_NS_MAP_SIZE sz) SOCK_COOKIE_ID_NULL (cx_init_netns ctx) m in
  let k := set_sock_netns m k in
  let map := if negb (cx_netns ctx =? cx_init_netns ctx) then broker_sock_permission_map k else oh_sock_permission_map k in
  match map !! uid with
  | None => (1, k)
  | Some value => if value =? 0 then (0, k) else (1, k)
  end.

Definition inet_release_socket (cookie : Z) (k : Kernel) : Z * Kernel :=
  let k := set_sock_netns (delete_elem cookie (sock_netns_map k)).2 k in
  (1, set_counters (set_app_cookie_stats (delete_elem cookie (app_cookie_stats_map (counters k))).2 (counters k)) k).

Definition socket_check_network_policy (net_bear_mark_type net_bear_type : Z) (v : uid_access_policy_value) : Z :=
  if ((net_bear_mark_type =? NETWORK_BEARER_TYPE_WIFI) && (wifiPolicy v =? 0)) ||
     ((net_bear_mark_type =? NETWORK_BEARER_TYPE_CELLULAR) && (cellularPolicy v =? 0)) then 0
  else if negb (net_bear_mark_type =? NETWORK_BEARER_TYPE_INITIAL) then 1
  else if ((net_bear_type =? NETWORK_BEARER_TYPE_WIFI) && (wifiPolicy v =? 0)) ||
          ((net_bear_type =? NETWORK_BEARER_TYPE_CELLULAR) && (cellularPolicy v =? 0)) then 0
  else 1.

Definition socket_ringbuf_event_submit (uid : Z) (a : Access) : Z * Access :=
  let '(ok, ring) := ringbuf_submit uid (ringbuf_map a) in (if ok then 1 else 0, set_ringbuf ring a).

Definition set_diagAckFlag x v := mkPolicy (wifiPolicy v) (cellularPolicy v) (configSetFromFlag v) x (netIfIndex v).
Definition set_netIfIndex x v := mkPolicy (wifiPolicy v) (cellularPolicy v) (configSetFromFlag v) (diagAckFlag v) x.

(** The six programs for [bind], [connect] and [sendmsg] have the same text.  The update of the entry at the
    end changes nothing: the value was changed in place, and the key exists. *)
Definition store_policy (uid : Z) (v : uid_access_policy_value) (a : Access) : Access :=
  set_policies (update_noexist (UID_ACCESS_POLICY_ARRAY_SIZE sz) uid v (<[uid := v]> (app_uid_access_policy_map a))) a.

Definition inet_check_policy (uid : Z) (sk : option (Z * Z)) (a : Access) : Z * Access :=
  match app_uid_access_policy_map a !! uid with
  | None => (1, a)
  | Some value =>
      match net_bear_type_map a !! DEFAULT_NETWORK_BEARER_MAP_KEY with
      | None => (1, a)
      | Some net_bear_type =>
          let net_bear_mark_type := check_socket_select_net sk a in
          if socket_check_network_policy net_bear_mark_type net_bear_type value =? 0 then
            if negb (diagAckFlag value =? 0) then (0, a) else
            let '(value, a) :=
              if negb (configSetFromFlag value =? 0) then
                let '(r, a) := socket_ringbuf_event_submit uid a in
                (if negb (r =? 0) then set_diagAckFlag 1 value else value, a)
              else (value, a) in
            (0, store_policy uid (set_netIfIndex net_bear_type value) a)
          else (1, store_policy uid (set_netIfIndex net_bear_type value) a)
      end
  end.

Definition inet_check (ctx : sock_addr) (k : Kernel) : Z * Kernel :=
  let uid := uid_of (cx_uid_gid ctx) in
  let '(uid, a) := if negb (cx_netns ctx =? cx_init_netns ctx) then let '(u, a) := check_broker_policy uid (access k) in (u32 u, a) else (uid, access k) in
  let '(r, a) := inet_check_policy uid (cx_sk ctx) a in (r, set_access a k).

Definition inet_check_bind4 := inet_check.
Definition inet_check_bind6 := inet_check.
Definition inet_check_connect4 := inet_check.
Definition inet_check_connect6 := inet_check.
Definition inet_check_sendmsg4 := inet_check.
Definition inet_check_sendmsg6 := inet_check.

(** ** What the access policies say *)

(** Whether a policy allows a bearer; other bearers are always allowed. *)
Definition allows (v : uid_access_policy_value) (bearer : Z) : bool :=
  negb ((bearer =? NETWORK_BEARER_TYPE_WIFI) && (wifiPolicy v =? 0)) &&
  negb ((bearer =? NETWORK_BEARER_TYPE_CELLULAR) && (cellularPolicy v =? 0)).

(** The first bearer that is known. *)
Definition first_known (bearers : list Z) : Z :=
  foldr (fun b rest => if b =? NETWORK_BEARER_TYPE_INITIAL then rest else b) NETWORK_BEARER_TYPE_INITIAL bearers.

(** The default network of the system. *)
Definition default_bearer (a : Access) : Z := default NETWORK_BEARER_TYPE_INITIAL (net_bear_type_map a !! DEFAULT_NETWORK_BEARER_MAP_KEY).

Lemma denied_test b v : ((b =? NETWORK_BEARER_TYPE_WIFI) && (wifiPolicy v =? 0)) ||
  ((b =? NETWORK_BEARER_TYPE_CELLULAR) && (cellularPolicy v =? 0)) = negb (allows v b).
Proof. unfold allows. by rewrite negb_andb, !negb_involutive. Qed.

Lemma allows_initial v : allows v NETWORK_BEARER_TYPE_INITIAL = true.
Proof. done. Qed.

Lemma check_network_policy_spec b v a :
  check_network_policy b v a = Z.b2z (allows v (first_known [b; netIfIndex v; default_bearer a])).
Proof.
  unfold check_network_policy, first_known, default_bearer. cbn [foldr]. rewrite !denied_test.
  destruct (Z.eqb_spec b NETWORK_BEARER_TYPE_INITIAL) as [->|]; [|by destruct (allows v b)]. rewrite allows_initial.
  destruct (Z.eqb_spec (netIfIndex v) NETWORK_BEARER_TYPE_INITIAL) as [->|]; [|by destruct (allows v (netIfIndex v))]. rewrite allows_initial. cbn [negb].
  destruct (net_bear_type_map a !! _) as [d|]; [|done]. cbn [from_option id]. pose proof (denied_test d v) as Hd.
  destruct (Z.eqb_spec d NETWORK_BEARER_TYPE_INITIAL) as [->|]; [done|]. rewrite orb_comm in Hd. revert Hd.
  destruct ((d =? NETWORK_BEARER_TYPE_CELLULAR) && _), ((d =? NETWORK_BEARER_TYPE_WIFI) && _); by destruct (allows v d).
Qed.

Lemma socket_check_spec b d v : socket_check_network_policy b d v = Z.b2z (allows v (first_known [b; d])).
Proof.
  unfold socket_check_network_policy, first_known. cbn [foldr]. rewrite !denied_test.
  destruct (Z.eqb_spec b NETWORK_BEARER_TYPE_INITIAL) as [->|]; [|by destruct (allows v b)]. rewrite allows_initial.
  destruct (Z.eqb_spec d NETWORK_BEARER_TYPE_INITIAL) as [->|]; [done|by destruct (allows v d)].
Qed.

(** The bearer of a packet: of its interface, or of the network of its mark. *)
Definition packet_bearer (p : skb) (a : Access) : Z :=
  first_known [check_socket_bound_dev_if (ifindex p) a; check_socket_fwmark (skb_mark p) a].

(** The application whose policy applies to a packet. *)
Definition access_uid (p : skb) (k : Kernel) : Z :=
  if netns_are (fun x y => negb (x =? y)) (sock_uid p) k then u32 (check_broker_policy (sock_uid p) (access k)).1 else u32 (sock_uid p).

Definition packet_allowed (p : skb) (k : Kernel) : bool :=
  match app_uid_access_policy_map (access k) !! access_uid p k with
  | Some v => allows v (first_known [packet_bearer p (access k); netIfIndex v; default_bearer (access k)])
  | None => true
  end.

(** A broker changes the map of the brokers only. *)
Lemma check_broker_frame uid a : let a' := (check_broker_policy uid a).2 in
  app_uid_access_policy_map a' = app_uid_access_policy_map a /\ net_index_and_iface_map a' = net_index_and_iface_map a /\
  ifindex_and_net_type_map a' = ifindex_and_net_type_map a /\ net_bear_type_map a' = net_bear_type_map a.
Proof. cbv zeta. unfold check_broker_policy. by repeat case_match. Qed.

Lemma packet_bearer_eq p a :
  (if negb (check_socket_bound_dev_if (ifindex p) a =? NETWORK_BEARER_TYPE_INITIAL) then check_socket_bound_dev_if (ifindex p) a
   else check_socket_fwmark (skb_mark p) a) = packet_bearer p a.
Proof.
  unfold packet_bearer, first_known. cbn [foldr]. destruct (_ =? _); [|done]. cbn [negb].
  by destruct (Z.eqb_spec (check_socket_fwmark (skb_mark p) a) NETWORK_BEARER_TYPE_INITIAL).
Qed.

Lemma first_known_idem b l : first_known (first_known b :: l) = first_known (b ++ l).
Proof.
  unfold first_known at 1. cbn [foldr]. unfold first_known. rewrite foldr_app. induction b as [|x b IH]; [done|]. cbn [foldr].
  destruct (Z.eqb_spec x NETWORK_BEARER_TYPE_INITIAL); [done|]. by rewrite (proj2 (Z.eqb_neq x _)).
Qed.

Lemma skb_uid_verdict count p k :
  (skb_uid count p k).1 = Z.b2z ((pkt_type p =? PACKET_LOOPBACK) || packet_allowed p k).
Proof.
  unfold skb_uid, packet_allowed, access_uid. destruct (pkt_type p =? PACKET_LOOPBACK); [done|]. cbn [orb].
  pose proof (check_broker_frame (sock_uid p) (access k)) as (E1 & E2 & E3 & E4).
  destruct (netns_are _ (sock_uid p) k).
  - destruct (check_broker_policy (sock_uid p) (access k)) as [u a]. cbn [fst snd] in *. rewrite E1, packet_bearer_eq.
    assert (Eb : packet_bearer p a = packet_bearer p (access k)).
    { unfold packet_bearer, check_socket_bound_dev_if, check_socket_fwmark. by rewrite E2, E3. }
    destruct (app_uid_access_policy_map (access k) !! u32 u) as [v|]; [|done]. rewrite check_network_policy_spec. unfold default_bearer.
    rewrite E4, Eb. by destruct (allows _ _).
  - rewrite packet_bearer_eq. destruct (app_uid_access_policy_map (access k) !! u32 (sock_uid p)) as [v|]; [|done].
    rewrite check_network_policy_spec. by destruct (allows _ _).
Qed.

(** What a packet changes, besides the firewall's tables: the brokers, and, when it passes, the counters. *)
Lemma skb_uid_frame count p k : let k' := (skb_uid count p k).2 in
  notify k' = notify k /\ sock_netns_map k' = sock_netns_map k /\ firewall k' = firewall k /\
  app_uid_access_policy_map (access k') = app_uid_access_policy_map (access k) /\
  net_index_and_iface_map (access k') = net_index_and_iface_map (access k) /\
  ifindex_and_net_type_map (access k') = ifindex_and_net_type_map (access k) /\
  net_bear_type_map (access k') = net_bear_type_map (access k) /\
  counters k' = (if (pkt_type p =? PACKET_LOOPBACK) || negb (packet_allowed p k) then counters k
                 else count_app count (netns_are Z.eqb (sock_uid p) k) p (counters k)).
Proof.
  cbv zeta. pose proof (skb_uid_verdict count p k) as Hv. revert Hv. unfold skb_uid.
  destruct (pkt_type p =? PACKET_LOOPBACK); [done|]. cbn [orb].
  pose proof (check_broker_frame (sock_uid p) (access k)) as (E1 & E2 & E3 & E4).
  destruct (netns_are _ (sock_uid p) k); [destruct (check_broker_policy (sock_uid p) (access k)) as [u a]; cbn [fst snd] in *|];
    match goal with |- context [if negb ?b then (0, _) else _] => destruct b end; cbn; destruct (packet_allowed p k); cbn; intros; by split_and!.
Qed.

End Programs.

End NetsysBpf.
