(* ===== verification/BpfStats.v ===== *)
(** * Reading the counters of the kernel
    (services/netmanagernative/bpf/src/bpf_stats.cpp)

    The native service reads the counters of the programs ([NetsysBpf]), sets the
    limits whose passing they report, and removes the counters of an application.
    [loaded] says whether the maps of the programs exist; [names] and [indexes] are
    [if_indextoname] and [if_nametoindex]. *)

From S2P Require Import Prelude BpfMap NetsysBpf.

Module BpfStats.
Import BpfMap NetsysBpf.

Definition NETMANAGER_SUCCESS : Z := 0.
Definition NETSYS_SUCCESS : Z := 0.
Definition NETMANAGER_ERROR : Z := -1.
Definition NETMANAGER_ERR_INTERNAL : Z := 2100003.
Definition STATS_ERR_READ_BPF_FAIL : Z := 2103005.
Definition STATS_ERR_INVALID_GET_BPF_MAP : Z := 2103011.
Definition STATS_ERR_GET_IFACE_NAME_FAILED : Z := 2103012.
Definition STATS_ERR_WRITE_BPF_FAIL : Z := 2103018.

Definition CELLULAR_IFACE : string := "rmnet0".
Definition WIFI_IFACE : string := "wlan0".
Definition IFACE_NAME_SET : gset string := {["rmnet0"; "rmnet1"; "rmnet2"; "rmnet3"; "virnic"; "wlan0"; "wlan1"; "eth0"; "eth1"]}.

(** The values of [StatsType]; others can arrive over the interface. *)
Definition STATS_TYPE_RX_BYTES : Z := 0.
Definition STATS_TYPE_RX_PACKETS : Z := 1.
Definition STATS_TYPE_TX_BYTES : Z := 2.
Definition STATS_TYPE_TX_PACKETS : Z := 3.

Definition GetNumberFromStatsValue (stats statsType : Z) (value : stats_value) : Z * Z :=
  if statsType =? STATS_TYPE_RX_BYTES then (NETSYS_SUCCESS, rxBytes value)
  else if statsType =? STATS_TYPE_RX_PACKETS then (NETSYS_SUCCESS, rxPackets value)
  else if statsType =? STATS_TYPE_TX_BYTES then (NETSYS_SUCCESS, txBytes value)
  else if statsType =? STATS_TYPE_TX_PACKETS then (NETSYS_SUCCESS, txPackets value)
  else (STATS_ERR_READ_BPF_FAIL, stats).

Record NetStatsInfo := mkInfo { uid_ : Z; iface_ : string; info_stats : stats_value }.
Definition Equals (x y : NetStatsInfo) : bool := (uid_ x =? uid_ y) && bool_decide (iface_ x = iface_ y).

(** The counters are added in 64 bits. *)
Definition add_stats (x y : stats_value) : stats_value :=
  mkStats (u64 (rxPackets x + rxPackets y)) (u64 (rxBytes x + rxBytes y)) (u64 (txPackets x + txPackets y)) (u64 (txBytes x + txBytes y)).

Section BpfStats.
Context (sz : Sizes) (loaded : bool) (names : Z -> option string) (indexes : string -> Z).
Implicit Types (c : Counters) (n : Notify).

(** An interface with a name that is not in the list is left out. *)
Definition needFilterIfIndex (k : Z) : bool := match names k with Some name => negb (bool_decide (name ∈ IFACE_NAME_SET)) | None => false end.

Definition total_step (m : gmap Z stats_value) (acc : option stats_value) (k : Z) : option stats_value :=
  total ← acc;
  if needFilterIfIndex k then Some total else
  let '(r, v) := Read k m no_stats in
  if r <? NETSYS_SUCCESS then None else Some (add_stats total v).

Definition GetTotalStats (statsType : Z) c : Z * Z :=
  if negb loaded then (STATS_ERR_INVALID_GET_BPF_MAP, 0) else
  let keys := GetAllKeys (iface_stats_map c) in
  match foldl (total_step (iface_stats_map c)) (Some no_stats) keys with
  | None => (STATS_ERR_READ_BPF_FAIL, 0)
  | Some totalStats => GetNumberFromStatsValue 0 statsType totalStats
  end.

Definition GetUidStats (statsType uid : Z) c : Z * Z :=
  if negb loaded then (STATS_ERR_INVALID_GET_BPF_MAP, 0) else
  let '(r, uidStats) := Read uid (app_uid_stats_map c) no_stats in
  if r <? 0 then (STATS_ERR_READ_BPF_FAIL, 0) else GetNumberFromStatsValue 0 statsType uidStats.

Definition sim_iface (ifIndex ifType : Z) : string :=
  if ifType =? IFACE_TYPE_WIFI then WIFI_IFACE
  else if ifType =? IFACE_TYPE_CELLULAR then CELLULAR_IFACE
  else default "" (names ifIndex).

(** Added to the entry of the same user and interface, or entered.  No entry goes away between the listing of the keys
    and the reading of their values. *)
Fixpoint merge_info (x : NetStatsInfo) (stats : list NetStatsInfo) : list NetStatsInfo :=
  match stats with
  | [] => [x]
  | y :: stats => if Equals y x then mkInfo (uid_ y) (iface_ y) (add_stats (info_stats y) (info_stats x)) :: stats else y :: merge_info x stats
  end.

Definition GetAllSimStatsInfo (stats : list NetStatsInfo) c : Z * list NetStatsInfo :=
  if negb loaded then (STATS_ERR_INVALID_GET_BPF_MAP, stats) else
  (NETSYS_SUCCESS,
   foldl (fun stats '((uId, ifIndex, ifType), v) => merge_info (mkInfo uId (sim_iface ifIndex ifType) v) stats) []
     (map_to_list (app_uid_sim_stats_map c))).

Definition GetAllStatsInfo (stats : list NetStatsInfo) c : Z * list NetStatsInfo :=
  if negb loaded then (STATS_ERR_INVALID_GET_BPF_MAP, stats) else
  (NETSYS_SUCCESS,
   List.filter (fun x => bool_decide (iface_ x ∈ IFACE_NAME_SET))
     (map (fun '((uId, ifIndex, ifType), v) => mkInfo uId (default "" (names ifIndex)) v) (map_to_list (app_uid_if_stats_map c)))).

(** One of the two maps, or neither. *)
Inductive StatsPath := APP_UID_IF_STATS_MAP_PATH | APP_UID_SIM_STATS_MAP_PATH | OTHER_PATH.

Definition delete_uid (uid : Z) (m : gmap stats_key stats_value) : Z * gmap stats_key stats_value :=
  let '(r, m) := Clear (List.filter (fun k => k.1.1 =? uid) (GetAllKeys m)) m in
  (if r <? 0 then STATS_ERR_WRITE_BPF_FAIL else NETSYS_SUCCESS, m).

Definition DeleteStatsInfo (path : StatsPath) (uid : Z) c : Z * Counters :=
  match path with
  | OTHER_PATH => (NETSYS_SUCCESS, c)
  | _ =>
      if negb loaded then (STATS_ERR_INVALID_GET_BPF_MAP, c) else
      match path with
      | APP_UID_IF_STATS_MAP_PATH => let '(r, m) := delete_uid uid (app_uid_if_stats_map c) in (r, set_app_uid_if_stats m c)
      | _ => let '(r, m) := delete_uid uid (app_uid_sim_stats_map c) in (r, set_app_uid_sim_stats m c)
      end
  end.

Definition GetIfaceStats (statsType : Z) (interfaceName : string) c : Z * Z :=
  if negb loaded then (STATS_ERR_INVALID_GET_BPF_MAP, 0) else
  let ifIndex := indexes interfaceName in
  if ifIndex <=? 0 then (STATS_ERR_GET_IFACE_NAME_FAILED, 0) else
  let '(r, ifaceStats) := Read ifIndex (iface_stats_map c) no_stats in
  if r <? 0 then (STATS_ERR_READ_BPF_FAIL, 0) else GetNumberFromStatsValue 0 statsType ifaceStats.

Definition GetCookieStats (statsType cookie : Z) c : Z * Z :=
  if negb loaded then (NETMANAGER_ERR_INTERNAL, 0) else
  let '(r, cookieStats) := Read cookie (app_cookie_stats_map c) no_stats in
  if r <? 0 then (NETMANAGER_ERR_INTERNAL, 0) else
  let '(res, stats) := GetNumberFromStatsValue 0 statsType cookieStats in
  if res =? STATS_ERR_READ_BPF_FAIL then (NETMANAGER_ERR_INTERNAL, stats) else (NETSYS_SUCCESS, stats).

(** ** The limits *)

Definition SetNetStateTrafficMap (flag availableTraffic : Z) n : Z * Notify :=
  if negb loaded then (NETMANAGER_ERROR, n) else
  let '(r, m) := Write TRAFFIC_INCREASE_MAP_SIZE flag availableTraffic (limits_stats_map n) in
  if negb (r =? 0) then (NETMANAGER_ERROR, n) else (NETMANAGER_SUCCESS, set_limits m n).

Definition GetNetStateTrafficMap (flag availableTraffic : Z) n : Z * Z :=
  if negb loaded then (NETMANAGER_ERROR, availableTraffic) else
  let '(r, value) := Read flag (limits_stats_map n) 0 in
  if negb (r =? 0) then (NETMANAGER_ERROR, availableTraffic) else (NETMANAGER_SUCCESS, value).

(** The values are read for the log only. *)
Definition GetNetStateIncreTrafficMap n : Z * list Z :=
  if negb loaded then (NETMANAGER_ERROR, []) else (NETMANAGER_SUCCESS, GetAllKeys (increment_stats_map n)).

Definition ClearIncreaseTrafficMap n : Z * Notify :=
  let '(r, keys) := GetNetStateIncreTrafficMap n in
  if negb (r =? NETMANAGER_SUCCESS) then (NETMANAGER_ERROR, n) else
  if negb loaded then (NETMANAGER_ERROR, n) else
  let '(r, m) := Clear keys (increment_stats_map n) in
  let n := set_increments m n in
  if negb (r =? 0) then (NETMANAGER_ERROR, n) else
  let '(r, _) := GetNetStateIncreTrafficMap n in
  if negb (r =? NETMANAGER_SUCCESS) then (NETMANAGER_ERROR, n) else (NETMANAGER_SUCCESS, n).

Definition DeleteIncreaseTrafficMap (ifIndex : Z) n : Z * Notify :=
  let '(r, _) := GetNetStateIncreTrafficMap n in
  if negb (r =? NETMANAGER_SUCCESS) then (NETMANAGER_ERROR, n) else
  if negb loaded then (NETMANAGER_ERROR, n) else
  let '(r, m) := Delete ifIndex (increment_stats_map n) in
  let n := set_increments m n in
  if negb (r =? 0) then (NETMANAGER_ERROR, n) else
  let '(r, _) := GetNetStateIncreTrafficMap n in
  if negb (r =? NETMANAGER_SUCCESS) then (NETMANAGER_ERROR, n) else (NETMANAGER_SUCCESS, n).

(** The map has 20 entries; the key is 8 bits wide. *)
Definition UpdateIfIndexMap (key index : Z) n : Z * Notify :=
  if negb loaded then (NETMANAGER_ERROR, n) else
  let '(r, m) := Write 20 (u8 key) index (ifindex_map n) in
  if negb (r =? 0) then (NETMANAGER_ERROR, n) else (0, set_ifindexes m n).

(** ** Lemmas *)

Lemma ClearIncreaseTrafficMap_spec n : loaded = true -> ClearIncreaseTrafficMap n = (NETMANAGER_SUCCESS, set_increments ∅ n).
Proof.
  intros Hl. unfold ClearIncreaseTrafficMap, GetNetStateIncreTrafficMap. rewrite Hl. cbn. by rewrite Clear_GetAllKeys.
Qed.

(** The entries of the user are removed, and no others. *)
Lemma delete_uid_spec uid m : delete_uid uid m = (NETSYS_SUCCESS, filter (fun kv => kv.1.1.1 <> uid) m).
Proof.
  unfold delete_uid.
  assert (H : forall keys (m : gmap stats_key stats_value), NoDup keys -> (forall k, k ∈ keys -> is_Some (m !! k)) ->
    Clear keys m = (0, filter (fun kv => kv.1 ∉ keys) m)).
  { induction keys as [|k keys IH]; intros m' Hn Hk.
    - cbn. f_equal. symmetry. apply map_filter_id. set_solver.
    - apply NoDup_cons in Hn as [Hnk Hn]. destruct (Hk k ltac:(set_solver)) as [x Ex]. cbn. unfold Delete, delete_elem. rewrite Ex. cbn.
      rewrite IH; [|done|].
      + f_equal. apply map_eq. intros k'. rewrite !map_lookup_filter. destruct (decide (k' = k)) as [->|Hne].
        * rewrite lookup_delete_eq. destruct (m' !! k); cbn; [|done]. rewrite option_guard_False; [done|set_solver].
        * rewrite lookup_delete_ne by done. destruct (m' !! k'); cbn; [|done]. apply option_guard_iff. set_solver.
      + intros k' Hk'. rewrite lookup_delete_is_Some. split; [set_solver|]. apply Hk. set_solver. }
  rewrite H.
  - cbn. f_equal. apply map_filter_ext. intros k v E. cbn. rewrite list_elem_of_In, filter_In. unfold GetAllKeys. rewrite <- list_elem_of_In, Z.eqb_eq.
    split; [|intuition]. intros Hn Hu. apply Hn. split; [|done]. apply list_elem_of_fmap. exists (k, v). split; [done|]. by apply elem_of_map_to_list.
  - apply NoDup_ListNoDup, List.NoDup_filter, NoDup_ListNoDup, NoDup_fst_map_to_list.
  - intros k. rewrite list_elem_of_In, filter_In, <- list_elem_of_In. intros [Hk _]. apply list_elem_of_fmap in Hk as ([k' v] & -> & E).
    apply elem_of_map_to_list in E. by eexists.
Qed.

End BpfStats.

End BpfStats.
