(* ===== verification/AccessMaps.v ===== *)
(** * The maps of the access policies
    (services/netmanagernative/src/manager/conn_manager.cpp: the functions on
    the maps of the programs, src/netsys_native_service.cpp: the brokers)

    What the native service writes into the maps that the programs of [NetsysBpf]
    read: the policies of the applications, the bearer of the default network, of
    the networks and of the interfaces, and the brokers. *)

From S2P Require Import Prelude NetCaps NetData Parcel ConnParcel PolicyParcel BpfMap NetsysBpf BpfStats.
Import NetCaps NetData PolicyParcel.

Module AccessMaps.
Import BpfMap NetsysBpf BpfStats.

Section AccessMaps.
Context (sz : Sizes) (loaded : bool).
Implicit Types (a : Access).

Definition no_policy : uid_access_policy_value := mkPolicy 0 0 0 0 0.

(** The policy is changed and the bearer last seen is kept. *)
Definition SetNetworkAccessPolicy (uid : Z) (policy : NetworkAccessPolicy) (reconfirmFlag : bool) a : Z * Access :=
  if negb loaded then (NETMANAGER_ERROR, a) else
  let '(_, v) := Read uid (app_uid_access_policy_map a) no_policy in
  let v := mkPolicy (Z.b2z (wifiAllow policy)) (Z.b2z (cellularAllow policy)) (Z.b2z reconfirmFlag) 0 (netIfIndex v) in
  let '(r, m) := Write (UID_ACCESS_POLICY_ARRAY_SIZE sz) uid v (app_uid_access_policy_map a) in
  if negb (r =? 0) then (NETMANAGER_ERROR, a) else (NETMANAGER_SUCCESS, set_policies m a).

Definition DeleteNetworkAccessPolicy (uid : Z) a : Z * Access :=
  if negb loaded then (NETMANAGER_ERROR, a) else
  let '(r, m) := Delete uid (app_uid_access_policy_map a) in
  if negb (r =? 0) then (NETMANAGER_ERROR, a) else (NETMANAGER_SUCCESS, set_policies m a).

(** The types in the order of the set. *)
Definition bearer_of_types (bearerTypes : list Z) : Z :=
  foldl (fun t bearerType =>
    let t := if bearerType =? NetBearType_num BEARER_CELLULAR then NETWORK_BEARER_TYPE_CELLULAR else t in
    if bearerType =? NetBearType_num BEARER_WIFI then NETWORK_BEARER_TYPE_WIFI else t) (-1) bearerTypes.

Definition NotifyNetBearerTypeChange (bearerTypes : list Z) a : Z * Access :=
  if negb loaded then (NETMANAGER_ERROR, a) else
  let netbearerType := bearer_of_types bearerTypes in
  let '(ret, v) := Read 0 (net_bear_type_map a) 0 in
  if negb (netbearerType =? -1) && (((ret =? NETSYS_SUCCESS) && negb (s32 v =? netbearerType)) || negb (ret =? NETSYS_SUCCESS)) then
    let '(r, m) := Write (IFACE_NAME_MAP_SIZE sz) DEFAULT_NETWORK_BEARER_MAP_KEY (u32 netbearerType) (net_bear_type_map a) in
    if negb (r =? 0) then (NETMANAGER_ERROR, a) else (NETMANAGER_SUCCESS, set_bear_type m a)
  else (NETMANAGER_SUCCESS, a).

Definition GetInterfaceNameId (netBearerType : Z) : Z :=
  if netBearerType =? NetBearType_num BEARER_WIFI then NETWORK_BEARER_TYPE_WIFI
  else if netBearerType =? NetBearType_num BEARER_CELLULAR then NETWORK_BEARER_TYPE_CELLULAR
  else NETWORK_BEARER_TYPE_INITIAL.

(** Both maps have 5 entries; a network is a number of 16 bits there. *)
Definition AddNetIdAndIfaceToMap (netId nameId : Z) a : Access :=
  if loaded then set_net_index (Write 5 (u16 netId) nameId (net_index_and_iface_map a)).2 a else a.

Definition AddIfindexAndNetTypeToMap (ifIndex nameId : Z) a : Access :=
  if loaded then set_net_type (Write 5 ifIndex nameId (ifindex_and_net_type_map a)).2 a else a.

(** What [AddInterfaceToNetwork] and [RemoveInterfaceFromNetwork] do to the maps. *)
Definition AddInterface_maps (netId ifIndex netBearerType : Z) a : Access :=
  let nameId := GetInterfaceNameId netBearerType in
  AddIfindexAndNetTypeToMap ifIndex nameId (AddNetIdAndIfaceToMap netId nameId a).

Definition RemoveInterface_maps (netId ifIndex : Z) a : Access :=
  if loaded then
    let a := set_net_index (Delete (u16 netId) (net_index_and_iface_map a)).2 a in
    set_net_type (Delete ifIndex (ifindex_and_net_type_map a)).2 a
  else a.

(** An entry that does not fit is left out. *)
Definition SetBrokerUidAccessPolicyMap (uidMaps : list (Z * Z)) a : Z * Access :=
  if bool_decide (length uidMaps = O) then (NETSYS_SUCCESS, a)
  else if negb loaded then (NETMANAGER_ERROR, a)
  else (NETSYS_SUCCESS, set_brokers (foldl (fun m kv => (Write (APP_STATS_MAP_SIZE_MIN sz) kv.1 kv.2 m).2) (broker_uid_access_policy_map a) uidMaps) a).

Definition DelBrokerUidAccessPolicyMap (uid : Z) a : Z * Access :=
  if negb loaded then (NETMANAGER_ERROR, a) else
  let '(r, m) := Delete uid (broker_uid_access_policy_map a) in
  if negb (r =? 0) then (NETMANAGER_ERROR, a) else (NETSYS_SUCCESS, set_brokers m a).

(** ** Lemmas *)

(** What a policy says of a bearer. *)
Definition policy_allows (policy : NetworkAccessPolicy) (bearer : Z) : bool :=
  if bearer =? NETWORK_BEARER_TYPE_WIFI then wifiAllow policy
  else if bearer =? NETWORK_BEARER_TYPE_CELLULAR then cellularAllow policy else true.

(** The policy that is in force for an application. *)
Definition in_force (uid : Z) (policy : NetworkAccessPolicy) a : Prop :=
  exists v, app_uid_access_policy_map a !! uid = Some v /\
    wifiPolicy v = Z.b2z (wifiAllow policy) /\ cellularPolicy v = Z.b2z (cellularAllow policy).

Lemma allows_policy v policy b : wifiPolicy v = Z.b2z (wifiAllow policy) -> cellularPolicy v = Z.b2z (cellularAllow policy) ->
  allows v b = policy_allows policy b.
Proof.
  intros Hw Hc. unfold allows, policy_allows. rewrite Hw, Hc.
  destruct (Z.eqb_spec b NETWORK_BEARER_TYPE_WIFI) as [->|]; [by destruct (wifiAllow policy)|].
  destruct (b =? NETWORK_BEARER_TYPE_CELLULAR); [by destruct (cellularAllow policy)|done].
Qed.

Lemma SetNetworkAccessPolicy_in_force uid policy flag a a' : SetNetworkAccessPolicy uid policy flag a = (NETMANAGER_SUCCESS, a') ->
  in_force uid policy a'.
Proof.
  unfold SetNetworkAccessPolicy, Write, update_any. destruct (negb loaded); [done|]. destruct (Read _ _ _) as [r v].
  destruct (bool_decide _ || _); cbn; [|done]. intros [= <-]. eexists. cbn. by rewrite lookup_insert_eq.
Qed.

(** It fits when the application has an entry already or the map has room. *)
Lemma SetNetworkAccessPolicy_success uid policy flag a : loaded = true ->
  is_Some (app_uid_access_policy_map a !! uid) \/ (size (app_uid_access_policy_map a) < UID_ACCESS_POLICY_ARRAY_SIZE sz)%nat ->
  (SetNetworkAccessPolicy uid policy flag a).1 = NETMANAGER_SUCCESS.
Proof.
  intros Hl Hr. unfold SetNetworkAccessPolicy, Write, update_any. rewrite Hl. cbn [negb]. destruct (Read _ _ _) as [r v].
  destruct Hr as [Hr|Hr]; [by rewrite bool_decide_eq_true_2|]. rewrite (proj2 (Nat.ltb_lt _ _) Hr), orb_true_r. done.
Qed.

End AccessMaps.

End AccessMaps.
