(* ===== verification/NetsysRun.v ===== *)
(** * Runs of the programs of the kernel

    The programs of [NetsysBpf] and what the native service does to their maps
    ([BpfStats], [AccessMaps]) interleave freely: a run is any sequence of the
    events below.  Over all runs:
    - the policy last set for an application decides about its packets and its
      calls, whatever else happens ([access_policy_enforced]);
    - the counters of an application are the sums over the packets that passed
      ([traffic_counted]);
    - the passing of a limit is reported at most once until it is set again, and is
      reported if the ring buffer has room ([limit_reported_once]). *)

From S2P Require Import Prelude NetCaps NetData Parcel ConnParcel PolicyParcel Conntrack FirewallMatch BpfMap NetsysBpf BpfStats AccessMaps.
Import PolicyParcel.
Module FM := FirewallMatch.FirewallMatch.

Module NetsysRun.
Import BpfMap NetsysBpf BpfStats AccessMaps.

Inductive Event :=
(* programs *)
| PacketIn (dns : FM.sk_action) (now : Z) (p : skb)
| PacketOut (dns : FM.sk_action) (now : Z) (p : skb)
| PacketSeen (p : skb)
| SocketCreate (ctx : sock_addr)
| SocketRelease (cookie : Z)
| SocketCall (ctx : sock_addr)
(* the native service, access policies *)
| PolicySet (uid : Z) (policy : NetworkAccessPolicy) (reconfirmFlag : bool)
| PolicyDelete (uid : Z)
| BearerChange (bearerTypes : list Z)
| InterfaceAdd (netId ifIndex netBearerType : Z)
| InterfaceRemove (netId ifIndex : Z)
| BrokerSet (uidMaps : list (Z * Z))
| BrokerDelete (uid : Z)
| DialogsRead
(* ... and traffic *)
| LimitSet (flag availableTraffic : Z)
| IncreaseClear
| IncreaseDelete (ifIndex : Z)
| IfIndexSet (key index : Z)
| StatsDelete (path : StatsPath) (uid : Z)
| ReportsRead
(* the firewall service, which writes its own tables *)
| FirewallChange (f : FM.kernel).

Section Runs.
Context (sz : Sizes) (loaded : bool).
Implicit Types (k : Kernel) (e : Event).

Definition on_access (r : Z * Access) k : Z * Kernel := (r.1, set_access r.2 k).
Definition on_notify (r : Z * Notify) k : Z * Kernel := (r.1, set_notify r.2 k).
Definition on_counters (r : Z * Counters) k : Z * Kernel := (r.1, set_counters r.2 k).

Definition exec e k : Z * Kernel :=
  match e with
  | PacketIn dns now p => bpf_cgroup_skb_uid_ingress sz dns now p k
  | PacketOut dns now p => bpf_cgroup_skb_uid_egress sz dns now p k
  | PacketSeen p => socket_iface_stats sz p k
  | SocketCreate ctx => inet_create_socket sz ctx k
  | SocketRelease cookie => inet_release_socket cookie k
  | SocketCall ctx => inet_check sz ctx k
  | PolicySet uid policy flag => on_access (SetNetworkAccessPolicy sz loaded uid policy flag (access k)) k
  | PolicyDelete uid => on_access (DeleteNetworkAccessPolicy loaded uid (access k)) k
  | BearerChange l => on_access (NotifyNetBearerTypeChange sz loaded l (access k)) k
  | InterfaceAdd netId ifIndex t => (0, set_access (AddInterface_maps loaded netId ifIndex t (access k)) k)
  | InterfaceRemove netId ifIndex => (0, set_access (RemoveInterface_maps loaded netId ifIndex (access k)) k)
  | BrokerSet l => on_access (SetBrokerUidAccessPolicyMap sz loaded l (access k)) k
  | BrokerDelete uid => on_access (DelBrokerUidAccessPolicyMap loaded uid (access k)) k
  | DialogsRead => (0, set_access (set_ringbuf [] (access k)) k)
  | LimitSet flag n => on_notify (SetNetStateTrafficMap loaded flag n (notify k)) k
  | IncreaseClear => on_notify (ClearIncreaseTrafficMap loaded (notify k)) k
  | IncreaseDelete ifIndex => on_notify (DeleteIncreaseTrafficMap loaded ifIndex (notify k)) k
  | IfIndexSet key index => on_notify (UpdateIfIndexMap loaded key index (notify k)) k
  | StatsDelete path uid => on_counters (DeleteStatsInfo loaded path uid (counters k)) k
  | ReportsRead => (0, set_notify (set_events [] (notify k)) k)
  | FirewallChange f => (0, set_firewall f k)
  end.

Definition run (es : list Event) k : Kernel := foldl (fun k e => (exec e k).2) k es.

(** ** Access policies *)

(** Whether an event sets or deletes the policy of the application. *)
Definition about_policy (uid : Z) e : bool :=
  match e with PolicySet u _ _ => u =? uid | PolicyDelete u => u =? uid | _ => false end.

Definition policies k : gmap Z uid_access_policy_value := app_uid_access_policy_map (access k).

Lemma Delete_ne {V} (u uid : Z) (m : gmap Z V) : u <> uid -> (Delete u m).2 !! uid = m !! uid.
Proof. intros Hn. unfold Delete, delete_elem. destruct (m !! u); [|done]. cbn. by rewrite lookup_delete_ne. Qed.

(** What a policy says, without the flags that change with the calls. *)
Definition bits (a : Access) (uid : Z) : option (Z * Z) := (fun v => (wifiPolicy v, cellularPolicy v)) <$> app_uid_access_policy_map a !! uid.

Lemma bits_same uid a a' : app_uid_access_policy_map a' !! uid = app_uid_access_policy_map a !! uid -> bits a' uid = bits a uid.
Proof. unfold bits. by intros ->. Qed.

Lemma in_force_bits uid policy a : in_force uid policy a <-> bits a uid = Some (Z.b2z (wifiAllow policy), Z.b2z (cellularAllow policy)).
Proof.
  unfold in_force, bits. split; [intros (v & -> & Hw & Hc); cbn; congruence|]. destruct (app_uid_access_policy_map a !! uid) as [v|]; cbn; [|done].
  intros [= Hw Hc]. by exists v.
Qed.

Lemma skb_uid_bits count uid p k : bits (access (skb_uid sz count p k).2) uid = bits (access k) uid.
Proof. pose proof (skb_uid_frame sz count p k) as (_ & _ & _ & E & _). apply bits_same. by rewrite E. Qed.

(** A call on a socket changes the flag and the bearer of a policy only. *)
Lemma store_policy_bits uid u value v a : app_uid_access_policy_map a !! u = Some value ->
  wifiPolicy v = wifiPolicy value -> cellularPolicy v = cellularPolicy value -> bits (store_policy sz u v a) uid = bits a uid.
Proof.
  intros Eu Hw Hc. unfold bits, store_policy. cbn. rewrite (update_noexist_present _ _ _ _ v) by apply lookup_insert_eq.
  destruct (decide (uid = u)) as [->|Hne]; [|by rewrite lookup_insert_ne]. rewrite lookup_insert_eq, Eu. cbn. congruence.
Qed.

Lemma inet_check_policy_bits uid u sk a : bits (inet_check_policy sz u sk a).2 uid = bits a uid.
Proof.
  unfold inet_check_policy. destruct (app_uid_access_policy_map a !! u) as [value|] eqn:Eu; [|done].
  destruct (net_bear_type_map a !! _) as [t|]; [|done]. cbv zeta.
  destruct (socket_check_network_policy _ _ _ =? 0); [|by eapply store_policy_bits].
  destruct (negb (diagAckFlag value =? 0)); [done|]. unfold socket_ringbuf_event_submit, ringbuf_submit.
  repeat case_match; simplify_eq; cbn [snd]; (etransitivity; [by eapply store_policy_bits|done]).
Qed.

Lemma inet_check_bits uid ctx k : bits (access (inet_check sz ctx k).2) uid = bits (access k) uid.
Proof.
  unfold inet_check. pose proof (check_broker_frame sz (uid_of (cx_uid_gid ctx)) (access k)) as (Ep & _).
  assert (H : forall u a, bits (access (let '(r, a) := inet_check_policy sz u (cx_sk ctx) a in (r, set_access a k)).2) uid = bits a uid).
  { intros u a. pose proof (inet_check_policy_bits uid u (cx_sk ctx) a) as H. by destruct (inet_check_policy _ _ _ _). }
  destruct (negb _); [|by apply H]. destruct (check_broker_policy sz (uid_of (cx_uid_gid ctx)) (access k)) as [u a].
  rewrite H. apply bits_same. by rewrite <- Ep.
Qed.

Lemma exec_bits uid e k : about_policy uid e = false -> bits (access (exec e k).2) uid = bits (access k) uid.
Proof.
  destruct e as [dns now p|dns now p|p|ctx|cookie|ctx|u pol f|u|l|i j t|i j|l|u| |f n| |i|i j|pa u| |f]; cbn [about_policy exec]; intros Hu; try done.
  - unfold bpf_cgroup_skb_uid_ingress. destruct (FM.netfirewall_policy_ingress _ _ _ _) as [act f]. destruct (negb _); [done|]. by rewrite skb_uid_bits.
  - unfold bpf_cgroup_skb_uid_egress. destruct (FM.netfirewall_policy_egress _ _ _ _) as [act f]. destruct (negb _); [done|]. by rewrite skb_uid_bits.
  - unfold socket_iface_stats. by destruct (pkt_type p =? _).
  - unfold inet_create_socket. by repeat case_match.
  - by apply inet_check_bits.
  - apply Z.eqb_neq in Hu. apply bits_same. cbn. unfold SetNetworkAccessPolicy. destruct (negb loaded); [done|].
    destruct (Read _ _ _) as [? v]. unfold Write. pose proof (update_any_lookup (UID_ACCESS_POLICY_ARRAY_SIZE sz) u (mkPolicy (Z.b2z (wifiAllow pol))
      (Z.b2z (cellularAllow pol)) (Z.b2z f) 0 (netIfIndex v)) (app_uid_access_policy_map (access k)) uid) as Hl.
    destruct (update_any _ _ _ _) as [[] m]; cbn in *; [|done]. by apply Hl.
  - apply Z.eqb_neq in Hu. apply bits_same. cbn. unfold DeleteNetworkAccessPolicy. destruct (negb loaded); [done|].
    pose proof (Delete_ne u uid (app_uid_access_policy_map (access k)) Hu) as Hl. destruct (Delete _ _) as [r m]. by destruct (negb _).
  - apply bits_same. cbn. unfold NotifyNetBearerTypeChange. by repeat case_match.
  - apply bits_same. cbn. unfold AddInterface_maps, AddNetIdAndIfaceToMap, AddIfindexAndNetTypeToMap. by destruct loaded.
  - apply bits_same. cbn. unfold RemoveInterface_maps. by destruct loaded.
  - apply bits_same. cbn. unfold SetBrokerUidAccessPolicyMap. by repeat case_match.
  - apply bits_same. cbn. unfold DelBrokerUidAccessPolicyMap. by repeat case_match.
Qed.

Lemma exec_in_force uid policy e k : about_policy uid e = false -> in_force uid policy (access k) -> in_force uid policy (access (exec e k).2).
Proof. intros He. rewrite !in_force_bits. by rewrite exec_bits. Qed.

Lemma run_in_force uid policy es : forall k, Forall (fun e => about_policy uid e = false) es ->
  in_force uid policy (access k) -> in_force uid policy (access (run es k)).
Proof.
  induction es as [|e es IH]; intros k Hes Hf; [done|]. apply Forall_cons in Hes as [He Hes]. cbn. apply IH; [done|]. by apply exec_in_force.
Qed.

(** The application whose policy applies to a call, and the bearer at its last call. *)
Definition call_uid (ctx : sock_addr) k : Z :=
  let uid := uid_of (cx_uid_gid ctx) in
  if negb (cx_netns ctx =? cx_init_netns ctx) then u32 (check_broker_policy sz uid (access k)).1 else uid.
Definition seen_bearer (uid : Z) k : Z := from_option netIfIndex NETWORK_BEARER_TYPE_INITIAL (policies k !! uid).

Lemma packet_allowed_in_force uid policy p k : in_force uid policy (access k) -> access_uid sz p k = uid ->
  packet_allowed sz p k = policy_allows policy (first_known [packet_bearer p (access k); seen_bearer uid k; default_bearer (access k)]).
Proof.
  intros (v & Ev & Hw & Hc) Hu. unfold packet_allowed, seen_bearer, policies. rewrite Hu, Ev. cbn [from_option]. by apply allows_policy.
Qed.

Lemma inet_check_verdict uid policy ctx k : in_force uid policy (access k) -> call_uid ctx k = uid ->
  is_Some (net_bear_type_map (access k) !! DEFAULT_NETWORK_BEARER_MAP_KEY) ->
  (inet_check sz ctx k).1 = Z.b2z (policy_allows policy (first_known [check_socket_select_net (cx_sk ctx) (access k); default_bearer (access k)])).
Proof.
  intros (v & Ev & Hw & Hc) Hu [t Et]. unfold inet_check, call_uid in *. pose proof (check_broker_frame sz (uid_of (cx_uid_gid ctx)) (access k)) as (E1 & E2 & E3 & E4).
  assert (H : forall a, app_uid_access_policy_map a !! uid = Some v -> net_bear_type_map a !! DEFAULT_NETWORK_BEARER_MAP_KEY = Some t ->
    check_socket_select_net (cx_sk ctx) a = check_socket_select_net (cx_sk ctx) (access k) ->
    (let '(r, a) := inet_check_policy sz uid (cx_sk ctx) a in (r, set_access a k)).1 =
    Z.b2z (policy_allows policy (first_known [check_socket_select_net (cx_sk ctx) (access k); default_bearer (access k)]))).
  { intros a Ea Eb Ec. unfold inet_check_policy, default_bearer. rewrite Ea, Eb, Ec, Et, socket_check_spec. cbn [from_option id].
    rewrite (allows_policy v policy) by done. destruct (policy_allows _ _); [done|]. cbn [Z.b2z Z.eqb]. destruct (negb (diagAckFlag v =? 0)); [done|].
    destruct (if negb (configSetFromFlag v =? 0) then _ else _). done. }
  destruct (negb _).
  - destruct (check_broker_policy sz (uid_of (cx_uid_gid ctx)) (access k)) as [u a]. cbn [fst snd] in *. rewrite Hu. apply H; [congruence..|].
    unfold check_socket_select_net, check_socket_fwmark, check_socket_bound_dev_if. by rewrite E2, E3.
  - rewrite Hu. by apply H.
Qed.

(** C11: Access policies are enforced: once the native service has accepted a policy for an application, then, after any
    sequence of packets, socket calls and changes of networks, brokers, limits, firewalls and policies of other
    applications, every packet of the application in either direction that the firewall lets through is passed exactly
    when the policy allows its bearer: the one of its interface, else of the network of its mark, else the default network
    at the last call of the application, else the default network.  A call on a socket is allowed exactly when the policy allows
    the network the socket selects, else the default network, provided a default network is known. *)
Theorem access_policy_enforced uid policy flag k k1 es p dns now ctx :
  exec (PolicySet uid policy flag) k = (NETMANAGER_SUCCESS, k1) -> Forall (fun e => about_policy uid e = false) es ->
  let k2 := run es k1 in
  let bearer := first_known [packet_bearer p (access k2); seen_bearer uid k2; default_bearer (access k2)] in
  (access_uid sz p k2 = uid -> pkt_type p <> PACKET_LOOPBACK ->
   ((FM.netfirewall_policy_ingress dns now (fw_skb p) (firewall k2)).1 = FM.SK_PASS ->
    (exec (PacketIn dns now p) k2).1 = Z.b2z (policy_allows policy bearer)) /\
   ((FM.netfirewall_policy_egress dns now (fw_skb p) (firewall k2)).1 = FM.SK_PASS ->
    (exec (PacketOut dns now p) k2).1 = Z.b2z (policy_allows policy bearer))) /\
  (call_uid ctx k2 = uid -> is_Some (net_bear_type_map (access k2) !! DEFAULT_NETWORK_BEARER_MAP_KEY) ->
   (exec (SocketCall ctx) k2).1 = Z.b2z (policy_allows policy (first_known [check_socket_select_net (cx_sk ctx) (access k2); default_bearer (access k2)]))).
Proof.
  intros Es Hes k2 bearer.
  assert (Hf : in_force uid policy (access k2)).
  { apply run_in_force; [done|]. cbn [exec] in Es. unfold on_access in Es. injection Es as E1 <-.
    apply (SetNetworkAccessPolicy_in_force sz loaded uid policy flag (access k)). cbn. rewrite <- E1. by destruct (SetNetworkAccessPolicy _ _ _ _ _ _). }
  split; [|by apply inet_check_verdict]. intros Hu Hl.
  assert (Hv : forall count f, (skb_uid sz count p (set_firewall f k2)).1 = Z.b2z (policy_allows policy bearer)).
  { intros count f. rewrite skb_uid_verdict, (proj2 (Z.eqb_neq _ _) Hl). cbn [orb].
    by rewrite (packet_allowed_in_force uid policy p (set_firewall f k2)). }
  cbn [exec]. unfold bpf_cgroup_skb_uid_ingress, bpf_cgroup_skb_uid_egress.
  split; [destruct (FM.netfirewall_policy_ingress _ _ _ _) as [act f]|destruct (FM.netfirewall_policy_egress _ _ _ _) as [act f]];
    cbn [fst]; intros ->; apply Hv.
Qed.

(** ** Traffic of the applications *)

Definition uid_map k : gmap Z stats_value := app_uid_stats_map (counters k).
Definition uid_stats (uid : Z) k : stats_value := default no_stats (uid_map k !! uid).

(** A packet that passed, received or sent, and its length. *)
Definition count_one (v : stats_value) (x : bool * Z) : stats_value := if x.1 then count_rx x.2 v else count_tx x.2 v.

Definition counted (uid : Z) (p : skb) (r : Z) : bool := (sock_uid p =? uid) && negb (pkt_type p =? PACKET_LOOPBACK) && (r =? 1).

(** The packets of a user that pass, in order. *)
Definition passes (uid : Z) e k : list (bool * Z) :=
  match e with
  | PacketIn _ _ p => if counted uid p (exec e k).1 then [(true, skb_len p)] else []
  | PacketOut _ _ p => if counted uid p (exec e k).1 then [(false, skb_len p)] else []
  | _ => []
  end.
Fixpoint passed (uid : Z) (es : list Event) k : list (bool * Z) :=
  match es with [] => [] | e :: es => passes uid e k ++ passed uid es (exec e k).2 end.

Definition packet_uids e : gset Z := match e with PacketIn _ _ p | PacketOut _ _ p => {[sock_uid p]} | _ => ∅ end.
Definition all_uids (es : list Event) : gset Z := ⋃ (packet_uids <$> es).

Lemma counted_lookup max uid f (m : gmap Z stats_value) u : (size (dom m ∪ {[uid]}) <= max)%nat ->
  change uid f (lookup_or_new max uid no_stats m) !! u = if decide (u = uid) then Some (f (default no_stats (m !! uid))) else m !! u.
Proof.
  intros Hs. destruct (decide (u = uid)) as [->|Hne].
  - rewrite change_eq. unfold lookup_or_new, update_noexist. destruct (m !! uid) as [x|] eqn:E; [by rewrite E|].
    assert (size m < max)%nat as Hlt.
    { rewrite size_union in Hs by (apply not_elem_of_dom in E; set_solver). rewrite size_singleton, size_dom in Hs. lia. }
    rewrite (proj2 (Nat.ltb_lt _ _) Hlt), lookup_insert_eq. done.
  - rewrite change_ne by done. by apply lookup_or_new_ne.
Qed.

Lemma count_app_uid count same p c : app_uid_stats_map (count_app sz count same p c) =
  change (sock_uid p) (count (skb_len p)) (lookup_or_new (APP_STATS_MAP_SIZE sz) (sock_uid p) no_stats (app_uid_stats_map c)).
Proof. unfold count_app, rgm_stats_count. by repeat case_match. Qed.

(** What a packet does to the counters of the users, given its verdict. *)
Lemma skb_uid_counts count p k : let '(r, k') := skb_uid sz count p k in
  uid_map k' = if negb (pkt_type p =? PACKET_LOOPBACK) && (r =? 1)
               then change (sock_uid p) (count (skb_len p)) (lookup_or_new (APP_STATS_MAP_SIZE sz) (sock_uid p) no_stats (uid_map k)) else uid_map k.
Proof.
  pose proof (skb_uid_frame sz count p k) as (_ & _ & _ & _ & _ & _ & _ & Ec). pose proof (skb_uid_verdict sz count p k) as Ev.
  destruct (skb_uid sz count p k) as [r k']. cbn [fst snd] in *. unfold uid_map. rewrite Ec, Ev.
  destruct (pkt_type p =? PACKET_LOOPBACK); [done|]. cbn [orb negb andb]. destruct (packet_allowed sz p k); [apply count_app_uid|done].
Qed.

Lemma packet_counts count p k r k' uid : skb_uid sz count p k = (r, k') -> (size (dom (uid_map k) ∪ {[sock_uid p]}) <= APP_STATS_MAP_SIZE sz)%nat ->
  uid_map k' !! uid = (if counted uid p r then Some (count (skb_len p) (uid_stats uid k)) else uid_map k !! uid) /\
  dom (uid_map k') ⊆ dom (uid_map k) ∪ {[sock_uid p]}.
Proof.
  intros E Hs. pose proof (skb_uid_counts count p k) as Hc. rewrite E in Hc. rewrite Hc. unfold counted.
  destruct (negb _ && _) eqn:Eb.
  - split.
    + rewrite counted_lookup by done. destruct (Z.eqb_spec (sock_uid p) uid) as [->|Hne]; [rewrite decide_True by done|rewrite decide_False by congruence];
        cbn [andb]; by rewrite ?Eb.
    + intros u. rewrite !elem_of_dom, counted_lookup by done. destruct (decide _) as [->|]; [set_solver|]. rewrite elem_of_union, elem_of_dom. by left.
  - split; [|set_solver]. rewrite <- andb_assoc, Eb, andb_false_r. done.
Qed.

Lemma exec_counts uid e k : (size (dom (uid_map k) ∪ packet_uids e) <= APP_STATS_MAP_SIZE sz)%nat ->
  let k' := (exec e k).2 in
  uid_stats uid k' = foldl count_one (uid_stats uid k) (passes uid e k) /\
  (is_Some (uid_map k !! uid) \/ passes uid e k <> [] -> is_Some (uid_map k' !! uid)) /\
  dom (uid_map k') ⊆ dom (uid_map k) ∪ packet_uids e.
Proof.
  intros Hs. cbv zeta.
  assert (Hkeep : uid_map (exec e k).2 = uid_map k -> passes uid e k = [] -> uid_stats uid (exec e k).2 = foldl count_one (uid_stats uid k) (passes uid e k) /\
    (is_Some (uid_map k !! uid) \/ passes uid e k <> [] -> is_Some (uid_map (exec e k).2 !! uid)) /\
    dom (uid_map (exec e k).2) ⊆ dom (uid_map k) ∪ packet_uids e).
  { intros Em ->. unfold uid_stats. rewrite Em. split_and!; [done|by intros [|]|set_solver]. }
  assert (Hpkt : forall count f p r k' b, skb_uid sz count p (set_firewall f k) = (r, k') -> (forall v len, count len v = count_one v (b, len)) ->
    (size (dom (uid_map k) ∪ {[sock_uid p]}) <= APP_STATS_MAP_SIZE sz)%nat ->
    let l := if counted uid p r then [(b, skb_len p)] else [] in
    uid_stats uid k' = foldl count_one (uid_stats uid k) l /\ (is_Some (uid_map k !! uid) \/ l <> [] -> is_Some (uid_map k' !! uid)) /\
    dom (uid_map k') ⊆ dom (uid_map k) ∪ {[sock_uid p]}).
  { intros count f p r k' b E Hb Hr. destruct (packet_counts count p (set_firewall f k) r k' uid E Hr) as [H1 H2]. cbv zeta. unfold uid_stats at 1. rewrite H1.
    change (uid_map (set_firewall f k)) with (uid_map k) in *. change (uid_stats uid (set_firewall f k)) with (uid_stats uid k) in *.
    destruct (counted uid p r); cbn; split_and!; try done; try (by intros [|]). }
  destruct e as [dns now p|dns now p|p|ctx|cookie|ctx|u pol f|u|l|i j t|i j|l|u| |f n| |i|i j|pa u| |f]; try (apply Hkeep; done).
  - cbn [packet_uids passes exec] in *. unfold bpf_cgroup_skb_uid_ingress in *. destruct (FM.netfirewall_policy_ingress _ _ _ _) as [act f].
    destruct (negb _); [apply Hkeep; [done|cbn; unfold counted; by rewrite andb_false_r]|].
    destruct (skb_uid sz count_rx p (set_firewall f k)) as [r k'] eqn:E. by apply (Hpkt count_rx f p r k' true).
  - cbn [packet_uids passes exec] in *. unfold bpf_cgroup_skb_uid_egress in *. destruct (FM.netfirewall_policy_egress _ _ _ _) as [act f].
    destruct (negb _); [apply Hkeep; [done|cbn; unfold counted; by rewrite andb_false_r]|].
    destruct (skb_uid sz count_tx p (set_firewall f k)) as [r k'] eqn:E. by apply (Hpkt count_tx f p r k' false).
  - apply Hkeep; [|done]. cbn. unfold socket_iface_stats. by destruct (_ =? _).
  - apply Hkeep; [|done]. cbn. unfold inet_create_socket. by repeat case_match.
  - apply Hkeep; [|done]. cbn. unfold inet_check. destruct (if negb _ then _ else _) as [u a]. by destruct (inet_check_policy _ _ _ _).
  - apply Hkeep; [|done]. cbn. unfold DeleteStatsInfo, uid_map. cbn. by repeat case_match.
Qed.

Lemma run_counts uid es : forall k, (size (dom (uid_map k) ∪ all_uids es) <= APP_STATS_MAP_SIZE sz)%nat ->
  uid_stats uid (run es k) = foldl count_one (uid_stats uid k) (passed uid es k) /\
  (is_Some (uid_map k !! uid) \/ passed uid es k <> [] -> is_Some (uid_map (run es k) !! uid)).
Proof.
  induction es as [|e es IH]; intros k Hs; [split; [done|by intros [|]]|]. cbn [run foldl passed]. unfold all_uids in Hs. cbn in Hs.
  assert (Hs1 : (size (dom (uid_map k) ∪ packet_uids e) <= APP_STATS_MAP_SIZE sz)%nat).
  { etransitivity; [apply subseteq_size|exact Hs]. set_solver. }
  destruct (exec_counts uid e k Hs1) as (E1 & S1 & D1).
  destruct (IH (exec e k).2) as (E2 & S2).
  { etransitivity; [apply subseteq_size|exact Hs]. unfold all_uids. set_solver. }
  unfold run in E2, S2. rewrite E2, E1, foldl_app. split; [done|]. intros H. apply S2.
  destruct (passes uid e k) eqn:Ep; [|left; apply S1; by right]. cbn in H. destruct H as [H|H]; [left; apply S1; by left|by right].
Qed.

(** The bytes and the packets of a direction. *)
Definition bytes (rx : bool) (l : list (bool * Z)) : Z := foldr (fun x n => if Bool.eqb x.1 rx then x.2 + n else n) 0 l.
Definition packets (rx : bool) (l : list (bool * Z)) : Z := foldr (fun x n => if Bool.eqb x.1 rx then 1 + n else n) 0 l.

Definition stats_typed (v : stats_value) : Prop :=
  in_width 64 (rxPackets v) /\ in_width 64 (rxBytes v) /\ in_width 64 (txPackets v) /\ in_width 64 (txBytes v).

Lemma wrap_add_l w x y : wrap w (wrap w x + y) = wrap w (x + y).
Proof. unfold wrap. apply Zplus_mod_idemp_l. Qed.

Lemma wrap_in_width w x : 0 <= w -> in_width w (wrap w x).
Proof. intros Hw. unfold in_width, wrap. apply Z.mod_pos_bound. by apply Z.pow_pos_nonneg. Qed.

Lemma counted_sums l : forall v, stats_typed v -> foldl count_one v l =
  mkStats (u64 (rxPackets v + packets true l)) (u64 (rxBytes v + bytes true l)) (u64 (txPackets v + packets false l)) (u64 (txBytes v + bytes false l)).
Proof.
  induction l as [|[b len] l IH]; intros v (H1 & H2 & H3 & H4).
  - cbn. rewrite !Z.add_0_r, !wrap_small by done. by destruct v.
  - cbn [foldl]. rewrite IH by (destruct b; split_and!; try done; by apply wrap_in_width).
    destruct b; cbn [count_one fst snd count_rx count_tx rxPackets rxBytes txPackets txBytes packets bytes foldr Bool.eqb]; by rewrite !wrap_add_l, <- !Z.add_assoc.
Qed.

(** C21: The counters of an application are exact: after any run in which the map of the counters can hold every user that
    sends or receives, the service reports for a user the bytes and packets it had before plus those of its packets that passed the
    firewall and the access policies, loopback excepted, as 64-bit numbers; packets that were dropped, packets of others, calls
    on sockets and everything the services do leave them alone. *)
Theorem traffic_counted uid es k : loaded = true -> (size (dom (uid_map k) ∪ all_uids es) <= APP_STATS_MAP_SIZE sz)%nat ->
  stats_typed (uid_stats uid k) -> is_Some (uid_map k !! uid) \/ passed uid es k <> [] ->
  let before := uid_stats uid k in
  let l := passed uid es k in
  let report t := GetUidStats loaded t uid (counters (run es k)) in
  report STATS_TYPE_RX_BYTES = (NETSYS_SUCCESS, u64 (rxBytes before + bytes true l)) /\
  report STATS_TYPE_TX_BYTES = (NETSYS_SUCCESS, u64 (txBytes before + bytes false l)) /\
  report STATS_TYPE_RX_PACKETS = (NETSYS_SUCCESS, u64 (rxPackets before + packets true l)) /\
  report STATS_TYPE_TX_PACKETS = (NETSYS_SUCCESS, u64 (txPackets before + packets false l)).
Proof.
  intros Hl Hs Ht Hp. cbv zeta. destruct (run_counts uid es k Hs) as [E S]. destruct (S Hp) as [v Ev].
  unfold GetUidStats, Read. rewrite Hl. change (app_uid_stats_map (counters (run es k))) with (uid_map (run es k)). rewrite Ev.
  unfold uid_stats at 1 in E. rewrite Ev in E. cbn [from_option id] in E. subst v. by rewrite counted_sums.
Qed.

(** ** Limits *)

Definition ring k : list Z := net_stats_ringbuf_map (notify k).

(** The reports an event makes: the records it leaves at the end of the ring buffer that the service reads. *)
Definition reports e k : list Z := drop (length (ring k)) (ring (exec e k).2).
Fixpoint reported (es : list Event) k : list Z := match es with [] => [] | e :: es => reports e k ++ reported es (exec e k).2 end.

Definition sets_limit (flag : Z) e : bool := match e with LimitSet f _ => f =? flag | _ => false end.

(** A limit that cannot be passed any more. *)
Definition spent (flag : Z) (n : Notify) : Prop := limits_stats_map n !! flag = Some UINT64_MAX.

(** What a test of limits does: a spent limit stays spent and is not reported, a reported limit is spent. *)
Definition tests_limits (test : Notify -> Z * Notify) : Prop := forall n,
  (forall f, spent f n -> spent f (test n).2) /\
  (forall f, f <> UINT8_MAX -> spent f n -> (test n).1 <> f) /\
  ((test n).1 <> UINT8_MAX -> spent (test n).1 (test n).2).

Lemma is_exceed_tests mark used : in_width 64 used -> tests_limits (is_exceed mark used).
Proof.
  intros Hu n. unfold is_exceed, spent. set (m := lookup_or_new _ mark _ (limits_stats_map n)).
  assert (Hm : forall f, limits_stats_map n !! f = Some UINT64_MAX -> m !! f = Some UINT64_MAX) by (intros f; apply lookup_or_new_mono).
  destruct (m !! mark) as [x|] eqn:Em; [|by split_and!].
  destruct (Z.ltb_spec x used) as [Hx|Hx]; [|by split_and!].
  unfold update_any. rewrite bool_decide_eq_true_2 by (by eexists). cbn. split_and!.
  - intros f Hf. destruct (decide (f = mark)) as [->|]; [by rewrite lookup_insert_eq|]. rewrite lookup_insert_ne by done. by apply Hm.
  - intros f _ Hf ->. apply Hm in Hf. rewrite Hf in Em. injection Em as <-. unfold in_width, UINT64_MAX in *. lia.
  - intros _. by rewrite lookup_insert_eq.
Qed.

Lemma tests_limits_or t1 t2 : tests_limits t1 -> tests_limits t2 ->
  tests_limits (fun n => let '(flag, n) := t1 n in if negb (flag =? UINT8_MAX) then (flag, n) else t2 n).
Proof.
  intros H1 H2 n. destruct (H1 n) as (A1 & B1 & C1). destruct (t1 n) as [flag n1]. cbn [fst snd] in *.
  destruct (Z.eqb_spec flag UINT8_MAX) as [->|Hf]; cbn [negb]; [|done].
  destruct (H2 n1) as (A2 & B2 & C2). split_and!; [intros f Hf; by apply A2, A1|intros f Hn Hf; apply B2; [done|by apply A1]|done].
Qed.

Lemma first_exceeded_tests slot used : in_width 64 used -> tests_limits (first_exceeded slot used).
Proof.
  intros Hu. apply (tests_limits_or (is_exceed_mothly_limit slot used)); [by apply is_exceed_tests|].
  apply (tests_limits_or (is_exceed_mothly_mark slot used)); by apply is_exceed_tests.
Qed.

Lemma traffic_flag_tests p i : tests_limits (traffic_flag p i).
Proof.
  intros n. unfold traffic_flag. destruct (slot_of i n) as [slot|]; [|split_and!; [done|by intros f Hf _ ?|done]].
  unfold update_new_incre_value. set (m := lookup_or_new _ i 0 (increment_stats_map n)).
  assert (Hk : forall m', (forall f, spent f n -> spent f (set_increments m' n))) by done.
  destruct (m !! i) as [old|]; cbn.
  - destruct (u64 (old + skb_len p) =? 0); [split_and!; [done|by intros f Hf _ ?|done]|].
    exact (first_exceeded_tests slot (u64 (old + skb_len p)) (wrap_in_width 64 (old + skb_len p) ltac:(done)) (set_increments (<[i := u64 (old + skb_len p)]> m) n)).
  - split_and!; [done|by intros f Hf _ ?|done].
Qed.

(** What a packet leaves in the ring buffer. *)
Definition submitted p k : list Z :=
  let flag := (traffic_flag p (ifindex p) (notify k)).1 in
  if (pkt_type p =? PACKET_LOOPBACK) || (flag =? UINT8_MAX) || negb (length (ring k) <? ring_records sz)%nat then [] else [flag].

Lemma is_exceed_events mark used n : net_stats_ringbuf_map (is_exceed mark used n).2 = net_stats_ringbuf_map n.
Proof. unfold is_exceed. by repeat case_match. Qed.

Lemma first_exceeded_events slot used n : net_stats_ringbuf_map (first_exceeded slot used n).2 = net_stats_ringbuf_map n.
Proof.
  unfold first_exceeded, is_exceed_mothly_limit, is_exceed_mothly_mark, is_exceed_daily_mark.
  set (a := u8 (slot * TRAFFIC_NOTIFY_TYPE + 0)). set (b := u8 (slot * TRAFFIC_NOTIFY_TYPE + 1)).
  pose proof (is_exceed_events a used n) as Ha. destruct (is_exceed a used n) as [x na]. cbn [snd] in Ha. rewrite <- Ha.
  destruct (negb _); [done|]. pose proof (is_exceed_events b used na) as Hb. destruct (is_exceed b used na) as [y nb]. cbn [snd] in Hb. rewrite <- Hb.
  destruct (negb _); [done|]. apply is_exceed_events.
Qed.

Lemma traffic_flag_events p i n : net_stats_ringbuf_map (traffic_flag p i n).2 = net_stats_ringbuf_map n.
Proof.
  unfold traffic_flag, update_new_incre_value. destruct (slot_of i n) as [slot|]; [|done].
  destruct (lookup_or_new _ i 0 _ !! i) as [old|]; [|done]. destruct (_ =? 0); [done|]. by rewrite first_exceeded_events.
Qed.

Lemma reports_packet p k : reports (PacketSeen p) k = submitted p k.
Proof.
  unfold reports, submitted. cbn [exec]. unfold socket_iface_stats. destruct (pkt_type p =? PACKET_LOOPBACK); [by rewrite drop_all|].
  unfold ring at 2. cbn [snd notify set_notify orb]. unfold process_traffic_notify. pose proof (traffic_flag_events p (ifindex p) (notify k)) as E.
  destruct (traffic_flag p (ifindex p) (notify k)) as [x n]. cbn [fst snd] in *. fold (ring k) in E.
  destruct (x =? UINT8_MAX); cbn [negb orb]; [by rewrite E, drop_all|].
  unfold socket_ringbuf_net_stats_event_submit, ringbuf_submit. rewrite E. destruct (_ <? _)%nat; cbn; [by rewrite drop_app_length|by rewrite drop_all].
Qed.

Lemma passed_submitted p k slot : pkt_type p <> PACKET_LOOPBACK -> slot_of (ifindex p) (notify k) = Some slot ->
  (length (ring k) < ring_records sz)%nat -> (traffic_flag p (ifindex p) (notify k)).1 = slot * TRAFFIC_NOTIFY_TYPE ->
  ring (exec (PacketSeen p) k).2 = ring k ++ [slot * TRAFFIC_NOTIFY_TYPE].
Proof.
  intros Hl Hs Hr Hf. cbn [exec]. unfold socket_iface_stats, ring at 1. rewrite (proj2 (Z.eqb_neq _ _) Hl). cbn [snd notify set_notify].
  unfold process_traffic_notify. pose proof (traffic_flag_events p (ifindex p) (notify k)) as E.
  destruct (traffic_flag p (ifindex p) (notify k)) as [x n]. cbn [fst snd] in *. subst x.
  assert (Hs' : slot = 0 \/ slot = 1) by (revert Hs; unfold slot_of; repeat case_bool_decide; naive_solver).
  replace (slot * TRAFFIC_NOTIFY_TYPE =? UINT8_MAX) with false by (by destruct Hs' as [->| ->]). cbn [negb].
  unfold socket_ringbuf_net_stats_event_submit, ringbuf_submit. rewrite E. fold (ring k). by rewrite (proj2 (Nat.ltb_lt _ _) Hr).
Qed.

(** An event that reports nothing leaves the buffer as it is, or empties it. *)
Lemma reports_none e k : ring (exec e k).2 = ring k \/ ring (exec e k).2 = [] -> reports e k = [].
Proof. unfold reports. intros [-> | ->]; [apply drop_all|apply drop_nil]. Qed.

Lemma exec_spent flag e k : flag <> UINT8_MAX -> sets_limit flag e = false ->
  (spent flag (notify k) -> spent flag (notify (exec e k).2) /\ flag ∉ reports e k) /\
  (flag ∈ reports e k -> reports e k = [flag] /\ spent flag (notify (exec e k).2)).
Proof.
  intros Hf He.
  assert (Hkeep : (spent flag (notify k) -> spent flag (notify (exec e k).2)) -> ring (exec e k).2 = ring k \/ ring (exec e k).2 = [] ->
    (spent flag (notify k) -> spent flag (notify (exec e k).2) /\ flag ∉ reports e k) /\
    (flag ∈ reports e k -> reports e k = [flag] /\ spent flag (notify (exec e k).2))).
  { intros Hs Hr. apply reports_none in Hr as ->. split; [|set_solver]. intros H. split; [auto|set_solver]. }
  destruct e as [dns now p|dns now p|p|ctx|cookie|ctx|u pol f|u|l|i j t|i j|l|u| |f n| |i|i j|pa u| |f]; cbn [sets_limit] in He;
    try (apply Hkeep; [done|by left]); try (apply Hkeep; [done|by right]).
  - apply Hkeep; cbn; unfold bpf_cgroup_skb_uid_ingress; (destruct (FM.netfirewall_policy_ingress _ _ _ _) as [act f]);
      (destruct (negb _); [by try left|]); pose proof (skb_uid_frame sz count_rx p (set_firewall f k)) as (En & _); unfold spent, ring; rewrite En; by try left.
  - apply Hkeep; cbn; unfold bpf_cgroup_skb_uid_egress; (destruct (FM.netfirewall_policy_egress _ _ _ _) as [act f]);
      (destruct (negb _); [by try left|]); pose proof (skb_uid_frame sz count_tx p (set_firewall f k)) as (En & _); unfold spent, ring; rewrite En; by try left.
  - rewrite reports_packet. unfold submitted. cbn [exec]. unfold socket_iface_stats.
    destruct (pkt_type p =? PACKET_LOOPBACK); cbn [snd notify set_notify orb]; [split; [intros H; split; [done|set_solver]|set_solver]|].
    unfold process_traffic_notify. destruct (traffic_flag_tests p (ifindex p) (notify k)) as (A & B & C).
    destruct (traffic_flag p (ifindex p) (notify k)) as [x n]. cbn [fst snd] in *.
    assert (Hn : spent flag n -> spent flag (if negb (x =? UINT8_MAX) then socket_ringbuf_net_stats_event_submit sz x n else n)) by (by destruct (negb _)).
    destruct (Z.eqb_spec x UINT8_MAX) as [->|Hx]; cbn [orb]; [split; [|set_solver]; intros H; split; [by apply A|set_solver]|].
    destruct (negb (_ <? _)%nat); (split; [intros H; split; [apply Hn; by apply A|apply B in H; [|done]; set_solver]|]); [set_solver|].
    rewrite list_elem_of_singleton. intros ->. split; [done|]. apply Hn, C, Hx.
  - apply Hkeep; cbn; unfold inet_create_socket; repeat case_match; by try left.
  - apply Hkeep; cbn; unfold inet_check; (destruct (if negb _ then _ else _) as [u a]); (destruct (inet_check_policy _ _ _ _)); by try left.
  - apply Hkeep; cbn; unfold SetNetStateTrafficMap, spent, ring; (destruct (negb loaded); [by try left|]); unfold Write; apply Z.eqb_neq in He;
      pose proof (update_any_lookup TRAFFIC_INCREASE_MAP_SIZE f n (limits_stats_map (notify k)) flag) as H;
      (destruct (update_any _ _ _ _) as [[] m]; cbn in *; [|by try left]); [|by left]. destruct H as [_ H]. by rewrite H.
  - apply Hkeep; cbn; unfold ClearIncreaseTrafficMap, spent, ring; repeat case_match; by try left.
  - apply Hkeep; cbn; unfold DeleteIncreaseTrafficMap, spent, ring; repeat case_match; by try left.
  - apply Hkeep; cbn; unfold UpdateIfIndexMap, spent, ring; repeat case_match; by try left.
Qed.

Definition times (flag : Z) (l : list Z) : nat := length (List.filter (Z.eqb flag) l).

Lemma times_app flag l1 l2 : times flag (l1 ++ l2) = (times flag l1 + times flag l2)%nat.
Proof. unfold times. by rewrite List.filter_app, length_app. Qed.

Lemma times_none flag l : flag ∉ l -> times flag l = O.
Proof.
  unfold times. induction l as [|x l IH]; [done|]. intros Hn. cbn. rewrite (proj2 (Z.eqb_neq flag x)) by set_solver. apply IH. set_solver.
Qed.

Lemma spent_silent flag es : flag <> UINT8_MAX -> Forall (fun e => sets_limit flag e = false) es -> forall k,
  spent flag (notify k) -> times flag (reported es k) = O.
Proof.
  intros Hf. induction 1 as [|e es He Hes IH]; intros k Hs; [done|]. cbn [reported]. rewrite times_app.
  destruct (exec_spent flag e k Hf He) as [H _]. destruct (H Hs) as [H1 H2]. rewrite (times_none _ _ H2). by apply IH.
Qed.

(** C22: Limits are reported once, and in time: until the service sets a limit again, at most one record of its passing is put into
    the ring buffer that the service reads, over any run; and the first packet of the interface of a card that takes its sum
    over the monthly limit puts a record of this limit at the end of the buffer, provided the buffer has room (when it is full
    the record is lost, and with it the report). *)
Theorem limit_reported_once flag es k : flag <> UINT8_MAX -> Forall (fun e => sets_limit flag e = false) es ->
  (times flag (reported es k) <= 1)%nat /\
  forall p slot sum limit, pkt_type p <> PACKET_LOOPBACK -> slot_of (ifindex p) (notify k) = Some slot ->
    increment_stats_map (notify k) !! ifindex p = Some sum -> limits_stats_map (notify k) !! (slot * TRAFFIC_NOTIFY_TYPE) = Some limit ->
    (length (ring k) < ring_records sz)%nat -> 0 <= limit < sum + skb_len p -> sum + skb_len p < 2 ^ 64 -> ring (exec (PacketSeen p) k).2 = ring k ++ [slot * TRAFFIC_NOTIFY_TYPE].
Proof.
  intros Hf Hes. split.
  - revert k. induction Hes as [|e es He Hes IH]; intros k; [cbn; lia|]. cbn [reported]. rewrite times_app.
    destruct (exec_spent flag e k Hf He) as [_ H]. destruct (decide (flag ∈ reports e k)) as [Hin|Hin].
    + destruct (H Hin) as [-> Hs]. rewrite (spent_silent flag es Hf Hes _ Hs). unfold times. cbn. rewrite Z.eqb_refl. cbn. lia.
    + rewrite (times_none _ _ Hin). apply IH.
  - intros p slot sum limit Hl Hslot Hsum Hlim Hroom Hlt Hw.
    enough (Ef : (traffic_flag p (ifindex p) (notify k)).1 = slot * TRAFFIC_NOTIFY_TYPE) by (by apply (passed_submitted p k slot)).
    assert (Hs : slot = 0 \/ slot = 1) by (revert Hslot; unfold slot_of; repeat case_bool_decide; naive_solver).
    unfold traffic_flag, update_new_incre_value, lookup_or_new. rewrite Hslot, Hsum. cbn. rewrite Hsum, wrap_small by (unfold in_width; lia). rewrite (proj2 (Z.eqb_neq _ 0)) by lia.
    unfold first_exceeded, is_exceed_mothly_limit, is_exceed, lookup_or_new. cbn [limits_stats_map set_increments]. rewrite Z.add_0_r.
    assert (Em : u8 (slot * TRAFFIC_NOTIFY_TYPE) = slot * TRAFFIC_NOTIFY_TYPE) by (by destruct Hs as [->| ->]). rewrite Em, Hlim, Hlim, (proj2 (Z.ltb_lt _ _)) by lia.
    assert (En : slot * TRAFFIC_NOTIFY_TYPE =? UINT8_MAX = false) by (by destruct Hs as [->| ->]). by rewrite En.
Qed.

End Runs.

(** ** Examples *)

(** The interface 3 is a Wi-Fi network, and the default network is cellular. *)
Definition boot_kernel : Kernel :=
  mkKernel (mkCounters ∅ ∅ ∅ ∅ ∅) (mkNotify ∅ ∅ ∅ []) (mkAccess ∅ ∅ ∅ ∅ ∅ []) ∅ ∅ ∅ (FM.demo_kernel FM.empty_manager).
Definition setup : list Event := [InterfaceAdd 100 3 1; BearerChange [0]].
Definition cellular_only : NetworkAccessPolicy := PolicyParcel.mkAccess false true false false.

Definition packet (iface len : Z) : skb := mkSkb (FM.mkSkb FM.AF_INET [] 20010010 iface None) 0 0 len 0 0 0 0 7.
Definition call_of (uid : Z) : sock_addr := mkSockAddr uid 1 1 (Some (0, 3)).

Lemma access_policy_enforced_witness :
  let k2 := run normal_sizes true setup (exec normal_sizes true (PolicySet 20010010 cellular_only false) boot_kernel).2 in
  (exec normal_sizes true (PacketIn FM.SK_PASS 0 (packet 3 100)) k2).1 = 0 /\
  (exec normal_sizes true (PacketOut FM.SK_PASS 0 (packet 4 100)) k2).1 = 1 /\
  (exec normal_sizes true (SocketCall (call_of 20010010)) k2).1 = 0.
Proof.
  destruct (exec normal_sizes true (PolicySet 20010010 cellular_only false) boot_kernel) as [r k1] eqn:E.
  assert (Hr : r = (exec normal_sizes true (PolicySet 20010010 cellular_only false) boot_kernel).1) by (by rewrite E).
  assert (Hk : k1 = (exec normal_sizes true (PolicySet 20010010 cellular_only false) boot_kernel).2) by (by rewrite E).
  assert (E0 : exec normal_sizes true (PolicySet 20010010 cellular_only false) boot_kernel = (NETMANAGER_SUCCESS, k1)) by (rewrite E, Hr; by vm_compute).
  assert (Hes : Forall (fun e => about_policy 20010010 e = false) setup) by (by repeat constructor). cbn [snd]. cbv zeta.
  pose proof (fun p => access_policy_enforced normal_sizes true 20010010 cellular_only false boot_kernel k1 setup p FM.SK_PASS 0 (call_of 20010010) E0 Hes) as H.
  cbv zeta in H. split_and!.
  - etransitivity; [apply (proj1 (H (packet 3 100))); rewrite ?Hk; by vm_compute|]. rewrite ?Hk. by vm_compute.
  - etransitivity; [apply (proj1 (H (packet 4 100))); rewrite ?Hk; by vm_compute|]. rewrite ?Hk. by vm_compute.
  - etransitivity; [apply (proj2 (H (packet 3 100))); rewrite ?Hk; [by vm_compute|]; vm_compute; by eexists|]. rewrite ?Hk. by vm_compute.
Defined.

(** 100 bytes received on the Wi-Fi network are dropped; 200 received and 60 sent on the cellular network count. *)
Definition traffic : list Event :=
  setup ++ [PolicySet 20010010 cellular_only false; PacketIn FM.SK_PASS 0 (packet 3 100); PacketIn FM.SK_PASS 0 (packet 4 200);
            SocketCall (call_of 20010010); PacketOut FM.SK_PASS 0 (packet 4 60)].

Lemma traffic_counted_witness :
  let report t := GetUidStats true t 20010010 (counters (run normal_sizes true traffic boot_kernel)) in
  report STATS_TYPE_RX_BYTES = (0, 200) /\ report STATS_TYPE_TX_BYTES = (0, 60) /\
  report STATS_TYPE_RX_PACKETS = (0, 1) /\ report STATS_TYPE_TX_PACKETS = (0, 1).
Proof.
  cbv zeta. destruct (traffic_counted normal_sizes true 20010010 traffic boot_kernel) as (H1 & H2 & H3 & H4).
  - reflexivity.
  - apply Nat.leb_le. vm_compute. reflexivity.
  - by vm_compute.
  - right. vm_compute. discriminate.
  - rewrite H1, H2, H3, H4. clear. vm_compute. repeat split.
Defined.

(** The card's interface is 5 and its monthly limit 150 bytes: the second packet of 100 bytes is reported, the third is not. *)
Definition limited : Kernel := run normal_sizes true [IfIndexSet 0 5; LimitSet 0 150; PacketSeen (packet 5 100)] boot_kernel.

Lemma limit_reported_once_witness :
  (times 0 (reported normal_sizes true (replicate 3 (PacketSeen (packet 5 100))) limited) <= 1)%nat /\
  ring (exec normal_sizes true (PacketSeen (packet 5 100)) limited).2 = [0].
Proof.
  destruct (limit_reported_once normal_sizes true 0 (replicate 3 (PacketSeen (packet 5 100))) limited) as [H1 H2].
  - discriminate.
  - by repeat constructor.
  - split; [exact H1|]. apply (H2 (packet 5 100) 0 100 150); try by vm_compute. apply Nat.ltb_lt. by vm_compute.
Defined.

(** With the ring buffer full the report is lost, and no later packet repeats it. *)
Example full_ring_loses_report :
  let full := set_notify (let n := notify limited in
    mkNotify (limits_stats_map n) (increment_stats_map n) (ifindex_map n) (replicate (ring_records normal_sizes) 0)) limited in
  reported normal_sizes true (replicate 3 (PacketSeen (packet 5 100))) full = [].
Proof. vm_compute. reflexivity. Qed.

End NetsysRun.
