(* ===== verification/AccessStore.v ===== *)
(** * The database of the access policies
    (services/netpolicymanager/src/net_access_policy_database.cpp)

    The access policies are rows of a table with the user as primary key, kept in
    two databases: every change is made to the main one and then to a backup, from which
    the main one is restored when it turns out to be corrupt.

    The database library is an interface ([Rdb]) with its documented behaviour as
    laws ([RdbLaws]).  [stored m] says that both databases hold the table [m], where the
    main one may be corrupt: it is kept by every operation, with the table changed as
    the operation says ([database_refines]). *)

From S2P Require Import Prelude.

Module AccessStore.

Definition NETMANAGER_SUCCESS : Z := 0.
Definition NETMANAGER_ERROR : Z := -1.
Definition NETMANAGER_ERR_IPC_CONNECT_STUB_FAIL : Z := 2100207.
Definition E_OK : Z := 0.
Definition E_SQLITE_CORRUPT : Z := 27394103.

(** [NetAccessPolicyData] without the user, which is the key. *)
Record NetAccessPolicyData := mkData { wifiPolicy : Z; cellularPolicy : Z; setFromConfigFlag : Z }.

(** [DATABASE_NAME] and [DATABASE_BACK_NAME]. *)
Inductive DB := MAIN | BACKUP.
#[global] Instance DB_dec : EqDecision DB.
Proof. solve_decision. Defined.

(** What a database holds. *)
Inductive Content := Corrupt | NoTable | Rows (t : gmap Z NetAccessPolicyData).

(** ** The database library *)

Class Rdb (D : Type) := {
  OpenStore : DB -> D -> (bool * Z) * D;                    (* RdbHelper::GetRdbStore: a store, the error *)
  DeleteRdbStore : DB -> D -> Z * D;
  Restore : DB -> DB -> D -> Z * D;                         (* into, from *)
  CreateTable : DB -> D -> Z * D;                           (* CREATE TABLE IF NOT EXISTS *)
  InsertRow : DB -> Z -> NetAccessPolicyData -> D -> Z * D;
  UpdateRow : DB -> Z -> NetAccessPolicyData -> D -> Z * D;
  DeleteRow : DB -> Z -> D -> (Z * Z) * D;                  (* the result, the number of rows *)
  QueryRows : DB -> D -> option (list (Z * NetAccessPolicyData));
  QueryRow : DB -> Z -> D -> option (Z * list (Z * NetAccessPolicyData))   (* the result of GetRowCount, the rows *)
}.

(** One database gets a new content, and the other stays. *)
Definition sets {D} (content : DB -> D -> Content) (db : DB) (c : Content) (d d' : D) : Prop :=
  content db d' = c /\ forall db', db' <> db -> content db' d' = content db' d.

Class RdbLaws (D : Type) `{Rdb D} := {
  content : DB -> D -> Content;
  l_open db d : (OpenStore db d).2 = d /\
    (OpenStore db d).1 = match content db d with Corrupt => (false, E_SQLITE_CORRUPT) | _ => (true, E_OK) end;
  l_drop db d : sets content db NoTable d (DeleteRdbStore db d).2;
  l_restore into from d : into <> from -> content into d <> Corrupt ->
    match content from d with
    | Corrupt => (Restore into from d).1 <> E_OK /\ sets content into (content into d) d (Restore into from d).2
    | c => (Restore into from d).1 = E_OK /\ sets content into c d (Restore into from d).2
    end;
  l_create db d : sets content db (match content db d with NoTable => Rows ∅ | c => c end) d (CreateTable db d).2;
  l_insert db uid row d :
    match content db d with
    | Rows t => match t !! uid with
        | None => (InsertRow db uid row d).1 = E_OK /\ sets content db (Rows (<[uid := row]> t)) d (InsertRow db uid row d).2
        | Some _ => (InsertRow db uid row d).1 <> E_OK /\ sets content db (Rows t) d (InsertRow db uid row d).2
        end
    | c => (InsertRow db uid row d).1 <> E_OK /\ sets content db c d (InsertRow db uid row d).2
    end;
  l_update db uid row d :
    match content db d with
    | Rows t => (UpdateRow db uid row d).1 = E_OK /\ sets content db (Rows (alter (fun _ => row) uid t)) d (UpdateRow db uid row d).2
    | c => (UpdateRow db uid row d).1 <> E_OK /\ sets content db c d (UpdateRow db uid row d).2
    end;
  l_delete db uid d :
    match content db d with
    | Rows t => (DeleteRow db uid d).1 = (E_OK, if bool_decide (is_Some (t !! uid)) then 1 else 0) /\
                sets content db (Rows (delete uid t)) d (DeleteRow db uid d).2
    | c => (DeleteRow db uid d).1.1 <> E_OK /\ sets content db c d (DeleteRow db uid d).2
    end;
  l_query_all db d : match content db d with
    | Rows t => exists l, QueryRows db d = Some l /\ l ≡ₚ map_to_list t
    | _ => default [] (QueryRows db d) = []
    end;
  l_query db uid d : match content db d with
    | Rows t => QueryRow db uid d = Some (E_OK, match t !! uid with Some row => [(uid, row)] | None => [] end)
    | _ => from_option (fun r => r.1 <> E_OK) True (QueryRow db uid d)
    end
}.

(** ** The operations *)

Section Operations.
Context {D : Type} `{R : Rdb D}.

(** An object [NetAccessPolicyRDB]: which stores it has opened, and the databases. *)
Record NetAccessPolicyRDB := mkRDB { rdbStore_ : bool; backupRdbStore_ : bool; disk : D }.
Definition new_RDB (d : D) : NetAccessPolicyRDB := mkRDB false false d.
Definition on_disk {A} (f : D -> A * D) (o : NetAccessPolicyRDB) : A * NetAccessPolicyRDB :=
  let '(a, d) := f (disk o) in (a, mkRDB (rdbStore_ o) (backupRdbStore_ o) d).

Definition GetRdbStore (o : NetAccessPolicyRDB) : Z * NetAccessPolicyRDB :=
  if rdbStore_ o then (NETMANAGER_SUCCESS, o) else
  let '((store, errCode), d) := OpenStore MAIN (disk o) in
  if store then (NETMANAGER_SUCCESS, mkRDB true (backupRdbStore_ o) d) else
  if errCode =? E_SQLITE_CORRUPT then
    let '(_, d) := DeleteRdbStore MAIN d in
    let '((store, _), d) := OpenStore MAIN d in
    if store then
      let '(ret, d) := Restore MAIN BACKUP d in
      (if ret =? 0 then NETMANAGER_SUCCESS else NETMANAGER_ERR_IPC_CONNECT_STUB_FAIL, mkRDB true (backupRdbStore_ o) d)
    else (NETMANAGER_ERR_IPC_CONNECT_STUB_FAIL, mkRDB false (backupRdbStore_ o) d)
  else (NETMANAGER_ERR_IPC_CONNECT_STUB_FAIL, mkRDB false (backupRdbStore_ o) d).

Definition GetBackUpRdbStore (o : NetAccessPolicyRDB) : Z * NetAccessPolicyRDB :=
  if backupRdbStore_ o then (NETMANAGER_SUCCESS, o) else
  let '((store, errCode), d) := OpenStore BACKUP (disk o) in
  if store then (NETMANAGER_SUCCESS, mkRDB (rdbStore_ o) true d) else
  if errCode =? E_SQLITE_CORRUPT then
    let '(_, d) := DeleteRdbStore BACKUP d in
    let '((store, _), d) := OpenStore BACKUP d in
    if store then (NETMANAGER_SUCCESS, mkRDB (rdbStore_ o) true d) else (NETMANAGER_ERROR, mkRDB (rdbStore_ o) false d)
  else (NETMANAGER_ERROR, mkRDB (rdbStore_ o) false d).

Definition InitRdbStoreBackupDB (o : NetAccessPolicyRDB) : Z * NetAccessPolicyRDB :=
  let '(ret, o) := GetBackUpRdbStore o in
  if negb (ret =? NETMANAGER_SUCCESS) then (ret, o) else
  let '(_, o) := on_disk (CreateTable BACKUP) o in (NETMANAGER_SUCCESS, o).

Definition InitRdbStore (o : NetAccessPolicyRDB) : Z * NetAccessPolicyRDB :=
  let '(_, o) := InitRdbStoreBackupDB o in
  let '(ret, o) := GetRdbStore o in
  if negb (ret =? NETMANAGER_SUCCESS) then (ret, o) else
  let '(_, o) := on_disk (CreateTable MAIN) o in (NETMANAGER_SUCCESS, o).

Definition UpdateByUidToBackDB (uid : Z) (policy : NetAccessPolicyData) (o : NetAccessPolicyRDB) : Z * NetAccessPolicyRDB :=
  let '(ret, o) := GetBackUpRdbStore o in
  if negb (ret =? NETMANAGER_SUCCESS) then (ret, o) else
  let '(result, o) := on_disk (UpdateRow BACKUP uid policy) o in
  if negb (result =? E_OK) then (result, o) else (NETMANAGER_SUCCESS, o).

Definition UpdateByUid (uid : Z) (policy : NetAccessPolicyData) (o : NetAccessPolicyRDB) : Z * NetAccessPolicyRDB :=
  let '(ret, o) := GetRdbStore o in
  if negb (ret =? NETMANAGER_SUCCESS) then (NETMANAGER_ERROR, o) else
  let '(result, o) := on_disk (UpdateRow MAIN uid policy) o in
  if negb (result =? E_OK) then (result, o) else
  let '(_, o) := UpdateByUidToBackDB uid policy o in (NETMANAGER_SUCCESS, o).

(** The test is of the result of opening the store, not of the insertion. *)
Definition InsertDataToBackDB (uid : Z) (policy : NetAccessPolicyData) (o : NetAccessPolicyRDB) : Z * NetAccessPolicyRDB :=
  let '(ret, o) := GetBackUpRdbStore o in
  if negb (ret =? NETMANAGER_SUCCESS) then (ret, o) else
  let '(insertRet, o) := on_disk (InsertRow BACKUP uid policy) o in
  if negb (ret =? E_OK) then
    let '(ret, o) := UpdateByUidToBackDB uid policy o in
    if negb (ret =? NETMANAGER_SUCCESS) then (NETMANAGER_ERROR, o) else (NETMANAGER_SUCCESS, o)
  else (NETMANAGER_SUCCESS, o).

Definition InsertData (uid : Z) (policy : NetAccessPolicyData) (o : NetAccessPolicyRDB) : Z * NetAccessPolicyRDB :=
  let '(ret, o) := GetRdbStore o in
  if negb (ret =? NETMANAGER_SUCCESS) then (NETMANAGER_ERROR, o) else
  let '(ret, o) := on_disk (InsertRow MAIN uid policy) o in
  let '(ret, o) := if negb (ret =? E_OK) then UpdateByUid uid policy o else (NETMANAGER_SUCCESS, o) in
  if negb (ret =? NETMANAGER_SUCCESS) then (NETMANAGER_ERROR, o) else
  let '(_, o) := InsertDataToBackDB uid policy o in (NETMANAGER_SUCCESS, o).

Definition DeleteByUidToBackDB (uid : Z) (o : NetAccessPolicyRDB) : Z * NetAccessPolicyRDB :=
  let '(ret, o) := GetBackUpRdbStore o in
  if negb (ret =? NETMANAGER_SUCCESS) then (ret, o) else
  let '((result, deletedRows), o) := on_disk (DeleteRow BACKUP uid) o in
  if negb (result =? E_OK) then (result, o) else (deletedRows, o).

Definition DeleteByUid (uid : Z) (o : NetAccessPolicyRDB) : Z * NetAccessPolicyRDB :=
  let '(ret, o) := GetRdbStore o in
  if negb (ret =? NETMANAGER_SUCCESS) then (NETMANAGER_ERROR, o) else
  let '((result, deletedRows), o) := on_disk (DeleteRow MAIN uid) o in
  if negb (result =? E_OK) then (result, o) else
  let '(_, o) := DeleteByUidToBackDB uid o in (deletedRows, o).

Definition QueryAll (o : NetAccessPolicyRDB) : list (Z * NetAccessPolicyData) * NetAccessPolicyRDB :=
  let '(ret, o) := GetRdbStore o in
  if negb (ret =? NETMANAGER_SUCCESS) then ([], o) else (default [] (QueryRows MAIN (disk o)), o).

(** The row of the user among those found. *)
Definition QueryByUid (uid : Z) (o : NetAccessPolicyRDB) : (Z * option NetAccessPolicyData) * NetAccessPolicyRDB :=
  let '(ret, o) := GetRdbStore o in
  if negb (ret =? NETMANAGER_SUCCESS) then ((NETMANAGER_ERROR, None), o) else
  match QueryRow MAIN uid (disk o) with
  | None => ((NETMANAGER_ERROR, None), o)
  | Some (ret, rows) =>
      if negb (ret =? E_OK) then ((ret, None), o) else
      if bool_decide (length rows = O) then ((NETMANAGER_ERROR, None), o) else
      match list_find (fun r => r.1 = uid) rows with
      | Some (_, r) => ((NETMANAGER_SUCCESS, Some r.2), o)
      | None => ((NETMANAGER_ERROR, None), o)
      end
  end.

(** [BackUpPolicyDB] with the two names. *)
Definition BackUpPolicyDB (sourceDB targetDB : DB) (d : D) : Z * D :=
  let '((store, _), d) := OpenStore targetDB d in
  if store then let '(_, d) := Restore targetDB sourceDB d in (NETMANAGER_SUCCESS, d) else (NETMANAGER_ERROR, d).

End Operations.
Arguments NetAccessPolicyRDB D : clear implicits.

(** ** The table behind the databases *)

Section Refinement.
Context {D : Type} `{L : RdbLaws D}.
Implicit Types (o : NetAccessPolicyRDB D) (m : gmap Z NetAccessPolicyData) (d : D).

(** The backup holds the table, and so does the main database unless it is corrupt. *)
Definition stored m d : Prop := content BACKUP d = Rows m /\ (content MAIN d = Rows m \/ content MAIN d = Corrupt).

(** An object with the main database open. *)
Definition opened m o : Prop := rdbStore_ o = true /\ content MAIN (disk o) = Rows m /\ content BACKUP (disk o) = Rows m.

Lemma sets_main c d d' : sets content MAIN c d d' -> content MAIN d' = c /\ content BACKUP d' = content BACKUP d.
Proof. intros [H1 H2]. split; [done|by apply H2]. Qed.
Lemma sets_backup c d d' : sets content BACKUP c d d' -> content BACKUP d' = c /\ content MAIN d' = content MAIN d.
Proof. intros [H1 H2]. split; [done|by apply H2]. Qed.

(** An object on databases that hold the table, with the main database open or not. *)
Definition holds m o : Prop := opened m o \/ (rdbStore_ o = false /\ stored m (disk o)).

Lemma new_holds m d : stored m d -> holds m (new_RDB d).
Proof. intros Hs. by right. Qed.
Lemma opened_holds m o : opened m o -> holds m o.
Proof. by left. Qed.
Lemma opened_stored m o : opened m o -> stored m (disk o).
Proof. intros (_ & H1 & H2). split; [done|by left]. Qed.

(** Opening the main database repairs it. *)
Lemma GetRdbStore_holds m o : holds m o -> exists o', GetRdbStore o = (NETMANAGER_SUCCESS, o') /\ opened m o'.
Proof.
  intros [Ho|[Hf [Hb Hm]]]; unfold GetRdbStore; [exists o; by rewrite (proj1 Ho)|]. rewrite Hf. destruct (l_open MAIN (disk o)) as [E1 E2].
  destruct (OpenStore MAIN (disk o)) as [[st err] d]. cbn [fst snd] in *. subst d.
  destruct Hm as [Hm|Hm]; rewrite Hm in E2; injection E2 as -> ->; [by eexists|]. cbn.
  destruct (sets_main _ _ _ (l_drop MAIN (disk o))) as [D1 D2]. destruct (DeleteRdbStore MAIN (disk o)) as [r d1]. cbn [snd] in *.
  destruct (l_open MAIN d1) as [E3 E4]. destruct (OpenStore MAIN d1) as [[st err] d2]. cbn [fst snd] in *. subst d2. rewrite D1 in E4. injection E4 as -> ->.
  pose proof (l_restore MAIN BACKUP d1 ltac:(done) ltac:(congruence)) as Hr. rewrite D2, Hb in Hr. destruct Hr as [R1 R2%sets_main].
  destruct (Restore MAIN BACKUP d1) as [ret d2]. cbn [fst snd] in *. rewrite R1. cbn. eexists. split; [done|]. destruct R2. split_and!; cbn; congruence.
Qed.

Lemma GetBackUpRdbStore_ok o m : content BACKUP (disk o) = Rows m ->
  exists b, GetBackUpRdbStore o = (NETMANAGER_SUCCESS, mkRDB (rdbStore_ o) b (disk o)).
Proof.
  intros Hb. unfold GetBackUpRdbStore. destruct (backupRdbStore_ o) eqn:E; [exists true; by destruct o; cbn in *; subst|].
  destruct (l_open BACKUP (disk o)) as [E1 E2]. destruct (OpenStore BACKUP (disk o)) as [[st err] d]. cbn [fst snd] in *. subst d.
  rewrite Hb in E2. injection E2 as -> ->. by exists true.
Qed.

(** A change of both tables. *)
Lemma UpdateByUid_holds m o uid row : holds m o -> exists o', UpdateByUid uid row o = (NETMANAGER_SUCCESS, o') /\ opened (alter (fun _ => row) uid m) o'.
Proof.
  intros Ho. unfold UpdateByUid. destruct (GetRdbStore_holds m o Ho) as (o1 & -> & Hs & Hm & Hb). cbn. unfold on_disk.
  pose proof (l_update MAIN uid row (disk o1)) as Hu. rewrite Hm in Hu. destruct Hu as [U1 [U2 U3]%sets_main].
  destruct (UpdateRow MAIN uid row (disk o1)) as [r d1]. cbn [fst snd] in *. subst r. cbn. unfold UpdateByUidToBackDB.
  destruct (GetBackUpRdbStore_ok (mkRDB (rdbStore_ o1) (backupRdbStore_ o1) d1) m) as [b ->]; [cbn; congruence|]. cbn. unfold on_disk. cbn.
  pose proof (l_update BACKUP uid row d1) as Hv. rewrite U3, Hb in Hv. destruct Hv as [V1 [V2 V3]%sets_backup].
  destruct (UpdateRow BACKUP uid row d1) as [r d2]. cbn [fst snd] in *. subst r. cbn. eexists. split; [done|]. split_and!; cbn; congruence.
Qed.

Lemma InsertDataToBackDB_content o uid row m : content BACKUP (disk o) = Rows m ->
  let o' := (InsertDataToBackDB uid row o).2 in
  rdbStore_ o' = rdbStore_ o /\ content MAIN (disk o') = content MAIN (disk o) /\
  content BACKUP (disk o') = Rows (match m !! uid with Some _ => m | None => <[uid := row]> m end).
Proof.
  intros Hb. cbv zeta. unfold InsertDataToBackDB. destruct (GetBackUpRdbStore_ok o m Hb) as [b ->]. cbn. unfold on_disk. cbn.
  pose proof (l_insert BACKUP uid row (disk o)) as Hi. rewrite Hb in Hi.
  destruct (m !! uid); destruct Hi as [_ [I2 I3]%sets_backup]; by destruct (InsertRow BACKUP uid row (disk o)).
Qed.

Lemma alter_insert m uid (row old : NetAccessPolicyData) : m !! uid = Some old -> alter (fun _ => row) uid m = <[uid := row]> m.
Proof.
  intros Eu. apply map_eq. intros u. destruct (decide (u = uid)) as [->|]; [by rewrite lookup_alter_eq, Eu, lookup_insert_eq|by rewrite lookup_alter_ne, lookup_insert_ne].
Qed.

Lemma InsertData_holds m o uid row : holds m o -> exists o', InsertData uid row o = (NETMANAGER_SUCCESS, o') /\ opened (<[uid := row]> m) o'.
Proof.
  intros Ho. unfold InsertData. destruct (GetRdbStore_holds m o Ho) as (o1 & -> & O1 & O2 & O3). cbn [negb Z.eqb NETMANAGER_SUCCESS]. unfold on_disk.
  pose proof (l_insert MAIN uid row (disk o1)) as Hi. rewrite O2 in Hi. destruct (m !! uid) as [old|] eqn:Eu.
  - destruct Hi as [I1 [I2 I3]%sets_main]. destruct (InsertRow MAIN uid row (disk o1)) as [ret d1]. cbn [fst snd] in *.
    rewrite (proj2 (Z.eqb_neq _ _) I1). cbn [negb].
    destruct (UpdateByUid_holds m (mkRDB (rdbStore_ o1) (backupRdbStore_ o1) d1) uid row) as (o2 & -> & P1 & P2 & P3); [left; split_and!; cbn; congruence|].
    rewrite (alter_insert m uid row old Eu) in *. cbn [negb Z.eqb NETMANAGER_SUCCESS].
    destruct (InsertDataToBackDB_content o2 uid row _ P3) as (Q1 & Q2 & Q3). destruct (InsertDataToBackDB uid row o2) as [ret3 o3]. cbn [snd] in *.
    rewrite lookup_insert_eq in Q3. eexists. split; [done|]. split_and!; congruence.
  - destruct Hi as [I1 [I2 I3]%sets_main]. destruct (InsertRow MAIN uid row (disk o1)) as [ret d1]. cbn [fst snd] in *. rewrite I1. cbn [negb Z.eqb E_OK NETMANAGER_SUCCESS].
    destruct (InsertDataToBackDB_content (mkRDB (rdbStore_ o1) (backupRdbStore_ o1) d1) uid row m) as (Q1 & Q2 & Q3); [cbn; congruence|].
    destruct (InsertDataToBackDB uid row _) as [ret3 o3]. cbn [snd disk rdbStore_] in *. rewrite Eu in Q3. eexists. split; [done|]. split_and!; congruence.
Qed.

Lemma DeleteByUid_holds m o uid : holds m o ->
  exists o', DeleteByUid uid o = ((if bool_decide (is_Some (m !! uid)) then 1 else 0), o') /\ opened (delete uid m) o'.
Proof.
  intros Ho. unfold DeleteByUid. destruct (GetRdbStore_holds m o Ho) as (o1 & -> & O1 & O2 & O3). cbn [negb Z.eqb NETMANAGER_SUCCESS]. unfold on_disk.
  pose proof (l_delete MAIN uid (disk o1)) as Hd. rewrite O2 in Hd. destruct Hd as [I1 [I2 I3]%sets_main].
  destruct (DeleteRow MAIN uid (disk o1)) as [[ret n] d1]. cbn [fst snd] in *. injection I1 as -> ->. cbn [negb Z.eqb E_OK]. unfold DeleteByUidToBackDB.
  destruct (GetBackUpRdbStore_ok (mkRDB (rdbStore_ o1) (backupRdbStore_ o1) d1) m) as [b ->]; [cbn; congruence|]. cbn. unfold on_disk. cbn.
  pose proof (l_delete BACKUP uid d1) as Hd. rewrite I3, O3 in Hd. destruct Hd as [J1 [J2 J3]%sets_backup].
  destruct (DeleteRow BACKUP uid d1) as [[ret2 n2] d2]. cbn [fst snd] in *. injection J1 as -> ->. cbn. eexists. split; [done|]. split_and!; cbn; congruence.
Qed.

Lemma QueryByUid_holds m o uid : holds m o -> exists o',
  QueryByUid uid o = (match m !! uid with Some row => (NETMANAGER_SUCCESS, Some row) | None => (NETMANAGER_ERROR, None) end, o') /\ opened m o'.
Proof.
  intros Ho. unfold QueryByUid. destruct (GetRdbStore_holds m o Ho) as (o1 & -> & O1). cbn [negb Z.eqb NETMANAGER_SUCCESS].
  pose proof (l_query MAIN uid (disk o1)) as Hq. rewrite (proj1 (proj2 O1)) in Hq. rewrite Hq. exists o1. cbn [negb Z.eqb E_OK].
  destruct (m !! uid); cbn; [by rewrite decide_True|done].
Qed.

Lemma QueryAll_holds m o : holds m o -> exists l o', QueryAll o = (l, o') /\ l ≡ₚ map_to_list m /\ opened m o'.
Proof.
  intros Ho. unfold QueryAll. destruct (GetRdbStore_holds m o Ho) as (o1 & -> & O1). cbn [negb Z.eqb NETMANAGER_SUCCESS].
  pose proof (l_query_all MAIN (disk o1)) as Hq. rewrite (proj1 (proj2 O1)) in Hq. destruct Hq as (l & -> & Hl). by exists l, o1.
Qed.

Lemma InitRdbStore_stored m d : stored m d -> exists o', InitRdbStore (new_RDB d) = (NETMANAGER_SUCCESS, o') /\ opened m o'.
Proof.
  intros [Hb Hm]. unfold InitRdbStore, InitRdbStoreBackupDB. destruct (GetBackUpRdbStore_ok (new_RDB d) m Hb) as [b ->]. cbn. unfold on_disk. cbn.
  pose proof (l_create BACKUP d) as Hc. rewrite Hb in Hc. apply sets_backup in Hc as [C1 C2]. destruct (CreateTable BACKUP d) as [r d1]. cbn [snd] in *.
  destruct (GetRdbStore_holds m (mkRDB false b d1)) as (o2 & -> & O1 & O2 & O3); [right; split; [done|]; split; cbn; [done|by rewrite C2]|].
  cbn [negb Z.eqb NETMANAGER_SUCCESS].
  pose proof (l_create MAIN (disk o2)) as Hc. rewrite O2 in Hc. apply sets_main in Hc as [C3 C4]. destruct (CreateTable MAIN (disk o2)) as [r3 d3]. cbn [snd] in *.
  eexists. split; [done|]. split_and!; cbn; congruence.
Qed.

(** ** Calls *)

(** A call of a service, which makes an object for it, and what it answers. *)
Inductive Call :=
| CInit
| CInsert (uid : Z) (row : NetAccessPolicyData)
| CUpdate (uid : Z) (row : NetAccessPolicyData)
| CDelete (uid : Z)
| CQuery (uid : Z)
| CQueryAll.

Inductive Answer :=
| ACode (r : Z)
| ARow (r : Z) (row : option NetAccessPolicyData)
| ARows (rows : list (Z * NetAccessPolicyData)).

Definition call (c : Call) d : Answer * D :=
  let o := new_RDB d in
  match c with
  | CInit => let '(r, o) := InitRdbStore o in (ACode r, disk o)
  | CInsert uid row => let '(r, o) := InsertData uid row o in (ACode r, disk o)
  | CUpdate uid row => let '(r, o) := UpdateByUid uid row o in (ACode r, disk o)
  | CDelete uid => let '(r, o) := DeleteByUid uid o in (ACode r, disk o)
  | CQuery uid => let '((r, row), o) := QueryByUid uid o in (ARow r row, disk o)
  | CQueryAll => let '(rows, o) := QueryAll o in (ARows rows, disk o)
  end.

(** The same call on a table. *)
Definition table_call (c : Call) m : Answer * gmap Z NetAccessPolicyData :=
  match c with
  | CInit => (ACode NETMANAGER_SUCCESS, m)
  | CInsert uid row => (ACode NETMANAGER_SUCCESS, <[uid := row]> m)
  | CUpdate uid row => (ACode NETMANAGER_SUCCESS, alter (fun _ => row) uid m)
  | CDelete uid => (ACode (if bool_decide (is_Some (m !! uid)) then 1 else 0), delete uid m)
  | CQuery uid => (match m !! uid with Some row => ARow NETMANAGER_SUCCESS (Some row) | None => ARow NETMANAGER_ERROR None end, m)
  | CQueryAll => (ARows (map_to_list m), m)
  end.

(** Rows come in any order. *)
Definition same_answer (a b : Answer) : Prop :=
  match a, b with ARows l, ARows l' => l ≡ₚ l' | _, _ => a = b end.

Lemma call_refines c m d : stored m d -> same_answer (call c d).1 (table_call c m).1 /\ stored (table_call c m).2 (call c d).2.
Proof.
  intros Hs. pose proof (new_holds m d Hs) as Ho. destruct c as [|uid row|uid row|uid|uid|]; unfold call.
  - destruct (InitRdbStore_stored m d Hs) as (o & -> & Hk). split; [done|by apply opened_stored].
  - destruct (InsertData_holds m _ uid row Ho) as (o & -> & Hk). split; [done|by apply opened_stored].
  - destruct (UpdateByUid_holds m _ uid row Ho) as (o & -> & Hk). split; [done|by apply opened_stored].
  - destruct (DeleteByUid_holds m _ uid Ho) as (o & -> & Hk). split; [done|by apply opened_stored].
  - destruct (QueryByUid_holds m _ uid Ho) as (o & -> & Hk). cbn. destruct (m !! uid); (split; [done|by apply opened_stored]).
  - destruct (QueryAll_holds m _ Ho) as (l & o & -> & Hl & Hk). split; [done|by apply opened_stored].
Qed.

(** A run: calls, and damage to the main database in between. *)
Inductive Step := Do (c : Call) | Damage.

Fixpoint db_run (damage : D -> D) (es : list Step) d : list Answer * D :=
  match es with
  | [] => ([], d)
  | Do c :: es => let '(a, d) := call c d in let '(l, d) := db_run damage es d in (a :: l, d)
  | Damage :: es => db_run damage es (damage d)
  end.

Fixpoint table_run (es : list Step) m : list Answer * gmap Z NetAccessPolicyData :=
  match es with
  | [] => ([], m)
  | Do c :: es => let '(a, m) := table_call c m in let '(l, m) := table_run es m in (a :: l, m)
  | Damage :: es => table_run es m
  end.

(** C28: The two databases are one table that damage to the main database cannot harm: from databases that hold a table, any
    sequence of calls that initialise, insert, update, delete and query, with the main database turning corrupt between
    any of them, gives the answers that the same calls give on the table, rows of a query in any order, and leaves
    databases that hold the table as the calls leave it. *)
Theorem database_refines damage es m d : (forall d, sets content MAIN Corrupt d (damage d)) -> stored m d ->
  Forall2 same_answer (db_run damage es d).1 (table_run es m).1 /\ stored (table_run es m).2 (db_run damage es d).2.
Proof.
  intros Hd. revert m d. induction es as [|[c|] es IH]; intros m d Hs; cbn [db_run table_run]; [done| |].
  - destruct (call_refines c m d Hs) as [Ha Hc]. destruct (call c d) as [a d1], (table_call c m) as [b m1]. cbn [fst snd] in *.
    destruct (IH m1 d1 Hc) as [Hl Hr]. destruct (db_run damage es d1), (table_run es m1). cbn [fst snd] in *. split; [by constructor|done].
  - apply IH. destruct (sets_main _ _ _ (Hd d)) as [H1 H2]. destruct Hs as [Hb _]. split; [congruence|by right].
Qed.

(** ** Databases that hold no table *)

(** The table that is found when the main database is opened. *)
Definition found d : option (gmap Z NetAccessPolicyData) :=
  match content MAIN d with
  | Rows t => Some t
  | NoTable => None
  | Corrupt => match content BACKUP d with Rows t => Some t | _ => None end
  end.

Definition failed (a : Answer) : Prop :=
  match a with ACode r => r <> NETMANAGER_SUCCESS | ARow r row => r <> NETMANAGER_SUCCESS /\ row = None | ARows l => l = [] end.

(** Opening then either fails or gives a database without a table. *)
Lemma GetRdbStore_not_found d : found d = None ->
  let '(r, o) := GetRdbStore (new_RDB d) in content MAIN (disk o) = NoTable /\ rdbStore_ o = true /\ content BACKUP (disk o) = content BACKUP d.
Proof.
  unfold found, GetRdbStore. cbn [rdbStore_ new_RDB disk backupRdbStore_]. intros Hf. destruct (l_open MAIN d) as [E1 E2].
  destruct (OpenStore MAIN d) as [[st err] d0]. cbn [fst snd] in *. subst d0. destruct (content MAIN d) as [| |t] eqn:Em; injection E2 as -> ->; [|done|done]. cbn.
  destruct (sets_main _ _ _ (l_drop MAIN d)) as [D1 D2]. destruct (DeleteRdbStore MAIN d) as [r d1]. cbn [snd] in *.
  destruct (l_open MAIN d1) as [E3 E4]. destruct (OpenStore MAIN d1) as [[st err] d2]. cbn [fst snd] in *. subst d2. rewrite D1 in E4. injection E4 as -> ->.
  pose proof (l_restore MAIN BACKUP d1 ltac:(done) ltac:(congruence)) as Hr. rewrite D1, D2 in Hr.
  destruct (content BACKUP d) eqn:Eb; [| |done]; destruct Hr as [R1 [R2 R3]%sets_main]; destruct (Restore MAIN BACKUP d1) as [ret d2]; cbn [fst snd disk rdbStore_] in *; split_and!; congruence.
Qed.

Lemma found_no_table d : content MAIN d = NoTable -> found d = None.
Proof. unfold found. by intros ->. Qed.

Lemma UpdateByUid_no_table o uid row : rdbStore_ o = true -> content MAIN (disk o) = NoTable ->
  let '(r, o') := UpdateByUid uid row o in r <> NETMANAGER_SUCCESS /\ content MAIN (disk o') = NoTable.
Proof.
  intros Hs Hm. unfold UpdateByUid, GetRdbStore. rewrite Hs. cbn. unfold on_disk.
  pose proof (l_update MAIN uid row (disk o)) as Hu. rewrite Hm in Hu. destruct Hu as [U1 [U2 U3]%sets_main].
  destruct (UpdateRow MAIN uid row (disk o)) as [r d1]. cbn [fst snd] in *. rewrite (proj2 (Z.eqb_neq _ _) U1). done.
Qed.

Lemma UpdateByUid_open uid row o : let '(r, o1) := GetRdbStore o in rdbStore_ o1 = true ->
  UpdateByUid uid row o = if r =? NETMANAGER_SUCCESS then UpdateByUid uid row o1 else (NETMANAGER_ERROR, o1).
Proof.
  unfold UpdateByUid at 1. destruct (GetRdbStore o) as [r o1]. intros Hs. destruct (r =? NETMANAGER_SUCCESS); [|done]. cbn [negb].
  unfold UpdateByUid, GetRdbStore. by rewrite Hs.
Qed.

Lemma call_not_found c d : found d = None -> c <> CInit -> failed (call c d).1 /\ found (call c d).2 = None.
Proof.
  intros Hf Hc. pose proof (GetRdbStore_not_found d Hf) as Ho. destruct c as [|uid row|uid row|uid|uid|]; [done|..]; cbn [call].
  - unfold InsertData. destruct (GetRdbStore (new_RDB d)) as [r o]. destruct Ho as (Hm & Hs & _). destruct (negb _); [split; [done|by apply found_no_table]|].
    unfold on_disk. pose proof (l_insert MAIN uid row (disk o)) as Hi. rewrite Hm in Hi. destruct Hi as [I1 [I2 I3]%sets_main].
    destruct (InsertRow MAIN uid row (disk o)) as [ret d1]. cbn [fst snd] in *. rewrite (proj2 (Z.eqb_neq _ _) I1). cbn [negb].
    pose proof (UpdateByUid_no_table (mkRDB (rdbStore_ o) (backupRdbStore_ o) d1) uid row Hs I2) as Hu. destruct (UpdateByUid _ _ _) as [r2 o2].
    destruct Hu as [Hu1 Hu2]. rewrite (proj2 (Z.eqb_neq _ _) Hu1). split; [done|by apply found_no_table].
  - pose proof (UpdateByUid_open uid row (new_RDB d)) as Hu. destruct (GetRdbStore (new_RDB d)) as [r o]. destruct Ho as (Hm & Hs & _). rewrite (Hu Hs).
    destruct (r =? _); [|split; [done|by apply found_no_table]].
    pose proof (UpdateByUid_no_table o uid row Hs Hm) as Hv. clear Hu. destruct (UpdateByUid uid row o) as [r2 o2]. destruct Hv as [Hv1 Hv2]. split; [done|by apply found_no_table].
  - unfold DeleteByUid. destruct (GetRdbStore (new_RDB d)) as [r o]. destruct Ho as (Hm & Hs & _). destruct (negb _); [split; [done|by apply found_no_table]|].
    unfold on_disk. pose proof (l_delete MAIN uid (disk o)) as Hi. rewrite Hm in Hi. destruct Hi as [I1 [I2 I3]%sets_main].
    destruct (DeleteRow MAIN uid (disk o)) as [[ret n] d1]. cbn [fst snd] in *. rewrite (proj2 (Z.eqb_neq _ _) I1). split; [done|by apply found_no_table].
  - unfold QueryByUid. destruct (GetRdbStore (new_RDB d)) as [r o]. destruct Ho as (Hm & Hs & _). destruct (negb _); [split; [done|by apply found_no_table]|].
    pose proof (l_query MAIN uid (disk o)) as Hq. rewrite Hm in Hq. destruct (QueryRow MAIN uid (disk o)) as [[ret rows]|]; cbn in Hq |- *; [|split; [done|by apply found_no_table]].
    rewrite (proj2 (Z.eqb_neq _ _) Hq). split; [done|by apply found_no_table].
  - unfold QueryAll. destruct (GetRdbStore (new_RDB d)) as [r o]. destruct Ho as (Hm & Hs & _). destruct (negb _); [split; [done|by apply found_no_table]|].
    pose proof (l_query_all MAIN (disk o)) as Hq. rewrite Hm in Hq. split; [done|by apply found_no_table].
Qed.

(** What the initialisation makes of the backup. *)
Lemma InitRdbStoreBackupDB_content d :
  let '(r, o) := InitRdbStoreBackupDB (new_RDB d) in
  r = NETMANAGER_SUCCESS /\ rdbStore_ o = false /\ content MAIN (disk o) = content MAIN d /\
  content BACKUP (disk o) = Rows (match content BACKUP d with Rows t => t | _ => ∅ end).
Proof.
  unfold InitRdbStoreBackupDB, GetBackUpRdbStore. cbn [backupRdbStore_ new_RDB disk rdbStore_]. destruct (l_open BACKUP d) as [E1 E2].
  destruct (OpenStore BACKUP d) as [[st err] d0]. cbn [fst snd] in *. subst d0.
  assert (Hc : forall d1, content MAIN d1 = content MAIN d -> content BACKUP d1 <> Corrupt -> let '(r, o) := on_disk (CreateTable BACKUP) (mkRDB false true d1) in
    rdbStore_ o = false /\ content MAIN (disk o) = content MAIN d /\ content BACKUP (disk o) = Rows (match content BACKUP d1 with Rows t => t | _ => ∅ end)).
  { intros d1 H1 H2. unfold on_disk. cbn. destruct (sets_backup _ _ _ (l_create BACKUP d1)) as [C1 C2]. destruct (CreateTable BACKUP d1) as [r d2]. cbn [fst snd disk rdbStore_] in *.
    split_and!; [done|congruence|]. rewrite C1. by destruct (content BACKUP d1). }
  destruct (content BACKUP d) as [| |t] eqn:Eb; injection E2 as -> ->; cbn.
  - destruct (sets_backup _ _ _ (l_drop BACKUP d)) as [D1 D2]. destruct (DeleteRdbStore BACKUP d) as [r d1]. cbn [snd] in *.
    destruct (l_open BACKUP d1) as [E3 E4]. destruct (OpenStore BACKUP d1) as [[st err] d2]. cbn [fst snd] in *. subst d2. rewrite D1 in E4. injection E4 as -> ->. cbn.
    specialize (Hc d1 D2 ltac:(congruence)). rewrite D1 in Hc. by destruct (on_disk _ _).
  - specialize (Hc d eq_refl ltac:(congruence)). rewrite Eb in Hc. by destruct (on_disk _ _).
  - specialize (Hc d eq_refl ltac:(congruence)). rewrite Eb in Hc. by destruct (on_disk _ _).
Qed.

Lemma init_not_found d : found d = None -> (call CInit d).1 = ACode NETMANAGER_SUCCESS /\ found (call CInit d).2 = Some ∅.
Proof.
  intros Hf. cbn [call]. unfold InitRdbStore. pose proof (InitRdbStoreBackupDB_content d) as Hb.
  destruct (InitRdbStoreBackupDB (new_RDB d)) as [r o]. destruct Hb as (_ & Hs & Hm & Hb). unfold found in Hf.
  assert (Hc : forall o1 : NetAccessPolicyRDB D, content MAIN (disk o1) = NoTable \/ content MAIN (disk o1) = Rows ∅ ->
    let '(r, o2) := on_disk (CreateTable MAIN) o1 in found (disk o2) = Some ∅).
  { intros o1 H1. unfold on_disk. destruct (sets_main _ _ _ (l_create MAIN (disk o1))) as [C1 C2]. destruct (CreateTable MAIN (disk o1)) as [r' d2]. cbn [snd disk] in *.
    unfold found. rewrite C1. by destruct H1 as [-> | ->]. }
  destruct (content MAIN d) as [| |t] eqn:Em; [| |done].
  - destruct (GetRdbStore_holds ∅ o) as (o1 & -> & _ & O2 & _).
    { right. split; [done|]. split; [|right; congruence]. rewrite Hb. by destruct (content BACKUP d). }
    cbn. specialize (Hc o1 (or_intror O2)). by destruct (on_disk _ o1).
  - unfold GetRdbStore. rewrite Hs. destruct (l_open MAIN (disk o)) as [E1 E2]. destruct (OpenStore MAIN (disk o)) as [[st err] d0]. cbn [fst snd] in *. subst d0.
    rewrite Hm in E2. injection E2 as -> ->. cbn. specialize (Hc (mkRDB true (backupRdbStore_ o) (disk o)) (or_introl Hm)). by destruct (on_disk _ _).
Qed.

(** C30: A database without its table fails openly: when the main database has no table, or is corrupt with a backup that is
    corrupt or has no table either, every insertion, update, deletion and query reports an error or no rows and leaves the
    databases in such a state, until an initialisation, which succeeds, gives them an empty table. *)
Theorem database_errors d : found d = None ->
  (forall c, c <> CInit -> failed (call c d).1 /\ found (call c d).2 = None) /\
  ((call CInit d).1 = ACode NETMANAGER_SUCCESS /\ found (call CInit d).2 = Some ∅).
Proof. intros Hf. split; [intros c; by apply call_not_found|by apply init_not_found]. Qed.

End Refinement.

(** ** Two databases in memory *)

Definition two := (Content * Content)%type.
Definition get (db : DB) (d : two) : Content := match db with MAIN => d.1 | BACKUP => d.2 end.
Definition put (db : DB) (c : Content) (d : two) : two := match db with MAIN => (c, d.2) | BACKUP => (d.1, c) end.

#[global] Instance two_rdb : Rdb two := {|
  OpenStore db d := (match get db d with Corrupt => (false, E_SQLITE_CORRUPT) | _ => (true, E_OK) end, d);
  DeleteRdbStore db d := (E_OK, put db NoTable d);
  Restore into from d := match get from d with Corrupt => (E_SQLITE_CORRUPT, d) | c => (E_OK, put into c d) end;
  CreateTable db d := (E_OK, match get db d with NoTable => put db (Rows ∅) d | _ => d end);
  InsertRow db uid row d := match get db d with
    | Rows t => match t !! uid with None => (E_OK, put db (Rows (<[uid := row]> t)) d) | Some _ => (-1, d) end
    | _ => (-1, d) end;
  UpdateRow db uid row d := match get db d with Rows t => (E_OK, put db (Rows (alter (fun _ => row) uid t)) d) | _ => (-1, d) end;
  DeleteRow db uid d := match get db d with
    | Rows t => ((E_OK, if bool_decide (is_Some (t !! uid)) then 1 else 0), put db (Rows (delete uid t)) d) | _ => ((-1, -1), d) end;
  QueryRows db d := match get db d with Rows t => Some (map_to_list t) | _ => None end;
  QueryRow db uid d := match get db d with
    | Rows t => Some (E_OK, match t !! uid with Some row => [(uid, row)] | None => [] end) | _ => None end
|}.

Lemma put_sets db c d : sets get db c d (put db c d).
Proof. by destruct db; (split; [|intros []]). Qed.
Lemma same_sets db c d : get db d = c -> sets get db c d d.
Proof. done. Qed.

#[global] Instance two_laws : RdbLaws two.
Proof.
  refine {| content := get |}.
  - intros. done.
  - intros. apply put_sets.
  - intros. cbn [Restore two_rdb]. destruct (get from d); (split; [done|]); first [apply put_sets|by apply same_sets].
  - intros. cbn [CreateTable two_rdb]. destruct (get db d) eqn:E; cbn; first [apply put_sets|by apply same_sets].
  - intros. cbn [InsertRow two_rdb]. destruct (get db d) as [| |t] eqn:E; [(split; [done|]); by apply same_sets..|].
    destruct (t !! uid); (split; [done|]); first [apply put_sets|by apply same_sets].
  - intros. cbn [UpdateRow two_rdb]. destruct (get db d) as [| |t] eqn:E; (split; [done|]); first [apply put_sets|by apply same_sets].
  - intros. cbn [DeleteRow two_rdb]. destruct (get db d) as [| |t] eqn:E; (split; [done|]); first [apply put_sets|by apply same_sets].
  - intros. cbn [QueryRows two_rdb]. destruct (get db d); [done..|by eexists].
  - intros. cbn [QueryRow two_rdb]. by destruct (get db d).
Defined.

(** A policy, damage, and a second policy for the same user. *)
Definition deny : NetAccessPolicyData := mkData 0 0 0.
Definition allow_wifi : NetAccessPolicyData := mkData 1 0 0.
Definition day : list Step := [Do (CInsert 7 deny); Damage; Do (CInsert 7 allow_wifi); Damage; Do (CQuery 7); Do (CDelete 8)].
Definition spoil (d : two) : two := (Corrupt, d.2).
Definition clean : two := (Rows ∅, Rows ∅).

Lemma database_refines_witness :
  (Forall2 same_answer (db_run spoil day clean).1 (table_run day ∅).1 /\ stored (table_run day ∅).2 (db_run spoil day clean).2) /\
  (db_run spoil day clean).1 = [ACode 0; ACode 0; ARow 0 (Some allow_wifi); ACode 0].
Proof.
  split; [|vm_compute; reflexivity]. apply database_refines; [intros d; split; [done|by intros []]|]. split; [reflexivity|left; reflexivity].
Defined.

Lemma database_errors_witness :
  (forall c, c <> CInit -> failed (call c (Corrupt, NoTable)).1 /\ found (call c (Corrupt, NoTable)).2 = None) /\
  ((call CInit (Corrupt, NoTable)).1 = ACode NETMANAGER_SUCCESS /\ found (call CInit (Corrupt, NoTable)).2 = Some ∅).
Proof. apply database_errors. reflexivity. Defined.

(** The other direction has no such care: a backup that turns corrupt is made anew without the rows, so that later
    damage to the main database loses them.  Here the policy of user 7 is gone although the backup had been in use again
    since before the main database was damaged. *)
Example corrupt_backup_loses_rows :
  let d := (call CInit (Rows {[7 := deny]}, Corrupt)).2 in
  let d := (call (CInsert 8 deny) d).2 in
  (call (CQuery 7) d).1 = ARow 0 (Some deny) /\ (call (CQuery 7) (spoil d)).1 = ARow (-1) None.
Proof. by vm_compute. Qed.

(** An insertion over a row that only the backup has leaves that row as it was. *)
Example stale_backup_row :
  let d := (call (CInsert 7 allow_wifi) (Rows ∅, Rows {[7 := deny]})).2 in
  (call (CQuery 7) d).1 = ARow 0 (Some allow_wifi) /\ (call (CQuery 7) (spoil d)).1 = ARow 0 (Some deny).
Proof. by vm_compute. Qed.

End AccessStore.
