(* ===== verification/AccessConfig.v ===== *)
(** * The applications whose switches are fixed
    (services/netpolicymanager/src/net_access_policy_config.cpp, and
    [UpdateNetworkAccessPolicyFromConfig] of net_policy_service.cpp)

    Some applications may not be denied a bearer.  They come from a file, which
    is read once, and from [AddNetworkAccessPolicy]; together they are at most
    [MAX_NET_ACCESS_COUNT], provided the file has been read before the first addition
    ([additions_fit], [late_file_hides_additions]). *)

From Stdlib Require Import Ascii String.
From S2P Require Import Prelude NetCaps NetData Parcel ConnParcel PolicyParcel.
Import PolicyParcel.

Module AccessConfig.

Definition MAX_NET_ACCESS_COUNT : nat := 1000.

Record NetAccessPolicyConfig := mkConfig { bundleName : string; disableWlanSwitch : bool; disableCellularSwitch : bool }.

(** The object; the map of the additions is in the order of its keys. *)
Record NetAccessPolicyConfigUtils := mkUtils {
  netAccessPolicyConfigs_ : list NetAccessPolicyConfig;
  dynamicNetAccessPolicyConfigs_ : list (string * NetAccessPolicyConfig);
  isInit_ : bool }.

Definition no_configs : NetAccessPolicyConfigUtils := mkUtils [] [] false.

(** ** The file: its members as the JSON parser finds them *)

Inductive cJSON := JString (s : string) | JBool (b : bool) | JOther.

Definition ParseString (value : option cJSON) : string := match value with Some (JString s) => s | _ => "" end.
Definition ParseBoolean (value : option cJSON) : bool := match value with Some (JBool b) => b | _ => false end.

(** An item is its members by name; no array counts as an empty one. *)
Definition Item := string -> option cJSON.

Definition ParseNetAccessPolicyConfigs (file : option (list Item)) : list NetAccessPolicyConfig :=
  match file with
  | None => []
  | Some items => (fun item => mkConfig (ParseString (item "bundleName")) (ParseBoolean (item "disableWlanSwitch"))
                                (ParseBoolean (item "disableCellularSwitch"))) <$> items
  end.

Section Config.
Context (file : option (list Item)).
Implicit Types (u : NetAccessPolicyConfigUtils).

Definition Init u : NetAccessPolicyConfigUtils :=
  if isInit_ u then u else mkUtils (ParseNetAccessPolicyConfigs file) (dynamicNetAccessPolicyConfigs_ u) true.

Definition totalSize u : nat := length (netAccessPolicyConfigs_ u) + length (dynamicNetAccessPolicyConfigs_ u).

Definition GetNetAccessPolicyConfig u : list NetAccessPolicyConfig * NetAccessPolicyConfigUtils :=
  let u := Init u in
  (if (MAX_NET_ACCESS_COUNT <? totalSize u)%nat then netAccessPolicyConfigs_ u
   else netAccessPolicyConfigs_ u ++ (dynamicNetAccessPolicyConfigs_ u).*2, u).

(** The order of [std::string]: by bytes. *)
Definition before (a b : string) : bool := match String.compare a b with Lt => true | _ => false end.

Fixpoint emplace (name : string) (c : NetAccessPolicyConfig) (l : list (string * NetAccessPolicyConfig)) : list (string * NetAccessPolicyConfig) :=
  match l with
  | [] => [(name, c)]
  | x :: l' => if before x.1 name then x :: emplace name c l' else if bool_decide (x.1 = name) then l else (name, c) :: l
  end.

Definition added (name : string) u : bool := bool_decide (name ∈ (dynamicNetAccessPolicyConfigs_ u).*1).

(** The loop stops when the limit is reached. *)
Fixpoint add_loop (bundleNames : list string) u : NetAccessPolicyConfigUtils :=
  match bundleNames with
  | [] => u
  | name :: names =>
      if added name u then add_loop names u
      else if (MAX_NET_ACCESS_COUNT <=? totalSize u)%nat then u
      else add_loop names (mkUtils (netAccessPolicyConfigs_ u) (emplace name (mkConfig name true true) (dynamicNetAccessPolicyConfigs_ u)) (isInit_ u))
  end.

Definition AddNetAccessPolicyConfig (bundleNames : list string) u : NetAccessPolicyConfigUtils :=
  if bool_decide (bundleNames = []) then u
  else if (MAX_NET_ACCESS_COUNT <=? totalSize u)%nat then u
  else add_loop bundleNames u.

Definition erase (name : string) (l : list (string * NetAccessPolicyConfig)) : list (string * NetAccessPolicyConfig) :=
  filter (fun x => x.1 <> name) l.

Definition RemoveNetAccessPolicyConfig (bundleNames : list string) u : NetAccessPolicyConfigUtils :=
  if bool_decide (bundleNames = []) then u
  else mkUtils (netAccessPolicyConfigs_ u) (foldl (fun l name => erase name l) (dynamicNetAccessPolicyConfigs_ u) bundleNames) (isInit_ u).

(** The first configuration of the name. *)
Definition UpdateNetworkAccessPolicyFromConfig (name : string) (policy : NetworkAccessPolicy) u : NetworkAccessPolicy * NetAccessPolicyConfigUtils :=
  let '(configs, u) := GetNetAccessPolicyConfig u in
  match list_find (fun c => bundleName c = name) configs with
  | None => (policy, u)
  | Some (_, c) => (mkAccess (wifiAllow policy) (cellularAllow policy) (disableWlanSwitch c) (disableCellularSwitch c), u)
  end.

(** ** Lemmas *)

Lemma emplace_elem name c l x : x ∈ (emplace name c l).*1 <-> x = name \/ x ∈ l.*1.
Proof.
  induction l as [|y l IH]; cbn; [set_solver|]. destruct (before y.1 name); cbn; [rewrite !elem_of_cons, IH; tauto|].
  case_bool_decide as E; cbn; [|rewrite !elem_of_cons; tauto]. rewrite !elem_of_cons. subst name. tauto.
Qed.

Lemma emplace_length name c l : name ∉ l.*1 -> length (emplace name c l) = S (length l).
Proof.
  induction l as [|y l IH]; cbn; [done|]. intros [Hy Hl]%not_elem_of_cons. destruct (before y.1 name); cbn; [by rewrite IH|].
  by rewrite bool_decide_eq_false_2 by congruence.
Qed.

Lemma add_loop_total names : forall u, (totalSize u <= MAX_NET_ACCESS_COUNT)%nat ->
  (totalSize (add_loop names u) <= MAX_NET_ACCESS_COUNT)%nat /\ netAccessPolicyConfigs_ (add_loop names u) = netAccessPolicyConfigs_ u /\ isInit_ (add_loop names u) = isInit_ u.
Proof.
  induction names as [|name names IH]; intros u Hu; [done|]. cbn [add_loop]. unfold added. case_bool_decide as Ha; [by apply IH|].
  destruct (Nat.leb_spec MAX_NET_ACCESS_COUNT (totalSize u)) as [|Hlt]; [done|].
  destruct (IH (mkUtils (netAccessPolicyConfigs_ u) (emplace name (mkConfig name true true) (dynamicNetAccessPolicyConfigs_ u)) (isInit_ u))) as (H1 & H2 & H3).
  - unfold totalSize in *. cbn. rewrite emplace_length by done. lia.
  - done.
Qed.

(** Once the file is read, and it is not too long itself, the configurations stay within the limit and all of them
    are used. *)
Lemma additions_fit names u : isInit_ u = true -> (totalSize u <= MAX_NET_ACCESS_COUNT)%nat ->
  let u' := AddNetAccessPolicyConfig names u in
  (totalSize u' <= MAX_NET_ACCESS_COUNT)%nat /\
  GetNetAccessPolicyConfig u' = (netAccessPolicyConfigs_ u ++ (dynamicNetAccessPolicyConfigs_ u').*2, u').
Proof.
  intros Hi Hu. cbv zeta. assert (Ht : let u' := AddNetAccessPolicyConfig names u in (totalSize u' <= MAX_NET_ACCESS_COUNT)%nat /\
    netAccessPolicyConfigs_ u' = netAccessPolicyConfigs_ u /\ isInit_ u' = isInit_ u).
  { cbv zeta. unfold AddNetAccessPolicyConfig. case_bool_decide; [done|]. destruct (_ <=? _)%nat; [done|]. by apply add_loop_total. }
  destruct Ht as (H1 & H2 & H3). split; [done|]. unfold GetNetAccessPolicyConfig, Init. rewrite H3, Hi.
  rewrite (proj2 (Nat.ltb_ge _ _) H1). by rewrite H2.
Qed.

End Config.

(** [AddNetAccessPolicyConfig] does not read the file: additions before the first reading may not fit with it, and then
    none of them is used. *)
Definition fifty_items : list Item := replicate 50 (fun _ => None).
Example late_file_hides_additions :
  let names := (fun n => String (ascii_of_nat (33 + Nat.modulo n 90)) (String (ascii_of_nat (33 + Nat.div n 90)) "")) <$> seq 0 960 in
  let u := AddNetAccessPolicyConfig names no_configs in
  length (dynamicNetAccessPolicyConfigs_ u) = 960%nat /\ length (GetNetAccessPolicyConfig (Some fifty_items) u).1 = 50%nat.
Proof. by vm_compute. Qed.

End AccessConfig.
