(* ===== verification/AccessService.v ===== *)
(** * Access policies in the policy service
    (services/netpolicymanager/src/net_policy_service.cpp: the access policies,
    src/net_policy_listener.cpp)

    The service keeps the access policies of the applications in the database
    ([AccessStore]) and in the map of the kernel's programs ([AccessMaps]): a policy that is set goes to both, a
    removed application leaves both, a start of the system fills the map from the database, and
    the applications of the configuration ([AccessConfig]) get both bearers back.

    The bundle manager and the accounts are not part of the repository: what they
    answer is an argument ([Env]).  [Rel] says that the databases and the map hold the
    same table; each operation is shown to keep it, with the table
    changed as the operation means to.  Runs are in [AccessRun]. *)

From Stdlib Require Import Ascii String.
From S2P Require Import Prelude NetCaps NetData Parcel ConnParcel PolicyParcel.
From S2P Require Import Conntrack FirewallMatch BpfMap NetsysBpf BpfStats AccessMaps NetsysRun AccessStore AccessConfig.
Import PolicyParcel.
Module AS := AccessStore.AccessStore.
Module AC := AccessConfig.AccessConfig.
Module FM := FirewallMatch.FirewallMatch.

Module AccessService.
Import BpfMap NetsysBpf AccessMaps NetsysRun.

Definition NETMANAGER_SUCCESS : Z := 0.
Definition NETMANAGER_ERROR : Z := -1.
Definition NETMANAGER_ERR_INTERNAL : Z := 2100003.
Definition NETMANAGER_ERR_LOCAL_PTR_NULL : Z := 2100105.
Definition MAIN_USER_ID : Z := 100.
Definition NET_ACCESS_POLICY_ALLOW_VALUE : Z := 1.

(** ** The system around the service *)

Record Bundles := mkBundles {
  GetUidByBundleName : string -> Z -> Z;                    (* -1 when there is none *)
  GetNameForUid : Z -> option string;
  GetApplicationInfos : Z -> option (list (Z * string));    (* users and names *)
  BASE_USER_RANGE : Z }.

(** The bundle manager when it runs, and the active accounts. *)
Record Env := mkEnv { bundleMgr : option Bundles; QueryActiveOsAccountIds : option (list Z) }.

Definition GetActivatedOsAccountId (env : Env) : Z :=
  match QueryActiveOsAccountIds env with Some (userId :: _) => userId | _ => MAIN_USER_ID end.

(** ** Brokers: applications that others act through *)

Record SampleBundleInfo := mkInfo { uid_ : Z; bundleName_ : string; installSource_ : string }.
Definition Valid (i : SampleBundleInfo) : bool := (0 <? uid_ i) && negb (bool_decide (bundleName_ i = "")).

(** The lists of names are split at commas. *)
Definition IsSim (name : string) : bool := bool_decide (name ∈ ["com.droi.iapps"; "com.droi.tong"]).
Definition IsSim2 (name : string) : bool := bool_decide (name ∈ ["com.easy.abroadHarmony.temp"; "com.easy.hmos.abroad"]).
Definition IsSimAnco (name : string) : bool := bool_decide (name = "com.zhuoyi.appstore.lite").
Definition IsSim2Anco (name : string) : bool := bool_decide (name = "com.easy.abroad").
Definition IsInstallSourceFromSim (source : string) : bool := bool_decide (source = "com.zhuoyi.appstore.lite").
Definition IsInstallSourceFromSim2 (source : string) : bool := bool_decide (source = "com.easy.abroad").
Definition INSTALL_SOURCE_DEFAULT : string := "default".

(** [unordered_map::emplace]: the first value of a key stays. *)
Definition emplace (key value : Z) (params : list (Z * Z)) : list (Z * Z) :=
  if bool_decide (key ∈ params.*1) then params else params ++ [(key, value)].

(** What one application adds: the conditions in their order. *)
Definition broker_of (anco : bool) (sim sim2 : option SampleBundleInfo) (i : SampleBundleInfo) : option Z :=
  let ok x := match x with Some b => Valid b | None => false end in
  let own x := match x with Some b => Some (if anco then uid_ i else uid_ b) | None => None end in
  if ok sim && (IsSim (bundleName_ i) || IsSimAnco (bundleName_ i) || bool_decide (installSource_ i = INSTALL_SOURCE_DEFAULT)) then uid_ <$> sim
  else if ok sim && IsInstallSourceFromSim (installSource_ i) then own sim
  else if ok sim2 && (IsSim2 (bundleName_ i) || IsSim2Anco (bundleName_ i) || bool_decide (installSource_ i = INSTALL_SOURCE_DEFAULT)) then uid_ <$> sim2
  else if ok sim2 && IsInstallSourceFromSim2 (installSource_ i) then own sim2
  else None.

(** [SetBrokerUidAccessPolicyMap]: the applications by user in the order of the map; with a user only its
    application is entered, unless it is a broker itself.  [anco]: [isDisplayTrafficAncoList_]. *)
Definition broker_params (anco : bool) (uid : option Z) (infos : list (Z * SampleBundleInfo)) : list (Z * Z) :=
  let find p := snd <$> (snd <$> list_find (fun x => p x.2 = true) infos) in
  let uidFindRet := match uid with Some u => find (fun i => uid_ i =? u) | None => None end in
  let sim := find (fun i => IsSim (bundleName_ i)) in
  let sim2 := find (fun i => IsSim2 (bundleName_ i)) in
  let params := match sim with Some b => if Valid b then emplace (2 ^ 16 - 1) (uid_ b) [] else [] | None => [] end in
  foldl (fun params x =>
    let skip := match uid, uidFindRet with
                | Some u, Some i => negb (IsSim (bundleName_ i)) && negb (IsSim2 (bundleName_ i)) && negb (u =? x.1)
                | _, _ => false end in
    if skip then params else
    match broker_of anco sim sim2 x.2 with Some b => emplace (uid_ x.2) b params | None => params end) params infos.

(** ** The rows of the table *)

Definition row_policy (r : AS.NetAccessPolicyData) : NetworkAccessPolicy :=
  PolicyParcel.mkAccess (negb (AS.wifiPolicy r =? 0)) (negb (AS.cellularPolicy r =? 0)) false false.
Definition row_flag (r : AS.NetAccessPolicyData) : bool := negb (AS.setFromConfigFlag r =? 0).
Definition policy_row (policy : NetworkAccessPolicy) (flag : bool) : AS.NetAccessPolicyData :=
  AS.mkData (Z.b2z (wifiAllow policy)) (Z.b2z (cellularAllow policy)) (Z.b2z flag).
Definition allow_row (flag : Z) : AS.NetAccessPolicyData := AS.mkData NET_ACCESS_POLICY_ALLOW_VALUE NET_ACCESS_POLICY_ALLOW_VALUE flag.
Definition allows_both (r : AS.NetAccessPolicyData) : bool := negb (AS.wifiPolicy r =? 0) && negb (AS.cellularPolicy r =? 0).

Section Service.
Context (sz : Sizes) (loaded : bool) (file : option (list AC.Item)).
Context {D : Type} `{R : AS.Rdb D}.

(** [netPolicyRule_] is there after the start; the databases and the kernel are shared with others. *)
Record Service := mkService {
  rdb : D; configs : AC.NetAccessPolicyConfigUtils; netPolicyRule_ : bool; kernel : Kernel }.

Definition set_rdb (d : D) (s : Service) := mkService d (configs s) (netPolicyRule_ s) (kernel s).
Definition set_configs u (s : Service) := mkService (rdb s) u (netPolicyRule_ s) (kernel s).
Definition set_kernel k (s : Service) := mkService (rdb s) (configs s) (netPolicyRule_ s) k.
Implicit Types (s : Service) (k : Kernel) (o : AS.NetAccessPolicyRDB D).

(** [NetPolicyRule::SetNetworkAccessPolicy], by the native service; the user becomes unsigned. *)
Definition rule_set (uid : Z) (policy : NetworkAccessPolicy) (flag : bool) k : Z * Kernel := exec sz loaded (PolicySet (u32 uid) policy flag) k.

Definition SetNetworkAccessPolicy (uid : Z) (policy : NetworkAccessPolicy) (reconfirmFlag : bool) s : Z * Service :=
  if negb (netPolicyRule_ s) then (NETMANAGER_ERR_LOCAL_PTR_NULL, s) else
  let '(_, o) := AS.InsertData (s32 uid) (policy_row policy (negb reconfirmFlag)) (AS.new_RDB (rdb s)) in
  let '(r, k) := rule_set uid policy (negb reconfirmFlag) (kernel s) in
  (r, set_kernel k (set_rdb (AS.disk o) s)).

Definition DeleteNetworkAccessPolicy (uid : Z) s : Z * Service :=
  if negb (netPolicyRule_ s) then (NETMANAGER_ERR_LOCAL_PTR_NULL, s) else
  let '(r, k) := exec sz loaded (PolicyDelete uid) (kernel s) in (r, set_kernel k s).

(** Every row into the map, in the order of the query. *)
Definition to_map (rows : list (Z * AS.NetAccessPolicyData)) k : Kernel :=
  foldl (fun k x => (rule_set x.1 (row_policy x.2) (row_flag x.2) k).2) k rows.

Definition UpdateNetAccessPolicyToMapFromDB s : Service :=
  if negb (netPolicyRule_ s) then s else
  let '(result, o) := AS.QueryAll (AS.new_RDB (rdb s)) in
  set_kernel (to_map result (kernel s)) (set_rdb (AS.disk o) s).

Definition reset_row (x : Z * AS.NetAccessPolicyData) (ok : AS.NetAccessPolicyRDB D * Kernel) : AS.NetAccessPolicyRDB D * Kernel :=
  let '(uid, r) := x in let '(o, k) := ok in
  if allows_both r then (o, k) else
  let r := AS.mkData 1 1 (AS.setFromConfigFlag r) in
  (((AS.UpdateByUid uid r o).2), (rule_set uid (row_policy r) (row_flag r) k).2).

Definition ResetNetAccessPolicy s : Service :=
  if negb (netPolicyRule_ s) then s else
  let '(result, o) := AS.QueryAll (AS.new_RDB (rdb s)) in
  let '(o, k) := foldl (fun ok x => reset_row x ok) (o, kernel s) result in
  set_kernel k (set_rdb (AS.disk o) s).

(** A bearer whose switch is fixed is allowed; the other one keeps what the row says. *)
Definition config_row (c : AC.NetAccessPolicyConfig) (found : option AS.NetAccessPolicyData) : AS.NetAccessPolicyData :=
  let d := default (allow_row 0) found in
  AS.mkData (if AC.disableWlanSwitch c then NET_ACCESS_POLICY_ALLOW_VALUE else AS.wifiPolicy d)
            (if AC.disableCellularSwitch c then NET_ACCESS_POLICY_ALLOW_VALUE else AS.cellularPolicy d) 0.

(** The user of a configuration that fixes a switch. *)
Definition config_uid (b : Bundles) (userId : Z) (c : AC.NetAccessPolicyConfig) : option Z :=
  if negb (AC.disableWlanSwitch c) && negb (AC.disableCellularSwitch c) then None else
  let uid := GetUidByBundleName b (AC.bundleName c) userId in
  if uid =? -1 then None else Some uid.

Definition overwrite_one (b : Bundles) (userId : Z) (c : AC.NetAccessPolicyConfig) o : AS.NetAccessPolicyRDB D :=
  match config_uid b userId c with
  | None => o
  | Some uid =>
      let '((ret, found), o) := AS.QueryByUid uid o in
      let policyData := config_row c found in
      if negb (ret =? NETMANAGER_SUCCESS) then (AS.InsertData uid policyData o).2 else (AS.UpdateByUid uid policyData o).2
  end.

Definition OverwriteNetAccessPolicyToDBFromConfig (env : Env) s : Service :=
  let '(cs, u) := AC.GetNetAccessPolicyConfig file (configs s) in
  let s := set_configs u s in
  if bool_decide (cs = []) then s else
  match bundleMgr env with
  | None => s
  | Some b => set_rdb (AS.disk (foldl (fun o c => overwrite_one b (GetActivatedOsAccountId env) c o) (AS.new_RDB (rdb s)) cs)) s
  end.

Definition RefreshNetworkAccessPolicyFromConfig (env : Env) s : Z * Service :=
  (NETMANAGER_SUCCESS, UpdateNetAccessPolicyToMapFromDB (OverwriteNetAccessPolicyToDBFromConfig env s)).

Definition AddNetworkAccessPolicy (env : Env) (bundleNames : list string) s : Z * Service :=
  (NETMANAGER_SUCCESS, (RefreshNetworkAccessPolicyFromConfig env (set_configs (AC.AddNetAccessPolicyConfig bundleNames (configs s)) s)).2).

Definition RemoveNetworkAccessPolicy (env : Env) (bundleNames : list string) s : Z * Service :=
  (NETMANAGER_SUCCESS, (RefreshNetworkAccessPolicyFromConfig env (set_configs (AC.RemoveNetAccessPolicyConfig bundleNames (configs s)) s)).2).

(** ** Reading a policy *)

Definition fresh_policy : NetworkAccessPolicy := PolicyParcel.mkAccess true true false false.

(** The bearers of the row, or both; the switches of the policy stay. *)
Definition with_row (found : Z * option AS.NetAccessPolicyData) (policy : NetworkAccessPolicy) : NetworkAccessPolicy :=
  let p := match found with (0, Some r) => row_policy r | _ => fresh_policy end in
  PolicyParcel.mkAccess (wifiAllow p) (cellularAllow p) (wifiSwitchDisable policy) (cellularSwitchDisable policy).

(** The policies of all applications of a user; the first entry of a user id stays. *)
Definition list_one (appInfo : Z * string) (x : AS.NetAccessPolicyRDB D * AC.NetAccessPolicyConfigUtils * gmap Z NetworkAccessPolicy) :
  AS.NetAccessPolicyRDB D * AC.NetAccessPolicyConfigUtils * gmap Z NetworkAccessPolicy :=
  let '(o, u, m) := x in
  let '(found, o) := AS.QueryByUid appInfo.1 o in
  let '(p, u) := AC.UpdateNetworkAccessPolicyFromConfig file appInfo.2 (with_row found fresh_policy) u in
  (o, u, if bool_decide (is_Some (m !! u32 appInfo.1)) then m else <[u32 appInfo.1 := p]> m).

Definition GetNetworkAccessPolicy (env : Env) (parameter : AccessPolicyParameter) s : (Z * AccessPolicySave) * Service :=
  let none := mkAccessSave fresh_policy ∅ in
  match bundleMgr env with
  | None => ((NETMANAGER_ERR_INTERNAL, none), s)
  | Some b =>
      if ap_flag parameter then
        let '(p, u) := match GetNameForUid b (s32 (ap_uid parameter)) with
                       | Some name => AC.UpdateNetworkAccessPolicyFromConfig file name fresh_policy (configs s)
                       | None => (fresh_policy, configs s) end in
        let '(found, o) := AS.QueryByUid (s32 (ap_uid parameter)) (AS.new_RDB (rdb s)) in
        ((NETMANAGER_SUCCESS, mkAccessSave (with_row found p) ∅), set_configs u (set_rdb (AS.disk o) s))
      else
        match GetApplicationInfos b (ap_callingUid parameter / BASE_USER_RANGE b) with
        | None => ((NETMANAGER_ERR_INTERNAL, none), s)
        | Some appInfos =>
            let '(o, u, m) := foldl (fun x a => list_one a x) (AS.new_RDB (rdb s), configs s, ∅) appInfos in
            ((NETMANAGER_SUCCESS, mkAccessSave fresh_policy m), set_configs u (set_rdb (AS.disk o) s))
        end
  end.

Definition GetSelfNetworkAccessPolicy (env : Env) (callingUid : Z) s : (Z * NetAccessPolicy) * Service :=
  let '((result, save), s) := GetNetworkAccessPolicy env (mkAccessParameter true callingUid callingUid) s in
  ((result, if result =? NETMANAGER_SUCCESS then mkSelfAccess (wifiAllow (as_policy save)) (cellularAllow (as_policy save)) else mkSelfAccess true true), s).

(** ** Start and events *)

(** [Init]: the parts are created, the databases opened and the map filled. *)
Definition Init s : Service :=
  let '(_, o) := AS.InitRdbStore (AS.new_RDB (rdb s)) in
  UpdateNetAccessPolicyToMapFromDB (mkService (AS.disk o) (configs s) true (kernel s)).

(** [NetPolicyListener]: an application is removed ... *)
Definition OnPackageRemoved (uid : Z) s : Service :=
  let '(_, o) := AS.DeleteByUid (s32 uid) (AS.new_RDB (rdb s)) in
  let '(_, s) := DeleteNetworkAccessPolicy uid (set_rdb (AS.disk o) s) in
  set_kernel (exec sz loaded (BrokerDelete uid) (kernel s)).2 s.

(** The applications are those of the active user; without any nothing is done. *)
Definition SetBrokerUidAccessPolicyMap (anco : bool) (uid : option Z) (infos : list (Z * SampleBundleInfo)) s : Service :=
  if bool_decide (infos = []) then s
  else set_kernel (exec sz loaded (BrokerSet (broker_params anco uid infos)) (kernel s)).2 s.

(** ... or added. *)
Definition OnPackageAdded (env : Env) (anco : bool) (uid : Z) (infos : list (Z * SampleBundleInfo)) s : Service :=
  (RefreshNetworkAccessPolicyFromConfig env (SetBrokerUidAccessPolicyMap anco (Some uid) infos s)).2.

End Service.
Arguments Service D : clear implicits.

(** ** The table of the policies *)

Abbreviation Table := (gmap Z AS.NetAccessPolicyData).

Definition row_bits (r : AS.NetAccessPolicyData) : Z * Z := (Z.b2z (negb (AS.wifiPolicy r =? 0)), Z.b2z (negb (AS.cellularPolicy r =? 0))).

(** What the table says of a user. *)
Definition table_policy (m : Table) (uid : Z) : NetworkAccessPolicy := from_option row_policy fresh_policy (m !! s32 uid).

(** The operations on the table. *)
Definition config_table (b : Bundles) (userId : Z) (c : AC.NetAccessPolicyConfig) (m : Table) : Table :=
  match config_uid b userId c with None => m | Some uid => <[uid := config_row c (m !! uid)]> m end.

Definition overwrite_table (env : Env) (cs : list AC.NetAccessPolicyConfig) (m : Table) : Table :=
  match bundleMgr env with
  | None => m
  | Some b => foldl (fun m c => config_table b (GetActivatedOsAccountId env) c m) m cs
  end.

Definition reset_table (m : Table) : Table := (fun r => if allows_both r then r else AS.mkData 1 1 (AS.setFromConfigFlag r)) <$> m.

(** Users are 32-bit numbers, signed in the database and unsigned in the map. *)
Definition signed (z : Z) : Prop := - 2 ^ 31 <= z < 2 ^ 31.

Lemma s32_signed z : signed (s32 z).
Proof.
  unfold signed, swrap. pose proof (Z.mod_pos_bound z (2 ^ 32) ltac:(done)). change (2 ^ (32 - 1)) with (2 ^ 31).
  destruct (Z.ltb_spec (z mod 2 ^ 32) (2 ^ 31)); lia.
Qed.

Lemma s32_u32 z : signed z -> s32 (u32 z) = z.
Proof. intros Hz. rewrite Parcel.swrap_wrap by done. by apply swrap_small. Qed.

Section Refinement.
Context (sz : Sizes) (file : option (list AC.Item)).
Context {D : Type} `{L : AS.RdbLaws D}.
(** The users that get policies, which the map can hold. *)
Context (U : gset Z) (U_width : forall u, u ∈ U -> in_width 32 u) (U_fits : (size U <= UID_ACCESS_POLICY_ARRAY_SIZE sz)%nat).
Implicit Types (s : Service D) (k : Kernel) (o : AS.NetAccessPolicyRDB D) (m : Table).

Definition agrees m k : Prop := forall uid, in_width 32 uid -> bits (access k) uid = row_bits <$> m !! s32 uid.
Definition within k : Prop := dom (policies k) ⊆ U.
Definition keys m : Prop := forall x, is_Some (m !! x) -> signed x /\ u32 x ∈ U.

(** The databases hold the table, and the map agrees with it. *)
Record Rel m s : Prop := mkRel {
  rel_stored : AS.stored m (rdb s);
  rel_rule : netPolicyRule_ s = true;
  rel_agrees : agrees m (kernel s);
  rel_within : within (kernel s);
  rel_keys : keys m }.

Lemma in_force_bits' k uid policy : in_force uid policy (access k) -> bits (access k) uid = Some (Z.b2z (wifiAllow policy), Z.b2z (cellularAllow policy)).
Proof. by rewrite in_force_bits. Qed.

Lemma exec_bits_ne u policy f k uid : uid <> u -> bits (access (exec sz true (PolicySet u policy f) k).2) uid = bits (access k) uid.
Proof. intros Hn. apply exec_bits. cbn. by apply Z.eqb_neq. Qed.

(** A policy of one of the users fits into the map. *)
Lemma rule_set_fits uid policy f k : within k -> u32 uid ∈ U ->
  (rule_set sz true uid policy f k).1 = NETMANAGER_SUCCESS /\ within (rule_set sz true uid policy f k).2 /\
  forall v, bits (access (rule_set sz true uid policy f k).2) v =
            if decide (v = u32 uid) then Some (Z.b2z (wifiAllow policy), Z.b2z (cellularAllow policy)) else bits (access k) v.
Proof.
  intros Hw Hu. unfold rule_set.
  assert (Hroom : is_Some (app_uid_access_policy_map (access k) !! u32 uid) \/ (size (app_uid_access_policy_map (access k)) < UID_ACCESS_POLICY_ARRAY_SIZE sz)%nat).
  { destruct (app_uid_access_policy_map (access k) !! u32 uid) as [v|] eqn:E; [left; by eexists|right]. apply not_elem_of_dom in E. unfold within, policies in Hw.
    assert (Hs : (size ({[u32 uid]} ∪ dom (app_uid_access_policy_map (access k))) <= size U)%nat) by (apply subseteq_size; set_solver).
    rewrite size_union in Hs by set_solver. rewrite size_singleton, size_dom in Hs. lia. }
  pose proof (SetNetworkAccessPolicy_success sz true (u32 uid) policy f (access k) eq_refl Hroom) as Hr.
  cbn [exec]. unfold on_access. cbn [fst snd]. split_and!; [done| |].
  - revert Hr. unfold within, policies, AccessMaps.SetNetworkAccessPolicy. cbn. destruct (Read _ _ _) as [? v]. unfold Write, update_any.
    destruct (bool_decide _ || _); [|done]. cbn. intros _. rewrite dom_insert. unfold within, policies in Hw. set_solver.
  - intros v. destruct (decide (v = u32 uid)) as [->|Hne]; [|by apply (exec_bits_ne (u32 uid) policy f k v)].
    destruct (AccessMaps.SetNetworkAccessPolicy sz true (u32 uid) policy f (access k)) as [r a] eqn:E. cbn [fst] in Hr. subst r.
    apply SetNetworkAccessPolicy_in_force in E. apply in_force_bits' with (k := set_access a k). exact E.
Qed.

Lemma row_policy_bits r : (Z.b2z (wifiAllow (row_policy r)), Z.b2z (cellularAllow (row_policy r))) = row_bits r.
Proof. done. Qed.

(** The rows go into the map. *)
Lemma to_map_bits rows : forall k, within k -> NoDup rows.*1 -> Forall (fun x => signed x.1 /\ u32 x.1 ∈ U) rows ->
  within (to_map sz true rows k) /\ forall uid, in_width 32 uid ->
    bits (access (to_map sz true rows k)) uid = match (list_to_map rows : gmap Z AS.NetAccessPolicyData) !! s32 uid with Some r => Some (row_bits r) | None => bits (access k) uid end.
Proof.
  induction rows as [|[x r] rows IH]; intros k Hw Hn Hr; [done|]. cbn [fmap list_fmap fst] in Hn. apply NoDup_cons in Hn as [Hx Hn].
  apply Forall_cons in Hr as [[Hs Hu] Hr]. cbn [fst] in *. cbn [to_map foldl].
  destruct (rule_set_fits x (row_policy r) (row_flag r) k Hw Hu) as (_ & Hw' & Hb).
  destruct (IH _ Hw' Hn Hr) as [Hw2 Hb2]. split; [done|]. intros uid Huid. unfold to_map in Hb2. cbn [fst snd]. rewrite Hb2 by done. rewrite Hb.
  rewrite list_to_map_cons.
  destruct (decide (uid = u32 x)) as [->|Hne].
  - rewrite s32_u32, lookup_insert_eq, (not_elem_of_list_to_map_1 rows x) by done. by rewrite row_policy_bits.
  - rewrite lookup_insert_ne; [done|]. intros ->. by rewrite u32_s32 in Hne.
Qed.

Lemma rows_of_table m (l : list (Z * AS.NetAccessPolicyData)) : l ≡ₚ map_to_list m -> keys m ->
  NoDup l.*1 /\ Forall (fun x => signed x.1 /\ u32 x.1 ∈ U) l /\ (list_to_map l : gmap Z AS.NetAccessPolicyData) = m.
Proof.
  intros Hl Hk. assert (Hn : NoDup l.*1) by (rewrite Hl; apply NoDup_fst_map_to_list). split_and!; [done| |].
  - apply Forall_forall. intros [x r] Hin. rewrite Hl in Hin. apply elem_of_map_to_list in Hin. apply Hk. by eexists.
  - rewrite (list_to_map_proper l (map_to_list m)) by done. apply list_to_map_to_list.
Qed.

(** A map that has nothing for users outside of the table is filled from the table. *)
Lemma UpdateNetAccessPolicyToMapFromDB_rel m s : AS.stored m (rdb s) -> netPolicyRule_ s = true -> within (kernel s) -> keys m ->
  (forall uid, in_width 32 uid -> m !! s32 uid = None -> bits (access (kernel s)) uid = None) ->
  Rel m (UpdateNetAccessPolicyToMapFromDB sz true s).
Proof.
  intros Hs Hr Hw Hk Hb. unfold UpdateNetAccessPolicyToMapFromDB. rewrite Hr. cbn [negb].
  destruct (AS.QueryAll_holds m _ (AS.new_holds m _ Hs)) as (l & o & -> & Hl & Ho).
  destruct (rows_of_table m l Hl Hk) as (Hn & Hf & Hm). destruct (to_map_bits l (kernel s) Hw Hn Hf) as [Hw' Hb'].
  split; [by apply AS.opened_stored|done| |done|done].
  intros uid Hu. cbn. rewrite Hb', Hm by done. destruct (m !! s32 uid) eqn:E; [done|]. by rewrite Hb.
Qed.

(** ** Each operation *)

Lemma keys_insert m uid r : keys m -> signed uid -> u32 uid ∈ U -> keys (<[uid := r]> m).
Proof. intros Hk Hs Hu x. rewrite lookup_insert_is_Some'. intros [->|Hx]; [done|by apply Hk]. Qed.

Lemma agrees_insert m k k' uid r : agrees m k -> signed uid ->
  (forall v, bits (access k') v = if decide (v = u32 uid) then Some (row_bits r) else bits (access k) v) -> agrees (<[uid := r]> m) k'.
Proof.
  intros Ha Hs Hb v Hv. rewrite Hb. destruct (decide (v = u32 uid)) as [->|Hne].
  - by rewrite s32_u32, lookup_insert_eq.
  - rewrite lookup_insert_ne; [by apply Ha|]. intros ->. by rewrite u32_s32 in Hne.
Qed.

Lemma policy_row_bits policy f : row_bits (policy_row policy f) = (Z.b2z (wifiAllow policy), Z.b2z (cellularAllow policy)).
Proof. unfold row_bits. cbn. by destruct (wifiAllow policy), (cellularAllow policy). Qed.

Lemma SetNetworkAccessPolicy_rel m s uid policy flag : Rel m s -> uid ∈ U ->
  let '(r, s') := SetNetworkAccessPolicy sz true uid policy flag s in
  r = NETMANAGER_SUCCESS /\ Rel (<[s32 uid := policy_row policy (negb flag)]> m) s'.
Proof.
  intros [Hs Hr Ha Hw Hk] Hu. unfold SetNetworkAccessPolicy. rewrite Hr. cbn [negb].
  destruct (AS.InsertData_holds m _ (s32 uid) (policy_row policy (negb flag)) (AS.new_holds m _ Hs)) as (o & -> & Ho).
  pose proof (U_width uid Hu) as Hw32. assert (Eu : u32 uid = uid) by (by apply wrap_small).
  destruct (rule_set_fits uid policy (negb flag) (kernel s) Hw ltac:(by rewrite Eu)) as (E1 & Hw' & Hb).
  destruct (rule_set sz true uid policy (negb flag) (kernel s)) as [r k]. cbn [fst snd] in *. split; [done|].
  split; [by apply AS.opened_stored|done| |done|].
  - apply (agrees_insert m (kernel s)); [done|apply s32_signed|]. intros v. cbn. rewrite Hb, u32_s32, Eu by done. by rewrite policy_row_bits.
  - apply keys_insert; [done|apply s32_signed|]. by rewrite u32_s32.
Qed.

(** A change of the main database's kernel that leaves the policies alone. *)
Lemma Rel_kernel m s k : (forall v, bits (access k) v = bits (access (kernel s)) v) -> Rel m s -> Rel m (set_kernel k s).
Proof.
  intros Hb [Hs Hr Ha Hw Hk]. split; [done|done| | |done].
  - intros v Hv. cbn. rewrite Hb. by apply Ha.
  - intros v Hv. apply Hw. cbn in Hv. unfold policies in *. apply elem_of_dom. apply elem_of_dom in Hv. specialize (Hb v). unfold bits in Hb.
    destruct (app_uid_access_policy_map (access (kernel s)) !! v); [done|]. by destruct Hv as [x E]; rewrite E in Hb.
Qed.

Definition no_policy_event (e : Event) : Prop := match e with PolicySet _ _ _ | PolicyDelete _ => False | _ => True end.

Lemma Rel_event m s e : no_policy_event e -> Rel m s -> Rel m (set_kernel (exec sz true e (kernel s)).2 s).
Proof. intros He. apply Rel_kernel. intros v. apply exec_bits. by destruct e. Qed.

Lemma SetBrokerUidAccessPolicyMap_rel m s anco uid infos : Rel m s -> Rel m (SetBrokerUidAccessPolicyMap sz true anco uid infos s).
Proof. intros Hr. unfold SetBrokerUidAccessPolicyMap. case_bool_decide; [done|]. by apply Rel_event. Qed.

Lemma OnPackageRemoved_rel m s uid : Rel m s -> uid ∈ U -> Rel (delete (s32 uid) m) (OnPackageRemoved sz true uid s).
Proof.
  intros [Hs Hr Ha Hw Hk] Hu. unfold OnPackageRemoved.
  destruct (AS.DeleteByUid_holds m _ (s32 uid) (AS.new_holds m _ Hs)) as (o & -> & Ho). unfold DeleteNetworkAccessPolicy. cbn [netPolicyRule_ set_rdb kernel]. rewrite Hr. cbn [negb].
  pose proof (U_width uid Hu) as Hw32. cbn [exec]. unfold on_access. cbv beta iota.
  match goal with |- Rel _ (set_kernel _ ?s1) => apply (Rel_event _ s1 (BrokerDelete uid) I) end.
  split; cbn [rdb set_kernel set_rdb netPolicyRule_ kernel]; [by apply AS.opened_stored|done| | |].
  - intros v Hv. unfold AccessMaps.DeleteNetworkAccessPolicy, Delete, delete_elem, bits. cbn [negb]. specialize (Ha v Hv). unfold bits in Ha.
    destruct (decide (v = uid)) as [->|Hne].
    + rewrite lookup_delete_eq. destruct (app_uid_access_policy_map (access (kernel s)) !! uid) eqn:E; cbn; [by rewrite lookup_delete_eq|by rewrite E].
    + rewrite lookup_delete_ne by (intros E; apply Hne; rewrite <- (u32_s32 v), <- (u32_s32 uid) by done; by rewrite E). rewrite <- Ha.
      destruct (app_uid_access_policy_map (access (kernel s)) !! uid); cbn; [by rewrite lookup_delete_ne|done].
  - unfold within, policies in *. cbn. unfold AccessMaps.DeleteNetworkAccessPolicy, Delete, delete_elem. cbn [negb].
    destruct (app_uid_access_policy_map (access (kernel s)) !! uid); cbn; [rewrite dom_delete; set_solver|done].
  - intros x [r Hx]. apply Hk. apply lookup_delete_Some in Hx as [_ Hx]. by eexists.
Qed.

(** ** Resetting *)

Lemma reset_rows_rel rows : forall m o k, AS.opened m o -> agrees m k -> within k -> keys m -> NoDup rows.*1 ->
  (forall x r, (x, r) ∈ rows -> m !! x = Some r) ->
  let '(o', k') := foldl (fun ok x => reset_row sz true x ok) (o, k) rows in
  exists m', AS.opened m' o' /\ agrees m' k' /\ within k' /\ keys m' /\
    (forall x r, (x, r) ∈ rows -> m' !! x = Some (if allows_both r then r else AS.mkData 1 1 (AS.setFromConfigFlag r))) /\
    (forall x, x ∉ rows.*1 -> m' !! x = m !! x).
Proof.
  induction rows as [|[x r] rows IH]; intros m o k Ho Ha Hw Hk Hn Hr; [exists m; split_and!; [done..|by intros x r ?%elem_of_nil|done]|]. cbn [foldl].
  cbn [fmap list_fmap fst] in Hn. apply NoDup_cons in Hn as [Hx Hn]. pose proof (Hr x r ltac:(set_solver)) as Ex.
  set (r' := AS.mkData 1 1 (AS.setFromConfigFlag r)).
  assert (Hstep : exists m1 o1 k1, reset_row sz true (x, r) (o, k) = (o1, k1) /\ AS.opened m1 o1 /\ agrees m1 k1 /\ within k1 /\ keys m1 /\
    m1 !! x = Some (if allows_both r then r else r') /\ forall y, y <> x -> m1 !! y = m !! y).
  { unfold reset_row. destruct (allows_both r); [by exists m, o, k|]. destruct (Hk x ltac:(by eexists)) as [Hs Hu].
    destruct (AS.UpdateByUid_holds m o x r' (AS.opened_holds _ _ Ho)) as (o1 & E1 & Ho1). rewrite (AS.alter_insert m x r' r Ex) in Ho1.
    destruct (rule_set_fits x (row_policy r') (row_flag r') k Hw Hu) as (_ & Hw1 & Hb1).
    eexists (<[x := r']> m), o1, _. split; [fold r'; by rewrite E1|]. split_and!; [done| |done|by apply keys_insert|apply lookup_insert_eq|intros y Hy; by rewrite lookup_insert_ne].
    apply (agrees_insert m k); [done|done|]. intros v. rewrite Hb1. by rewrite row_policy_bits. }
  destruct Hstep as (m1 & o1 & k1 & -> & Ho1 & Ha1 & Hw1 & Hk1 & Ex1 & Hy1).
  assert (Hr1 : forall y q, (y, q) ∈ rows -> m1 !! y = Some q).
  { intros y q Hin. rewrite Hy1; [apply Hr; set_solver|]. intros ->. apply Hx. apply list_elem_of_fmap. by exists (x, q). }
  specialize (IH m1 o1 k1 Ho1 Ha1 Hw1 Hk1 Hn Hr1). destruct (foldl _ (o1, k1) rows) as [o' k']. destruct IH as (m' & H1 & H2 & H3 & H4 & H5 & H6).
  exists m'. split_and!; [done..| |].
  - intros y q Hin. apply elem_of_cons in Hin as [[= -> ->]|Hin]; [|by apply H5]. by rewrite H6.
  - intros y Hy. cbn [fmap list_fmap fst] in Hy. apply not_elem_of_cons in Hy as [Hy1' Hy2]. rewrite H6 by done. by apply Hy1.
Qed.

Lemma ResetNetAccessPolicy_rel m s : Rel m s -> Rel (reset_table m) (ResetNetAccessPolicy sz true s).
Proof.
  intros [Hs Hr Ha Hw Hk]. unfold ResetNetAccessPolicy. rewrite Hr. cbn [negb].
  destruct (AS.QueryAll_holds m _ (AS.new_holds m _ Hs)) as (l & o & -> & Hl & Ho). destruct (rows_of_table m l Hl Hk) as (Hn & _ & _).
  pose proof (reset_rows_rel l m o (kernel s) Ho Ha Hw Hk Hn) as Hreset. destruct (foldl _ (o, kernel s) l) as [o' k'].
  destruct Hreset as (m' & H1 & H2 & H3 & H4 & H5 & H6).
  { intros x r Hin. rewrite Hl in Hin. by apply elem_of_map_to_list in Hin. }
  assert (m' = reset_table m) as ->; [|split; [by apply AS.opened_stored|done..]].
  apply map_eq. intros x. unfold reset_table. rewrite lookup_fmap. destruct (m !! x) as [r|] eqn:E; cbn.
  - apply H5. rewrite Hl. by apply elem_of_map_to_list.
  - rewrite H6; [done|]. intros Hin. apply list_elem_of_fmap in Hin as ([y r] & -> & Hin). rewrite Hl in Hin. apply elem_of_map_to_list in Hin. cbn in E. congruence.
Qed.

(** ** The configuration *)

(** The users that a bundle manager knows are among those that get policies. *)
Definition knows (env : Env) : Prop :=
  match bundleMgr env with None => True | Some b => forall name userId, let uid := GetUidByBundleName b name userId in uid = -1 \/ (signed uid /\ u32 uid ∈ U) end.

Lemma config_uid_known b userId c uid accounts : knows (mkEnv (Some b) accounts) -> config_uid b userId c = Some uid -> signed uid /\ u32 uid ∈ U.
Proof.
  intros Hk. unfold config_uid. destruct (negb _ && negb _); [done|]. destruct (Z.eqb_spec (GetUidByBundleName b (AC.bundleName c) userId) (-1)) as [|Hne]; [done|].
  intros [= <-]. by destruct (Hk (AC.bundleName c) userId).
Qed.

Lemma overwrite_one_holds b userId c m o accounts : knows (mkEnv (Some b) accounts) -> AS.holds m o -> keys m ->
  let m' := config_table b userId c m in AS.holds m' (overwrite_one b userId c o) /\ keys m' /\ forall x, is_Some (m !! x) -> is_Some (m' !! x).
Proof.
  intros Hb Ho Hk. cbv zeta. unfold overwrite_one, config_table. destruct (config_uid b userId c) as [uid|] eqn:Eu; [|done].
  destruct (config_uid_known b userId c uid accounts Hb Eu) as [Hs Hu]. destruct (AS.QueryByUid_holds m o uid Ho) as (o1 & -> & Ho1).
  split; [|split; [by apply keys_insert|intros x Hx; rewrite lookup_insert_is_Some'; by right]].
  destruct (m !! uid) as [r|] eqn:E; cbn [negb Z.eqb NETMANAGER_SUCCESS AS.NETMANAGER_SUCCESS AS.NETMANAGER_ERROR].
  - destruct (AS.UpdateByUid_holds m o1 uid (config_row c (Some r)) (AS.opened_holds _ _ Ho1)) as (o2 & -> & Ho2).
    rewrite (AS.alter_insert m uid _ r E) in Ho2. by left.
  - destruct (AS.InsertData_holds m o1 uid (config_row c None) (AS.opened_holds _ _ Ho1)) as (o2 & -> & Ho2). by left.
Qed.

Lemma overwrite_all_holds b userId accounts cs : forall m o, knows (mkEnv (Some b) accounts) -> AS.holds m o -> keys m ->
  let m' := foldl (fun m c => config_table b userId c m) m cs in
  AS.holds m' (foldl (fun o c => overwrite_one b userId c o) o cs) /\ keys m' /\ forall x, is_Some (m !! x) -> is_Some (m' !! x).
Proof.
  induction cs as [|c cs IH]; intros m o Hb Ho Hk; [done|]. destruct (overwrite_one_holds b userId c m o accounts Hb Ho Hk) as (H1 & H2 & H3).
  destruct (IH _ _ Hb H1 H2) as (H4 & H5 & H6). cbn [foldl]. split_and!; [done..|]. intros x Hx. by apply H6, H3.
Qed.

Lemma holds_stored m o : AS.holds m o -> AS.stored m (AS.disk o).
Proof. intros [Ho|[_ Hs]]; [by apply AS.opened_stored|done]. Qed.

Lemma Refresh_rel m s env : Rel m s -> knows env ->
  Rel (overwrite_table env (AC.GetNetAccessPolicyConfig file (configs s)).1 m) (RefreshNetworkAccessPolicyFromConfig sz true file env s).2.
Proof.
  intros [Hs Hr Ha Hw Hk] Hb. unfold RefreshNetworkAccessPolicyFromConfig, OverwriteNetAccessPolicyToDBFromConfig. cbn [snd].
  destruct (AC.GetNetAccessPolicyConfig file (configs s)) as [cs u]. cbn [fst].
  assert (Hkeep : Rel m (UpdateNetAccessPolicyToMapFromDB sz true (set_configs u s))).
  { apply UpdateNetAccessPolicyToMapFromDB_rel; [done..|]. intros v Hv E. cbn. by rewrite Ha, E. }
  unfold overwrite_table. case_bool_decide as Ec; [subst cs; by destruct (bundleMgr env)|]. destruct env as [[b|] accounts]; [|done]. cbn [bundleMgr].
  destruct (overwrite_all_holds b (GetActivatedOsAccountId (mkEnv (Some b) accounts)) accounts cs m (AS.new_RDB (rdb s)) Hb (AS.new_holds m _ Hs) Hk) as (H1 & H2 & H3).
  apply UpdateNetAccessPolicyToMapFromDB_rel; [by apply holds_stored|done|done|done|].
  intros v Hv E. cbn. rewrite Ha by done. destruct (m !! s32 v) as [r|] eqn:Em; [|done]. destruct (H3 (s32 v) ltac:(by eexists)) as [q Eq]. congruence.
Qed.

(** ** Start, and reading *)

(** A start fills a map that has nothing. *)
Lemma Init_rel m s : AS.stored m (rdb s) -> keys m -> policies (kernel s) = ∅ -> Rel m (Init sz true s).
Proof.
  intros Hs Hk He. unfold Init. destruct (AS.InitRdbStore_stored m (rdb s) Hs) as (o & -> & Ho).
  apply UpdateNetAccessPolicyToMapFromDB_rel; [by apply AS.opened_stored|done| |done|].
  - unfold within. cbn. rewrite He. set_solver.
  - intros v Hv _. cbn. unfold bits. unfold policies in He. by rewrite He.
Qed.

Lemma Rel_set_rdb m s d : AS.stored m d -> Rel m s -> Rel m (set_rdb d s).
Proof. intros Hd [Hs Hr Ha Hw Hk]. by split. Qed.
Lemma Rel_set_configs m s u : Rel m s -> Rel m (set_configs u s).
Proof. intros [Hs Hr Ha Hw Hk]. by split. Qed.

Definition same_bearers (p q : NetworkAccessPolicy) : Prop := wifiAllow p = wifiAllow q /\ cellularAllow p = cellularAllow q.

Lemma with_row_table m uid p :
  same_bearers (with_row (match m !! s32 uid with Some row => (AS.NETMANAGER_SUCCESS, Some row) | None => (AS.NETMANAGER_ERROR, None) end) p) (table_policy m uid).
Proof. unfold table_policy. by destruct (m !! s32 uid). Qed.

(** A query for one user answers what the table says. *)
Lemma GetNetworkAccessPolicy_rel m s env uid callingUid : Rel m s -> is_Some (bundleMgr env) ->
  let '((r, save), s') := GetNetworkAccessPolicy file env (mkAccessParameter true uid callingUid) s in
  r = NETMANAGER_SUCCESS /\ same_bearers (as_policy save) (table_policy m uid) /\ Rel m s'.
Proof.
  intros Hrel [b Eb]. unfold GetNetworkAccessPolicy. rewrite Eb. cbn [ap_flag ap_uid].
  destruct (match GetNameForUid b (s32 uid) with Some _ => _ | None => _ end) as [p u].
  destruct (AS.QueryByUid_holds m _ (s32 uid) (AS.new_holds m _ (rel_stored _ _ Hrel))) as (o & -> & Ho).
  split_and!; [done|apply with_row_table|]. apply Rel_set_configs, Rel_set_rdb; [by apply AS.opened_stored|done].
Qed.

(** The applications of a user one by one. *)
Lemma list_one_holds m appInfos : forall o u (l : gmap Z NetworkAccessPolicy), AS.holds m o ->
  let '(o', _, _) := foldl (fun x a => list_one file a x) (o, u, l) appInfos in AS.holds m o'.
Proof.
  induction appInfos as [|a appInfos IH]; intros o u l Ho; [done|]. cbn [foldl]. unfold list_one at 2.
  destruct (AS.QueryByUid_holds m o a.1 Ho) as (o1 & -> & Ho1). destruct (AC.UpdateNetworkAccessPolicyFromConfig _ _ _ _) as [p u']. apply IH. by left.
Qed.

(** Any query leaves the table as it is. *)
Lemma GetNetworkAccessPolicy_keeps m s env parameter : Rel m s -> Rel m (GetNetworkAccessPolicy file env parameter s).2.
Proof.
  intros Hrel. unfold GetNetworkAccessPolicy. destruct (bundleMgr env) as [b|]; [|done]. destruct (ap_flag parameter).
  - destruct (match GetNameForUid b _ with Some _ => _ | None => _ end) as [p u].
    destruct (AS.QueryByUid_holds m _ (s32 (ap_uid parameter)) (AS.new_holds m _ (rel_stored _ _ Hrel))) as (o & -> & Ho).
    apply Rel_set_configs, Rel_set_rdb; [by apply AS.opened_stored|done].
  - destruct (GetApplicationInfos b _) as [infos|]; [|done].
    pose proof (list_one_holds m infos (AS.new_RDB (rdb s)) (configs s) ∅ (AS.new_holds m _ (rel_stored _ _ Hrel))) as Hl.
    destruct (foldl _ _ infos) as [[o u] l]. apply Rel_set_configs, Rel_set_rdb; [by apply holds_stored|done].
Qed.

Lemma GetSelfNetworkAccessPolicy_keeps m s env uid : Rel m s -> Rel m (GetSelfNetworkAccessPolicy file env uid s).2.
Proof.
  intros Hrel. unfold GetSelfNetworkAccessPolicy. pose proof (GetNetworkAccessPolicy_keeps m s env (mkAccessParameter true uid uid) Hrel) as Hg.
  by destruct (GetNetworkAccessPolicy _ _ _ _) as [[r save] s'].
Qed.

End Refinement.

End AccessService.
