(* ===== verification/AccessClone.v ===== *)
(** * Moving the access policies to another device
    (services/netpolicymanager/src/net_policy_db_clone.cpp, and [OnBackup] and
    [OnRestore] of net_policy_service.cpp)

    A backup is a text with a line per application that is denied something: its
    name and the two values of its row.  A restore reads the lines, finds the
    users of the names on its own device and sets their policies; applications
    that are not installed yet wait until they are.

    What a device writes another one reads; the last line with a name decides
    ([clone_roundtrip], [same_name_last_wins]). *)

From stdpp Require Import pretty.
From Stdlib Require Import Ascii String.
From S2P Require Import Prelude NetCaps NetData Parcel ConnParcel PolicyParcel PolicyFile NumText HttpProxyText.
From S2P Require Import Conntrack FirewallMatch BpfMap NetsysBpf BpfStats AccessMaps NetsysRun AccessStore AccessConfig AccessService.
Import PolicyParcel.
Module AS := AccessStore.AccessStore.
Module AC := AccessConfig.AccessConfig.
Module HT := HttpProxyText.HttpProxyText.

Module AccessClone.
Import NetsysBpf AccessMaps NetsysRun AccessService.

(** ** The streams *)

Definition NL : ascii := ascii_of_nat 10.

(** [while (std::getline(file, line))]. *)
Fixpoint getlines (s item : string) : list string :=
  match s with
  | EmptyString => if bool_decide (item = "") then [] else [item]
  | String c s => if Ascii.eqb c NL then item :: getlines s "" else getlines s (item +:+ String c "")
  end.

Fixpoint span (p : ascii -> bool) (s : string) : string * string :=
  match s with
  | EmptyString => ("", "")
  | String c s' => if p c then let '(a, b) := span p s' in (String c a, b) else ("", s)
  end.

(** [>>] of a string: blanks are skipped, and a word must follow. *)
Definition read_word (s : string) : option (string * string) :=
  let '(w, rest) := span (fun c => negb (NumText.isspace c)) (NumText.skip_space s) in
  if bool_decide (w = "") then None else Some (w, rest).

(** [>>] of an [int32_t]: a sign, digits; out of range is a failure. *)
Definition read_digits (s : string) : option (Z * string) :=
  let '(w, rest) := span (NumText.is_digit 10) s in
  if bool_decide (w = "") then None else Some (NumText.digits_in 10 w 0, rest).

Definition read_sign (s : string) : option (Z * string) :=
  match s with
  | String c s' =>
      if Ascii.eqb c "-" then '(n, rest) ← read_digits s'; Some (- n, rest)
      else if Ascii.eqb c "+" then read_digits s' else read_digits s
  | EmptyString => None
  end.

Definition read_int (s : string) : option (Z * string) :=
  '(n, rest) ← read_sign (NumText.skip_space s);
  if (- 2 ^ 31 <=? n) && (n <? 2 ^ 31) then Some (n, rest) else None.

(** [iss >> bundleName >> wifiPolicy >> cellularPolicy]. *)
Definition read_line (line : string) : option (string * Z * Z) :=
  '(name, rest) ← read_word line; '(w, rest) ← read_int rest; '(c, _) ← read_int rest; Some (name, w, c).

Definition write_line (name : string) (w c : Z) : string :=
  name +:+ " " +:+ NumText.to_string w +:+ " " +:+ NumText.to_string c.

(** ** The operations *)

Definition EXTENSION_SUCCESS : string := "netpolicy extension success".
Definition EXTENSION_FAIL : string := "netpolicy extension fail".

(** The applications whose policies wait, with the two values. *)
Abbreviation Waiting := (gmap string (Z * Z)).

Section Clone.
Context (sz : Sizes) (loaded : bool).
Context {D : Type} `{R : AS.Rdb D}.
Implicit Types (s : Service D) (k : Kernel) (o : AS.NetAccessPolicyRDB D) (apps : Waiting).

(** What a row contributes: nothing when both bearers are allowed or the user has no name. *)
Definition backup_entry (b : Bundles) (x : Z * AS.NetAccessPolicyData) : option (string * Z * Z) :=
  if allows_both x.2 then None else
  match GetNameForUid b x.1 with Some name => Some (name, AS.wifiPolicy x.2, AS.cellularPolicy x.2) | None => None end.

Definition backup_text (entries : list (string * Z * Z)) : string :=
  foldr (fun '(name, w, c) text => write_line name w c +:+ String NL text) "" entries.

(** [io]: whether the file is written and opened. *)
Definition OnBackup (env : Env) (io : bool) s : (Z * option string) * Service D :=
  let '(result, o) := AS.QueryAll (AS.new_RDB (rdb s)) in
  let s := set_rdb (AS.disk o) s in
  match bundleMgr env with
  | None => ((NETMANAGER_ERR_INTERNAL, None), s)
  | Some b => if io then ((0, Some (backup_text (omap (backup_entry b) result))), s) else ((-1, None), s)
  end.

Definition line_policy (w c : Z) : NetworkAccessPolicy :=
  PolicyParcel.mkAccess (w =? NET_ACCESS_POLICY_ALLOW_VALUE) (c =? NET_ACCESS_POLICY_ALLOW_VALUE) false false.

(** The row goes to the databases and then to the map. *)
Definition restore_app (uid w c : Z) (x : AS.NetAccessPolicyRDB D * Kernel) : bool * (AS.NetAccessPolicyRDB D * Kernel) :=
  let '(o, k) := x in
  let '(insertRet, o) := AS.InsertData uid (AS.mkData w c 1) o in
  if negb (insertRet =? NETMANAGER_SUCCESS) then (false, (o, k))
  else (true, (o, (rule_set sz loaded uid (line_policy w c) true k).2)).

Definition restore_entry (b : Bundles) (e : string * Z * Z) (x : AS.NetAccessPolicyRDB D * Kernel * Waiting) : AS.NetAccessPolicyRDB D * Kernel * Waiting :=
  let '(name, w, c) := e in let '(o, k, apps) := x in
  let uid := GetUidByBundleName b name MAIN_USER_ID in
  if uid =? -1 then (o, k, <[name := (w, c)]> apps) else let '(_, (o, k)) := restore_app uid w c (o, k) in (o, k, apps).

(** A line that cannot be read is skipped.  [io]: whether the descriptor is copied and the file opened. *)
Definition OnRestore (env : Env) (io : bool) (text : string) s apps : Z * Service D * Waiting :=
  if negb io then (NETMANAGER_ERROR, s, apps) else
  match bundleMgr env with
  | None => (NETMANAGER_ERR_INTERNAL, s, apps)
  | Some b =>
      let '(o, k, apps) := foldl (fun x e => restore_entry b e x) (AS.new_RDB (rdb s), kernel s, apps) (omap read_line (getlines text "")) in
      (NETMANAGER_SUCCESS, set_kernel k (set_rdb (AS.disk o) s), apps)
  end.

(** An application that waits is installed; it goes on waiting. *)
Definition OnRestoreSingleApp (env : Env) (bundleNameFromListen : string) s apps : Z * Service D :=
  match bundleMgr env with
  | None => (NETMANAGER_ERR_INTERNAL, s)
  | Some b =>
      match apps !! bundleNameFromListen with
      | None => (NETMANAGER_ERROR, s)
      | Some (w, c) =>
          let uid := GetUidByBundleName b bundleNameFromListen MAIN_USER_ID in
          if uid =? -1 then (NETMANAGER_ERROR, s) else
          let '(ok, (o, k)) := restore_app uid w c (AS.new_RDB (rdb s), kernel s) in
          (if ok : bool then NETMANAGER_SUCCESS else NETMANAGER_ERROR, set_kernel k (set_rdb (AS.disk o) s))
      end
  end.

(** [ClearBackupInfo]: a day later. *)
Definition ClearApps : Waiting := ∅.

(** [NetPolicyService::OnBackup] and [OnRestore], when the reply can be written: the result and the reply. *)
Definition ServiceOnBackup (env : Env) (io : bool) s : Z * (option string * string) * Service D :=
  let '((ret, fd), s) := OnBackup env io s in (0, (fd, if ret <? 0 then EXTENSION_FAIL else EXTENSION_SUCCESS), s).

Definition ServiceOnRestore (env : Env) (io : bool) (text : string) s apps : Z * option string * Service D * Waiting :=
  let '(ret, s, apps) := OnRestore env io text s apps in
  if ret <? 0 then (-1, None, s, apps) else (0, Some EXTENSION_SUCCESS, s, apps).

End Clone.

(** ** Lines *)

Definition spaceless (s : string) : Prop := forall c, HT.has c s = true -> NumText.isspace c = false.
Definition plain (name : string) : Prop := name <> "" /\ spaceless name.

Fixpoint all (p : ascii -> bool) (s : string) : bool := match s with String c s => p c && all p s | EmptyString => true end.

Lemma span_app p a rest : all p a = true -> (match rest with String c _ => p c = false | EmptyString => True end) -> span p (a +:+ rest) = (a, rest).
Proof.
  intros Ha Hr. induction a as [|c a IH].
  - change ("" +:+ rest) with rest. destruct rest as [|c rest]; cbn; [done|]. by rewrite Hr.
  - cbn in Ha. apply andb_true_iff in Ha as [Hc Ha]. rewrite HT.app_cons_s. cbn [span]. rewrite Hc, (IH Ha). done.
Qed.

Lemma all_has p s : (forall c, HT.has c s = true -> p c = true) -> all p s = true.
Proof.
  induction s as [|c s IH]; intros Hs; [done|]. cbn. rewrite (Hs c) by (cbn; by rewrite Ascii.eqb_refl). apply IH. intros x Hx. apply Hs. cbn. by rewrite Hx, orb_true_r.
Qed.

(** The text of a number is made of digits. *)
Lemma pretty_digits x : forall s, all (NumText.is_digit 10) s = true -> all (NumText.is_digit 10) (pretty_N_go x s) = true.
Proof.
  induction (N.lt_wf_0 x) as [x _ IH]; intros s Hs. destruct (decide (x = 0)%N) as [->|Hx]; [by rewrite pretty_N_go_0|].
  rewrite pretty_N_go_step by lia. apply IH; [apply N.div_lt; lia|]. cbn [all]. rewrite Hs, andb_true_r.
  destruct (NumText.digit_cases (x `mod` 10) ltac:(apply N.mod_lt; lia)) as [->|[->|[->|[->|[->|[->|[->|[->|[->| ->]]]]]]]]]; reflexivity.
Qed.

Lemma number_digits z : 0 <= z -> all (NumText.is_digit 10) (PolicyFile.to_string z) = true /\ PolicyFile.to_string z <> "".
Proof.
  intros Hz. destruct (decide (z = 0)) as [->|Hne]; [done|]. split.
  - unfold PolicyFile.to_string, pretty, pretty_N. rewrite decide_False by lia. by apply pretty_digits.
  - destruct (NumText.positive_text z ltac:(lia)) as (c & s & -> & _). done.
Qed.

Definition ends (rest : string) : Prop := match rest with String c _ => NumText.is_digit 10 c = false | EmptyString => True end.

Lemma read_digits_text z rest : 0 <= z -> ends rest -> read_digits (PolicyFile.to_string z +:+ rest) = Some (z, rest).
Proof.
  intros Hz Hr. destruct (number_digits z Hz) as [Hd Hn]. unfold read_digits. rewrite span_app by done.
  rewrite bool_decide_eq_false_2 by done. by rewrite NumText.digits_in_text.
Qed.

Lemma read_int_text z rest : signed z -> ends rest -> read_int (" " +:+ NumText.to_string z +:+ rest) = Some (z, rest).
Proof.
  intros Hz Hr. unfold read_int. change (" " +:+ NumText.to_string z +:+ rest) with (String " " (NumText.to_string z +:+ rest)).
  cbn [NumText.skip_space]. change (NumText.isspace " ") with true. cbv iota.
  assert (E : read_sign (NumText.skip_space (NumText.to_string z +:+ rest)) = Some (z, rest)).
  { unfold NumText.to_string. destruct (Z.ltb_spec z 0) as [Hn|Hn].
    - change (read_sign (NumText.skip_space (("-" +:+ PolicyFile.to_string (- z)) +:+ rest)))
        with ('(n, r) ← read_digits (PolicyFile.to_string (- z) +:+ rest); Some (- n, r)).
      rewrite read_digits_text by (done || lia). cbn. by rewrite Z.opp_involutive.
    - destruct (decide (z = 0)) as [->|Hne].
      + change (read_sign (NumText.skip_space (PolicyFile.to_string 0 +:+ rest))) with (read_digits (PolicyFile.to_string 0 +:+ rest)). by apply read_digits_text.
      + pose proof (read_digits_text z rest Hn Hr) as Hd. destruct (NumText.positive_text z ltac:(lia)) as (c & s & Es & _ & Em & Ep & Ew & _).
        rewrite Es, HT.app_cons_s in *. cbn [NumText.skip_space]. rewrite Ew. cbn [read_sign]. by rewrite Em, Ep. }
  rewrite E. cbn. unfold signed in Hz. by rewrite (proj2 (Z.leb_le _ _)), (proj2 (Z.ltb_lt _ _)) by lia.
Qed.

Lemma skip_space_word name rest : plain name -> NumText.skip_space (name +:+ rest) = name +:+ rest.
Proof.
  intros [Hn Hs]. destruct name as [|c name]; [done|]. rewrite HT.app_cons_s. cbn [NumText.skip_space]. rewrite (Hs c); [done|]. cbn. by rewrite Ascii.eqb_refl.
Qed.

Lemma read_line_write_line name w c : plain name -> signed w -> signed c -> read_line (write_line name w c) = Some (name, w, c).
Proof.
  intros Hn Hw Hc. unfold read_line, write_line, read_word. rewrite skip_space_word by done. rewrite span_app.
  - rewrite bool_decide_eq_false_2 by apply Hn. cbn [mbind option_bind]. rewrite read_int_text by done. cbn [mbind option_bind].
    rewrite <- (HT.app_nil_s (NumText.to_string c)). by rewrite read_int_text.
  - apply all_has. intros x Hx. by rewrite (proj2 Hn x Hx).
  - done.
Qed.

Lemma has_app x a b : HT.has x (a +:+ b) = HT.has x a || HT.has x b.
Proof. induction a as [|c a IH]; [done|]. rewrite HT.app_cons_s. cbn. by rewrite IH, orb_assoc. Qed.

Lemma all_not_has p x s : all p s = true -> p x = false -> HT.has x s = false.
Proof.
  induction s as [|c s IH]; [done|]. cbn. intros [Hc Hs]%andb_true_iff Hx. rewrite (IH Hs Hx), orb_false_r.
  destruct (Ascii.eqb_spec c x) as [->|]; [congruence|done].
Qed.

Lemma spaceless_all s : all (fun c => negb (NumText.isspace c)) s = true -> spaceless s.
Proof.
  intros Ha c Hc. destruct (NumText.isspace c) eqn:E; [|done]. rewrite (all_not_has _ c s Ha) in Hc; [done|by rewrite E].
Qed.

Lemma number_no_newline z : HT.has NL (NumText.to_string z) = false.
Proof.
  assert (H : forall y, 0 <= y -> HT.has NL (PolicyFile.to_string y) = false).
  { intros y Hy. apply (all_not_has (NumText.is_digit 10)); [by apply number_digits|done]. }
  unfold NumText.to_string. destruct (Z.ltb_spec z 0); [|by apply H].
  change (HT.has NL (PolicyFile.to_string (- z)) = false). apply H. lia.
Qed.

Lemma line_no_newline name w c : plain name -> HT.has NL (write_line name w c) = false.
Proof.
  intros [_ Hs]. unfold write_line. rewrite !has_app, !number_no_newline. destruct (HT.has NL name) eqn:E; [|done]. by specialize (Hs NL E).
Qed.

Lemma getlines_line a rest : forall item, HT.has NL a = false -> getlines (a +:+ String NL rest) item = (item +:+ a) :: getlines rest "".
Proof.
  induction a as [|c a IH]; intros item; [intros _; by rewrite HT.app_nil_s|].
  intros [Hc Ha]%orb_false_iff. rewrite HT.app_cons_s. cbn [getlines]. rewrite Hc, (IH _ Ha). by rewrite <- HT.app_assoc_s.
Qed.

(** What is written is read, line by line. *)
Lemma backup_text_read entries : Forall (fun '(name, w, c) => plain name /\ signed w /\ signed c) entries ->
  omap read_line (getlines (backup_text entries) "") = entries.
Proof.
  induction 1 as [|[[name w] c] entries (Hn & Hw & Hc) _ IH]; [done|]. cbn [backup_text foldr].
  etransitivity; [apply (f_equal (omap read_line)), (getlines_line (write_line name w c) _ ""); by apply line_no_newline|].
  change ("" +:+ write_line name w c) with (write_line name w c). cbn [omap list_omap]. rewrite read_line_write_line by done. f_equal. exact IH.
Qed.

(** ** The restored table *)

(** The entries on the table and on the applications that wait. *)
Definition restore_table (b : Bundles) (e : string * Z * Z) (x : Table * Waiting) : Table * Waiting :=
  let '(name, w, c) := e in let '(m, apps) := x in
  let uid := GetUidByBundleName b name MAIN_USER_ID in
  if uid =? -1 then (m, <[name := (w, c)]> apps) else (<[uid := AS.mkData w c 1]> m, apps).

Definition binary (z : Z) : Prop := z = 0 \/ z = 1.

Section Restore.
Context (sz : Sizes).
Context {D : Type} `{L : AS.RdbLaws D}.
Context (U : gset Z) (U_width : forall u, u ∈ U -> in_width 32 u) (U_fits : (size U <= UID_ACCESS_POLICY_ARRAY_SIZE sz)%nat).
Implicit Types (s : Service D) (k : Kernel) (o : AS.NetAccessPolicyRDB D) (m : Table) (apps : Waiting).

Lemma line_policy_bits w c : binary w -> binary c ->
  (Z.b2z (wifiAllow (line_policy w c)), Z.b2z (cellularAllow (line_policy w c))) = row_bits (AS.mkData w c 1).
Proof. by intros [->| ->] [->| ->]. Qed.

Lemma restore_app_holds m o k uid w c : AS.holds m o -> agrees m k -> within U k -> keys U m -> signed uid -> u32 uid ∈ U -> binary w -> binary c ->
  exists o' k', restore_app sz true uid w c (o, k) = (true, (o', k')) /\
    AS.holds (<[uid := AS.mkData w c 1]> m) o' /\ agrees (<[uid := AS.mkData w c 1]> m) k' /\ within U k' /\ keys U (<[uid := AS.mkData w c 1]> m).
Proof.
  intros Ho Ha Hw Hk Hs Hu Hbw Hbc. unfold restore_app. destruct (AS.InsertData_holds m o uid (AS.mkData w c 1) Ho) as (o' & -> & Ho').
  cbn [negb Z.eqb NETMANAGER_SUCCESS AS.NETMANAGER_SUCCESS]. destruct (rule_set_fits sz U U_width U_fits uid (line_policy w c) true k Hw Hu) as (_ & Hw' & Hb).
  eexists o', _. split_and!; [done|by left| |done|by apply keys_insert].
  apply (agrees_insert m k); [done|done|]. intros v. rewrite Hb. by rewrite line_policy_bits.
Qed.

Lemma restore_entries_holds b accounts entries : forall m apps o k, knows U (mkEnv (Some b) accounts) ->
  Forall (fun '(_, w, c) => binary w /\ binary c) entries -> AS.holds m o -> agrees m k -> within U k -> keys U m ->
  let '(o', k', apps') := foldl (fun x e => restore_entry sz true b e x) (o, k, apps) entries in
  let '(m', apps'') := foldl (fun x e => restore_table b e x) (m, apps) entries in
  apps' = apps'' /\ AS.holds m' o' /\ agrees m' k' /\ within U k' /\ keys U m'.
Proof.
  intros m apps o k Hb Hent. revert m apps o k. induction Hent as [|[[name w] c] entries [Hw Hc] _ IH]; intros m apps o k Ho Ha Hwi Hk; [done|]. cbn [foldl].
  unfold restore_entry at 2, restore_table at 2. destruct (Hb name MAIN_USER_ID) as [E|[Hs Hu]].
  - cbn [bundleMgr] in E. rewrite E. cbn [Z.eqb]. by apply IH.
  - cbn [bundleMgr] in *. destruct (Z.eqb_spec (GetUidByBundleName b name MAIN_USER_ID) (-1)) as [|Hne]; [by apply IH|].
    destruct (restore_app_holds m o k _ w c Ho Ha Hwi Hk Hs Hu Hw Hc) as (o' & k' & -> & H1 & H2 & H3 & H4). by apply IH.
Qed.

Lemma OnRestore_rel m s apps env text : Rel U m s -> knows U env -> Forall (fun '(_, w, c) => binary w /\ binary c) (omap read_line (getlines text "")) ->
  let '(_, s', apps') := OnRestore sz true env true text s apps in
  let '(m', apps'') := match bundleMgr env with None => (m, apps) | Some b => foldl (fun x e => restore_table b e x) (m, apps) (omap read_line (getlines text "")) end in
  apps' = apps'' /\ Rel U m' s'.
Proof.
  intros Hrel Hb Hbin. unfold OnRestore. cbn [negb]. destruct env as [[b|] accounts]; cbn [bundleMgr] in *; [|done]. destruct Hrel as [Hs Hr Ha Hw Hk].
  pose proof (restore_entries_holds b accounts (omap read_line (getlines text "")) m apps (AS.new_RDB (rdb s)) (kernel s) Hb Hbin (AS.new_holds m _ Hs) Ha Hw Hk) as H1.
  destruct (foldl _ (AS.new_RDB (rdb s), kernel s, apps) _) as [[o k] apps']. destruct (foldl _ (m, apps) _) as [m' apps'']. destruct H1 as (-> & Ho & Ha' & Hw' & Hk').
  split; [done|]. split; cbn; [by apply holds_stored|done..].
Qed.

Lemma OnRestoreSingleApp_rel m s apps env name w c b : Rel U m s -> knows U env -> bundleMgr env = Some b -> apps !! name = Some (w, c) -> binary w -> binary c ->
  let '(r, s') := OnRestoreSingleApp sz true env name s apps in
  let uid := GetUidByBundleName b name MAIN_USER_ID in
  if uid =? -1 then r = NETMANAGER_ERROR /\ s' = s else r = NETMANAGER_SUCCESS /\ Rel U (<[uid := AS.mkData w c 1]> m) s'.
Proof.
  intros [Hs Hr Ha Hw Hk] Hb Eb Ea Hbw Hbc. unfold OnRestoreSingleApp. unfold knows in Hb. rewrite Eb in *. rewrite Ea. destruct (Hb name MAIN_USER_ID) as [E|[Hsi Hu]]; [rewrite E; done|].
  destruct (Z.eqb_spec (GetUidByBundleName b name MAIN_USER_ID) (-1)); [done|].
  destruct (restore_app_holds m (AS.new_RDB (rdb s)) (kernel s) _ w c (AS.new_holds m _ Hs) Ha Hw Hk Hsi Hu Hbw Hbc) as (o' & k' & -> & H1 & H2 & H3 & H4).
  split; [done|]. split; cbn; [by apply holds_stored|done..].
Qed.

(** ** From one device to another *)

Definition entry_name (e : string * Z * Z) : string := e.1.1.
Definition installed (b : Bundles) (name : string) : Z := GetUidByBundleName b name MAIN_USER_ID.

(** A later line of the application [n] does not touch what a line of [name] left. *)
Definition apart (b : Bundles) (name n : string) : Prop := n <> name /\ (installed b name <> -1 -> installed b n <> installed b name).

Lemma restore_table_frame b entries : forall m apps, let '(m', apps') := foldl (fun x e => restore_table b e x) (m, apps) entries in
  (forall x, (forall name, name ∈ entry_name <$> entries -> installed b name <> -1 -> installed b name <> x) -> m' !! x = m !! x) /\
  (forall name, name ∉ entry_name <$> entries -> apps' !! name = apps !! name).
Proof.
  induction entries as [|[[name w] c] entries IH]; intros m apps; [done|]. cbn [foldl fmap list_fmap entry_name fst].
  unfold restore_table at 2. fold (installed b name). destruct (Z.eqb_spec (installed b name) (-1)) as [E|E].
  - specialize (IH m (<[name := (w, c)]> apps)). destruct (foldl _ _ entries) as [m' apps']. destruct IH as [I1 I2]. split.
    + intros x Hx. apply I1. intros n Hn. apply Hx. by apply elem_of_cons; right.
    + intros n [H1 H2]%not_elem_of_cons. by rewrite I2, lookup_insert_ne.
  - specialize (IH (<[installed b name := AS.mkData w c 1]> m) apps). destruct (foldl _ _ entries) as [m' apps']. destruct IH as [I1 I2]. split.
    + intros x Hx. rewrite I1; [rewrite lookup_insert_ne; [done|apply Hx; [by apply elem_of_cons; left|done]]|].
      intros n Hn. apply Hx. by apply elem_of_cons; right.
    + intros n [H1 H2]%not_elem_of_cons. by rewrite I2.
Qed.

(** The last line of an application decides. *)
Lemma restore_table_last b before name w c after m apps : Forall (apart b name) (entry_name <$> after) ->
  let '(m', apps') := foldl (fun x e => restore_table b e x) (m, apps) (before ++ (name, w, c) :: after) in
  if installed b name =? -1 then apps' !! name = Some (w, c) else m' !! installed b name = Some (AS.mkData w c 1).
Proof.
  intros Ha. rewrite foldl_app. destruct (foldl _ (m, apps) before) as [m0 apps0]. cbn [foldl].
  assert (Hname : name ∉ entry_name <$> after) by (intros Hin; by destruct (proj1 (Forall_forall _ _) Ha _ Hin)).
  unfold restore_table at 2. fold (installed b name). destruct (Z.eqb_spec (installed b name) (-1)) as [E|E].
  - pose proof (restore_table_frame b after m0 (<[name := (w, c)]> apps0)) as Hf. destruct (foldl _ _ after) as [m' apps']. destruct Hf as [_ F2].
    by rewrite F2, lookup_insert_eq.
  - pose proof (restore_table_frame b after (<[installed b name := AS.mkData w c 1]> m0) apps0) as Hf. destruct (foldl _ _ after) as [m' apps']. destruct Hf as [F1 _].
    rewrite F1; [by rewrite lookup_insert_eq|]. intros n Hn _. by destruct (proj1 (Forall_forall _ _) Ha _ Hn) as [_ H2]; apply H2.
Qed.

Lemma entry_of_row b x e : backup_entry b x = Some e ->
  allows_both x.2 = false /\ GetNameForUid b x.1 = Some (entry_name e) /\ e = (entry_name e, AS.wifiPolicy x.2, AS.cellularPolicy x.2).
Proof. unfold backup_entry. destruct (allows_both x.2); [done|]. destruct (GetNameForUid b x.1); [|done]. by intros [= <-]. Qed.

(** The line of a row, and the lines of the other rows. *)
Lemma entry_at b (l : list (Z * AS.NetAccessPolicyData)) uid row name : NoDup l.*1 -> (uid, row) ∈ l -> allows_both row = false -> GetNameForUid b uid = Some name ->
  exists before after, omap (backup_entry b) l = before ++ (name, AS.wifiPolicy row, AS.cellularPolicy row) :: after /\
    forall n, n ∈ entry_name <$> after -> exists v row', v <> uid /\ (v, row') ∈ l /\ allows_both row' = false /\ GetNameForUid b v = Some n.
Proof.
  intros Hn Hin Hd Hname. apply list_elem_of_split in Hin as (l1 & l2 & ->). exists (omap (backup_entry b) l1), (omap (backup_entry b) l2). split.
  - rewrite omap_app. f_equal. cbn [omap list_omap]. unfold backup_entry at 1. cbn [fst snd]. by rewrite Hd, Hname.
  - intros n Hin. apply list_elem_of_fmap in Hin as (e & -> & Hin). apply list_elem_of_omap in Hin as ([v row'] & Hv & Ev).
    apply entry_of_row in Ev as (H1 & H2 & _). exists v, row'. split_and!; [|apply elem_of_app; right; by apply elem_of_cons; right|done|done].
    intros ->. rewrite fmap_app in Hn. apply NoDup_app in Hn as (_ & _ & Hn). cbn in Hn. apply NoDup_cons in Hn as [Hn _]. apply Hn.
    apply list_elem_of_fmap. by exists (uid, row').
Qed.

(** C29: Policies move between devices: the backup of a device whose databases hold a table of policies is a text with a line
    for every row that denies a bearer and whose user has an application, in some order; another device that restores it gets
    for every application the values of its last line: in its databases and in the map of its kernel when the
    application is installed there, and otherwise kept for its installation.  So the policy of an application of the first device arrives as
    it was when no other user there that denies a bearer has an application of the same name (as the users of several accounts
    do), or one that has the same user on the second device.  The policies of the other users of the second
    device stay.  (The tables hold zeros and ones, as the service writes them; the names of applications have no spaces; the users of
    the second device's applications are among those, [U], that its map can hold.) *)
Theorem clone_roundtrip envA envB bA bB mA sA mB sB apps :
  AS.stored mA (rdb sA) -> bundleMgr envA = Some bA -> bundleMgr envB = Some bB -> Rel U mB sB -> knows U envB ->
  (forall uid r, mA !! uid = Some r -> binary (AS.wifiPolicy r) /\ binary (AS.cellularPolicy r)) ->
  (forall uid name, GetNameForUid bA uid = Some name -> plain name) ->
  exists l, l ≡ₚ map_to_list mA /\
  let entries := omap (backup_entry bA) l in let text := backup_text entries in
  (OnBackup envA true sA).1 = (0, Some text) /\ AS.stored mA (rdb (OnBackup envA true sA).2) /\
  let '(r, sB', apps') := OnRestore sz true envB true text sB apps in
  r = NETMANAGER_SUCCESS /\ exists mB', Rel U mB' sB' /\
  let gets name w c := if installed bB name =? -1 then apps' !! name = Some (w, c) else mB' !! installed bB name = Some (AS.mkData w c 1) in
  (forall before name w c after, entries = before ++ (name, w, c) :: after -> Forall (apart bB name) (entry_name <$> after) -> gets name w c) /\
  (forall uid row name, mA !! uid = Some row -> allows_both row = false -> GetNameForUid bA uid = Some name ->
     (forall v row' n, v <> uid -> mA !! v = Some row' -> allows_both row' = false -> GetNameForUid bA v = Some n -> apart bB name n) ->
     gets name (AS.wifiPolicy row) (AS.cellularPolicy row)) /\
  (forall x, (forall uid name, is_Some (mA !! uid) -> GetNameForUid bA uid = Some name -> installed bB name <> -1 -> installed bB name <> x) -> mB' !! x = mB !! x).
Proof.
  intros Hs EA EB Hrel Hb Hbin Hplain. unfold OnBackup.
  destruct (AS.QueryAll_holds mA _ (AS.new_holds mA _ Hs)) as (l & o & -> & Hl & Ho). rewrite EA. cbn [fst snd]. exists l. split; [done|]. cbv zeta.
  set (entries := omap (backup_entry bA) l). split_and!; [done|by apply AS.opened_stored|].
  assert (Hrow : forall x, x ∈ l -> mA !! x.1 = Some x.2) by (intros [u r] Hin; rewrite Hl in Hin; by apply elem_of_map_to_list in Hin).
  assert (Hent : forall e, e ∈ entries -> exists x, x ∈ l /\ mA !! x.1 = Some x.2 /\ GetNameForUid bA x.1 = Some (entry_name e) /\ e.1.2 = AS.wifiPolicy x.2 /\ e.2 = AS.cellularPolicy x.2).
  { intros e He. apply list_elem_of_omap in He as (x & Hx & Ex). apply entry_of_row in Ex as (_ & H1 & H2). exists x. rewrite H2. split_and!; [done|by apply Hrow|done|done|done]. }
  assert (Hread : omap read_line (getlines (backup_text entries) "") = entries).
  { apply backup_text_read. apply Forall_forall. intros [[name w] c] He. destruct (Hent _ He) as ([u r] & _ & Hr & Hname & Ew' & Ec'). cbn in Ew', Ec'. subst w c.
    destruct (Hbin _ _ Hr) as [[Ew|Ew] [Ec|Ec]]; cbn in *; rewrite Ew, Ec; (split_and!; [by eapply Hplain|by vm_compute|by vm_compute]). }
  pose proof (OnRestore_rel mB sB apps envB (backup_text entries) Hrel Hb) as Hres. rewrite Hread in Hres.
  assert (Hbins : Forall (fun '(_, w, c) => binary w /\ binary c) entries).
  { apply Forall_forall. intros [[name w] c] He. destruct (Hent _ He) as ([u r] & _ & Hr & _ & Ew' & Ec'). cbn in Ew', Ec'. subst w c. by apply (Hbin u r). }
  specialize (Hres Hbins). rewrite EB in Hres.
  assert (Er : (OnRestore sz true envB true (backup_text entries) sB apps).1.1 = NETMANAGER_SUCCESS).
  { unfold OnRestore. rewrite EB. cbv beta iota delta [negb]. by destruct (foldl (fun x e => restore_entry sz true bB e x) _ _) as [[o1 k1] a1]. }
  destruct (OnRestore _ _ _ _ _ _ _) as [[r sB'] apps']. cbn [fst] in Er. split; [done|].
  pose proof (restore_table_frame bB entries mB apps) as Hframe.
  pose proof (fun before name w c after => restore_table_last bB before name w c after mB apps) as Hlast.
  destruct (foldl (fun x e => restore_table bB e x) (mB, apps) entries) as [mB' apps''] eqn:Ef.
  destruct Hres as [-> Hrel']. exists mB'. split; [done|].
  assert (Hgets : forall before name w c after, entries = before ++ (name, w, c) :: after -> Forall (apart bB name) (entry_name <$> after) ->
    if installed bB name =? -1 then apps'' !! name = Some (w, c) else mB' !! installed bB name = Some (AS.mkData w c 1)).
  { intros before name w c after E Ha. specialize (Hlast before name w c after Ha). rewrite <- E in Hlast. by rewrite Ef in Hlast. }
  split; [exact Hgets|]. split.
  - intros uid row name Hu Hd Hname Hap. destruct (entry_at bA l uid row name) as (before & after & E & Hafter); [rewrite Hl; apply NoDup_fst_map_to_list| |done|done|].
    { rewrite Hl. by apply elem_of_map_to_list. }
    apply (Hgets before name _ _ after E). apply Forall_forall. intros n Hn. destruct (Hafter n Hn) as (v & row' & Hne & Hv & Hd' & Hn').
    rewrite Hl in Hv. apply elem_of_map_to_list in Hv. by eapply Hap.
  - intros x Hx. apply (proj1 Hframe). intros name Hin Hi. apply list_elem_of_fmap in Hin as (e & -> & He). destruct (Hent e He) as (y & _ & Hy & Hname & _).
    eapply Hx; [|exact Hname|done]. by eexists.
Qed.

End Restore.

(** ** Examples *)

Definition phone : Bundles := mkBundles (fun n _ => if bool_decide (n = "mail") then 20010 else -1)
  (fun u => if u =? 20010 then Some "mail" else if u =? 20011 then Some "maps" else None) (fun _ => None) 200000.
Definition tablet : Bundles := mkBundles (fun n _ => if bool_decide (n = "mail") then 20044 else -1) (fun u => if u =? 20044 then Some "mail" else None) (fun _ => None) 200000.
Definition phone_table : Table := {[20010 := AS.mkData 0 1 0; 20011 := AS.mkData 0 0 0; 20012 := AS.mkData 1 1 0]}.
Definition device (m : Table) : Service AS.two := mkService (AS.Rows m, AS.Rows m) AC.no_configs true boot_kernel.
Definition phone_env : Env := mkEnv (Some phone) (Some [100]).
Definition tablet_env : Env := mkEnv (Some tablet) (Some [100]).

Lemma tablet_rel : Rel {[20044]} ∅ (device ∅).
Proof.
  split; [split; [done|by left]|done| |set_solver|by intros x [? ?%lookup_empty_Some]]. intros uid _. cbn. by rewrite lookup_empty.
Qed.

Lemma phone_names u name : GetNameForUid phone u = Some name -> (u = 20010 /\ name = "mail") \/ (u = 20011 /\ name = "maps").
Proof. unfold phone, GetNameForUid. destruct (Z.eqb_spec u 20010), (Z.eqb_spec u 20011); intros; simplify_eq; auto. Qed.

Lemma clone_roundtrip_witness : exists text, (OnBackup phone_env true (device phone_table)).1 = (0, Some text) /\
  let '(r, s, apps) := OnRestore normal_sizes true tablet_env true text (device ∅) ∅ in
  r = 0 /\ apps !! "maps" = Some (0, 0) /\ exists m, Rel {[20044]} m s /\ m !! 20044 = Some (AS.mkData 0 1 1) /\ m !! 7 = None.
Proof.
  destruct (clone_roundtrip normal_sizes {[20044]} ltac:(intros u ->%elem_of_singleton; split; lia) ltac:(rewrite size_singleton; apply Nat.leb_le; vm_compute; reflexivity)
    phone_env tablet_env phone tablet phone_table (device phone_table) ∅ (device ∅) ∅) as (l & _ & E & _ & H).
  - split; [reflexivity|left; reflexivity].
  - reflexivity.
  - reflexivity.
  - apply tablet_rel.
  - intros name userId. cbn. case_bool_decide; [right|by left]. split; [split; lia|]. apply elem_of_singleton. reflexivity.
  - apply (map_Forall_to_list (fun _ r => binary (AS.wifiPolicy r) /\ binary (AS.cellularPolicy r))). unfold binary. vm_compute. repeat first [left; reflexivity|right; reflexivity|constructor].
  - intros uid name. cbn. destruct (uid =? 20010); [intros [= <-]|destruct (uid =? 20011); [intros [= <-]|done]];
      (split; [done|]; apply spaceless_all; reflexivity).
  - eexists. split; [exact E|]. destruct (OnRestore _ _ _ _ _ _ _) as [[r s] apps]. destruct H as (-> & m & Hr & _ & Hd & Hx).
    assert (Hnames : forall u v name n, v <> u -> GetNameForUid phone u = Some name -> GetNameForUid phone v = Some n -> apart tablet name n).
    { intros u v name n Hne [[-> ->]|[-> ->]]%phone_names [[-> ->]|[-> ->]]%phone_names; [done| | |done]; (split; [discriminate|]).
      - intros _. by vm_compute.
      - intros H. destruct H. reflexivity. }
    split_and!; [reflexivity| |exists m; split_and!; [exact Hr| |]].
    + apply (Hd 20011 (AS.mkData 0 0 0) "maps"); try reflexivity. intros v row' n Hne _ _. by apply (Hnames 20011).
    + apply (Hd 20010 (AS.mkData 0 1 0) "mail"); try reflexivity. intros v row' n Hne _ _. by apply (Hnames 20010).
    + rewrite Hx; [reflexivity|]. intros uid name _. cbn. unfold installed. cbn. intros _. by case_bool_decide.
Defined.

(** Two users of the first device have "mail", in two accounts: one denies Wi-Fi and the other cellular networks, and only the one whose line is the
    last arrives: the other denied bearer is allowed on the second device. *)
Definition accounts_phone : Env :=
  mkEnv (Some (mkBundles (fun _ _ => -1) (fun u => if (u =? 20010) || (u =? 220010) then Some "mail" else None) (fun _ => None) 200000)) (Some [100]).
Example same_name_last_wins :
  let m := {[20010 := AS.mkData 0 1 0; 220010 := AS.mkData 1 0 0]} in
  exists text, (OnBackup accounts_phone true (device m)).1 = (0, Some text) /\
  let '(_, s, _) := OnRestore normal_sizes true tablet_env true text (device ∅) ∅ in bits (access (kernel s)) 20044 = Some (0, 1).
Proof. eexists. split; [vm_compute; reflexivity|vm_compute; reflexivity]. Qed.

(** A restore while the bundle manager is down does nothing, and is reported as a success: its error is not below zero. *)
Example restore_without_bundles_succeeds :
  ServiceOnRestore normal_sizes true (mkEnv None None) true "mail 0 1" (device ∅) ∅ = (0, Some EXTENSION_SUCCESS, device ∅, ∅).
Proof. reflexivity. Qed.

(** The value 2 is an allowed bearer in the table and after the next start, but a denied one at the restore. *)
Example restored_two_is_denied :
  let '(_, s, _) := OnRestore normal_sizes true tablet_env true "mail 2 1" (device ∅) ∅ in
  bits (access (kernel s)) 20044 = Some (0, 1) /\ bits (access (kernel (Init normal_sizes true s))) 20044 = Some (1, 1).
Proof. by vm_compute. Qed.

End AccessClone.
