(* ===== verification/AccessRun.v ===== *)
(** * Runs of the access policies

    Everything that changes the access policies of a device in one sequence of
    events: calls, applications that come and go, the configuration, a factory
    reset, a restored backup, starts of the device, what happens in the kernel,
    and damage to the main database.

    The specification is a table with the configuration and the applications that
    wait ([Spec], [spec_event]); the databases, the map of the kernel and the
    objects of the service refine it ([SysRel], [exec_event_rel]), and its table is what
    the packets and the queries see ([access_policies_durable]). *)

From Stdlib Require Import Ascii String.
From S2P Require Import Prelude NetCaps NetData Parcel ConnParcel PolicyParcel PolicyFile NumText HttpProxyText.
From S2P Require Import Conntrack FirewallMatch BpfMap NetsysBpf BpfStats AccessMaps NetsysRun AccessStore AccessConfig AccessService AccessClone.
Import PolicyParcel.
Module AS := AccessStore.AccessStore.
Module AC := AccessConfig.AccessConfig.
Module FM := FirewallMatch.FirewallMatch.

Module AccessRun.
Import NetsysBpf AccessMaps NetsysRun AccessService AccessClone.

Inductive AccessEvent :=
| ESet (uid : Z) (policy : NetworkAccessPolicy) (reconfirmFlag : bool)
| EQuery (env : Env) (uid callingUid : Z)
| ERemoved (uid : Z)
| EAdded (env : Env) (anco : bool) (uid : Z) (infos : list (Z * SampleBundleInfo))
| EUnlocked (anco : bool) (infos : list (Z * SampleBundleInfo))
| EConfigAdd (env : Env) (bundleNames : list string)
| EConfigRemove (env : Env) (bundleNames : list string)
| EBundleManager (env : Env)                   (* the bundle manager is there: the configuration is flushed *)
| EReset                                       (* factory reset *)
| ERestore (env : Env) (io : bool) (text : string)
| ERestoreApp (env : Env) (bundleName : string)
| EClearApps
| EBoot (k : Kernel)                           (* the device starts: the service with the kernel as it then is *)
| EDamage
| EKernel (e : Event).

Section Runs.
Context (sz : Sizes) (file : option (list AC.Item)).
Context {D : Type} `{L : AS.RdbLaws D}.
Context (damage : D -> D).

Record System := mkSystem { svc : Service D; waiting : Waiting }.

(** With the programs loaded. *)
Definition exec_event (e : AccessEvent) (S : System) : System :=
  let s := svc S in let apps := waiting S in
  match e with
  | ESet uid policy flag => mkSystem (SetNetworkAccessPolicy sz true uid policy flag s).2 apps
  | EQuery env uid callingUid => mkSystem (GetNetworkAccessPolicy file env (mkAccessParameter true uid callingUid) s).2 apps
  | ERemoved uid => mkSystem (OnPackageRemoved sz true uid s) apps
  | EAdded env anco uid infos => mkSystem (OnPackageAdded sz true file env anco uid infos s) apps
  | EUnlocked anco infos => mkSystem (SetBrokerUidAccessPolicyMap sz true anco None infos s) apps
  | EConfigAdd env names => mkSystem (AddNetworkAccessPolicy sz true file env names s).2 apps
  | EConfigRemove env names => mkSystem (RemoveNetworkAccessPolicy sz true file env names s).2 apps
  | EBundleManager env => mkSystem (RefreshNetworkAccessPolicyFromConfig sz true file env s).2 apps
  | EReset => mkSystem (ResetNetAccessPolicy sz true s) apps
  | ERestore env io text => let '(_, s, apps) := OnRestore sz true env io text s apps in mkSystem s apps
  | ERestoreApp env name => mkSystem (OnRestoreSingleApp sz true env name s apps).2 apps
  | EClearApps => mkSystem s ClearApps
  | EBoot k => mkSystem (Init sz true (mkService (rdb s) AC.no_configs false k)) ∅
  | EDamage => mkSystem (set_rdb (damage (rdb s)) s) apps
  | EKernel e => mkSystem (set_kernel (exec sz true e (kernel s)).2 s) apps
  end.

Definition exec_all (es : list AccessEvent) (S : System) : System := foldl (fun S e => exec_event e S) S es.

(** ** The specification *)

Record Spec := mkSpec { table : Table; config : AC.NetAccessPolicyConfigUtils; wait : Waiting }.

Definition refresh_spec (env : Env) (u : AC.NetAccessPolicyConfigUtils) (a : Spec) : Spec :=
  let '(cs, u) := AC.GetNetAccessPolicyConfig file u in mkSpec (overwrite_table env cs (table a)) u (wait a).

Definition spec_event (e : AccessEvent) (a : Spec) : Spec :=
  let m := table a in
  match e with
  | ESet uid policy flag => mkSpec (<[s32 uid := policy_row policy (negb flag)]> m) (config a) (wait a)
  | EQuery env uid _ =>
      match b ← bundleMgr env; GetNameForUid b (s32 uid) with
      | Some _ => mkSpec m (AC.GetNetAccessPolicyConfig file (config a)).2 (wait a)
      | None => a
      end
  | ERemoved uid => mkSpec (delete (s32 uid) m) (config a) (wait a)
  | EAdded env _ _ _ | EBundleManager env => refresh_spec env (config a) a
  | EConfigAdd env names => refresh_spec env (AC.AddNetAccessPolicyConfig names (config a)) a
  | EConfigRemove env names => refresh_spec env (AC.RemoveNetAccessPolicyConfig names (config a)) a
  | EReset => mkSpec (reset_table m) (config a) (wait a)
  | ERestore env io text =>
      match bundleMgr env with
      | Some b => if io then let '(m, apps) := foldl (fun x e => restore_table b e x) (m, wait a) (omap read_line (getlines text "")) in
                             mkSpec m (config a) apps else a
      | None => a
      end
  | ERestoreApp env name =>
      match bundleMgr env, wait a !! name with
      | Some b, Some (w, c) => if installed b name =? -1 then a else mkSpec (<[installed b name := AS.mkData w c 1]> m) (config a) (wait a)
      | _, _ => a
      end
  | EClearApps => mkSpec m (config a) ∅
  | EBoot _ => mkSpec m AC.no_configs ∅
  | EUnlocked _ _ | EDamage | EKernel _ => a
  end.

Definition spec_all (es : list AccessEvent) (a : Spec) : Spec := foldl (fun a e => spec_event e a) a es.

(** ** The refinement *)

Context (U : gset Z) (U_width : forall u, u ∈ U -> in_width 32 u) (U_fits : (size U <= UID_ACCESS_POLICY_ARRAY_SIZE sz)%nat).
Context (damages : forall d, AS.sets AS.content AS.MAIN AS.Corrupt d (damage d)).

(** Events are about the users of [U]; backups hold zeros and ones; only the service sets policies; a device starts with an
    empty map. *)
Definition event_ok (e : AccessEvent) : Prop :=
  match e with
  | ESet uid _ _ | ERemoved uid => uid ∈ U
  | EAdded env _ _ _ | EConfigAdd env _ | EConfigRemove env _ | EBundleManager env | ERestoreApp env _ => knows U env
  | ERestore env _ text => knows U env /\ Forall (fun '(_, w, c) => binary w /\ binary c) (omap read_line (getlines text ""))
  | EBoot k => policies k = ∅
  | EKernel e => no_policy_event e
  | _ => True
  end.

Record SysRel (a : Spec) (S : System) : Prop := mkSysRel {
  sys_rel : Rel U (table a) (svc S);
  sys_configs : configs (svc S) = config a;
  sys_waiting : waiting S = wait a;
  sys_binary : map_Forall (fun _ x => binary x.1 /\ binary x.2) (wait a) }.

Lemma damage_stored m d : AS.stored m d -> AS.stored m (damage d).
Proof. intros [Hb _]. destruct (AS.sets_main _ _ _ (damages d)) as [H1 H2]. split; [congruence|by right]. Qed.

(** The operations leave the configuration alone, but for reading the file. *)
Lemma GetNet_configs env uid cu s : configs (GetNetworkAccessPolicy file env (mkAccessParameter true uid cu) s).2 =
  match b ← bundleMgr env; GetNameForUid b (s32 uid) with Some _ => (AC.GetNetAccessPolicyConfig file (configs s)).2 | None => configs s end.
Proof.
  unfold GetNetworkAccessPolicy. destruct (bundleMgr env) as [b|]; [|done]. cbn [ap_flag ap_uid mbind option_bind].
  destruct (GetNameForUid b (s32 uid)) as [name|]; [|by destruct (AS.QueryByUid _ _)].
  unfold AC.UpdateNetworkAccessPolicyFromConfig. destruct (AC.GetNetAccessPolicyConfig file (configs s)) as [cs u].
  destruct (list_find _ cs) as [[i c]|]; by destruct (AS.QueryByUid _ _).
Qed.

Lemma Refresh_configs env s : configs (RefreshNetworkAccessPolicyFromConfig sz true file env s).2 = (AC.GetNetAccessPolicyConfig file (configs s)).2.
Proof.
  unfold RefreshNetworkAccessPolicyFromConfig, OverwriteNetAccessPolicyToDBFromConfig, UpdateNetAccessPolicyToMapFromDB. cbn [snd].
  destruct (AC.GetNetAccessPolicyConfig file (configs s)) as [cs u]. destruct (bool_decide (cs = [])); [|destruct (bundleMgr env)];
    cbn [netPolicyRule_ set_rdb set_configs configs]; (destruct (negb _); [done|by destruct (AS.QueryAll _)]).
Qed.

Lemma refresh_rel a S env u : SysRel a S -> knows U env -> Rel U (table a) (svc S) ->
  SysRel (refresh_spec env u a) (mkSystem (RefreshNetworkAccessPolicyFromConfig sz true file env (set_configs u (svc S))).2 (waiting S)).
Proof.
  intros [H1 H2 H3 H4] Hk Hr. unfold refresh_spec. pose proof (Refresh_rel sz file U U_width U_fits (table a) (set_configs u (svc S)) env (Rel_set_configs U _ _ u H1) Hk) as Hrel.
  pose proof (Refresh_configs env (set_configs u (svc S))) as Hc. cbn [configs set_configs] in *. destruct (AC.GetNetAccessPolicyConfig file u) as [cs u']. by split.
Qed.

Lemma set_configs_id (s : Service D) : set_configs (configs s) s = s.
Proof. by destruct s. Qed.

(** The entries of a backup wait with their values. *)
Lemma restore_waiting b entries : Forall (fun '(_, w, c) => binary w /\ binary c) entries -> forall m apps,
  map_Forall (fun _ x => binary x.1 /\ binary x.2) apps ->
  map_Forall (fun _ x => binary x.1 /\ binary x.2) (foldl (fun x e => restore_table b e x) (m, apps) entries).2.
Proof.
  induction 1 as [|[[name w] c] entries Hbin _ IH]; intros m apps Ha; [done|]. cbn [foldl]. unfold restore_table at 2. destruct (_ =? -1); apply IH; [|done].
  by apply map_Forall_insert_2.
Qed.

Lemma configs_frame :
  (forall uid policy flag s, configs (SetNetworkAccessPolicy sz true uid policy flag s).2 = configs s) /\
  (forall uid s, configs (OnPackageRemoved sz true uid s) = configs s) /\
  (forall s, configs (ResetNetAccessPolicy sz true s) = configs s) /\
  (forall env io text s apps, configs (OnRestore sz true env io text s apps).1.2 = configs s) /\
  (forall env name s apps, configs (OnRestoreSingleApp sz true env name s apps).2 = configs s) /\
  (forall s, configs (Init sz true s) = configs s).
Proof.
  split_and!.
  - intros. unfold SetNetworkAccessPolicy. destruct (negb _); [done|]. by destruct (AS.InsertData _ _ _), (rule_set _ _ _ _ _ _).
  - intros. unfold OnPackageRemoved. destruct (AS.DeleteByUid _ _). unfold DeleteNetworkAccessPolicy. destruct (negb _); [done|]. by destruct (exec _ _ _ _).
  - intros. unfold ResetNetAccessPolicy. destruct (negb _); [done|]. destruct (AS.QueryAll _) as [l o]. by destruct (foldl _ _ _).
  - intros. unfold OnRestore. destruct (negb io); [done|]. destruct (bundleMgr env) as [b|]; [|done].
    by destruct (foldl (fun x e => restore_entry sz true b e x) _ _) as [[o k] a].
  - intros. unfold OnRestoreSingleApp. destruct (bundleMgr env); [|done]. destruct (apps !! name) as [[w c]|]; [|done]. destruct (_ =? -1); [done|].
    by destruct (restore_app _ _ _ _ _ _) as [ok [o k]].
  - intros. unfold Init. destruct (AS.InitRdbStore _). unfold UpdateNetAccessPolicyToMapFromDB. cbn. by destruct (AS.QueryAll _).
Qed.

Lemma exec_event_rel e a S : event_ok e -> SysRel a S -> SysRel (spec_event e a) (exec_event e S).
Proof.
  intros He Hsys. pose proof Hsys as [H1 H2 H3 H4]. destruct configs_frame as (F1 & F2 & F3 & F4 & F5 & F6).
  assert (Hrf : forall env, knows U env -> SysRel (refresh_spec env (config a) a) (mkSystem (RefreshNetworkAccessPolicyFromConfig sz true file env (svc S)).2 (waiting S))).
  { intros env Hk. rewrite <- (set_configs_id (svc S)), H2 at 1. by apply refresh_rel. }
  destruct e as [uid policy flag|env uid cu|uid|env anco uid infos|anco infos|env names|env names|env| |env io text|env name| |k| |e]; cbn [event_ok spec_event exec_event] in *.
  - pose proof (SetNetworkAccessPolicy_rel sz U U_width U_fits (table a) (svc S) uid policy flag H1 He) as Hr. pose proof (F1 uid policy flag (svc S)) as Hc.
    destruct (SetNetworkAccessPolicy _ _ _ _ _ _) as [r s']. destruct Hr. split; cbn in *; [done|congruence|done|done].
  - pose proof (GetNet_configs env uid cu (svc S)) as Hc. rewrite H2 in Hc.
    assert (Hr : Rel U (table a) (GetNetworkAccessPolicy file env (mkAccessParameter true uid cu) (svc S)).2).
    { destruct (bundleMgr env) as [b|] eqn:Eb; [|unfold GetNetworkAccessPolicy; by rewrite Eb].
      pose proof (GetNetworkAccessPolicy_rel file U (table a) (svc S) env uid cu H1 ltac:(by rewrite Eb)) as Hg. destruct (GetNetworkAccessPolicy _ _ _ _) as [[r save] s']. apply Hg. }
    destruct (b ← bundleMgr env; GetNameForUid b (s32 uid)); by split.
  - split; cbn; [by apply OnPackageRemoved_rel|by rewrite F2|done|done].
  - unfold OnPackageAdded. pose proof (SetBrokerUidAccessPolicyMap_rel sz U (table a) (svc S) anco (Some uid) infos H1) as Hb.
    set (s1 := SetBrokerUidAccessPolicyMap sz true anco (Some uid) infos (svc S)) in *.
    assert (Ec : configs s1 = config a) by (unfold s1, SetBrokerUidAccessPolicyMap; by case_bool_decide).
    rewrite <- (set_configs_id s1), Ec. apply (refresh_rel a (mkSystem s1 (waiting S)) env (config a)); [by split|done|done].
  - split; cbn; [by apply SetBrokerUidAccessPolicyMap_rel|unfold SetBrokerUidAccessPolicyMap; by case_bool_decide|done|done].
  - cbn. rewrite H2. by apply refresh_rel.
  - cbn. rewrite H2. by apply refresh_rel.
  - by apply Hrf.
  - split; cbn; [by apply ResetNetAccessPolicy_rel|by rewrite F3|done|done].
  - destruct He as [Hk Hbin]. destruct io; [|unfold OnRestore; by destruct (bundleMgr env), S].
    pose proof (OnRestore_rel sz U U_width U_fits (table a) (svc S) (waiting S) env text H1 Hk Hbin) as Hr. pose proof (F4 env true text (svc S) (waiting S)) as Hc.
    destruct (OnRestore _ _ _ _ _ _ _) as [[r s'] apps']. cbn [fst snd] in Hc. rewrite H3 in Hr. destruct (bundleMgr env) as [b|].
    + pose proof (restore_waiting b _ Hbin (table a) (wait a) H4) as Hw. destruct (foldl _ (table a, wait a) _) as [m' apps'']. destruct Hr as [-> Hr].
      split; cbn in *; [done|congruence|done|done].
    + destruct Hr as [-> Hr]. split; cbn; [done|congruence|done|done].
  - pose proof (F5 env name (svc S) (waiting S)) as Hc. destruct (bundleMgr env) as [b|] eqn:Eb; [|unfold OnRestoreSingleApp; rewrite Eb; by destruct S].
    rewrite H3 in *. destruct (wait a !! name) as [[w c]|] eqn:Ew; [|unfold OnRestoreSingleApp; rewrite Eb, Ew; by split].
    destruct (H4 name (w, c) Ew) as [Hbw Hbc].
    pose proof (OnRestoreSingleApp_rel sz U U_width U_fits (table a) (svc S) (wait a) env name w c b H1 He Eb Ew Hbw Hbc) as Hr.
    destruct (OnRestoreSingleApp _ _ _ _ _ _) as [r s']. cbn [snd] in *. unfold installed. destruct (_ =? -1).
    + destruct Hr as [_ ->]. by split.
    + destruct Hr as [_ Hr]. split; cbn; [done|congruence|done|done].
  - split; cbn; [done|done|done|apply map_Forall_empty].
  - split; cbn; [|by rewrite F6|done|apply map_Forall_empty].
    apply Init_rel; [done|done|apply H1|apply H1|done].
  - split; cbn; [|done|done|done]. apply Rel_set_rdb; [apply damage_stored, H1|done].
  - split; cbn; [by apply Rel_event|done|done|done].
Qed.

Lemma exec_all_rel es : forall a S, Forall event_ok es -> SysRel a S -> SysRel (spec_all es a) (exec_all es S).
Proof. induction es as [|e es IH]; intros a S Hes Hr; [done|]. apply Forall_cons in Hes as [He Hes]. apply IH; [done|]. by apply exec_event_rel. Qed.

(** ** What the table decides *)

Lemma policy_allows_fresh b : policy_allows fresh_policy b = true.
Proof. unfold policy_allows. by repeat case_match. Qed.

Lemma packet_table m k p uid : agrees m k -> in_width 32 uid -> access_uid sz p k = uid ->
  packet_allowed sz p k = policy_allows (table_policy m uid) (first_known [packet_bearer p (access k); seen_bearer uid k; default_bearer (access k)]).
Proof.
  intros Ha Hu Ep. specialize (Ha uid Hu). unfold table_policy. destruct (m !! s32 uid) as [r|]; cbn in *.
  - apply packet_allowed_in_force; [|done]. apply in_force_bits. by rewrite Ha.
  - rewrite policy_allows_fresh. unfold packet_allowed. rewrite Ep. unfold bits in Ha. by destruct (app_uid_access_policy_map (access k) !! uid).
Qed.

(** The packets that the firewall lets through. *)
Definition obey m k : Prop := forall p dns now uid, access_uid sz p k = uid -> in_width 32 uid -> pkt_type p <> PACKET_LOOPBACK ->
  let verdict := Z.b2z (policy_allows (table_policy m uid) (first_known [packet_bearer p (access k); seen_bearer uid k; default_bearer (access k)])) in
  ((FM.netfirewall_policy_ingress dns now (fw_skb p) (firewall k)).1 = FM.SK_PASS -> (exec sz true (PacketIn dns now p) k).1 = verdict) /\
  ((FM.netfirewall_policy_egress dns now (fw_skb p) (firewall k)).1 = FM.SK_PASS -> (exec sz true (PacketOut dns now p) k).1 = verdict).

Lemma agrees_obey m k : agrees m k -> obey m k.
Proof.
  intros Ha p dns now uid Ep Hu Hl.
  assert (Hv : forall count f, (skb_uid sz count p (set_firewall f k)).1 =
    Z.b2z (policy_allows (table_policy m uid) (first_known [packet_bearer p (access k); seen_bearer uid k; default_bearer (access k)]))).
  { intros count f. rewrite skb_uid_verdict, (proj2 (Z.eqb_neq _ _) Hl). cbn [orb]. f_equal. by apply (packet_table m (set_firewall f k)). }
  cbv zeta. cbn [exec]. unfold bpf_cgroup_skb_uid_ingress, bpf_cgroup_skb_uid_egress.
  split; [destruct (FM.netfirewall_policy_ingress _ _ _ _) as [act f]|destruct (FM.netfirewall_policy_egress _ _ _ _) as [act f]];
    cbn [fst]; intros ->; apply Hv.
Qed.

(** C9: Access policies last: take any sequence of policies set, queries, applications removed and added, changes of the
    configuration, factory resets, restored backups, starts of the device, events of the kernel and damage to the main database, about no
    more users than the map of the kernel can hold.  Then the databases hold the table that the events say, every packet that the
    firewall lets through and that is not loopback passes exactly when the row of its user, if any, allows its bearer, and a query for a
    user is answered with that row. *)
Theorem access_policies_durable es a S : Forall event_ok es -> SysRel a S ->
  let m := table (spec_all es a) in
  let s := svc (exec_all es S) in let k := kernel s in
  AS.stored m (rdb s) /\
  (forall p dns now uid, access_uid sz p k = uid -> in_width 32 uid -> pkt_type p <> PACKET_LOOPBACK ->
     let verdict := Z.b2z (policy_allows (table_policy m uid) (first_known [packet_bearer p (access k); seen_bearer uid k; default_bearer (access k)])) in
     ((FM.netfirewall_policy_ingress dns now (fw_skb p) (firewall k)).1 = FM.SK_PASS -> (exec sz true (PacketIn dns now p) k).1 = verdict) /\
     ((FM.netfirewall_policy_egress dns now (fw_skb p) (firewall k)).1 = FM.SK_PASS -> (exec sz true (PacketOut dns now p) k).1 = verdict)) /\
  (forall env uid callingUid, is_Some (bundleMgr env) ->
     let '((r, save), _) := GetNetworkAccessPolicy file env (mkAccessParameter true uid callingUid) s in
     r = NETMANAGER_SUCCESS /\ same_bearers (as_policy save) (table_policy m uid)).
Proof.
  intros Hes Hsys. cbv zeta. pose proof (exec_all_rel es a S Hes Hsys) as [H1 H2 H3 H4]. set (m := table (spec_all es a)) in *. set (s := svc (exec_all es S)) in *.
  split_and!; [apply H1|apply agrees_obey, H1|].
  - intros env uid cu Hb. pose proof (GetNetworkAccessPolicy_rel file U m s env uid cu H1 Hb) as Hg.
    destruct (GetNetworkAccessPolicy _ _ _ _) as [[r save] s']. by destruct Hg as (-> & Hg & _).
Qed.

End Runs.

(** ** Example *)

(** A policy survives damage to the main database and a start of the device: Wi-Fi, the interface 3, stays denied. *)
Definition networks : list AccessEvent := [EKernel (InterfaceAdd 100 3 1); EKernel (BearerChange [0])].
Definition story : list AccessEvent :=
  [EBoot boot_kernel; ESet 20010010 cellular_only false] ++ networks ++
  [EDamage; ESet 20010011 cellular_only true; ERemoved 20010011; EDamage; EBoot boot_kernel] ++ networks.
Definition users : gset Z := {[20010010; 20010011]}.
Definition after_story : System := exec_all normal_sizes None AS.spoil story (mkSystem (device ∅) ∅).

Lemma story_ok : Forall (event_ok users) story.
Proof. repeat constructor; by vm_compute. Qed.

Lemma users_width u : u ∈ users -> in_width 32 u.
Proof. unfold users. rewrite elem_of_union, !elem_of_singleton. intros [->| ->]; split; lia. Qed.

Lemma start_rel : SysRel users (mkSpec ∅ AC.no_configs ∅) (mkSystem (device ∅) ∅).
Proof.
  split; [|done|done|apply map_Forall_empty]. cbn [table svc]. split; [split; [done|by left]|done| |set_solver|by intros x [? ?%lookup_empty_Some]].
  intros uid _. cbn. by rewrite lookup_empty.
Qed.

Lemma access_policies_durable_witness :
  let k := kernel (svc after_story) in
  AS.stored {[s32 20010010 := policy_row cellular_only true]} (rdb (svc after_story)) /\
  (exec normal_sizes true (PacketIn FM.SK_PASS 0 (packet 3 100)) k).1 = 0 /\
  (exec normal_sizes true (PacketOut FM.SK_PASS 0 (packet 4 100)) k).1 = 1.
Proof.
  destruct (access_policies_durable normal_sizes None AS.spoil users users_width ltac:(apply Nat.leb_le; vm_compute; reflexivity)
    ltac:(intros d; split; [reflexivity|intros []; [congruence|reflexivity]]) story (mkSpec ∅ AC.no_configs ∅) (mkSystem (device ∅) ∅) story_ok start_rel) as (Hs & Hp & _).
  cbv zeta. split_and!.
  - assert (E : {[s32 20010010 := policy_row cellular_only true]} = table (spec_all None story (mkSpec ∅ AC.no_configs ∅))) by (vm_compute; reflexivity).
    rewrite E. exact Hs.
  - destruct (Hp (packet 3 100) FM.SK_PASS 0 20010010) as [Hin _]; [vm_compute; reflexivity|split; lia|discriminate|].
    etransitivity; [apply Hin; vm_compute; reflexivity|vm_compute; reflexivity].
  - destruct (Hp (packet 4 100) FM.SK_PASS 0 20010010) as [_ Hout]; [vm_compute; reflexivity|split; lia|discriminate|].
    etransitivity; [apply Hout; vm_compute; reflexivity|vm_compute; reflexivity].
Defined.

End AccessRun.
