(* ===== verification/PolicyStub.v ===== *)
(** * The policy service behind its stub
    (services/netpolicymanager/src/stub/net_policy_service_stub.cpp;
    utils/common_utils: netmanager_base_permission.cpp)

    [INetPolicyService S] is the interface a client sees, with a state [S] behind
    it.  [OnRemoteRequest] takes a request of another process: it checks the
    descriptor and the rights of the caller, decodes the arguments, calls the
    service and encodes the answer.  Parcels are those of [Parcel]; the answer of
    the access token service about the caller is a [Caller].

    [only_allowed_callers]: whatever the request, a caller without the right to a
    call cannot change the service.  The stub also collects the access policies
    that were set and reports them after a delay ([reports_complete]). *)

From S2P Require Import Prelude NetData Parcel Ipc ConnParcel PolicyParcel.
Import NetData Parcel Ipc PolicyParcel.

Module PolicyStub.

(** ** Codes *)

Definition NETMANAGER_ERR_PERMISSION_DENIED : Z := 201.
Definition NETMANAGER_ERR_NOT_SYSTEM_CALL : Z := 202.
Definition NETMANAGER_ERR_INVALID_PARAMETER : Z := 2100001.
Definition NETMANAGER_ERR_INTERNAL : Z := 2100003.
Definition NETMANAGER_ERR_DESCRIPTOR_MISMATCH : Z := 2100201.
Definition NETMANAGER_ERR_READ_DATA_FAIL : Z := 2100205.
Definition NETMANAGER_ERR_IPC_CONNECT_STUB_FAIL : Z := 2100207.

(** [enum class PolicyInterfaceCode]. *)
Definition CMD_NPS_SET_POLICY_BY_UID : Z := 1.
Definition CMD_NPS_GET_POLICY_BY_UID : Z := 2.
Definition CMD_NPS_GET_UIDS_BY_POLICY : Z := 3.
Definition CMD_NPS_IS_NET_ALLOWED_BY_METERED : Z := 4.
Definition CMD_NPS_IS_NET_ALLOWED_BY_IFACE : Z := 5.
Definition CMD_NPS_REGISTER_NET_POLICY_CALLBACK : Z := 6.
Definition CMD_NPS_UNREGISTER_NET_POLICY_CALLBACK : Z := 7.
Definition CMD_NPS_SET_NET_QUOTA_POLICIES : Z := 8.
Definition CMD_NPS_GET_NET_QUOTA_POLICIES : Z := 9.
Definition CMD_NPS_UPDATE_REMIND_POLICY : Z := 10.
Definition CMD_NPS_SET_IDLE_TRUSTLIST : Z := 11.
Definition CMD_NPS_GET_IDLE_TRUSTLIST : Z := 12.
Definition CMD_NPS_SET_DEVICE_IDLE_POLICY : Z := 13.
Definition CMD_NPS_RESET_POLICIES : Z := 14.
Definition CMD_NPS_SET_BACKGROUND_POLICY : Z := 15.
Definition CMD_NPS_GET_BACKGROUND_POLICY : Z := 16.
Definition CMD_NPS_GET_BACKGROUND_POLICY_BY_UID : Z := 17.
Definition CMD_NPS_SET_POWER_SAVE_TRUSTLIST : Z := 18.
Definition CMD_NPS_GET_POWER_SAVE_TRUSTLIST : Z := 19.
Definition CMD_NPS_SET_POWER_SAVE_POLICY : Z := 20.
Definition CMD_NPS_CHECK_PERMISSION : Z := 21.
Definition CMD_NPS_FACTORYRESET_POLICIES : Z := 22.
Definition CMD_NPS_SET_NETWORK_ACCESS_POLICY : Z := 23.
Definition CMD_NPS_GET_NETWORK_ACCESS_POLICY : Z := 24.
Definition CMD_NPS_GET_SELF_NETWORK_ACCESS_POLICY : Z := 25.
Definition CMD_NPS_NOTIFY_NETWORK_ACCESS_POLICY_DIAG : Z := 26.
Definition CMD_NPS_SET_NIC_TRAFFIC_ALLOWED : Z := 27.
Definition CMD_NPS_SET_INTERNET_ACCESS_BY_IP_FOR_WIFI_SHARE : Z := 28.
Definition CMD_NPS_SET_IDLE_DENY_POLICY : Z := 29.
Definition CMD_NPS_SET_IDLE_DENYLIST : Z := 30.
Definition CMD_NPS_ADD_NETWORK_ACCESS_POLICY : Z := 31.
Definition CMD_NPS_REMOVE_NETWORK_ACCESS_POLICY : Z := 32.

Definition DESCRIPTOR : string := "OHOS.NetManagerStandard.INetPolicyService".
Definition MANAGE_NET_STRATEGY : string := "ohos.permission.MANAGE_NET_STRATEGY".
Definition NETSYS_INTERNAL : string := "ohos.permission.NETSYS_INTERNAL".
Definition MAX_IFACENAMES_SIZE : Z := 128.
Definition MAX_LIST_SIZE : Z := 1000.
Definition UID_EDM : Z := 3057.
Definition UID_NET_MANAGER : Z := 1099.
Definition UID_IOT_NET_MANAGER : Z := 7211.
Definition UID_COLLABORATION : Z := 5520.
Definition UID_RSS : Z := 1096.
Definition NET_POLICY_WIFI_ALLOW : Z := 1.
Definition NET_POLICY_CELLULAR_ALLOW : Z := 2.

(** ** The service: an out parameter of the source is a second result *)

Class INetPolicyService (S : Type) := {
  SetPolicyByUid : Z -> Z -> S -> Z * S;
  GetPolicyByUid : Z -> S -> (Z * Z) * S;
  GetUidsByPolicy : Z -> S -> (Z * list Z) * S;
  IsUidNetAllowed_metered : Z -> bool -> S -> (Z * bool) * S;
  IsUidNetAllowed_iface : Z -> string -> S -> (Z * bool) * S;
  RegisterNetPolicyCallback : Z -> S -> Z * S;
  UnregisterNetPolicyCallback : Z -> S -> Z * S;
  SetNetQuotaPolicies : list NetQuotaPolicy -> S -> Z * S;
  GetNetQuotaPolicies : S -> (Z * list NetQuotaPolicy) * S;
  ResetPolicies : string -> S -> Z * S;
  SetBackgroundPolicy : bool -> S -> Z * S;
  GetBackgroundPolicy : S -> (Z * bool) * S;
  GetBackgroundPolicyByUid : Z -> S -> (Z * Z) * S;
  UpdateRemindPolicy : Z -> string -> Z -> S -> Z * S;
  SetDeviceIdleTrustlist : list Z -> bool -> S -> Z * S;
  GetDeviceIdleTrustlist : S -> (Z * list Z) * S;
  SetDeviceIdlePolicy : bool -> S -> Z * S;
  GetPowerSaveTrustlist : S -> (Z * list Z) * S;
  SetPowerSaveTrustlist : list Z -> bool -> S -> Z * S;
  SetPowerSavePolicy : bool -> S -> Z * S;
  SetNetworkAccessPolicy : Z -> NetworkAccessPolicy -> bool -> S -> Z * S;
  GetNetworkAccessPolicy : AccessPolicyParameter -> S -> (Z * AccessPolicySave) * S;
  GetSelfNetworkAccessPolicy : S -> (Z * NetAccessPolicy) * S;
  NotifyNetAccessPolicyDiag : Z -> S -> Z * S;
  SetNicTrafficAllowed : list string -> bool -> S -> Z * S;
  SetInternetAccessByIpForWifiShare : string -> Z -> bool -> string -> S -> Z * S;
  SetIdleDenyPolicy : bool -> S -> Z * S;
  SetUidsDeniedListChain : list Z -> bool -> S -> Z * S;
  AddNetworkAccessPolicy : list string -> S -> Z * S;
  RemoveNetworkAccessPolicy : list string -> S -> Z * S;
}.

(** ** The caller and its rights *)

(** What [IPCSkeleton] and [AccessTokenKit] say about the calling process. *)
Record Caller := mkCaller { calling_uid : Z; token_hap : bool; system_app : bool; granted : string -> bool }.

Definition CheckPermission (permissionName : string) (who : Caller) : bool :=
  if bool_decide (permissionName = "") then false else granted who permissionName.

(** [CheckNetSysInternalPermission] reads the token type for its log only. *)
Definition CheckNetSysInternalPermission (permissionName : string) (who : Caller) : bool :=
  if bool_decide (permissionName = "") then false else granted who permissionName.

Definition IsSystemCaller (who : Caller) : bool := if negb (token_hap who) then true else system_app who.

(** [g_codeNPS] and [g_pub_codeNPS]: the permission a code needs. *)
Definition g_codeNPS (c : Z) : option string :=
  if (((1 <=? c) && (c <=? 21)) || (c =? CMD_NPS_SET_NETWORK_ACCESS_POLICY) || (c =? CMD_NPS_GET_NETWORK_ACCESS_POLICY)
      || ((CMD_NPS_NOTIFY_NETWORK_ACCESS_POLICY_DIAG <=? c) && (c <=? CMD_NPS_REMOVE_NETWORK_ACCESS_POLICY)))
  then Some MANAGE_NET_STRATEGY else None.
Definition g_pub_codeNPS (c : Z) : option string :=
  if c =? CMD_NPS_GET_SELF_NETWORK_ACCESS_POLICY then Some "" else None.

Definition SubCheckPermission (permission : string) (who : Caller) : bool := CheckPermission permission who.

Definition CheckPolicyPermission (c : Z) (who : Caller) : Z :=
  match g_codeNPS c with
  | Some permission =>
      if negb (IsSystemCaller who) then NETMANAGER_ERR_NOT_SYSTEM_CALL
      else if negb (SubCheckPermission permission who) then NETMANAGER_ERR_PERMISSION_DENIED else NETMANAGER_SUCCESS
  | None =>
      match g_pub_codeNPS c with
      | Some permission =>
          if bool_decide (permission = "") then NETMANAGER_SUCCESS
          else if negb (SubCheckPermission permission who) then NETMANAGER_ERR_PERMISSION_DENIED else NETMANAGER_SUCCESS
      | None => NETMANAGER_ERR_PERMISSION_DENIED
      end
  end.

Definition CheckProcessPermission (c : Z) (who : Caller) : Z :=
  if (c =? CMD_NPS_SET_INTERNET_ACCESS_BY_IP_FOR_WIFI_SHARE) && negb (calling_uid who =? UID_COLLABORATION)
  then NETMANAGER_ERR_PERMISSION_DENIED
  else if ((c =? CMD_NPS_SET_IDLE_DENY_POLICY) || (c =? CMD_NPS_SET_IDLE_DENYLIST)) && negb (calling_uid who =? UID_RSS)
  then NETMANAGER_ERR_PERMISSION_DENIED
  else NETMANAGER_SUCCESS.

(** ** The stub's own state *)

Record Stub := mkStub {
  handler_ : bool;                                  (* [handler_ != nullptr] *)
  onceFlag : bool;
  isPostDelaySetNetworkPolicy_ : bool;
  appNetworkPolicyMap_ : gmap Z (gmap Z Z);
  tasks : nat;                                      (* reports waiting in [ffrtQueue_] *)
  sent : list (gmap Z (gmap Z Z));                  (* the broadcasts, newest first *)
}.

Definition InitEventHandler (s : Stub) : Stub :=
  if onceFlag s then s
  else mkStub true true (isPostDelaySetNetworkPolicy_ s) (appNetworkPolicyMap_ s) (tasks s) (sent s).

(** The constructor. *)
Definition new_stub : Stub := InitEventHandler (mkStub false false false ∅ O []).

(** [HandleReportNetworkPolicy], run by the queue; [printed] is [false] when
    [cJSON_PrintUnformatted] has no memory left. *)
Definition HandleReportNetworkPolicy (printed : bool) (s : Stub) : Stub :=
  if bool_decide (appNetworkPolicyMap_ s = ∅) then s
  else if negb printed then s
  else mkStub (handler_ s) (onceFlag s) false ∅ (tasks s) (appNetworkPolicyMap_ s :: sent s).

Definition run_task (printed : bool) (s : Stub) : Stub :=
  match tasks s with
  | O => s
  | S n => HandleReportNetworkPolicy printed
             (mkStub (handler_ s) (onceFlag s) (isPostDelaySetNetworkPolicy_ s) (appNetworkPolicyMap_ s) n (sent s))
  end.

Definition policyInfo (policy : NetworkAccessPolicy) : Z :=
  Z.lor (if wifiAllow policy then NET_POLICY_WIFI_ALLOW else 0) (if cellularAllow policy then NET_POLICY_CELLULAR_ALLOW else 0).

Definition HandleStoreNetworkPolicy (uid : Z) (policy : NetworkAccessPolicy) (callingUid : Z) (s : Stub) : Stub :=
  let mine := default ∅ (appNetworkPolicyMap_ s !! callingUid) in
  let m := <[callingUid := <[uid := policyInfo policy]> mine]> (appNetworkPolicyMap_ s) in
  if isPostDelaySetNetworkPolicy_ s
  then mkStub (handler_ s) (onceFlag s) true m (tasks s) (sent s)
  else mkStub (handler_ s) (onceFlag s) true m (Datatypes.S (tasks s)) (sent s).

(** The process behind the stub. *)
Record Remote (S : Type) := mkRemote { stub : Stub; service : S }.
Arguments mkRemote {S} _ _.
Arguments stub {S} _.
Arguments service {S} _.

Section Handlers.
Context {P S : Type} {PI : IParcel P} {SI : INetPolicyService S}.

(** Codes of the IPC framework, the value a string has after [ReadString] has
    failed on it, and the answer of [IPCObjectStub::OnRemoteRequest] to a code
    that has no handler. *)
Variables (ERR_FLATTEN_OBJECT IPC_STUB_WRITE_PARCEL_ERR : Z) (after_failed_ReadString : string -> string).
Variable IPCObjectStub_OnRemoteRequest : Z -> P -> P -> Z * P * P.

Abbreviation Handler := (H P (Remote S) Z).

Definition serve {A} (f : S -> A * S) : H P (Remote S) A :=
  call (fun t => let '(a, s) := f (service t) in (a, mkRemote (stub t) s)).

(** The end of every handler without results. *)
Definition answer (result : Z) : Handler :=
  on_reply (WriteInt32 result) NETMANAGER_ERR_WRITE_REPLY_FAIL;;
  mret NETMANAGER_SUCCESS.

(** The end of a handler with a result, which is written after a success. *)
Definition answer_with (result : Z) (m : M P unit) : Handler :=
  on_reply (WriteInt32 result) NETMANAGER_ERR_WRITE_REPLY_FAIL;;
  (if result =? NETMANAGER_SUCCESS then on_reply m NETMANAGER_ERR_WRITE_REPLY_FAIL else mret tt);;
  mret NETMANAGER_SUCCESS.

Definition OnSetPolicyByUid : Handler :=
  uid ← on_data ReadUint32 NETMANAGER_ERR_READ_DATA_FAIL;
  netPolicy ← on_data ReadUint32 NETMANAGER_ERR_READ_DATA_FAIL;
  result ← serve (SetPolicyByUid uid netPolicy);
  answer result.

Definition OnGetPolicyByUid : Handler :=
  uid ← on_data ReadUint32 NETMANAGER_ERR_READ_DATA_FAIL;
  '(result, policy) ← serve (GetPolicyByUid uid);
  answer_with result (WriteInt32 policy).

Definition OnGetUidsByPolicy : Handler :=
  policy ← on_data ReadUint32 NETMANAGER_ERR_READ_DATA_FAIL;
  '(result, uids) ← serve (GetUidsByPolicy policy);
  answer_with result (WriteUInt32Vector uids).

Definition OnIsUidNetAllowedMetered : Handler :=
  uid ← on_data ReadUint32 NETMANAGER_ERR_READ_DATA_FAIL;
  metered ← on_data ReadBool NETMANAGER_ERR_READ_DATA_FAIL;
  '(result, isAllowed) ← serve (IsUidNetAllowed_metered uid metered);
  answer_with result (WriteBool isAllowed).

Definition OnIsUidNetAllowedIfaceName : Handler :=
  uid ← on_data ReadUint32 NETMANAGER_ERR_READ_DATA_FAIL;
  ifaceName ← on_data ReadString NETMANAGER_ERR_READ_DATA_FAIL;
  if MAX_IFACENAMES_SIZE <? ConnParcel.size ifaceName then code NETMANAGER_ERR_INVALID_PARAMETER else
  '(result, isAllowed) ← serve (IsUidNetAllowed_iface uid ifaceName);
  answer_with result (WriteBool isAllowed).

(** [ReadRemoteObject] returns null when it fails. *)
Definition OnRegisterNetPolicyCallback : Handler :=
  remote ← unchecked_data ReadRemoteObject;
  match remote with
  | None => unchecked_reply (WriteInt32 NETMANAGER_ERR_IPC_CONNECT_STUB_FAIL);; code NETMANAGER_ERR_IPC_CONNECT_STUB_FAIL
  | Some callback => result ← serve (RegisterNetPolicyCallback callback); answer result
  end.

Definition OnUnregisterNetPolicyCallback : Handler :=
  remote ← unchecked_data ReadRemoteObject;
  match remote with
  | None => unchecked_reply (WriteInt32 NETMANAGER_ERR_IPC_CONNECT_STUB_FAIL);; code NETMANAGER_ERR_IPC_CONNECT_STUB_FAIL
  | Some callback => result ← serve (UnregisterNetPolicyCallback callback); answer result
  end.

Definition OnSetNetQuotaPolicies : Handler :=
  quotaPolicies ← on_data (Quotas_Unmarshalling []) NETMANAGER_ERR_READ_DATA_FAIL;
  result ← serve (SetNetQuotaPolicies quotaPolicies);
  answer result.

Definition OnGetNetQuotaPolicies : Handler :=
  '(result, quotaPolicies) ← serve GetNetQuotaPolicies;
  answer_with result (Quotas_Marshalling quotaPolicies).

Definition OnResetPolicies : Handler :=
  subscriberId ← on_data ReadString NETMANAGER_ERR_READ_DATA_FAIL;
  result ← serve (ResetPolicies subscriberId);
  answer result.

Definition OnSetBackgroundPolicy : Handler :=
  isBackgroundPolicyAllow ← on_data ReadBool NETMANAGER_ERR_READ_DATA_FAIL;
  result ← serve (SetBackgroundPolicy isBackgroundPolicyAllow);
  answer result.

Definition OnGetBackgroundPolicy : Handler :=
  '(result, backgroundPolicy) ← serve GetBackgroundPolicy;
  answer_with result (WriteBool backgroundPolicy).

Definition OnGetBackgroundPolicyByUid : Handler :=
  uid ← on_data ReadUint32 NETMANAGER_ERR_READ_DATA_FAIL;
  '(result, policy) ← serve (GetBackgroundPolicyByUid uid);
  answer_with result (WriteUint32 policy).

Definition OnSnoozePolicy : Handler :=
  netType ← on_data ReadInt32 NETMANAGER_ERR_READ_DATA_FAIL;
  simId ← on_data ReadString NETMANAGER_ERR_READ_DATA_FAIL;
  remindType ← on_data ReadUint32 NETMANAGER_ERR_READ_DATA_FAIL;
  result ← serve (UpdateRemindPolicy netType simId remindType);
  answer result.

Definition OnSetDeviceIdleTrustlist : Handler :=
  uids ← on_data ReadUInt32Vector NETMANAGER_ERR_READ_DATA_FAIL;
  isAllowed ← on_data ReadBool NETMANAGER_ERR_READ_DATA_FAIL;
  result ← serve (SetDeviceIdleTrustlist uids isAllowed);
  answer result.

Definition OnGetDeviceIdleTrustlist : Handler :=
  '(result, uids) ← serve GetDeviceIdleTrustlist;
  answer_with result (WriteUInt32Vector uids).

Definition OnSetDeviceIdlePolicy : Handler :=
  isAllowed ← on_data ReadBool NETMANAGER_ERR_READ_DATA_FAIL;
  result ← serve (SetDeviceIdlePolicy isAllowed);
  answer result.

Definition OnGetPowerSaveTrustlist : Handler :=
  '(result, uids) ← serve GetPowerSaveTrustlist;
  answer_with result (WriteUInt32Vector uids).

Definition OnSetPowerSaveTrustlist : Handler :=
  uids ← on_data ReadUInt32Vector NETMANAGER_ERR_READ_DATA_FAIL;
  isAllowed ← on_data ReadBool NETMANAGER_ERR_READ_DATA_FAIL;
  result ← serve (SetPowerSaveTrustlist uids isAllowed);
  answer result.

Definition OnSetPowerSavePolicy : Handler :=
  isAllowed ← on_data ReadBool NETMANAGER_ERR_READ_DATA_FAIL;
  result ← serve (SetPowerSavePolicy isAllowed);
  answer result.

Definition OnCheckPermission : Handler := answer NETMANAGER_SUCCESS.

Definition OnFactoryResetPolicies : Handler := mret NETMANAGER_SUCCESS.

Definition OnAddNetworkAccessPolicy : Handler :=
  bundleNames ← on_data ReadStringVector NETMANAGER_ERR_READ_DATA_FAIL;
  ret ← serve (AddNetworkAccessPolicy bundleNames);
  answer ret.

Definition OnRemoveNetworkAccessPolicy : Handler :=
  bundleNames ← on_data ReadStringVector NETMANAGER_ERR_READ_DATA_FAIL;
  ret ← serve (RemoveNetworkAccessPolicy bundleNames);
  answer ret.

(** The policy that was set is stored for the report whatever the service has
    answered. *)
Definition OnSetNetworkAccessPolicy (who : Caller) : Handler :=
  uid ← on_data ReadUint32 NETMANAGER_ERR_READ_DATA_FAIL;
  wifi_allow ← on_data ReadUint8 NETMANAGER_ERR_READ_DATA_FAIL;
  cellular_allow ← on_data ReadUint8 NETMANAGER_ERR_READ_DATA_FAIL;
  reconfirmFlag ← on_data ReadBool NETMANAGER_ERR_READ_DATA_FAIL;
  let policy := mkAccess (negb (wifi_allow =? 0)) (negb (cellular_allow =? 0)) false false in
  ret ← serve (SetNetworkAccessPolicy uid policy reconfirmFlag);
  on_reply (WriteInt32 ret) NETMANAGER_ERR_WRITE_REPLY_FAIL;;
  call (fun t => (tt, mkRemote (HandleStoreNetworkPolicy uid policy (u32 (calling_uid who)) (stub t)) (service t)));;
  mret NETMANAGER_SUCCESS.

Definition OnGetNetworkAccessPolicy : Handler :=
  flag ← on_data ReadBool NETMANAGER_ERR_READ_DATA_FAIL;
  uid ← on_data ReadInt32 NETMANAGER_ERR_READ_DATA_FAIL;
  callingUid ← on_data ReadUint32 NETMANAGER_ERR_READ_DATA_FAIL;
  '(ret, policies) ← serve (GetNetworkAccessPolicy (mkAccessParameter flag (u32 uid) callingUid));
  on_reply (WriteInt32 ret) NETMANAGER_ERR_WRITE_REPLY_FAIL;;
  (if ret =? NETMANAGER_SUCCESS then on_reply (Access_Marshalling policies flag) NETMANAGER_ERR_WRITE_REPLY_FAIL else mret tt);;
  mret ret.

Definition OnGetSelfNetworkAccessPolicy : Handler :=
  '(ret, policy) ← serve GetSelfNetworkAccessPolicy;
  on_reply (WriteInt32 ret) NETMANAGER_ERR_WRITE_REPLY_FAIL;;
  (if ret =? NETMANAGER_SUCCESS
   then on_reply (WriteBool (allowWiFi policy)) NETMANAGER_ERR_WRITE_REPLY_FAIL;;
        on_reply (WriteBool (allowCellular policy)) NETMANAGER_ERR_WRITE_REPLY_FAIL
   else mret tt);;
  mret ret.

Definition OnNotifyNetAccessPolicyDiag : Handler :=
  uid ← on_data ReadUint32 NETMANAGER_ERR_READ_DATA_FAIL;
  ret ← serve (NotifyNetAccessPolicyDiag uid);
  on_reply (WriteInt32 ret) NETMANAGER_ERR_WRITE_REPLY_FAIL;;
  mret ret.

(** [data.ReadString(ifaceName)] is not checked; the name is one variable for all
    rounds. *)
Fixpoint read_ifaces (n : nat) (ifaceName : string) : H P (Remote S) (list string) :=
  match n with
  | O => mret []
  | Datatypes.S n =>
      o ← unchecked_data ReadString;
      let ifaceName := match o with Some s => s | None => after_failed_ReadString ifaceName end in
      if bool_decide (ifaceName = "") then code ERR_FLATTEN_OBJECT else
      l ← read_ifaces n ifaceName;
      mret (ifaceName :: l)
  end.

Definition OnSetNicTrafficAllowed (who : Caller) : Handler :=
  if negb (CheckNetSysInternalPermission NETSYS_INTERNAL who) then code NETMANAGER_ERR_PERMISSION_DENIED else
  let uid := calling_uid who in
  if negb (uid =? UID_EDM) && negb (uid =? UID_NET_MANAGER) && negb (uid =? UID_IOT_NET_MANAGER)
  then code NETMANAGER_ERR_PERMISSION_DENIED else
  status ← on_data ReadBool ERR_FLATTEN_OBJECT;
  size ← on_data ReadInt32 ERR_FLATTEN_OBJECT;
  if MAX_IFACENAMES_SIZE <? size then code ERR_FLATTEN_OBJECT else
  ifaceNames ← read_ifaces (Z.to_nat size) "";
  result ← serve (SetNicTrafficAllowed ifaceNames status);
  on_reply (WriteInt32 result) ERR_FLATTEN_OBJECT;;
  mret NETMANAGER_SUCCESS.

Definition OnSetInternetAccessByIpForWifiShare (who : Caller) : Handler :=
  if negb (CheckNetSysInternalPermission NETSYS_INTERNAL who) then code NETMANAGER_ERR_PERMISSION_DENIED else
  ipAddr ← on_data ReadString ERR_FLATTEN_OBJECT;
  family ← on_data ReadUint8 ERR_FLATTEN_OBJECT;
  accessInternet ← on_data ReadBool ERR_FLATTEN_OBJECT;
  clientNetIfName ← on_data ReadString ERR_FLATTEN_OBJECT;
  result ← serve (SetInternetAccessByIpForWifiShare ipAddr family accessInternet clientNetIfName);
  on_reply (WriteInt32 result) ERR_FLATTEN_OBJECT;;
  mret NETMANAGER_SUCCESS.

Definition OnSetIdleDenyPolicy : Handler :=
  isEnable ← on_data ReadBool NETMANAGER_ERR_READ_DATA_FAIL;
  result ← serve (SetIdleDenyPolicy isEnable);
  answer result.

Definition OnSetUidsDeniedListChain : Handler :=
  uidsSize ← on_data ReadInt32 NETMANAGER_ERR_READ_DATA_FAIL;
  if (uidsSize <? 0) || (MAX_LIST_SIZE <? uidsSize) then code NETMANAGER_ERR_PARAMETER_ERROR else
  uids ← on_data (times (Z.to_nat uidsSize) ReadUint32) NETMANAGER_ERR_READ_DATA_FAIL;
  isAdd ← on_data ReadBool NETMANAGER_ERR_READ_DATA_FAIL;
  result ← serve (SetUidsDeniedListChain uids isAdd);
  answer result.

(** [memberFuncMap_], filled by the constructor and [ExtraNetPolicyServiceStub]. *)
Definition memberFuncMap_ (who : Caller) (c : Z) : option Handler :=
  match c with
  | 1 => Some OnSetPolicyByUid
  | 2 => Some OnGetPolicyByUid
  | 3 => Some OnGetUidsByPolicy
  | 4 => Some OnIsUidNetAllowedMetered
  | 5 => Some OnIsUidNetAllowedIfaceName
  | 6 => Some OnRegisterNetPolicyCallback
  | 7 => Some OnUnregisterNetPolicyCallback
  | 8 => Some OnSetNetQuotaPolicies
  | 9 => Some OnGetNetQuotaPolicies
  | 10 => Some OnSnoozePolicy
  | 11 => Some OnSetDeviceIdleTrustlist
  | 12 => Some OnGetDeviceIdleTrustlist
  | 13 => Some OnSetDeviceIdlePolicy
  | 14 => Some OnResetPolicies
  | 15 => Some OnSetBackgroundPolicy
  | 16 => Some OnGetBackgroundPolicy
  | 17 => Some OnGetBackgroundPolicyByUid
  | 18 => Some OnSetPowerSaveTrustlist
  | 19 => Some OnGetPowerSaveTrustlist
  | 20 => Some OnSetPowerSavePolicy
  | 21 => Some OnCheckPermission
  | 22 => Some OnFactoryResetPolicies
  | 23 => Some (OnSetNetworkAccessPolicy who)
  | 24 => Some OnGetNetworkAccessPolicy
  | 25 => Some OnGetSelfNetworkAccessPolicy
  | 26 => Some OnNotifyNetAccessPolicyDiag
  | 27 => Some (OnSetNicTrafficAllowed who)
  | 28 => Some (OnSetInternetAccessByIpForWifiShare who)
  | 29 => Some OnSetIdleDenyPolicy
  | 30 => Some OnSetUidsDeniedListChain
  | 31 => Some OnAddNetworkAccessPolicy
  | 32 => Some OnRemoveNetworkAccessPolicy
  | _ => None
  end.

Definition ReadInterfaceToken (d : P) : string * P :=
  match ReadToken d with (Some s, d) => (s, d) | (None, d) => ("", d) end.

(** [NetPolicyServiceStub::OnRemoteRequest]: the code, the reply and the state. *)
Definition OnRemoteRequest (who : Caller) (c : Z) (d r : P) (t : Remote S) : Z * P * Remote S :=
  let '(remoteDescriptor, d) := ReadInterfaceToken d in
  if negb (bool_decide (DESCRIPTOR = remoteDescriptor)) then (NETMANAGER_ERR_DESCRIPTOR_MISMATCH, r, t) else
  let t := if handler_ (stub t) then t else mkRemote (InitEventHandler (stub t)) (service t) in
  if negb (handler_ (stub t)) then (NETMANAGER_ERR_INTERNAL, r, t) else
  let res := CheckProcessPermission c who in
  if negb (res =? NETMANAGER_SUCCESS) then (res, r, t) else
  match memberFuncMap_ who c with
  | Some requestFunc =>
      let checkPermissionResult := CheckPolicyPermission c who in
      if negb (checkPermissionResult =? NETMANAGER_SUCCESS)
      then match WriteInt32 checkPermissionResult r with
           | (Some _, r) => (NETMANAGER_SUCCESS, r, t)
           | (None, r) => (IPC_STUB_WRITE_PARCEL_ERR, r, t)
           end
      else let '(result, c) := finish requestFunc (mkCtx d r t) in (result, reply c, svc c)
  | None => let '(result, _, r) := IPCObjectStub_OnRemoteRequest c d r in (result, r, t)
  end.

(** ** Who may call what *)

Definition may_call (who : Caller) (c : Z) : bool :=
  if c =? CMD_NPS_GET_SELF_NETWORK_ACCESS_POLICY then true
  else (negb (token_hap who) || system_app who) && granted who MANAGE_NET_STRATEGY &&
       (if c =? CMD_NPS_SET_NIC_TRAFFIC_ALLOWED
        then granted who NETSYS_INTERNAL && bool_decide (calling_uid who ∈ [UID_EDM; UID_NET_MANAGER; UID_IOT_NET_MANAGER])
        else if c =? CMD_NPS_SET_INTERNET_ACCESS_BY_IP_FOR_WIFI_SHARE
        then granted who NETSYS_INTERNAL && (calling_uid who =? UID_COLLABORATION)
        else if (c =? CMD_NPS_SET_IDLE_DENY_POLICY) || (c =? CMD_NPS_SET_IDLE_DENYLIST) then calling_uid who =? UID_RSS
        else true).

Lemma CheckPermission_granted p who : p <> "" -> CheckPermission p who = granted who p.
Proof. intros Hp. unfold CheckPermission. by rewrite bool_decide_eq_false_2. Qed.

Lemma CheckPolicyPermission_spec c who : CheckPolicyPermission c who = NETMANAGER_SUCCESS ->
  c = CMD_NPS_GET_SELF_NETWORK_ACCESS_POLICY \/ ((negb (token_hap who) || system_app who) && granted who MANAGE_NET_STRATEGY = true).
Proof.
  unfold CheckPolicyPermission, g_codeNPS, g_pub_codeNPS, SubCheckPermission, IsSystemCaller.
  destruct (_ || _); [rewrite CheckPermission_granted by done; right; by destruct (token_hap who), (system_app who), (granted who _)|].
  destruct (Z.eqb_spec c CMD_NPS_GET_SELF_NETWORK_ACCESS_POLICY); [by left|done].
Qed.

(** The two handlers that check the caller themselves. *)
Lemma OnSetNicTrafficAllowed_denied who x :
  granted who NETSYS_INTERNAL && bool_decide (calling_uid who ∈ [UID_EDM; UID_NET_MANAGER; UID_IOT_NET_MANAGER]) = false ->
  (OnSetNicTrafficAllowed who x).2 = x.
Proof.
  unfold OnSetNicTrafficAllowed. change (CheckNetSysInternalPermission NETSYS_INTERNAL who) with (granted who NETSYS_INTERNAL).
  destruct (granted who NETSYS_INTERNAL); cbn [negb andb]; [|done]. intros Hu. apply bool_decide_eq_false in Hu.
  destruct (Z.eqb_spec (calling_uid who) UID_EDM) as [E|]; [destruct Hu; rewrite E; set_solver|].
  destruct (Z.eqb_spec (calling_uid who) UID_NET_MANAGER) as [E|]; [destruct Hu; rewrite E; set_solver|].
  destruct (Z.eqb_spec (calling_uid who) UID_IOT_NET_MANAGER) as [E|]; [destruct Hu; rewrite E; set_solver|]. done.
Qed.

Lemma OnSetInternetAccess_denied who x : granted who NETSYS_INTERNAL = false -> (OnSetInternetAccessByIpForWifiShare who x).2 = x.
Proof. intros Hg. unfold OnSetInternetAccessByIpForWifiShare. by rewrite (Hg : CheckNetSysInternalPermission NETSYS_INTERNAL who = false). Qed.

(** A caller that is refused by its own handler changes nothing. *)
Lemma handler_denied who c h x : memberFuncMap_ who c = Some h -> CheckProcessPermission c who = NETMANAGER_SUCCESS ->
  CheckPolicyPermission c who = NETMANAGER_SUCCESS -> may_call who c = false -> svc (h x).2 = svc x.
Proof.
  intros Hm Hp Hc Hmay. apply CheckPolicyPermission_spec in Hc as [->|Hc]; [done|]. unfold may_call in Hmay. rewrite Hc in Hmay.
  destruct (Z.eqb_spec c CMD_NPS_GET_SELF_NETWORK_ACCESS_POLICY); [done|]. cbn [andb] in Hmay.
  destruct (Z.eqb_spec c CMD_NPS_SET_NIC_TRAFFIC_ALLOWED) as [->|].
  { injection Hm as <-. by rewrite OnSetNicTrafficAllowed_denied. }
  unfold CheckProcessPermission in Hp. destruct (Z.eqb_spec c CMD_NPS_SET_INTERNET_ACCESS_BY_IP_FOR_WIFI_SHARE) as [->|].
  - injection Hm as <-. destruct (calling_uid who =? UID_COLLABORATION); [|done]. rewrite andb_true_r in Hmay.
    by rewrite OnSetInternetAccess_denied.
  - cbn [andb] in Hp. destruct ((c =? _) || (c =? _)); [|done]. by rewrite Hmay in Hp.
Qed.

(** C14: Only allowed callers reach the policy service: whatever is in the request, a caller that [may_call] refuses for a code
    (not a system application or without the strategy permission; for the network card, sharing and idle
    calls also the internal permission and the identity of the one process they are for) leaves the service
    and the policies waiting to be reported exactly as they are.  [may_call] is the intended rule, stated apart from the two permission checks. *)
Theorem only_allowed_callers who c d r t : may_call who c = false ->
  service (OnRemoteRequest who c d r t).2 = service t /\
  appNetworkPolicyMap_ (stub (OnRemoteRequest who c d r t).2) = appNetworkPolicyMap_ (stub t).
Proof.
  intros Hmay. unfold OnRemoteRequest. destruct (ReadInterfaceToken d) as [tok d1]. case_match; [done|].
  set (t1 := if handler_ (stub t) then t else _).
  assert (Ht : service t1 = service t /\ appNetworkPolicyMap_ (stub t1) = appNetworkPolicyMap_ (stub t)).
  { unfold t1, InitEventHandler. repeat case_match; done. }
  case_match; [done|]. case_match eqn:Hp; [done|]. apply negb_false_iff, Z.eqb_eq in Hp.
  destruct (memberFuncMap_ who c) as [h|] eqn:Hm.
  - case_match eqn:Hc; [by destruct (WriteInt32 _ r) as [[]]|]. apply negb_false_iff, Z.eqb_eq in Hc.
    pose proof (handler_denied _ _ _ (mkCtx d1 r t1) Hm Hp Hc Hmay) as Hh. unfold finish.
    destruct (h (mkCtx d1 r t1)) as [res x]. cbn in *. by rewrite Hh.
  - by destruct (IPCObjectStub_OnRemoteRequest c d1 r) as [[]].
Qed.

End Handlers.

(** ** The reports *)

Definition stub_inv (s : Stub) : Prop :=
  (isPostDelaySetNetworkPolicy_ s = true <-> appNetworkPolicyMap_ s <> ∅) /\ tasks s = (if isPostDelaySetNetworkPolicy_ s then 1 else 0)%nat.

Lemma new_stub_inv : stub_inv new_stub.
Proof. done. Qed.

Lemma HandleStore_inv uid policy who s : stub_inv s -> stub_inv (HandleStoreNetworkPolicy uid policy who s).
Proof.
  intros [H1 H2]. unfold HandleStoreNetworkPolicy. destruct (isPostDelaySetNetworkPolicy_ s); (split; cbn; [|by rewrite H2]);
    (split; [intros _; apply insert_non_empty|done]).
Qed.

Lemma run_task_inv s : stub_inv s -> stub_inv (run_task true s).
Proof.
  intros [H1 H2]. unfold run_task, HandleReportNetworkPolicy. destruct (tasks s) as [|n] eqn:E; [by split; [|rewrite E]|]. cbn.
  destruct (isPostDelaySetNetworkPolicy_ s); [|done]. injection H2 as ->.
  rewrite bool_decide_eq_false_2 by (by apply H1). done.
Qed.

(** A policy that was set is in the next report. *)
Lemma reports_complete uid policy who s : stub_inv s -> exists m,
  sent (run_task true (HandleStoreNetworkPolicy uid policy who s)) = m :: sent s /\
  m !! who ≫= (.!! uid) = Some (policyInfo policy) /\
  appNetworkPolicyMap_ (run_task true (HandleStoreNetworkPolicy uid policy who s)) = ∅.
Proof.
  intros [H1 H2]. set (s' := HandleStoreNetworkPolicy uid policy who s).
  assert (Ht : tasks s' = 1%nat) by (unfold s', HandleStoreNetworkPolicy; destruct (isPostDelaySetNetworkPolicy_ s); cbn; by rewrite H2).
  assert (Hm : appNetworkPolicyMap_ s' !! who ≫= (.!! uid) = Some (policyInfo policy)).
  { unfold s', HandleStoreNetworkPolicy. destruct (isPostDelaySetNetworkPolicy_ s); cbn; rewrite lookup_insert_eq; cbn; apply lookup_insert_eq. }
  exists (appNetworkPolicyMap_ s'). unfold run_task, HandleReportNetworkPolicy. rewrite Ht. cbn [appNetworkPolicyMap_].
  rewrite bool_decide_eq_false_2 by (intros E; by rewrite E in Hm). split_and!; [|exact Hm|done]. cbn.
  unfold s', HandleStoreNetworkPolicy. by destruct (isPostDelaySetNetworkPolicy_ s).
Qed.

(** When a report cannot be printed no later one is ever scheduled: the flag stays
    set and no task is left. *)
Lemma report_lost uid policy who s : stub_inv s -> isPostDelaySetNetworkPolicy_ s = true ->
  let s' := run_task false s in
  tasks s' = O /\ tasks (HandleStoreNetworkPolicy uid policy who s') = O /\
  sent (run_task true (HandleStoreNetworkPolicy uid policy who s')) = sent s.
Proof.
  intros [H1 H2] Hi. cbv zeta. rewrite Hi in H2. unfold run_task at 1 2 4, HandleReportNetworkPolicy. rewrite H2. cbn [appNetworkPolicyMap_].
  rewrite bool_decide_eq_false_2 by (by apply H1). cbn. unfold HandleStoreNetworkPolicy. cbn. rewrite Hi. done.
Qed.

End PolicyStub.
