(* ===== verification/PolicyProxy.v ===== *)
(** * Calling the policy service from another process
    (frameworks/native/netpolicyclient/src/net_policy_service_proxy.cpp)

    The proxy has the interface of the service.  Each of its functions encodes its
    arguments, sends them and decodes the answer; the transport is a parameter,
    and [delivers] states what it does: it hands the items of the request to the
    stub of [PolicyStub] and brings its answer back.

    A call is a [PolicyCall]; [direct] makes it on the service itself and [proxy]
    through the proxy, the parcels and the stub.  [policy_ipc_transparent]: both do
    the same, up to what the format does not carry, which [received] and [as_seen]
    spell out. *)

From S2P Require Import Prelude NetData Parcel Ipc ConnParcel PolicyParcel PolicyStub.
Import NetData Parcel Ipc PolicyParcel PolicyStub.
Import ConnParcel (list_size, list_items).

Module PolicyProxy.

Definition NETMANAGER_ERR_OPERATION_FAILED : Z := 2100002.
Definition NETMANAGER_ERR_WRITE_DESCRIPTOR_TOKEN_FAIL : Z := 2100202.
Definition NETMANAGER_ERR_WRITE_DATA_FAIL : Z := 2100203.
Definition NETMANAGER_ERR_READ_REPLY_FAIL : Z := 2100206.
Definition POLICY_ERR_INVALID_QUOTA_POLICY : Z := 2104004.

(** The out parameter of a call, once it has been set. *)
Inductive Out :=
| ONone
| OUint32 (z : Z)
| OUids (l : list Z)
| OBool (b : bool)
| OQuotas (l : list NetQuotaPolicy)
| OAccess (a : AccessPolicySave)
| OSelf (a : NetAccessPolicy).

Section Proxy.
Context {P S : Type} {PI : IParcel P} {SI : INetPolicyService S}.
Variable ERR_FLATTEN_OBJECT : Z.

(** [Remote() != nullptr]; [IPCSkeleton::GetCallingUid()] in the client; and
    [IRemoteObject::SendRequest]: the code, the reply and the state of the other
    process. *)
Variables (alive : bool) (my_uid : Z) (transact : Z -> P -> P -> Remote S -> Z * P * Remote S).

Abbreviation Function := (H P (Remote S) (Z * Out)).

Definition transfer (c : Z) : H P (Remote S) Z := fun x =>
  let '(status, r, t) := transact c (data x) (reply x) (svc x) in (inr status, mkCtx (data x) r t).

Definition SendRequest (c : Z) : H P (Remote S) Z :=
  if negb alive then mret NETMANAGER_ERR_OPERATION_FAILED else
  retCode ← transfer c;
  if negb (retCode =? NETMANAGER_SUCCESS) then mret NETMANAGER_ERR_OPERATION_FAILED else
  ret ← unchecked_reply ReadInt32;
  mret (default NETMANAGER_ERR_READ_REPLY_FAIL ret).

Definition WriteInterfaceToken : H P (Remote S) unit := on_data (WriteToken DESCRIPTOR) NETMANAGER_ERR_WRITE_DESCRIPTOR_TOKEN_FAIL.
Definition check_remote (err : Z) : H P (Remote S) unit := if alive then mret tt else code err.

Definition put (m : M P unit) : H P (Remote S) unit := on_data m NETMANAGER_ERR_WRITE_DATA_FAIL.

(** [return SendRequest(...)]. *)
Definition send (c : Z) : Function := ret ← SendRequest c; mret (ret, ONone).

(** [SendRequest], and the result of the call when it succeeds. *)
Definition fetch {A} (c : Z) (m : M P A) (out : A -> Out) : Function :=
  retCode ← SendRequest c;
  if negb (retCode =? 0) then code retCode else
  a ← on_reply m NETMANAGER_ERR_READ_REPLY_FAIL;
  mret (retCode, out a).

Definition proxy_SetPolicyByUid (uid policy : Z) : Function :=
  WriteInterfaceToken;; put (WriteUint32 uid);; put (WriteUint32 policy);;
  check_remote NETMANAGER_ERR_LOCAL_PTR_NULL;;
  send CMD_NPS_SET_POLICY_BY_UID.

Definition proxy_GetPolicyByUid (uid : Z) : Function :=
  WriteInterfaceToken;; put (WriteUint32 uid);;
  check_remote NETMANAGER_ERR_LOCAL_PTR_NULL;;
  fetch CMD_NPS_GET_POLICY_BY_UID ReadUint32 OUint32.

Definition proxy_GetUidsByPolicy (policy : Z) : Function :=
  WriteInterfaceToken;; put (WriteUint32 policy);;
  check_remote NETMANAGER_ERR_LOCAL_PTR_NULL;;
  fetch CMD_NPS_GET_UIDS_BY_POLICY ReadUInt32Vector OUids.

Definition proxy_IsUidNetAllowed_metered (uid : Z) (metered : bool) : Function :=
  WriteInterfaceToken;; put (WriteUint32 uid);; put (WriteBool metered);;
  check_remote NETMANAGER_ERR_LOCAL_PTR_NULL;;
  fetch CMD_NPS_IS_NET_ALLOWED_BY_METERED ReadBool OBool.

Definition proxy_IsUidNetAllowed_iface (uid : Z) (ifaceName : string) : Function :=
  WriteInterfaceToken;; put (WriteUint32 uid);; put (WriteString ifaceName);;
  check_remote NETMANAGER_ERR_LOCAL_PTR_NULL;;
  fetch CMD_NPS_IS_NET_ALLOWED_BY_IFACE ReadBool OBool.

(** The write of the callback object is not checked. *)
Definition proxy_RegisterNetPolicyCallback (callback : option Z) : Function :=
  match callback with
  | None => code NETMANAGER_ERR_LOCAL_PTR_NULL
  | Some o =>
      WriteInterfaceToken;; unchecked_data (WriteRemoteObject o);;
      check_remote NETMANAGER_ERR_LOCAL_PTR_NULL;;
      send CMD_NPS_REGISTER_NET_POLICY_CALLBACK
  end.

Definition proxy_UnregisterNetPolicyCallback (callback : option Z) : Function :=
  match callback with
  | None => code NETMANAGER_ERR_LOCAL_PTR_NULL
  | Some o =>
      WriteInterfaceToken;; unchecked_data (WriteRemoteObject o);;
      check_remote NETMANAGER_ERR_LOCAL_PTR_NULL;;
      send CMD_NPS_UNREGISTER_NET_POLICY_CALLBACK
  end.

Definition proxy_SetNetQuotaPolicies (quotaPolicies : list NetQuotaPolicy) : Function :=
  if bool_decide (length quotaPolicies = O) then code POLICY_ERR_INVALID_QUOTA_POLICY else
  WriteInterfaceToken;;
  check_remote NETMANAGER_ERR_LOCAL_PTR_NULL;;
  put (Quotas_Marshalling quotaPolicies);;
  send CMD_NPS_SET_NET_QUOTA_POLICIES.

Definition proxy_GetNetQuotaPolicies (quotaPolicies : list NetQuotaPolicy) : Function :=
  WriteInterfaceToken;;
  check_remote NETMANAGER_ERR_LOCAL_PTR_NULL;;
  fetch CMD_NPS_GET_NET_QUOTA_POLICIES (Quotas_Unmarshalling quotaPolicies) OQuotas.

Definition proxy_ResetPolicies (simId : string) : Function :=
  WriteInterfaceToken;; put (WriteString simId);;
  check_remote NETMANAGER_ERR_LOCAL_PTR_NULL;;
  send CMD_NPS_RESET_POLICIES.

Definition proxy_SetBackgroundPolicy (isBackgroundPolicyAllow : bool) : Function :=
  WriteInterfaceToken;; put (WriteBool isBackgroundPolicyAllow);;
  check_remote NETMANAGER_ERR_LOCAL_PTR_NULL;;
  send CMD_NPS_SET_BACKGROUND_POLICY.

Definition proxy_GetBackgroundPolicy : Function :=
  WriteInterfaceToken;;
  check_remote NETMANAGER_ERR_LOCAL_PTR_NULL;;
  fetch CMD_NPS_GET_BACKGROUND_POLICY ReadBool OBool.

Definition proxy_GetBackgroundPolicyByUid (uid : Z) : Function :=
  WriteInterfaceToken;; put (WriteUint32 uid);;
  check_remote NETMANAGER_ERR_LOCAL_PTR_NULL;;
  fetch CMD_NPS_GET_BACKGROUND_POLICY_BY_UID ReadUint32 OUint32.

Definition proxy_UpdateRemindPolicy (netType : Z) (simId : string) (remindType : Z) : Function :=
  WriteInterfaceToken;;
  check_remote NETMANAGER_ERR_LOCAL_PTR_NULL;;
  put (WriteInt32 netType);; put (WriteString simId);; put (WriteUint32 remindType);;
  send CMD_NPS_UPDATE_REMIND_POLICY.

Definition proxy_SetDeviceIdleTrustlist (uids : list Z) (isAllowed : bool) : Function :=
  WriteInterfaceToken;; put (WriteUInt32Vector uids);; put (WriteBool isAllowed);;
  check_remote NETMANAGER_ERR_LOCAL_PTR_NULL;;
  send CMD_NPS_SET_IDLE_TRUSTLIST.

Definition proxy_GetDeviceIdleTrustlist : Function :=
  WriteInterfaceToken;;
  check_remote NETMANAGER_ERR_LOCAL_PTR_NULL;;
  fetch CMD_NPS_GET_IDLE_TRUSTLIST ReadUInt32Vector OUids.

Definition proxy_SetDeviceIdlePolicy (enable : bool) : Function :=
  WriteInterfaceToken;;
  check_remote NETMANAGER_ERR_LOCAL_PTR_NULL;;
  put (WriteBool enable);;
  send CMD_NPS_SET_DEVICE_IDLE_POLICY.

Definition proxy_SetPowerSavePolicy (enable : bool) : Function :=
  WriteInterfaceToken;;
  check_remote NETMANAGER_ERR_LOCAL_PTR_NULL;;
  put (WriteBool enable);;
  send CMD_NPS_SET_POWER_SAVE_POLICY.

Definition proxy_GetPowerSaveTrustlist : Function :=
  WriteInterfaceToken;;
  check_remote NETMANAGER_ERR_LOCAL_PTR_NULL;;
  fetch CMD_NPS_GET_POWER_SAVE_TRUSTLIST ReadUInt32Vector OUids.

Definition proxy_SetPowerSaveTrustlist (uids : list Z) (isAllowed : bool) : Function :=
  WriteInterfaceToken;;
  check_remote NETMANAGER_ERR_LOCAL_PTR_NULL;;
  put (WriteUInt32Vector uids);; put (WriteBool isAllowed);;
  send CMD_NPS_SET_POWER_SAVE_TRUSTLIST.

(** [remote->SendRequest] without the wrapper. *)
Definition proxy_CheckPermission : Function :=
  WriteInterfaceToken;;
  check_remote NETMANAGER_ERR_LOCAL_PTR_NULL;;
  ret ← transfer CMD_NPS_CHECK_PERMISSION;
  if negb (ret =? 0) then code NETMANAGER_ERR_OPERATION_FAILED else
  result ← on_reply ReadInt32 NETMANAGER_ERR_READ_REPLY_FAIL;
  mret (result, ONone).

(** [FactoryResetPolicies] does not call the service. *)
Definition proxy_FactoryResetPolicies : Function := mret (NETMANAGER_SUCCESS, ONone).

(** [reply.ReadInt32()] is zero when the reply is empty. *)
Definition proxy_SetNetworkAccessPolicy (uid : Z) (policy : NetworkAccessPolicy) (reconfirmFlag : bool) : Function :=
  WriteInterfaceToken;;
  put (WriteUint32 uid);;
  put (WriteUint8 (Z.b2z (wifiAllow policy)));;
  put (WriteUint8 (Z.b2z (cellularAllow policy)));;
  put (WriteBool reconfirmFlag);;
  check_remote NETMANAGER_ERR_IPC_CONNECT_STUB_FAIL;;
  error ← transfer CMD_NPS_SET_NETWORK_ACCESS_POLICY;
  if negb (error =? 0) then code NETMANAGER_ERR_OPERATION_FAILED else
  ret ← unchecked_reply ReadInt32;
  mret (default 0 ret, ONone).

Definition proxy_AddNetworkAccessPolicy (bundleNames : list string) : Function :=
  WriteInterfaceToken;; put (WriteStringVector bundleNames);;
  check_remote NETMANAGER_ERR_LOCAL_PTR_NULL;;
  send CMD_NPS_ADD_NETWORK_ACCESS_POLICY.

Definition proxy_RemoveNetworkAccessPolicy (bundleNames : list string) : Function :=
  WriteInterfaceToken;; put (WriteStringVector bundleNames);;
  check_remote NETMANAGER_ERR_LOCAL_PTR_NULL;;
  send CMD_NPS_REMOVE_NETWORK_ACCESS_POLICY.

(** A failed write returns [false], which is the code of a success.  The caller
    named in the parameter is replaced by the uid of the process. *)
Definition proxy_GetNetworkAccessPolicy (parameter : AccessPolicyParameter) (policy : AccessPolicySave) : Function :=
  WriteInterfaceToken;;
  on_data (WriteBool (ap_flag parameter)) 0;;
  on_data (WriteInt32 (ap_uid parameter)) 0;;
  on_data (WriteUint32 my_uid) 0;;
  check_remote NETMANAGER_ERR_LOCAL_PTR_NULL;;
  retCode ← SendRequest CMD_NPS_GET_NETWORK_ACCESS_POLICY;
  if negb (retCode =? NETMANAGER_SUCCESS) then code retCode else
  a ← on_reply (Access_Unmarshalling policy (ap_flag parameter)) NETMANAGER_ERR_WRITE_REPLY_FAIL;
  mret (NETMANAGER_SUCCESS, OAccess a).

Definition proxy_GetSelfNetworkAccessPolicy : Function :=
  WriteInterfaceToken;;
  check_remote NETMANAGER_ERR_LOCAL_PTR_NULL;;
  retCode ← SendRequest CMD_NPS_GET_SELF_NETWORK_ACCESS_POLICY;
  if negb (retCode =? NETMANAGER_SUCCESS) then code retCode else
  wifi ← on_reply ReadBool NETMANAGER_ERR_READ_REPLY_FAIL;
  cellular ← on_reply ReadBool NETMANAGER_ERR_READ_REPLY_FAIL;
  mret (retCode, OSelf (mkSelfAccess wifi cellular)).

Definition proxy_NotifyNetAccessPolicyDiag (uid : Z) : Function :=
  WriteInterfaceToken;; put (WriteUint32 uid);;
  check_remote NETMANAGER_ERR_LOCAL_PTR_NULL;;
  send CMD_NPS_NOTIFY_NETWORK_ACCESS_POLICY_DIAG.

Definition proxy_SetNicTrafficAllowed (ifaceNames : list string) (status : bool) : Function :=
  on_data (WriteToken DESCRIPTOR) ERR_FLATTEN_OBJECT;;
  on_data (WriteBool status) ERR_FLATTEN_OBJECT;;
  on_data (WriteInt32 (list_size ifaceNames)) ERR_FLATTEN_OBJECT;;
  on_data (each WriteString ifaceNames) ERR_FLATTEN_OBJECT;;
  check_remote NETMANAGER_ERR_LOCAL_PTR_NULL;;
  send CMD_NPS_SET_NIC_TRAFFIC_ALLOWED.

Definition proxy_SetInternetAccessByIpForWifiShare (ipAddr : string) (family : Z) (accessInternet : bool) (clientNetIfName : string) : Function :=
  on_data (WriteToken DESCRIPTOR) ERR_FLATTEN_OBJECT;;
  on_data (WriteString ipAddr) ERR_FLATTEN_OBJECT;;
  on_data (WriteUint8 family) ERR_FLATTEN_OBJECT;;
  on_data (WriteBool accessInternet) ERR_FLATTEN_OBJECT;;
  on_data (WriteString clientNetIfName) ERR_FLATTEN_OBJECT;;
  check_remote NETMANAGER_ERR_LOCAL_PTR_NULL;;
  send CMD_NPS_SET_INTERNET_ACCESS_BY_IP_FOR_WIFI_SHARE.

Definition proxy_SetIdleDenyPolicy (enable : bool) : Function :=
  WriteInterfaceToken;;
  check_remote NETMANAGER_ERR_LOCAL_PTR_NULL;;
  put (WriteBool enable);;
  send CMD_NPS_SET_IDLE_DENY_POLICY.

Definition proxy_SetUidsDeniedListChain (uids : list Z) (isAdd : bool) : Function :=
  WriteInterfaceToken;;
  let uidsSize := u32 (list_size uids) in
  if MAX_LIST_SIZE <? uidsSize then code NETMANAGER_ERR_PARAMETER_ERROR else
  put (WriteInt32 uidsSize);;
  put (each WriteUint32 (take (Z.to_nat uidsSize) uids));;
  put (WriteBool isAdd);;
  check_remote NETMANAGER_ERR_LOCAL_PTR_NULL;;
  send CMD_NPS_SET_IDLE_DENYLIST.

(** ** The calls *)

Inductive PolicyCall :=
| CSetPolicyByUid (uid policy : Z)
| CGetPolicyByUid (uid : Z)
| CGetUidsByPolicy (policy : Z)
| CIsUidNetAllowed_metered (uid : Z) (metered : bool)
| CIsUidNetAllowed_iface (uid : Z) (ifaceName : string)
| CRegisterNetPolicyCallback (callback : Z)
| CUnregisterNetPolicyCallback (callback : Z)
| CSetNetQuotaPolicies (l : list NetQuotaPolicy)
| CGetNetQuotaPolicies (mine : list NetQuotaPolicy)
| CResetPolicies (simId : string)
| CSetBackgroundPolicy (allow : bool)
| CGetBackgroundPolicy
| CGetBackgroundPolicyByUid (uid : Z)
| CUpdateRemindPolicy (netType : Z) (simId : string) (remindType : Z)
| CSetDeviceIdleTrustlist (uids : list Z) (isAllowed : bool)
| CGetDeviceIdleTrustlist
| CSetDeviceIdlePolicy (enable : bool)
| CSetPowerSavePolicy (enable : bool)
| CGetPowerSaveTrustlist
| CSetPowerSaveTrustlist (uids : list Z) (isAllowed : bool)
| CCheckPermission
| CSetNetworkAccessPolicy (uid : Z) (policy : NetworkAccessPolicy) (reconfirmFlag : bool)
| CAddNetworkAccessPolicy (bundleNames : list string)
| CRemoveNetworkAccessPolicy (bundleNames : list string)
| CGetNetworkAccessPolicy (parameter : AccessPolicyParameter) (mine : AccessPolicySave)
| CGetSelfNetworkAccessPolicy
| CNotifyNetAccessPolicyDiag (uid : Z)
| CSetNicTrafficAllowed (ifaceNames : list string) (status : bool)
| CSetInternetAccessByIpForWifiShare (ipAddr : string) (family : Z) (accessInternet : bool) (clientNetIfName : string)
| CSetIdleDenyPolicy (enable : bool)
| CSetUidsDeniedListChain (uids : list Z) (isAdd : bool).

Definition proxy_function (c : PolicyCall) : Function :=
  match c with
  | CSetPolicyByUid uid policy => proxy_SetPolicyByUid uid policy
  | CGetPolicyByUid uid => proxy_GetPolicyByUid uid
  | CGetUidsByPolicy policy => proxy_GetUidsByPolicy policy
  | CIsUidNetAllowed_metered uid metered => proxy_IsUidNetAllowed_metered uid metered
  | CIsUidNetAllowed_iface uid ifaceName => proxy_IsUidNetAllowed_iface uid ifaceName
  | CRegisterNetPolicyCallback o => proxy_RegisterNetPolicyCallback (Some o)
  | CUnregisterNetPolicyCallback o => proxy_UnregisterNetPolicyCallback (Some o)
  | CSetNetQuotaPolicies l => proxy_SetNetQuotaPolicies l
  | CGetNetQuotaPolicies mine => proxy_GetNetQuotaPolicies mine
  | CResetPolicies simId => proxy_ResetPolicies simId
  | CSetBackgroundPolicy b => proxy_SetBackgroundPolicy b
  | CGetBackgroundPolicy => proxy_GetBackgroundPolicy
  | CGetBackgroundPolicyByUid uid => proxy_GetBackgroundPolicyByUid uid
  | CUpdateRemindPolicy netType simId remindType => proxy_UpdateRemindPolicy netType simId remindType
  | CSetDeviceIdleTrustlist uids b => proxy_SetDeviceIdleTrustlist uids b
  | CGetDeviceIdleTrustlist => proxy_GetDeviceIdleTrustlist
  | CSetDeviceIdlePolicy b => proxy_SetDeviceIdlePolicy b
  | CSetPowerSavePolicy b => proxy_SetPowerSavePolicy b
  | CGetPowerSaveTrustlist => proxy_GetPowerSaveTrustlist
  | CSetPowerSaveTrustlist uids b => proxy_SetPowerSaveTrustlist uids b
  | CCheckPermission => proxy_CheckPermission
  | CSetNetworkAccessPolicy uid policy b => proxy_SetNetworkAccessPolicy uid policy b
  | CAddNetworkAccessPolicy l => proxy_AddNetworkAccessPolicy l
  | CRemoveNetworkAccessPolicy l => proxy_RemoveNetworkAccessPolicy l
  | CGetNetworkAccessPolicy parameter mine => proxy_GetNetworkAccessPolicy parameter mine
  | CGetSelfNetworkAccessPolicy => proxy_GetSelfNetworkAccessPolicy
  | CNotifyNetAccessPolicyDiag uid => proxy_NotifyNetAccessPolicyDiag uid
  | CSetNicTrafficAllowed l b => proxy_SetNicTrafficAllowed l b
  | CSetInternetAccessByIpForWifiShare ip f b i => proxy_SetInternetAccessByIpForWifiShare ip f b i
  | CSetIdleDenyPolicy b => proxy_SetIdleDenyPolicy b
  | CSetUidsDeniedListChain uids b => proxy_SetUidsDeniedListChain uids b
  end.

(** A call through the proxy: the code, the out parameter and the other process. *)
Definition proxy (c : PolicyCall) (t : Remote S) : (Z * Out) * Remote S :=
  let '(r, x) := proxy_function c (mkCtx new_parcel new_parcel t) in
  (match r with inl z => (z, ONone) | inr v => v end, svc x).

(** The same call on the service. *)
Definition plain (f : S -> Z * S) (s : S) : (Z * Out) * S := let '(ret, s) := f s in ((ret, ONone), s).
Definition with_out {A} (out : A -> Out) (f : S -> (Z * A) * S) (s : S) : (Z * Out) * S :=
  let '((ret, a), s) := f s in ((ret, out a), s).

Definition direct (c : PolicyCall) : S -> (Z * Out) * S :=
  match c with
  | CSetPolicyByUid uid policy => plain (SetPolicyByUid uid policy)
  | CGetPolicyByUid uid => with_out OUint32 (GetPolicyByUid uid)
  | CGetUidsByPolicy policy => with_out OUids (GetUidsByPolicy policy)
  | CIsUidNetAllowed_metered uid metered => with_out OBool (IsUidNetAllowed_metered uid metered)
  | CIsUidNetAllowed_iface uid ifaceName => with_out OBool (IsUidNetAllowed_iface uid ifaceName)
  | CRegisterNetPolicyCallback o => plain (RegisterNetPolicyCallback o)
  | CUnregisterNetPolicyCallback o => plain (UnregisterNetPolicyCallback o)
  | CSetNetQuotaPolicies l => plain (SetNetQuotaPolicies l)
  | CGetNetQuotaPolicies _ => with_out OQuotas GetNetQuotaPolicies
  | CResetPolicies simId => plain (ResetPolicies simId)
  | CSetBackgroundPolicy b => plain (SetBackgroundPolicy b)
  | CGetBackgroundPolicy => with_out OBool GetBackgroundPolicy
  | CGetBackgroundPolicyByUid uid => with_out OUint32 (GetBackgroundPolicyByUid uid)
  | CUpdateRemindPolicy netType simId remindType => plain (UpdateRemindPolicy netType simId remindType)
  | CSetDeviceIdleTrustlist uids b => plain (SetDeviceIdleTrustlist uids b)
  | CGetDeviceIdleTrustlist => with_out OUids GetDeviceIdleTrustlist
  | CSetDeviceIdlePolicy b => plain (SetDeviceIdlePolicy b)
  | CSetPowerSavePolicy b => plain (SetPowerSavePolicy b)
  | CGetPowerSaveTrustlist => with_out OUids GetPowerSaveTrustlist
  | CSetPowerSaveTrustlist uids b => plain (SetPowerSaveTrustlist uids b)
  | CCheckPermission => plain (fun s => (NETMANAGER_SUCCESS, s))
  | CSetNetworkAccessPolicy uid policy b => plain (SetNetworkAccessPolicy uid policy b)
  | CAddNetworkAccessPolicy l => plain (AddNetworkAccessPolicy l)
  | CRemoveNetworkAccessPolicy l => plain (RemoveNetworkAccessPolicy l)
  | CGetNetworkAccessPolicy parameter _ => with_out OAccess (GetNetworkAccessPolicy parameter)
  | CGetSelfNetworkAccessPolicy => with_out OSelf GetSelfNetworkAccessPolicy
  | CNotifyNetAccessPolicyDiag uid => plain (NotifyNetAccessPolicyDiag uid)
  | CSetNicTrafficAllowed l b => plain (SetNicTrafficAllowed l b)
  | CSetInternetAccessByIpForWifiShare ip f b i => plain (SetInternetAccessByIpForWifiShare ip f b i)
  | CSetIdleDenyPolicy b => plain (SetIdleDenyPolicy b)
  | CSetUidsDeniedListChain uids b => plain (SetUidsDeniedListChain uids b)
  end.

End Proxy.

(** ** The protocol *)

Definition code_of (c : PolicyCall) : Z :=
  match c with
  | CSetPolicyByUid _ _ => 1 | CGetPolicyByUid _ => 2 | CGetUidsByPolicy _ => 3 | CIsUidNetAllowed_metered _ _ => 4
  | CIsUidNetAllowed_iface _ _ => 5 | CRegisterNetPolicyCallback _ => 6 | CUnregisterNetPolicyCallback _ => 7
  | CSetNetQuotaPolicies _ => 8 | CGetNetQuotaPolicies _ => 9 | CUpdateRemindPolicy _ _ _ => 10 | CSetDeviceIdleTrustlist _ _ => 11
  | CGetDeviceIdleTrustlist => 12 | CSetDeviceIdlePolicy _ => 13 | CResetPolicies _ => 14 | CSetBackgroundPolicy _ => 15
  | CGetBackgroundPolicy => 16 | CGetBackgroundPolicyByUid _ => 17 | CSetPowerSaveTrustlist _ _ => 18 | CGetPowerSaveTrustlist => 19
  | CSetPowerSavePolicy _ => 20 | CCheckPermission => 21 | CSetNetworkAccessPolicy _ _ _ => 23 | CGetNetworkAccessPolicy _ _ => 24
  | CGetSelfNetworkAccessPolicy => 25 | CNotifyNetAccessPolicyDiag _ => 26 | CSetNicTrafficAllowed _ _ => 27
  | CSetInternetAccessByIpForWifiShare _ _ _ _ => 28 | CSetIdleDenyPolicy _ => 29 | CSetUidsDeniedListChain _ _ => 30
  | CAddNetworkAccessPolicy _ => 31 | CRemoveNetworkAccessPolicy _ => 32
  end.

(** The arguments as they travel. *)
Definition args (my_uid : Z) (c : PolicyCall) : list Item :=
  match c with
  | CSetPolicyByUid uid policy => [IW32 (u32 uid); IW32 (u32 policy)]
  | CGetPolicyByUid uid | CGetBackgroundPolicyByUid uid | CNotifyNetAccessPolicyDiag uid => [IW32 (u32 uid)]
  | CGetUidsByPolicy policy => [IW32 (u32 policy)]
  | CIsUidNetAllowed_metered uid b => [IW32 (u32 uid); IBool b]
  | CIsUidNetAllowed_iface uid i => [IW32 (u32 uid); IString i]
  | CRegisterNetPolicyCallback o | CUnregisterNetPolicyCallback o => [IRemoteObject o]
  | CSetNetQuotaPolicies l => list_items Quota_items l
  | CResetPolicies simId => [IString simId]
  | CSetBackgroundPolicy b | CSetDeviceIdlePolicy b | CSetPowerSavePolicy b | CSetIdleDenyPolicy b => [IBool b]
  | CUpdateRemindPolicy n simId t => [IW32 (u32 n); IString simId; IW32 (u32 t)]
  | CSetDeviceIdleTrustlist uids b | CSetPowerSaveTrustlist uids b => [IUInt32Vector uids; IBool b]
  | CSetNetworkAccessPolicy uid p b =>
      [IW32 (u32 uid); IW8 (u8 (Z.b2z (wifiAllow p))); IW8 (u8 (Z.b2z (cellularAllow p))); IBool b]
  | CAddNetworkAccessPolicy l | CRemoveNetworkAccessPolicy l => [IStringVector l]
  | CGetNetworkAccessPolicy p _ => [IBool (ap_flag p); IW32 (u32 (ap_uid p)); IW32 (u32 my_uid)]
  | CSetNicTrafficAllowed l b => IBool b :: list_items (fun s => [IString s]) l
  | CSetInternetAccessByIpForWifiShare ip f b i => [IString ip; IW8 (u8 f); IBool b; IString i]
  | CSetUidsDeniedListChain uids b => list_items (fun u => [IW32 (u32 u)]) uids ++ [IBool b]
  | CGetNetQuotaPolicies _ | CGetBackgroundPolicy | CGetDeviceIdleTrustlist | CGetPowerSaveTrustlist | CCheckPermission
  | CGetSelfNetworkAccessPolicy => []
  end.

(** The arguments have the types of the source and are within the limits of the
    stub. *)
Definition call_ok (c : PolicyCall) : Prop :=
  match c with
  | CSetPolicyByUid uid policy => in_width 32 uid /\ in_width 32 policy
  | CGetPolicyByUid uid | CGetBackgroundPolicyByUid uid | CNotifyNetAccessPolicyDiag uid | CIsUidNetAllowed_metered uid _
  | CSetNetworkAccessPolicy uid _ _ => in_width 32 uid
  | CGetUidsByPolicy policy => in_width 32 policy
  | CIsUidNetAllowed_iface uid i => in_width 32 uid /\ ConnParcel.size i <= MAX_IFACENAMES_SIZE
  | CSetNetQuotaPolicies l => l <> [] /\ Forall Quota_typed l /\ in_width 32 (list_size l)
  | CUpdateRemindPolicy n _ t => in_signed 32 n /\ in_width 32 t
  | CGetNetworkAccessPolicy p _ => in_width 32 (ap_uid p)
  | CSetNicTrafficAllowed l _ => Forall (fun s => s <> "") l /\ list_size l <= MAX_IFACENAMES_SIZE
  | CSetInternetAccessByIpForWifiShare _ f _ _ => in_width 8 f
  | CSetUidsDeniedListChain uids _ => Forall (in_width 32) uids /\ list_size uids <= MAX_LIST_SIZE
  | _ => True
  end.

(** The call that reaches the service. *)
Definition received (my_uid : Z) (c : PolicyCall) : PolicyCall :=
  match c with
  | CSetNetQuotaPolicies l => CSetNetQuotaPolicies (received_quotas l)
  | CSetNetworkAccessPolicy uid p b => CSetNetworkAccessPolicy uid (mkAccess (wifiAllow p) (cellularAllow p) false false) b
  | CGetNetworkAccessPolicy p mine => CGetNetworkAccessPolicy (mkAccessParameter (ap_flag p) (ap_uid p) my_uid) mine
  | c => c
  end.

(** The results have the types of the source; an answer has at most 65535 access
    policies. *)
Definition result_ok (r : Z * Out) : Prop :=
  in_signed 32 r.1 /\
  match r.2 with
  | OUint32 z => in_width 32 z
  | OQuotas l => Forall Quota_typed l /\ in_width 32 (list_size l)
  | OAccess a => Access_typed a
  | _ => True
  end.

Definition out_items (c : PolicyCall) (o : Out) : list Item :=
  match o with
  | ONone => []
  | OUint32 z => [IW32 (u32 z)]
  | OUids l => [IUInt32Vector l]
  | OBool b => [IBool b]
  | OQuotas l => list_items Quota_items l
  | OAccess a => Access_items a (match c with CGetNetworkAccessPolicy p _ => ap_flag p | _ => false end)
  | OSelf a => [IBool (allowWiFi a); IBool (allowCellular a)]
  end.

Definition answer_items (c : PolicyCall) (r : Z * Out) : list Item :=
  IW32 (u32 r.1) :: if r.1 =? NETMANAGER_SUCCESS then out_items c r.2 else [].

(** Three handlers return the result of the service as the status of the request,
    so that a failure looks like a failure of the transport. *)
Definition result_is_status (c : PolicyCall) : bool :=
  match c with CGetNetworkAccessPolicy _ _ | CGetSelfNetworkAccessPolicy | CNotifyNetAccessPolicyDiag _ => true | _ => false end.

(** The answer as the client sees it. *)
Definition as_seen (c : PolicyCall) (r : Z * Out) : Z * Out :=
  if r.1 =? NETMANAGER_SUCCESS
  then (r.1, match c, r.2 with
             | CGetNetQuotaPolicies mine, OQuotas l => OQuotas (mine ++ received_quotas l)
             | CGetNetworkAccessPolicy p mine, OAccess a => OAccess (received_access mine a (ap_flag p))
             | _, o => o
             end)
  else (if result_is_status c then NETMANAGER_ERR_OPERATION_FAILED else r.1, ONone).

(** What the stub notes about the call. *)
Definition noted (who : Caller) (c : PolicyCall) (s : Stub) : Stub :=
  match c with
  | CSetNetworkAccessPolicy uid p _ =>
      HandleStoreNetworkPolicy uid (mkAccess (wifiAllow p) (cellularAllow p) false false) (u32 (calling_uid who)) s
  | _ => s
  end.

(** ** The stub *)

Section Serving.
Context {P S : Type} {PI : IParcel P} {PL : ParcelLaws P} {SI : INetPolicyService S}.
Variables (ERR_FLATTEN_OBJECT IPC_STUB_WRITE_PARCEL_ERR : Z) (after_failed_ReadString : string -> string).
Variable IPCObjectStub_OnRemoteRequest : Z -> P -> P -> Z * P * P.

Abbreviation request := (OnRemoteRequest (S := S) ERR_FLATTEN_OBJECT IPC_STUB_WRITE_PARCEL_ERR after_failed_ReadString IPCObjectStub_OnRemoteRequest).
Abbreviation members := (memberFuncMap_ (S := S) (P := P) ERR_FLATTEN_OBJECT after_failed_ReadString).

Lemma wp_read1 {T A B} (m : M P A) i rest a err (k : A -> H P T B) d r s Q :
  unread d = i :: rest -> consumes m [i] a -> (forall d', unread d' = rest -> wp (k a) (mkCtx d' r s) Q) ->
  wp (on_data m err ≫= k) (mkCtx d r s) Q.
Proof. intros Hd Hm Hk. apply wp_bind. by apply (wp_data_read _ [i] rest a). Qed.

Lemma wp_serve {A B} (f : S -> A * S) (k : A -> H P (Remote S) B) d r t Q :
  wp (k (f (service t)).1) (mkCtx d r (mkRemote (stub t) (f (service t)).2)) Q -> wp (serve f ≫= k) (mkCtx d r t) Q.
Proof. intros Hk. apply wp_bind. unfold serve. apply wp_call. by destruct (f (service t)). Qed.

(** Writing to the reply, whose contents are a prefix of the whole answer. *)
Lemma wp_put1 {B} m l held all err (k : unit -> H P (Remote S) B) d r t Q :
  holds r held -> puts m l -> fits all -> (exists rest, all = (held ++ l) ++ rest) ->
  (forall r', holds r' (held ++ l) -> wp (k tt) (mkCtx d r' t) Q) -> wp (on_reply m err ≫= k) (mkCtx d r t) Q.
Proof.
  intros Hr Hm Hf [rest ->] Hk. apply wp_bind. apply (wp_reply_write _ l held); [done| |done|done]. by eapply fits_prefix.
Qed.

Lemma wp_answer result d t Q : fits [IW32 (u32 result)] ->
  (forall rep, holds rep [IW32 (u32 result)] -> Q (inr NETMANAGER_SUCCESS) (mkCtx d rep t)) ->
  wp (answer (S := S) (P := P) result) (mkCtx d new_parcel t) Q.
Proof.
  intros Hf HQ. eapply wp_put1; [apply holds_new|apply emits_puts, emits_wr|exact Hf|exists []; symmetry; apply app_nil_r|].
  intros rep Hr. by apply HQ.
Qed.

Lemma wp_answer_with result m l d t Q : puts m l ->
  fits (IW32 (u32 result) :: if result =? NETMANAGER_SUCCESS then l else []) ->
  (forall rep, holds rep (IW32 (u32 result) :: if result =? NETMANAGER_SUCCESS then l else []) -> Q (inr NETMANAGER_SUCCESS) (mkCtx d rep t)) ->
  wp (answer_with (S := S) result m) (mkCtx d new_parcel t) Q.
Proof.
  intros Hm Hf HQ. eapply wp_put1; [apply holds_new|apply emits_puts, emits_wr|exact Hf|by eexists|]. cbn [app]. intros r Hr.
  destruct (result =? NETMANAGER_SUCCESS); [|by apply HQ].
  eapply wp_put1; [exact Hr|exact Hm|exact Hf|exists []; symmetry; apply app_nil_r|]. intros r' Hr'. by apply HQ.
Qed.

(** A caller with the right passes the checks. *)
Lemma may_call_checks who c : may_call who (code_of c) = true ->
  CheckProcessPermission (code_of c) who = NETMANAGER_SUCCESS /\ CheckPolicyPermission (code_of c) who = NETMANAGER_SUCCESS.
Proof.
  assert (Hg : SubCheckPermission MANAGE_NET_STRATEGY who = granted who MANAGE_NET_STRATEGY) by done.
  unfold may_call, CheckProcessPermission, CheckPolicyPermission, IsSystemCaller.
  destruct c; cbn [code_of]; cbn -[granted SubCheckPermission MANAGE_NET_STRATEGY NETSYS_INTERNAL]; rewrite ?Hg;
    rewrite ?andb_true_iff; intros Hm; destruct_and?; try done;
    repeat match goal with H : ?b = true |- context [?b] => rewrite H end;
    destruct (token_hap who), (system_app who), (granted who MANAGE_NET_STRATEGY); done.
Qed.

Lemma may_call_internal who c : may_call who c = true -> c = CMD_NPS_SET_NIC_TRAFFIC_ALLOWED \/ c = CMD_NPS_SET_INTERNET_ACCESS_BY_IP_FOR_WIFI_SHARE ->
  CheckNetSysInternalPermission NETSYS_INTERNAL who = true.
Proof.
  change (CheckNetSysInternalPermission NETSYS_INTERNAL who) with (granted who NETSYS_INTERNAL). unfold may_call.
  intros Hm [->| ->]; cbn -[granted MANAGE_NET_STRATEGY NETSYS_INTERNAL] in Hm; by repeat (apply andb_prop in Hm as [? Hm] || apply andb_prop in Hm as [Hm ?]).
Qed.

(** The outcome of a handler that has served the call. *)
Definition served (who : Caller) (c : PolicyCall) (t : Remote S) (r : (Z * Out) * S) (z : Z + Z) (x : Ctx P (Remote S)) : Prop :=
  (match z with inl z => z | inr z => z end) = (if result_is_status c then r.1.1 else NETMANAGER_SUCCESS) /\
  unread (reply x) = answer_items c r.1 /\ svc x = mkRemote (noted who c (stub t)) r.2.

(** Reads the next argument. *)
Ltac read_step := eapply wp_read1; [eassumption|solve [eauto with wire]|intros ? ?; cbv beta].
(** Calls the service, whose answer is [r]. *)
Ltac serve_step :=
  apply wp_serve; unfold direct, received, plain, with_out in *;
  match goal with |- wp _ (mkCtx _ _ (mkRemote _ (?f (service ?t)).2)) _ => destruct (f (service t)) as [? ?] eqn:? end;
  repeat match goal with x : (_ * _)%type |- _ => destruct x end; cbn [fst snd] in *.
Lemma answer_plain c z : answer_items c (z, ONone) = [IW32 (u32 z)].
Proof. unfold answer_items. cbn. by case_match. Qed.

Ltac plain_step := apply wp_answer; [match goal with Hf : fits (answer_items _ _) |- _ => rewrite answer_plain in Hf; exact Hf end|intros ? [? _]; unfold served; cbn [fst snd]; rewrite answer_plain; done].
Ltac out_step := eapply wp_answer_with; [solve [eauto with wire]|eassumption|intros ? [? _]; done].

(** The last write of an answer that ends with the result. *)
Lemma wp_put_last {B} m l held err (k : unit -> H P (Remote S) B) d r t Q : holds r held -> puts m l -> fits (held ++ l) ->
  (forall r', unread r' = held ++ l -> wp (k tt) (mkCtx d r' t) Q) -> wp (on_reply m err ≫= k) (mkCtx d r t) Q.
Proof.
  intros Hr Hm Hf Hk. eapply wp_put1; [exact Hr|exact Hm|exact Hf|exists []; symmetry; apply app_nil_r|]. intros r' [Hu _]. by apply Hk.
Qed.

Lemma flag_byte b : negb (Z.b2z b =? 0) = b.
Proof. by destruct b. Qed.

Lemma read_ifaces_reads l err : forall name d r t (Q : Z + list string -> Ctx P (Remote S) -> Prop) rest, Forall (fun s => s <> "") l ->
  unread d = flat_map (fun s => [IString s]) l ++ rest -> (forall d', unread d' = rest -> Q (inr l) (mkCtx d' r t)) ->
  wp (read_ifaces err after_failed_ReadString (length l) name) (mkCtx d r t) Q.
Proof.
  induction l as [|s l IH]; intros name d r t Q rest Hl Hd HQ; cbn [length read_ifaces flat_map app] in *; [by apply wp_ret, HQ|].
  apply Forall_cons in Hl as [Hs Hl]. apply wp_bind. eapply (wp_unchecked_data_read _ [IString s]); [exact Hd|apply consumes_string|].
  intros d' Hd'. cbn beta iota. rewrite bool_decide_eq_false_2 by done. apply wp_bind. eapply IH; [done|exact Hd'|]. intros d2 Hd2. by apply HQ.
Qed.

Lemma may_call_nic who : may_call who CMD_NPS_SET_NIC_TRAFFIC_ALLOWED = true ->
  negb (calling_uid who =? UID_EDM) && negb (calling_uid who =? UID_NET_MANAGER) && negb (calling_uid who =? UID_IOT_NET_MANAGER) = false.
Proof.
  unfold may_call. cbn -[granted MANAGE_NET_STRATEGY NETSYS_INTERNAL]. rewrite !andb_true_iff, bool_decide_eq_true. intros (_ & _ & Hu).
  rewrite !elem_of_cons, elem_of_nil in Hu. destruct Hu as [->|[->|[->|[]]]]; done.
Qed.

(** A handler serves a call: with the arguments in the request, and the right of
    the caller, it leaves the answer of the service. *)
Definition serves (my_uid : Z) (who : Caller) (c : PolicyCall) (h : H P (Remote S) Z) : Prop := forall d t,
  call_ok c -> in_width 32 my_uid -> may_call who (code_of c) = true -> unread d = args my_uid c ->
  result_ok (direct (received my_uid c) (service t)).1 -> fits (answer_items c (direct (received my_uid c) (service t)).1) ->
  wp h (mkCtx d new_parcel t) (served who c t (direct (received my_uid c) (service t))).

Lemma SetNetworkAccessPolicy_serves my_uid who uid p b : serves my_uid who (CSetNetworkAccessPolicy uid p b) (OnSetNetworkAccessPolicy who).
Proof.
  intros d t Hok Hmy Hmay Hd Hres Hfit. unfold OnSetNetworkAccessPolicy. cbn [call_ok args] in Hok, Hd.
  assert (Hb : forall b, in_width 8 (Z.b2z b)) by (by intros []). do 4 read_step. rewrite !flag_byte. serve_step.
  rewrite answer_plain in Hfit. eapply wp_put_last; [apply holds_new|apply emits_puts, emits_wr|exact Hfit|]. intros r' Hr'.
  apply wp_bind, wp_call, wp_ret. unfold served. cbn [fst snd]. by rewrite answer_plain.
Qed.

Lemma GetNetworkAccessPolicy_serves my_uid who p mine : serves my_uid who (CGetNetworkAccessPolicy p mine) OnGetNetworkAccessPolicy.
Proof.
  intros d t Hok Hmy Hmay Hd Hres Hfit. unfold OnGetNetworkAccessPolicy. cbn [call_ok args] in Hok, Hd.
  read_step. eapply wp_read1; [eassumption|apply consumes_cast32|intros ? ?]. read_step. rewrite key_roundtrip by done. serve_step.
  eapply wp_put1; [apply holds_new|apply emits_puts, emits_wr|exact Hfit|by eexists|]. intros r Hr. unfold served, answer_items in *.
  cbn [fst snd app] in *. destruct (z =? NETMANAGER_SUCCESS); [|by destruct Hr].
  eapply wp_put_last; [exact Hr|apply emits_puts, Access_emits; by destruct Hres|exact Hfit|]. intros r' Hr'. done.
Qed.

Lemma GetSelfNetworkAccessPolicy_serves my_uid who : serves my_uid who CGetSelfNetworkAccessPolicy OnGetSelfNetworkAccessPolicy.
Proof.
  intros d t Hok Hmy Hmay Hd Hres Hfit. unfold OnGetSelfNetworkAccessPolicy.
  serve_step. eapply wp_put1; [apply holds_new|apply emits_puts, emits_wr|exact Hfit|by eexists|]. intros r Hr.
  unfold served, answer_items in *. cbn [fst snd app] in *. destruct (z =? NETMANAGER_SUCCESS); [|by destruct Hr]. apply wp_bind.
  eapply wp_put1; [exact Hr|apply emits_puts, emits_wr|exact Hfit|by eexists|]. intros r1 Hr1.
  eapply (wp_reply_write _ _ _ _ _ r1 _ _ Hr1); [exact Hfit|apply emits_puts, emits_wr|]. intros r2 [Hr2 _]. done.
Qed.

Lemma SetNicTrafficAllowed_serves my_uid who l b : serves my_uid who (CSetNicTrafficAllowed l b)
  (OnSetNicTrafficAllowed ERR_FLATTEN_OBJECT after_failed_ReadString who).
Proof.
  intros d t [Hl Hn] Hmy Hmay Hd Hres Hfit. unfold OnSetNicTrafficAllowed. cbn [args] in Hd. unfold list_items in Hd.
  rewrite (may_call_internal who _ Hmay) by auto. rewrite may_call_nic by done. cbn [negb]. read_step.
  eapply wp_read1; [eassumption|apply consumes_i32; unfold in_signed, MAX_IFACENAMES_SIZE, list_size in *; lia|intros d1 Hd1]. cbv beta.
  rewrite (proj2 (Z.ltb_ge _ _)) by done. unfold list_size. rewrite Nat2Z.id. apply wp_bind.
  eapply read_ifaces_reads; [done|by rewrite app_nil_r|]. intros d2 Hd2. cbn beta iota. serve_step. rewrite answer_plain in Hfit.
  eapply wp_put_last; [apply holds_new|apply emits_puts, emits_wr|exact Hfit|]. intros r Hr. unfold served. cbn [fst snd]. by rewrite answer_plain.
Qed.

Lemma SetUidsDeniedListChain_serves my_uid who l b : serves my_uid who (CSetUidsDeniedListChain l b) OnSetUidsDeniedListChain.
Proof.
  intros d t [Hl Hn] Hmy Hmay Hd Hres Hfit. unfold OnSetUidsDeniedListChain. cbn [args] in Hd. unfold list_items in Hd.
  eapply wp_read1; [eassumption|apply consumes_i32; unfold in_signed, MAX_LIST_SIZE, list_size in *; lia|intros d' Hd']. cbv beta.
  rewrite (proj2 (Z.ltb_ge _ 0)), (proj2 (Z.ltb_ge _ _)) by (unfold list_size in *; lia). cbn [orb]. unfold list_size. rewrite Nat2Z.id.
  apply wp_bind. eapply wp_data_read; [exact Hd'|apply consumes_times; intros u Hu; apply consumes_u32; by eapply Forall_forall in Hl|].
  intros d2 Hd2. cbn beta iota. read_step. serve_step. plain_step.
Qed.

Lemma handler_serves my_uid who c h : members who (code_of c) = Some h -> serves my_uid who c h.
Proof.
  destruct c; cbn [code_of memberFuncMap_]; intros [= <-];
    auto using SetNetworkAccessPolicy_serves, GetNetworkAccessPolicy_serves, GetSelfNetworkAccessPolicy_serves, SetNicTrafficAllowed_serves,
      SetUidsDeniedListChain_serves; intros d t Hok Hmy Hmay Hd Hres Hfit; cbn [call_ok args] in Hok, Hd; destruct_and?.
  all: lazymatch goal with |- wp ?h _ _ => let f := get_head h in unfold f end.
  all: try (repeat read_step; serve_step; first [plain_step|out_step]).
  - (* IsUidNetAllowed_iface *)
    do 2 read_step. rewrite (proj2 (Z.ltb_ge _ _)) by done. serve_step. out_step.
  - (* RegisterNetPolicyCallback *)
    apply wp_bind. eapply (wp_unchecked_data_read _ [_]); [exact Hd|apply consumes_remote|intros ? ?]. cbn beta iota. serve_step. plain_step.
  - apply wp_bind. eapply (wp_unchecked_data_read _ [_]); [exact Hd|apply consumes_remote|intros ? ?]. cbn beta iota. serve_step. plain_step.
  - (* SetNetQuotaPolicies *)
    rewrite Quotas_split in Hd. apply wp_bind. eapply wp_data_read; [exact Hd|by apply Quotas_consumes|intros ? ?]. cbn beta iota.
    rewrite app_nil_l. serve_step. plain_step.
  - (* GetNetQuotaPolicies *)
    pose proof Quotas_puts. serve_step. out_step.
  - (* CheckPermission *)
    destruct t as [t s]. cbn [direct received plain fst service] in *. plain_step.
  - (* NotifyNetAccessPolicyDiag *)
    read_step. serve_step. rewrite answer_plain in Hfit. eapply wp_put_last; [apply holds_new|apply emits_puts, emits_wr|exact Hfit|].
    intros r Hr. unfold served. cbn [fst snd]. by rewrite answer_plain.
  - (* SetInternetAccessByIpForWifiShare *)
    rewrite (may_call_internal who _ Hmay) by auto. cbn [negb]. do 4 read_step. serve_step. rewrite answer_plain in Hfit.
    eapply wp_put_last; [apply holds_new|apply emits_puts, emits_wr|exact Hfit|]. intros r Hr. unfold served. cbn [fst snd]. by rewrite answer_plain.
Qed.

Lemma stub_serves my_uid who c d t :
  call_ok c -> in_width 32 my_uid -> may_call who (code_of c) = true -> handler_ (stub t) = true ->
  unread d = IToken DESCRIPTOR :: args my_uid c -> result_ok (direct (received my_uid c) (service t)).1 ->
  fits (answer_items c (direct (received my_uid c) (service t)).1) ->
  let r := direct (received my_uid c) (service t) in
  let x := request who (code_of c) d new_parcel t in
  x.1.1 = (if result_is_status c then r.1.1 else NETMANAGER_SUCCESS) /\ unread x.1.2 = answer_items c r.1 /\
  x.2 = mkRemote (noted who c (stub t)) r.2.
Proof.
  intros Hok Hmy Hmay Hh Hd Hres Hfit. cbv zeta. unfold OnRemoteRequest, ReadInterfaceToken.
  destruct (consumes_token DESCRIPTOR d (args my_uid c) Hd) as [Htok Hd1]. destruct (ReadToken d) as [o d1]. cbn in Htok, Hd1. subst o.
  rewrite bool_decide_eq_true_2 by done. rewrite Hh. cbn [negb]. rewrite Hh. cbn [negb].
  destruct (may_call_checks who c Hmay) as [-> ->]. rewrite Z.eqb_refl. cbn [negb].
  destruct (members who (code_of c)) as [h|] eqn:Hm; [|by destruct c].
  pose proof (handler_serves my_uid who c h Hm d1 t Hok Hmy Hmay Hd1 Hres Hfit) as Hs. unfold wp in Hs. unfold finish.
  destruct (h (mkCtx d1 new_parcel t)) as [z x]. exact Hs.
Qed.

(** ** The transport *)

(** [SendRequest] hands the items of the request to the stub, with the identity of
    the caller, and returns what the stub has returned; when that is a success
    the client gets the items of the reply. *)
Definition delivers (who : Caller) (transact : Z -> P -> P -> Remote S -> Z * P * Remote S) : Prop := forall c d r t, exists d',
  unread d' = unread d /\
  (transact c d r t).1.1 = (request who c d' new_parcel t).1.1 /\ (transact c d r t).2 = (request who c d' new_parcel t).2 /\
  ((transact c d r t).1.1 = NETMANAGER_SUCCESS -> unread (transact c d r t).1.2 = unread (request who c d' new_parcel t).1.2).

Section Client.
Variables (my_uid : Z) (who : Caller) (transact : Z -> P -> P -> Remote S -> Z * P * Remote S).
Hypothesis transport : delivers who transact.

Abbreviation function := (proxy_function ERR_FLATTEN_OBJECT true my_uid transact).

(** What a call needs to go through, the answer of the service, and the state of
    the other process afterwards. *)
Definition goes_through (c : PolicyCall) (t : Remote S) : Prop :=
  call_ok c /\ in_width 32 my_uid /\ may_call who (code_of c) = true /\ handler_ (stub t) = true /\
  result_ok (direct (received my_uid c) (service t)).1 /\ fits (IToken DESCRIPTOR :: args my_uid c) /\
  fits (answer_items c (direct (received my_uid c) (service t)).1).

Definition result (c : PolicyCall) (t : Remote S) : Z * Out := (direct (received my_uid c) (service t)).1.
Definition after (c : PolicyCall) (t : Remote S) : Remote S :=
  mkRemote (noted who c (stub t)) (direct (received my_uid c) (service t)).2.

Lemma wp_transfer c d r t Q : goes_through c t -> unread d = IToken DESCRIPTOR :: args my_uid c ->
  (forall status r', status = (if result_is_status c then (result c t).1 else NETMANAGER_SUCCESS) ->
     (status = NETMANAGER_SUCCESS -> unread r' = answer_items c (result c t)) -> Q (inr status) (mkCtx d r' (after c t))) ->
  wp (transfer transact (code_of c)) (mkCtx d r t) Q.
Proof.
  intros (Hok & Hmy & Hmay & Hh & Hres & _ & Hfit) Hd HQ. destruct (transport (code_of c) d r t) as (d' & Hd' & H1 & H2 & H3).
  rewrite Hd in Hd'. destruct (stub_serves my_uid who c d' t Hok Hmy Hmay Hh Hd' Hres Hfit) as (E1 & E2 & E3).
  unfold wp, transfer. cbn [data reply svc]. rewrite E1 in H1. rewrite E2 in H3. rewrite E3 in H2.
  destruct (transact (code_of c) d r t) as [[status r'] t']. cbn in *. subst t'. by apply HQ.
Qed.

(** The code the client gets, and what is left in the reply after it. *)
Definition seen_code (c : PolicyCall) (z : Z) : Z :=
  if z =? NETMANAGER_SUCCESS then z else if result_is_status c then NETMANAGER_ERR_OPERATION_FAILED else z.

Lemma as_seen_code c r : (as_seen c r).1 = seen_code c r.1.
Proof. unfold as_seen, seen_code. by case_match. Qed.

Lemma as_seen_failed c r : seen_code c r.1 <> 0 -> as_seen c r = (seen_code c r.1, ONone).
Proof. unfold as_seen, seen_code. case_match eqn:E; [|done]. by apply Z.eqb_eq in E. Qed.

Lemma seen_success c z : seen_code c z = 0 -> z = NETMANAGER_SUCCESS.
Proof. unfold seen_code. case_match eqn:E; [by apply Z.eqb_eq in E|]. by destruct (result_is_status c). Qed.

Lemma wp_SendRequest c d r t Q : goes_through c t -> unread d = IToken DESCRIPTOR :: args my_uid c ->
  (forall r', ((result c t).1 = NETMANAGER_SUCCESS -> unread r' = out_items c (result c t).2) ->
     Q (inr (seen_code c (result c t).1)) (mkCtx d r' (after c t))) ->
  wp (SendRequest true transact (code_of c)) (mkCtx d r t) Q.
Proof.
  intros Hg Hd HQ. unfold SendRequest. cbn [negb]. apply wp_bind. apply (wp_transfer c); [done|done|]. intros status r' -> Hr.
  assert (Hi : in_signed 32 (result c t).1) by apply Hg. unfold seen_code in HQ. cbn beta iota.
  destruct (negb (_ =? NETMANAGER_SUCCESS)) eqn:E.
  - destruct (result_is_status c); [|done]. apply negb_true_iff in E. rewrite E in HQ. apply wp_ret, HQ. intros Hz. by rewrite Hz in E.
  - apply negb_false_iff, Z.eqb_eq in E. specialize (Hr E). apply wp_bind.
    eapply (wp_unchecked_reply_read _ [_]); [exact Hr|by apply consumes_i32|]. intros r2 Hr2. cbn beta iota. apply wp_ret. cbn [default].
    destruct (Z.eqb_spec (result c t).1 NETMANAGER_SUCCESS) as [Hz|Hz]; [by apply HQ|]. destruct (result_is_status c); [done|by apply HQ].
Qed.

(** The outcome of a function of the proxy. *)
Definition seen (c : PolicyCall) (t : Remote S) (z : Z + Z * Out) (x : Ctx P (Remote S)) : Prop :=
  (match z with inl z => (z, ONone) | inr v => v end) = as_seen c (result c t) /\ svc x = after c t.

Lemma wp_send c d r t : goes_through c t -> unread d = IToken DESCRIPTOR :: args my_uid c -> (result c t).2 = ONone ->
  wp (send true transact (code_of c)) (mkCtx d r t) (seen c t).
Proof.
  intros Hg Hd Ho. apply wp_bind. apply (wp_SendRequest c); [done|done|]. intros r' _. apply wp_ret. split; [|done].
  rewrite <- as_seen_code. unfold as_seen. rewrite Ho. case_match; [by destruct c|done].
Qed.

Lemma wp_fetch {A} c (m : M P A) out d r t : goes_through c t -> unread d = IToken DESCRIPTOR :: args my_uid c ->
  ((result c t).1 = NETMANAGER_SUCCESS -> exists l rest a, out_items c (result c t).2 = l ++ rest /\ consumes m l a /\
     out a = (as_seen c (result c t)).2) ->
  wp (fetch true transact (code_of c) m out) (mkCtx d r t) (seen c t).
Proof.
  intros Hg Hd Hm. apply wp_bind. apply (wp_SendRequest c); [done|done|]. intros r' Hr. cbn beta iota.
  destruct (Z.eqb_spec (seen_code c (result c t).1) 0) as [Hz|Hz]; cbn [negb].
  - destruct (Hm (seen_success _ _ Hz)) as (l & rest & a & Hl & Hc & Ho). specialize (Hr (seen_success _ _ Hz)). rewrite Hl in Hr.
    apply wp_bind. eapply wp_reply_read; [exact Hr|exact Hc|]. intros r2 _. apply wp_ret. split; [|done].
    rewrite Ho, <- as_seen_code. by destruct (as_seen c (result c t)).
  - apply wp_code. split; [|done]. by rewrite as_seen_failed.
Qed.

(** Writing the next argument. *)
Lemma wp_dput1 {B} m l held all err (k : unit -> H P (Remote S) B) d r t Q :
  holds d held -> puts m l -> fits all -> (exists rest, all = (held ++ l) ++ rest) ->
  (forall d', holds d' (held ++ l) -> wp (k tt) (mkCtx d' r t) Q) -> wp (on_data m err ≫= k) (mkCtx d r t) Q.
Proof.
  intros Hd Hm Hf [rest ->] Hk. apply wp_bind. apply (wp_data_write _ l held); [done| |done|done]. by eapply fits_prefix.
Qed.

Ltac put_step := eapply wp_dput1; [eassumption|solve [eauto with wire]|match goal with Hf : fits (IToken _ :: _) |- _ => exact Hf end
  |first [by eexists|exists []; by rewrite app_nil_r]|intros ? ?; cbn [app] in *].
Ltac remote_step := apply wp_bind, wp_ret; cbn beta iota.

Lemma plain_result c t f : (forall s, direct (received my_uid c) s = plain f s) -> (result c t).2 = ONone.
Proof. intros Hf. unfold result. rewrite Hf. unfold plain. by destruct (f (service t)). Qed.

Ltac sent := match goal with Hd : holds ?d _ |- unread ?d = _ => apply Hd end.
Ltac send_step := match goal with |- wp _ _ (seen ?c _) => apply (wp_send c); [assumption|sent|by eapply plain_result] end.
(** Opens the result of the service. *)
Ltac open_result :=
  unfold result, as_seen in *; cbn [direct received] in *; unfold with_out in *;
  match goal with |- context [match ?f (service ?t) with _ => _ end] => destruct (f (service t)) as [[? ?] ?] eqn:? end; cbn [fst snd] in *.
Ltac fetch_step :=
  match goal with |- wp _ _ (seen ?c _) => apply (wp_fetch c); [assumption|sent|] end;
  intros Hz; open_result; rewrite Hz; cbn [Z.eqb snd NETMANAGER_SUCCESS] in *; destruct_and?;
  eexists [_], [], _; split_and!; [reflexivity|solve [eauto with wire]|reflexivity].

(** [remote->SendRequest] without the wrapper: the function reads the code itself. *)
Lemma wp_transfer_plain c d r t err (k : H P (Remote S) (Z * Out)) :
  goes_through c t -> unread d = IToken DESCRIPTOR :: args my_uid c -> result_is_status c = false -> (result c t).2 = ONone ->
  (forall z r', in_signed 32 z -> unread r' = [IW32 (u32 z)] -> as_seen c (result c t) = (z, ONone) -> wp k (mkCtx d r' (after c t)) (seen c t)) ->
  wp (ret ← transfer transact (code_of c); if negb (ret =? 0) then code err else k) (mkCtx d r t) (seen c t).
Proof.
  intros Hg Hd Hs Ho Hk. apply wp_bind. apply (wp_transfer c); [done|done|]. rewrite Hs. intros status r' -> Hr. cbn beta iota.
  specialize (Hr eq_refl). cbn [negb Z.eqb NETMANAGER_SUCCESS]. assert (Hi : in_signed 32 (result c t).1) by apply Hg.
  destruct (result c t) as [z o]. cbn in Ho, Hi. subst o. rewrite answer_plain in Hr. apply (Hk z); [done|done|].
  unfold as_seen. cbn. rewrite Hs. case_match; [by destruct c|done].
Qed.

Lemma proxy_sees_special c t : goes_through c t -> match c with CSetNetworkAccessPolicy _ _ _ | CCheckPermission => true | _ => false end = true ->
  wp (function c) (mkCtx new_parcel new_parcel t) (seen c t).
Proof.
  intros Hg Hc. pose proof Hg as (_ & _ & _ & _ & _ & Hreq & _). pose proof (holds_new (P := P)) as Hnew.
  destruct c; try done; cbn [proxy_function args] in *; unfold proxy_SetNetworkAccessPolicy, proxy_CheckPermission, WriteInterfaceToken, put, check_remote;
    repeat first [put_step|remote_step];
    match goal with |- wp _ _ (seen ?c _) => apply (wp_transfer_plain c); [assumption|sent|done|by eapply plain_result|] end; intros z r Hz Hr Hs; apply wp_bind.
  - eapply (wp_reply_read _ [_] []); [exact Hr|by apply consumes_i32|]. intros r2 _. apply wp_ret. by split.
  - eapply (wp_unchecked_reply_read _ [_] []); [exact Hr|by apply consumes_i32|]. intros r2 _. apply wp_ret. by split.
Qed.

(** The calls with results that are read in several steps. *)
Lemma proxy_sees_GetSelf t : goes_through CGetSelfNetworkAccessPolicy t ->
  wp (function CGetSelfNetworkAccessPolicy) (mkCtx new_parcel new_parcel t) (seen CGetSelfNetworkAccessPolicy t).
Proof.
  intros Hg. pose proof Hg as (_ & _ & _ & _ & _ & Hreq & _). pose proof (holds_new (P := P)) as Hnew.
  cbn [proxy_function args] in *. unfold proxy_GetSelfNetworkAccessPolicy, WriteInterfaceToken, check_remote. put_step. remote_step.
  apply wp_bind. apply (wp_SendRequest CGetSelfNetworkAccessPolicy); [done|sent|]. intros r Hr. cbn beta iota.
  destruct (Z.eqb_spec (seen_code CGetSelfNetworkAccessPolicy (result CGetSelfNetworkAccessPolicy t).1) NETMANAGER_SUCCESS) as [Hz|Hz]; cbn [negb].
  - apply seen_success in Hz. specialize (Hr Hz). unfold seen, seen_code. open_result. rewrite Hz in *. cbn in Hr.
    apply wp_bind. eapply (wp_reply_read _ [_]); [exact Hr|apply consumes_bool|]. intros r2 Hr2. cbn beta iota.
    apply wp_bind. eapply (wp_reply_read _ [_] []); [exact Hr2|apply consumes_bool|]. intros r3 _. apply wp_ret. split; [|done]. by destruct n.
  - apply wp_code. split; [|done]. by rewrite as_seen_failed.
Qed.

Lemma proxy_sees_GetAccess p mine t : let c := CGetNetworkAccessPolicy p mine in goes_through c t ->
  wp (function c) (mkCtx new_parcel new_parcel t) (seen c t).
Proof.
  cbv zeta. intros Hg. pose proof Hg as (_ & _ & _ & _ & [_ Hres] & Hreq & _). pose proof (holds_new (P := P)) as Hnew.
  cbn [proxy_function args] in *. unfold proxy_GetNetworkAccessPolicy, WriteInterfaceToken, check_remote. repeat first [put_step|remote_step].
  apply wp_bind. apply (wp_SendRequest (CGetNetworkAccessPolicy p mine)); [done|sent|]. intros r Hr. cbn beta iota.
  destruct (Z.eqb_spec (seen_code (CGetNetworkAccessPolicy p mine) (result (CGetNetworkAccessPolicy p mine) t).1) NETMANAGER_SUCCESS) as [Hz|Hz]; cbn [negb].
  - apply seen_success in Hz. specialize (Hr Hz). unfold seen, seen_code. open_result. rewrite Hz in *. cbn in Hr.
    apply wp_bind. eapply (wp_reply_read _ _ []); [by rewrite app_nil_r|by apply Access_consumes|]. intros r2 Hr2. apply wp_ret. by split.
  - apply wp_code. split; [|done]. by rewrite as_seen_failed.
Qed.

Lemma proxy_sees c t : goes_through c t -> wp (function c) (mkCtx new_parcel new_parcel t) (seen c t).
Proof.
  intros Hg. pose proof Hg as (Hok & Hmy & Hmay & Hh & Hres & Hreq & Hfit). pose proof (holds_new (P := P)) as Hnew. unfold result_ok in Hres.
  destruct c; try (by apply proxy_sees_special); try (by apply proxy_sees_GetSelf); try (by apply proxy_sees_GetAccess);
    cbn [proxy_function call_ok args] in *; lazymatch goal with |- wp ?h _ _ => let f := get_head h in unfold f end;
    unfold WriteInterfaceToken, put, check_remote.
  all: try (repeat first [put_step|remote_step]; first [send_step|fetch_step]).
  - put_step. apply wp_bind. eapply wp_unchecked_data_write; [eassumption|exact Hreq|apply emits_puts, emits_wr|]. intros d1 Hd1. cbn beta iota.
    remote_step. send_step.
  - put_step. apply wp_bind. eapply wp_unchecked_data_write; [eassumption|exact Hreq|apply emits_puts, emits_wr|]. intros d1 Hd1. cbn beta iota.
    remote_step. send_step.
  - (* SetNetQuotaPolicies *)
    destruct Hok as (Hne & _). rewrite bool_decide_eq_false_2 by (by destruct l). put_step. remote_step. pose proof Quotas_puts. put_step. send_step.
  - (* GetNetQuotaPolicies *)
    put_step. remote_step. apply (wp_fetch (CGetNetQuotaPolicies mine)); [done|sent|]. intros Hz. open_result. rewrite Hz. cbn.
    destruct Hres as (_ & ? & ?). rewrite Quotas_split. do 3 eexists. split_and!; [reflexivity|by apply Quotas_consumes|done].
  - (* SetNicTrafficAllowed *)
    pose proof (puts_each (P := P) WriteString (fun s => [IString s]) ifaceNames ltac:(intros; apply emits_puts, emits_wr)).
    unfold list_items in *. do 4 put_step. remote_step. send_step.
  - (* SetUidsDeniedListChain *)
    pose proof (puts_each (P := P) WriteUint32 (fun u => [IW32 (u32 u)]) uids ltac:(intros; apply emits_puts, emits_wr)).
    destruct Hok as [_ Hn]. put_step. cbv zeta. rewrite wrap_small by (unfold in_width, MAX_LIST_SIZE, list_size in *; lia).
    rewrite (proj2 (Z.ltb_ge _ _)) by done. replace (take _ uids) with uids by (unfold list_size; by rewrite Nat2Z.id, firstn_all).
    unfold list_items in *. cbn [app] in *. put_step. put_step. put_step. remote_step. send_step.
Qed.

End Client.

(** C13: The proxy is transparent: over every transport that delivers, for every call whose arguments have the types of
    the source and are within the limits of the stub, made by a process that may make it, with room in
    the parcels for the request and the answer, calling through proxy, parcels and stub returns the
    code and the out parameter of the direct call on the service and leaves the service in the same
    state.  The exceptions are spelled out: a list of quota policies arrives cut at 100 and without the fields that do not travel
    ([received], [as_seen]), the calling uid of an access query is the client's own, and three
    calls report every failure of the service as a failed operation. *)
Theorem policy_ipc_transparent my_uid who transact c t :
  delivers who transact -> goes_through my_uid who c t ->
  let r := direct (received my_uid c) (service t) in
  proxy ERR_FLATTEN_OBJECT true my_uid transact c t = (as_seen c r.1, mkRemote (noted who c (stub t)) r.2).
Proof.
  intros Hd Hg. cbv zeta. pose proof (proxy_sees my_uid who transact Hd c t Hg) as Hs. unfold wp in Hs. unfold proxy.
  destruct (proxy_function _ _ _ _ c (mkCtx new_parcel new_parcel t)) as [z x]. destruct Hs as [H1 H2]. cbn in H1, H2.
  rewrite H1, H2. done.
Qed.

End Serving.
(** ** An example: a service with one table, called by a system process over parcels of [Queue] *)

Definition accept {S} (s : S) : Z * S := (NETMANAGER_SUCCESS, s).
Definition reject {S A} (a : A) (s : S) : (Z * A) * S := ((NETMANAGER_ERR_LOCAL_PTR_NULL, a), s).

#[local] Instance table_service : INetPolicyService (gmap Z Z) := {
  SetPolicyByUid uid policy s := (NETMANAGER_SUCCESS, <[uid := policy]> s);
  GetPolicyByUid uid s := ((NETMANAGER_SUCCESS, default 0 (s !! uid)), s);
  GetUidsByPolicy policy s := ((NETMANAGER_SUCCESS, sort_by id (map fst (filter (fun e => e.2 = policy) (map_to_list s)))), s);
  IsUidNetAllowed_metered uid _ s := ((NETMANAGER_SUCCESS, bool_decide (s !! uid = Some 1)), s);
  IsUidNetAllowed_iface uid _ s := ((NETMANAGER_SUCCESS, bool_decide (s !! uid = Some 1)), s);
  RegisterNetPolicyCallback _ := accept;
  UnregisterNetPolicyCallback _ := accept;
  SetNetQuotaPolicies _ := accept;
  GetNetQuotaPolicies := reject [];
  ResetPolicies _ _ := (NETMANAGER_SUCCESS, ∅);
  SetBackgroundPolicy _ := accept;
  GetBackgroundPolicy := reject false;
  GetBackgroundPolicyByUid _ := reject 0;
  UpdateRemindPolicy _ _ _ := accept;
  SetDeviceIdleTrustlist _ _ := accept;
  GetDeviceIdleTrustlist := reject [];
  SetDeviceIdlePolicy _ := accept;
  GetPowerSaveTrustlist := reject [];
  SetPowerSaveTrustlist _ _ := accept;
  SetPowerSavePolicy _ := accept;
  SetNetworkAccessPolicy _ _ _ := accept;
  GetNetworkAccessPolicy _ := reject (mkAccessSave (mkAccess true true false false) ∅);
  GetSelfNetworkAccessPolicy := reject (mkSelfAccess true true);
  NotifyNetAccessPolicyDiag _ := accept;
  SetNicTrafficAllowed _ _ := accept;
  SetInternetAccessByIpForWifiShare _ _ _ _ := accept;
  SetIdleDenyPolicy _ := accept;
  SetUidsDeniedListChain _ _ := accept;
  AddNetworkAccessPolicy _ := accept;
  RemoveNetworkAccessPolicy _ := accept;
}.

Definition refuse (c : Z) (d r : Queue) : Z * Queue * Queue := (305, d, r).
Definition table_request : Caller -> Z -> Queue -> Queue -> Remote (gmap Z Z) -> Z * Queue * Remote (gmap Z Z) :=
  OnRemoteRequest 22 5 id refuse.
Definition system_process : Caller := mkCaller 1000 false false (fun _ => true).
Definition application : Caller := mkCaller 20010 true false (fun _ => false).
Definition table_remote : Remote (gmap Z Z) := mkRemote new_stub {[20010 := 1]}.
(** The transport gives the stub an empty parcel for its answer. *)
Definition table_transact (c : Z) (d r : Queue) (t : Remote (gmap Z Z)) := table_request system_process c d new_parcel t.

Lemma table_delivers : delivers (SI := table_service) 22 5 id refuse system_process table_transact.
Proof. intros c d r t. by exists d. Qed.

Lemma policy_ipc_transparent_witness :
  let t1 := mkRemote new_stub (<[20020 := 3]> {[20010 := 1]}) in
  proxy 22 true 1000 table_transact (CSetPolicyByUid 20020 3) table_remote = ((NETMANAGER_SUCCESS, ONone), t1) /\
  proxy 22 true 1000 table_transact (CGetPolicyByUid 20020) t1 = ((NETMANAGER_SUCCESS, OUint32 3), t1).
Proof.
  split.
  - etransitivity; [apply (policy_ipc_transparent 22 5 id refuse 1000 system_process table_transact _ _ table_delivers)|vm_compute; reflexivity].
    unfold goes_through, result_ok. by split_and!.
  - etransitivity; [apply (policy_ipc_transparent 22 5 id refuse 1000 system_process table_transact _ _ table_delivers)|vm_compute; reflexivity].
    unfold goes_through, result_ok. by split_and!.
Defined.

(** An application that asks to be allowed changes nothing. *)
Lemma only_allowed_callers_witness :
  let q := [IToken DESCRIPTOR; IW32 20010; IW32 2] in
  service (table_request application CMD_NPS_SET_POLICY_BY_UID (mkQueue q q) new_parcel table_remote).2 = {[20010 := 1]} /\
  service (table_request system_process CMD_NPS_SET_POLICY_BY_UID (mkQueue q q) new_parcel table_remote).2 = {[20010 := 2]}.
Proof.
  split; [|vm_compute; reflexivity]. apply (only_allowed_callers 22 5 id refuse application CMD_NPS_SET_POLICY_BY_UID). reflexivity.
Defined.

End PolicyProxy.
