(* ===== verification/PolicyService.v ===== *)
(** * The policy service
    (services/netpolicymanager/src/net_policy_service.cpp,
    src/core/net_policy_callback.cpp)

    The service holds its parts, the rules of the applications ([PolicyRule]), the firewalls
    ([PolicyFirewall]), the quotas ([PolicyTraffic]) and the access policies ([AccessService]),
    and passes each call on to one of them; what a part has to tell goes to the
    registered callbacks.  It is an instance of the interface the stub serves
    ([INetPolicyService] of [PolicyStub]), so that what holds between the proxy and any
    service holds for this one ([client_policy_enforced]). *)

From Stdlib Require Import Ascii String.
From S2P Require Import Prelude NetCaps NetData Iptables BandwidthManager FirewallManager PolicyNetsys NativeNetsys PolicyFile Parcel ConnParcel Ipc PolicyParcel.
From S2P Require Import PolicyRule PolicyTraffic PolicyFirewall PolicyStub PolicyProxy.
From S2P Require Import Conntrack FirewallMatch BpfMap NetsysBpf BpfStats AccessMaps NetsysRun AccessStore AccessConfig AccessService AccessClone AccessRun.
Import PolicyNetsys PolicyParcel.
Module PR := PolicyRule.PolicyRule.
Module PF := PolicyFirewall.PolicyFirewall.
Module PT := PolicyTraffic.PolicyTraffic.
Module PS := PolicyStub.PolicyStub.
Module PP := PolicyProxy.PolicyProxy.
Module AS := AccessStore.AccessStore.
Module AC := AccessConfig.AccessConfig.
Module ASV := AccessService.AccessService.
Module AR := AccessRun.AccessRun.
Module BPF := NetsysBpf.NetsysBpf.
Module NR := NetsysRun.NetsysRun.

Module PolicyService.

Definition NETMANAGER_SUCCESS : Z := 0.
Definition NETMANAGER_ERR_PARAMETER_ERROR : Z := 2100001.
Definition NETMANAGER_ERR_INTERNAL : Z := 2100003.
Definition NETMANAGER_ERR_LOCAL_PTR_NULL : Z := 2100105.
Definition NETMANAGER_ERR_IPC_CONNECT_STUB_FAIL : Z := 2100207.

(** ** Callbacks: an object of the other side is a number *)

Definition LIMIT_CALLBACK_NUM : nat := 200.

Definition callback_Register (callback : Z) (callbacks_ : list Z) : Z * list Z :=
  if (LIMIT_CALLBACK_NUM <=? length callbacks_)%nat then (NETMANAGER_ERR_PARAMETER_ERROR, callbacks_)
  else if bool_decide (callback ∈ callbacks_) then (NETMANAGER_ERR_PARAMETER_ERROR, callbacks_)
  else (NETMANAGER_SUCCESS, callbacks_ ++ [callback]).

Definition callback_Unregister (callback : Z) (callbacks_ : list Z) : Z * list Z :=
  (NETMANAGER_SUCCESS, filter (fun c => c <> callback) callbacks_).

(** The notifications: every callback in turn; an empty list of quotas is not told. *)
Definition callback_Notify (callbacks_ : list Z) (n : PR.Note) : list (Z * PR.Note) :=
  match n with
  | PR.NetQuotaPolicyChange [] => []
  | _ => (fun c => (c, n)) <$> callbacks_
  end.

(** No callback is registered twice, and there are never more than the limit. *)
Definition callbacks_ok (l : list Z) : Prop := NoDup l /\ (length l <= LIMIT_CALLBACK_NUM)%nat.

Lemma callback_Register_ok c l : callbacks_ok l -> callbacks_ok (callback_Register c l).2.
Proof.
  intros [Hn Hl]. unfold callback_Register. destruct (Nat.leb_spec LIMIT_CALLBACK_NUM (length l)) as [|Hlt]; [done|].
  case_bool_decide as Hc; [done|]. split; cbn; [|rewrite length_app; cbn; lia].
  apply NoDup_app. split_and!; [done|intros x Hx ->%list_elem_of_singleton; done|apply NoDup_singleton].
Qed.

Lemma callback_Unregister_ok c l : callbacks_ok l -> callbacks_ok (callback_Unregister c l).2.
Proof. intros [Hn Hl]. split; cbn; [by apply NoDup_filter|]. etransitivity; [apply length_filter|done]. Qed.

(** ** Settings *)

(** [NetSettings]: the users of the system. *)
Definition IsSystem (systemUids_ : list Z) (uid : Z) : bool := bool_decide (uid ∈ systemUids_).
Definition AddSystemUid (uid : Z) (systemUids_ : list Z) : list Z := systemUids_ ++ [uid].
Fixpoint erase_first (uid : Z) (l : list Z) : list Z := match l with [] => [] | x :: l => if x =? uid then l else x :: erase_first uid l end.
Definition RemoveSystemUid (uid : Z) (systemUids_ : list Z) : list Z := if uid =? 0 then [] else erase_first uid systemUids_.

(** ** The service *)

Section Service.
Context (sz : BPF.Sizes) (loaded : bool) (file : option (list AC.Item)).
Context {W : Type} {PN : PolicyNetsys W} {D : Type} `{R : AS.Rdb D}.
(** What the parts read from outside, and the caller. *)
Context (traffic_env : PT.Env) (env : ASV.Env) (callingUid : Z).
(** The dialog's library: whether it is found, has its entry, gives an object, and whether the system's interface is reached. *)
Context (dialog : option bool).
(** Two calls of the native service that the parts only pass on. *)
Context (NicTraffic : list string -> bool -> W -> Z * W) (WifiShare : string -> Z -> bool -> string -> W -> Z * W).

Record NetPolicyService := mkPolicyService {
  netPolicyRule : PR.NetPolicyRule; netPolicyFirewall : PF.NetPolicyFirewall; netPolicyTraffic : PT.NetPolicyTraffic;
  native : W; policyFile : PolicyFile.PolicyFile.NetPolicyFile; events : list PR.PolicyEvent;
  callbacks : list Z; told : list (Z * PR.Note); systemUids : list Z;
  policies : ASV.Service D }.
Implicit Types (s : NetPolicyService).

Definition world s : PR.World W := PR.mkWorld (native s) (policyFile s) [].

(** The state after a part has worked: what it noted is told to the callbacks, and its events are queued. *)
Definition worked rule fw traffic (w : PR.World W) (es : list PR.PolicyEvent) s : NetPolicyService :=
  mkPolicyService rule fw traffic (PR.netsys w) (PR.file w) (events s ++ es) (callbacks s)
    (told s ++ flat_map (callback_Notify (callbacks s)) (PR.notes w)) (systemUids s) (policies s).
Definition set_policies p s := mkPolicyService (netPolicyRule s) (netPolicyFirewall s) (netPolicyTraffic s) (native s) (policyFile s) (events s)
  (callbacks s) (told s) (systemUids s) p.
Definition set_callbacks l s := mkPolicyService (netPolicyRule s) (netPolicyFirewall s) (netPolicyTraffic s) (native s) (policyFile s) (events s)
  l (told s) (systemUids s) (policies s).
Definition set_native w s := mkPolicyService (netPolicyRule s) (netPolicyFirewall s) (netPolicyTraffic s) w (policyFile s) (events s)
  (callbacks s) (told s) (systemUids s) (policies s).

(** The parts are created together at the start. *)
Definition created s : bool := ASV.netPolicyRule_ (policies s).
Definition guarded (f : NetPolicyService -> Z * NetPolicyService) s : Z * NetPolicyService :=
  if created s then f s else (NETMANAGER_ERR_LOCAL_PTR_NULL, s).
Definition guarded_get {A} (none : A) (f : NetPolicyService -> Z * A) s : (Z * A) * NetPolicyService :=
  (if created s then f s else (NETMANAGER_ERR_LOCAL_PTR_NULL, none), s).

(** A call of the rules, of the quotas and of the firewalls. *)
Definition by_rule (f : PR.NetPolicyRule -> PR.World W -> Z * PR.NetPolicyRule * PR.World W) : NetPolicyService -> Z * NetPolicyService :=
  guarded (fun s => let '(r, rule, w) := f (netPolicyRule s) (world s) in (r, worked rule (netPolicyFirewall s) (netPolicyTraffic s) w [] s)).
Definition by_traffic (f : PT.NetPolicyTraffic -> PR.World W -> Z * PT.NetPolicyTraffic * PR.World W) : NetPolicyService -> Z * NetPolicyService :=
  guarded (fun s => let '(r, traffic, w) := f (netPolicyTraffic s) (world s) in (r, worked (netPolicyRule s) (netPolicyFirewall s) traffic w [] s)).
Definition by_firewall (f : PF.NetPolicyFirewall -> PR.World W -> Z * PF.NetPolicyFirewall * PR.World W * list PR.PolicyEvent) : NetPolicyService -> Z * NetPolicyService :=
  guarded (fun s => let '(r, fw, w, es) := f (netPolicyFirewall s) (world s) in (r, worked (netPolicyRule s) fw (netPolicyTraffic s) w es s)).
Definition by_access (f : ASV.Service D -> Z * ASV.Service D) s : Z * NetPolicyService :=
  let '(r, p) := f (policies s) in (r, set_policies p s).

Definition IsUidNetAllowed_metered (uid : Z) (metered : bool) s : (Z * bool) * NetPolicyService :=
  if IsSystem (systemUids s) uid then ((NETMANAGER_SUCCESS, true), s)
  else guarded_get false (fun s => PR.IsUidNetAllowed uid metered (netPolicyRule s)) s.

Definition IsUidNetAllowed_iface (uid : Z) (ifaceName : string) s : (Z * bool) * NetPolicyService :=
  if negb (created s) then ((0, false), s)
  else IsUidNetAllowed_metered uid (PT.IsMeteredIfaces ifaceName (netPolicyTraffic s)) s.

Definition reset_parts (reset_traffic : PT.NetPolicyTraffic -> PR.World W -> Z * PT.NetPolicyTraffic * PR.World W) s : NetPolicyService :=
  let '(_, s) := by_rule (fun rule w => PR.ResetPolicies rule w) s in
  let '(_, s) := by_firewall (fun fw w => let '(fw, w, es) := PF.ResetPolicies fw w in (0, fw, w, es)) s in
  (by_traffic reset_traffic s).2.

Definition ResetPolicies (simId : string) : NetPolicyService -> Z * NetPolicyService :=
  guarded (fun s => (NETMANAGER_SUCCESS, reset_parts (PT.ResetPolicies_sim simId traffic_env) s)).

(** [FactoryResetPolicies]: the access policies too. *)
Definition FactoryResetPolicies : NetPolicyService -> Z * NetPolicyService :=
  guarded (fun s => let s := reset_parts (PT.ResetPolicies traffic_env) s in
    (NETMANAGER_SUCCESS, set_policies (ASV.ResetNetAccessPolicy sz loaded (policies s)) s)).

(** [OnNetSysRestart]: after the native service was gone. *)
Definition OnNetSysRestart s : NetPolicyService :=
  if created s then let '(rule, w) := PR.TransPolicyToRule_all (netPolicyRule s) (world s) in
    worked rule (netPolicyFirewall s) (netPolicyTraffic s) w [] s
  else s.

(** [None]: the library or what it holds is missing. *)
Definition NotifyNetAccessPolicyDiag (uid : Z) s : Z * NetPolicyService :=
  (match dialog with None => NETMANAGER_ERR_INTERNAL | Some true => NETMANAGER_SUCCESS | Some false => NETMANAGER_ERR_IPC_CONNECT_STUB_FAIL end, s).

Definition policy_service : PS.INetPolicyService NetPolicyService := {|
  PS.SetPolicyByUid uid policy := by_rule (PR.TransPolicyToRule uid policy);
  PS.GetPolicyByUid uid := guarded_get 0 (fun s => PR.GetPolicyByUid uid (netPolicyRule s));
  PS.GetUidsByPolicy policy := guarded_get [] (fun s => PR.GetUidsByPolicy policy [] (netPolicyRule s));
  PS.IsUidNetAllowed_metered := IsUidNetAllowed_metered;
  PS.IsUidNetAllowed_iface := IsUidNetAllowed_iface;
  PS.RegisterNetPolicyCallback c := guarded (fun s => let '(r, l) := callback_Register c (callbacks s) in (r, set_callbacks l s));
  PS.UnregisterNetPolicyCallback c := guarded (fun s => let '(r, l) := callback_Unregister c (callbacks s) in (r, set_callbacks l s));
  PS.SetNetQuotaPolicies l := by_traffic (PT.UpdateQuotaPolicies l traffic_env);
  PS.GetNetQuotaPolicies := guarded_get [] (fun s => PT.GetNetQuotaPolicies (netPolicyTraffic s));
  PS.ResetPolicies := ResetPolicies;
  PS.SetBackgroundPolicy allow := by_rule (PR.SetBackgroundPolicy allow);
  PS.GetBackgroundPolicy := guarded_get false (fun s => PR.GetBackgroundPolicy (netPolicyRule s));
  PS.GetBackgroundPolicyByUid uid := guarded_get 0 (fun s => PR.GetBackgroundPolicyByUid uid (netPolicyRule s));
  PS.UpdateRemindPolicy t i r := by_traffic (PT.UpdateRemindPolicy t i r traffic_env);
  PS.SetDeviceIdleTrustlist uids b := by_firewall (PF.SetDeviceIdleTrustlist uids b);
  PS.GetDeviceIdleTrustlist := guarded_get [] (fun s => PF.GetDeviceIdleTrustlist (netPolicyFirewall s));
  PS.SetDeviceIdlePolicy b := by_firewall (PF.UpdateDeviceIdlePolicy b);
  PS.GetPowerSaveTrustlist := guarded_get [] (fun s => PF.GetPowerSaveTrustlist (netPolicyFirewall s));
  PS.SetPowerSaveTrustlist uids b := by_firewall (PF.SetPowerSaveTrustlist uids b);
  PS.SetPowerSavePolicy b := by_firewall (PF.UpdatePowerSavePolicy b);
  PS.SetNetworkAccessPolicy uid policy flag := by_access (ASV.SetNetworkAccessPolicy sz loaded uid policy flag);
  PS.GetNetworkAccessPolicy parameter s := let '(r, p) := ASV.GetNetworkAccessPolicy file env parameter (policies s) in (r, set_policies p s);
  PS.GetSelfNetworkAccessPolicy s := let '(r, p) := ASV.GetSelfNetworkAccessPolicy file env callingUid (policies s) in (r, set_policies p s);
  PS.NotifyNetAccessPolicyDiag := NotifyNetAccessPolicyDiag;
  PS.SetNicTrafficAllowed l b := guarded (fun s => let '(r, w) := NicTraffic l b (native s) in (r, set_native w s));
  PS.SetInternetAccessByIpForWifiShare a f b i s := let '(r, w) := WifiShare a f b i (native s) in (r, set_native w s);
  PS.SetIdleDenyPolicy b := by_firewall (PF.UpdateIdleDenyPolicy b);
  PS.SetUidsDeniedListChain uids b := by_firewall (PF.SetUidsDeniedListChain uids b);
  PS.AddNetworkAccessPolicy names := by_access (ASV.AddNetworkAccessPolicy sz loaded file env names);
  PS.RemoveNetworkAccessPolicy names := by_access (ASV.RemoveNetworkAccessPolicy sz loaded file env names)
|}.

End Service.
Arguments NetPolicyService W D : clear implicits.

(** ** Clients of the service *)

Section Clients.
Context (sz : BPF.Sizes) (file : option (list AC.Item)).
Context {W : Type} {PN : PolicyNetsys W} {D : Type} `{L : AS.RdbLaws D}.
Context (traffic_env : PT.Env) (dialog : option bool).
Context (NicTraffic : list string -> bool -> W -> Z * W) (WifiShare : string -> Z -> bool -> string -> W -> Z * W).
Context {P : Type} {PI : Parcel.IParcel P} {PL : Parcel.ParcelLaws P}.
(** The constants and functions of the system that the stub uses. *)
Context (ERR_FLATTEN_OBJECT ERR_INVALID : Z) (after_failed : string -> string) (IPC_default : Z -> P -> P -> Z * P * P).
Context (U : gset Z) (U_width : forall u, u ∈ U -> in_width 32 u) (U_fits : (size U <= BPF.UID_ACCESS_POLICY_ARRAY_SIZE sz)%nat).

(** The service as a call finds it: with the applications installed at the time, and the caller. *)
Definition the_service (env : ASV.Env) (callingUid : Z) : PS.INetPolicyService (NetPolicyService W D) :=
  policy_service sz true file traffic_env env callingUid dialog NicTraffic WifiShare.

(** A call of a client: the user of the process, what the service finds, and the call. *)
Record ClientCall := mkClientCall { cc_uid : Z; cc_env : ASV.Env; cc_calling : Z; cc_call : PP.PolicyCall }.

Implicit Types (s : NetPolicyService W D) (a : AR.Spec) (c : PP.PolicyCall) (x : ClientCall).

(** A query reads the file of the configuration when it comes across an application. *)
Definition query_config (env : ASV.Env) (parameter : AccessPolicyParameter) (u : AC.NetAccessPolicyConfigUtils) : AC.NetAccessPolicyConfigUtils :=
  match ASV.bundleMgr env with
  | None => u
  | Some b =>
      if ap_flag parameter then
        match ASV.GetNameForUid b (s32 (ap_uid parameter)) with Some _ => AC.Init file u | None => u end
      else match ASV.GetApplicationInfos b (ap_callingUid parameter / ASV.BASE_USER_RANGE b) with Some (_ :: _) => AC.Init file u | _ => u end
  end.

(** What a call does to the table and the configuration: see [AccessRun.spec_event]. *)
Definition spec_call (env : ASV.Env) (callingUid : Z) c a : AR.Spec :=
  let query p := AR.mkSpec (AR.table a) (query_config env p (AR.config a)) (AR.wait a) in
  match c with
  | PP.CSetNetworkAccessPolicy uid policy flag => AR.spec_event file (AR.ESet uid policy flag) a
  | PP.CAddNetworkAccessPolicy names => AR.spec_event file (AR.EConfigAdd env names) a
  | PP.CRemoveNetworkAccessPolicy names => AR.spec_event file (AR.EConfigRemove env names) a
  | PP.CGetNetworkAccessPolicy parameter _ => query parameter
  | PP.CGetSelfNetworkAccessPolicy => query (mkAccessParameter true callingUid callingUid)
  | _ => a
  end.
Definition spec_client x a : AR.Spec := spec_call (cc_env x) (cc_calling x) (PP.received (cc_uid x) (cc_call x)) a.

(** Policies are set for the users of [U], and the applications of the configuration are among them. *)
Definition access_ok x : Prop :=
  match cc_call x with
  | PP.CSetNetworkAccessPolicy uid _ _ => uid ∈ U
  | PP.CAddNetworkAccessPolicy _ | PP.CRemoveNetworkAccessPolicy _ => ASV.knows U (cc_env x)
  | _ => True
  end.

(** The databases, the map of the kernel and the configuration are those of the specification. *)
Definition access_rel a (p : ASV.Service D) : Prop := ASV.Rel U (AR.table a) p /\ ASV.configs p = AR.config a.

Lemma list_configs infos : forall (o : AS.NetAccessPolicyRDB D) u (l : gmap Z NetworkAccessPolicy),
  (foldl (fun q e => ASV.list_one file e q) (o, u, l) infos).1.2 = match infos with [] => u | _ => AC.Init file u end.
Proof.
  induction infos as [|e infos IH]; intros o u l; [done|]. cbn [foldl]. unfold ASV.list_one at 2. destruct (AS.QueryByUid _ _) as [found o'].
  assert (Eu : (AC.UpdateNetworkAccessPolicyFromConfig file e.2 (ASV.with_row found ASV.fresh_policy) u).2 = AC.Init file u).
  { unfold AC.UpdateNetworkAccessPolicyFromConfig, AC.GetNetAccessPolicyConfig. by destruct (list_find _ _) as [[? ?]|]. }
  destruct (AC.UpdateNetworkAccessPolicyFromConfig _ _ _ _) as [q u']. cbn [snd] in Eu. subst u'. rewrite IH. destruct infos; [done|].
  unfold AC.Init. destruct (AC.isInit_ u) eqn:E; [by rewrite E|done].
Qed.

Lemma query_rel env parameter a (p : ASV.Service D) : access_rel a p ->
  access_rel (AR.mkSpec (AR.table a) (query_config env parameter (AR.config a)) (AR.wait a)) (ASV.GetNetworkAccessPolicy file env parameter p).2.
Proof.
  intros [Hr Hc]. split; [by apply ASV.GetNetworkAccessPolicy_keeps|]. cbn [AR.config]. rewrite <- Hc. clear.
  unfold ASV.GetNetworkAccessPolicy, query_config. destruct (ASV.bundleMgr env) as [b|]; [|done]. destruct (ap_flag parameter).
  - destruct (ASV.GetNameForUid b _) as [name|]; [|by destruct (AS.QueryByUid _ _)].
    unfold AC.UpdateNetworkAccessPolicyFromConfig, AC.GetNetAccessPolicyConfig. destruct (list_find _ _) as [[? ?]|]; by destruct (AS.QueryByUid _ _).
  - destruct (ASV.GetApplicationInfos b _) as [infos|]; [|done].
    pose proof (list_configs infos (AS.new_RDB (ASV.rdb p)) (ASV.configs p) ∅) as E. destruct (foldl _ _ infos) as [[o u] l]. cbn in E |- *. by rewrite E.
Qed.

Lemma refresh_call env u a (p : ASV.Service D) : access_rel a p -> ASV.knows U env ->
  access_rel (AR.refresh_spec file env u a) (ASV.RefreshNetworkAccessPolicyFromConfig sz true file env (ASV.set_configs u p)).2.
Proof.
  intros [Hr Hc] Hk. unfold AR.refresh_spec.
  pose proof (ASV.Refresh_rel sz file U U_width U_fits (AR.table a) (ASV.set_configs u p) env (ASV.Rel_set_configs U _ _ u Hr) Hk) as H1.
  pose proof (AR.Refresh_configs sz file env (ASV.set_configs u p)) as H2. cbn [ASV.configs ASV.set_configs] in *.
  destruct (AC.GetNetAccessPolicyConfig file u) as [cs u']. by split.
Qed.

Lemma by_rule_policies f s : policies (by_rule f s).2 = policies s.
Proof. unfold by_rule, guarded. destruct (created s); [|done]. by destruct (f _ _) as [[r rule] w]. Qed.
Lemma by_traffic_policies f s : policies (by_traffic f s).2 = policies s.
Proof. unfold by_traffic, guarded. destruct (created s); [|done]. by destruct (f _ _) as [[r t] w]. Qed.
Lemma by_firewall_policies f s : policies (by_firewall f s).2 = policies s.
Proof. unfold by_firewall, guarded. destruct (created s); [|done]. by destruct (f _ _) as [[[r fw] w] es]. Qed.
Lemma reset_parts_policies f s : policies (reset_parts f s) = policies s.
Proof.
  unfold reset_parts. pose proof (by_rule_policies (fun rule w => PR.ResetPolicies rule w) s) as H1. destruct (by_rule _ s) as [r1 s1].
  pose proof (by_firewall_policies (fun fw w => let '(fw, w, es) := PF.ResetPolicies fw w in (0, fw, w, es)) s1) as H2. destruct (by_firewall _ s1) as [r2 s2].
  rewrite by_traffic_policies. cbn in *. congruence.
Qed.
Lemma guarded_policies f s : (policies (f s).2 = policies s) -> policies (guarded f s).2 = policies s.
Proof. unfold guarded. by destruct (created s). Qed.

Lemma plain_snd (f : NetPolicyService W D -> Z * NetPolicyService W D) s : (PP.plain f s).2 = (f s).2.
Proof. unfold PP.plain. by destruct (f s). Qed.
Lemma with_out_snd {A} (out : A -> PP.Out) (f : NetPolicyService W D -> (Z * A) * NetPolicyService W D) s : (PP.with_out out f s).2 = (f s).2.
Proof. unfold PP.with_out. by destruct (f s) as [[r a] s']. Qed.

Lemma set_call uid policy flag a (p : ASV.Service D) : access_rel a p -> uid ∈ U ->
  access_rel (AR.spec_event file (AR.ESet uid policy flag) a) (ASV.SetNetworkAccessPolicy sz true uid policy flag p).2.
Proof.
  intros [Hr Hc] Hu. pose proof (ASV.SetNetworkAccessPolicy_rel sz U U_width U_fits (AR.table a) p uid policy flag Hr Hu) as Hs.
  pose proof (proj1 (AR.configs_frame sz) uid policy flag p) as Hf. destruct (ASV.SetNetworkAccessPolicy _ _ _ _ _ _) as [r p'].
  split; [apply Hs|]. cbn in *. congruence.
Qed.

(** A call on the service. *)
Lemma direct_rel env cu c uid a s : access_rel a (policies s) -> access_ok (mkClientCall uid env cu c) ->
  access_rel (spec_call env cu c a) (policies (PP.direct (SI := the_service env cu) c s).2).
Proof.
  intros Hrel Hok.
  destruct c; cbn [spec_call access_ok cc_call cc_env] in *; cbn [PP.direct PS.SetPolicyByUid PS.GetPolicyByUid PS.GetUidsByPolicy PS.IsUidNetAllowed_metered
    PS.IsUidNetAllowed_iface PS.RegisterNetPolicyCallback PS.UnregisterNetPolicyCallback PS.SetNetQuotaPolicies PS.GetNetQuotaPolicies PS.ResetPolicies PS.SetBackgroundPolicy
    PS.GetBackgroundPolicy PS.GetBackgroundPolicyByUid PS.UpdateRemindPolicy PS.SetDeviceIdleTrustlist PS.GetDeviceIdleTrustlist PS.SetDeviceIdlePolicy PS.GetPowerSaveTrustlist
    PS.SetPowerSaveTrustlist PS.SetPowerSavePolicy PS.SetNetworkAccessPolicy PS.GetNetworkAccessPolicy PS.GetSelfNetworkAccessPolicy PS.NotifyNetAccessPolicyDiag
    PS.SetNicTrafficAllowed PS.SetInternetAccessByIpForWifiShare PS.SetIdleDenyPolicy PS.SetUidsDeniedListChain PS.AddNetworkAccessPolicy PS.RemoveNetworkAccessPolicy
    the_service policy_service];
    rewrite ?plain_snd, ?with_out_snd, ?by_rule_policies, ?by_traffic_policies, ?by_firewall_policies; try done.
  - unfold IsUidNetAllowed_metered. by destruct (IsSystem _ _).
  - unfold IsUidNetAllowed_iface, IsUidNetAllowed_metered. destruct (negb _); [done|]. by destruct (IsSystem _ _).
  - rewrite guarded_policies; [done|]. by destruct (callback_Register _ _).
  - rewrite guarded_policies; [done|]. done.
  - unfold ResetPolicies. rewrite guarded_policies; [done|]. apply reset_parts_policies.
  - unfold by_access. match goal with |- context [ASV.SetNetworkAccessPolicy _ _ ?u ?q ?f _] => pose proof (set_call u q f a (policies s) Hrel Hok) as Hs end.
    by destruct (ASV.SetNetworkAccessPolicy _ _ _ _ _ _) as [r p].
  - unfold by_access, ASV.AddNetworkAccessPolicy. cbn [AR.spec_event fst snd set_policies policies]. rewrite (proj2 Hrel). by apply refresh_call.
  - unfold by_access, ASV.RemoveNetworkAccessPolicy. cbn [AR.spec_event fst snd set_policies policies]. rewrite (proj2 Hrel). by apply refresh_call.
  - match goal with |- context [ASV.GetNetworkAccessPolicy _ _ ?q _] => pose proof (query_rel env q a (policies s) Hrel) as Hg end.
    by destruct (ASV.GetNetworkAccessPolicy _ _ _ _) as [r p].
  - unfold ASV.GetSelfNetworkAccessPolicy. pose proof (query_rel env (mkAccessParameter true cu cu) a (policies s) Hrel) as Hg.
    by destruct (ASV.GetNetworkAccessPolicy _ _ _ _) as [[r save] p].
  - rewrite guarded_policies; [done|]. by destruct (NicTraffic _ _ _).
  - by destruct (WifiShare _ _ _ _ _).
Qed.

Lemma access_ok_received uid env cu my_uid c : access_ok (mkClientCall uid env cu (PP.received my_uid c)) <-> access_ok (mkClientCall uid env cu c).
Proof. by destruct c. Qed.

(** Calls of clients, one after the other: each through its own proxy and a transport that delivers, by a process that may make it. *)
Inductive client_run : PS.Remote (NetPolicyService W D) -> list ClientCall -> PS.Remote (NetPolicyService W D) -> Prop :=
| client_done t : client_run t [] t
| client_call t c cs t2 my_uid env cu who transact :
    PP.delivers (SI := the_service env cu) ERR_FLATTEN_OBJECT ERR_INVALID after_failed IPC_default who transact ->
    PP.goes_through (SI := the_service env cu) my_uid who c t ->
    client_run (PP.proxy ERR_FLATTEN_OBJECT true my_uid transact c t).2 cs t2 -> client_run t (mkClientCall my_uid env cu c :: cs) t2.

(** C10: What clients ask for is what happens to the packets: from a service whose databases and kernel hold a table of access
    policies, after any sequence of calls that clients make through their proxies, of the rules, the firewalls, the quotas, the
    callbacks, the configuration, queries and access policies, the databases hold the table that the calls say: a policy
    that is set replaces the row of its user, and a change of the configuration overwrites the rows of
    the configured applications with what the configuration fixes for them.  Every packet that the firewall lets through and that is
    not loopback passes exactly when the row of its user allows its bearer.  (Set and configured
    users are among those, [U], that the map of the kernel can hold; every call goes through: the transport delivers it and
    the process may make it.) *)
Theorem client_policy_enforced t cs t2 a : client_run t cs t2 -> Forall access_ok cs -> access_rel a (policies (PS.service t)) ->
  let m := AR.table (foldl (fun a x => spec_client x a) a cs) in
  let p := policies (PS.service t2) in AS.stored m (ASV.rdb p) /\ AR.obey sz m (ASV.kernel p).
Proof.
  intros Hrun. revert a. induction Hrun as [t|t c cs t2 my_uid env cu who transact Hd Hg Hrun IH]; intros a Hok Hrel; cbv zeta.
  - destruct Hrel as [Hrel _]. split; [apply Hrel|]. apply AR.agrees_obey, Hrel.
  - apply Forall_cons in Hok as [Hc Hok]. cbn [foldl]. apply IH; [done|].
    pose proof (PP.proxy_sees (SI := the_service env cu) ERR_FLATTEN_OBJECT ERR_INVALID after_failed IPC_default my_uid who transact Hd c t Hg) as Hs.
    unfold PP.proxy. unfold Ipc.wp in Hs. destruct (PP.proxy_function _ _ _ _ c _) as [z x]. destruct Hs as [_ Hx]. cbn [snd]. cbn [snd] in Hx. rewrite Hx. cbn [PS.service PP.after].
    unfold spec_client. cbn [cc_env cc_calling cc_uid cc_call]. apply (direct_rel env cu _ my_uid); [done|]. by apply access_ok_received.
Qed.

End Clients.

(** ** Example: a process of the system denies two applications Wi-Fi, then fixes the Wi-Fi of one, and restricts the background *)

Definition quiet_env : PT.Env := PT.mkEnv 0 0 (fun _ _ => "") None true.
Abbreviation DemoService := (NetPolicyService (NativeNetsys.NativeNetsys.Native Iptables.Iptables.Table) AS.two).
(** The application "mail" has the user 20010011. *)
Definition demo_env : ASV.Env :=
  ASV.mkEnv (Some (ASV.mkBundles (fun name _ => if String.eqb name "mail" then 20010011 else -1) (fun _ => None) (fun _ => None) 200000)) (Some [100]).
Definition demo_service : PS.INetPolicyService DemoService :=
  policy_service BPF.normal_sizes true None quiet_env demo_env 1000 (Some true) (fun _ _ w => (0, w)) (fun _ _ _ _ w => (0, w)).
Definition demo_state : DemoService :=
  let w := PR.boot_world in
  mkPolicyService (PR.Init PR.new_NetPolicyRule w).1 PF.new_NetPolicyFirewall PT.new_NetPolicyTraffic (PR.netsys w) (PR.file w) [] [] [] [456]
    (AccessClone.AccessClone.device ∅).
Definition demo_remote : PS.Remote DemoService := PS.mkRemote PS.new_stub demo_state.
Definition demo_transact (c : Z) (d r : Parcel.Queue) t :=
  PS.OnRemoteRequest (SI := demo_service) 22 5 id PP.refuse PP.system_process c d Parcel.new_parcel t.
Definition demo_calls : list PP.PolicyCall :=
  [PP.CSetNetworkAccessPolicy 20010010 NR.cellular_only false; PP.CSetNetworkAccessPolicy 20010011 NR.cellular_only false;
   PP.CAddNetworkAccessPolicy ["mail"%string]; PP.CSetBackgroundPolicy false].
Definition demo_after (c : PP.PolicyCall) t := (PP.proxy 22 true 1000 demo_transact c t).2.

Lemma demo_delivers : PP.delivers (SI := demo_service) 22 5 id PP.refuse PP.system_process demo_transact.
Proof. intros c d r t. by exists d. Qed.

Lemma demo_knows : ASV.knows AR.users demo_env.
Proof.
  unfold ASV.knows, demo_env. cbn [ASV.bundleMgr ASV.GetUidByBundleName]. intros name userId. destruct (String.eqb name "mail"); [right|by left].
  split; [by vm_compute|]. by vm_compute.
Qed.

Lemma client_policy_enforced_witness :
  let t2 := foldl (fun t c => demo_after c t) demo_remote demo_calls in
  let m := <[s32 20010011 := AS.mkData 1 1 0]> {[s32 20010010 := ASV.policy_row NR.cellular_only true]} in
  AS.stored m (ASV.rdb (policies (PS.service t2))) /\ AR.obey BPF.normal_sizes m (ASV.kernel (policies (PS.service t2))).
Proof.
  intros t2 m.
  pose proof (client_policy_enforced BPF.normal_sizes None quiet_env (Some true) (fun _ _ w => (0, w)) (fun _ _ _ _ w => (0, w))
    22 5 id PP.refuse AR.users AR.users_width ltac:(apply Nat.leb_le; vm_compute; reflexivity) demo_remote
    (mkClientCall 1000 demo_env 1000 <$> demo_calls) t2 (AR.mkSpec ∅ AC.no_configs ∅)) as H.
  assert (E : AR.table (foldl (fun a x => spec_client None x a) (AR.mkSpec ∅ AC.no_configs ∅) (mkClientCall 1000 demo_env 1000 <$> demo_calls)) = m)
    by (vm_compute; reflexivity).
  cbv zeta in H. rewrite E in H. apply H.
  - clear H E. cbn [demo_calls fmap list_fmap].
    do 4 (eapply client_call with (my_uid := 1000) (who := PP.system_process) (transact := demo_transact);
      [exact demo_delivers|unfold PP.goes_through, PP.result_ok; vm_compute; split_and!; done|]).
    unfold t2, demo_after. cbn [demo_calls foldl]. apply client_done.
  - assert (H1 : 20010010 ∈ AR.users) by (by vm_compute). assert (H2 : 20010011 ∈ AR.users) by (by vm_compute).
    repeat (apply Forall_cons_2; [first [exact H1|exact H2|exact demo_knows|exact I]|]). apply Forall_nil_2.
  - split; [apply AR.start_rel|reflexivity].
Defined.

End PolicyService.
