(* ===== verification/LruCache.v ===== *)
(** * The least-recently-used cache (utils/common_utils/include/lru_cache.h)

    [LRUCache<T>] keeps a list of nodes, most recently used first, and a map from
    keys to positions in that list.  A [std::list] iterator is the identity of a
    node: nodes are numbered in the order of their creation, and a node that is
    moved is a new node.  The cache refines an ordered association list
    ([LRUCache_refines]); what it forgets is what was used longest ago
    ([recently_used_kept]). *)

From S2P Require Import Prelude.

Module LruCache.

Definition DEFAULT_CAPABILITY : nat := 100.

Lemma capability_pos : (0 < DEFAULT_CAPABILITY)%nat.
Proof. unfold DEFAULT_CAPABILITY. lia. Qed.

Record Node (T : Type) := mkNode { key : string; value : list T }.
Arguments mkNode {T} _ _.
Arguments key {T} _.
Arguments value {T} _.

(** [fresh_] numbers the next node of the list. *)
Record LRUCache (T : Type) := mkLRU {
  cache_ : gmap string nat;
  nodeList_ : list (nat * Node T);
  capacity_ : nat;
  fresh_ : nat }.
Arguments mkLRU {T} _ _ _ _.
Arguments cache_ {T} _.
Arguments nodeList_ {T} _.
Arguments capacity_ {T} _.
Arguments fresh_ {T} _.

Section Operations.
Context {T : Type}.

Definition new_LRUCache : LRUCache T := mkLRU ∅ [] DEFAULT_CAPABILITY 0.

(** [*it]; [None] for an iterator that points to no node of the list. *)
Fixpoint deref (it : nat) (l : list (nat * Node T)) : option (Node T) :=
  match l with
  | [] => None
  | (i, n) :: r => if (i =? it)%nat then Some n else deref it r
  end.

(** [nodeList_.erase(it)] *)
Fixpoint erase (it : nat) (l : list (nat * Node T)) : list (nat * Node T) :=
  match l with
  | [] => []
  | (i, n) :: r => if (i =? it)%nat then r else (i, n) :: erase it r
  end.

(** [it->value = v] *)
Fixpoint assign (it : nat) (v : list T) (l : list (nat * Node T)) : list (nat * Node T) :=
  match l with
  | [] => []
  | (i, n) :: r =>
      if (i =? it)%nat then (i, mkNode (key n) v) :: r else (i, n) :: assign it v r
  end.

Definition AddNode (c : LRUCache T) (node : Node T) : LRUCache T :=
  mkLRU (<[key node := fresh_ c]> (cache_ c)) ((fresh_ c, node) :: nodeList_ c)
    (capacity_ c) (S (fresh_ c)).

Definition MoveNodeToHead (c : LRUCache T) (it : nat) : LRUCache T :=
  match deref it (nodeList_ c) with
  | Some n =>
      mkLRU (<[key n := fresh_ c]> (cache_ c))
        ((fresh_ c, mkNode (key n) (value n)) :: erase it (nodeList_ c))
        (capacity_ c) (S (fresh_ c))
  | None => c
  end.

Definition EraseTailNode (c : LRUCache T) : LRUCache T :=
  match last (nodeList_ c) with
  | None => c
  | Some (_, node) =>
      mkLRU (delete (key node) (cache_ c)) (removelast (nodeList_ c)) (capacity_ c) (fresh_ c)
  end.

Definition Get (c : LRUCache T) (k : string) : list T * LRUCache T :=
  match cache_ c !! k with
  | None => ([], c)
  | Some it =>
      match deref it (nodeList_ c) with
      | None => ([], c)
      | Some n => (value n, MoveNodeToHead c it)
      end
  end.

Definition Put (c : LRUCache T) (k : string) (v : T) : LRUCache T :=
  match cache_ c !! k with
  | None =>
      let c := AddNode c (mkNode k [v]) in
      if bool_decide (capacity_ c < size (cache_ c))%nat then EraseTailNode c else c
  | Some it =>
      match deref it (nodeList_ c) with
      | None => c
      | Some n =>
          let c := mkLRU (cache_ c) (assign it (value n ++ [v]) (nodeList_ c))
                     (capacity_ c) (fresh_ c) in
          let c := MoveNodeToHead c it in
          if bool_decide (capacity_ c < size (cache_ c))%nat then EraseTailNode c else c
      end
  end.

Definition Delete (c : LRUCache T) (k : string) : LRUCache T :=
  match cache_ c !! k with
  | None => c
  | Some it => mkLRU (delete k (cache_ c)) (erase it (nodeList_ c)) (capacity_ c) (fresh_ c)
  end.

Definition Clear (c : LRUCache T) : LRUCache T := mkLRU ∅ [] (capacity_ c) (fresh_ c).

(** ** The specification: an association list, most recently used first *)

Abbreviation Recency := (list (string * list T)).

Definition forget (k : string) (l : Recency) : Recency := filter (fun p => p.1 <> k) l.

(** The values stored under a key; none when it is absent. *)
Fixpoint stored (k : string) (l : Recency) : list T :=
  match l with
  | [] => []
  | (k', vs) :: r => if decide (k' = k) then vs else stored k r
  end.

Definition spec_get (l : Recency) (k : string) : list T * Recency :=
  (stored k l, if decide (k ∈ l.*1) then (k, stored k l) :: forget k l else l).

Definition spec_put (n : nat) (l : Recency) (k : string) (v : T) : Recency :=
  take n ((k, stored k l ++ [v]) :: forget k l).

(** The content of a cache, in the order of the list. *)
Definition node_entry (p : nat * Node T) : string * list T := (key p.2, value p.2).
Definition recency (c : LRUCache T) : Recency := node_entry <$> nodeList_ c.

(** The map has one entry per node, keyed by the key of the node; no two nodes
    share an identity or a key. *)
Definition index (l : list (nat * Node T)) : list (string * nat) :=
  (fun p => (key p.2, p.1)) <$> l.

Record lru_shape (c : LRUCache T) : Prop := {
  inv_index : cache_ c = list_to_map (index (nodeList_ c));
  inv_keys : NoDup (index (nodeList_ c)).*1;
  inv_ids : NoDup (nodeList_ c).*1;
  inv_fresh : Forall (fun i => i < fresh_ c)%nat (nodeList_ c).*1 }.

Definition lru_inv (c : LRUCache T) : Prop :=
  lru_shape c /\ (length (nodeList_ c) <= capacity_ c)%nat.

End Operations.

(** ** The map and the list stay in step *)

Section Refinement.
Context {T : Type}.
Implicit Types (c : LRUCache T) (l : list (nat * Node T)).

Lemma index_keys l : (index l).*1 = (node_entry <$> l).*1.
Proof. unfold index, node_entry. rewrite <- !list_fmap_compose. by apply list_fmap_ext. Qed.

Lemma deref_split it l1 n l2 : it ∉ l1.*1 -> deref it (l1 ++ (it, n) :: l2) = Some n.
Proof.
  induction l1 as [|[i m] l1 IH]; simpl; intros H; [by rewrite Nat.eqb_refl|].
  apply not_elem_of_cons in H as [H1 H2]. rewrite (proj2 (Nat.eqb_neq i it)) by done. by apply IH.
Qed.

Lemma erase_split it l1 n l2 : it ∉ l1.*1 -> erase it (l1 ++ (it, n) :: l2) = l1 ++ l2.
Proof.
  induction l1 as [|[i m] l1 IH]; simpl; intros H; [by rewrite Nat.eqb_refl|].
  apply not_elem_of_cons in H as [H1 H2]. rewrite (proj2 (Nat.eqb_neq i it)) by done.
  by rewrite IH.
Qed.

Lemma assign_split it v l1 n l2 : it ∉ l1.*1 ->
  assign it v (l1 ++ (it, n) :: l2) = l1 ++ (it, mkNode (key n) v) :: l2.
Proof.
  induction l1 as [|[i m] l1 IH]; simpl; intros H; [by rewrite Nat.eqb_refl|].
  apply not_elem_of_cons in H as [H1 H2]. rewrite (proj2 (Nat.eqb_neq i it)) by done.
  by rewrite IH.
Qed.

(** A key of the map is the key of one node, at the position of its iterator. *)
Lemma cache_split c k it : lru_shape c -> cache_ c !! k = Some it ->
  exists l1 n l2, nodeList_ c = l1 ++ (it, n) :: l2 /\ key n = k /\
    it ∉ l1.*1 /\ k ∉ (node_entry <$> l1 ++ l2).*1.
Proof.
  intros [Hi Hk Hd _] H. rewrite Hi in H.
  apply elem_of_list_to_map_2, list_elem_of_fmap in H as ([i n] & E & Hin). simplify_eq/=.
  apply list_elem_of_split in Hin as (l1 & l2 & E). rewrite E in Hk, Hd |- *.
  exists l1, n, l2. split_and!; [done|done| |].
  - rewrite fmap_app in Hd. apply NoDup_app in Hd as (_ & Hd & _).
    intros Hin. apply (Hd _ Hin). left.
  - rewrite index_keys, !fmap_app, !fmap_cons in Hk. rewrite !fmap_app.
    simpl in Hk. rewrite <- Permutation_middle in Hk. by apply NoDup_cons in Hk as [Hk _].
Qed.

Lemma cache_None c k : lru_shape c -> cache_ c !! k = None <-> k ∉ (recency c).*1.
Proof.
  intros Hc. rewrite (inv_index c Hc). unfold recency. rewrite <- index_keys.
  split; [apply not_elem_of_list_to_map_2|apply not_elem_of_list_to_map_1].
Qed.

Lemma cache_size c : lru_shape c -> size (cache_ c) = length (nodeList_ c).
Proof.
  intros Hc. rewrite (inv_index c Hc).
  pose proof (inv_keys c Hc) as Hk. revert Hk. generalize (nodeList_ c) as l.
  induction l as [|p l IH]; intros Hk; simpl; [apply map_size_empty|].
  simpl in Hk. apply NoDup_cons in Hk as [Hn Hk].
  rewrite map_size_insert_None by (by apply not_elem_of_list_to_map_1).
  f_equal. by apply IH.
Qed.

Lemma forget_notin k (l : list (string * list T)) : k ∉ l.*1 -> forget k l = l.
Proof.
  induction l as [|[k' vs] l IH]; intros H; [done|].
  simpl in H. apply not_elem_of_cons in H as [H1 H2].
  unfold forget. rewrite filter_cons_True by (simpl; congruence). f_equal. by apply IH.
Qed.

Lemma forget_split k (l1 l2 : list (string * list T)) vs :
  k ∉ (l1 ++ l2).*1 -> forget k (l1 ++ (k, vs) :: l2) = l1 ++ l2.
Proof.
  rewrite fmap_app, not_elem_of_app. intros [H1 H2].
  unfold forget. rewrite filter_app, filter_cons_False by (simpl; tauto).
  f_equal; by apply forget_notin.
Qed.

Lemma stored_notin k (l : list (string * list T)) : k ∉ l.*1 -> stored k l = [].
Proof.
  induction l as [|[k' vs] l IH]; intros H; [done|]. simpl in H |- *.
  apply not_elem_of_cons in H as [H1 H2]. rewrite decide_False by congruence. by apply IH.
Qed.

Lemma stored_split k (l1 l2 : list (string * list T)) vs :
  k ∉ (l1 ++ l2).*1 -> stored k (l1 ++ (k, vs) :: l2) = vs.
Proof.
  rewrite fmap_app, not_elem_of_app. intros [H1 _].
  induction l1 as [|[k' vs'] l1 IH]; simpl; [by rewrite decide_True|].
  simpl in H1. apply not_elem_of_cons in H1 as [H0 H1]. rewrite decide_False by congruence. by apply IH.
Qed.

(** A list with one node taken out, as a permutation. *)
Lemma node_Permutation (it : nat) (n : Node T) l1 l2 : l1 ++ (it, n) :: l2 ≡ₚ (it, n) :: l1 ++ l2.
Proof. by rewrite Permutation_middle. Qed.

Lemma shape_Permutation l it n l1 l2 c :
  lru_shape c -> nodeList_ c = l1 ++ (it, n) :: l2 -> l = l1 ++ l2 ->
  cache_ c = <[key n := it]> (list_to_map (index l)) /\
  key n ∉ (index l).*1 /\ NoDup (index l).*1 /\ NoDup l.*1 /\ Forall (fun i => i < fresh_ c)%nat l.*1.
Proof.
  intros [Hi Hk Hd Hf] E ->. rewrite E in *.
  rewrite (list_to_map_proper _ (index ((it, n) :: l1 ++ l2))) in Hi
    by (done || apply fmap_Permutation, node_Permutation).
  rewrite index_keys, node_Permutation in Hk. rewrite node_Permutation in Hd, Hf. cbn in *.
  apply NoDup_cons in Hd as [_ Hd]. apply NoDup_cons in Hk as [Hn Hk]. apply Forall_cons in Hf as [_ Hf].
  by rewrite index_keys.
Qed.

(** Taking a node out of the list and its key out of the map. *)
Lemma shape_erase c it n l1 l2 :
  lru_shape c -> nodeList_ c = l1 ++ (it, n) :: l2 ->
  lru_shape (mkLRU (delete (key n) (cache_ c)) (l1 ++ l2) (capacity_ c) (fresh_ c)).
Proof.
  intros Hc E. destruct (shape_Permutation _ _ _ _ _ _ Hc E eq_refl) as (Hi & Hn & Hk & Hd & Hf).
  split; cbn; try done. rewrite Hi, delete_insert_id; [done|]. by apply not_elem_of_list_to_map_1.
Qed.

(** Putting a new node in front, for a key no other node has. *)
Lemma shape_cons c k v l :
  k ∉ (index l).*1 -> NoDup (index l).*1 -> NoDup l.*1 -> Forall (fun i => i < fresh_ c)%nat l.*1 ->
  lru_shape (mkLRU (<[k := fresh_ c]> (list_to_map (index l))) ((fresh_ c, mkNode k v) :: l)
    (capacity_ c) (S (fresh_ c))).
Proof.
  intros Hn Hk Hd Hf. split; cbn; [done|by apply NoDup_cons| |].
  - apply NoDup_cons. split; [|done]. intros Hin. rewrite Forall_forall in Hf. specialize (Hf _ Hin). lia.
  - apply Forall_cons. split; [lia|]. eapply Forall_impl; [exact Hf|]. simpl. lia.
Qed.

(** Moving a node to the front, with new values. *)
Lemma shape_head c it n l1 l2 v :
  lru_shape c -> nodeList_ c = l1 ++ (it, n) :: l2 ->
  lru_shape (mkLRU (<[key n := fresh_ c]> (cache_ c)) ((fresh_ c, mkNode (key n) v) :: l1 ++ l2)
             (capacity_ c) (S (fresh_ c))).
Proof.
  intros Hc E. destruct (shape_Permutation _ _ _ _ _ _ Hc E eq_refl) as (Hi & Hn & Hk & Hd & Hf).
  rewrite Hi, insert_insert_eq. by apply shape_cons.
Qed.

Lemma split_length (p : nat * Node T) l1 l2 : length (l1 ++ p :: l2) = S (length (l1 ++ l2)).
Proof. rewrite !length_app. simpl. lia. Qed.

Lemma recency_split c it n l1 l2 : nodeList_ c = l1 ++ (it, n) :: l2 ->
  recency c = (node_entry <$> l1) ++ (key n, value n) :: (node_entry <$> l2).
Proof. intros E. unfold recency. by rewrite E, fmap_app, fmap_cons. Qed.

Lemma Get_refines c k : lru_inv c ->
  lru_inv (Get c k).2 /\ spec_get (recency c) k = ((Get c k).1, recency (Get c k).2) /\
  capacity_ (Get c k).2 = capacity_ c.
Proof.
  intros [Hc Hs]. unfold Get, spec_get. destruct (cache_ c !! k) as [it|] eqn:E.
  - destruct (cache_split c k it Hc E) as (l1 & n & l2 & El & <- & Hit & Hkey).
    unfold MoveNodeToHead. rewrite El, deref_split, erase_split by done. cbn [fst snd].
    split_and!; [split; [by eapply shape_head|]| |done].
    + rewrite El, split_length in Hs. exact Hs.
    + rewrite (recency_split _ _ _ _ _ El). rewrite fmap_app in Hkey.
      rewrite stored_split, decide_True, forget_split; try done.
      * unfold recency. cbn. by rewrite fmap_app.
      * rewrite fmap_app, elem_of_app. right. left.
  - cbn [fst snd]. apply cache_None in E; [|done]. rewrite stored_notin, decide_False by done. done.
Qed.

Lemma Delete_refines c k : lru_inv c ->
  lru_inv (Delete c k) /\ recency (Delete c k) = forget k (recency c) /\
  capacity_ (Delete c k) = capacity_ c.
Proof.
  intros [Hc Hs]. unfold Delete. destruct (cache_ c !! k) as [it|] eqn:E.
  - destruct (cache_split c k it Hc E) as (l1 & n & l2 & El & <- & Hit & Hkey).
    rewrite El, erase_split by done. split_and!; [split; [by eapply shape_erase|]| |done].
    + rewrite El, split_length in Hs. cbn. lia.
    + rewrite (recency_split _ _ _ _ _ El). rewrite fmap_app in Hkey.
      rewrite forget_split by done. unfold recency. cbn. by rewrite fmap_app.
  - apply cache_None in E; [|done]. by rewrite forget_notin.
Qed.

Lemma Clear_refines c : lru_inv (Clear c) /\ recency (Clear c) = [] /\ capacity_ (Clear c) = capacity_ c.
Proof. split_and!; [|done|done]. split; [split|]; cbn; (done || constructor || lia). Qed.

(** One node too many: the last one goes. *)
Lemma EraseTail_refines c : lru_shape c -> length (nodeList_ c) = S (capacity_ c) ->
  lru_inv (EraseTailNode c) /\ recency (EraseTailNode c) = take (capacity_ c) (recency c) /\
  capacity_ (EraseTailNode c) = capacity_ c.
Proof.
  intros Hc Hl. unfold EraseTailNode.
  destruct (last (nodeList_ c)) as [[it n]|] eqn:E.
  2: { apply last_None in E. by rewrite E in Hl. }
  apply last_Some in E as [l1 E]. rewrite E in Hl |- *. rewrite length_app in Hl. simpl in Hl.
  rewrite removelast_last. split_and!; [split| |done].
  - rewrite <- (app_nil_r l1) at 1. by eapply shape_erase.
  - cbn. lia.
  - unfold recency. cbn. rewrite E, fmap_app, take_app_length'; [done|]. rewrite length_fmap. lia.
Qed.

Lemma Put_refines c k v : (0 < capacity_ c)%nat -> lru_inv c ->
  lru_inv (Put c k v) /\ recency (Put c k v) = spec_put (capacity_ c) (recency c) k v /\
  capacity_ (Put c k v) = capacity_ c.
Proof.
  intros H0 [Hc Hs]. unfold Put, spec_put. destruct (cache_ c !! k) as [it|] eqn:E.
  - destruct (cache_split c k it Hc E) as (l1 & n & l2 & El & <- & Hit & Hkey).
    unfold MoveNodeToHead. rewrite El, deref_split by done. cbn [nodeList_ cache_ capacity_ fresh_].
    rewrite assign_split, deref_split, erase_split by done. cbn [key value].
    pose proof (shape_head c it n l1 l2 (value n ++ [v]) Hc El) as Hh.
    rewrite (cache_size _ Hh). cbn [nodeList_ length capacity_] in *.
    rewrite El, split_length in Hs. rewrite bool_decide_false by lia.
    split_and!; [by split| |done].
    rewrite (recency_split _ _ _ _ _ El). rewrite fmap_app in Hkey.
    rewrite stored_split, forget_split by done. unfold recency. cbn. rewrite fmap_app.
    rewrite take_ge; [done|]. cbn. rewrite <- fmap_app, length_fmap. lia.
  - apply cache_None in E; [|done]. rewrite stored_notin, forget_notin by done. simpl app.
    unfold recency in E. rewrite <- index_keys in E. destruct Hc as [Hi Hk Hd Hf].
    pose proof (shape_cons c k [v] (nodeList_ c) E Hk Hd Hf) as Hh. rewrite <- Hi in Hh.
    unfold AddNode. cbn [key] in *.
    rewrite (cache_size _ Hh). case_bool_decide as Hc; cbn in Hc.
    + apply (EraseTail_refines _ Hh). cbn. lia.
    + split_and!; [split; [done|cbn; lia]| |done].
      unfold recency. cbn. rewrite take_ge; [done|]. cbn. rewrite length_fmap. lia.
Qed.

(** ** What is stored under each key *)

Definition entries c (k : string) : list T := stored k (recency c).

Lemma stored_forget k k' (l : list (string * list T)) :
  stored k (forget k' l) = if decide (k = k') then [] else stored k l.
Proof.
  induction l as [|[x vs] l IH]; [by case_decide|]. unfold forget in *. destruct (decide (x = k')) as [->|Hx].
  - rewrite filter_cons_False by (cbn; tauto). rewrite IH. cbn.
    repeat case_decide; (done || congruence).
  - rewrite filter_cons_True by done. cbn. rewrite IH. repeat case_decide; (done || congruence).
Qed.

(** Cutting the list loses keys as a whole. *)
Lemma stored_take n k (l : list (string * list T)) : stored k (take n l) = stored k l \/ stored k (take n l) = [].
Proof.
  revert n. induction l as [|[x vs] l IH]; intros n; [left; by destruct n|].
  destruct n as [|n]; [by right|]. cbn. case_decide; [by left|apply IH].
Qed.

Lemma Get_entries c k : lru_inv c -> (Get c k).1 = entries c k /\ forall k', entries (Get c k).2 k' = entries c k'.
Proof.
  intros Hc. destruct (Get_refines c k Hc) as (_ & Hr & _). unfold spec_get in Hr.
  injection Hr as H1 H2. split; [done|]. intros k'. unfold entries. rewrite <- H2.
  case_decide; [|done]. cbn. rewrite stored_forget. repeat case_decide; congruence.
Qed.

Lemma Delete_entries c k k' : lru_inv c -> entries (Delete c k) k' = if decide (k' = k) then [] else entries c k'.
Proof.
  intros Hc. destruct (Delete_refines c k Hc) as (_ & Hr & _). unfold entries. by rewrite Hr, stored_forget.
Qed.

Lemma Put_entries c k v : (0 < capacity_ c)%nat -> lru_inv c ->
  entries (Put c k v) k = entries c k ++ [v] /\
  forall k', k' <> k -> entries (Put c k v) k' = entries c k' \/ entries (Put c k v) k' = [].
Proof.
  intros H0 Hc. destruct (Put_refines c k v H0 Hc) as (_ & Hr & _). unfold entries. rewrite Hr.
  unfold spec_put. destruct (capacity_ c) as [|n]; [lia|]. cbn. split; [by rewrite decide_True|].
  intros k' Hk. rewrite decide_False by done.
  destruct (stored_take n k' (forget k (recency c))) as [->| ->]; [left|by right].
  rewrite stored_forget. by rewrite decide_False.
Qed.

(** The invariant bounds what is stored. *)
Lemma lru_inv_bounds c : lru_inv c ->
  (length (recency c) <= capacity_ c)%nat /\ size (cache_ c) = length (recency c).
Proof. intros [Hc Hs]. rewrite cache_size by done. unfold recency. by rewrite length_fmap. Qed.

Lemma new_lru_inv : lru_inv (new_LRUCache (T := T)).
Proof. split; [split|]; cbn; (done || lia || constructor). Qed.

End Refinement.

(** ** Sequences of operations *)

Inductive Op (T : Type) :=
  | OpGet (k : string)
  | OpPut (k : string) (v : T)
  | OpDelete (k : string)
  | OpClear.
Arguments OpGet {T} _.
Arguments OpPut {T} _ _.
Arguments OpDelete {T} _.
Arguments OpClear {T}.

Section Runs.
Context {T : Type}.

Definition exec (c : LRUCache T) (o : Op T) : list T * LRUCache T :=
  match o with
  | OpGet k => Get c k
  | OpPut k v => ([], Put c k v)
  | OpDelete k => ([], Delete c k)
  | OpClear => ([], Clear c)
  end.

Definition spec_exec (n : nat) (l : list (string * list T)) (o : Op T) : list T * list (string * list T) :=
  match o with
  | OpGet k => spec_get l k
  | OpPut k v => ([], spec_put n l k v)
  | OpDelete k => ([], forget k l)
  | OpClear => ([], [])
  end.

(** The results of the operations, in order, and the final state. *)
Fixpoint runs {S : Type} (step : S -> Op T -> list T * S) (s : S) (ops : list (Op T)) : list (list T) * S :=
  match ops with
  | [] => ([], s)
  | o :: r =>
      let (out, s) := step s o in
      let (outs, s) := runs step s r in (out :: outs, s)
  end.

Lemma exec_refines (c : LRUCache T) o : (0 < capacity_ c)%nat -> lru_inv c ->
  lru_inv (exec c o).2 /\
  spec_exec (capacity_ c) (recency c) o = ((exec c o).1, recency (exec c o).2) /\
  capacity_ (exec c o).2 = capacity_ c.
Proof.
  intros H0 Hc. destruct o as [k|k v|k|]; cbn [exec spec_exec fst snd].
  - by apply Get_refines.
  - destruct (Put_refines c k v H0 Hc) as (? & -> & ?). done.
  - destruct (Delete_refines c k Hc) as (? & -> & ?). done.
  - destruct (Clear_refines c) as (? & -> & ?). done.
Qed.

Lemma runs_refines ops : forall c : LRUCache T, (0 < capacity_ c)%nat -> lru_inv c ->
  lru_inv (runs exec c ops).2 /\
  runs (spec_exec (capacity_ c)) (recency c) ops = ((runs exec c ops).1, recency (runs exec c ops).2) /\
  capacity_ (runs exec c ops).2 = capacity_ c.
Proof.
  induction ops as [|o ops IH]; intros c H0 Hc; cbn [runs]; [done|].
  destruct (exec_refines c o H0 Hc) as (Hi & Hr & Hcap).
  destruct (exec c o) as [out c']. cbn [fst snd] in *. rewrite Hr.
  destruct (IH c') as (Hi' & Hr' & Hcap'); [by rewrite Hcap|done|]. rewrite Hcap in Hr', Hcap'.
  rewrite Hr'. by destruct (runs exec c' ops).
Qed.

(** ** What is kept

    [touched ops] are the keys the operations bring to the front. *)

Definition touches (o : Op T) : list string :=
  match o with OpGet k | OpPut k _ => [k] | _ => [] end.

(** The operation leaves the key [k] in the cache. *)
Definition spares (k : string) (o : Op T) : bool :=
  match o with OpDelete k' => bool_decide (k' <> k) | OpClear => false | _ => true end.

(** Before [k] in the list are only keys used after it. *)
Definition recent (k : string) (v : T) (used : gset string) (l : list (string * list T)) : Prop :=
  exists l1 vs l2, l = l1 ++ (k, vs) :: l2 /\ v ∈ vs /\ k ∉ (l1 ++ l2).*1 /\
    NoDup l1.*1 /\ list_to_set l1.*1 ⊆ used.

Lemma NoDup_used (l : list string) (used : gset string) : NoDup l -> list_to_set l ⊆ used ->
  (length l <= size used)%nat.
Proof.
  intros Hn Hs. rewrite <- (size_list_to_set (C := gset string) l) by done. by apply subseteq_size.
Qed.

Lemma forget_keys k' (l : list (string * list T)) : (forget k' l).*1 = filter (fun x => x <> k') l.*1.
Proof.
  induction l as [|[x vs] l IH]; [done|]. unfold forget in *. rewrite fmap_cons.
  destruct (decide (x = k')).
  - rewrite !filter_cons_False by (cbn; tauto). exact IH.
  - rewrite !filter_cons_True by done. rewrite fmap_cons. by f_equal.
Qed.

(** Using another key, or removing it, moves it out of the way. *)
Lemma recent_forget k v used l k' : k' <> k -> recent k v used l ->
  exists l1 vs l2, forget k' l = l1 ++ (k, vs) :: l2 /\ v ∈ vs /\ k ∉ (l1 ++ l2).*1 /\
    NoDup l1.*1 /\ list_to_set l1.*1 ⊆ used /\ k' ∉ l1.*1.
Proof.
  intros Hk (l1 & vs & l2 & -> & Hv & Hn & Hd & Hu).
  exists (forget k' l1), vs, (forget k' l2). split_and!.
  - unfold forget. by rewrite filter_app, filter_cons_True.
  - done.
  - rewrite fmap_app, not_elem_of_app, !forget_keys, !list_elem_of_filter.
    rewrite fmap_app, not_elem_of_app in Hn. tauto.
  - rewrite forget_keys. by apply NoDup_filter.
  - rewrite forget_keys. intros x. rewrite elem_of_list_to_set, list_elem_of_filter.
    intros [_ Hx]. apply Hu. by apply elem_of_list_to_set.
  - rewrite forget_keys, list_elem_of_filter. tauto.
Qed.

Lemma recent_weaken k v used used' l : used ⊆ used' -> recent k v used l -> recent k v used' l.
Proof.
  intros Hs (l1 & vs & l2 & ? & ? & ? & ? & ?). exists l1, vs, l2. split_and!; [done..|].
  by etrans.
Qed.

(** The key itself comes to the front. *)
Lemma recent_self k v used l ws : recent k v used l ->
  recent k v used ((k, stored k l ++ ws) :: forget k l).
Proof.
  intros (l1 & vs & l2 & -> & Hv & Hn & Hd & Hu).
  exists [], (vs ++ ws), (l1 ++ l2). rewrite stored_split, forget_split by done.
  split_and!; [done|by apply elem_of_app; left|done|constructor|set_solver].
Qed.

(** Another key comes to the front. *)
Lemma recent_other k v used l k' ws : k' <> k -> recent k v used l ->
  recent k v (used ∪ {[k']}) ((k', ws) :: forget k' l).
Proof.
  intros Hk H. destruct (recent_forget k v used l k' Hk H) as (l1 & vs & l2 & -> & Hv & Hn & Hd & Hu & Hk').
  exists ((k', ws) :: l1), vs, l2. split_and!; [done|done| | |].
  - cbn. by apply not_elem_of_cons.
  - cbn. by apply NoDup_cons.
  - cbn. set_solver.
Qed.

(** The end of the list is cut behind the key. *)
Lemma recent_take n k v used l : (size used < n)%nat -> recent k v used l -> recent k v used (take n l).
Proof.
  intros Hn (l1 & vs & l2 & -> & Hv & Hk & Hd & Hu).
  pose proof (NoDup_used _ _ Hd Hu) as Hl. rewrite length_fmap in Hl.
  exists l1, vs, (take (n - S (length l1)) l2). split_and!; try done.
  - rewrite take_app_ge by lia. f_equal. by replace (n - length l1)%nat with (S (n - S (length l1))) by lia.
  - rewrite fmap_app, not_elem_of_app in Hk |- *. destruct Hk as [Hk1 Hk2]. split; [done|].
    intros Hin. apply Hk2. rewrite fmap_take in Hin. by eapply subseteq_take.
Qed.

Lemma recent_step n k v used l o : spares k o = true -> recent k v used l ->
  (size (used ∪ list_to_set (touches o) ∖ {[k]}) < n)%nat ->
  recent k v (used ∪ list_to_set (touches o) ∖ {[k]}) (spec_exec n l o).2.
Proof.
  intros Hs H Hn.
  assert (Hw : forall l', recent k v used l' -> recent k v (used ∪ list_to_set (touches o) ∖ {[k]}) l').
  { intros l'. apply recent_weaken. set_solver. }
  assert (Ho : forall k' l', touches o = [k'] -> k' <> k -> recent k v (used ∪ {[k']}) l' ->
    recent k v (used ∪ list_to_set (touches o) ∖ {[k]}) l').
  { intros k' l' -> Hk. apply recent_weaken. set_solver. }
  destruct o as [k'|k' v'|k'|]; cbn [spec_exec spec_get spec_put snd] in *; [| | |done].
  - case_decide; [|by apply Hw]. destruct (decide (k' = k)) as [->|Hk].
    + apply Hw. rewrite <- (app_nil_r (stored k l)). by apply recent_self.
    + apply (Ho k'); [done..|]. by apply recent_other.
  - apply recent_take; [done|]. destruct (decide (k' = k)) as [->|Hk].
    + by apply Hw, recent_self.
    + apply (Ho k'); [done..|]. by apply recent_other.
  - cbn in Hs. case_bool_decide as Hk; [|done]. apply Hw.
    destruct (recent_forget k v used l k' Hk H) as (l1 & vs & l2 & -> & Hv & Hn' & Hd & Hu & Hk').
    by exists l1, vs, l2.
Qed.

(** The keys other than [k] that a sequence of operations uses. *)
Fixpoint others (k : string) (ops : list (Op T)) : gset string :=
  match ops with [] => ∅ | o :: r => list_to_set (touches o) ∖ {[k]} ∪ others k r end.

Lemma recent_runs n k v ops : forall used l, Forall (fun o => spares k o = true) ops -> recent k v used l ->
  (size (used ∪ others k ops) < n)%nat -> exists used', recent k v used' (runs (spec_exec n) l ops).2.
Proof.
  induction ops as [|o ops IH]; intros used l Hs H Hn; cbn [runs others] in *; [by exists used|].
  apply Forall_cons in Hs as [Ho Hs]. rewrite (assoc_L (∪)) in Hn.
  assert (H' : recent k v (used ∪ list_to_set (touches o) ∖ {[k]}) (spec_exec n l o).2).
  { apply recent_step; [done..|]. eapply Nat.le_lt_trans; [|exact Hn]. apply subseteq_size. set_solver. }
  destruct (spec_exec n l o) as [out l']. cbn [snd] in H'.
  destruct (IH _ _ Hs H' Hn) as [used' Hr]. exists used'. by destruct (runs (spec_exec n) l' ops).
Qed.

(** The value of a [Put] is in front, and a value in the list is found. *)
Lemma recent_put n k v l : (0 < n)%nat -> recent k v ∅ (spec_put n l k v).
Proof.
  intros Hn. unfold spec_put. apply recent_take; [by rewrite size_empty|].
  exists [], (stored k l ++ [v]), (forget k l). split_and!; [done| | |constructor|set_solver].
  - apply elem_of_app. right. left.
  - cbn. rewrite forget_keys, list_elem_of_filter. tauto.
Qed.

Lemma recent_stored k v used l : recent k v used l -> v ∈ stored k l.
Proof. intros (l1 & vs & l2 & -> & Hv & Hn & _). by rewrite stored_split. Qed.

Lemma runs_cons {S : Type} (step : S -> Op T -> list T * S) s o r :
  (runs step s (o :: r)).2 = (runs step (step s o).2 r).2.
Proof. cbn. destruct (step s o) as [out s']. cbn. by destruct (runs step s' r). Qed.

Lemma runs_app {S : Type} (step : S -> Op T -> list T * S) l : forall s r,
  (runs step s (l ++ r)).2 = (runs step (runs step s l).2 r).2.
Proof.
  induction l as [|o l IH]; intros s r; [done|]. rewrite <- app_comm_cons, !runs_cons. apply IH.
Qed.

(** C32: a cache behaves as an association list ordered by use, of which the
    capacity is cut off after each insertion: for every sequence of calls the
    values they return and the content afterwards are those of the
    specification; in particular at most 100 keys are ever stored. *)
Theorem LRUCache_refines (ops : list (Op T)) :
  let (outs, c) := runs exec new_LRUCache ops in
  runs (spec_exec DEFAULT_CAPABILITY) [] ops = (outs, recency c) /\
  size (cache_ c) = length (nodeList_ c) /\ (size (cache_ c) <= DEFAULT_CAPABILITY)%nat.
Proof.
  destruct (runs_refines ops new_LRUCache) as (Hi & Hr & Hc); [apply capability_pos|apply new_lru_inv|].
  destruct (runs exec new_LRUCache ops) as [outs c]. cbn [fst snd] in *.
  pose proof (lru_inv_bounds c Hi) as [Hb Hs]. unfold recency in Hs, Hb. rewrite length_fmap in Hs, Hb.
  change (capacity_ new_LRUCache) with DEFAULT_CAPABILITY in *. rewrite Hc in Hb. split_and!; [exact Hr|done|lia].
Qed.

(** A value that was put stays while fewer than 100 other keys are used and
    its key is not deleted: whatever the calls before and after, getting the
    key returns it. *)
Theorem recently_used_kept (before after : list (Op T)) k v :
  Forall (fun o => spares k o = true) after -> (size (others k after) < DEFAULT_CAPABILITY)%nat ->
  v ∈ (Get (runs exec new_LRUCache (before ++ OpPut k v :: after)).2 k).1.
Proof.
  intros Hs Hn. rewrite runs_app, runs_cons.
  destruct (runs_refines before new_LRUCache) as (Hi & _ & Hc); [apply capability_pos|apply new_lru_inv|].
  set (c0 := (runs exec new_LRUCache before).2) in *.
  assert (Hc0 : capacity_ c0 = DEFAULT_CAPABILITY) by (by rewrite Hc).
  destruct (exec_refines c0 (OpPut k v)) as (Hi1 & Hr1 & Hc1); [rewrite Hc0; apply capability_pos|done|].
  set (c1 := (exec c0 (OpPut k v)).2) in *. rewrite Hc0 in Hr1, Hc1.
  destruct (runs_refines after c1) as (Hi2 & Hr2 & _); [rewrite Hc1; apply capability_pos|done|].
  rewrite Hc1 in Hr2. set (c2 := (runs exec c1 after).2) in *.
  assert (Hp : recent k v ∅ (recency c1)).
  { apply (f_equal snd) in Hr1. cbn [snd] in Hr1. rewrite <- Hr1. apply recent_put, capability_pos. }
  destruct (recent_runs DEFAULT_CAPABILITY k v after ∅ (recency c1)) as [used Hf]; [done|done|by rewrite union_empty_l_L|].
  rewrite Hr2 in Hf. cbn [snd] in Hf.
  destruct (Get_refines c2 k Hi2) as (_ & Hg & _). apply (f_equal fst) in Hg. cbn [fst] in Hg. rewrite <- Hg.
  by eapply recent_stored.
Qed.

End Runs.

Lemma recently_used_kept_witness :
  5 ∈ (Get (runs exec new_LRUCache ([OpPut "a" 1] ++ OpPut "b" 5 :: [OpPut "a" 2; OpGet "c"]))%string.2 "b").1.
Proof.
  apply (recently_used_kept [OpPut "a" 1]%string [OpPut "a" 2; OpGet "c"]%string "b" 5).
  - by repeat constructor.
  - vm_compute. lia.
Defined.
End LruCache.
