(* ===== verification/DelayedQueue.v ===== *)
(** * The delayed queue (utils/common_utils/include/delayed_queue.h)

    [DelayedQueue<T, ARRAY_SIZE, DELAYED_COUNT>] is a timer wheel: a ring of
    [ARRAY_SIZE + DELAYED_COUNT] slots, a current slot that a thread empties and
    leaves once per second, and for each element its slot and the delay left
    after the slot is reached.  Elements are [shared_ptr]s compared by the object
    they own, here the identity of that object; the two methods of [T] the queue
    calls are the class [DelayedTask] over a state [E] they may change.

    The ring refines a table from elements to remaining seconds ([dues]): an
    element is executed exactly when its delay has passed ([RunSlot_refines],
    [Advance_dues], [Put_dues]). *)

From S2P Require Import Prelude.

Module DelayedQueue.

Record elemParam := mkParam { index : Z; delayTime : Z }.

(** [elem->Execute()] and [elem->GetUpdateTime()]. *)
Class DelayedTask (E : Type) := {
  Execute : nat -> E -> E;
  GetUpdateTime : nat -> E -> Z * E }.

(** [waiting_] is where the thread is: in [wait_for], after it emptied the slot, or
    before it takes the mutex to empty it. *)
Record DelayedQueue := mkQueue {
  index_ : Z;
  elems_ : gmap Z (gset nat);
  indexMap_ : gmap nat elemParam;
  waiting_ : bool }.

Section Queue.
Context (ARRAY_SIZE DELAYED_COUNT : Z).

Definition new_DelayedQueue : DelayedQueue := mkQueue 0 ∅ ∅ false.

Definition ring : Z := ARRAY_SIZE + DELAYED_COUNT.

Definition UpdateDelayTime (q : DelayedQueue) (delay : Z) (elem : nat) : DelayedQueue :=
  let newParam :=
    if DELAYED_COUNT <? delay
    then mkParam ((index_ q + DELAYED_COUNT) mod ring) (delay - DELAYED_COUNT)
    else mkParam (u32 (index_ q + delay) mod ring) 0 in
  mkQueue (index_ q)
    (<[index newParam := {[elem]} ∪ elems_ q !!! index newParam]> (elems_ q))
    (<[elem := newParam]> (indexMap_ q)) (waiting_ q).

(** An element that is put again leaves its slot. *)
Definition LeaveSlot (q : DelayedQueue) (elem : nat) : DelayedQueue :=
  match indexMap_ q !! elem with
  | Some p =>
      if (index p <? ring) && bool_decide (elem ∈ elems_ q !!! index p)
      then mkQueue (index_ q) (<[index p := elems_ q !!! index p ∖ {[elem]}]> (elems_ q))
             (indexMap_ q) (waiting_ q)
      else q
  | None => q
  end.

(** [Put(elem)] *)
Definition PutDefault (q : DelayedQueue) (elem : nat) : DelayedQueue :=
  UpdateDelayTime (LeaveSlot q elem) DELAYED_COUNT elem.

(** [Put(elem, delayTime)] *)
Definition Put (q : DelayedQueue) (elem : nat) (delay : Z) : DelayedQueue :=
  if delay =? 0 then q else UpdateDelayTime (LeaveSlot q elem) delay elem.

Section Thread.
Context {E : Type} `{DelayedTask E}.

(** [indexMap_[elem]] creates an empty parameter when there is none. *)
Definition ExecuteElem (qe : DelayedQueue * E) (elem : nat) : DelayedQueue * E :=
  let (q, env) := qe in
  let oldParam := default (mkParam 0 0) (indexMap_ q !! elem) in
  if negb (delayTime oldParam =? 0) then (UpdateDelayTime q (delayTime oldParam) elem, env)
  else
    let env := Execute elem env in
    let (updateTime, env) := GetUpdateTime elem env in
    if 0 <? updateTime then (UpdateDelayTime q updateTime elem, env)
    else (mkQueue (index_ q) (elems_ q) (delete elem (indexMap_ q)) (waiting_ q), env).

(** One pass over the current slot.  The set is ordered by the addresses of the
    objects, so the order of the elements is not known. *)
Definition RunSlot (order : list nat) (q : DelayedQueue) (env : E) : DelayedQueue * E :=
  let (q, env) := foldl ExecuteElem (q, env) order in
  (mkQueue (index_ q) (<[index_ q := ∅]> (elems_ q)) (indexMap_ q) true, env).

End Thread.

(** A second has passed. *)
Definition Advance (q : DelayedQueue) : DelayedQueue :=
  mkQueue ((index_ q + 1) mod ring) (elems_ q) (indexMap_ q) false.

(** ** The seconds that remain *)

Definition due (q : DelayedQueue) (p : elemParam) : Z := (index p - index_ q) mod ring + delayTime p.
Definition dues (q : DelayedQueue) : gmap nat Z := due q <$> indexMap_ q.

Record queue_inv (q : DelayedQueue) : Prop := {
  inv_index : 0 <= index_ q < ring;
  inv_param : forall e p, indexMap_ q !! e = Some p -> 0 <= index p < ring /\ 0 <= delayTime p < 2 ^ 32;
  inv_slot : forall e i, e ∈ elems_ q !!! i <-> exists p, indexMap_ q !! e = Some p /\ index p = i;
  inv_waiting : waiting_ q = true -> forall e p, indexMap_ q !! e = Some p -> index p <> index_ q }.

Hypothesis array_pos : 0 < ARRAY_SIZE.
Hypothesis count_pos : 0 < DELAYED_COUNT.
Hypothesis ring_u32 : ring < 2 ^ 31.

Lemma ring_pos : 0 < ring.
Proof. unfold ring. lia. Qed.

(** The slot and the rest of a delay, and that they add up to it. *)
Definition new_param (q : DelayedQueue) (delay : Z) : elemParam :=
  mkParam ((index_ q + Z.min delay DELAYED_COUNT) mod ring) (Z.max 0 (delay - DELAYED_COUNT)).

Lemma UpdateDelayTime_eq q delay e : 0 <= index_ q < ring -> 0 < delay ->
  UpdateDelayTime q delay e =
  mkQueue (index_ q) (<[index (new_param q delay) := {[e]} ∪ elems_ q !!! index (new_param q delay)]> (elems_ q))
    (<[e := new_param q delay]> (indexMap_ q)) (waiting_ q).
Proof.
  intros Hi Hd. unfold UpdateDelayTime, new_param, ring in *. cbn [index].
  destruct (Z.ltb_spec DELAYED_COUNT delay).
  - rewrite Z.min_r, Z.max_r by lia. done.
  - rewrite Z.min_l, Z.max_l by lia. rewrite wrap_small; [done|]. unfold in_width. lia.
Qed.

(** Distances on the ring. *)
Lemma ring_distance i d : 0 <= d < ring -> ((i + d) mod ring - i) mod ring = d.
Proof.
  intros Hd. rewrite Zminus_mod_idemp_l. replace (i + d - i) with d by lia. by apply Z.mod_small.
Qed.

Lemma new_param_due q delay : 0 < delay -> due q (new_param q delay) = delay.
Proof.
  intros Hd. unfold due, new_param, ring in *. cbn [index delayTime].
  rewrite ring_distance by (unfold ring; lia). lia.
Qed.

Lemma new_param_range q delay : 0 < delay < 2 ^ 32 ->
  0 <= index (new_param q delay) < ring /\ 0 <= delayTime (new_param q delay) < 2 ^ 32.
Proof.
  intros Hd. unfold new_param. cbn. pose proof ring_pos.
  pose proof (Z.mod_pos_bound (index_ q + Z.min delay DELAYED_COUNT) ring). lia.
Qed.

(** A new delay never goes to the current slot: the ring is longer than a hop. *)
Lemma new_param_other q delay : 0 <= index_ q < ring -> 0 < delay -> index (new_param q delay) <> index_ q.
Proof.
  intros Hi Hd E. pose proof (ring_distance (index_ q) (Z.min delay DELAYED_COUNT)) as H.
  unfold new_param in E. cbn in E. rewrite E, Z.sub_diag, Z.mod_0_l in H; unfold ring in *; lia.
Qed.

(** At the current slot the distance is 0, elsewhere it is not. *)
Lemma distance_zero i j : 0 <= i < ring -> 0 <= j < ring -> (i - j) mod ring = 0 <-> i = j.
Proof.
  intros Hi Hj. split; [|intros ->; by rewrite Z.sub_diag, Z.mod_0_l by lia].
  intros H. destruct (Z_lt_le_dec i j).
  - rewrite <- (Z.mod_unique (i - j) ring (-1) (i - j + ring)) in H by lia. lia.
  - rewrite Z.mod_small in H by lia. lia.
Qed.

Lemma lookup_total_insert_case (m : gmap Z (gset nat)) i j s :
  <[i := s]> m !!! j = if decide (i = j) then s else m !!! j.
Proof. case_decide as D; [subst; by rewrite lookup_total_insert_eq|by rewrite lookup_total_insert_ne]. Qed.

Lemma LeaveSlot_elems q e : queue_inv q -> forall e' i,
  e' ∈ elems_ (LeaveSlot q e) !!! i <-> e' <> e /\ e' ∈ elems_ q !!! i.
Proof.
  intros Hq e' i. unfold LeaveSlot. destruct (indexMap_ q !! e) as [p|] eqn:E.
  - destruct (inv_param q Hq _ _ E) as [Hp _].
    assert (Hin : e ∈ elems_ q !!! index p) by (apply inv_slot; eauto).
    rewrite (proj2 (Z.ltb_lt _ _)), bool_decide_true by (done || lia). cbn [andb elems_].
    rewrite lookup_total_insert_case. case_decide as D; [subst; set_solver|].
    split; [|tauto]. intros H. split; [|done]. intros ->. apply inv_slot in H as (p' & E' & <-); [|done].
    congruence.
  - split; [|tauto]. intros H. split; [|done]. intros ->. apply inv_slot in H as (p' & E' & _); [|done].
    congruence.
Qed.

Lemma LeaveSlot_rest q e : index_ (LeaveSlot q e) = index_ q /\
  indexMap_ (LeaveSlot q e) = indexMap_ q /\ waiting_ (LeaveSlot q e) = waiting_ q.
Proof. unfold LeaveSlot. by repeat case_match. Qed.

Lemma Put_dues q e delay : queue_inv q -> 0 < delay < 2 ^ 32 ->
  queue_inv (Put q e delay) /\ dues (Put q e delay) = <[e := delay]> (dues q) /\
  waiting_ (Put q e delay) = waiting_ q.
Proof.
  intros Hq Hd. unfold Put. rewrite (proj2 (Z.eqb_neq delay 0)) by lia.
  pose proof (LeaveSlot_elems q e Hq) as Hl. destruct (LeaveSlot_rest q e) as (Ei & Em & Ew).
  pose proof (inv_index q Hq) as Hi. rewrite UpdateDelayTime_eq by (rewrite ?Ei; lia || done).
  set (p := new_param (LeaveSlot q e) delay).
  assert (Ep : p = new_param q delay) by (unfold p, new_param; by rewrite Ei).
  clearbody p. subst p. rewrite Ei, Em, Ew. split_and!; [|unfold dues; cbn|done].
  - split; cbn; [done| | |].
    + intros e' p H. apply lookup_insert_Some in H as [[<- <-]|[_ H]]; [by apply new_param_range|].
      by eapply inv_param.
    + intros e' i. rewrite lookup_total_insert_case. split.
      * case_decide as D; rewrite ?elem_of_union, ?elem_of_singleton, Hl.
        -- intros [->|[Hn He]]; [exists (new_param q delay); by rewrite lookup_insert_eq|].
           rewrite lookup_insert_ne by done. by apply inv_slot; subst i.
        -- intros [Hn He]. rewrite lookup_insert_ne by done. by apply inv_slot.
      * intros (p & H & <-). apply lookup_insert_Some in H as [[<- <-]|[Hn H]].
        -- rewrite decide_True by done. set_solver.
        -- assert (e' ∈ elems_ q !!! index p) by (apply inv_slot; eauto).
           case_decide as D; rewrite ?elem_of_union, Hl; rewrite ?D; auto.
    + intros Hw e' p H. apply lookup_insert_Some in H as [[<- <-]|[_ H]]; [apply new_param_other; lia || done|].
      by eapply inv_waiting.
  - rewrite fmap_insert. f_equal.
    transitivity (due q (new_param q delay)); [done|]. apply new_param_due. lia.
Qed.

Lemma Advance_dues q : queue_inv q -> waiting_ q = true ->
  queue_inv (Advance q) /\ dues (Advance q) = Z.pred <$> dues q.
Proof.
  intros Hq Hw. pose proof ring_pos. pose proof (inv_index q Hq) as Hi. split.
  - split; cbn; [apply Z.mod_pos_bound; lia|by apply inv_param|by apply inv_slot|done].
  - unfold dues. rewrite <- map_fmap_compose. apply map_fmap_ext. intros e p Hp. cbn. unfold due. cbn.
    destruct (inv_param q Hq _ _ Hp) as [Hpi _]. pose proof (inv_waiting q Hq Hw _ _ Hp) as Hne.
    rewrite Zminus_mod_idemp_r. replace (index p - (index_ q + 1)) with (index p - index_ q - 1) by lia.
    pose proof (distance_zero (index p) (index_ q) Hpi Hi) as Hz.
    rewrite <- Zminus_mod_idemp_l, (Z.mod_small ((index p - index_ q) mod ring - 1)); [lia|].
    pose proof (Z.mod_pos_bound (index p - index_ q) ring). lia.
Qed.

Lemma dues_range q e n : queue_inv q -> dues q !! e = Some n -> 0 <= n < 2 ^ 33.
Proof.
  intros Hq H. unfold dues in H. rewrite lookup_fmap, fmap_Some in H. destruct H as (p & Hp & ->).
  destruct (inv_param q Hq _ _ Hp) as [_ Hd]. unfold due. pose proof ring_pos.
  pose proof (Z.mod_pos_bound (index p - index_ q) ring). lia.
Qed.

Lemma dues_waiting q e n : queue_inv q -> waiting_ q = true -> dues q !! e = Some n -> 0 < n.
Proof.
  intros Hq Hw H. unfold dues in H. rewrite lookup_fmap, fmap_Some in H. destruct H as (p & Hp & ->).
  destruct (inv_param q Hq _ _ Hp) as [Hi Hd]. unfold due. pose proof ring_pos.
  pose proof (distance_zero (index p) (index_ q) Hi (inv_index q Hq)) as Hz.
  pose proof (inv_waiting q Hq Hw _ _ Hp). pose proof (Z.mod_pos_bound (index p - index_ q) ring). lia.
Qed.

Lemma new_queue_inv : queue_inv new_DelayedQueue.
Proof.
  pose proof ring_pos. split; cbn; [lia|by setoid_rewrite lookup_empty| |done].
  intros e i. rewrite lookup_total_empty. split; [set_solver|]. intros (p & Hp & _).
  by rewrite lookup_empty in Hp.
Qed.

(** ** Emptying a slot

    In terms of the remaining seconds: each element whose time is up is executed
    once, and starts again with the time it asks for, or leaves. *)

Section Thread.
Context {E : Type} `{DelayedTask E}.

Definition fire (me : gmap nat Z * E) (elem : nat) : gmap nat Z * E :=
  let (m, env) := me in
  if decide (m !! elem = Some 0) then
    let env := Execute elem env in
    let (t, env) := GetUpdateTime elem env in
    (if 0 <? t then <[elem := t]> m else delete elem m, env)
  else (m, env).

(** The states in which the tasks ask for times that fit 32 bits. *)
Context (I : E -> Prop).
Hypothesis execute_ok : forall e env, I env -> I (Execute e env).
Hypothesis update_ok : forall e env, I env ->
  I (GetUpdateTime e env).2 /\ 0 <= (GetUpdateTime e env).1 < 2 ^ 32.

(** In the middle of a pass: [rest] are the elements still to come; those done are
    still in the current slot and already in their new one. *)
Record pass_inv (rest : list nat) (q : DelayedQueue) : Prop := {
  pass_index : 0 <= index_ q < ring;
  pass_param : forall e p, indexMap_ q !! e = Some p -> 0 <= index p < ring /\ 0 <= delayTime p < 2 ^ 32;
  pass_slot : forall e i, i <> index_ q ->
    e ∈ elems_ q !!! i <-> exists p, indexMap_ q !! e = Some p /\ index p = i;
  pass_rest : forall e, e ∈ rest <-> exists p, indexMap_ q !! e = Some p /\ index p = index_ q }.

Lemma pass_update q e rest delay : e ∉ rest -> pass_inv (e :: rest) q -> 0 < delay < 2 ^ 32 ->
  pass_inv rest (UpdateDelayTime q delay e) /\
  dues (UpdateDelayTime q delay e) = <[e := delay]> (dues q).
Proof.
  intros Hn Hq Hd. pose proof (pass_index _ q Hq) as Hi. rewrite UpdateDelayTime_eq by lia.
  pose proof (new_param_other q delay Hi) as Ho. pose proof (new_param_range q delay Hd) as Hr.
  pose proof (proj1 (pass_rest _ _ Hq e)) as (pe & Hpe & Hie); [left|].
  split; [split; cbn|unfold dues; cbn].
  - done.
  - intros e' p Hp. apply lookup_insert_Some in Hp as [[<- <-]|[_ Hp]]; [done|]. by eapply pass_param.
  - intros e' i Hne. pose proof (pass_slot _ _ Hq e' i Hne) as Hs.
    rewrite lookup_total_insert_case. destruct (decide (e = e')) as [<-|Hee].
    + rewrite lookup_insert_eq. case_decide as D.
      * split; [intros _; by exists (new_param q delay)|set_solver].
      * split; [|intros (p & ? & ?); by simplify_eq].
        intros Hin. apply Hs in Hin as (p & ? & ?). congruence.
    + rewrite lookup_insert_ne by done. rewrite <- Hs. case_decide as D; [|done].
      change ((index_ q + Z.min delay DELAYED_COUNT) mod ring) with (index (new_param q delay)) in *.
      rewrite elem_of_union, elem_of_singleton, D. split; [intros [->|?]; done|auto].
  - intros e'. pose proof (pass_rest _ _ Hq e') as Hs. rewrite elem_of_cons in Hs.
    destruct (decide (e = e')) as [<-|Hee].
    + rewrite lookup_insert_eq. split; [done|]. intros (p & ? & E'). simplify_eq. exfalso. apply Ho; [lia|done].
    + rewrite lookup_insert_ne by done. rewrite <- Hs. split; [auto|]. intros [->|?]; done.
  - rewrite fmap_insert. f_equal. transitivity (due q (new_param q delay)); [done|]. apply new_param_due. lia.
Qed.

Lemma pass_leave q e rest : e ∉ rest -> pass_inv (e :: rest) q ->
  pass_inv rest (mkQueue (index_ q) (elems_ q) (delete e (indexMap_ q)) (waiting_ q)) /\
  dues (mkQueue (index_ q) (elems_ q) (delete e (indexMap_ q)) (waiting_ q)) = delete e (dues q).
Proof.
  intros Hn Hq. pose proof (proj1 (pass_rest _ _ Hq e)) as (pe & Hpe & Hie); [left|].
  split; [split; cbn|unfold dues; cbn; by rewrite fmap_delete].
  - by eapply pass_index.
  - intros e' p Hp. apply lookup_delete_Some in Hp as [_ Hp]. by eapply pass_param.
  - intros e' i Hne. rewrite (pass_slot _ _ Hq e' i Hne). split.
    + intros (p & Hp & Ep). exists p. rewrite lookup_delete_ne; [done|]. intros <-. congruence.
    + intros (p & Hp & Ep). apply lookup_delete_Some in Hp as [_ Hp]. eauto.
  - intros e'. pose proof (pass_rest _ _ Hq e') as Hs. rewrite elem_of_cons in Hs.
    destruct (decide (e = e')) as [<-|Hee].
    + rewrite lookup_delete_eq. split; [done|]. by intros (? & ? & _).
    + rewrite lookup_delete_ne by done. rewrite <- Hs. split; [auto|]. intros [->|?]; done.
Qed.

Lemma ExecuteElem_fire q e rest env : e ∉ rest -> pass_inv (e :: rest) q -> I env ->
  pass_inv rest (ExecuteElem (q, env) e).1 /\ I (ExecuteElem (q, env) e).2 /\
  fire (dues q, env) e = (dues (ExecuteElem (q, env) e).1, (ExecuteElem (q, env) e).2).
Proof.
  intros Hn Hq HI. pose proof (proj1 (pass_rest _ _ Hq e)) as (p & Hp & Hi); [left|].
  destruct (pass_param _ _ Hq _ _ Hp) as [_ Hd].
  assert (Hdue : dues q !! e = Some (delayTime p)).
  { unfold dues. rewrite lookup_fmap, Hp. cbn. unfold due. rewrite Hi, Z.sub_diag, Z.mod_0_l; [done|].
    pose proof ring_pos. lia. }
  unfold ExecuteElem, fire. rewrite Hp. cbn [default from_option id]. destruct (Z.eqb_spec (delayTime p) 0) as [E0|E0]; cbn [negb].
  - rewrite decide_True by (rewrite Hdue; congruence).
    destruct (update_ok e _ (execute_ok e env HI)) as [HI' Ht].
    destruct (GetUpdateTime e (Execute e env)) as [t env']. cbn [fst snd] in Ht, HI'. destruct (Z.ltb_spec 0 t); cbn [fst snd].
    + destruct (pass_update q e rest t) as [? ->]; (done || lia).
    + destruct (pass_leave q e rest) as [? ->]; done.
  - rewrite decide_False by (rewrite Hdue; congruence). cbn [fst snd].
    destruct (pass_update q e rest (delayTime p)) as [? ->]; [done|done|lia|].
    split_and!; [done|done|]. by rewrite insert_id.
Qed.

Lemma pass_fires order : forall q env, NoDup order -> pass_inv order q -> I env ->
  pass_inv [] (foldl ExecuteElem (q, env) order).1 /\ I (foldl ExecuteElem (q, env) order).2 /\
  foldl fire (dues q, env) order =
    (dues (foldl ExecuteElem (q, env) order).1, (foldl ExecuteElem (q, env) order).2).
Proof.
  induction order as [|e order IH]; intros q env Hn Hq HI; [done|]. cbn [foldl].
  apply NoDup_cons in Hn as [Hn Ho]. destruct (ExecuteElem_fire q e order env Hn Hq HI) as (Hq' & HI' & ->).
  destruct (ExecuteElem (q, env) e) as [q' env']. by apply IH.
Qed.

(** Elements whose time is up are all in the current slot. *)
Lemma due_now q e : queue_inv q -> dues q !! e = Some 0 -> e ∈ elems_ q !!! index_ q.
Proof.
  intros Hq Hd. unfold dues in Hd. rewrite lookup_fmap, fmap_Some in Hd. destruct Hd as (p & Hp & E0).
  destruct (inv_param q Hq _ _ Hp) as [Hi Ht]. unfold due in E0. pose proof ring_pos.
  pose proof (Z.mod_pos_bound (index p - index_ q) ring).
  apply inv_slot; [done|]. exists p. split; [done|].
  apply (distance_zero (index p) (index_ q)); [done|apply Hq|lia].
Qed.

Lemma RunSlot_refines q order env : queue_inv q -> I env -> order ≡ₚ elements (elems_ q !!! index_ q) ->
  queue_inv (RunSlot order q env).1 /\ waiting_ (RunSlot order q env).1 = true /\ I (RunSlot order q env).2 /\
  foldl fire (dues q, env) order = (dues (RunSlot order q env).1, (RunSlot order q env).2).
Proof.
  intros Hq HI Ho.
  assert (Hn : NoDup order) by (rewrite Ho; apply NoDup_elements).
  assert (Hp : pass_inv order q).
  { split; [apply Hq|apply Hq|intros; by apply inv_slot|].
    intros e. rewrite Ho, elem_of_elements. by apply inv_slot. }
  destruct (pass_fires order q env Hn Hp HI) as (Hp' & HI' & Hf). unfold RunSlot.
  destruct (foldl ExecuteElem (q, env) order) as [q' env']. cbn [fst snd] in *. split_and!; [|done..].
  split; cbn.
  - apply Hp'.
  - apply Hp'.
  - intros e i. rewrite lookup_total_insert_case. case_decide as D; [|by apply (pass_slot _ _ Hp')].
    pose proof (pass_rest _ _ Hp' e) as Hr. rewrite D in Hr. rewrite <- Hr. set_solver.
  - intros _ e p He Ei. apply (not_elem_of_nil e). apply (pass_rest _ _ Hp'). eauto.
Qed.

(** One element at a time: a pass concerns an element once, when its time is up. *)
Lemma fire_other me e e' : e' <> e -> (fire me e').1 !! e = me.1 !! e.
Proof.
  intros He. destruct me as [m env]. unfold fire. case_decide; [|done].
  destruct (GetUpdateTime e' (Execute e' env)) as [t env']. cbn.
  case_match; [by rewrite lookup_insert_ne|by rewrite lookup_delete_ne].
Qed.

Lemma fires_other order e : forall me, e ∉ order -> (foldl fire me order).1 !! e = me.1 !! e.
Proof.
  induction order as [|e' order IH]; intros me Hn; [done|]. cbn.
  apply not_elem_of_cons in Hn as [Hn Ho]. rewrite IH by done. by apply fire_other.
Qed.

(** A second of the thread: the current slot moves on and is emptied. *)
Definition second (s s' : DelayedQueue * E) : Prop :=
  exists order, order ≡ₚ elements (elems_ (Advance s.1) !!! index_ (Advance s.1)) /\
    RunSlot order (Advance s.1) s.2 = s'.

(** The thread always gets on: one of the orders is that of [elements]. *)
Definition tick (s : DelayedQueue * E) : DelayedQueue * E :=
  RunSlot (elements (elems_ (Advance s.1) !!! index_ (Advance s.1))) (Advance s.1) s.2.

Lemma nsteps_tick n s : nsteps second n s (Nat.iter n tick s).
Proof.
  induction n as [|n IH]; [constructor|]. cbn. eapply nsteps_r; [exact IH|]. by eexists.
Qed.

Lemma second_refines s s' : queue_inv s.1 -> waiting_ s.1 = true -> I s.2 -> second s s' ->
  queue_inv s'.1 /\ waiting_ s'.1 = true /\ I s'.2 /\ exists order, NoDup order /\
    (forall e, (Z.pred <$> dues s.1) !! e = Some 0 -> e ∈ order) /\
    foldl fire (Z.pred <$> dues s.1, s.2) order = (dues s'.1, s'.2).
Proof.
  intros Hq Hw HI (order & Ho & <-). destruct (Advance_dues _ Hq Hw) as [Ha <-].
  destruct (RunSlot_refines _ order s.2 Ha HI Ho) as (Hi & Hw' & HI' & Hf). split_and!; [done|done|done|].
  exists order. split_and!; [rewrite Ho; apply NoDup_elements| |done].
  intros e He. rewrite Ho. apply elem_of_elements. by apply due_now.
Qed.

End Thread.

(** ** Delays are exact

    Tasks that write their execution down and do not start again. *)

#[local] Instance logged : DelayedTask (list nat) := {
  Execute e log := e :: log;
  GetUpdateTime _ log := (0, log) }.

Lemma logged_ok e log : True -> True /\ 0 <= (GetUpdateTime e log).1 < 2 ^ 32.
Proof. cbn. lia. Qed.

Definition times (e : nat) (log : list nat) : nat := length (filter (eq e) log).

Lemma fire_logged m log e' : fire (m, log) e' =
  if decide (m !! e' = Some 0) then (delete e' m, e' :: log) else (m, log).
Proof. done. Qed.

Lemma times_cons e e' log : times e (e' :: log) = ((if decide (e = e') then 1 else 0) + times e log)%nat.
Proof. unfold times. rewrite filter_cons. by case_decide. Qed.

Lemma fires_logged order e : forall m log, NoDup order ->
  let n := if decide (m !! e = Some 0 /\ e ∈ order) then 1%nat else 0%nat in
  times e (foldl fire (m, log) order).2 = (n + times e log)%nat /\
  (foldl fire (m, log) order).1 !! e = (if decide (m !! e = Some 0 /\ e ∈ order) then None else m !! e).
Proof.
  induction order as [|e' order IH]; intros m log Hn.
  - cbn zeta. rewrite !decide_False by set_solver. done.
  - apply NoDup_cons in Hn as [Hn Ho]. cbn [foldl]. cbn zeta in *. rewrite fire_logged.
    destruct (decide (e = e')) as [<-|He].
    + destruct (decide (m !! e = Some 0)) as [D|D].
      * assert (D' : m !! e = Some 0 /\ e ∈ e :: order) by (split; [done|left]).
        destruct (IH (delete e m) (e :: log) Ho) as [IH1 IH2]. rewrite IH1, IH2, lookup_delete_eq.
        rewrite !decide_False by (intros [? _]; congruence). rewrite times_cons.
        rewrite (decide_True (P := e = e)), (decide_True (A := option Z) _ _ D'), (decide_True _ _ D') by done. done.
      * destruct (IH m log Ho) as [IH1 IH2]. by rewrite IH1, IH2, !decide_False by tauto.
    + assert (Hm : (m !! e = Some 0 /\ e ∈ order) <-> (m !! e = Some 0 /\ e ∈ e' :: order)).
      { rewrite elem_of_cons. naive_solver. }
      rewrite !(decide_ext _ _ _ _ (iff_sym Hm)). destruct (decide (m !! e' = Some 0)) as [D|D].
      * destruct (IH (delete e' m) (e' :: log) Ho) as [IH1 IH2]. rewrite IH1, IH2, times_cons.
        rewrite (decide_False (P := e = e')) by done. by rewrite lookup_delete_ne.
      * apply (IH m log Ho).
Qed.

Lemma second_logged s s' e n : queue_inv s.1 -> waiting_ s.1 = true -> second s s' ->
  (dues s.1 !! e = Some n ->
     if decide (n = 1) then dues s'.1 !! e = None /\ times e s'.2 = S (times e s.2)
     else dues s'.1 !! e = Some (n - 1) /\ times e s'.2 = times e s.2) /\
  (dues s.1 !! e = None -> dues s'.1 !! e = None /\ times e s'.2 = times e s.2).
Proof.
  intros Hq Hw Hs. destruct (second_refines (fun _ => True) (fun _ _ _ => I) logged_ok s s' Hq Hw I Hs)
    as (_ & _ & _ & order & Hn & Hin & Hf).
  destruct (fires_logged order e (Z.pred <$> dues s.1) s.2 Hn) as [H1 H2]. rewrite Hf in H1, H2.
  cbn [fst snd] in H1, H2. specialize (Hin e).
  destruct (decide ((Z.pred <$> dues s.1) !! e = Some 0 /\ e ∈ order)) as [D|D];
    rewrite lookup_fmap in *; split; intros Hd; rewrite Hd in *; cbn in D, Hin, H2.
  - destruct D as [D _]. simplify_eq. by rewrite decide_True by lia.
  - by destruct D.
  - rewrite decide_False; [done|]. intros ->. apply D. split; [done|]. by apply Hin.
  - done.
Qed.

(** C37: an element put with a delay of [d] seconds is executed when [d] seconds
    have passed, once, and not before, whatever the size of the ring and however
    long the delay (a delay longer than the ring goes round in several hops). *)
Theorem delay_exact q e d n q' log' : queue_inv q -> waiting_ q = true -> 0 < d < 2 ^ 32 ->
  nsteps second n (Put q e d, []) (q', log') ->
  times e log' = if d <=? Z.of_nat n then 1%nat else 0%nat.
Proof.
  intros Hq Hw Hd Hs. destruct (Put_dues q e d Hq Hd) as (Hq0 & Hd0 & Hw0).
  assert (H : queue_inv q' /\ waiting_ q' = true /\
    dues q' !! e = (if d <=? Z.of_nat n then None else Some (d - Z.of_nat n)) /\
    times e log' = if d <=? Z.of_nat n then 1%nat else 0%nat); [|apply H].
  revert q' log' Hs. induction n as [|n IH]; intros q' log' Hs.
  - inv Hs. rewrite Hd0, lookup_insert_eq, (proj2 (Z.leb_gt _ _)) by lia. rewrite Z.sub_0_r.
    by rewrite Hw0, Hw.
  - apply nsteps_inv_r in Hs as ([q1 log1] & Hs & H1). destruct (IH _ _ Hs) as (Hq1 & Hw1 & Hd1 & Ht1).
    pose proof (second_refines (fun _ => True) (fun _ _ _ => I) logged_ok (q1, log1) (q', log') Hq1 Hw1 I H1) as (Hq' & Hw' & _). cbn [fst] in *.
    destruct (second_logged (q1, log1) (q', log') e (d - Z.of_nat n) Hq1 Hw1 H1) as [Ha Hb]. cbn [fst snd] in *.
    split; [done|]. split; [done|]. destruct (Z.leb_spec d (Z.of_nat n)).
    + rewrite (proj2 (Z.leb_le _ _)) by lia. destruct (Hb Hd1) as [-> ->]. done.
    + specialize (Ha Hd1). case_decide.
      * rewrite (proj2 (Z.leb_le _ _)) by lia. destruct Ha as [-> ->]. by rewrite Ht1.
      * rewrite (proj2 (Z.leb_gt _ _)) by lia. destruct Ha as [-> ->]. split; [f_equal; lia|done].
Qed.

End Queue.

#[local] Existing Instance logged.

(** On a ring of five slots, a delay of five seconds in hops of two. *)
Lemma delay_exact_witness :
  let q := (RunSlot 3 2 (E := list nat) [] new_DelayedQueue []).1 in
  times 7 (Nat.iter 4 (tick 3 2) (Put 3 2 q 7%nat 5, [])).2 = 0%nat /\
  times 7 (Nat.iter 5 (tick 3 2) (Put 3 2 q 7%nat 5, [])).2 = 1%nat.
Proof.
  intros q. assert (Hq : queue_inv 3 2 q).
  { apply (RunSlot_refines 3 2 ltac:(done) ltac:(done) ltac:(done) (fun _ => True));
      first [ done | apply new_queue_inv; unfold ring; lia | unfold ring; lia ]. }
  split.
  - refine (delay_exact 3 2 _ _ _ q 7%nat 5 4 (Nat.iter 4 (tick 3 2) (Put 3 2 q 7%nat 5, [])).1 _ _ _ _ _);
      first [ done | rewrite <- surjective_pairing; apply nsteps_tick ].
  - refine (delay_exact 3 2 _ _ _ q 7%nat 5 5 (Nat.iter 5 (tick 3 2) (Put 3 2 q 7%nat 5, [])).1 _ _ _ _ _);
      first [ done | rewrite <- surjective_pairing; apply nsteps_tick ].
Defined.
End DelayedQueue.
