(* ===== verification/DnsResolvConfig.v ===== *)
(** * The resolver configuration of a network (dns_resolv_config.cpp, dns_resolv_config.h)

    [DnsResolvConfig]: the servers of one network, the cache of answers with its
    queue of expiry tasks, the hosts known to have no IPv6 address and the users
    for which IPv6 queries are skipped.

    Answers ([AddrInfo]) are copied and never looked into: they are a parameter.
    A task ([DelayedTaskWrapper]) is owned by the queue, which knows it by the
    identity of its object; [wrappers_] holds the objects.  The clock read by
    [GetNowMs] is an argument of the operations that read it, the hash of a host
    name ([std::hash]) a parameter. *)

From stdpp Require Import sorting.
From S2P Require Import Prelude LruCache DelayedQueue.

Module DnsResolvConfig.

Definition MAX_NODATA_CACHE_SIZE : nat := 100.
Definition MAX_IPV6_UID_BLACK_LIST_SIZE : nat := 32.
Definition DEFAULT_DELAYED_COUNT : Z := 60 * 10.
Definition DEFAULT_AAAA_BLACK : Z := 30 * 60 * 1000.
Definition AAAA_SKIP_DURATION : Z := 6 * 60 * 60 * 1000.
Definition UINT64_MAX : Z := 2 ^ 64 - 1.

Record AddrInfoWithTtl (AddrInfo : Type) := mkTtl { addrInfo : AddrInfo; ttl : Z }.
Arguments mkTtl {AddrInfo} _ _.
Arguments addrInfo {AddrInfo} _.
Arguments ttl {AddrInfo} _.

Record DelayedTaskWrapper := mkWrapper { hostName_ : string; remainTime_ : Z }.

Record DnsResolvConfig (AddrInfo : Type) := mkConfig {
  netId_ : Z;
  netIdIsSet_ : bool;
  revisionId_ : Z;
  timeoutMsec_ : Z;
  retryCount_ : Z;
  nameServers_ : list string;
  searchDomains_ : list string;
  cache_ : LruCache.LRUCache (AddrInfoWithTtl AddrInfo);
  delayedQueue_ : DelayedQueue.DelayedQueue;
  wrappers_ : gmap nat DelayedTaskWrapper;
  nextWrapper_ : nat;
  isIpv6Enable_ : bool;
  isIpv4Enable_ : bool;
  isUserDefinedDnsServer_ : bool;
  isClatIpv4Enable_ : bool;
  nodataCache_ : list (Z * Z);
  ipv6UidBlackList_ : gmap Z Z }.
Arguments mkConfig {AddrInfo} _ _ _ _ _ _ _ _ _ _ _ _ _ _ _ _ _.
Arguments netId_ {AddrInfo} _.
Arguments netIdIsSet_ {AddrInfo} _.
Arguments revisionId_ {AddrInfo} _.
Arguments timeoutMsec_ {AddrInfo} _.
Arguments retryCount_ {AddrInfo} _.
Arguments nameServers_ {AddrInfo} _.
Arguments searchDomains_ {AddrInfo} _.
Arguments cache_ {AddrInfo} _.
Arguments delayedQueue_ {AddrInfo} _.
Arguments wrappers_ {AddrInfo} _.
Arguments nextWrapper_ {AddrInfo} _.
Arguments isIpv6Enable_ {AddrInfo} _.
Arguments isIpv4Enable_ {AddrInfo} _.
Arguments isUserDefinedDnsServer_ {AddrInfo} _.
Arguments isClatIpv4Enable_ {AddrInfo} _.
Arguments nodataCache_ {AddrInfo} _.
Arguments ipv6UidBlackList_ {AddrInfo} _.


Section Config.
Context {AddrInfo : Type}.

Definition with_net (c : DnsResolvConfig AddrInfo) (x0 : Z) (x1 : bool) : DnsResolvConfig AddrInfo :=
  mkConfig x0 x1 (revisionId_ c) (timeoutMsec_ c) (retryCount_ c) (nameServers_ c)
    (searchDomains_ c) (cache_ c) (delayedQueue_ c) (wrappers_ c) (nextWrapper_ c)
    (isIpv6Enable_ c) (isIpv4Enable_ c) (isUserDefinedDnsServer_ c) (isClatIpv4Enable_ c)
    (nodataCache_ c) (ipv6UidBlackList_ c).
Definition with_timeout (c : DnsResolvConfig AddrInfo) (x0 : Z) : DnsResolvConfig AddrInfo :=
  mkConfig (netId_ c) (netIdIsSet_ c) (revisionId_ c) x0 (retryCount_ c) (nameServers_ c)
    (searchDomains_ c) (cache_ c) (delayedQueue_ c) (wrappers_ c) (nextWrapper_ c)
    (isIpv6Enable_ c) (isIpv4Enable_ c) (isUserDefinedDnsServer_ c) (isClatIpv4Enable_ c)
    (nodataCache_ c) (ipv6UidBlackList_ c).
Definition with_retry (c : DnsResolvConfig AddrInfo) (x0 : Z) : DnsResolvConfig AddrInfo :=
  mkConfig (netId_ c) (netIdIsSet_ c) (revisionId_ c) (timeoutMsec_ c) x0 (nameServers_ c)
    (searchDomains_ c) (cache_ c) (delayedQueue_ c) (wrappers_ c) (nextWrapper_ c)
    (isIpv6Enable_ c) (isIpv4Enable_ c) (isUserDefinedDnsServer_ c) (isClatIpv4Enable_ c)
    (nodataCache_ c) (ipv6UidBlackList_ c).
Definition with_servers (c : DnsResolvConfig AddrInfo) (x0 : list string) (x1 : Z) : DnsResolvConfig AddrInfo :=
  mkConfig (netId_ c) (netIdIsSet_ c) x1 (timeoutMsec_ c) (retryCount_ c) x0 (searchDomains_ c)
    (cache_ c) (delayedQueue_ c) (wrappers_ c) (nextWrapper_ c) (isIpv6Enable_ c)
    (isIpv4Enable_ c) (isUserDefinedDnsServer_ c) (isClatIpv4Enable_ c) (nodataCache_ c)
    (ipv6UidBlackList_ c).
Definition with_domains (c : DnsResolvConfig AddrInfo) (x0 : list string) : DnsResolvConfig AddrInfo :=
  mkConfig (netId_ c) (netIdIsSet_ c) (revisionId_ c) (timeoutMsec_ c) (retryCount_ c)
    (nameServers_ c) x0 (cache_ c) (delayedQueue_ c) (wrappers_ c) (nextWrapper_ c)
    (isIpv6Enable_ c) (isIpv4Enable_ c) (isUserDefinedDnsServer_ c) (isClatIpv4Enable_ c)
    (nodataCache_ c) (ipv6UidBlackList_ c).
Definition with_cache (c : DnsResolvConfig AddrInfo) (x0 : LruCache.LRUCache (AddrInfoWithTtl AddrInfo)) : DnsResolvConfig AddrInfo :=
  mkConfig (netId_ c) (netIdIsSet_ c) (revisionId_ c) (timeoutMsec_ c) (retryCount_ c)
    (nameServers_ c) (searchDomains_ c) x0 (delayedQueue_ c) (wrappers_ c) (nextWrapper_ c)
    (isIpv6Enable_ c) (isIpv4Enable_ c) (isUserDefinedDnsServer_ c) (isClatIpv4Enable_ c)
    (nodataCache_ c) (ipv6UidBlackList_ c).
Definition with_queue (c : DnsResolvConfig AddrInfo) (x0 : DelayedQueue.DelayedQueue) : DnsResolvConfig AddrInfo :=
  mkConfig (netId_ c) (netIdIsSet_ c) (revisionId_ c) (timeoutMsec_ c) (retryCount_ c)
    (nameServers_ c) (searchDomains_ c) (cache_ c) x0 (wrappers_ c) (nextWrapper_ c)
    (isIpv6Enable_ c) (isIpv4Enable_ c) (isUserDefinedDnsServer_ c) (isClatIpv4Enable_ c)
    (nodataCache_ c) (ipv6UidBlackList_ c).
Definition with_wrappers (c : DnsResolvConfig AddrInfo) (x0 : gmap nat DelayedTaskWrapper) (x1 : nat) : DnsResolvConfig AddrInfo :=
  mkConfig (netId_ c) (netIdIsSet_ c) (revisionId_ c) (timeoutMsec_ c) (retryCount_ c)
    (nameServers_ c) (searchDomains_ c) (cache_ c) (delayedQueue_ c) x0 x1 (isIpv6Enable_ c)
    (isIpv4Enable_ c) (isUserDefinedDnsServer_ c) (isClatIpv4Enable_ c) (nodataCache_ c)
    (ipv6UidBlackList_ c).
Definition with_ipv6 (c : DnsResolvConfig AddrInfo) (x0 : bool) : DnsResolvConfig AddrInfo :=
  mkConfig (netId_ c) (netIdIsSet_ c) (revisionId_ c) (timeoutMsec_ c) (retryCount_ c)
    (nameServers_ c) (searchDomains_ c) (cache_ c) (delayedQueue_ c) (wrappers_ c)
    (nextWrapper_ c) x0 (isIpv4Enable_ c) (isUserDefinedDnsServer_ c) (isClatIpv4Enable_ c)
    (nodataCache_ c) (ipv6UidBlackList_ c).
Definition with_ipv4 (c : DnsResolvConfig AddrInfo) (x0 : bool) : DnsResolvConfig AddrInfo :=
  mkConfig (netId_ c) (netIdIsSet_ c) (revisionId_ c) (timeoutMsec_ c) (retryCount_ c)
    (nameServers_ c) (searchDomains_ c) (cache_ c) (delayedQueue_ c) (wrappers_ c)
    (nextWrapper_ c) (isIpv6Enable_ c) x0 (isUserDefinedDnsServer_ c) (isClatIpv4Enable_ c)
    (nodataCache_ c) (ipv6UidBlackList_ c).
Definition with_user (c : DnsResolvConfig AddrInfo) (x0 : bool) : DnsResolvConfig AddrInfo :=
  mkConfig (netId_ c) (netIdIsSet_ c) (revisionId_ c) (timeoutMsec_ c) (retryCount_ c)
    (nameServers_ c) (searchDomains_ c) (cache_ c) (delayedQueue_ c) (wrappers_ c)
    (nextWrapper_ c) (isIpv6Enable_ c) (isIpv4Enable_ c) x0 (isClatIpv4Enable_ c)
    (nodataCache_ c) (ipv6UidBlackList_ c).
Definition with_clat (c : DnsResolvConfig AddrInfo) (x0 : bool) : DnsResolvConfig AddrInfo :=
  mkConfig (netId_ c) (netIdIsSet_ c) (revisionId_ c) (timeoutMsec_ c) (retryCount_ c)
    (nameServers_ c) (searchDomains_ c) (cache_ c) (delayedQueue_ c) (wrappers_ c)
    (nextWrapper_ c) (isIpv6Enable_ c) (isIpv4Enable_ c) (isUserDefinedDnsServer_ c) x0
    (nodataCache_ c) (ipv6UidBlackList_ c).
Definition with_nodata (c : DnsResolvConfig AddrInfo) (x0 : list (Z * Z)) : DnsResolvConfig AddrInfo :=
  mkConfig (netId_ c) (netIdIsSet_ c) (revisionId_ c) (timeoutMsec_ c) (retryCount_ c)
    (nameServers_ c) (searchDomains_ c) (cache_ c) (delayedQueue_ c) (wrappers_ c)
    (nextWrapper_ c) (isIpv6Enable_ c) (isIpv4Enable_ c) (isUserDefinedDnsServer_ c)
    (isClatIpv4Enable_ c) x0 (ipv6UidBlackList_ c).
Definition with_blacklist (c : DnsResolvConfig AddrInfo) (x0 : gmap Z Z) : DnsResolvConfig AddrInfo :=
  mkConfig (netId_ c) (netIdIsSet_ c) (revisionId_ c) (timeoutMsec_ c) (retryCount_ c)
    (nameServers_ c) (searchDomains_ c) (cache_ c) (delayedQueue_ c) (wrappers_ c)
    (nextWrapper_ c) (isIpv6Enable_ c) (isIpv4Enable_ c) (isUserDefinedDnsServer_ c)
    (isClatIpv4Enable_ c) (nodataCache_ c) x0.


Definition new_DnsResolvConfig : DnsResolvConfig AddrInfo :=
  mkConfig 0 false 0 0 0 [] [] LruCache.new_LRUCache DelayedQueue.new_DelayedQueue ∅ 0
    false false false false [] ∅.

(** ** Expiry tasks *)

Abbreviation Cache := (LruCache.LRUCache (AddrInfoWithTtl AddrInfo)).

(** [DelayedTaskWrapper::Execute]: what has lived for [remainTime_] seconds goes,
    the rest is put back with less to live. *)
Definition Execute (w : DelayedTaskWrapper) (cache : Cache) : Cache :=
  let (infos, cache) := LruCache.Get cache (hostName_ w) in
  let cache := LruCache.Delete cache (hostName_ w) in
  match infos with
  | [] => cache
  | _ =>
      foldl (fun cache info =>
        if remainTime_ w <? ttl info
        then LruCache.Put cache (hostName_ w) (mkTtl (addrInfo info) (ttl info - remainTime_ w))
        else cache) cache infos
  end.

(** [DelayedTaskWrapper::GetUpdateTime]: the shortest time any answer still has. *)
Definition GetUpdateTime (w : DelayedTaskWrapper) (cache : Cache) : Z * DelayedTaskWrapper * Cache :=
  let (infos, cache) := LruCache.Get cache (hostName_ w) in
  match infos with
  | [] => (0, w, cache)
  | info :: _ =>
      let remain := foldl (fun r i => if r <? ttl i then r else ttl i) (ttl info) infos in
      (remain, mkWrapper (hostName_ w) remain, cache)
  end.

(** The tasks as the queue sees them: pointers to the objects. *)
#[export] Instance wrapper_task : DelayedQueue.DelayedTask (Cache * gmap nat DelayedTaskWrapper) := {
  DelayedQueue.Execute i env :=
    match env.2 !! i with
    | Some w => (Execute w env.1, env.2)
    | None => env
    end;
  DelayedQueue.GetUpdateTime i env :=
    match env.2 !! i with
    | Some w =>
        match GetUpdateTime w env.1 with
        | (t, w, cache) => (t, (cache, <[i := w]> env.2))
        end
    | None => (0, env)
    end }.

Abbreviation ARRAY_SIZE := (Z.of_nat LruCache.DEFAULT_CAPABILITY).

(** A pass of the thread of the queue over the current slot, and a second. *)
Definition RunQueue (order : list nat) (c : DnsResolvConfig AddrInfo) : DnsResolvConfig AddrInfo :=
  let (q, env) := DelayedQueue.RunSlot ARRAY_SIZE DEFAULT_DELAYED_COUNT order (delayedQueue_ c)
                    (cache_ c, wrappers_ c) in
  with_wrappers (with_queue (with_cache c env.1) q) env.2 (nextWrapper_ c).

Definition AdvanceQueue (c : DnsResolvConfig AddrInfo) : DnsResolvConfig AddrInfo :=
  with_queue c (DelayedQueue.Advance ARRAY_SIZE DEFAULT_DELAYED_COUNT (delayedQueue_ c)).

Definition SetCacheDelayed (c : DnsResolvConfig AddrInfo) (hostName : string) : DnsResolvConfig AddrInfo :=
  match GetUpdateTime (mkWrapper hostName 0) (cache_ c) with
  | (time, wrapper, cache) =>
      let c := with_cache c cache in
      if time =? 0 then c
      else
        let c' := with_wrappers c (<[nextWrapper_ c := wrapper]> (wrappers_ c)) (S (nextWrapper_ c)) in
        with_queue c' (DelayedQueue.Put ARRAY_SIZE DEFAULT_DELAYED_COUNT (delayedQueue_ c)
                         (nextWrapper_ c) time)
  end.

(** ** Settings *)

Definition EnableIpv6 c (enable : bool) := with_ipv6 c enable.
Definition EnableIpv4 c := with_ipv4 c true.
Definition SetClatDnsEnableIpv4 c (enable : bool) := with_clat c enable.
Definition SetUserDefinedServerFlag c (flag : bool) := with_user c flag.

Definition SetNetId c (netId : Z) := if netIdIsSet_ c then c else with_net c netId true.

Definition SetTimeoutMsec c (baseTimeoutMsec : Z) := with_timeout c baseTimeoutMsec.
Definition GetTimeoutMsec (c : DnsResolvConfig AddrInfo) : Z := u16 (timeoutMsec_ c).

Definition SetRetryCount c (retryCount : Z) := with_retry c retryCount.

Definition SetServers c (servers : list string) := with_servers c servers (s32 (revisionId_ c + 1)).

Definition SetDomains c (domains : list string) := with_domains c domains.

(** ** Hosts without IPv6 addresses *)

Context (hash : string -> Z).

(** The position of the entry with the smallest time, the first of several. *)
Definition older (best : nat * Z * nat) (entry : Z * Z) : nat * Z * nat :=
  let '(i, oldestTime, oldestIdx) := best in
  if entry.2 <? oldestTime then (S i, entry.2, i) else (S i, oldestTime, oldestIdx).

Definition oldest_index (l : list (Z * Z)) : nat := (foldl older (0%nat, UINT64_MAX, 0%nat) l).2.

Definition SetNodataCache (now : Z) (c : DnsResolvConfig AddrInfo) (hostName : string) : DnsResolvConfig AddrInfo :=
  if negb (isIpv4Enable_ c) then c
  else
    let hashKey := hash hostName in
    match list_find (fun e => e.1 = hashKey) (nodataCache_ c) with
    | Some (i, _) => with_nodata c (<[i := (hashKey, now)]> (nodataCache_ c))
    | None =>
        let l := nodataCache_ c in
        let l := if bool_decide (MAX_NODATA_CACHE_SIZE <= length l)%nat
                 then delete (oldest_index l) l else l in
        with_nodata c (l ++ [(hashKey, now)])
    end.

Definition IsInNodataCache (now : Z) (c : DnsResolvConfig AddrInfo) (hostName : string) : bool * DnsResolvConfig AddrInfo :=
  match list_find (fun e => e.1 = hash hostName) (nodataCache_ c) with
  | Some (i, (_, time)) =>
      if DEFAULT_AAAA_BLACK <? u64 (now - time)
      then (false, with_nodata c (delete i (nodataCache_ c)))
      else (true, c)
  | None => (false, c)
  end.

Definition ClearNodataCache c := with_nodata c [].

(** ** Users that skip IPv6 queries

    [std::map] is walked in the order of its keys. *)

Definition uid_le (a b : Z * Z) : Prop := a.1 <= b.1.
#[export] Instance uid_le_dec : RelDecision uid_le := fun a b => Z_le_dec a.1 b.1.

Definition by_uid (m : gmap Z Z) : list (Z * Z) := merge_sort uid_le (map_to_list m).

Definition oldest_uid (m : gmap Z Z) : Z :=
  (foldl (fun '(oldestTime, oldestUid) it =>
     if snd it <? oldestTime then (snd it, fst it) else (oldestTime, oldestUid)) (UINT64_MAX, 0) (by_uid m)).2.

Definition SetIpv6UidBlackList (now : Z) (c : DnsResolvConfig AddrInfo) (uid : Z) : DnsResolvConfig AddrInfo :=
  if negb (isIpv4Enable_ c) then c
  else
    let m := ipv6UidBlackList_ c in
    match m !! uid with
    | Some _ => with_blacklist c (<[uid := now]> m)
    | None =>
        let m := if bool_decide (MAX_IPV6_UID_BLACK_LIST_SIZE <= size m)%nat
                 then delete (oldest_uid m) m else m in
        with_blacklist c (<[uid := now]> m)
    end.

Definition IsInIpv6UidBlackList (now : Z) (c : DnsResolvConfig AddrInfo) (uid : Z) : bool * DnsResolvConfig AddrInfo :=
  match ipv6UidBlackList_ c !! uid with
  | Some time =>
      if (now <? time) || (AAAA_SKIP_DURATION <? u64 (now - time))
      then (false, with_blacklist c (delete uid (ipv6UidBlackList_ c)))
      else (true, c)
  | None => (false, c)
  end.

Definition ClearIpv6UidBlackList c := with_blacklist c ∅.

(** [GetCache().Clear()], [ClearNodataCache()] and [ClearIpv6UidBlackList()], which
    the callers use together. *)
Definition ClearCaches (c : DnsResolvConfig AddrInfo) : DnsResolvConfig AddrInfo :=
  ClearIpv6UidBlackList (ClearNodataCache (with_cache c (LruCache.Clear (cache_ c)))).

(** ** The cache under the tasks *)

Definition ttl_ok (i : AddrInfoWithTtl AddrInfo) : Prop := 0 < ttl i < 2 ^ 32.

Record cache_ok (cache : Cache) : Prop := {
  ok_lru : LruCache.lru_inv cache;
  ok_capacity : LruCache.capacity_ cache = LruCache.DEFAULT_CAPABILITY;
  ok_ttl : forall h, Forall ttl_ok (LruCache.entries cache h) }.

Lemma ok_pos cache : cache_ok cache -> (0 < LruCache.capacity_ cache)%nat.
Proof. intros H. rewrite (ok_capacity _ H). apply LruCache.capability_pos. Qed.

Lemma ok_new : cache_ok LruCache.new_LRUCache.
Proof. split; [apply LruCache.new_lru_inv|done|intros h; constructor]. Qed.

Lemma ok_clear cache : cache_ok cache -> cache_ok (LruCache.Clear cache).
Proof.
  intros H. destruct (LruCache.Clear_refines cache) as (Hi & Hr & Hc).
  split; [done|rewrite Hc; apply H|]. intros h. unfold LruCache.entries. rewrite Hr. constructor.
Qed.

Lemma ok_get cache k : cache_ok cache ->
  cache_ok (LruCache.Get cache k).2 /\ (LruCache.Get cache k).1 = LruCache.entries cache k /\
  forall h, LruCache.entries (LruCache.Get cache k).2 h = LruCache.entries cache h.
Proof.
  intros H. destruct (LruCache.Get_refines cache k (ok_lru _ H)) as (Hi & _ & Hc).
  destruct (LruCache.Get_entries cache k (ok_lru _ H)) as [H1 H2]. split_and!; [|done|done].
  split; [done|rewrite Hc; apply H|]. intros h. rewrite H2. apply H.
Qed.

Lemma ok_delete cache k : cache_ok cache ->
  cache_ok (LruCache.Delete cache k) /\
  forall h, LruCache.entries (LruCache.Delete cache k) h = if decide (h = k) then [] else LruCache.entries cache h.
Proof.
  intros H. destruct (LruCache.Delete_refines cache k (ok_lru _ H)) as (Hi & _ & Hc).
  pose proof (fun h => LruCache.Delete_entries cache k h (ok_lru _ H)) as He. split; [|done].
  split; [done|rewrite Hc; apply H|]. intros h. rewrite He. case_decide; [constructor|apply H].
Qed.

Lemma ok_put cache k v : cache_ok cache -> ttl_ok v ->
  cache_ok (LruCache.Put cache k v) /\
  LruCache.entries (LruCache.Put cache k v) k = LruCache.entries cache k ++ [v] /\
  forall h, h <> k -> LruCache.entries (LruCache.Put cache k v) h = LruCache.entries cache h \/
    LruCache.entries (LruCache.Put cache k v) h = [].
Proof.
  intros H Hv. destruct (LruCache.Put_refines cache k v (ok_pos _ H) (ok_lru _ H)) as (Hi & _ & Hc).
  destruct (LruCache.Put_entries cache k v (ok_pos _ H) (ok_lru _ H)) as [H1 H2]. split_and!; [|done|done].
  split; [done|rewrite Hc; apply H|]. intros h. destruct (decide (h = k)) as [->|Hh].
  - rewrite H1. apply Forall_app. split; [apply H|by constructor].
  - destruct (H2 h Hh) as [->| ->]; [apply H|constructor].
Qed.

(** What is left of a list of answers after [r] seconds. *)
Definition aged (r : Z) (l : list (AddrInfoWithTtl AddrInfo)) : list (AddrInfoWithTtl AddrInfo) :=
  (fun i => mkTtl (addrInfo i) (ttl i - r)) <$> filter (fun i => r < ttl i) l.

(** Keys other than [k] are as before, or lost. *)
Definition others_kept (k : string) (cache cache' : Cache) : Prop :=
  forall h, h <> k -> LruCache.entries cache' h = LruCache.entries cache h \/ LruCache.entries cache' h = [].

Lemma put_back r k infos : 0 <= r -> Forall ttl_ok infos -> forall cache, cache_ok cache ->
  let cache' := foldl (fun cache info =>
    if r <? ttl info then LruCache.Put cache k (mkTtl (addrInfo info) (ttl info - r)) else cache) cache infos in
  cache_ok cache' /\ LruCache.entries cache' k = LruCache.entries cache k ++ aged r infos /\ others_kept k cache cache'.
Proof.
  intros Hr Hi. induction Hi as [|info infos Ht Hi IH]; intros cache H; cbn zeta in *; cbn [foldl].
  - unfold aged. rewrite filter_nil, app_nil_r. split_and!; [done|done|by left].
  - unfold aged. unfold ttl_ok in Ht. destruct (Z.ltb_spec r (ttl info)).
    + destruct (ok_put cache k (mkTtl (addrInfo info) (ttl info - r)) H) as (H1 & E1 & O1);
        [unfold ttl_ok; cbn; lia|].
      destruct (IH _ H1) as (H2 & E2 & O2). split_and!; [done| |].
      * rewrite E2, E1, filter_cons_True by done. cbn. by rewrite <- app_assoc.
      * intros h Hh. destruct (O2 h Hh) as [->| ->]; [by apply O1|by right].
    + rewrite filter_cons_False by lia. by apply IH.
Qed.

Lemma Execute_entries w cache : cache_ok cache -> 0 <= remainTime_ w ->
  cache_ok (Execute w cache) /\
  LruCache.entries (Execute w cache) (hostName_ w) = aged (remainTime_ w) (LruCache.entries cache (hostName_ w)) /\
  others_kept (hostName_ w) cache (Execute w cache).
Proof.
  intros H Hr. unfold Execute. destruct (ok_get cache (hostName_ w) H) as (H1 & Eg & E1).
  destruct (LruCache.Get cache (hostName_ w)) as [infos cache1]. cbn [fst snd] in *. subst infos.
  destruct (ok_delete cache1 (hostName_ w) H1) as [H2 E2].
  pose proof (put_back (remainTime_ w) (hostName_ w) _ Hr (ok_ttl _ H (hostName_ w)) _ H2) as (H3 & E3 & O3).
  rewrite E2, decide_True in E3 by done.
  assert (O2 : others_kept (hostName_ w) cache (LruCache.Delete cache1 (hostName_ w))).
  { intros h Hh. left. by rewrite E2, decide_False, E1 by done. }
  destruct (LruCache.entries cache (hostName_ w)) as [|info infos] eqn:El.
  - split_and!; [done| |done]. by rewrite E2, decide_True.
  - split_and!; [done|done|]. intros h Hh. destruct (O3 h Hh) as [->| ->]; [by apply O2|by right].
Qed.

Lemma foldl_min_ttl l : forall r, 0 < r < 2 ^ 32 -> Forall ttl_ok l ->
  let m := foldl (fun r i => if r <? ttl i then r else ttl i) r l in
  0 < m < 2 ^ 32 /\ m <= r /\ Forall (fun i : AddrInfoWithTtl AddrInfo => m <= ttl i) l.
Proof.
  induction l as [|i l IH]; intros r Hr Hl; cbn zeta in *; cbn [foldl]; [split_and!; (lia || constructor)|].
  apply Forall_cons in Hl as [Hi Hl]. unfold ttl_ok in Hi.
  destruct (IH (if r <? ttl i then r else ttl i)) as (H1 & H2 & H3); [case_match; lia|done|].
  destruct (Z.ltb_spec r (ttl i)); (split_and!; [lia|lia|lia|constructor; [lia|done]]).
Qed.

Lemma GetUpdateTime_spec w cache : cache_ok cache ->
  match GetUpdateTime w cache with
  | (t, w', cache') =>
      cache_ok cache' /\ (forall h, LruCache.entries cache' h = LruCache.entries cache h) /\
      match LruCache.entries cache (hostName_ w) with
      | [] => t = 0 /\ w' = w
      | l => 0 < t < 2 ^ 32 /\ w' = mkWrapper (hostName_ w) t /\ Forall (fun i => t <= ttl i) l
      end
  end.
Proof.
  intros H. unfold GetUpdateTime. destruct (ok_get cache (hostName_ w) H) as (H1 & Eg & E1).
  destruct (LruCache.Get cache (hostName_ w)) as [infos cache1]. cbn [fst snd] in *. subst infos.
  pose proof (ok_ttl _ H (hostName_ w)) as Ht.
  destruct (LruCache.entries cache (hostName_ w)) as [|info infos] eqn:El; [done|].
  destruct (foldl_min_ttl (info :: infos) (ttl info)) as (Hm & _ & Hf); [by apply Forall_cons in Ht as [? _]|done|].
  done.
Qed.

(** ** Answers are dropped in time

    [deadline a] is the second at which an answer must be gone, if there is one. For
    every stored answer with a deadline there is a task for its host that will be
    executed, and will have taken its time from it, before the deadline. *)

Abbreviation Env := (Cache * gmap nat DelayedTaskWrapper)%type.

Definition env_ok (env : Env) : Prop :=
  cache_ok env.1 /\ forall i w, env.2 !! i = Some w -> 0 <= remainTime_ w.

Context (deadline : AddrInfo -> option Z).

Definition covered (now : Z) (m : gmap nat Z) (env : Env) (h : string) (a : AddrInfoWithTtl AddrInfo) : Prop :=
  forall D, deadline (addrInfo a) = Some D ->
  exists i w n, env.2 !! i = Some w /\ hostName_ w = h /\ m !! i = Some n /\
    n + Z.max 0 (ttl a - remainTime_ w) <= D - now.

Definition all_covered (now : Z) (m : gmap nat Z) (env : Env) : Prop :=
  forall h, Forall (covered now m env h) (LruCache.entries env.1 h).

Lemma execute_env_ok i env : env_ok env -> env_ok (DelayedQueue.Execute i env).
Proof.
  intros [Hc Hw]. cbn. destruct (env.2 !! i) as [w|] eqn:E; [|done]. split; [|done].
  apply Execute_entries; [done|by eapply Hw].
Qed.

Lemma update_env_ok i env : env_ok env ->
  env_ok (DelayedQueue.GetUpdateTime i env).2 /\ 0 <= (DelayedQueue.GetUpdateTime i env).1 < 2 ^ 32.
Proof.
  intros [Hc Hw]. cbn. destruct (env.2 !! i) as [w|] eqn:E; [|cbn; split; [done|lia]].
  pose proof (GetUpdateTime_spec w env.1 Hc) as H. destruct (GetUpdateTime w env.1) as [[t w'] cache'].
  destruct H as (Hc' & _ & Ht). cbn. pose proof (Hw i w E) as Hr.
  assert (Hb : 0 <= t < 2 ^ 32 /\ 0 <= remainTime_ w').
  { destruct (LruCache.entries env.1 (hostName_ w)).
    - destruct Ht as [-> ->]. lia.
    - destruct Ht as (? & -> & _). cbn. lia. }
  split; [|lia]. split; [done|]. cbn. intros j wj Hj. apply lookup_insert_Some in Hj as [[_ <-]|[_ Hj]]; [lia|].
  by eapply Hw.
Qed.

(** Less time to live is easier to cover, and a task for another host is not needed. *)
Lemma covered_mono now m env m' env' h a a' :
  addrInfo a' = addrInfo a -> ttl a' <= ttl a ->
  (forall i w, env.2 !! i = Some w -> hostName_ w = h -> env'.2 !! i = Some w /\ m' !! i = m !! i) ->
  covered now m env h a -> covered now m' env' h a'.
Proof.
  intros Ea Et Hk H D HD. rewrite Ea in HD. destruct (H D HD) as (i & w & n & Hw & Hh & Hm & Hn).
  destruct (Hk i w Hw Hh) as [Hw' Hm']. exists i, w, n. rewrite Hm'. split_and!; [done..|]. lia.
Qed.

(** The same when one task, which was due, starts again. *)
Lemma covered_again now m env m' env' h a t w j :
  env.2 !! j = Some w -> m !! j = Some 0 -> hostName_ w = h ->
  (forall i w, i <> j -> env.2 !! i = Some w -> env'.2 !! i = Some w /\ m' !! i = m !! i) ->
  env'.2 !! j = Some (mkWrapper h t) -> m' !! j = Some t -> remainTime_ w < ttl a -> 0 <= remainTime_ w ->
  t <= ttl a - remainTime_ w ->
  covered now m env h a -> covered now m' env' h (mkTtl (addrInfo a) (ttl a - remainTime_ w)).
Proof.
  intros Hw Hm Hh Hk Hw' Hm' Ht Hr Hle H D HD. cbn in HD.
  destruct (H D HD) as (i & wi & n & Hwi & Hhi & Hmi & Hn).
  destruct (decide (i = j)) as [->|Hij].
  - exists j, (mkWrapper h t), t. simplify_eq. cbn. split_and!; [done..|lia].
  - destruct (Hk i wi Hij Hwi) as [? Hmi']. exists i, wi, n. rewrite Hmi'. cbn. split_and!; [done..|lia].
Qed.

Lemma fire_covered now m env j : env_ok env -> all_covered now m env ->
  env_ok (DelayedQueue.fire (m, env) j).2 /\
  all_covered now (DelayedQueue.fire (m, env) j).1 (DelayedQueue.fire (m, env) j).2.
Proof.
  intros He Hc. unfold DelayedQueue.fire. case_decide as E; [|done].
  pose proof (execute_env_ok j env He) as He1. pose proof (update_env_ok j _ He1) as [He2 _].
  destruct He as [Hok Hrem]. cbn in He1, He2 |- *. destruct (env.2 !! j) as [w|] eqn:Ew.
  - destruct (Execute_entries w env.1 Hok (Hrem j w Ew)) as (Hok1 & Eh & Eo). cbn [fst snd] in *.
    rewrite Ew in He2 |- *. pose proof (GetUpdateTime_spec w (Execute w env.1) Hok1) as Hu.
    destruct (GetUpdateTime w (Execute w env.1)) as [[t w'] cache']. destruct Hu as (Hok2 & Ee & Ht).
    cbn [fst snd] in *. split; [done|]. intros h. cbn [fst]. rewrite Ee. destruct (decide (h = hostName_ w)) as [->|Hh].
    + rewrite Eh in *. destruct (aged _ _) as [|x xs] eqn:Ea; [constructor|]. rewrite <- Ea in *.
      destruct Ht as (Ht & -> & Hmin). rewrite (proj2 (Z.ltb_lt _ _)) by lia.
      apply Forall_fmap, Forall_forall. intros a Ha. apply list_elem_of_filter in Ha as [Hlt Ha].
      rewrite Forall_forall in Hmin. cbn.
      eapply (covered_again now m env _ _ _ a t w j); [done|done|done| | | |done|by eapply Hrem| |].
      * intros i wi Hi Hwi. cbn. by rewrite !lookup_insert_ne by done.
      * cbn. by rewrite lookup_insert_eq.
      * by rewrite lookup_insert_eq.
      * specialize (Hmin (mkTtl (addrInfo a) (ttl a - remainTime_ w))). cbn in Hmin. apply Hmin.
        unfold aged. apply list_elem_of_fmap. exists a. split; [done|]. by apply list_elem_of_filter.
      * specialize (Hc (hostName_ w)). rewrite Forall_forall in Hc. by apply Hc.
    + destruct (Eo h Hh) as [->| ->]; [|constructor]. eapply Forall_impl; [apply Hc|]. intros a.
      apply covered_mono; [done|lia|]. intros i wi Hwi Hhi. cbn [fst snd].
      assert (i <> j) by congruence. rewrite lookup_insert_ne by done. split; [done|].
      destruct (0 <? t); [by rewrite lookup_insert_ne|by rewrite lookup_delete_ne].
  - rewrite Ew in He2 |- *. cbn. split; [done|]. intros h. eapply Forall_impl; [apply Hc|]. intros a.
    apply covered_mono; [done|lia|]. intros i wi Hwi _. split; [done|]. rewrite lookup_delete_ne; [done|]. congruence.
Qed.

Lemma fires_covered now order : forall m env, env_ok env -> all_covered now m env ->
  env_ok (foldl DelayedQueue.fire (m, env) order).2 /\
  all_covered now (foldl DelayedQueue.fire (m, env) order).1 (foldl DelayedQueue.fire (m, env) order).2.
Proof.
  induction order as [|j order IH]; intros m env He Hc; [done|]. cbn [foldl].
  destruct (fire_covered now m env j He Hc) as [He' Hc'].
  destruct (DelayedQueue.fire (m, env) j) as [m' env']. by apply IH.
Qed.

(** ** The configuration *)

Implicit Types c : DnsResolvConfig AddrInfo.

Definition the_env c : Env := (cache_ c, wrappers_ c).
Definition seconds c : gmap nat Z := DelayedQueue.dues ARRAY_SIZE DEFAULT_DELAYED_COUNT (delayedQueue_ c).
Abbreviation queue_ok := (DelayedQueue.queue_inv ARRAY_SIZE DEFAULT_DELAYED_COUNT).

Record config_ok c : Prop := {
  ok_env : env_ok (the_env c);
  ok_queue : queue_ok (delayedQueue_ c);
  ok_next : wrappers_ c !! nextWrapper_ c = None;
  ok_fresh : forall i w, wrappers_ c !! i = Some w -> (i < nextWrapper_ c)%nat }.

Definition timely (now : Z) c : Prop := all_covered now (seconds c) (the_env c).

Lemma ring_facts : 0 < ARRAY_SIZE /\ 0 < DEFAULT_DELAYED_COUNT /\
  DelayedQueue.ring ARRAY_SIZE DEFAULT_DELAYED_COUNT < 2 ^ 31.
Proof. by vm_compute. Qed.

Lemma config_ok_new : config_ok new_DnsResolvConfig.
Proof.
  pose proof ring_facts as (? & ? & ?). split; cbn; [|by apply DelayedQueue.new_queue_inv|done|done].
  split; [apply ok_new|]. done.
Qed.

(** The tasks go on with the same host: identities stay below [nextWrapper_]. *)
Lemma fire_dom me j i : (DelayedQueue.fire me j).2.2 !! i = None <-> (me.2 : Env).2 !! i = None.
Proof.
  destruct me as [m env]. unfold DelayedQueue.fire. case_decide; [|done]. cbn.
  destruct (env.2 !! j) as [w|] eqn:Ew; cbn; [|by rewrite Ew].
  rewrite Ew. destruct (GetUpdateTime w (Execute w env.1)) as [[t w'] cache']. cbn.
  rewrite lookup_insert_None. split; [tauto|]. intros Hi. split; [done|]. congruence.
Qed.

Lemma fires_dom order i : forall me, (foldl DelayedQueue.fire me order).2.2 !! i = None <-> (me.2 : Env).2 !! i = None.
Proof. induction order as [|j order IH]; intros me; [done|]. cbn [foldl]. by rewrite IH, fire_dom. Qed.

Lemma RunQueue_ok order c : config_ok c ->
  order ≡ₚ elements (DelayedQueue.elems_ (delayedQueue_ c) !!! DelayedQueue.index_ (delayedQueue_ c)) ->
  config_ok (RunQueue order c) /\ DelayedQueue.waiting_ (delayedQueue_ (RunQueue order c)) = true /\
  forall now, timely now c -> timely now (RunQueue order c).
Proof.
  intros Hc Ho. pose proof ring_facts as (R1 & R2 & R3).
  destruct (DelayedQueue.RunSlot_refines _ _ R1 R2 R3 env_ok execute_env_ok update_env_ok
    (delayedQueue_ c) order (the_env c) (ok_queue c Hc) (ok_env c Hc) Ho) as (Hq & Hw & He & Hf).
  pose proof (fun i => fires_dom order i (seconds c, the_env c)) as Hd. unfold seconds in Hd. rewrite Hf in Hd.
  pose proof (fun now => fires_covered now order (seconds c) (the_env c) (ok_env c Hc)) as Hcov.
  unfold seconds in Hcov. rewrite Hf in Hcov. cbn [fst snd] in Hcov, Hd.
  unfold RunQueue. unfold the_env in *.
  destruct (DelayedQueue.RunSlot _ _ order (delayedQueue_ c) (cache_ c, wrappers_ c)) as [q env].
  cbn [fst snd] in *. split_and!; [split; cbn|done|].
  - by destruct env.
  - done.
  - apply Hd. apply Hc.
  - intros i w Hi. destruct (wrappers_ c !! i) as [w0|] eqn:E0; [by eapply ok_fresh|].
    apply Hd in E0. congruence.
  - intros now Ht. apply Hcov in Ht as [_ Ht]. by destruct env.
Qed.

Lemma AdvanceQueue_ok c : config_ok c -> DelayedQueue.waiting_ (delayedQueue_ c) = true ->
  config_ok (AdvanceQueue c) /\ forall now, timely now c -> timely (now + 1) (AdvanceQueue c).
Proof.
  intros Hc Hw. pose proof ring_facts as (R1 & R2 & R3).
  destruct (DelayedQueue.Advance_dues _ _ R1 R2 (delayedQueue_ c) (ok_queue c Hc) Hw) as [Hq Hd].
  split; [by destruct Hc|]. intros now Ht h. eapply Forall_impl; [apply Ht|]. intros a Ha D HD.
  destruct (Ha D HD) as (i & w & n & Hi & Hh & Hn & Hle). exists i, w, (n - 1).
  unfold seconds, AdvanceQueue, with_queue. cbn [delayedQueue_]. rewrite Hd, lookup_fmap.
  unfold seconds in Hn. rewrite Hn. cbn [fmap option_fmap option_map].
  split_and!; [done|done|f_equal; lia|lia].
Qed.

(** A change of the cache by calls that drop answers. *)
Lemma with_cache_ok c cache : config_ok c -> cache_ok cache -> config_ok (with_cache c cache).
Proof. intros [[_ He] Hq Hn Hf] Hc. by split. Qed.

Lemma with_cache_timely now c cache : timely now c ->
  (forall h, LruCache.entries cache h = LruCache.entries (cache_ c) h \/ LruCache.entries cache h = []) ->
  timely now (with_cache c cache).
Proof.
  intros Ht He h. cbn. destruct (He h) as [->| ->]; [|constructor].
  eapply Forall_impl; [apply Ht|]. intros a Ha D HD. apply (Ha D HD).
Qed.

(** A new task for a host covers the answers that may live as long as their [ttl]. *)
Lemma SetCacheDelayed_ok c h : config_ok c ->
  config_ok (SetCacheDelayed c h) /\ forall now,
  (forall h', Forall (fun a => covered now (seconds c) (the_env c) h' a \/
     h' = h /\ forall D, deadline (addrInfo a) = Some D -> ttl a <= D - now) (LruCache.entries (cache_ c) h')) ->
  timely now (SetCacheDelayed c h).
Proof.
  intros Hc. unfold SetCacheDelayed. pose proof (ok_env c Hc) as [Hcache Hrem].
  pose proof (GetUpdateTime_spec (mkWrapper h 0) (cache_ c) Hcache) as Hu.
  destruct (GetUpdateTime (mkWrapper h 0) (cache_ c)) as [[t w] cache]. cbn [hostName_] in Hu.
  destruct Hu as (Hok & He & Hu).
  pose proof (with_cache_ok c cache Hc Hok) as Hc1.
  destruct (LruCache.entries (cache_ c) h) as [|a0 l0] eqn:El.
  - destruct Hu as [-> ->]. cbn. split; [done|]. intros now Hcov h'. cbn. rewrite He.
    specialize (Hcov h'). eapply Forall_impl; [apply Forall_and; split; [exact Hcov|]|].
    + apply Forall_forall. intros a Ha. exact Ha.
    + cbn. intros a [[Ha|[-> _]] Hin]; [|rewrite El in Hin; set_solver]. intros D HD. apply (Ha D HD).
  - destruct Hu as (Ht & -> & Hmin). rewrite (proj2 (Z.eqb_neq t 0)) by lia.
    pose proof ring_facts as (R1 & R2 & R3).
    destruct (DelayedQueue.Put_dues _ _ R1 R2 R3 (delayedQueue_ c) (nextWrapper_ c) t (ok_queue c Hc) Ht)
      as (Hq & Hd & _). split.
    + split; cbn [the_env cache_ wrappers_ nextWrapper_ delayedQueue_ with_cache with_wrappers with_queue fst snd].
      * split; [done|]. cbn. intros i w Hi. apply lookup_insert_Some in Hi as [[_ <-]|[_ Hi]]; [cbn; lia|].
        by eapply Hrem.
      * done.
      * rewrite lookup_insert_ne by lia. destruct (wrappers_ c !! S (nextWrapper_ c)) as [w|] eqn:E; [|done].
        apply (ok_fresh c Hc) in E. lia.
      * intros i w Hi. apply lookup_insert_Some in Hi as [[<- _]|[_ Hi]]; [lia|].
        apply (ok_fresh c Hc) in Hi. lia.
    + intros now Hcov h'.
      unfold the_env, seconds, with_queue, with_wrappers, with_cache. cbn [cache_ delayedQueue_ wrappers_ nextWrapper_ fst].
      rewrite He, Hd. apply Forall_forall. intros a Ha. specialize (Hcov h'). rewrite Forall_forall in Hcov.
      destruct (Hcov a Ha) as [Hold|[-> Hnew]].
      * eapply covered_mono; [done|done| |exact Hold]. intros i w Hi _. cbn in Hi |- *.
        assert (nextWrapper_ c <> i) by (intros <-; rewrite (ok_next c Hc) in Hi; done).
        by rewrite !lookup_insert_ne by done.
      * intros D HD. exists (nextWrapper_ c), (mkWrapper h t), t. cbn. rewrite !lookup_insert_eq.
        rewrite Forall_forall in Hmin. rewrite El in Ha. specialize (Hmin a Ha). specialize (Hnew D HD).
        split_and!; [done..|lia].
Qed.

(** What is in the cache is not overdue. *)
Lemma timely_served now c h a D : config_ok c -> timely now c -> a ∈ LruCache.entries (cache_ c) h ->
  deadline (addrInfo a) = Some D ->
  now <= D /\ (DelayedQueue.waiting_ (delayedQueue_ c) = true -> now < D).
Proof.
  intros Hc Ht Ha HD. pose proof ring_facts as (R1 & R2 & R3).
  specialize (Ht h). rewrite Forall_forall in Ht. destruct (Ht a Ha D HD) as (i & w & n & _ & _ & Hn & Hle).
  pose proof (DelayedQueue.dues_range _ _ R1 R2 R3 _ _ _ (ok_queue c Hc) Hn). split; [lia|]. intros Hw.
  pose proof (DelayedQueue.dues_waiting _ _ R1 R2 _ _ _ (ok_queue c Hc) Hw Hn). lia.
Qed.

(** ** The lists are bounded *)

Lemma oldest_index_loop n l : forall i t j, (j < n)%nat -> (i + length l <= n)%nat ->
  ((foldl older (i, t, j) l).2 < n)%nat.
Proof.
  induction l as [|e l IH]; intros i t j Hj Hl; cbn [foldl length older] in *; [done|].
  destruct (e.2 <? t); apply IH; lia.
Qed.

Lemma oldest_index_lt l : l <> [] -> (oldest_index l < length l)%nat.
Proof. intros Hl. destruct l; [done|]. apply oldest_index_loop; cbn; lia. Qed.

(** The entry with the smallest time, found by a walk over all. *)
Lemma oldest_loop (l : list (Z * Z)) : forall t u,
  let r := foldl (fun '(oldestTime, oldestUid) it =>
     if snd it <? oldestTime then (snd it, fst it) else (oldestTime, oldestUid)) (t, u) l in
  (r = (t, u) \/ (r.2, r.1) ∈ l) /\ r.1 <= t /\ Forall (fun e => r.1 <= e.2) l.
Proof.
  induction l as [|e l IH]; intros t u; cbn zeta in *; cbn [foldl]; [split_and!; [by left|done|constructor]|].
  destruct e as [k v]. cbn [fst snd]. destruct (Z.ltb_spec v t).
  - destruct (IH v k) as ([->|H1] & H2 & H3); (split; [right|split; [lia|constructor; [cbn; lia|done]]]); cbn; set_solver.
  - destruct (IH t u) as ([H1|H1] & H2 & H3).
    + rewrite H1 in *. cbn in *. split_and!; [by left|lia|by constructor; [cbn; lia|]].
    + split_and!; [right; set_solver|lia|by constructor; [cbn; lia|]].
Qed.

Lemma elem_of_by_uid (m : gmap Z Z) u t : (u, t) ∈ by_uid m <-> m !! u = Some t.
Proof.
  unfold by_uid. rewrite merge_sort_Permutation. apply elem_of_map_to_list.
Qed.

Lemma oldest_uid_spec (m : gmap Z Z) : m <> ∅ -> map_Forall (fun _ t => t < UINT64_MAX) m ->
  exists t, m !! oldest_uid m = Some t /\ map_Forall (fun _ t' => t <= t') m.
Proof.
  intros Hm Ht. unfold oldest_uid. destruct (oldest_loop (by_uid m) UINT64_MAX 0) as (H1 & _ & H3).
  set (r := foldl _ (UINT64_MAX, 0) (by_uid m)) in *. clearbody r. rewrite Forall_forall in H3.
  assert (Hmin : map_Forall (fun _ t' => r.1 <= t') m).
  { intros u t Hu. apply (H3 (u, t)). by apply elem_of_by_uid. }
  destruct H1 as [->|H1].
  - exfalso. apply map_choose in Hm as (u & t & Hu). specialize (Ht u t Hu). specialize (Hmin u t Hu). cbn in *. lia.
  - exists r.1. split; [|done]. by apply elem_of_by_uid.
Qed.

Record limits_ok c : Prop := {
  nodata_limit : (length (nodataCache_ c) <= MAX_NODATA_CACHE_SIZE)%nat;
  nodata_keys : NoDup (nodataCache_ c).*1;
  blacklist_limit : (size (ipv6UidBlackList_ c) <= MAX_IPV6_UID_BLACK_LIST_SIZE)%nat;
  blacklist_times : map_Forall (fun _ t => t < UINT64_MAX) (ipv6UidBlackList_ c) }.

Lemma limits_new : limits_ok new_DnsResolvConfig.
Proof. split; cbn; [lia|constructor|rewrite map_size_empty; lia|apply map_Forall_empty]. Qed.

Lemma SetNodataCache_limits now c h : limits_ok c -> limits_ok (SetNodataCache now c h).
Proof.
  intros [H1 H2 H3 H4]. unfold SetNodataCache. destruct (negb (isIpv4Enable_ c)); [done|].
  destruct (list_find _ (nodataCache_ c)) as [[i e]|] eqn:E.
  - apply list_find_Some in E as (Hi & He & _). split; cbn; [by rewrite length_insert| |done|done].
    rewrite list_fmap_insert. cbn. rewrite list_insert_id; [done|]. rewrite list_lookup_fmap, Hi. cbn. by rewrite He.
  - apply list_find_None in E. rewrite Forall_forall in E.
    set (l := if bool_decide _ then _ else _).
    assert (Hl : (length l < MAX_NODATA_CACHE_SIZE)%nat /\ sublist l (nodataCache_ c)).
    { unfold l. case_bool_decide as B; [|split; [lia|done]].
      assert (Hne : nodataCache_ c <> []) by (intros E0; rewrite E0 in B; unfold MAX_NODATA_CACHE_SIZE in B; cbn in B; lia).
      pose proof (oldest_index_lt _ Hne) as Hlt. split; [|apply sublist_delete].
      rewrite length_delete by (by apply lookup_lt_is_Some). lia. }
    destruct Hl as [Hl Hs]. clearbody l. split; cbn; [rewrite length_app; cbn; lia| |done|done].
    rewrite fmap_app. apply NoDup_app. split_and!.
    + eapply sublist_NoDup; [exact H2|by apply fmap_sublist].
    + intros k Hk Hk'. apply list_elem_of_fmap in Hk as (e & -> & He). cbn in Hk'. apply list_elem_of_singleton in Hk'.
      apply (E e); [|done]. by eapply elem_of_sublist.
    + apply NoDup_singleton.
Qed.

Lemma IsInNodataCache_limits now c h : limits_ok c -> limits_ok (IsInNodataCache now c h).2.
Proof.
  intros [H1 H2 H3 H4]. unfold IsInNodataCache.
  destruct (list_find _ (nodataCache_ c)) as [[i [k t]]|]; [|done]. case_match; [|done].
  pose proof (sublist_delete (nodataCache_ c) i) as Hs. split; cbn; [|eapply sublist_NoDup; [exact H2|by apply fmap_sublist]|done|done].
  apply sublist_length in Hs. lia.
Qed.

Lemma SetIpv6UidBlackList_limits now c uid : now < UINT64_MAX -> limits_ok c -> limits_ok (SetIpv6UidBlackList now c uid).
Proof.
  intros Hn [H1 H2 H3 H4]. unfold SetIpv6UidBlackList. destruct (negb (isIpv4Enable_ c)); [done|].
  destruct (ipv6UidBlackList_ c !! uid) as [t|] eqn:E.
  - split; cbn; [done|done|by rewrite map_size_insert_Some|by apply map_Forall_insert_2].
  - set (m := if bool_decide _ then _ else _).
    assert (Hm : (size m < MAX_IPV6_UID_BLACK_LIST_SIZE)%nat /\ m ⊆ ipv6UidBlackList_ c).
    { unfold m. case_bool_decide as B; [|split; [lia|done]].
      assert (Hne : ipv6UidBlackList_ c <> ∅).
      { intros E0. rewrite E0, map_size_empty in B. unfold MAX_IPV6_UID_BLACK_LIST_SIZE in B. lia. }
      destruct (oldest_uid_spec _ Hne H4) as (t & Ht & _). split; [|apply delete_subseteq].
      rewrite map_size_delete_Some by done. unfold MAX_IPV6_UID_BLACK_LIST_SIZE in *. lia. }
    destruct Hm as [Hs Hm]. clearbody m. split; cbn; [done|done| |].
    + rewrite map_size_insert_None; [lia|]. by eapply lookup_weaken_None.
    + apply map_Forall_insert_2; [done|]. intros u t Hu. apply (H4 u t). by eapply lookup_weaken.
Qed.

Lemma IsInIpv6UidBlackList_limits now c uid : limits_ok c -> limits_ok (IsInIpv6UidBlackList now c uid).2.
Proof.
  intros [H1 H2 H3 H4]. unfold IsInIpv6UidBlackList. destruct (ipv6UidBlackList_ c !! uid) as [t|] eqn:E; [|done].
  case_match; [|done]. split; cbn; [done|done| |].
  - rewrite map_size_delete_Some by done. lia.
  - by apply map_Forall_delete.
Qed.

Lemma ClearCaches_limits c : limits_ok (ClearCaches c).
Proof. split; cbn; [lia|constructor|rewrite map_size_empty; lia|apply map_Forall_empty]. Qed.

(** ** What the lists remember

    The subtraction of two 64-bit times wraps around when the clock went back; the
    result is then too large, and the entry counts as expired. *)
Lemma expired_u64 now t limit : 0 <= now < 2 ^ 64 -> 0 <= t < 2 ^ 64 -> 0 <= limit < 2 ^ 63 ->
  now < t -> t - now < 2 ^ 63 -> limit <? u64 (now - t) = true.
Proof.
  intros Hn Ht Hl Hlt Hd. apply Z.ltb_lt. unfold wrap.
  rewrite <- (Z.mod_unique (now - t) (2 ^ 64) (-1) (now - t + 2 ^ 64)) by lia. lia.
Qed.

Lemma nodata_found c h t : limits_ok c -> (hash h, t) ∈ nodataCache_ c ->
  exists i, list_find (fun e => e.1 = hash h) (nodataCache_ c) = Some (i, (hash h, t)).
Proof.
  intros Hl Hin. destruct (list_find_elem_of (fun e => e.1 = hash h) (nodataCache_ c) (hash h, t) Hin eq_refl) as [[i e] E].
  exists i. rewrite E. apply list_find_Some in E as (Hi & He & _). destruct e as [k v]. cbn in He. subst k.
  assert ((hash h, v) = (hash h, t)) as ->; [|done].
  apply list_elem_of_lookup in Hin as [j Hj].
  assert (i = j) as ->; [|congruence].
  eapply NoDup_lookup; [apply (nodata_keys c Hl)| |]; rewrite list_lookup_fmap; [by rewrite Hi|by rewrite Hj].
Qed.

(** A host noted at [t] counts as having no IPv6 address for half an hour. *)
Lemma nodata_remembered now c h t : limits_ok c -> (hash h, t) ∈ nodataCache_ c -> 0 <= t <= now -> now < 2 ^ 64 ->
  (IsInNodataCache now c h).1 = (now - t <=? DEFAULT_AAAA_BLACK).
Proof.
  intros Hl Hin Ht Hn. unfold IsInNodataCache. destruct (nodata_found c h t Hl Hin) as [i ->].
  rewrite wrap_small by width. destruct (Z.ltb_spec DEFAULT_AAAA_BLACK (now - t)); cbn; symmetry; [apply Z.leb_gt|apply Z.leb_le]; lia.
Qed.

End Config.
End DnsResolvConfig.
