(* ===== verification/StdAlgo.v ===== *)
(** * Algorithms of the C++ library on sequences

    [std::sort] leaves the order of equivalent elements open: it is the class
    [SortAlgorithm] with what the standard says of it, so that what is proved
    holds for every implementation; [insertion_sort] is one.  [std::inplace_merge]
    (stable) and [std::set_difference] are determined by the standard, and written
    out.  A comparison is a boolean function that is a strict weak order. *)

From stdpp Require Import sorting.
From S2P Require Import Prelude.

Module StdAlgo.

Class StrictWeakOrder {A : Type} (lt : A -> A -> bool) : Prop := {
  swo_irrefl : forall x, lt x x = false;
  swo_trans : forall x y z, lt x y = true -> lt y z = true -> lt x z = true;
  swo_incomparable : forall x y z, lt y x = false -> lt z y = false -> lt z x = false }.

(** Not after: the order of a sorted sequence. *)
Definition not_after {A : Type} (lt : A -> A -> bool) (x y : A) : Prop := lt y x = false.

(** Neither is before the other. *)
Definition equivalent {A : Type} (lt : A -> A -> bool) (x y : A) : bool := negb (lt x y) && negb (lt y x).

Class SortAlgorithm := {
  std_sort : forall {A : Type}, (A -> A -> bool) -> list A -> list A;
  std_sort_Permutation : forall {A : Type} (lt : A -> A -> bool) l, std_sort lt l ≡ₚ l;
  std_sort_sorted : forall {A : Type} (lt : A -> A -> bool) l, StrictWeakOrder lt ->
    StronglySorted (not_after lt) (std_sort lt l) }.

Section Algorithms.
Context {A : Type} (lt : A -> A -> bool).

Fixpoint insert_sorted (x : A) (l : list A) : list A :=
  match l with
  | [] => [x]
  | y :: r => if lt y x then y :: insert_sorted x r else x :: y :: r
  end.

Definition insertion (l : list A) : list A := foldr insert_sorted [] l.

(** [std::inplace_merge]: of equivalent elements those of the first half come first. *)
Fixpoint merge (l1 : list A) : list A -> list A :=
  fix merge_aux (l2 : list A) : list A :=
    match l1, l2 with
    | [], _ => l2
    | _, [] => l1
    | x :: r1, y :: r2 => if lt y x then y :: merge_aux r2 else x :: merge r1 (y :: r2)
    end.

(** [std::set_difference] *)
Fixpoint set_difference (l1 : list A) : list A -> list A :=
  fix set_difference_aux (l2 : list A) : list A :=
    match l1, l2 with
    | [], _ => []
    | _, [] => l1
    | x :: r1, y :: r2 =>
        if lt x y then x :: set_difference r1 (y :: r2)
        else if lt y x then set_difference_aux r2
        else set_difference r1 r2
    end.

Lemma merge_cons x r1 y r2 :
  merge (x :: r1) (y :: r2) = if lt y x then y :: merge (x :: r1) r2 else x :: merge r1 (y :: r2).
Proof. done. Qed.

Lemma merge_nil_r l : merge l [] = l.
Proof. by destruct l. Qed.

Lemma set_difference_cons x r1 y r2 :
  set_difference (x :: r1) (y :: r2) =
    if lt x y then x :: set_difference r1 (y :: r2)
    else if lt y x then set_difference (x :: r1) r2 else set_difference r1 r2.
Proof. done. Qed.

Lemma set_difference_nil_r l : set_difference l [] = l.
Proof. by destruct l. Qed.

Lemma set_difference_nil_l l : set_difference [] l = [].
Proof. by destruct l. Qed.

Lemma merge_Permutation l1 : forall l2, merge l1 l2 ≡ₚ l1 ++ l2.
Proof.
  induction l1 as [|x r1 IH1]; intros l2; [by destruct l2|].
  induction l2 as [|y r2 IH2]; [by rewrite merge_nil_r, app_nil_r|]. rewrite merge_cons.
  destruct (lt y x); [by rewrite IH2, Permutation_middle|by rewrite IH1].
Qed.

Lemma set_difference_sublist l1 : forall l2, set_difference l1 l2 `sublist_of` l1.
Proof.
  induction l1 as [|x r1 IH1]; intros l2; [by rewrite set_difference_nil_l|].
  induction l2 as [|y r2 IH2]; [by rewrite set_difference_nil_r|]. rewrite set_difference_cons.
  destruct (lt x y); [by apply sublist_skip|]. destruct (lt y x); [done|by apply sublist_cons].
Qed.

Context `{!StrictWeakOrder lt}.

Lemma lt_not_after x y : lt x y = true -> not_after lt x y.
Proof.
  intros H. unfold not_after. destruct (lt y x) eqn:E; [|done].
  pose proof (swo_trans _ _ _ H E) as H'. by rewrite swo_irrefl in H'.
Qed.

Lemma not_after_trans x y z : not_after lt x y -> not_after lt y z -> not_after lt x z.
Proof. apply swo_incomparable. Qed.

Lemma sorted_sublist l1 l2 : l1 `sublist_of` l2 -> StronglySorted (not_after lt) l2 -> StronglySorted (not_after lt) l1.
Proof.
  induction 1 as [|x l1 l2 Hs IH|x l1 l2 Hs IH]; intros H; [done| |].
  - apply StronglySorted_inv in H as [H Hf]. constructor; [by apply IH|].
    apply Forall_forall. intros y Hy. rewrite Forall_forall in Hf. apply Hf. by eapply elem_of_sublist.
  - apply StronglySorted_inv in H as [H _]. by apply IH.
Qed.

Lemma insert_sorted_Permutation x l : insert_sorted x l ≡ₚ x :: l.
Proof. induction l as [|y r IH]; cbn; [done|]. destruct (lt y x); [|done]. rewrite IH. apply Permutation_swap. Qed.

Lemma insert_sorted_sorted x l : StronglySorted (not_after lt) l -> StronglySorted (not_after lt) (insert_sorted x l).
Proof.
  induction l as [|y r IH]; intros H; cbn; [by repeat constructor|].
  pose proof H as H'. apply StronglySorted_inv in H as [H Hf]. destruct (lt y x) eqn:E.
  - constructor; [by apply IH|]. rewrite insert_sorted_Permutation. constructor; [by apply lt_not_after|done].
  - constructor; [done|]. constructor; [done|]. eapply Forall_impl; [exact Hf|]. intros z Hz.
    by eapply not_after_trans.
Qed.

Lemma merge_sorted l1 : forall l2, StronglySorted (not_after lt) l1 -> StronglySorted (not_after lt) l2 ->
  StronglySorted (not_after lt) (merge l1 l2).
Proof.
  induction l1 as [|x r1 IH1]; intros l2 H1 H2; [by destruct l2|].
  induction l2 as [|y r2 IH2]; [by rewrite merge_nil_r|]. rewrite merge_cons.
  pose proof H1 as H1'. pose proof H2 as H2'.
  apply StronglySorted_inv in H1 as [H1 F1]. apply StronglySorted_inv in H2 as [H2 F2].
  destruct (lt y x) eqn:E.
  - constructor; [by apply IH2|]. rewrite merge_Permutation. apply Forall_app. split; [|done].
    constructor; [by apply lt_not_after|]. eapply Forall_impl; [exact F1|]. intros z Hz.
    eapply not_after_trans; [|exact Hz]. by apply lt_not_after.
  - constructor; [by apply IH1|]. rewrite merge_Permutation. apply Forall_app. split; [done|].
    constructor; [done|]. eapply Forall_impl; [exact F2|]. intros z Hz. by eapply not_after_trans.
Qed.

(** Taking out what was merged in, when nothing else is equivalent to it. *)
Lemma set_difference_merge l1 : forall l2,
  (forall x y, x ∈ l1 -> y ∈ l2 -> equivalent lt x y = false) -> set_difference (merge l1 l2) l2 = l1.
Proof.
  induction l1 as [|x r1 IH1]; intros l2 Hne.
  - clear Hne. induction l2 as [|y r2 IH2]; [done|]. cbn [merge]. rewrite set_difference_cons, swo_irrefl.
    by destruct r2.
  - induction l2 as [|y r2 IH2]; [by rewrite merge_nil_r, set_difference_nil_r|]. rewrite merge_cons.
    destruct (lt y x) eqn:E.
    + rewrite set_difference_cons, swo_irrefl. apply IH2. intros x' y' Hx Hy. apply Hne; [done|by right].
    + assert (Exy : lt x y = true).
      { specialize (Hne x y ltac:(left) ltac:(left)). unfold equivalent in Hne. rewrite E in Hne. by destruct (lt x y). }
      rewrite set_difference_cons, Exy. f_equal. apply IH1. intros x' y' Hx Hy. apply Hne; [by right|done].
Qed.

End Algorithms.

#[export] Instance insertion_sort : SortAlgorithm := {
  std_sort A lt := insertion lt;
  std_sort_Permutation A lt l := ltac:(induction l as [|x l IH]; cbn; [done|]; by rewrite insert_sorted_Permutation, IH);
  std_sort_sorted A lt l H := ltac:(induction l as [|x l IH]; cbn; [constructor|by apply insert_sorted_sorted]) }.

End StdAlgo.
