(* ===== verification/DnsParamCache.v ===== *)
(** * Resolver parameters and cached answers of all networks (dns_param_cache.cpp, dns_param_cache.h)

    [DnsParamCache]: a [DnsResolvConfig] per network, the default network, the
    uid ranges of the VPNs and the DNS rules of the firewall.  Callers name a
    network by its number, or by 0 for the default one; with a VPN open, the
    configuration of an application is that of the VPN whose range has the highest
    priority.  Built with FEATURE_NET_FIREWALL_ENABLE. *)

From Stdlib Require Import String OrderedTypeEx.
From stdpp Require Import sorting.
From S2P Require Import Prelude StdAlgo LruCache DelayedQueue DnsResolvConfig FirewallMatch Firewall.

Module DnsParamCache.
Import DnsResolvConfig.

Definition EEXIST : Z := 17.
Definition ENOENT : Z := 2.
Definition MAX_SERVER_NUM_EXT : nat := 8.
Definition RES_TIMEOUT : Z := 4000.
Definition RES_DEFAULT_RETRY : Z := 2.
Definition USER_ID_DIVIDOR : Z := 200000.

(** uid_range.h *)
Record UidRange := mkRange { begin_ : Z; end_ : Z; priorityId_ : Z; rangeNetId_ : Z }.

(** [operator<]: higher priorities first; the network is not compared. *)
Definition range_lt (lhs rhs : UidRange) : bool :=
  if priorityId_ lhs =? priorityId_ rhs
  then if negb (begin_ lhs =? begin_ rhs) then begin_ lhs <? begin_ rhs else end_ lhs <? end_ rhs
  else priorityId_ rhs <? priorityId_ lhs.

#[export] Instance range_lt_order : StdAlgo.StrictWeakOrder range_lt.
Proof.
  unfold range_lt.
  split; intros *; rewrite ?Z.eqb_refl; cbn [negb]; rewrite ?Z.ltb_irrefl; [done|..];
    repeat (match goal with |- context [?a =? ?b] => destruct (Z.eqb_spec a b) end); cbn [negb];
    rewrite ?Z.ltb_lt, ?Z.ltb_ge; lia.
Qed.

Record NetFirewallDnsRule := mkDnsRule {
  userId : Z; appUid : Z; primaryDns : string; standbyDns : string }.

Record DnsParamCache (AddrInfo : Type) := mkParamCache {
  vpnUidRanges_ : list UidRange;
  vpnNetId_ : list Z;
  defaultNetId_ : Z;
  serverConfigMap_ : gmap Z (DnsResolvConfig AddrInfo);
  firewallDnsRules_ : list (option NetFirewallDnsRule);
  netFirewallDnsRuleMap_ : gmap Z (list NetFirewallDnsRule);
  callingUid_ : Z;
  currentUserId_ : Z }.
Arguments mkParamCache {AddrInfo} _ _ _ _ _ _ _ _.
Arguments vpnUidRanges_ {AddrInfo} _.
Arguments vpnNetId_ {AddrInfo} _.
Arguments defaultNetId_ {AddrInfo} _.
Arguments serverConfigMap_ {AddrInfo} _.
Arguments firewallDnsRules_ {AddrInfo} _.
Arguments netFirewallDnsRuleMap_ {AddrInfo} _.
Arguments callingUid_ {AddrInfo} _.
Arguments currentUserId_ {AddrInfo} _.

(** [std::set] membership on the servers seen so far. *)
Definition RemoveDuplicateNameservers (servers : list string) : list string :=
  (foldl (fun '(seen, res) server =>
     if decide (server ∈ (seen : gset string)) then (seen, res) else ({[server]} ∪ seen, res ++ [server]))
   (∅, []) servers).2.

Definition SelectNameservers (servers : list string) : list string :=
  if (MAX_SERVER_NUM_EXT - 1 <? length servers)%nat then take (MAX_SERVER_NUM_EXT - 1) servers else servers.

(** [operator<] of [std::string] on the bytes, and the sorted copies. *)
Definition string_lt (a b : string) : bool := String.ltb a b.

Lemma string_lt_iff a b : string_lt a b = true <-> String_as_OT.lt a b.
Proof.
  unfold string_lt, String.ltb. rewrite <- String_as_OT.cmp_lt.
  change (String.compare a b) with (String_as_OT.cmp a b). by destruct (String_as_OT.cmp a b).
Qed.

Lemma string_lt_total a b : string_lt a b = false -> string_lt b a = false -> a = b.
Proof.
  unfold string_lt, String.ltb. rewrite (String.compare_antisym b a).
  destruct (String.compare a b) eqn:E; cbn; [|done..]. intros _ _. by apply String.compare_eq_iff.
Qed.

#[export] Instance string_lt_order : StdAlgo.StrictWeakOrder string_lt.
Proof.
  split.
  - intros x. destruct (string_lt x x) eqn:E; [|done]. apply string_lt_iff in E.
    by apply String_as_OT.lt_not_eq in E.
  - intros x y z. rewrite !string_lt_iff. apply String_as_OT.lt_trans.
  - intros x y z Hxy Hyz. destruct (string_lt z x) eqn:E; [|done].
    destruct (string_lt x y) eqn:E1.
    + apply string_lt_iff in E, E1. pose proof (String_as_OT.lt_trans _ _ _ E E1) as H.
      apply string_lt_iff in H. congruence.
    + pose proof (string_lt_total _ _ E1 Hxy) as ->. congruence.
Qed.

Lemma RemoveDuplicate_loop servers : forall (seen : gset string) res, seen = list_to_set res -> NoDup res ->
  let r := (foldl (fun '(seen, res) server =>
     if decide (server ∈ (seen : gset string)) then (seen, res) else ({[server]} ∪ seen, res ++ [server]))
     (seen, res) servers).2 in
  NoDup r /\ forall x, x ∈ r <-> x ∈ res \/ x ∈ servers.
Proof.
  induction servers as [|y servers IH]; intros seen res Hs Hn; cbn zeta in *; cbn [foldl].
  - split; [done|]. set_solver.
  - case_decide as D.
    + destruct (IH seen res Hs Hn) as [H1 H2]. split; [done|]. intros x. rewrite H2, elem_of_cons.
      subst seen. apply elem_of_list_to_set in D. naive_solver.
    + destruct (IH ({[y]} ∪ seen) (res ++ [y])) as [H1 H2].
      * subst seen. rewrite list_to_set_app_L. set_solver.
      * apply NoDup_app. subst seen. rewrite elem_of_list_to_set in D. split_and!; [done| |apply NoDup_singleton].
        intros x Hx Hy. set_solver.
      * split; [done|]. intros x. rewrite H2. set_solver.
Qed.

Lemma RemoveDuplicate_spec servers : NoDup (RemoveDuplicateNameservers servers) /\
  forall x, x ∈ RemoveDuplicateNameservers servers <-> x ∈ servers.
Proof.
  destruct (RemoveDuplicate_loop servers ∅ [] eq_refl ltac:(constructor)) as [H1 H2].
  split; [exact H1|]. intros x. unfold RemoveDuplicateNameservers. rewrite H2. set_solver.
Qed.

Section ParamCache.
Context {AddrInfo : Type} {Sort : StdAlgo.SortAlgorithm} (hash : string -> Z) (avail : Firewall.map_name -> bool).
Abbreviation Config := (DnsResolvConfig AddrInfo).
Abbreviation State := (DnsParamCache AddrInfo).
Implicit Types s : State.

Definition new_DnsParamCache : State := mkParamCache [] [] 0 ∅ [] ∅ 0 0.

Definition with_configs s (m : gmap Z Config) : State :=
  mkParamCache (vpnUidRanges_ s) (vpnNetId_ s) (defaultNetId_ s) m (firewallDnsRules_ s)
    (netFirewallDnsRuleMap_ s) (callingUid_ s) (currentUserId_ s).
Definition with_ranges s (ranges : list UidRange) (nets : list Z) : State :=
  mkParamCache ranges nets (defaultNetId_ s) (serverConfigMap_ s) (firewallDnsRules_ s)
    (netFirewallDnsRuleMap_ s) (callingUid_ s) (currentUserId_ s).
Definition with_rules s (pending : list (option NetFirewallDnsRule)) (m : gmap Z (list NetFirewallDnsRule)) : State :=
  mkParamCache (vpnUidRanges_ s) (vpnNetId_ s) (defaultNetId_ s) (serverConfigMap_ s) pending m
    (callingUid_ s) (currentUserId_ s).
Definition with_user_id s (userId : Z) : State :=
  mkParamCache (vpnUidRanges_ s) (vpnNetId_ s) (defaultNetId_ s) (serverConfigMap_ s) (firewallDnsRules_ s)
    (netFirewallDnsRuleMap_ s) (callingUid_ s) userId.

Definition SetDefaultNetwork s (netId : Z) : State :=
  mkParamCache (vpnUidRanges_ s) (vpnNetId_ s) (u32 netId) (serverConfigMap_ s) (firewallDnsRules_ s)
    (netFirewallDnsRuleMap_ s) (callingUid_ s) (currentUserId_ s).
Definition SetCallingUid s (callingUid : Z) : State :=
  mkParamCache (vpnUidRanges_ s) (vpnNetId_ s) (defaultNetId_ s) (serverConfigMap_ s) (firewallDnsRules_ s)
    (netFirewallDnsRuleMap_ s) callingUid (currentUserId_ s).

(** [if (netId == 0) netId = defaultNetId_] *)
Definition resolve_net s (netId : Z) : Z := if netId =? 0 then u16 (defaultNetId_ s) else netId.

(** Change the configuration of a network that exists. *)
Definition on_config s (netId : Z) (f : Config -> Config) : State :=
  match serverConfigMap_ s !! netId with
  | Some c => with_configs s (<[netId := f c]> (serverConfigMap_ s))
  | None => s
  end.

Definition ClearAllDnsCache s : State := with_configs s (ClearCaches <$> serverConfigMap_ s).

Definition CreateCacheForNet s (netId : Z) (isVpnNet : bool) : Z * State :=
  match serverConfigMap_ s !! netId with
  | Some _ => (- EEXIST, s)
  | None =>
      let s := with_configs s (<[netId := SetNetId new_DnsResolvConfig netId]> (serverConfigMap_ s)) in
      (0, if isVpnNet then ClearAllDnsCache s else s)
  end.

Definition DestroyNetworkCache s (netId : Z) (isVpnNet : bool) : Z * State :=
  match serverConfigMap_ s !! netId with
  | None => (- ENOENT, s)
  | Some _ =>
      let s := with_configs s (delete netId (serverConfigMap_ s)) in
      let s := if defaultNetId_ s =? netId then SetDefaultNetwork s 0 else s in
      (0, if isVpnNet then ClearAllDnsCache s else s)
  end.

(** The result of [SelectNameservers] is only logged. *)
Definition SetResolverConfig s (netId baseTimeoutMsec retryCount : Z) (servers domains : list string) : Z * State :=
  match serverConfigMap_ s !! netId with
  | None => (- ENOENT, s)
  | Some c =>
      let uniqueServers := RemoveDuplicateNameservers servers in
      let oldDnsServers := StdAlgo.std_sort string_lt (nameServers_ c) in
      let newDnsServers := StdAlgo.std_sort string_lt uniqueServers in
      let c := if decide (oldDnsServers = newDnsServers) then c else ClearCaches c in
      let c := SetNetId c netId in
      let c := SetServers c uniqueServers in
      let c := SetDomains c domains in
      let c := SetRetryCount c (if retryCount =? 0 then RES_DEFAULT_RETRY else retryCount) in
      let c := SetTimeoutMsec c (if baseTimeoutMsec =? 0 then RES_TIMEOUT else baseTimeoutMsec) in
      (0, with_configs s (<[netId := c]> (serverConfigMap_ s)))
  end.

Definition EnableIpv6 s (netId : Z) (enable : bool) : State :=
  on_config s netId (fun c => DnsResolvConfig.EnableIpv6 c enable).
Definition EnableIpv4 s (netId : Z) : State := on_config s netId DnsResolvConfig.EnableIpv4.

Definition SetClatDnsEnableIpv4 s (netId : Z) (enable : bool) : State :=
  if (netId <? 0) || (2 ^ 16 - 1 <? netId) then s
  else on_config s netId (fun c => DnsResolvConfig.SetClatDnsEnableIpv4 c enable).

Definition IsIpv6Enable s (netId : Z) : bool :=
  match serverConfigMap_ s !! resolve_net s netId with Some c => isIpv6Enable_ c | None => false end.
Definition IsIpv4Enable s (netId : Z) : bool :=
  match serverConfigMap_ s !! resolve_net s netId with
  | Some c => isIpv4Enable_ c || isClatIpv4Enable_ c
  | None => false
  end.

(** ** DNS rules of the firewall *)

Definition GetUserId s (uid : Z) : Z :=
  let userId := Z.quot uid USER_ID_DIVIDOR in if 0 <? userId then userId else currentUserId_ s.

Definition GetDnsServersByAppUid s (uid : Z) : option (list string) :=
  if decide (netFirewallDnsRuleMap_ s = ∅) then None
  else
    let it := match netFirewallDnsRuleMap_ s !! uid with
              | Some rules => Some rules
              | None => netFirewallDnsRuleMap_ s !! 0
              end in
    match it with
    | Some rules =>
        Some (flat_map (fun rule => if userId rule =? GetUserId s uid
                                    then [primaryDns rule; standbyDns rule] else []) rules)
    | None => None
    end.

Definition SetFirewallDnsRules s (ruleList : list (option NetFirewallDnsRule)) : State :=
  with_rules s (firewallDnsRules_ s)
    (foldl (fun m r =>
       match r with
       | None => m
       | Some rule => <[appUid rule := default [] (m !! appUid rule) ++ [rule]]> m
       end) (netFirewallDnsRuleMap_ s) ruleList).

Definition SetFirewallRules s (type : Firewall.NetFirewallRuleType) (ruleList : list (option NetFirewallDnsRule))
    (isFinish : bool) : Z * State :=
  match ruleList with
  | [] => (-1, s)
  | _ =>
      match type with
      | Firewall.TYPE_DNS =>
          let s := with_rules s (firewallDnsRules_ s ++ ruleList) (netFirewallDnsRuleMap_ s) in
          if isFinish then
            let s := SetFirewallDnsRules s (firewallDnsRules_ s) in
            (0, with_rules s [] (netFirewallDnsRuleMap_ s))
          else (0, s)
      | Firewall.TYPE_DOMAIN => (0, ClearAllDnsCache s)
      | _ => (0, s)
      end
  end.

(** With the maps of the firewall, whose domain cache it clears. *)
Definition ClearFirewallRules s (k : FirewallMatch.kernel) (type : Firewall.NetFirewallRuleType) : Z * State * FirewallMatch.kernel :=
  match type with
  | Firewall.TYPE_DNS => (0, with_rules s [] ∅, k)
  | Firewall.TYPE_DOMAIN => (0, s, Firewall.ClearDomainCache avail k)
  | Firewall.TYPE_ALL => (0, with_rules s [] ∅, Firewall.ClearDomainCache avail k)
  | _ => (0, s, k)
  end.

Definition SetFirewallCurrentUserId s (userId : Z) : Z * State := (0, ClearAllDnsCache (with_user_id s userId)).

(** ** Resolver configurations: servers, domains, timeout and retries *)

Abbreviation Resolver := (list string * list string * Z * Z)%type.

(** The servers of the configuration, or those the firewall prescribes. *)
Definition servers_of s (c : Config) : list string :=
  default (nameServers_ c) (GetDnsServersByAppUid s (s32 (callingUid_ s))).

Definition GetResolverConfig s (netId : Z) : Z * option Resolver :=
  match serverConfigMap_ s !! resolve_net s netId with
  | None => (- ENOENT, None)
  | Some c => (0, Some (servers_of s c, searchDomains_ c, GetTimeoutMsec c, retryCount_ c))
  end.

Definition covers (uid : Z) (mem : UidRange) : bool := (begin_ mem <=? uid) && (uid <=? end_ mem).

(** The loop over the ranges; the first result, if any, is the answer. *)
Fixpoint first_range {R : Type} s (uid : Z) (f : Config -> R) (ranges : list UidRange) : option R :=
  match ranges with
  | [] => None
  | mem :: r =>
      if covers uid mem then
        match serverConfigMap_ s !! u16 (rangeNetId_ mem) with
        | None => first_range s uid f r
        | Some c => Some (f c)
        end
      else first_range s uid f r
  end.

Definition GetVpnResolverConfig s (uid : Z) : Z * option Resolver :=
  match vpnNetId_ s with
  | [] => (-1, None)
  | _ =>
      match first_range s uid (fun c => c) (vpnUidRanges_ s) with
      | None => (-1, None)
      | Some c =>
          match servers_of s c with
          | [] => (-1, None)
          | servers => (0, Some (servers, searchDomains_ c, GetTimeoutMsec c, retryCount_ c))
          end
      end
  end.

(** [GetResolverConfig(netId, uid, ...)] *)
Definition GetResolverConfigUid s (netId uid : Z) : Z * option Resolver :=
  let netId := resolve_net s netId in
  match GetVpnResolverConfig s uid with
  | (0, r) => (0, r)
  | _ => GetResolverConfig s netId
  end.

(** ** Uid ranges of the VPNs *)

Definition AddUidRange s (netId : Z) (uidRanges : list UidRange) : Z * State :=
  let nets := if existsb (fun n => u32 n =? netId) (vpnNetId_ s) then vpnNetId_ s
              else vpnNetId_ s ++ [s32 netId] in
  let kept := filter (fun r => rangeNetId_ r <> netId) (vpnUidRanges_ s) in
  let ranges :=
    match uidRanges with
    | [] => kept
    | _ => StdAlgo.merge range_lt kept (StdAlgo.std_sort range_lt uidRanges)
    end in
  (0, with_ranges s ranges nets).

(** [vpnNetId_.erase(it)] for the first equal element. *)
Fixpoint erase_net (netId : Z) (l : list Z) : list Z :=
  match l with
  | [] => []
  | n :: r => if u32 n =? netId then r else n :: erase_net netId r
  end.

Definition DelUidRange s (netId : Z) (uidRanges : list UidRange) : Z * State :=
  (0, with_ranges s (StdAlgo.set_difference range_lt (vpnUidRanges_ s) (StdAlgo.std_sort range_lt uidRanges))
        (erase_net netId (vpnNetId_ s))).

Definition IsVpnOpen s : bool := negb (length (vpnUidRanges_ s) =? 0)%nat.

Definition IsUseVpnDns s (uid : Z) : bool :=
  match first_range s uid (fun _ => true) (vpnUidRanges_ s) with Some _ => true | None => false end.

(** ** Servers chosen by the user *)

Definition SetUserDefinedServerFlag s (netId : Z) (flag : bool) : Z * State :=
  match serverConfigMap_ s !! netId with
  | None => (- ENOENT, s)
  | Some c => (0, with_configs s (<[netId := DnsResolvConfig.SetUserDefinedServerFlag c flag]> (serverConfigMap_ s)))
  end.

Definition GetUserDefinedServerFlag s (netId : Z) : Z * option bool :=
  match serverConfigMap_ s !! resolve_net s netId with
  | None => (- ENOENT, None)
  | Some c => (0, Some (isUserDefinedDnsServer_ c))
  end.

Definition GetUserDefinedVpnServerFlag s (uid : Z) : Z * option bool :=
  match vpnNetId_ s with
  | [] => (-1, None)
  | _ =>
      match first_range s uid isUserDefinedDnsServer_ (vpnUidRanges_ s) with
      | None => (-1, None)
      | Some flag => (0, Some flag)
      end
  end.

(** [GetUserDefinedServerFlag(netId, flag, uid)] *)
Definition GetUserDefinedServerFlagUid s (netId uid : Z) : Z * option bool :=
  match GetUserDefinedVpnServerFlag s uid with
  | (0, r) => (0, r)
  | _ => GetUserDefinedServerFlag s (resolve_net s netId)
  end.

(** ** Cached answers *)

(** [SetDnsCache] with an [AddrInfo] *)
Definition SetDnsCache s (netId : Z) (hostName : string) (info : AddrInfo) : State :=
  on_config s (resolve_net s netId) (fun c =>
    with_cache c (LruCache.Put (cache_ c) hostName (mkTtl info DEFAULT_DELAYED_COUNT))).

(** [SetDnsCache] with an [AddrInfoWithTtl] *)
Definition SetDnsCacheTtl s (netId : Z) (hostName : string) (info : AddrInfoWithTtl AddrInfo) : State :=
  if ttl info =? 0 then s
  else
    on_config s (resolve_net s netId) (fun c =>
      with_cache c (LruCache.Put (cache_ c) hostName
        (mkTtl (addrInfo info)
           (if DEFAULT_DELAYED_COUNT <? ttl info then ttl info else DEFAULT_DELAYED_COUNT)))).

Definition GetDnsCache s (netId : Z) (hostName : string) : list AddrInfo * State :=
  match serverConfigMap_ s !! resolve_net s netId with
  | None => ([], s)
  | Some c =>
      let (infos, cache) := LruCache.Get (cache_ c) hostName in
      (addrInfo <$> infos, with_configs s (<[resolve_net s netId := with_cache c cache]> (serverConfigMap_ s)))
  end.

Definition SetCacheDelayed s (netId : Z) (hostName : string) : State :=
  on_config s (resolve_net s netId) (fun c => DnsResolvConfig.SetCacheDelayed c hostName).

Definition FlushDnsCache s (netId : Z) : Z * State :=
  match serverConfigMap_ s !! resolve_net s netId with
  | None => (- ENOENT, s)
  | Some c => (0, with_configs s (<[resolve_net s netId := ClearCaches c]> (serverConfigMap_ s)))
  end.

Definition SetNodataCache (now : Z) s (netId : Z) (hostName : string) : State :=
  on_config s (resolve_net s netId) (fun c => DnsResolvConfig.SetNodataCache hash now c hostName).

Definition IsInNodataCache (now : Z) s (netId : Z) (hostName : string) : bool * State :=
  match serverConfigMap_ s !! resolve_net s netId with
  | None => (false, s)
  | Some c =>
      let (enable, c) := DnsResolvConfig.IsInNodataCache hash now c hostName in
      (enable, with_configs s (<[resolve_net s netId := c]> (serverConfigMap_ s)))
  end.

(** The vector of networks is the caller's: zeros in it are replaced. *)
Definition SetIpv6UidBlackList (now : Z) s (netIds : list Z) (uid : Z) : list Z * State :=
  let nets := (fun n => if n =? 0 then s32 (defaultNetId_ s) else n) <$> netIds in
  (nets, foldl (fun s n => on_config s (u16 n) (fun c => DnsResolvConfig.SetIpv6UidBlackList now c uid)) s nets).

Definition IsInIpv6UidBlackList (now : Z) s (netId uid : Z) : bool * State :=
  match serverConfigMap_ s !! resolve_net s netId with
  | None => (false, s)
  | Some c =>
      let (enable, c) := DnsResolvConfig.IsInIpv6UidBlackList now c uid in
      (enable, with_configs s (<[resolve_net s netId := c]> (serverConfigMap_ s)))
  end.

(** ** Adding and removing the ranges of a VPN *)

Lemma erase_net_app n l : existsb (fun m => u32 m =? n) l = false -> in_width 32 n ->
  erase_net n (l ++ [s32 n]) = l.
Proof.
  intros Hl Hn. induction l as [|m l IH]; cbn in *.
  - by rewrite u32_s32, Z.eqb_refl.
  - apply orb_false_iff in Hl as [-> Hl]. f_equal. by apply IH.
Qed.

(** Removing the ranges a VPN added gives back the ranges and the networks
    there were, when the VPN was not known before and no range of another VPN has
    the same users and priority as one of its own. *)
Theorem uid_range_roundtrip s netId uidRanges : in_width 32 netId ->
  existsb (fun n => u32 n =? netId) (vpnNetId_ s) = false ->
  Forall (fun r => rangeNetId_ r <> netId) (vpnUidRanges_ s) ->
  (forall x y, x ∈ vpnUidRanges_ s -> y ∈ uidRanges -> StdAlgo.equivalent range_lt x y = false) ->
  DelUidRange (AddUidRange s netId uidRanges).2 netId uidRanges = (0, s).
Proof.
  intros Hw Hn Hf Hne. unfold AddUidRange, DelUidRange. rewrite Hn. cbn [snd vpnUidRanges_ vpnNetId_ with_ranges].
  rewrite erase_net_app by done. f_equal.
  assert (Hk : filter (fun r => rangeNetId_ r <> netId) (vpnUidRanges_ s) = vpnUidRanges_ s).
  { clear -Hf. induction Hf as [|r l Hr Hf IH]; [done|]. rewrite filter_cons_True by done. by rewrite IH. }
  rewrite Hk. transitivity (with_ranges s (vpnUidRanges_ s) (vpnNetId_ s)); [|by destruct s].
  unfold with_ranges. cbn. f_equal. destruct uidRanges as [|r uidRanges].
  - pose proof (StdAlgo.std_sort_Permutation range_lt []) as E. apply Permutation_nil_r in E. rewrite E.
    apply StdAlgo.set_difference_nil_r.
  - apply StdAlgo.set_difference_merge; [apply _|]. intros x y Hx Hy. apply Hne; [done|].
    by rewrite StdAlgo.std_sort_Permutation in Hy.
Qed.

(** ** Changing the servers *)

Lemma std_sort_string_eq (l1 l2 : list string) :
  StdAlgo.std_sort string_lt l1 = StdAlgo.std_sort string_lt l2 <-> l1 ≡ₚ l2.
Proof.
  split; intros H.
  - by rewrite <- (StdAlgo.std_sort_Permutation string_lt l1), H, StdAlgo.std_sort_Permutation.
  - apply (StronglySorted_unique_strong (StdAlgo.not_after string_lt)).
    + intros x1 x2 _ _ H1 H2. by apply string_lt_total.
    + apply StdAlgo.std_sort_sorted, _.
    + apply StdAlgo.std_sort_sorted, _.
    + by rewrite !StdAlgo.std_sort_Permutation.
Qed.

(** Setting the servers of a network stores each of them once; the answers and
    the lists learnt from the old servers are dropped exactly when the set of
    servers changes, and a new order of the same servers keeps them. *)
Theorem SetResolverConfig_correct s netId baseTimeoutMsec retryCount servers domains c :
  serverConfigMap_ s !! netId = Some c -> NoDup (nameServers_ c) ->
  exists c', SetResolverConfig s netId baseTimeoutMsec retryCount servers domains =
      (0, with_configs s (<[netId := c']> (serverConfigMap_ s))) /\
    NoDup (nameServers_ c') /\ (forall x, x ∈ nameServers_ c' <-> x ∈ servers) /\
    ((forall x, x ∈ nameServers_ c <-> x ∈ servers) ->
       cache_ c' = cache_ c /\ nodataCache_ c' = nodataCache_ c /\ ipv6UidBlackList_ c' = ipv6UidBlackList_ c) /\
    (~ (forall x, x ∈ nameServers_ c <-> x ∈ servers) ->
       LruCache.nodeList_ (cache_ c') = [] /\ nodataCache_ c' = [] /\ ipv6UidBlackList_ c' = ∅).
Proof.
  intros Hc Hn. unfold SetResolverConfig. rewrite Hc. destruct (RemoveDuplicate_spec servers) as [H1 H2].
  eexists. split; [reflexivity|]. split; [exact H1|]. split; [exact H2|].
  assert (Hiff : StdAlgo.std_sort string_lt (nameServers_ c) =
      StdAlgo.std_sort string_lt (RemoveDuplicateNameservers servers) <-> forall x, x ∈ nameServers_ c <-> x ∈ servers).
  { rewrite std_sort_string_eq. split.
    - intros HP x. by rewrite HP, H2.
    - intros HS. apply NoDup_Permutation; [done|done|]. intros x. by rewrite HS, H2. }
  case_decide as D.
  - split; [|intros Hd; by destruct (Hd (proj1 Hiff D))]. intros _. unfold SetNetId. by destruct (netIdIsSet_ c).
  - split; [intros Hd; by apply Hiff in Hd|]. intros _. unfold SetNetId. by destruct (netIdIsSet_ (ClearCaches c)).
Qed.

End ParamCache.

(** ** Defects *)

Section Defects.
#[local] Existing Instance StdAlgo.insertion_sort.

Definition range100 : UidRange := mkRange 20010000 20019999 1 100.
Definition range101 : UidRange := mkRange 20010000 20019999 1 101.

(** The network is not part of the comparison: removing the range of network 101
    removes the range of network 100, which has the same users and priority: the
    applications of network 100 lose the servers of their VPN. *)
Lemma DelUidRange_takes_other :
  let s := (AddUidRange (AddUidRange (new_DnsParamCache (AddrInfo := Z)) 100 [range100]).2 101 [range101]).2 in
  vpnUidRanges_ s = [range100; range101] /\
  vpnUidRanges_ (DelUidRange s 101 [range101]).2 = [range101] /\
  vpnNetId_ (DelUidRange s 101 [range101]).2 = [100].
Proof. by vm_compute. Qed.

(** A DNS rule of user 100 for all applications leaves the applications of user 101
    without servers. *)
Lemma other_user_loses_dns :
  let s := (CreateCacheForNet (new_DnsParamCache (AddrInfo := Z)) 100 false).2 in
  let s := (SetResolverConfig s 100 0 0 ["192.168.1.1"%string] []).2 in
  let s := (SetFirewallRules s Firewall.TYPE_DNS [Some (mkDnsRule 100 0 "1.1.1.1" "2.2.2.2")] true).2 in
  GetResolverConfig (SetCallingUid s 20210001) 100 = (0, Some ([], [], 4000, 2)).
Proof. by vm_compute. Qed.

(** The limit of seven servers is computed and not applied. *)
Lemma servers_not_limited :
  let s := (CreateCacheForNet (new_DnsParamCache (AddrInfo := Z)) 100 false).2 in
  let servers := ["1"; "2"; "3"; "4"; "5"; "6"; "7"; "8"; "9"]%string in
  length (SelectNameservers servers) = 7%nat /\
  GetResolverConfig (SetResolverConfig s 100 0 0 servers []).2 100 = (0, Some (servers, [], 4000, 2)).
Proof. by vm_compute. Qed.

(** ** The theorems on concrete inputs *)

Lemma uid_range_roundtrip_witness :
  let s := (AddUidRange (new_DnsParamCache (AddrInfo := Z)) 100 [range100]).2 in
  DelUidRange (AddUidRange s 101 [mkRange 5 6 2 101; mkRange 1 2 2 101]).2 101 [mkRange 5 6 2 101; mkRange 1 2 2 101] = (0, s).
Proof.
  intros s. apply (uid_range_roundtrip s 101); [by vm_compute|done|by repeat constructor|].
  intros x y Hx Hy. vm_compute in Hx. apply list_elem_of_singleton in Hx as ->.
  apply elem_of_cons in Hy as [->|Hy]; [done|]. by apply list_elem_of_singleton in Hy as ->.
Defined.

Lemma SetResolverConfig_correct_witness :
  let s := (CreateCacheForNet (new_DnsParamCache (AddrInfo := Z)) 100 false).2 in
  exists c', serverConfigMap_ (SetResolverConfig s 100 0 0 ["b"; "a"; "b"]%string []).2 !! 100 = Some c' /\
    forall x, x ∈ nameServers_ c' <-> x ∈ ["b"; "a"; "b"]%string.
Proof.
  intros s. destruct (SetResolverConfig_correct s 100 0 0 ["b"; "a"; "b"]%string [] _ eq_refl) as (c' & E & _ & Hx & _);
    [constructor|].
  exists c'. split; [|exact Hx]. rewrite E. apply lookup_insert_eq.
Defined.

End Defects.
End DnsParamCache.
