(* ===== verification/DnsResolvListen.v ===== *)
(** * Requests of the resolver clients (dns_resolv_listen.cpp)

    The commands that clients send to the native service over its socket, as
    operations on [DnsParamCache] with the reply they send, and the executions of
    the resolver as a whole: commands, calls of the manager (dns_manager.cpp) and
    the threads of the expiry queues in any order.

    Theorems: no answer that clients store is served after its time to live
    ([no_stale_answer]), what
    is stored is bounded ([resolver_bounded]), an application on a VPN gets the
    configuration of its range of highest priority ([vpn_highest_priority]). *)

From stdpp Require Import sorting.
From S2P Require Import Prelude StdAlgo LruCache DelayedQueue DnsResolvConfig DnsParamCache FirewallMatch Firewall.

Module DnsResolvListen.
Import DnsParamCache.

Definition MAX_SERVER_NUM : nat := 5.
Definition MAX_SERVER_LENGTH : nat := 50.
Definition MAX_RESULTS : nat := 32.
Definition DNS_REPLACE_NUM : nat := 2.

(** [ResolvConfig] and [ResolvConfigExt]: the slots for the names of the servers. *)
Record ResolvConfig := mkResolv {
  error : Z; timeoutMs : Z; retryCount : Z; nonPublicNum : nat; nameservers : list string }.

Section Replies.

(** The content of a slot of zeros, of 51 bytes, after [memcpy_s] copied [n] bytes of
    a string to it. *)
Context (memcpy_s : nat -> string -> string).

(** The server of the parameter PUBLIC_DNS_SERVER, when the service is built with
    ENABLE_PUBLIC_DNS_SERVER. *)
Context (publicDnsServer : option string).

Definition AddPublicDnsServers (slots : list string) (serverSize : nat) (n : nat) : list string :=
  match publicDnsServer with
  | None => slots
  | Some server =>
      if existsb (String.eqb server) (take serverSize slots) then slots
      else if (n <=? serverSize)%nat then slots
      else <[serverSize := memcpy_s (S (String.length server)) server]> slots
  end.

(** [ReplaceDnsServer]: the last two servers take the third and fourth slot. *)
Definition ReplaceDnsServer (slots : list string) (servers : list string) : list string :=
  let total := length servers in
  if (total <=? MAX_SERVER_NUM - 1)%nat then slots
  else
    foldl (fun slots k =>
      let server := nth (total - k) servers EmptyString in
      <[(MAX_SERVER_NUM - k - 1)%nat := memcpy_s (String.length server) server]> slots) slots
      (seq 1 DNS_REPLACE_NUM).

(** The loop that fills the slots with the first servers. *)
Definition fill_slots (n : nat) (servers : list string) : list string :=
  let used := take (n - 1) servers in
  ((fun s => memcpy_s (String.length s) s) <$> used) ++ replicate (n - length used) EmptyString.

Definition reply_error (n : nat) (status : Z) : ResolvConfig :=
  mkResolv status 0 0 0 (replicate n EmptyString).

Definition reply_config (r : list string * list string * Z * Z) : ResolvConfig :=
  let '(servers, _, timeout, retry) := r in
  let i := Nat.min (MAX_SERVER_NUM - 1) (length servers) in
  let slots := ReplaceDnsServer (fill_slots MAX_SERVER_NUM servers) servers in
  mkResolv 0 timeout retry i (AddPublicDnsServers slots i MAX_SERVER_NUM).

Definition reply_config_ext (r : list string * list string * Z * Z) : ResolvConfig :=
  let '(servers, _, timeout, retry) := r in
  let i := Nat.min (MAX_SERVER_NUM_EXT - 1) (length servers) in
  mkResolv 0 timeout retry i (AddPublicDnsServers (fill_slots MAX_SERVER_NUM_EXT servers) i MAX_SERVER_NUM_EXT).

(** What is sent is the first two servers and the last two when there are more
    than four, and all of them otherwise. *)
Definition chosen (servers : list string) : list string :=
  if (length servers <=? 4)%nat then servers
  else take 2 servers ++ drop (length servers - 2) servers.

Hypothesis memcpy_fits : forall n s, (n <= S MAX_SERVER_LENGTH)%nat ->
  n = String.length s \/ n = S (String.length s) -> memcpy_s n s = s.

Definition short (s : string) : Prop := (String.length s <= MAX_SERVER_LENGTH)%nat.

Lemma memcpy_short s : short s -> memcpy_s (String.length s) s = s.
Proof. intros H. apply memcpy_fits; [unfold short in H; lia|by left]. Qed.

Lemma copies_short l : Forall short l -> (fun s => memcpy_s (String.length s) s) <$> l = l.
Proof. induction 1 as [|s l Hs Hl IH]; [done|]. rewrite fmap_cons, IH. f_equal. by apply memcpy_short. Qed.

Lemma last_two (l : list string) y z d :
  nth (length (l ++ [y; z]) - 1) (l ++ [y; z]) d = z /\ nth (length (l ++ [y; z]) - 2) (l ++ [y; z]) d = y /\
  drop (length (l ++ [y; z]) - 2) (l ++ [y; z]) = [y; z].
Proof.
  rewrite length_app. cbn [length]. split_and!.
  - rewrite app_nth2 by lia. by replace (length l + 2 - 1 - length l)%nat with 1%nat by lia.
  - rewrite app_nth2 by lia. by replace (length l + 2 - 2 - length l)%nat with 0%nat by lia.
  - rewrite drop_app_ge by lia. by replace (length l + 2 - 2 - length l)%nat with 0%nat by lia.
Qed.

(** More than four servers: two at the front and two at the end. *)
Lemma many_servers (servers : list string) : (4 < length servers)%nat ->
  exists a b c l y z, servers = (a :: b :: c :: l) ++ [y; z].
Proof.
  intros H. destruct servers as [|a [|b [|c r]]]; cbn in H; try lia.
  destruct r as [|z r _] using rev_ind; cbn in H; [lia|]. rewrite length_app in H. cbn in H.
  destruct r as [|y r _] using rev_ind; cbn in H; [lia|].
  exists a, b, c, r, y, z. cbn. by rewrite <- app_assoc.
Qed.

Lemma filled servers : Forall short servers -> (length servers <= 4)%nat ->
  take (length servers) (fill_slots MAX_SERVER_NUM servers) = servers /\
  length (fill_slots MAX_SERVER_NUM servers) = 5%nat.
Proof.
  intros Hs Hl. unfold fill_slots. cbn [MAX_SERVER_NUM Nat.sub]. rewrite (take_ge servers 4) by lia.
  rewrite copies_short by done. split; [apply take_app_length|]. rewrite length_app, length_replicate. lia.
Qed.

Lemma replaced servers : Forall short servers ->
  take (length (chosen servers)) (ReplaceDnsServer (fill_slots MAX_SERVER_NUM servers) servers) = chosen servers /\
  length (ReplaceDnsServer (fill_slots MAX_SERVER_NUM servers) servers) = 5%nat /\
  length (chosen servers) = Nat.min 4 (length servers).
Proof.
  intros Hs. unfold ReplaceDnsServer, chosen. cbn [MAX_SERVER_NUM Nat.sub].
  destruct (Nat.leb_spec (length servers) 4) as [Hl|Hl].
  { destruct (filled servers Hs Hl). split_and!; [done|done|lia]. }
  destruct (many_servers servers Hl) as (a & b & c & l & y & z & ->).
  destruct (last_two (a :: b :: c :: l) y z EmptyString) as (E1 & E2 & E3).
  rewrite E3. cbn [DNS_REPLACE_NUM seq foldl]. rewrite E1, E2.
  unfold fill_slots. cbn [Nat.sub]. rewrite copies_short by (by apply Forall_take).
  apply Forall_app in Hs as [_ Hyz]. inversion Hyz as [|? ? Hy Hz']; subst. inversion Hz' as [|? ? Hz _]; subst.
  rewrite !memcpy_short by done. split_and!.
  - cbn. by destruct l.
  - rewrite !length_insert, length_app, length_replicate, !length_take, length_app. unfold MAX_SERVER_NUM. cbn [length]. lia.
  - change (take 2 ((a :: b :: c :: l) ++ [y; z])) with [a; b]. rewrite !length_app. cbn [length]. lia.
Qed.

Lemma AddPublic_keeps slots i n : take i (AddPublicDnsServers slots i n) = take i slots /\
  length (AddPublicDnsServers slots i n) = length slots.
Proof.
  unfold AddPublicDnsServers. destruct publicDnsServer as [server|]; [|done].
  case_match; [done|]. case_match; [done|]. rewrite length_insert. split; [|done]. by rewrite take_insert_ge.
Qed.

(** The reply to a request for the configuration lists the servers of the
    network: all of them, or when there are more than four the first two and the
    last two, in order, with their number; it always has five slots. *)
Theorem reply_config_servers servers domains timeout retry : Forall short servers ->
  let c := reply_config (servers, domains, timeout, retry) in
  take (nonPublicNum c) (nameservers c) = chosen servers /\ nonPublicNum c = length (chosen servers) /\
  length (nameservers c) = MAX_SERVER_NUM.
Proof.
  intros Hs. cbn zeta. unfold reply_config. cbn [nonPublicNum nameservers MAX_SERVER_NUM Nat.sub].
  destruct (replaced servers Hs) as (H1 & H2 & H3). rewrite <- H3.
  destruct (AddPublic_keeps (ReplaceDnsServer (fill_slots MAX_SERVER_NUM servers) servers)
    (length (chosen servers)) MAX_SERVER_NUM) as [H4 H5]. by rewrite H4, H5.
Qed.

End Replies.

(** ** Commands *)

Section Commands.
Context {AddrInfo : Type} {Sort : StdAlgo.SortAlgorithm} (hash : string -> Z) (avail : Firewall.map_name -> bool).
Context (memcpy_s : nat -> string -> string) (publicDnsServer : option string).
Abbreviation Config := (DnsResolvConfig.DnsResolvConfig AddrInfo).
Abbreviation State := (DnsParamCache AddrInfo).
Abbreviation Info := (DnsResolvConfig.AddrInfoWithTtl AddrInfo).
Implicit Types (s : State) (c : Config).

Definition query_config s (netId uid : Z) : Z * option (list string * list string * Z * Z) :=
  if IsVpnOpen s && (netId =? 0) then GetResolverConfigUid s netId uid else GetResolverConfig s netId.

Definition ProcGetConfigCommand s (netId uid : Z) : ResolvConfig * State :=
  let s := SetCallingUid s uid in
  (match query_config s netId uid with
   | (_, Some r) => reply_config memcpy_s publicDnsServer r
   | (status, None) => reply_error MAX_SERVER_NUM status
   end, s).

Definition ProcGetConfigCommandExt s (netId uid : Z) : ResolvConfig * State :=
  let s := SetCallingUid s uid in
  (match query_config s netId uid with
   | (_, Some r) => reply_config_ext memcpy_s publicDnsServer r
   | (status, None) => reply_error MAX_SERVER_NUM_EXT status
   end, s).

(** The number of answers and the answers, at most 32. *)
Definition ProcGetCacheCommand s (name : string) (netId callingUid : Z) : list AddrInfo * State :=
  let (cacheRes, s) := GetDnsCache (SetCallingUid s callingUid) netId name in
  (take MAX_RESULTS cacheRes, s).

Definition longer_ttl (a b : Info) : bool := DnsResolvConfig.ttl b <? DnsResolvConfig.ttl a.

Definition ProcSetCacheCommand s (name : string) (netId callingUid : Z) (infos : list Info) : State :=
  let s := SetCallingUid s callingUid in
  let s := foldl (fun s info => SetDnsCacheTtl s netId name info) s (StdAlgo.std_sort longer_ttl infos) in
  SetCacheDelayed s netId name.

Definition ProcSetNodataCacheCommand (now : Z) s (name : string) (netId : Z) : State :=
  SetNodataCache hash now s netId name.

(** 1 when the query for IPv6 addresses is to be skipped. *)
Definition ProcGetNodataCacheCommand (now : Z) s (netId : Z) (name : string) (uid : Z) : Z * State :=
  let (isInNodataCache, s) := IsInNodataCache hash now s netId name in
  let (isInIpv6UidBlackList, s) := IsInIpv6UidBlackList now s netId uid in
  (if isInNodataCache || isInIpv6UidBlackList then 1 else 0, s).

Definition ProcJudgeIpv6Command s (netId : Z) : Z := if IsIpv6Enable s netId then 1 else 0.
Definition ProcJudgeIpv4Command s (netId : Z) : Z := if IsIpv4Enable s netId then 1 else 0.
Definition ProcGetDefaultNetworkCommand s : Z := s32 (defaultNetId_ s).

Definition IsUserDefinedServer s (netId uid : Z) : bool :=
  match (if IsVpnOpen s && (netId =? 0) then GetUserDefinedServerFlagUid s netId uid
         else GetUserDefinedServerFlag s netId) with
  | (_, Some flag) => flag
  | (_, None) => false
  end.

(** ** Executions

    The calls other than those that store answers. *)

Inductive dns_call : State -> State -> Prop :=
  | call_create s netId vpn : dns_call s (CreateCacheForNet s netId vpn).2
  | call_destroy s netId vpn : dns_call s (DestroyNetworkCache s netId vpn).2
  | call_resolver s netId timeout retry servers domains :
      dns_call s (SetResolverConfig s netId timeout retry servers domains).2
  | call_default s netId : dns_call s (SetDefaultNetwork s netId)
  | call_ipv6 s netId enable : dns_call s (EnableIpv6 s netId enable)
  | call_ipv4 s netId : dns_call s (EnableIpv4 s netId)
  | call_clat s netId enable : dns_call s (SetClatDnsEnableIpv4 s netId enable)
  | call_rules s type rules finish : dns_call s (SetFirewallRules s type rules finish).2
  | call_clear_rules s k type : dns_call s (ClearFirewallRules avail s k type).1.2
  | call_current_user s userId : dns_call s (SetFirewallCurrentUserId s userId).2
  | call_add_range s netId ranges : dns_call s (AddUidRange s netId ranges).2
  | call_del_range s netId ranges : dns_call s (DelUidRange s netId ranges).2
  | call_user_server s netId flag : dns_call s (SetUserDefinedServerFlag s netId flag).2
  | call_flush s netId : dns_call s (FlushDnsCache s netId).2
  | call_config s netId uid : dns_call s (ProcGetConfigCommand s netId uid).2
  | call_config_ext s netId uid : dns_call s (ProcGetConfigCommandExt s netId uid).2
  | call_get_cache s name netId uid : dns_call s (ProcGetCacheCommand s name netId uid).2
  | call_set_nodata now s name netId : dns_call s (ProcSetNodataCacheCommand now s name netId)
  | call_get_nodata now s netId name uid : dns_call s (ProcGetNodataCacheCommand now s netId name uid).2
  | call_blacklist now s netIds uid : now < DnsResolvConfig.UINT64_MAX ->
      dns_call s (SetIpv6UidBlackList now s netIds uid).2.

(** [deadline a] is the second at which the answer [a] must be gone; the clocks of the
    networks count the seconds of their queues.  The answers that clients store have the
    deadline their time to live gives; those that the manager stores by [SetDnsCache] have
    none, since that call makes no expiry task for them ([set_dns_cache_stays]). *)
Context (deadline : AddrInfo -> option Z).

Definition stamped (now : Z) (info : Info) : Prop :=
  0 <= DnsResolvConfig.ttl info < 2 ^ 32 /\
  forall D, deadline (DnsResolvConfig.addrInfo info) = Some D ->
    D = now + Z.max (DnsResolvConfig.ttl info) DnsResolvConfig.DEFAULT_DELAYED_COUNT.

Inductive dns_reach : (Z -> Z) -> State -> Prop :=
  | reach_start clock : dns_reach clock new_DnsParamCache
  | reach_call clock s s' : dns_reach clock s -> dns_call s s' -> dns_reach clock s'
  | reach_set_cache clock s name netId uid infos : dns_reach clock s ->
      Forall (stamped (clock (resolve_net s netId))) infos ->
      dns_reach clock (ProcSetCacheCommand s name netId uid infos)
  | reach_set_dns_cache clock s netId name info : dns_reach clock s -> deadline info = None ->
      dns_reach clock (SetDnsCache s netId name info)
  | reach_run clock s netId c order : dns_reach clock s -> serverConfigMap_ s !! netId = Some c ->
      order ≡ₚ elements (DelayedQueue.elems_ (DnsResolvConfig.delayedQueue_ c) !!!
                         DelayedQueue.index_ (DnsResolvConfig.delayedQueue_ c)) ->
      dns_reach clock (on_config s netId (DnsResolvConfig.RunQueue order))
  | reach_second clock s netId c : dns_reach clock s -> serverConfigMap_ s !! netId = Some c ->
      DelayedQueue.waiting_ (DnsResolvConfig.delayedQueue_ c) = true ->
      dns_reach (fun n => if n =? netId then clock n + 1 else clock n)
        (on_config s netId DnsResolvConfig.AdvanceQueue)
  | reach_idle clock clock' s : dns_reach clock s ->
      (forall n, is_Some (serverConfigMap_ s !! n) -> clock' n = clock n) -> dns_reach clock' s.

(** ** The configurations stay well-formed and in time *)

Record net_ok (now : Z) c : Prop := {
  net_config : DnsResolvConfig.config_ok c;
  net_timely : DnsResolvConfig.timely deadline now c;
  net_limits : DnsResolvConfig.limits_ok c }.

(** Operations that leave the answers and their tasks alone. *)
Definition same_answers c c' : Prop :=
  DnsResolvConfig.cache_ c' = DnsResolvConfig.cache_ c /\
  DnsResolvConfig.delayedQueue_ c' = DnsResolvConfig.delayedQueue_ c /\
  DnsResolvConfig.wrappers_ c' = DnsResolvConfig.wrappers_ c /\
  DnsResolvConfig.nextWrapper_ c' = DnsResolvConfig.nextWrapper_ c.

Lemma same_answers_ok now c c' : same_answers c c' -> DnsResolvConfig.limits_ok c' -> net_ok now c -> net_ok now c'.
Proof.
  intros (E1 & E2 & E3 & E4) Hl [Hc Ht _]. split; [| |done].
  - destruct Hc. split; unfold DnsResolvConfig.the_env in *; by rewrite ?E1, ?E2, ?E3, ?E4.
  - unfold DnsResolvConfig.timely, DnsResolvConfig.seconds, DnsResolvConfig.the_env in *. by rewrite E1, E2, E3.
Qed.

Lemma net_ok_new now n : net_ok now (DnsResolvConfig.SetNetId DnsResolvConfig.new_DnsResolvConfig n).
Proof.
  apply (same_answers_ok _ DnsResolvConfig.new_DnsResolvConfig); [done| |].
  { destruct (DnsResolvConfig.limits_new (AddrInfo := AddrInfo)). by split. }
  split; [apply DnsResolvConfig.config_ok_new| |apply DnsResolvConfig.limits_new]. intros h. constructor.
Qed.

Lemma net_ok_clear now c : net_ok now c -> net_ok now (DnsResolvConfig.ClearCaches c).
Proof.
  intros [Hc Ht Hl]. destruct (LruCache.Clear_refines (DnsResolvConfig.cache_ c)) as (_ & Hr & _).
  assert (Hok : DnsResolvConfig.cache_ok (LruCache.Clear (DnsResolvConfig.cache_ c)))
    by (apply DnsResolvConfig.ok_clear; apply Hc).
  eapply (same_answers_ok _ (DnsResolvConfig.with_cache c (LruCache.Clear (DnsResolvConfig.cache_ c))));
    [done|apply DnsResolvConfig.ClearCaches_limits|].
  split; [by apply DnsResolvConfig.with_cache_ok| |by destruct Hl].
  apply DnsResolvConfig.with_cache_timely; [done|]. intros h. right. unfold LruCache.entries. by rewrite Hr.
Qed.

Definition nets_ok (clock : Z -> Z) s : Prop := forall n c, serverConfigMap_ s !! n = Some c -> net_ok (clock n) c.

Lemma nets_ok_same clock s s' : serverConfigMap_ s' = serverConfigMap_ s -> nets_ok clock s -> nets_ok clock s'.
Proof. unfold nets_ok. by intros ->. Qed.

Lemma nets_ok_insert clock s n c : nets_ok clock s -> net_ok (clock n) c ->
  nets_ok clock (with_configs s (<[n := c]> (serverConfigMap_ s))).
Proof. intros Hs Hc n' c' H. cbn in H. apply lookup_insert_Some in H as [[<- <-]|[_ H]]; [done|by apply Hs]. Qed.

Lemma nets_ok_clear clock s : nets_ok clock s -> nets_ok clock (ClearAllDnsCache s).
Proof.
  intros Hs n c H. cbn in H. rewrite lookup_fmap in H. apply fmap_Some in H as (c0 & H & ->).
  by apply net_ok_clear, Hs.
Qed.

Lemma nets_ok_on clock s n f :
  (forall c, serverConfigMap_ s !! n = Some c -> net_ok (clock n) c -> net_ok (clock n) (f c)) ->
  nets_ok clock s -> nets_ok clock (on_config s n f).
Proof.
  intros Hf Hs. unfold on_config. destruct (serverConfigMap_ s !! n) as [c|] eqn:E; [|done].
  apply nets_ok_insert; [done|]. apply Hf; [done|by apply Hs].
Qed.

(** Settings: neither the answers nor the lists change. *)
Lemma net_ok_setting now c c' : same_answers c c' ->
  DnsResolvConfig.nodataCache_ c' = DnsResolvConfig.nodataCache_ c ->
  DnsResolvConfig.ipv6UidBlackList_ c' = DnsResolvConfig.ipv6UidBlackList_ c -> net_ok now c -> net_ok now c'.
Proof.
  intros Ha E1 E2 Hc. eapply same_answers_ok; [done| |done]. destruct (net_limits now c Hc).
  split; by rewrite ?E1, ?E2.
Qed.

Lemma net_ok_get now c h : net_ok now c ->
  net_ok now (DnsResolvConfig.with_cache c (LruCache.Get (DnsResolvConfig.cache_ c) h).2).
Proof.
  intros [Hc Ht Hl]. pose proof (DnsResolvConfig.ok_env c Hc) as [Hok _].
  destruct (DnsResolvConfig.ok_get (DnsResolvConfig.cache_ c) h Hok) as (Hok' & _ & He).
  split; [by apply DnsResolvConfig.with_cache_ok| |by destruct Hl].
  apply DnsResolvConfig.with_cache_timely; [done|]. intros h'. left. apply He.
Qed.

Lemma nets_ok_get clock s netId h : nets_ok clock s -> nets_ok clock (GetDnsCache s netId h).2.
Proof.
  intros Hs. unfold GetDnsCache. destruct (serverConfigMap_ s !! resolve_net s netId) as [c|] eqn:E; [|done].
  pose proof (net_ok_get _ c h (Hs _ _ E)) as H. destruct (LruCache.Get (DnsResolvConfig.cache_ c) h).
  by apply nets_ok_insert.
Qed.

Lemma SetIpv6UidBlackList_same now c uid : same_answers c (DnsResolvConfig.SetIpv6UidBlackList now c uid).
Proof. unfold DnsResolvConfig.SetIpv6UidBlackList. by repeat case_match. Qed.

Lemma nets_ok_blacklist clock now s nets uid : now < DnsResolvConfig.UINT64_MAX -> nets_ok clock s ->
  nets_ok clock (foldl (fun s n => on_config s (u16 n) (fun c => DnsResolvConfig.SetIpv6UidBlackList now c uid)) s nets).
Proof.
  intros Hn. revert s. induction nets as [|n nets IH]; intros s Hs; [done|]. cbn [foldl]. apply IH.
  apply nets_ok_on; [|done]. intros c _ Hc. eapply same_answers_ok; [apply SetIpv6UidBlackList_same| |done].
  apply DnsResolvConfig.SetIpv6UidBlackList_limits; [done|by eapply net_limits].
Qed.

Lemma nets_ok_nodata clock now s netId h : nets_ok clock s -> nets_ok clock (IsInNodataCache hash now s netId h).2.
Proof.
  intros Hs. unfold IsInNodataCache. destruct (serverConfigMap_ s !! resolve_net s netId) as [c|] eqn:E; [|done].
  assert (H : net_ok (clock (resolve_net s netId)) (DnsResolvConfig.IsInNodataCache hash now c h).2).
  { eapply same_answers_ok; [|apply DnsResolvConfig.IsInNodataCache_limits; by eapply net_limits, Hs|by apply Hs].
    unfold DnsResolvConfig.IsInNodataCache. by repeat case_match. }
  destruct (DnsResolvConfig.IsInNodataCache hash now c h). by apply nets_ok_insert.
Qed.

Lemma nets_ok_in_blacklist clock now s netId uid : nets_ok clock s ->
  nets_ok clock (IsInIpv6UidBlackList now s netId uid).2.
Proof.
  intros Hs. unfold IsInIpv6UidBlackList. destruct (serverConfigMap_ s !! resolve_net s netId) as [c|] eqn:E; [|done].
  assert (H : net_ok (clock (resolve_net s netId)) (DnsResolvConfig.IsInIpv6UidBlackList now c uid).2).
  { eapply same_answers_ok; [|apply DnsResolvConfig.IsInIpv6UidBlackList_limits; by eapply net_limits, Hs|by apply Hs].
    unfold DnsResolvConfig.IsInIpv6UidBlackList. by repeat case_match. }
  destruct (DnsResolvConfig.IsInIpv6UidBlackList now c uid). by apply nets_ok_insert.
Qed.

Lemma dns_call_ok clock s s' : dns_call s s' -> nets_ok clock s -> nets_ok clock s'.
Proof.
  destruct 1; intros Hs.
  - unfold CreateCacheForNet. destruct (serverConfigMap_ s !! netId); [done|].
    assert (nets_ok clock (with_configs s (<[netId := DnsResolvConfig.SetNetId DnsResolvConfig.new_DnsResolvConfig netId]>
      (serverConfigMap_ s)))) by (apply nets_ok_insert; [done|apply net_ok_new]).
    destruct vpn; [by apply nets_ok_clear|done].
  - unfold DestroyNetworkCache. destruct (serverConfigMap_ s !! netId); [|done]. cbn [snd].
    set (s1 := with_configs s (delete netId (serverConfigMap_ s))).
    assert (H1 : nets_ok clock s1).
    { intros n c' E. cbn in E. apply lookup_delete_Some in E as [_ E]. by apply Hs. }
    assert (H2 : nets_ok clock (if defaultNetId_ s1 =? netId then SetDefaultNetwork s1 0 else s1))
      by (case_match; [by apply (nets_ok_same _ s1)|done]).
    destruct vpn; [by apply nets_ok_clear|done].
  - unfold SetResolverConfig. destruct (serverConfigMap_ s !! netId) as [c|] eqn:E; [|done]. cbn [snd].
    apply nets_ok_insert; [done|]. pose proof (Hs _ _ E) as Hc.
    set (c1 := if decide _ then c else DnsResolvConfig.ClearCaches c).
    assert (H1 : net_ok (clock netId) c1) by (unfold c1; case_decide; [done|by apply net_ok_clear]).
    eapply (net_ok_setting _ c1); [..|exact H1]; by destruct (DnsResolvConfig.netIdIsSet_ c1) eqn:Es;
      unfold DnsResolvConfig.SetNetId, same_answers; rewrite Es.
  - by apply (nets_ok_same _ s).
  - apply nets_ok_on; [|done]. intros c _. by apply net_ok_setting.
  - apply nets_ok_on; [|done]. intros c _. by apply net_ok_setting.
  - unfold SetClatDnsEnableIpv4. case_match; [done|]. apply nets_ok_on; [|done]. intros c _. by apply net_ok_setting.
  - unfold SetFirewallRules. destruct rules as [|r rules]; [done|]. destruct type; try done.
    + by apply nets_ok_clear.
    + by destruct finish; apply (nets_ok_same _ s).
  - destruct type; by apply (nets_ok_same _ s).
  - apply nets_ok_clear. by apply (nets_ok_same _ s).
  - by apply (nets_ok_same _ s).
  - by apply (nets_ok_same _ s).
  - unfold SetUserDefinedServerFlag. destruct (serverConfigMap_ s !! netId) as [c|] eqn:E; [|done].
    apply nets_ok_insert; [done|]. eapply (net_ok_setting _ c); [done..|by apply Hs].
  - unfold FlushDnsCache. destruct (serverConfigMap_ s !! resolve_net s netId) as [c|] eqn:E; [|done].
    apply nets_ok_insert; [done|]. by apply net_ok_clear, Hs.
  - by apply (nets_ok_same _ s).
  - by apply (nets_ok_same _ s).
  - unfold ProcGetCacheCommand. pose proof (nets_ok_get clock (SetCallingUid s uid) netId name) as Hg.
    destruct (GetDnsCache (SetCallingUid s uid) netId name). apply Hg. by apply (nets_ok_same _ s).
  - apply nets_ok_on; [|done]. intros c _ Hc. eapply same_answers_ok; [| |exact Hc].
    + unfold DnsResolvConfig.SetNodataCache. by repeat case_match.
    + apply DnsResolvConfig.SetNodataCache_limits. by eapply net_limits.
  - unfold ProcGetNodataCacheCommand. pose proof (nets_ok_nodata clock now s netId name Hs) as H1.
    destruct (IsInNodataCache hash now s netId name) as [b s1].
    pose proof (nets_ok_in_blacklist clock now s1 netId uid H1) as H2.
    by destruct (IsInIpv6UidBlackList now s1 netId uid).
  - by apply nets_ok_blacklist.
Qed.

(** ** Storing answers *)

Lemma on_config_id s n : on_config s n (fun c => c) = s.
Proof. unfold on_config. destruct (serverConfigMap_ s !! n) eqn:E; [|done]. destruct s. cbn in *. by rewrite insert_id. Qed.

Lemma on_config_compose s n f g : on_config (on_config s n f) n g = on_config s n (fun c => g (f c)).
Proof.
  unfold on_config. destruct (serverConfigMap_ s !! n) as [c|] eqn:E; [|by rewrite E]. cbn.
  rewrite lookup_insert_eq. unfold with_configs. cbn. by rewrite insert_insert_eq.
Qed.

Lemma resolve_net_on s n f netId : resolve_net (on_config s n f) netId = resolve_net s netId.
Proof. unfold on_config. by destruct (serverConfigMap_ s !! n). Qed.

(** What is stored of the answers of a command: those that may be cached at all, for
    ten minutes at least. *)
Definition stored_infos (infos : list Info) : list Info :=
  (fun info => DnsResolvConfig.mkTtl (DnsResolvConfig.addrInfo info)
     (if DnsResolvConfig.DEFAULT_DELAYED_COUNT <? DnsResolvConfig.ttl info then DnsResolvConfig.ttl info
      else DnsResolvConfig.DEFAULT_DELAYED_COUNT)) <$> filter (fun info => DnsResolvConfig.ttl info <> 0) infos.

Definition put_all (name : string) (infos : list Info) c : Config :=
  DnsResolvConfig.with_cache c (foldl (fun cache i => LruCache.Put cache name i) (DnsResolvConfig.cache_ c) infos).

Lemma with_cache_same c : DnsResolvConfig.with_cache c (DnsResolvConfig.cache_ c) = c.
Proof. by destruct c. Qed.

Lemma SetDnsCacheTtl_all netId name infos : forall s,
  foldl (fun s info => SetDnsCacheTtl s netId name info) s infos =
  on_config s (resolve_net s netId) (put_all name (stored_infos infos)).
Proof.
  induction infos as [|i infos IH]; intros s; cbn [foldl].
  - transitivity (on_config s (resolve_net s netId) (fun c => c)); [by rewrite on_config_id|].
    unfold on_config. destruct (serverConfigMap_ s !! resolve_net s netId); [|done].
    unfold put_all. cbn. by rewrite with_cache_same.
  - rewrite IH. unfold SetDnsCacheTtl, stored_infos. destruct (Z.eqb_spec (DnsResolvConfig.ttl i) 0) as [E|E].
    + rewrite (filter_cons_False _ i) by tauto. done.
    + rewrite resolve_net_on, on_config_compose, (filter_cons_True _ i) by done. done.
Qed.

Lemma ProcSetCacheCommand_eq s name netId uid infos :
  ProcSetCacheCommand s name netId uid infos =
  on_config (SetCallingUid s uid) (resolve_net s netId)
    (fun c => DnsResolvConfig.SetCacheDelayed (put_all name (stored_infos (StdAlgo.std_sort longer_ttl infos)) c) name).
Proof.
  unfold ProcSetCacheCommand, SetCacheDelayed. rewrite SetDnsCacheTtl_all, resolve_net_on, on_config_compose. done.
Qed.

Lemma put_list name infos : Forall DnsResolvConfig.ttl_ok infos -> forall cache, DnsResolvConfig.cache_ok cache ->
  let cache' := foldl (fun cache i => LruCache.Put cache name i) cache infos in
  DnsResolvConfig.cache_ok cache' /\ LruCache.entries cache' name = LruCache.entries cache name ++ infos /\
  @DnsResolvConfig.others_kept AddrInfo name cache cache'.
Proof.
  induction 1 as [|i infos Hi Hf IH]; intros cache Hc; cbn zeta in *; cbn [foldl].
  - rewrite app_nil_r. split_and!; [done|done|by left].
  - destruct (DnsResolvConfig.ok_put cache name i Hc Hi) as (H1 & E1 & O1).
    destruct (IH _ H1) as (H2 & E2 & O2). split_and!; [done|by rewrite E2, E1, <- app_assoc|].
    intros h Hh. destruct (O2 h Hh) as [->| ->]; [by apply O1|by right].
Qed.

Lemma limits_with_cache c cache : DnsResolvConfig.limits_ok c -> DnsResolvConfig.limits_ok (DnsResolvConfig.with_cache c cache).
Proof. by intros []. Qed.

Lemma SetCacheDelayed_limits c h : DnsResolvConfig.limits_ok c -> DnsResolvConfig.limits_ok (DnsResolvConfig.SetCacheDelayed c h).
Proof.
  intros []. unfold DnsResolvConfig.SetCacheDelayed.
  destruct (DnsResolvConfig.GetUpdateTime _ _) as [[t w] cache]. by case_match.
Qed.

Lemma stored_stamped now infos : Forall (stamped now) infos ->
  Forall (fun i => DnsResolvConfig.ttl_ok i /\ forall D, deadline (DnsResolvConfig.addrInfo i) = Some D ->
    DnsResolvConfig.ttl i <= D - now) (stored_infos infos).
Proof.
  intros Hf. unfold stored_infos. apply Forall_fmap. apply (Forall_impl (stamped now)).
  - rewrite Forall_forall in Hf |- *. intros i Hi. apply list_elem_of_filter in Hi as [_ Hi]. by apply Hf.
  - intros i [Ht HD]. unfold compose, DnsResolvConfig.ttl_ok.
    cbn [DnsResolvConfig.ttl DnsResolvConfig.addrInfo].
    assert (E : DnsResolvConfig.DEFAULT_DELAYED_COUNT = 600) by done. rewrite E in *.
    destruct (Z.ltb_spec 600 (DnsResolvConfig.ttl i)); (split; [lia|]); intros D HD'; specialize (HD D HD'); lia.
Qed.

Lemma net_ok_set_cache now c name infos : net_ok now c -> Forall (stamped now) infos ->
  net_ok now (DnsResolvConfig.SetCacheDelayed (put_all name (stored_infos infos) c) name).
Proof.
  intros [Hc Ht Hl] Hf. pose proof (stored_stamped now infos Hf) as Hst.
  assert (Hok : Forall DnsResolvConfig.ttl_ok (stored_infos infos)) by (eapply Forall_impl; [exact Hst|]; by intros ? []).
  pose proof (DnsResolvConfig.ok_env c Hc) as [Hcache _]. cbn [DnsResolvConfig.the_env fst] in Hcache.
  destruct (put_list name _ Hok _ Hcache) as (H1 & E1 & O1). unfold put_all.
  set (cache' := foldl _ (DnsResolvConfig.cache_ c) (stored_infos infos)) in *.
  destruct (DnsResolvConfig.SetCacheDelayed_ok deadline (DnsResolvConfig.with_cache c cache') name) as [H2 H3];
    [by apply DnsResolvConfig.with_cache_ok|].
  split; [done| |by apply SetCacheDelayed_limits, limits_with_cache]. apply H3. intros h. cbn [DnsResolvConfig.cache_ DnsResolvConfig.with_cache].
  assert (Hold : Forall (fun a => DnsResolvConfig.covered deadline now
     (DnsResolvConfig.seconds (DnsResolvConfig.with_cache c cache'))
     (DnsResolvConfig.the_env (DnsResolvConfig.with_cache c cache')) h a) (LruCache.entries (DnsResolvConfig.cache_ c) h)).
  { eapply Forall_impl; [apply Ht|]. intros a Ha D HD. apply (Ha D HD). }
  destruct (decide (h = name)) as [->|Hh].
  - rewrite E1. apply Forall_app. split; [eapply Forall_impl; [exact Hold|]; by left|].
    eapply Forall_impl; [exact Hst|]. intros a [_ Ha]. by right.
  - destruct (O1 h Hh) as [->| ->]; [|constructor]. eapply Forall_impl; [exact Hold|]. by left.
Qed.

Lemma net_ok_put now c name info : net_ok now c -> deadline info = None ->
  net_ok now (DnsResolvConfig.with_cache c (LruCache.Put (DnsResolvConfig.cache_ c) name
    (DnsResolvConfig.mkTtl info DnsResolvConfig.DEFAULT_DELAYED_COUNT))).
Proof.
  intros [Hc Ht Hl] Hd. pose proof (DnsResolvConfig.ok_env c Hc) as [Hcache _].
  destruct (DnsResolvConfig.ok_put (DnsResolvConfig.cache_ c) name
    (DnsResolvConfig.mkTtl info DnsResolvConfig.DEFAULT_DELAYED_COUNT) Hcache) as (H1 & E1 & O1); [done|].
  split; [by apply DnsResolvConfig.with_cache_ok| |by apply limits_with_cache].
  intros h. destruct (decide (h = name)) as [->|Hh]; cbn.
  - rewrite E1. apply Forall_app. split; [eapply Forall_impl; [apply Ht|]; intros a Ha D HD; apply (Ha D HD)|].
    constructor; [|constructor]. intros D HD. cbn in HD. congruence.
  - destruct (O1 h Hh) as [->| ->]; [|constructor]. eapply Forall_impl; [apply Ht|]. intros a Ha D HD. apply (Ha D HD).
Qed.

Lemma RunQueue_limits order c : DnsResolvConfig.limits_ok c -> DnsResolvConfig.limits_ok (DnsResolvConfig.RunQueue order c).
Proof. intros []. unfold DnsResolvConfig.RunQueue. by destruct (DelayedQueue.RunSlot _ _ _ _ _). Qed.

Lemma stamped_sorted now infos : Forall (stamped now) infos -> Forall (stamped now) (StdAlgo.std_sort longer_ttl infos).
Proof. by rewrite StdAlgo.std_sort_Permutation. Qed.

Lemma dns_reach_ok clock s : dns_reach clock s -> nets_ok clock s.
Proof.
  induction 1 as [clock|clock s s' Hr IH Hc|clock s name netId uid infos Hr IH Hf|clock s netId name info Hr IH Hd
    |clock s netId c order Hr IH Hc Ho|clock s netId c Hr IH Hc Hw|clock clock' s Hr IH Hk].
  - intros n c E. cbn in E. by rewrite lookup_empty in E.
  - by eapply dns_call_ok.
  - rewrite ProcSetCacheCommand_eq. apply nets_ok_on; [|by apply (nets_ok_same _ s)].
    intros c _ Hn. by apply net_ok_set_cache; [|apply stamped_sorted].
  - apply nets_ok_on; [|done]. intros c _ Hn. by apply net_ok_put.
  - apply nets_ok_on; [|done]. intros c' E [H1 H2 H3]. simplify_eq.
    destruct (DnsResolvConfig.RunQueue_ok deadline order c H1 Ho) as (H4 & _ & H5).
    split; [done|by apply H5|by apply RunQueue_limits].
  - unfold on_config. rewrite Hc. intros n c' E. cbn in E. apply lookup_insert_Some in E as [[<- <-]|[Hne E]].
    + rewrite Z.eqb_refl. destruct (IH _ _ Hc) as [H1 H2 H3].
      destruct (DnsResolvConfig.AdvanceQueue_ok deadline c H1 Hw) as [H4 H5]. split; [done|by apply H5|by destruct H3].
    + rewrite (proj2 (Z.eqb_neq n netId)) by congruence. by apply IH.
  - intros n c E. rewrite Hk by (by exists c). by apply IH.
Qed.

(** C16: no answer that a client stored is served after its time: whatever clients,
    managers and expiry threads do, an answer stored by the command SET_CACHE (one
    that has a deadline) that a lookup returns has not passed the second at which
    its time to live (ten minutes at least) ended, and is strictly before it once
    the expiry thread of the network has handled the current second.  Answers that
    the manager stores by [SetDnsCache] are not covered: they get no expiry task and
    are served until they are flushed or displaced ([set_dns_cache_stays]). *)
Theorem no_stale_answer clock s netId name c a D : dns_reach clock s ->
  serverConfigMap_ s !! resolve_net s netId = Some c -> a ∈ (GetDnsCache s netId name).1 -> deadline a = Some D ->
  clock (resolve_net s netId) <= D /\
  (DelayedQueue.waiting_ (DnsResolvConfig.delayedQueue_ c) = true -> clock (resolve_net s netId) < D).
Proof.
  intros Hr Hc Ha HD. destruct (dns_reach_ok clock s Hr _ _ Hc) as [H1 H2 _].
  unfold GetDnsCache in Ha. rewrite Hc in Ha.
  pose proof (DnsResolvConfig.ok_env c H1) as [Hok _].
  destruct (DnsResolvConfig.ok_get (DnsResolvConfig.cache_ c) name Hok) as (_ & Hg & _).
  destruct (LruCache.Get (DnsResolvConfig.cache_ c) name) as [infos cache]. cbn [fst] in *. subst infos.
  apply list_elem_of_fmap in Ha as (i & -> & Hi). by eapply DnsResolvConfig.timely_served.
Qed.

(** C36: what the resolver keeps per network is bounded: at most 100 hosts with
    answers, 100 hosts without IPv6 addresses and 32 users that skip IPv6
    queries, however many are reported (times are below the largest 64-bit
    number). *)
Theorem resolver_bounded clock s netId c : dns_reach clock s -> serverConfigMap_ s !! netId = Some c ->
  (size (LruCache.cache_ (DnsResolvConfig.cache_ c)) <= 100)%nat /\
  length (LruCache.nodeList_ (DnsResolvConfig.cache_ c)) = size (LruCache.cache_ (DnsResolvConfig.cache_ c)) /\
  (length (DnsResolvConfig.nodataCache_ c) <= 100)%nat /\
  (size (DnsResolvConfig.ipv6UidBlackList_ c) <= 32)%nat.
Proof.
  intros Hr Hc. destruct (dns_reach_ok clock s Hr _ _ Hc) as [H1 _ H3].
  pose proof (DnsResolvConfig.ok_env c H1) as [Hok _]. cbn [DnsResolvConfig.the_env fst] in Hok.
  destruct (LruCache.lru_inv_bounds _ (DnsResolvConfig.ok_lru _ Hok)) as [Hb Hs].
  rewrite (DnsResolvConfig.ok_capacity _ Hok) in Hb. unfold LruCache.recency in Hb, Hs. rewrite length_fmap in Hb, Hs.
  destruct H3 as [H3 _ H4 _]. split_and!; [rewrite Hs; exact Hb|done|exact H3|exact H4].
Qed.

(** ** Ranges of the VPNs *)

Abbreviation sorted_ranges := (StronglySorted (StdAlgo.not_after range_lt)).

Lemma on_config_ranges s n f : vpnUidRanges_ (on_config s n f) = vpnUidRanges_ s.
Proof. unfold on_config. by destruct (serverConfigMap_ s !! n). Qed.

Lemma blacklist_ranges now nets uid : forall s, vpnUidRanges_
  (foldl (fun s n => on_config s (u16 n) (fun c => DnsResolvConfig.SetIpv6UidBlackList now c uid)) s nets) = vpnUidRanges_ s.
Proof. induction nets as [|n nets IH]; intros s; [done|]. cbn [foldl]. by rewrite IH, on_config_ranges. Qed.

Lemma nodata_ranges now s netId h : vpnUidRanges_ (IsInNodataCache hash now s netId h).2 = vpnUidRanges_ s.
Proof.
  unfold IsInNodataCache. destruct (serverConfigMap_ s !! resolve_net s netId) as [c|]; [|done].
  by destruct (DnsResolvConfig.IsInNodataCache hash now c h).
Qed.

Lemma in_blacklist_ranges now s netId uid : vpnUidRanges_ (IsInIpv6UidBlackList now s netId uid).2 = vpnUidRanges_ s.
Proof.
  unfold IsInIpv6UidBlackList. destruct (serverConfigMap_ s !! resolve_net s netId) as [c|]; [|done].
  by destruct (DnsResolvConfig.IsInIpv6UidBlackList now c uid).
Qed.

Lemma dns_call_sorted s s' : dns_call s s' -> sorted_ranges (vpnUidRanges_ s) -> sorted_ranges (vpnUidRanges_ s').
Proof.
  destruct 1; intros Hs; try done; try (unfold EnableIpv6, EnableIpv4, ProcSetNodataCacheCommand, SetNodataCache;
    by rewrite on_config_ranges).
  - unfold CreateCacheForNet. by destruct (serverConfigMap_ s !! netId), vpn.
  - unfold DestroyNetworkCache. destruct (serverConfigMap_ s !! netId); [|done]. cbn [snd].
    by destruct (defaultNetId_ _ =? netId), vpn.
  - unfold SetResolverConfig. by destruct (serverConfigMap_ s !! netId).
  - unfold SetClatDnsEnableIpv4. case_match; by rewrite ?on_config_ranges.
  - unfold SetFirewallRules. by destruct rules, type, finish.
  - by destruct type.
  - cbn. destruct ranges as [|r ranges].
    + eapply StdAlgo.sorted_sublist; [apply sublist_filter|done].
    + apply StdAlgo.merge_sorted; [apply _|eapply StdAlgo.sorted_sublist; [apply sublist_filter|done]|].
      apply StdAlgo.std_sort_sorted, _.
  - cbn. eapply StdAlgo.sorted_sublist; [apply StdAlgo.set_difference_sublist|done].
  - unfold SetUserDefinedServerFlag. by destruct (serverConfigMap_ s !! netId).
  - unfold FlushDnsCache. by destruct (serverConfigMap_ s !! resolve_net s netId).
  - unfold ProcGetCacheCommand, GetDnsCache. destruct (serverConfigMap_ (SetCallingUid s uid) !! _) as [c|]; [|done].
    by destruct (LruCache.Get (DnsResolvConfig.cache_ c) name).
  - unfold ProcGetNodataCacheCommand. pose proof (nodata_ranges now s netId name) as E1.
    destruct (IsInNodataCache hash now s netId name) as [b s1]. pose proof (in_blacklist_ranges now s1 netId uid) as E2.
    destruct (IsInIpv6UidBlackList now s1 netId uid). cbn [snd] in *. congruence.
  - cbn. by rewrite blacklist_ranges.
Qed.

Lemma dns_reach_sorted clock s : dns_reach clock s -> sorted_ranges (vpnUidRanges_ s).
Proof.
  induction 1 as [clock|clock s s' Hr IH Hc|clock s name netId uid infos Hr IH Hf|clock s netId name info Hr IH Hd
    |clock s netId c order Hr IH Hc Ho|clock s netId c Hr IH Hc Hw|clock clock' s Hr IH Hk]; [constructor|..].
  - by eapply dns_call_sorted.
  - rewrite ProcSetCacheCommand_eq. by rewrite on_config_ranges.
  - unfold SetDnsCache. by rewrite on_config_ranges.
  - by rewrite on_config_ranges.
  - by rewrite on_config_ranges.
  - done.
Qed.

(** A range that the user is in, of a network that has a configuration. *)
Definition usable s (uid : Z) (mem : UidRange) c : Prop :=
  covers uid mem = true /\ serverConfigMap_ s !! u16 (rangeNetId_ mem) = Some c.

Lemma first_range_spec {R} s uid (f : Config -> R) ranges : sorted_ranges ranges ->
  match first_range s uid f ranges with
  | Some r => exists mem c, mem ∈ ranges /\ usable s uid mem c /\ r = f c /\
      forall mem' c', mem' ∈ ranges -> usable s uid mem' c' -> StdAlgo.not_after range_lt mem mem'
  | None => forall mem c, mem ∈ ranges -> ~ usable s uid mem c
  end.
Proof.
  intros Hs. induction ranges as [|m ranges IH]; cbn; [set_solver|].
  apply StronglySorted_inv in Hs as [Hs Hf]. specialize (IH Hs). rewrite Forall_forall in Hf.
  destruct (covers uid m) eqn:Ec; [destruct (serverConfigMap_ s !! u16 (rangeNetId_ m)) as [c|] eqn:Em|].
  - exists m, c. split_and!; [left|done|done|]. intros m' c' [->|Hin]%elem_of_cons _; [apply StdAlgo.swo_irrefl|by apply Hf].
  - assert (Hno : forall c, ~ usable s uid m c) by (intros c [_ E]; congruence).
    destruct (first_range s uid f ranges).
    + destruct IH as (mem & c & Hin & Hu & -> & Hmin). exists mem, c. split_and!; [by right|done|done|].
      intros m' c' [->|Hin']%elem_of_cons Hu'; [by apply Hno in Hu'|by eapply Hmin].
    + intros m' c' [->|Hin]%elem_of_cons; [apply Hno|by apply IH].
  - assert (Hno : forall c, ~ usable s uid m c) by (intros c [E _]; congruence).
    destruct (first_range s uid f ranges).
    + destruct IH as (mem & c & Hin & Hu & -> & Hmin). exists mem, c. split_and!; [by right|done|done|].
      intros m' c' [->|Hin']%elem_of_cons Hu'; [by apply Hno in Hu'|by eapply Hmin].
    + intros m' c' [->|Hin]%elem_of_cons; [apply Hno|by apply IH].
Qed.

Lemma not_after_priority m m' : StdAlgo.not_after range_lt m m' -> priorityId_ m' <= priorityId_ m.
Proof.
  unfold StdAlgo.not_after, range_lt. destruct (Z.eqb_spec (priorityId_ m') (priorityId_ m)); [lia|].
  intros H. apply Z.ltb_ge in H. lia.
Qed.

(** An application in the range of a VPN gets the configuration of a VPN: among
    the ranges it is in whose networks are configured, that of a range with the
    highest priority; its request is answered from there unless that network has
    no servers. *)
Theorem vpn_highest_priority clock s uid mem0 c0 : dns_reach clock s -> vpnNetId_ s <> [] ->
  mem0 ∈ vpnUidRanges_ s -> usable s uid mem0 c0 ->
  exists mem c, mem ∈ vpnUidRanges_ s /\ usable s uid mem c /\
    (forall mem' c', mem' ∈ vpnUidRanges_ s -> usable s uid mem' c' -> priorityId_ mem' <= priorityId_ mem) /\
    (servers_of s c <> [] -> forall netId,
       GetResolverConfigUid s netId uid =
         (0, Some (servers_of s c, DnsResolvConfig.searchDomains_ c, DnsResolvConfig.GetTimeoutMsec c,
                   DnsResolvConfig.retryCount_ c))).
Proof.
  intros Hr Hv Hin Hu. pose proof (first_range_spec s uid (fun c => c) _ (dns_reach_sorted clock s Hr)) as H.
  unfold GetResolverConfigUid, GetVpnResolverConfig.
  destruct (first_range s uid (fun c => c) (vpnUidRanges_ s)) as [r|]; [|by eapply H in Hu].
  destruct H as (mem & c & Hm & Hmu & -> & Hmin). exists mem, c. split_and!; [done|done| |].
  - intros mem' c' Hin' Hu'. apply not_after_priority. by eapply Hmin.
  - intros Hne netId. destruct (vpnNetId_ s); [done|]. by destruct (servers_of s c).
Qed.

End Commands.

(** ** Executions on concrete inputs

    Answers are numbers; the answer is its own deadline. *)

Section Concrete.
#[local] Existing Instance StdAlgo.insertion_sort.

Abbreviation ZState := (DnsParamCache Z).
Definition the_hash (h : string) : Z := Z.of_nat (String.length h).
Definition the_avail (m : Firewall.map_name) : bool := true.
Definition the_memcpy (n : nat) (s : string) : string := s.
Definition the_deadline (a : Z) : option Z := if a <? 0 then None else Some a.

Abbreviation reach := (dns_reach the_hash the_avail the_memcpy None the_deadline).

(** A second of the queue of a network. *)
Definition config_tick (c : DnsResolvConfig.DnsResolvConfig Z) : DnsResolvConfig.DnsResolvConfig Z :=
  let c := DnsResolvConfig.AdvanceQueue c in
  DnsResolvConfig.RunQueue (elements (DelayedQueue.elems_ (DnsResolvConfig.delayedQueue_ c) !!!
    DelayedQueue.index_ (DnsResolvConfig.delayedQueue_ c))) c.
Definition ticks (n : nat) (s : ZState) (netId : Z) : ZState := on_config s netId (Nat.iter n config_tick).

Definition net100 : ZState := SetDefaultNetwork (CreateCacheForNet new_DnsParamCache 100 false).2 100.
Definition answered : ZState :=
  ProcSetCacheCommand net100 "example.org" 0 0 [DnsResolvConfig.mkTtl 700 700; DnsResolvConfig.mkTtl 600 30].

Lemma net100_reach : reach (fun _ => 0) net100.
Proof.
  eapply reach_call; [|apply call_default]. eapply reach_call; [|apply call_create]. apply reach_start.
Qed.

Lemma answered_reach : reach (fun _ => 0) answered.
Proof.
  apply reach_set_cache; [apply net100_reach|].
  repeat constructor; cbn; try lia; intros D E; injection E as <-; reflexivity.
Qed.

Lemma no_stale_answer_witness :
  (GetDnsCache answered 100 "example.org").1 = [700; 600] /\ 0 <= 700.
Proof.
  split; [by vm_compute|].
  destruct (serverConfigMap_ answered !! resolve_net answered 100) as [c|] eqn:E; [|by vm_compute in E].
  apply (no_stale_answer the_hash the_avail the_memcpy None the_deadline (fun _ => 0) answered 100 "example.org" c 700 700);
    [apply answered_reach|done|vm_compute; left|done].
Defined.

Lemma resolver_bounded_witness : exists c, serverConfigMap_ answered !! 100 = Some c /\
  (size (LruCache.cache_ (DnsResolvConfig.cache_ c)) <= 100)%nat.
Proof.
  destruct (serverConfigMap_ answered !! 100) as [c|] eqn:E; [|by vm_compute in E]. exists c. split; [done|].
  apply (resolver_bounded the_hash the_avail the_memcpy None the_deadline (fun _ => 0) answered 100 c);
    [apply answered_reach|done].
Defined.

(** Answers that arrive later are aged by the task of an earlier answer for its
    whole period: the second answer, good for 1200 seconds from second 300 on, is
    gone at second 900. *)
Lemma answers_expire_early :
  let s := on_config net100 100 (fun c => DnsResolvConfig.RunQueue [] c) in
  let s := ProcSetCacheCommand s "h" 100 0 [DnsResolvConfig.mkTtl 600 600] in
  let s := ticks 300 s 100 in
  let s := ProcSetCacheCommand s "h" 100 0 [DnsResolvConfig.mkTtl 1500 1200] in
  (GetDnsCache (ticks 599 s 100) 100 "h").1 = [1500] /\ (GetDnsCache (ticks 600 s 100) 100 "h").1 = [].
Proof. by vm_compute. Qed.

(** An answer stored by the service call [SetDnsCache] gets a time to live and no
    task: it is still served after an hour. *)
Lemma set_dns_cache_stays :
  let s := on_config net100 100 (fun c => DnsResolvConfig.RunQueue [] c) in
  let s := SetDnsCache s 100 "h" 7 in
  (GetDnsCache (ticks 3600 s 100) 100 "h").1 = [7].
Proof. by vm_compute. Qed.

Definition vpn_ranges : ZState :=
  (AddUidRange (AddUidRange net100 100 [mkRange 5 9 1 100; mkRange 20 30 1 100]).2 101 [mkRange 0 10 7 101]).2.

(** Network 101 has the higher priority and no configuration. *)
Lemma vpn_highest_priority_witness : exists mem c, mem ∈ vpnUidRanges_ vpn_ranges /\ usable vpn_ranges 7 mem c /\ 1 <= priorityId_ mem.
Proof.
  assert (Hr : reach (fun _ => 0) vpn_ranges).
  { eapply reach_call; [|apply call_add_range]. eapply reach_call; [|apply call_add_range]. apply net100_reach. }
  destruct (serverConfigMap_ vpn_ranges !! 100) as [c|] eqn:E; [|by vm_compute in E].
  assert (Hin : mkRange 5 9 1 100 ∈ vpnUidRanges_ vpn_ranges) by (vm_compute; right; left).
  assert (Hu : usable vpn_ranges 7 (mkRange 5 9 1 100) c) by (split; [done|exact E]).
  destruct (vpn_highest_priority the_hash the_avail the_memcpy None the_deadline (fun _ => 0) vpn_ranges 7
    (mkRange 5 9 1 100) c Hr) as (mem & c' & Hm & Hu' & Hp & _); [done|done|done|].
  exists mem, c'. split; [done|]. split; [done|]. apply (Hp (mkRange 5 9 1 100) c); done.
Defined.

Lemma reply_config_servers_witness :
  let c := reply_config the_memcpy (Some "8.8.8.8"%string) (["a"; "b"; "c"; "d"; "e"]%string, [], 4000, 2) in
  nameservers c = ["a"; "b"; "d"; "e"; "8.8.8.8"]%string /\ take (nonPublicNum c) (nameservers c) = ["a"; "b"; "d"; "e"]%string.
Proof.
  split; [by vm_compute|].
  apply (reply_config_servers the_memcpy (Some "8.8.8.8"%string) (fun n s _ _ => eq_refl)
    ["a"; "b"; "c"; "d"; "e"]%string [] 4000 2).
  repeat constructor; vm_compute; lia.
Defined.

End Concrete.
End DnsResolvListen.
