(* ===== verification/Netlink.v ===== *)
(** * Netlink messages
    (services/netmanagernative/src/netsys/netlink_msg.cpp, netlink_socket.cpp)

    [NetlinkMsg] builds a message in a buffer of its own: a header, a fixed part
    ([rtmsg], [fib_rule_hdr]) and attributes, each with its length and type,
    aligned to 4 bytes.  The socket functions send a message, and for a dump
    read the answers and send back those that are to be deleted.  The kernel is
    the class [Kernel]: what [sendmsg] on a new socket returns and does, and what
    the reads after a dump give.

    The theorems: the attributes a reader finds in a message are those that were
    added, in order ([AddAttr_built], [parse_built]), an attribute that does not
    fit is refused and changes nothing ([AddAttr_full]), and a dump deletes only
    what its filter selects ([GetInfoFromKernel_filter]). *)

From S2P Require Import Prelude Clat.

Module Netlink.
Abbreviation bytes := (list Z).
Abbreviation le := Clat.le.
Abbreviation le_bytes := Clat.le_bytes.
Abbreviation splice := Clat.splice.

(** ** Numbers of the kernel *)

Definition NLM_F_REQUEST : Z := 0x1.
Definition NLM_F_ACK : Z := 0x4.
Definition NLM_F_REPLACE : Z := 0x100.
Definition NLM_F_EXCL : Z := 0x200.
Definition NLM_F_CREATE : Z := 0x400.
Definition NLM_F_DUMP : Z := 0x300.
Definition NLMSG_ERROR : Z := 2.
Definition NLMSG_DONE : Z := 3.
Definition RTM_NEWROUTE : Z := 24.
Definition RTM_DELROUTE : Z := 25.
Definition RTM_GETROUTE : Z := 26.
Definition RTM_NEWRULE : Z := 32.
Definition RTM_DELRULE : Z := 33.
Definition RTM_GETRULE : Z := 34.
Definition FRA_DST : Z := 1.
Definition FRA_SRC : Z := 2.
Definition FRA_IIFNAME : Z := 3.
Definition FRA_PRIORITY : Z := 6.
Definition FRA_FWMARK : Z := 10.
Definition FRA_TABLE : Z := 15.
Definition FRA_FWMASK : Z := 16.
Definition FRA_OIFNAME : Z := 17.
Definition FRA_UID_RANGE : Z := 20.
Definition RTA_DST : Z := 1.
Definition RTA_OIF : Z := 4.
Definition RTA_GATEWAY : Z := 5.
Definition RTA_TABLE : Z := 15.
Definition AF_INET : Z := 2.
Definition AF_INET6 : Z := 10.

Definition NETLINK_MAX_LEN : Z := 1024.
Definition NETLINKMESSAGE_MAX_LEN : Z := 1024.
Definition LOCAL_PRIORITY : Z := 32767.

(** [NLMSG_ALIGN] and [RTA_ALIGN], [NLMSG_HDRLEN], [RTA_LENGTH(0)] and the size of
    both fixed parts. *)
Definition align4 (n : Z) : Z := (n + 3) / 4 * 4.
Definition HDRLEN : Z := 16.
Definition RTA_HDR : Z := 4.
Definition FIXED : nat := 12.

(** ** The message *)

(** [data] is the buffer after the header. *)
Record NetlinkMsg := mkMsg {
  maxBufLen_ : Z; nlmsg_len : Z; nlmsg_type : Z; nlmsg_flags : Z; nlmsg_seq : Z; nlmsg_pid : Z; data : bytes }.

Definition new_NetlinkMsg (flags maxBufLen pid : Z) : NetlinkMsg :=
  mkMsg maxBufLen 0 0 (NLM_F_REQUEST .| NLM_F_ACK .| flags) 1 (u32 pid) (replicate (Z.to_nat (align4 maxBufLen)) 0).

Definition set_fixed (action : Z) (fixed : bytes) (m : NetlinkMsg) : NetlinkMsg :=
  mkMsg (maxBufLen_ m) (HDRLEN + Z.of_nat (length fixed)) action (nlmsg_flags m) (nlmsg_seq m) (nlmsg_pid m)
    (if maxBufLen_ m <? Z.of_nat (length fixed) then data m else splice 0 fixed (data m)).

(** [fib_rule_hdr]: the fields the code sets; the others are 0. *)
Definition fib_rule_hdr (family dst_len src_len action : Z) : bytes :=
  [family; dst_len; src_len; 0; 0; 0; 0; action; 0; 0; 0; 0].

Record rtmsg := mkRtmsg {
  rtm_family : Z; rtm_dst_len : Z; rtm_table : Z; rtm_protocol : Z; rtm_scope : Z; rtm_type : Z }.
Definition rtmsg_bytes (r : rtmsg) : bytes :=
  [rtm_family r; rtm_dst_len r; 0; 0; rtm_table r; rtm_protocol r; rtm_scope r; rtm_type r; 0; 0; 0; 0].

Definition AddRule (action : Z) (msg : bytes) (m : NetlinkMsg) : NetlinkMsg := set_fixed action msg m.
Definition AddRoute (action : Z) (msg : rtmsg) (m : NetlinkMsg) : NetlinkMsg := set_fixed action (rtmsg_bytes msg) m.

(** The copy that the last test refuses cannot be reached: the attribute fits. *)
Definition AddAttr (type : Z) (d : bytes) (m : NetlinkMsg) : Z * NetlinkMsg :=
  if bool_decide (length d = O) then (-1, m) else
  let len := RTA_HDR + Z.of_nat (length d) in
  let start := align4 (nlmsg_len m) in
  if maxBufLen_ m <? start + align4 len then (-1, m) else
  let remainSize := if start + RTA_HDR <? maxBufLen_ m then maxBufLen_ m - (start + RTA_HDR) else 0 in
  if remainSize <? Z.of_nat (length d) then (-1, m) else
  (0, mkMsg (maxBufLen_ m) (start + align4 len) (nlmsg_type m) (nlmsg_flags m) (nlmsg_seq m) (nlmsg_pid m)
    (splice (Z.to_nat (start - HDRLEN)) (le_bytes 2 (u16 len) ++ le_bytes 2 type ++ d) (data m))).

Definition AddAttr16 (type x : Z) (m : NetlinkMsg) : Z * NetlinkMsg := AddAttr type (le_bytes 2 x) m.
Definition AddAttr32 (type x : Z) (m : NetlinkMsg) : Z * NetlinkMsg := AddAttr type (le_bytes 4 x) m.

(** What [sendmsg] gets: [nlmsg_len] bytes from the header on. *)
Definition msg_bytes (m : NetlinkMsg) : bytes :=
  le_bytes 4 (nlmsg_len m) ++ le_bytes 2 (nlmsg_type m) ++ le_bytes 2 (nlmsg_flags m) ++
  le_bytes 4 (nlmsg_seq m) ++ le_bytes 4 (nlmsg_pid m) ++ take (Z.to_nat (nlmsg_len m - HDRLEN)) (data m).

(** ** Reading a message *)

Definition field (off n : nat) (b : bytes) : Z := le (take n (drop off b)).
Definition m_len (b : bytes) : Z := field 0 4 b.
Definition m_type (b : bytes) : Z := field 4 2 b.
Definition m_flags (b : bytes) : Z := field 6 2 b.

(** The loop of [GetRouteProperty] over the attributes [b], of which
    [rtaLength] bytes are said to be there.  [None]: a read outside the message. *)
Fixpoint property_loop (fuel : nat) (rtaLength property : Z) (b : bytes) : option Z :=
  match fuel with
  | O => None
  | S fuel =>
    if negb (4 <=? rtaLength) then Some 0 else
    if (length b <? 4)%nat then None else
    let rta_len := field 0 2 b in
    if negb ((4 <=? rta_len) && (rta_len <=? rtaLength)) then Some 0 else
    if field 2 2 b =? property then if (length b <? 8)%nat then None else Some (s32 (field 4 4 b))
    else property_loop fuel (u32 (rtaLength - align4 rta_len)) property (drop (Z.to_nat (align4 rta_len)) b)
  end.

Definition GetRouteProperty (b : bytes) (property : Z) : option Z :=
  property_loop (S (length b)) (u32 (m_len b - (HDRLEN + Z.of_nat FIXED))) property (drop (Z.to_nat HDRLEN + FIXED) b).

(** ** The socket *)

(** [transmit]: opening a socket and [sendmsg] on it: the number of bytes sent, or
    at most 0.  [replies]: what [read] gives in turn after a dump was requested,
    an error number or a buffer; after the list [read] gives 0. *)
Class Kernel (K : Type) := {
  transmit : bytes -> K -> Z * K;
  replies : bytes -> K -> list (Z + bytes);
  if_nametoindex : string -> Z }.

Section Socket.
Context {K : Type} `{!Kernel K}.
Implicit Types k : K.

(** [SendNetlinkMsgToKernel] of a message without the flags of a dump. *)
Definition send (b : bytes) k : Z * K :=
  let '(msgState, k) := transmit b k in
  if msgState <=? 0 then (-1, k) else (s32 msgState, k).

(** The answer is sent back with type and flags changed in place. *)
Definition delete_message (type : Z) (b : bytes) : bytes :=
  splice 4 (le_bytes 2 type ++ le_bytes 2 (NLM_F_REQUEST .| NLM_F_ACK)) b.

Definition selected (clearThing table : Z) (b : bytes) : option Z :=
  if clearThing =? RTM_GETRULE then
    if bool_decide (GetRouteProperty b FRA_PRIORITY = Some (s32 LOCAL_PRIORITY)) then Some RTM_DELRULE else None
  else if clearThing =? RTM_GETROUTE then
    if bool_decide (GetRouteProperty b RTA_TABLE = Some (s32 table)) then Some RTM_DELROUTE else None
  else Some (m_type b).

Definition DealInfoFromKernel (clearThing table : Z) (b : bytes) k : K :=
  match selected clearThing table b with
  | Some type => (send (delete_message type b) k).2
  | None => k
  end.

(** The messages of one buffer: [NLMSG_OK] and [NLMSG_NEXT]; [inl] when the loop
    over the answers returns.  The kernel pads every message it sends, so that the
    length left never falls below 0. *)
Fixpoint buffer_loop (fuel : nat) (clearThing table : Z) (b : bytes) k : Z * K + K :=
  match fuel with
  | O => inr k
  | S fuel =>
    if negb ((Z.to_nat HDRLEN <=? length b)%nat && (HDRLEN <=? m_len b) && (m_len b <=? Z.of_nat (length b))) then inr k else
    if m_type b =? NLMSG_ERROR then inl (s32 (field (Z.to_nat HDRLEN) 4 b), k) else
    if m_type b =? NLMSG_DONE then inl (0, k) else
    buffer_loop fuel clearThing table (drop (Z.to_nat (align4 (m_len b))) b)
      (DealInfoFromKernel clearThing table (take (Z.to_nat (m_len b)) b) k)
  end.

Fixpoint GetInfoFromKernel (reads : list (Z + bytes)) (clearThing table : Z) k : Z * K :=
  match reads with
  | [] => (0, k)
  | inl errno :: _ => (- errno, k)
  | inr b :: reads =>
    if bool_decide (length b = O) then (0, k) else
    match buffer_loop (S (length b)) clearThing table b k with
    | inl r => r
    | inr k => GetInfoFromKernel reads clearThing table k
    end
  end.

(** [NLM_F_DUMP] has the bits of [NLM_F_REPLACE] and [NLM_F_EXCL]: a message with
    one of them is taken for a dump as well. *)
Definition SendNetlinkMsgToKernel (b : bytes) (table : Z) k : Z * K :=
  let '(msgState, k) := transmit b k in
  if msgState <=? 0 then (-1, k) else
  if negb (m_flags b .& NLM_F_DUMP =? 0) then
    GetInfoFromKernel (replies b k) (m_type b) table k
  else (s32 msgState, k).

(** The fixed part is a [rtmsg] of which only the family is set: the rest of the
    message is what [rest] has. *)
Definition dump_message (clearThing : Z) (rest : bytes) : bytes :=
  le_bytes 4 (HDRLEN + Z.of_nat FIXED) ++ le_bytes 2 clearThing ++ le_bytes 2 (NLM_F_REQUEST .| NLM_F_DUMP) ++
  replicate 8 0 ++ AF_INET :: rest.

(** [table] is not passed on: the messages are compared with the default 0. *)
Definition ClearRouteInfo (rest : bytes) (clearThing table : Z) k : Z * K :=
  if negb (clearThing =? RTM_GETROUTE) && negb (clearThing =? RTM_GETRULE) then (-1, k)
  else SendNetlinkMsgToKernel (dump_message clearThing rest) 0 k.

End Socket.

(** ** What a message holds *)

Abbreviation Attr := (Z * bytes)%type.
Definition attr_len (a : Attr) : Z := RTA_HDR + Z.of_nat (length a.2).
Definition rta_bytes (a : Attr) : bytes :=
  le_bytes 2 (attr_len a) ++ le_bytes 2 a.1 ++ a.2 ++ replicate (Z.to_nat (align4 (attr_len a) - attr_len a)) 0.
Definition attrs_bytes (l : list Attr) : bytes := concat (rta_bytes <$> l).

Definition is_bytes (l : bytes) : Prop := Forall (in_width 8) l.
Definition attr_ok (a : Attr) : Prop := in_width 16 a.1 /\ attr_len a < 2 ^ 16 /\ a.2 <> [].

Record built (fixed : bytes) (attrs : list Attr) (m : NetlinkMsg) : Prop := {
  b_fixed : length fixed = FIXED;
  b_max : maxBufLen_ m = NETLINK_MAX_LEN;
  b_len : nlmsg_len m = HDRLEN + Z.of_nat FIXED + Z.of_nat (length (attrs_bytes attrs));
  b_fits : nlmsg_len m <= NETLINK_MAX_LEN;
  b_data : data m = fixed ++ attrs_bytes attrs ++ replicate (1012 - length (attrs_bytes attrs)) 0 }.

Lemma align4_ge n : 0 <= n -> n <= align4 n < n + 4.
Proof. unfold align4. div_mod_lia. Qed.
Lemma align4_idemp n : align4 (align4 n) = align4 n.
Proof. unfold align4. div_mod_lia. Qed.
Lemma align4_add n m : align4 (align4 n + m) = align4 n + align4 m.
Proof. unfold align4. div_mod_lia. Qed.

Lemma rta_bytes_length a : Z.of_nat (length (rta_bytes a)) = align4 (attr_len a).
Proof.
  unfold rta_bytes. rewrite !length_app, !Clat.le_bytes_length, length_replicate.
  pose proof (align4_ge (attr_len a)) as H. unfold attr_len, RTA_HDR in *. specialize (H ltac:(lia)). lia.
Qed.

Lemma attrs_bytes_snoc l a : attrs_bytes (l ++ [a]) = attrs_bytes l ++ rta_bytes a.
Proof. unfold attrs_bytes. by rewrite fmap_app, concat_app; cbn [fmap list_fmap concat]; rewrite app_nil_r. Qed.

Lemma attrs_bytes_aligned l : align4 (Z.of_nat (length (attrs_bytes l))) = Z.of_nat (length (attrs_bytes l)).
Proof.
  induction l as [|a l IH]; [done|]. unfold attrs_bytes in *. cbn [fmap list_fmap concat].
  rewrite length_app, Nat2Z.inj_add, rta_bytes_length, align4_add. by rewrite IH.
Qed.

Lemma built_start fixed attrs m : built fixed attrs m -> align4 (nlmsg_len m) = nlmsg_len m.
Proof.
  intros [? _ -> _ _]. pose proof (attrs_bytes_aligned attrs) as H. unfold align4, HDRLEN, FIXED in *. div_mod_lia.
Qed.

Lemma new_built action flags pid fixed : length fixed = FIXED ->
  built fixed [] (AddRule action fixed (new_NetlinkMsg flags NETLINK_MAX_LEN pid)).
Proof.
  intros Hf. unfold AddRule, set_fixed, new_NetlinkMsg. cbn [maxBufLen_ data nlmsg_flags nlmsg_seq nlmsg_pid].
  rewrite Hf. split; cbn [maxBufLen_ data nlmsg_len]; [done..|].
  change (Z.to_nat (align4 NETLINK_MAX_LEN)) with 1024%nat. change (NETLINK_MAX_LEN <? Z.of_nat FIXED) with false. cbv iota.
  unfold Clat.splice. rewrite Hf, drop_replicate. done.
Qed.

Lemma splice_exact off new (l1 l2 l3 : bytes) : off = length l1 -> length new = length l2 ->
  splice off new (l1 ++ l2 ++ l3) = l1 ++ new ++ l3.
Proof.
  intros -> E. unfold Clat.splice. rewrite take_app_length. f_equal. f_equal. rewrite E.
  by rewrite drop_app_add, drop_app_length.
Qed.

(** An attribute that fits is appended; nothing else of the message changes. *)
Lemma AddAttr_built fixed attrs m t d : built fixed attrs m -> attr_ok (t, d) ->
  nlmsg_len m + align4 (attr_len (t, d)) <= NETLINK_MAX_LEN ->
  exists m', AddAttr t d m = (0, m') /\ built fixed (attrs ++ [(t, d)]) m' /\
    nlmsg_type m' = nlmsg_type m /\ nlmsg_flags m' = nlmsg_flags m /\ nlmsg_seq m' = nlmsg_seq m /\ nlmsg_pid m' = nlmsg_pid m.
Proof.
  intros Hb (_ & Hw & Hd) Hfit. pose proof (built_start _ _ _ Hb) as Hs. destruct Hb as [Hf Hm Hl Hle Hdata].
  pose proof (align4_ge (attr_len (t, d))) as Ha. change (attr_len (t, d)) with (RTA_HDR + Z.of_nat (length d)) in *.
  specialize (Ha ltac:(unfold RTA_HDR; lia)).
  cbn [snd] in Hd. assert (0 < length d)%nat by (destruct d; [done|cbn; lia]).
  unfold AddAttr. rewrite bool_decide_false by lia. rewrite Hs, Hm. unfold RTA_HDR, NETLINK_MAX_LEN, HDRLEN, FIXED in *.
  rewrite (proj2 (Z.ltb_ge _ _)) by lia. rewrite (proj2 (Z.ltb_lt (nlmsg_len m + 4) 1024)) by lia. rewrite (proj2 (Z.ltb_ge _ _)) by lia.
  eexists. split; [done|]. split; [|done]. pose proof (rta_bytes_length (t, d)) as Hr. change (attr_len (t, d)) with (4 + Z.of_nat (length d)) in Hr.
  split; cbn [maxBufLen_ nlmsg_len data]; rewrite ?attrs_bytes_snoc, ?length_app, ?Nat2Z.inj_add, ?Hr;
    unfold NETLINK_MAX_LEN, HDRLEN, FIXED; [done|done|lia|lia|].
  rewrite Hdata, (wrap_small 16) by (unfold in_width; lia).
  replace (1012 - length (attrs_bytes attrs))%nat
    with (length (le_bytes 2 (4 + Z.of_nat (length d)) ++ le_bytes 2 t ++ d) +
          (Z.to_nat (align4 (4 + Z.of_nat (length d)) - (4 + Z.of_nat (length d))) + (1012 - (length (attrs_bytes attrs) + length (rta_bytes (t, d))))))%nat
    by (rewrite !length_app, !Clat.le_bytes_length; lia).
  rewrite !replicate_add, (app_assoc fixed). rewrite splice_exact; [|rewrite length_app; lia|by rewrite length_replicate].
  unfold rta_bytes. cbn [fst snd]. change (attr_len (t, d)) with (4 + Z.of_nat (length d)). by rewrite <- !app_assoc.
Qed.

(** One that does not fit is refused. *)
Lemma AddAttr_full t d m : maxBufLen_ m < align4 (nlmsg_len m) + align4 (attr_len (t, d)) -> AddAttr t d m = (-1, m).
Proof.
  intros H. unfold AddAttr. destruct (bool_decide _); [done|]. change (attr_len (t, d)) with (RTA_HDR + Z.of_nat (length d)) in H.
  by rewrite (proj2 (Z.ltb_lt _ _)) by lia.
Qed.

(** ** What a reader finds *)

(** The attributes of a message, as the kernel reads them: up to the first that
    is not whole. *)
Fixpoint parse_attrs (fuel : nat) (b : bytes) : list Attr :=
  match fuel with
  | O => []
  | S fuel =>
    let rta_len := field 0 2 b in
    if (length b <? 4)%nat || negb ((4 <=? rta_len) && (rta_len <=? Z.of_nat (length b))) then [] else
    (field 2 2 b, take (Z.to_nat rta_len - 4) (drop 4 b)) :: parse_attrs fuel (drop (Z.to_nat (align4 rta_len)) b)
  end.

Definition m_fixed (b : bytes) : bytes := take FIXED (drop (Z.to_nat HDRLEN) b).
Definition m_attrs (b : bytes) : list Attr := parse_attrs (length b) (drop (Z.to_nat HDRLEN + FIXED) b).

Lemma field_le off n x (l1 l2 : bytes) : off = length l1 -> in_width (8 * Z.of_nat n) x -> field off n (l1 ++ le_bytes n x ++ l2) = x.
Proof.
  intros -> Hx. unfold field. rewrite drop_app_length, <- (Clat.le_bytes_length n x) at 1. rewrite take_app_length. by apply Clat.le_small.
Qed.

(** An attribute at the start of a buffer. *)
Lemma rta_bytes_fields a (r : bytes) : attr_ok a ->
  field 0 2 (rta_bytes a ++ r) = attr_len a /\ field 2 2 (rta_bytes a ++ r) = a.1 /\
  take (Z.to_nat (attr_len a) - 4) (drop 4 (rta_bytes a ++ r)) = a.2 /\ drop (Z.to_nat (align4 (attr_len a))) (rta_bytes a ++ r) = r.
Proof.
  intros (Ht & Hw & _). pose proof (rta_bytes_length a) as Hr. unfold rta_bytes in *. split; [|split; [|split]].
  - rewrite <- !app_assoc. apply (field_le 0 2 _ []); [done|]. change (8 * Z.of_nat 2) with 16. unfold in_width, attr_len, RTA_HDR in *. lia.
  - rewrite <- !app_assoc. apply (field_le 2 2 a.1 (le_bytes 2 (attr_len a))); [done|exact Ht].
  - rewrite <- !app_assoc. rewrite (app_assoc (le_bytes 2 _)). rewrite drop_app_length' by done.
    apply take_app_length'. unfold attr_len, RTA_HDR. lia.
  - apply drop_app_length'. lia.
Qed.

Lemma attr_len_range a : attr_ok a -> 4 < attr_len a /\ attr_len a <= align4 (attr_len a) < attr_len a + 4.
Proof.
  intros (_ & _ & Hd). unfold attr_len, RTA_HDR. split; [|apply align4_ge; lia]. destruct a.2; [done|]. cbn [length]. lia.
Qed.

Lemma rta_bytes_check a (r : bytes) : attr_ok a ->
  (length (rta_bytes a ++ r) <? 4)%nat = false /\ (4 <=? attr_len a) && (attr_len a <=? Z.of_nat (length (rta_bytes a ++ r))) = true.
Proof.
  intros Ha. pose proof (attr_len_range a Ha). pose proof (rta_bytes_length a).
  rewrite length_app. rewrite Nat.ltb_ge, andb_true_iff, !Z.leb_le. lia.
Qed.

Lemma attrs_bytes_long attrs : Forall attr_ok attrs -> (length attrs <= length (attrs_bytes attrs))%nat.
Proof.
  induction 1 as [|a l Ha Hok IH]; [done|]. unfold attrs_bytes in *. cbn [fmap list_fmap concat length]. rewrite length_app.
  pose proof (rta_bytes_length a). pose proof (attr_len_range a Ha). lia.
Qed.

(** The attributes that were added are found again, in their order. *)
Lemma parse_built attrs : forall fuel, Forall attr_ok attrs -> (length attrs < fuel)%nat -> parse_attrs fuel (attrs_bytes attrs) = attrs.
Proof.
  induction attrs as [|a attrs IH]; intros [|fuel] Hok Hf; try (cbn in Hf; lia); [done|].
  apply Forall_cons in Hok as [Ha Hok]. unfold attrs_bytes in *. cbn [fmap list_fmap concat parse_attrs].
  destruct (rta_bytes_fields a (concat (rta_bytes <$> attrs)) Ha) as (-> & -> & -> & ->).
  destruct (rta_bytes_check a (concat (rta_bytes <$> attrs)) Ha) as [-> ->]. cbn [orb negb].
  rewrite IH; [by destruct a|done|cbn in Hf; lia].
Qed.

(** [GetRouteProperty] gives the first attribute of the type, and 0 without one. *)
Fixpoint first_attr (p : Z) (attrs : list Attr) : option bytes :=
  match attrs with [] => None | a :: attrs => if a.1 =? p then Some a.2 else first_attr p attrs end.

Lemma property_built p attrs : forall fuel, Forall attr_ok attrs -> Z.of_nat (length (attrs_bytes attrs)) < 2 ^ 32 ->
  (forall d, (p, d) ∈ attrs -> length d = 4%nat) -> (length attrs < fuel)%nat ->
  property_loop fuel (Z.of_nat (length (attrs_bytes attrs))) p (attrs_bytes attrs) = Some (from_option (fun d => s32 (le d)) 0 (first_attr p attrs)).
Proof.
  induction attrs as [|a attrs IH]; intros [|fuel] Hok Hw Hp Hf; try (cbn in Hf; lia); [done|].
  apply Forall_cons in Hok as [Ha Hok]. unfold attrs_bytes in *. cbn [fmap list_fmap concat property_loop] in *.
  set (r := concat (rta_bytes <$> attrs)) in *.
  destruct (rta_bytes_fields a r Ha) as (-> & -> & Hv & ->). destruct (rta_bytes_check a r Ha) as [-> ->]. cbn [negb].
  pose proof (attr_len_range a Ha). pose proof (rta_bytes_length a) as Hl. rewrite length_app in *.
  rewrite (proj2 (Z.leb_le 4 _)) by lia. cbn [negb first_attr]. destruct (Z.eqb_spec a.1 p) as [E|E].
  - assert (Hd : length a.2 = 4%nat) by (apply Hp; rewrite <- E; destruct a; apply list_elem_of_here).
    cbn [from_option].
    rewrite (proj2 (Nat.ltb_ge _ _)); [|unfold attr_len, RTA_HDR in *; rewrite Hd in *; change (align4 (4 + Z.of_nat 4)) with 8 in *; lia].
    unfold attr_len, RTA_HDR in Hv. rewrite Hd in Hv. unfold field. do 3 f_equal. exact Hv.
  - rewrite Nat2Z.inj_add, Hl.
    replace (align4 (attr_len a) + Z.of_nat (length r) - align4 (attr_len a)) with (Z.of_nat (length r)) by lia.
    rewrite (wrap_small 32) by (unfold in_width; lia). apply IH; [done|lia| |cbn in Hf; lia].
    intros d Hd. apply Hp. by right.
Qed.

(** The parts of a built message. *)
Lemma built_bytes fixed attrs m : built fixed attrs m -> Forall attr_ok attrs ->
  in_width 16 (nlmsg_type m) -> in_width 16 (nlmsg_flags m) ->
  m_type (msg_bytes m) = nlmsg_type m /\ m_flags (msg_bytes m) = nlmsg_flags m /\ m_len (msg_bytes m) = nlmsg_len m /\
  m_fixed (msg_bytes m) = fixed /\ m_attrs (msg_bytes m) = attrs /\ Z.of_nat (length (msg_bytes m)) = nlmsg_len m.
Proof.
  intros [Hf Hm Hl Hle Hd] Hok Ht Hfl. unfold msg_bytes.
  assert (E : take (Z.to_nat (nlmsg_len m - HDRLEN)) (data m) = fixed ++ attrs_bytes attrs).
  { rewrite Hd, app_assoc. apply take_app_length'. rewrite length_app. unfold HDRLEN, FIXED in *. lia. }
  rewrite E. set (h := le_bytes 4 (nlmsg_len m)). set (t := le_bytes 2 (nlmsg_type m)). set (g := le_bytes 2 (nlmsg_flags m)).
  set (q := le_bytes 4 (nlmsg_seq m)). set (i := le_bytes 4 (nlmsg_pid m)).
  assert (Hlen : length (h ++ t ++ g ++ q ++ i) = 16%nat) by done.
  assert (Hdrop : forall x, drop (16 + length x) (h ++ t ++ g ++ q ++ i ++ x ++ attrs_bytes attrs) = attrs_bytes attrs).
  { intros x. rewrite !app_assoc. apply drop_app_length'. rewrite length_app, <- !app_assoc, Hlen. lia. }
  split; [by apply (field_le 4 2 (nlmsg_type m) h)|]. split.
  { rewrite (app_assoc h). by apply (field_le 6 2 (nlmsg_flags m) (h ++ t)). }
  split; [apply (field_le 0 4 (nlmsg_len m) []); [done|]; change (8 * Z.of_nat 4) with 32; unfold in_width, NETLINK_MAX_LEN, HDRLEN in *; lia|].
  split.
  { unfold m_fixed. change (Z.to_nat HDRLEN) with 16%nat. rewrite <- Hf. rewrite !app_assoc, <- (app_assoc _ fixed), <- !app_assoc.
    rewrite (app_assoc q), (app_assoc g), (app_assoc t), (app_assoc h). rewrite drop_app_length' by done. apply take_app_length. }
  split.
  { unfold m_attrs. change (Z.to_nat HDRLEN + FIXED)%nat with (16 + FIXED)%nat. rewrite <- Hf, Hdrop. apply parse_built; [done|].
    rewrite !length_app. subst h t g q i. rewrite !Clat.le_bytes_length. pose proof (attrs_bytes_long attrs Hok). lia. }
  rewrite !length_app. subst h t g q i. rewrite !Clat.le_bytes_length. unfold HDRLEN, FIXED in *. lia.
Qed.

Lemma GetRouteProperty_built fixed attrs m p : built fixed attrs m -> Forall attr_ok attrs ->
  in_width 16 (nlmsg_type m) -> in_width 16 (nlmsg_flags m) -> (forall d, (p, d) ∈ attrs -> length d = 4%nat) ->
  GetRouteProperty (msg_bytes m) p = Some (from_option (fun d => s32 (le d)) 0 (first_attr p attrs)).
Proof.
  intros Hb Hok Ht Hf Hp. destruct (built_bytes _ _ _ Hb Hok Ht Hf) as (_ & _ & El & _ & Ea & Elen).
  pose proof (b_len _ _ _ Hb) as Hl. pose proof (b_fits _ _ _ Hb) as Hfit. unfold NETLINK_MAX_LEN, HDRLEN, FIXED in *.
  unfold GetRouteProperty. rewrite El.
  replace (u32 _) with (Z.of_nat (length (attrs_bytes attrs))) by (rewrite (wrap_small 32); unfold in_width, HDRLEN, FIXED; lia).
  assert (E : drop (Z.to_nat HDRLEN + FIXED) (msg_bytes m) = attrs_bytes attrs).
  { unfold msg_bytes. rewrite (b_data _ _ _ Hb), (app_assoc fixed).
    rewrite (take_app_length' (fixed ++ attrs_bytes attrs)) by (rewrite length_app, (b_fixed _ _ _ Hb); unfold HDRLEN, FIXED; lia).
    rewrite !app_assoc. apply drop_app_length'. rewrite !length_app, !Clat.le_bytes_length, (b_fixed _ _ _ Hb). done. }
  rewrite E. apply property_built; [done|lia|done|]. pose proof (attrs_bytes_long attrs Hok). lia.
Qed.

(** ** What a dump deletes *)

(** The messages of a buffer up to the one that ends the dump, and whether one did. *)
Fixpoint buffer_messages (fuel : nat) (b : bytes) : list bytes * bool :=
  match fuel with
  | O => ([], false)
  | S fuel =>
    if negb ((Z.to_nat HDRLEN <=? length b)%nat && (HDRLEN <=? m_len b) && (m_len b <=? Z.of_nat (length b))) then ([], false) else
    if (m_type b =? NLMSG_ERROR) || (m_type b =? NLMSG_DONE) then ([], true) else
    let '(l, stop) := buffer_messages fuel (drop (Z.to_nat (align4 (m_len b))) b) in (take (Z.to_nat (m_len b)) b :: l, stop)
  end.

Fixpoint dumped (reads : list (Z + bytes)) : list bytes :=
  match reads with
  | inr b :: reads =>
    if bool_decide (length b = O) then [] else
    let '(l, stop) := buffer_messages (S (length b)) b in if stop then l else l ++ dumped reads
  | _ => []
  end.

(** Every message of a dump has its header. *)
Lemma dumped_long reads : Forall (fun b => 16 <= length b)%nat (dumped reads).
Proof.
  assert (Hb : forall fuel b, Forall (fun b => 16 <= length b)%nat (buffer_messages fuel b).1).
  { induction fuel as [|fuel IH]; intros b; [done|]. cbn [buffer_messages].
    destruct (negb _) eqn:E; [done|]. apply negb_false_iff in E. rewrite !andb_true_iff, Nat.leb_le, !Z.leb_le in E. unfold HDRLEN in E.
    destruct (_ || _); [done|]. specialize (IH (drop (Z.to_nat (align4 (m_len b))) b)). destruct (buffer_messages fuel _). cbn [fst] in *.
    constructor; [|done]. rewrite length_take. lia. }
  induction reads as [|[e|b] reads IH]; [done..|]. cbn [dumped]. destruct (bool_decide _); [done|].
  specialize (Hb (S (length b)) b). destruct (buffer_messages _ b) as [l []]; cbn [fst] in Hb; [done|]. by apply Forall_app.
Qed.

Lemma delete_message_type t b : in_width 16 t -> (16 <= length b)%nat -> m_type (delete_message t b) = t.
Proof.
  intros Ht Hb. unfold m_type, delete_message, Clat.splice. rewrite <- app_assoc. apply field_le; [rewrite length_take; lia|done].
Qed.

Section Dump.
Context {K : Type} `{!Kernel K}.

Lemma buffer_loop_messages c t fuel : forall b (k : K),
  let k' := foldl (fun k m => DealInfoFromKernel c t m k) k (buffer_messages fuel b).1 in
  if (buffer_messages fuel b).2 then exists r, buffer_loop fuel c t b k = inl (r, k') else buffer_loop fuel c t b k = inr k'.
Proof.
  induction fuel as [|fuel IH]; intros b k; [done|]. cbn [buffer_messages buffer_loop]. destruct (negb _); [done|].
  destruct (m_type b =? NLMSG_ERROR); cbn [orb]; [by eexists|]. destruct (m_type b =? NLMSG_DONE); [by eexists|].
  specialize (IH (drop (Z.to_nat (align4 (m_len b))) b) (DealInfoFromKernel c t (take (Z.to_nat (m_len b)) b) k)).
  by destruct (buffer_messages fuel _) as [l []].
Qed.

(** The kernel is changed by the messages of the dump that the filter selects. *)
Lemma GetInfoFromKernel_filter c t reads : forall (k : K),
  (GetInfoFromKernel reads c t k).2 = foldl (fun k m => DealInfoFromKernel c t m k) k (dumped reads).
Proof.
  induction reads as [|[e|b] reads IH]; intros k; [done..|]. cbn [GetInfoFromKernel dumped]. destruct (bool_decide _); [done|].
  pose proof (buffer_loop_messages c t (S (length b)) b k) as H. cbv zeta in H.
  destruct (buffer_messages (S (length b)) b) as [l []]; cbn [fst snd] in *.
  - by destruct H as [r ->].
  - by rewrite H, IH, foldl_app.
Qed.

(** Clearing the routes of a table deletes no route that the kernel reports with
    its table: the table to clear is not passed on. *)
Lemma ClearRouteInfo_clears_none rest table (k : K) :
  (forall b, b ∈ dumped (replies (dump_message RTM_GETROUTE rest) (transmit (dump_message RTM_GETROUTE rest) k).2) ->
     GetRouteProperty b RTA_TABLE <> Some 0) ->
  (ClearRouteInfo rest RTM_GETROUTE table k).2 = (transmit (dump_message RTM_GETROUTE rest) k).2.
Proof.
  intros H. unfold ClearRouteInfo, SendNetlinkMsgToKernel. change (_ && _) with false. cbv iota.
  destruct (transmit _ k) as [r k']. cbn [snd] in *. destruct (r <=? 0); [done|]. destruct (negb _); [|done].
  change (m_type (dump_message RTM_GETROUTE rest)) with RTM_GETROUTE. rewrite GetInfoFromKernel_filter.
  induction (dumped _) as [|b l IH] in k', H |- *; [done|]. cbn [foldl]. unfold DealInfoFromKernel at 2, selected.
  change (RTM_GETROUTE =? RTM_GETRULE) with false. change (RTM_GETROUTE =? RTM_GETROUTE) with true. cbv iota.
  rewrite bool_decide_false by (apply H; left). apply IH. intros b' Hb. apply H. by right.
Qed.

End Dump.
End Netlink.
