(* ===== verification/RouteManager.v ===== *)
(** * Policy rules and routes
    (services/netmanagernative/src/manager/route_manager.cpp, include/manager/
    route_manager.h, utils/.../fwmark.h)

    [RouteManager] turns the networks into policy rules of the kernel: which
    table a packet is looked up in, by its mark, user and interface, and into the
    routes of those tables.  Every interface has a table of its own, kept in
    [interfaceToTable_].  The library is modelled as built without
    [SUPPORT_SYSVPN].  [inet_pton] of the C library is an argument.

    The theorems: the kernel reads from each message the rule that was meant
    ([SendRuleToKernel_spec]); with a kernel that adds and deletes rules as
    documented ([FibLaws]) every function of an interface adds or deletes exactly
    its rules, for IPv4 and IPv6 ([UpdateRuleInfo_new], [UpdateRuleInfo_del]). *)

From Stdlib Require Import Ascii.
From S2P Require Import Prelude Base64 Clat PolicyFile NetData DnsParamCache Netlink.

Module RouteManager.
Import Netlink.
Abbreviation UidRange := DnsParamCache.UidRange.
Abbreviation bytes_of_string := Base64.bytes_of_string.

(** ** Constants *)

Definition RULE_LEVEL_UNREACHABLE_NETWORK : Z := 7000.
Definition RULE_LEVEL_VPN_OUTPUT_TO_LOCAL : Z := 9000.
Definition RULE_LEVEL_SECURE_VPN : Z := 10000.
Definition RULE_LEVEL_VNIC_NETWORK : Z := 10500.
Definition RULE_LEVEL_EXPLICIT_NETWORK : Z := 11000.
Definition RULE_LEVEL_OUTPUT_IFACE_VPN : Z := 11500.
Definition RULE_LEVEL_OUTPUT_INTERFACE : Z := 12000.
Definition RULE_LEVEL_LOCAL_NETWORK : Z := 13000.
Definition RULE_LEVEL_SHARING : Z := 14000.
Definition RULE_LEVEL_ENTERPRISE : Z := 15000.
Definition RULE_LEVEL_DEFAULT : Z := 16000.
Definition RULE_LEVEL_DISTRIBUTE_COMMUNICATION_SERVER : Z := 8500.
Definition RULE_PRIORITY_MAX : Z := 65535.
Definition ROUTE_UNREACHABLE_TABLE : Z := 80.
Definition ROUTE_DISTRIBUTE_TO_CLIENT_TABLE : Z := 90.
Definition ROUTE_DISTRIBUTE_FROM_CLIENT_TABLE : Z := 91.
Definition ROUTE_VNIC_TABLE : Z := 97.
Definition ROUTE_VPN_NETWORK_TABLE : Z := 98.
Definition ROUTE_LOCAL_NETWORK_TABLE : Z := 99.
Definition ROUTE_INTERNAL_DEFAULT_TABLE : Z := 10.
Definition OUTPUT_MAX : Z := 128.
Definition BIT_32_LEN : Z := 32.
Definition BIT_128_LEN : Z := 128.
Definition ROUTE_TABLE_OFFSET_FROM_INDEX : Z := 2000.
Definition LOCAL_NET_ID : Z := 99.
Definition NETID_UNSET : Z := 0.
Definition MARK_UNSET : Z := 0.
Definition UID_ROOT : Z := 0.
Definition UID_ALLOW_INTERNAL : Z * Z := (7023, 7023).
Definition INVALID_UID : Z := 2 ^ 32 - 1.
Definition ROUTEMANAGER_SUCCESS : Z := 0.
Definition ROUTEMANAGER_ERROR : Z := -1.
Definition NETMANAGER_SUCCESS : Z := 0.
Definition NETMANAGER_ERR_PARAMETER_ERROR : Z := 401.
Definition NETMANAGER_ERR_OPERATION_FAILED : Z := 2100002.
Definition NETMANAGER_ERR_INTERNAL : Z := 2100003.
Definition RULEIIF_LOOPBACK : string := "lo".
Definition FWMARK_NET_ID_MASK : Z := 0xffff.
Definition MIN_INTERNAL_NET_ID : Z := 1.
Definition MAX_INTERNAL_NET_ID : Z := 50.

(** Of the system. *)
Definition RT_TABLE_UNSPEC : Z := 0.
Definition FR_ACT_TO_TBL : Z := 1.
Definition IFNAMSIZ : nat := 16.
Definition ENOTUNIQ : Z := 76.
Definition EINVAL : Z := 22.
Definition EEXIST : Z := 17.
Definition RTPROT_STATIC : Z := 4.
Definition RT_SCOPE_UNIVERSE : Z := 0.
Definition RT_SCOPE_LINK : Z := 253.
Definition RTN_UNICAST : Z := 1.
Definition RTN_UNREACHABLE : Z := 7.
Definition RTN_THROW : Z := 9.
Definition UINT64_MAX : Z := 2 ^ 64 - 1.

Definition PERMISSION_NONE : Z := 0.
Definition PERMISSION_NETWORK : Z := 1.
Definition PERMISSION_SYSTEM : Z := 3.

Inductive TableType := INTERFACE | VPN_NETWORK | LOCAL_NETWORK | INTERNAL_DEFAULT | UNREACHABLE_NETWORK | TABLE_TYPE_BUTT.

(** ** Marks and tables *)

(** The union [Fwmark]: the fields and their place in [intValue]. *)
Record Fwmark := mkFwmark { fw_netId : Z; explicitlySelected : bool; protectedFromVpn : bool; fw_permission : Z; uidBillingDone : bool }.
Definition unset_mark : Fwmark := mkFwmark 0 false false 0 false.
Definition intValue (f : Fwmark) : Z :=
  u16 (fw_netId f) + 2 ^ 16 * Z.b2z (explicitlySelected f) + 2 ^ 17 * Z.b2z (protectedFromVpn f) +
  2 ^ 18 * (fw_permission f mod 4) + 2 ^ 20 * Z.b2z (uidBillingDone f).

Definition IsInternalNetId (netId : Z) : bool := (MIN_INTERNAL_NET_ID <=? netId) && (netId <=? MAX_INTERNAL_NET_ID).
Definition ConvertTableByNetId (netId table : Z) : Z :=
  if IsInternalNetId netId then table mod ROUTE_INTERNAL_DEFAULT_TABLE + 1 else table.

(** ** Rules and routes *)

Record RuleInfo := mkRuleInfo {
  ruleTable : Z; rulePriority : Z; ruleFwmark : Z; ruleMask : Z;
  ruleIif : string; ruleOif : string; ruleSrcIp : string; ruleDstIp : string }.

Record RouteInfo := mkRouteInfo {
  routeTable : Z; routeInterfaceName : string; routeDestinationName : string; routeNextHop : string; isExcludedRoute : bool }.

Record NetworkRouteInfo := mkNetworkRouteInfo {
  nri_destination : string; nri_ifName : string; nri_nextHop : string; nri_isExcludedRoute : bool }.

Record InetAddr := mkInetAddr { ia_family : Z; ia_bitlen : Z; ia_prefixlen : Z; ia_data : bytes }.

(** The statics of the class, and the names [DistributedManager] keeps. *)
Record RouteManager := mkRouteManager {
  interfaceToTable_ : gmap string Z; sharingTunv4Interface_ : string; sharingTunv4TableId_ : Z;
  serverIif_ : string; serverDevIface_ : string }.
Definition set_tables x s := mkRouteManager x (sharingTunv4Interface_ s) (sharingTunv4TableId_ s) (serverIif_ s) (serverDevIface_ s).
Definition set_sharing i t s := mkRouteManager (interfaceToTable_ s) i t (serverIif_ s) (serverDevIface_ s).
Definition set_server i d s := mkRouteManager (interfaceToTable_ s) (sharingTunv4Interface_ s) (sharingTunv4TableId_ s) i d.

(** Steps on a message until one is refused. *)
Fixpoint steps (fs : list (NetlinkMsg -> Z * NetlinkMsg)) (m : NetlinkMsg) : Z * NetlinkMsg :=
  match fs with
  | [] => (0, m)
  | f :: fs => let '(ret, m) := f m in if negb (ret =? 0) then (ret, m) else steps fs m
  end.

(** A [char *] ends before the first 0. *)
Fixpoint c_bytes (b : bytes) : bytes := match b with [] => [] | x :: b => if x =? 0 then [] else x :: c_bytes b end.

Definition GetRuleFlag (action : Z) : Z := if action =? RTM_NEWRULE then NLM_F_CREATE else 0.
Definition SetRuleMsgPriority (r : RuleInfo) : NetlinkMsg -> Z * NetlinkMsg := AddAttr32 FRA_PRIORITY (rulePriority r).
Definition SetRuleMsgTable (r : RuleInfo) (m : NetlinkMsg) : Z * NetlinkMsg :=
  if negb (ruleTable r =? RT_TABLE_UNSPEC) then AddAttr32 FRA_TABLE (ruleTable r) m else (NETMANAGER_SUCCESS, m).
Definition SetRuleMsgFwmark (r : RuleInfo) (m : NetlinkMsg) : Z * NetlinkMsg :=
  if negb (ruleMask r =? 0) then steps [AddAttr32 FRA_FWMARK (ruleFwmark r); AddAttr32 FRA_FWMASK (ruleMask r)] m
  else (NETMANAGER_SUCCESS, m).
Definition SetRuleMsgUidRange (uidStart uidEnd : Z) (m : NetlinkMsg) : Z * NetlinkMsg :=
  if negb (uidStart =? INVALID_UID) && negb (uidEnd =? INVALID_UID)
  then AddAttr FRA_UID_RANGE (le_bytes 4 uidStart ++ le_bytes 4 uidEnd) m else (NETMANAGER_SUCCESS, m).
Definition SetRuleMsgIfName (ifName : string) (type : Z) (m : NetlinkMsg) : Z * NetlinkMsg :=
  if bool_decide (ifName = "") then (NETMANAGER_SUCCESS, m) else
  if (IFNAMSIZ <=? String.length ifName)%nat then (ROUTEMANAGER_ERROR, m)
  else AddAttr type (c_bytes (bytes_of_string ifName) ++ [0]) m.

Section Routes.
Context {K : Type} `{!Kernel K} (pid : Z) (rest : bytes) (inet_pton : Z -> string -> option bytes).
Implicit Types (k : K) (s : RouteManager).

(** ** Addresses *)

Definition has_char (c : Ascii.ascii) (x : string) : bool := existsb (Ascii.eqb c) (String.list_ascii_of_string x).

Definition pton (family : Z) (x : string) : Z * bytes := match inet_pton family x with Some d => (1, d) | None => (0, []) end.

Definition ReadAddrGw (addr : string) : Z * InetAddr :=
  let '(family, bitlen) := if has_char ":"%char addr then (AF_INET6, OUTPUT_MAX) else (AF_INET, BIT_32_LEN) in
  let '(r, d) := pton family addr in (r, mkInetAddr family bitlen 0 d).

(** The text before and after the first slash. *)
Fixpoint split_slash (x : string) : option (string * string) :=
  match x with
  | EmptyString => None
  | String c x => if Ascii.eqb c "/"%char then Some ("", x)
      else match split_slash x with Some (a, b) => Some (String c a, b) | None => None end
  end.

Definition StrToUint64 (value : string) (defaultErr : Z) : Z :=
  match value with
  | EmptyString => defaultErr
  | _ => match PolicyFile.parse_digits value 0 with Some n => if n <? 2 ^ 64 then n else defaultErr | None => defaultErr end
  end.

Definition no_addr : InetAddr := mkInetAddr 0 0 0 [].

Definition ReadAddr (addr : string) : Z * InetAddr :=
  match split_slash addr with
  | None => (- EINVAL, no_addr)
  | Some (address, maskLenStr) =>
    let templen := StrToUint64 maskLenStr UINT64_MAX in
    if templen =? UINT64_MAX then (- EINVAL, no_addr) else
    let '(family, bitlen, most) := if has_char ":"%char addr then (AF_INET6, OUTPUT_MAX, BIT_128_LEN) else (AF_INET, BIT_32_LEN, BIT_32_LEN) in
    if most <? templen then (- EINVAL, no_addr) else
    let '(r, d) := pton family address in (r, mkInetAddr family bitlen templen d)
  end.

Definition SetRuleMsgIp (ip : string) (type : Z) (m : NetlinkMsg) : Z * NetlinkMsg :=
  if bool_decide (ip = "") then (NETMANAGER_SUCCESS, m) else
  let '(r, addr) := ReadAddrGw ip in
  if r <=? 0 then (NETMANAGER_ERR_OPERATION_FAILED, m)
  else AddAttr type (take (Z.to_nat (ia_bitlen addr / 8)) (ia_data addr)) m.

(** ** Sending rules *)

Definition rule_message (action : Z) (fixed : bytes) (fs : list (NetlinkMsg -> Z * NetlinkMsg)) : Z * NetlinkMsg :=
  steps fs (AddRule action fixed (new_NetlinkMsg (GetRuleFlag action) NETLINK_MAX_LEN pid)).

Definition send_message (rm : Z * NetlinkMsg) k : Z * K :=
  if negb (rm.1 =? 0) then (rm.1, k) else SendNetlinkMsgToKernel (msg_bytes rm.2) 0 k.

Definition SendRuleToKernel (action family ruleType : Z) (r : RuleInfo) (uidStart uidEnd : Z) k : Z * K :=
  send_message (rule_message action (fib_rule_hdr family 0 0 ruleType)
    [SetRuleMsgPriority r; SetRuleMsgTable r; SetRuleMsgFwmark r; SetRuleMsgUidRange uidStart uidEnd;
     SetRuleMsgIfName (ruleIif r) FRA_IIFNAME; SetRuleMsgIfName (ruleOif r) FRA_OIFNAME]) k.

Definition full_len (family : Z) (ip : string) : Z :=
  if bool_decide (ip = "") then 0 else if family =? AF_INET then BIT_32_LEN else BIT_128_LEN.

Definition SendRuleToKernelEx (action family ruleType : Z) (r : RuleInfo) (uidStart uidEnd : Z) k : Z * K :=
  send_message (rule_message action (fib_rule_hdr family (full_len family (ruleDstIp r)) 0 ruleType)
    [SetRuleMsgPriority r; SetRuleMsgTable r; SetRuleMsgFwmark r;
     SetRuleMsgIfName (ruleIif r) FRA_IIFNAME; SetRuleMsgIp (ruleDstIp r) FRA_DST]) k.

Definition SendSharingForbidIpRuleToKernel (action family ruleType : Z) (r : RuleInfo) k : Z * K :=
  send_message (rule_message action (fib_rule_hdr family (full_len family (ruleDstIp r)) (full_len family (ruleSrcIp r)) ruleType)
    [SetRuleMsgPriority r; SetRuleMsgTable r; SetRuleMsgIfName (ruleIif r) FRA_IIFNAME; SetRuleMsgIfName (ruleOif r) FRA_OIFNAME;
     SetRuleMsgIp (ruleSrcIp r) FRA_SRC; SetRuleMsgIp (ruleDstIp r) FRA_DST]) k.

Definition table_missing (action ruleType : Z) (r : RuleInfo) : bool :=
  (ruleTable r =? RT_TABLE_UNSPEC) && (ruleType =? FR_ACT_TO_TBL) && negb (action =? RTM_DELRULE).

Definition UpdateRuleInfo (action ruleType : Z) (r : RuleInfo) (uidStart uidEnd : Z) k : Z * K :=
  if RULE_PRIORITY_MAX <? rulePriority r then (ROUTEMANAGER_ERROR, k) else
  if negb (Z.ldiff (ruleFwmark r) (ruleMask r) =? 0) then (ROUTEMANAGER_ERROR, k) else
  if table_missing action ruleType r then (- ENOTUNIQ, k) else
  let '(ret, k) := SendRuleToKernel action AF_INET ruleType r uidStart uidEnd k in
  if ret <? 0 then (NETMANAGER_ERR_INTERNAL, k) else
  let '(ret, k) := SendRuleToKernel action AF_INET6 ruleType r uidStart uidEnd k in
  if ret <? 0 then (NETMANAGER_ERR_INTERNAL, k) else (NETMANAGER_SUCCESS, k).

Definition UpdateDistributedRule (action ruleType : Z) (r : RuleInfo) (uidStart uidEnd : Z) k : Z * K :=
  if RULE_PRIORITY_MAX <? rulePriority r then (ROUTEMANAGER_ERROR, k) else
  if table_missing action ruleType r then (- ENOTUNIQ, k) else
  let family := if has_char ":"%char (ruleDstIp r) then AF_INET6 else AF_INET in
  let '(ret, k) := SendRuleToKernelEx action family ruleType r uidStart uidEnd k in
  if ret <? 0 then (NETMANAGER_ERR_INTERNAL, k) else (NETMANAGER_SUCCESS, k).

Definition FindTableByInterfacename (interfaceName : string) (netId : Z) s : Z * RouteManager :=
  match interfaceToTable_ s !! interfaceName with
  | Some table => (ConvertTableByNetId netId table, s)
  | None =>
    let index := if_nametoindex interfaceName in
    if index =? 0 then (RT_TABLE_UNSPEC, s) else
    let table := u32 (index + ROUTE_TABLE_OFFSET_FROM_INDEX) in
    (ConvertTableByNetId netId table, set_tables (<[interfaceName := table]> (interfaceToTable_ s)) s)
  end.

Definition new_or_del (add : bool) : Z := if add then RTM_NEWRULE else RTM_DELRULE.

(** ** The rules of a network *)

Definition explicit_rule (netId table permission : Z) : RuleInfo :=
  mkRuleInfo table RULE_LEVEL_EXPLICIT_NETWORK (intValue (mkFwmark netId true false permission false))
    (intValue (mkFwmark FWMARK_NET_ID_MASK true false permission false)) RULEIIF_LOOPBACK "" "" "".

Definition UpdateExplicitNetworkRule (netId table permission : Z) (add : bool) k : Z * K :=
  let r := explicit_rule netId table permission in
  if IsInternalNetId netId then UpdateRuleInfo (new_or_del add) FR_ACT_TO_TBL r (UID_ALLOW_INTERNAL.1) (UID_ALLOW_INTERNAL.2) k
  else UpdateRuleInfo (new_or_del add) FR_ACT_TO_TBL r INVALID_UID INVALID_UID k.

Definition output_rule (interfaceName : string) (table permission priority : Z) : RuleInfo :=
  mkRuleInfo table priority (intValue (mkFwmark 0 false false permission false))
    (intValue (mkFwmark 0 false false permission false)) RULEIIF_LOOPBACK interfaceName "" "".

Definition UpdateOutputInterfaceRules (interfaceName : string) (table permission : Z) (add : bool) k : Z * K :=
  UpdateRuleInfo (new_or_del add) FR_ACT_TO_TBL (output_rule interfaceName table permission RULE_LEVEL_OUTPUT_INTERFACE) INVALID_UID INVALID_UID k.

Definition default_rule (table permission : Z) : RuleInfo :=
  mkRuleInfo table RULE_LEVEL_DEFAULT (intValue (mkFwmark NETID_UNSET false false permission false))
    (intValue (mkFwmark FWMARK_NET_ID_MASK false false permission false)) RULEIIF_LOOPBACK "" "" "".

Definition UpdateDefault (action : Z) (interfaceName : string) (permission : Z) s k : Z * (RouteManager * K) :=
  let '(table, s) := FindTableByInterfacename interfaceName 0 s in
  if table =? RT_TABLE_UNSPEC then (-1, (s, k)) else
  let '(ret, k) := UpdateRuleInfo action FR_ACT_TO_TBL (default_rule table permission) INVALID_UID INVALID_UID k in (ret, (s, k)).

Definition AddInterfaceToDefaultNetwork : string -> Z -> RouteManager -> K -> Z * (RouteManager * K) := UpdateDefault RTM_NEWRULE.
Definition RemoveInterfaceFromDefaultNetwork : string -> Z -> RouteManager -> K -> Z * (RouteManager * K) := UpdateDefault RTM_DELRULE.

Definition UpdatePhysicalNetwork (netId : Z) (interfaceName : string) (permission : Z) (add : bool) s k : Z * (RouteManager * K) :=
  let '(table, s) := FindTableByInterfacename interfaceName netId s in
  if table =? RT_TABLE_UNSPEC then (-1, (s, k)) else
  let '(ret, k) := UpdateExplicitNetworkRule netId table permission add k in
  if negb (ret =? 0) then (ret, (s, k)) else
  let '(ret, k) := UpdateOutputInterfaceRules interfaceName table permission add k in (ret, (s, k)).

Definition AddInterfaceToPhysicalNetwork (netId : Z) (interfaceName : string) (permission : Z) s k : Z * (RouteManager * K) :=
  UpdatePhysicalNetwork netId interfaceName permission true s k.

Definition ClearRoutes (interfaceName : string) (netId : Z) s k : Z * (RouteManager * K) :=
  let '(table, s) := FindTableByInterfacename interfaceName netId s in
  if table =? RT_TABLE_UNSPEC then (-1, (s, k)) else
  let '(ret, k) := ClearRouteInfo rest RTM_GETROUTE table k in
  (0, (if (ret =? 0) && (ROUTE_INTERNAL_DEFAULT_TABLE <? table) then set_tables (delete interfaceName (interfaceToTable_ s)) s else s, k)).

Definition ClearRules k : Z * K := let '(ret, k) := ClearRouteInfo rest RTM_GETRULE 0 k in (if 0 <=? ret then 0 else -1, k).

Definition sharing_rule (table : Z) (inputInterface : string) : RuleInfo :=
  mkRuleInfo table RULE_LEVEL_SHARING MARK_UNSET MARK_UNSET inputInterface "" "" "".

Definition ClearSharingRules (inputInterface : string) k : Z * K :=
  UpdateRuleInfo RTM_DELRULE FR_ACT_TO_TBL (sharing_rule 0 inputInterface) INVALID_UID INVALID_UID k.

Definition RemoveInterfaceFromPhysicalNetwork (netId : Z) (interfaceName : string) (permission : Z) s k : Z * (RouteManager * K) :=
  let '(ret, (s, k)) := UpdatePhysicalNetwork netId interfaceName permission false s k in
  if negb (ret =? 0) then (ret, (s, k)) else
  let '(ret, (s, k)) := ClearRoutes interfaceName netId s k in
  if negb (ret =? 0) then (ret, (s, k)) else
  if IsInternalNetId netId then (0, (s, k)) else
  let '(ret, k) := ClearSharingRules interfaceName k in (ret, (s, k)).

(** Both calls get the new permission. *)
Definition ModifyPhysicalNetworkPermission (netId : Z) (interfaceName : string) (oldPermission newPermission : Z) s k
    : Z * (RouteManager * K) :=
  let '(ret, (s, k)) := UpdatePhysicalNetwork netId interfaceName newPermission true s k in
  if negb (ret =? 0) then (ret, (s, k)) else UpdatePhysicalNetwork netId interfaceName newPermission false s k.

Definition UpdateLocalNetwork (interfaceName : string) (add : bool) k : Z * K :=
  UpdateOutputInterfaceRules interfaceName ROUTE_LOCAL_NETWORK_TABLE PERMISSION_NONE add k.

Definition AddInterfaceToLocalNetwork (interfaceName : string) s k : Z * (RouteManager * K) :=
  let '(ret, k) := UpdateLocalNetwork interfaceName true k in
  if negb (ret =? 0) then (ret, (s, k))
  else (0, (set_tables (<[interfaceName := ROUTE_LOCAL_NETWORK_TABLE]> (interfaceToTable_ s)) s, k)).

Definition RemoveInterfaceFromLocalNetwork (interfaceName : string) s k : Z * (RouteManager * K) :=
  let '(ret, k) := UpdateLocalNetwork interfaceName false k in
  if negb (ret =? 0) then (ret, (s, k)) else (0, (set_tables (delete interfaceName (interfaceToTable_ s)) s, k)).

Definition local_rule : RuleInfo :=
  mkRuleInfo ROUTE_LOCAL_NETWORK_TABLE RULE_LEVEL_LOCAL_NETWORK (intValue unset_mark) (intValue (mkFwmark 0 true false 0 false)) "" "" "" "".

Definition AddLocalNetworkRules k : Z * K :=
  let '(ret, k) := UpdateExplicitNetworkRule LOCAL_NET_ID ROUTE_LOCAL_NETWORK_TABLE PERMISSION_NONE true k in
  if negb (ret =? 0) then (ret, k) else UpdateRuleInfo RTM_NEWRULE FR_ACT_TO_TBL local_rule INVALID_UID INVALID_UID k.

(** [initDir]: the directory of the routes exists. *)
Definition Init (initDir : bool) k : Z * K :=
  let '(ret, k) := ClearRules k in
  if negb (ret =? 0) then (ret, k) else
  if initDir then
    let '(ret, k) := AddLocalNetworkRules k in if negb (ret =? 0) then (ret, k) else (0, k)
  else (0, k).

(** ** Sharing *)

Definition starts_with (p x : string) : bool := String.prefix p x.

Definition UpdateSharingNetwork (action : Z) (inputInterface outputInterface : string) s k : Z * (RouteManager * K) :=
  let '(table, s) := FindTableByInterfacename outputInterface 0 s in
  let s := if (action =? RTM_NEWRULE) && starts_with "tunv4-" outputInterface then set_sharing outputInterface table s else s in
  let '(table, s) :=
    if (action =? RTM_DELRULE) && (table =? RT_TABLE_UNSPEC) &&
       negb (bool_decide (sharingTunv4Interface_ s = "")) && bool_decide (outputInterface = sharingTunv4Interface_ s)
    then (sharingTunv4TableId_ s, set_sharing "" 0 s) else (table, s) in
  if table =? RT_TABLE_UNSPEC then (-1, (s, k)) else
  let '(ret, k) := UpdateRuleInfo action FR_ACT_TO_TBL (sharing_rule table inputInterface) INVALID_UID INVALID_UID k in (ret, (s, k)).

Definition EnableSharing : string -> string -> RouteManager -> K -> Z * (RouteManager * K) := UpdateSharingNetwork RTM_NEWRULE.
Definition DisableSharing : string -> string -> RouteManager -> K -> Z * (RouteManager * K) := UpdateSharingNetwork RTM_DELRULE.

Definition forbid_rule (iif oif srcIp dstIp : string) : RuleInfo :=
  mkRuleInfo ROUTE_UNREACHABLE_TABLE RULE_LEVEL_UNREACHABLE_NETWORK MARK_UNSET MARK_UNSET iif oif srcIp dstIp.

Definition SetSharingUnreachableIpRule (action : Z) (interfaceName forbidIp : string) (family : Z) k : Z * K :=
  let '(ret1, k) := SendSharingForbidIpRuleToKernel action family FR_ACT_TO_TBL (forbid_rule interfaceName "" forbidIp "") k in
  let '(ret2, k) := SendSharingForbidIpRuleToKernel action family FR_ACT_TO_TBL (forbid_rule "" interfaceName "" forbidIp) k in
  if (ret1 <? 0) && (ret2 <? 0) then (ROUTEMANAGER_ERROR, k) else (NETMANAGER_SUCCESS, k).

(** The mark and the mask of [RuleInfo] are not set: [mark0] and [mask0] are what
    the stack had. *)
Definition UpdateEnterpriseRoute (mark0 mask0 : Z) (interfaceName : string) (uid : Z) (add : bool) s k : Z * (RouteManager * K) :=
  let '(table, s) := FindTableByInterfacename interfaceName 0 s in
  if table =? RT_TABLE_UNSPEC then (NETMANAGER_ERR_PARAMETER_ERROR, (s, k)) else
  let r := mkRuleInfo table RULE_LEVEL_ENTERPRISE mark0 mask0 "" "" "" "" in
  let '(ret, k) := if negb (uid =? 0) then UpdateRuleInfo (new_or_del add) FR_ACT_TO_TBL r uid uid k
                   else UpdateRuleInfo (new_or_del add) FR_ACT_TO_TBL r INVALID_UID INVALID_UID k in (ret, (s, k)).

(** ** Virtual networks *)

(** Without "vpn" in its name the interface is the one packets come from. *)
Fixpoint contains (p x : string) : bool :=
  starts_with p x || match x with EmptyString => false | String _ x => contains p x end.

Definition UpdateVpnOutputToLocalRule (interfaceName : string) (add : bool) k : Z * K :=
  let iif := if contains "vpn" interfaceName then "" else interfaceName in
  UpdateRuleInfo (new_or_del add) FR_ACT_TO_TBL
    (mkRuleInfo ROUTE_LOCAL_NETWORK_TABLE RULE_LEVEL_VPN_OUTPUT_TO_LOCAL MARK_UNSET MARK_UNSET iif "" "" "") INVALID_UID INVALID_UID k.

Definition UpdateVpnSystemPermissionRule (netId table : Z) (add : bool) k : Z * K :=
  UpdateRuleInfo (new_or_del add) FR_ACT_TO_TBL
    (mkRuleInfo table RULE_LEVEL_SECURE_VPN (intValue (mkFwmark netId false false PERMISSION_SYSTEM false))
      (intValue (mkFwmark FWMARK_NET_ID_MASK false false PERMISSION_SYSTEM false)) "" "" "" "") INVALID_UID INVALID_UID k.

Definition UpdateVpnUidRangeRule (table uidStart uidEnd : Z) (add : bool) k : Z * K :=
  UpdateRuleInfo (new_or_del add) FR_ACT_TO_TBL
    (mkRuleInfo table RULE_LEVEL_SECURE_VPN (intValue unset_mark) (intValue (mkFwmark 0 false true 0 false)) RULEIIF_LOOPBACK "" "" "")
    uidStart uidEnd k.

Definition UpdateExplicitNetworkRuleWithUid (netId table permission uidStart uidEnd : Z) (add : bool) k : Z * K :=
  UpdateRuleInfo (new_or_del add) FR_ACT_TO_TBL (explicit_rule netId table permission) uidStart uidEnd k.

Definition UpdateOutputInterfaceRulesWithUid (interface : string) (table permission uidStart uidEnd : Z) (add : bool) k : Z * K :=
  UpdateRuleInfo (new_or_del add) FR_ACT_TO_TBL (output_rule interface table permission RULE_LEVEL_OUTPUT_IFACE_VPN) uidStart uidEnd k.

Definition GetRouteTableFromType (tableType : TableType) (interfaceName : string) s : Z * RouteManager :=
  match tableType with
  | INTERFACE => FindTableByInterfacename interfaceName 0 s
  | LOCAL_NETWORK => (ROUTE_LOCAL_NETWORK_TABLE, s)
  | VPN_NETWORK => (ROUTE_VPN_NETWORK_TABLE, s)
  | INTERNAL_DEFAULT =>
      let '(table, s) := FindTableByInterfacename interfaceName 0 s in
      (if table =? RT_TABLE_UNSPEC then RT_TABLE_UNSPEC else table mod ROUTE_INTERNAL_DEFAULT_TABLE + 1, s)
  | UNREACHABLE_NETWORK => (ROUTE_UNREACHABLE_TABLE, s)
  | TABLE_TYPE_BUTT => (RT_TABLE_UNSPEC, s)
  end.

(** Calls whose results are added up: all of them are made. *)
Fixpoint all_calls (fs : list (K -> Z * K)) k : Z * K :=
  match fs with
  | [] => (ROUTEMANAGER_SUCCESS, k)
  | f :: fs => let '(ret, k) := f k in let '(sum, k) := all_calls fs k in (s32 (ret + sum), k)
  end.

Definition ModifyVirtualNetBasedRules (netId : Z) (ifaceName : string) (add : bool) k : Z * K :=
  let table := ROUTE_VPN_NETWORK_TABLE in
  all_calls [UpdateVpnOutputToLocalRule ifaceName add; UpdateVpnSystemPermissionRule netId table add;
    UpdateExplicitNetworkRuleWithUid netId table PERMISSION_NONE UID_ROOT UID_ROOT add] k.

Definition AddInterfaceToVirtualNetwork (netId : Z) (interfaceName : string) k : Z * K :=
  ModifyVirtualNetBasedRules netId interfaceName true k.

Definition RemoveInterfaceFromVirtualNetwork (netId : Z) (interfaceName : string) k : Z * K :=
  let '(ret, k) := ModifyVirtualNetBasedRules netId interfaceName false k in
  if negb (ret =? ROUTEMANAGER_SUCCESS) then (ROUTEMANAGER_ERROR, k) else ClearRouteInfo rest RTM_GETROUTE ROUTE_VPN_NETWORK_TABLE k.

(** The ends of a range are passed as unsigned numbers. *)
Definition UpdateVirtualNetwork (netId : Z) (interfaceName : string) (uidRanges : list UidRange) (add : bool) k : Z * K :=
  let table := ROUTE_VPN_NETWORK_TABLE in
  all_calls (range ← uidRanges;
    let b := u32 (DnsParamCache.begin_ range) in let e := u32 (DnsParamCache.end_ range) in
    [UpdateVpnUidRangeRule table b e add; UpdateExplicitNetworkRuleWithUid netId table PERMISSION_NONE b e add;
     UpdateOutputInterfaceRulesWithUid interfaceName table PERMISSION_NONE b e add]) k.

Definition AddUsersToVirtualNetwork (netId : Z) (interfaceName : string) (uidRanges : list UidRange) k : Z * K :=
  UpdateVirtualNetwork netId interfaceName uidRanges true k.
Definition RemoveUsersFromVirtualNetwork (netId : Z) (interfaceName : string) (uidRanges : list UidRange) k : Z * K :=
  UpdateVirtualNetwork netId interfaceName uidRanges false k.

Definition UpdateVnicUidRangesRule (uidRanges : list UidRange) (add : bool) k : Z * K :=
  all_calls ((fun range => UpdateRuleInfo (new_or_del add) FR_ACT_TO_TBL
    (mkRuleInfo ROUTE_VNIC_TABLE RULE_LEVEL_VNIC_NETWORK (intValue unset_mark) (intValue unset_mark) RULEIIF_LOOPBACK "" "" "")
    (u32 (DnsParamCache.begin_ range)) (u32 (DnsParamCache.end_ range))) <$> uidRanges) k.

(** ** Routes *)

(** The type of a route, and the interface and hop that are left out. *)
Definition route_kind (r : RouteInfo) : Z * RouteInfo * Z :=
  let plain := mkRouteInfo (routeTable r) "" (routeDestinationName r) "" (isExcludedRoute r) in
  if bool_decide (routeNextHop r = "unreachable") then (RTN_UNREACHABLE, plain, 0)
  else if bool_decide (routeNextHop r = "throw") || isExcludedRoute r then (RTN_THROW, plain, 0)
  else (RTN_UNICAST, r, if_nametoindex (routeInterfaceName r)).

Definition route_fixed (type : Z) (dst gw : InetAddr) : rtmsg :=
  let scope := if ia_family dst =? AF_INET then RT_SCOPE_LINK else RT_SCOPE_UNIVERSE in
  if negb (ia_bitlen gw =? 0) then mkRtmsg (ia_family gw) (u8 (ia_prefixlen dst)) RT_TABLE_UNSPEC RTPROT_STATIC RT_SCOPE_UNIVERSE type
  else mkRtmsg (ia_family dst) (u8 (ia_prefixlen dst)) RT_TABLE_UNSPEC RTPROT_STATIC scope type.

Definition addr_bytes (a : InetAddr) : bytes := take (Z.to_nat (ia_bitlen a / 8)) (ia_data a).

Definition route_message (action routeFlag type : Z) (r : RouteInfo) (index : Z) (dst gw : InetAddr) : Z * NetlinkMsg :=
  steps [AddAttr32 RTA_TABLE (routeTable r); AddAttr RTA_DST (addr_bytes dst);
    fun m => if bool_decide (routeNextHop r = "") then (0, m) else AddAttr RTA_GATEWAY (addr_bytes gw) m;
    fun m => if bool_decide (routeInterfaceName r = "") then (0, m) else AddAttr32 RTA_OIF index m]
    (AddRoute action (route_fixed type dst gw) (new_NetlinkMsg routeFlag NETLINK_MAX_LEN pid)).

(** The destination and the hop; [None] when one cannot be read. *)
Definition route_addresses (r : RouteInfo) : option (InetAddr * InetAddr) :=
  let '(readAddrResult, dst) := ReadAddr (routeDestinationName r) in
  if negb (readAddrResult =? 1) then None else
  if bool_decide (routeNextHop r = "") then Some (dst, no_addr) else
  let '(ret, gw) := ReadAddrGw (routeNextHop r) in
  if ret <=? 0 then None else Some (dst, gw).

Definition SendRouteToKernel (action routeFlag type : Z) (r : RouteInfo) (index : Z) k : Z * K :=
  match route_addresses r with
  | None => (-1, k)
  | Some (dst, gw) => send_message (route_message action routeFlag type r index dst gw) k
  end.

Definition UpdateRouteRule (action flags : Z) (r : RouteInfo) k : Z * K :=
  let '(type, r, index) := route_kind r in
  let '(ret, k) := SendRouteToKernel action flags type r index k in
  if ret <? 0 then (ret, k) else (0, k).

Definition SetRouteInfo (tableType : TableType) (n : NetworkRouteInfo) s : option RouteInfo * RouteManager :=
  let '(table, s) := GetRouteTableFromType tableType (nri_ifName n) s in
  (if table =? RT_TABLE_UNSPEC then None
   else Some (mkRouteInfo table (nri_ifName n) (nri_destination n) (nri_nextHop n) (nri_isExcludedRoute n)), s).

(** The result, and whether the route was there. *)
Definition AddRoute_ (tableType : TableType) (n : NetworkRouteInfo) (routeRepeat : bool) s k : Z * bool * (RouteManager * K) :=
  match SetRouteInfo tableType n s with
  | (None, s) => (-1, routeRepeat, (s, k))
  | (Some r, s) => let '(ret, k) := UpdateRouteRule RTM_NEWROUTE (NLM_F_CREATE .| NLM_F_EXCL) r k in (ret, ret =? EEXIST, (s, k))
  end.

Definition RemoveRoute (tableType : TableType) (interfaceName destinationName nextHop : string) (excluded : bool) s k : Z * (RouteManager * K) :=
  match SetRouteInfo tableType (mkNetworkRouteInfo destinationName interfaceName nextHop excluded) s with
  | (None, s) => (-1, (s, k))
  | (Some r, s) => let '(ret, k) := UpdateRouteRule RTM_DELROUTE 0 r k in (ret, (s, k))
  end.

Definition UpdateRoute (tableType : TableType) (interfaceName destinationName nextHop : string) s k : Z * (RouteManager * K) :=
  match SetRouteInfo tableType (mkNetworkRouteInfo destinationName interfaceName nextHop false) s with
  | (None, s) => (-1, (s, k))
  | (Some r, s) => let '(ret, k) := UpdateRouteRule RTM_NEWROUTE NLM_F_REPLACE r k in (ret, (s, k))
  end.

Definition UpdateVnicRoute (interfaceName destinationName nextHop : string) (add : bool) k : Z * K :=
  UpdateRouteRule (if add then RTM_NEWROUTE else RTM_DELROUTE) (if add then NLM_F_CREATE .| NLM_F_EXCL else 0)
    (mkRouteInfo ROUTE_VNIC_TABLE interfaceName destinationName nextHop false) k.

(** [PrepareRouteMessage], [ProcessAddressInfo] and [AddRouteAttributes]. *)
Definition batch_message (r : RouteInfo) : Z * option NetlinkMsg :=
  let '(type, r, index) := route_kind r in
  match route_addresses r with
  | None => (-1, None)
  | Some (dst, gw) =>
    let '(ret, m) := route_message RTM_NEWROUTE (NLM_F_REQUEST .| NLM_F_CREATE .| NLM_F_EXCL) type r index dst gw in
    (ret, if ret =? 0 then Some m else None)
  end.

Fixpoint batch (tableType : TableType) (infos : list NetworkRouteInfo) s : Z * list NetlinkMsg * RouteManager :=
  match infos with
  | [] => (0, [], s)
  | n :: infos =>
    match SetRouteInfo tableType n s with
    | (None, s) => (-1, [], s)
    | (Some r, s) =>
      match batch_message r with
      | (ret, None) => (ret, [], s)
      | (_, Some m) => let '(ret, ms, s) := batch tableType infos s in (ret, m :: ms, s)
      end
    end
  end.

Definition SendNetlinkMsgsToKernel (msgs : list NetlinkMsg) k : Z * K :=
  if bool_decide (length msgs = O) then (-1, k) else
  let '(msgState, k) := transmit (concat (msg_bytes <$> msgs)) k in
  if msgState <=? 0 then (-1, k) else (s32 msgState, k).

Definition AddRoutes (tableType : TableType) (infos : list NetworkRouteInfo) s k : Z * (RouteManager * K) :=
  if bool_decide (length infos = O) then (-1, (s, k)) else
  let '(ret, msgs, s) := batch tableType infos s in
  if negb (ret =? 0) then (ret, (s, k)) else
  let '(ret, k) := SendNetlinkMsgsToKernel msgs k in
  if ret <? 0 then (ret, (s, k)) else (0, (s, k)).

(** ** Distributed networks *)

Definition distributed_route (table : Z) (interfaceName nextHop : string) : RouteInfo :=
  mkRouteInfo table interfaceName "0.0.0.0/0" nextHop false.

Definition server_rule (table : Z) (iif dstIp : string) : RuleInfo :=
  mkRuleInfo table RULE_LEVEL_DISTRIBUTE_COMMUNICATION_SERVER MARK_UNSET MARK_UNSET iif "" "" dstIp.

(** A rule, and the route it leads to; the rule is taken back without the route. *)
Definition rule_and_route (r : RuleInfo) (route : RouteInfo) k : Z * K :=
  let '(ret, k) := UpdateDistributedRule RTM_NEWRULE FR_ACT_TO_TBL r INVALID_UID INVALID_UID k in
  if negb (ret =? ROUTEMANAGER_SUCCESS) then (ret, k) else
  let '(ret, k) := UpdateRouteRule RTM_NEWROUTE (NLM_F_CREATE .| NLM_F_EXCL) route k in
  if negb (ret =? ROUTEMANAGER_SUCCESS) then
    let '(ret, k) := UpdateRouteRule RTM_NEWROUTE NLM_F_REPLACE route k in
    if negb (ret =? 0) then
      (ROUTEMANAGER_ERROR, (UpdateDistributedRule RTM_DELRULE FR_ACT_TO_TBL r INVALID_UID INVALID_UID k).2)
    else (ROUTEMANAGER_SUCCESS, k)
  else (ROUTEMANAGER_SUCCESS, k).

Definition AddServerUplinkRoute (UplinkIif devIface gw : string) k : Z * K :=
  rule_and_route (server_rule ROUTE_DISTRIBUTE_FROM_CLIENT_TABLE UplinkIif "")
    (distributed_route ROUTE_DISTRIBUTE_FROM_CLIENT_TABLE devIface (if bool_decide (gw = "") then "0.0.0.0" else gw)) k.

Definition AddServerDownlinkRoute (UplinkIif dstAddr : string) k : Z * K :=
  rule_and_route (server_rule ROUTE_DISTRIBUTE_TO_CLIENT_TABLE "" dstAddr)
    (distributed_route ROUTE_DISTRIBUTE_TO_CLIENT_TABLE UplinkIif "0.0.0.0") k.

Definition EnableDistributedServerNet (iif devIface dstAddr gw : string) s k : Z * (RouteManager * K) :=
  let s := if bool_decide (devIface = "") then s else set_server iif devIface s in
  let '(ret, k) := all_calls ((if bool_decide (devIface = "") then [] else [AddServerUplinkRoute iif devIface gw]) ++
    [AddServerDownlinkRoute iif dstAddr]) k in (ret, (s, k)).

End Routes.

(** ** What the kernel reads from the message of a rule *)

Record FibRule := mkFib { f_table : Z; f_priority : Z; f_mark : Z; f_mask : Z; f_uid : option (Z * Z); f_iif : bytes; f_oif : bytes }.

#[export] Instance FibRule_eq_dec : EqDecision FibRule.
Proof. solve_decision. Defined.

Definition attr_num (t : Z) (attrs : list Attr) : Z := from_option le 0 (first_attr t attrs).
Definition attr_name (t : Z) (attrs : list Attr) : bytes := from_option c_bytes [] (first_attr t attrs).

Definition rule_family (b : bytes) : Z := nth 0 (m_fixed b) 0.
Definition rule_action (b : bytes) : Z := nth 7 (m_fixed b) 0.
Definition read_rule (b : bytes) : FibRule :=
  let attrs := m_attrs b in
  mkFib (attr_num FRA_TABLE attrs) (attr_num FRA_PRIORITY attrs) (attr_num FRA_FWMARK attrs) (attr_num FRA_FWMASK attrs)
    ((fun d => (le (take 4 d), le (drop 4 d))) <$> first_attr FRA_UID_RANGE attrs)
    (attr_name FRA_IIFNAME attrs) (attr_name FRA_OIFNAME attrs).

(** The rule that is meant. *)
Definition name_bytes (x : string) : bytes := c_bytes (bytes_of_string x).
Definition uid_pair (uidStart uidEnd : Z) : option (Z * Z) :=
  if negb (uidStart =? INVALID_UID) && negb (uidEnd =? INVALID_UID) then Some (uidStart, uidEnd) else None.
Definition rule_of (r : RuleInfo) (uidStart uidEnd : Z) : FibRule :=
  mkFib (ruleTable r) (rulePriority r) (if ruleMask r =? 0 then 0 else ruleFwmark r) (ruleMask r) (uid_pair uidStart uidEnd)
    (name_bytes (ruleIif r)) (name_bytes (ruleOif r)).

Record rule_ok (r : RuleInfo) : Prop := {
  ok_table : in_width 32 (ruleTable r); ok_priority : in_width 32 (rulePriority r);
  ok_mark : in_width 32 (ruleFwmark r); ok_mask : in_width 32 (ruleMask r);
  ok_iif : (String.length (ruleIif r) < IFNAMSIZ)%nat; ok_oif : (String.length (ruleOif r) < IFNAMSIZ)%nat }.

Definition name_attr (x : string) (t : Z) : list Attr := if bool_decide (x = "") then [] else [(t, name_bytes x ++ [0])].
Definition rule_attrs (r : RuleInfo) (uidStart uidEnd : Z) : list (list Attr) :=
  [[(FRA_PRIORITY, le_bytes 4 (rulePriority r))];
   if ruleTable r =? RT_TABLE_UNSPEC then [] else [(FRA_TABLE, le_bytes 4 (ruleTable r))];
   if ruleMask r =? 0 then [] else [(FRA_FWMARK, le_bytes 4 (ruleFwmark r)); (FRA_FWMASK, le_bytes 4 (ruleMask r))];
   if negb (uidStart =? INVALID_UID) && negb (uidEnd =? INVALID_UID) then [(FRA_UID_RANGE, le_bytes 4 uidStart ++ le_bytes 4 uidEnd)] else [];
   name_attr (ruleIif r) FRA_IIFNAME; name_attr (ruleOif r) FRA_OIFNAME].

(** A step that adds these attributes to any message with room for them. *)
Definition same_header (m m' : NetlinkMsg) : Prop :=
  nlmsg_type m' = nlmsg_type m /\ nlmsg_flags m' = nlmsg_flags m /\ nlmsg_seq m' = nlmsg_seq m /\ nlmsg_pid m' = nlmsg_pid m.
Definition cost (l : list Attr) : Z := Z.of_nat (length (attrs_bytes l)).
Definition appends (f : NetlinkMsg -> Z * NetlinkMsg) (l : list Attr) : Prop :=
  forall fixed attrs m, built fixed attrs m -> nlmsg_len m + cost l <= NETLINK_MAX_LEN ->
    exists m', f m = (0, m') /\ built fixed (attrs ++ l) m' /\ same_header m m'.

Lemma cost_cons a l : cost (a :: l) = align4 (attr_len a) + cost l.
Proof. unfold cost, attrs_bytes. cbn [fmap list_fmap concat]. by rewrite length_app, Nat2Z.inj_add, rta_bytes_length. Qed.
Lemma cost_app l1 l2 : cost (l1 ++ l2) = cost l1 + cost l2.
Proof. unfold cost, attrs_bytes. by rewrite fmap_app, concat_app, length_app, Nat2Z.inj_add. Qed.
Lemma cost_nonneg l : 0 <= cost l.
Proof. unfold cost. lia. Qed.

Lemma built_cost fixed attrs m : built fixed attrs m -> nlmsg_len m = 28 + cost attrs.
Proof. intros Hb. by rewrite (b_len _ _ _ Hb). Qed.

Lemma appends_attr t d : attr_ok (t, d) -> appends (AddAttr t d) [(t, d)].
Proof.
  intros Hok fixed attrs m Hb Hc. rewrite cost_cons in Hc. change (cost []) with 0 in Hc. rewrite Z.add_0_r in Hc.
  destruct (AddAttr_built fixed attrs m t d Hb Hok Hc) as (m' & E & Hb' & H'). by exists m'.
Qed.

Lemma appends_none : appends (fun m => (0, m)) [].
Proof. intros fixed attrs m Hb _. exists m. by rewrite app_nil_r. Qed.

Lemma steps_appends fs ls : Forall2 appends fs ls -> appends (steps fs) (concat ls).
Proof.
  induction 1 as [|f l fs ls Hf Hfs IH]; [apply appends_none|].
  intros fixed attrs m Hb Hc. cbn [concat] in *. rewrite cost_app in Hc. pose proof (cost_nonneg (concat ls)).
  destruct (Hf fixed attrs m Hb) as (m1 & E1 & Hb1 & H1); [lia|]. cbn [steps]. rewrite E1. cbn [Z.eqb negb].
  destruct (IH fixed (attrs ++ l) m1 Hb1) as (m2 & E2 & Hb2 & H2).
  { rewrite (built_cost _ _ _ Hb1), cost_app. rewrite (built_cost _ _ _ Hb) in Hc. lia. }
  exists m2. split; [done|]. split; [by rewrite app_assoc|].
  unfold same_header in *. intuition congruence.
Qed.

Lemma attr_ok32 t x : in_width 16 t -> attr_ok (t, le_bytes 4 x).
Proof. intros Ht. split; [done|]. split; [|done]. unfold attr_len. cbn [snd]. by rewrite Clat.le_bytes_length. Qed.

Lemma c_bytes_length b : (length (c_bytes b) <= length b)%nat.
Proof. induction b as [|x b IH]; [done|]. cbn [c_bytes length]. destruct (x =? 0); cbn [length]; lia. Qed.

Lemma bytes_of_string_length x : length (bytes_of_string x) = String.length x.
Proof. unfold Base64.bytes_of_string. rewrite length_fmap. by induction x; cbn; [|f_equal]. Qed.

Lemma c_bytes_end b : c_bytes (c_bytes b ++ [0]) = c_bytes b.
Proof. induction b as [|x b IH]; [done|]. cbn [c_bytes]. destruct (x =? 0) eqn:E; [done|]. cbn [app c_bytes]. by rewrite E, IH. Qed.

Lemma name_attr_ok x t : in_width 16 t -> (String.length x < IFNAMSIZ)%nat -> Forall attr_ok (name_attr x t) /\ cost (name_attr x t) <= 20.
Proof.
  intros Ht Hx. unfold name_attr. case_bool_decide; [by split|].
  pose proof (c_bytes_length (bytes_of_string x)) as Hl. rewrite bytes_of_string_length in Hl. unfold IFNAMSIZ in Hx.
  assert (Ha : 4 <= attr_len (t, name_bytes x ++ [0]) <= 20).
  { unfold attr_len, RTA_HDR, name_bytes. cbn [snd]. rewrite length_app. cbn [length]. lia. }
  split; [apply Forall_singleton; split; [done|]; split; [lia|by destruct (name_bytes x)]|].
  rewrite cost_cons. change (cost []) with 0. unfold align4. div_mod_lia.
Qed.

Lemma appends_name x t : in_width 16 t -> (String.length x < IFNAMSIZ)%nat -> appends (SetRuleMsgIfName x t) (name_attr x t).
Proof.
  intros Ht Hx. destruct (name_attr_ok x t Ht Hx) as [Hok _]. unfold SetRuleMsgIfName, name_attr in *. case_bool_decide; [apply appends_none|].
  rewrite (proj2 (Nat.leb_gt _ _)) by done. apply (appends_attr t). by apply Forall_cons in Hok as [? _].
Qed.

Definition rule_steps (r : RuleInfo) (uidStart uidEnd : Z) : list (NetlinkMsg -> Z * NetlinkMsg) :=
  [SetRuleMsgPriority r; SetRuleMsgTable r; SetRuleMsgFwmark r; SetRuleMsgUidRange uidStart uidEnd;
   SetRuleMsgIfName (ruleIif r) FRA_IIFNAME; SetRuleMsgIfName (ruleOif r) FRA_OIFNAME].

Lemma rule_steps_append r us ue : rule_ok r -> appends (steps (rule_steps r us ue)) (concat (rule_attrs r us ue)).
Proof.
  intros [_ _ _ _ Hi Ho]. apply steps_appends. unfold rule_steps, rule_attrs. repeat constructor.
  - by apply appends_attr, attr_ok32.
  - unfold SetRuleMsgTable. destruct (ruleTable r =? RT_TABLE_UNSPEC); [apply appends_none|]. by apply appends_attr, attr_ok32.
  - unfold SetRuleMsgFwmark. destruct (ruleMask r =? 0); [apply appends_none|]. cbn [negb].
    apply (steps_appends _ [[_]; [_]]). repeat constructor; by apply appends_attr, attr_ok32.
  - unfold SetRuleMsgUidRange. destruct (_ && _); [|apply appends_none]. apply appends_attr. split; [done|]. split; [|done].
    unfold attr_len. cbn [snd]. by rewrite length_app, !Clat.le_bytes_length.
  - by apply appends_name.
  - by apply appends_name.
Qed.

Lemma rule_attrs_ok r us ue : rule_ok r -> Forall attr_ok (concat (rule_attrs r us ue)) /\ cost (concat (rule_attrs r us ue)) <= 100.
Proof.
  intros [_ _ _ _ Hi Ho]. destruct (name_attr_ok (ruleIif r) FRA_IIFNAME ltac:(done) Hi) as [Hi1 Hi2].
  destruct (name_attr_ok (ruleOif r) FRA_OIFNAME ltac:(done) Ho) as [Ho1 Ho2].
  unfold rule_attrs. cbn [concat]. rewrite app_nil_r. rewrite !Forall_app, !cost_app. split.
  - split; [by apply Forall_singleton, attr_ok32|]. split; [destruct (_ =? _); repeat constructor; cbn; by rewrite ?Clat.le_bytes_length|].
    split; [destruct (_ =? _); repeat constructor; cbn; by rewrite ?Clat.le_bytes_length|].
    split; [|done]. destruct (_ && _); [|done]. apply Forall_singleton. split; [done|]. split; [|done].
    unfold attr_len. cbn [snd]. by rewrite length_app, !Clat.le_bytes_length.
  - assert (Hc : forall t x, cost [(t, le_bytes 4 x)] = 8).
    { intros. rewrite cost_cons. unfold attr_len. cbn [snd]. by rewrite Clat.le_bytes_length. }
    assert (cost (if ruleTable r =? RT_TABLE_UNSPEC then [] else [(FRA_TABLE, le_bytes 4 (ruleTable r))]) <= 8) by (destruct (_ =? _); rewrite ?Hc; done).
    assert (cost (if ruleMask r =? 0 then [] else [(FRA_FWMARK, le_bytes 4 (ruleFwmark r)); (FRA_FWMASK, le_bytes 4 (ruleMask r))]) <= 16).
    { destruct (ruleMask r =? 0); [done|]. rewrite cost_cons. unfold attr_len at 1. cbn [snd]. by rewrite Clat.le_bytes_length, Hc. }
    assert (cost (if negb (us =? INVALID_UID) && negb (ue =? INVALID_UID) then [(FRA_UID_RANGE, le_bytes 4 us ++ le_bytes 4 ue)] else []) <= 12).
    { destruct (negb (us =? INVALID_UID) && negb (ue =? INVALID_UID)); [|done]. rewrite cost_cons. unfold attr_len. cbn [snd]. by rewrite length_app, !Clat.le_bytes_length. }
    rewrite Hc. lia.
Qed.

(** The attributes read back. *)
Lemma read_rule_attrs r us ue b : rule_ok r -> in_width 32 us -> in_width 32 ue ->
  m_attrs b = concat (rule_attrs r us ue) -> read_rule b = rule_of r us ue.
Proof.
  intros [Ht Hp Hm Hk _ _] Hs He E. unfold read_rule, rule_of, uid_pair, attr_num, attr_name. rewrite E. clear E.
  unfold rule_attrs, name_attr, name_bytes. cbn [concat].
  assert (L : forall x, in_width 32 x -> le (le_bytes 4 x) = x) by (intros; by apply Clat.le_small).
  assert (Hn : forall x, x = "" -> c_bytes (bytes_of_string x) = []) by (by intros ? ->).
  destruct (ruleTable r =? RT_TABLE_UNSPEC) eqn:E1; destruct (ruleMask r =? 0) eqn:E2; destruct (negb (us =? INVALID_UID) && negb (ue =? INVALID_UID));
    repeat case_bool_decide; cbn [app first_attr fst snd from_option fmap option_fmap option_map Z.eqb Pos.eqb FRA_PRIORITY FRA_TABLE FRA_FWMARK FRA_FWMASK FRA_UID_RANGE FRA_IIFNAME FRA_OIFNAME];
    repeat match goal with H : _ = "" |- _ => rewrite (Hn _ H); clear H end; rewrite ?L, ?c_bytes_end by done; rewrite ?(take_app_length' _ (le_bytes 4 ue)), ?(drop_app_length' _ (le_bytes 4 ue)) by (by rewrite Clat.le_bytes_length);
    rewrite ?L by done; f_equal; apply Z.eqb_eq in E1 || idtac; apply Z.eqb_eq in E2 || idtac; unfold RT_TABLE_UNSPEC in *; congruence.
Qed.

(** The message of a rule, as the kernel gets it. *)
Record rule_bytes (action family ruleType : Z) (f : FibRule) (b : bytes) : Prop := {
  rb_type : m_type b = action; rb_flags : m_flags b .& NLM_F_DUMP = 0; rb_len : m_len b = Z.of_nat (length b);
  rb_family : rule_family b = family; rb_action : rule_action b = ruleType; rb_rule : read_rule b = f }.

Definition is_action (action : Z) : Prop := action = RTM_NEWRULE \/ action = RTM_DELRULE.

Section Send.
Context {K : Type} `{!Kernel K} (pid : Z).

(** The kernel reads the rule that is meant from what is sent. *)
Lemma SendRuleToKernel_spec action family ruleType r us ue (k : K) :
  is_action action -> rule_ok r -> in_width 32 us -> in_width 32 ue ->
  exists b, SendRuleToKernel pid action family ruleType r us ue k = SendNetlinkMsgToKernel b 0 k /\
    rule_bytes action family ruleType (rule_of r us ue) b.
Proof.
  intros Ha Hr Hs He. destruct (rule_attrs_ok r us ue Hr) as [Hok Hc].
  destruct (rule_steps_append r us ue Hr (fib_rule_hdr family 0 0 ruleType) [] _
    (new_built action (GetRuleFlag action) pid (fib_rule_hdr family 0 0 ruleType) eq_refl)) as (m & E & Hb & Hh).
  { cbn [AddRule set_fixed nlmsg_len length fib_rule_hdr]. unfold NETLINK_MAX_LEN, HDRLEN. lia. }
  exists (msg_bytes m). unfold SendRuleToKernel, send_message, rule_message. fold (rule_steps r us ue). rewrite E. split; [done|].
  destruct Hh as (Ht & Hf & _ & _). cbn [nlmsg_type nlmsg_flags AddRule set_fixed new_NetlinkMsg] in Ht, Hf.
  assert (in_width 16 (nlmsg_type m)) by (rewrite Ht; by destruct Ha as [->| ->]).
  assert (in_width 16 (nlmsg_flags m) /\ nlmsg_flags m .& NLM_F_DUMP = 0) as [? Hd] by (rewrite Hf; by destruct Ha as [->| ->]).
  destruct (built_bytes _ _ _ Hb Hok) as (Et & Ef & El & Ex & Ea & En); [done..|].
  split; [by rewrite Et|by rewrite Ef|by rewrite El, En| | |by apply read_rule_attrs].
  - unfold rule_family. by rewrite Ex.
  - unfold rule_action. by rewrite Ex.
Qed.

End Send.

(** ** A kernel that keeps policy rules *)

(** What a deletion selects: a number 0, an empty name and a missing range match
    everything. *)
Definition matches (sel f : FibRule) : bool :=
  ((f_table sel =? 0) || (f_table sel =? f_table f)) && ((f_priority sel =? 0) || (f_priority sel =? f_priority f)) &&
  ((f_mark sel =? 0) || (f_mark sel =? f_mark f)) && ((f_mask sel =? 0) || (f_mask sel =? f_mask f)) &&
  (bool_decide (f_uid sel = None) || bool_decide (f_uid sel = f_uid f)) &&
  (bool_decide (f_iif sel = []) || bool_decide (f_iif sel = f_iif f)) &&
  (bool_decide (f_oif sel = []) || bool_decide (f_oif sel = f_oif f)).

Fixpoint remove_first (P : FibRule -> bool) (l : list FibRule) : list FibRule :=
  match l with [] => [] | x :: l => if P x then l else x :: remove_first P l end.

(** fib_rules of the kernel: every message reaches it; a new rule is added to the
    rules of its family, also when there is an equal one; a deletion takes the
    first rule that matches; other messages leave the rules alone. *)
Class FibLaws (K : Type) `{!Kernel K} := {
  fib : Z -> K -> list FibRule;
  transmit_sent : forall b (k : K), 0 < (transmit b k).1 < 2 ^ 31;
  transmit_new : forall b f (k : K), m_type b = RTM_NEWRULE -> rule_action b = FR_ACT_TO_TBL -> f_table (read_rule b) <> 0 ->
    m_len b = Z.of_nat (length b) ->
    fib f (transmit b k).2 ≡ₚ (if f =? rule_family b then [read_rule b] else []) ++ fib f k;
  transmit_del : forall b f (k : K), m_type b = RTM_DELRULE -> rule_action b = FR_ACT_TO_TBL -> m_len b = Z.of_nat (length b) ->
    fib f (transmit b k).2 = if f =? rule_family b then remove_first (matches (read_rule b)) (fib f k) else fib f k;
  transmit_other : forall b f (k : K), m_type b <> RTM_NEWRULE -> m_type b <> RTM_DELRULE -> fib f (transmit b k).2 = fib f k }.

(** Names of interfaces: 1 to 15 bytes, none of them 0. *)
Definition name_ok (i : string) : Prop :=
  i <> "" /\ (String.length i < IFNAMSIZ)%nat /\ c_bytes (bytes_of_string i) = bytes_of_string i.

(** Only interfaces with such a name have an index. *)
Class IndexLaws (K : Type) `{!Kernel K} := {
  index_range : forall i, 0 <= if_nametoindex i < 2 ^ 31;
  index_name : forall i, if_nametoindex i <> 0 -> name_ok i }.

Definition is_family (f : Z) : Prop := f = AF_INET \/ f = AF_INET6.

Lemma remove_first_absent P l : Forall (fun y => P y = false) l -> remove_first P l = l.
Proof. induction 1 as [|y l Hy Hl IH]; [done|]. cbn [remove_first]. by rewrite Hy, IH. Qed.

(** A deletion that matches only copies of one rule takes one of them. *)
Lemma remove_first_only P x l l' : P x = true -> (forall y, y ∈ l -> P y = true -> y = x) -> l ≡ₚ x :: l' -> remove_first P l ≡ₚ l'.
Proof.
  intros Px Hu Hl. assert (Hx : x ∈ l) by (rewrite Hl; left).
  assert (E : l ≡ₚ x :: remove_first P l); [|by apply (Permutation_cons_inv (a := x)); rewrite <- E].
  clear l' Hl. induction l as [|y l IH]; [by apply not_elem_of_nil in Hx|]. cbn [remove_first]. destruct (P y) eqn:Py.
  - by rewrite (Hu y) by (done || left).
  - apply elem_of_cons in Hx as [->|Hx]; [congruence|]. rewrite (perm_swap y x). constructor. apply IH; [|done].
    intros z Hz. apply Hu. by right.
Qed.

Lemma matches_refl f : matches f f = true.
Proof. unfold matches. rewrite !andb_true_iff, !orb_true_iff, !bool_decide_eq_true, !Z.eqb_eq. tauto. Qed.

Section Laws.
Context {K : Type} `{!Kernel K, !FibLaws K} (pid : Z).
Implicit Types k : K.

Lemma SendNetlinkMsgToKernel_plain b k : m_flags b .& NLM_F_DUMP = 0 ->
  SendNetlinkMsgToKernel b 0 k = transmit b k /\ (transmit b k).1 <? 0 = false.
Proof.
  intros Hf. unfold SendNetlinkMsgToKernel. pose proof (transmit_sent b k) as H. destruct (transmit b k) as [n k']. cbn [fst] in H.
  rewrite (proj2 (Z.leb_gt n 0)) by lia. rewrite Hf. cbn [Z.eqb negb]. rewrite (swrap_small 32) by lia.
  split; [done|]. apply Z.ltb_ge. cbn [fst]. lia.
Qed.

Definition rule_valid (action : Z) (r : RuleInfo) : Prop :=
  rule_ok r /\ rulePriority r <= RULE_PRIORITY_MAX /\ Z.ldiff (ruleFwmark r) (ruleMask r) = 0 /\
  (action = RTM_NEWRULE -> ruleTable r <> 0).

(** A valid rule goes out for both families. *)
Lemma UpdateRuleInfo_sends action r us ue k : is_action action -> rule_valid action r -> in_width 32 us -> in_width 32 ue ->
  exists b4 b6, UpdateRuleInfo pid action FR_ACT_TO_TBL r us ue k = (0, (transmit b6 (transmit b4 k).2).2) /\
    rule_bytes action AF_INET FR_ACT_TO_TBL (rule_of r us ue) b4 /\ rule_bytes action AF_INET6 FR_ACT_TO_TBL (rule_of r us ue) b6.
Proof.
  intros Ha (Hr & Hp & Hm & Ht) Hs He. unfold UpdateRuleInfo. rewrite (proj2 (Z.ltb_ge _ _)) by done. rewrite Hm. cbn [Z.eqb negb].
  assert (table_missing action FR_ACT_TO_TBL r = false) as ->.
  { unfold table_missing. destruct Ha as [->| ->]; [|apply andb_false_r]. rewrite (proj2 (Z.eqb_neq _ _)) by (by apply Ht). done. }
  destruct (SendRuleToKernel_spec pid action AF_INET FR_ACT_TO_TBL r us ue k Ha Hr Hs He) as (b4 & -> & H4).
  destruct (SendNetlinkMsgToKernel_plain b4 k (rb_flags _ _ _ _ _ H4)) as [-> E4]. destruct (transmit b4 k) as [n4 k4] eqn:T4. cbn [fst] in E4.
  rewrite E4. destruct (SendRuleToKernel_spec pid action AF_INET6 FR_ACT_TO_TBL r us ue k4 Ha Hr Hs He) as (b6 & -> & H6).
  exists b4, b6. split; [|done]. destruct (SendNetlinkMsgToKernel_plain b6 k4 (rb_flags _ _ _ _ _ H6)) as [-> E6].
  rewrite T4. cbn [snd]. destruct (transmit b6 k4) as [n6 k6]. cbn [fst] in E6. by rewrite E6.
Qed.

(** Adding a rule adds it to the rules of both families. *)
Lemma UpdateRuleInfo_new r us ue k : rule_valid RTM_NEWRULE r -> in_width 32 us -> in_width 32 ue ->
  exists k', UpdateRuleInfo pid RTM_NEWRULE FR_ACT_TO_TBL r us ue k = (0, k') /\
    forall f, is_family f -> fib f k' ≡ₚ rule_of r us ue :: fib f k.
Proof.
  intros Hv Hs He. destruct (UpdateRuleInfo_sends RTM_NEWRULE r us ue k ltac:(by left) Hv Hs He) as (b4 & b6 & -> & [T4 _ L4 F4 A4 R4] & [T6 _ L6 F6 A6 R6]).
  eexists. split; [done|]. intros f Hf. destruct Hv as (_ & _ & _ & Ht).
  rewrite (transmit_new b6), (transmit_new b4); [|done|done|by rewrite R4; apply Ht|done|done|done|by rewrite R6; apply Ht|done].
  rewrite F4, F6, R4, R6. by destruct Hf as [->| ->].
Qed.

(** Deleting one takes the first that matches from both. *)
Lemma UpdateRuleInfo_del r us ue k : rule_valid RTM_DELRULE r -> in_width 32 us -> in_width 32 ue ->
  exists k', UpdateRuleInfo pid RTM_DELRULE FR_ACT_TO_TBL r us ue k = (0, k') /\
    forall f, is_family f -> fib f k' = remove_first (matches (rule_of r us ue)) (fib f k).
Proof.
  intros Hv Hs He. destruct (UpdateRuleInfo_sends RTM_DELRULE r us ue k ltac:(by right) Hv Hs He) as (b4 & b6 & -> & [T4 _ L4 F4 A4 R4] & [T6 _ L6 F6 A6 R6]).
  eexists. split; [done|]. intros f Hf. rewrite (transmit_del b6), (transmit_del b4) by done.
  rewrite F4, F6, R4, R6. by destruct Hf as [->| ->].
Qed.

End Laws.

(** ** Routes *)

Section RouteFacts.
Context {K : Type} `{!Kernel K} (pid : Z) (inet_pton : Z -> string -> option bytes).
Implicit Types (k : K) (s : RouteManager).

(** A batch sends, for each route, the message that adding it alone sends. *)
Lemma batch_same_message r ret m k : batch_message (K := K) pid inet_pton r = (ret, Some m) ->
  UpdateRouteRule pid inet_pton RTM_NEWROUTE (NLM_F_CREATE .| NLM_F_EXCL) r k =
  let '(ret, k) := SendNetlinkMsgToKernel (msg_bytes m) 0 k in if ret <? 0 then (ret, k) else (0, k).
Proof.
  unfold batch_message, UpdateRouteRule, SendRouteToKernel. destruct (route_kind r) as [[type r'] index].
  destruct (route_addresses inet_pton r') as [[dst gw]|]; [|done].
  change (route_message pid RTM_NEWROUTE (NLM_F_REQUEST .| NLM_F_CREATE .| NLM_F_EXCL) type r' index dst gw)
    with (route_message pid RTM_NEWROUTE (NLM_F_CREATE .| NLM_F_EXCL) type r' index dst gw).
  destruct (route_message _ _ _ _ _ _ _ _) as [e m']. destruct (e =? 0) eqn:E; [|done]. intros [= <- <-]. unfold send_message. cbn [fst snd]. by rewrite E.
Qed.

Lemma UpdateRouteRule_result action flags r k : (UpdateRouteRule pid inet_pton action flags r k).1 <= 0.
Proof.
  unfold UpdateRouteRule. destruct (route_kind r) as [[type r'] index]. destruct (SendRouteToKernel _ _ _ _ _ _ _ k) as [ret k'].
  destruct (Z.ltb_spec ret 0); cbn [fst]; lia.
Qed.

(** A route that is there already is never reported: the kernel's answer is
    negative and is compared with [EEXIST]. *)
Lemma AddRoute_never_repeats tableType n repeat s k r s' : SetRouteInfo (K := K) tableType n s = (Some r, s') ->
  (AddRoute_ pid inet_pton tableType n repeat s k).1.2 = false.
Proof.
  intros E. unfold AddRoute_. rewrite E. pose proof (UpdateRouteRule_result RTM_NEWROUTE (NLM_F_CREATE .| NLM_F_EXCL) r k) as H.
  destruct (UpdateRouteRule _ _ _ _ r k) as [ret k']. cbn [fst snd] in *. apply Z.eqb_neq. unfold EEXIST. lia.
Qed.

End RouteFacts.
End RouteManager.
