(* ===== verification/ConnManager.v ===== *)
(** * The networks of the native service
    (services/netmanagernative/src/manager/conn_manager.cpp, src/netsys/
    netsys_network.cpp, physical_network.cpp, virtual_network.cpp,
    local_network.cpp)

    [ConnManager] keeps the networks by their numbers, each with its interfaces,
    and the default network.  A network turns its interfaces into policy rules
    through [RouteManager]; the manager also writes the maps of the BPF programs.

    The theorem: an interface is in at most one ordinary and one internal network
    ([interface_unique]).  What the networks make of the rules of the kernel is in
    [NetRules]. *)

From S2P Require Import Prelude StdAlgo NetCaps NetData BpfMap NetsysBpf BpfStats AccessMaps DnsParamCache Netlink RouteManager.

Module ConnManager.
Module RM := RouteManager.
Abbreviation UidRange := DnsParamCache.UidRange.
Abbreviation Maps := NetsysBpf.Kernel.

Definition INTERFACE_UNSET : Z := -1.
Definition LOCAL_NET_ID : Z := 99.
Definition VIRTUAL_IFACE_PREFIX : string := "tun".
Definition NETMANAGER_SUCCESS : Z := 0.
Definition NETMANAGER_ERROR : Z := -1.

(** ** The networks *)

(** A [std::set] of names: increasing and without duplicates. *)
Definition set_insert (x : string) (l : list string) : list string :=
  if bool_decide (x ∈ l) then l else StdAlgo.insert_sorted String.ltb x l.
Definition set_erase (x : string) (l : list string) : list string := filter (fun y => y <> x) l.

(** [NetsysNetwork] and what its subclasses add. *)
Inductive Kind :=
| PhysicalNetwork (isDefault_ : bool) (permission_ : Z)
| VirtualNetwork (hasDns_ : bool) (uidRanges_ : list UidRange)
| LocalNetwork.
Record NetsysNetwork := mkNetwork { netId_ : Z; interfaces_ : list string; kind : Kind }.

Definition set_interfaces x n := mkNetwork (netId_ n) x (kind n).
Definition set_kind x n := mkNetwork (netId_ n) (interfaces_ n) x.

Definition IsPhysical (n : NetsysNetwork) : bool := match kind n with PhysicalNetwork _ _ => true | _ => false end.
Definition ExistInterface (interfaceName : string) (n : NetsysNetwork) : bool := bool_decide (interfaceName ∈ interfaces_ n).
Definition ClearInterfaces (n : NetsysNetwork) : NetsysNetwork := set_interfaces [] n.

Record ConnManager := mkConnManager {
  defaultNetId_ : Z; needReinitRouteFlag_ : bool; physicalInterfaceName_ : gmap Z string; networks_ : gmap Z NetsysNetwork }.
Definition set_default x c := mkConnManager x (needReinitRouteFlag_ c) (physicalInterfaceName_ c) (networks_ c).
Definition set_reinit x c := mkConnManager (defaultNetId_ c) x (physicalInterfaceName_ c) (networks_ c).
Definition set_names x c := mkConnManager (defaultNetId_ c) (needReinitRouteFlag_ c) x (networks_ c).
Definition set_networks x c := mkConnManager (defaultNetId_ c) (needReinitRouteFlag_ c) (physicalInterfaceName_ c) x.

Definition new_ConnManager : ConnManager := mkConnManager 0 false ∅ {[LOCAL_NET_ID := mkNetwork LOCAL_NET_ID [] LocalNetwork]}.

(** A map is walked in the order of its keys. *)
Definition walk (m : gmap Z NetsysNetwork) : list (Z * NetsysNetwork) := sort_by fst (map_to_list m).

Definition GetNetIdByInterface (interfaceName : string) (c : ConnManager) : Z :=
  foldl (fun interfaceId '(id, n) => if negb (interfaceId =? INTERFACE_UNSET) then interfaceId
    else if ExistInterface interfaceName n then id else interfaceId) INTERFACE_UNSET (walk (networks_ c)).

Definition GetNetworkForInterface (netId : Z) (interfaceName : string) (c : ConnManager) : Z :=
  foldl (fun interfaceId '(id, n) => if negb (Bool.eqb (RM.IsInternalNetId id) (RM.IsInternalNetId netId)) then interfaceId
    else if negb (interfaceId =? INTERFACE_UNSET) then interfaceId
    else if ExistInterface interfaceName n then id else interfaceId) INTERFACE_UNSET (walk (networks_ c)).

Definition GetDefaultNetwork (c : ConnManager) : Z := defaultNetId_ c.
Definition IsVirtualInterface (interfaceName : string) : bool := String.prefix VIRTUAL_IFACE_PREFIX interfaceName.

Definition FindVirtualNetwork (netId : Z) (c : ConnManager) : option NetsysNetwork :=
  if netId =? LOCAL_NET_ID then None else
  match networks_ c !! netId with Some n => if IsPhysical n then None else Some n | None => None end.

Definition GetTableType (netId : Z) (c : ConnManager) : RM.TableType :=
  if netId =? LOCAL_NET_ID then RM.LOCAL_NETWORK
  else if bool_decide (is_Some (FindVirtualNetwork netId c)) then RM.VPN_NETWORK
  else if RM.IsInternalNetId netId then RM.INTERNAL_DEFAULT
  else RM.INTERFACE.

Section ConnManager.
Context {K : Type} {NK : Netlink.Kernel K} (pid : Z) (rest : list Z) (inet_pton : Z -> string -> option (list Z)).
Context (sz : NetsysBpf.Sizes) (loaded : bool).
(** [VpnManager]: creating and removing the tunnel. *)
Context (CreateVpnInterface : K -> Z * K) (DestroyVpnInterface : K -> K).

Record World := mkWorld { routes : RM.RouteManager; kern : K; maps : Maps }.
Definition set_rk (x : RM.RouteManager * K) w := mkWorld x.1 x.2 (maps w).
Definition set_kern k w := mkWorld (routes w) k (maps w).
Definition set_maps x w := mkWorld (routes w) (kern w) x.
Implicit Types (w : World) (c : ConnManager) (n : NetsysNetwork).

(** A call of [RouteManager]. *)
Definition call (f : RM.RouteManager -> K -> Z * (RM.RouteManager * K)) w : Z * World :=
  let '(ret, x) := f (routes w) (kern w) in (ret, set_rk x w).
Definition call_kern (f : K -> Z * K) w : Z * World := let '(ret, k) := f (kern w) in (ret, set_kern k w).

(** ** Physical networks *)

Definition AddDefault n w : NetsysNetwork * World :=
  match kind n with
  | PhysicalNetwork _ permission =>
    (set_kind (PhysicalNetwork true permission) n,
     foldl (fun w i => (call (RM.AddInterfaceToDefaultNetwork pid i permission) w).2) w (interfaces_ n))
  | _ => (n, w)
  end.

Definition RemoveDefault n w : NetsysNetwork * World :=
  match kind n with
  | PhysicalNetwork _ permission =>
    (set_kind (PhysicalNetwork false permission) n,
     foldl (fun w i => (call (RM.RemoveInterfaceFromDefaultNetwork pid i permission) w).2) w (interfaces_ n))
  | _ => (n, w)
  end.

Definition add_physical (isDefault : bool) (permission : Z) (interfaceName : string) n w : Z * NetsysNetwork * World :=
  if ExistInterface interfaceName n then (NETMANAGER_SUCCESS, n, w) else
  let '(ret, w) := call (RM.AddInterfaceToPhysicalNetwork pid (netId_ n) interfaceName permission) w in
  if negb (ret =? 0) then (NETMANAGER_ERROR, n, w) else
  let w := if isDefault then (call (RM.AddInterfaceToDefaultNetwork pid interfaceName permission) w).2 else w in
  (NETMANAGER_SUCCESS, set_interfaces (set_insert interfaceName (interfaces_ n)) n, w).

Definition remove_physical (isDefault : bool) (permission : Z) (interfaceName : string) n w : Z * NetsysNetwork * World :=
  if negb (ExistInterface interfaceName n) then (NETMANAGER_SUCCESS, n, w) else
  let w := if isDefault then (call (RM.RemoveInterfaceFromDefaultNetwork pid interfaceName permission) w).2 else w in
  let '(ret, w) := call (RM.RemoveInterfaceFromPhysicalNetwork pid rest (netId_ n) interfaceName permission) w in
  if negb (ret =? 0) then (NETMANAGER_ERROR, n, w) else
  (NETMANAGER_SUCCESS, set_interfaces (set_erase interfaceName (interfaces_ n)) n, w).

(** ** Local networks *)

Definition add_local (interfaceName : string) n w : Z * NetsysNetwork * World :=
  if ExistInterface interfaceName n then (NETMANAGER_SUCCESS, n, w) else
  let '(ret, w) := call (RM.AddInterfaceToLocalNetwork pid interfaceName) w in
  if negb (ret =? 0) then (NETMANAGER_ERROR, n, w) else
  (NETMANAGER_SUCCESS, set_interfaces (set_insert interfaceName (interfaces_ n)) n, w).

Definition remove_local (interfaceName : string) n w : Z * NetsysNetwork * World :=
  if negb (ExistInterface interfaceName n) then (NETMANAGER_SUCCESS, n, w) else
  let '(ret, w) := call (RM.RemoveInterfaceFromLocalNetwork pid interfaceName) w in
  if negb (ret =? 0) then (NETMANAGER_ERROR, n, w) else
  (NETMANAGER_SUCCESS, set_interfaces (set_erase interfaceName (interfaces_ n)) n, w).

(** ** Virtual networks *)

Definition add_virtual (interfaceName : string) n w : Z * NetsysNetwork * World :=
  if ExistInterface interfaceName n then (NETMANAGER_ERROR, n, w) else
  let '(ret, w) := call_kern CreateVpnInterface w in
  if negb (ret =? NETMANAGER_SUCCESS) then (NETMANAGER_ERROR, n, w) else
  let '(ret, w) := call_kern (RM.AddInterfaceToVirtualNetwork pid (netId_ n) interfaceName) w in
  if negb (ret =? 0) then (NETMANAGER_ERROR, n, w) else
  (NETMANAGER_SUCCESS, set_interfaces (set_insert interfaceName (interfaces_ n)) n, w).

Definition remove_virtual (interfaceName : string) n w : Z * NetsysNetwork * World :=
  if negb (ExistInterface interfaceName n) then (NETMANAGER_SUCCESS, n, w) else
  let '(ret, w) := call_kern (RM.RemoveInterfaceFromVirtualNetwork pid rest (netId_ n) interfaceName) w in
  if negb (ret =? 0) then (NETMANAGER_ERROR, n, w) else
  (NETMANAGER_SUCCESS, set_interfaces (set_erase interfaceName (interfaces_ n)) n, set_kern (DestroyVpnInterface (kern w)) w).

(** The interfaces in turn until one fails. *)
Fixpoint each_interface (f : string -> K -> Z * K) (l : list string) w : Z * World :=
  match l with
  | [] => (NETMANAGER_SUCCESS, w)
  | i :: l => let '(ret, w) := call_kern (f i) w in if negb (ret =? 0) then (NETMANAGER_ERROR, w) else each_interface f l w
  end.

Definition AddUids (uidVec : list UidRange) n w : Z * NetsysNetwork * World :=
  match kind n with
  | VirtualNetwork hasDns uidRanges =>
    let n := set_kind (VirtualNetwork hasDns (StdAlgo.merge DnsParamCache.range_lt uidRanges uidVec)) n in
    let '(ret, w) := each_interface (fun i => RM.AddUsersToVirtualNetwork pid (netId_ n) i uidVec) (interfaces_ n) w in (ret, n, w)
  | _ => (NETMANAGER_ERROR, n, w)
  end.

Definition RemoveUids (uidVec : list UidRange) n w : Z * NetsysNetwork * World :=
  match kind n with
  | VirtualNetwork hasDns uidRanges =>
    let n := set_kind (VirtualNetwork hasDns (StdAlgo.set_difference DnsParamCache.range_lt uidRanges uidVec)) n in
    let '(ret, w) := each_interface (fun i => RM.RemoveUsersFromVirtualNetwork pid (netId_ n) i uidVec) (interfaces_ n) w in (ret, n, w)
  | _ => (NETMANAGER_ERROR, n, w)
  end.

(** The virtual functions. *)
Definition AddInterface (interfaceName : string) n w : Z * NetsysNetwork * World :=
  match kind n with
  | PhysicalNetwork d p => add_physical d p interfaceName n w
  | VirtualNetwork _ _ => add_virtual interfaceName n w
  | LocalNetwork => add_local interfaceName n w
  end.

Definition RemoveInterface (interfaceName : string) n w : Z * NetsysNetwork * World :=
  match kind n with
  | PhysicalNetwork d p => remove_physical d p interfaceName n w
  | VirtualNetwork _ _ => remove_virtual interfaceName n w
  | LocalNetwork => remove_local interfaceName n w
  end.

(** ** The manager *)

Definition put (id : Z) n c : ConnManager := set_networks (<[id := n]> (networks_ c)) c.

Definition SetInternetPermission (uid allow isBroker : Z) (m : Maps) : Z * Maps :=
  if uid =? 0 then (NETMANAGER_ERROR, m) else
  if negb loaded then (NETMANAGER_ERROR, m) else
  if negb (isBroker =? 0) then
    let '(r, x) := BpfMap.Write (NetsysBpf.BROKER_SOCK_PERMISSION_MAP_SIZE sz) uid allow (NetsysBpf.broker_sock_permission_map m) in
    if negb (r =? 0) then (NETMANAGER_ERROR, m) else
    (NETMANAGER_SUCCESS, NetsysBpf.mkKernel (NetsysBpf.counters m) (NetsysBpf.notify m) (NetsysBpf.access m) (NetsysBpf.sock_netns_map m) (NetsysBpf.oh_sock_permission_map m) x (NetsysBpf.firewall m))
  else
    let '(r, x) := BpfMap.Write (NetsysBpf.OH_SOCK_PERMISSION_MAP_SIZE sz) uid allow (NetsysBpf.oh_sock_permission_map m) in
    if negb (r =? 0) then (NETMANAGER_ERROR, m) else
    (NETMANAGER_SUCCESS, NetsysBpf.mkKernel (NetsysBpf.counters m) (NetsysBpf.notify m) (NetsysBpf.access m) (NetsysBpf.sock_netns_map m) x (NetsysBpf.broker_sock_permission_map m) (NetsysBpf.firewall m)).

Definition DestroyNetwork (netId : Z) c w : Z * ConnManager * World :=
  if netId =? LOCAL_NET_ID then (NETMANAGER_ERROR, c, w) else
  let '(c, w) :=
    match networks_ c !! netId with
    | Some n =>
      if defaultNetId_ c =? netId then (set_default 0 c, if IsPhysical n then (RemoveDefault n w).2 else w) else (c, w)
    | None => (c, w)
    end in
  (NETMANAGER_SUCCESS, set_networks (delete netId (networks_ c)) c, w).

Definition SetDefaultNetwork (netId : Z) c w : Z * ConnManager * World :=
  if defaultNetId_ c =? netId then (NETMANAGER_SUCCESS, c, w) else
  let refused := match networks_ c !! netId with Some n => negb (IsPhysical n) | None => false end in
  if refused then (NETMANAGER_ERROR, c, w) else
  let '(c, w) := match networks_ c !! netId with
    | Some n => let '(n, w) := AddDefault n w in (put netId n c, w)
    | None => (c, w) end in
  let old := defaultNetId_ c in
  if negb (old =? 0) then
    match networks_ c !! old with
    | Some n =>
      if negb (IsPhysical n) then (NETMANAGER_ERROR, c, w)
      else let '(n, w) := RemoveDefault n w in (NETMANAGER_SUCCESS, set_default netId (put old n c), w)
    | None => (NETMANAGER_SUCCESS, set_default netId c, w)
    end
  else (NETMANAGER_SUCCESS, set_default netId c, w).

Definition ClearDefaultNetwork c w : Z * ConnManager * World :=
  let cur := defaultNetId_ c in
  if negb (cur =? 0) then
    match networks_ c !! cur with
    | Some n =>
      if negb (IsPhysical n) then (NETMANAGER_ERROR, c, w)
      else let '(n, w) := RemoveDefault n w in (NETMANAGER_SUCCESS, set_default 0 (put cur n c), w)
    | None => (NETMANAGER_SUCCESS, set_default 0 c, w)
    end
  else (NETMANAGER_SUCCESS, set_default 0 c, w).

Definition on_access (f : NetsysBpf.Access -> NetsysBpf.Access) w : World :=
  set_maps (NetsysBpf.set_access (f (NetsysBpf.access (maps w))) (maps w)) w.

Definition AddInterfaceToNetwork (netId : Z) (interfaceName : string) (netBearerType : Z) c w : Z * ConnManager * World :=
  let alreadySetNetId := GetNetworkForInterface netId interfaceName c in
  if negb (alreadySetNetId =? netId) && negb (alreadySetNetId =? INTERFACE_UNSET) then (NETMANAGER_ERROR, c, w) else
  match networks_ c !! netId with
  | None => (NETMANAGER_ERROR, c, w)
  | Some n =>
    let w := on_access (AccessMaps.AddInterface_maps loaded netId (Netlink.if_nametoindex interfaceName) netBearerType) w in
    let c := if IsPhysical n && negb (IsVirtualInterface interfaceName)
             then set_names (<[netId := interfaceName]> (physicalInterfaceName_ c)) c else c in
    let '(ret, n, w) := AddInterface interfaceName n w in (ret, put netId n c, w)
  end.

Definition RemoveInterfaceFromNetwork (netId : Z) (interfaceName : string) c w : Z * ConnManager * World :=
  let alreadySetNetId := GetNetworkForInterface netId interfaceName c in
  if negb (alreadySetNetId =? netId) || (alreadySetNetId =? INTERFACE_UNSET) then (NETMANAGER_SUCCESS, c, w) else
  match networks_ c !! netId with
  | None => (NETMANAGER_SUCCESS, c, w)
  | Some n =>
    let '(ret, n', w) := RemoveInterface interfaceName n w in
    let c := put netId n' c in
    let c := if IsPhysical n && negb (IsVirtualInterface interfaceName)
             then set_names (delete netId (physicalInterfaceName_ c)) c else c in
    (ret, c, on_access (AccessMaps.RemoveInterface_maps loaded netId (Netlink.if_nametoindex interfaceName)) w)
  end.

(** After a restart of the clients: every network but the local one loses the
    interface that was last noted for it, and is destroyed.  Reading a missing
    name of [physicalInterfaceName_] makes an empty one. *)
Definition reinit_one (netId : Z) (cw : ConnManager * World) : ConnManager * World :=
  let '(c, w) := cw in
  let interfaceName := default "" (physicalInterfaceName_ c !! netId) in
  let c := set_names (<[netId := interfaceName]> (physicalInterfaceName_ c)) c in
  let '(_, c, w) := RemoveInterfaceFromNetwork netId interfaceName c w in
  let '(_, c, w) := DestroyNetwork netId c w in (c, w).

Definition reinit_ids c : list Z :=
  netId_ <$> (filter (fun x => x.1 <> LOCAL_NET_ID) (walk (networks_ c))).*2.

Definition CreatePhysicalNetwork (netId permission : Z) c w : Z * ConnManager * World :=
  let '(c, w) :=
    if needReinitRouteFlag_ c then
      let '(c, w) := foldl (fun cw id => reinit_one id cw) (c, w) (sort_by (fun x => x) (remove_dups (reinit_ids c))) in
      (set_reinit false c, w)
    else (c, w) in
  (NETMANAGER_SUCCESS, put netId (mkNetwork netId [] (PhysicalNetwork false permission)) c, w).

Definition CreateVirtualNetwork (netId : Z) (hasDns : bool) c : Z * ConnManager :=
  (NETMANAGER_SUCCESS, put netId (mkNetwork netId [] (VirtualNetwork hasDns [])) c).

Definition ReinitRoute c : Z * ConnManager := (NETMANAGER_SUCCESS, set_reinit true c).

Definition AddUidsToNetwork (netId : Z) (uidRanges : list UidRange) c w : Z * ConnManager * World :=
  match FindVirtualNetwork netId c with
  | None => (NETMANAGER_ERROR, c, w)
  | Some n => let '(ret, n, w) := AddUids uidRanges n w in (ret, put netId n c, w)
  end.

Definition RemoveUidsFromNetwork (netId : Z) (uidRanges : list UidRange) c w : Z * ConnManager * World :=
  match FindVirtualNetwork netId c with
  | None => (NETMANAGER_ERROR, c, w)
  | Some n => let '(ret, n, w) := RemoveUids uidRanges n w in (ret, put netId n c, w)
  end.

Definition AddRoute (netId : Z) (info : RM.NetworkRouteInfo) (routeRepeat : bool) c w : Z * bool * World :=
  let '(ret, repeat, x) := RM.AddRoute_ pid inet_pton (GetTableType netId c) info routeRepeat (routes w) (kern w) in (ret, repeat, set_rk x w).
Definition AddRoutes (netId : Z) (infos : list RM.NetworkRouteInfo) c w : Z * World :=
  call (RM.AddRoutes pid inet_pton (GetTableType netId c) infos) w.
Definition RemoveRoute (netId : Z) (interfaceName destination nextHop : string) (isExcludedRoute : bool) c w : Z * World :=
  call (RM.RemoveRoute pid inet_pton (GetTableType netId c) interfaceName destination nextHop isExcludedRoute) w.
Definition UpdateRoute (netId : Z) (interfaceName destination nextHop : string) c w : Z * World :=
  call (RM.UpdateRoute pid inet_pton (GetTableType netId c) interfaceName destination nextHop) w.

(** ** Calls in sequence *)

Inductive Op :=
| OpCreatePhysical (netId permission : Z) | OpCreateVirtual (netId : Z) (hasDns : bool) | OpDestroy (netId : Z)
| OpSetDefault (netId : Z) | OpClearDefault
| OpAddInterface (netId : Z) (interfaceName : string) (netBearerType : Z) | OpRemoveInterface (netId : Z) (interfaceName : string)
| OpReinit | OpAddUids (netId : Z) (uidRanges : list UidRange) | OpRemoveUids (netId : Z) (uidRanges : list UidRange).

(** The number of a new network has 16 bits. *)
Definition exec (op : Op) (cw : ConnManager * World) : Z * ConnManager * World :=
  let '(c, w) := cw in
  match op with
  | OpCreatePhysical id p => CreatePhysicalNetwork (u16 id) p c w
  | OpCreateVirtual id h => let '(r, c) := CreateVirtualNetwork (u16 id) h c in (r, c, w)
  | OpDestroy id => DestroyNetwork id c w
  | OpSetDefault id => SetDefaultNetwork id c w
  | OpClearDefault => ClearDefaultNetwork c w
  | OpAddInterface id i b => AddInterfaceToNetwork id i b c w
  | OpRemoveInterface id i => RemoveInterfaceFromNetwork id i c w
  | OpReinit => let '(r, c) := ReinitRoute c in (r, c, w)
  | OpAddUids id l => AddUidsToNetwork id l c w
  | OpRemoveUids id l => RemoveUidsFromNetwork id l c w
  end.

Definition exec_state (op : Op) (cw : ConnManager * World) : ConnManager * World := let '(_, c, w) := exec op cw in (c, w).

(** ** An interface is in one network *)

(** Of the ordinary networks, and of the internal ones. *)
Definition unique c : Prop :=
  (forall id n, networks_ c !! id = Some n -> 0 <= id) /\
  forall id1 n1 id2 n2 i, networks_ c !! id1 = Some n1 -> networks_ c !! id2 = Some n2 -> i ∈ interfaces_ n1 -> i ∈ interfaces_ n2 ->
    RM.IsInternalNetId id1 = RM.IsInternalNetId id2 -> id1 = id2.

(** No network gains an interface. *)
Definition shrinks c c' : Prop := forall id n', networks_ c' !! id = Some n' ->
  (interfaces_ n' = [] /\ 0 <= id) \/ exists n, networks_ c !! id = Some n /\ forall i, i ∈ interfaces_ n' -> i ∈ interfaces_ n.

#[local] Instance shrinks_preorder : PreOrder shrinks.
Proof.
  split.
  - intros c id n Hn. right. by exists n.
  - intros c1 c2 c3 H12 H23 id n3 Hn3. destruct (H23 id n3 Hn3) as [?|(n2 & Hn2 & H2)]; [by left|].
    destruct (H12 id n2 Hn2) as [[E ?]|(n1 & Hn1 & H1)]; [left|right; exists n1; split; [done|]; auto].
    split; [|done]. destruct (interfaces_ n3) as [|i l]; [done|]. specialize (H2 i ltac:(left)). rewrite E in H2. by apply not_elem_of_nil in H2.
Qed.

Lemma unique_shrinks c c' : shrinks c c' -> unique c -> unique c'.
Proof.
  intros Hs [Hk Hu]. split.
  - intros id n Hn. destruct (Hs id n Hn) as [[_ ?]|(m & Hm & _)]; [done|by eapply Hk].
  - intros id1 n1 id2 n2 i H1 H2 Hi1 Hi2. destruct (Hs id1 n1 H1) as [[E _]|(m1 & Hm1 & S1)]; [by rewrite E in Hi1; apply not_elem_of_nil in Hi1|].
    destruct (Hs id2 n2 H2) as [[E _]|(m2 & Hm2 & S2)]; [by rewrite E in Hi2; apply not_elem_of_nil in Hi2|]. by eapply Hu; eauto.
Qed.

Lemma shrinks_put id n n' c : networks_ c !! id = Some n -> (forall i, i ∈ interfaces_ n' -> i ∈ interfaces_ n) -> shrinks c (put id n' c).
Proof.
  intros Hn H j m. unfold put. cbn [networks_ set_networks]. intros [[<- <-]|[? Hm]]%lookup_insert_Some; right; [by exists n|by exists m].
Qed.

Lemma shrinks_new id n c : interfaces_ n = [] -> 0 <= id -> shrinks c (put id n c).
Proof.
  intros Hn Hi j m. unfold put. cbn [networks_ set_networks]. intros [[<- <-]|[? Hm]]%lookup_insert_Some; [by left|right; by exists m].
Qed.

Lemma shrinks_delete id c : shrinks c (set_networks (delete id (networks_ c)) c).
Proof. intros j m. cbn [networks_ set_networks]. intros [? Hm]%lookup_delete_Some. right. by exists m. Qed.

Lemma shrinks_same c c' : networks_ c' = networks_ c -> shrinks c c'.
Proof. intros E id n. rewrite E. intros Hn. right. by exists n. Qed.

Lemma shrinks_trans c1 c2 c3 : shrinks c1 c2 -> shrinks c2 c3 -> shrinks c1 c3.
Proof. apply transitivity. Qed.

Lemma set_insert_elem x y l : y ∈ set_insert x l <-> y = x \/ y ∈ l.
Proof.
  unfold set_insert. case_bool_decide; [split; [by right|by intros [->|?]]|].
  by rewrite StdAlgo.insert_sorted_Permutation, elem_of_cons.
Qed.

Lemma set_erase_elem x y l : y ∈ set_erase x l <-> y <> x /\ y ∈ l.
Proof. unfold set_erase. by rewrite list_elem_of_filter. Qed.

Lemma AddDefault_interfaces n w : interfaces_ (AddDefault n w).1 = interfaces_ n.
Proof. unfold AddDefault. by destruct (kind n). Qed.
Lemma RemoveDefault_interfaces n w : interfaces_ (RemoveDefault n w).1 = interfaces_ n.
Proof. unfold RemoveDefault. by destruct (kind n). Qed.

Lemma AddInterface_interfaces i n w ret n' w' : AddInterface i n w = (ret, n', w') -> forall j, j ∈ interfaces_ n' -> j = i \/ j ∈ interfaces_ n.
Proof.
  unfold AddInterface, add_physical, add_virtual, add_local.
  destruct (kind n); destruct (ExistInterface i n); repeat (case_match; try destruct_and?); intros; simplify_eq; auto;
    by apply set_insert_elem.
Qed.

Lemma RemoveInterface_interfaces i n w ret n' w' : RemoveInterface i n w = (ret, n', w') -> forall j, j ∈ interfaces_ n' -> j ∈ interfaces_ n.
Proof.
  unfold RemoveInterface, remove_physical, remove_virtual, remove_local.
  destruct (kind n); destruct (ExistInterface i n); cbn [negb]; repeat case_match; intros; simplify_eq; auto;
    match goal with Hj : _ ∈ interfaces_ (set_interfaces _ _) |- _ => by apply set_erase_elem in Hj as [_ ?] end.
Qed.

(** The network found has the interface and is of the same class; with none
    found no network of the class has it. *)
Lemma GetNetworkForInterface_spec netId i c : (forall id n, networks_ c !! id = Some n -> 0 <= id) ->
  (GetNetworkForInterface netId i c = INTERFACE_UNSET /\
   forall id n, networks_ c !! id = Some n -> RM.IsInternalNetId id = RM.IsInternalNetId netId -> i ∉ interfaces_ n) \/
  exists n, networks_ c !! GetNetworkForInterface netId i c = Some n /\ i ∈ interfaces_ n /\
    RM.IsInternalNetId (GetNetworkForInterface netId i c) = RM.IsInternalNetId netId.
Proof.
  intros Hk. unfold GetNetworkForInterface.
  assert (Hw : forall id n, networks_ c !! id = Some n <-> (id, n) ∈ walk (networks_ c)).
  { intros id n. unfold walk. by rewrite sort_by_Permutation, elem_of_map_to_list. }
  setoid_rewrite Hw. setoid_rewrite Hw in Hk. clear Hw. generalize (walk (networks_ c)) Hk. clear Hk. intros l Hk.
  match goal with |- context [foldl ?g _ l] => set (f := g) end.
  assert (Hf : forall l x, x <> INTERFACE_UNSET -> foldl f x l = x).
  { clear. intros l. induction l as [|[id n] l IH]; intros x Hx; [done|]. cbn [foldl]. unfold f at 2.
    rewrite (proj2 (Z.eqb_neq _ _) Hx). cbn [negb]. destruct (negb (Bool.eqb _ _)); by apply IH. }
  induction l as [|[id n] l IH]; [left; split; [done|]; by intros ? ? ?%not_elem_of_nil|]. cbn [foldl].
  assert (Ef : f INTERFACE_UNSET (id, n) =
    if Bool.eqb (RM.IsInternalNetId id) (RM.IsInternalNetId netId) && ExistInterface i n then id else INTERFACE_UNSET).
  { unfold f. by destruct (Bool.eqb _ _), (ExistInterface i n). }
  rewrite Ef. destruct (Bool.eqb _ _ && _) eqn:Eb.
  - apply andb_true_iff in Eb as [Ec%eqb_prop Hi%bool_decide_eq_true]. right. exists n.
    rewrite Hf by (specialize (Hk id n ltac:(left)); unfold INTERFACE_UNSET; lia). split; [left|done].
  - destruct IH as [[E Hn]|(m & Hm & ? & ?)]; [by intros; eapply Hk; right| |right; exists m; split; [by right|done]].
    left. split; [done|]. intros j m [[= -> ->]|Hj]%elem_of_cons Hc; [|by eapply Hn].
    rewrite Hc, eqb_reflx in Eb. by apply bool_decide_eq_false in Eb.
Qed.

(** When the interface may be added to a network, no other of its class has it. *)
Lemma guard_other netId i c : unique c ->
  negb (GetNetworkForInterface netId i c =? netId) && negb (GetNetworkForInterface netId i c =? INTERFACE_UNSET) = false ->
  forall id m, networks_ c !! id = Some m -> id <> netId -> RM.IsInternalNetId id = RM.IsInternalNetId netId -> i ∉ interfaces_ m.
Proof.
  intros [Hk Hu] Eg id m Hm Hne Hc. destruct (GetNetworkForInterface_spec netId i c Hk) as [[_ Hg]|(m' & Hm' & Hi' & Hc')]; [by eapply Hg|]. intros Him.
  assert (Eid : id = GetNetworkForInterface netId i c) by (apply (Hu id m _ m' i); [done..|congruence]). subst id.
  rewrite (proj2 (Z.eqb_neq _ _) Hne) in Eg. cbn [negb andb] in Eg. apply negb_false_iff, Z.eqb_eq in Eg.
  specialize (Hk _ _ Hm). unfold INTERFACE_UNSET in Eg. lia.
Qed.

Lemma AddInterfaceToNetwork_unique netId i b c w r c' w' : AddInterfaceToNetwork netId i b c w = (r, c', w') -> unique c -> unique c'.
Proof.
  intros E Huniq. pose proof (guard_other netId i c Huniq) as Hother. destruct Huniq as [Hk Hu]. unfold AddInterfaceToNetwork in E.
  destruct (negb _ && negb _) eqn:Eg; [by simplify_eq|]. specialize (Hother eq_refl). destruct (networks_ c !! netId) as [n|] eqn:Hn; [|by simplify_eq].
  destruct (AddInterface _ n _) as [[ret n'] w1] eqn:Ea. injection E as <- <- <-. pose proof (AddInterface_interfaces _ _ _ _ _ _ Ea) as Hi.
  assert (Enet : networks_ (put netId n' (if IsPhysical n && negb (IsVirtualInterface i)
      then set_names (<[netId:=i]> (physicalInterfaceName_ c)) c else c)) = <[netId := n']> (networks_ c)) by (by destruct (IsPhysical n && negb (IsVirtualInterface i))).
  split; rewrite Enet.
  - intros id m [[<- _]|[_ Hm]]%lookup_insert_Some; by eapply Hk.
  - intros id1 n1 id2 n2 j [[<- <-]|[Hne1 H1]]%lookup_insert_Some [[<- <-]|[Hne2 H2]]%lookup_insert_Some Hj1 Hj2 Hc; [done|..|by eapply Hu].
    + destruct (Hi j Hj1) as [->|Hj]; [|by eapply Hu]. exfalso. by eapply (Hother id2 n2).
    + destruct (Hi j Hj2) as [->|Hj]; [|by eapply Hu]. exfalso. by eapply (Hother id1 n1).
Qed.

Lemma RemoveInterfaceFromNetwork_shrinks netId i c w r c' w' : RemoveInterfaceFromNetwork netId i c w = (r, c', w') -> shrinks c c'.
Proof.
  unfold RemoveInterfaceFromNetwork. destruct (_ || _); [by intros [= <- <- <-]|]. destruct (networks_ c !! netId) as [n|] eqn:Hn; [|by intros [= <- <- <-]].
  destruct (RemoveInterface i n w) as [[ret n'] w1] eqn:Er. intros [= <- <- <-].
  apply (shrinks_trans _ (put netId n' c)); [by eapply shrinks_put, RemoveInterface_interfaces|]. by apply shrinks_same; destruct (_ && _).
Qed.

Lemma DestroyNetwork_shrinks netId c w r c' w' : DestroyNetwork netId c w = (r, c', w') -> shrinks c c'.
Proof.
  unfold DestroyNetwork. destruct (netId =? LOCAL_NET_ID); [by intros [= <- <- <-]|].
  destruct (networks_ c !! netId); [destruct (_ =? _)|]; intros [= <- <- <-]; apply (shrinks_delete netId c).
Qed.

Lemma SetDefaultNetwork_shrinks netId c w r c' w' : SetDefaultNetwork netId c w = (r, c', w') -> shrinks c c'.
Proof.
  unfold SetDefaultNetwork. destruct (_ =? netId); [by intros [= <- <- <-]|].
  assert (H : forall c1 w1 r' c'' w'', shrinks c c1 ->
    (let old := defaultNetId_ c1 in if negb (old =? 0) then match networks_ c1 !! old with
      | Some n => if negb (IsPhysical n) then (NETMANAGER_ERROR, c1, w1)
                  else let '(n, w1) := RemoveDefault n w1 in (NETMANAGER_SUCCESS, set_default netId (put old n c1), w1)
      | None => (NETMANAGER_SUCCESS, set_default netId c1, w1) end
     else (NETMANAGER_SUCCESS, set_default netId c1, w1)) = (r', c'', w'') -> shrinks c c'').
  { intros c1 w1 r' c'' w'' Hs. cbv zeta. destruct (negb (_ =? 0)); [|intros [= <- <- <-]; exact Hs].
    destruct (networks_ c1 !! defaultNetId_ c1) as [n|] eqn:Hn; [|intros [= <- <- <-]; exact Hs]. destruct (negb (IsPhysical n)); [by intros [= <- <- <-]|].
    pose proof (RemoveDefault_interfaces n w1) as Ei. destruct (RemoveDefault n w1) as [n' w2]. intros [= <- <- <-].
    apply (shrinks_trans _ c1); [done|]. apply (shrinks_put _ n n'); [done|]. intros i. cbn [fst] in Ei. by rewrite Ei. }
  destruct (networks_ c !! netId) as [n|] eqn:Hn.
  - destruct (negb (IsPhysical n)); [by intros [= <- <- <-]|]. pose proof (AddDefault_interfaces n w) as Ei. destruct (AddDefault n w) as [n' w1].
    apply H. apply (shrinks_put _ n n'); [done|]. intros i. cbn [fst] in Ei. by rewrite Ei.
  - by apply H.
Qed.

Lemma ClearDefaultNetwork_shrinks c w r c' w' : ClearDefaultNetwork c w = (r, c', w') -> shrinks c c'.
Proof.
  unfold ClearDefaultNetwork. destruct (negb _); [|intros [= <- <- <-]; by apply shrinks_same].
  destruct (networks_ c !! _) as [n|] eqn:Hn; [|intros [= <- <- <-]; by apply shrinks_same].
  destruct (negb (IsPhysical n)); [by intros [= <- <- <-]|]. pose proof (RemoveDefault_interfaces n w) as Ei.
  destruct (RemoveDefault n w) as [n' w1]. intros [= <- <- <-]. apply (shrinks_put _ n n'); [done|]. intros i. cbn [fst] in Ei. by rewrite Ei.
Qed.

Lemma reinit_one_shrinks id c w : shrinks c (reinit_one id (c, w)).1.
Proof.
  unfold reinit_one. set (c0 := set_names _ c). destruct (RemoveInterfaceFromNetwork id _ c0 w) as [[r1 c1] w1] eqn:E1.
  destruct (DestroyNetwork id c1 w1) as [[r2 c2] w2] eqn:E2. cbn [fst].
  apply (shrinks_trans _ c0); [by apply shrinks_same|]. apply (shrinks_trans _ c1); [by eapply RemoveInterfaceFromNetwork_shrinks|].
  by eapply DestroyNetwork_shrinks.
Qed.

Lemma CreatePhysicalNetwork_shrinks id p c w r c' w' : 0 <= id -> CreatePhysicalNetwork id p c w = (r, c', w') -> shrinks c c'.
Proof.
  intros Hid. unfold CreatePhysicalNetwork. destruct (needReinitRouteFlag_ c); [|intros [= <- <- <-]; by apply shrinks_new].
  generalize (sort_by (fun x => x) (remove_dups (reinit_ids c))). intros ids.
  assert (Hs : shrinks c (foldl (fun cw id => reinit_one id cw) (c, w) ids).1).
  { generalize (reflexivity (R := shrinks) c). generalize c at 2 4 as c1. revert w. induction ids as [|x ids IH]; intros w c1 Hc; [done|]. cbn [foldl].
    pose proof (reinit_one_shrinks x c1 w) as Hx. destruct (reinit_one x (c1, w)) as [c2 w2]. apply IH. by apply (shrinks_trans _ c1). }
  destruct (foldl _ _ ids) as [c1 w1]. cbn [fst] in Hs. intros [= <- <- <-]. apply (shrinks_trans _ c1); [done|].
  apply (shrinks_trans _ (set_reinit false c1)); [by apply shrinks_same|]. by apply shrinks_new.
Qed.

Lemma uids_shrinks (f : list UidRange -> NetsysNetwork -> World -> Z * NetsysNetwork * World) l netId c w r c' w' : (forall l n w, interfaces_ ((f l n w).1.2) = interfaces_ n) ->
  match FindVirtualNetwork netId c with None => (NETMANAGER_ERROR, c, w)
  | Some n => let '(ret, n, w) := f l n w in (ret, put netId n c, w) end = (r, c', w') -> shrinks c c'.
Proof.
  intros Hf. unfold FindVirtualNetwork. destruct (netId =? LOCAL_NET_ID); [by intros [= <- <- <-]|].
  destruct (networks_ c !! netId) as [n|] eqn:Hn; [|by intros [= <- <- <-]]. destruct (IsPhysical n); [by intros [= <- <- <-]|].
  specialize (Hf l n w). destruct (f l n w) as [[ret n'] w1]. intros [= <- <- <-]. apply (shrinks_put _ n n'); [done|]. intros i.
  cbn [fst snd] in Hf. by rewrite Hf.
Qed.

Lemma exec_unique op c w : unique c -> unique (exec_state op (c, w)).1.
Proof.
  intros Hu. unfold exec_state. destruct (exec op (c, w)) as [[r c'] w'] eqn:E. cbn [fst]. destruct op; cbn [exec] in E.
  - eapply unique_shrinks, Hu. eapply CreatePhysicalNetwork_shrinks, E. by destruct (wrap_range 16 netId).
  - injection E as <- <- <-. eapply unique_shrinks, Hu. apply shrinks_new; [done|]. by destruct (wrap_range 16 netId).
  - by eapply unique_shrinks, Hu; eapply DestroyNetwork_shrinks.
  - by eapply unique_shrinks, Hu; eapply SetDefaultNetwork_shrinks.
  - by eapply unique_shrinks, Hu; eapply ClearDefaultNetwork_shrinks.
  - by eapply AddInterfaceToNetwork_unique.
  - by eapply unique_shrinks, Hu; eapply RemoveInterfaceFromNetwork_shrinks.
  - injection E as <- <- <-. by eapply unique_shrinks, Hu; apply shrinks_same.
  - eapply unique_shrinks, Hu. eapply (uids_shrinks AddUids), E. intros ? n ?. unfold AddUids. destruct (kind n); try done. by destruct (each_interface _ _ _).
  - eapply unique_shrinks, Hu. eapply (uids_shrinks RemoveUids), E. intros ? n ?. unfold RemoveUids. destruct (kind n); try done. by destruct (each_interface _ _ _).
Qed.

Definition runs (ops : list Op) (cw : ConnManager * World) : ConnManager * World := foldl (fun cw op => exec_state op cw) cw ops.

(** C23: whatever calls are made, in any order and with any arguments and results
    of the kernel, no interface is in two ordinary networks or in two internal ones,
    and no network has a negative number. *)
Theorem interface_unique ops w : unique (runs ops (new_ConnManager, w)).1.
Proof.
  assert (H : forall cw, unique cw.1 -> unique (runs ops cw).1).
  { induction ops as [|op ops IH]; intros [c w0] Hc; [done|]. apply IH. by apply exec_unique. }
  apply H. split; cbn [fst new_ConnManager networks_].
  - by intros id n [<- _]%lookup_singleton_Some.
  - intros id1 n1 id2 n2 i [<- _]%lookup_singleton_Some [<- _]%lookup_singleton_Some. done.
Qed.

End ConnManager.
End ConnManager.
