(* ===== verification/NetRules.v ===== *)
(** * The policy rules of the networks

    What the rules of the kernel are when the networks of [ConnManager] are as
    they are: for every interface of a physical network a rule for sockets that
    chose the network and one for packets bound to the interface, for those of the
    default network a rule for all other packets, and for every interface of the
    local network a rule for packets bound to it ([expected]).  The calls that
    [allowed] lists keep the kernel at these rules and at those that networks
    destroyed with their interfaces left ([rules_track_networks]). *)

From S2P Require Import Prelude StdAlgo Base64 Clat NetData NetsysBpf AccessMaps NetsysRun Netlink RouteManager ConnManager.

Module NetRules.
Import Netlink.
Module RM := RouteManager.
Import ConnManager.

(** ** The rules *)

Definition table_of {K} `{!Kernel K} (i : string) : Z := u32 (if_nametoindex i + RM.ROUTE_TABLE_OFFSET_FROM_INDEX).

Definition uids (id : Z) : Z * Z := if RM.IsInternalNetId id then RM.UID_ALLOW_INTERNAL else (RM.INVALID_UID, RM.INVALID_UID).
Definition Fex (id t p : Z) : RM.FibRule := RM.rule_of (RM.explicit_rule id t p) (uids id).1 (uids id).2.
Definition Fout (i : string) (t p : Z) : RM.FibRule := RM.rule_of (RM.output_rule i t p RM.RULE_LEVEL_OUTPUT_INTERFACE) RM.INVALID_UID RM.INVALID_UID.
Definition Fdef (t p : Z) : RM.FibRule := RM.rule_of (RM.default_rule t p) RM.INVALID_UID RM.INVALID_UID.

Section Expected.
Context {K : Type} `{!Kernel K}.

Definition net_table (id : Z) (i : string) : Z := RM.ConvertTableByNetId id (table_of i).

Definition iface_rules (id : Z) (d : bool) (p : Z) (i : string) : list RM.FibRule :=
  Fex id (net_table id i) p :: Fout i (net_table id i) p :: (if d then [Fdef (table_of i) p] else []).

Definition net_rules (n : NetsysNetwork) : list RM.FibRule :=
  match kind n with
  | PhysicalNetwork d p => interfaces_ n ≫= iface_rules (netId_ n) d p
  | LocalNetwork => (fun i => Fout i RM.ROUTE_LOCAL_NETWORK_TABLE RM.PERMISSION_NONE) <$> interfaces_ n
  | VirtualNetwork _ _ => []
  end.

Definition expected (m : gmap Z NetsysNetwork) : list RM.FibRule := map_to_list m ≫= (fun x => net_rules x.2).

End Expected.

(** The rule that [RouteManager] sets up for the local network when it starts. *)
Definition start_rules (initDir : bool) : list RM.FibRule :=
  if initDir then [Fex RM.LOCAL_NET_ID RM.ROUTE_LOCAL_NETWORK_TABLE RM.PERMISSION_NONE] else [].

(** The rules at the levels of the networks. *)
Definition managed (f : RM.FibRule) : Prop :=
  RM.f_priority f = RM.RULE_LEVEL_EXPLICIT_NETWORK \/ RM.f_priority f = RM.RULE_LEVEL_OUTPUT_INTERFACE \/ RM.f_priority f = RM.RULE_LEVEL_DEFAULT.
#[export] Instance managed_dec f : Decision (managed f).
Proof. unfold managed. apply _. Defined.

(** ** Marks *)

Lemma intValue_range id b1 b2 p b3 : 0 <= RM.intValue (RM.mkFwmark id b1 b2 p b3) < 2 ^ 21.
Proof.
  unfold RM.intValue. cbn [RM.fw_netId RM.explicitlySelected RM.protectedFromVpn RM.fw_permission RM.uidBillingDone].
  pose proof (wrap_range 16 id ltac:(lia)) as [? ?]. pose proof (Z.mod_pos_bound p 4 ltac:(lia)). destruct b1, b2, b3; cbn [Z.b2z]; lia.
Qed.

(** The mask has the bits of the mark when it has all of the number. *)
Lemma ldiff_masked a b h : 0 <= a -> 0 <= b -> a / 2 ^ 16 = h -> b / 2 ^ 16 = h -> b mod 2 ^ 16 = Z.ones 16 -> Z.ldiff a b = 0.
Proof.
  intros Ha Hb Ea Eb Em. apply Z.bits_inj'. intros n Hn. rewrite Z.ldiff_spec, Z.bits_0. destruct (decide (n < 16)).
  - assert (Z.testbit b n = true) as ->; [|apply andb_false_r]. rewrite <- (Z.mod_pow2_bits_low b 16 n), Em by lia. by apply Z.ones_spec_low.
  - replace n with (n - 16 + 16) by lia. rewrite <- !Z.div_pow2_bits, Ea, Eb by lia. apply andb_negb_r.
Qed.

Lemma mark_masked id b p : Z.ldiff (RM.intValue (RM.mkFwmark id b false p false)) (RM.intValue (RM.mkFwmark RM.FWMARK_NET_ID_MASK b false p false)) = 0.
Proof.
  pose proof (intValue_range id b false p false). pose proof (intValue_range RM.FWMARK_NET_ID_MASK b false p false).
  pose proof (wrap_range 16 id ltac:(lia)) as [? ?]. pose proof (Z.mod_pos_bound p 4 ltac:(lia)).
  apply (ldiff_masked _ _ (Z.b2z b + 4 * (p mod 4))); [lia|lia|..]; unfold RM.intValue;
    cbn [RM.fw_netId RM.explicitlySelected RM.protectedFromVpn RM.fw_permission RM.uidBillingDone]; change (u16 RM.FWMARK_NET_ID_MASK) with 65535;
    change (Z.ones 16) with 65535; cbn [Z.b2z]; destruct b; cbn [Z.b2z]; div_mod_lia.
Qed.

Lemma mark_itself p : Z.ldiff (RM.intValue (RM.mkFwmark 0 false false p false)) (RM.intValue (RM.mkFwmark 0 false false p false)) = 0.
Proof. apply Z.ldiff_diag. Qed.

(** ** What a deletion of one of the rules matches *)

Definition shaped (y : RM.FibRule) : Prop :=
  (exists id t p, 0 <= id < 2 ^ 16 /\ y = Fex id t p) \/ (exists i t p, y = Fout i t p) \/ (exists t p, y = Fdef t p).

Lemma matches_fields sel y : RM.matches sel y = true ->
  (RM.f_table sel <> 0 -> RM.f_table y = RM.f_table sel) /\ (RM.f_priority sel <> 0 -> RM.f_priority y = RM.f_priority sel) /\
  (RM.f_mark sel <> 0 -> RM.f_mark y = RM.f_mark sel) /\ (RM.f_mask sel <> 0 -> RM.f_mask y = RM.f_mask sel) /\
  (RM.f_oif sel <> [] -> RM.f_oif y = RM.f_oif sel).
Proof.
  unfold RM.matches. rewrite !andb_true_iff, !orb_true_iff, !bool_decide_eq_true, !Z.eqb_eq. intuition congruence.
Qed.

Lemma sel_ex id t p y : 0 <= id < 2 ^ 16 -> t <> 0 -> shaped y -> RM.matches (Fex id t p) y = true -> y = Fex id t p.
Proof.
  intros Hid Ht Hy Hm. destruct (matches_fields _ _ Hm) as (Et & Ep & Em & _ & _).
  specialize (Et Ht). specialize (Ep ltac:(done)).
  pose proof (Z.mod_pos_bound p 4 ltac:(lia)) as Hp.
  assert (Hmark : forall id p, 0 <= id < 2 ^ 16 -> RM.f_mark (Fex id t p) = id + 2 ^ 16 + 2 ^ 18 * (p mod 4)).
  { intros id' p' Hid'. unfold Fex, RM.rule_of. cbn [RM.f_mark RM.explicit_rule RM.ruleMask RM.ruleFwmark]. unfold RM.intValue.
    cbn [RM.fw_netId RM.explicitlySelected RM.protectedFromVpn RM.fw_permission RM.uidBillingDone Z.b2z]. change (u16 RM.FWMARK_NET_ID_MASK) with 65535.
    pose proof (Z.mod_pos_bound p' 4 ltac:(lia)). rewrite (proj2 (Z.eqb_neq _ _)) by lia. rewrite wrap_small by done. lia. }
  destruct Hy as [(id' & t' & p' & Hid' & ->)|[(i' & t' & p' & ->)|(t' & p' & ->)]]; [|done..].
  change (RM.f_mark (Fex id' t' p')) with (RM.f_mark (Fex id' t p')) in Em. rewrite !Hmark in Em by done. specialize (Em ltac:(lia)).
  pose proof (Z.mod_pos_bound p' 4 ltac:(lia)) as Hp'. change (t' = t) in Et. subst t'. assert (id' = id /\ p' mod 4 = p mod 4) as [-> E] by lia.
  unfold Fex, RM.explicit_rule, RM.rule_of, RM.intValue. cbn -[Z.mul Z.add Z.pow]. by rewrite E.
Qed.

Lemma sel_def t p y : t <> 0 -> shaped y -> RM.matches (Fdef t p) y = true -> y = Fdef t p.
Proof.
  intros Ht Hy Hm. destruct (matches_fields _ _ Hm) as (Et & Ep & _ & Em & _). specialize (Et Ht). specialize (Ep ltac:(done)).
  assert (Hmask : forall p, RM.f_mask (Fdef t p) = 65535 + 2 ^ 18 * (p mod 4)).
  { intros p'. unfold Fdef, RM.rule_of. cbn [RM.f_mask RM.default_rule RM.ruleMask]. unfold RM.intValue.
    cbn [RM.fw_netId RM.explicitlySelected RM.protectedFromVpn RM.fw_permission RM.uidBillingDone Z.b2z]. change (u16 RM.FWMARK_NET_ID_MASK) with 65535. lia. }
  destruct Hy as [(id' & t' & p' & _ & ->)|[(i' & t' & p' & ->)|(t' & p' & ->)]]; [done..|].
  change (RM.f_mask (Fdef t' p')) with (RM.f_mask (Fdef t p')) in Em. rewrite !Hmask in Em. pose proof (Z.mod_pos_bound p 4 ltac:(lia)). specialize (Em ltac:(lia)).
  change (t' = t) in Et. subst t'. assert (E : p' mod 4 = p mod 4) by lia.
  unfold Fdef, RM.default_rule, RM.rule_of, RM.intValue. cbn -[Z.mul Z.add Z.pow]. by rewrite E.
Qed.

Lemma bytes_of_string_inj x y : Base64.bytes_of_string x = Base64.bytes_of_string y -> x = y.
Proof.
  unfold Base64.bytes_of_string. revert y. induction x as [|a x IH]; intros [|b y] E; try done. cbn in E. injection E as E1 E2.
  rewrite <- (Ascii.ascii_N_embedding a), <- (Ascii.ascii_N_embedding b). f_equal; [f_equal; lia|by apply IH].
Qed.

(** One bound to an interface matches those bound to it with the same table. *)
Lemma sel_out i t p i' t' p' : RM.name_ok i -> t <> 0 -> RM.name_ok i' -> RM.matches (Fout i t p) (Fout i' t' p') = true -> i' = i /\ t' = t.
Proof.
  intros (Hn & _ & Hc) Ht (Hn' & _ & Hc') Hm. destruct (matches_fields _ _ Hm) as (Et & _ & _ & _ & Eo). split; [|by apply Et].
  change (RM.name_bytes i <> [] -> RM.name_bytes i' = RM.name_bytes i) in Eo. unfold RM.name_bytes in Eo. rewrite Hc, Hc' in Eo.
  apply bytes_of_string_inj, Eo. by destruct i.
Qed.

Lemma Fout_inj i t p i' t' p' : RM.name_ok i -> RM.name_ok i' -> Fout i t p = Fout i' t' p' -> i' = i /\ t' = t.
Proof.
  intros (_ & _ & Hc) (_ & _ & Hc') E. split; [|symmetry; exact (f_equal RM.f_table E)]. apply (f_equal RM.f_oif) in E.
  change (RM.name_bytes i = RM.name_bytes i') in E. unfold RM.name_bytes in E. rewrite Hc, Hc' in E. by apply bytes_of_string_inj.
Qed.

Lemma out_not_ex i t p y : RM.f_priority y <> RM.RULE_LEVEL_OUTPUT_INTERFACE -> RM.matches (Fout i t p) y = false.
Proof. intros Hy. apply not_true_is_false. intros Hm. destruct (matches_fields _ _ Hm) as (_ & Ep & _). by apply Hy, Ep. Qed.

(** ** Calls on a kernel with these rules *)

Section Tracks.
Context {K : Type} `{!Kernel K} {FL : RM.FibLaws K} {IL : RM.IndexLaws K} (pid : Z) (rest : bytes).
Implicit Types (k : K) (L : list RM.FibRule) (s : RM.RouteManager).

(** The managed rules of both families are [L]. *)
Definition tracks k L : Prop := forall f, RM.is_family f -> filter managed (RM.fib f k) ≡ₚ L.

#[local] Instance tracks_proper k : Proper ((≡ₚ) ==> iff) (tracks k).
Proof. intros L1 L2 E. unfold tracks. by setoid_rewrite E. Qed.

Definition selective (sel : RM.FibRule) L : Prop := forall y, y ∈ L -> RM.matches sel y = true -> y = sel.

Lemma filter_remove_first P (l : list RM.FibRule) : (forall y, P y = true -> managed y) ->
  filter managed (RM.remove_first P l) = RM.remove_first P (filter managed l).
Proof.
  intros HP. induction l as [|y l IH]; [done|]. cbn [RM.remove_first]. destruct (P y) eqn:E.
  - rewrite filter_cons_True by (by apply HP). cbn [RM.remove_first]. by rewrite E.
  - rewrite !filter_cons. case_decide; [|done]. cbn [RM.remove_first]. by rewrite E, IH.
Qed.

Lemma filter_remove_other P (l : list RM.FibRule) : (forall y, P y = true -> ~ managed y) -> filter managed (RM.remove_first P l) = filter managed l.
Proof.
  intros HP. induction l as [|y l IH]; [done|]. cbn [RM.remove_first]. destruct (P y) eqn:E.
  - by rewrite filter_cons_False by (by apply HP).
  - rewrite !filter_cons. case_decide; [by rewrite IH|done].
Qed.

Lemma matches_priority sel y : RM.f_priority sel <> 0 -> RM.matches sel y = true -> RM.f_priority y = RM.f_priority sel.
Proof. intros Hp Hm. destruct (matches_fields _ _ Hm) as (_ & E & _). by apply E. Qed.

Lemma add_rule r us ue k L : RM.rule_valid RTM_NEWRULE r -> in_width 32 us -> in_width 32 ue -> managed (RM.rule_of r us ue) -> tracks k L ->
  exists k', RM.UpdateRuleInfo pid RTM_NEWRULE RM.FR_ACT_TO_TBL r us ue k = (0, k') /\ tracks k' (RM.rule_of r us ue :: L).
Proof.
  intros Hv Hs He Hm HL. destruct (RM.UpdateRuleInfo_new pid r us ue k Hv Hs He) as (k' & E & Hk). exists k'. split; [done|].
  intros f Hf. rewrite (Hk f Hf), filter_cons_True by done. by rewrite (HL f Hf).
Qed.

Lemma del_rule r us ue k L L' : RM.rule_valid RTM_DELRULE r -> in_width 32 us -> in_width 32 ue -> managed (RM.rule_of r us ue) ->
  tracks k L -> L ≡ₚ RM.rule_of r us ue :: L' -> selective (RM.rule_of r us ue) L ->
  exists k', RM.UpdateRuleInfo pid RTM_DELRULE RM.FR_ACT_TO_TBL r us ue k = (0, k') /\ tracks k' L'.
Proof.
  intros Hv Hs He Hm HL EL Hsel. destruct (RM.UpdateRuleInfo_del pid r us ue k Hv Hs He) as (k' & E & Hk). exists k'. split; [done|].
  assert (Hp : RM.f_priority (RM.rule_of r us ue) <> 0) by (unfold managed in Hm; destruct Hm as [->|[->| ->]]; done).
  intros f Hf. rewrite (Hk f Hf), filter_remove_first.
  - apply (RM.remove_first_only _ (RM.rule_of r us ue)); [apply RM.matches_refl| |by rewrite (HL f Hf)].
    intros y Hy. rewrite (HL f Hf) in Hy. by apply Hsel.
  - intros y Hy. unfold managed in *. by rewrite (matches_priority _ _ Hp Hy).
Qed.

Lemma del_other r us ue k L : RM.rule_valid RTM_DELRULE r -> in_width 32 us -> in_width 32 ue -> ~ managed (RM.rule_of r us ue) ->
  RM.rulePriority r <> 0 -> tracks k L ->
  exists k', RM.UpdateRuleInfo pid RTM_DELRULE RM.FR_ACT_TO_TBL r us ue k = (0, k') /\ tracks k' L.
Proof.
  intros Hv Hs He Hm Hp HL. destruct (RM.UpdateRuleInfo_del pid r us ue k Hv Hs He) as (k' & E & Hk). exists k'. split; [done|].
  intros f Hf. rewrite (Hk f Hf), filter_remove_other; [by apply HL|].
  intros y Hy. unfold managed in *. by rewrite (matches_priority (RM.rule_of r us ue) _ Hp Hy).
Qed.

(** Clearing routes leaves the rules alone. *)
Lemma ClearRouteInfo_tracks table k L : tracks k L -> tracks (ClearRouteInfo rest RTM_GETROUTE table k).2 L.
Proof.
  intros HL f Hf. rewrite <- (HL f Hf). unfold ClearRouteInfo, SendNetlinkMsgToKernel. change (_ && _) with false. cbv iota.
  assert (E : RM.fib f (transmit (dump_message RTM_GETROUTE rest) k).2 = RM.fib f k) by (by apply RM.transmit_other).
  destruct (transmit _ k) as [n k']. cbn [snd] in E. rewrite <- E. destruct (n <=? 0); [done|]. destruct (negb _); [|done].
  change (m_type (dump_message RTM_GETROUTE rest)) with RTM_GETROUTE. rewrite GetInfoFromKernel_filter.
  pose proof (dumped_long (replies (dump_message RTM_GETROUTE rest) k')) as Hd. clear E.
  assert (Hk : RM.fib f (foldl (fun k m => DealInfoFromKernel RTM_GETROUTE 0 m k) k' (dumped (replies (dump_message RTM_GETROUTE rest) k'))) = RM.fib f k');
    [|by rewrite Hk].
  generalize dependent (dumped (replies (dump_message RTM_GETROUTE rest) k')). intros l Hl. clear HL. induction Hl as [|b l Hb Hl IH] in k' |- *; [done|].
  cbn [foldl]. rewrite IH. unfold DealInfoFromKernel, selected. change (RTM_GETROUTE =? RTM_GETRULE) with false. change (RTM_GETROUTE =? RTM_GETROUTE) with true. cbv iota.
  case_bool_decide; [|done]. unfold send. pose proof (delete_message_type RTM_DELROUTE b ltac:(done) Hb) as Et.
  assert (E : RM.fib f (transmit (delete_message RTM_DELROUTE b) k').2 = RM.fib f k') by (by apply RM.transmit_other; rewrite Et).
  destruct (transmit _ k') as [n' k'']. cbn [snd] in E. by destruct (n' <=? 0).
Qed.

(** ** Tables *)

Definition cache_ok (local : list string) s : Prop := forall i t, RM.interfaceToTable_ s !! i = Some t ->
  (if_nametoindex i <> 0 /\ t = table_of i) \/ (t = RM.ROUTE_LOCAL_NETWORK_TABLE /\ i ∈ local).

Lemma table_of_range i : if_nametoindex i <> 0 -> 2000 < table_of i < 2 ^ 32.
Proof.
  intros Hi. pose proof (RM.index_range i) as Hr. unfold table_of, RM.ROUTE_TABLE_OFFSET_FROM_INDEX. rewrite wrap_small; [lia|unfold in_width; lia].
Qed.

Lemma net_table_range id i : if_nametoindex i <> 0 -> 0 < net_table id i < 2 ^ 32 /\ (RM.IsInternalNetId id = true -> net_table id i <= 10) /\
  (RM.IsInternalNetId id = false -> 2000 < net_table id i).
Proof.
  intros Hi. pose proof (table_of_range i Hi). unfold net_table, RM.ConvertTableByNetId, RM.ROUTE_INTERNAL_DEFAULT_TABLE. destruct (RM.IsInternalNetId id); [|done || lia].
  pose proof (Z.mod_pos_bound (table_of i) 10 ltac:(lia)). split; [lia|split; [lia|done]].
Qed.

Lemma FindTable_spec local i id s : cache_ok local s -> i ∉ local ->
  (if_nametoindex i <> 0 /\ exists s', RM.FindTableByInterfacename i id s = (net_table id i, s') /\ cache_ok local s') \/
  (if_nametoindex i = 0 /\ RM.FindTableByInterfacename i id s = (RM.RT_TABLE_UNSPEC, s)).
Proof.
  intros Hc Hi. unfold RM.FindTableByInterfacename. destruct (RM.interfaceToTable_ s !! i) as [t|] eqn:E.
  - destruct (Hc i t E) as [[Hx ->]|[_ ?]]; [|done]. left. split; [done|]. by exists s.
  - destruct (if_nametoindex i =? 0) eqn:Ex; [right; split; [by apply Z.eqb_eq|done]|]. apply Z.eqb_neq in Ex. left. split; [done|].
    eexists. split; [done|]. intros j t. cbn [RM.interfaceToTable_ RM.set_tables]. intros [[<- <-]|[_ Hj]]%lookup_insert_Some; [by left|by apply Hc].
Qed.

(** ** The calls of [RouteManager] *)

Lemma ex_valid action id t p : in_width 32 t -> t <> 0 -> RM.rule_valid action (RM.explicit_rule id t p).
Proof.
  intros Ht Hn. pose proof (intValue_range id true false p false). pose proof (intValue_range RM.FWMARK_NET_ID_MASK true false p false).
  split; [split; cbn; unfold in_width, RM.IFNAMSIZ in *; lia || done|]. split; [done|]. split; [apply mark_masked|done].
Qed.

Lemma out_valid action i t p : RM.name_ok i -> in_width 32 t -> t <> 0 -> RM.rule_valid action (RM.output_rule i t p RM.RULE_LEVEL_OUTPUT_INTERFACE).
Proof.
  intros (_ & Hl & _) Ht Hn. pose proof (intValue_range 0 false false p false).
  split; [split; cbn; unfold in_width, RM.IFNAMSIZ in *; lia || done|]. split; [done|]. split; [apply mark_itself|done].
Qed.

Lemma def_valid action t p : in_width 32 t -> t <> 0 -> RM.rule_valid action (RM.default_rule t p).
Proof.
  intros Ht Hn. pose proof (intValue_range RM.NETID_UNSET false false p false). pose proof (intValue_range RM.FWMARK_NET_ID_MASK false false p false).
  split; [split; cbn; unfold in_width, RM.IFNAMSIZ in *; lia || done|]. split; [done|]. split; [apply mark_masked|done].
Qed.

Lemma uids_width id : in_width 32 (uids id).1 /\ in_width 32 (uids id).2.
Proof. unfold uids. by destruct (RM.IsInternalNetId id). Qed.

Lemma UpdateExplicit_eq id t p add k :
  RM.UpdateExplicitNetworkRule pid id t p add k = RM.UpdateRuleInfo pid (RM.new_or_del add) RM.FR_ACT_TO_TBL (RM.explicit_rule id t p) (uids id).1 (uids id).2 k.
Proof. unfold RM.UpdateExplicitNetworkRule, uids. by destruct (RM.IsInternalNetId id). Qed.

Ltac net_width i id := let H := fresh in pose proof (net_table_range id i ltac:(done)) as (H & _ & _); unfold in_width; lia.

Lemma UpdatePhysical_add local id i p s k L : cache_ok local s -> i ∉ local -> tracks k L ->
  (if_nametoindex i <> 0 /\ exists s' k', RM.UpdatePhysicalNetwork pid id i p true s k = (0, (s', k')) /\ cache_ok local s' /\
     tracks k' (Fout i (net_table id i) p :: Fex id (net_table id i) p :: L)) \/
  (if_nametoindex i = 0 /\ RM.UpdatePhysicalNetwork pid id i p true s k = (-1, (s, k))).
Proof.
  intros Hc Hi HL. unfold RM.UpdatePhysicalNetwork. destruct (FindTable_spec local i id s Hc Hi) as [(Hx & s' & -> & Hc')|[Hx ->]]; [|by right].
  left. split; [done|]. rewrite (proj2 (Z.eqb_neq _ _)) by (unfold RM.RT_TABLE_UNSPEC; net_width i id). rewrite UpdateExplicit_eq. cbn [RM.new_or_del].
  destruct (uids_width id) as [Hu1 Hu2].
  destruct (add_rule (RM.explicit_rule id (net_table id i) p) _ _ k L (ex_valid RTM_NEWRULE id (net_table id i) p ltac:(net_width i id) ltac:(net_width i id)) Hu1 Hu2 ltac:(by left) HL) as (k1 & -> & H1).
  unfold RM.UpdateOutputInterfaceRules. cbn [Z.eqb negb RM.new_or_del].
  destruct (add_rule (RM.output_rule i (net_table id i) p RM.RULE_LEVEL_OUTPUT_INTERFACE) RM.INVALID_UID RM.INVALID_UID k1 _
    (out_valid RTM_NEWRULE i (net_table id i) p (RM.index_name i Hx) ltac:(net_width i id) ltac:(net_width i id)) ltac:(done) ltac:(done) ltac:(by right; left) H1) as (k2 & -> & H2).
  by exists s', k2.
Qed.

Lemma UpdatePhysical_del local id i p s k L L' : cache_ok local s -> i ∉ local -> if_nametoindex i <> 0 ->
  L ≡ₚ Fex id (net_table id i) p :: Fout i (net_table id i) p :: L' -> tracks k L ->
  selective (Fex id (net_table id i) p) L -> selective (Fout i (net_table id i) p) L ->
  exists s' k', RM.UpdatePhysicalNetwork pid id i p false s k = (0, (s', k')) /\ cache_ok local s' /\ tracks k' L'.
Proof.
  intros Hc Hi Hx EL HL S1 S2. unfold RM.UpdatePhysicalNetwork. destruct (FindTable_spec local i id s Hc Hi) as [(_ & s' & -> & Hc')|[? _]]; [|done].
  rewrite (proj2 (Z.eqb_neq _ _)) by (unfold RM.RT_TABLE_UNSPEC; net_width i id). rewrite UpdateExplicit_eq. cbn [RM.new_or_del]. destruct (uids_width id) as [Hu1 Hu2].
  destruct (del_rule (RM.explicit_rule id (net_table id i) p) _ _ k L _ (ex_valid RTM_DELRULE id (net_table id i) p ltac:(net_width i id) ltac:(net_width i id)) Hu1 Hu2 ltac:(by left) HL EL S1) as (k1 & -> & H1).
  unfold RM.UpdateOutputInterfaceRules. cbn [Z.eqb negb RM.new_or_del].
  destruct (del_rule (RM.output_rule i (net_table id i) p RM.RULE_LEVEL_OUTPUT_INTERFACE) RM.INVALID_UID RM.INVALID_UID k1 _ L'
    (out_valid RTM_DELRULE i (net_table id i) p (RM.index_name i Hx) ltac:(net_width i id) ltac:(net_width i id)) ltac:(done) ltac:(done) ltac:(by right; left) H1 ltac:(done)) as (k2 & -> & H2).
  { intros y Hy. apply S2. rewrite EL. by right. }
  by exists s', k2.
Qed.

Lemma RemovePhysical_tracks local id i p s k L L' : cache_ok local s -> i ∉ local -> if_nametoindex i <> 0 ->
  L ≡ₚ Fex id (net_table id i) p :: Fout i (net_table id i) p :: L' -> tracks k L ->
  selective (Fex id (net_table id i) p) L -> selective (Fout i (net_table id i) p) L ->
  exists s' k', RM.RemoveInterfaceFromPhysicalNetwork pid rest id i p s k = (0, (s', k')) /\ cache_ok local s' /\ tracks k' L'.
Proof.
  intros Hc Hi Hx EL HL S1 S2. unfold RM.RemoveInterfaceFromPhysicalNetwork.
  destruct (UpdatePhysical_del local id i p s k L L' Hc Hi Hx EL HL S1 S2) as (s1 & k1 & -> & Hc1 & H1). cbn [Z.eqb negb].
  unfold RM.ClearRoutes. destruct (FindTable_spec local i id s1 Hc1 Hi) as [(_ & s2 & -> & Hc2)|[? _]]; [|done].
  rewrite (proj2 (Z.eqb_neq _ _)) by (unfold RM.RT_TABLE_UNSPEC; net_width i id).
  pose proof (ClearRouteInfo_tracks (net_table id i) k1 L' H1) as H2. destruct (ClearRouteInfo _ _ _ k1) as [ret k2]. cbn [snd] in H2. cbn [Z.eqb negb].
  set (s3 := if _ && _ then _ else s2). assert (Hc3 : cache_ok local s3).
  { unfold s3. destruct (_ && _); [|done]. intros j t. cbn [RM.interfaceToTable_ RM.set_tables]. intros [_ Hj]%lookup_delete_Some. by apply Hc2. }
  destruct (RM.IsInternalNetId id); [by exists s3, k2|]. unfold RM.ClearSharingRules.
  destruct (RM.index_name i Hx) as (_ & Hl & _).
  destruct (del_other (RM.sharing_rule 0 i) RM.INVALID_UID RM.INVALID_UID k2 L') as (k3 & -> & H3); try done; [|by unfold managed; cbn; intros [?|[?|?]]|by exists s3, k3].
  split; [split; cbn; unfold in_width, RM.IFNAMSIZ in *; lia || done|]. done.
Qed.

Lemma AddToDefault_tracks local i p s k L : cache_ok local s -> i ∉ local -> if_nametoindex i <> 0 -> tracks k L ->
  exists s' k', RM.AddInterfaceToDefaultNetwork pid i p s k = (0, (s', k')) /\ cache_ok local s' /\ tracks k' (Fdef (table_of i) p :: L).
Proof.
  intros Hc Hi Hx HL. unfold RM.AddInterfaceToDefaultNetwork, RM.UpdateDefault. pose proof (table_of_range i Hx) as Ht.
  assert (Hw : in_width 32 (table_of i)) by (unfold in_width; lia). assert (Hz : table_of i <> 0) by lia.
  destruct (FindTable_spec local i 0 s Hc Hi) as [(_ & s' & -> & Hc')|[? _]]; [|done]. change (net_table 0 i) with (table_of i).
  rewrite (proj2 (Z.eqb_neq _ _)) by done.
  destruct (add_rule (RM.default_rule (table_of i) p) RM.INVALID_UID RM.INVALID_UID k L (def_valid RTM_NEWRULE (table_of i) p Hw Hz)
    ltac:(done) ltac:(done) ltac:(by right; right) HL) as (k1 & -> & Hk1). by exists s', k1.
Qed.

Lemma RemoveFromDefault_tracks local i p s k L L' : cache_ok local s -> i ∉ local -> if_nametoindex i <> 0 ->
  L ≡ₚ Fdef (table_of i) p :: L' -> tracks k L -> Forall shaped L ->
  exists s' k', RM.RemoveInterfaceFromDefaultNetwork pid i p s k = (0, (s', k')) /\ cache_ok local s' /\ tracks k' L'.
Proof.
  intros Hc Hi Hx EL HL Hsh. unfold RM.RemoveInterfaceFromDefaultNetwork, RM.UpdateDefault. pose proof (table_of_range i Hx) as Ht.
  assert (Hw : in_width 32 (table_of i)) by (unfold in_width; lia). assert (Hz : table_of i <> 0) by lia.
  destruct (FindTable_spec local i 0 s Hc Hi) as [(_ & s' & -> & Hc')|[? _]]; [|done]. change (net_table 0 i) with (table_of i).
  rewrite (proj2 (Z.eqb_neq _ _)) by done.
  destruct (del_rule (RM.default_rule (table_of i) p) RM.INVALID_UID RM.INVALID_UID k L L' (def_valid RTM_DELRULE (table_of i) p Hw Hz)
    ltac:(done) ltac:(done) ltac:(by right; right) HL EL) as (k1 & -> & Hk1); [|by exists s', k1].
  intros y Hy. rewrite Forall_forall in Hsh. apply sel_def; [done|by apply Hsh].
Qed.

Lemma AddLocal_tracks i s k L : RM.name_ok i -> tracks k L ->
  exists k', RM.AddInterfaceToLocalNetwork pid i s k = (0, (RM.set_tables (<[i := RM.ROUTE_LOCAL_NETWORK_TABLE]> (RM.interfaceToTable_ s)) s, k')) /\
    tracks k' (Fout i RM.ROUTE_LOCAL_NETWORK_TABLE RM.PERMISSION_NONE :: L).
Proof.
  intros Hi HL. unfold RM.AddInterfaceToLocalNetwork, RM.UpdateLocalNetwork, RM.UpdateOutputInterfaceRules. cbn [RM.new_or_del].
  destruct (add_rule (RM.output_rule i RM.ROUTE_LOCAL_NETWORK_TABLE RM.PERMISSION_NONE RM.RULE_LEVEL_OUTPUT_INTERFACE) RM.INVALID_UID RM.INVALID_UID k L
    (out_valid RTM_NEWRULE i RM.ROUTE_LOCAL_NETWORK_TABLE RM.PERMISSION_NONE Hi ltac:(done) ltac:(done)) ltac:(done) ltac:(done) ltac:(by right; left) HL) as (k1 & -> & Hk). by exists k1.
Qed.

Lemma RemoveLocal_tracks i s k L L' : RM.name_ok i -> tracks k L -> L ≡ₚ Fout i RM.ROUTE_LOCAL_NETWORK_TABLE RM.PERMISSION_NONE :: L' ->
  selective (Fout i RM.ROUTE_LOCAL_NETWORK_TABLE RM.PERMISSION_NONE) L ->
  exists k', RM.RemoveInterfaceFromLocalNetwork pid i s k = (0, (RM.set_tables (delete i (RM.interfaceToTable_ s)) s, k')) /\ tracks k' L'.
Proof.
  intros Hi HL EL Hs. unfold RM.RemoveInterfaceFromLocalNetwork, RM.UpdateLocalNetwork, RM.UpdateOutputInterfaceRules. cbn [RM.new_or_del].
  destruct (del_rule (RM.output_rule i RM.ROUTE_LOCAL_NETWORK_TABLE RM.PERMISSION_NONE RM.RULE_LEVEL_OUTPUT_INTERFACE) RM.INVALID_UID RM.INVALID_UID k L L'
    (out_valid RTM_DELRULE i RM.ROUTE_LOCAL_NETWORK_TABLE RM.PERMISSION_NONE Hi ltac:(done) ltac:(done)) ltac:(done) ltac:(done) ltac:(by right; left) HL EL Hs) as (k1 & -> & Hk). by exists k1.
Qed.

(** ** The networks *)

Definition local_interfaces (c : ConnManager) : list string := from_option interfaces_ [] (networks_ c !! LOCAL_NET_ID).

Definition net_ok (c : ConnManager) (id : Z) (n : NetsysNetwork) : Prop :=
  netId_ n = id /\ 0 < id < 2 ^ 16 /\ NoDup (interfaces_ n) /\ Forall RM.name_ok (interfaces_ n) /\
  match kind n with
  | PhysicalNetwork d _ => id <> LOCAL_NET_ID /\ d = bool_decide (defaultNetId_ c = id) /\ Forall (fun i => if_nametoindex i <> 0) (interfaces_ n)
  | LocalNetwork => id = LOCAL_NET_ID
  | VirtualNetwork _ _ => False
  end.

(** The rules that are there for no network of the list: those of the start, and
    those of networks that were destroyed with their interfaces. *)
Section Networks.
Context (base : list RM.FibRule).

Definition left_rule (y : RM.FibRule) : Prop :=
  (exists id t p, 0 <= id < 2 ^ 16 /\ y = Fex id t p) \/
  (exists i t p, RM.name_ok i /\ t <> RM.ROUTE_LOCAL_NETWORK_TABLE /\ y = Fout i t p).

(** One for packets bound to an interface is the one of the network the interface is in. *)
Definition left_fits (c : ConnManager) : Prop := forall i t p id n d q, Fout i t p ∈ base -> networks_ c !! id = Some n ->
  kind n = PhysicalNetwork d q -> i ∈ interfaces_ n -> t = net_table id i -> Fout i t p = Fout i t q.

Record Wf (c : ConnManager) s : Prop := {
  wf_net : forall id n, networks_ c !! id = Some n -> net_ok c id n;
  wf_default : defaultNetId_ c <> 0 -> exists n, networks_ c !! defaultNetId_ c = Some n /\ IsPhysical n = true;
  wf_unique : unique c;
  wf_local : forall id n i, networks_ c !! id = Some n -> i ∈ interfaces_ n -> i ∈ local_interfaces c -> id = LOCAL_NET_ID;
  wf_cache : cache_ok (local_interfaces c) s;
  wf_reinit : needReinitRouteFlag_ c = false;
  wf_left : Forall left_rule base /\ left_fits c }.

(** With no more interfaces in the networks they still fit. *)
Lemma left_fits_sub c c' : (forall id n d q i, networks_ c' !! id = Some n -> kind n = PhysicalNetwork d q -> i ∈ interfaces_ n ->
    exists n0 d0, networks_ c !! id = Some n0 /\ kind n0 = PhysicalNetwork d0 q /\ i ∈ interfaces_ n0) -> left_fits c -> left_fits c'.
Proof. intros Hsub Hf i t p id n d q Hb Hn Hk Hi Ht. destruct (Hsub id n d q i Hn Hk Hi) as (n0 & d0 & H1 & H2 & H3). by apply (Hf i t p id n0 d0 q). Qed.

Lemma expected_lookup m id n : m !! id = Some n -> expected m ≡ₚ net_rules n ++ expected (delete id m).
Proof.
  intros Hn. unfold expected. rewrite <- (insert_delete_id m id n Hn) at 1. rewrite map_to_list_insert by apply lookup_delete_eq. done.
Qed.

Lemma expected_put m id n : expected (<[id := n]> m) ≡ₚ net_rules n ++ expected (delete id m).
Proof. rewrite <- (delete_insert_eq m id n). apply expected_lookup. apply lookup_insert_eq. Qed.

(** Where a rule comes from. *)
Lemma elem_expected c s y : Wf c s -> y ∈ expected (networks_ c) ->
  exists id n i, networks_ c !! id = Some n /\ i ∈ interfaces_ n /\ RM.name_ok i /\
    ((exists d p, kind n = PhysicalNetwork d p /\ 0 < id < 2 ^ 16 /\ id <> LOCAL_NET_ID /\ if_nametoindex i <> 0 /\
        (y = Fex id (net_table id i) p \/ y = Fout i (net_table id i) p \/ y = Fdef (table_of i) p)) \/
     (id = LOCAL_NET_ID /\ y = Fout i RM.ROUTE_LOCAL_NETWORK_TABLE RM.PERMISSION_NONE)).
Proof.
  intros Hw Hy. unfold expected in Hy. apply list_elem_of_bind in Hy as ([id n] & Hy & Hn). apply elem_of_map_to_list in Hn. cbn [snd] in Hy.
  destruct (wf_net _ _ Hw id n Hn) as (Ei & Hid & _ & Hok & Hk). unfold net_rules in Hy. rewrite Forall_forall in Hok.
  destruct (kind n) as [d p|? ?|] eqn:Ek; [|done|].
  - apply list_elem_of_bind in Hy as (i & Hy & Hi). destruct Hk as (Hne & _ & Hx). rewrite Forall_forall in Hx.
    exists id, n, i. split; [done|]. split; [done|]. split; [by apply Hok|]. left. exists d, p. split; [done|]. split; [done|]. split; [done|]. split; [by apply Hx|].
    rewrite Ei in Hy. unfold iface_rules in Hy. rewrite !elem_of_cons in Hy. destruct Hy as [->|[->|Hy]]; [by left|by right; left|right; right].
    destruct d; [by apply list_elem_of_singleton in Hy|by apply not_elem_of_nil in Hy].
  - apply list_elem_of_fmap in Hy as (i & -> & Hi). exists id, n, i. split; [done|]. split; [done|]. split; [by apply Hok|]. by right.
Qed.

Abbreviation all_rules c := (base ++ expected (networks_ c)).

Lemma all_shaped c s : Wf c s -> Forall shaped (all_rules c).
Proof.
  intros Hw. apply Forall_app. split.
  - eapply Forall_impl; [apply Hw|]. intros y [?|(i & t & p & _ & _ & ->)]; [by left|]. right. left. eexists _, _, _. reflexivity.
  - apply Forall_forall. intros y Hy. destruct (elem_expected c s y Hw Hy) as (id & n & i & _ & _ & _ & [(d & p & _ & Hid & _ & _ & [->|[->| ->]])|(_ & ->)]).
    + left. exists id, (net_table id i), p. split; [lia|done].
    + right. left. eexists _, _, _. reflexivity.
    + right. right. eexists _, _. reflexivity.
    + right. left. eexists _, _, _. reflexivity.
Qed.

(** The rules for packets bound to one interface and one table. *)
Lemma out_members c s i t p y : Wf c s -> RM.name_ok i -> t <> 0 -> y ∈ all_rules c -> RM.matches (Fout i t p) y = true ->
  (exists p', y = Fout i t p' /\ y ∈ base /\ t <> RM.ROUTE_LOCAL_NETWORK_TABLE) \/
  exists id n, networks_ c !! id = Some n /\ i ∈ interfaces_ n /\
    ((exists d p', kind n = PhysicalNetwork d p' /\ if_nametoindex i <> 0 /\ id <> LOCAL_NET_ID /\ t = net_table id i /\ y = Fout i t p') \/
     (id = LOCAL_NET_ID /\ t = RM.ROUTE_LOCAL_NETWORK_TABLE /\ y = Fout i t RM.PERMISSION_NONE)).
Proof.
  intros Hw Hi Ht Hy Hm. apply elem_of_app in Hy as [Hy|Hy].
  { left. destruct (wf_left _ _ Hw) as [Hl _]. rewrite Forall_forall in Hl.
    destruct (Hl y Hy) as [(id & t' & p' & _ & ->)|(i' & t' & p' & Hi' & Ht' & ->)]; [by rewrite out_not_ex in Hm|].
    destruct (sel_out _ _ _ _ _ _ Hi Ht Hi' Hm) as [-> ->]. by exists p'. }
  right. destruct (elem_expected c s y Hw Hy) as (id & n & j & Hn & Hj & Hjo & [(d & p' & Hk & _ & Hne & Hx & [->|[->| ->]])|(-> & ->)]).
  - by rewrite out_not_ex in Hm.
  - destruct (sel_out _ _ _ _ _ _ Hi Ht Hjo Hm) as [-> <-]. exists id, n. split; [done|]. split; [done|]. left. by exists d, p'.
  - by rewrite out_not_ex in Hm.
  - destruct (sel_out _ _ _ _ _ _ Hi Ht Hjo Hm) as [-> <-]. exists LOCAL_NET_ID, n. split; [done|]. split; [done|]. by right.
Qed.

Lemma local_lookup c s id n i : Wf c s -> networks_ c !! id = Some n -> i ∈ interfaces_ n -> id = LOCAL_NET_ID -> i ∈ local_interfaces c.
Proof. intros _ Hn Hi ->. unfold local_interfaces. by rewrite Hn. Qed.

(** An interface has one table in one network. *)
Lemma table_network c s id n id' n' i : Wf c s -> networks_ c !! id = Some n -> networks_ c !! id' = Some n' -> i ∈ interfaces_ n -> i ∈ interfaces_ n' ->
  if_nametoindex i <> 0 -> net_table id i = net_table id' i -> id' = id.
Proof.
  intros Hw Hn Hn' Hi Hi' Hx Et. destruct (net_table_range id i Hx) as (_ & Hint & Hext), (net_table_range id' i Hx) as (_ & Hint' & Hext').
  destruct (wf_unique _ _ Hw) as [_ Hu]. apply (Hu id' n' id n i); [done..|]. rewrite <- Et in *.
  destruct (RM.IsInternalNetId id), (RM.IsInternalNetId id'); try done; exfalso;
    [specialize (Hint eq_refl); specialize (Hext' eq_refl)|specialize (Hint' eq_refl); specialize (Hext eq_refl)]; lia.
Qed.

(** Deleting a rule of a network deletes nothing else. *)
Lemma sel_physical c s id n d p i : Wf c s -> networks_ c !! id = Some n -> kind n = PhysicalNetwork d p -> i ∈ interfaces_ n ->
  selective (Fex id (net_table id i) p) (all_rules c) /\ selective (Fout i (net_table id i) p) (all_rules c).
Proof.
  intros Hw Hn Hk Hi. destruct (wf_net _ _ Hw id n Hn) as (Ei & Hid & _ & Hok & Hk'). rewrite Hk in Hk'. destruct Hk' as (Hne & _ & Hx).
  rewrite Forall_forall in Hok. rewrite Forall_forall in Hx. specialize (Hok i Hi). specialize (Hx i Hi).
  destruct (net_table_range id i Hx) as (Ht & Hint & Hext). assert (Hz : net_table id i <> 0) by lia. split.
  - intros y Hy. pose proof (all_shaped c s Hw) as Hsh. rewrite Forall_forall in Hsh. apply sel_ex; [lia|lia|by apply Hsh].
  - intros y Hy Hm. destruct (out_members c s i (net_table id i) p y Hw Hok Hz Hy Hm) as [(p' & -> & Hb & _)|(id' & n' & Hn' & Hi' & [(d' & p' & Hk' & _ & _ & Et & ->)|(-> & Et & ->)])].
    + destruct (wf_left _ _ Hw) as [_ Hl]. by apply (Hl i _ p' id n d p).
    + assert (id' = id) as -> by (by apply (table_network c s id n id' n' i)).
      assert (n' = n) as -> by congruence. rewrite Hk in Hk'. by injection Hk' as <- <-.
    + exfalso. apply Hne. apply (wf_local _ _ Hw id n i Hn Hi). by eapply local_lookup.
Qed.

Lemma sel_local c s n i : Wf c s -> networks_ c !! LOCAL_NET_ID = Some n -> i ∈ interfaces_ n ->
  selective (Fout i RM.ROUTE_LOCAL_NETWORK_TABLE RM.PERMISSION_NONE) (all_rules c).
Proof.
  intros Hw Hn Hi. destruct (wf_net _ _ Hw _ n Hn) as (_ & _ & _ & Hok & _). rewrite Forall_forall in Hok.
  intros y Hy Hm. destruct (out_members c s i RM.ROUTE_LOCAL_NETWORK_TABLE RM.PERMISSION_NONE y Hw (Hok i Hi) ltac:(done) Hy Hm) as [(? & _ & _ & ?)|(id' & n' & Hn' & Hi' & [(d' & p' & Hk' & _ & Hne & _)|(_ & _ & ->)])]; [done| |done].
  exfalso. apply Hne. apply (wf_local _ _ Hw id' n' i Hn' Hi'). exact (local_lookup c s _ n i Hw Hn Hi eq_refl).
Qed.

(** ** One more or one less interface *)

Lemma set_insert_Permutation i l : i ∉ l -> set_insert i l ≡ₚ i :: l.
Proof. intros Hi. unfold set_insert. rewrite bool_decide_false by done. apply StdAlgo.insert_sorted_Permutation. Qed.

Lemma set_erase_Permutation i l : NoDup l -> i ∈ l -> l ≡ₚ i :: set_erase i l.
Proof.
  intros Hl Hi. unfold set_erase. induction Hl as [|x l Hx Hl IH]; [by apply not_elem_of_nil in Hi|]. apply elem_of_cons in Hi as [->|Hi].
  - rewrite filter_cons_False by (intros Hx'; by apply Hx'). f_equiv. clear -Hx. induction l as [|y l IH]; [done|].
    apply not_elem_of_cons in Hx as [Hy Hx]. rewrite filter_cons_True by congruence. f_equiv. by apply IH.
  - rewrite filter_cons_True by (by intros ->). rewrite (perm_swap x i). f_equiv. by apply IH.
Qed.

Lemma Forall_erase P i l : Forall P l -> Forall P (set_erase i l).
Proof. rewrite !Forall_forall. intros Hl x [_ Hx]%set_erase_elem. by apply Hl. Qed.

Lemma net_rules_Permutation n l : interfaces_ n ≡ₚ l -> net_rules n ≡ₚ net_rules (set_interfaces l n).
Proof.
  intros El. unfold net_rules. cbn [kind set_interfaces interfaces_ netId_]. destruct (kind n); [|done|]; by rewrite El.
Qed.

Lemma net_rules_cons n i l : interfaces_ n ≡ₚ i :: l -> net_rules n ≡ₚ
  match kind n with PhysicalNetwork d p => iface_rules (netId_ n) d p i | LocalNetwork => [Fout i RM.ROUTE_LOCAL_NETWORK_TABLE RM.PERMISSION_NONE] | _ => [] end ++
  net_rules (set_interfaces l n).
Proof. intros El. rewrite (net_rules_Permutation n _ El). unfold net_rules. cbn [kind set_interfaces interfaces_ netId_]. by destruct (kind n). Qed.

(** ** The default network *)

Context (loaded : bool) (CreateVpnInterface : K -> Z * K) (DestroyVpnInterface : K -> K).
Abbreviation World := (World (K := K)).
Implicit Types (w : World) (c : ConnManager) (n : NetsysNetwork).

Definition Inv c w : Prop := Wf c (routes w) /\ tracks (kern w) (all_rules c).

Lemma defaults_added local p l : forall w L, Forall (fun i => if_nametoindex i <> 0 /\ i ∉ local) l -> cache_ok local (routes w) -> tracks (kern w) L ->
  let w' := foldl (fun w i => (call (RM.AddInterfaceToDefaultNetwork pid i p) w).2) w l in
  cache_ok local (routes w') /\ tracks (kern w') (((fun i => Fdef (table_of i) p) <$> l) ++ L).
Proof.
  induction l as [|i l IH]; intros w L Hl Hc HL; [done|]. apply Forall_cons in Hl as [[Hx Hi] Hl]. cbn [foldl]. unfold call at 2 4.
  destruct (AddToDefault_tracks local i p (routes w) (kern w) L Hc Hi Hx HL) as (s' & k' & -> & Hc' & HL'). cbn [snd].
  destruct (IH (set_rk (s', k') w) _ Hl Hc' HL') as [H1 H2]. split; [done|]. cbn [fmap list_fmap app]. by rewrite Permutation_middle.
Qed.

Lemma defaults_removed local p l : forall w L, Forall (fun i => if_nametoindex i <> 0 /\ i ∉ local) l -> cache_ok local (routes w) -> Forall shaped L ->
  tracks (kern w) (((fun i => Fdef (table_of i) p) <$> l) ++ L) ->
  let w' := foldl (fun w i => (call (RM.RemoveInterfaceFromDefaultNetwork pid i p) w).2) w l in
  cache_ok local (routes w') /\ tracks (kern w') L.
Proof.
  induction l as [|i l IH]; intros w L Hl Hc Hs HL; [done|]. apply Forall_cons in Hl as [[Hx Hi] Hl]. cbn [foldl]. unfold call at 2 4.
  set (L0 := ((fun i => Fdef (table_of i) p) <$> l) ++ L) in *. change (tracks (kern w) (Fdef (table_of i) p :: L0)) in HL.
  assert (Hsh : Forall shaped (Fdef (table_of i) p :: L0)).
  { constructor; [right; right; eexists _, _; reflexivity|]. apply Forall_app. split; [|done].
    apply Forall_forall. intros y (j & -> & _)%list_elem_of_fmap. right. right. eexists _, _. reflexivity. }
  destruct (RemoveFromDefault_tracks local i p (routes w) (kern w) _ L0 Hc Hi Hx ltac:(reflexivity) HL Hsh) as (s' & k' & -> & Hc' & HL').
  cbn [snd]. apply (IH (set_rk (s', k') w) L); done.
Qed.

(** Being the default network adds one rule for every interface. *)
Lemma net_rules_default n p : net_rules (set_kind (PhysicalNetwork true p) n) ≡ₚ
  ((fun i => Fdef (table_of i) p) <$> interfaces_ n) ++ net_rules (set_kind (PhysicalNetwork false p) n).
Proof.
  unfold net_rules. cbn [kind set_kind interfaces_ netId_]. induction (interfaces_ n) as [|i l IH]; [done|].
  rewrite !bind_cons, fmap_cons, IH. unfold iface_rules at 1 3. cbn [app]. rewrite <- !Permutation_middle.
  by rewrite (perm_swap (Fdef (table_of i) p)), (perm_swap (Fdef (table_of i) p)).
Qed.

Lemma set_kind_id n (x : Kind) : kind n = x -> set_kind x n = n.
Proof. intros <-. by destruct n. Qed.

(** Another default network: the networks are the same but for the flags. *)
Definition is_id (D j : Z) : bool := bool_decide (D = j).
Definition flags_for (F : Z -> bool) (m m' : gmap Z NetsysNetwork) : Prop := forall j,
  match m !! j, m' !! j with
  | Some n, Some n' => netId_ n' = netId_ n /\ interfaces_ n' = interfaces_ n /\
      match kind n, kind n' with
      | PhysicalNetwork _ p, PhysicalNetwork d p' => p' = p /\ d = F j
      | LocalNetwork, LocalNetwork => True
      | _, _ => False
      end
  | None, None => True
  | _, _ => False
  end.

Lemma Wf_flags c s D m' s' : Wf c s -> flags_for (is_id D) (networks_ c) m' -> (D <> 0 -> exists n, m' !! D = Some n /\ IsPhysical n = true) ->
  cache_ok (local_interfaces c) s' -> Wf (mkConnManager D (needReinitRouteFlag_ c) (physicalInterfaceName_ c) m') s'.
Proof.
  intros [Hn _ [Hk Hu] Hl _ Hr [Hb Hfit]] Hf HD Hc.
  assert (Hold : forall j n', m' !! j = Some n' -> exists n, networks_ c !! j = Some n /\ interfaces_ n' = interfaces_ n).
  { intros j n' Hj. specialize (Hf j). rewrite Hj in Hf. destruct (networks_ c !! j) as [n|]; [|done]. exists n. by destruct Hf as (_ & -> & _). }
  assert (El : local_interfaces (mkConnManager D (needReinitRouteFlag_ c) (physicalInterfaceName_ c) m') = local_interfaces c).
  { unfold local_interfaces. cbn [networks_]. specialize (Hf LOCAL_NET_ID). destruct (networks_ c !! LOCAL_NET_ID), (m' !! LOCAL_NET_ID); try done. by destruct Hf as (_ & ? & _). }
  split; rewrite ?El; cbn [networks_ defaultNetId_]; try done.
  - intros j n' Hj. specialize (Hf j). rewrite Hj in Hf. destruct (networks_ c !! j) as [n|] eqn:Ej; [|done].
    destruct (Hn j n Ej) as (E1 & E2 & E3 & E4 & E5), Hf as (F1 & F2 & F3). unfold net_ok. rewrite F1, F2. split; [done|]. split; [done|]. split; [done|]. split; [done|].
    cbn [defaultNetId_]. destruct (kind n), (kind n'); try done. destruct E5 as (? & _ & ?). by destruct F3 as [_ ->].
  - split; cbn [networks_].
    + intros j n' (n & Hj & _)%Hold. by eapply Hk.
    + intros j1 n1 j2 n2 i (m1 & H1 & E1)%Hold (m2 & H2 & E2)%Hold. rewrite E1, E2. by eapply Hu.
  - intros j n' i (n & Hj & E)%Hold. rewrite E. by eapply Hl.
  - split; [done|]. apply (left_fits_sub c); [|done]. cbn [networks_]. intros j n' d q i Hj Hk' Hi. specialize (Hf j). rewrite Hj in Hf.
    destruct (networks_ c !! j) as [n|] eqn:Ej; [|done]. destruct Hf as (_ & F2 & F3). rewrite Hk' in F3. destruct (kind n) as [d0 p| |] eqn:Ek; try done.
    destruct F3 as [-> _]. exists n, d0. by rewrite <- F2.
Qed.

Lemma physical_interfaces c s id n d p : Wf c s -> networks_ c !! id = Some n -> kind n = PhysicalNetwork d p ->
  Forall (fun i => if_nametoindex i <> 0 /\ i ∉ local_interfaces c) (interfaces_ n).
Proof.
  intros Hw Hn Hk. destruct (wf_net _ _ Hw id n Hn) as (_ & _ & _ & _ & Hp). rewrite Hk in Hp. destruct Hp as (Hne & _ & Hx).
  rewrite Forall_forall in *. intros i Hi. split; [by apply Hx|]. intros Hl. apply Hne. by apply (wf_local _ _ Hw id n i).
Qed.

Lemma IsPhysical_kind n : IsPhysical n = true -> exists d p, kind n = PhysicalNetwork d p.
Proof. unfold IsPhysical. destruct (kind n) as [d p| |]; try done. by exists d, p. Qed.

Lemma physical_flag c s id n d p : Wf c s -> networks_ c !! id = Some n -> kind n = PhysicalNetwork d p -> d = bool_decide (defaultNetId_ c = id).
Proof. intros Hw Hn Hk. destruct (wf_net _ _ Hw id n Hn) as (_ & _ & _ & _ & Hp). rewrite Hk in Hp. by destruct Hp as (_ & ? & _). Qed.

(** The old default network gives up its rules. *)
Lemma RemoveDefault_tracks c s id n w (m : gmap Z NetsysNetwork) : Wf c s -> defaultNetId_ c = id -> networks_ c !! id = Some n -> IsPhysical n = true ->
  m !! id = Some n -> Forall shaped (base ++ expected m) -> cache_ok (local_interfaces c) (routes w) -> tracks (kern w) (base ++ expected m) ->
  exists p, kind n = PhysicalNetwork true p /\ (RemoveDefault pid n w).1 = set_kind (PhysicalNetwork false p) n /\
    cache_ok (local_interfaces c) (routes (RemoveDefault pid n w).2) /\
    tracks (kern (RemoveDefault pid n w).2) (base ++ expected (<[id := set_kind (PhysicalNetwork false p) n]> m)).
Proof.
  intros Hw Hid Hn Hp Hm Hsh Hc HL. destruct (IsPhysical_kind n Hp) as (d & p & Hk). exists p.
  assert (d = true) as -> by (rewrite (physical_flag c s id n d p Hw Hn Hk); by apply bool_decide_eq_true).
  split; [done|]. unfold RemoveDefault. rewrite Hk. cbn [fst snd]. split; [done|].
  assert (E : base ++ expected m ≡ₚ ((fun i => Fdef (table_of i) p) <$> interfaces_ n) ++
    (base ++ expected (<[id := set_kind (PhysicalNetwork false p) n]> m))).
  { rewrite expected_put, (expected_lookup m id n Hm). rewrite <- (set_kind_id n _ Hk) at 1. rewrite net_rules_default, !(app_assoc (base)).
    rewrite (Permutation_app_comm (base) (_ <$> _)). by rewrite <- !app_assoc. }
  rewrite E in Hsh, HL. apply (defaults_removed (local_interfaces c) p); [by eapply physical_interfaces|done| |done]. by apply Forall_app in Hsh as [_ ?].
Qed.

Lemma flags_same c s D : Wf c s -> D = defaultNetId_ c -> flags_for (is_id D) (networks_ c) (networks_ c).
Proof.
  intros Hw -> j. destruct (networks_ c !! j) as [n|] eqn:Hj; [|done]. split; [done|]. split; [done|].
  destruct (wf_net _ _ Hw j n Hj) as (_ & _ & _ & _ & Hk). destruct (kind n); try done. by destruct Hk as (_ & ? & _).
Qed.

(** The flag of one network turned on or off. *)
Lemma flags_put c s F F' m id n p b0 b : Wf c s -> flags_for F (networks_ c) m -> m !! id = Some n -> kind n = PhysicalNetwork b0 p ->
  (forall j, j <> id -> 0 < j -> F j = F' j) -> b = F' id -> flags_for F' (networks_ c) (<[id := set_kind (PhysicalNetwork b p) n]> m).
Proof.
  intros Hw Hf Hn Hk HD Hb j. specialize (Hf j). destruct (decide (j = id)) as [->|Hj].
  - rewrite lookup_insert_eq. rewrite Hn in Hf. destruct (networks_ c !! id) as [n0|]; [|done]. destruct Hf as (F1 & F2 & F3). cbn [netId_ interfaces_ kind set_kind].
    split; [done|]. split; [done|]. rewrite Hk in F3. destruct (kind n0); try done. by destruct F3 as [-> _].
  - rewrite lookup_insert_ne by done. destruct (networks_ c !! j) as [n0|] eqn:E0, (m !! j) as [n1|]; try done.
    destruct Hf as (F1 & F2 & F3). split; [done|]. split; [done|]. destruct (wf_net _ _ Hw j n0 E0) as (_ & [? _] & _).
    destruct (kind n0), (kind n1); try done. by rewrite <- HD by done.
Qed.

Lemma is_id_ne (D j : Z) : D <> j -> is_id D j = false.
Proof. apply bool_decide_eq_false_2. Qed.
Lemma is_id_eq (D : Z) : is_id D D = true.
Proof. by apply bool_decide_eq_true_2. Qed.

Lemma exec_ClearDefault c w r c' w' : Inv c w -> ClearDefaultNetwork pid c w = (r, c', w') -> Inv c' w'.
Proof.
  intros [Hw HL]. unfold ClearDefaultNetwork. destruct (Z.eqb_spec (defaultNetId_ c) 0) as [E0|E0]; cbn [negb].
  - intros [= <- <- <-]. split; [|done]. apply (Wf_flags c (routes w)); [done|by eapply flags_same|done|apply Hw].
  - destruct (wf_default _ _ Hw E0) as (n & Hn & Hp). rewrite Hn, Hp. cbn [negb].
    destruct (RemoveDefault_tracks c (routes w) _ n w (networks_ c) Hw eq_refl Hn Hp Hn (all_shaped c _ Hw) (wf_cache _ _ Hw) HL) as (p & Hk & E1 & Hc & HL').
    destruct (RemoveDefault pid n w) as [n' w1]. cbn [fst snd] in *. subst n'. intros [= <- <- <-]. split; [|done].
    apply (Wf_flags c (routes w)); [done| |done|done].
    apply (flags_put c (routes w) (is_id (defaultNetId_ c)) _ _ _ _ _ true); [done|by eapply flags_same|done|done| |by rewrite is_id_ne].
    intros j Hj Hp'. rewrite !is_id_ne by lia. done.
Qed.

(** The new default network gets its rules. *)
Lemma AddDefault_tracks c id n w : Inv c w -> defaultNetId_ c <> id -> networks_ c !! id = Some n -> IsPhysical n = true ->
  exists p, kind n = PhysicalNetwork false p /\ (AddDefault pid n w).1 = set_kind (PhysicalNetwork true p) n /\
    cache_ok (local_interfaces c) (routes (AddDefault pid n w).2) /\
    tracks (kern (AddDefault pid n w).2) (base ++ expected (<[id := set_kind (PhysicalNetwork true p) n]> (networks_ c))).
Proof.
  intros [Hw HL] Hid Hn Hp. destruct (IsPhysical_kind n Hp) as (d & p & Hk). exists p.
  assert (d = false) as -> by (rewrite (physical_flag c _ id n d p Hw Hn Hk); by apply is_id_ne).
  split; [done|]. unfold AddDefault. rewrite Hk. cbn [fst snd]. split; [done|].
  destruct (defaults_added (local_interfaces c) p (interfaces_ n) w _ (physical_interfaces _ _ _ _ _ _ Hw Hn Hk) (wf_cache _ _ Hw) HL) as [Hc HL'].
  split; [done|]. rewrite expected_put, net_rules_default, (set_kind_id n _ Hk). rewrite (expected_lookup (networks_ c) id n Hn) in HL'.
  rewrite app_assoc in HL'. rewrite (Permutation_app_comm (_ <$> _) (base)), <- app_assoc in HL'. by rewrite <- app_assoc.
Qed.

Lemma shaped_put c s id n b p : Wf c s -> networks_ c !! id = Some n -> kind n = PhysicalNetwork false p ->
  Forall shaped (base ++ expected (<[id := set_kind (PhysicalNetwork b p) n]> (networks_ c))).
Proof.
  intros Hw Hn Hk. pose proof (all_shaped c s Hw) as Hsh. rewrite expected_put. rewrite (expected_lookup (networks_ c) id n Hn) in Hsh.
  destruct b; [|by rewrite (set_kind_id n _ Hk)]. rewrite net_rules_default, (set_kind_id n _ Hk). rewrite !Forall_app in *. destruct Hsh as (H1 & H2 & H3).
  split; [done|]. split; [|done]. split; [|done]. apply Forall_forall. intros y (j & -> & _)%list_elem_of_fmap. right. right. eexists _, _. reflexivity.
Qed.

Lemma exec_SetDefault id c w r c' w' : Inv c w -> id = 0 \/ is_Some (networks_ c !! id) -> SetDefaultNetwork pid id c w = (r, c', w') -> Inv c' w'.
Proof.
  intros Hinv Ha E. unfold SetDefaultNetwork in E. pose proof Hinv as [Hw HL].
  destruct (Z.eqb_spec (defaultNetId_ c) id) as [E0|E0]; [by injection E as <- <- <-|].
  destruct (networks_ c !! id) as [n|] eqn:Hn.
  2:{ destruct Ha as [->|[? ?]]; [|done]. apply (exec_ClearDefault c w r c' w' Hinv). unfold ClearDefaultNetwork.
      destruct (Z.eqb_spec (defaultNetId_ c) 0); [done|]. exact E. }
  destruct (IsPhysical n) eqn:Hp; cbn [negb] in E; [|by injection E as <- <- <-].
  destruct (AddDefault_tracks c id n w Hinv E0 Hn Hp) as (p & Hk & E1 & Hc & HL1). destruct (AddDefault pid n w) as [n1 w1]. cbn [fst snd] in *. subst n1.
  set (m := <[id := set_kind (PhysicalNetwork true p) n]> (networks_ c)) in *. cbn [defaultNetId_ put set_networks networks_] in E. fold m in E.
  assert (Hd : exists n, m !! id = Some n /\ IsPhysical n = true) by (unfold m; rewrite lookup_insert_eq; by eexists).
  destruct (Z.eqb_spec (defaultNetId_ c) 0) as [E2|E2]; cbn [negb] in E.
  - injection E as <- <- <-. split; [|done]. apply (Wf_flags c (routes w)); [done| |done|done].
    apply (flags_put c (routes w) (is_id (defaultNetId_ c)) _ _ _ _ _ false); [done|by eapply flags_same|done|done| |by rewrite is_id_eq].
    intros j Hj Hj'. rewrite !is_id_ne by lia. done.
  - destruct (wf_default _ _ Hw E2) as (n2 & Hn2 & Hp2). assert (Hm2 : m !! defaultNetId_ c = Some n2) by (unfold m; by rewrite lookup_insert_ne).
    rewrite Hm2, Hp2 in E. cbn [negb] in E.
    destruct (RemoveDefault_tracks c (routes w) _ n2 w1 m Hw eq_refl Hn2 Hp2 Hm2 (shaped_put c _ id n true p Hw Hn Hk) Hc HL1) as (p2 & Hk2 & E3 & Hc2 & HL2).
    destruct (RemoveDefault pid n2 w1) as [n3 w2]. cbn [fst snd] in *. subst n3. injection E as <- <- <-. split; [|done].
    apply (Wf_flags c (routes w)); [done| | |done].
    + apply (flags_put c (routes w) (fun j => is_id (defaultNetId_ c) j || is_id id j) _ _ _ _ _ true); [done| |done|done| |by rewrite is_id_ne].
      * apply (flags_put c (routes w) (is_id (defaultNetId_ c)) _ _ _ _ _ false); [done|by eapply flags_same|done|done| |by rewrite is_id_eq, orb_true_r].
        intros j Hj _. by rewrite (is_id_ne id) by done; rewrite orb_false_r.
      * intros j Hj _. by rewrite (is_id_ne (defaultNetId_ c)) by done.
    + intros _. destruct Hd as (n4 & Hn4 & Hp4). exists n4. unfold put. cbn [networks_ set_networks]. by rewrite lookup_insert_ne.
Qed.

(** ** A new network *)

Lemma exec_Create id p c w r c' w' : Inv c w -> 0 < id < 2 ^ 16 -> id <> LOCAL_NET_ID -> networks_ c !! id = None ->
  CreatePhysicalNetwork pid rest loaded DestroyVpnInterface id p c w = (r, c', w') -> Inv c' w'.
Proof.
  intros [Hw HL] Hid Hne Hn. pose proof Hw as [Hnet Hd [Hk Hu] Hl Hc Hr [Hb Hfit]]. unfold CreatePhysicalNetwork. rewrite Hr. intros [= <- <- <-].
  assert (El : local_interfaces (put id (mkNetwork id [] (PhysicalNetwork false p)) c) = local_interfaces c).
  { unfold local_interfaces, put. cbn [networks_ set_networks]. by rewrite lookup_insert_ne. }
  split.
  - split; rewrite ?El; unfold put; cbn [networks_ set_networks defaultNetId_ needReinitRouteFlag_]; try done.
    + intros j n [[<- <-]|[_ Hj]]%lookup_insert_Some; [|by apply (Hnet j n)].
      split; [done|]. split; [done|]. split; [constructor|]. split; [constructor|]. split; [done|]. split; [|constructor]. cbn [defaultNetId_ set_networks].
      symmetry. apply bool_decide_eq_false. intros Ed. destruct (Hd ltac:(lia)) as (n & En & _). congruence.
    + intros E0. destruct (Hd E0) as (n & En & Hp). exists n. split; [|done]. rewrite lookup_insert_ne; [done|]. intros ->. congruence.
    + apply (unique_shrinks c); [|done]. apply (shrinks_new id); [done|lia].
    + intros j n i [[<- <-]|[_ Hj]]%lookup_insert_Some; [by intros ?%not_elem_of_nil|by apply Hl].
    + split; [done|]. apply (left_fits_sub c); [|done]. cbn [networks_ set_networks]. intros j n d q i [[<- <-]|[_ Hj]]%lookup_insert_Some Hkj; [by intros ?%not_elem_of_nil|].
      by exists n, d.
  - unfold put. cbn [networks_ set_networks]. rewrite expected_put, delete_id by done. done.
Qed.

(** ** Interfaces come and go *)

Lemma local_put id n l c : networks_ c !! id = Some n ->
  local_interfaces (put id (set_interfaces l n) c) = if id =? LOCAL_NET_ID then l else local_interfaces c.
Proof.
  intros Hn. unfold local_interfaces, put. cbn [networks_ set_networks]. destruct (Z.eqb_spec id LOCAL_NET_ID) as [->|Hne]; [by rewrite lookup_insert_eq|].
  by rewrite lookup_insert_ne.
Qed.

(** A network with other interfaces. *)
Lemma Wf_interfaces c s id n l names s' : Wf c s -> networks_ c !! id = Some n -> NoDup l -> Forall RM.name_ok l ->
  (IsPhysical n = true -> Forall (fun i => if_nametoindex i <> 0) l) -> unique (put id (set_interfaces l n) c) ->
  (forall i, i ∈ l -> id <> LOCAL_NET_ID -> i ∉ local_interfaces c) ->
  (forall j m i, networks_ c !! j = Some m -> j <> id -> i ∈ interfaces_ m -> id = LOCAL_NET_ID -> i ∉ l) ->
  cache_ok (local_interfaces (put id (set_interfaces l n) c)) s' -> left_fits (put id (set_interfaces l n) c) ->
  Wf (set_names names (put id (set_interfaces l n) c)) s'.
Proof.
  intros Hw Hn Hnd Hok Hx Hu H1 H2 Hc Hfit. pose proof Hw as [Hnet Hd _ Hl _ Hr [Hb _]]. pose proof (local_put id n l c Hn) as El.
  split; cbn [networks_ set_names put set_networks defaultNetId_ needReinitRouteFlag_]; try done.
  - intros j m [[<- <-]|[_ Hj]]%lookup_insert_Some; [|by apply (Hnet j m)].
    destruct (Hnet id n Hn) as (F1 & F2 & _ & _ & F5). split; [done|]. split; [done|]. split; [done|]. split; [done|]. cbn [kind set_interfaces interfaces_ defaultNetId_ set_names put set_networks].
    unfold IsPhysical in Hx. destruct (kind n); try done. destruct F5 as (? & ? & _). split; [done|]. split; [done|]. by apply Hx.
  - intros E0. destruct (Hd E0) as (m & Em & Hp). destruct (decide (id = defaultNetId_ c)) as [Eq|Hne].
    + rewrite <- Eq in *. rewrite lookup_insert_eq. eexists. split; [done|]. assert (m = n) as -> by congruence. exact Hp.
    + exists m. by rewrite lookup_insert_ne.
  - change (local_interfaces (set_names names (put id (set_interfaces l n) c))) with (local_interfaces (put id (set_interfaces l n) c)). rewrite El.
    intros j m i [[<- <-]|[Hj Hm]]%lookup_insert_Some Hi.
    + destruct (Z.eqb_spec id LOCAL_NET_ID); [done|]. cbn [interfaces_ set_interfaces] in Hi. intros ?. exfalso. by eapply H1.
    + destruct (Z.eqb_spec id LOCAL_NET_ID) as [->|]; [|by apply (Hl j m)]. intros Hil. exfalso. by eapply (H2 j m i).
Qed.

Lemma Inv_names c w names : Inv (set_names names c) w <-> Inv c w.
Proof. split; intros [[? ? ? ? ? ? ?] HL]; (split; [split|]); done. Qed.

Lemma put_same c id n : networks_ c !! id = Some n -> put id n c = c.
Proof. intros Hn. unfold put. rewrite insert_id by done. by destruct c. Qed.

(** The rules after a call that left a network with more or fewer interfaces. *)
Lemma all_rules_put id n n' R c : networks_ c !! id = Some n -> net_rules n' ≡ₚ R ++ net_rules n -> all_rules (put id n' c) ≡ₚ R ++ all_rules c.
Proof.
  intros Hn E. unfold put. cbn [networks_ set_networks]. rewrite expected_put, E, (expected_lookup (networks_ c) id n Hn), !(app_assoc (base)).
  rewrite (Permutation_app_comm (base) R). by rewrite <- !app_assoc.
Qed.

Lemma AddInterface_tracks c w id n i : Inv c w -> networks_ c !! id = Some n -> i ∉ interfaces_ n -> RM.name_ok i ->
  (id <> LOCAL_NET_ID -> i ∉ local_interfaces c) ->
  exists ret n' w', AddInterface pid CreateVpnInterface i n w = (ret, n', w') /\
    (n' = n /\ Inv c w' \/
     n' = set_interfaces (set_insert i (interfaces_ n)) n /\ (IsPhysical n = true -> if_nametoindex i <> 0) /\
     cache_ok (local_interfaces (put id n' c)) (routes w') /\ tracks (kern w') (all_rules (put id n' c))).
Proof.
  intros [Hw HL] Hn Hi Hok Hloc. destruct (wf_net _ _ Hw id n Hn) as (Eid & Hid & Hnd & _ & Hk). unfold AddInterface.
  pose proof (set_insert_Permutation i _ Hi) as Ep.
  pose proof (net_rules_cons (set_interfaces (set_insert i (interfaces_ n)) n) i (interfaces_ n) Ep) as Er.
  assert (Ex : ExistInterface i n = false) by (unfold ExistInterface; by apply bool_decide_eq_false).
  replace (set_interfaces (interfaces_ n) (set_interfaces (set_insert i (interfaces_ n)) n)) with n in Er by (by destruct n).
  cbn [kind set_interfaces netId_] in Er. destruct (kind n) as [d p|? ?|] eqn:Ek; [|done|].
  - destruct Hk as (Hne & Hd & _). unfold add_physical. rewrite Ex, Eid. unfold call, RM.AddInterfaceToPhysicalNetwork.
    destruct (UpdatePhysical_add _ id i p (routes w) (kern w) _ (wf_cache _ _ Hw) (Hloc Hne) HL) as [(Hx & s1 & k1 & -> & Hc1 & H1)|[Hx ->]].
    2:{ eexists _, _, _. split; [done|]. left. split; [done|]. by split. }
    cbn [Z.eqb negb]. rewrite Eid in Er. pose proof (all_rules_put id n _ _ c Hn Er) as Ea.
    destruct d.
    + destruct (AddToDefault_tracks _ i p s1 k1 _ Hc1 (Hloc Hne) Hx H1) as (s2 & k2 & E2 & Hc2 & H2). eexists _, _, _. split; [done|]. right. split; [done|]. split; [done|].
      cbn [routes kern set_rk fst snd]. rewrite E2. cbn [routes kern set_rk fst snd]. rewrite (local_put id n _ c Hn), (proj2 (Z.eqb_neq _ _) Hne). split; [done|].
      rewrite Ea. unfold iface_rules. cbn [app]. rewrite (perm_swap (Fout _ _ _)), (perm_swap (Fdef _ _)), (perm_swap (Fdef _ _)). done.
    + eexists _, _, _. split; [done|]. right. split; [done|]. split; [done|]. cbn [routes kern set_rk fst snd]. rewrite (local_put id n _ c Hn), (proj2 (Z.eqb_neq _ _) Hne). split; [done|].
      rewrite Ea. unfold iface_rules. cbn [app]. by rewrite (perm_swap (Fout _ _ _)).
  - unfold add_local. rewrite Ex. unfold call. destruct (AddLocal_tracks i (routes w) (kern w) _ Hok HL) as (k1 & -> & H1). cbn [Z.eqb negb].
    eexists _, _, _. split; [done|]. right. split; [done|]. unfold IsPhysical. rewrite Ek. split; [done|]. cbn [routes kern set_rk fst snd].
    rewrite (local_put id n _ c Hn), Hk. cbn [Z.eqb Pos.eqb LOCAL_NET_ID]. pose proof (all_rules_put id n _ _ c Hn Er) as Ea. split; [|by rewrite <- Hk, Ea].
    assert (El : local_interfaces c = interfaces_ n) by (unfold local_interfaces; by rewrite <- Hk, Hn).
    intros j t. cbn [RM.interfaceToTable_ RM.set_tables]. intros [[<- <-]|[_ Hj]]%lookup_insert_Some; [right; split; [done|]; apply set_insert_elem; by left|].
    destruct (wf_cache _ _ Hw j t Hj) as [?|[? Hjl]]; [by left|right]. split; [done|]. apply set_insert_elem. right. by rewrite <- El.
Qed.

Lemma all_rules_less id n n' R c : networks_ c !! id = Some n -> net_rules n ≡ₚ R ++ net_rules n' -> all_rules c ≡ₚ R ++ all_rules (put id n' c).
Proof.
  intros Hn E. unfold put. cbn [networks_ set_networks]. rewrite expected_put, (expected_lookup (networks_ c) id n Hn), E, !(app_assoc (base)).
  rewrite (Permutation_app_comm (base) R). by rewrite <- !app_assoc.
Qed.

Lemma selective_sub sel L L' : selective sel L -> (forall y, y ∈ L' -> y ∈ L) -> selective sel L'.
Proof. intros Hs Hl y Hy. apply Hs. by apply Hl. Qed.

Lemma RemoveInterface_tracks c w id n i : Inv c w -> networks_ c !! id = Some n -> i ∈ interfaces_ n ->
  exists ret w', RemoveInterface pid rest DestroyVpnInterface i n w = (ret, set_interfaces (set_erase i (interfaces_ n)) n, w') /\
    cache_ok (local_interfaces (put id (set_interfaces (set_erase i (interfaces_ n)) n) c)) (routes w') /\
    tracks (kern w') (all_rules (put id (set_interfaces (set_erase i (interfaces_ n)) n) c)).
Proof.
  intros [Hw HL] Hn Hi. destruct (wf_net _ _ Hw id n Hn) as (Eid & Hid & Hnd & Hok & Hk). rewrite Forall_forall in Hok.
  pose proof (net_rules_cons n i _ (set_erase_Permutation i _ Hnd Hi)) as Er. set (n' := set_interfaces (set_erase i (interfaces_ n)) n) in *.
  pose proof (local_put id n (set_erase i (interfaces_ n)) c Hn) as El. fold n' in El.
  assert (Ex : ExistInterface i n = true) by (by apply bool_decide_eq_true). unfold RemoveInterface. destruct (kind n) as [d p|? ?|] eqn:Ek; [|done|].
  - destruct Hk as (Hne & Hd & Hx). rewrite Forall_forall in Hx. specialize (Hx i Hi). rewrite (proj2 (Z.eqb_neq _ _) Hne) in El. rewrite Eid in Er.
    pose proof (all_rules_less id n n' _ c Hn Er) as Ea. assert (Hl : i ∉ local_interfaces c) by (intros Hl; apply Hne; by apply (wf_local _ _ Hw id n i)).
    destruct (sel_physical c (routes w) id n d p i Hw Hn Ek Hi) as [S1 S2]. unfold remove_physical. rewrite Ex, Eid, El. cbn [negb].
    assert (Hdef : exists w1, (if d then (call (RM.RemoveInterfaceFromDefaultNetwork pid i p) w).2 else w) = w1 /\ cache_ok (local_interfaces c) (routes w1) /\
      tracks (kern w1) (Fex id (net_table id i) p :: Fout i (net_table id i) p :: all_rules (put id n' c))).
    { destruct d; [|exists w; split; [done|]; split; [apply Hw|]; by rewrite Ea in HL]. unfold iface_rules in Ea. cbn [app] in Ea.
      destruct (RemoveFromDefault_tracks _ i p (routes w) (kern w) (all_rules c) (Fex id (net_table id i) p :: Fout i (net_table id i) p :: all_rules (put id n' c))
        (wf_cache _ _ Hw) Hl Hx) as (s1 & k1 & E1 & Hc1 & H1); [|done|by eapply all_shaped|].
      - rewrite Ea. rewrite (perm_swap (Fdef _ _)), (perm_swap (Fdef _ _)). done.
      - eexists. split; [done|]. unfold call. by rewrite E1. }
    destruct Hdef as (w1 & -> & Hc1 & H1). unfold call.
    assert (Hsub : forall y, y ∈ Fex id (net_table id i) p :: Fout i (net_table id i) p :: all_rules (put id n' c) -> y ∈ all_rules c).
    { intros y Hy. rewrite Ea, elem_of_app. unfold iface_rules. rewrite !elem_of_cons in *. tauto. }
    destruct (RemovePhysical_tracks _ id i p (routes w1) (kern w1) _ (all_rules (put id n' c)) Hc1 Hl Hx ltac:(reflexivity) H1
      (selective_sub _ _ _ S1 Hsub) (selective_sub _ _ _ S2 Hsub)) as (s2 & k2 & -> & Hc2 & H2).
    cbn [Z.eqb negb]. eexists _, _. split; [reflexivity|]. by split.
  - unfold remove_local. rewrite Ex. unfold call. cbn [negb]. rewrite Hk in El. cbn [Z.eqb Pos.eqb LOCAL_NET_ID] in El.
    pose proof (all_rules_less id n n' _ c Hn Er) as Ea. rewrite Hk in Hn.
    destruct (RemoveLocal_tracks i (routes w) (kern w) (all_rules c) (all_rules (put id n' c)) (Hok i Hi) HL Ea (sel_local c (routes w) n i Hw Hn Hi)) as (k1 & -> & H1).
    cbn [Z.eqb negb]. eexists _, _. split; [reflexivity|]. split; [|done]. rewrite Hk, El. cbn [routes set_rk fst]. intros j t. cbn [RM.interfaceToTable_ RM.set_tables].
    intros [Hj Ht]%lookup_delete_Some. destruct (wf_cache _ _ Hw j t Ht) as [?|[? Hjl]]; [by left|right]. split; [done|]. apply set_erase_elem.
    split; [done|]. unfold local_interfaces in Hjl. by rewrite Hn in Hjl.
Qed.

Lemma exec_AddInterface id i b c w r c' w' : Inv c w -> RM.name_ok i ->
  (id = LOCAL_NET_ID -> forall j m, networks_ c !! j = Some m -> i ∈ interfaces_ m -> j = LOCAL_NET_ID) ->
  (RM.IsInternalNetId id = true -> i ∉ local_interfaces c) ->
  (forall n d q p, networks_ c !! id = Some n -> kind n = PhysicalNetwork d q -> Fout i (net_table id i) p ∈ base -> Fout i (net_table id i) p = Fout i (net_table id i) q) ->
  AddInterfaceToNetwork pid loaded CreateVpnInterface id i b c w = (r, c', w') -> Inv c' w'.
Proof.
  intros Hinv Hok Ha1 Ha2 Ha3 E. pose proof Hinv as [Hw HL]. pose proof (AddInterfaceToNetwork_unique pid loaded CreateVpnInterface id i b c w r c' w' E (wf_unique _ _ Hw)) as Hu.
  unfold AddInterfaceToNetwork in E. destruct (negb _ && negb _) eqn:Eg; [by injection E as <- <- <-|].
  destruct (networks_ c !! id) as [n|] eqn:Hn; [|by injection E as <- <- <-].
  set (w0 := on_access _ w) in E. assert (Hinv0 : Inv c w0) by (split; [apply Hw|apply HL]).
  assert (Hloc : id <> LOCAL_NET_ID -> i ∉ local_interfaces c).
  { intros Hne. destruct (RM.IsInternalNetId id) eqn:Ei; [by apply Ha2|]. unfold local_interfaces. destruct (networks_ c !! LOCAL_NET_ID) as [nl|] eqn:El; [|by apply not_elem_of_nil].
    by apply (guard_other id i c (wf_unique _ _ Hw) Eg LOCAL_NET_ID nl El). }
  destruct (wf_net _ _ Hw id n Hn) as (_ & _ & Hnd & Hoks & Hk).
  destruct (decide (i ∈ interfaces_ n)) as [Hi|Hi].
  { assert (Ea : exists ret, AddInterface pid CreateVpnInterface i n w0 = (ret, n, w0)).
    { unfold AddInterface, add_physical, add_local, ExistInterface. destruct (kind n); [|done|]; rewrite bool_decide_true by done; by eexists. }
    destruct Ea as [ret Ea]. rewrite Ea in E. injection E as <- <- <-.
    destruct (IsPhysical n && negb (IsVirtualInterface i)); rewrite put_same by done; [by apply Inv_names|done]. }
  destruct (AddInterface_tracks c w0 id n i Hinv0 Hn Hi Hok Hloc) as (ret & n' & w1 & Ea & Hcase). rewrite Ea in E. injection E as <- <- <-.
  assert (Enames : exists names, put id n' (if IsPhysical n && negb (IsVirtualInterface i) then set_names (<[id:=i]> (physicalInterfaceName_ c)) c else c) =
    set_names names (put id n' c)).
  { destruct (IsPhysical n && negb (IsVirtualInterface i)); [by eexists|]. exists (physicalInterfaceName_ c). by destruct c. }
  destruct Enames as [names En]. rewrite En in Hu |- *. clear En. destruct Hcase as [[-> H1]|(-> & Hx & Hc & H1)]; [rewrite put_same by done; by apply Inv_names|].
  split; [|done]. apply (Wf_interfaces c (routes w)); try done.
  - rewrite (set_insert_Permutation i _ Hi). by constructor.
  - rewrite (set_insert_Permutation i _ Hi). by constructor.
  - intros Hp. rewrite (set_insert_Permutation i _ Hi). constructor; [by apply Hx|]. destruct (IsPhysical_kind n Hp) as (d & p & Ek). rewrite Ek in Hk. by destruct Hk as (_ & _ & ?).
  - intros j [->|Hj]%set_insert_elem Hne; [by apply Hloc|]. intros Hl. apply Hne. by apply (wf_local _ _ Hw id n j).
  - intros j m x Hm Hj Hxm Hid [->|Hxn]%set_insert_elem; [apply Hj; rewrite Hid; by apply (Ha1 Hid j m)|].
    apply Hj. rewrite Hid. apply (wf_local _ _ Hw j m x Hm Hxm). unfold local_interfaces. subst id. by rewrite Hn.
  - destruct (wf_left _ _ Hw) as [_ Hfit]. unfold left_fits, put. cbn [networks_ set_networks]. intros j t p id' m d q Hb [[<- <-]|[_ Hm]]%lookup_insert_Some Hkm; [|by eapply Hfit].
    cbn [interfaces_ set_interfaces]. intros [->|Hj]%set_insert_elem ->; [by eapply (Ha3 n)|by eapply Hfit].
Qed.

Lemma exec_RemoveInterface id i c w r c' w' : Inv c w ->
  RemoveInterfaceFromNetwork pid rest loaded DestroyVpnInterface id i c w = (r, c', w') -> Inv c' w'.
Proof.
  intros Hinv E. pose proof Hinv as [Hw HL].
  pose proof (unique_shrinks _ _ (RemoveInterfaceFromNetwork_shrinks pid rest loaded DestroyVpnInterface id i c w r c' w' E) (wf_unique _ _ Hw)) as Hu.
  unfold RemoveInterfaceFromNetwork in E. destruct (_ || _); [by injection E as <- <- <-|].
  destruct (networks_ c !! id) as [n|] eqn:Hn; [|by injection E as <- <- <-]. destruct (wf_net _ _ Hw id n Hn) as (_ & _ & Hnd & Hoks & Hk).
  assert (Enames : forall n', exists names, (if IsPhysical n && negb (IsVirtualInterface i) then set_names (delete id (physicalInterfaceName_ c)) (put id n' c) else put id n' c) =
    set_names names (put id n' c)).
  { intros n'. destruct (IsPhysical n && negb (IsVirtualInterface i)); [by eexists|]. exists (physicalInterfaceName_ c). by destruct c. }
  destruct (decide (i ∈ interfaces_ n)) as [Hi|Hi].
  2:{ assert (Er : exists ret, RemoveInterface pid rest DestroyVpnInterface i n w = (ret, n, w)).
      { unfold RemoveInterface, remove_physical, remove_local, ExistInterface. destruct (kind n); [|done|]; rewrite bool_decide_false by done; by eexists. }
      destruct Er as [ret Er]. rewrite Er in E. injection E as <- <- <-. destruct (Enames n) as [names ->]. rewrite put_same by done. apply Inv_names. by split. }
  destruct (RemoveInterface_tracks c w id n i Hinv Hn Hi) as (ret & w1 & Er & Hc & H1). rewrite Er in E. injection E as <- <- <-.
  destruct (Enames (set_interfaces (set_erase i (interfaces_ n)) n)) as [names Ec]. rewrite Ec in *. split; [|done].
  apply (Wf_interfaces c (routes w)); try done.
  - by apply NoDup_filter.
  - by apply Forall_erase.
  - intros Hp. apply Forall_erase. destruct (IsPhysical_kind n Hp) as (d & p & Ek). rewrite Ek in Hk. by destruct Hk as (_ & _ & ?).
  - intros j [_ Hj]%set_erase_elem Hne Hl. apply Hne. by apply (wf_local _ _ Hw id n j).
  - intros j m x Hm Hj Hxm Hid [_ Hxn]%set_erase_elem. apply Hj. rewrite Hid. apply (wf_local _ _ Hw j m x Hm Hxm). unfold local_interfaces. subst id. by rewrite Hn.
  - destruct (wf_left _ _ Hw) as [_ Hfit]. apply (left_fits_sub c); [|done]. unfold put. cbn [networks_ set_networks]. intros j m d q x [[<- <-]|[_ Hm]]%lookup_insert_Some Hkm; [|by exists m, d].
    intros [_ Hx]%set_erase_elem. by exists n, d.
Qed.

End Networks.

(** ** Every reachable state *)

Section Runs.
Context (loaded : bool) (CreateVpnInterface : K -> Z * K) (DestroyVpnInterface : K -> K).
Abbreviation World := (World (K := K)).
Implicit Types (w : World) (c : ConnManager) (n : NetsysNetwork).

(** The rules a network leaves behind when it is destroyed: those for sockets that
    chose it and for packets bound to its interfaces. *)
Definition left_by c (op : Op) : list RM.FibRule :=
  match op with
  | OpDestroy id =>
    match networks_ c !! id with
    | Some n => match kind n with PhysicalNetwork _ p => net_rules (set_kind (PhysicalNetwork false p) n) | _ => [] end
    | None => []
    end
  | _ => []
  end.

(** The rules in the kernel after a network went. *)
Lemma Destroy_tracks L c w id n d p : Inv L c w -> networks_ c !! id = Some n -> kind n = PhysicalNetwork d p ->
  let w' := if defaultNetId_ c =? id then (RemoveDefault pid n w).2 else w in
  cache_ok (local_interfaces c) (routes w') /\
  tracks (kern w') ((L ++ net_rules (set_kind (PhysicalNetwork false p) n)) ++ expected (delete id (networks_ c))).
Proof.
  intros [Hw HL] Hn Hk w'. subst w'. destruct (Z.eqb_spec (defaultNetId_ c) id) as [E|E].
  - destruct (RemoveDefault_tracks L c _ id n w (networks_ c) Hw E Hn ltac:(unfold IsPhysical; by rewrite Hk) Hn (all_shaped L c _ Hw)
      (wf_cache _ _ _ Hw) HL) as (p' & Hk' & _ & Hc & HL'). assert (p' = p) as -> by congruence. rewrite expected_put, app_assoc in HL'. by split.
  - assert (d = false) as -> by (rewrite (physical_flag L c _ id n d p Hw Hn Hk); by apply is_id_ne). rewrite (set_kind_id n _ Hk).
    rewrite (expected_lookup _ id n Hn), app_assoc in HL. split; [apply Hw|done].
Qed.

(** What it left is of no use to the others. *)
Lemma left_by_ok L c s id n d p : Wf L c s -> networks_ c !! id = Some n -> kind n = PhysicalNetwork d p ->
  let R := net_rules (set_kind (PhysicalNetwork false p) n) in
  Forall left_rule R /\ forall c', networks_ c' = delete id (networks_ c) -> left_fits R c'.
Proof.
  intros Hw Hn Hk R. destruct (wf_net _ _ _ Hw id n Hn) as (Eid & Hid & _ & Hok & Hk'). rewrite Hk in Hk'. destruct Hk' as (_ & _ & Hx). rewrite Forall_forall in Hok, Hx.
  assert (HR : forall y, y ∈ R -> exists i, i ∈ interfaces_ n /\ (y = Fex id (net_table id i) p \/ y = Fout i (net_table id i) p)).
  { intros y. unfold R, net_rules. cbn [kind set_kind interfaces_ netId_]. rewrite Eid. intros (i & Hy & Hi)%list_elem_of_bind. exists i. split; [done|].
    unfold iface_rules in Hy. rewrite !elem_of_cons in Hy. destruct Hy as [?|[?|Hy]]; [by left|by right|by apply not_elem_of_nil in Hy]. }
  split.
  - apply Forall_forall. intros y (i & Hi & [->| ->])%HR; [left; exists id, (net_table id i), p; split; [lia|reflexivity]|]. right. eexists _, _, _. split; [by apply Hok|]. split; [|reflexivity].
    destruct (net_table_range id i (Hx i Hi)) as (_ & H1 & H2). unfold RM.ROUTE_LOCAL_NETWORK_TABLE. destruct (RM.IsInternalNetId id); [specialize (H1 eq_refl)|specialize (H2 eq_refl)]; lia.
  - intros c' Ec i t q id' n' d' q' Hy Hn' Hk'' Hi' Ht. rewrite Ec in Hn'. apply lookup_delete_Some in Hn' as [Hne Hn']. exfalso.
    destruct (wf_net _ _ _ Hw id' n' Hn') as (_ & _ & _ & Hok' & _). rewrite Forall_forall in Hok'.
    apply HR in Hy as (j & Hj & [E|E]); [by apply (f_equal RM.f_priority) in E|]. destruct (Fout_inj _ _ _ _ _ _ (Hok' i Hi') (Hok j Hj) E) as [-> Et].
    apply Hne. symmetry. apply (table_network L c s id n id' n' i); [done..|by apply Hx|congruence].
Qed.

Lemma exec_Destroy L id c w r c' w' : Inv L c w ->
  DestroyNetwork pid id c w = (r, c', w') -> Inv (L ++ left_by c (OpDestroy id)) c' w'.
Proof.
  intros [Hw HL]. unfold DestroyNetwork, left_by. destruct (Z.eqb_spec id LOCAL_NET_ID) as [E0|E0].
  { intros [= <- <- <-]. destruct (networks_ c !! id) as [n|] eqn:Hn; [|by rewrite app_nil_r]. destruct (wf_net _ _ _ Hw id n Hn) as (_ & _ & _ & _ & Hk).
    destruct (kind n); [by destruct Hk|done|by rewrite app_nil_r]. }
  destruct (networks_ c !! id) as [n|] eqn:Hn.
  2:{ intros [= <- <- <-]. rewrite delete_id, app_nil_r by done. by destruct c. }
  destruct (wf_net _ _ _ Hw id n Hn) as (_ & Hid & _ & _ & Hk). destruct (kind n) as [d p| |] eqn:Ek; [|done..].
  assert (Hp : IsPhysical n = true) by (unfold IsPhysical; by rewrite Ek).
  destruct (Destroy_tracks L c w id n d p (conj Hw HL) Hn Ek) as [Hc' HL'].
  destruct (left_by_ok L c _ id n d p Hw Hn Ek) as [Hb' Hf'].
  set (D := if defaultNetId_ c =? id then 0 else defaultNetId_ c). set (R := net_rules _) in *.
  intros E. assert (E' : c' = mkConnManager D (needReinitRouteFlag_ c) (physicalInterfaceName_ c) (delete id (networks_ c)) /\
    w' = if defaultNetId_ c =? id then (RemoveDefault pid n w).2 else w).
  { unfold D. destruct (defaultNetId_ c =? id); [rewrite Hp in E|]; injection E as <- <- <-; by destruct c. }
  clear E. destruct E' as [-> ->]. split; [|done]. pose proof Hw as [Hnet Hd [Hk' Hu] Hl Hc Hr [Hb Hfit]].
  assert (El : local_interfaces (mkConnManager D (needReinitRouteFlag_ c) (physicalInterfaceName_ c) (delete id (networks_ c))) = local_interfaces c).
  { unfold local_interfaces. cbn [networks_]. by rewrite lookup_delete_ne. }
  split; rewrite ?El; cbn [networks_ defaultNetId_ needReinitRouteFlag_]; try done.
  - intros j m [Hj Hm]%lookup_delete_Some. destruct (Hnet j m Hm) as (F1 & F2 & F3 & F4 & F5). split; [done|]. split; [done|]. split; [done|]. split; [done|].
    destruct (kind m); try done. destruct F5 as (? & -> & ?). split; [done|]. split; [|done]. cbn [defaultNetId_]. unfold D.
    destruct (Z.eqb_spec (defaultNetId_ c) id); [|done]. rewrite !bool_decide_eq_false_2 by lia. done.
  - unfold D. destruct (Z.eqb_spec (defaultNetId_ c) id); [done|]. intros E1. destruct (Hd E1) as (m & Em & ?). exists m. by rewrite lookup_delete_ne.
  - apply (unique_shrinks c); [|done]. exact (shrinks_delete id c).
  - intros j m i [_ Hm]%lookup_delete_Some. by apply Hl.
  - split; [by apply Forall_app|]. intros i t q id' n' d' q' [Hy|Hy]%elem_of_app; [|by eapply Hf'].
    cbn [networks_]. intros [_ Hm]%lookup_delete_Some. by eapply Hfit.
Qed.

(** The calls of the theorems.  A physical network gets a number of 16 bits, other
    than 0 and 99 (the local network) and not in use.  A network that exists (or 0)
    is made the default one.  An interface has a name of the kernel, is not both in
    the local network and in another, and where rules for packets bound to it were
    left by a destroyed network, goes to a network of the same permission.  Virtual
    networks and the reinitialization of the routes are left out. *)
Definition allowed (L : list RM.FibRule) c (op : Op) : Prop :=
  match op with
  | OpCreatePhysical id _ => 0 < id < 2 ^ 16 /\ id <> LOCAL_NET_ID /\ networks_ c !! id = None
  | OpSetDefault id => id = 0 \/ is_Some (networks_ c !! id)
  | OpDestroy _ | OpClearDefault | OpRemoveInterface _ _ => True
  | OpAddInterface id i _ => RM.name_ok i /\
      (id = LOCAL_NET_ID -> forall j m, networks_ c !! j = Some m -> i ∈ interfaces_ m -> j = LOCAL_NET_ID) /\
      (RM.IsInternalNetId id = true -> i ∉ local_interfaces c) /\
      (forall n d q p, networks_ c !! id = Some n -> kind n = PhysicalNetwork d q -> Fout i (net_table id i) p ∈ L -> Fout i (net_table id i) p = Fout i (net_table id i) q)
  | _ => False
  end.

(** A call, with the rules that destroyed networks left. *)
Inductive step : list RM.FibRule * (ConnManager * World) -> list RM.FibRule * (ConnManager * World) -> Prop :=
| step_op op L c w : allowed L c op ->
    step (L, (c, w)) (L ++ left_by c op, exec_state pid rest loaded CreateVpnInterface DestroyVpnInterface op (c, w)).

Lemma step_Inv B x y : (forall i t p, Fout i t p ∉ B) -> step x y -> Inv (B ++ x.1) x.2.1 x.2.2 -> Inv (B ++ y.1) y.2.1 y.2.2.
Proof.
  intros HB [op L c w Ha] Hinv. unfold exec_state. destruct (exec _ _ _ _ _ op (c, w)) as [[r c'] w'] eqn:E. cbn [fst snd] in *. rewrite app_assoc.
  destruct op; cbn [allowed exec] in *; try done; try (by eapply exec_Destroy); cbn [left_by]; rewrite app_nil_r.
  - destruct Ha as (Hid & Hne & Hn). rewrite (wrap_small 16) in E by (unfold in_width; lia). by eapply exec_Create.
  - by eapply exec_SetDefault.
  - by eapply exec_ClearDefault.
  - destruct Ha as (H1 & H2 & H3 & H4). eapply exec_AddInterface; [done..| |done]. intros n d q p Hn Hk [Hy|Hy]%elem_of_app; [by apply HB in Hy|by eapply H4].
  - by eapply exec_RemoveInterface.
Qed.

Lemma steps_Inv B x y : (forall i t p, Fout i t p ∉ B) -> rtc step x y -> Inv (B ++ x.1) x.2.1 x.2.2 -> Inv (B ++ y.1) y.2.1 y.2.2.
Proof. intros HB. induction 1 as [|x y z Hs Hr IH]; [done|]. intros Hx. by apply IH, (step_Inv B x). Qed.

Lemma start_not_out initDir i t p : Fout i t p ∉ start_rules initDir.
Proof. unfold start_rules. destruct initDir; [by intros ?%list_elem_of_singleton|apply not_elem_of_nil]. Qed.

Lemma new_Inv initDir w : RM.interfaceToTable_ (routes w) = ∅ -> tracks (kern w) (start_rules initDir) -> Inv (start_rules initDir ++ []) new_ConnManager w.
Proof.
  intros Hc HL. rewrite app_nil_r. split; [|by rewrite app_nil_r]. split; cbn [new_ConnManager networks_ defaultNetId_ needReinitRouteFlag_]; try done.
  - intros id n [<- <-]%lookup_singleton_Some. split; [done|]. split; [unfold LOCAL_NET_ID; lia|]. split; [constructor|]. split; [constructor|]. done.
  - split; cbn [new_ConnManager networks_]; [by intros id n [<- _]%lookup_singleton_Some|].
    by intros id1 n1 id2 n2 i [<- _]%lookup_singleton_Some [<- _]%lookup_singleton_Some.
  - by intros id n i [<- _]%lookup_singleton_Some.
  - intros i t. by rewrite Hc, lookup_empty.
  - split; [|intros i t p id n d q Hy; by apply start_not_out in Hy]. unfold start_rules. destruct initDir; [|done].
    apply Forall_singleton. left. exists RM.LOCAL_NET_ID, RM.ROUTE_LOCAL_NETWORK_TABLE, RM.PERMISSION_NONE. split; [unfold RM.LOCAL_NET_ID; lia|reflexivity].
Qed.

Lemma reached_Inv initDir w L c' w' : RM.interfaceToTable_ (routes w) = ∅ -> tracks (kern w) (start_rules initDir) ->
  rtc step ([], (new_ConnManager, w)) (L, (c', w')) -> Inv (start_rules initDir ++ L) c' w'.
Proof. intros Hc HL Hr. exact (steps_Inv (start_rules initDir) _ _ (start_not_out initDir) Hr (new_Inv initDir w Hc HL)). Qed.

(** C5: after any run of the calls that [allowed] lists, the rules of the networks in
    the kernel are those that the networks call for, each once, those set up at the
    start, and those left by networks that were destroyed while they had interfaces
    ([left_by], none where the interfaces were removed first).  The conditions of
    the calls: a physical network is created with an unused number in 1..65535
    other than that of the local network, the network made the default one exists
    (or is 0), an interface has a name of the kernel, is not both in the local
    network and another, and is not given to a network of another permission than
    the rules left for it; no virtual networks and no reinitialization of the
    routes.  The kernel takes the messages ([FibLaws]).  For what the other calls
    do see [destroy_leaves_rules] and [default_before_create]. *)
Theorem rules_track_networks initDir w L c' w' f : RM.interfaceToTable_ (routes w) = ∅ -> tracks (kern w) (start_rules initDir) ->
  rtc step ([], (new_ConnManager, w)) (L, (c', w')) -> RM.is_family f ->
  filter managed (RM.fib f (kern w')) ≡ₚ start_rules initDir ++ L ++ expected (networks_ c').
Proof.
  intros Hc HL Hr Hf. destruct (reached_Inv initDir w L c' w' Hc HL Hr) as [_ H]. rewrite app_assoc. by apply H.
Qed.

(** ** Which network a packet takes *)

(** The rule applies to a packet with this mark. *)
Definition mark_selects (mark : Z) (y : RM.FibRule) : Prop := Z.land mark (RM.f_mask y) = RM.f_mark y.

Lemma mark_selects_explicit id b q b' id' t p : 0 <= id < 2 ^ 16 -> 0 <= id' < 2 ^ 16 ->
  mark_selects (RM.intValue (RM.mkFwmark id true b q b')) (Fex id' t p) -> id' = id /\ Z.land (q mod 4) (p mod 4) = p mod 4.
Proof.
  intros Hid Hid' Hm. unfold mark_selects, Fex, RM.rule_of in Hm. cbn [RM.f_mask RM.f_mark RM.explicit_rule RM.ruleMask RM.ruleFwmark] in Hm.
  pose proof (Z.mod_pos_bound q 4 ltac:(lia)). pose proof (Z.mod_pos_bound p 4 ltac:(lia)). revert Hm. unfold RM.intValue.
  cbn [RM.fw_netId RM.explicitlySelected RM.protectedFromVpn RM.fw_permission RM.uidBillingDone Z.b2z]. change (u16 RM.FWMARK_NET_ID_MASK) with 65535. rewrite !wrap_small by done.
  generalize dependent (q mod 4). generalize dependent (p mod 4). intros p' Hp' q' Hq'.
  rewrite (proj2 (Z.eqb_neq _ 0)) by lia. set (a := id + _ + _ + _ + _). set (m := 65535 + _ + _ + _ + _). intros Hm.
  assert (Elow : a mod 2 ^ 16 = id) by (unfold a; div_mod_lia). assert (Ehigh : a / 2 ^ 16 = 1 + 2 * Z.b2z b + 4 * q' + 16 * Z.b2z b') by (unfold a; div_mod_lia).
  assert (Mlow : m mod 2 ^ 16 = Z.ones 16) by (unfold m; change (Z.ones 16) with 65535; div_mod_lia). assert (Mhigh : m / 2 ^ 16 = 1 + 4 * p') by (unfold m; div_mod_lia).
  split.
  - assert (E : Z.land a m mod 2 ^ 16 = id) by (rewrite <- !Z.land_ones in * by lia; by rewrite <- Z.land_assoc, Mlow).
    rewrite Hm in E. rewrite <- E. div_mod_lia.
  - assert (E : Z.land (a / 2 ^ 16) (m / 2 ^ 16) = 1 + 4 * p') by (rewrite <- !Z.shiftr_div_pow2, <- Z.shiftr_land, Hm, Z.shiftr_div_pow2 by lia; div_mod_lia).
    rewrite Ehigh, Mhigh in E. assert (q' = 0 \/ q' = 1 \/ q' = 2 \/ q' = 3) as Hq by lia. assert (p' = 0 \/ p' = 1 \/ p' = 2 \/ p' = 3) as Hp by lia.
    clear -E Hq Hp. destruct Hq as [->|[->|[->| ->]]], Hp as [->|[->|[->| ->]]], b, b'; vm_compute in E |- *; congruence.
Qed.

(** C12: after any run of the calls that [allowed] lists (with the conditions of
    [rules_track_networks]), a rule that applies to a socket that chose a physical
    network leads to an interface of that network and asks for the permission the
    network asks for, unless it was left by a network destroyed while it had
    interfaces; the rules for packets that chose no network lead only to the
    interfaces of the default network. *)
Theorem packets_stay_in_network initDir w L c' w' f y : RM.interfaceToTable_ (routes w) = ∅ -> tracks (kern w) (start_rules initDir) ->
  rtc step ([], (new_ConnManager, w)) (L, (c', w')) -> RM.is_family f -> y ∈ RM.fib f (kern w') ->
  (forall id b q b', RM.f_priority y = RM.RULE_LEVEL_EXPLICIT_NETWORK -> 0 < id < 2 ^ 16 -> id <> LOCAL_NET_ID ->
     mark_selects (RM.intValue (RM.mkFwmark id true b q b')) y -> y ∈ L \/
     exists n d p i, networks_ c' !! id = Some n /\ kind n = PhysicalNetwork d p /\ i ∈ interfaces_ n /\ RM.f_table y = net_table id i /\
       Z.land (q mod 4) (p mod 4) = p mod 4) /\
  (RM.f_priority y = RM.RULE_LEVEL_DEFAULT ->
     exists n p i, networks_ c' !! defaultNetId_ c' = Some n /\ kind n = PhysicalNetwork true p /\ i ∈ interfaces_ n /\ RM.f_table y = table_of i).
Proof.
  intros Hc HL Hr Hf Hy. destruct (reached_Inv initDir w L c' w' Hc HL Hr) as [Hw Ht].
  assert (Hm : managed y -> y ∈ (start_rules initDir ++ L) ++ expected (networks_ c')) by (intros Hm; rewrite <- (Ht f Hf); by apply list_elem_of_filter).
  assert (Hstart : y ∈ start_rules initDir -> y = Fex LOCAL_NET_ID RM.ROUTE_LOCAL_NETWORK_TABLE RM.PERMISSION_NONE).
  { unfold start_rules. destruct initDir; [by intros ?%list_elem_of_singleton|by intros ?%not_elem_of_nil]. }
  split.
  - intros id b q b' Hp Hid Hne Hs. apply elem_of_app in Hm as [[Hm|Hm]%elem_of_app|Hm]; [|by left| |by left].
    + apply Hstart in Hm as ->. apply mark_selects_explicit in Hs as [? _]; [done|lia|unfold LOCAL_NET_ID; lia].
    + destruct (elem_expected _ _ _ y Hw Hm) as (id' & n & i & Hn & Hi & _ & [(d & p & Hk & Hid' & _ & _ & [->|[->| ->]])|(_ & ->)]); [|done..].
      apply mark_selects_explicit in Hs as [-> Hq]; [|lia|lia]. right. by exists n, d, p, i.
  - intros Hp. apply elem_of_app in Hm as [Hm|Hm]; [| |by right; right].
    { destruct (wf_left _ _ _ Hw) as [Hl _]. rewrite Forall_forall in Hl. by destruct (Hl y Hm) as [(? & ? & ? & _ & ->)|(? & ? & ? & _ & _ & ->)]. }
    unfold expected in Hm. apply list_elem_of_bind in Hm as ([id n] & Hm & Hn). apply elem_of_map_to_list in Hn. cbn [snd] in Hm.
    destruct (wf_net _ _ _ Hw id n Hn) as (Ei & _ & _ & _ & Hk). unfold net_rules in Hm. destruct (kind n) as [d p|? ?|] eqn:Ek; [|done|].
    2:{ apply list_elem_of_fmap in Hm as (i & -> & _). done. }
    apply list_elem_of_bind in Hm as (i & Hm & Hi). destruct Hk as (_ & Hd & _). unfold iface_rules in Hm. rewrite !elem_of_cons in Hm. destruct Hm as [->|[->|Hm]]; [done..|].
    destruct d; [|by apply not_elem_of_nil in Hm]. apply list_elem_of_singleton in Hm as ->. symmetry in Hd. apply bool_decide_eq_true in Hd.
    exists n, p, i. by rewrite Hd.
Qed.

(** The calls of a list, each allowed where it is made, and what they leave. *)
Fixpoint all_allowed (ops : list Op) (L : list RM.FibRule) (cw : ConnManager * World) : Prop :=
  match ops with
  | [] => True
  | op :: ops => allowed L cw.1 op /\ all_allowed ops (L ++ left_by cw.1 op) (exec_state pid rest loaded CreateVpnInterface DestroyVpnInterface op cw)
  end.

Fixpoint left_behind (ops : list Op) (L : list RM.FibRule) (cw : ConnManager * World) : list RM.FibRule :=
  match ops with
  | [] => L
  | op :: ops => left_behind ops (L ++ left_by cw.1 op) (exec_state pid rest loaded CreateVpnInterface DestroyVpnInterface op cw)
  end.

Lemma runs_steps ops : forall L cw, all_allowed ops L cw ->
  rtc step (L, cw) (left_behind ops L cw, runs pid rest loaded CreateVpnInterface DestroyVpnInterface ops cw).
Proof. induction ops as [|op ops IH]; intros L [c w] Ha; [done|]. destruct Ha as [Ha Hr]. eapply rtc_l; [by apply step_op|]. by apply IH. Qed.

End Runs.
End Tracks.

(** ** A kernel *)

(** The rules with their families, and three interfaces. *)
Abbreviation Sim := (list (Z * RM.FibRule)).

Definition sim_matches (b : bytes) (x : Z * RM.FibRule) : bool := (x.1 =? RM.rule_family b) && RM.matches (RM.read_rule b) x.2.
Fixpoint sim_remove (b : bytes) (l : Sim) : Sim :=
  match l with [] => [] | x :: l => if sim_matches b x then l else x :: sim_remove b l end.

Definition sim_indices : list (string * Z) := [("wlan0", 3); ("rmnet0", 5); ("eth0", 7)].

#[export] Instance SimKernel : Kernel Sim := {
  transmit b k := (Z.max 1 (Z.min (Z.of_nat (length b)) (2 ^ 31 - 1)),
    if m_type b =? RTM_NEWRULE then (RM.rule_family b, RM.read_rule b) :: k else if m_type b =? RTM_DELRULE then sim_remove b k else k);
  replies _ _ := [];
  if_nametoindex i := from_option snd 0 (head (filter (fun x => x.1 = i) sim_indices)) }.

Definition sim_fib (f : Z) (k : Sim) : list RM.FibRule := (filter (fun x => x.1 = f) k).*2.

Lemma sim_fib_remove f b k : sim_fib f (sim_remove b k) = if f =? RM.rule_family b then RM.remove_first (RM.matches (RM.read_rule b)) (sim_fib f k) else sim_fib f k.
Proof.
  unfold sim_fib. destruct (Z.eqb_spec f (RM.rule_family b)) as [->|Hf]; (induction k as [|[g y] k IH]; [done|]);
    cbn [sim_remove]; unfold sim_matches; cbn [fst snd]; destruct (Z.eqb_spec g (RM.rule_family b)) as [->|Hg]; cbn [andb].
  - destruct (RM.matches _ y) eqn:Em; rewrite !filter_cons; cbn [fst]; rewrite !decide_True, !fmap_cons by done; cbn [RM.remove_first snd]; rewrite Em; [done|by rewrite IH].
  - rewrite !filter_cons. cbn [fst]. by rewrite !decide_False by done.
  - destruct (RM.matches _ y); rewrite !filter_cons; cbn [fst]; by rewrite !decide_False by congruence.
  - rewrite !filter_cons. cbn [fst]. case_decide; [|done]. by rewrite !fmap_cons, IH.
Qed.

#[export] Instance SimLaws : RM.FibLaws Sim.
Proof.
  refine {| RM.fib := sim_fib |}.
  - intros b k. cbn [fst transmit SimKernel]. lia.
  - intros b f k Ht _ _ _. cbn [snd transmit SimKernel]. rewrite Ht. cbn [Z.eqb Pos.eqb RTM_NEWRULE]. unfold sim_fib. rewrite filter_cons. cbn [fst].
    destruct (Z.eqb_spec f (RM.rule_family b)) as [->|Hf]; [by rewrite decide_True|by rewrite decide_False by congruence].
  - intros b f k Ht _ _. cbn [snd transmit SimKernel]. rewrite Ht. apply sim_fib_remove.
  - intros b f k H1 H2. cbn [snd transmit SimKernel]. by rewrite (proj2 (Z.eqb_neq _ _) H1), (proj2 (Z.eqb_neq _ _) H2).
Defined.

#[export] Instance SimIndex : RM.IndexLaws Sim.
Proof.
  assert (Hi : forall i, if_nametoindex (K := Sim) i = if decide ("wlan0" = i) then 3 else if decide ("rmnet0" = i) then 5 else if decide ("eth0" = i) then 7 else 0).
  { intros i. unfold if_nametoindex, SimKernel, sim_indices. rewrite !filter_cons. cbn [fst]. repeat case_decide; done. }
  split; intros i; rewrite Hi; repeat case_decide; try lia; subst; intros _; (split; [done|]; split; [unfold RM.IFNAMSIZ; cbn; lia|reflexivity]).
Defined.

Definition sim_world : World (K := Sim) := mkWorld (RM.mkRouteManager ∅ "" 0 "" "") [] NetsysRun.boot_kernel.
Definition no_tunnel (k : Sim) : Z * Sim := (0, k).

(** Wi-Fi is the default network, then cellular, and Wi-Fi goes away; a network is
    destroyed with its cable. *)
Definition sim_ops : list Op :=
  [OpCreatePhysical 100 RM.PERMISSION_NONE; OpAddInterface 100 "wlan0" 1; OpSetDefault 100;
   OpCreatePhysical 101 RM.PERMISSION_NETWORK; OpAddInterface 101 "rmnet0" 0; OpSetDefault 101;
   OpRemoveInterface 100 "wlan0"; OpDestroy 100;
   OpCreatePhysical 102 RM.PERMISSION_NONE; OpAddInterface 102 "eth0" 2; OpDestroy 102].

Definition sim_runs (ops : list Op) : ConnManager * World (K := Sim) := runs 1 (replicate 11 0) true no_tunnel (fun k => k) ops (new_ConnManager, sim_world).

Definition sim_left (ops : list Op) : list RM.FibRule := left_behind 1 (replicate 11 0) true no_tunnel (fun k => k) ops [] (new_ConnManager, sim_world).

Lemma sim_allowed : all_allowed 1 (replicate 11 0) true no_tunnel (fun k => k) sim_ops [] (new_ConnManager, sim_world).
Proof.
  assert (Hw : RM.name_ok "wlan0") by (split; [done|]; split; [unfold RM.IFNAMSIZ; cbn; lia|reflexivity]).
  assert (Hr : RM.name_ok "rmnet0") by (split; [done|]; split; [unfold RM.IFNAMSIZ; cbn; lia|reflexivity]).
  assert (He : RM.name_ok "eth0") by (split; [done|]; split; [unfold RM.IFNAMSIZ; cbn; lia|reflexivity]).
  assert (Hnew : forall id m, 0 < id < 2 ^ 16 -> (id =? LOCAL_NET_ID) = false -> m !! id = None -> 0 < id < 2 ^ 16 /\ id <> LOCAL_NET_ID /\ (m : gmap Z NetsysNetwork) !! id = None).
  { intros id m Hid Hne Hm. split; [done|]. split; [by apply Z.eqb_neq|done]. }
  unfold sim_ops. cbn [all_allowed allowed].
  do 2 (split; [apply Hnew; [lia|reflexivity|vm_compute; reflexivity]|];
    split; [split; [assumption|]; split; [intros E; exfalso; clear -E; vm_compute in E; discriminate E|]; split;
      [intros E; exfalso; clear -E; vm_compute in E; discriminate E|intros n d q p _ _ Hy; by apply not_elem_of_nil in Hy]|];
    split; [right; vm_compute; eexists; reflexivity|]).
  do 2 (split; [exact I|]).
  split; [apply Hnew; [lia|reflexivity|vm_compute; reflexivity]|].
  split; [|by split]. split; [assumption|]. split; [intros E; exfalso; clear -E; vm_compute in E; discriminate E|]. split;
    [intros E; exfalso; clear -E; vm_compute in E; discriminate E|]. intros n d q p _ _ Hy. exfalso. revert Hy.
  match goal with |- ?y ∈ ?L -> _ => assert (L = []) as -> by (vm_compute; reflexivity) end. apply not_elem_of_nil.
Qed.

Lemma sim_steps : rtc (step 1 (replicate 11 0) true no_tunnel (fun k => k)) ([], (new_ConnManager, sim_world)) (sim_left sim_ops, ((sim_runs sim_ops).1, (sim_runs sim_ops).2)).
Proof. destruct (sim_runs sim_ops) as [c w] eqn:E. cbn [fst snd]. rewrite <- E. apply runs_steps, sim_allowed. Qed.

(** The rules at the end are those of cellular and what the destroyed network left. *)
Lemma rules_track_networks_witness : filter managed (sim_fib AF_INET (kern (sim_runs sim_ops).2)) ≡ₚ
  iface_rules (K := Sim) 102 false RM.PERMISSION_NONE "eth0" ++ iface_rules (K := Sim) 101 true RM.PERMISSION_NETWORK "rmnet0".
Proof.
  assert (H0 : filter managed (sim_fib AF_INET (kern (sim_runs sim_ops).2)) ≡ₚ start_rules false ++ sim_left sim_ops ++ expected (K := Sim) (networks_ (sim_runs sim_ops).1)).
  { exact (rules_track_networks 1 (replicate 11 0) true no_tunnel (fun k => k) false sim_world _ _ _ AF_INET eq_refl ltac:(by intros f _) sim_steps ltac:(by left)). }
  rewrite H0. vm_compute. reflexivity.
Defined.

(** A socket with the number of the cellular network. *)
Lemma packets_stay_in_network_witness :
  let y := Fex 101 (net_table (K := Sim) 101 "rmnet0") RM.PERMISSION_NETWORK in
  y ∈ sim_fib AF_INET (kern (sim_runs sim_ops).2) /\ (y ∈ sim_left sim_ops \/
  exists n d p i, networks_ (sim_runs sim_ops).1 !! 101 = Some n /\ kind n = PhysicalNetwork d p /\ i ∈ interfaces_ n /\
    RM.f_table y = net_table (K := Sim) 101 i /\ Z.land (RM.PERMISSION_SYSTEM mod 4) (p mod 4) = p mod 4).
Proof.
  intros y. assert (Hy : y ∈ sim_fib AF_INET (kern (sim_runs sim_ops).2)).
  { apply (list_elem_of_lookup_2 _ 4). vm_compute. reflexivity. }
  split; [exact Hy|].
  destruct (packets_stay_in_network 1 (replicate 11 0) true no_tunnel (fun k => k) false sim_world _ _ _ AF_INET y
    eq_refl ltac:(by intros f _) sim_steps ltac:(by left) Hy) as [H _].
  apply (H 101 false RM.PERMISSION_SYSTEM false); [reflexivity|lia|discriminate|vm_compute; reflexivity].
Defined.

(** ** What the calls do not do *)

Definition priorities (k : Sim) : list Z := RM.f_priority <$> sim_fib AF_INET k.

(** A network destroyed with an interface leaves the rules of the interface. *)
Example destroy_leaves_rules :
  let cw := sim_runs [OpCreatePhysical 100 0; OpAddInterface 100 "wlan0" 1; OpDestroy 100] in
  networks_ cw.1 !! 100 = None /\ priorities (kern cw.2) = [RM.RULE_LEVEL_OUTPUT_INTERFACE; RM.RULE_LEVEL_EXPLICIT_NETWORK].
Proof. vm_compute. split; reflexivity. Qed.

(** A network made the default one before it is created never gets the rules of
    the default network, although the calls succeed. *)
Example default_before_create :
  let cw := sim_runs [OpSetDefault 100; OpCreatePhysical 100 0; OpAddInterface 100 "wlan0" 1; OpSetDefault 100] in
  GetDefaultNetwork cw.1 = 100 /\ priorities (kern cw.2) = [RM.RULE_LEVEL_OUTPUT_INTERFACE; RM.RULE_LEVEL_EXPLICIT_NETWORK].
Proof. vm_compute. split; reflexivity. Qed.

(** Changing the permission of a network leaves the rules as they were. *)
Example permission_unchanged :
  let '(_, (s, k)) := RM.AddInterfaceToPhysicalNetwork 1 100 "wlan0" RM.PERMISSION_NONE (RM.mkRouteManager ∅ "" 0 "" "") ([] : Sim) in
  let '(ret, (_, k')) := RM.ModifyPhysicalNetworkPermission 1 100 "wlan0" RM.PERMISSION_NONE RM.PERMISSION_SYSTEM s k in
  ret = 0 /\ k' = k.
Proof. vm_compute. split; reflexivity. Qed.

(** A rule for an address that cannot be read is not sent, and reported as set. *)
Example bad_address_accepted :
  RM.UpdateDistributedRule 1 (fun _ _ => None) RTM_NEWRULE RM.FR_ACT_TO_TBL (RM.server_rule RM.ROUTE_DISTRIBUTE_TO_CLIENT_TABLE "" "10.0.0.300")
    RM.INVALID_UID RM.INVALID_UID ([] : Sim) = (RM.NETMANAGER_SUCCESS, []).
Proof. vm_compute. reflexivity. Qed.

(** The mark and mask of a rule for enterprise routes are what the stack held: here
    the rule is refused. *)
Example enterprise_rule_garbage :
  (RM.UpdateEnterpriseRoute 1 1 0 "wlan0" 20010010 true (RM.mkRouteManager ∅ "" 0 "" "") ([] : Sim)).1 = RM.ROUTEMANAGER_ERROR.
Proof. vm_compute. reflexivity. Qed.

End NetRules.
